(* ===== verification/_CoqProject ===== *)
-Q . S2P
Prelude.v
JsStd.v
JsCollections.v
JsDate.v
JsEncoding.v
ContractHelpers.v
ChangeSetPlan.v
LunchBreakPolicy.v
LunchBreakPlacement.v
LunchBreaks.v
TimeZone.v
PayrollDates.v
PayrollRecords.v
JsDecoding.v
Paging.v
Database.v
FeatureEntitlement.v
Authority.v
ScheduleStore.v
ScheduleChanges.v
ScheduleLifecycle.v
DemandWindows.v
ScheduleCreate.v
ScheduleRefinement.v
LunchBreakStore.v
ShiftBreaks.v
SetupShifts.v
OperationsPages.v
OperationsLists.v
PagesRead.v
ScheduleBoard.v
Locations.v
ListContracts.v
LunchBreakGeneration.v
GenerationProtocol.v
TimeCardValidation.v
TimeCardPayroll.v
TimeCardStore.v
TimeCards.v
TimeCardClockIn.v
TimeCardOutcomes.v
TimeCardLists.v
PayrollStore.v
PayrollPolicies.v
PayrollReview.v
PayrollLock.v
PayrollAmendments.v
PayrollHistory.v
PayrollProtocol.v
PayrollOutcomes.v
PayrollExport.v
PayrollExportFacts.v
PayrollReads.v
LocationLists.v
Notifications.v
PayrollReconciliation.v
PayrollSettlement.v
SettlementOutcomes.v
