(* ===== verification/Prelude.v ===== *)
(** * LunchLineup: a verification development of its second API

    LunchLineup schedules shifts, places lunch breaks, keeps time cards and
    prepares payroll.  This library models the domain logic of apps/api-v2, the
    current service, as Rocq definitions that run, and proves what makes it
    correct.  This file is the root: the errors and results every other file
    uses, and the generic lemmas they share.

    ** How the program is put together, and where each part is

    A request reaches a handler of a service class with the identity of its
    session.  A handler prepares its authority, opens a tenant transaction in
    which the actor is authorised again, reads and writes through Prisma, and
    answers.  Transactions that meet a serialization conflict are retried once.
    Paths are under src/; "api-v2" stands for apps/api-v2/src.

    - The language and its library.  JsStd: texts, digits, safe integers.
      JsCollections: stable sorting with a comparator, insertion-ordered maps.
      JsDate: the proleptic Gregorian calendar of [Date], [toISOString] and
      [Date.parse].  JsEncoding: UTF-8 and base64url.  JsDecoding: their
      inverses, [JSON.parse], and that what was written is read back.
    - Errors (platform/problem.ts): [ProblemError], [Exn] and the [Result]
      monad, in this file.
    - The database (platform/database.ts, packages/db/prisma/schema.prisma):
      Database holds the rows as records, the tables as lists with their unique
      indexes ([Table]), and the monad [Tx] of the handlers, in which every call
      that leaves the process advances a tick at which the environment ([Env])
      decides the clock, fresh identifiers, failures of the driver and whether
      the session's authority still stands.
    - Authority (operations/operations.service.ts, platform/identity.ts):
      Authority has [scopeRun], the transaction a handler runs in.
    - Lists (operations/pagination.ts, operations/operations.service.ts and the
      lists of the other services): Paging has what they share, keys in an order
      ([KeyOrder]), rows past a cursor and a reader that follows the cursors over
      a changing table; OperationsPages the limits, windows, cursors and pages;
      OperationsLists the handlers [listSchedules], [listShifts], [staffRoster]
      and the break list; PagesRead the client that follows cursors to the end;
      ListContracts the response schemas.
    - Entitlement and credits (platform/feature-entitlement.ts,
      scheduling/entitlement.ts): FeatureEntitlement.
    - Scheduling (scheduling/): ContractHelpers (entity tags, keys, canonical
      JSON, instants), TimeZone (local midnights), ChangeSetPlan (the planner of
      a draft's changes), ScheduleStore (replays, locked rows, serialization),
      ScheduleChanges (the handler [apply]), ScheduleLifecycle ([reopen]),
      DemandWindows ([replace] and [list] of demand), ScheduleCreate ([create]),
      ScheduleBoard (the board's [get]), and
      ScheduleRefinement (the database after a change set refines the plan).
    - Lunch breaks (operations/lunch-breaks.service.ts, serialization.ts):
      LunchBreakPolicy, LunchBreakPlacement (the search), LunchBreaks (windows
      and payloads), LunchBreakStore (reads and receipts), ShiftBreaks (the
      policy and one shift's breaks), SetupShifts ([setupShifts], which moves,
      reassigns and creates shifts with their breaks), LunchBreakGeneration (the
      request that claims, computes, pays and stores), and GenerationProtocol
      (its transactions interleaved with those of others).
    - Time cards (time/): TimeCardValidation (corrections, notes, instants),
      TimeCardPayroll (the payroll period of a card), TimeCardStore (the scope,
      reads and serialization), TimeCards (the handlers [active], [get],
      [clockIn], [clockOut], [correct]), TimeCardClockIn (the outcome of a
      clock-in), TimeCardOutcomes (the handlers in any sequence), TimeCardLists
      ([list] and its cursors).
    - Payroll's pure domain (payroll/domain.ts): PayrollDates (dates, cadences,
      period boundaries) and PayrollRecords (locked snapshots, the export file,
      reconciliation, candidate cards, summaries, the retry of transactions).
    - The payroll service (payroll/payroll.service.ts): PayrollStore (scopes,
      identifiers, serialization, recorded answers), PayrollPolicies
      ([createPolicy], [latestPolicy], [createPeriod]), PayrollReview
      ([startReview], [adoptCards], [decideCards]), PayrollLock ([lockPeriod]),
      PayrollAmendments ([createAmendment], [decideAmendment]).  Over them,
      PayrollHistory has the step relation of payroll and time cards together
      and what never changes along it, PayrollProtocol the invariant
      [payrollSound], PayrollOutcomes the theorems and a sample run, and
      PayrollReads the reads [listPolicies], [listPeriods] and [getPeriod].
    - What follows a locked period (payroll/payroll.service.ts): PayrollExport
      ([createExport], [downloadExport], [getExport], [exportEntitlement], and
      the verification of lines, file and ledger), PayrollExportFacts (what each
      of them returns and writes), PayrollReconciliation ([reconcileExport]).
      PayrollSettlement adds them to the step relation ([settleStep]) and proves
      the invariant [exportSound]; SettlementOutcomes has the theorems and a
      sample run from the export to the accepted report.

    - Locations (locations/locations.service.ts): Locations ([create], [update],
      [remove], [get], [summary] and the resolution of identifiers) and
      LocationLists ([list] and its cursors).  Notifications
      (notifications/notifications.service.ts): Notifications ([list],
      [markRead], [markAllRead]).

    The handlers share the database: scheduling, breaks and time cards read the
    same tenants, users, locations and shifts; every billable handler settles
    through [debitFeatureCredit]; changes of breaks advance the revision that
    change sets are based on; time cards are assigned to payroll periods, which
    a review, a lock and later amendments turn into what is paid.

    ** What the theorems show

    - No double booking: applying a change set, in any environment, leaves no
      person with overlapping shifts, because the planner's result is
      overlap-free, its mutations realise it, and the handler writes exactly
      them (ChangeSetPlan, ScheduleRefinement); nor does setting up shifts, which
      leaves every row of the request in exactly one shift and moves each
      shift's breaks as far as its start (SetupShifts).  The schedules of a
      location never meet (ScheduleCreate).
    - Demand: replacing it changes exactly the windows of one draft, each of
      which starts in its schedule, and what was saved is what is listed
      (DemandWindows).
    - The board: it is answered with all of its location in the range and
      nothing else, and staff are shown only what is theirs (ScheduleBoard).
    - Writes happen once: a key answers every retry with its first result and
      changes nothing more (ScheduleChanges, ScheduleCreate, ShiftBreaks,
      SetupShifts, TimeCardOutcomes, Locations);
      a write based on an old revision is refused, and so is one on a board
      whose location has changed (Locations); a generation is charged once
      and its answer never changes, however its transactions interleave and
      whoever takes a claim over (GenerationProtocol).
    - Money: a credit is taken once per settlement, and wallets stay equal to
      the sums of their ledgers (FeatureEntitlement).
    - Time: the cards of a worker never overlap, an open one is unique, a card
      of a locked payroll period never changes, and each handler does exactly
      what its record of outcomes says (TimeCardOutcomes); the payroll policy
      in force is found by paging (TimeCardPayroll).
    - Pay: in every sequence of time-card and payroll requests a locked period
      pays each of its cards once, at the approved current revision, and each
      approved amendment once, and nothing else; nothing recorded is rewritten;
      periods never meet and policies take over one from the other; nobody
      decides about their own pay; recorded answers are final; and no correction
      leaves or puts a clock-in in a period that is no longer open
      (PayrollOutcomes).
    - Exports: a locked period is exported and charged once, its batch copies
      the locked entries, and no request rewrites it; a downloaded file reads
      back as what the period pays, and is refused when the evidence does not
      hold; a report of the provider is received once, states are the latest
      events, and a reconciled batch has every line accepted at its total
      (SettlementOutcomes).
    - Lists: whoever follows the cursors of a list, with any limits and whatever
      changes between the requests, is given rows in order, none twice, each as
      it was when its page was read, and misses none that stayed where it was
      (OperationsLists, TimeCardLists, PayrollReads); when nothing changes or
      fails the reading ends with exactly the list (PagesRead), and each answer
      keeps its contract (ListContracts).
    - Places and news: a location is created within the plan and keeps its time
      zone once a schedule was published there (Locations); the cursor of a
      location is read back exactly when its name is short enough
      (LocationLists); notifications are only ever marked as read
      (Notifications).
    - Algorithms against specifications: the placement search finds a best
      feasible choice of breaks (LunchBreakPlacement); the local-midnight search
      converges (TimeZone); locked snapshots do not depend on the order of
      their sources (PayrollRecords).

    ** Conventions, bounds and fuel

    - A text is a list of code units 0 to 255; a [Date] its milliseconds; a
      number an integer, safe where the source checks it; an optional property
      an [option], one that may also be null an [option] of an [option].
    - What the process does not decide is a class: the collation of
      [localeCompare] and of SQL text, SHA-256, [Intl], the process environment,
      the driver and the clock, the outcome of an authorisation, contract
      validation.  Theorems hold for all of them; where one needs a law, it is a
      hypothesis.
    - A transaction runs alone and atomically: locks are calls without effect,
      a failure rolls everything back, and the deferred exclusion constraint on
      time cards is checked at the commit.  In the time-card and payroll services
      a commit may also succeed and report an error; in the others a commit that
      reports an error has been rolled back.  Interleavings of whole
      transactions are steps of a relation (GenerationProtocol, TimeCardOutcomes,
      PayrollHistory, PayrollSettlement; a last rule lets the other services
      change what is not payroll's; identifiers the steps generate are taken not
      to be empty).
      A UUID column is compared with the lower-cased text of the request.  The other
      constraints and triggers of the database can only refuse a write, which
      a failure of the driver covers.
    - Loops whose end is not structural carry fuel: [guessLoop] the four
      attempts of its source, [retryLoop] its two, [policyLoop] a page more than
      there are policies, with a proof that it is enough; [showFuel] the digits
      of its number; [parseValue] more than the characters of its text
      ([parse_enough]); [followPages] a request more than there are rows.

    ** What is not modelled

    The resolution of roles and sessions inside an authorisation (any outcome is
    allowed instead), HTTP routes, metrics and start-up, the web application,
    the retained first API (apps/api), contract schemas beyond the shapes the
    handlers and lists use, and SQL triggers.  People, settings and quotas are
    services of their own, most of them over tables the model does not have, and
    the bridge that rewrites location identifiers for the first API belongs to
    it; they are left out, not simplified.  Scheduling, breaks, locations and
    notifications do not meet a lost acknowledgement of a commit. *)

From stdpp Require Export base list strings sorting gmap.
From Stdlib Require Export ZArith Lia.
From Stdlib Require Ascii String.

Export Ascii.AsciiSyntax.
Delimit Scope char_scope with char.
Notation ascii := Ascii.ascii.
Notation N_of_ascii := Ascii.N_of_ascii.
Notation ascii_of_N := Ascii.ascii_of_N.


Open Scope Z_scope.

(** ** Errors and results

    [ProblemError] is the class of apps/api-v2/src/platform/problem.ts: every
    refusal of a handler is one of its values.  A plain [throw new Error(m)] is
    [JsError m]; an error object raised by the database driver is
    [DriverError code metaCode], with the [code] and [meta.code] fields the
    sources inspect. *)

Record ProblemViolation := mkViolation {
  vPointer : string;
  vCode : string;
  vMessage : string;
}.

Record ProblemExtensions := mkExtensions {
  xLegacyCode : option string;
  xRemediation : option string;
  xRetryAfterSeconds : option Z;
}.

Record ProblemError := mkProblem {
  pStatus : Z;
  pCode : string;
  pDetail : string;
  pTitle : string;
  pViolations : option (list ProblemViolation);
  pCurrentEtag : option string;
  pExtensions : option ProblemExtensions;
}.

Inductive Exn :=
  | Problem (p : ProblemError)
  | JsError (m : string)
  | DriverError (driverCode : string) (metaCode : option string).

Inductive Result (A : Type) :=
  | Ok (a : A)
  | Throw (e : Exn).
Arguments Ok {A} a.
Arguments Throw {A} e.

#[global] Instance Result_ret : MRet Result := fun A a => Ok a.
#[global] Instance Result_bind : MBind Result := fun A B f m =>
  match m with Ok a => f a | Throw e => Throw e end.
#[global] Instance Result_fmap : FMap Result := fun A B f m =>
  match m with Ok a => Ok (f a) | Throw e => Throw e end.

(** [new ProblemError(status, code, detail, title)] without the optional
    arguments, as most call sites build it. *)
Definition problemError (st : Z) (cd dt tt : string) : ProblemError :=
  mkProblem st cd dt tt None None None.

Definition throwProblem {A} (st : Z) (cd dt tt : string) : Result A :=
  Throw (Problem (problemError st cd dt tt)).

(** [if (b) throw e;] *)
Definition throwIf (b : bool) (e : Exn) : Result unit :=
  if b then Throw e else Ok tt.

Definition problemCode (e : Exn) : option string :=
  match e with Problem p => Some (pCode p) | _ => None end.

Definition isOk {A} (r : Result A) : bool :=
  match r with Ok _ => true | Throw _ => false end.

Lemma Result_bind_Ok {A B} (f : A -> Result B) m b :
  m ≫= f = Ok b <-> exists a, m = Ok a /\ f a = Ok b.
Proof. destruct m; cbn; naive_solver. Qed.

Lemma Result_bind_Throw {A B} (f : A -> Result B) m e :
  m ≫= f = Throw e <-> m = Throw e \/ exists a, m = Ok a /\ f a = Throw e.
Proof. destruct m; cbn; naive_solver. Qed.

Lemma Result_fmap_Ok {A B} (f : A -> B) (m : Result A) b :
  f <$> m = Ok b <-> exists a, m = Ok a /\ b = f a.
Proof. destruct m; cbn; naive_solver. Qed.

Lemma throwIf_Ok b e u : throwIf b e = Ok u <-> b = false.
Proof. destruct b, u; cbn; naive_solver. Qed.

Lemma throwIf_Throw b e e' : throwIf b e = Throw e' <-> b = true /\ e' = e.
Proof. destruct b; cbn; naive_solver. Qed.

(** Traversals of lists with a function that can throw: [mapM] is the JS
    [.map] whose callback may throw, left to right. *)
Lemma mapM_Ok_Forall2 {A B} (f : A -> Result B) l k :
  mapM f l = Ok k <-> Forall2 (fun x y => f x = Ok y) l k.
Proof.
  revert k. induction l as [|x l IH]; intros k; cbn.
  - split; [intros [= <-]; constructor | inversion 1; done].
  - split.
    + intros (y & Hy & Hk)%Result_bind_Ok. apply Result_bind_Ok in Hk as (k' & Hk' & [= <-]).
      constructor; [done|]. by apply IH.
    + intros (y & k' & Hy & Hk & ->)%Forall2_cons_inv_l.
      rewrite Hy. cbn. by rewrite (proj2 (IH _) Hk).
Qed.

Lemma mapM_checks {A} (f : A -> Result unit) l oks : mapM f l = Ok oks -> Forall (fun x => f x = Ok tt) l.
Proof.
  intros H%mapM_Ok_Forall2. induction H as [|x [] l oks Hx _ IH]; by constructor.
Qed.

Lemma mapM_total {A B} (f : A -> Result B) l :
  (forall x, x ∈ l -> exists y, f x = Ok y) -> exists k, mapM f l = Ok k.
Proof.
  induction l as [|x l IH]; intros Hf; cbn; [by eexists|].
  destruct (Hf x) as [y ->]; [set_solver|]. destruct IH as [k Hk]; [set_solver|].
  cbn. rewrite Hk. by eexists.
Qed.

(** Case analysis of a chain of binds that is known to return. *)
Ltac inv_ok :=
  repeat match goal with
  | H : Ok _ = Ok _ |- _ => injection H as H
  | H : Ok _ = Throw _ |- _ => discriminate H
  | H : Throw _ = Ok _ |- _ => discriminate H
  | H : mret _ = Ok _ |- _ => unfold mret, Result_ret in H
  | H : throwProblem _ _ _ _ = Ok _ |- _ => discriminate H
  | H : throwIf _ _ = Ok _ |- _ => apply throwIf_Ok in H
  | H : _ ≫= _ = Ok _ |- _ => apply Result_bind_Ok in H as (? & ? & ?)
  | H : _ <$> _ = Ok _ |- _ => apply Result_fmap_Ok in H as (? & ? & ?)
  | H : (if ?b then Throw _ else _) = Ok _ |- _ => destruct b eqn:?; [discriminate H|]
  | H : (if ?b then throwProblem _ _ _ _ else _) = Ok _ |- _ => destruct b eqn:?; [discriminate H|]
  | u : unit |- _ => destruct u
  end.

(** Boolean comparisons to propositions, both ways. *)
#[global] Create Rewrite HintDb ll_bool.
#[export] Hint Rewrite negb_true_iff negb_false_iff andb_true_iff andb_false_iff
  orb_true_iff orb_false_iff Z.ltb_lt Z.ltb_ge Z.leb_le Z.leb_gt Z.eqb_eq Z.eqb_neq
  Nat.ltb_lt Nat.ltb_ge Nat.leb_le Nat.leb_gt Nat.eqb_eq Nat.eqb_neq
  bool_decide_eq_true bool_decide_eq_false : ll_bool.
Ltac bools := autorewrite with ll_bool in *.
Tactic Notation "bool_lia" := bools; lia.

(** ** Pairwise relations on the elements of a list *)

(** [R] holds between the elements at any two different positions. *)
Definition pairwise {A} (R : A -> A -> Prop) (l : list A) : Prop :=
  forall i j x y, i <> j -> l !! i = Some x -> l !! j = Some y -> R x y.

Lemma pairwise_perm {A} (R : A -> A -> Prop) l k : l ≡ₚ k -> pairwise R l -> pairwise R k.
Proof.
  intros (_ & f & Hf & Hlk)%symmetry%Permutation_inj H i j x y Hij Hx Hy.
  rewrite Hlk in Hx, Hy. eapply H; [|exact Hx|exact Hy]. intros E. by apply Hij, (inj f).
Qed.

Lemma pairwise_cons {A} (R : A -> A -> Prop) `{!Symmetric R} x l :
  pairwise R (x :: l) <-> Forall (R x) l /\ pairwise R l.
Proof.
  split.
  - intros H. split.
    + apply Forall_lookup. intros i y Hy. by apply (H 0%nat (S i)).
    + intros i j y z Hij Hy Hz. apply (H (S i) (S j)); [lia|done..].
  - intros [Hx Hl] [|i] [|j] y z Hij Hy Hz; cbn in *; [done| | |].
    + injection Hy as <-. rewrite Forall_lookup in Hx. by eapply Hx.
    + injection Hz as <-. symmetry. rewrite Forall_lookup in Hx. by eapply Hx.
    + eapply Hl; [|done..]. lia.
Qed.

Lemma pairwise_fmap {A B} (R : B -> B -> Prop) (f : A -> B) l :
  pairwise R (map f l) <-> pairwise (fun x y => R (f x) (f y)) l.
Proof.
  change (map f l) with (f <$> l). split; intros H i j x y Hij Hx Hy.
  - apply (H i j (f x) (f y) Hij); by rewrite list_lookup_fmap, ?Hx, ?Hy.
  - apply list_lookup_fmap_Some in Hx as (x' & -> & Hx'), Hy as (y' & -> & Hy'). exact (H i j x' y' Hij Hx' Hy').
Qed.

Lemma pairwise_impl {A} (R S : A -> A -> Prop) l :
  (forall x y, x ∈ l -> y ∈ l -> R x y -> S x y) -> pairwise R l -> pairwise S l.
Proof.
  intros H Hl i j x y Hij Hx Hy. apply H; [by eapply list_elem_of_lookup_2..|]. by eapply Hl.
Qed.

Lemma pairwise_filter {A} (R : A -> A -> Prop) `{!Symmetric R} (p : A -> bool) l :
  pairwise R l -> pairwise R (List.filter p l).
Proof.
  induction l as [|x l IH]; cbn; [done|]. intros [Hx Hl]%pairwise_cons; [|done]. destruct (p x); [|by apply IH].
  apply pairwise_cons; [done|]. split; [|by apply IH]. rewrite Forall_forall in Hx |- *.
  intros y [Hy _]%list_elem_of_In%filter_In. by apply Hx, list_elem_of_In.
Qed.

Lemma filter_all {A} (f : A -> bool) l : (forall x, x ∈ l -> f x = true) -> List.filter f l = l.
Proof.
  induction l as [|x l IH]; [done|]. intros Hf. cbn. rewrite Hf by by left. f_equal. apply IH. intros y Hy. apply Hf. by right.
Qed.

Lemma filter_elem {A} (p : A -> bool) l x : x ∈ List.filter p l -> x ∈ l /\ p x = true.
Proof. rewrite list_elem_of_In, filter_In, <- list_elem_of_In. done. Qed.

Lemma takeElem {A} n (l : list A) x : x ∈ take n l -> x ∈ l.
Proof. intros (i & Hi & _)%elem_of_take. by eapply list_elem_of_lookup_2. Qed.

Lemma filter_none {A} (p : A -> bool) l : (forall x, x ∈ l -> p x = false) -> List.filter p l = [].
Proof. induction l as [|x l IH]; [done|]. intros Hf. cbn. rewrite Hf by by left. apply IH. intros y Hy. apply Hf. by right. Qed.

(** Two half-open windows [start, end) that do not meet. *)
Definition windowsApart (a b : Z * Z) : Prop := a.2 <= b.1 \/ b.2 <= a.1.
#[global] Instance windowsApart_sym : Symmetric windowsApart.
Proof. unfold windowsApart. intros a b. tauto. Qed.

Lemma StronglySorted_weaken {A} (R S : A -> A -> Prop) l :
  (forall x y, R x y -> S x y) -> StronglySorted R l -> StronglySorted S l.
Proof.
  intros H. induction 1 as [|x l Hl IH Hx]; constructor; [done|].
  eapply Forall_impl; [exact Hx|]. auto.
Qed.

(** A key tells the elements of a list apart. *)
Lemma Forall2_elem_l {A B} (R : A -> B -> Prop) l k x : Forall2 R l k -> x ∈ l -> exists y, y ∈ k /\ R x y.
Proof. induction 1 as [|a b l k Hab _ IH]; [set_solver|]. intros [->|Hx]%elem_of_cons; [|destruct (IH Hx) as (y & ? & ?)]; set_solver. Qed.

Lemma Forall2_elem_r {A B} (R : A -> B -> Prop) l k y : Forall2 R l k -> y ∈ k -> exists x, x ∈ l /\ R x y.
Proof. induction 1 as [|a b l k Hab _ IH]; [set_solver|]. intros [->|Hx]%elem_of_cons; [|destruct (IH Hx) as (x & ? & ?)]; set_solver. Qed.

Lemma NoDup_map_inj {A B} (f : A -> B) (l : list A) x y :
  NoDup (map f l) -> x ∈ l -> y ∈ l -> f x = f y -> x = y.
Proof.
  intros Hd [i Hi]%list_elem_of_lookup [j Hj]%list_elem_of_lookup E.
  assert (i = j) as ->; [|congruence].
  eapply (NoDup_lookup (map f l)); [exact Hd| |]; change (map f l) with (f <$> l);
    rewrite list_lookup_fmap; [by rewrite Hi|rewrite Hj; cbn; congruence].
Qed.
