(* ===== verification/JsStd.v ===== *)
(** * The parts of the ECMAScript standard library the sources use

    Strings, decimal numerals, the stable [Array.prototype.sort], insertion
    ordered [Map] and [JSON] text, as the modelled files call them.

    A JavaScript string is a [string] whose characters are its code units; the
    code units of the model are 0 to 255 (Latin-1).  All integers below are
    JavaScript numbers holding integers; the sources guard them with
    [Number.isSafeInteger], modelled by [isSafeInteger]. *)

From S2P Require Import Prelude.

(** ** Characters and strings *)

Definition codeUnit (c : ascii) : Z := Z.of_N (N_of_ascii c).

(** WhiteSpace and LineTerminator of [String.prototype.trim] below 256. *)
Definition isWhite (c : ascii) : bool :=
  let n := codeUnit c in
  ((9 <=? n) && (n <=? 13)) || (n =? 32) || (n =? 160).

Definition isDigit (c : ascii) : bool :=
  let n := codeUnit c in (48 <=? n) && (n <=? 57).

(** [[0-9a-f]] *)
Definition isLowerHex (c : ascii) : bool :=
  isDigit c || (let n := codeUnit c in (97 <=? n) && (n <=? 102)).

(** [[0-9a-f]] with the [i] flag *)
Definition isHex (c : ascii) : bool :=
  isLowerHex c || (let n := codeUnit c in (65 <=? n) && (n <=? 70)).

Definition isAlnum (c : ascii) : bool :=
  let n := codeUnit c in
  isDigit c || ((65 <=? n) && (n <=? 90)) || ((97 <=? n) && (n <=? 122)).

(** [[\x20-\x7e]] *)
Definition isPrintable (c : ascii) : bool :=
  let n := codeUnit c in (32 <=? n) && (n <=? 126).

(** [[\u0000-\u001f\u007f]] *)
Definition isControl (c : ascii) : bool :=
  let n := codeUnit c in (n <=? 31) || (n =? 127).

Definition chars (s : string) : list ascii := String.list_ascii_of_string s.
Definition ofChars (l : list ascii) : string := String.string_of_list_ascii l.

Definition allChars (p : ascii -> bool) (s : string) : bool := forallb p (chars s).
Definition someChar (p : ascii -> bool) (s : string) : bool := existsb p (chars s).

Definition strLen (s : string) : Z := Z.of_nat (String.length s).

Definition isEmpty (s : string) : bool := bool_decide (s = "").

(** A text that is neither missing nor empty. *)
Definition truthy (value : option string) : option string :=
  match value with Some s => if isEmpty s then None else Some s | None => None end.

Fixpoint dropWhile {A} (p : A -> bool) (l : list A) : list A :=
  match l with
  | [] => []
  | x :: l' => if p x then dropWhile p l' else l
  end.

Definition trim (s : string) : string :=
  ofChars (reverse (dropWhile isWhite (reverse (dropWhile isWhite (chars s))))).

Definition toUpperChar (c : ascii) : ascii :=
  let n := codeUnit c in
  if (97 <=? n) && (n <=? 122) then ascii_of_N (Z.to_N (n - 32)) else c.

(** [toUpperCase] on ASCII letters. *)
Definition toUpperCase (s : string) : string := ofChars (map toUpperChar (chars s)).

Definition slice0 (n : nat) (s : string) : string := String.substring 0 n s.

(** Comparison of code units: the [<] of strings. *)
Definition compareText (l r : string) : Z :=
  match String.compare l r with Lt => -1 | Gt => 1 | Eq => 0 end.

Definition ltText (l r : string) : bool := compareText l r <? 0.

Lemma chars_ofChars l : chars (ofChars l) = l.
Proof. apply String.list_ascii_of_string_of_list_ascii. Qed.
Lemma ofChars_chars s : ofChars (chars s) = s.
Proof. apply String.string_of_list_ascii_of_string. Qed.
Lemma strapp_cons c s t : String c s +:+ t = String c (s +:+ t).
Proof. done. Qed.
Lemma strapp_nil s : "" +:+ s = s.
Proof. done. Qed.
Lemma strapp_assoc s t u : (s +:+ t) +:+ u = s +:+ (t +:+ u).
Proof. induction s; [done|]. rewrite !strapp_cons. by f_equal. Qed.
Lemma strapp_nil_r s : s +:+ "" = s.
Proof. induction s; [done|]. rewrite strapp_cons. by f_equal. Qed.
Lemma chars_cons c s : chars (String c s) = c :: chars s.
Proof. done. Qed.
Lemma chars_app s t : chars (s +:+ t) = chars s ++ chars t.
Proof. induction s; [done|]. rewrite strapp_cons, !chars_cons. cbn. by f_equal. Qed.
Lemma length_chars s : length (chars s) = String.length s.
Proof. induction s; [done|]. rewrite chars_cons. cbn. by f_equal. Qed.
Lemma ofChars_app l k : ofChars (l ++ k) = ofChars l +:+ ofChars k.
Proof. induction l as [|x l IH]; [done|]. change (String x (ofChars (l ++ k)) = String x (ofChars l +:+ ofChars k)). by rewrite IH. Qed.

#[global] Create Rewrite HintDb ll_str.
#[export] Hint Rewrite strapp_cons strapp_nil strapp_assoc chars_cons chars_app : ll_str.

Lemma allChars_cons p c s : allChars p (String c s) = p c && allChars p s.
Proof. done. Qed.
Lemma allChars_app p s t : allChars p (s +:+ t) = allChars p s && allChars p t.
Proof. unfold allChars. by rewrite chars_app, forallb_app. Qed.
#[export] Hint Rewrite allChars_cons allChars_app : ll_str.

Lemma dropWhile_id {A} (p : A -> bool) l :
  match l with [] => True | x :: _ => p x = false end -> dropWhile p l = l.
Proof. destruct l; cbn; [done|]. by intros ->. Qed.

Lemma dropWhile_head {A} (p : A -> bool) l x k :
  dropWhile p l = x :: k -> p x = false.
Proof. induction l as [|y l IH]; cbn; [done|]. destruct (p y) eqn:?; naive_solver. Qed.

(** A string with no white space at either end is its own trim. *)
Lemma trim_id s :
  match chars s with [] => True | x :: _ => isWhite x = false end ->
  match reverse (chars s) with [] => True | x :: _ => isWhite x = false end ->
  trim s = s.
Proof.
  intros H1 H2. unfold trim. rewrite (dropWhile_id _ _ H1), (dropWhile_id _ _ H2).
  by rewrite reverse_involutive, ofChars_chars.
Qed.

Lemma trim_all_solid s : allChars (fun c => negb (isWhite c)) s = true -> trim s = s.
Proof.
  unfold allChars. rewrite forallb_forall. intros H. apply trim_id.
  - destruct (chars s) as [|c l] eqn:E; [done|].
    apply negb_true_iff, H. by left.
  - destruct (reverse (chars s)) as [|c l] eqn:E; [done|].
    apply negb_true_iff, H. apply list_elem_of_In.
    rewrite <- elem_of_reverse, E. set_solver.
Qed.

(** ** [compareText] is a total order *)

Lemma compareText_eq s t : compareText s t = 0 <-> s = t.
Proof.
  unfold compareText. split.
  - destruct (String.compare s t) eqn:E; try done. intros _. by apply String.compare_eq_iff.
  - intros ->. pose proof (String.compare_antisym t t) as H.
    by destruct (String.compare t t).
Qed.

Lemma compareText_antisym s t : compareText t s = - compareText s t.
Proof.
  unfold compareText. rewrite String.compare_antisym.
  by destruct (String.compare s t).
Qed.

Lemma compareText_le s t : compareText s t <= 0 <-> String.le s t.
Proof.
  unfold compareText, String.le, String.leb.
  destruct (String.compare s t); cbn; split; try lia; try done.
Qed.

Lemma compareText_trans s t u :
  compareText s t <= 0 -> compareText t u <= 0 -> compareText s u <= 0.
Proof. rewrite !compareText_le. by etrans. Qed.

(** ** Decimal numerals *)

Definition MAX_SAFE_INTEGER : Z := 9007199254740991.
Definition isSafeInteger (z : Z) : bool := (- MAX_SAFE_INTEGER <=? z) && (z <=? MAX_SAFE_INTEGER).

Definition digitChar (d : Z) : ascii := ascii_of_N (Z.to_N (48 + d)).
Definition digitValue (c : ascii) : Z := codeUnit c - 48.

Fixpoint showFuel (fuel : nat) (z : Z) (acc : string) : string :=
  match fuel with
  | O => acc
  | S f =>
      let acc' := String (digitChar (z mod 10)) acc in
      if z <? 10 then acc' else showFuel f (z / 10) acc'
  end.

Definition showNat (z : Z) : string := showFuel (S (Z.to_nat (Z.log2 z))) z "".

(** [String(n)] for an integer [n]. *)
Definition showZ (z : Z) : string :=
  if z <? 0 then "-" +:+ showNat (- z) else showNat z.

(** [Number(s)] for a string of decimal digits. *)
Definition digitsValue (s : string) : Z :=
  fold_left (fun acc c => acc * 10 + digitValue c) (chars s) 0.

(** Exactly [n] digits of [z], zero padded: [String(z).padStart(n, '0')] for
    [0 <= z < 10 ^ n]. *)
Fixpoint padDigits (n : nat) (z : Z) : string :=
  match n with
  | O => ""
  | S n' => String (digitChar ((z / 10 ^ Z.of_nat n') mod 10)) (padDigits n' z)
  end.

(** [\d{n}] followed by the rest of the text. *)
Fixpoint parseDigitsAcc (n : nat) (acc : Z) (s : string) : option (Z * string) :=
  match n with
  | O => Some (acc, s)
  | S n' =>
      match s with
      | String c s' => if isDigit c then parseDigitsAcc n' (acc * 10 + digitValue c) s' else None
      | EmptyString => None
      end
  end.
Definition parseDigits (n : nat) (s : string) : option (Z * string) := parseDigitsAcc n 0 s.

Definition expectChar (c : ascii) (s : string) : option string :=
  match s with
  | String d s' => if bool_decide (c = d) then Some s' else None
  | EmptyString => None
  end.

Lemma digit_cases d : 0 <= d <= 9 ->
  d = 0 \/ d = 1 \/ d = 2 \/ d = 3 \/ d = 4 \/ d = 5 \/ d = 6 \/ d = 7 \/ d = 8 \/ d = 9.
Proof. lia. Qed.

Lemma isDigit_digitChar d : 0 <= d <= 9 -> isDigit (digitChar d) = true.
Proof. intros H%digit_cases. by destruct_or! H; subst. Qed.
Lemma digitValue_digitChar d : 0 <= d <= 9 -> digitValue (digitChar d) = d.
Proof. intros H%digit_cases. by destruct_or! H; subst. Qed.
Lemma digitValue_range c : isDigit c = true -> 0 <= digitValue c <= 9.
Proof. unfold isDigit, digitValue. intros; bool_lia. Qed.

Lemma isDigit_inv c : isDigit c = true -> c = digitChar (digitValue c).
Proof.
  intros H. unfold digitChar, digitValue, codeUnit in *.
  replace (48 + (Z.of_N (N_of_ascii c) - 48)) with (Z.of_N (N_of_ascii c)) by lia.
  by rewrite N2Z.id, Ascii.ascii_N_embedding.
Qed.

Lemma mod10_range z : 0 <= z mod 10 <= 9.
Proof. pose proof (Z.mod_pos_bound z 10 ltac:(lia)). lia. Qed.
#[export] Hint Resolve mod10_range isDigit_digitChar : core.

Lemma length_padDigits n z : String.length (padDigits n z) = n.
Proof. induction n; cbn; auto. Qed.

Lemma padDigits_digits n z : allChars isDigit (padDigits n z) = true.
Proof.
  induction n as [|n IH]; [done|].
  change (isDigit (digitChar ((z / 10 ^ Z.of_nat n) mod 10)) && allChars isDigit (padDigits n z) = true).
  by rewrite isDigit_digitChar, IH by auto.
Qed.

Lemma parseDigitsAcc_pad n acc z rest :
  parseDigitsAcc n acc (padDigits n z +:+ rest)
  = Some (acc * 10 ^ Z.of_nat n + z mod 10 ^ Z.of_nat n, rest).
Proof.
  revert acc. induction n as [|n IH]; intros acc; cbn [padDigits].
  - rewrite strapp_nil. cbn. rewrite Z.mod_1_r. do 2 f_equal. lia.
  - rewrite strapp_cons. cbn [parseDigitsAcc].
    rewrite isDigit_digitChar, digitValue_digitChar, IH by auto.
    do 2 f_equal. rewrite Nat2Z.inj_succ, Z.pow_succ_r by lia.
    pose proof (Z.pow_pos_nonneg 10 (Z.of_nat n) ltac:(lia) ltac:(lia)).
    rewrite (Z.mul_comm 10 (10 ^ _)), (Z.rem_mul_r z (10 ^ Z.of_nat n) 10) by lia. ring.
Qed.

(** Reading back what was padded. *)
Lemma parseDigits_pad n z rest :
  0 <= z < 10 ^ Z.of_nat n -> parseDigits n (padDigits n z +:+ rest) = Some (z, rest).
Proof. intros H. unfold parseDigits. rewrite parseDigitsAcc_pad, Z.mod_small by done. done. Qed.

Lemma pow10_pos n : 0 < 10 ^ Z.of_nat n.
Proof. apply Z.pow_pos_nonneg; lia. Qed.

(** Only the [m] low digits are printed. *)
Lemma padDigits_high m n r d :
  (m <= n)%nat -> padDigits m (r + d * 10 ^ Z.of_nat n) = padDigits m r.
Proof.
  induction m as [|m IH]; intros Hm; [done|]. cbn [padDigits]. f_equal; [|apply IH; lia].
  f_equal. replace (Z.of_nat n) with (Z.of_nat m + Z.succ (Z.of_nat (n - S m))) by lia.
  rewrite Z.pow_add_r, Z.pow_succ_r by lia. pose proof (pow10_pos m).
  replace (d * (10 ^ Z.of_nat m * (10 * 10 ^ Z.of_nat (n - S m))))
    with ((d * 10 ^ Z.of_nat (n - S m) * 10) * 10 ^ Z.of_nat m) by ring.
  rewrite Z.div_add by lia. by rewrite Z.mod_add by lia.
Qed.

Lemma padDigits_cons n d r :
  0 <= d <= 9 -> 0 <= r < 10 ^ Z.of_nat n ->
  padDigits (S n) (d * 10 ^ Z.of_nat n + r) = String (digitChar d) (padDigits n r).
Proof.
  intros Hd Hr. cbn [padDigits]. rewrite (Z.add_comm _ r), padDigits_high by lia.
  rewrite Z.div_add, Z.div_small, Z.add_0_l, Z.mod_small by lia. done.
Qed.

Lemma parseDigitsAcc_Some n acc s v rest :
  parseDigitsAcc n acc s = Some (v, rest) ->
  exists r, 0 <= r < 10 ^ Z.of_nat n /\ v = acc * 10 ^ Z.of_nat n + r /\
    s = padDigits n r +:+ rest.
Proof.
  revert acc s. induction n as [|n IH]; intros acc s; cbn [parseDigitsAcc].
  - intros [= -> ->]. exists 0. rewrite strapp_nil. cbn. repeat split; lia || done.
  - destruct s as [|c s]; [done|]. destruct (isDigit c) eqn:Hc; [|done].
    intros (r & Hr & -> & ->)%IH. pose proof (digitValue_range _ Hc). pose proof (pow10_pos n).
    exists (digitValue c * 10 ^ Z.of_nat n + r).
    rewrite padDigits_cons, strapp_cons, <- isDigit_inv by done.
    rewrite Nat2Z.inj_succ, Z.pow_succ_r by lia. split; [nia|]. split; [ring|done].
Qed.

Lemma parseDigits_Some n s v rest :
  parseDigits n s = Some (v, rest) ->
  0 <= v < 10 ^ Z.of_nat n /\ s = padDigits n v +:+ rest.
Proof. by intros (r & ? & -> & ->)%parseDigitsAcc_Some. Qed.

Lemma digitsValue_app s t :
  digitsValue (s +:+ t) =
  fold_left (fun acc c => acc * 10 + digitValue c) (chars t) (digitsValue s).
Proof. unfold digitsValue. by rewrite chars_app, fold_left_app. Qed.

Lemma showFuel_S f z acc :
  showFuel (S f) z acc =
  if z <? 10 then String (digitChar (z mod 10)) acc
  else showFuel f (z / 10) (String (digitChar (z mod 10)) acc).
Proof. done. Qed.

Lemma showFuel_spec f z acc :
  0 <= z < 10 ^ Z.of_nat (S f) ->
  exists ds, showFuel (S f) z acc = ds +:+ acc /\ ds <> "" /\
    allChars isDigit ds = true /\ digitsValue ds = z.
Proof.
  revert z acc. induction f as [|f IH]; intros z acc Hz; rewrite showFuel_S.
  all: destruct (z <? 10) eqn:E; bools.
  1,3: exists (String (digitChar (z mod 10)) ""); rewrite strapp_cons, strapp_nil;
    repeat split; [done| | ];
    [unfold allChars; rewrite chars_cons; cbn [forallb chars String.list_ascii_of_string];
     rewrite isDigit_digitChar by auto; done|];
    unfold digitsValue; rewrite chars_cons; cbn [fold_left chars String.list_ascii_of_string];
    rewrite digitValue_digitChar by auto; rewrite Z.mod_small; lia.
  - change (10 ^ Z.of_nat 1) with 10 in Hz. lia.
  - destruct (IH (z / 10) (String (digitChar (z mod 10)) acc)) as (ds & -> & Hne & Hd & Hv).
    { rewrite (Nat2Z.inj_succ (S f)), Z.pow_succ_r in Hz by lia.
      split; [apply Z.div_pos; lia|]. apply Z.div_lt_upper_bound; lia. }
    exists (ds +:+ String (digitChar (z mod 10)) "").
    rewrite strapp_assoc, strapp_cons, strapp_nil. repeat split.
    + destruct ds; done.
    + unfold allChars in *. rewrite chars_app, forallb_app, Hd. cbn. by rewrite isDigit_digitChar by auto.
    + rewrite digitsValue_app, Hv. cbn. rewrite digitValue_digitChar by auto.
      pose proof (Z.div_mod z 10). lia.
Qed.

(** Reading back a printed natural number. *)
Lemma showNat_spec z :
  0 <= z -> showNat z <> "" /\ allChars isDigit (showNat z) = true /\ digitsValue (showNat z) = z.
Proof.
  intros Hz. unfold showNat.
  destruct (showFuel_spec (Z.to_nat (Z.log2 z)) z "") as (ds & -> & H).
  - split; [done|]. pose proof (Z.log2_nonneg z).
    rewrite Nat2Z.inj_succ, Z2Nat.id by done.
    destruct (Z.eq_dec z 0) as [->|]; [cbn; lia|].
    pose proof (Z.log2_spec z ltac:(lia)) as [_ Hlt].
    eapply Z.lt_le_trans; [exact Hlt|]. apply Z.pow_le_mono_l; lia.
  - by rewrite strapp_nil_r.
Qed.

Lemma digitsValue_nonneg s : allChars isDigit s = true -> 0 <= digitsValue s.
Proof.
  unfold allChars, digitsValue. assert (H : forall l a, 0 <= a -> forallb isDigit l = true ->
    0 <= fold_left (fun acc c => acc * 10 + digitValue c) l a).
  { induction l as [|c l IH]; cbn; intros a Ha Hl; [done|]. bools. destruct Hl as [Hc Hl].
    apply IH; [|done]. pose proof (digitValue_range _ Hc). lia. }
  by apply H.
Qed.


(** ** Text order of padded numerals *)

Lemma compareText_cons c d s t :
  compareText (String c s) (String d t) =
  if codeUnit c <? codeUnit d then -1 else if codeUnit d <? codeUnit c then 1 else compareText s t.
Proof.
  unfold compareText, codeUnit. cbn [String.compare]. unfold Ascii.compare.
  destruct (N.compare_spec (N_of_ascii c) (N_of_ascii d)) as [E|E|E].
  - rewrite E, Z.ltb_irrefl. done.
  - by rewrite (proj2 (Z.ltb_lt _ _)) by lia.
  - rewrite (proj2 (Z.ltb_ge _ _)) by lia. by rewrite (proj2 (Z.ltb_lt _ _)) by lia.
Qed.

Lemma codeUnit_digitChar d : 0 <= d <= 9 -> codeUnit (digitChar d) = 48 + d.
Proof. intros H. pose proof (digitValue_digitChar d H) as Hd. unfold digitValue in Hd. lia. Qed.

(** Equal widths: text order is numeric order, then the rest decides. *)
Lemma compareText_pad n a b s t :
  0 <= a < 10 ^ Z.of_nat n -> 0 <= b < 10 ^ Z.of_nat n ->
  compareText (padDigits n a +:+ s) (padDigits n b +:+ t) =
  if a <? b then -1 else if b <? a then 1 else compareText s t.
Proof.
  revert a b. induction n as [|n IH]; intros a b Ha Hb.
  { rewrite !strapp_nil. by rewrite (proj2 (Z.ltb_ge a b)), (proj2 (Z.ltb_ge b a)) by (cbn in *; lia). }
  pose proof (pow10_pos n) as Hp. rewrite Nat2Z.inj_succ, Z.pow_succ_r in Ha, Hb by lia.
  set (p := 10 ^ Z.of_nat n) in *.
  assert (Hda : 0 <= a / p <= 9) by (split; [apply Z.div_pos; lia|]; apply Z.lt_succ_r, Z.div_lt_upper_bound; lia).
  assert (Hdb : 0 <= b / p <= 9) by (split; [apply Z.div_pos; lia|]; apply Z.lt_succ_r, Z.div_lt_upper_bound; lia).
  pose proof (Z.mod_pos_bound a p Hp). pose proof (Z.mod_pos_bound b p Hp).
  pose proof (Z.div_mod a p ltac:(lia)) as Ea. pose proof (Z.div_mod b p ltac:(lia)) as Eb.
  replace (padDigits (S n) a) with (String (digitChar (a / p)) (padDigits n (a mod p)))
    by (rewrite Ea at 3; rewrite (Z.mul_comm p); symmetry; by apply padDigits_cons).
  replace (padDigits (S n) b) with (String (digitChar (b / p)) (padDigits n (b mod p)))
    by (rewrite Eb at 3; rewrite (Z.mul_comm p); symmetry; by apply padDigits_cons).
  rewrite !strapp_cons, compareText_cons, !codeUnit_digitChar by done. rewrite IH by done.
  destruct (48 + a / p <? 48 + b / p) eqn:E1, (48 + b / p <? 48 + a / p) eqn:E2; bools;
    try lia; destruct (a <? b) eqn:E3, (b <? a) eqn:E4; bools; try nia;
    destruct (a mod p <? b mod p) eqn:E5, (b mod p <? a mod p) eqn:E6; bools; try done; nia.
Qed.

Lemma substring_app s t : String.substring 0 (String.length s) (s +:+ t) = s.
Proof.
  induction s as [|c s IH]; [by destruct t|]. rewrite strapp_cons. cbn [String.length String.substring].
  by rewrite IH.
Qed.

Lemma slice0_app n s t : String.length s = n -> slice0 n (s +:+ t) = s.
Proof. intros <-. apply substring_app. Qed.

Lemma trim_head c s : isWhite c = false -> exists r, trim (String c s) = String c r.
Proof.
  intros Hc. unfold trim. rewrite chars_cons. cbn [dropWhile]. rewrite Hc, reverse_cons.
  assert (H : forall l, exists l', dropWhile isWhite (l ++ [c]) = l' ++ [c]).
  { induction l as [|x l IH]; cbn; [rewrite Hc; by exists []|].
    destruct (isWhite x); [done|]. by exists (x :: l). }
  destruct (H (reverse (chars s))) as [l ->]. rewrite reverse_app. by exists (ofChars (reverse l)).
Qed.
