(* ===== verification/JsCollections.v ===== *)
(** * Sorting and insertion-ordered maps of the ECMAScript library

    [sortBy] is the stable [Array.prototype.sort(cmp)] for a consistent
    comparator, [orElse] the [a || b] of two comparison results, [JsMap] an
    insertion-ordered [Map].  [LocaleCompare] is the collation of
    [String.prototype.localeCompare], which the host's ICU data decides: it is
    an argument of every definition that sorts with it. *)

From S2P Require Import Prelude JsStd.

(** ** Comparators *)

(** What ECMAScript calls a consistent comparator. *)
Class Comparator {A} (cmp : A -> A -> Z) : Prop := {
  cmp_antisym : forall x y, Z.sgn (cmp y x) = - Z.sgn (cmp x y);
  cmp_trans : forall x y z, cmp x y <= 0 -> cmp y z <= 0 -> cmp x z <= 0;
}.

(** [left || right] on the numbers a comparator returns. *)
Definition orElse (l r : Z) : Z := if l =? 0 then r else l.

Fixpoint insertBy {A} (cmp : A -> A -> Z) (x : A) (l : list A) : list A :=
  match l with
  | [] => [x]
  | y :: l' => if cmp x y <=? 0 then x :: y :: l' else y :: insertBy cmp x l'
  end.

(** Stable: an element is placed before the equal ones that followed it. *)
Definition sortBy {A} (cmp : A -> A -> Z) (l : list A) : list A :=
  foldr (insertBy cmp) [] l.

Lemma insertBy_perm {A} (cmp : A -> A -> Z) x l : insertBy cmp x l ≡ₚ x :: l.
Proof.
  induction l as [|y l IH]; cbn; [done|]. destruct (_ <=? 0); [done|].
  rewrite IH. constructor.
Qed.

Lemma sortBy_perm {A} (cmp : A -> A -> Z) l : sortBy cmp l ≡ₚ l.
Proof. induction l as [|x l IH]; cbn; [done|]. by rewrite insertBy_perm, IH. Qed.

Lemma sortBy_elem {A} (cmp : A -> A -> Z) l x : x ∈ sortBy cmp l <-> x ∈ l.
Proof. by rewrite sortBy_perm. Qed.

Lemma sortBy_length {A} (cmp : A -> A -> Z) l : length (sortBy cmp l) = length l.
Proof. apply Permutation_length, sortBy_perm. Qed.

Section Sorted.
Context {A : Type} (cmp : A -> A -> Z) `{!Comparator cmp}.

Lemma cmp_refl x : cmp x x = 0.
Proof. pose proof (cmp_antisym x x). lia. Qed.

Lemma cmp_total x y : 0 < cmp x y -> cmp y x <= 0.
Proof. pose proof (cmp_antisym x y). lia. Qed.

Lemma cmp_zero_sym x y : cmp x y = 0 -> cmp y x = 0.
Proof. pose proof (cmp_antisym x y). lia. Qed.

Lemma insertBy_sorted x l :
  StronglySorted (fun a b => cmp a b <= 0) l ->
  StronglySorted (fun a b => cmp a b <= 0) (insertBy cmp x l).
Proof.
  induction 1 as [|y l Hl IH Hy]; cbn; [repeat constructor|].
  destruct (cmp x y <=? 0) eqn:E; bools.
  - repeat constructor; try done. eapply Forall_impl; [exact Hy|].
    intros z Hz. by eapply cmp_trans.
  - constructor; [done|]. rewrite insertBy_perm. constructor; [by apply cmp_total|done].
Qed.

Lemma sortBy_sorted l : StronglySorted (fun a b => cmp a b <= 0) (sortBy cmp l).
Proof. induction l; cbn; [constructor|]. by apply insertBy_sorted. Qed.

(** When distinct elements compare distinct, the result depends only on the
    multiset of the elements. *)
Lemma sortBy_unique l k :
  (forall x y, x ∈ l -> y ∈ l -> cmp x y = 0 -> x = y) ->
  l ≡ₚ k -> sortBy cmp l = sortBy cmp k.
Proof.
  intros Hinj Hp. eapply (StronglySorted_unique_strong (fun a b => cmp a b <= 0)).
  - intros x y Hx%sortBy_elem Hy%sortBy_elem H1 H2. rewrite <- Hp in Hy.
    apply Hinj; [done..|]. pose proof (cmp_antisym x y). lia.
  - apply sortBy_sorted.
  - apply sortBy_sorted.
  - by rewrite !sortBy_perm.
Qed.

Lemma sortBy_id l : StronglySorted (fun a b => cmp a b <= 0) l -> sortBy cmp l = l.
Proof.
  induction 1 as [|x l Hl IH Hx]; [done|].
  change (insertBy cmp x (sortBy cmp l) = x :: l). rewrite IH. destruct l as [|y l]; [done|].
  cbn. apply Forall_cons in Hx as [Hxy _]. by rewrite (proj2 (Z.leb_le _ _) Hxy).
Qed.

(** The first of the sorted elements is a least one. *)
Lemma sortBy_head l x rest : sortBy cmp l = x :: rest -> x ∈ l /\ forall y, y ∈ l -> cmp x y <= 0.
Proof.
  intros E. split; [rewrite <- (sortBy_elem cmp), E; by left|]. intros y Hy. rewrite <- (sortBy_elem cmp), E in Hy.
  pose proof (sortBy_sorted l) as Hs. rewrite E in Hs. inversion Hs as [|? ? _ Hf]; subst.
  apply elem_of_cons in Hy as [->|Hy]; [by rewrite cmp_refl|]. rewrite Forall_forall in Hf. by apply Hf.
Qed.
End Sorted.

#[global] Instance Comparator_flip {A} (c : A -> A -> Z) : Comparator c -> Comparator (fun x y => c y x) | 10.
Proof.
  intros Hc. split; intros x y.
  - apply (cmp_antisym (cmp := c)).
  - intros z H1 H2. by eapply (cmp_trans (cmp := c)).
Qed.

#[global] Instance Comparator_sub {A} (f : A -> Z) : Comparator (fun x y => f x - f y).
Proof. split; intros; lia. Qed.

#[global] Instance Comparator_sub_desc {A} (f : A -> Z) : Comparator (fun x y => f y - f x).
Proof. split; intros; lia. Qed.

#[global] Instance Comparator_text {A} (f : A -> string) :
  Comparator (fun x y => compareText (f x) (f y)).
Proof.
  split; intros.
  - rewrite compareText_antisym. lia.
  - by eapply compareText_trans.
Qed.

#[global] Instance Comparator_orElse {A} (c d : A -> A -> Z) :
  Comparator c -> Comparator d -> Comparator (fun x y => orElse (c x y) (d x y)).
Proof.
  intros Hc Hd. split; unfold orElse; intros x y.
  - pose proof (cmp_antisym (cmp := c) x y). pose proof (cmp_antisym (cmp := d) x y).
    destruct (c x y =? 0) eqn:?, (c y x =? 0) eqn:?; bools; lia.
  - intros z. pose proof (cmp_antisym (cmp := c) x y). pose proof (cmp_antisym (cmp := c) x z).
    pose proof (cmp_antisym (cmp := c) y z).
    pose proof (cmp_trans (cmp := c) x y z). pose proof (cmp_trans (cmp := c) y z x).
    pose proof (cmp_trans (cmp := c) z x y). pose proof (cmp_trans (cmp := d) x y z).
    destruct (c x y =? 0) eqn:?, (c y z =? 0) eqn:?, (c x z =? 0) eqn:?; bools; lia.
Qed.

Lemma orElse_zero l r : orElse l r = 0 <-> l = 0 /\ r = 0.
Proof. unfold orElse. destruct (l =? 0) eqn:E; bools; naive_solver lia. Qed.

(** ** Collation *)

Class LocaleCompare := localeCompare : string -> string -> Z.

(** ECMA-402 requires a consistent comparator; the identifiers the sources sort
    (UUIDs, cuids, object keys) are ASCII strings a collation does not
    identify unless they are equal. *)
Class LocaleCompareLaws (LC : LocaleCompare) : Prop := {
  localeCompare_comparator :: Comparator localeCompare;
  localeCompare_eq : forall a b, localeCompare a b = 0 -> a = b;
}.

#[global] Instance Comparator_locale `{LC : LocaleCompare, !LocaleCompareLaws LC}
  {A} (f : A -> string) : Comparator (fun x y => localeCompare (f x) (f y)).
Proof.
  split; intros.
  - apply cmp_antisym.
  - by eapply cmp_trans.
Qed.

(** Code unit order satisfies the laws: the instance the examples evaluate. *)
Definition codeUnitCollation : LocaleCompare := compareText.
#[global] Instance codeUnitCollation_laws : LocaleCompareLaws codeUnitCollation.
Proof.
  split; [exact (Comparator_text (fun s => s))|]. intros a b. apply compareText_eq.
Qed.

(** ** [Map] *)

Section JsMap.
Context {K V : Type} `{!EqDecision K}.

Definition JsMap : Type := list (K * V).

Fixpoint mapGet (m : JsMap) (k : K) : option V :=
  match m with
  | [] => None
  | (k', v) :: m' => if decide (k' = k) then Some v else mapGet m' k
  end.

(** A present key keeps its position. *)
Fixpoint mapSet (m : JsMap) (k : K) (v : V) : JsMap :=
  match m with
  | [] => [(k, v)]
  | (k', v') :: m' => if decide (k' = k) then (k, v) :: m' else (k', v') :: mapSet m' k v
  end.

Fixpoint mapDelete (m : JsMap) (k : K) : JsMap :=
  match m with
  | [] => []
  | (k', v') :: m' => if decide (k' = k) then m' else (k', v') :: mapDelete m' k
  end.

Definition mapValues (m : JsMap) : list V := m.*2.
Definition mapHas (m : JsMap) (k : K) : bool := bool_decide (is_Some (mapGet m k)).

(** [new Map(entries)] *)
Definition mapOf (entries : list (K * V)) : JsMap :=
  fold_left (fun m e => mapSet m e.1 e.2) entries [].

Lemma mapGet_set m k v k' :
  mapGet (mapSet m k v) k' = if decide (k = k') then Some v else mapGet m k'.
Proof.
  induction m as [|[k0 v0] m IH]; cbn; [done|].
  repeat (case_decide; cbn); naive_solver.
Qed.

Lemma elem_of_mapSet_keys m k v k' :
  k' ∈ (mapSet m k v).*1 <-> k' = k \/ k' ∈ m.*1.
Proof.
  induction m as [|[k0 v0] m IH]; cbn; [set_solver|].
  case_decide; subst; cbn; [set_solver|]. rewrite !elem_of_cons, IH. tauto.
Qed.

Lemma elem_of_mapDelete_keys m k k' : k' ∈ (mapDelete m k).*1 -> k' ∈ m.*1.
Proof.
  induction m as [|[k0 v0] m IH]; cbn; [done|].
  case_decide; subst; cbn; set_solver.
Qed.

Lemma NoDup_mapSet m k v : NoDup m.*1 -> NoDup (mapSet m k v).*1.
Proof.
  induction m as [|[k0 v0] m IH]; cbn.
  - intros _. apply NoDup_singleton.
  - rewrite NoDup_cons. intros [Hn Hd]. case_decide; subst; cbn; rewrite NoDup_cons; [done|].
    rewrite elem_of_mapSet_keys. naive_solver.
Qed.

Lemma NoDup_mapDelete m k : NoDup m.*1 -> NoDup (mapDelete m k).*1.
Proof.
  induction m as [|[k0 v0] m IH]; cbn; [done|].
  rewrite NoDup_cons. intros [Hn Hd]. case_decide; subst; cbn; [done|].
  rewrite NoDup_cons. split; [|auto]. intros ?%elem_of_mapDelete_keys. done.
Qed.

Lemma mapGet_None m k : mapGet m k = None <-> k ∉ m.*1.
Proof.
  induction m as [|[k0 v0] m IH]; cbn; [set_solver|].
  case_decide; subst; [set_solver|]. rewrite not_elem_of_cons. naive_solver.
Qed.

Lemma mapGet_delete m k k' :
  NoDup m.*1 -> mapGet (mapDelete m k) k' = if decide (k = k') then None else mapGet m k'.
Proof.
  induction m as [|[k0 v0] m IH]; cbn; [by case_decide|].
  rewrite NoDup_cons. intros [Hn Hd]. specialize (IH Hd).
  destruct (decide (k0 = k)) as [->|]; cbn.
  - case_decide; subst; [by apply mapGet_None|done].
  - rewrite IH. repeat case_decide; congruence.
Qed.

Lemma mapGet_Some m k v : NoDup m.*1 -> mapGet m k = Some v <-> (k, v) ∈ m.
Proof.
  induction m as [|[k0 v0] m IH]; cbn; [set_solver|].
  rewrite NoDup_cons. intros [Hn Hd]. rewrite elem_of_cons, <- IH by done. case_decide; subst.
  - split; [naive_solver|]. intros [[= ->]|Hv]; [done|].
    destruct Hn. apply IH in Hv; [|done]. apply list_elem_of_fmap. by exists (k, v).
  - naive_solver.
Qed.

Lemma mapGet_Some_elem m k v : mapGet m k = Some v -> (k, v) ∈ m.
Proof. induction m as [|[k0 v0] m IH]; cbn; [done|]. case_decide; set_solver. Qed.

Lemma mapOf_snoc entries e : mapOf (entries ++ [e]) = mapSet (mapOf entries) e.1 e.2.
Proof. unfold mapOf. by rewrite fold_left_app. Qed.

Lemma NoDup_mapOf entries : NoDup (mapOf entries).*1.
Proof.
  induction entries as [|e entries IH] using rev_ind; [constructor|].
  rewrite mapOf_snoc. by apply NoDup_mapSet.
Qed.

Lemma mapOf_keys entries k : k ∈ (mapOf entries).*1 <-> k ∈ entries.*1.
Proof.
  induction entries as [|e entries IH] using rev_ind; [done|].
  rewrite mapOf_snoc, elem_of_mapSet_keys, IH, fmap_app. set_solver.
Qed.

Lemma mapSet_fresh m k v : k ∉ m.*1 -> mapSet m k v = m ++ [(k, v)].
Proof.
  induction m as [|[k0 v0] m IH]; cbn; [done|].
  rewrite not_elem_of_cons. intros [Hne Hk]. rewrite decide_False by done. by rewrite IH.
Qed.

(** With distinct keys the entries are the map. *)
Lemma mapSet_elem m k v e : e ∈ mapSet m k v -> e = (k, v) \/ e ∈ m.
Proof.
  induction m as [|[k' v'] m IH]; cbn; [set_solver|]. case_decide; [set_solver|].
  intros [->|He]%elem_of_cons; [set_solver|]. destruct (IH He); set_solver.
Qed.

Lemma mapOf_elem entries e : e ∈ mapOf entries -> e ∈ entries.
Proof.
  induction entries as [|[k v] entries IH] using rev_ind; [done|].
  rewrite mapOf_snoc. intros [->|He]%mapSet_elem; [set_solver|]. apply elem_of_app. left. by apply IH.
Qed.

Lemma mapOf_NoDup entries : NoDup entries.*1 -> mapOf entries = entries.
Proof.
  induction entries as [|e entries IH] using rev_ind; [done|].
  rewrite fmap_app, NoDup_app. intros (Hd & Hn & _). rewrite mapOf_snoc, IH by done.
  rewrite mapSet_fresh; [by destruct e|]. intros He. apply (Hn _ He). set_solver.
Qed.
End JsMap.
Arguments JsMap : clear implicits.
