(* ===== verification/JsDate.v ===== *)
(** * ECMAScript time values

    A [Date] holding a finite time value is its number of milliseconds since
    the epoch, a [Z]; [Invalid Date] is [None] where a value may be one.  The
    calendar follows the definitions of the language standard: [dayFromYear],
    [MakeDay], [Date.UTC] (with its two-digit-year rule), the UTC getters,
    [toISOString], and [Date.parse] on the date-time string format with a [Z]
    designator.  [Date.parse] gives [None] on every other text; the sources
    only keep an instant whose text matches the same format, so that the
    host-specific formats [Date.parse] may also accept are refused either way. *)

From S2P Require Import Prelude JsStd.

Ltac div_lia := Z.div_mod_to_equations; lia.

(** ** Calendar arithmetic *)

Definition msPerDay : Z := 86400000.

Definition isLeap (y : Z) : bool :=
  (y mod 4 =? 0) && (negb (y mod 100 =? 0) || (y mod 400 =? 0)).

Definition dayFromYear (y : Z) : Z :=
  365 * (y - 1970) + (y - 1969) / 4 - (y - 1901) / 100 + (y - 1601) / 400.

Definition leapDay (y : Z) : Z := if isLeap y then 1 else 0.

(** Days of the year before month [m] (0 to 11; 12 is the whole year). *)
Definition monthStart (y m : Z) : Z :=
  if m <=? 0 then 0 else if m =? 1 then 31 else
  nth (Z.to_nat m) [0; 31; 59; 90; 120; 151; 181; 212; 243; 273; 304; 334] 365 + leapDay y.

Definition yearFromDay (n : Z) : Z :=
  let y := 1970 + (400 * n) / 146097 in
  if dayFromYear (y + 1) <=? n then y + 1
  else if n <? dayFromYear y then y - 1 else y.

Definition dayInYear (n : Z) : Z := n - dayFromYear (yearFromDay n).

Definition monthFromDay (n : Z) : Z :=
  let y := yearFromDay n in let d := dayInYear n in
  if d <? 31 then 0
  else if d <? monthStart y 2 then 1 else if d <? monthStart y 3 then 2
  else if d <? monthStart y 4 then 3 else if d <? monthStart y 5 then 4
  else if d <? monthStart y 6 then 5 else if d <? monthStart y 7 then 6
  else if d <? monthStart y 8 then 7 else if d <? monthStart y 9 then 8
  else if d <? monthStart y 10 then 9 else if d <? monthStart y 11 then 10 else 11.

Definition dateFromDay (n : Z) : Z :=
  dayInYear n - monthStart (yearFromDay n) (monthFromDay n) + 1.

(** [MakeDay(year, month, date)], months counted from 0 and carried. *)
Definition makeDay (y m d : Z) : Z :=
  let ym := y + m / 12 in dayFromYear ym + monthStart ym (m mod 12) + d - 1.

(** [Date.UTC(y, m, d, h, mi, s)]: a year from 0 to 99 means 1900 + year. *)
Definition dateUTC (y m d h mi s : Z) : Z :=
  let yr := if (0 <=? y) && (y <=? 99) then 1900 + y else y in
  makeDay yr m d * msPerDay + h * 3600000 + mi * 60000 + s * 1000.

Definition getUTCFullYear (t : Z) : Z := yearFromDay (t / msPerDay).
Definition getUTCMonth (t : Z) : Z := monthFromDay (t / msPerDay).
Definition getUTCDate (t : Z) : Z := dateFromDay (t / msPerDay).
Definition getUTCHours (t : Z) : Z := (t mod msPerDay) / 3600000.
Definition getUTCMinutes (t : Z) : Z := (t mod 3600000) / 60000.
Definition getUTCSeconds (t : Z) : Z := (t mod 60000) / 1000.
Definition getUTCMilliseconds (t : Z) : Z := t mod 1000.

Lemma dayFromYear_succ y : dayFromYear (y + 1) = dayFromYear y + 365 + leapDay y.
Proof.
  unfold dayFromYear, leapDay, isLeap.
  destruct (y mod 4 =? 0) eqn:?, (y mod 100 =? 0) eqn:?, (y mod 400 =? 0) eqn:?;
    bools; cbn; div_lia.
Qed.

Lemma leapDay_range y : 0 <= leapDay y <= 1.
Proof. unfold leapDay. destruct (isLeap y); lia. Qed.

Lemma dayFromYear_mono y z : y < z -> dayFromYear y + 365 <= dayFromYear z.
Proof.
  intros H. assert (E : exists k, 0 <= k /\ z = y + 1 + k) by (exists (z - y - 1); lia).
  destruct E as (k & Hk & ->). pattern k. apply natlike_ind; [..|exact Hk].
  - rewrite Z.add_0_r, dayFromYear_succ. pose proof (leapDay_range y). lia.
  - intros x Hx IH. replace (y + 1 + Z.succ x) with (y + 1 + x + 1) by lia.
    rewrite dayFromYear_succ. pose proof (leapDay_range (y + 1 + x)). lia.
Qed.

Lemma yearFromDay_spec n :
  dayFromYear (yearFromDay n) <= n < dayFromYear (yearFromDay n + 1).
Proof.
  unfold yearFromDay. set (y := 1970 + 400 * n / 146097).
  assert (H : dayFromYear (y - 1) <= n < dayFromYear (y + 2)).
  { unfold y, dayFromYear. div_lia. }
  destruct (dayFromYear (y + 1) <=? n) eqn:E1; [|destruct (n <? dayFromYear y) eqn:E2]; bools.
  - replace (y + 1 + 1) with (y + 2) by lia. lia.
  - replace (y - 1 + 1) with y by lia. lia.
  - lia.
Qed.

Lemma yearFromDay_unique n y : dayFromYear y <= n < dayFromYear (y + 1) -> yearFromDay n = y.
Proof.
  intros H. pose proof (yearFromDay_spec n) as H'.
  destruct (Z.lt_trichotomy (yearFromDay n) y) as [Hlt|[?|Hlt]]; [|done|].
  - destruct (Z.eq_dec (yearFromDay n + 1) y) as [E|]; [rewrite E in *; lia|].
    pose proof (dayFromYear_mono (yearFromDay n + 1) y). lia.
  - destruct (Z.eq_dec (y + 1) (yearFromDay n)) as [E|]; [rewrite E in *; lia|].
    pose proof (dayFromYear_mono (y + 1) (yearFromDay n)). lia.
Qed.

Lemma monthStart_values y :
  monthStart y 0 = 0 /\ monthStart y 1 = 31 /\ monthStart y 2 = 59 + leapDay y /\
  monthStart y 3 = 90 + leapDay y /\ monthStart y 4 = 120 + leapDay y /\
  monthStart y 5 = 151 + leapDay y /\ monthStart y 6 = 181 + leapDay y /\
  monthStart y 7 = 212 + leapDay y /\ monthStart y 8 = 243 + leapDay y /\
  monthStart y 9 = 273 + leapDay y /\ monthStart y 10 = 304 + leapDay y /\
  monthStart y 11 = 334 + leapDay y /\ monthStart y 12 = 365 + leapDay y.
Proof. repeat split. Qed.

Lemma monthFromDay_spec n :
  0 <= monthFromDay n <= 11 /\
  monthStart (yearFromDay n) (monthFromDay n) <= dayInYear n
    < monthStart (yearFromDay n) (monthFromDay n + 1).
Proof.
  pose proof (yearFromDay_spec n) as H. rewrite dayFromYear_succ in H.
  pose proof (monthStart_values (yearFromDay n)) as
    (E0 & E1 & E2 & E3 & E4 & E5 & E6 & E7 & E8 & E9 & E10 & E11 & E12).
  assert (Hd : 0 <= dayInYear n < 365 + leapDay (yearFromDay n)) by (unfold dayInYear; lia).
  unfold monthFromDay. cbv zeta. pose proof (leapDay_range (yearFromDay n)).
  repeat match goal with
  | |- context [if dayInYear n <? ?x then _ else _] => destruct (dayInYear n <? x) eqn:?; bools
  end;
  match goal with |- context [monthStart (yearFromDay n) (?m + 1)] =>
    let m' := eval cbv in (m + 1) in change (m + 1) with m' end; lia.
Qed.

(** The calendar fields of a day name that day. *)
Lemma makeDay_fields n : makeDay (yearFromDay n) (monthFromDay n) (dateFromDay n) = n.
Proof.
  pose proof (monthFromDay_spec n) as [Hm _]. unfold makeDay.
  rewrite Z.div_small, Z.mod_small, Z.add_0_r by lia. cbv zeta.
  unfold dateFromDay, dayInYear. lia.
Qed.

Definition daysInMonth (y m : Z) : Z := monthStart y (m + 1) - monthStart y m.

Lemma dateFromDay_range n :
  1 <= dateFromDay n <= daysInMonth (yearFromDay n) (monthFromDay n).
Proof. pose proof (monthFromDay_spec n). unfold dateFromDay, daysInMonth. lia. Qed.

Lemma monthStart_mono y m k : 0 <= m -> m < k <= 12 -> monthStart y m + 28 <= monthStart y k.
Proof.
  intros Hm Hk. pose proof (monthStart_values y) as
    (E0 & E1 & E2 & E3 & E4 & E5 & E6 & E7 & E8 & E9 & E10 & E11 & E12).
  pose proof (leapDay_range y).
  assert (Hc : forall x, 0 <= x <= 12 -> x = 0 \/ x = 1 \/ x = 2 \/ x = 3 \/ x = 4 \/ x = 5 \/
    x = 6 \/ x = 7 \/ x = 8 \/ x = 9 \/ x = 10 \/ x = 11 \/ x = 12) by lia.
  pose proof (Hc m ltac:(lia)) as Em. pose proof (Hc k ltac:(lia)) as Ek.
  destruct_or! Em; rewrite Em in *; destruct_or! Ek; rewrite Ek in *; lia.
Qed.

(** A real calendar date is recovered from its day number. *)
Lemma fields_makeDay y m d :
  0 <= m <= 11 -> 1 <= d <= daysInMonth y m ->
  yearFromDay (makeDay y m d) = y /\ monthFromDay (makeDay y m d) = m /\
  dateFromDay (makeDay y m d) = d.
Proof.
  intros Hm Hd. unfold daysInMonth in Hd.
  assert (Hms : monthStart y 0 <= monthStart y m).
  { destruct (Z.eq_dec m 0) as [->|]; [lia|]. pose proof (monthStart_mono y 0 m). lia. }
  assert (Hme : monthStart y (m + 1) <= monthStart y 12).
  { destruct (Z.eq_dec m 11) as [->|]; [change (11 + 1) with 12; lia|]. pose proof (monthStart_mono y (m + 1) 12). lia. }
  pose proof (monthStart_values y) as (E0 & _ & _ & _ & _ & _ & _ & _ & _ & _ & _ & _ & E12).
  assert (En : makeDay y m d = dayFromYear y + monthStart y m + d - 1).
  { unfold makeDay. by rewrite Z.div_small, Z.mod_small, Z.add_0_r by lia. }
  assert (Hy : yearFromDay (makeDay y m d) = y).
  { apply yearFromDay_unique. rewrite dayFromYear_succ, En. lia. }
  pose proof (monthFromDay_spec (makeDay y m d)) as [Hm1 Hm2].
  unfold dayInYear in Hm2. rewrite Hy, En in Hm2.
  assert (Hmm : monthFromDay (makeDay y m d) = m).
  { rewrite En in *. remember (monthFromDay _) as m' eqn:Em'. clear Em'.
    destruct (Z.lt_trichotomy m' m) as [Hlt|[Heq|Hlt]]; [|exact Heq|].
    - destruct (Z.eq_dec (m' + 1) m) as [E|]; [rewrite E in *; lia|].
      pose proof (monthStart_mono y (m' + 1) m). lia.
    - destruct (Z.eq_dec (m + 1) m') as [E|]; [rewrite E in *; lia|].
      pose proof (monthStart_mono y (m + 1) m'). lia. }
  repeat split; [done..|]. unfold dateFromDay, dayInYear. rewrite Hy, Hmm, En. lia.
Qed.

(** ** Text form *)

(** The year of [toISOString]: four digits, or a sign and six. *)
Definition showYear (y : Z) : string :=
  if (0 <=? y) && (y <=? 9999) then padDigits 4 y
  else if y <? 0 then "-" +:+ padDigits 6 (- y) else "+" +:+ padDigits 6 y.

Definition isoDate (t : Z) : string :=
  showYear (getUTCFullYear t) +:+ "-" +:+ padDigits 2 (getUTCMonth t + 1)
  +:+ "-" +:+ padDigits 2 (getUTCDate t).

Definition isoTime (t : Z) : string :=
  padDigits 2 (getUTCHours t) +:+ ":" +:+ padDigits 2 (getUTCMinutes t)
  +:+ ":" +:+ padDigits 2 (getUTCSeconds t) +:+ "." +:+ padDigits 3 (getUTCMilliseconds t)
  +:+ "Z".

Definition toISOString (t : Z) : string := isoDate t +:+ "T" +:+ isoTime t.

Record IsoFields := mkIso {
  isoY : Z; isoMo : Z; isoD : Z; isoH : Z; isoMi : Z; isoS : Z; isoMs : Z;
}.

Definition digitsThenZ (n : nat) (s : string) : option Z :=
  '(v, r) ← parseDigits n s; if bool_decide (r = "Z") then Some v else None.

(** The optional [.d], [.dd] or [.ddd] before [Z], as milliseconds. *)
Definition parseFraction (s : string) : option Z :=
  if bool_decide (s = "Z") then Some 0 else
  s' ← expectChar "."%char s;
  match digitsThenZ 3 s' with
  | Some ms => Some ms
  | None =>
      match digitsThenZ 2 s' with
      | Some cs => Some (cs * 10)
      | None => ds ← digitsThenZ 1 s'; Some (ds * 100)
      end
  end.

(** [-(\d{2})-(\d{2})T(\d{2}):(\d{2}):(\d{2})(?:\.(\d{1,3}))?Z] *)
Definition parseAfterYear (y : Z) (s : string) : option IsoFields :=
  s ← expectChar "-"%char s; '(mo, s) ← parseDigits 2 s;
  s ← expectChar "-"%char s; '(d, s) ← parseDigits 2 s;
  s ← expectChar "T"%char s; '(h, s) ← parseDigits 2 s;
  s ← expectChar ":"%char s; '(mi, s) ← parseDigits 2 s;
  s ← expectChar ":"%char s; '(sc, s) ← parseDigits 2 s;
  ms ← parseFraction s;
  Some (mkIso y mo d h mi sc ms).

(** [/^(\d{4})-(\d{2})-(\d{2})T(\d{2}):(\d{2}):(\d{2})(?:\.(\d{1,3}))?Z$/] *)
Definition matchInstant (s : string) : option IsoFields :=
  '(y, s) ← parseDigits 4 s; parseAfterYear y s.

(** The same with an expanded year, which [Date.parse] also reads. *)
Definition matchExpanded (s : string) : option IsoFields :=
  match s with
  | String "+"%char s' => '(y, s) ← parseDigits 6 s'; parseAfterYear y s
  | String "-"%char s' =>
      '(y, s) ← parseDigits 6 s'; if y =? 0 then None else parseAfterYear (- y) s
  | _ => None
  end.

(** The element ranges the host parser accepts: day 1 to 31 in every month
    (a day past the end carries over) and 24:00:00 as the end of the day. *)
Definition isoInRange (f : IsoFields) : bool :=
  (1 <=? isoMo f) && (isoMo f <=? 12) && (1 <=? isoD f) && (isoD f <=? 31)
  && (isoMi f <=? 59) && (isoS f <=? 59)
  && ((isoH f <=? 23) || ((isoH f =? 24) && (isoMi f =? 0) && (isoS f =? 0) && (isoMs f =? 0))).

Definition isoValue (f : IsoFields) : Z :=
  makeDay (isoY f) (isoMo f - 1) (isoD f) * msPerDay
  + isoH f * 3600000 + isoMi f * 60000 + isoS f * 1000 + isoMs f.

(** The greatest magnitude of a time value. *)
Definition timeClip (t : Z) : option Z :=
  if (- 8640000000000000 <=? t) && (t <=? 8640000000000000) then Some t else None.

(** [new Date(s).getTime()], [None] for [NaN]. *)
Definition dateParse (s : string) : option Z :=
  f ← (match matchInstant s with Some f => Some f | None => matchExpanded s end);
  if isoInRange f then timeClip (isoValue f) else None.

(** Milliseconds whose text has a four-digit year: 0000-01-01T00:00:00.000Z
    to 9999-12-31T23:59:59.999Z. *)
Definition fourDigitYear (t : Z) : bool :=
  (0 <=? getUTCFullYear t) && (getUTCFullYear t <=? 9999).

(** ** Round trip *)

Lemma timeFields_range t :
  0 <= getUTCHours t <= 23 /\ 0 <= getUTCMinutes t <= 59 /\
  0 <= getUTCSeconds t <= 59 /\ 0 <= getUTCMilliseconds t <= 999.
Proof.
  unfold getUTCHours, getUTCMinutes, getUTCSeconds, getUTCMilliseconds, msPerDay. div_lia.
Qed.

Lemma timeFields_value t :
  t = t / msPerDay * msPerDay + getUTCHours t * 3600000 + getUTCMinutes t * 60000
      + getUTCSeconds t * 1000 + getUTCMilliseconds t.
Proof.
  unfold getUTCHours, getUTCMinutes, getUTCSeconds, getUTCMilliseconds, msPerDay. div_lia.
Qed.

Lemma daysInMonth_le y m : 0 <= m <= 11 -> 28 <= daysInMonth y m <= 31.
Proof.
  intros Hm. unfold daysInMonth. pose proof (monthStart_values y) as
    (E0 & E1 & E2 & E3 & E4 & E5 & E6 & E7 & E8 & E9 & E10 & E11 & E12).
  pose proof (leapDay_range y).
  assert (Hc : m = 0 \/ m = 1 \/ m = 2 \/ m = 3 \/ m = 4 \/ m = 5 \/
    m = 6 \/ m = 7 \/ m = 8 \/ m = 9 \/ m = 10 \/ m = 11) by lia.
  destruct_or! Hc; rewrite Hc in *;
    match goal with |- context [monthStart _ (?m + 1)] =>
      let m' := eval cbv in (m + 1) in change (m + 1) with m' end; lia.
Qed.

Lemma dateFields_range t :
  0 <= getUTCMonth t <= 11 /\ 1 <= getUTCDate t <= 31.
Proof.
  unfold getUTCMonth, getUTCDate. pose proof (monthFromDay_spec (t / msPerDay)) as [Hm _].
  pose proof (dateFromDay_range (t / msPerDay)) as Hd. split; [done|].
  pose proof (daysInMonth_le (yearFromDay (t / msPerDay)) _ Hm). lia.
Qed.

Lemma getUTCDate_le t :
  1 <= getUTCDate t <= daysInMonth (getUTCFullYear t) (getUTCMonth t).
Proof. apply dateFromDay_range. Qed.

Definition isoFieldsOf (t : Z) : IsoFields :=
  mkIso (getUTCFullYear t) (getUTCMonth t + 1) (getUTCDate t)
    (getUTCHours t) (getUTCMinutes t) (getUTCSeconds t) (getUTCMilliseconds t).

Lemma isoValue_fields t : isoValue (isoFieldsOf t) = t.
Proof.
  unfold isoValue, isoFieldsOf; cbn. rewrite Z.add_simpl_r.
  unfold getUTCFullYear, getUTCMonth, getUTCDate. rewrite makeDay_fields.
  symmetry. apply timeFields_value.
Qed.

Lemma isoInRange_fields t : isoInRange (isoFieldsOf t) = true.
Proof.
  pose proof (timeFields_range t). pose proof (dateFields_range t).
  unfold isoInRange, isoFieldsOf; cbn. bool_lia.
Qed.

Lemma expectChar_hit c s : expectChar c (String c s) = Some s.
Proof. cbn. by rewrite bool_decide_true. Qed.

Lemma parseFraction_pad ms :
  0 <= ms <= 999 -> parseFraction ("." +:+ padDigits 3 ms +:+ "Z") = Some ms.
Proof.
  intros H. unfold parseFraction. rewrite strapp_cons, strapp_nil, expectChar_hit.
  rewrite bool_decide_false by done. cbn [mbind option_bind]. unfold digitsThenZ.
  rewrite parseDigits_pad by (cbn; lia). cbn. by rewrite bool_decide_true.
Qed.

Lemma digitsThenZ_range n s v : digitsThenZ n s = Some v -> 0 <= v < 10 ^ Z.of_nat n.
Proof.
  unfold digitsThenZ. intros ([w r] & [Hw _]%parseDigits_Some & Hz)%bind_Some.
  cbn in Hz. case_bool_decide; by simplify_eq.
Qed.

Lemma parseFraction_range s ms : parseFraction s = Some ms -> 0 <= ms <= 999.
Proof.
  unfold parseFraction. case_bool_decide; [intros [= <-]; lia|].
  intros (s' & _ & Hf)%bind_Some.
  destruct (digitsThenZ 3 s') eqn:E3; [|destruct (digitsThenZ 2 s') eqn:E2].
  - injection Hf as ->. apply digitsThenZ_range in E3. cbn in E3. lia.
  - injection Hf as <-. apply digitsThenZ_range in E2. cbn in E2. lia.
  - apply bind_Some in Hf as (ds & E1%digitsThenZ_range & [= <-]). cbn in E1. lia.
Qed.

Lemma parseAfterYear_iso y mo d h mi sc ms :
  0 <= mo <= 99 -> 0 <= d <= 99 -> 0 <= h <= 99 -> 0 <= mi <= 99 -> 0 <= sc <= 99 ->
  0 <= ms <= 999 ->
  parseAfterYear y ("-" +:+ padDigits 2 mo +:+ "-" +:+ padDigits 2 d +:+ "T" +:+
    padDigits 2 h +:+ ":" +:+ padDigits 2 mi +:+ ":" +:+ padDigits 2 sc +:+
    "." +:+ padDigits 3 ms +:+ "Z") = Some (mkIso y mo d h mi sc ms).
Proof.
  intros. unfold parseAfterYear.
  repeat (rewrite ?(strapp_cons "-"%char), ?(strapp_cons ":"%char), ?(strapp_cons "T"%char), ?strapp_nil;
          rewrite expectChar_hit; cbn [mbind option_bind]; rewrite parseDigits_pad by (cbn; lia);
          cbn [mbind option_bind]).
  by rewrite parseFraction_pad.
Qed.

Lemma matchInstant_toISOString t :
  fourDigitYear t = true -> matchInstant (toISOString t) = Some (isoFieldsOf t).
Proof.
  unfold fourDigitYear. intros Hy. unfold toISOString, isoDate, showYear. rewrite Hy. bools.
  pose proof (timeFields_range t). pose proof (dateFields_range t).
  unfold matchInstant, isoTime. rewrite !strapp_assoc.
  rewrite parseDigits_pad by (cbn; lia). cbn [mbind option_bind].
  by rewrite parseAfterYear_iso by lia.
Qed.

Lemma fourDigitYear_bounds t :
  fourDigitYear t = true -> -62167219200000 <= t <= 253402300799999.
Proof.
  unfold fourDigitYear, getUTCFullYear. intros H; bools.
  pose proof (yearFromDay_spec (t / msPerDay)) as Hs.
  assert (dayFromYear 0 <= t / msPerDay < dayFromYear 10000).
  { split.
    - destruct (Z.eq_dec (yearFromDay (t / msPerDay)) 0) as [E|]; [rewrite E in *; lia|].
      pose proof (dayFromYear_mono 0 (yearFromDay (t / msPerDay))). lia.
    - destruct (Z.eq_dec (yearFromDay (t / msPerDay) + 1) 10000) as [E|]; [rewrite E in *; lia|].
      pose proof (dayFromYear_mono (yearFromDay (t / msPerDay) + 1) 10000). lia. }
  change (dayFromYear 0) with (-719528) in *. change (dayFromYear 10000) with 2932897 in *.
  unfold msPerDay in *. div_lia.
Qed.

Lemma timeClip_fourDigit t : fourDigitYear t = true -> timeClip t = Some t.
Proof.
  intros Hy. pose proof (fourDigitYear_bounds _ Hy). unfold timeClip.
  destruct (_ && _) eqn:E; [done|]. exfalso. bool_lia.
Qed.

(** Parsing the ISO text of an instant gives the instant. *)
Lemma dateParse_toISOString t : fourDigitYear t = true -> dateParse (toISOString t) = Some t.
Proof.
  intros Hy. unfold dateParse. rewrite matchInstant_toISOString by done. cbn.
  rewrite isoInRange_fields, isoValue_fields. by apply timeClip_fourDigit.
Qed.

Lemma toISOString_inj s t :
  fourDigitYear s = true -> fourDigitYear t = true -> toISOString s = toISOString t -> s = t.
Proof.
  intros Hs Ht E. apply dateParse_toISOString in Hs, Ht. congruence.
Qed.

Lemma parseAfterYear_year y s f : parseAfterYear y s = Some f -> isoY f = y.
Proof.
  unfold parseAfterYear. intros H.
  repeat (apply bind_Some in H as ([? ?] & _ & H) || apply bind_Some in H as (? & _ & H)).
  by injection H as <-.
Qed.

Lemma matchInstant_year s f : matchInstant s = Some f -> 0 <= isoY f <= 9999.
Proof.
  unfold matchInstant. intros ([y r] & [Hy _]%parseDigits_Some & Hf)%bind_Some.
  apply parseAfterYear_year in Hf as ->. cbn in Hy. lia.
Qed.

(** ** Expanded years *)

Definition validTime (t : Z) : Prop := -8640000000000000 <= t <= 8640000000000000.

Lemma validTime_fourDigit t : fourDigitYear t = true -> validTime t.
Proof. intros H%fourDigitYear_bounds. unfold validTime. lia. Qed.

Lemma timeClip_Some t u : timeClip t = Some u <-> u = t /\ validTime t.
Proof.
  unfold timeClip, validTime. destruct (_ && _) eqn:E.
  - bools. naive_solver.
  - split; [done|]. intros [_ H]. exfalso. bool_lia.
Qed.

Lemma validTime_year t : validTime t -> -999999 <= getUTCFullYear t <= 999999.
Proof.
  unfold validTime, getUTCFullYear. intros H. pose proof (yearFromDay_spec (t / msPerDay)) as Hs.
  assert (Hd : -200000000 <= t / msPerDay <= 200000000) by (unfold msPerDay; div_lia).
  set (y := yearFromDay (t / msPerDay)) in *.
  destruct (Z.le_gt_cases (-999999) y) as [Hl|Hl].
  - split; [done|]. destruct (Z.le_gt_cases y 999999) as [|Hg]; [done|].
    pose proof (dayFromYear_mono 999999 y ltac:(lia)) as Hm.
    change (dayFromYear 999999) with 364522607 in Hm. lia.
  - pose proof (dayFromYear_mono y (-999999) ltac:(lia)) as Hm.
    destruct (Z.eq_dec (y + 1) (-999999)) as [E|E].
    + rewrite E in Hs. change (dayFromYear (-999999)) with (-365961662) in *. lia.
    + pose proof (dayFromYear_mono (y + 1) (-999999) ltac:(lia)).
      change (dayFromYear (-999999)) with (-365961662) in *. lia.
Qed.

Lemma matchInstant_sign c s : isDigit c = false -> matchInstant (String c s) = None.
Proof. intros H. unfold matchInstant, parseDigits. cbn [parseDigitsAcc]. by rewrite H. Qed.

Lemma matchExpanded_toISOString t :
  validTime t -> fourDigitYear t = false ->
  matchInstant (toISOString t) = None /\ matchExpanded (toISOString t) = Some (isoFieldsOf t).
Proof.
  unfold fourDigitYear. intros Hv%validTime_year Hy. unfold toISOString, isoDate, showYear. rewrite Hy.
  pose proof (timeFields_range t). pose proof (dateFields_range t). unfold isoTime.
  destruct (getUTCFullYear t <? 0) eqn:Hneg; bools; rewrite !strapp_assoc, strapp_cons, strapp_nil.
  - split; [by apply matchInstant_sign|]. cbn [matchExpanded].
    rewrite parseDigits_pad by (cbn; lia). cbn [mbind option_bind].
    rewrite (proj2 (Z.eqb_neq _ _)), Z.opp_involutive by lia. by rewrite parseAfterYear_iso by lia.
  - split; [by apply matchInstant_sign|]. cbn [matchExpanded].
    rewrite parseDigits_pad by (cbn; lia). cbn [mbind option_bind].
    by rewrite parseAfterYear_iso by lia.
Qed.

(** Every time value is read back from its text. *)
Lemma dateParse_iso t : validTime t -> dateParse (toISOString t) = Some t.
Proof.
  intros Hv. destruct (fourDigitYear t) eqn:Hy; [by apply dateParse_toISOString|].
  destruct (matchExpanded_toISOString t Hv Hy) as [H1 H2].
  unfold dateParse. rewrite H1, H2. cbn [mbind option_bind].
  rewrite isoInRange_fields, isoValue_fields. by apply timeClip_Some.
Qed.
