(* ===== verification/JsEncoding.v ===== *)
(** * Texts as bytes

    [Buffer.from(text, 'utf8').toString('base64url')]: the encoding of page
    cursors.  The code units of the model are 0 to 255, so a text encodes to one
    or two bytes a unit. *)

From S2P Require Import Prelude JsStd.

(** ** UTF-8 *)

Definition utf8Unit (c : ascii) : list Z :=
  let n := codeUnit c in if n <? 128 then [n] else [192 + n / 64; 128 + n mod 64].

Definition utf8Bytes (s : string) : list Z := flat_map utf8Unit (chars s).

(** ** Base64 with the alphabet of URLs, without padding *)

Definition base64Digit (d : Z) : ascii :=
  ascii_of_N (Z.to_N (if d <? 26 then 65 + d else if d <? 52 then 71 + d else if d <? 62 then d - 4
                      else if d =? 62 then 45 else 95)).

Fixpoint base64Sextets (bytes : list Z) : list Z :=
  match bytes with
  | a :: b :: c :: rest => [a / 4; a mod 4 * 16 + b / 16; b mod 16 * 4 + c / 64; c mod 64] ++ base64Sextets rest
  | [a; b] => [a / 4; a mod 4 * 16 + b / 16; b mod 16 * 4]
  | [a] => [a / 4; a mod 4 * 16]
  | [] => []
  end.

Definition base64url (bytes : list Z) : string := ofChars (map base64Digit (base64Sextets bytes)).
