(* ===== verification/ContractHelpers.v ===== *)
(** * Scheduling contract helpers

    apps/api-v2/src/scheduling/contract-helpers.ts: the schedule entity tag and
    its precondition header, idempotency keys, the canonical JSON text that is
    hashed into request identities, UTC instants and shift roles.

    A value that may be absent is an [option]; a value that may be absent or
    [null] is an [option (option _)], [None] being [undefined].  SHA-256 is an
    argument ([Sha256]). *)

From S2P Require Import Prelude JsStd JsCollections JsDate.

Class Sha256 := sha256 : string -> string.

Definition dquote : ascii := "034"%char.

(** ** Entity tags *)

Definition scheduleEtag (schedulePublicId : string) (revision : Z) : string :=
  String dquote ("schedule:" +:+ schedulePublicId +:+ ":" +:+ showZ revision
                 +:+ String dquote "").

Fixpoint stripPrefix (p l : list ascii) : option (list ascii) :=
  match p, l with
  | [], _ => Some l
  | a :: p', b :: l' => if bool_decide (a = b) then stripPrefix p' l' else None
  | _ :: _, [] => None
  end.

Definition isLowerHexDash (c : ascii) : bool := isLowerHex c || bool_decide (c = "-"%char).

(** [/^"schedule:([0-9a-f-]{36}):(\d+)"$/] *)
Definition matchScheduleEtag (s : string) : option (string * string) :=
  rest ← stripPrefix (dquote :: chars "schedule:") (chars s);
  let ident := take 36 rest in
  if (length ident =? 36)%nat && forallb isLowerHexDash ident then
    rest ← stripPrefix (chars ":") (drop 36 rest);
    match reverse rest with
    | c :: ds =>
        let digits := reverse ds in
        if bool_decide (c = dquote) && negb (bool_decide (digits = [])) && forallb isDigit digits
        then Some (ofChars ident, ofChars digits) else None
    | [] => None
    end
  else None.

Definition requireScheduleRevision (ifMatch : option string) (schedulePublicId : string)
    : Result Z :=
  match ifMatch with
  | None =>
      throwProblem 428 "if_match_required"
        "This scheduling write requires an If-Match header from the latest board response."
        "Precondition required"
  | Some header =>
      if isEmpty (trim header) then
        throwProblem 428 "if_match_required"
          "This scheduling write requires an If-Match header from the latest board response."
          "Precondition required"
      else
        match matchScheduleEtag (trim header) with
        | Some (ident, digits) =>
            if bool_decide (ident = schedulePublicId) then
              let revision := digitsValue digits in
              if negb (isSafeInteger revision) || (revision <? 0) then
                throwProblem 428 "invalid_if_match"
                  "If-Match must contain a valid schedule revision." "Precondition required"
              else Ok revision
            else
              throwProblem 428 "invalid_if_match"
                "If-Match must contain the selected schedule ETag." "Precondition required"
        | None =>
            throwProblem 428 "invalid_if_match"
              "If-Match must contain the selected schedule ETag." "Precondition required"
        end
  end.

(** ** Idempotency keys *)

(** [[A-Za-z0-9._:-]] *)
Definition isKeyChar (c : ascii) : bool :=
  isAlnum c || bool_decide (c = "."%char) || bool_decide (c = "_"%char)
  || bool_decide (c = ":"%char) || bool_decide (c = "-"%char).

Definition requireIdempotencyKey (value : option string) : Result string :=
  let normalized := trim (default "" value) in
  if allChars isKeyChar normalized && (8 <=? strLen normalized) && (strLen normalized <=? 200)
  then Ok normalized
  else
    throwProblem 428 "idempotency_key_required"
      "This write requires an Idempotency-Key containing 8 to 200 safe characters."
      "Precondition required".

(** ** Canonical JSON *)

(** Values that reach the hash: numbers are the safe integers the contract
    schemas admit; a property may hold [undefined]. *)
Inductive Json :=
  | JNull
  | JBool (b : bool)
  | JNum (n : Z)
  | JStr (s : string)
  | JArr (l : list Json)
  | JObj (entries : list (string * option Json)).

(** A property of an object literal. *)
Definition field (k : string) (v : Json) : string * option Json := (k, Some v).

Definition hexDigit (d : Z) : ascii :=
  if d <? 10 then digitChar d else ascii_of_N (Z.to_N (87 + d)).

(** QuoteJSONString on one code unit. *)
Definition quoteChar (c : ascii) : list ascii :=
  let n := codeUnit c in
  if n =? 34 then ["\"%char; dquote]
  else if n =? 92 then ["\"%char; "\"%char]
  else if n =? 8 then ["\"%char; "b"%char]
  else if n =? 9 then ["\"%char; "t"%char]
  else if n =? 10 then ["\"%char; "n"%char]
  else if n =? 12 then ["\"%char; "f"%char]
  else if n =? 13 then ["\"%char; "r"%char]
  else if n <? 32 then
    ["\"%char; "u"%char; "0"%char; "0"%char; hexDigit (n / 16); hexDigit (n mod 16)]
  else [c].

(** [JSON.stringify] of a string. *)
Definition quoteJson (s : string) : string :=
  ofChars (dquote :: flat_map quoteChar (chars s) ++ [dquote]).

Definition joinWith (sep : string) (l : list string) : string :=
  match l with
  | [] => ""
  | x :: l' => fold_left (fun acc y => acc +:+ sep +:+ y) l' x
  end.

Section Canonical.
Context `{LC : LocaleCompare}.

(** Entries by key, as [.sort(([left], [right]) => left.localeCompare(right))]. *)
Definition byKey {A} (l r : string * A) : Z := localeCompare l.1 r.1.

(** The source filters, sorts and then prints each entry; here the entries
    are printed before the sort, which reads the keys only. *)
Fixpoint canonicalJson (value : Json) : string :=
  match value with
  | JArr l => "[" +:+ joinWith "," (map canonicalJson l) +:+ "]"
  | JNull => "null"
  | JBool b => if b then "true" else "false"
  | JNum n => showZ n
  | JStr s => quoteJson s
  | JObj entries =>
      let printed := (fix go (es : list (string * option Json)) : list (string * string) :=
        match es with
        | [] => []
        | (k, Some v) :: es' => (k, canonicalJson v) :: go es'
        | (_, None) :: es' => go es'
        end) entries in
      "{" +:+ joinWith "," (map (fun e => quoteJson e.1 +:+ ":" +:+ e.2) (sortBy byKey printed))
      +:+ "}"
  end.

Definition requestHash `{Sha256} (value : Json) : string := sha256 (canonicalJson value).
End Canonical.

(** ** Instants and roles *)

Definition parseUtcInstant (value ptr : string) : Result Z :=
  let refuse := Throw (Problem (mkProblem 422 "invalid_utc_instant"
    "Scheduling instants must use a real UTC ISO 8601 value ending in Z."
    "Schedule validation failed"
    (Some [mkViolation ptr "invalid_utc_instant" "Use a UTC ISO 8601 instant ending in Z."])
    None None)) in
  match matchInstant value, dateParse value with
  | Some f, Some parsed =>
      if (getUTCFullYear parsed =? isoY f) && (getUTCMonth parsed =? isoMo f - 1)
         && (getUTCDate parsed =? isoD f) && (getUTCHours parsed =? isoH f)
         && (getUTCMinutes parsed =? isoMi f) && (getUTCSeconds parsed =? isoS f)
      then Ok parsed else refuse
  | _, _ => refuse
  end.

Definition normalizedRole (value : option (option string)) : Result (option (option string)) :=
  match value with
  | None => Ok None
  | Some None => Ok (Some None)
  | Some (Some v) =>
      if isEmpty (trim v) then Ok (Some None)
      else if 64 <? strLen (trim v) then
        throwProblem 422 "invalid_shift_role"
          "Shift roles must contain 64 characters or fewer." "Schedule validation failed"
      else Ok (Some (Some (trim v)))
  end.

(** ** Entity tag round trip *)

Lemma stripPrefix_app p l : stripPrefix p (p ++ l) = Some l.
Proof. induction p as [|a p IH]; cbn; [done|]. by rewrite bool_decide_true. Qed.

Lemma forallb_isWhite_solid (P : ascii -> bool) s :
  (forall c, P c = true -> isWhite c = false) -> allChars P s = true ->
  allChars (fun c => negb (isWhite c)) s = true.
Proof.
  unfold allChars. rewrite !forallb_forall. intros H Hs c Hc. by rewrite (H c), ?Hs by auto.
Qed.

Lemma isDigit_not_white c : isDigit c = true -> isWhite c = false.
Proof. unfold isDigit, isWhite. intros; bool_lia. Qed.

Lemma isLowerHexDash_not_white c : isLowerHexDash c = true -> isWhite c = false.
Proof.
  unfold isLowerHexDash, isLowerHex, isDigit, isWhite. rewrite orb_true_iff, bool_decide_eq_true.
  intros [H| ->]; [|done]. bool_lia.
Qed.

Lemma trim_scheduleEtag i r :
  allChars isLowerHexDash i = true -> 0 <= r -> trim (scheduleEtag i r) = scheduleEtag i r.
Proof.
  intros Hi Hr. apply trim_all_solid. unfold scheduleEtag, showZ.
  rewrite (proj2 (Z.ltb_ge r 0) Hr).
  rewrite allChars_cons, !allChars_app, allChars_cons.
  rewrite (forallb_isWhite_solid _ _ isLowerHexDash_not_white Hi).
  by rewrite (forallb_isWhite_solid _ _ isDigit_not_white (proj1 (proj2 (showNat_spec r Hr)))).
Qed.

Lemma matchScheduleEtag_scheduleEtag i r :
  allChars isLowerHexDash i = true -> String.length i = 36%nat -> 0 <= r ->
  matchScheduleEtag (scheduleEtag i r) = Some (i, showNat r).
Proof.
  intros Hi Hl Hr. unfold matchScheduleEtag, scheduleEtag, showZ.
  rewrite (proj2 (Z.ltb_ge r 0) Hr). rewrite (chars_cons dquote), !chars_app.
  change (dquote :: chars "schedule:" ++ ?x) with ((dquote :: chars "schedule:") ++ x).
  rewrite stripPrefix_app. cbn [mbind option_bind].
  rewrite take_app_length', drop_app_length' by (by rewrite length_chars).
  rewrite length_chars, Hl. change (forallb _ (chars i)) with (allChars isLowerHexDash i).
  rewrite Hi. cbn [andb Nat.eqb]. rewrite stripPrefix_app. cbn [mbind option_bind].
  change (chars (String dquote "")) with [dquote].
  rewrite reverse_snoc, reverse_involutive.
  pose proof (showNat_spec r Hr) as (Hne & Hd & _).
  rewrite bool_decide_true, bool_decide_false by (done || by destruct (showNat r)).
  change (forallb isDigit (chars (showNat r))) with (allChars isDigit (showNat r)).
  by rewrite Hd, !ofChars_chars.
Qed.

(** The revision precondition is the inverse of the entity tag: sending
    back the tag of a board response yields exactly the revision it was
    issued for. *)
Theorem requireScheduleRevision_etag i r :
  allChars isLowerHexDash i = true -> String.length i = 36%nat -> 0 <= r <= MAX_SAFE_INTEGER ->
  requireScheduleRevision (Some (scheduleEtag i r)) i = Ok r.
Proof.
  intros Hi Hl Hr. unfold requireScheduleRevision.
  rewrite trim_scheduleEtag, matchScheduleEtag_scheduleEtag by (done || lia).
  rewrite bool_decide_true by done. pose proof (showNat_spec r ltac:(lia)) as (_ & _ & ->).
  unfold isEmpty. rewrite bool_decide_false by done.
  destruct (_ || _) eqn:E; [|done]. unfold isSafeInteger in E. bool_lia.
Qed.

Lemma requireScheduleRevision_etag_witness :
  requireScheduleRevision (Some (scheduleEtag "0f8fad5b-d9cb-469f-a165-70867728950e" 41))
    "0f8fad5b-d9cb-469f-a165-70867728950e" = Ok 41.
Proof. apply requireScheduleRevision_etag; [reflexivity|reflexivity|vm_compute; split; discriminate]. Defined.

(** ** Instants *)

Definition realInstant (f : IsoFields) : Prop :=
  1 <= isoMo f <= 12 /\ 1 <= isoD f <= daysInMonth (isoY f) (isoMo f - 1) /\
  0 <= isoH f <= 23 /\ 0 <= isoMi f <= 59 /\ 0 <= isoS f <= 59.

Lemma parseAfterYear_nonneg y s f :
  parseAfterYear y s = Some f -> 0 <= isoH f /\ 0 <= isoMi f /\ 0 <= isoS f /\ 0 <= isoMs f <= 999.
Proof.
  unfold parseAfterYear.
  intros (s1 & _ & ([mo s2] & _ & (s3 & _ & ([d s4] & _ & (s5 & _ & ([h s6] & Hh & (s7 & _ &
    ([mi s8] & Hm & (s9 & _ & ([sc s10] & Hs & (ms & Hf & [= <-])%bind_Some)%bind_Some
    )%bind_Some)%bind_Some)%bind_Some)%bind_Some)%bind_Some)%bind_Some)%bind_Some)%bind_Some)%bind_Some.
  apply parseDigits_Some in Hh as [? _], Hm as [? _], Hs as [? _].
  apply parseFraction_range in Hf. cbn. lia.
Qed.

Lemma isoValue_getters f :
  realInstant f -> 0 <= isoMs f <= 999 ->
  getUTCFullYear (isoValue f) = isoY f /\ getUTCMonth (isoValue f) = isoMo f - 1 /\
  getUTCDate (isoValue f) = isoD f /\ getUTCHours (isoValue f) = isoH f /\
  getUTCMinutes (isoValue f) = isoMi f /\ getUTCSeconds (isoValue f) = isoS f.
Proof.
  intros (Hmo & Hd & Hh & Hmi & Hs) Hms.
  assert (Hday : isoValue f / msPerDay = makeDay (isoY f) (isoMo f - 1) (isoD f)).
  { unfold isoValue, msPerDay. div_lia. }
  pose proof (fields_makeDay (isoY f) (isoMo f - 1) (isoD f) ltac:(lia) Hd) as (E1 & E2 & E3).
  unfold getUTCFullYear, getUTCMonth, getUTCDate. rewrite Hday, E1, E2, E3.
  unfold getUTCHours, getUTCMinutes, getUTCSeconds, isoValue, msPerDay in *.
  repeat split; div_lia.
Qed.

Lemma isoInRange_real f : realInstant f -> isoInRange f = true.
Proof.
  intros (Hmo & Hd & Hh & Hmi & Hs). unfold isoInRange.
  pose proof (daysInMonth_le (isoY f) (isoMo f - 1) ltac:(lia)). bool_lia.
Qed.

Lemma matchInstant_ms value f : matchInstant value = Some f -> 0 <= isoMs f <= 999.
Proof.
  intros Hf. unfold matchInstant in Hf. apply bind_Some in Hf as ([y r] & _ & Hf).
  by apply parseAfterYear_nonneg in Hf as (_ & _ & _ & Hms).
Qed.

Lemma parseUtcInstant_real value ptr f :
  matchInstant value = Some f -> realInstant f -> parseUtcInstant value ptr = Ok (isoValue f).
Proof.
  intros Hf Hreal. pose proof (matchInstant_year _ _ Hf) as Hy.
  pose proof (matchInstant_ms _ _ Hf) as Hms.
  pose proof (isoValue_getters f Hreal Hms) as (E1 & E2 & E3 & E4 & E5 & E6).
  assert (Hc : timeClip (isoValue f) = Some (isoValue f)).
  { apply timeClip_fourDigit. unfold fourDigitYear. rewrite E1. bool_lia. }
  unfold parseUtcInstant, dateParse. rewrite Hf. cbn [mbind option_bind].
  rewrite isoInRange_real, Hc by done. by rewrite E1, E2, E3, E4, E5, E6, !Z.eqb_refl.
Qed.

Lemma parseUtcInstant_Ok_real value ptr t :
  parseUtcInstant value ptr = Ok t ->
  exists f, matchInstant value = Some f /\ realInstant f /\ t = isoValue f.
Proof.
  unfold parseUtcInstant, dateParse.
  destruct (matchInstant value) as [f|] eqn:Hf; [|done]. cbn [mbind option_bind].
  destruct (isoInRange f) eqn:Hr; [|done]. unfold timeClip.
  destruct (_ && _) eqn:Hg0; [|done]. clear Hg0. destruct (_ && _) eqn:Hg; [|done].
  intros [= <-]. exists f. split; [done|]. split; [|done].
  clear Hr Hf. remember (isoValue f) as t eqn:Et. clear Et.
  apply andb_true_iff in Hg as [[[[[Hy Hmo]%andb_true_iff Hd]%andb_true_iff
    Hh]%andb_true_iff Hmi]%andb_true_iff Hs].
  apply Z.eqb_eq in Hy, Hmo, Hd, Hh, Hmi, Hs.
  pose proof (timeFields_range t). pose proof (dateFields_range t).
  pose proof (getUTCDate_le t) as Hdr. rewrite Hy, Hmo in Hdr. unfold realInstant. lia.
Qed.

(** [parseUtcInstant] accepts exactly the texts of the contract format
    whose date is a real calendar day (leap years included) and whose time is
    at most 23:59:59, and returns their time value; every other text, such as
    February 30 or 24:00:00, is refused. *)
Theorem parseUtcInstant_accepts value ptr t :
  parseUtcInstant value ptr = Ok t <->
  exists f, matchInstant value = Some f /\ realInstant f /\ t = isoValue f.
Proof.
  split; [apply parseUtcInstant_Ok_real|].
  intros (f & Hf & Hreal & ->). by apply parseUtcInstant_real.
Qed.

Lemma parseUtcInstant_fourDigit value ptr t :
  parseUtcInstant value ptr = Ok t -> fourDigitYear t = true.
Proof.
  intros (f & Hf & Hreal & ->)%parseUtcInstant_Ok_real.
  pose proof (matchInstant_year _ _ Hf) as Hy. pose proof (matchInstant_ms _ _ Hf) as Hms.
  pose proof (isoValue_getters f Hreal Hms) as (E1 & _). unfold fourDigitYear. rewrite E1. bool_lia.
Qed.

(** The text of an instant is accepted as that instant. *)
Lemma parseUtcInstant_toISOString t ptr :
  fourDigitYear t = true -> parseUtcInstant (toISOString t) ptr = Ok t.
Proof.
  intros Hy. unfold parseUtcInstant.
  rewrite matchInstant_toISOString, dateParse_toISOString by done. cbn.
  by rewrite Z.add_simpl_r, !Z.eqb_refl.
Qed.


(** ** Request identities ignore property order *)

(** Two values a client may send for the same request: object properties in
    another order, [undefined] properties present or absent, at any depth. *)
Inductive JsonEq : Json -> Json -> Prop :=
  | JsonEq_refl v : JsonEq v v
  | JsonEq_sym v w : JsonEq v w -> JsonEq w v
  | JsonEq_trans v w x : JsonEq v w -> JsonEq w x -> JsonEq v x
  | JsonEq_arr l v w r : JsonEq v w -> JsonEq (JArr (l ++ v :: r)) (JArr (l ++ w :: r))
  | JsonEq_obj l k v w r :
      JsonEq v w -> JsonEq (JObj (l ++ (k, Some v) :: r)) (JObj (l ++ (k, Some w) :: r))
  | JsonEq_drop l k r : JsonEq (JObj (l ++ (k, None) :: r)) (JObj (l ++ r))
  | JsonEq_perm es es' : NoDup es.*1 -> es ≡ₚ es' -> JsonEq (JObj es) (JObj es').

#[global] Instance JsonEq_equivalence : Equivalence JsonEq.
Proof. split; [exact JsonEq_refl|exact JsonEq_sym|exact JsonEq_trans]. Qed.

Section CanonicalFacts.
Context `{LC : LocaleCompare, !LocaleCompareLaws LC}.

Definition printEntry (e : string * option Json) : list (string * string) :=
  match e.2 with Some v => [(e.1, canonicalJson v)] | None => [] end.

Lemma canonicalJson_obj es :
  canonicalJson (JObj es) =
  "{" +:+ joinWith "," (map (fun e => quoteJson e.1 +:+ ":" +:+ e.2)
    (sortBy byKey (flat_map printEntry es))) +:+ "}".
Proof.
  cbn [canonicalJson]. do 5 f_equal.
  induction es as [|[k [v|]] es IH]; cbn; [done|by rewrite IH|done].
Qed.

Lemma printed_keys es k : k ∈ (flat_map printEntry es).*1 -> k ∈ es.*1.
Proof. induction es as [|[k' [v|]] es IH]; cbn; set_solver. Qed.

Lemma NoDup_printed es : NoDup es.*1 -> NoDup (flat_map printEntry es).*1.
Proof.
  induction es as [|[k [v|]] es IH]; cbn; [constructor|..]; rewrite NoDup_cons; intros [Hn Hd];
    [|auto].
  rewrite NoDup_cons. split; [|auto]. intros ?%printed_keys. done.
Qed.

(** Distinct keys are never tied in the sort. *)
Lemma byKey_inj (l : list (string * string)) :
  NoDup l.*1 -> forall x y, x ∈ l -> y ∈ l -> byKey x y = 0 -> x = y.
Proof.
  intros Hd x y Hx Hy E. unfold byKey in E. apply localeCompare_eq in E. destruct x as [kx vx], y as [ky vy]; cbn in E; subst ky.
  f_equal. apply mapGet_Some in Hx, Hy; [congruence|done..].
Qed.

#[global] Instance canonicalJson_proper : Proper (JsonEq ==> eq) canonicalJson.
Proof.
  intros v w. induction 1 as [v|v w _ IH|v w x _ IH1 _ IH2|l v w r _ IH|l k v w r _ IH|l k r|es es' Hd Hp].
  - done.
  - done.
  - by rewrite IH1.
  - cbn [canonicalJson]. rewrite !map_app. cbn. by rewrite IH.
  - rewrite !canonicalJson_obj, !flat_map_app. cbn. by rewrite IH.
  - by rewrite !canonicalJson_obj, !flat_map_app.
  - rewrite !canonicalJson_obj. do 4 f_equal.
    apply (sortBy_unique (A := string * string) byKey).
    + apply byKey_inj. by apply NoDup_printed.
    + by apply Permutation_flat_map.
Qed.

(** The request hash is a property of the request, not of how its text
    was written: equivalent bodies (properties reordered or [undefined], at
    any depth) have the same hash, so a retry of the same request matches
    its stored idempotency record. *)
Theorem requestHash_equivalent `{Sha256} v w :
  JsonEq v w -> requestHash v = requestHash w.
Proof. intros E. unfold requestHash. by rewrite E. Qed.
End CanonicalFacts.

Lemma requestHash_equivalent_witness :
  let v := JObj [("shiftId", Some (JStr "s1")); ("op", Some (JStr "shift.delete")); ("role", None)] in
  let w := JObj [("op", Some (JStr "shift.delete")); ("shiftId", Some (JStr "s1"))] in
  requestHash (LC := codeUnitCollation) (H := fun s => s) v =
  requestHash (LC := codeUnitCollation) (H := fun s => s) w.
Proof.
  cbv zeta. apply (requestHash_equivalent (LC := codeUnitCollation)).
  etransitivity; [apply (JsonEq_drop [_; _] "role" [])|]. apply JsonEq_perm.
  - apply NoDup_cons; split; [set_solver|apply NoDup_singleton].
  - apply Permutation_swap.
Defined.
