(* ===== verification/ChangeSetPlan.v ===== *)
(** * Planning a schedule change set

    apps/api-v2/src/scheduling/change-set-plan.ts: a request's operations
    (create, update, delete) are folded over the shifts of the schedule, and
    the final schedule is validated before anything is written.

    [planScheduleChangeSet] is the source function.  [idFactory n] is the
    [n]-th identifier the injected factory returns; the [Map]s keep insertion
    order ([JsMap]); [localeCompare] is the host's collation. *)

From S2P Require Import Prelude JsStd JsCollections JsDate ContractHelpers.

(** ** Data *)

Record PlannedBreak := mkPlannedBreak {
  pb_internalId : string;
  pb_startTime : Z;
  pb_endTime : Z;
}.

Record PlannedShift := mkPlannedShift {
  ps_internalId : option string;
  ps_publicId : string;
  ps_userInternalId : option string;
  ps_userPublicId : option string;
  ps_startTime : Z;
  ps_endTime : Z;
  ps_role : option string;
  ps_breaks : list PlannedBreak;
  ps_sourcePointer : string;
}.

Record ResolvedUser := mkResolvedUser { ru_internalId : string; ru_publicId : string }.

Record ExternalShift := mkExternalShift {
  ex_internalId : string;
  ex_userInternalId : string;
  ex_startTime : Z;
  ex_endTime : Z;
}.

(** [ScheduleChangeSetRequest['operations'][number]]. *)
Inductive ChangeOperation :=
  | ShiftCreate (clientId userId : option string) (startTime endTime : string)
      (role : option (option string))
  | ShiftUpdate (shiftId : string) (userId : option (option string))
      (startTime endTime : option string) (role : option (option string))
  | ShiftDelete (shiftId : string).

Inductive ShiftMutation :=
  | MutCreate (after : PlannedShift) (clientId : option string)
  | MutUpdate (before after : PlannedShift)
  | MutDelete (before : PlannedShift).

Record ChangeSetPlan := mkPlan {
  finalShifts : list PlannedShift;
  mutations : list ShiftMutation;
  created : list (option string * string);
}.

Record PlanInput := mkPlanInput {
  in_scheduleStart : Z;
  in_scheduleEnd : Z;
  in_currentShifts : list PlannedShift;
  in_externalShifts : list ExternalShift;
  in_usersByPublicId : JsMap string ResolvedUser;
  in_operations : list ChangeOperation;
}.

(** ** Checks *)

(** A [ProblemError] with one violation. *)
Definition violation (st : Z) (cd dt tt ptr vcode msg : string) : Exn :=
  Problem (mkProblem st cd dt tt (Some [mkViolation ptr vcode msg]) None None).

Definition overlaps (ls le rs re : Z) : bool := (ls <? re) && (rs <? le).

Definition shiftsOverlap (left right : PlannedShift) : bool :=
  overlaps (ps_startTime left) (ps_endTime left) (ps_startTime right) (ps_endTime right).

Definition userFor (publicId : option string) (usersByPublicId : JsMap string ResolvedUser)
    (ptr : string) : Result (option ResolvedUser) :=
  match publicId with
  | None => Ok None
  | Some p =>
      match mapGet usersByPublicId p with
      | Some user => Ok (Some user)
      | None => Throw (violation 422 "staff_not_schedulable"
          "A change references a staff member who is not active and schedulable in this workspace."
          "Schedule validation failed" ptr "staff_not_schedulable"
          "Choose an active manager or staff member.")
      end
  end.

Definition translatedBreaks (before : PlannedShift) (nextStart nextEnd : Z) (ptr : string)
    : Result (list PlannedBreak) :=
  let deltaMs := nextStart - ps_startTime before in
  let translated := map (fun item => mkPlannedBreak (pb_internalId item)
    (pb_startTime item + deltaMs) (pb_endTime item + deltaMs)) (ps_breaks before) in
  if existsb (fun item => (pb_startTime item <? nextStart) || (nextEnd <? pb_endTime item)) translated
  then Throw (violation 422 "break_outside_shift"
    "Moving this shift would place one of its saved breaks outside the shift window."
    "Schedule validation failed" ptr "break_outside_shift"
    "Adjust the shift or its breaks before moving it.")
  else Ok translated.

Definition validateWindow (shift : PlannedShift) (scheduleStart scheduleEnd : Z) : Result unit :=
  if ps_endTime shift <=? ps_startTime shift then
    Throw (violation 422 "invalid_shift_window" "Shift end time must be after its start time."
      "Schedule validation failed" (ps_sourcePointer shift) "invalid_shift_window"
      "End time must be after start time.")
  else if (ps_startTime shift <? scheduleStart) || (scheduleEnd <=? ps_startTime shift)
       || (86400000 <? ps_endTime shift - ps_startTime shift) then
    Throw (violation 422 "shift_outside_schedule"
      "Every shift must start inside the selected schedule and last no more than 24 hours."
      "Schedule validation failed" (ps_sourcePointer shift) "shift_outside_schedule"
      "Start the shift inside its schedule; overnight shifts belong to their start day.")
  else Ok tt.

(** [left.breaks.every((item, index) => ... right.breaks[index]?...)] *)
Fixpoint everyBreakSame (left right : list PlannedBreak) : bool :=
  match left, right with
  | [], _ => true
  | l :: left', r :: right' =>
      (pb_startTime l =? pb_startTime r) && (pb_endTime l =? pb_endTime r)
      && everyBreakSame left' right'
  | _ :: _, [] => false
  end.

Definition sameShift (left right : PlannedShift) : bool :=
  bool_decide (ps_userInternalId left = ps_userInternalId right)
  && (ps_startTime left =? ps_startTime right)
  && (ps_endTime left =? ps_endTime right)
  && bool_decide (ps_role left = ps_role right)
  && everyBreakSame (ps_breaks left) (ps_breaks right).

(** ** The fold over the operations *)

Record PlanState := mkPlanState {
  st_working : JsMap string PlannedShift;
  st_touched : gset string;
  st_clientIds : gset string;
  st_mutations : list ShiftMutation;
  st_created : list (option string * string);
  st_ids : nat;
}.

Definition shiftEntries (shifts : list PlannedShift) : list (string * PlannedShift) :=
  map (fun shift => (ps_publicId shift, shift)) shifts.

Definition duplicateClientId (ptr : string) : Exn :=
  violation 422 "duplicate_client_id" "Each created shift must use a unique clientId."
    "Schedule validation failed" ptr "duplicate_client_id"
    "clientId is duplicated in this change set.".

(** [value ?? null] *)
Definition orNull (value : option (option string)) : option string :=
  match value with Some v => v | None => None end.

(** The [shift.create] branch. *)
Definition planCreate (input : PlanInput) (idFactory : nat -> string) (ptr : string)
    (clientId userId : option string) (startTime endTime : string)
    (role : option (option string)) (st : PlanState) : Result PlanState :=
  let present := match clientId with Some c => negb (isEmpty c) | None => false end in
  let c := default "" clientId in
  _ ← throwIf (present && bool_decide (c ∈ st_clientIds st)) (duplicateClientId ptr);
  user ← userFor userId (in_usersByPublicId input) (ptr +:+ "/userId");
  let publicId := idFactory (st_ids st) in
  start ← parseUtcInstant startTime (ptr +:+ "/startTime");
  endt ← parseUtcInstant endTime (ptr +:+ "/endTime");
  r ← normalizedRole role;
  let shift := mkPlannedShift None publicId (ru_internalId <$> user) (ru_publicId <$> user)
    start endt (orNull r) [] ptr in
  Ok (mkPlanState (mapSet (st_working st) publicId shift) (st_touched st)
    (if present then {[c]} ∪ st_clientIds st else st_clientIds st)
    (st_mutations st ++ [MutCreate shift clientId])
    (st_created st ++ [(clientId, publicId)]) (S (st_ids st))).

(** The [shift.update] and [shift.delete] branches share the lookup. *)
Definition touchShift (byPublicId : JsMap string PlannedShift) (ptr shiftId : string)
    (st : PlanState) : Result PlannedShift :=
  _ ← throwIf (bool_decide (shiftId ∈ st_touched st))
    (violation 422 "duplicate_shift_operation" "A shift can appear only once in a change set."
      "Schedule validation failed" ptr "duplicate_shift_operation"
      "Combine this shift change into one operation.");
  match mapGet byPublicId shiftId with
  | Some before => Ok before
  | None => throwProblem 404 "shift_not_found"
      "A referenced shift was not found in the selected schedule." "Shift not found"
  end.

Definition planDelete (byPublicId : JsMap string PlannedShift) (ptr shiftId : string)
    (st : PlanState) : Result PlanState :=
  before ← touchShift byPublicId ptr shiftId st;
  Ok (mkPlanState (mapDelete (st_working st) shiftId) ({[shiftId]} ∪ st_touched st)
    (st_clientIds st) (st_mutations st ++ [MutDelete before]) (st_created st) (st_ids st)).

(** [operation.startTime ? parseUtcInstant(operation.startTime, ...) : before.startTime] *)
Definition instantOr (value : option string) (ptr : string) (fallback : Z) : Result Z :=
  match value with
  | Some v => if isEmpty v then Ok fallback else parseUtcInstant v ptr
  | None => Ok fallback
  end.

(** [user?.internalId ?? null] and [user?.publicId ?? null] *)
Definition userIds (u : option ResolvedUser) : option string * option string :=
  (ru_internalId <$> u, ru_publicId <$> u).

Definition updatedShift (input : PlanInput) (ptr : string) (before : PlannedShift)
    (userId : option (option string)) (startTime endTime : option string)
    (role : option (option string)) : Result PlannedShift :=
  nextStart ← instantOr startTime (ptr +:+ "/startTime") (ps_startTime before);
  nextEnd ← instantOr endTime (ptr +:+ "/endTime") (ps_endTime before);
  user ← match userId return Result (option string * option string) with
         | None => Ok (ps_userInternalId before, ps_userPublicId before)
         | Some uid =>
             u ← userFor uid (in_usersByPublicId input) (ptr +:+ "/userId");
             Ok (userIds u)
         end;
  nextRole ← match role return Result (option string) with
             | None => Ok (ps_role before)
             | Some _ => r ← normalizedRole role; Ok (orNull r)
             end;
  nextBreaks ← translatedBreaks before nextStart nextEnd ptr;
  Ok (mkPlannedShift (ps_internalId before) (ps_publicId before) user.1 user.2
    nextStart nextEnd nextRole nextBreaks ptr).

Definition planUpdate (input : PlanInput) (byPublicId : JsMap string PlannedShift)
    (ptr shiftId : string) (userId : option (option string)) (startTime endTime : option string)
    (role : option (option string)) (st : PlanState) : Result PlanState :=
  before ← touchShift byPublicId ptr shiftId st;
  after ← updatedShift input ptr before userId startTime endTime role;
  Ok (mkPlanState (mapSet (st_working st) shiftId after) ({[shiftId]} ∪ st_touched st)
    (st_clientIds st)
    (if sameShift before after then st_mutations st else st_mutations st ++ [MutUpdate before after])
    (st_created st) (st_ids st)).

Definition planOperation (input : PlanInput) (idFactory : nat -> string)
    (byPublicId : JsMap string PlannedShift) (index : nat) (operation : ChangeOperation)
    (st : PlanState) : Result PlanState :=
  let ptr := "/operations/" +:+ showZ (Z.of_nat index) in
  match operation with
  | ShiftCreate clientId userId s e r => planCreate input idFactory ptr clientId userId s e r st
  | ShiftDelete shiftId => planDelete byPublicId ptr shiftId st
  | ShiftUpdate shiftId userId s e r => planUpdate input byPublicId ptr shiftId userId s e r st
  end.

Fixpoint planOperations (input : PlanInput) (idFactory : nat -> string)
    (byPublicId : JsMap string PlannedShift) (index : nat) (operations : list ChangeOperation)
    (st : PlanState) : Result PlanState :=
  match operations with
  | [] => Ok st
  | operation :: rest =>
      st' ← planOperation input idFactory byPublicId index operation st;
      planOperations input idFactory byPublicId (S index) rest st'
  end.

(** ** Validation of the final schedule *)

(** [Boolean(shift.userInternalId)] *)
Definition isAssigned (shift : PlannedShift) : bool :=
  match ps_userInternalId shift with Some u => negb (isEmpty u) | None => false end.

Section Validate.
Context `{LC : LocaleCompare}.

Definition assignedUser (shift : PlannedShift) : string := default "" (ps_userInternalId shift).

Definition compareAssigned (left right : PlannedShift) : Z :=
  orElse (localeCompare (assignedUser left) (assignedUser right))
    (orElse (ps_startTime left - ps_startTime right)
      (localeCompare (ps_publicId left) (ps_publicId right))).

Definition assignedShifts (shifts : list PlannedShift) : list PlannedShift :=
  sortBy compareAssigned (List.filter isAssigned shifts).

Definition overlapError (current : PlannedShift) : Exn :=
  violation 422 "schedule_overlap"
    "The requested final schedule contains overlapping assigned shifts." "Schedule overlap"
    (ps_sourcePointer current) "shift_overlap"
    "This staff member would have overlapping shifts.".

Definition externalError (shift : PlannedShift) : Exn :=
  violation 422 "schedule_overlap"
    "The requested final schedule overlaps another saved shift for this staff member."
    "Schedule overlap" (ps_sourcePointer shift) "external_shift_overlap"
    "This staff member already has a shift during that time.".

(** [for (let index = 1; index < assigned.length; index += 1)] *)
Fixpoint checkAdjacent (previous : PlannedShift) (rest : list PlannedShift) : Result unit :=
  match rest with
  | [] => Ok tt
  | current :: rest' =>
      if bool_decide (ps_userInternalId current = ps_userInternalId previous)
         && shiftsOverlap previous current
      then Throw (overlapError current)
      else checkAdjacent current rest'
  end.

Definition checkAssigned (assigned : list PlannedShift) : Result unit :=
  match assigned with [] => Ok tt | first :: rest => checkAdjacent first rest end.

Definition conflictsWith (shift : PlannedShift) (external : ExternalShift) : bool :=
  bool_decide (Some (ex_userInternalId external) = ps_userInternalId shift)
  && overlaps (ps_startTime shift) (ps_endTime shift)
       (ex_startTime external) (ex_endTime external).

Fixpoint checkExternal (external : list ExternalShift) (assigned : list PlannedShift)
    : Result unit :=
  match assigned with
  | [] => Ok tt
  | shift :: rest =>
      if existsb (conflictsWith shift) external then Throw (externalError shift)
      else checkExternal external rest
  end.

Fixpoint validateWindows (scheduleStart scheduleEnd : Z) (shifts : list PlannedShift)
    : Result unit :=
  match shifts with
  | [] => Ok tt
  | shift :: rest =>
      _ ← validateWindow shift scheduleStart scheduleEnd;
      validateWindows scheduleStart scheduleEnd rest
  end.

Definition planScheduleChangeSet (idFactory : nat -> string) (input : PlanInput)
    : Result ChangeSetPlan :=
  let byPublicId := mapOf (shiftEntries (in_currentShifts input)) in
  st ← planOperations input idFactory byPublicId 0 (in_operations input)
         (mkPlanState byPublicId ∅ ∅ [] [] 0);
  _ ← throwIf (bool_decide (length (st_mutations st) = 0%nat))
        (Problem (problemError 422 "no_effective_changes"
          "The change set does not change the saved schedule." "No changes"));
  let shifts := mapValues (st_working st) in
  _ ← validateWindows (in_scheduleStart input) (in_scheduleEnd input) shifts;
  let assigned := assignedShifts shifts in
  _ ← checkAssigned assigned;
  _ ← checkExternal (in_externalShifts input) assigned;
  Ok (mkPlan shifts (st_mutations st) (st_created st)).
End Validate.

(** ** The final schedule is free of overlaps *)

(** [R] holds of the elements at any two positions. *)
Notation Pairwise := ForallOrdPairs.

Lemma Pairwise_perm {A} (R : A -> A -> Prop) l k :
  (forall x y, R x y -> R y x) -> l ≡ₚ k -> Pairwise R l -> Pairwise R k.
Proof.
  intros Hsym Hp. induction Hp as [|x l k Hp IH|x y l|l k m Hp1 IH1 Hp2 IH2]; intros H.
  - done.
  - inversion H; subst. constructor; [by rewrite <- Hp|auto].
  - inversion H as [|? ? Hx Hl]; subst. inversion Hl; subst. apply Forall_cons in Hx as [Hxy Hx].
    repeat constructor; auto.
  - auto.
Qed.

Lemma Pairwise_filter {A} (P : A -> bool) (R : A -> A -> Prop) l :
  Pairwise R (List.filter P l) ->
  Pairwise (fun x y => P x = true -> P y = true -> R x y) l.
Proof.
  induction l as [|x l IH]; cbn; [constructor|]. destruct (P x) eqn:E.
  - inversion 1 as [|? ? Hx Hl]; subst. constructor; [|auto].
    apply Forall_forall. intros y Hy _ Py. rewrite Forall_forall in Hx. apply Hx.
    apply list_elem_of_In, filter_In. by rewrite <- list_elem_of_In.
  - intros Hl. constructor; [|auto]. apply Forall_forall. congruence.
Qed.

Definition validWindow (scheduleStart scheduleEnd : Z) (shift : PlannedShift) : Prop :=
  ps_startTime shift < ps_endTime shift <= ps_startTime shift + 86400000 /\
  scheduleStart <= ps_startTime shift < scheduleEnd.

Lemma validateWindow_Ok shift s e u :
  validateWindow shift s e = Ok u <-> validWindow s e shift.
Proof.
  unfold validateWindow, validWindow. destruct u.
  destruct (_ <=? _) eqn:E1; [split; [done|bool_lia]|].
  destruct (_ || _) eqn:E2; split; try done; intros; bool_lia.
Qed.

Lemma validateWindows_Ok s e shifts u :
  validateWindows s e shifts = Ok u <-> Forall (validWindow s e) shifts.
Proof.
  destruct u. induction shifts as [|x l IH]; cbn [validateWindows]; [by split; [constructor|]|].
  rewrite Forall_cons, Result_bind_Ok, <- IH. split.
  - by intros ([] & ?%validateWindow_Ok & ?).
  - intros [Hx ?]. exists tt. split; [by apply validateWindow_Ok|done].
Qed.

(** Two shifts of one staff member do not overlap. *)
Definition separate (a b : PlannedShift) : Prop :=
  ps_userInternalId a = ps_userInternalId b -> shiftsOverlap a b = false.

Lemma shiftsOverlap_sym a b : shiftsOverlap a b = shiftsOverlap b a.
Proof. unfold shiftsOverlap, overlaps. by rewrite andb_comm. Qed.

Lemma separate_sym a b : separate a b -> separate b a.
Proof. unfold separate. rewrite shiftsOverlap_sym. naive_solver. Qed.

Section OverlapFree.
Context `{LC : LocaleCompare, !LocaleCompareLaws LC}.
Implicit Types a b : PlannedShift.

#[local] Instance compareAssigned_comparator : Comparator compareAssigned.
Proof. unfold compareAssigned. apply _. Qed.

(** In the sorted list the shifts of one staff member are contiguous and in
    order of start time. *)
Lemma compareAssigned_user a b c :
  compareAssigned a b <= 0 -> compareAssigned b c <= 0 ->
  ps_userInternalId a = ps_userInternalId c -> is_Some (ps_userInternalId b) ->
  is_Some (ps_userInternalId a) -> ps_userInternalId a = ps_userInternalId b.
Proof.
  unfold compareAssigned, assignedUser. intros Hab Hbc E [ub Hb] [ua Ha].
  rewrite <- E in Hbc. rewrite Ha, Hb in *. cbn in Hab, Hbc. f_equal. apply localeCompare_eq.
  assert (H1 : localeCompare ua ub <= 0) by (unfold orElse in Hab; destruct (_ =? 0) eqn:?; bool_lia).
  assert (H2 : localeCompare ub ua <= 0) by (unfold orElse in Hbc; destruct (_ =? 0) eqn:?; bool_lia).
  pose proof (cmp_antisym (cmp := localeCompare) ua ub). lia.
Qed.

Lemma compareAssigned_start a b :
  compareAssigned a b <= 0 -> ps_userInternalId a = ps_userInternalId b ->
  ps_startTime a <= ps_startTime b.
Proof.
  unfold compareAssigned, assignedUser. intros H E. rewrite E, (cmp_refl localeCompare) in H.
  unfold orElse in H. cbn in H. destruct (_ =? 0) eqn:?; bool_lia.
Qed.

Lemma checkAdjacent_separate previous rest u :
  StronglySorted (fun a b => compareAssigned a b <= 0) (previous :: rest) ->
  Forall (fun a => is_Some (ps_userInternalId a)) (previous :: rest) ->
  Forall (fun a => ps_startTime a < ps_endTime a) (previous :: rest) ->
  checkAdjacent previous rest = Ok u ->
  Forall (fun b => ps_userInternalId previous = ps_userInternalId b ->
    ps_endTime previous <= ps_startTime b) rest /\ Pairwise separate (previous :: rest).
Proof.
  revert previous. induction rest as [|y rest IH]; intros p Hs Hu Hw H; [repeat constructor|].
  cbn in H. destruct (_ && _) eqn:E; [done|].
  inversion Hs as [|? ? Hs' Hp]; subst. apply Forall_cons in Hu as [Hup Hu], Hw as [Hwp Hw].
  destruct (IH y Hs' Hu Hw H) as [Hy Hpair].
  assert (Hall : Forall (fun b => ps_userInternalId p = ps_userInternalId b ->
    ps_endTime p <= ps_startTime b) (y :: rest)).
  { apply Forall_cons in Hp as [Hpy Hp], Hw as [Hwy Hw], Hu as [Huy Hu].
    assert (Hpy' : ps_userInternalId p = ps_userInternalId y -> ps_endTime p <= ps_startTime y).
    { intros Eu. pose proof (compareAssigned_start _ _ Hpy Eu).
      apply andb_false_iff in E as [E|E]; [by rewrite bool_decide_eq_false in E|].
      unfold shiftsOverlap, overlaps in E. bool_lia. }
    constructor; [exact Hpy'|]. apply Forall_forall. intros b Hb Eu.
    inversion Hs' as [|? ? _ Hyb]; subst. rewrite Forall_forall in Hyb, Hy.
    assert (Eb : ps_userInternalId p = ps_userInternalId y).
    { apply (compareAssigned_user p y b); auto. }
    specialize (Hy _ Hb ltac:(congruence)). specialize (Hpy' Eb). lia. }
  split; [done|]. constructor; [|done]. eapply Forall_impl; [exact Hall|].
  intros b Hb Eu. specialize (Hb Eu). unfold shiftsOverlap, overlaps. bool_lia.
Qed.

Lemma assignedShifts_elem shifts a : a ∈ assignedShifts shifts <-> a ∈ shifts /\ isAssigned a = true.
Proof.
  unfold assignedShifts. rewrite sortBy_elem, list_elem_of_In, filter_In. by rewrite <- list_elem_of_In.
Qed.

Lemma checkAssigned_separate shifts u :
  Forall (fun a => ps_startTime a < ps_endTime a) shifts ->
  checkAssigned (assignedShifts shifts) = Ok u ->
  Pairwise (fun a b => isAssigned a = true -> isAssigned b = true -> separate a b) shifts.
Proof.
  intros Hw H. apply Pairwise_filter.
  eapply (Pairwise_perm separate); [apply separate_sym|apply (sortBy_perm compareAssigned)|].
  change (sortBy compareAssigned (List.filter isAssigned shifts)) with (assignedShifts shifts).
  pose proof (sortBy_sorted compareAssigned (List.filter isAssigned shifts)) as Hs.
  assert (Ha : Forall (fun a => is_Some (ps_userInternalId a) /\ ps_startTime a < ps_endTime a)
    (assignedShifts shifts)).
  { apply Forall_forall. intros a [Ha Has]%assignedShifts_elem. rewrite Forall_forall in Hw.
    split; [|auto]. unfold isAssigned in Has. by destruct (ps_userInternalId a). }
  apply Forall_and in Ha as [Hu Hw']. fold (assignedShifts shifts) in Hs.
  destruct (assignedShifts shifts) as [|p rest]; [constructor|].
  by apply checkAdjacent_separate in H as [_ H].
Qed.

Lemma checkExternal_Ok external assigned u :
  checkExternal external assigned = Ok u ->
  forall a x, a ∈ assigned -> x ∈ external -> conflictsWith a x = false.
Proof.
  induction assigned as [|a assigned IH]; cbn; [set_solver|]. destruct (existsb _ _) eqn:E; [done|].
  intros H b x [->|Hb]%elem_of_cons Hx; [|by eapply IH].
  rewrite <- not_true_iff_false, existsb_exists in E.
  destruct (conflictsWith a x) eqn:Ec; [|done]. destruct E. exists x. by rewrite <- list_elem_of_In.
Qed.

Lemma plan_inv idFactory input plan :
  planScheduleChangeSet idFactory input = Ok plan ->
  exists st,
    planOperations input idFactory (mapOf (shiftEntries (in_currentShifts input))) 0
      (in_operations input)
      (mkPlanState (mapOf (shiftEntries (in_currentShifts input))) ∅ ∅ [] [] 0) = Ok st /\
    plan = mkPlan (mapValues (st_working st)) (st_mutations st) (st_created st) /\
    Forall (validWindow (in_scheduleStart input) (in_scheduleEnd input)) (finalShifts plan) /\
    checkAssigned (assignedShifts (finalShifts plan)) = Ok tt /\
    checkExternal (in_externalShifts input) (assignedShifts (finalShifts plan)) = Ok tt /\
    st_mutations st <> [].
Proof.
  unfold planScheduleChangeSet.
  intros (st & Hst & ([] & Hm & ([] & Hw & ([] & Ha & ([] & He & [= <-])%Result_bind_Ok
    )%Result_bind_Ok)%Result_bind_Ok)%Result_bind_Ok)%Result_bind_Ok.
  exists st. repeat split; try done; [by eapply validateWindows_Ok|].
  apply throwIf_Ok, bool_decide_eq_false in Hm. by destruct (st_mutations st).
Qed.

Lemma plan_overlap_spec idFactory input plan :
  planScheduleChangeSet idFactory input = Ok plan ->
  Forall (validWindow (in_scheduleStart input) (in_scheduleEnd input)) (finalShifts plan) /\
  Pairwise (fun a b => isAssigned a = true -> isAssigned b = true -> separate a b)
    (finalShifts plan) /\
  (forall a x, a ∈ finalShifts plan -> isAssigned a = true -> x ∈ in_externalShifts input ->
     ps_userInternalId a = Some (ex_userInternalId x) ->
     overlaps (ps_startTime a) (ps_endTime a) (ex_startTime x) (ex_endTime x) = false).
Proof.
  intros (st & _ & -> & Hw & Ha & He & _)%plan_inv. split; [done|]. split.
  - eapply checkAssigned_separate; [|exact Ha]. eapply Forall_impl; [exact Hw|].
    intros a [? _]. lia.
  - intros a x Hin Has Hx Eu. eapply checkExternal_Ok in He; [..|exact Hx];
      [|by apply assignedShifts_elem].
    unfold conflictsWith in He. rewrite Eu, bool_decide_true in He by done. done.
Qed.
(** C34: Safety of a planned change set.  When planning succeeds, every shift
    of the final schedule has a valid window (positive, at most 24 hours,
    starting inside the schedule), no two shifts assigned to the same staff
    member overlap, and no assigned shift overlaps a shift the same person
    has outside this schedule.  The check compares neighbours of one sorted
    list only; the theorem is about all pairs. *)
Theorem plan_overlap_free idFactory input plan :
  planScheduleChangeSet idFactory input = Ok plan ->
  Forall (validWindow (in_scheduleStart input) (in_scheduleEnd input)) (finalShifts plan) /\
  Pairwise (fun a b => isAssigned a = true -> isAssigned b = true -> separate a b)
    (finalShifts plan) /\
  (forall a x, a ∈ finalShifts plan -> isAssigned a = true -> x ∈ in_externalShifts input ->
     ps_userInternalId a = Some (ex_userInternalId x) ->
     overlaps (ps_startTime a) (ps_endTime a) (ex_startTime x) (ex_endTime x) = false).
Proof. apply plan_overlap_spec. Qed.
End OverlapFree.

Definition sampleShift (publicId : string) (user : option string) (s e : Z) : PlannedShift :=
  mkPlannedShift (Some ("i-" +:+ publicId)) publicId user user s e None
    [mkPlannedBreak ("b-" +:+ publicId) (s + 7200000) (s + 7800000)] "/saved".

(** 2026-03-02: an update moves a shift, a create assigns a second one. *)
Definition sampleInput : PlanInput := mkPlanInput 1772409600000 1773014400000
  [sampleShift "s1" (Some "u1") 1772438400000 1772467200000;
   sampleShift "s2" (Some "u2") 1772438400000 1772467200000]
  [mkExternalShift "x1" "u1" 1772380800000 1772400000000]
  [("p1", mkResolvedUser "u1" "p1")]
  [ShiftUpdate "s2" (Some (Some "p1")) (Some "2026-03-03T08:00:00Z") (Some "2026-03-03T16:00:00.000Z") None;
   ShiftCreate (Some "c1") None "2026-03-02T10:00:00Z" "2026-03-02T12:00:00Z" (Some (Some " Cook "))].
Definition sampleIds (n : nat) : string := "new-" +:+ showZ (Z.of_nat n).

Lemma plan_overlap_free_witness :
  exists plan, planScheduleChangeSet (LC := codeUnitCollation) sampleIds sampleInput = Ok plan /\
    length (finalShifts plan) = 3%nat /\
    Pairwise (fun a b => isAssigned a = true -> isAssigned b = true -> separate a b)
      (finalShifts plan).
Proof.
  eexists. split; [vm_compute; reflexivity|]. split; [reflexivity|].
  refine (proj1 (proj2 (plan_overlap_free (LC := codeUnitCollation) sampleIds sampleInput _ _))).
  vm_compute; reflexivity.
Defined.

(** ** The mutations realise the final schedule *)

(** What the database stores of a shift. *)
Definition shiftContent (s : PlannedShift) :=
  (ps_internalId s, ps_publicId s, ps_userInternalId s, ps_startTime s, ps_endTime s,
   ps_role s, ps_breaks s).

Definition mutationKey (m : ShiftMutation) : string :=
  match m with
  | MutCreate after _ => ps_publicId after
  | MutUpdate before _ => ps_publicId before
  | MutDelete before => ps_publicId before
  end.

Definition mutationResult (m : ShiftMutation) : option PlannedShift :=
  match m with
  | MutCreate after _ => Some after
  | MutUpdate _ after => Some after
  | MutDelete _ => None
  end.

Definition applyToMap (shifts : JsMap string PlannedShift) (m : ShiftMutation)
    : JsMap string PlannedShift :=
  match mutationResult m with
  | Some after => mapSet shifts (mutationKey m) after
  | None => mapDelete shifts (mutationKey m)
  end.

Definition isDelete (m : ShiftMutation) : bool := match m with MutDelete _ => true | _ => false end.
Definition isUpdate (m : ShiftMutation) : bool := match m with MutUpdate _ _ => true | _ => false end.
Definition isCreate (m : ShiftMutation) : bool := match m with MutCreate _ _ => true | _ => false end.

(** The order in which the change-set service writes: deletes, updates, creates. *)
Definition writeOrder (ms : list ShiftMutation) : list ShiftMutation :=
  List.filter isDelete ms ++ List.filter isUpdate ms ++ List.filter isCreate ms.

Lemma writeOrder_perm ms : writeOrder ms ≡ₚ ms.
Proof.
  unfold writeOrder. induction ms as [|m ms IH]; [done|]. destruct m; cbn.
  - rewrite app_assoc, <- Permutation_middle, <- app_assoc. by rewrite IH.
  - rewrite <- Permutation_middle. by rewrite IH.
  - by rewrite IH.
Qed.

Lemma applyToMap_NoDup m shifts : NoDup shifts.*1 -> NoDup (applyToMap shifts m).*1.
Proof. unfold applyToMap. destruct (mutationResult m); auto using NoDup_mapSet, NoDup_mapDelete. Qed.

Lemma applyToMap_get m shifts k :
  NoDup shifts.*1 ->
  mapGet (applyToMap shifts m) k =
  if decide (mutationKey m = k) then mutationResult m else mapGet shifts k.
Proof.
  intros Hd. unfold applyToMap. destruct (mutationResult m).
  - by rewrite mapGet_set.
  - by rewrite mapGet_delete.
Qed.

Lemma applyAll_NoDup ms shifts : NoDup shifts.*1 -> NoDup (fold_left applyToMap ms shifts).*1.
Proof. revert shifts. induction ms; cbn; auto using applyToMap_NoDup. Qed.

Lemma applyAll_other ms shifts k :
  NoDup shifts.*1 -> k ∉ map mutationKey ms ->
  mapGet (fold_left applyToMap ms shifts) k = mapGet shifts k.
Proof.
  revert shifts. induction ms as [|m ms IH]; cbn; intros shifts Hd Hk; [done|].
  rewrite not_elem_of_cons in Hk. rewrite IH by (naive_solver auto using applyToMap_NoDup).
  rewrite applyToMap_get by done. rewrite decide_False by naive_solver. done.
Qed.

Lemma applyAll_hit ms m shifts :
  NoDup shifts.*1 -> NoDup (map mutationKey ms) -> m ∈ ms ->
  mapGet (fold_left applyToMap ms shifts) (mutationKey m) = mutationResult m.
Proof.
  revert shifts. induction ms as [|x ms IH]; cbn; intros shifts Hd Hm Hin; [set_solver|].
  rewrite NoDup_cons in Hm. destruct Hm as [Hx Hm]. apply elem_of_cons in Hin as [->|Hin].
  - rewrite applyAll_other, applyToMap_get by auto using applyToMap_NoDup. by rewrite decide_True.
  - apply IH; auto using applyToMap_NoDup.
Qed.

(** With one mutation per shift the order of writing does not matter. *)
Lemma applyAll_perm ms ms' shifts k :
  NoDup shifts.*1 -> NoDup (map mutationKey ms) -> ms ≡ₚ ms' ->
  mapGet (fold_left applyToMap ms shifts) k = mapGet (fold_left applyToMap ms' shifts) k.
Proof.
  intros Hd Hm Hp. assert (Hm' : NoDup (map mutationKey ms')).
  { by rewrite <- (Permutation_map mutationKey Hp). }
  destruct (decide (k ∈ map mutationKey ms)) as [Hk|Hk].
  - apply list_elem_of_In, in_map_iff in Hk as (m & <- & Hin). apply list_elem_of_In in Hin.
    rewrite !applyAll_hit; [done|done|done|by rewrite <- Hp|done..].
  - rewrite !applyAll_other; try done. by rewrite <- (Permutation_map mutationKey Hp).
Qed.

Lemma everyBreakSame_map (f : PlannedBreak -> PlannedBreak) l :
  (forall b, pb_internalId (f b) = pb_internalId b) ->
  everyBreakSame l (map f l) = true -> map f l = l.
Proof.
  intros Hf. induction l as [|b l IH]; cbn; [done|]. intros H. bools.
  destruct H as [[H1 H2] H3]. rewrite IH by done. f_equal. specialize (Hf b).
  destruct (f b), b; cbn in *. congruence.
Qed.

Lemma shiftEntries_key shifts k s :
  mapGet (mapOf (shiftEntries shifts)) k = Some s -> ps_publicId s = k.
Proof.
  induction shifts as [|x l IH] using rev_ind; [done|].
  unfold shiftEntries. rewrite map_app. cbn [map]. rewrite mapOf_snoc, mapGet_set. cbn.
  case_decide; [by intros [= <-]|exact IH].
Qed.

Lemma touchShift_Ok base ptr k st before :
  touchShift base ptr k st = Ok before -> k ∉ st_touched st /\ mapGet base k = Some before.
Proof.
  unfold touchShift. intros ([] & Ht & H)%Result_bind_Ok. apply throwIf_Ok, bool_decide_eq_false in Ht.
  destruct (mapGet base k); [|done]. injection H as ->. done.
Qed.

Lemma updatedShift_Ok input ptr before userId s e role after :
  updatedShift input ptr before userId s e role = Ok after ->
  ps_publicId after = ps_publicId before /\
  (sameShift before after = true -> shiftContent after = shiftContent before).
Proof.
  unfold updatedShift.
  intros (ns & _ & (ne & _ & (us & _ & (r & _ & (bs & Hb & [= <-])%Result_bind_Ok)%Result_bind_Ok
    )%Result_bind_Ok)%Result_bind_Ok)%Result_bind_Ok.
  split; [done|]. unfold translatedBreaks in Hb. destruct (existsb _ _); [done|].
  injection Hb as <-. unfold sameShift, shiftContent; cbn. intros H. bools.
  destruct H as [[[[Hu Hs] He] Hr] Hbs]. rewrite everyBreakSame_map by done. congruence.
Qed.

Section Realise.
Context (input : PlanInput) (idFactory : nat -> string).
Context (idFactory_inj : forall n m, idFactory n = idFactory m -> n = m).
Let base := mapOf (shiftEntries (in_currentShifts input)).
Context (idFactory_fresh : forall n, idFactory n ∉ base.*1).

Record PlanInvariant (st : PlanState) : Prop := {
  pi_keys : NoDup (st_working st).*1;
  pi_key : forall k s, mapGet (st_working st) k = Some s -> ps_publicId s = k;
  pi_content : forall k, shiftContent <$> mapGet (st_working st) k =
    shiftContent <$> mapGet (fold_left applyToMap (st_mutations st) base) k;
  pi_once : NoDup (map mutationKey (st_mutations st));
  pi_origin : forall k, k ∈ map mutationKey (st_mutations st) ->
    k ∈ st_touched st \/ exists n, (n < st_ids st)%nat /\ k = idFactory n;
  pi_saved : forall k, k ∈ st_touched st -> k ∈ base.*1;
}.

Lemma base_NoDup : NoDup base.*1.
Proof. apply NoDup_mapOf. Qed.
#[local] Hint Resolve base_NoDup applyAll_NoDup : core.

Lemma PlanInvariant_init : PlanInvariant (mkPlanState base ∅ ∅ [] [] 0).
Proof.
  split; cbn; auto using NoDup_nil_2; try set_solver.
  intros k s H. by eapply shiftEntries_key.
Qed.

(** A mutation appended for a key that has none yet. *)
Lemma pi_content_snoc st m working' :
  PlanInvariant st ->
  (forall k, shiftContent <$> mapGet working' k =
    if decide (mutationKey m = k) then shiftContent <$> mutationResult m
    else shiftContent <$> mapGet (st_working st) k) ->
  forall k, shiftContent <$> mapGet working' k =
    shiftContent <$> mapGet (fold_left applyToMap (st_mutations st ++ [m]) base) k.
Proof.
  intros Hi Hw k. rewrite fold_left_app. cbn. rewrite applyToMap_get, Hw by auto.
  case_decide; [done|]. by apply pi_content.
Qed.

Lemma fresh_key st k :
  PlanInvariant st -> k ∉ st_touched st -> k ∈ base.*1 ->
  k ∉ map mutationKey (st_mutations st).
Proof.
  intros Hi Ht Hk [?|(n & _ & ->)]%(pi_origin _ Hi); [done|]. by apply (idFactory_fresh n).
Qed.

Lemma planCreate_invariant ptr c u s e r st st' :
  planCreate input idFactory ptr c u s e r st = Ok st' -> PlanInvariant st -> PlanInvariant st'.
Proof.
  unfold planCreate. intros H Hi.
  apply Result_bind_Ok in H as ([] & _ & (user & _ & (sv & _ & (ev & _ & (rv & _ & [= <-]
    )%Result_bind_Ok)%Result_bind_Ok)%Result_bind_Ok)%Result_bind_Ok).
  set (id := idFactory (st_ids st)).
  assert (Hid : id ∉ map mutationKey (st_mutations st)).
  { intros [Ht|(n & Hn & E)]%(pi_origin _ Hi).
    - by apply (idFactory_fresh (st_ids st)), (pi_saved _ Hi).
    - apply idFactory_inj in E. lia. }
  destruct Hi as [Hk Hkey Hc Ho Hor Hs] eqn:EHi. split; cbn.
  - by apply NoDup_mapSet.
  - intros k sh. rewrite mapGet_set. case_decide; [by intros [= <-]|apply Hkey].
  - apply pi_content_snoc; [done|]. intros k. rewrite mapGet_set. cbn. by case_decide.
  - rewrite map_app, NoDup_app. cbn. split; [done|]. split; [set_solver|apply NoDup_singleton].
  - intros k. rewrite map_app, elem_of_app. intros [[?|(n & Hn & ->)]%Hor|Hk']; [by left| |].
    + right. exists n. split; [lia|done].
    + right. exists (st_ids st). split; [lia|set_solver].
  - done.
Qed.

Lemma planDelete_invariant ptr k0 st st' :
  planDelete base ptr k0 st = Ok st' -> PlanInvariant st -> PlanInvariant st'.
Proof.
  unfold planDelete. intros (before & [Ht Hb]%touchShift_Ok & [= <-])%Result_bind_Ok Hi.
  assert (Hbk : ps_publicId before = k0) by (by eapply shiftEntries_key).
  assert (Hkb : k0 ∈ base.*1).
  { apply mapGet_Some_elem in Hb. apply list_elem_of_fmap. by exists (k0, before). }
  pose proof (fresh_key _ _ Hi Ht Hkb) as Hf. split; cbn.
  - apply NoDup_mapDelete, Hi.
  - intros k s. rewrite mapGet_delete by apply Hi. case_decide; [done|apply Hi].
  - apply pi_content_snoc; [done|]. intros k. cbn.
    rewrite mapGet_delete, Hbk by apply Hi. by case_decide.
  - rewrite map_app, NoDup_app. cbn. rewrite Hbk.
    split; [apply Hi|]. split; [set_solver|apply NoDup_singleton].
  - intros k. rewrite map_app, elem_of_app. cbn. rewrite Hbk.
    intros [[?|?]%(pi_origin _ Hi)|?]; set_solver.
  - intros k [->%elem_of_singleton|?]%elem_of_union; [done|]. by apply (pi_saved _ Hi).
Qed.

Lemma planUpdate_invariant ptr k0 u s e r st st' :
  planUpdate input base ptr k0 u s e r st = Ok st' -> PlanInvariant st -> PlanInvariant st'.
Proof.
  unfold planUpdate. intros H Hi. apply Result_bind_Ok in H
    as (before & [Ht Hb]%touchShift_Ok & (after & [Hid Hsame]%updatedShift_Ok & [= <-])%Result_bind_Ok).
  assert (Hbk : ps_publicId before = k0) by (by eapply shiftEntries_key).
  assert (Hkb : k0 ∈ base.*1).
  { apply mapGet_Some_elem in Hb. apply list_elem_of_fmap. by exists (k0, before). }
  pose proof (fresh_key _ _ Hi Ht Hkb) as Hf.
  assert (Hfst : forall k, k ∈ map mutationKey (st_mutations st) ->
    k ∈ {[k0]} ∪ st_touched st \/ exists n, (n < st_ids st)%nat /\ k = idFactory n).
  { intros k [?|?]%(pi_origin _ Hi); set_solver. }
  split; cbn.
  - apply NoDup_mapSet, Hi.
  - intros k sh. rewrite mapGet_set. case_decide; [|apply Hi]. intros [= <-]. congruence.
  - destruct (sameShift before after) eqn:E.
    + intros k. rewrite mapGet_set, <- (pi_content _ Hi). case_decide; [|done]. subst k.
      rewrite (pi_content _ Hi), applyAll_other by auto. rewrite Hb. cbn. by rewrite Hsame.
    + apply pi_content_snoc; [done|]. intros k. rewrite mapGet_set. cbn. rewrite Hbk. by case_decide.
  - destruct (sameShift before after); [apply Hi|]. rewrite map_app, NoDup_app. cbn. rewrite Hbk.
    split; [apply Hi|]. split; [set_solver|apply NoDup_singleton].
  - destruct (sameShift before after); [exact Hfst|]. intros k.
    rewrite map_app, elem_of_app. cbn. rewrite Hbk. intros [?%Hfst|?]; set_solver.
  - intros k [->%elem_of_singleton|?]%elem_of_union; [done|]. by apply (pi_saved _ Hi).
Qed.

Lemma planOperations_invariant ops i st st' :
  planOperations input idFactory base i ops st = Ok st' -> PlanInvariant st -> PlanInvariant st'.
Proof.
  revert i st. induction ops as [|o ops IH]; cbn [planOperations]; intros i st H Hi.
  - by injection H as <-.
  - apply Result_bind_Ok in H as (st1 & H1 & H2). eapply IH; [exact H2|].
    destruct o; cbn in H1;
      eauto using planCreate_invariant, planDelete_invariant, planUpdate_invariant.
Qed.
End Realise.

Lemma plan_realise_spec `{LC : LocaleCompare} idFactory input plan :
  planScheduleChangeSet idFactory input = Ok plan ->
  (forall n m, idFactory n = idFactory m -> n = m) ->
  (forall n, idFactory n ∉ map ps_publicId (in_currentShifts input)) ->
  let stored := fold_left applyToMap (writeOrder (mutations plan))
                  (mapOf (shiftEntries (in_currentShifts input))) in
  (forall s, s ∈ finalShifts plan ->
     shiftContent <$> mapGet stored (ps_publicId s) = Some (shiftContent s)) /\
  (forall k, k ∉ map ps_publicId (finalShifts plan) -> mapGet stored k = None).
Proof.
  intros (st & Hst & -> & _)%plan_inv Hinj Hfresh. cbn [mutations finalShifts]. cbv zeta.
  assert (Hfr : forall n, idFactory n ∉ (mapOf (shiftEntries (in_currentShifts input))).*1).
  { intros n. rewrite mapOf_keys. unfold shiftEntries. rewrite <- list_fmap_compose. apply Hfresh. }
  pose proof (planOperations_invariant input idFactory Hinj Hfr _ _ _ _ Hst
    (PlanInvariant_init input idFactory Hinj Hfr)) as [Hd Hkey Hc Ho _ _].
  assert (Hget : forall k,
    shiftContent <$> mapGet (fold_left applyToMap (writeOrder (st_mutations st))
      (mapOf (shiftEntries (in_currentShifts input)))) k =
    shiftContent <$> mapGet (st_working st) k).
  { intros k. rewrite Hc. f_equal. symmetry. apply applyAll_perm; [apply NoDup_mapOf|done|].
    by rewrite writeOrder_perm. }
  split.
  - intros s ([k s'] & -> & Hin)%list_elem_of_fmap. cbn. apply mapGet_Some in Hin; [|done].
    rewrite (Hkey _ _ Hin), Hget. by rewrite Hin.
  - intros k Hk. specialize (Hget k). destruct (mapGet (st_working st) k) as [s|] eqn:E.
    + destruct Hk. apply list_elem_of_fmap. exists s. split; [by rewrite (Hkey _ _ E)|].
      apply list_elem_of_fmap. exists (k, s). split; [done|]. by apply mapGet_Some_elem.
    + by apply fmap_None in Hget.
Qed.

(** The mutation list is exactly the difference between the saved and the
    planned schedule.  Executing the mutations in the order of the service
    (deletes, then updates, then creates) on the saved shifts leaves every
    shift of the planned schedule with its planned content, and no other
    shift; this includes updates dropped as no-ops.  Identifiers made by the
    factory are distinct and new. *)
Theorem plan_mutations_realise `{LC : LocaleCompare} idFactory input plan :
  planScheduleChangeSet idFactory input = Ok plan ->
  (forall n m, idFactory n = idFactory m -> n = m) ->
  (forall n, idFactory n ∉ map ps_publicId (in_currentShifts input)) ->
  let stored := fold_left applyToMap (writeOrder (mutations plan))
                  (mapOf (shiftEntries (in_currentShifts input))) in
  (forall s, s ∈ finalShifts plan ->
     shiftContent <$> mapGet stored (ps_publicId s) = Some (shiftContent s)) /\
  (forall k, k ∉ map ps_publicId (finalShifts plan) -> mapGet stored k = None).
Proof. apply plan_realise_spec. Qed.

(** [showNat] is injective on natural numbers, so the sample identifiers are. *)
Lemma sampleIds_inj n m : sampleIds n = sampleIds m -> n = m.
Proof.
  unfold sampleIds. intros E. apply (inj (String.app "new-")) in E. unfold showZ in E.
  rewrite !(proj2 (Z.ltb_ge _ 0)) in E by lia.
  pose proof (showNat_spec (Z.of_nat n) ltac:(lia)) as (_ & _ & E1).
  pose proof (showNat_spec (Z.of_nat m) ltac:(lia)) as (_ & _ & E2).
  rewrite E in E1. lia.
Qed.

Lemma plan_mutations_realise_witness :
  exists plan, planScheduleChangeSet (LC := codeUnitCollation) sampleIds sampleInput = Ok plan /\
    length (mutations plan) = 2%nat /\
    (forall s, s ∈ finalShifts plan ->
      shiftContent <$> mapGet (fold_left applyToMap (writeOrder (mutations plan))
        (mapOf (shiftEntries (in_currentShifts sampleInput)))) (ps_publicId s)
      = Some (shiftContent s)).
Proof.
  eexists. split; [vm_compute; reflexivity|]. split; [reflexivity|].
  refine (proj1 (plan_mutations_realise (LC := codeUnitCollation) sampleIds sampleInput _ _ _ _)).
  - vm_compute; reflexivity.
  - exact sampleIds_inj.
  - intros n. cbn. rewrite !not_elem_of_cons. repeat split; try discriminate. apply not_elem_of_nil.
Defined.
