(* ===== verification/LunchBreakPolicy.v ===== *)
(** * Lunch and break policy

    The policy half of apps/api-v2/src/operations/lunch-breaks.service.ts: a
    stored or submitted policy is an object of [unknown] values, coerced with
    [Number], rounded and clamped field by field.

    Numbers are exact rationals; [NaN] and the infinities are [NotFinite].  A
    decimal numeral is read exactly. *)

From S2P Require Import Prelude JsStd.
From Stdlib Require Import QArith Qround.

Open Scope Z_scope.

(** ** JavaScript values and [Number(value)] *)

Inductive Unknown :=
  | UUndefined
  | UNull
  | UBool (b : bool)
  | UNumber (q : Q)
  | UNotFinite
  | UString (s : string)
  | UArray (l : list Unknown)
  | UObject.

Fixpoint spanDigits (l : list ascii) : list ascii * list ascii :=
  match l with
  | c :: l' => if isDigit c then let '(d, r) := spanDigits l' in (c :: d, r) else ([], l)
  | [] => ([], [])
  end.

Definition digitsZ (l : list ascii) : Z := digitsValue (ofChars l).

(** An optional exponent up to the end of the text. *)
Definition parseExponent (l : list ascii) : option Z :=
  match l with
  | [] => Some 0
  | e :: l' =>
      if bool_decide (e = "e"%char) || bool_decide (e = "E"%char) then
        let '(sign, l') := match l' with
          | c :: r => if bool_decide (c = "-"%char) then (-1, r)
                      else if bool_decide (c = "+"%char) then (1, r) else (1, l')
          | [] => (1, [])
          end in
        match spanDigits l' with
        | (((_ :: _) as ds), []) => Some (sign * digitsZ ds)
        | _ => None
        end
      else None
  end.

(** StrUnsignedDecimalLiteral, [Infinity] excepted. *)
Definition parseUnsigned (l : list ascii) : option Q :=
  let '(int, r) := spanDigits l in
  let '(frac, r) := match r with
    | c :: r' => if bool_decide (c = "."%char) then spanDigits r' else ([], r)
    | [] => ([], [])
    end in
  if (length int + length frac =? 0)%nat then None else
  e ← parseExponent r;
  Some (inject_Z (digitsZ (int ++ frac)) * Qpower (10 # 1) (e - Z.of_nat (length frac)))%Q.

Definition radixDigit (c : ascii) : Z :=
  let n := codeUnit c in
  if isDigit c then n - 48 else if (97 <=? n) && (n <=? 122) then n - 87
  else if (65 <=? n) && (n <=? 90) then n - 55 else 99.

Definition parseRadix (radix : Z) (l : list ascii) : option Q :=
  if negb (bool_decide (l = [])) && forallb (fun c => radixDigit c <? radix) l
  then Some (inject_Z (fold_left (fun acc c => acc * radix + radixDigit c) l 0)) else None.

(** StringToNumber, [None] when the result is not finite. *)
Definition stringToNumber (s : string) : option Q :=
  match chars (trim s) with
  | [] => Some 0%Q
  | c :: l =>
      if bool_decide (c = "-"%char) then q ← parseUnsigned l; Some (- q)%Q
      else if bool_decide (c = "+"%char) then parseUnsigned l
      else match l with
        | x :: l' =>
            if bool_decide (c = "0"%char)
               && (bool_decide (x = "x"%char) || bool_decide (x = "X"%char)) then parseRadix 16 l'
            else if bool_decide (c = "0"%char)
               && (bool_decide (x = "o"%char) || bool_decide (x = "O"%char)) then parseRadix 8 l'
            else if bool_decide (c = "0"%char)
               && (bool_decide (x = "b"%char) || bool_decide (x = "B"%char)) then parseRadix 2 l'
            else parseUnsigned (c :: l)
        | [] => parseUnsigned [c]
        end
  end.

(** [Number(value)]: an array is first joined into text, so one element
    converts through its own text and two never make a number. *)
Fixpoint toNumber (value : Unknown) : option Q :=
  match value with
  | UUndefined | UNotFinite | UObject => None
  | UNull => Some 0%Q
  | UBool b => Some (if b then 1 else 0)%Q
  | UNumber q => Some q
  | UString s => stringToNumber s
  | UArray [] => Some 0%Q
  | UArray [UUndefined] => Some 0%Q
  | UArray [UBool _] => None
  | UArray [v] => toNumber v
  | UArray (_ :: _ :: _) => None
  end.

(** [Math.round]: half a unit rounds up. *)
Definition mathRound (q : Q) : Z := Qfloor (q + (1 # 2))%Q.

(** [function integer(value, fallback, minimum, maximum)] *)
Definition integer (value : Unknown) (fallback minimum maximum : Z) : Z :=
  match toNumber value with
  | None => fallback
  | Some parsed => Z.min maximum (Z.max minimum (mathRound parsed))
  end.

(** ** The policy *)

Record LunchBreakPolicy := mkPolicy {
  break1OffsetMinutes : Z;
  lunchOffsetMinutes : Z;
  break2OffsetMinutes : Z;
  break1DurationMinutes : Z;
  lunchDurationMinutes : Z;
  break2DurationMinutes : Z;
  timeStepMinutes : Z;
}.

Definition DEFAULT_POLICY : LunchBreakPolicy := mkPolicy 120 240 120 10 30 10 5.

(** An object with these properties, absent ones being [UUndefined]. *)
Record PolicyValue := mkPolicyValue {
  v_break1OffsetMinutes : Unknown;
  v_lunchOffsetMinutes : Unknown;
  v_break2OffsetMinutes : Unknown;
  v_break1DurationMinutes : Unknown;
  v_lunchDurationMinutes : Unknown;
  v_break2DurationMinutes : Unknown;
  v_timeStepMinutes : Unknown;
}.

Definition normalizePolicy (value : PolicyValue) : LunchBreakPolicy :=
  mkPolicy
    (integer (v_break1OffsetMinutes value) (break1OffsetMinutes DEFAULT_POLICY) 10 480)
    (integer (v_lunchOffsetMinutes value) (lunchOffsetMinutes DEFAULT_POLICY) 30 600)
    (integer (v_break2OffsetMinutes value) (break2OffsetMinutes DEFAULT_POLICY) 10 480)
    (integer (v_break1DurationMinutes value) (break1DurationMinutes DEFAULT_POLICY) 5 60)
    (integer (v_lunchDurationMinutes value) (lunchDurationMinutes DEFAULT_POLICY) 15 120)
    (integer (v_break2DurationMinutes value) (break2DurationMinutes DEFAULT_POLICY) 5 60)
    (integer (v_timeStepMinutes value) (timeStepMinutes DEFAULT_POLICY) 1 60).

Definition policyValue (p : LunchBreakPolicy) : PolicyValue :=
  let n z := UNumber (inject_Z z) in
  mkPolicyValue (n (break1OffsetMinutes p)) (n (lunchOffsetMinutes p)) (n (break2OffsetMinutes p))
    (n (break1DurationMinutes p)) (n (lunchDurationMinutes p)) (n (break2DurationMinutes p))
    (n (timeStepMinutes p)).

(** A patch of the contract schema: absent fields are [None]. *)
Record PolicyPatch := mkPolicyPatch {
  p_break1OffsetMinutes : option Z;
  p_lunchOffsetMinutes : option Z;
  p_break2OffsetMinutes : option Z;
  p_break1DurationMinutes : option Z;
  p_lunchDurationMinutes : option Z;
  p_break2DurationMinutes : option Z;
  p_timeStepMinutes : option Z;
}.

(** [{ ...policy, ...patch }] *)
Definition spreadPatch (policy : LunchBreakPolicy) (patch : PolicyPatch) : PolicyValue :=
  let n cur new := UNumber (inject_Z (default cur new)) in
  mkPolicyValue
    (n (break1OffsetMinutes policy) (p_break1OffsetMinutes patch))
    (n (lunchOffsetMinutes policy) (p_lunchOffsetMinutes patch))
    (n (break2OffsetMinutes policy) (p_break2OffsetMinutes patch))
    (n (break1DurationMinutes policy) (p_break1DurationMinutes patch))
    (n (lunchDurationMinutes policy) (p_lunchDurationMinutes patch))
    (n (break2DurationMinutes policy) (p_break2DurationMinutes patch))
    (n (timeStepMinutes policy) (p_timeStepMinutes patch)).

(** ** The normal form *)

Record validPolicy (p : LunchBreakPolicy) : Prop := {
  vp_break1Offset : 10 <= break1OffsetMinutes p <= 480;
  vp_lunchOffset : 30 <= lunchOffsetMinutes p <= 600;
  vp_break2Offset : 10 <= break2OffsetMinutes p <= 480;
  vp_break1Duration : 5 <= break1DurationMinutes p <= 60;
  vp_lunchDuration : 15 <= lunchDurationMinutes p <= 120;
  vp_break2Duration : 5 <= break2DurationMinutes p <= 60;
  vp_timeStep : 1 <= timeStepMinutes p <= 60;
}.

Lemma mathRound_inject z : mathRound (inject_Z z) = z.
Proof.
  unfold mathRound, Qfloor, Qplus, inject_Z; cbn.
  rewrite Z.mul_1_r. replace (z * 2 + 1) with (1 + z * 2) by lia.
  rewrite Z.div_add by lia. done.
Qed.

Lemma integer_range value fallback minimum maximum :
  minimum <= fallback <= maximum ->
  minimum <= integer value fallback minimum maximum <= maximum.
Proof. intros H. unfold integer. destruct (toNumber value); lia. Qed.

Lemma integer_id z fallback minimum maximum :
  minimum <= z <= maximum -> integer (UNumber (inject_Z z)) fallback minimum maximum = z.
Proof. intros H. unfold integer. cbn [toNumber]. rewrite mathRound_inject. lia. Qed.

(** Whatever the stored or submitted values are (missing, [null], text,
    fractions, out of range), the normalised policy is within the bounds the
    placement relies on, and normalising a policy again changes nothing. *)
Theorem normalizePolicy_valid value :
  validPolicy (normalizePolicy value) /\
  normalizePolicy (policyValue (normalizePolicy value)) = normalizePolicy value.
Proof.
  assert (Hv : validPolicy (normalizePolicy value)).
  { split; apply integer_range; cbn; lia. }
  split; [done|]. destruct Hv. destruct (normalizePolicy value); cbn in *.
  unfold normalizePolicy, policyValue; cbn [v_break1OffsetMinutes v_lunchOffsetMinutes
    v_break2OffsetMinutes v_break1DurationMinutes v_lunchDurationMinutes v_break2DurationMinutes
    v_timeStepMinutes].
  by rewrite !integer_id.
Qed.

Lemma normalizePolicy_id p : validPolicy p -> normalizePolicy (policyValue p) = p.
Proof.
  intros []. destruct p; cbn in *. unfold normalizePolicy; cbn [v_break1OffsetMinutes v_lunchOffsetMinutes
    v_break2OffsetMinutes v_break1DurationMinutes v_lunchDurationMinutes v_break2DurationMinutes
    v_timeStepMinutes policyValue].
  cbn [break1OffsetMinutes lunchOffsetMinutes break2OffsetMinutes break1DurationMinutes
    lunchDurationMinutes break2DurationMinutes timeStepMinutes].
  by rewrite !integer_id.
Qed.

Example integer_null : integer UNull 30 15 120 = 15. Proof. reflexivity. Qed.
Example integer_text : integer (UString " 4.5e1 ") 30 15 120 = 45. Proof. reflexivity. Qed.
Example integer_half : integer (UNumber (61 # 2)) 30 15 120 = 31. Proof. reflexivity. Qed.
