(* ===== verification/LunchBreakPlacement.v ===== *)
(** * Placing lunch and breaks in a shift

    The pure scheduling core of
    apps/api-v2/src/operations/lunch-breaks.service.ts: [placeBreaks] tries
    every subset of break, lunch and break and keeps the best that fits,
    [placeBreakSubset] places one subset greedily on the time grid.  Times are
    milliseconds; a placed break holds the ISO text of its ends, as the
    response does. *)

From S2P Require Import Prelude JsStd JsCollections JsDate ContractHelpers LunchBreakPolicy.

Inductive BreakType := Break1 | Lunch | Break2.

#[global] Instance BreakType_eq_dec : EqDecision BreakType.
Proof. solve_decision. Defined.

Definition BREAK_TYPES : list BreakType := [Break1; Lunch; Break2].

(** One element of [specs]. *)
Record BreakSpec := mkSpec {
  bs_type : BreakType;
  bs_durationMinutes : Z;
  bs_preferredStartMs : Z;
  bs_paid : bool;
  bs_priority : Z;
}.

(** One element of [LunchBreakRow['breaks']]. *)
Record BreakEntry := mkEntry {
  be_type : BreakType;
  be_startTime : string;
  be_endTime : string;
  be_durationMinutes : Z;
  be_paid : bool;
}.

Definition minimumGap (left right : BreakType) : Z :=
  match left, right with Break1, Lunch => 30 * 60000 | _, _ => 15 * 60000 end.

Definition durationMs (s : BreakSpec) : Z := bs_durationMinutes s * 60000.

(** The first loop of [placeBreakSubset]: latest starts, from the last spec
    backwards. *)
Fixpoint latestStarts (shiftEndMs : Z) (specs : list BreakSpec) : list Z :=
  match specs with
  | [] => []
  | [s] => [shiftEndMs - durationMs s]
  | s :: ((next :: _) as rest) =>
      let later := latestStarts shiftEndMs rest in
      (hd 0 later - minimumGap (bs_type s) (bs_type next) - durationMs s) :: later
  end.

(** [Math.round(x / step) * step] for integers, [step > 0]. *)
Definition roundToStep (x step : Z) : Z := (2 * x + step) / (2 * step) * step.

(** The second loop, from [earliest] on. *)
Fixpoint placeFrom (shiftStartMs shiftEndMs stepMs earliest : Z) (specs : list BreakSpec)
    (latest : list Z) : option (list BreakEntry) :=
  match specs, latest with
  | spec :: rest, l :: latest' =>
      if l <? earliest then None else
      let rounded := roundToStep (Z.min l (Z.max earliest (bs_preferredStartMs spec))) stepMs in
      let start := Z.min l (Z.max earliest rounded) in
      let endMs := start + durationMs spec in
      if (start <? shiftStartMs) || (shiftEndMs <? endMs) || (endMs <=? start) then None else
      let earliest' := match rest with
        | next :: _ => endMs + minimumGap (bs_type spec) (bs_type next)
        | [] => earliest
        end in
      placed ← placeFrom shiftStartMs shiftEndMs stepMs earliest' rest latest';
      Some (mkEntry (bs_type spec) (toISOString start) (toISOString endMs)
              (bs_durationMinutes spec) (bs_paid spec) :: placed)
  | _, _ => Some []
  end.

Definition placeBreakSubset (shiftStartMs shiftEndMs stepMs : Z) (specs : list BreakSpec)
    : option (list BreakEntry) :=
  placeFrom shiftStartMs shiftEndMs stepMs (shiftStartMs + 30 * 60000) specs
    (latestStarts shiftEndMs specs).

Definition breakSpecs (shiftStartMs : Z) (policy : LunchBreakPolicy) (lunchDuration : Z)
    : list BreakSpec :=
  [mkSpec Break1 (break1DurationMinutes policy)
     (shiftStartMs + break1OffsetMinutes policy * 60000) true 2;
   mkSpec Lunch lunchDuration
     (shiftStartMs + lunchOffsetMinutes policy * 60000) false 4;
   mkSpec Break2 (break2DurationMinutes policy)
     (shiftStartMs + (lunchOffsetMinutes policy + lunchDuration + break2OffsetMinutes policy) * 60000)
     true 1].

(** [specs.filter((_entry, index) => (mask & (1 << index)) !== 0)] *)
Definition selectMask (specs : list BreakSpec) (mask : Z) : list BreakSpec :=
  (imap pair specs) ≫= (fun e => if Z.testbit mask (Z.of_nat e.1) then [e.2] else []).

Definition scoreOf (selected : list BreakSpec) : Z :=
  fold_left (fun total item => total + bs_priority item) selected 0.

(** One iteration of [for (let mask = 1; mask < (1 << specs.length); ...)]. *)
Definition considerMask (shiftStartMs shiftEndMs stepMs : Z) (specs : list BreakSpec)
    (best : list BreakEntry * Z) (mask : Z) : list BreakEntry * Z :=
  let selected := selectMask specs mask in
  match placeBreakSubset shiftStartMs shiftEndMs stepMs selected with
  | None => best
  | Some candidate =>
      let score := scoreOf selected in
      if (length best.1 <? length candidate)%nat
         || ((length candidate =? length best.1)%nat && (best.2 <? score))
      then (candidate, score) else best
  end.

Definition placeBreaks (shiftStartMs shiftEndMs : Z) (policy : LunchBreakPolicy)
    (lunchDuration : Z) : list BreakEntry :=
  let specs := breakSpecs shiftStartMs policy lunchDuration in
  let stepMs := timeStepMinutes policy * 60000 in
  (fold_left (considerMask shiftStartMs shiftEndMs stepMs specs)
     (map Z.of_nat (seq 1 (Nat.pow 2 (length specs) - 1))) ([], 0)).1.

(** ** One subset *)

(** Time a subset needs after its first half hour. *)
Fixpoint spanMs (specs : list BreakSpec) : Z :=
  match specs with
  | [] => 0
  | [s] => durationMs s
  | s :: ((next :: _) as rest) => durationMs s + minimumGap (bs_type s) (bs_type next) + spanMs rest
  end.

Definition gapAfter (s : BreakSpec) (rest : list BreakSpec) : Z :=
  match rest with [] => 0 | next :: _ => minimumGap (bs_type s) (bs_type next) end.

Lemma gapAfter_nonneg s rest : 0 <= gapAfter s rest.
Proof. destruct rest; cbn; [lia|]. unfold minimumGap. repeat case_match; lia. Qed.

Lemma spanMs_cons s rest : spanMs (s :: rest) = durationMs s + gapAfter s rest + spanMs rest.
Proof. destruct rest; cbn [spanMs gapAfter]; lia. Qed.

Lemma latestStarts_cons e s rest :
  latestStarts e (s :: rest) =
  (match rest with
   | [] => e
   | _ => hd 0 (latestStarts e rest) - gapAfter s rest
   end - durationMs s) :: latestStarts e rest.
Proof. by destruct rest. Qed.

Lemma latestStarts_span e specs : specs <> [] -> hd 0 (latestStarts e specs) = e - spanMs specs.
Proof.
  induction specs as [|s rest IH]; intros H; [done|].
  rewrite latestStarts_cons, spanMs_cons. cbn [hd]. destruct rest as [|n rest]; [cbn; lia|].
  rewrite IH by done. lia.
Qed.

(** A placement of [specs]: the breaks of the specs in order, each of its
    duration, the first from [earliest] on, the gaps respected, all before
    [shiftEnd]. *)
Inductive Placement (shiftEnd : Z) : Z -> list BreakSpec -> list BreakEntry -> Prop :=
  | Placement_nil earliest : Placement shiftEnd earliest [] []
  | Placement_cons earliest spec rest start placed :
      earliest <= start -> start < start + durationMs spec <= shiftEnd ->
      Placement shiftEnd
        (match rest with
         | next :: _ => start + durationMs spec + minimumGap (bs_type spec) (bs_type next)
         | [] => earliest
         end) rest placed ->
      Placement shiftEnd earliest (spec :: rest)
        (mkEntry (bs_type spec) (toISOString start) (toISOString (start + durationMs spec))
           (bs_durationMinutes spec) (bs_paid spec) :: placed).

Lemma spanMs_pos specs :
  Forall (fun s => 0 < bs_durationMinutes s) specs -> 0 <= spanMs specs.
Proof.
  induction 1 as [|s rest Hs Hr IH]; [done|]. rewrite spanMs_cons.
  pose proof (gapAfter_nonneg s rest). unfold durationMs. lia.
Qed.

(** The greedy loop never gets stuck when the subset fits, and its result is a
    placement. *)
Lemma placeFrom_fits ss se step earliest specs :
  Forall (fun s => 0 < bs_durationMinutes s) specs -> ss <= earliest -> 0 < step ->
  earliest + spanMs specs <= se ->
  exists placed, placeFrom ss se step earliest specs (latestStarts se specs) = Some placed /\
    Placement se earliest specs placed.
Proof.
  intros Hd. revert earliest. induction Hd as [|s rest Hs Hr IH]; intros earliest Hss Hstep Hfit.
  { eexists. split; [done|constructor]. }
  pose proof (latestStarts_span se (s :: rest) ltac:(done)) as Hhd.
  rewrite latestStarts_cons in *. cbn [hd] in Hhd. rewrite spanMs_cons in *.
  set (l := _ - durationMs s) in *. cbn [placeFrom].
  pose proof (spanMs_pos rest Hr). pose proof (gapAfter_nonneg s rest).
  assert (0 < durationMs s) by (unfold durationMs; lia).
  rewrite (proj2 (Z.ltb_ge l earliest)) by lia.
  set (start := Z.min l _). assert (Hst : earliest <= start <= l) by lia.
  assert (Hend : start + durationMs s <= se) by lia.
  rewrite (proj2 (Z.ltb_ge start ss)), (proj2 (Z.ltb_ge se _)), (proj2 (Z.leb_gt _ start)) by lia.
  cbn [orb]. destruct rest as [|n rest].
  - eexists. split; [done|]. constructor; [lia..|constructor].
  - destruct (IH (start + durationMs s + gapAfter s (n :: rest))) as (placed & Heq & Hp); [lia..|].
    cbn [gapAfter] in Heq, Hp. rewrite Heq.
    eexists. split; [done|]. constructor; [lia..|done].
Qed.

Lemma placeBreakSubset_spec ss se step specs :
  Forall (fun s => 0 < bs_durationMinutes s) specs -> 0 < step -> specs <> [] ->
  (ss + 30 * 60000 + spanMs specs <= se ->
     exists placed, placeBreakSubset ss se step specs = Some placed /\
       Placement se (ss + 30 * 60000) specs placed) /\
  (se < ss + 30 * 60000 + spanMs specs -> placeBreakSubset ss se step specs = None).
Proof.
  intros Hd Hstep Hne. split; [apply placeFrom_fits; [done|lia|done]|].
  intros Hno. unfold placeBreakSubset. pose proof (latestStarts_span se specs Hne) as Hhd.
  destruct specs as [|s rest]; [done|]. rewrite latestStarts_cons in *. cbn [hd] in Hhd.
  cbn [placeFrom]. by rewrite (proj2 (Z.ltb_lt _ _)) by lia.
Qed.

(** [placeBreakSubset] decides feasibility exactly: for a non-empty
    selection of breaks with positive durations it fails precisely when half
    an hour of work, the durations and the minimum gaps do not fit in the
    shift, and otherwise returns the selected breaks in order, inside the
    shift, at least half an hour after its start and with the gaps respected.
    Rounding to the time grid never loses a feasible selection. *)
Theorem placeBreakSubset_correct ss se step specs :
  Forall (fun s => 0 < bs_durationMinutes s) specs -> 0 < step -> specs <> [] ->
  (ss + 30 * 60000 + spanMs specs <= se ->
     exists placed, placeBreakSubset ss se step specs = Some placed /\
       Placement se (ss + 30 * 60000) specs placed) /\
  (se < ss + 30 * 60000 + spanMs specs -> placeBreakSubset ss se step specs = None).
Proof. apply placeBreakSubset_spec. Qed.

Lemma placeBreakSubset_correct_witness :
  let specs := breakSpecs 0 DEFAULT_POLICY 30 in
  (exists placed, placeBreakSubset 0 28800000 300000 specs = Some placed /\
     Placement 28800000 (0 + 30 * 60000) specs placed) /\
  placeBreakSubset 0 7499999 300000 specs = None.
Proof.
  cbv zeta. split.
  - refine (proj1 (placeBreakSubset_correct 0 28800000 300000 _ _ _ _) _);
      [repeat constructor|reflexivity|discriminate|vm_compute; discriminate].
  - refine (proj2 (placeBreakSubset_correct 0 7499999 300000 _ _ _ _) _);
      [repeat constructor|reflexivity|discriminate|reflexivity].
Defined.

(** ** The best subset *)

Definition masks : list Z := [1; 2; 3; 4; 5; 6; 7].

(** The selection of [mask] fits in the shift. *)
Definition fits (ss se : Z) (specs : list BreakSpec) (mask : Z) : Prop :=
  ss + 30 * 60000 + spanMs (selectMask specs mask) <= se.

(** More breaks first, then the larger total priority. *)
Definition noBetter (specs : list BreakSpec) (mask mask' : Z) : Prop :=
  let n := length (selectMask specs mask) in
  let n' := length (selectMask specs mask') in
  (n' < n)%nat \/ n' = n /\ scoreOf (selectMask specs mask') <= scoreOf (selectMask specs mask).

(** What the loop knows after trying the masks [done]. *)
Definition bestSoFar (ss se : Z) (specs : list BreakSpec) (seen : list Z)
    (best : list BreakEntry * Z) : Prop :=
  (best = ([], 0) /\ Forall (fun m => ~ fits ss se specs m) seen) \/
  exists mask, mask ∈ seen /\ fits ss se specs mask /\
    Placement se (ss + 30 * 60000) (selectMask specs mask) best.1 /\
    best.2 = scoreOf (selectMask specs mask) /\
    Forall (fun m => fits ss se specs m -> noBetter specs mask m) seen.

Lemma Placement_length se e specs placed : Placement se e specs placed -> length placed = length specs.
Proof. induction 1; cbn; congruence. Qed.

Lemma selectMask_Forall (P : BreakSpec -> Prop) specs mask :
  Forall P specs -> Forall P (selectMask specs mask).
Proof.
  rewrite !Forall_forall. intros H x. unfold selectMask.
  rewrite list_elem_of_bind. intros ([i y] & Hx & Hy). cbn in Hx.
  destruct (Z.testbit mask (Z.of_nat i)); [|by apply elem_of_nil in Hx].
  apply list_elem_of_singleton in Hx as ->. apply elem_of_lookup_imap in Hy as (j & z & [= -> ->] & Hz).
  apply H. by eapply list_elem_of_lookup_2.
Qed.

Lemma considerMask_best ss se step specs seen best mask :
  Forall (fun s => 0 < bs_durationMinutes s) specs -> 0 < step ->
  selectMask specs mask <> [] -> bestSoFar ss se specs seen best ->
  bestSoFar ss se specs (mask :: seen) (considerMask ss se step specs best mask).
Proof.
  intros Hd Hs Hne Hb. unfold considerMask.
  destruct (placeBreakSubset_spec ss se step (selectMask specs mask)
              (selectMask_Forall _ _ _ Hd) Hs Hne) as [Hfit Hno].
  destruct (Z.le_gt_cases (ss + 30 * 60000 + spanMs (selectMask specs mask)) se) as [Hle|Hgt].
  - destruct (Hfit Hle) as (placed & -> & Hp). pose proof (Placement_length _ _ _ _ Hp) as Hlen.
    destruct Hb as [[-> Hnone]|(m & Hm & Hfm & Hpm & Hsm & Hall)].
    + cbn [fst snd length]. rewrite Hlen. destruct (selectMask specs mask) as [|s l] eqn:E; [done|].
      rewrite (proj2 (Nat.ltb_lt 0 _)) by (cbn; lia). cbn [orb]. right. exists mask.
      rewrite E. split_and!; [set_solver|by unfold fits; rewrite E|done..|].
      constructor; [by right|]. eapply Forall_impl; [exact Hnone|]. by intros ? ? ?.
    + pose proof (Placement_length _ _ _ _ Hpm) as Hlenm. rewrite Hlen, Hlenm, Hsm.
      destruct (_ || _) eqn:Hcmp; right.
      * exists mask. split_and!; [set_solver|done..|]. constructor; [by right|].
        eapply Forall_impl; [exact Hall|]. unfold noBetter. intros k Hk Hfk. specialize (Hk Hfk).
        bool_lia.
      * exists m. split_and!; [set_solver|done..|]. constructor; [|done].
        intros _. unfold noBetter. bools. lia.
  - rewrite Hno by lia. destruct Hb as [[-> Hnone]|(m & Hm & Hfm & Hpm & Hsm & Hall)].
    + left. split; [done|]. constructor; [unfold fits; lia|done].
    + right. exists m. split_and!; [set_solver|done..|]. constructor; [unfold fits; lia|done].
Qed.

Lemma placeBreaks_best ss se step specs todo seen best :
  Forall (fun s => 0 < bs_durationMinutes s) specs -> 0 < step ->
  Forall (fun m => selectMask specs m <> []) todo -> bestSoFar ss se specs seen best ->
  bestSoFar ss se specs (reverse todo ++ seen)
    (fold_left (considerMask ss se step specs) todo best).
Proof.
  intros Hd Hs Hne. revert seen best. induction Hne as [|m todo Hm Hr IH]; intros seen best Hb; [done|].
  rewrite reverse_cons, <- app_assoc. cbn [fold_left app]. apply IH. by apply considerMask_best.
Qed.

Lemma placeBreaks_spec ss se policy lunch :
  validPolicy policy -> 15 <= lunch <= 120 ->
  let specs := breakSpecs ss policy lunch in
  (placeBreaks ss se policy lunch = [] /\ Forall (fun m => ~ fits ss se specs m) masks) \/
  exists mask, mask ∈ masks /\ fits ss se specs mask /\
    Placement se (ss + 30 * 60000) (selectMask specs mask) (placeBreaks ss se policy lunch) /\
    Forall (fun m => fits ss se specs m -> noBetter specs mask m) masks.
Proof.
  intros Hv Hl specs. destruct Hv.
  pose proof (placeBreaks_best ss se (timeStepMinutes policy * 60000) specs masks [] ([], 0)) as H.
  destruct H as [[Hbest Hall]|(m & Hm & Hf & Hp & _ & Hall)].
  - repeat constructor; cbn; lia.
  - lia.
  - repeat constructor; discriminate.
  - left. split; [done|constructor].
  - left. rewrite app_nil_r, reverse_Permutation in Hall. split; [exact (f_equal fst Hbest)|exact Hall].
  - right. rewrite app_nil_r, reverse_Permutation in Hm, Hall.
    exists m. split_and!; [exact Hm|exact Hf|exact Hp|exact Hall].
Qed.

(** C35: [placeBreaks] is optimal: with a valid policy it returns no break only
    if not even one fits, and otherwise a placement of some selection inside
    the shift such that no selection that fits has more breaks, or as many
    breaks and a larger total priority (lunch 4, first break 2, second break
    1). *)
Theorem placeBreaks_optimal ss se policy lunch :
  validPolicy policy -> 15 <= lunch <= 120 ->
  let specs := breakSpecs ss policy lunch in
  (placeBreaks ss se policy lunch = [] /\ Forall (fun m => ~ fits ss se specs m) masks) \/
  exists mask, mask ∈ masks /\ fits ss se specs mask /\
    Placement se (ss + 30 * 60000) (selectMask specs mask) (placeBreaks ss se policy lunch) /\
    Forall (fun m => fits ss se specs m -> noBetter specs mask m) masks.
Proof. apply placeBreaks_spec. Qed.

Lemma default_validPolicy : validPolicy DEFAULT_POLICY.
Proof. split; cbn; lia. Qed.

Lemma placeBreaks_optimal_witness :
  let specs := breakSpecs 0 DEFAULT_POLICY 30 in
  (placeBreaks 0 7200000 DEFAULT_POLICY 30 = [] /\ Forall (fun m => ~ fits 0 7200000 specs m) masks) \/
  exists mask, mask ∈ masks /\ fits 0 7200000 specs mask /\
    Placement 7200000 (0 + 30 * 60000) (selectMask specs mask) (placeBreaks 0 7200000 DEFAULT_POLICY 30) /\
    Forall (fun m => fits 0 7200000 specs m -> noBetter specs mask m) masks.
Proof. apply placeBreaks_optimal; [apply default_validPolicy | lia]. Defined.

(** In a two-hour shift the first break and the lunch fit; in eighty minutes two
    rest breaks win over a lunch alone, because the count decides first. *)
Example placeBreaks_two_hours :
  map be_type (placeBreaks 0 7200000 DEFAULT_POLICY 30) = [Break1; Lunch].
Proof. vm_compute. reflexivity. Qed.
Example placeBreaks_eighty_minutes :
  map be_type (placeBreaks 0 4800000 DEFAULT_POLICY 30) = [Break1; Break2].
Proof. vm_compute. reflexivity. Qed.
