(* ===== verification/LunchBreaks.v ===== *)
(** * Break updates, stored breaks and generated rows

    The rest of the pure code of
    apps/api-v2/src/operations/lunch-breaks.service.ts and the break rows of
    apps/api-v2/src/operations/serialization.ts: an update is normalised to one
    entry per type ([normalizeBreakUpdate]), turned into windows
    ([breakPayload]), checked against the shift ([assertBreaksInsideShift]),
    stored, and read back ([serializeBreaks]); [translateBreaks] moves stored
    breaks with their shift; [buildBreakSchedule] generates rows.

    The collation of [localeCompare] is an argument (class [LocaleCompare]). *)

From S2P Require Import Prelude JsStd JsCollections JsDate ContractHelpers LunchBreakPolicy.
From S2P Require Import LunchBreakPlacement.

(** ** Data *)

Definition breakTypeText (t : BreakType) : string :=
  match t with Break1 => "break1" | Lunch => "lunch" | Break2 => "break2" end.

Definition DB_BREAK_TYPE (t : BreakType) : string :=
  match t with Break1 => "BREAK1" | Lunch => "LUNCH" | Break2 => "BREAK2" end.

Definition publicBreakType (value : option string) : option BreakType :=
  match value with
  | None => None
  | Some v =>
      if bool_decide (v = "BREAK1") then Some Break1
      else if bool_decide (v = "LUNCH") then Some Lunch
      else if bool_decide (v = "BREAK2") then Some Break2 else None
  end.

(** A row of the Break table; a missing [id] compares as the empty text. *)
Record StoredBreak := mkStored {
  sb_id : string;
  sb_type : option string;
  sb_startTime : Z;
  sb_endTime : Z;
  sb_paid : bool;
}.

(** One entry of [ShiftBreakUpdateRequest]. *)
Record BreakUpdate := mkUpdate {
  bu_type : BreakType;
  bu_startTime : option string;
  bu_durationMinutes : option Z;
  bu_skip : bool;
}.

Record NormalizedBreakInput := mkNormalized {
  nb_type : BreakType;
  nb_skip : bool;
  nb_startTime : option string;
  nb_durationMinutes : option Z;
}.

Record LunchBreakRow := mkRow {
  lr_shiftId : option string;
  lr_userId : option string;
  lr_employeeName : option string;
  lr_startTime : string;
  lr_endTime : string;
  lr_breaks : list BreakEntry;
}.

Record GeneratedInput := mkGenerated {
  gi_shiftId : option string;
  gi_userId : option string;
  gi_employeeName : option string;
  gi_startTime : string;
  gi_endTime : string;
  gi_lunchDurationMinutes : option Z;
}.

Definition breakUpdateProblem {A} (detail : string) : Result A :=
  throwProblem 422 "invalid_break_update" detail "Break update validation failed".

(** ** Updates *)

(** The loop of [normalizeBreakUpdate]; [seen] and [byType] always hold the
    same keys, so one map stands for both. *)
Fixpoint normalizeLoop (byType : JsMap BreakType NormalizedBreakInput) (entries : list BreakUpdate)
    : Result (JsMap BreakType NormalizedBreakInput) :=
  match entries with
  | [] => Ok byType
  | entry :: rest =>
      let t := bu_type entry in
      if mapHas byType t then
        breakUpdateProblem "Each lunch or break type can appear only once."
      else if bu_skip entry then
        normalizeLoop (mapSet byType t (mkNormalized t true None None)) rest
      else
        match bu_startTime entry with
        | None | Some EmptyString =>
            breakUpdateProblem (breakTypeText t +:+ " requires startTime unless skipped.")
        | Some text =>
            start ← parseUtcInstant text "/breaks/startTime";
            normalizeLoop (mapSet byType t
              (mkNormalized t false (Some (toISOString start)) (bu_durationMinutes entry))) rest
        end
  end.

Definition normalizeBreakUpdate (breaks : list BreakUpdate) : Result (list NormalizedBreakInput) :=
  byType ← normalizeLoop [] breaks;
  Ok (map (fun t => default (mkNormalized t true None None) (mapGet byType t)) BREAK_TYPES).

Definition optNumber (value : option Z) : Unknown :=
  match value with Some n => UNumber (QArith_base.inject_Z n) | None => UUndefined end.

Definition payloadOf (policy : LunchBreakPolicy) (entry : NormalizedBreakInput)
    : Result (list BreakEntry) :=
  if nb_skip entry then Ok [] else
  let t := nb_type entry in
  match nb_startTime entry with
  | None | Some EmptyString => breakUpdateProblem (breakTypeText t +:+ " requires startTime.")
  | Some text =>
      start ← parseUtcInstant text "/breaks/startTime";
      let fallback := match t with
        | Lunch => lunchDurationMinutes policy
        | Break1 => break1DurationMinutes policy
        | Break2 => break2DurationMinutes policy
        end in
      let minimum := match t with Lunch => 15 | _ => 5 end in
      let maximum := match t with Lunch => 120 | _ => 60 end in
      let durationMinutes := integer (optNumber (nb_durationMinutes entry)) fallback minimum maximum in
      Ok [mkEntry t (toISOString start) (toISOString (start + durationMinutes * 60000))
            durationMinutes (match t with Lunch => false | _ => true end)]
  end.

(** [inputs.flatMap(...)] *)
Definition breakPayload (inputs : list NormalizedBreakInput) (policy : LunchBreakPolicy)
    : Result (list BreakEntry) :=
  lists ← mapM (payloadOf policy) inputs; Ok (concat lists).

Definition breakWindowProblem {A} : Result A :=
  throwProblem 422 "invalid_break_window"
    "Lunch and break windows must be non-overlapping and remain inside their shift."
    "Break update validation failed".

Fixpoint windowLoop (shiftStart shiftEnd priorEnd : Z) (ordered : list BreakEntry) : Result unit :=
  match ordered with
  | [] => Ok tt
  | entry :: rest =>
      match dateParse (be_startTime entry), dateParse (be_endTime entry) with
      | Some s, Some e =>
          if (s <? shiftStart) || (shiftEnd <? e) || (e <=? s) || (s <? priorEnd)
          then breakWindowProblem else windowLoop shiftStart shiftEnd e rest
      | _, _ => breakWindowProblem
      end
  end.

Definition assertBreaksInsideShift `{LocaleCompare} (shiftStart shiftEnd : Z)
    (breaks : list BreakEntry) : Result unit :=
  windowLoop shiftStart shiftEnd shiftStart
    (sortBy (fun l r => localeCompare (be_startTime l) (be_startTime r)) breaks).

Definition breakText (e : BreakEntry) : string :=
  breakTypeText (be_type e) +:+ ":" +:+ be_startTime e +:+ ":" +:+ be_endTime e
  +:+ ":" +:+ (if be_paid e then "true" else "false").

Definition sameBreaks (current next : list BreakEntry) : bool :=
  let normalize l := joinWith "|" (sortBy compareText (map breakText l)) in
  (length current =? length next)%nat && bool_decide (normalize current = normalize next).

(** ** Stored breaks *)

(** [Math.round(x / step)] for integers, [step > 0]. *)
Definition roundDiv (x step : Z) : Z := (2 * x + step) / (2 * step).

(** An element of [ordered] with its position, which identifies the object in
    the [Set] of used entries. *)
Definition Located : Type := nat * StoredBreak.

Definition classify (acc : JsMap BreakType Located * list Located) (entry : Located)
    : JsMap BreakType Located * list Located :=
  match publicBreakType (sb_type entry.2) with
  | Some t => if mapHas acc.1 t then acc else (mapSet acc.1 t entry, acc.2)
  | None => (acc.1, acc.2 ++ [entry])
  end.

Definition firstSome {A} (l : list (option A)) : option A :=
  foldr (fun x acc => match x with Some v => Some v | None => acc end) None l.

Definition fallbackFor (typed : JsMap BreakType Located) (untyped : list Located) (t : BreakType)
    : option Located :=
  let paid := List.filter (fun e : Located => sb_paid e.2) untyped in
  let unpaid := List.filter (fun e : Located => negb (sb_paid e.2)) untyped in
  match t with
  | Break1 => firstSome [mapGet typed Break1; paid !! 0%nat; untyped !! 0%nat]
  | Lunch => firstSome [mapGet typed Lunch; unpaid !! 0%nat; untyped !! (length untyped / 2)%nat]
  | Break2 => firstSome [mapGet typed Break2; paid !! 1%nat; last untyped]
  end.

(** The [flatMap] over the types, with the set of used positions. *)
Fixpoint serializeLoop (fallback : BreakType -> option Located) (used : list nat)
    (types : list BreakType) : Result (list BreakEntry) :=
  match types with
  | [] => Ok []
  | t :: rest =>
      match fallback t with
      | None => serializeLoop fallback used rest
      | Some (pos, entry) =>
          if bool_decide (pos ∈ used) then serializeLoop fallback used rest else
          let durationMinutes := roundDiv (sb_endTime entry - sb_startTime entry) 60000 in
          if (durationMinutes <? 1) || (sb_endTime entry <=? sb_startTime entry) then
            throwProblem 500 "invalid_lunch_break_record"
              "A saved lunch or break record is invalid." "Lunch and break data error"
          else
            out ← serializeLoop fallback (pos :: used) rest;
            Ok (mkEntry t (toISOString (sb_startTime entry)) (toISOString (sb_endTime entry))
                  durationMinutes (sb_paid entry) :: out)
      end
  end.

Definition serializeBreaks `{LocaleCompare} (entries : list StoredBreak) : Result (list BreakEntry) :=
  let ordered := sortBy (fun l r => orElse (sb_startTime l - sb_startTime r)
                                      (localeCompare (sb_id l) (sb_id r))) entries in
  let '(typed, untyped) := fold_left classify (imap pair ordered) ([], []) in
  serializeLoop (fallbackFor typed untyped) [] BREAK_TYPES.

(** ** Moving breaks with their shift *)

Fixpoint windowsInvalid (nextStart nextEnd : Z) (prior : option Z) (l : list StoredBreak) : bool :=
  match l with
  | [] => false
  | entry :: rest =>
      (sb_endTime entry <=? sb_startTime entry) || (sb_startTime entry <? nextStart)
      || (nextEnd <? sb_endTime entry)
      || (match prior with Some e => sb_startTime entry <? e | None => false end)
      || windowsInvalid nextStart nextEnd (Some (sb_endTime entry)) rest
  end.

Definition moveBreak (delta : Z) (e : StoredBreak) : StoredBreak :=
  mkStored (sb_id e) (sb_type e) (sb_startTime e + delta) (sb_endTime e + delta) (sb_paid e).

(** The result holds the moved rows whole; the caller updates the two times of
    each row. *)
Definition translateBreaks `{LocaleCompare} (entries : list StoredBreak)
    (previousStart nextStart nextEnd : Z) : Result (list StoredBreak) :=
  let delta := nextStart - previousStart in
  let translated := sortBy (fun l r => orElse (sb_startTime l - sb_startTime r)
    (localeCompare (sb_id l) (sb_id r))) (map (moveBreak delta) entries) in
  if windowsInvalid nextStart nextEnd None translated then
    throwProblem 409 "setup_shift_break_conflict"
      "The resized setup shift would place an existing lunch or break outside the shift window. Move the breaks first or choose a larger window."
      "Conflict"
  else Ok translated.

(** ** Generated rows *)

Definition generationProblem {A} (detail : string) : Result A :=
  throwProblem 422 "invalid_break_generation" detail "Break generation validation failed".

Definition buildRow (policy : LunchBreakPolicy) (shift : GeneratedInput) : Result LunchBreakRow :=
  start ← parseUtcInstant (gi_startTime shift) "/shifts/startTime";
  stop ← parseUtcInstant (gi_endTime shift) "/shifts/endTime";
  if stop <=? start then generationProblem "Shift end time must be after shift start time." else
  let lunchDuration := integer (optNumber (gi_lunchDurationMinutes shift))
                         (lunchDurationMinutes policy) 15 120 in
  Ok (mkRow (gi_shiftId shift) (gi_userId shift)
        (match gi_employeeName shift with Some EmptyString => None | n => n end)
        (toISOString start) (toISOString stop) (placeBreaks start stop policy lunchDuration)).

Definition buildBreakSchedule (input : list GeneratedInput) (policy : LunchBreakPolicy)
    : Result (list LunchBreakRow) := mapM (buildRow policy) input.

(** [LunchBreakGenerationRequest]; the entries of [shifts] as the contract has
    them. *)
Record ManualShift := mkManual {
  ms_id : option string;
  ms_userId : option (option string);
  ms_employeeName : option string;
  ms_startTime : string;
  ms_endTime : string;
  ms_lunchDurationMinutes : option Z;
}.

Record LunchBreakGenerationRequest := mkGenerationRequest {
  gr_scheduleId : option string;
  gr_locationId : option string;
  gr_shiftIds : option (list string);
  gr_persist : option bool;
  gr_policy : option PolicyPatch;
  gr_shifts : option (list ManualShift);
}.

(** Truthiness of an optional string. *)
Definition textTruthy (v : option string) : bool :=
  match v with None | Some EmptyString => false | Some _ => true end.

(** [body.shifts?.length] as a condition. *)
Definition listTruthy {A} (v : option (list A)) : bool :=
  match v with None | Some [] => false | Some _ => true end.

Definition assertGenerationRequest (body : LunchBreakGenerationRequest) : Result unit :=
  if bool_decide (is_Some (gr_shifts body))
     && (bool_decide (is_Some (gr_shiftIds body)) || textTruthy (gr_scheduleId body)) then
    generationProblem "Manual shifts cannot be combined with schedule or shift references."
  else
  _ ← (if bool_decide (gr_persist body = Some true) then
        if negb (textTruthy (gr_locationId body)) then
          generationProblem "locationId is required when persisting lunch and breaks."
        else if negb (listTruthy (gr_shiftIds body)) then
          generationProblem "Persisted lunch and break generation requires explicit shiftIds."
        else if listTruthy (gr_shifts body) then
          generationProblem "Manual shifts cannot be persisted as schedule records."
        else Ok tt
      else Ok tt);
  if negb (listTruthy (gr_shifts body)) && negb (listTruthy (gr_shiftIds body))
     && negb (textTruthy (gr_scheduleId body)) && negb (textTruthy (gr_locationId body)) then
    generationProblem "Provide manual shifts or a bounded schedule scope before generating lunch and breaks."
  else Ok tt.

(** ** Reading stored breaks back *)

Definition entryOf (t : BreakType) (s : StoredBreak) : BreakEntry :=
  mkEntry t (toISOString (sb_startTime s)) (toISOString (sb_endTime s))
    (roundDiv (sb_endTime s - sb_startTime s) 60000) (sb_paid s).

Definition goodRow (s : StoredBreak) : Prop :=
  1 <= roundDiv (sb_endTime s - sb_startTime s) 60000 /\ sb_startTime s < sb_endTime s.

(** The row [s] holds the break [e]; its identifier is free. *)
Definition stores (e : BreakEntry) (s : StoredBreak) : Prop :=
  sb_type s = Some (DB_BREAK_TYPE (be_type e)) /\ sb_paid s = be_paid e /\
  dateParse (be_startTime e) = Some (sb_startTime s) /\
  dateParse (be_endTime e) = Some (sb_endTime s).

(** An entry whose texts are those of a window of its whole duration. *)
Definition wellFormed (e : BreakEntry) : Prop :=
  exists s, validTime s /\ validTime (s + be_durationMinutes e * 60000) /\
    1 <= be_durationMinutes e /\
    be_startTime e = toISOString s /\ be_endTime e = toISOString (s + be_durationMinutes e * 60000).

Definition typeOfRow (s : StoredBreak) : BreakType := default Break1 (publicBreakType (sb_type s)).

Lemma publicBreakType_DB t : publicBreakType (Some (DB_BREAK_TYPE t)) = Some t.
Proof. by destruct t. Qed.

Lemma roundDiv_minutes d : roundDiv (d * 60000) 60000 = d.
Proof. unfold roundDiv. div_lia. Qed.

Lemma stores_entryOf e s :
  wellFormed e -> stores e s ->
  publicBreakType (sb_type s) = Some (be_type e) /\ entryOf (be_type e) s = e /\ goodRow s.
Proof.
  intros (t & Hv1 & Hv2 & Hd & Hs & He) (Hty & Hp & Hps & Hpe).
  rewrite Hs, dateParse_iso in Hps by done. rewrite He, dateParse_iso in Hpe by done.
  injection Hps as Hps. injection Hpe as Hpe. rewrite Hty, publicBreakType_DB. split; [done|].
  assert (Hdur : sb_endTime s - sb_startTime s = be_durationMinutes e * 60000) by lia.
  unfold entryOf, goodRow. rewrite Hdur, roundDiv_minutes, Hp, <- Hps, <- Hpe, <- Hs, <- He.
  split; [by destruct e|lia].
Qed.

(** Rows of distinct known types are classified one by one. *)
Lemma classify_typed (L : list Located) m u :
  Forall (fun x : Located => is_Some (publicBreakType (sb_type x.2))) L ->
  NoDup (m.*1 ++ map (fun x : Located => typeOfRow x.2) L) ->
  fold_left classify L (m, u) = (m ++ map (fun x : Located => (typeOfRow x.2, x)) L, u).
Proof.
  revert m. induction L as [|x L IH]; intros m HL Hnd; [cbn; by rewrite app_nil_r|].
  apply Forall_cons in HL as [[t Ht] HL]. cbn [fold_left map] in *.
  assert (Hf : typeOfRow x.2 = t) by (unfold typeOfRow; by rewrite Ht).
  assert (Hfresh : t ∉ m.*1).
  { rewrite Hf in Hnd. apply NoDup_app in Hnd as (_ & H & _). intros Hin. apply (H _ Hin). set_solver. }
  unfold classify at 2. rewrite Ht. cbn [fst snd]. unfold mapHas.
  rewrite (proj2 (mapGet_None m t) Hfresh), bool_decide_false by (by intros []).
  rewrite mapSet_fresh by done. rewrite IH; [|done|].
  - rewrite Hf. by rewrite <- app_assoc.
  - rewrite fmap_app, <- app_assoc. cbn. by rewrite <- Hf.
Qed.

Definition entryAt (fallback : BreakType -> option Located) (t : BreakType) : option BreakEntry :=
  match fallback t with Some (_, s) => Some (entryOf t s) | None => None end.

Lemma serializeLoop_ok fallback used types :
  NoDup types ->
  (forall t p s, fallback t = Some (p, s) -> p ∉ used /\ goodRow s) ->
  (forall t t' p s s', fallback t = Some (p, s) -> fallback t' = Some (p, s') -> t = t') ->
  serializeLoop fallback used types = Ok (omap (entryAt fallback) types).
Proof.
  intros Hnd Hgood Hinj.
  assert (Hg : forall t p s, t ∈ types -> fallback t = Some (p, s) -> p ∉ used /\ goodRow s)
    by (intros; by eapply Hgood).
  clear Hgood. revert used Hg. induction types as [|t types IH]; intros used Hg; [done|].
  apply NoDup_cons in Hnd as [Hn Hnd]. cbn [serializeLoop omap list_omap]. unfold entryAt at 1.
  destruct (fallback t) as [[p s]|] eqn:Ht.
  - destruct (Hg t p s ltac:(set_solver) Ht) as [Hp [Hd Hlt]].
    rewrite bool_decide_false by done.
    rewrite (proj2 (Z.ltb_ge _ _)), (proj2 (Z.leb_gt _ _)) by done. cbn [orb].
    rewrite IH; [done|done|]. intros t' p' s' Ht' Hf.
    destruct (Hg t' p' s' ltac:(set_solver) Hf) as [Hp' Hgs]. split; [|done].
    rewrite not_elem_of_cons. split; [|done]. intros ->. apply Hn.
    by rewrite (Hinj t t' p s s' Ht Hf).
  - apply IH; [done|]. intros t' p' s' Ht'. apply Hg. set_solver.
Qed.

Definition byType (es : list BreakEntry) (t : BreakType) : option BreakEntry :=
  List.find (fun e => bool_decide (be_type e = t)) es.

(** Entries in the order break, lunch, break, each type once. *)
Definition canonical (es : list BreakEntry) : Prop := omap (byType es) BREAK_TYPES = es.

Lemma byType_Some es t e :
  NoDup (map be_type es) -> byType es t = Some e <-> e ∈ es /\ be_type e = t.
Proof.
  intros Hnd. unfold byType. split.
  - intros [Hin Ht]%find_some. split; [by apply list_elem_of_In|]. by bools.
  - intros [Hin Ht]. induction es as [|x es IH]; [by apply elem_of_nil in Hin|].
    cbn in Hnd |- *. apply NoDup_cons in Hnd as [Hn Hnd]. case_bool_decide as Hx.
    + apply elem_of_cons in Hin as [->|Hin]; [done|]. destruct Hn. rewrite Hx, <- Ht.
      by apply list_elem_of_fmap_2.
    + apply elem_of_cons in Hin as [->|Hin]; [done|]. by apply IH.
Qed.

Lemma canonical_NoDup es : canonical es -> NoDup (map be_type es).
Proof.
  unfold canonical. intros <-.
  assert (H : forall t e, byType es t = Some e -> be_type e = t).
  { intros t e [_ Ht]%find_some. by bools. }
  unfold BREAK_TYPES. cbn.
  destruct (byType es Break1) as [a|] eqn:Ea, (byType es Lunch) as [b|] eqn:Eb,
    (byType es Break2) as [c|] eqn:Ec; cbn; rewrite ?(H _ _ Ea), ?(H _ _ Eb), ?(H _ _ Ec);
    repeat constructor; set_solver.
Qed.

(** Looking a type up in the classification of rows of distinct types. *)
Lemma typed_lookup (rows : list StoredBreak) t p s :
  NoDup (map typeOfRow rows) ->
  mapGet (map (fun x : Located => (typeOfRow x.2, x)) (imap pair rows)) t = Some (p, s) <->
  rows !! p = Some s /\ typeOfRow s = t.
Proof.
  intros Hnd. rewrite mapGet_Some.
  - rewrite list_elem_of_fmap. split.
    + intros ([q r] & [= -> -> ->] & (i & x & [= <- <-] & Hx)%elem_of_lookup_imap). done.
    + intros [Hs <-]. exists (p, s). split; [done|]. apply elem_of_lookup_imap. by exists p, s.
  - rewrite <- list_fmap_compose. change (map typeOfRow rows) with (typeOfRow <$> rows) in Hnd.
    replace (fst ∘ (fun x : Located => (typeOfRow x.2, x)) <$> imap pair rows)
      with (typeOfRow <$> rows); [done|].
    rewrite fmap_imap. symmetry. rewrite <- imap_const. apply imap_ext. done.
Qed.

Lemma classify_rows (rows : list StoredBreak) :
  Forall (fun s => is_Some (publicBreakType (sb_type s))) rows -> NoDup (map typeOfRow rows) ->
  fold_left classify (imap pair rows) ([], []) =
  (map (fun x : Located => (typeOfRow x.2, x)) (imap pair rows), []).
Proof.
  intros Hty Hnd. rewrite classify_typed; [done| |].
  - apply Forall_forall. intros [p s] (i & x & [= -> ->] & Hx)%elem_of_lookup_imap.
    rewrite Forall_lookup in Hty. exact (Hty _ _ Hx).
  - cbn. replace (map (fun x : Located => typeOfRow x.2) (imap pair rows)) with (map typeOfRow rows);
      [done|]. change (typeOfRow <$> rows = (fun x : Located => typeOfRow x.2) <$> imap pair rows).
    rewrite fmap_imap. symmetry. rewrite <- imap_const. apply imap_ext. done.
Qed.

Lemma fallbackFor_typed M t : fallbackFor M [] t = mapGet M t.
Proof. destruct t; cbn; by destruct (mapGet M _). Qed.

Section ReadBack.
Context `{LC : LocaleCompare}.

(** Reading rows of distinct known types gives their entries in type order,
    whatever the order the rows come in. *)
Lemma serializeBreaks_rows (rows : list StoredBreak) (es : list BreakEntry) :
  canonical es ->
  (forall s, s ∈ rows -> is_Some (publicBreakType (sb_type s)) /\ goodRow s) ->
  map (fun s => entryOf (typeOfRow s) s) rows ≡ₚ es ->
  serializeBreaks rows = Ok es.
Proof.
  intros Hcan Hrows Hperm. unfold serializeBreaks.
  set (ordered := sortBy _ rows). assert (Ho : ordered ≡ₚ rows) by apply sortBy_perm.
  rewrite <- Ho in Hperm.
  assert (Hr : forall s, s ∈ ordered -> is_Some (publicBreakType (sb_type s)) /\ goodRow s)
    by (intros s Hs; apply Hrows; by rewrite <- Ho).
  clearbody ordered. clear Hrows Ho rows.
  assert (Hnd : NoDup (map typeOfRow ordered)).
  { pose proof (canonical_NoDup _ Hcan) as Hn. rewrite <- Hperm, map_map in Hn. done. }
  rewrite classify_rows; [|apply Forall_forall; naive_solver|done].
  set (M := map (fun x : Located => (typeOfRow x.2, x)) (imap pair ordered)).
  assert (Hget : forall t p s, fallbackFor M [] t = Some (p, s) <->
    ordered !! p = Some s /\ typeOfRow s = t).
  { intros. rewrite fallbackFor_typed. by apply typed_lookup. }
  rewrite serializeLoop_ok.
  - f_equal. etransitivity; [|exact Hcan].
    enough (Heq : forall t, entryAt (fallbackFor M []) t = byType es t) by (cbn; by rewrite !Heq).
    intros t. apply option_eq. intros e.
    rewrite byType_Some by by apply canonical_NoDup. rewrite <- Hperm, list_elem_of_fmap.
    unfold entryAt. split.
    + destruct (fallbackFor M [] t) as [[p s]|] eqn:Hf; [|done]. intros [= <-].
      apply Hget in Hf as [Hs <-]. split; [|done]. exists s. split; [done|].
      by eapply list_elem_of_lookup_2.
    + intros [(s & -> & [p Hp]%list_elem_of_lookup) Ht]. cbn in Ht.
      rewrite (proj2 (Hget t p s)) by done. by rewrite Ht.
  - repeat constructor; set_solver.
  - intros t p s [Hs _]%Hget. split; [set_solver|]. apply Hr. by eapply list_elem_of_lookup_2.
  - intros t t' p s s' [Hs <-]%Hget [Hs' <-]%Hget. congruence.
Qed.

Lemma serializeBreaks_stored (rows stored : list StoredBreak) (es : list BreakEntry) :
  canonical es -> Forall wellFormed es -> Forall2 stores es stored -> rows ≡ₚ stored ->
  serializeBreaks rows = Ok es.
Proof.
  intros Hcan Hwf Hst Hp. apply serializeBreaks_rows; [done| |].
  - intros s Hs. rewrite Hp in Hs. apply list_elem_of_lookup in Hs as [i Hi].
    destruct (Forall2_lookup_r _ _ _ _ _ Hst Hi) as (e & He & Hes).
    rewrite Forall_lookup in Hwf.
    destruct (stores_entryOf e s (Hwf _ _ He) Hes) as (-> & _ & Hg). by split.
  - rewrite Hp. clear Hcan Hp rows. induction Hst as [|e s es stored Hes Hst IH]; [done|].
    apply Forall_cons in Hwf as [He Hwf]. cbn [map]. rewrite IH by done.
    destruct (stores_entryOf e s He Hes) as (Hty & Hent & _).
    assert (Ht : typeOfRow s = be_type e) by (unfold typeOfRow; by rewrite Hty).
    by rewrite Ht, Hent.
Qed.
End ReadBack.

(** ** Updates are read back as they were written *)

Lemma payloadOf_Ok policy entry es :
  validPolicy policy -> payloadOf policy entry = Ok es ->
  (nb_skip entry = true /\ es = []) \/
  exists e, nb_skip entry = false /\ es = [e] /\ be_type e = nb_type entry /\
    exists s, fourDigitYear s = true /\ 1 <= be_durationMinutes e <= 120 /\
      be_startTime e = toISOString s /\ be_endTime e = toISOString (s + be_durationMinutes e * 60000).
Proof.
  intros Hv. unfold payloadOf. destruct (nb_skip entry); [naive_solver|].
  destruct (nb_startTime entry) as [[|c text]|]; [done| |done].
  intros (s & Hs & [= <-])%Result_bind_Ok. right. eexists. split_and!; [done..|].
  exists s. cbn. split; [by eapply parseUtcInstant_fourDigit|]. split; [|done].
  destruct Hv. destruct (nb_type entry);
    [pose proof (integer_range (optNumber (nb_durationMinutes entry)) (break1DurationMinutes policy) 5 60)
    |pose proof (integer_range (optNumber (nb_durationMinutes entry)) (lunchDurationMinutes policy) 15 120)
    |pose proof (integer_range (optNumber (nb_durationMinutes entry)) (break2DurationMinutes policy) 5 60)];
    lia.
Qed.

Lemma fourDigit_later s d :
  fourDigitYear s = true -> 0 <= d <= 120 -> validTime s /\ validTime (s + d * 60000).
Proof. intros H%fourDigitYear_bounds. unfold validTime. lia. Qed.

Lemma breakPayload_shape policy types (inputs : list NormalizedBreakInput) es :
  validPolicy policy -> map nb_type inputs = types -> breakPayload inputs policy = Ok es ->
  Forall wellFormed es /\ sublist (map be_type es) types.
Proof.
  intros Hv <- (lists & Hl%mapM_Ok_Forall2 & [= <-])%Result_bind_Ok.
  induction Hl as [|entry out inputs lists Hout Hl [IH1 IH2]]; [split; constructor|].
  cbn [concat map]. apply payloadOf_Ok in Hout as [[_ ->]|(e & _ & -> & Ht & s & Hs & Hd & H1 & H2)]; [|..|done].
  - split; [done|]. cbn. by apply sublist_cons.
  - split.
    + constructor; [|done]. pose proof (fourDigit_later s (be_durationMinutes e) Hs ltac:(lia)) as [Hv1 Hv2].
      exists s. split_and!; [done..|lia|done|done].
    + cbn. rewrite Ht. by apply sublist_skip.
Qed.

Lemma sublist_types (l : list BreakType) :
  sublist l BREAK_TYPES ->
  l ∈ [[]; [Break1]; [Lunch]; [Break2]; [Break1; Lunch]; [Break1; Break2]; [Lunch; Break2];
       [Break1; Lunch; Break2]].
Proof.
  unfold BREAK_TYPES. intros H.
  repeat match goal with
  | H : sublist _ [] |- _ => apply sublist_nil_r in H; subst
  | H : sublist _ (_ :: _) |- _ => apply sublist_cons_r in H as [H|(? & -> & H)]
  end; set_solver.
Qed.

Lemma sublist_canonical es : sublist (map be_type es) BREAK_TYPES -> canonical es.
Proof.
  intros H%sublist_types. unfold canonical, byType.
  destruct es as [|a [|b [|c [|d es]]]]; cbn in H;
    repeat (apply elem_of_cons in H as [H|H]; [try discriminate H|]);
    try (apply elem_of_nil in H; done); try done.
  all: injection H; intros; cbn;
    repeat match goal with E : be_type _ = _ |- _ => rewrite !E; clear E; cbn end; done.
Qed.

Lemma normalizeLoop_types byType entries m :
  normalizeLoop byType entries = Ok m ->
  (forall t n, mapGet byType t = Some n -> nb_type n = t) ->
  forall t n, mapGet m t = Some n -> nb_type n = t.
Proof.
  revert byType. induction entries as [|b entries IH]; intros byType; cbn [normalizeLoop].
  { by intros [= <-]. }
  destruct (mapHas byType (bu_type b)); [done|].
  assert (Hset : forall n, nb_type n = bu_type b ->
    (forall t n, mapGet byType t = Some n -> nb_type n = t) ->
    forall t n', mapGet (mapSet byType (bu_type b) n) t = Some n' -> nb_type n' = t).
  { intros n Hn Ht t n'. rewrite mapGet_set. case_decide; [naive_solver|apply Ht]. }
  destruct (bu_skip b); [intros Hl Ht; eapply IH; [exact Hl|]; by apply Hset|].
  destruct (bu_startTime b) as [[|c text]|]; [done| |done].
  intros (s & _ & Hl)%Result_bind_Ok Ht. eapply IH; [exact Hl|]. by apply Hset.
Qed.

Lemma normalizeBreakUpdate_types breaks norm :
  normalizeBreakUpdate breaks = Ok norm -> map nb_type norm = BREAK_TYPES.
Proof.
  intros (m & Hm & [= <-])%Result_bind_Ok.
  pose proof (normalizeLoop_types [] breaks m Hm ltac:(done)) as H. cbn.
  repeat f_equal; (destruct (mapGet m _) eqn:E; [by apply H in E|done]).
Qed.

(** An accepted update is read back exactly as it was accepted: when the
    windows computed from a normalised update are stored, one row per break
    under identifiers of the database's choosing, serialising the rows in any
    order gives the same windows, durations, types and pay flags in the order
    break, lunch, break. *)
Theorem update_reads_back `{LocaleCompare} policy breaks norm next stored rows :
  validPolicy policy -> normalizeBreakUpdate breaks = Ok norm -> breakPayload norm policy = Ok next ->
  Forall2 stores next stored -> rows ≡ₚ stored ->
  serializeBreaks rows = Ok next.
Proof.
  intros Hv Hn Hp Hs Hr. apply normalizeBreakUpdate_types in Hn.
  destruct (breakPayload_shape _ _ _ _ Hv Hn Hp) as [Hwf Hsub].
  eapply serializeBreaks_stored; [by apply sublist_canonical|done..].
Qed.

(** ** The window check *)

Definition entryWindow (e : BreakEntry) : option (Z * Z) :=
  s ← dateParse (be_startTime e); t ← dateParse (be_endTime e); Some (s, t).

Definition windowOr0 (e : BreakEntry) : Z * Z := default (0, 0) (entryWindow e).

Lemma windowLoop_Ok ss se prior l :
  ss <= prior -> windowLoop ss se prior l = Ok tt ->
  Forall (fun e => exists w, entryWindow e = Some w /\ prior <= w.1 /\ ss <= w.1 < w.2 /\ w.2 <= se) l /\
  pairwise windowsApart (map windowOr0 l).
Proof.
  revert prior. induction l as [|e l IH]; intros prior Hp; cbn [windowLoop].
  { intros _. split; [constructor|]. by intros i j x y _ Hx. }
  destruct (dateParse (be_startTime e)) as [s|] eqn:Es; [|done].
  destruct (dateParse (be_endTime e)) as [t|] eqn:Et; [|done].
  destruct (_ || _) eqn:Hc; [done|]. intros Hl. apply orb_false_iff in Hc. bools.
  assert (Hw : entryWindow e = Some (s, t)) by (unfold entryWindow; by rewrite Es, Et).
  destruct (IH t ltac:(lia) Hl) as [Hf Hpw]. split.
  - constructor; [exists (s, t); cbn; split; [done|lia]|].
    eapply Forall_impl; [exact Hf|]. intros x (w & Hx & Hb). exists w. split; [done|lia].
  - cbn [map]. apply pairwise_cons; [exact _|]. split; [|done]. apply Forall_fmap.
    eapply Forall_impl; [exact Hf|]. intros x (w & Hx & Hb).
    change (windowsApart (windowOr0 e) (windowOr0 x)). unfold windowOr0. rewrite Hw, Hx.
    left. cbn. lia.
Qed.

Lemma assertBreaksInsideShift_spec `{LocaleCompare} ss se breaks :
  assertBreaksInsideShift ss se breaks = Ok tt ->
  Forall (fun e => exists s t, entryWindow e = Some (s, t) /\ ss <= s < t /\ t <= se) breaks /\
  pairwise windowsApart (map windowOr0 breaks).
Proof.
  unfold assertBreaksInsideShift. set (ordered := sortBy _ breaks).
  assert (Hp : ordered ≡ₚ breaks) by apply sortBy_perm. clearbody ordered.
  intros [Hf Hpw]%windowLoop_Ok; [|lia]. split.
  - rewrite <- Hp. eapply Forall_impl; [exact Hf|].
    intros e ([s t] & He & Hb). exists s, t. cbn in Hb. split; [done|lia].
  - eapply pairwise_perm; [|exact Hpw]. by rewrite Hp.
Qed.

(** The window check is sound for every collation of the start texts: if it
    passes, each break has a non-empty window inside the shift and no two
    windows overlap. *)
Theorem assertBreaksInsideShift_sound `{LocaleCompare} ss se breaks :
  assertBreaksInsideShift ss se breaks = Ok tt ->
  Forall (fun e => exists s t, entryWindow e = Some (s, t) /\ ss <= s < t /\ t <= se) breaks /\
  pairwise windowsApart (map windowOr0 breaks).
Proof. apply assertBreaksInsideShift_spec. Qed.

(** ** Moving breaks *)

Definition rowWindow (s : StoredBreak) : Z * Z := (sb_startTime s, sb_endTime s).

Definition insideWindow (lo hi : Z) (s : StoredBreak) : Prop :=
  lo <= sb_startTime s < sb_endTime s /\ sb_endTime s <= hi.

Lemma windowsInvalid_false lo hi prior l :
  windowsInvalid lo hi prior l = false ->
  Forall (insideWindow lo hi) l /\
  StronglySorted (fun a b => sb_endTime a <= sb_startTime b) l /\
  (forall e, prior = Some e -> Forall (fun s => e <= sb_startTime s) l).
Proof.
  revert prior. induction l as [|x l IH]; intros prior; cbn [windowsInvalid].
  { intros _. split_and!; constructor. }
  intros H. apply orb_false_iff in H as [H Hl]. destruct (IH _ Hl) as (Hf & Hs & Hp).
  specialize (Hp _ eq_refl). unfold insideWindow. split_and!.
  - constructor; [bool_lia|done].
  - by constructor.
  - intros e ->. constructor; [bool_lia|]. eapply Forall_impl; [exact Hp|]. cbn. intros. bool_lia.
Qed.

Lemma windowsInvalid_sorted lo hi prior l :
  Forall (insideWindow lo hi) l ->
  StronglySorted (fun a b => sb_endTime a <= sb_startTime b) l ->
  (forall e, prior = Some e -> Forall (fun s => e <= sb_startTime s) l) ->
  windowsInvalid lo hi prior l = false.
Proof.
  intros Hf Hs. revert prior. induction Hs as [|x l Hs IH Hx]; intros prior Hp; [done|].
  apply Forall_cons in Hf as [Hx0 Hf]. cbn [windowsInvalid]. unfold insideWindow in Hx0.
  rewrite (IH Hf) by (intros ? [= <-]; done).
  rewrite (proj2 (Z.leb_gt _ _)), (proj2 (Z.ltb_ge (sb_startTime x) lo)),
    (proj2 (Z.ltb_ge hi _)) by lia.
  destruct prior as [e|]; [|done]. specialize (Hp _ eq_refl). apply Forall_cons in Hp as [Hp _].
  by rewrite (proj2 (Z.ltb_ge _ _)).
Qed.

(** Disjoint windows in order of their starts are in order altogether. *)
Lemma chain_of_apart lo hi (l : list StoredBreak) :
  StronglySorted (fun a b => sb_startTime a <= sb_startTime b) l ->
  Forall (insideWindow lo hi) l -> pairwise windowsApart (map rowWindow l) ->
  StronglySorted (fun a b => sb_endTime a <= sb_startTime b) l.
Proof.
  induction 1 as [|x l Hs IH Hx]; intros Hf Hp; [constructor|].
  apply Forall_cons in Hf as [Hx0 Hf]. cbn [map] in Hp. apply pairwise_cons in Hp as [Hxp Hp]; [|exact _].
  constructor; [by apply IH|]. apply Forall_forall. intros y Hy.
  rewrite Forall_forall in Hx, Hf. specialize (Hx y Hy). pose proof (Hf y Hy) as Hy0.
  pose proof (proj1 (Forall_forall _ _) Hxp (rowWindow y) (list_elem_of_fmap_2 rowWindow l y Hy)) as H.
  destruct H as [|H]; [done|].
  unfold insideWindow in *. cbn in H. lia.
Qed.

(** Moving the breaks of a shift moves every window by the shift's own
    displacement and returns them in order, inside the new shift and without
    overlap, or refuses; breaks that were inside the old shift and did not
    overlap are never refused when the new shift is at least as long. *)
Theorem translateBreaks_correct `{LocaleCompare, !LocaleCompareLaws _}
    entries prevStart nextStart nextEnd :
  (forall out, translateBreaks entries prevStart nextStart nextEnd = Ok out ->
     out ≡ₚ map (moveBreak (nextStart - prevStart)) entries /\
     Forall (insideWindow nextStart nextEnd) out /\
     StronglySorted (fun a b => sb_endTime a <= sb_startTime b) out) /\
  (forall prevEnd, Forall (insideWindow prevStart prevEnd) entries ->
     pairwise windowsApart (map rowWindow entries) ->
     prevEnd - prevStart <= nextEnd - nextStart ->
     exists out, translateBreaks entries prevStart nextStart nextEnd = Ok out).
Proof.
  unfold translateBreaks. set (delta := nextStart - prevStart).
  set (translated := sortBy _ (map (moveBreak delta) entries)).
  assert (Hp : translated ≡ₚ map (moveBreak delta) entries) by apply sortBy_perm. split.
  - intros out. destruct (windowsInvalid _ _ _ _) eqn:Hw; [done|]. intros [= <-].
    apply windowsInvalid_false in Hw as (Hf & Hs & _). done.
  - intros prevEnd Hf Hpw Hlen. rewrite windowsInvalid_sorted; [by eexists| | |done].
    + rewrite Hp. apply Forall_fmap. eapply Forall_impl; [exact Hf|].
      unfold insideWindow. cbn. lia.
    + eapply (chain_of_apart nextStart nextEnd).
      * eapply StronglySorted_weaken; [|apply sortBy_sorted; exact _].
        intros a b. unfold orElse. destruct (_ =? 0) eqn:E; bools; lia.
      * rewrite Hp. apply Forall_fmap. eapply Forall_impl; [exact Hf|].
        unfold insideWindow. cbn. lia.
      * eapply pairwise_perm; [by rewrite Hp|]. rewrite map_map.
        apply (pairwise_fmap windowsApart (fun e => rowWindow (moveBreak delta e))).
        apply (pairwise_fmap windowsApart rowWindow) in Hpw. eapply pairwise_impl; [|exact Hpw].
        unfold windowsApart. cbn. lia.
Qed.

(** ** Generated breaks *)

Lemma wellFormed_window e s :
  validTime s -> validTime (s + be_durationMinutes e * 60000) ->
  be_startTime e = toISOString s -> be_endTime e = toISOString (s + be_durationMinutes e * 60000) ->
  entryWindow e = Some (s, s + be_durationMinutes e * 60000).
Proof. intros H1 H2 Hs He. unfold entryWindow. by rewrite Hs, He, !dateParse_iso by done. Qed.

Definition insideEntry (lo hi : Z) (e : BreakEntry) : Prop :=
  exists s t, entryWindow e = Some (s, t) /\ lo <= s < t /\ t <= hi.

Lemma Placement_entries se lo e specs placed :
  Placement se e specs placed -> lo <= e -> validTime lo -> validTime se ->
  Forall (fun s => 0 < bs_durationMinutes s) specs ->
  Forall wellFormed placed /\ map be_type placed = map bs_type specs /\
  Forall (insideEntry e se) placed /\ pairwise windowsApart (map windowOr0 placed).
Proof.
  unfold validTime. intros Hp. induction Hp as [e|e spec rest start placed Hst Hend Hp IH];
    intros Hlo Hl Hs Hd.
  { split_and!; [constructor|done|constructor|]. by intros i j x y _ Hx. }
  apply Forall_cons in Hd as [Hd0 Hd]. unfold durationMs in *.
  destruct IH as (IH1 & IH2 & IH3 & IH4); [|done..|].
  { destruct rest as [|n rest]; [done|]. unfold minimumGap. repeat case_match; lia. }
  set (x := mkEntry _ _ _ _ _).
  assert (Hw : entryWindow x = Some (start, start + bs_durationMinutes spec * 60000)).
  { apply (wellFormed_window x start); unfold validTime; cbn; [lia..|done|done]. }
  split_and!.
  - constructor; [|done]. exists start. unfold validTime. cbn. split_and!; lia || done.
  - cbn. by rewrite IH2.
  - constructor; [by exists start, (start + bs_durationMinutes spec * 60000); split; [|lia]|].
    eapply Forall_impl; [exact IH3|]. intros y (s & t & Hy & Hb & Ht). exists s, t.
    destruct rest as [|n rest]; [done|]. unfold minimumGap in Hb. repeat case_match; split; lia || done.
  - cbn [map]. apply pairwise_cons; [exact _|]. split; [|done]. apply Forall_fmap.
    destruct rest as [|n rest]; [by inversion Hp|].
    eapply Forall_impl; [exact IH3|]. intros y (s & t & Hy & Hb & Ht).
    change (windowsApart (windowOr0 x) (windowOr0 y)). unfold windowOr0. rewrite Hw, Hy.
    left. cbn. unfold minimumGap in Hb. repeat case_match; lia.
Qed.

Lemma selectMask_types ss policy lunch mask :
  mask ∈ masks -> sublist (map bs_type (selectMask (breakSpecs ss policy lunch) mask)) BREAK_TYPES.
Proof.
  unfold masks. intros H. repeat (apply elem_of_cons in H as [->|H]); [..|by apply elem_of_nil in H].
  all: cbn; repeat constructor.
Qed.

Lemma placeBreaks_entries ss se policy lunch :
  validPolicy policy -> 15 <= lunch <= 120 -> validTime ss -> validTime se ->
  let placed := placeBreaks ss se policy lunch in
  Forall wellFormed placed /\ canonical placed /\
  Forall (insideEntry (ss + 30 * 60000) se) placed /\ pairwise windowsApart (map windowOr0 placed).
Proof.
  intros Hv Hl H1 H2. cbv zeta.
  destruct (placeBreaks_spec ss se policy lunch Hv Hl) as [[-> _]|(m & Hm & _ & Hp & _)].
  { split_and!; [constructor|done|constructor|]. by intros i j x y _ Hx. }
  destruct (Placement_entries se ss _ _ _ Hp) as (Hwf & Hty & Hin & Hap); [lia|done|done| |].
  { apply selectMask_Forall. destruct Hv. repeat constructor; cbn; lia. }
  split_and!; [done| |done..]. apply sublist_canonical. rewrite Hty. by apply selectMask_types.
Qed.

(** Every generated row keeps its shift's window, and its breaks lie in
    the shift at least half an hour after its start, do not overlap, and, once
    stored under any identifiers and read back in any order, serialise to the
    very breaks that were generated. *)
Theorem buildBreakSchedule_sound `{LocaleCompare} policy shifts rows :
  validPolicy policy -> buildBreakSchedule shifts policy = Ok rows ->
  Forall2 (fun shift row => exists ss se,
    parseUtcInstant (gi_startTime shift) "/shifts/startTime" = Ok ss /\
    parseUtcInstant (gi_endTime shift) "/shifts/endTime" = Ok se /\ ss < se /\
    lr_shiftId row = gi_shiftId shift /\
    lr_startTime row = toISOString ss /\ lr_endTime row = toISOString se /\
    Forall (insideEntry (ss + 30 * 60000) se) (lr_breaks row) /\
    pairwise windowsApart (map windowOr0 (lr_breaks row)) /\
    forall stored read, Forall2 stores (lr_breaks row) stored -> read ≡ₚ stored ->
      serializeBreaks read = Ok (lr_breaks row)) shifts rows.
Proof.
  intros Hv Hb%mapM_Ok_Forall2. eapply Forall2_impl; [exact Hb|]. clear Hb.
  intros shift row (ss & Hs & (se & He & Hrow)%Result_bind_Ok)%Result_bind_Ok.
  destruct (se <=? ss) eqn:Hle; [done|]. bools. injection Hrow as <-.
  exists ss, se. cbn. destruct (placeBreaks_entries ss se policy
    (integer (optNumber (gi_lunchDurationMinutes shift)) (lunchDurationMinutes policy) 15 120) Hv)
    as (Hwf & Hcan & Hin & Hap).
  - apply integer_range. by destruct Hv.
  - by eapply validTime_fourDigit, parseUtcInstant_fourDigit.
  - by eapply validTime_fourDigit, parseUtcInstant_fourDigit.
  - split_and!; [done..|]. intros stored read Hst Hr. by eapply serializeBreaks_stored.
Qed.

(** ** Concrete instances *)

(** A row as the database stores an entry under the identifier [id]. *)
Definition storedAs (id : string) (e : BreakEntry) : StoredBreak :=
  mkStored id (Some (DB_BREAK_TYPE (be_type e)))
    (default 0 (dateParse (be_startTime e))) (default 0 (dateParse (be_endTime e))) (be_paid e).

Definition sampleUpdate : list BreakUpdate :=
  [mkUpdate Break2 (Some "2026-03-02T15:30:00Z") None false;
   mkUpdate Lunch (Some "2026-03-02T12:00:00.000Z") (Some 45) false].

Definition sampleEntries : list BreakEntry :=
  [mkEntry Lunch "2026-03-02T12:00:00.000Z" "2026-03-02T12:45:00.000Z" 45 false;
   mkEntry Break2 "2026-03-02T15:30:00.000Z" "2026-03-02T15:40:00.000Z" 10 true].

Definition okOr {A} (d : A) (r : Result A) : A := match r with Ok a => a | Throw _ => d end.

Lemma update_reads_back_witness :
  @serializeBreaks codeUnitCollation (reverse (map (storedAs "id") sampleEntries)) = Ok sampleEntries.
Proof.
  refine (@update_reads_back codeUnitCollation DEFAULT_POLICY sampleUpdate
    (okOr [] (normalizeBreakUpdate sampleUpdate)) sampleEntries (map (storedAs "id") sampleEntries)
    _ default_validPolicy _ _ _ (reverse_Permutation _)).
  - vm_compute. reflexivity.
  - vm_compute. reflexivity.
  - repeat constructor.
Defined.

Lemma assertBreaksInsideShift_sound_witness :
  let shiftStart := default 0 (dateParse "2026-03-02T08:00:00.000Z") in
  let shiftEnd := default 0 (dateParse "2026-03-02T16:00:00.000Z") in
  Forall (fun e => exists s t, entryWindow e = Some (s, t) /\ shiftStart <= s < t /\ t <= shiftEnd)
    sampleEntries /\ pairwise windowsApart (map windowOr0 sampleEntries).
Proof. apply (@assertBreaksInsideShift_sound codeUnitCollation). vm_compute. reflexivity. Defined.

Lemma translateBreaks_correct_witness :
  exists out, @translateBreaks codeUnitCollation
    [mkStored "b" (Some "LUNCH") 14400000 16200000 false; mkStored "a" None 7200000 7800000 true]
    0 3600000 36000000 = Ok out.
Proof.
  refine (proj2 (@translateBreaks_correct codeUnitCollation codeUnitCollation_laws _ 0 3600000 36000000)
    28800000 _ _ _).
  - repeat (apply Forall_cons; split; [unfold insideWindow; cbn; lia|]). constructor.
  - intros [|[|i]] [|[|j]] x y Hij Hx Hy; cbn in Hx, Hy; try done; simplify_eq;
      unfold windowsApart; cbn; lia.
  - lia.
Defined.

Lemma buildBreakSchedule_sound_witness :
  let shifts := [mkGenerated None None (Some "Ada") "2026-03-02T08:00:00Z" "2026-03-02T16:00:00Z" None] in
  let rows := okOr [] (buildBreakSchedule shifts DEFAULT_POLICY) in
  Forall2 (fun shift row => exists ss se,
    parseUtcInstant (gi_startTime shift) "/shifts/startTime" = Ok ss /\
    parseUtcInstant (gi_endTime shift) "/shifts/endTime" = Ok se /\ ss < se /\
    lr_shiftId row = gi_shiftId shift /\
    lr_startTime row = toISOString ss /\ lr_endTime row = toISOString se /\
    Forall (insideEntry (ss + 30 * 60000) se) (lr_breaks row) /\
    pairwise windowsApart (map windowOr0 (lr_breaks row)) /\
    forall stored read, Forall2 stores (lr_breaks row) stored -> read ≡ₚ stored ->
      @serializeBreaks codeUnitCollation read = Ok (lr_breaks row)) shifts rows.
Proof.
  cbv zeta. apply (@buildBreakSchedule_sound codeUnitCollation DEFAULT_POLICY);
    [apply default_validPolicy|vm_compute; reflexivity].
Defined.
