(* ===== verification/TimeZone.v ===== *)
(** * Local dates and zoned midnights

    apps/api-v2/src/scheduling/time-zone.ts, and the calendar matching it
    shares with apps/api-v2/src/payroll/domain.ts: [YYYY-MM-DD] texts, and the
    search for the instant at which a local day begins in a time zone.

    The host's time-zone data is an argument, the class [Intl]:
    [intlZonedParts t tz] are the numbers [Intl.DateTimeFormat] prints for the
    time value [t], and [intlTimeZone tz] says whether it accepts the name. *)

From S2P Require Import Prelude JsStd JsDate.

Record ZonedParts := mkParts {
  zp_year : Z; zp_month : Z; zp_day : Z; zp_hour : Z; zp_minute : Z; zp_second : Z;
}.

#[global] Instance ZonedParts_eq_dec : EqDecision ZonedParts.
Proof. solve_decision. Defined.

Class Intl := {
  intlZonedParts : Z -> string -> ZonedParts;
  intlTimeZone : string -> bool;
}.

(** ** Calendar texts *)

(** [/^(\d{4})-(\d{2})-(\d{2})$/] *)
Definition matchDateOnly (s : string) : option (Z * Z * Z) :=
  '(y, s) ← parseDigits 4 s; s ← expectChar "-"%char s;
  '(m, s) ← parseDigits 2 s; s ← expectChar "-"%char s;
  '(d, s) ← parseDigits 2 s;
  if bool_decide (s = "") then Some (y, m, d) else None.

(** The round trip of the three numbers through a [Date]. *)
Definition calendarDay (y m d : Z) : bool :=
  let date := dateUTC y (m - 1) d 0 0 0 in
  (getUTCFullYear date =? y) && (getUTCMonth date =? m - 1) && (getUTCDate date =? d).

Definition localDateProblem {A} (detail : string) : Result A :=
  throwProblem 422 "invalid_local_date" detail "Invalid date".

Definition parseLocalDate (value : string) : Result (Z * Z * Z) :=
  match matchDateOnly value with
  | None => localDateProblem "Date must use YYYY-MM-DD."
  | Some (y, m, d) =>
      if calendarDay y m d then Ok (y, m, d)
      else localDateProblem "Date is not a valid calendar day."
  end.

(** [String(n).padStart(2, '0')] for [0 <= n]. *)
Definition padStart2 (n : Z) : string :=
  if n <? 10 then String "0"%char (showZ n) else showZ n.

Definition datePlusDays (value : string) (days : Z) : Result string :=
  '(y, m, d) ← parseLocalDate value;
  let date := dateUTC y (m - 1) (d + days) 0 0 0 in
  Ok (showZ (getUTCFullYear date) +:+ "-" +:+ padStart2 (getUTCMonth date + 1)
      +:+ "-" +:+ padStart2 (getUTCDate date)).

(** ** Midnights *)

Definition normalizeTimeZone `{Intl} (value : string) : Result string :=
  if intlTimeZone value then Ok value else
  throwProblem 500 "invalid_location_timezone"
    "The selected location has an invalid timezone." "Location configuration error".

Definition partsUTC (p : ZonedParts) : Z :=
  dateUTC (zp_year p) (zp_month p - 1) (zp_day p) (zp_hour p) (zp_minute p) (zp_second p).

(** [for (let attempt = 0; attempt < 4; attempt += 1)]: the guess moves by the
    difference between the wanted and the shown wall clock. *)
Fixpoint guessLoop `{Intl} (attempts : nat) (targetUtc guess : Z) (timeZone : string) : Z :=
  match attempts with
  | O => guess
  | S n =>
      let delta := targetUtc - partsUTC (intlZonedParts guess timeZone) in
      let guess := guess + delta in
      if delta =? 0 then guess else guessLoop n targetUtc guess timeZone
  end.

Definition midnightGuess `{Intl} (y m d : Z) (timeZone : string) : Z :=
  let targetUtc := dateUTC y (m - 1) d 0 0 0 in guessLoop 4 targetUtc targetUtc timeZone.

Definition localMidnight `{Intl} (value timeZone : string) : Result Z :=
  '(y, m, d) ← parseLocalDate value;
  let result := midnightGuess y m d timeZone in
  if bool_decide (intlZonedParts result timeZone = mkParts y m d 0 0 0) then Ok result
  else localDateProblem "The selected local date cannot be represented in the location timezone.".

Inductive SchedulerView := ViewDay | ViewThreeDay | ViewWeek.

Definition viewDays (view : SchedulerView) : Z :=
  match view with ViewDay => 1 | ViewThreeDay => 3 | ViewWeek => 7 end.

Definition boardRange `{Intl} (date : string) (view : SchedulerView) (timeZoneValue : string)
    : Result (Z * Z) :=
  timeZone ← normalizeTimeZone timeZoneValue;
  start ← localMidnight date timeZone;
  next ← datePlusDays date (viewDays view);
  stop ← localMidnight next timeZone;
  Ok (start, stop).

(** ** Calendar texts are read exactly *)

Definition dateText (y m d : Z) : string :=
  padDigits 4 y +:+ "-" +:+ padDigits 2 m +:+ "-" +:+ padDigits 2 d.

Definition realDate (y m d : Z) : Prop := 1 <= m <= 12 /\ 1 <= d <= daysInMonth y (m - 1).

Lemma expectChar_Some c s r : expectChar c s = Some r -> s = String c r.
Proof. destruct s as [|c' s]; cbn; [done|]. case_bool_decide; [|done]. by intros [= ->]; subst. Qed.

Lemma matchDateOnly_Some s y m d :
  matchDateOnly s = Some (y, m, d) <->
  0 <= y <= 9999 /\ 0 <= m <= 99 /\ 0 <= d <= 99 /\ s = dateText y m d.
Proof.
  unfold matchDateOnly, dateText. split.
  - intros ([y' s1] & [Hy ->]%parseDigits_Some & (s2 & ->%expectChar_Some &
      ([m' s3] & [Hm ->]%parseDigits_Some & (s4 & ->%expectChar_Some &
      ([d' s5] & [Hd ->]%parseDigits_Some & H)%bind_Some)%bind_Some)%bind_Some)%bind_Some)%bind_Some.
    case_bool_decide as Hs; [|done]. injection H as <- <- <-. subst s5.
    rewrite strapp_nil_r, !strapp_cons, !strapp_nil. cbn in Hy, Hm, Hd. split_and!; lia || done.
  - intros (Hy & Hm & Hd & ->). rewrite parseDigits_pad by (cbn; lia). cbn [mbind option_bind].
    rewrite strapp_cons, strapp_nil, expectChar_hit. cbn [mbind option_bind].
    rewrite parseDigits_pad by (cbn; lia). cbn [mbind option_bind].
    rewrite strapp_cons, strapp_nil, expectChar_hit. cbn [mbind option_bind].
    rewrite <- (strapp_nil_r (padDigits 2 d)), parseDigits_pad by (cbn; lia). cbn.
    by rewrite bool_decide_true.
Qed.

Lemma dateUTC_day y m d : ~ 0 <= y <= 99 -> dateUTC y m d 0 0 0 = makeDay y m d * msPerDay.
Proof. intros H. unfold dateUTC. destruct (_ && _) eqn:E; [exfalso; bool_lia|]. lia. Qed.

Lemma msPerDay_mul n : (n * msPerDay) / msPerDay = n.
Proof. apply Z.div_mul. done. Qed.

Lemma dayFromYear_le y z : y <= z -> dayFromYear y <= dayFromYear z.
Proof. intros H. destruct (Z.eq_dec y z) as [->|]; [done|]. pose proof (dayFromYear_mono y z). lia. Qed.

Lemma yearFromDay_le n k : n <= k -> yearFromDay n <= yearFromDay k.
Proof.
  intros H. pose proof (yearFromDay_spec n). pose proof (yearFromDay_spec k).
  destruct (Z.le_gt_cases (yearFromDay n) (yearFromDay k)) as [|Hgt]; [done|].
  pose proof (dayFromYear_le (yearFromDay k + 1) (yearFromDay n) ltac:(lia)). lia.
Qed.

Lemma monthStart_nonneg y m : 0 <= m <= 12 -> 0 <= monthStart y m.
Proof.
  intros H. pose proof (monthStart_values y) as (E0 & _).
  destruct (Z.eq_dec m 0) as [->|]; [lia|]. pose proof (monthStart_mono y 0 m). lia.
Qed.

(** The legacy years: [Date.UTC] reads 0 to 99 as 1900 to 1999. *)
Lemma calendarDay_legacy y m d :
  0 <= y <= 99 -> 0 <= m -> 0 <= d -> calendarDay y m d = false.
Proof.
  intros Hy Hm Hd. unfold calendarDay.
  assert (Hn : 99 < getUTCFullYear (dateUTC y (m - 1) d 0 0 0)).
  { unfold getUTCFullYear, dateUTC. rewrite (proj2 (andb_true_iff _ _)) by (split; bool_lia).
    replace (_ + 0 * 3600000 + 0 * 60000 + 0 * 1000)
      with (makeDay (1900 + y) (m - 1) d * msPerDay) by lia. rewrite msPerDay_mul.
    pose proof (yearFromDay_spec (makeDay (1900 + y) (m - 1) d)) as [_ Hs].
    assert (Hge : dayFromYear 101 <= makeDay (1900 + y) (m - 1) d).
    { unfold makeDay. cbv zeta. set (ym := 1900 + y + (m - 1) / 12).
      assert (1899 <= ym) by (subst ym; div_lia).
      pose proof (monthStart_nonneg ym ((m - 1) mod 12) ltac:(div_lia)).
      pose proof (dayFromYear_mono 101 1899 ltac:(lia)). pose proof (dayFromYear_le 1899 ym). lia. }
    destruct (Z.lt_ge_cases 99 (yearFromDay (makeDay (1900 + y) (m - 1) d))) as [|Hle]; [done|].
    pose proof (dayFromYear_le (yearFromDay (makeDay (1900 + y) (m - 1) d) + 1) 101 ltac:(lia)). lia. }
  rewrite (proj2 (Z.eqb_neq _ y)) by lia. done.
Qed.

Lemma calendarDay_real y m d :
  ~ 0 <= y <= 99 -> calendarDay y m d = true <-> realDate y m d.
Proof.
  intros Hy. unfold calendarDay, realDate. rewrite dateUTC_day by done. cbv zeta. split.
  - intros [[Hyy Hmm]%andb_true_iff Hdd]%andb_true_iff. apply Z.eqb_eq in Hyy, Hmm, Hdd.
    set (t := makeDay y (m - 1) d * msPerDay) in *.
    pose proof (dateFields_range t). pose proof (getUTCDate_le t) as Hdr.
    rewrite Hyy, Hmm in Hdr. lia.
  - intros [Hm Hd]. unfold getUTCFullYear, getUTCMonth, getUTCDate. rewrite msPerDay_mul.
    destruct (fields_makeDay y (m - 1) d ltac:(lia) Hd) as (-> & -> & ->). by rewrite !Z.eqb_refl.
Qed.

Lemma parseLocalDate_Ok s y m d :
  parseLocalDate s = Ok (y, m, d) <->
  100 <= y <= 9999 /\ realDate y m d /\ s = dateText y m d.
Proof.
  unfold parseLocalDate. split.
  - destruct (matchDateOnly s) as [[[y' m'] d']|] eqn:Em; [|done].
    apply matchDateOnly_Some in Em as (Hy & Hm & Hd & ->).
    destruct (calendarDay y' m' d') eqn:Ec; [|done]. intros [= <- <- <-].
    destruct (Z.lt_ge_cases y' 100) as [Hlt|Hge].
    + rewrite calendarDay_legacy in Ec by lia. done.
    + apply calendarDay_real in Ec; [|lia]. split_and!; lia || done.
  - intros (Hy & Hr & ->). pose proof Hr as [Hm Hd].
    pose proof (daysInMonth_le y (m - 1) ltac:(lia)).
    rewrite (proj2 (matchDateOnly_Some _ y m d)) by (split_and!; lia || done).
    by rewrite (proj2 (calendarDay_real y m d ltac:(lia))).
Qed.

(** ** What the search finds *)

(** The wall clock [Intl] shows [offset] away from UTC. *)
Definition shownAt (t : Z) : ZonedParts :=
  mkParts (getUTCFullYear t) (getUTCMonth t + 1) (getUTCDate t)
    (getUTCHours t) (getUTCMinutes t) (getUTCSeconds t).

Lemma year_ge y t : dayFromYear y * msPerDay <= t -> y <= getUTCFullYear t.
Proof.
  intros H. unfold getUTCFullYear. pose proof (yearFromDay_spec (t / msPerDay)) as [_ Hs].
  assert (dayFromYear y <= t / msPerDay) by (unfold msPerDay in *; div_lia).
  destruct (Z.lt_ge_cases (yearFromDay (t / msPerDay)) y) as [Hlt|]; [|done].
  pose proof (dayFromYear_le (yearFromDay (t / msPerDay) + 1) y ltac:(lia)). lia.
Qed.

Lemma partsUTC_iso y mo d h mi sc :
  100 <= y -> partsUTC (mkParts y mo d h mi sc) = isoValue (mkIso y mo d h mi sc 0).
Proof.
  intros Hy. unfold partsUTC, isoValue, dateUTC.
  cbn [zp_year zp_month zp_day zp_hour zp_minute zp_second isoY isoMo isoD isoH isoMi isoS isoMs].
  rewrite (proj2 (andb_false_iff _ _)) by (right; bool_lia). lia.
Qed.

Lemma partsUTC_shownAt t :
  100 <= getUTCFullYear t -> t mod 1000 = 0 -> partsUTC (shownAt t) = t.
Proof.
  intros Hy Hms. etransitivity; [by apply partsUTC_iso|].
  etransitivity; [|apply isoValue_fields]. unfold isoFieldsOf.
  by rewrite (Hms : getUTCMilliseconds t = 0).
Qed.

Lemma target_year y m d :
  realDate y m d -> dayFromYear y * msPerDay <= makeDay y (m - 1) d * msPerDay.
Proof.
  intros [Hm Hd]. unfold makeDay. rewrite Z.div_small, Z.mod_small, Z.add_0_r by lia. cbv zeta.
  pose proof (monthStart_nonneg y (m - 1) ltac:(lia)). unfold msPerDay. lia.
Qed.

(** A zone whose wall clock is UTC plus an offset of whole seconds, less than a
    day, which takes at most two values within two days of the instant [T]: at
    most one daylight-saving change is near. *)
Record TwoOffsets `{Intl} (timeZone : string) (offsetAt : Z -> Z) (T o1 o2 : Z) : Prop := {
  to_shown : forall t, intlZonedParts t timeZone = shownAt (t + offsetAt t);
  to_seconds : forall t, offsetAt t mod 1000 = 0 /\ - msPerDay < offsetAt t < msPerDay;
  to_near : forall t, T - 2 * msPerDay <= t <= T + 2 * msPerDay -> offsetAt t = o1 \/ offsetAt t = o2;
}.

Section Search.
Context `{Intl} (timeZone : string) (offsetAt : Z -> Z) (y m d o1 o2 : Z).
Hypothesis Hy : 101 <= y.
Hypothesis Hreal : realDate y m d.
Let T : Z := makeDay y (m - 1) d * msPerDay.
Hypothesis Hzone : TwoOffsets timeZone offsetAt T o1 o2.

Lemma near_shown t :
  t mod 1000 = 0 -> T - msPerDay <= t <= T + msPerDay ->
  partsUTC (intlZonedParts t timeZone) = t + offsetAt t.
Proof.
  intros Ht Hb. rewrite (to_shown _ _ _ _ _ Hzone). destruct (to_seconds _ _ _ _ _ Hzone t) as [Ho Hr].
  apply partsUTC_shownAt; [|rewrite Z.add_mod, Ht, Ho by lia; done].
  apply year_ge. pose proof (target_year y m d Hreal). fold T in H0.
  pose proof (dayFromYear_mono 100 101 ltac:(lia)). pose proof (dayFromYear_le 101 y Hy).
  unfold msPerDay in *. lia.
Qed.

Lemma guessLoop_step n guess :
  guess mod 1000 = 0 -> T - msPerDay <= guess <= T + msPerDay ->
  guessLoop (S n) T guess timeZone =
  if T =? guess + offsetAt guess then guess else guessLoop n T (T - offsetAt guess) timeZone.
Proof.
  intros Hg Hb. cbn [guessLoop]. rewrite near_shown by done. cbv zeta.
  destruct (T =? guess + offsetAt guess) eqn:E; bools.
  - rewrite (proj2 (Z.eqb_eq _ 0)) by lia. lia.
  - rewrite (proj2 (Z.eqb_neq _ 0)) by lia. f_equal. lia.
Qed.

(** If any instant shows midnight of the date, the search finds one. *)
Lemma guess_complete t :
  t mod 1000 = 0 -> intlZonedParts t timeZone = mkParts y m d 0 0 0 ->
  intlZonedParts (guessLoop 4 T T timeZone) timeZone = mkParts y m d 0 0 0.
Proof.
  intros Ht Hshow.
  assert (HT : partsUTC (mkParts y m d 0 0 0) = T) by (apply (dateUTC_day y (m - 1) d); lia).
  assert (Ht0 : t + offsetAt t = T).
  { rewrite <- HT, <- Hshow. symmetry. rewrite (to_shown _ _ _ _ _ Hzone) in Hshow |- *.
    destruct (to_seconds _ _ _ _ _ Hzone t) as [Ho Hr]. apply partsUTC_shownAt.
    - injection Hshow as Hyy _ _ _ _ _. lia.
    - by rewrite Z.add_mod, Ht, Ho by lia. }
  assert (Hfix : forall g, g + offsetAt g = T -> intlZonedParts g timeZone = mkParts y m d 0 0 0).
  { intros g Hg. rewrite (to_shown _ _ _ _ _ Hzone) in *. by rewrite Hg, <- Ht0. }
  assert (Hmod : forall g, (T - offsetAt g) mod 1000 = 0).
  { intros g. destruct (to_seconds _ _ _ _ _ Hzone g) as [Ho _]. subst T. unfold msPerDay. div_lia. }
  assert (HT0 : T mod 1000 = 0) by (subst T; unfold msPerDay; div_lia).
  assert (Hnear : forall g, T - msPerDay <= T - offsetAt g <= T + msPerDay).
  { intros g. destruct (to_seconds _ _ _ _ _ Hzone g) as [_ Hr]. lia. }
  assert (Hoff : forall g, T - msPerDay <= g <= T + msPerDay -> offsetAt g = o1 \/ offsetAt g = o2).
  { intros g Hg. apply (to_near _ _ _ _ _ Hzone). unfold msPerDay in *. lia. }
  assert (HTn : T - msPerDay <= T <= T + msPerDay) by (unfold msPerDay; lia).
  pose proof (Hoff t ltac:(specialize (Hnear t); lia)) as Hot.
  rewrite guessLoop_step by done. destruct (_ =? _) eqn:E0; bools; [by apply Hfix|].
  pose proof (Hoff T HTn) as HoT. rewrite guessLoop_step by auto.
  destruct (_ =? _) eqn:E1; bools; [by apply Hfix|].
  pose proof (Hoff _ (Hnear T)) as Ho1. rewrite guessLoop_step by auto.
  destruct (_ =? _) eqn:E2; bools; [by apply Hfix|]. exfalso.
  pose proof (Hoff _ (Hnear (T - offsetAt T))) as Ho2.
  assert (Et : t = T - offsetAt t) by lia.
  assert (Hcase : offsetAt t = offsetAt T \/ offsetAt t = offsetAt (T - offsetAt T)) by lia.
  destruct Hcase as [Ec|Ec]; rewrite <- Ec in *; rewrite <- Et in *; lia.
Qed.
End Search.

(** [localMidnight] finds the start of a local day whenever there is one:
    in a zone with at most one offset change within two days, if any instant
    shows midnight of the date on the zone's clock, the four corrections of the
    guess reach such an instant, which is returned. *)
Theorem localMidnight_complete `{Intl} timeZone offsetAt y m d o1 o2 :
  101 <= y <= 9999 -> realDate y m d ->
  TwoOffsets timeZone offsetAt (makeDay y (m - 1) d * msPerDay) o1 o2 ->
  (exists t, t mod 1000 = 0 /\ intlZonedParts t timeZone = mkParts y m d 0 0 0) ->
  exists t, localMidnight (dateText y m d) timeZone = Ok t /\
    intlZonedParts t timeZone = mkParts y m d 0 0 0.
Proof.
  intros Hy Hreal Hz (t & Ht & Hshow).
  pose proof (guess_complete timeZone offsetAt y m d o1 o2 ltac:(lia) Hreal Hz t Ht Hshow) as Hg.
  exists (midnightGuess y m d timeZone).
  assert (Hm : midnightGuess y m d timeZone = guessLoop 4 (makeDay y (m - 1) d * msPerDay)
    (makeDay y (m - 1) d * msPerDay) timeZone).
  { unfold midnightGuess. cbv zeta. by rewrite dateUTC_day by lia. }
  rewrite Hm. split; [|done]. unfold localMidnight.
  rewrite (proj2 (parseLocalDate_Ok _ y m d)) by (split_and!; lia || done). cbn [mbind Result_bind].
  cbv zeta. by rewrite Hm, bool_decide_true.
Qed.

(** A zone one hour ahead of UTC that moves to two hours ahead on
    2026-03-29T01:00:00Z. *)
Definition springForward : Intl := {|
  intlZonedParts t tz := shownAt (t + (if t <? 1774746000000 then 3600000 else 7200000));
  intlTimeZone tz := true;
|}.

Lemma localMidnight_complete_witness :
  exists t, @localMidnight springForward (dateText 2026 3 30) "Europe/Berlin" = Ok t /\
    @intlZonedParts springForward t "Europe/Berlin" = mkParts 2026 3 30 0 0 0.
Proof.
  refine (@localMidnight_complete springForward "Europe/Berlin"
    (fun t => if t <? 1774746000000 then 3600000 else 7200000) 2026 3 30 3600000 7200000 _ _ _ _).
  - lia.
  - split; [lia|vm_compute; split; discriminate].
  - split.
    + reflexivity.
    + intros t. destruct (_ <? _); split; try reflexivity; unfold msPerDay; lia.
    + intros t _. destruct (_ <? _); [by left|by right].
  - exists 1774821600000. split; reflexivity.
Defined.
