(* ===== verification/PayrollDates.v ===== *)
(** * Payroll periods

    The date half of apps/api-v2/src/payroll/domain.ts: bounded text fields,
    [YYYY-MM-DD] dates, the alignment of a period with its policy's anchor, the
    period's local boundaries and their instants, and worked minutes. *)

From S2P Require Import Prelude JsStd JsDate TimeZone.

(** ** Text fields *)

Definition payrollProblem {A} (code detail : string) : Result A :=
  throwProblem 422 code detail "Payroll validation failed".

(** [/[^\x20-\x7e]/.test(s)] is [negb (allChars isPrintable s)]. *)
Definition requireId (value : option string) (field : string) : Result string :=
  let normalized := trim (default "" value) in
  if isEmpty normalized || (512 <? strLen normalized) || negb (allChars isPrintable normalized)
  then payrollProblem ("invalid_payroll_" +:+ field) (field +:+ " is invalid.")
  else Ok normalized.

Definition parseBoundedLimit (value : option string) (field : string) (defaultValue maximum : Z)
    : Result Z :=
  match value with
  | None | Some EmptyString => Ok defaultValue
  | Some v =>
      if negb (allChars isDigit v) then
        payrollProblem ("invalid_payroll_" +:+ field) (field +:+ " must be a whole number.")
      else
        let parsed := digitsValue v in
        if negb (isSafeInteger parsed) || (parsed <? 1) || (maximum <? parsed) then
          payrollProblem ("invalid_payroll_" +:+ field)
            (field +:+ " must be between 1 and " +:+ showZ maximum +:+ ".")
        else Ok parsed
  end.

Definition normalizeIdempotencyKey (value : option string) : Result string :=
  let key := trim (default "" value) in
  if isEmpty key then
    throwProblem 428 "idempotency_key_required"
      "This payroll command requires an Idempotency-Key header." "Precondition required"
  else if (255 <? strLen key) || negb (allChars isPrintable key) then
    payrollProblem "invalid_idempotency_key"
      "Idempotency-Key must contain 255 printable characters or fewer."
  else Ok key.

Definition boundedText (value field : string) (maximum : Z) : Result string :=
  let normalized := trim value in
  if isEmpty normalized || (maximum <? strLen normalized) || someChar isControl normalized
  then payrollProblem ("invalid_payroll_" +:+ field) (field +:+ " is invalid.")
  else Ok normalized.

(** ** Dates *)

Definition normalizeDateOnly (value field : string) : Result string :=
  let normalized := trim value in
  match matchDateOnly normalized with
  | None => payrollProblem ("invalid_payroll_" +:+ field) (field +:+ " must use YYYY-MM-DD.")
  | Some (y, m, d) =>
      if calendarDay y m d then Ok normalized
      else payrollProblem ("invalid_payroll_" +:+ field) (field +:+ " must be a valid calendar date.")
  end.

Definition dateOnlyForPrisma (value : string) : Result (option Z) :=
  date ← normalizeDateOnly value "date"; Ok (dateParse (date +:+ "T00:00:00.000Z")).

(** A [Date] ([None] when invalid) or a text, as stored values come. *)
Inductive DateOrText :=
  | DDate (t : option Z)
  | DText (s : string).

Definition requiredDate (value : DateOrText) (message : string) : Result Z :=
  match match value with DDate t => t | DText s => dateParse s end with
  | Some t => Ok t
  | None => Throw (JsError message)
  end.

Definition serializeDateOnly (value : DateOrText) : Result string :=
  date ← requiredDate value "Stored payroll date is invalid.";
  Ok (slice0 10 (toISOString date)).

Definition normalizePayrollTimeZone `{Intl} (value : string) : Result string :=
  let timeZone := trim value in
  if isEmpty timeZone || (100 <? strLen timeZone) || negb (intlTimeZone timeZone) then
    payrollProblem "invalid_payroll_timezone" "timeZone must be a valid IANA timezone."
  else Ok timeZone.

(** The contract admits only the two cadences, so the source's third case is
    unreachable and the type has no value for it. *)
Inductive Cadence := WEEKLY | BIWEEKLY.

Record PayrollPolicy := mkPayrollPolicy {
  pp_timeZone : string;
  pp_cadence : Cadence;
  pp_anchorDate : string;
  pp_effectiveFrom : string;
}.

Definition normalizePayrollPolicy `{Intl} (value : PayrollPolicy) : Result PayrollPolicy :=
  timeZone ← normalizePayrollTimeZone (pp_timeZone value);
  anchorDate ← normalizeDateOnly (pp_anchorDate value) "anchorDate";
  effectiveFrom ← normalizeDateOnly (pp_effectiveFrom value) "effectiveFrom";
  Ok (mkPayrollPolicy timeZone (pp_cadence value) anchorDate effectiveFrom).

(** [value.split('-').map(Number)] on a normalised date. *)
Definition splitDate (value : string) : Z * Z * Z := default (0, 0, 0) (matchDateOnly value).

Definition dayNumber (value : string) : Z :=
  let '(y, m, d) := splitDate value in dateUTC y (m - 1) d 0 0 0 / 86400000.

Definition cadenceDays (value : Cadence) : Z :=
  match value with WEEKLY => 7 | BIWEEKLY => 14 end.

(** JavaScript's [%] truncates, as [Z.rem]. *)
Definition positiveModulo (value divisor : Z) : Z := Z.rem (Z.rem value divisor + divisor) divisor.

Definition assertPayrollAnchorAlignment (localStartDate anchorDate : string) (cadence : Cadence)
    : Result unit :=
  start ← normalizeDateOnly localStartDate "localStartDate";
  anchor ← normalizeDateOnly anchorDate "anchorDate";
  if negb (positiveModulo (dayNumber start - dayNumber anchor) (cadenceDays cadence) =? 0) then
    payrollProblem "payroll_anchor_misaligned"
      "Date must align with the payroll policy anchor and cadence."
  else Ok tt.

Definition localDateBoundaryUtc `{Intl} (dateOnly timeZone : string) : Result Z :=
  date ← normalizeDateOnly dateOnly "date";
  let '(y, m, d) := splitDate date in
  let result := midnightGuess y m d timeZone in
  if bool_decide (intlZonedParts result timeZone = mkParts y m d 0 0 0) then Ok result
  else payrollProblem "invalid_payroll_boundary"
    "The local payroll boundary does not exist in its timezone.".

Definition addDateDays (value : string) (days : Z) : string :=
  let '(y, m, d) := splitDate value in slice0 10 (toISOString (dateUTC y (m - 1) (d + days) 0 0 0)).

Record PeriodBoundaries := mkBoundaries {
  pb_localStartDate : string;
  pb_localEndDateExclusive : string;
  pb_startsAt : Z;
  pb_endsAt : Z;
}.

Definition payrollPeriodBoundaries `{Intl} (localStartDate : string) (policy : PayrollPolicy)
    : Result PeriodBoundaries :=
  start ← normalizeDateOnly localStartDate "localStartDate";
  _ ← assertPayrollAnchorAlignment start (pp_anchorDate policy) (pp_cadence policy);
  let localEndDateExclusive := addDateDays start (cadenceDays (pp_cadence policy)) in
  timeZone ← normalizePayrollTimeZone (pp_timeZone policy);
  startsAt ← localDateBoundaryUtc start timeZone;
  endsAt ← localDateBoundaryUtc localEndDateExclusive timeZone;
  Ok (mkBoundaries start localEndDateExclusive startsAt endsAt).

Definition assertFutureEffectiveBoundary `{Intl} (policy : PayrollPolicy) (now : Z) : Result unit :=
  timeZone ← normalizePayrollTimeZone (pp_timeZone policy);
  let parts := intlZonedParts now timeZone in
  let currentDate := showZ (zp_year parts) +:+ "-" +:+ padStart2 (zp_month parts)
                     +:+ "-" +:+ padStart2 (zp_day parts) in
  if compareText (pp_effectiveFrom policy) currentDate <=? 0 then
    payrollProblem "payroll_policy_not_future" "effectiveFrom must be a future local date."
  else assertPayrollAnchorAlignment (pp_effectiveFrom policy) (pp_anchorDate policy) (pp_cadence policy).

Definition parseInstant (value field : string) : Result Z :=
  let refuse := payrollProblem ("invalid_payroll_" +:+ field) (field +:+ " must be an ISO UTC instant.") in
  match dateParse value with
  | Some t => if bool_decide (toISOString t = value) then Ok t else refuse
  | None => refuse
  end.

(** ** Worked minutes *)

Definition durationMessage : string := "Stored payroll time-card duration is invalid.".

Definition payrollWorkedMinutes (clockIn clockOut : DateOrText) (breakMinutes : Z) : Result Z :=
  clockInAt ← requiredDate clockIn durationMessage;
  clockOutAt ← requiredDate clockOut durationMessage;
  if negb (isSafeInteger breakMinutes) || (breakMinutes <? 0) then
    Throw (JsError "Stored payroll break minutes are invalid.")
  else
    let elapsedMilliseconds := clockOutAt - clockInAt in
    let grossMinutes := elapsedMilliseconds / 60000 in
    let workedMinutes := grossMinutes - breakMinutes in
    if (elapsedMilliseconds <=? 0) || negb (isSafeInteger grossMinutes) || (workedMinutes <? 0) then
      Throw (JsError durationMessage)
    else Ok workedMinutes.

(** ** Dates are read exactly *)

Lemma dateText_solid y m d : trim (dateText y m d) = dateText y m d.
Proof.
  apply trim_all_solid. unfold dateText.
  assert (Hd : forall n z, allChars (fun c => negb (isWhite c)) (padDigits n z) = true).
  { intros n z. pose proof (padDigits_digits n z) as H. unfold allChars in *.
    rewrite forallb_forall in *. intros c Hc. specialize (H c Hc).
    unfold isDigit, isWhite in *. destruct (_ || _) eqn:E; [|done]. exfalso. bool_lia. }
  by rewrite !allChars_app, !Hd.
Qed.

Lemma normalizeDateOnly_Ok value field date :
  normalizeDateOnly value field = Ok date <->
  date = trim value /\ exists y m d, 100 <= y <= 9999 /\ realDate y m d /\ date = dateText y m d.
Proof.
  unfold normalizeDateOnly. split.
  - destruct (matchDateOnly (trim value)) as [[[y m] d]|] eqn:Em; [|done].
    destruct (calendarDay y m d) eqn:Ec; [|done]. intros [= <-]. split; [done|].
    assert (Hp : parseLocalDate (trim value) = Ok (y, m, d)) by (unfold parseLocalDate; by rewrite Em, Ec).
    apply parseLocalDate_Ok in Hp. by exists y, m, d.
  - intros (-> & y & m & d & Hy & Hr & ->).
    assert (Hp : parseLocalDate (dateText y m d) = Ok (y, m, d)) by by apply parseLocalDate_Ok.
    unfold parseLocalDate in Hp. destruct (matchDateOnly _) as [[[y' m'] d']|]; [|done].
    by destruct (calendarDay y' m' d').
Qed.

Lemma normalizeDateOnly_text y m d field :
  100 <= y <= 9999 -> realDate y m d -> normalizeDateOnly (dateText y m d) field = Ok (dateText y m d).
Proof.
  intros Hy Hr. apply normalizeDateOnly_Ok. split; [by rewrite dateText_solid|]. by exists y, m, d.
Qed.

Lemma realDate_bounds y m d : realDate y m d -> 1 <= m <= 12 /\ 1 <= d <= 31.
Proof. intros [Hm Hd]. pose proof (daysInMonth_le y (m - 1) ltac:(lia)). lia. Qed.

Lemma splitDate_text y m d : 0 <= y <= 9999 -> realDate y m d -> splitDate (dateText y m d) = (y, m, d).
Proof.
  intros Hy Hr%realDate_bounds. unfold splitDate.
  by rewrite (proj2 (matchDateOnly_Some _ y m d)) by (split_and!; lia || done).
Qed.

Lemma dayNumber_text y m d :
  100 <= y <= 9999 -> realDate y m d -> dayNumber (dateText y m d) = makeDay y (m - 1) d.
Proof.
  intros Hy Hr. unfold dayNumber. rewrite splitDate_text by (lia || done).
  rewrite dateUTC_day by lia. apply msPerDay_mul.
Qed.

(** A payroll date is accepted exactly when, after trimming, it is
    [YYYY-MM-DD] for a day that exists in the calendar of a year from 100 to
    9999, and it is returned trimmed; the years 0000 to 0099 are refused,
    because [Date.UTC] reads them as 1900 to 1999. *)
Theorem normalizeDateOnly_accepts value field date :
  normalizeDateOnly value field = Ok date <->
  date = trim value /\ exists y m d, 100 <= y <= 9999 /\ realDate y m d /\ date = dateText y m d.
Proof. apply normalizeDateOnly_Ok. Qed.

(** ** Periods *)

Lemma positiveModulo_mod x k : 0 < k -> positiveModulo x k = x mod k.
Proof.
  intros Hk. unfold positiveModulo. pose proof (Z.rem_bound_abs x k ltac:(lia)).
  rewrite (Z.rem_mod_nonneg (Z.rem x k + k) k) by lia.
  pose proof (Z.quot_rem x k ltac:(lia)) as E.
  replace (Z.rem x k + k) with (x + (1 - Z.quot x k) * k) by lia. by rewrite Z.mod_add by lia.
Qed.

Lemma cadenceDays_pos c : 7 <= cadenceDays c <= 14.
Proof. destruct c; cbn; lia. Qed.

Lemma makeDay_add y m d k : makeDay y m (d + k) = makeDay y m d + k.
Proof. unfold makeDay. cbv zeta. lia. Qed.

(** The text of the day [n]. *)
Definition dayText (n : Z) : string :=
  dateText (yearFromDay n) (monthFromDay n + 1) (dateFromDay n).

Lemma dayText_real n : realDate (yearFromDay n) (monthFromDay n + 1) (dateFromDay n).
Proof.
  pose proof (monthFromDay_spec n) as [Hm _]. pose proof (dateFromDay_range n).
  split; [lia|]. by rewrite Z.add_simpl_r.
Qed.

Lemma dayText_number n :
  100 <= yearFromDay n <= 9999 -> dayNumber (dayText n) = n.
Proof.
  intros Hy. unfold dayText. rewrite dayNumber_text by (done || apply dayText_real).
  rewrite Z.add_simpl_r. apply makeDay_fields.
Qed.

Lemma isoDate_slice n :
  0 <= yearFromDay n <= 9999 -> slice0 10 (toISOString (n * msPerDay)) = dayText n.
Proof.
  intros Hy. unfold toISOString.
  assert (Hd : isoDate (n * msPerDay) = dayText n).
  { unfold isoDate, getUTCFullYear, getUTCMonth, getUTCDate. rewrite msPerDay_mul.
    unfold showYear. by rewrite (proj2 (andb_true_iff _ _)) by (split; bool_lia). }
  rewrite Hd. apply slice0_app. unfold dayText, dateText.
  rewrite <- !length_chars, !chars_app, !length_app, !length_chars, !length_padDigits. done.
Qed.

(** A year past 9999 makes a text no date normalises from. *)
Lemma normalizeDateOnly_far n field date :
  10000 <= yearFromDay n -> normalizeDateOnly (slice0 10 (toISOString (n * msPerDay))) field <> Ok date.
Proof.
  intros Hy. unfold toISOString, isoDate, getUTCFullYear, getUTCMonth, getUTCDate.
  rewrite msPerDay_mul. unfold showYear.
  rewrite (proj2 (andb_false_iff _ _)), (proj2 (Z.ltb_ge _ 0)) by (lia || right; bool_lia).
  rewrite !strapp_assoc. rewrite normalizeDateOnly_Ok. intros (Ht & y & m & d & Hy' & Hr & Hd).
  rewrite strapp_cons, strapp_nil in Ht. remember (padDigits 6 _ +:+ _) as r eqn:Er. clear Er.
  change (slice0 10 (String "+"%char r)) with (String "+"%char (slice0 9 r)) in Ht.
  assert (Hhead : exists r', trim (String "+"%char (slice0 9 r)) = String "+"%char r').
  { apply trim_head. done. }
  destruct Hhead as [r' Hr']. rewrite Hr', Hd in Ht. unfold dateText in Ht.
  change (padDigits 4 y) with (String (digitChar ((y / 10 ^ 3) mod 10)) (padDigits 3 y)) in Ht.
  rewrite strapp_cons in Ht. injection Ht as Ht _.
  pose proof (isDigit_digitChar ((y / 10 ^ 3) mod 10) ltac:(auto)) as Hdig. by rewrite Ht in Hdig.
Qed.

Lemma addDateDays_text y m d k :
  100 <= y <= 9999 -> realDate y m d ->
  addDateDays (dateText y m d) k = slice0 10 (toISOString ((makeDay y (m - 1) d + k) * msPerDay)).
Proof.
  intros Hy Hr. unfold addDateDays. rewrite splitDate_text by (lia || done).
  by rewrite dateUTC_day, makeDay_add by lia.
Qed.

Lemma localDateBoundaryUtc_Ok `{Intl} y m d timeZone t :
  100 <= y <= 9999 -> realDate y m d ->
  localDateBoundaryUtc (dateText y m d) timeZone = Ok t ->
  t = midnightGuess y m d timeZone /\ intlZonedParts t timeZone = mkParts y m d 0 0 0.
Proof.
  intros Hy Hr. unfold localDateBoundaryUtc. rewrite normalizeDateOnly_text by done.
  cbn [mbind Result_bind]. rewrite splitDate_text by (lia || done).
  case_bool_decide; [|done]. by intros [= <-].
Qed.

Lemma assertAlignment_Ok start anchor cadence :
  (exists y m d, 100 <= y <= 9999 /\ realDate y m d /\ start = dateText y m d) ->
  assertPayrollAnchorAlignment start anchor cadence = Ok tt <->
  exists anchor', normalizeDateOnly anchor "anchorDate" = Ok anchor' /\
    (dayNumber start - dayNumber anchor') mod cadenceDays cadence = 0.
Proof.
  intros (y & m & d & Hy & Hr & ->). unfold assertPayrollAnchorAlignment.
  rewrite normalizeDateOnly_text by done. cbn [mbind Result_bind].
  destruct (normalizeDateOnly anchor "anchorDate") as [a|e] eqn:Ea; cbn [mbind Result_bind].
  - rewrite positiveModulo_mod by (pose proof (cadenceDays_pos cadence); lia).
    destruct (_ =? 0) eqn:Em; bools; cbn [negb].
    + split; [intros _; by exists a|done].
    + split; [done|]. by intros (a' & [= <-] & Hm).
  - split; [done|]. by intros (a' & ? & _).
Qed.

Lemma boundary_year `{Intl} n k timeZone t :
  7 <= k <= 14 ->
  localDateBoundaryUtc (slice0 10 (toISOString ((n + k) * msPerDay))) timeZone = Ok t ->
  yearFromDay n <= yearFromDay (n + k) <= 9999.
Proof.
  intros Hk Ht. split; [apply yearFromDay_le; lia|].
  destruct (Z.le_gt_cases (yearFromDay (n + k)) 9999) as [|Hgt]; [done|].
  unfold localDateBoundaryUtc in Ht. apply Result_bind_Ok in Ht as (date & Hd & _).
  apply normalizeDateOnly_far in Hd; [done|]. by apply Z.le_succ_l in Hgt.
Qed.

(** The end of an accepted period, as a day. *)
Lemma period_days `{Intl} start policy p :
  payrollPeriodBoundaries start policy = Ok p ->
  exists n, 100 <= yearFromDay n <= 9999 /\ pb_localStartDate p = dayText n /\
    let n' := n + cadenceDays (pp_cadence policy) in
    100 <= yearFromDay n' <= 9999 /\ pb_localEndDateExclusive p = dayText n' /\
    assertPayrollAnchorAlignment (dayText n) (pp_anchorDate policy) (pp_cadence policy) = Ok tt /\
    exists tz, normalizePayrollTimeZone (pp_timeZone policy) = Ok tz /\
      localDateBoundaryUtc (dayText n) tz = Ok (pb_startsAt p) /\
      localDateBoundaryUtc (dayText n') tz = Ok (pb_endsAt p).
Proof.
  unfold payrollPeriodBoundaries. intros H0. inv_ok. subst p. cbn [pb_localStartDate
    pb_localEndDateExclusive pb_startsAt pb_endsAt].
  match goal with H : normalizeDateOnly start _ = Ok ?s |- _ =>
    apply normalizeDateOnly_Ok in H as (_ & y & m & d & Hy & Hr & ->) end.
  rewrite addDateDays_text in * by done. remember (makeDay y (m - 1) d) as n eqn:En.
  pose proof (cadenceDays_pos (pp_cadence policy)) as Hk.
  assert (Hn : dateText y m d = dayText n).
  { destruct (fields_makeDay y (m - 1) d) as (E1 & E2 & E3); [destruct Hr; lia..|].
    unfold dayText. rewrite En, E1, E2, E3. f_equal. lia. }
  assert (Hyn : yearFromDay n = y) by (rewrite En; apply fields_makeDay; destruct Hr; lia).
  assert (Hyk : yearFromDay n <= yearFromDay (n + cadenceDays (pp_cadence policy)) <= 9999).
  { match goal with H : localDateBoundaryUtc (slice0 10 _) _ = Ok _ |- _ =>
      exact (boundary_year _ _ _ _ Hk H) end. }
  rewrite isoDate_slice in * by lia. rewrite Hn in *.
  exists n. split_and!; [lia|lia|done|lia|lia|done| |].
  - assumption.
  - eexists. split_and!; eassumption.
Qed.

Lemma dayText_isDate n :
  100 <= yearFromDay n <= 9999 ->
  exists y m d, 100 <= y <= 9999 /\ realDate y m d /\ dayText n = dateText y m d.
Proof. intros H. exists (yearFromDay n), (monthFromDay n + 1), (dateFromDay n). split_and!; [lia..|apply dayText_real|done]. Qed.

Lemma alignment_step n anchor cadence :
  100 <= yearFromDay n <= 9999 -> 100 <= yearFromDay (n + cadenceDays cadence) <= 9999 ->
  assertPayrollAnchorAlignment (dayText n) anchor cadence = Ok tt ->
  assertPayrollAnchorAlignment (dayText (n + cadenceDays cadence)) anchor cadence = Ok tt.
Proof.
  intros Hy Hy'. rewrite !assertAlignment_Ok by by apply dayText_isDate.
  intros (a & Ha & Hmod). exists a. split; [done|]. rewrite dayText_number in * by done.
  pose proof (cadenceDays_pos cadence).
  replace (n + cadenceDays cadence - dayNumber a) with (n - dayNumber a + 1 * cadenceDays cadence) by lia.
  by rewrite Z.mod_add by lia.
Qed.

Lemma normalizeDateOnly_day n field :
  100 <= yearFromDay n <= 9999 -> normalizeDateOnly (dayText n) field = Ok (dayText n).
Proof. intros Hy. by apply normalizeDateOnly_text, dayText_real. Qed.

Lemma boundary_midnight `{Intl} n timeZone t :
  100 <= yearFromDay n <= 9999 -> localDateBoundaryUtc (dayText n) timeZone = Ok t ->
  intlZonedParts t timeZone = mkParts (yearFromDay n) (monthFromDay n + 1) (dateFromDay n) 0 0 0.
Proof. intros Hy Ht. by apply localDateBoundaryUtc_Ok in Ht as [_ Ht]; [|done|apply dayText_real]. Qed.

(** A payroll period is exactly 7 or 14 calendar days, starts and ends at
    instants that show local midnight in the policy's zone, and the period that
    follows it is aligned with the same anchor, begins on its exclusive end
    date and at the very instant it ends: consecutive periods neither overlap
    nor leave a gap, whatever the daylight-saving changes between them. *)
Theorem payrollPeriods_abut `{Intl} start policy p :
  payrollPeriodBoundaries start policy = Ok p ->
  dayNumber (pb_localEndDateExclusive p) =
    dayNumber (pb_localStartDate p) + cadenceDays (pp_cadence policy) /\
  (exists tz y m d y' m' d', normalizePayrollTimeZone (pp_timeZone policy) = Ok tz /\
     pb_localStartDate p = dateText y m d /\ pb_localEndDateExclusive p = dateText y' m' d' /\
     intlZonedParts (pb_startsAt p) tz = mkParts y m d 0 0 0 /\
     intlZonedParts (pb_endsAt p) tz = mkParts y' m' d' 0 0 0) /\
  assertPayrollAnchorAlignment (pb_localEndDateExclusive p) (pp_anchorDate policy)
    (pp_cadence policy) = Ok tt /\
  (forall q, payrollPeriodBoundaries (pb_localEndDateExclusive p) policy = Ok q ->
     pb_localStartDate q = pb_localEndDateExclusive p /\ pb_startsAt q = pb_endsAt p).
Proof.
  intros Hp. destruct (period_days start policy p Hp) as
    (n & Hy & Hs & Hy' & He & Hal & tz & Htz & Hb & Hb').
  cbv zeta in *. rewrite Hs, He. split_and!.
  - by rewrite !dayText_number.
  - exists tz. do 6 eexists. split_and!; [done|reflexivity|reflexivity|by apply boundary_midnight..].
  - by apply alignment_step.
  - intros q Hq. unfold payrollPeriodBoundaries in Hq.
    rewrite normalizeDateOnly_day in Hq by done. cbn [mbind Result_bind] in Hq. rewrite Htz in Hq. inv_ok. subst q. cbn [pb_localStartDate pb_startsAt]. split; [done|]. congruence.
Qed.

(** The zone of the examples: New York in winter, five hours behind UTC. *)
Definition fixedZone (offset : Z) : Intl := {|
  intlZonedParts t tz := shownAt (t + offset);
  intlTimeZone tz := true;
|}.

Definition samplePolicy : PayrollPolicy :=
  mkPayrollPolicy "America/New_York" BIWEEKLY "2026-01-05" "2026-01-05".

Lemma payrollPeriods_abut_witness :
  let q := mkBoundaries "2026-02-02" "2026-02-16" 1770008400000 1771218000000 in
  pb_localStartDate q = "2026-02-02" /\ pb_startsAt q = 1770008400000.
Proof.
  intros q.
  refine (proj2 (proj2 (proj2 (@payrollPeriods_abut (fixedZone (-18000000)) " 2026-01-19" samplePolicy
    (mkBoundaries "2026-01-19" "2026-02-02" 1768798800000 1770008400000) _))) q _);
    vm_compute; reflexivity.
Defined.

(** C40: The minutes paid for a time card: the whole minutes between clock-in
    and clock-out less the break minutes, and an error exactly when the card
    does not end after it starts, a number is out of range, or the breaks
    exceed the time worked. *)
Theorem payrollWorkedMinutes_spec clockIn clockOut breakMinutes worked :
  payrollWorkedMinutes (DDate (Some clockIn)) (DDate (Some clockOut)) breakMinutes = Ok worked <->
  clockIn < clockOut /\ 0 <= breakMinutes <= MAX_SAFE_INTEGER /\
  (clockOut - clockIn) / 60000 <= MAX_SAFE_INTEGER /\ 0 <= worked /\
  (worked + breakMinutes) * 60000 <= clockOut - clockIn < (worked + breakMinutes + 1) * 60000.
Proof.
  unfold payrollWorkedMinutes, requiredDate, isSafeInteger, MAX_SAFE_INTEGER. cbn [mbind Result_bind].
  set (elapsed := clockOut - clockIn). set (gross := elapsed / 60000).
  assert (Hg : gross * 60000 <= elapsed < (gross + 1) * 60000) by (subst gross; div_lia).
  destruct (_ || _) eqn:E1; [split; [done|intros; exfalso; bool_lia]|]. bools.
  destruct (_ || _) eqn:E2; bools.
  - split; [done|]. intros. exfalso. clearbody gross. lia.
  - clearbody gross. split; [intros Hw; injection Hw as Hw; lia|]. intros Hw. f_equal. lia.
Qed.

Lemma dateParse_validTime s t : dateParse s = Some t -> validTime t.
Proof.
  unfold dateParse. intros (f & _ & Hf)%bind_Some. destruct (isoInRange f); [|done].
  by apply timeClip_Some in Hf as [-> Hf].
Qed.

(** [parseInstant] reads back exactly what [toISOString] prints: it accepts
    a text if and only if it is the text of some valid time, and returns that
    time. *)
Theorem parseInstant_roundtrip value field t :
  parseInstant value field = Ok t <-> validTime t /\ value = toISOString t.
Proof.
  unfold parseInstant. split.
  - destruct (dateParse value) as [u|] eqn:E; [|done]. case_bool_decide as Hu; [|done].
    intros [= <-]. apply dateParse_validTime in E. done.
  - intros [Hv ->]. rewrite dateParse_iso by done. by rewrite bool_decide_true.
Qed.

(** ** The next policy takes effect in the future *)

Lemma makeDay_unfold y m d :
  1 <= m <= 12 -> makeDay y (m - 1) d = dayFromYear y + monthStart y (m - 1) + d - 1.
Proof. intros Hm. unfold makeDay. by rewrite Z.div_small, Z.mod_small, Z.add_0_r by lia. Qed.

(** Real dates are ordered as their fields are. *)
Lemma makeDay_lt_year y m d y' m' d' :
  realDate y m d -> realDate y' m' d' -> y < y' -> makeDay y (m - 1) d < makeDay y' (m' - 1) d'.
Proof.
  intros [Hm Hd] [Hm' Hd'] Hlt.
  destruct (fields_makeDay y (m - 1) d ltac:(lia) Hd) as (E & _).
  destruct (fields_makeDay y' (m' - 1) d' ltac:(lia) Hd') as (E' & _).
  destruct (Z.lt_ge_cases (makeDay y (m - 1) d) (makeDay y' (m' - 1) d')) as [|Hge]; [done|].
  apply yearFromDay_le in Hge. rewrite E, E' in Hge. lia.
Qed.

Lemma makeDay_lt_month y m d m' d' :
  realDate y m d -> realDate y m' d' -> m < m' -> makeDay y (m - 1) d < makeDay y (m' - 1) d'.
Proof.
  intros [Hm Hd] [Hm' Hd'] Hlt. rewrite !makeDay_unfold by done. unfold daysInMonth in *.
  rewrite Z.sub_add in Hd. destruct (Z.eq_dec m (m' - 1)) as [<-|]; [lia|].
  pose proof (monthStart_mono y m (m' - 1) ltac:(lia) ltac:(lia)). lia.
Qed.

Lemma dateText_compare y m d y' m' d' :
  0 <= y <= 9999 -> realDate y m d -> 0 <= y' <= 9999 -> realDate y' m' d' ->
  compareText (dateText y m d) (dateText y' m' d') <= 0 <-> makeDay y (m - 1) d <= makeDay y' (m' - 1) d'.
Proof.
  intros Hy Hr Hy' Hr'. pose proof (realDate_bounds _ _ _ Hr). pose proof (realDate_bounds _ _ _ Hr').
  unfold dateText. rewrite <- (strapp_nil_r (padDigits 2 d)), <- (strapp_nil_r (padDigits 2 d')).
  rewrite compareText_pad by (cbn; lia).
  destruct (y <? y') eqn:C1; [bools; pose proof (makeDay_lt_year y m d y' m' d' Hr Hr' C1); lia|].
  destruct (y' <? y) eqn:C2; [bools; pose proof (makeDay_lt_year y' m' d' y m d Hr' Hr C2); lia|].
  bools. assert (y' = y) as -> by lia. rewrite !strapp_cons, !strapp_nil, compareText_cons, Z.ltb_irrefl.
  rewrite compareText_pad by (cbn; lia).
  destruct (m <? m') eqn:C3; [bools; pose proof (makeDay_lt_month y m d m' d' Hr Hr' C3); lia|].
  destruct (m' <? m) eqn:C4; [bools; pose proof (makeDay_lt_month y m' d' m d Hr' Hr C4); lia|].
  bools. assert (m' = m) as -> by lia. rewrite compareText_cons, Z.ltb_irrefl.
  rewrite compareText_pad by (cbn; lia). rewrite !makeDay_unfold by lia.
  destruct (d <? d') eqn:C5, (d' <? d) eqn:C6; bools; cbn; lia.
Qed.

(** Both numerals print the same two digits. *)
Lemma padStart2_pad n : 0 <= n <= 99 -> padStart2 n = padDigits 2 n.
Proof.
  intros H. assert (Hall : forallb (fun k => bool_decide (padStart2 (Z.of_nat k) = padDigits 2 (Z.of_nat k)))
    (seq 0 100) = true) by (vm_compute; reflexivity).
  rewrite forallb_forall in Hall. specialize (Hall (Z.to_nat n)).
  rewrite Z2Nat.id in Hall by lia. eapply bool_decide_eq_true_1, Hall, in_seq. lia.
Qed.

Lemma showZ_pad4 n : 1000 <= n <= 9999 -> showZ n = padDigits 4 n.
Proof.
  intros H. unfold showZ. rewrite (proj2 (Z.ltb_ge n 0)) by lia. unfold showNat.
  assert (Hl : 9 <= Z.log2 n) by (change 9 with (Z.log2 1000); apply Z.log2_le_mono; lia).
  destruct (Z.to_nat (Z.log2 n)) as [|[|[|f]]] eqn:E; [lia..|].
  rewrite !showFuel_S. rewrite (proj2 (Z.ltb_ge n 10)) by lia.
  rewrite (proj2 (Z.ltb_ge (n / 10) 10)) by div_lia.
  rewrite (proj2 (Z.ltb_ge (n / 10 / 10) 10)) by div_lia.
  rewrite (proj2 (Z.ltb_lt (n / 10 / 10 / 10) 10)) by div_lia.
  cbn [padDigits]. change (10 ^ Z.of_nat 3) with (10 * 10 * 10). change (10 ^ Z.of_nat 2) with (10 * 10).
  change (10 ^ Z.of_nat 1) with 10. change (10 ^ Z.of_nat 0) with 1.
  rewrite Z.div_1_r, <- !Z.div_div by lia. done.
Qed.

(** A new policy is accepted exactly when its first day is after the
    current local day in the policy's zone and a whole number of periods from
    its anchor; comparing the two texts compares the days. *)
Theorem futureBoundary_spec `{Intl} timeZone cadence y m d ya ma da now yn mn dn h mi s :
  normalizePayrollTimeZone timeZone = Ok timeZone ->
  100 <= y <= 9999 -> realDate y m d -> 100 <= ya <= 9999 -> realDate ya ma da ->
  intlZonedParts now timeZone = mkParts yn mn dn h mi s ->
  1000 <= yn <= 9999 -> realDate yn mn dn ->
  assertFutureEffectiveBoundary
    (mkPayrollPolicy timeZone cadence (dateText ya ma da) (dateText y m d)) now = Ok tt <->
  makeDay yn (mn - 1) dn < makeDay y (m - 1) d /\
  (makeDay y (m - 1) d - makeDay ya (ma - 1) da) mod cadenceDays cadence = 0.
Proof.
  intros Htz Hy Hr Hya Hra Hnow Hyn Hrn. unfold assertFutureEffectiveBoundary.
  cbn [pp_timeZone pp_effectiveFrom pp_anchorDate pp_cadence]. rewrite Htz. cbn [mbind Result_bind].
  rewrite Hnow. cbn [zp_year zp_month zp_day]. pose proof (realDate_bounds _ _ _ Hrn).
  rewrite showZ_pad4, !padStart2_pad by lia. change (_ +:+ _) with (dateText yn mn dn).
  destruct (_ <=? 0) eqn:E; bools.
  - apply dateText_compare in E; [|lia|done|lia|done]. split; [done|lia].
  - rewrite assertAlignment_Ok by by exists y, m, d.
    assert (Hlt : makeDay yn (mn - 1) dn < makeDay y (m - 1) d).
    { apply Z.nle_gt. intros Hle. apply dateText_compare in Hle; [lia|lia|done|lia|done]. }
    split.
    + intros (a & Ha & Hm). rewrite normalizeDateOnly_text in Ha by done. injection Ha as <-.
      rewrite !dayNumber_text in Hm by done. done.
    + intros [_ Hm]. exists (dateText ya ma da). split; [by apply normalizeDateOnly_text|].
      by rewrite !dayNumber_text.
Qed.

Lemma futureBoundary_spec_witness :
  let now := 1768798800000 in
  @assertFutureEffectiveBoundary (fixedZone (-18000000))
    (mkPayrollPolicy "America/New_York" WEEKLY "2026-01-05" "2026-01-26") now = Ok tt.
Proof.
  intros now.
  refine (proj2 (@futureBoundary_spec (fixedZone (-18000000)) "America/New_York" WEEKLY 2026 1 26 2026 1 5
    now 2026 1 19 0 0 0 _ _ _ _ _ _ _ _) _); try (vm_compute; repeat split; congruence).
Defined.
