(* ===== verification/PayrollRecords.v ===== *)
(** * Payroll evidence

    The record half of apps/api-v2/src/payroll/domain.ts: request identities
    and canonical hashes, the snapshots a lock freezes, the export file, provider
    reconciliation, the candidate time cards of a period and its summary
    counts, and the retry of serializable transactions.

    SQL statements are read as the list operations they denote on the tables
    they name; text order in SQL is the database's collation, an instance of
    [LocaleCompare] like [localeCompare] itself. *)

From S2P Require Import Prelude JsStd JsCollections JsDate ContractHelpers TimeZone PayrollDates.

Definition MAX_PAYROLL_LOCK_ENTRIES : Z := 5000.
Definition MAX_RECONCILIATION_OUTCOMES : Z := 500.

(** ** Canonical hashes *)

Section Canonical.
Context `{LC : LocaleCompare}.

(** [Object.fromEntries] keeps the order of its entries: the keys hashed here
    are property names, none of them an array index. Each entry's value is
    made canonical before the sort, which reads the keys only. *)
Fixpoint canonicalJsonValue (value : Json) : Json :=
  match value with
  | JArr l => JArr (map canonicalJsonValue l)
  | JObj entries =>
      let kept := (fix go (es : list (string * option Json)) : list (string * option Json) :=
        match es with
        | [] => []
        | (k, Some v) :: es' => (k, Some (canonicalJsonValue v)) :: go es'
        | (_, None) :: es' => go es'
        end) entries in
      JObj (sortBy byKey kept)
  | _ => value
  end.

(** [JSON.stringify] *)
Fixpoint stringify (value : Json) : string :=
  match value with
  | JNull => "null"
  | JBool b => if b then "true" else "false"
  | JNum n => showZ n
  | JStr s => quoteJson s
  | JArr l => "[" +:+ joinWith "," (map stringify l) +:+ "]"
  | JObj entries =>
      let printed := (fix go (es : list (string * option Json)) : list string :=
        match es with
        | [] => []
        | (k, Some v) :: es' => (quoteJson k +:+ ":" +:+ stringify v) :: go es'
        | (_, None) :: es' => go es'
        end) entries in
      "{" +:+ joinWith "," printed +:+ "}"
  end.

Context `{Sha256}.

Definition canonicalSha256 (value : Json) : string := sha256 (stringify (canonicalJsonValue value)).
End Canonical.

(** The constructors are the wire names, hyphens standing for underscores. *)
Inductive PayrollOperationName :=
  | POLICY_CREATE | PERIOD_CREATE | ADOPT | REVIEW | APPROVAL | LOCK
  | AMENDMENT_CREATE | AMENDMENT_DECISION | EXPORT | RECONCILE.

Definition operationText (o : PayrollOperationName) : string :=
  match o with
  | POLICY_CREATE => "POLICY_CREATE" | PERIOD_CREATE => "PERIOD_CREATE" | ADOPT => "ADOPT"
  | REVIEW => "REVIEW" | APPROVAL => "APPROVAL" | LOCK => "LOCK"
  | AMENDMENT_CREATE => "AMENDMENT_CREATE" | AMENDMENT_DECISION => "AMENDMENT_DECISION"
  | EXPORT => "EXPORT" | RECONCILE => "RECONCILE"
  end.

Definition toLowerChar (c : ascii) : ascii :=
  let n := codeUnit c in
  if (65 <=? n) && (n <=? 90) then ascii_of_N (Z.to_N (n + 32)) else c.

(** [operation.toLowerCase().replace(/_/g, '-')] *)
Definition operationSlug (o : PayrollOperationName) : string :=
  ofChars (map (fun c => if bool_decide (c = "_"%char) then "-"%char else toLowerChar c)
             (chars (operationText o))).

Definition jText (k v : string) : string * option Json := (k, Some (JStr v)).
Definition jInt (k : string) (v : Z) : string * option Json := (k, Some (JNum v)).
Definition jOptText (k : string) (v : option string) : string * option Json :=
  (k, Some (match v with Some s => JStr s | None => JNull end)).

Section Identities.
Context `{LC : LocaleCompare} `{SH : Sha256}.

(** [{ operationId, requestHash }] *)
Definition payrollRequestIdentity (tenantId actorUserId : string) (operation : PayrollOperationName)
    (idempotencyKey : string) (body : Json) : string * string :=
  let scope := JObj [jText "actorUserId" actorUserId; jText "idempotencyKey" idempotencyKey;
                     jText "operation" (operationText operation); jText "tenantId" tenantId] in
  ("payroll-" +:+ operationSlug operation +:+ "-" +:+ canonicalSha256 scope,
   canonicalSha256 (JObj [jText "actorUserId" actorUserId; ("body", Some body);
                          jText "operation" (operationText operation); jText "tenantId" tenantId])).

Definition childPayrollOperationId (parentOperationId discriminator : string) : string :=
  "payroll-child-" +:+ canonicalSha256
    (JObj [jText "discriminator" discriminator; jText "parentOperationId" parentOperationId]).

(** [prefix] is ['batch'] or ['line']. *)
Definition deterministicPayrollId (prefix : string) (value : Json) : string :=
  "payroll_" +:+ prefix +:+ "_" +:+
  slice0 40 (canonicalSha256 (JObj [jText "prefix" prefix; ("value", Some value)])).

(** ** Locked snapshots *)

Definition isSha256Hex (s : string) : bool := (strLen s =? 64) && allChars isLowerHex s.

Definition payrollLockAggregateSha256 (tenantId periodId : string) (entryHashes : list string)
    (totalPayableMinutes : Z) : Result string :=
  if negb (isSafeInteger totalPayableMinutes) || existsb (fun h => negb (isSha256Hex h)) entryHashes
  then Throw (JsError "Payroll entry evidence is invalid.")
  else Ok (canonicalSha256 (JObj
    [("body", Some (JObj [jInt "count" (Z.of_nat (length entryHashes));
                          ("entryHashes", Some (JArr (map JStr entryHashes)));
                          jInt "totalPayableMinutes" totalPayableMinutes]));
     jText "operation" "LOCK_AGGREGATE"; jText "periodId" periodId; jText "tenantId" tenantId])).
End Identities.

(** [sourceType] is ['TIME_CARD'] or ['AMENDMENT']. *)
Record LockedEntrySource := mkSource {
  ls_sourceType : string;
  ls_sourceId : string;
  ls_sourceRevision : Z;
  ls_employeeId : string;
  ls_locationId : option string;
  ls_workTimeZone : string;
  ls_clockInAt : DateOrText;
  ls_clockOutAt : DateOrText;
  ls_breakMinutes : Z;
  ls_payableMinutes : Z;
  ls_approvedAt : DateOrText;
  ls_approvedByUserId : string;
  ls_breakIntervals : option (list (DateOrText * DateOrText));
}.

(** [{ ...source, sequence, canonicalSha256 }] *)
Record LockedEntry := mkLocked {
  le_source : LockedEntrySource;
  le_sequence : Z;
  le_canonicalSha256 : string;
}.

Record LockedSnapshots := mkSnapshots {
  sn_entries : list LockedEntry;
  sn_totalPayableMinutes : Z;
  sn_aggregateSha256 : string;
}.

Definition snapshotInstant : string := "Payroll snapshot instant is invalid.".
Definition snapshotInterval : string := "Payroll snapshot interval is invalid.".

(** The comparison of two sources whose clock-in times are [l.1] and [r.1]. *)
Definition compareSources (l r : Z * LockedEntrySource) : Z :=
  orElse (compareText (ls_employeeId l.2) (ls_employeeId r.2))
    (orElse (l.1 - r.1)
      (orElse (compareText (ls_sourceType l.2) (ls_sourceType r.2))
        (compareText (ls_sourceId l.2) (ls_sourceId r.2)))).

Definition intervalTexts (i : DateOrText * DateOrText) : Result (string * string) :=
  startAt ← requiredDate i.1 snapshotInterval;
  endAt ← requiredDate i.2 snapshotInterval;
  Ok (toISOString startAt, toISOString endAt).

Definition compareIntervals (l r : string * string) : Z :=
  orElse (compareText l.1 r.1) (compareText l.2 r.2).

(** The body that is hashed for one source. *)
Definition normalizedSource (source : LockedEntrySource) : Result Json :=
  clockInAt ← requiredDate (ls_clockInAt source) snapshotInstant;
  clockOutAt ← requiredDate (ls_clockOutAt source) snapshotInstant;
  approvedAt ← requiredDate (ls_approvedAt source) snapshotInstant;
  intervals ← mapM intervalTexts (default [] (ls_breakIntervals source));
  Ok (JObj [jText "sourceType" (ls_sourceType source); jText "sourceId" (ls_sourceId source);
    jInt "sourceRevision" (ls_sourceRevision source); jText "employeeId" (ls_employeeId source);
    jOptText "locationId" (ls_locationId source); jText "workTimeZone" (ls_workTimeZone source);
    jText "clockInAt" (toISOString clockInAt); jText "clockOutAt" (toISOString clockOutAt);
    jInt "breakMinutes" (ls_breakMinutes source); jInt "payableMinutes" (ls_payableMinutes source);
    jText "approvedAt" (toISOString approvedAt); jText "approvedByUserId" (ls_approvedByUserId source);
    ("breakIntervals", Some (JArr (map (fun i => JObj [jText "startAt" i.1; jText "endAt" i.2])
       (sortBy compareIntervals intervals))))]).

(** The reduce over the payable minutes. *)
Fixpoint sumSafe (total : Z) (minutes : list Z) : Result Z :=
  match minutes with
  | [] => Ok total
  | m :: rest =>
      let next := total + m in
      if isSafeInteger next then sumSafe next rest
      else Throw (JsError "Payroll payable total is invalid.")
  end.

Section Snapshots.
Context `{LC : LocaleCompare} `{SH : Sha256}.

Definition lockEntry (tenantId periodId : string) (sequence : nat) (source : LockedEntrySource)
    : Result LockedEntry :=
  body ← normalizedSource source;
  Ok (mkLocked source (Z.of_nat sequence) (canonicalSha256 (JObj
    [("body", Some body); jText "operation" "LOCK_ENTRY"; jText "periodId" periodId;
     jText "tenantId" tenantId]))).

(** An invalid clock-in is met here before the sort, in the source during it
    or when the entry is normalised; the error is the same. *)
Definition materializeLockedSnapshots (tenantId periodId : string)
    (sources : list LockedEntrySource) : Result LockedSnapshots :=
  timed ← mapM (fun s => t ← requiredDate (ls_clockInAt s) snapshotInstant; Ok (t, s)) sources;
  let ordered := map snd (sortBy compareSources timed) in
  entries ← mapM (fun e : nat * LockedEntrySource => lockEntry tenantId periodId e.1 e.2)
              (imap pair ordered);
  total ← sumSafe 0 (map (fun e => ls_payableMinutes (le_source e)) entries);
  aggregate ← payrollLockAggregateSha256 tenantId periodId (map le_canonicalSha256 entries) total;
  Ok (mkSnapshots entries total aggregate).
End Snapshots.

(** ** The export file *)

Record PayrollCsvLine := mkCsvLine {
  cl_id : string;
  cl_lineNumber : Z;
  cl_sourceType : string;
  cl_sourceId : string;
  cl_employeeId : string;
  cl_locationId : option string;
  cl_workTimeZone : string;
  cl_clockInAt : DateOrText;
  cl_clockOutAt : DateOrText;
  cl_breakMinutes : Z;
  cl_payableMinutes : Z;
}.

Definition storedInstant : string := "Stored payroll instant is invalid.".

Definition payrollExportLineSha256 `{LocaleCompare, Sha256} (tenantId batchId lockedEntryId : string)
    (line : PayrollCsvLine) : Result string :=
  clockInAt ← requiredDate (cl_clockInAt line) storedInstant;
  clockOutAt ← requiredDate (cl_clockOutAt line) storedInstant;
  Ok (canonicalSha256 (JObj
    [("body", Some (JObj [jText "batchId" batchId; jText "lockedEntryId" lockedEntryId;
        jText "id" (cl_id line); jInt "lineNumber" (cl_lineNumber line);
        jText "sourceType" (cl_sourceType line); jText "sourceId" (cl_sourceId line);
        jText "employeeId" (cl_employeeId line); jOptText "locationId" (cl_locationId line);
        jText "workTimeZone" (cl_workTimeZone line); jText "clockInAt" (toISOString clockInAt);
        jText "clockOutAt" (toISOString clockOutAt); jInt "breakMinutes" (cl_breakMinutes line);
        jInt "payableMinutes" (cl_payableMinutes line)]));
     jText "operation" "EXPORT_LINE"; jText "tenantId" tenantId])).

Definition unsignedIntegerCell (value : Z) : Result string :=
  if negb (isSafeInteger value) || (value <? 0) then Throw (JsError "Stored payroll CSV integer is invalid.")
  else Ok (showZ value).

Definition signedIntegerCell (value : Z) : Result string :=
  if negb (isSafeInteger value) then Throw (JsError "Stored payroll CSV integer is invalid.")
  else Ok (showZ value).

Definition newline : ascii := "010"%char.

(** A cell in quotes, its own quotes doubled. *)
Definition quoteCell (cell : string) : string :=
  ofChars (dquote :: flat_map (fun c => if bool_decide (c = dquote) then [dquote; dquote] else [c])
                       (chars cell) ++ [dquote]).

Definition csvCells (line : PayrollCsvLine) : Result (list string) :=
  clockInAt ← requiredDate (cl_clockInAt line) storedInstant;
  clockOutAt ← requiredDate (cl_clockOutAt line) storedInstant;
  breakMinutes ← unsignedIntegerCell (cl_breakMinutes line);
  payableMinutes ← signedIntegerCell (cl_payableMinutes line);
  Ok [cl_id line; cl_sourceType line; cl_sourceId line; cl_employeeId line;
      default "" (cl_locationId line); cl_workTimeZone line; toISOString clockInAt;
      toISOString clockOutAt; breakMinutes; payableMinutes].

Definition csvHeader : string :=
  "payroll_line_id,source_type,source_id,employee_id,location_id,work_time_zone,clock_in_utc,clock_out_utc,break_minutes,payable_minutes".

Definition compareLines (l r : PayrollCsvLine) : Z :=
  orElse (cl_lineNumber l - cl_lineNumber r) (compareText (cl_id l) (cl_id r)).

(** [ordered.forEach((line, index) => ...)] *)
Definition lineSequenceOk (ordered : list PayrollCsvLine) : bool :=
  forallb (fun e : nat * PayrollCsvLine => cl_lineNumber e.2 =? Z.of_nat e.1 + 1) (imap pair ordered).

Definition csvRow (cells : list string) : string := joinWith "," (map quoteCell cells).

Definition buildPayrollCsv (lines : list PayrollCsvLine) : Result string :=
  let ordered := sortBy compareLines lines in
  if negb (lineSequenceOk ordered) then Throw (JsError "Stored payroll line sequence is invalid.") else
  cells ← mapM csvCells ordered;
  let rows := map csvRow cells in
  Ok (csvHeader +:+ String newline
       (if (0 <? length rows)%nat then joinWith (String newline "") rows +:+ String newline "" else "")).

Definition payrollContentSha256 `{Sha256} (value : string) : string := sha256 value.

(** ** Provider reconciliation *)

Inductive OutcomeStatus := PENDING | ACCEPTED | REJECTED.

#[global] Instance OutcomeStatus_eq_dec : EqDecision OutcomeStatus.
Proof. solve_decision. Defined.

(** An outcome of the payload; in a request an absent reason is [None] too. *)
Record Outcome := mkOutcome {
  oc_lineId : string;
  oc_status : OutcomeStatus;
  oc_reason : option string;
}.

Record ReconciliationPayload := mkReconciliation {
  rc_provider : string;
  rc_providerEventId : string;
  rc_providerTotalMinutes : Z;
  rc_outcomes : list Outcome;
}.

Definition normalizeOutcome (outcome : Outcome) : Result Outcome :=
  lineId ← requireId (Some (oc_lineId outcome)) "lineId";
  reason ← match oc_reason outcome with
           | None => Ok None
           | Some r => Some <$> boundedText r "reason" 500
           end;
  Ok (mkOutcome lineId (oc_status outcome) reason).

(** [new Set(l).size] *)
Definition setSize (l : list string) : nat := length (remove_dups l).

Definition normalizeReconciliation (value : ReconciliationPayload) : Result ReconciliationPayload :=
  provider ← boundedText (rc_provider value) "provider" 100;
  providerEventId ← boundedText (rc_providerEventId value) "providerEventId" 200;
  if negb (isSafeInteger (rc_providerTotalMinutes value)) then
    payrollProblem "invalid_payroll_provider_total" "providerTotalMinutes must be a whole number."
  else if (Z.of_nat (length (rc_outcomes value)) <? 1)
          || (MAX_RECONCILIATION_OUTCOMES <? Z.of_nat (length (rc_outcomes value))) then
    payrollProblem "invalid_payroll_outcomes"
      ("outcomes must contain between 1 and " +:+ showZ MAX_RECONCILIATION_OUTCOMES +:+ " items.")
  else
    normalized ← mapM normalizeOutcome (rc_outcomes value);
    let outcomes := sortBy (fun l r => compareText (oc_lineId l) (oc_lineId r)) normalized in
    if negb (setSize (map oc_lineId outcomes) =? length outcomes)%nat then
      payrollProblem "duplicate_payroll_outcomes" "outcomes must not repeat line IDs."
    else Ok (mkReconciliation provider providerEventId (rc_providerTotalMinutes value) outcomes).

Definition outcomeJson (o : Outcome) : Json :=
  JObj [jText "lineId" (oc_lineId o);
        jText "status" (match oc_status o with
                        | PENDING => "PENDING" | ACCEPTED => "ACCEPTED" | REJECTED => "REJECTED" end);
        jOptText "reason" (oc_reason o)].

Definition reconciliationPayloadSha256 `{LocaleCompare, Sha256} (tenantId actorUserId batchId : string)
    (payload : ReconciliationPayload) : string :=
  canonicalSha256 (JObj
    [jText "actorUserId" actorUserId;
     ("body", Some (JObj [jText "provider" (rc_provider payload);
        jText "providerEventId" (rc_providerEventId payload);
        jInt "providerTotalMinutes" (rc_providerTotalMinutes payload);
        ("outcomes", Some (JArr (map outcomeJson (rc_outcomes payload))))]));
     jText "operation" "RECONCILE"; jText "batchId" batchId; jText "tenantId" tenantId]).

Definition countStatus (s : OutcomeStatus) (payload : ReconciliationPayload) : nat :=
  length (List.filter (fun o => bool_decide (oc_status o = s)) (rc_outcomes payload)).

(** [{ acceptedCount, rejectedCount, pendingCount }] *)
Definition reconciliationCounts (payload : ReconciliationPayload) : nat * nat * nat :=
  (countStatus ACCEPTED payload, countStatus REJECTED payload, countStatus PENDING payload).

(** ** Retry of serializable transactions *)

Definition isUniqueConflict (error : Exn) : bool :=
  match error with
  | DriverError c _ => bool_decide (c = "P2002")
  | Problem p => bool_decide (pCode p = "P2002")
  | JsError _ => false
  end.

(** [candidate.code] and [candidate.meta?.code] *)
Definition errorCode (error : Exn) : string :=
  match error with DriverError c _ => c | Problem p => pCode p | JsError _ => "" end.
Definition errorMetaCode (error : Exn) : string :=
  match error with DriverError _ (Some m) => m | _ => "" end.

Definition isLockTimeout (error : Exn) : bool :=
  bool_decide (errorCode error = "55P03")
  || (bool_decide (errorCode error = "P2010") && bool_decide (errorMetaCode error = "55P03")).

Definition isSerializationConflict (error : Exn) : bool :=
  bool_decide (errorCode error = "P2034") || bool_decide (errorCode error = "40001")
  || (bool_decide (errorCode error = "P2010") && bool_decide (errorMetaCode error = "40001")).

(** An operation is a function of the world it runs in. *)
Fixpoint retryLoop {S A} (remaining attempt : nat) (operation : S -> Result A * S) (s : S)
    : Result A * S :=
  match remaining with
  | O => (Throw (JsError "Payroll serializable retry limit is invalid."), s)
  | Datatypes.S n =>
      match operation s with
      | (Ok a, s') => (Ok a, s')
      | (Throw e, s') =>
          if (attempt =? 0)%nat && isSerializationConflict e
          then retryLoop n (Datatypes.S attempt) operation s' else (Throw e, s')
      end
  end.

Definition retryPayrollSerializableMutation {S A} (operation : S -> Result A * S)
    : S -> Result A * S := retryLoop 2 0 operation.

(** ** Candidate time cards *)

Inductive CardStatus := OPEN | CLOSED | VOID.

#[global] Instance CardStatus_eq_dec : EqDecision CardStatus.
Proof. solve_decision. Defined.

Record PayrollCandidateCard := mkCard {
  pc_id : string;
  pc_tenantId : string;
  pc_userId : string;
  pc_locationId : option string;
  pc_payrollPeriodId : option string;
  pc_workTimeZone : string;
  pc_revision : Z;
  pc_clockInAt : Z;
  pc_clockOutAt : option Z;
  pc_breakMinutes : Z;
  pc_status : CardStatus;
  pc_deletedAt : option Z;
}.

Record PayrollPeriodWindow := mkWindow { pw_id : string; pw_startsAt : Z; pw_endsAt : Z }.

Definition isAssigned (period : PayrollPeriodWindow) (card : PayrollCandidateCard) : bool :=
  bool_decide (pc_payrollPeriodId card = Some (pw_id period)).

(** The [WHERE] clause of [lockPayrollCandidateCards]. *)
Definition isCandidate (tenantId : string) (period : PayrollPeriodWindow)
    (card : PayrollCandidateCard) : bool :=
  bool_decide (pc_tenantId card = tenantId) &&
  (isAssigned period card
   || (negb (bool_decide (is_Some (pc_deletedAt card)))
       && (pc_clockInAt card <? pw_endsAt period)
       && match pc_clockOutAt card with None => true | Some o => pw_startsAt period <? o end)).

Definition lockPayrollCandidateCards `{LocaleCompare} (timeCards : list PayrollCandidateCard)
    (tenantId : string) (period : PayrollPeriodWindow) : Result (list PayrollCandidateCard) :=
  let cards := take (Z.to_nat (MAX_PAYROLL_LOCK_ENTRIES + 1))
    (sortBy (fun l r => localeCompare (pc_id l) (pc_id r))
       (List.filter (isCandidate tenantId period) timeCards)) in
  if MAX_PAYROLL_LOCK_ENTRIES <? Z.of_nat (length cards) then
    payrollProblem "payroll_period_card_limit"
      ("Payroll period exceeds the " +:+ showZ MAX_PAYROLL_LOCK_ENTRIES +:+ "-card limit.")
  else Ok cards.

Definition payrollConflict {A} (code detail : string) : Result A :=
  throwProblem 409 code detail "Payroll conflict".

Definition outsidePeriod (period : PayrollPeriodWindow) (card : PayrollCandidateCard) : bool :=
  negb (bool_decide (pc_status card = CLOSED))
  || match pc_clockOutAt card with
     | None => true
     | Some o => (pc_clockInAt card <? pw_startsAt period) || (pw_endsAt period <? o)
     end.

Definition checkContext `{Intl} (card : PayrollCandidateCard) : Result unit :=
  if isEmpty (trim (pc_userId card)) || isEmpty (trim (pc_workTimeZone card)) then
    payrollConflict "payroll_card_context_invalid" "A time card is missing required payroll context."
  else _ ← normalizePayrollTimeZone (pc_workTimeZone card); Ok tt.

Definition validatePayrollCandidateCards `{Intl} (cards : list PayrollCandidateCard)
    (period : PayrollPeriodWindow) : Result (list PayrollCandidateCard) :=
  let assigned := List.filter (isAssigned period) cards in
  if existsb (fun card => bool_decide (pc_status card = OPEN)) cards then
    payrollConflict "payroll_open_card_overlap" "Open time cards overlap or belong to this payroll period."
  else if existsb (fun card => bool_decide (pc_status card = VOID)
                               || bool_decide (is_Some (pc_deletedAt card))) cards then
    payrollConflict "payroll_invalid_card_state"
      "Void or deleted assigned time cards block payroll review and locking."
  else if existsb (fun card => negb (isAssigned period card)) cards then
    payrollConflict "payroll_unassigned_card_overlap"
      "Unassigned or other-period time cards overlap this payroll period."
  else if existsb (outsidePeriod period) assigned then
    payrollConflict "payroll_card_window_invalid"
      "Assigned time cards must be closed and wholly within the payroll period."
  else
    _ ← mapM checkContext assigned;
    Ok assigned.

(** ** Summary counts *)

Inductive Decision := APPROVED_D | REJECTED_D.

#[global] Instance Decision_eq_dec : EqDecision Decision.
Proof. solve_decision. Defined.

Record ApprovalRow := mkApproval {
  ap_tenantId : string;
  ap_periodId : string;
  ap_timeCardId : string;
  ap_timeCardRevision : Z;
  ap_decision : Decision;
}.

(** An amendment with the decision recorded for it, if any. *)
Record AmendmentRow := mkAmendment {
  am_tenantId : string;
  am_adjustmentPeriodId : string;
  am_decision : option Decision;
}.

Record PeriodSummary := mkSummary {
  su_cardCount : Z;
  su_closedCardCount : Z;
  su_approvedCardCount : Z;
  su_rejectedCardCount : Z;
  su_pendingCardCount : Z;
  su_amendmentCount : Z;
  su_pendingAmendmentCount : Z;
  su_approvedAmendmentCount : Z;
  su_lockedEntryCount : Z;
}.

(** The tables the query reads; a locked entry is its tenant and period. *)
Record SummaryTables := mkTables {
  tb_periods : list (string * string);
  tb_cards : list PayrollCandidateCard;
  tb_approvals : list ApprovalRow;
  tb_amendments : list AmendmentRow;
  tb_lockedEntries : list (string * string);
}.

(** The approvals joined to a card of the period. *)
Definition joinsApproval (tenantId periodId : string) (card : PayrollCandidateCard) (a : ApprovalRow)
    : bool :=
  bool_decide (ap_tenantId a = tenantId) && bool_decide (ap_periodId a = periodId)
  && bool_decide (ap_timeCardId a = pc_id card) && (ap_timeCardRevision a =? pc_revision card).

Definition joinsCard (tenantId periodId : string) (card : PayrollCandidateCard) : bool :=
  bool_decide (pc_tenantId card = tenantId) && bool_decide (pc_payrollPeriodId card = Some periodId)
  && negb (bool_decide (is_Some (pc_deletedAt card))).

(** [LEFT JOIN "PayrollTimeCardApproval"]: a card without an approval keeps one
    row. *)
Definition joinedRows (tables : SummaryTables) (tenantId periodId : string)
    (card : PayrollCandidateCard) : list (PayrollCandidateCard * option ApprovalRow) :=
  match List.filter (joinsApproval tenantId periodId card) (tb_approvals tables) with
  | [] => [(card, None)]
  | approvals => map (fun a => (card, Some a)) approvals
  end.

Definition cardRows (tables : SummaryTables) (tenantId periodId : string)
    : list (PayrollCandidateCard * option ApprovalRow) :=
  flat_map (joinedRows tables tenantId periodId)
    (List.filter (joinsCard tenantId periodId) (tb_cards tables)).

Definition countWhere {A} (p : A -> bool) (l : list A) : Z := Z.of_nat (length (List.filter p l)).

(** [approval."decision" = d] on the nullable side of the join. *)
Definition decidedAs (d : Decision) (a : option ApprovalRow) : bool :=
  match a with Some r => bool_decide (ap_decision r = d) | None => false end.

Definition periodSummary (tables : SummaryTables) (tenantId periodId : string) : PeriodSummary :=
  let rows := cardRows tables tenantId periodId in
  let closedCardCount := countWhere
    (fun r : PayrollCandidateCard * option ApprovalRow => bool_decide (pc_status r.1 = CLOSED)) rows in
  let approvedCardCount := countWhere
    (fun r : PayrollCandidateCard * option ApprovalRow => decidedAs APPROVED_D r.2) rows in
  let rejectedCardCount := countWhere
    (fun r : PayrollCandidateCard * option ApprovalRow => decidedAs REJECTED_D r.2) rows in
  let amendments := List.filter (fun a => bool_decide (am_tenantId a = tenantId)
    && bool_decide (am_adjustmentPeriodId a = periodId)) (tb_amendments tables) in
  mkSummary (Z.of_nat (length rows)) closedCardCount approvedCardCount rejectedCardCount
    (Z.max 0 (closedCardCount - approvedCardCount - rejectedCardCount))
    (Z.of_nat (length amendments))
    (countWhere (fun a => bool_decide (am_decision a = None)) amendments)
    (countWhere (fun a => bool_decide (am_decision a = Some APPROVED_D)) amendments)
    (countWhere (fun e : string * string => bool_decide (e = (tenantId, periodId)))
       (tb_lockedEntries tables)).

Definition emptySummary : PeriodSummary := mkSummary 0 0 0 0 0 0 0 0 0.

(** [tb_periods] lists tenant and identifier; counts of rows are non-negative
    integers, so the source's check of them cannot fail. *)
Definition loadPayrollPeriodSummaries (tables : SummaryTables) (tenantId : string)
    (periodIds : list string) : JsMap string PeriodSummary :=
  mapOf (map (fun p : string * string => (p.2, periodSummary tables tenantId p.2))
    (List.filter (fun p : string * string => bool_decide (p.1 = tenantId)
       && bool_decide (p.2 ∈ periodIds)) (tb_periods tables))).

Definition loadPayrollPeriodSummary (tables : SummaryTables) (tenantId periodId : string)
    : PeriodSummary :=
  default emptySummary (mapGet (loadPayrollPeriodSummaries tables tenantId [periodId]) periodId).

(** ** One canonical form *)

Lemma sortBy_map {A B} (cmpA : A -> A -> Z) (cmpB : B -> B -> Z) (f : A -> B) l :
  (forall x y, cmpB (f x) (f y) = cmpA x y) -> sortBy cmpB (map f l) = map f (sortBy cmpA l).
Proof.
  intros Hc. assert (Hi : forall x l, insertBy cmpB (f x) (map f l) = map f (insertBy cmpA x l)).
  { intros x k. induction k as [|y k IH]; cbn; [done|]. rewrite Hc. destruct (_ <=? 0); [done|].
    cbn. by rewrite IH. }
  induction l as [|x l IH]; [done|]. cbn [map]. change (sortBy cmpB (f x :: map f l)) with
    (insertBy cmpB (f x) (sortBy cmpB (map f l))). rewrite IH. apply Hi.
Qed.

Section OneForm.
Context `{LC : LocaleCompare}.

(** The pairs printed for the kept entries. *)
Definition keptPairs (es : list (string * option Json)) : list (string * Json) :=
  flat_map (fun e : string * option Json => match e.2 with Some v => [(e.1, v)] | None => [] end) es.

Lemma canonicalJsonValue_obj es :
  canonicalJsonValue (JObj es) = JObj (sortBy byKey
    (map (fun e : string * Json => (e.1, Some (canonicalJsonValue e.2))) (keptPairs es))).
Proof.
  cbn [canonicalJsonValue]. do 2 f_equal.
  induction es as [|[k [v|]] es IH]; cbn; [done|by rewrite IH|done].
Qed.

Lemma stringify_obj (es : list (string * Json)) :
  stringify (JObj (map (fun e : string * Json => (e.1, Some e.2)) es)) =
  "{" +:+ joinWith "," (map (fun e : string * Json => quoteJson e.1 +:+ ":" +:+ stringify e.2) es) +:+ "}".
Proof.
  cbn [stringify]. do 3 f_equal. induction es as [|[k v] es IH]; [done|].
  exact (f_equal (fun t => (quoteJson k +:+ ":" +:+ stringify v) :: t) IH).
Qed.

Lemma printEntry_kept es :
  flat_map printEntry es = map (fun e : string * Json => (e.1, canonicalJson e.2)) (keptPairs es).
Proof. induction es as [|[k [v|]] es IH]; cbn; [done|by rewrite IH|done]. Qed.

Lemma stringify_canonical_obj es :
  Forall (fun e : string * Json => stringify (canonicalJsonValue e.2) = canonicalJson e.2) (keptPairs es) ->
  stringify (canonicalJsonValue (JObj es)) = canonicalJson (JObj es).
Proof.
  intros Hes. rewrite canonicalJsonValue_obj, canonicalJson_obj, printEntry_kept.
  set (kept := keptPairs es) in *.
  replace (map (fun e : string * Json => (e.1, Some (canonicalJsonValue e.2))) kept)
    with (map (fun e : string * Json => (e.1, Some e.2))
           (map (fun e : string * Json => (e.1, canonicalJsonValue e.2)) kept)) by by rewrite map_map.
  rewrite (sortBy_map byKey byKey) by done. rewrite stringify_obj.
  rewrite (sortBy_map byKey byKey (fun e : string * Json => (e.1, canonicalJsonValue e.2))) by done.
  rewrite (sortBy_map byKey byKey (fun e : string * Json => (e.1, canonicalJson e.2))) by done.
  rewrite !map_map. cbn. do 3 f_equal. apply map_ext_in. intros e He%list_elem_of_In%sortBy_elem.
  rewrite Forall_forall in Hes. by rewrite (Hes e He).
Qed.

Lemma stringify_canonical : forall v, stringify (canonicalJsonValue v) = canonicalJson v.
Proof.
  fix IH 1. intros [| | | |l|es]; try reflexivity.
  - cbn [stringify canonicalJsonValue canonicalJson]. rewrite map_map. do 3 f_equal.
    induction l as [|x l IHl]; [done|]. cbn [map]. by rewrite (IH x), IHl.
  - apply stringify_canonical_obj. induction es as [|[k [v|]] es IHes]; cbn; [constructor| |done].
    constructor; [apply IH|done].
Qed.
End OneForm.

(** The payroll hash and the scheduling hash canonicalise a value to the
    same text, so they agree on every request body. *)
Theorem canonicalSha256_requestHash `{LC : LocaleCompare, SH : Sha256} value :
  canonicalSha256 value = requestHash value.
Proof. unfold canonicalSha256, requestHash. by rewrite stringify_canonical. Qed.

(** ** Snapshots do not depend on the order of their sources *)

#[global] Instance compareSources_comparator : Comparator compareSources.
Proof.
  apply (Comparator_orElse (fun l r : Z * LockedEntrySource => compareText (ls_employeeId l.2) (ls_employeeId r.2)));
    [apply (Comparator_text (fun s : Z * LockedEntrySource => ls_employeeId s.2))|].
  apply (Comparator_orElse (fun l r : Z * LockedEntrySource => l.1 - r.1)); [apply (Comparator_sub fst)|].
  apply (Comparator_orElse (fun l r : Z * LockedEntrySource => compareText (ls_sourceType l.2) (ls_sourceType r.2)));
    [apply (Comparator_text (fun s : Z * LockedEntrySource => ls_sourceType s.2))|
     apply (Comparator_text (fun s : Z * LockedEntrySource => ls_sourceId s.2))].
Qed.

Definition sourceKey (s : LockedEntrySource) : string * string := (ls_sourceType s, ls_sourceId s).

Lemma mapM_Permutation {A B} (f : A -> Result B) l l' k :
  l ≡ₚ l' -> mapM f l = Ok k -> exists k', mapM f l' = Ok k' /\ k ≡ₚ k'.
Proof.
  intros Hp Hk%mapM_Ok_Forall2. destruct (Permutation_Forall2 Hp Hk) as (k' & Hkk & Hf).
  exists k'. split; [by apply mapM_Ok_Forall2|done].
Qed.

(** The sources paired with their clock-in times. *)
Definition timedSources (sources : list LockedEntrySource) : Result (list (Z * LockedEntrySource)) :=
  mapM (fun s => t ← requiredDate (ls_clockInAt s) snapshotInstant; Ok (t, s)) sources.

Lemma timedSources_snd sources timed :
  timedSources sources = Ok timed ->
  map snd timed = sources /\
  Forall (fun e : Z * LockedEntrySource => requiredDate (ls_clockInAt e.2) snapshotInstant = Ok e.1) timed.
Proof.
  intros Ht%mapM_Ok_Forall2. induction Ht as [|s e sources timed Hse Ht [IH1 IH2]]; [by split|].
  apply Result_bind_Ok in Hse as (t & Hd & [= <-]). cbn. split; [by rewrite IH1|by constructor].
Qed.

Lemma compareSources_inj sources timed :
  NoDup (map sourceKey sources) -> timedSources sources = Ok timed ->
  forall x y, x ∈ timed -> y ∈ timed -> compareSources x y = 0 -> x = y.
Proof.
  intros Hnd [Hs _]%timedSources_snd [tx sx] [ty sy] Hx Hy.
  unfold compareSources. cbn. rewrite !orElse_zero, !compareText_eq. intros (_ & Ht & Hty & Hid).
  rewrite <- Hs, map_map in Hnd.
  apply list_elem_of_lookup in Hx as [i Hi], Hy as [j Hj].
  assert (i = j) as ->; [|congruence].
  eapply NoDup_lookup; [exact Hnd|..]; rewrite list_lookup_fmap; [by rewrite Hi|].
  rewrite Hj. cbn. unfold sourceKey. by rewrite Hty, Hid.
Qed.

Lemma sumSafe_Ok total minutes sum :
  sumSafe total minutes = Ok sum -> sum = total + foldr Z.add 0 minutes.
Proof.
  revert total. induction minutes as [|m minutes IH]; intros total; cbn [sumSafe foldr].
  - intros [= <-]. lia.
  - destruct (isSafeInteger _); [|done]. intros ->%IH. lia.
Qed.

Section Lock.
Context `{LC : LocaleCompare} `{SH : Sha256}.

Lemma lockEntries_shape tenantId periodId (l : list LockedEntrySource) entries n :
  mapM (fun e : nat * LockedEntrySource => lockEntry tenantId periodId e.1 e.2)
    (imap (fun i s => (n + i, s)%nat) l) = Ok entries ->
  map le_source entries = l /\
  map le_sequence entries = map Z.of_nat (seq n (length l)).
Proof.
  revert entries n. induction l as [|s l IH]; intros entries n.
  { cbn. intros [= <-]. done. }
  rewrite imap_cons. cbn [mapM]. intros (e & He & Hr)%Result_bind_Ok.
  apply Result_bind_Ok in Hr as (es & Hes & [= <-]).
  apply Result_bind_Ok in He as (body & _ & [= <-]).
  assert (Hi : imap ((fun i s => (n + i, s)%nat) ∘ S) l = imap (fun i s => (S n + i, s)%nat) l).
  { apply imap_ext. intros i x _. cbn. f_equal. lia. }
  rewrite Hi in Hes. apply IH in Hes as [E1 E2]. cbn. rewrite E1, E2. split; [done|].
  by rewrite Nat.add_0_r.
Qed.

(** What the snapshots are: the sources in some order, numbered and hashed. *)
Lemma materializeLockedSnapshots_Ok tenantId periodId sources snapshots :
  materializeLockedSnapshots tenantId periodId sources = Ok snapshots ->
  map le_source (sn_entries snapshots) ≡ₚ sources /\
  map le_sequence (sn_entries snapshots) = map Z.of_nat (seq 0 (length sources)) /\
  sn_totalPayableMinutes snapshots = foldr Z.add 0 (map ls_payableMinutes (map le_source (sn_entries snapshots))) /\
  payrollLockAggregateSha256 tenantId periodId (map le_canonicalSha256 (sn_entries snapshots))
    (sn_totalPayableMinutes snapshots) = Ok (sn_aggregateSha256 snapshots).
Proof.
  unfold materializeLockedSnapshots. intros (timed & Ht & Hm)%Result_bind_Ok.
  apply Result_bind_Ok in Hm as (entries & He & Hm).
  apply Result_bind_Ok in Hm as (total & Hs & Hm). apply Result_bind_Ok in Hm as (agg & Ha & [= <-]).
  cbn [sn_entries sn_totalPayableMinutes sn_aggregateSha256]. fold (timedSources sources) in Ht.
  pose proof (timedSources_snd _ _ Ht) as [Hsnd _].
  destruct (lockEntries_shape _ _ _ _ 0%nat He) as [E1 E2]. rewrite E1, E2. split_and!; [| | |done].
  - rewrite <- Hsnd. apply Permutation_map, sortBy_perm.
  - do 2 f_equal. by rewrite length_map, sortBy_length, <- Hsnd, length_map.
  - apply sumSafe_Ok in Hs as ->. rewrite <- E1, map_map. lia.
Qed.

(** What a lock freezes: the snapshots are the sources themselves in a
    canonical order, numbered from zero, their total is the sum of the
    payable minutes, and any reordering of the same sources (distinct type
    and identifier) gives the same snapshots, total and aggregate hash. *)
Theorem materializeLockedSnapshots_canonical tenantId periodId sources snapshots :
  materializeLockedSnapshots tenantId periodId sources = Ok snapshots ->
  (map le_source (sn_entries snapshots) ≡ₚ sources /\
   map le_sequence (sn_entries snapshots) = map Z.of_nat (seq 0 (length sources)) /\
   sn_totalPayableMinutes snapshots = foldr Z.add 0 (map ls_payableMinutes
     (map le_source (sn_entries snapshots)))) /\
  (NoDup (map sourceKey sources) -> forall sources', sources' ≡ₚ sources ->
   materializeLockedSnapshots tenantId periodId sources' = Ok snapshots).
Proof.
  intros Hm. split; [by destruct (materializeLockedSnapshots_Ok _ _ _ _ Hm) as (? & ? & ? & _)|].
  intros Hnd sources' Hp. rewrite <- Hm. unfold materializeLockedSnapshots in *.
  apply Result_bind_Ok in Hm as (timed & Ht & _).
  fold (timedSources sources) in Ht |- *. fold (timedSources sources').
  destruct (mapM_Permutation _ _ _ _ (symmetry Hp) Ht) as (timed' & Ht' & Hpt).
  fold (timedSources sources') in Ht'. rewrite Ht, Ht'. cbn [mbind Result_bind].
  rewrite (sortBy_unique compareSources timed timed'); [done| |done].
  by eapply compareSources_inj.
Qed.
End Lock.

(** ** The export file is read back *)

(** Where a reader of quoted, comma-separated rows stands. *)
Inductive CsvState := RowStart | CellStart | InCell (cell : list ascii) | AfterQuote (cell : list ascii).

(** A reader of such rows, each ended by a newline; [row] holds the cells of
    the current row, last first. *)
Fixpoint readRows (st : CsvState) (row : list string) (l : list ascii) : option (list (list string)) :=
  match st, l with
  | RowStart, [] => Some []
  | RowStart, c :: l' | CellStart, c :: l' =>
      if bool_decide (c = dquote) then readRows (InCell []) row l' else None
  | InCell cell, c :: l' =>
      if bool_decide (c = dquote) then readRows (AfterQuote cell) row l'
      else readRows (InCell (c :: cell)) row l'
  | AfterQuote cell, c :: l' =>
      if bool_decide (c = dquote) then readRows (InCell (dquote :: cell)) row l'
      else if bool_decide (c = ","%char) then readRows CellStart (ofChars (reverse cell) :: row) l'
      else if bool_decide (c = newline) then
        rows ← readRows RowStart [] l'; Some (reverse (ofChars (reverse cell) :: row) :: rows)
      else None
  | _, [] => None
  end.

Definition readCsv (text : string) : option (list (list string)) := readRows RowStart [] (chars text).

Lemma readRows_cell cell acc row rest :
  readRows (InCell acc) row
    (flat_map (fun c => if bool_decide (c = dquote) then [dquote; dquote] else [c]) cell ++ dquote :: rest)
  = readRows (AfterQuote (reverse cell ++ acc)) row rest.
Proof.
  revert acc. induction cell as [|c cell IH]; intros acc.
  - cbn [flat_map app]. cbn [readRows]. by rewrite bool_decide_true.
  - cbn [flat_map]. rewrite reverse_cons, <- !app_assoc. case_bool_decide as Hc; cbn [app].
    + cbn [readRows]. rewrite !bool_decide_true by done. rewrite IH. by rewrite Hc.
    + cbn [readRows]. rewrite bool_decide_false by done. by rewrite IH.
Qed.

Lemma readRows_quoted st cell row rest :
  st = RowStart \/ st = CellStart ->
  readRows st row (chars (quoteCell cell) ++ rest) = readRows (AfterQuote (reverse (chars cell))) row rest.
Proof.
  intros Hst. unfold quoteCell. rewrite chars_ofChars, <- app_comm_cons, <- app_assoc. cbn [app].
  destruct Hst as [->| ->]; cbn [readRows]; rewrite bool_decide_true by done;
    by rewrite readRows_cell, app_nil_r.
Qed.

Lemma reverse_chars cell : ofChars (reverse (reverse (chars cell))) = cell.
Proof. by rewrite reverse_involutive, ofChars_chars. Qed.

Lemma joinWith_cons2 sep x y l : joinWith sep (x :: y :: l) = x +:+ sep +:+ joinWith sep (y :: l).
Proof.
  unfold joinWith. cbn [fold_left]. rewrite <- !strapp_assoc.
  generalize (x +:+ sep). intros p. revert y p. induction l as [|z l IH]; intros y p; [done|].
  cbn [fold_left]. rewrite <- IH. by rewrite !strapp_assoc.
Qed.

Lemma readRows_row st row cells rest rows :
  st = RowStart \/ st = CellStart -> cells <> [] -> readRows RowStart [] rest = Some rows ->
  readRows st row (chars (csvRow cells) ++ newline :: rest) = Some ((reverse row ++ cells) :: rows).
Proof.
  unfold csvRow. intros Hst Hne Hrest. revert st row Hst. induction cells as [|c cells IH]; [done|].
  intros st row Hst. destruct cells as [|d cells].
  - cbn [map joinWith fold_left]. rewrite readRows_quoted by done. cbn [readRows].
    rewrite !bool_decide_false, bool_decide_true by done. rewrite Hrest. cbn [mbind option_bind].
    by rewrite reverse_cons, reverse_chars.
  - cbn [map]. rewrite joinWith_cons2, !chars_app, <- !app_assoc, readRows_quoted by done.
    change (chars ",") with [","%char]. cbn [app readRows].
    rewrite bool_decide_false, bool_decide_true by done.
    change (quoteCell d :: map quoteCell cells) with (map quoteCell (d :: cells)).
    rewrite IH by (done || by right). by rewrite reverse_cons, reverse_chars, <- app_assoc.
Qed.

Definition rowsText (rows : list (list string)) : string :=
  if (0 <? length (map csvRow rows))%nat
  then joinWith (String newline "") (map csvRow rows) +:+ String newline "" else "".

Lemma readCsv_rows rows : Forall (fun r => r <> []) rows -> readCsv (rowsText rows) = Some rows.
Proof.
  unfold readCsv, rowsText. intros Hne. induction Hne as [|r rows Hr Hne IH]; [done|].
  rewrite length_map in *. cbn [length]. rewrite (proj2 (Nat.ltb_lt 0 _)) by lia.
  destruct rows as [|r2 rows].
  - cbn [map joinWith fold_left]. rewrite chars_app. change (chars (String newline "")) with [newline].
    by rewrite (readRows_row _ _ _ _ []) by auto.
  - cbn [map]. rewrite joinWith_cons2, !chars_app, <- !app_assoc. change (chars (String newline "")) with [newline].
    cbn [app]. apply (readRows_row RowStart []); [by left|done|].
    cbn [length] in IH. rewrite (proj2 (Nat.ltb_lt 0 _)) in IH by lia.
    rewrite chars_app in IH. exact IH.
Qed.

#[global] Instance compareLines_comparator : Comparator compareLines.
Proof.
  apply (Comparator_orElse (fun l r : PayrollCsvLine => cl_lineNumber l - cl_lineNumber r));
    [apply (Comparator_sub cl_lineNumber)|apply (Comparator_text cl_id)].
Qed.

Lemma lineSequenceOk_numbers ordered :
  lineSequenceOk ordered = true ->
  map cl_lineNumber ordered = map (fun i => Z.of_nat i + 1) (seq 0 (length ordered)).
Proof.
  unfold lineSequenceOk. rewrite forallb_forall. intros H. apply list_eq. intros i.
  rewrite !list_lookup_fmap. destruct (ordered !! i) as [l|] eqn:E.
  - pose proof (lookup_lt_Some _ _ _ E). rewrite (lookup_seq_lt 0) by done. cbn. f_equal.
    apply (Z.eqb_eq (cl_lineNumber l)). apply (H (i, l)). apply list_elem_of_In, elem_of_lookup_imap.
    by exists i, l.
  - apply lookup_ge_None in E. by rewrite (lookup_seq_ge 0) by done.
Qed.

Lemma csvCells_ne line cells : csvCells line = Ok cells -> cells <> [].
Proof. unfold csvCells. intros H. inv_ok. by subst. Qed.

(** The export file is faithful whatever the text of its cells (quotes,
    commas and line breaks included): after the header, a reader of quoted
    comma-separated rows gets exactly the cells of the lines, in line-number
    order 1, 2, 3, ... *)
Theorem buildPayrollCsv_reads_back lines text :
  buildPayrollCsv lines = Ok text ->
  exists ordered body rows, ordered ≡ₚ lines /\
    map cl_lineNumber ordered = map (fun i => Z.of_nat i + 1) (seq 0 (length lines)) /\
    text = csvHeader +:+ String newline body /\ readCsv body = Some rows /\
    Forall2 (fun line cells => csvCells line = Ok cells) ordered rows.
Proof.
  unfold buildPayrollCsv. set (ordered := sortBy compareLines lines).
  assert (Hp : ordered ≡ₚ lines) by apply sortBy_perm. destruct (lineSequenceOk ordered) eqn:Hseq; [|done].
  cbn [negb]. intros (rows & Hr & [= <-])%Result_bind_Ok. apply mapM_Ok_Forall2 in Hr.
  exists ordered, (rowsText rows), rows. split_and!; [done| |done| |done].
  - rewrite <- Hp. by apply lineSequenceOk_numbers.
  - apply readCsv_rows. clear -Hr. induction Hr; constructor; [by eapply csvCells_ne|done].
Qed.

(** ** Reconciliation *)

Lemma setSize_NoDup (l : list string) : setSize l = length l <-> NoDup l.
Proof.
  unfold setSize. split.
  - induction l as [|x l IH]; [constructor|]. cbn [remove_dups].
    assert (Hle : (length (remove_dups l) <= length l)%nat).
    { clear. induction l as [|y l IH]; cbn [remove_dups]; [done|]. case_decide; cbn; lia. }
    case_decide as Hin; cbn [length]; intros Hlen; [lia|].
    constructor; [done|]. apply IH. lia.
  - induction 1 as [|x l Hx Hl IH]; [done|]. cbn [remove_dups].
    case_decide; [done|]. cbn. by rewrite IH.
Qed.

Lemma normalizeOutcome_status o o' :
  normalizeOutcome o = Ok o' -> oc_status o' = oc_status o.
Proof. unfold normalizeOutcome. intros H. inv_ok. by subst. Qed.

Lemma countStatus_total payload :
  (countStatus ACCEPTED payload + countStatus REJECTED payload + countStatus PENDING payload)%nat =
  length (rc_outcomes payload).
Proof.
  unfold countStatus. induction (rc_outcomes payload) as [|o l IH]; [done|]. cbn [List.filter].
  destruct (oc_status o) eqn:E; repeat case_bool_decide; try done; cbn [length]; lia.
Qed.

(** An accepted reconciliation has between 1 and 500 outcomes with
    distinct line identifiers in increasing order, as many as were submitted,
    and its accepted, rejected and pending counts add up to all of them;
    repeated lines are always refused. *)
Theorem normalizeReconciliation_sound value payload :
  normalizeReconciliation value = Ok payload ->
  let '(accepted, rejected, pending) := reconciliationCounts payload in
  1 <= Z.of_nat (length (rc_outcomes payload)) <= MAX_RECONCILIATION_OUTCOMES /\
  length (rc_outcomes payload) = length (rc_outcomes value) /\
  NoDup (map oc_lineId (rc_outcomes payload)) /\
  StronglySorted (fun a b => compareText (oc_lineId a) (oc_lineId b) <= 0) (rc_outcomes payload) /\
  map oc_status (rc_outcomes payload) ≡ₚ map oc_status (rc_outcomes value) /\
  (accepted + rejected + pending)%nat = length (rc_outcomes payload).
Proof.
  unfold normalizeReconciliation, payrollProblem. intros H. inv_ok. subst payload. bools.
  cbn [rc_outcomes reconciliationCounts].
  match goal with H : mapM normalizeOutcome _ = Ok ?l |- _ => rename H into Hm; rename l into normalized end.
  apply mapM_Ok_Forall2 in Hm. pose proof (Forall2_length _ _ _ Hm) as Hlen.
  split_and!.
  - rewrite sortBy_length, <- Hlen. lia.
  - rewrite sortBy_length, <- Hlen. lia.
  - by rewrite sortBy_length, <- Hlen.
  - apply setSize_NoDup. rewrite length_map. assumption.
  - apply sortBy_sorted. apply (Comparator_text oc_lineId).
  - rewrite sortBy_perm. clear -Hm. induction Hm as [|o o' l l' Ho Hm IH]; [done|].
    cbn. by rewrite IH, (normalizeOutcome_status _ _ Ho).
  - apply (countStatus_total (mkReconciliation _ _ _ _)).
Qed.

(** ** The retry *)

(** A serializable mutation runs once, or a second and last time when its
    first run failed with a serialization conflict; the caller gets the outcome
    of the last run, whatever it is, and never the internal limit error. *)
Theorem retryPayrollSerializableMutation_twice {S A} (operation : S -> Result A * S) (s : S) :
  retryPayrollSerializableMutation operation s =
  match operation s with
  | (Throw e, s') => if isSerializationConflict e then operation s' else (Throw e, s')
  | done => done
  end.
Proof.
  unfold retryPayrollSerializableMutation. cbn [retryLoop].
  destruct (operation s) as [[a|e] s1]; [done|]. cbn [Nat.eqb andb].
  destruct (isSerializationConflict e); [|done]. by destruct (operation s1) as [[a|e'] s2].
Qed.

(** ** Candidate cards *)

(** The card touches the period: assigned to it, or live and overlapping it. *)
Definition touchesPeriod (period : PayrollPeriodWindow) (card : PayrollCandidateCard) : Prop :=
  pc_payrollPeriodId card = Some (pw_id period) \/
  (pc_deletedAt card = None /\ pc_clockInAt card < pw_endsAt period /\
   forall out, pc_clockOutAt card = Some out -> pw_startsAt period < out).

(** The card can be paid in the period. *)
Definition payableIn (period : PayrollPeriodWindow) (card : PayrollCandidateCard) : Prop :=
  pc_status card = CLOSED /\ pc_deletedAt card = None /\
  pc_payrollPeriodId card = Some (pw_id period) /\
  exists out, pc_clockOutAt card = Some out /\
    pw_startsAt period <= pc_clockInAt card /\ out <= pw_endsAt period.

Lemma isCandidate_touches tenantId period card :
  pc_tenantId card = tenantId -> touchesPeriod period card -> isCandidate tenantId period card = true.
Proof.
  intros Ht Hc. unfold isCandidate, isAssigned. rewrite bool_decide_true by done. cbn [andb].
  destruct Hc as [Hc|(Hd & Hi & Ho)]; [by rewrite bool_decide_true|].
  apply orb_true_iff. right. rewrite Hd, bool_decide_false by by intros [].
  cbn [negb andb]. rewrite (proj2 (Z.ltb_lt _ _) Hi). cbn [andb].
  destruct (pc_clockOutAt card) as [o|]; [|done]. by apply Z.ltb_lt, Ho.
Qed.

Lemma lockPayrollCandidateCards_all `{LocaleCompare} timeCards tenantId period cards card :
  lockPayrollCandidateCards timeCards tenantId period = Ok cards ->
  card ∈ timeCards -> pc_tenantId card = tenantId -> touchesPeriod period card -> card ∈ cards.
Proof.
  unfold lockPayrollCandidateCards. destruct (_ <? _) eqn:Hn; [done|]. bools. intros [= <-] Hin Ht Hc.
  rewrite length_take in Hn. rewrite take_ge.
  - apply sortBy_elem, list_elem_of_In, filter_In. split; [by apply list_elem_of_In|].
    by apply isCandidate_touches.
  - unfold MAX_PAYROLL_LOCK_ENTRIES in *. lia.
Qed.

Lemma existsb_false {A} (p : A -> bool) l : existsb p l = false -> forall x, x ∈ l -> p x = false.
Proof.
  intros H x Hx%list_elem_of_In. destruct (p x) eqn:E; [|done].
  rewrite <- H. symmetry. apply existsb_exists. by exists x.
Qed.

Lemma validatePayrollCandidateCards_payable `{Intl} cards period assigned card :
  validatePayrollCandidateCards cards period = Ok assigned -> card ∈ cards ->
  card ∈ assigned /\ payableIn period card.
Proof.
  unfold validatePayrollCandidateCards, payrollConflict. intros H0 Hin. inv_ok. subst assigned.
  repeat match goal with H : existsb _ _ = false |- _ => pose proof (existsb_false _ _ H); clear H end; cbv beta in *.
  match goal with H : forall x, x ∈ cards -> negb _ = false |- _ =>
    pose proof (H card Hin) as Ha; apply negb_false_iff in Ha end.
  assert (Hc : card ∈ List.filter (isAssigned period) cards).
  { apply list_elem_of_In, filter_In. split; [by apply list_elem_of_In|done]. }
  split; [done|].
  match goal with H : forall x, x ∈ List.filter _ _ -> outsidePeriod _ _ = false |- _ =>
    specialize (H card Hc); rename H into Hout end.
  match goal with H : forall x, x ∈ cards -> bool_decide _ || _ = false |- _ =>
    specialize (H card Hin); apply orb_false_iff in H as [_ Hdel] end.
  unfold outsidePeriod in Hout. apply orb_false_iff in Hout as [Hst Hout]. bools.
  split; [done|]. split; [|split].
  - destruct (pc_deletedAt card); [|done]. destruct Hdel. by eexists.
  - unfold isAssigned in Ha. by bools.
  - destruct (pc_clockOutAt card) as [o|]; [|done]. exists o. split; [done|]. bool_lia.
Qed.

(** A period whose candidate cards pass the check has no card left out or
    half in: every time card of the tenant that is assigned to the period or
    overlaps it while not deleted is among the returned ones, and every
    returned card is closed, not deleted, assigned to this period and wholly
    inside it. *)
Theorem candidateCards_complete `{LocaleCompare, Intl} timeCards tenantId period cards assigned :
  lockPayrollCandidateCards timeCards tenantId period = Ok cards ->
  validatePayrollCandidateCards cards period = Ok assigned ->
  (forall card, card ∈ timeCards -> pc_tenantId card = tenantId -> touchesPeriod period card ->
     card ∈ assigned) /\
  Forall (payableIn period) assigned.
Proof.
  intros Hl Hv. split.
  - intros card Hin Ht Hc. eapply validatePayrollCandidateCards_payable; [done|].
    by eapply lockPayrollCandidateCards_all.
  - apply Forall_forall. intros card Hin. eapply validatePayrollCandidateCards_payable; [exact Hv|].
    assert (Ha : assigned = List.filter (isAssigned period) cards).
    { unfold validatePayrollCandidateCards, payrollConflict in Hv. inv_ok. done. }
    rewrite Ha in Hin. apply list_elem_of_In, filter_In in Hin as [Hin _]. by apply list_elem_of_In.
Qed.

(** ** Summary counts *)

Definition approvalKey (a : ApprovalRow) : string * string * Z :=
  (ap_tenantId a, ap_timeCardId a, ap_timeCardRevision a).

Lemma joinsApproval_key tenantId periodId card a :
  joinsApproval tenantId periodId card a = true -> approvalKey a = (tenantId, pc_id card, pc_revision card).
Proof.
  unfold joinsApproval, approvalKey. rewrite !andb_true_iff, !bool_decide_eq_true, Z.eqb_eq.
  by intros (((-> & _) & ->) & ->).
Qed.

(** The unique index leaves a card at most one joined approval. *)
Lemma approvals_unique tenantId periodId card approvals :
  NoDup (map approvalKey approvals) ->
  List.filter (joinsApproval tenantId periodId card) approvals = [] \/
  exists a, List.filter (joinsApproval tenantId periodId card) approvals = [a].
Proof.
  induction approvals as [|a l IH]; [by left|]. cbn [map List.filter].
  rewrite NoDup_cons. intros [Hn Hnd].
  destruct (joinsApproval tenantId periodId card a) eqn:Ea; [|by apply IH].
  right. exists a. f_equal. destruct (IH Hnd) as [->|[b Hb]]; [done|]. exfalso. apply Hn.
  assert (Hin : In b (List.filter (joinsApproval tenantId periodId card) l)) by (rewrite Hb; by left).
  apply filter_In in Hin as [Hin Hjb]. rewrite (joinsApproval_key _ _ _ _ Ea).
  rewrite <- (joinsApproval_key _ _ _ _ Hjb). apply list_elem_of_fmap_2. by apply list_elem_of_In.
Qed.

Definition decisionOf (tables : SummaryTables) (tenantId periodId : string) (card : PayrollCandidateCard)
    : option ApprovalRow := hd_error (List.filter (joinsApproval tenantId periodId card) (tb_approvals tables)).

Lemma cardRows_one tables tenantId periodId :
  NoDup (map approvalKey (tb_approvals tables)) ->
  cardRows tables tenantId periodId =
  map (fun card => (card, decisionOf tables tenantId periodId card))
    (List.filter (joinsCard tenantId periodId) (tb_cards tables)).
Proof.
  intros Hu. unfold cardRows. induction (List.filter (joinsCard _ _) _) as [|card l IH]; [done|].
  cbn [flat_map map]. rewrite IH.
  assert (Hj : joinedRows tables tenantId periodId card = [(card, decisionOf tables tenantId periodId card)]).
  { unfold joinedRows, decisionOf. by destruct (approvals_unique tenantId periodId card _ Hu) as [->|[a ->]]. }
  by rewrite Hj.
Qed.

(** Cards that await a decision at their current revision. *)
Definition awaitsDecision (tables : SummaryTables) (tenantId periodId : string)
    (card : PayrollCandidateCard) : bool :=
  bool_decide (pc_status card = CLOSED)
  && negb (bool_decide (is_Some (decisionOf tables tenantId periodId card))).

(** The summary counts cards, not rows of the join: given the unique index
    on approvals, and decisions recorded for closed cards only, the card count
    is the number of live cards of the period, the pending count is the number
    of closed cards with no decision at their current revision, and the
    approved, rejected and pending counts add up to the closed cards. *)
Theorem periodSummary_counts tables tenantId periodId :
  let cards := List.filter (joinsCard tenantId periodId) (tb_cards tables) in
  let summary := periodSummary tables tenantId periodId in
  NoDup (map approvalKey (tb_approvals tables)) ->
  Forall (fun card => is_Some (decisionOf tables tenantId periodId card) -> pc_status card = CLOSED) cards ->
  su_cardCount summary = Z.of_nat (length cards) /\
  su_pendingCardCount summary = countWhere (awaitsDecision tables tenantId periodId) cards /\
  su_approvedCardCount summary + su_rejectedCardCount summary + su_pendingCardCount summary =
    su_closedCardCount summary.
Proof.
  intros cards summary Hu Hc. subst summary. unfold periodSummary.
  cbn [su_cardCount su_pendingCardCount su_approvedCardCount su_rejectedCardCount su_closedCardCount].
  rewrite cardRows_one by done. fold cards. clearbody cards. rewrite length_map. split; [done|].
  unfold countWhere.
  assert (H : Z.of_nat (length (List.filter (awaitsDecision tables tenantId periodId) cards)) =
    Z.of_nat (length (List.filter (fun r : PayrollCandidateCard * option ApprovalRow => bool_decide (pc_status r.1 = CLOSED))
      (map (fun card => (card, decisionOf tables tenantId periodId card)) cards)))
    - Z.of_nat (length (List.filter (fun r : PayrollCandidateCard * option ApprovalRow => decidedAs APPROVED_D r.2)
      (map (fun card => (card, decisionOf tables tenantId periodId card)) cards)))
    - Z.of_nat (length (List.filter (fun r : PayrollCandidateCard * option ApprovalRow => decidedAs REJECTED_D r.2)
      (map (fun card => (card, decisionOf tables tenantId periodId card)) cards)))).
  { induction Hc as [|card l Hcl Hc IH]; [done|]. cbn [map List.filter fst snd]. unfold awaitsDecision at 1.
    destruct (decisionOf tables tenantId periodId card) as [a|]; cbn [decidedAs].
    - rewrite (bool_decide_true (pc_status card = CLOSED)) by by apply Hcl.
      rewrite (bool_decide_true (is_Some _)) by done. cbn [andb negb].
      destruct (ap_decision a); repeat case_bool_decide; try done; cbn [length]; lia.
    - rewrite (bool_decide_false (is_Some _)) by by intros []. rewrite andb_true_r.
      case_bool_decide; cbn [length]; lia. }
  lia.
Qed.

(** ** Concrete instances *)

(** A digest function of the right shape for the examples. *)
Definition sampleDigest : Sha256 := fun s => padDigits 64 (strLen s).

Definition sampleSource (employee card : string) (clockIn minutes : Z) : LockedEntrySource :=
  mkSource "TIME_CARD" card 1 employee None "UTC" (DDate (Some clockIn))
    (DDate (Some (clockIn + minutes * 60000))) 0 minutes (DDate (Some 1768800000000)) "manager" None.

Definition sampleSources : list LockedEntrySource :=
  [sampleSource "e2" "c1" 1768471200000 480; sampleSource "e1" "c3" 1768557600000 240;
   sampleSource "e1" "c2" 1768471200000 300].

Definition okResult {A} (d : A) (r : Result A) : A := match r with Ok a => a | Throw _ => d end.

Lemma materializeLockedSnapshots_canonical_witness :
  let lock := @materializeLockedSnapshots codeUnitCollation sampleDigest "t" "p" in
  let snapshots := okResult (mkSnapshots [] 0 "") (lock sampleSources) in
  sn_totalPayableMinutes snapshots = 1020 /\ lock (reverse sampleSources) = Ok snapshots.
Proof.
  cbv zeta. split; [vm_compute; reflexivity|].
  refine (proj2 (@materializeLockedSnapshots_canonical codeUnitCollation sampleDigest "t" "p" sampleSources
    (okResult (mkSnapshots [] 0 "") (@materializeLockedSnapshots codeUnitCollation sampleDigest "t" "p" sampleSources)) _)
    _ _ (reverse_Permutation _)).
  - vm_compute. reflexivity.
  - apply (bool_decide_eq_true_1 _). vm_compute. reflexivity.
Defined.

Definition sampleLine (number : Z) (zone : string) : PayrollCsvLine :=
  mkCsvLine ("line" +:+ showZ number) number "TIME_CARD" "card" "employee" None zone
    (DText "2026-01-15T08:00:00.000Z") (DDate (Some 1768492800000)) 30 450.

Lemma buildPayrollCsv_reads_back_witness :
  let lines := [sampleLine 2 "UTC"; sampleLine 1 (ofChars ["a"%char; dquote; ","%char; newline])] in
  exists ordered body rows, ordered ≡ₚ lines /\
    map cl_lineNumber ordered = map (fun i => Z.of_nat i + 1) (seq 0 (length lines)) /\
    okResult "" (buildPayrollCsv lines) = csvHeader +:+ String newline body /\ readCsv body = Some rows /\
    Forall2 (fun line cells => csvCells line = Ok cells) ordered rows.
Proof. cbv zeta. apply buildPayrollCsv_reads_back. vm_compute. reflexivity. Defined.

Definition sampleReconciliation : ReconciliationPayload :=
  mkReconciliation " Provider " "event-1" 480
    [mkOutcome "line_b" ACCEPTED None; mkOutcome " line_a " REJECTED (Some "late")].

Lemma normalizeReconciliation_sound_witness :
  let payload := okResult sampleReconciliation (normalizeReconciliation sampleReconciliation) in
  let '(accepted, rejected, pending) := reconciliationCounts payload in
  1 <= Z.of_nat (length (rc_outcomes payload)) <= MAX_RECONCILIATION_OUTCOMES /\
  length (rc_outcomes payload) = length (rc_outcomes sampleReconciliation) /\
  NoDup (map oc_lineId (rc_outcomes payload)) /\
  StronglySorted (fun a b => compareText (oc_lineId a) (oc_lineId b) <= 0) (rc_outcomes payload) /\
  map oc_status (rc_outcomes payload) ≡ₚ map oc_status (rc_outcomes sampleReconciliation) /\
  (accepted + rejected + pending)%nat = length (rc_outcomes payload).
Proof. cbv zeta. apply normalizeReconciliation_sound. vm_compute. reflexivity. Defined.

Definition sampleWindow : PayrollPeriodWindow := mkWindow "p1" 1768262400000 1769472000000.
Definition sampleCard (id : string) (period : option string) (clockIn : Z) : PayrollCandidateCard :=
  mkCard id "t1" "u1" None period "UTC" 1 clockIn (Some (clockIn + 28800000)) 30 CLOSED None.
Definition sampleCards : list PayrollCandidateCard :=
  [sampleCard "c2" (Some "p1") 1768471200000; sampleCard "c1" (Some "p1") 1768384800000;
   sampleCard "c0" None 1767000000000].

Lemma candidateCards_complete_witness :
  let cards := okResult [] (@lockPayrollCandidateCards codeUnitCollation sampleCards "t1" sampleWindow) in
  let assigned := okResult [] (@validatePayrollCandidateCards (fixedZone 0) cards sampleWindow) in
  (forall card, card ∈ sampleCards -> pc_tenantId card = "t1" -> touchesPeriod sampleWindow card ->
     card ∈ assigned) /\
  Forall (payableIn sampleWindow) assigned.
Proof.
  cbv zeta. apply (@candidateCards_complete codeUnitCollation (fixedZone 0) sampleCards "t1" sampleWindow
    (okResult [] (@lockPayrollCandidateCards codeUnitCollation sampleCards "t1" sampleWindow)));
    vm_compute; reflexivity.
Defined.

Definition sampleTables : SummaryTables :=
  mkTables [("t1", "p1")] sampleCards [mkApproval "t1" "p1" "c1" 1 APPROVED_D] [] [].

Lemma periodSummary_counts_witness :
  let cards := List.filter (joinsCard "t1" "p1") (tb_cards sampleTables) in
  let summary := periodSummary sampleTables "t1" "p1" in
  su_cardCount summary = Z.of_nat (length cards) /\
  su_pendingCardCount summary = countWhere (awaitsDecision sampleTables "t1" "p1") cards /\
  su_approvedCardCount summary + su_rejectedCardCount summary + su_pendingCardCount summary =
    su_closedCardCount summary.
Proof.
  cbv zeta. apply periodSummary_counts.
  - apply NoDup_singleton.
  - repeat constructor.
Defined.
