(* ===== verification/JsDecoding.v ===== *)
(** * Texts read back from bytes

    [JSON.parse(Buffer.from(text, 'base64url').toString('utf8'))], which reads
    the cursor of a page: base64 in either alphabet with every other character
    ignored, UTF-8 with U+FFFD for what is malformed, and the JSON grammar over
    code points.  A number keeps its decimal value; the sources only ask which
    safe integer it reads as.  What [JSON.stringify] and the encoder write is
    read back. *)

From S2P Require Import Prelude JsStd JsCollections JsDate ContractHelpers PayrollRecords JsEncoding.

(** ** Base64 *)

Definition base64Value (c : ascii) : option Z :=
  let n := codeUnit c in
  if (65 <=? n) && (n <=? 90) then Some (n - 65)
  else if (97 <=? n) && (n <=? 122) then Some (n - 71)
  else if (48 <=? n) && (n <=? 57) then Some (n + 4)
  else if (n =? 43) || (n =? 45) then Some 62
  else if (n =? 47) || (n =? 95) then Some 63
  else None.

(** Groups of four sextets; a single one left over is dropped. *)
Fixpoint sextetBytes (sextets : list Z) : list Z :=
  match sextets with
  | a :: b :: c :: d :: rest =>
      [a * 4 + b / 16; b mod 16 * 16 + c / 4; c mod 4 * 64 + d] ++ sextetBytes rest
  | [a; b; c] => [a * 4 + b / 16; b mod 16 * 16 + c / 4]
  | [a; b] => [a * 4 + b / 16]
  | _ => []
  end.

Definition base64Bytes (s : string) : list Z := sextetBytes (omap base64Value (chars s)).

(** ** UTF-8 *)

(** Inside a sequence: the bytes that are still needed, the bits so far, and
    the range of the next byte. *)
Record Utf8State := mkUtf8 { uf_needed : nat; uf_bits : Z; uf_lower : Z; uf_upper : Z }.

(** A byte outside a sequence. *)
Definition utf8Start (b : Z) : list Z * option Utf8State :=
  if b <? 128 then ([b], None)
  else if (194 <=? b) && (b <=? 223) then ([], Some (mkUtf8 1 (b - 192) 128 191))
  else if b =? 224 then ([], Some (mkUtf8 2 0 160 191))
  else if b =? 237 then ([], Some (mkUtf8 2 13 128 159))
  else if (225 <=? b) && (b <=? 239) then ([], Some (mkUtf8 2 (b - 224) 128 191))
  else if b =? 240 then ([], Some (mkUtf8 3 0 144 191))
  else if b =? 244 then ([], Some (mkUtf8 3 4 128 143))
  else if (241 <=? b) && (b <=? 243) then ([], Some (mkUtf8 3 (b - 240) 128 191))
  else ([65533], None).

Fixpoint utf8Decode (state : option Utf8State) (bytes : list Z) : list Z :=
  match bytes with
  | [] => match state with Some _ => [65533] | None => [] end
  | b :: rest =>
      match state with
      | Some s =>
          if (uf_lower s <=? b) && (b <=? uf_upper s) then
            let bits := uf_bits s * 64 + (b - 128) in
            match uf_needed s with
            | S (S n) => utf8Decode (Some (mkUtf8 (S n) bits 128 191)) rest
            | _ => bits :: utf8Decode None rest
            end
          else 65533 :: (utf8Start b).1 ++ utf8Decode (utf8Start b).2 rest
      | None => (utf8Start b).1 ++ utf8Decode (utf8Start b).2 rest
      end
  end.

(** A text as code points, and back where every one is a code unit of the
    model. *)
Definition codePoints (s : string) : list Z := map codeUnit (chars s).
Definition pointsText (points : list Z) : option string :=
  if forallb (fun n => (0 <=? n) && (n <? 256)) points
  then Some (ofChars (map (fun n => ascii_of_N (Z.to_N n)) points)) else None.

(** ** JSON *)

(** A number is [mantissa * 10 ^ exponent]. *)
Inductive JsonValue :=
  | VNull
  | VBool (b : bool)
  | VNum (mantissa exponent : Z)
  | VStr (points : list Z)
  | VArr (items : list JsonValue)
  | VObj (members : list (list Z * JsonValue)).

Definition isWhitePoint (n : Z) : bool := (n =? 32) || (n =? 9) || (n =? 10) || (n =? 13).
Definition skipWhite (l : list Z) : list Z := dropWhile isWhitePoint l.

Definition isDigitPoint (n : Z) : bool := (48 <=? n) && (n <=? 57).
Definition hexPoint (n : Z) : option Z :=
  if isDigitPoint n then Some (n - 48)
  else if (65 <=? n) && (n <=? 70) then Some (n - 55)
  else if (97 <=? n) && (n <=? 102) then Some (n - 87) else None.

Definition escapedPoint (n : Z) : option Z :=
  if (n =? 34) || (n =? 92) || (n =? 47) then Some n
  else if n =? 98 then Some 8 else if n =? 102 then Some 12 else if n =? 110 then Some 10
  else if n =? 114 then Some 13 else if n =? 116 then Some 9 else None.

(** The characters of a string, after its opening quote. *)
Fixpoint parseCharacters (l : list Z) : option (list Z * list Z) :=
  match l with
  | [] => None
  | c :: rest =>
      if c =? 34 then Some ([], rest)
      else if c <? 32 then None
      else if c =? 92 then
        match rest with
        | e :: more =>
            if e =? 117 then
              match more with
              | h1 :: h2 :: h3 :: h4 :: more' =>
                  a ← hexPoint h1; b ← hexPoint h2; c ← hexPoint h3; d ← hexPoint h4;
                  '(s, r) ← parseCharacters more';
                  Some (((a * 16 + b) * 16 + c) * 16 + d :: s, r)
              | _ => None
              end
            else p ← escapedPoint e; '(s, r) ← parseCharacters more; Some (p :: s, r)
        | [] => None
        end
      else '(s, r) ← parseCharacters rest; Some (c :: s, r)
  end.

(** The longest run of digits, most significant first. *)
Fixpoint spanDigits (l : list Z) : list Z * list Z :=
  match l with
  | c :: rest => if isDigitPoint c then let '(ds, r) := spanDigits rest in (c - 48 :: ds, r) else ([], l)
  | [] => ([], [])
  end.
Definition decimal (ds : list Z) : Z := fold_left (fun acc d => acc * 10 + d) ds 0.

(** Digits without leading zeros, a fraction and an exponent. *)
Definition parseUnsigned (l : list Z) : option (Z * Z * list Z) :=
  let '(whole, l) := spanDigits l in
  if match whole with [] => true | d :: more => (d =? 0) && negb (bool_decide (more = [])) end then None else
  '(fraction, l) ← match l with
                   | c :: r => if c =? 46 then let '(ds, r) := spanDigits r in if bool_decide (ds = []) then None else Some (ds, r)
                               else Some ([], l)
                   | [] => Some ([], [])
                   end;
  '(exponent, l) ← match l with
                   | c :: r =>
                       if (c =? 101) || (c =? 69) then
                         let '(sign, r) := match r with
                                           | s :: r' => if s =? 45 then (-1, r') else if s =? 43 then (1, r') else (1, r)
                                           | [] => (1, r)
                                           end in
                         let '(ds, r) := spanDigits r in if bool_decide (ds = []) then None else Some (sign * decimal ds, r)
                       else Some (0, l)
                   | [] => Some (0, [])
                   end;
  Some (decimal (whole ++ fraction), exponent - Z.of_nat (length fraction), l).

Definition parseNumber (l : list Z) : option (JsonValue * list Z) :=
  match l with
  | c :: r =>
      if c =? 45 then '(m, e, rest) ← parseUnsigned r; Some (VNum (- m) e, rest)
      else '(m, e, rest) ← parseUnsigned l; Some (VNum m e, rest)
  | [] => None
  end.

Definition expectPoint (c : Z) (l : list Z) : option (list Z) :=
  match l with d :: rest => if d =? c then Some rest else None | [] => None end.

Fixpoint expectPoints (word : list Z) (l : list Z) : option (list Z) :=
  match word with [] => Some l | c :: word' => rest ← expectPoint c l; expectPoints word' rest end.

(** A value, the members of an object and the items of an array, each after
    white space; the fuel bounds the nesting of calls. *)
Fixpoint parseValue (fuel : nat) (l : list Z) : option (JsonValue * list Z) :=
  match fuel with
  | O => None
  | S fuel =>
      match skipWhite l with
      | [] => None
      | c :: rest =>
          if c =? 123 then
            match expectPoint 125 (skipWhite rest) with
            | Some rest => Some (VObj [], rest)
            | None => '(members, rest) ← parseMembers fuel rest; Some (VObj members, rest)
            end
          else if c =? 91 then
            match expectPoint 93 (skipWhite rest) with
            | Some rest => Some (VArr [], rest)
            | None => '(items, rest) ← parseItems fuel rest; Some (VArr items, rest)
            end
          else if c =? 34 then '(s, rest) ← parseCharacters rest; Some (VStr s, rest)
          else if c =? 110 then rest ← expectPoints (codePoints "ull") rest; Some (VNull, rest)
          else if c =? 116 then rest ← expectPoints (codePoints "rue") rest; Some (VBool true, rest)
          else if c =? 102 then rest ← expectPoints (codePoints "alse") rest; Some (VBool false, rest)
          else parseNumber (c :: rest)
      end
  end
with parseMembers (fuel : nat) (l : list Z) : option (list (list Z * JsonValue) * list Z) :=
  match fuel with
  | O => None
  | S fuel =>
      rest ← expectPoint 34 (skipWhite l);
      '(key, rest) ← parseCharacters rest;
      rest ← expectPoint 58 (skipWhite rest);
      '(v, rest) ← parseValue fuel rest;
      match skipWhite rest with
      | c :: rest =>
          if c =? 44 then '(members, rest) ← parseMembers fuel rest; Some ((key, v) :: members, rest)
          else if c =? 125 then Some ([(key, v)], rest) else None
      | [] => None
      end
  end
with parseItems (fuel : nat) (l : list Z) : option (list JsonValue * list Z) :=
  match fuel with
  | O => None
  | S fuel =>
      '(v, rest) ← parseValue fuel l;
      match skipWhite rest with
      | c :: rest =>
          if c =? 44 then '(items, rest) ← parseItems fuel rest; Some (v :: items, rest)
          else if c =? 93 then Some ([v], rest) else None
      | [] => None
      end
  end.

Definition parseFuel (l : list Z) : nat := S (2 * length l).

(** [JSON.parse]: [None] where it throws. *)
Definition parseJson (l : list Z) : option JsonValue :=
  '(v, rest) ← parseValue (parseFuel l) l;
  if bool_decide (skipWhite rest = []) then Some v else None.

(** [value[key]] of a parsed value; of repeated keys the last one stays. *)
Definition memberOf (key : string) (v : JsonValue) : option JsonValue :=
  match v with
  | VObj members => snd <$> List.find (fun m => bool_decide (m.1 = codePoints key)) (rev members)
  | _ => None
  end.

(** ** The safe integer a number reads as

    The number nearest to [m * 10 ^ e] among the doubles is the integer [n],
    at most 2 ^ 53 - 1, when the value lies no further from [n] than half the
    distance to its neighbours, ties going to the even one. *)
Definition readsAsInteger (m e n : Z) : bool :=
  let num := m * 10 ^ Z.max 0 e in
  let den := 10 ^ Z.max 0 (- e) in
  if n =? 0 then num * 2 ^ 1075 <=? den
  else
    let scale := 53 - Z.log2 n in
    let power := n =? 2 ^ Z.log2 n in
    let above := (num - n * den) * 2 ^ scale in
    let below := (n * den - num) * 2 ^ (if power then scale + 1 else scale) in
    if Z.even (n * 2 ^ (scale - 1)) then (above <=? den) && (below <=? den) else (above <? den) && (below <? den).

(** [Number.isSafeInteger(value) && value >= 0], with the value. *)
Definition safeNatural (v : JsonValue) : option Z :=
  match v with
  | VNum m e =>
      if m =? 0 then Some 0
      else if m <? 0 then (if readsAsInteger (- m) e 0 then Some 0 else None)
      else if 20 <? e then None
      else
        let num := m * 10 ^ Z.max 0 e in
        let den := 10 ^ Z.max 0 (- e) in
        let n := (2 * num + den) / (2 * den) in
        List.find (fun k => (0 <=? k) && (k <=? MAX_SAFE_INTEGER) && readsAsInteger m e k) [n; n - 1]
  | _ => None
  end.

(** [JSON.parse(Buffer.from(value, 'base64url').toString('utf8'))] *)
Definition decodeJson (value : string) : option JsonValue := parseJson (utf8Decode None (base64Bytes value)).

(** ** Bytes are read back *)

Lemma base64Value_digit d : 0 <= d < 64 -> base64Value (base64Digit d) = Some d.
Proof.
  intros Hd. assert (Hall : forallb (fun n => bool_decide (base64Value (base64Digit (Z.of_nat n)) = Some (Z.of_nat n))) (seq 0 64) = true)
    by (vm_compute; reflexivity).
  rewrite forallb_forall in Hall. specialize (Hall (Z.to_nat d)). rewrite in_seq, bool_decide_eq_true in Hall.
  rewrite Z2Nat.id in Hall by lia. apply Hall. lia.
Qed.

Definition isByte (b : Z) : Prop := 0 <= b < 256.

(** Induction three bytes at a time. *)
Lemma threes_ind {A} (P : list A -> Prop) :
  P [] -> (forall a, P [a]) -> (forall a b, P [a; b]) -> (forall a b c l, P l -> P (a :: b :: c :: l)) -> forall l, P l.
Proof.
  intros H0 H1 H2 H3. fix IH 1. intros [|a [|b [|c l]]]; [exact H0|apply H1|apply H2|apply H3, IH].
Qed.

Lemma base64Sextets_range bytes : Forall isByte bytes -> Forall (fun d => 0 <= d < 64) (base64Sextets bytes).
Proof.
  unfold isByte. induction bytes as [|a|a b|a b c l IH] using threes_ind; rewrite ?Forall_cons; intros Hb; cbn [base64Sextets app];
    rewrite ?Forall_cons; destruct_and?; split_and?; try apply IH; auto; try div_lia.
Qed.

Lemma sextetBytes_sextets bytes : Forall isByte bytes -> sextetBytes (base64Sextets bytes) = bytes.
Proof.
  unfold isByte. induction bytes as [|a|a b|a b c l IH] using threes_ind; rewrite ?Forall_cons; intros Hb; cbn [base64Sextets app sextetBytes];
    [done|destruct_and?..].
  - f_equal. div_lia.
  - f_equal; [div_lia|]. f_equal. div_lia.
  - rewrite IH by done. f_equal; [div_lia|]. f_equal; [div_lia|]. f_equal. div_lia.
Qed.

Lemma base64Bytes_url bytes : Forall isByte bytes -> base64Bytes (base64url bytes) = bytes.
Proof.
  intros Hb. unfold base64Bytes, base64url. rewrite chars_ofChars.
  replace (omap base64Value (map base64Digit (base64Sextets bytes))) with (base64Sextets bytes); [by apply sextetBytes_sextets|].
  pose proof (base64Sextets_range _ Hb) as Hr. induction Hr as [|d l Hd Hl IH]; [done|]. cbn.
  by rewrite base64Value_digit, <- IH.
Qed.

Lemma codeUnit_range c : 0 <= codeUnit c < 256.
Proof. unfold codeUnit. pose proof (Ascii.N_ascii_bounded c). lia. Qed.

Lemma utf8Unit_bytes c : Forall isByte (utf8Unit c).
Proof.
  pose proof (codeUnit_range c). unfold utf8Unit, isByte. destruct (_ <? _) eqn:?; bools;
    rewrite ?Forall_cons; split_and?; try apply Forall_nil_2; try div_lia.
Qed.

Lemma utf8Bytes_bytes s : Forall isByte (utf8Bytes s).
Proof. unfold utf8Bytes. induction (chars s) as [|c l IH]; cbn; [constructor|]. apply Forall_app. split; [apply utf8Unit_bytes|done]. Qed.

Lemma utf8Decode_unit c rest : utf8Decode None (utf8Unit c ++ rest) = codeUnit c :: utf8Decode None rest.
Proof.
  pose proof (codeUnit_range c) as Hc. unfold utf8Unit. set (n := codeUnit c) in *. clearbody n. destruct (n <? 128) eqn:E; bools.
  - cbn [app utf8Decode]. unfold utf8Start. by rewrite (proj2 (Z.ltb_lt n 128)) by done.
  - cbn [app utf8Decode].
    assert (Hb : 128 <= 128 + n mod 64 <= 191) by div_lia. remember (128 + n mod 64) as b eqn:Eb.
    assert (Hd : n / 64 = 2 \/ n / 64 = 3) by div_lia.
    destruct Hd as [E64|E64]; rewrite E64; 
      [change (utf8Start (192 + 2)) with ([] : list Z, Some (mkUtf8 1 2 128 191))|change (utf8Start (192 + 3)) with ([] : list Z, Some (mkUtf8 1 3 128 191))];
      cbn -[Z.leb Z.mul Z.add Z.sub];
      rewrite (proj2 (Z.leb_le 128 b)), (proj2 (Z.leb_le b 191)) by lia; cbn -[Z.mul Z.add Z.sub]; f_equal; div_lia.
Qed.

Lemma utf8Decode_bytes s : utf8Decode None (utf8Bytes s) = codePoints s.
Proof.
  unfold utf8Bytes, codePoints. induction (chars s) as [|c l IH]; [done|]. cbn [flat_map map]. by rewrite utf8Decode_unit, IH.
Qed.

Lemma unitOf_codeUnit c : ascii_of_N (Z.to_N (codeUnit c)) = c.
Proof. unfold codeUnit. by rewrite N2Z.id, Ascii.ascii_N_embedding. Qed.

Lemma codeUnit_unitOf n : isByte n -> codeUnit (ascii_of_N (Z.to_N n)) = n.
Proof. unfold isByte, codeUnit. intros Hn. rewrite Ascii.N_ascii_embedding by lia. lia. Qed.

Lemma pointsText_codePoints s : pointsText (codePoints s) = Some s.
Proof.
  unfold pointsText, codePoints. rewrite (proj2 (forallb_forall _ _)).
  - rewrite map_map, (map_ext _ id) by (intros c; apply unitOf_codeUnit). by rewrite map_id, ofChars_chars.
  - intros n (c & <- & _)%in_map_iff. pose proof (codeUnit_range c). bool_lia.
Qed.

Lemma pointsText_Some l s : pointsText l = Some s -> codePoints s = l.
Proof.
  unfold pointsText. destruct (forallb _ _) eqn:E; [|done]. intros [= <-]. unfold codePoints. rewrite chars_ofChars, map_map.
  rewrite forallb_forall in E. rewrite (map_ext_in _ id), map_id; [done|]. intros n Hn. specialize (E n Hn). bools.
  by apply codeUnit_unitOf.
Qed.

Lemma codePoints_inj s t : codePoints s = codePoints t -> s = t.
Proof. intros E%(f_equal pointsText). rewrite !pointsText_codePoints in E. by injection E. Qed.

Lemma codePoints_app s t : codePoints (s +:+ t) = codePoints s ++ codePoints t.
Proof. unfold codePoints. by rewrite chars_app, map_app. Qed.

(** ** Printed JSON is read back *)

(** What a printed value reads as: members without a value are not printed. *)
Fixpoint valueOf (v : Json) : JsonValue :=
  match v with
  | JNull => VNull
  | JBool b => VBool b
  | JNum n => VNum n 0
  | JStr s => VStr (codePoints s)
  | JArr l => VArr (map valueOf l)
  | JObj es =>
      VObj ((fix go (es : list (string * option Json)) : list (list Z * JsonValue) :=
        match es with
        | [] => []
        | (k, Some v) :: es' => (codePoints k, valueOf v) :: go es'
        | (_, None) :: es' => go es'
        end) es)
  end.

Lemma parseCharacters_quoted l rest :
  parseCharacters (map codeUnit (flat_map quoteChar l) ++ 34 :: rest) = Some (map codeUnit l, rest).
Proof.
  induction l as [|c l IH]; [done|]. cbn [flat_map map]. rewrite map_app, <- app_assoc.
  set (tail := map codeUnit (flat_map quoteChar l) ++ 34 :: rest) in *. clearbody tail.
  assert (E : parseCharacters (map codeUnit (quoteChar c) ++ tail) =
    ('(s, r) ← parseCharacters tail; Some (codeUnit c :: s, r))).
  { clear. destruct c as [[] [] [] [] [] [] [] []]; reflexivity. }
  by rewrite E, IH.
Qed.

Lemma codePoints_quote s rest :
  codePoints (quoteJson s) ++ rest = 34 :: map codeUnit (flat_map quoteChar (chars s)) ++ 34 :: rest.
Proof. unfold codePoints, quoteJson. rewrite chars_ofChars. cbn. by rewrite map_app, <- app_assoc. Qed.

(** What may follow a number that ends. *)
Definition numberEnds (l : list Z) : Prop :=
  match l with [] => True | c :: _ => isDigitPoint c = false /\ c <> 46 /\ c <> 101 /\ c <> 69 end.

Lemma spanDigits_text s rest :
  allChars isDigit s = true -> numberEnds rest -> spanDigits (codePoints s ++ rest) = (map digitValue (chars s), rest).
Proof.
  unfold allChars, codePoints. induction (chars s) as [|c l IH]; cbn; intros Hd Hr.
  - destruct rest as [|r rest]; [done|]. cbn. destruct Hr as [-> _]. done.
  - bools. destruct Hd as [Hc Hl]. rewrite IH by done. unfold isDigitPoint. unfold isDigit in Hc. by rewrite Hc.
Qed.

Lemma showFuel_lead f z acc :
  1 <= z < 10 ^ Z.of_nat (S f) -> exists c rest, showFuel (S f) z acc = String c rest /\ digitValue c <> 0.
Proof.
  revert z acc. induction f as [|f IH]; intros z acc Hz; rewrite showFuel_S; destruct (z <? 10) eqn:E; bools.
  1,3: eexists _, _; split; [reflexivity|]; rewrite Z.mod_small, digitValue_digitChar by lia; lia.
  - change (10 ^ Z.of_nat 1) with 10 in Hz. lia.
  - apply IH. rewrite (Nat2Z.inj_succ (S f)), Z.pow_succ_r in Hz by lia.
    split; [apply Z.div_le_lower_bound; lia|apply Z.div_lt_upper_bound; lia].
Qed.

Lemma showNat_lead z : 1 <= z -> exists c rest, showNat z = String c rest /\ digitValue c <> 0.
Proof.
  intros Hz. apply showFuel_lead. split; [done|]. pose proof (Z.log2_nonneg z).
  rewrite Nat2Z.inj_succ, Z2Nat.id by done. pose proof (Z.log2_spec z ltac:(lia)) as [_ Hlt].
  eapply Z.lt_le_trans; [exact Hlt|]. apply Z.pow_le_mono_l; lia.
Qed.

Lemma decimal_digits s : decimal (map digitValue (chars s)) = digitsValue s.
Proof. unfold decimal, digitsValue. generalize 0. induction (chars s) as [|c l IH]; intros a; [done|]. apply IH. Qed.

Lemma parseUnsigned_showNat n rest : 0 <= n -> numberEnds rest -> parseUnsigned (codePoints (showNat n) ++ rest) = Some (n, 0, rest).
Proof.
  intros Hn Hr. destruct (showNat_spec n Hn) as (Hne & Hd & Hv). unfold parseUnsigned.
  rewrite spanDigits_text by done.
  assert (Hlead : match map digitValue (chars (showNat n)) with [] => true | d :: more => (d =? 0) && negb (bool_decide (more = [])) end = false).
  { destruct (Z.eq_dec n 0) as [->|Hp]; [done|]. destruct (showNat_lead n) as (c & t & E & Hc); [lia|]. rewrite E, chars_cons. cbn [map].
    by rewrite (proj2 (Z.eqb_neq _ _) Hc). }
  rewrite Hlead.
  assert (Hfr : match rest with
                | c :: r => if c =? 46 then let '(ds, r) := spanDigits r in if bool_decide (ds = []) then None else Some (ds, r)
                            else Some ([], rest)
                | [] => Some ([], [])
                end = Some ([], rest)).
  { destruct rest as [|c r]; [done|]. destruct Hr as (_ & H46 & _). by rewrite (proj2 (Z.eqb_neq _ _) H46). }
  rewrite Hfr. cbn [mbind option_bind].
  destruct rest as [|c r]; cbn [mbind option_bind length app].
  - by rewrite app_nil_r, decimal_digits, Hv.
  - destruct Hr as (_ & _ & H101 & H69). rewrite (proj2 (Z.eqb_neq _ _) H101), (proj2 (Z.eqb_neq _ _) H69). cbn [orb mbind option_bind length].
    by rewrite app_nil_r, decimal_digits, Hv.
Qed.

Lemma parseNumber_showZ n rest : numberEnds rest -> parseNumber (codePoints (showZ n) ++ rest) = Some (VNum n 0, rest).
Proof.
  intros Hr. unfold showZ. destruct (n <? 0) eqn:E; bools.
  - rewrite codePoints_app. change (codePoints "-") with [45]. cbn [app parseNumber Z.eqb Pos.eqb].
    rewrite parseUnsigned_showNat by (done || lia). cbn. do 3 f_equal. lia.
  - pose proof (parseUnsigned_showNat n rest ltac:(lia) Hr) as Hu. destruct (showNat_spec n) as (Hne & Hd & _); [lia|].
    destruct (showNat n) as [|c t]; [done|]. unfold codePoints in *. rewrite chars_cons in *. cbn [map app parseNumber] in *.
    unfold allChars in Hd. rewrite chars_cons in Hd. cbn in Hd. apply andb_true_iff in Hd as [Hc _]. unfold isDigit in Hc. bools.
    rewrite (proj2 (Z.eqb_neq (codeUnit c) 45)) by lia. rewrite Hu. done.
Qed.

(** A printed value begins like one. *)
Definition valueStarts (l : list Z) : Prop :=
  match l with [] => False | c :: _ => isWhitePoint c = false /\ c <> 93 end.

Lemma stringify_starts v rest : valueStarts (codePoints (stringify v) ++ rest).
Proof.
  destruct v as [|[]|n|s|l|es]; try done. cbn [stringify]. unfold showZ. destruct (n <? 0) eqn:E; bools; [done|].
  destruct (showNat_spec n) as (Hne & Hd & _); [lia|]. destruct (showNat n) as [|c t]; [done|].
  unfold allChars in Hd. rewrite chars_cons in Hd. cbn in Hd. apply andb_true_iff in Hd as [Hc _]. unfold isDigit in Hc.
  unfold codePoints. rewrite chars_cons. cbn. unfold isWhitePoint. bools. split; [bool_lia|lia].
Qed.

Lemma skipWhite_starts l : valueStarts l -> skipWhite l = l.
Proof. destruct l as [|c l]; [done|]. intros [Hc _]. unfold skipWhite. cbn [dropWhile]. by rewrite Hc. Qed.

Lemma skipWhite_point c l : isWhitePoint c = false -> skipWhite (c :: l) = c :: l.
Proof. intros Hc. unfold skipWhite. cbn [dropWhile]. by rewrite Hc. Qed.

(** With enough fuel the text of [v] is read as [v], whatever follows. *)
Definition readBack (v : Json) : Prop :=
  exists n, forall fuel rest, (n <= fuel)%nat -> numberEnds rest ->
    parseValue fuel (codePoints (stringify v) ++ rest) = Some (valueOf v, rest).

Lemma parseItems_read l : forall x, Forall readBack (x :: l) ->
  exists n, forall fuel rest, (n <= fuel)%nat ->
    parseItems fuel (codePoints (joinWith "," (map stringify (x :: l))) ++ 93 :: rest) = Some (map valueOf (x :: l), rest).
Proof.
  induction l as [|y l IH]; intros x; rewrite Forall_cons; intros [[n Hx] Hl].
  - exists (S n). intros [|fuel] rest Hf; [lia|]. cbn [map joinWith fold_left parseItems].
    rewrite Hx by (lia || done). done.
  - destruct (IH y Hl) as [k Hk]. exists (S (Nat.max n k)). intros [|fuel] rest Hf; [lia|].
    cbn [map]. rewrite joinWith_cons2, !codePoints_app, <- !app_assoc. change (codePoints ",") with [44]. cbn [parseItems app].
    rewrite Hx by (lia || done). cbn [mbind option_bind]. rewrite (skipWhite_point 44) by done. cbn [Z.eqb Pos.eqb].
    cbn [map] in Hk. by rewrite Hk by lia.
Qed.

Definition memberText (e : string * Json) : string := quoteJson e.1 +:+ ":" +:+ stringify e.2.
Definition memberValue (e : string * Json) : list Z * JsonValue := (codePoints e.1, valueOf e.2).

Lemma parseMembers_read l : forall e, Forall (fun e : string * Json => readBack e.2) (e :: l) ->
  exists n, forall fuel rest, (n <= fuel)%nat ->
    parseMembers fuel (codePoints (joinWith "," (map memberText (e :: l))) ++ 125 :: rest) = Some (map memberValue (e :: l), rest).
Proof.
  assert (Hone : forall fuel e tail, parseMembers (S fuel) (codePoints (memberText e) ++ tail) =
    ('(v, rest) ← parseValue fuel (codePoints (stringify e.2) ++ tail);
     match skipWhite rest with
     | c :: rest => if c =? 44 then '(members, rest) ← parseMembers fuel rest; Some ((codePoints e.1, v) :: members, rest)
                    else if c =? 125 then Some ([(codePoints e.1, v)], rest) else None
     | [] => None
     end)).
  { intros fuel e tail. unfold memberText. rewrite codePoints_app, <- app_assoc, codePoints_quote. cbn [parseMembers].
    rewrite (skipWhite_point 34) by done. cbn [expectPoint Z.eqb Pos.eqb mbind option_bind].
    rewrite parseCharacters_quoted. cbn [mbind option_bind]. by rewrite codePoints_app. }
  induction l as [|y l IH]; intros e; rewrite Forall_cons; intros [[n Hx] Hl].
  - exists (S n). intros [|fuel] rest Hf; [lia|]. cbn [map joinWith fold_left].
    rewrite Hone, Hx by (lia || done). done.
  - destruct (IH y Hl) as [k Hk]. exists (S (Nat.max n k)). intros [|fuel] rest Hf; [lia|].
    cbn [map]. rewrite joinWith_cons2, !codePoints_app, <- !app_assoc, Hone. change (codePoints ",") with [44]. cbn [app].
    rewrite Hx by (lia || done). cbn [mbind option_bind]. rewrite (skipWhite_point 44) by done. cbn [Z.eqb Pos.eqb].
    cbn [map] in Hk. by rewrite Hk by lia.
Qed.

Lemma stringify_kept es : stringify (JObj es) = "{" +:+ joinWith "," (map memberText (keptPairs es)) +:+ "}".
Proof.
  cbn [stringify]. do 3 f_equal. induction es as [|[k [v|]] es IH]; [done| |done].
  cbn. f_equal. exact IH.
Qed.

Lemma valueOf_kept es : valueOf (JObj es) = VObj (map memberValue (keptPairs es)).
Proof. cbn [valueOf]. f_equal. induction es as [|[k [v|]] es IH]; [done| |done]. cbn. f_equal. exact IH. Qed.

Lemma readBack_arr l : Forall readBack l -> readBack (JArr l).
Proof.
  intros Hl. destruct l as [|x l].
  - exists 1%nat. intros [|fuel] rest Hf _; [lia|done].
  - destruct (parseItems_read l x Hl) as [n Hn]. exists (S n). intros [|fuel] rest Hf _; [lia|].
    cbn [stringify]. rewrite !codePoints_app, <- !app_assoc. change (codePoints "[") with [91]. change (codePoints "]") with [93].
    cbn [app]. specialize (Hn fuel rest ltac:(lia)).
    set (text := codePoints _ ++ 93 :: rest) in *. assert (Hs : valueStarts text).
    { unfold text. destruct l as [|y l]; cbn [map]; [|rewrite joinWith_cons2, codePoints_app, <- app_assoc]; apply stringify_starts. }
    cbn [parseValue]. rewrite (skipWhite_point 91) by done. cbn [Z.eqb Pos.eqb]. rewrite (skipWhite_starts text) by done.
    destruct text as [|c t]; [done|]. destruct Hs as [_ Hc]. cbn [expectPoint]. rewrite (proj2 (Z.eqb_neq _ _) Hc), Hn. done.
Qed.

Lemma readBack_obj es : Forall (fun e : string * Json => readBack e.2) (keptPairs es) -> readBack (JObj es).
Proof.
  intros Hl. unfold readBack. rewrite stringify_kept, valueOf_kept. destruct (keptPairs es) as [|e l].
  - exists 1%nat. intros [|fuel] rest Hf _; [lia|done].
  - destruct (parseMembers_read l e Hl) as [n Hn]. exists (S n). intros [|fuel] rest Hf _; [lia|].
    rewrite !codePoints_app, <- !app_assoc. change (codePoints "{") with [123]. change (codePoints "}") with [125].
    cbn [app]. specialize (Hn fuel rest ltac:(lia)).
    set (text := codePoints _ ++ 125 :: rest) in *. assert (Hs : exists t, text = 34 :: t).
    { unfold text. destruct l as [|y l]; cbn [map]; [cbn [joinWith fold_left]|rewrite joinWith_cons2, codePoints_app, <- app_assoc];
        unfold memberText at 1;
        rewrite codePoints_app, <- app_assoc, codePoints_quote; by eexists. }
    destruct Hs as [t Et]. cbn [parseValue]. rewrite (skipWhite_point 123) by done. cbn [Z.eqb Pos.eqb].
    rewrite Et in *. rewrite (skipWhite_point 34) by done. cbn [expectPoint Z.eqb Pos.eqb]. by rewrite Hn.
Qed.

Lemma stringify_read : forall v, readBack v.
Proof.
  fix IH 1. intros [|b|n|s|l|es].
  - exists 1%nat. intros [|fuel] rest Hf _; [lia|done].
  - exists 1%nat. intros [|fuel] rest Hf _; [lia|by destruct b].
  - exists 1%nat. intros [|fuel] rest Hf Hr; [lia|]. pose proof (stringify_starts (JNum n) rest) as Hs.
    pose proof (parseNumber_showZ n rest Hr) as Hp. cbn [stringify valueOf parseValue] in *. rewrite skipWhite_starts by done.
    destruct (codePoints (showZ n) ++ rest) as [|c t] eqn:E; [done|].
    assert (Hc : isDigitPoint c = true \/ c = 45).
    { unfold showZ in E. destruct (n <? 0) eqn:En; bools; [by injection E as <-; right|]. left.
      destruct (showNat_spec n) as (Hne & Hd & _); [lia|]. destruct (showNat n) as [|d u]; [done|].
      unfold codePoints in E. rewrite chars_cons in E. injection E as <- _. unfold allChars in Hd. rewrite chars_cons in Hd. cbn in Hd.
      by apply andb_true_iff in Hd as [? _]. }
    unfold isDigitPoint in Hc. repeat (rewrite (proj2 (Z.eqb_neq c _)) by (destruct Hc; bools; lia)). exact Hp.
  - exists 1%nat. intros [|fuel] rest Hf _; [lia|]. cbn [stringify valueOf parseValue]. rewrite codePoints_quote, (skipWhite_point 34) by done.
    cbn [Z.eqb Pos.eqb]. by rewrite parseCharacters_quoted.
  - apply readBack_arr. induction l as [|x l IHl]; constructor; [apply IH|exact IHl].
  - apply readBack_obj. induction es as [|[k [v|]] es IHes]; cbn; [constructor| |exact IHes].
    constructor; [apply IH|exact IHes].
Qed.

(** ** The fuel is enough *)

Lemma skipWhite_length l : (length (skipWhite l) <= length l)%nat.
Proof. unfold skipWhite. induction l as [|c l IH]; cbn [dropWhile]; [done|]. destruct (isWhitePoint c); cbn [length]; lia. Qed.

Lemma spanDigits_length l : (length (spanDigits l).1 + length (spanDigits l).2 = length l)%nat.
Proof.
  induction l as [|c l IH]; cbn [spanDigits]; [done|]. destruct (isDigitPoint c); [|done].
  destruct (spanDigits l) as [ds r]. cbn in *. lia.
Qed.

Lemma expectPoint_length c l rest : expectPoint c l = Some rest -> length l = S (length rest).
Proof. destruct l as [|d l]; cbn; [done|]. destruct (d =? c); [|done]. by intros [= ->]. Qed.

Lemma expectPoints_length word : forall l rest, expectPoints word l = Some rest -> (length rest <= length l)%nat.
Proof.
  induction word as [|c word IH]; intros l rest; cbn [expectPoints]; [by intros [= ->]|].
  intros (r & Hr%expectPoint_length & H%IH)%bind_Some. lia.
Qed.

Lemma parseCharacters_length n : forall l s rest, (length l <= n)%nat ->
  parseCharacters l = Some (s, rest) -> (length rest < length l)%nat.
Proof.
  induction n as [|n IH]; intros [|c l] s rest Hn; cbn [length] in *; try done; [lia|]. cbn [parseCharacters].
  assert (Hmore : forall m k, (length m <= length l)%nat ->
    ('(t, r) ← parseCharacters m; Some (k t, r)) = Some (s, rest) -> (length rest < S (length l))%nat).
  { intros m k Hm ([t r] & Hp & [= _ <-])%bind_Some. apply IH in Hp; lia. }
  destruct (c =? 34); [intros [= _ <-]; lia|]. destruct (c <? 32); [done|]. destruct (c =? 92); [|apply (Hmore l (cons c)); lia].
  destruct l as [|e l]; [done|]. cbn [length] in *. destruct (e =? 117).
  - destruct l as [|h1 [|h2 [|h3 [|h4 l]]]]; try done. cbn [length] in *.
    intros (a & _ & (b & _ & (c1 & _ & (d & _ & H)%bind_Some)%bind_Some)%bind_Some)%bind_Some.
    apply (Hmore l (cons (((a * 16 + b) * 16 + c1) * 16 + d))) in H; lia.
  - intros (p & _ & H)%bind_Some. apply (Hmore l (cons p)) in H; lia.
Qed.

Lemma parseUnsigned_length l m e rest : parseUnsigned l = Some (m, e, rest) -> (length rest < length l)%nat.
Proof.
  unfold parseUnsigned. pose proof (spanDigits_length l) as Hl. destruct (spanDigits l) as [whole l1]. cbn [fst snd] in Hl.
  destruct whole as [|d more]; [done|]. cbn [length] in Hl. destruct (_ && _); [done|].
  intros ([fraction l2] & Hf & ([ex l3] & He & [= _ _ <-])%bind_Some)%bind_Some.
  assert (H2 : (length l2 <= length l1)%nat).
  { destruct l1 as [|c r]; [by injection Hf as _ <-|]. destruct (c =? 46); [|by injection Hf as _ <-].
    pose proof (spanDigits_length r). destruct (spanDigits r) as [ds r2]. cbn in *.
    destruct (bool_decide _); [done|]. injection Hf as _ <-. lia. }
  assert (H3 : (length l3 <= length l2)%nat).
  { destruct l2 as [|c r]; [by injection He as _ <-|]. destruct (_ || _); [|by injection He as _ <-].
    assert (Hs : forall sign r', (length r' <= length r)%nat ->
      (let '(ds, r) := spanDigits r' in if bool_decide (ds = []) then None else Some (sign * decimal ds, r)) = Some (ex, l3) ->
      (length l3 <= S (length r))%nat).
    { intros sign r' Hr'. pose proof (spanDigits_length r') as Hd. destruct (spanDigits r') as [ds r2]. cbn in *.
      destruct (bool_decide _); [done|]. intros [= _ <-]. lia. }
    destruct r as [|sg r']; [by apply (Hs 1 []) in He|]. cbn [length] in *.
    destruct (sg =? 45); [apply (Hs _ r') in He; cbn; lia|]. destruct (sg =? 43); [apply (Hs _ r') in He; cbn; lia|].
    apply (Hs _ (sg :: r')) in He; cbn in *; lia. }
  lia.
Qed.

Lemma parseNumber_length l v rest : parseNumber l = Some (v, rest) -> (length rest < length l)%nat.
Proof.
  destruct l as [|c r]; [done|]. unfold parseNumber.
  destruct (c =? 45); intros ([[m e] l'] & H%parseUnsigned_length & [= _ <-])%bind_Some; cbn in *; lia.
Qed.

(** Every call consumes what it reads. *)
Lemma parse_length fuel :
  (forall l v rest, parseValue fuel l = Some (v, rest) -> (length rest < length l)%nat) /\
  (forall l v rest, parseMembers fuel l = Some (v, rest) -> (length rest < length l)%nat) /\
  (forall l v rest, parseItems fuel l = Some (v, rest) -> (length rest < length l)%nat).
Proof.
  induction fuel as [|fuel (IHv & IHm & IHi)]; [by repeat split|]. split_and!.
  - intros l v rest. cbn [parseValue]. pose proof (skipWhite_length l) as Hl. destruct (skipWhite l) as [|c r]; [done|].
    cbn [length] in Hl. pose proof (skipWhite_length r) as Hr.
    destruct (c =? 123).
    { destruct (expectPoint 125 _) as [r'|] eqn:E; [apply expectPoint_length in E; intros [= _ <-]; lia|].
      intros ([ms r'] & H%IHm & [= _ <-])%bind_Some. lia. }
    destruct (c =? 91).
    { destruct (expectPoint 93 _) as [r'|] eqn:E; [apply expectPoint_length in E; intros [= _ <-]; lia|].
      intros ([ms r'] & H%IHi & [= _ <-])%bind_Some. lia. }
    destruct (c =? 34); [intros ([s r'] & H & [= _ <-])%bind_Some; apply (parseCharacters_length (length r)) in H; lia|].
    destruct (c =? 110); [intros (r' & H%expectPoints_length & [= _ <-])%bind_Some; lia|].
    destruct (c =? 116); [intros (r' & H%expectPoints_length & [= _ <-])%bind_Some; lia|].
    destruct (c =? 102); [intros (r' & H%expectPoints_length & [= _ <-])%bind_Some; lia|].
    intros H%parseNumber_length. cbn [length] in H. lia.
  - intros l v rest. cbn [parseMembers]. pose proof (skipWhite_length l) as Hl.
    intros (r1 & H1%expectPoint_length & ([k r2] & H2 & (r3 & H3%expectPoint_length & ([w r4] & H4%IHv & H)%bind_Some)%bind_Some)%bind_Some)%bind_Some.
    apply (parseCharacters_length (length r1)) in H2; [|done]. pose proof (skipWhite_length r2). pose proof (skipWhite_length r4) as H5.
    destruct (skipWhite r4) as [|c r5]; [done|]. cbn [length] in H5. destruct (c =? 44).
    + apply bind_Some in H as ([ms r'] & H%IHm & [= _ <-]). lia.
    + destruct (c =? 125); [|done]. injection H as _ <-. lia.
  - intros l v rest. cbn [parseItems]. intros ([w r4] & H4%IHv & H)%bind_Some. pose proof (skipWhite_length r4) as H5.
    destruct (skipWhite r4) as [|c r5]; [done|]. cbn [length] in H5. destruct (c =? 44).
    + apply bind_Some in H as ([ms r'] & H%IHi & [= _ <-]). lia.
    + destruct (c =? 93); [|done]. injection H as _ <-. lia.
Qed.

Lemma bind_ext_Some {A B} (m : option A) (f g : A -> option B) : (forall a, m = Some a -> f a = g a) -> (m ≫= f) = (m ≫= g).
Proof. destruct m; cbn; auto. Qed.

Lemma parse_enough f : forall g,
  (forall l, (2 * length l < f)%nat -> (2 * length l < g)%nat -> parseValue f l = parseValue g l) /\
  (forall l, (2 * length l < f)%nat -> (2 * length l < g)%nat -> parseMembers f l = parseMembers g l) /\
  (forall l, (S (2 * length l) < f)%nat -> (S (2 * length l) < g)%nat -> parseItems f l = parseItems g l).
Proof.
  induction f as [|f IH]; intros [|g]; [split_and!; intros l; lia..|]. destruct (IH g) as (IHv & IHm & IHi). split_and!; intros l Hf Hg.
  - cbn [parseValue]. pose proof (skipWhite_length l) as Hl. destruct (skipWhite l) as [|c r]; [done|]. cbn [length] in Hl.
    by rewrite IHm, IHi by lia.
  - cbn [parseMembers]. pose proof (skipWhite_length l) as Hl.
    apply bind_ext_Some. intros r1 H1%expectPoint_length. apply bind_ext_Some. intros [k r2] H2.
    apply (parseCharacters_length (length r1)) in H2; [|done]. pose proof (skipWhite_length r2).
    apply bind_ext_Some. intros r3 H3%expectPoint_length. rewrite IHv by lia. apply bind_ext_Some. intros [w r4] H4.
    apply (proj1 (parse_length g)) in H4. pose proof (skipWhite_length r4) as H5. destruct (skipWhite r4) as [|c r5]; [done|].
    cbn [length] in H5. by rewrite IHm by lia.
  - cbn [parseItems]. rewrite IHv by lia. apply bind_ext_Some. intros [w r4] H4.
    apply (proj1 (parse_length g)) in H4. pose proof (skipWhite_length r4) as H5. destruct (skipWhite r4) as [|c r5]; [done|].
    cbn [length] in H5. by rewrite IHi by lia.
Qed.

(** Cursors are read back: what is printed, encoded and decoded is the value. *)
Lemma decodeJson_encoded v : decodeJson (base64url (utf8Bytes (stringify v))) = Some (valueOf v).
Proof.
  unfold decodeJson. rewrite base64Bytes_url by apply utf8Bytes_bytes. rewrite utf8Decode_bytes.
  destruct (stringify_read v) as [n Hn]. set (l := codePoints (stringify v)). unfold parseJson.
  rewrite (proj1 (parse_enough _ (Nat.max n (parseFuel l)))) by (unfold parseFuel; lia).
  specialize (Hn (Nat.max n (parseFuel l)) [] ltac:(lia) I). rewrite app_nil_r in Hn. unfold l at 2. by rewrite Hn.
Qed.

Lemma base64url_length bytes : (3 * String.length (base64url bytes) <= 4 * length bytes + 2)%nat.
Proof.
  unfold base64url. rewrite <- length_chars, chars_ofChars, length_map.
  induction bytes as [|a|a b|a b c l IH] using threes_ind; cbn [base64Sextets length app] in *; lia.
Qed.

Lemma utf8Bytes_length s : allChars (fun c => codeUnit c <? 128) s = true -> length (utf8Bytes s) = String.length s.
Proof.
  rewrite <- length_chars. unfold allChars, utf8Bytes. induction (chars s) as [|c l IH]; cbn [forallb flat_map]; [done|]. intros H. bools.
  rewrite length_app, IH by apply H. unfold utf8Unit. rewrite (proj2 (Z.ltb_lt _ 128)) by (bools; apply H). done.
Qed.

Lemma safeNatural_int n : 0 <= n <= MAX_SAFE_INTEGER -> safeNatural (VNum n 0) = Some n.
Proof.
  intros Hn. unfold safeNatural. destruct (n =? 0) eqn:E; bools; [by subst|].
  rewrite (proj2 (Z.ltb_ge n 0)) by lia. change (20 <? 0) with false. change (10 ^ Z.max 0 0) with 1. change (10 ^ Z.max 0 (- 0)) with 1.
  cbv zeta. replace ((2 * (n * 1) + 1) / (2 * 1)) with n by div_lia. cbn [List.find].
  assert (Hr : readsAsInteger n 0 n = true).
  { unfold readsAsInteger. rewrite (proj2 (Z.eqb_neq n 0)) by lia. change (10 ^ Z.max 0 0) with 1. change (10 ^ Z.max 0 (- 0)) with 1.
    cbv zeta. rewrite Z.sub_diag, !Z.mul_0_l. by destruct (Z.even _). }
  rewrite Hr. by rewrite (proj2 (Z.leb_le 0 n)), (proj2 (Z.leb_le n _)) by lia.
Qed.
