(* ===== verification/Paging.v ===== *)
(** * Reading a list page by page

    What the list handlers have in common: rows in the order of a key, the rows
    past the cursor, one more than the limit to know whether there is a next
    page, and a cursor made of the key of the last row that is given out.  A
    reader follows the cursors while the table changes under it. *)

From S2P Require Import Prelude JsStd JsCollections.

(** A timestamp (or a number) and a public identifier. *)
Definition PageKey : Type := Z * string.

Definition keyBefore (a b : PageKey) : bool := (a.1 <? b.1) || ((a.1 =? b.1) && ltText a.2 b.2).
Definition compareKeys (a b : PageKey) : Z := orElse (a.1 - b.1) (compareText a.2 b.2).

(** A direction of reading: which key comes before which, and how rows are
    compared. *)
Class KeyOrder {K} (ahead : K -> K -> bool) (compare : K -> K -> Z) : Prop := {
  ahead_compare a b : ahead a b = true <-> compare a b < 0;
  compare_eq a b : compare a b = 0 <-> a = b;
  compare_comparator :: Comparator compare;
}.

Definition descending {A B} (f : A -> A -> B) (a b : A) : B := f b a.

#[global] Instance compareKeys_comparator : Comparator compareKeys.
Proof.
  unfold compareKeys. apply (Comparator_orElse (fun a b : PageKey => a.1 - b.1) (fun a b => compareText a.2 b.2));
    [apply (Comparator_sub fst)|apply (Comparator_text snd)].
Qed.

#[global] Instance ascending_order : KeyOrder keyBefore compareKeys.
Proof.
  split; [| |apply _].
  - intros [a s] [b t]. unfold keyBefore, compareKeys, orElse, ltText. cbn. destruct (a - b =? 0) eqn:E; bools; bool_lia.
  - intros [a s] [b t]. unfold compareKeys. rewrite orElse_zero, compareText_eq. cbn. split; [intros [? ->]; f_equal; lia|intros [= -> ->]; split; [lia|done]].
Qed.

Lemma descending_order {K} (ahead : K -> K -> bool) compare : KeyOrder ahead compare -> KeyOrder (descending ahead) (descending compare).
Proof.
  intros Ho. split.
  - intros a b. exact (ahead_compare (KeyOrder := Ho) b a).
  - intros a b. unfold descending. rewrite (compare_eq (KeyOrder := Ho)). naive_solver.
  - apply (Comparator_flip compare), compare_comparator.
Qed.

#[global] Instance descending_keys : KeyOrder (descending keyBefore) (descending compareKeys).
Proof. apply descending_order, _. Qed.

Section Keyset.
Context {R K : Type} (key : R -> K) (ahead : K -> K -> bool) (compare : K -> K -> Z).

Definition pastCursor (cursor : option K) (r : R) : bool :=
  match cursor with Some c => ahead c (key r) | None => true end.
Definition byPageKey (x y : R) : Z := compare (key x) (key y).

(** The rows a page is made of, and one more. *)
Definition pageRows (cursor : option K) (limit : nat) (l : list R) : list R :=
  take (S limit) (sortBy byPageKey (List.filter (pastCursor cursor) l)).

(** A reader that follows the cursors; at each request the matching rows of the
    table are what they are then. *)
Inductive Chain : option K -> list (list R) -> list R -> Prop :=
| chain_last cursor limit l :
    (length (pageRows cursor limit l) <= limit)%nat -> Chain cursor [l] (pageRows cursor limit l)
| chain_next cursor limit l x ls out :
    (limit < length (pageRows cursor limit l))%nat -> last (take limit (pageRows cursor limit l)) = Some x ->
    Chain (Some (key x)) ls out -> Chain cursor (l :: ls) (take limit (pageRows cursor limit l) ++ out).

Context `{!KeyOrder ahead compare}.

#[local] Instance byPageKey_comparator : Comparator byPageKey.
Proof.
  pose proof (compare_comparator (ahead := ahead) (compare := compare)) as [Ht Htr]. split.
  - intros x y. apply Ht.
  - intros x y z. apply Htr.
Qed.

Definition rowAhead (x y : R) : Prop := ahead (key x) (key y) = true.

Lemma ahead_irrefl k : ahead k k = false.
Proof. apply not_true_is_false. rewrite ahead_compare. rewrite (proj2 (compare_eq k k)) by done. lia. Qed.

Lemma ahead_trans a b c : ahead a b = true -> ahead b c = true -> ahead a c = true.
Proof.
  rewrite !ahead_compare. intros Hab Hbc. pose proof (compare_comparator (ahead := ahead) (compare := compare)) as [Hs Ht].
  pose proof (Ht a b c ltac:(lia) ltac:(lia)) as Hac. destruct (Z.eq_dec (compare a c) 0) as [E|]; [|lia].
  apply compare_eq in E as ->. pose proof (Hs b c). lia.
Qed.

Lemma ahead_total a b : a <> b -> ahead a b = false -> ahead b a = true.
Proof.
  intros Hne Hab. rewrite ahead_compare. apply not_true_iff_false in Hab. rewrite ahead_compare in Hab.
  assert (compare a b <> 0) by (by rewrite compare_eq).
  pose proof (compare_comparator (ahead := ahead) (compare := compare)) as [Hs Ht]. pose proof (Hs a b). lia.
Qed.

Lemma filter_past c k l :
  ahead c k = true ->
  List.filter (pastCursor (Some k)) (List.filter (pastCursor (Some c)) l) = List.filter (pastCursor (Some k)) l.
Proof.
  intros Hck. induction l as [|x l IH]; [done|]. cbn [List.filter pastCursor].
  destruct (ahead k (key x)) eqn:E; [rewrite (ahead_trans _ _ _ Hck E); cbn [List.filter pastCursor]; by rewrite E, IH|].
  destruct (ahead c (key x)); cbn [List.filter pastCursor]; by rewrite ?E.
Qed.

Lemma pageRows_elem cursor limit l x : x ∈ pageRows cursor limit l -> x ∈ l /\ pastCursor cursor x = true.
Proof.
  unfold pageRows. intros Hx. assert (Hs : x ∈ sortBy byPageKey (List.filter (pastCursor cursor) l)).
  { rewrite <- (take_drop (S limit)). apply elem_of_app. by left. }
  apply sortBy_elem in Hs. rewrite list_elem_of_In, filter_In, <- list_elem_of_In in Hs. exact Hs.
Qed.

Lemma sorted_rowAhead l : NoDup (map key l) -> StronglySorted (fun x y => byPageKey x y <= 0) l -> StronglySorted rowAhead l.
Proof.
  intros Hn Hs. induction Hs as [|x l Hl IH Hx]; [constructor|]. cbn in Hn. apply NoDup_cons in Hn as [Hni Hn].
  constructor; [by apply IH|]. apply Forall_forall. intros y Hy. rewrite Forall_forall in Hx. specialize (Hx y Hy).
  unfold rowAhead. rewrite ahead_compare. unfold byPageKey in Hx.
  destruct (Z.eq_dec (compare (key x) (key y)) 0) as [E|]; [|lia]. apply compare_eq in E.
  exfalso. apply Hni. rewrite E. by apply list_elem_of_fmap_2.
Qed.

Lemma sorted_matching cursor l :
  NoDup (map key l) -> StronglySorted rowAhead (sortBy byPageKey (List.filter (pastCursor cursor) l)).
Proof.
  intros Hn. apply sorted_rowAhead; [|apply sortBy_sorted, _].
  rewrite (sortBy_perm byPageKey). induction l as [|x l IH]; [done|]. cbn in Hn. apply NoDup_cons in Hn as [Hni Hn].
  cbn [List.filter]. destruct (pastCursor cursor x); [|by apply IH]. cbn [map]. apply NoDup_cons. split; [|by apply IH].
  intros (y & E & Hy%list_elem_of_In%filter_In)%list_elem_of_fmap. apply Hni. rewrite E. apply list_elem_of_fmap_2, list_elem_of_In, Hy.
Qed.

Lemma StronglySorted_take {A} (Q : A -> A -> Prop) n l : StronglySorted Q l -> StronglySorted Q (take n l).
Proof.
  intros Hs. revert n. induction Hs as [|x l Hl IH Hx]; intros [|n]; cbn [take]; try constructor; [apply IH|].
  by apply Forall_take.
Qed.

Lemma StronglySorted_last {A} (Q : A -> A -> Prop) l x : StronglySorted Q l -> last l = Some x -> Forall (fun y => y = x \/ Q y x) l.
Proof.
  intros Hs. induction Hs as [|y l Hl IH Hy]; [done|]. destruct l as [|z l]; [intros [= ->]; by repeat constructor; left|].
  intros E. specialize (IH E). constructor; [|done]. right. rewrite Forall_forall in Hy. apply Hy.
  change (last (z :: l) = Some x) in E. apply last_Some in E as [k E]. rewrite E. set_solver.
Qed.

(** What is given out comes in order, past the cursor, nothing twice. *)
Lemma Chain_sorted cursor ls out :
  Chain cursor ls out -> Forall (fun l => NoDup (map key l)) ls ->
  StronglySorted rowAhead out /\ Forall (fun x => pastCursor cursor x = true) out.
Proof.
  induction 1 as [cursor limit l Hle|cursor limit l x ls out Hlt Hx Hc IH]; rewrite Forall_cons; intros [Hn Hns].
  - split; [by apply StronglySorted_take, sorted_matching|]. apply Forall_forall. intros y [_ Hy]%pageRows_elem. exact Hy.
  - destruct (IH Hns) as [Hso Hpast]. set (page := take limit (pageRows cursor limit l)) in *.
    assert (Hpage : StronglySorted rowAhead page) by (by apply StronglySorted_take, StronglySorted_take, sorted_matching).
    assert (Hin : forall y, y ∈ page -> y ∈ l /\ pastCursor cursor y = true).
    { intros y Hy. apply (pageRows_elem cursor limit). rewrite <- (take_drop limit (pageRows cursor limit l)). apply elem_of_app. by left. }
    pose proof (StronglySorted_last _ _ _ Hpage Hx) as Hlast. rewrite Forall_forall in Hlast.
    assert (Hxin : x ∈ page) by (apply last_Some in Hx as [k ->]; set_solver).
    split.
    + clear Hx Hxin. induction Hpage as [|y k Hk IHk Hy]; [done|]. cbn [app]. constructor.
      * apply IHk; intros; [apply Hin|apply Hlast]; set_solver.
      * apply Forall_app. split; [done|]. eapply Forall_impl; [exact Hpast|]. intros z Hz. cbn in Hz.
        destruct (Hlast y ltac:(set_solver)) as [->|Hyx]; [done|]. by eapply ahead_trans.
    + apply Forall_app. split; [apply Forall_forall; intros y Hy; by apply Hin|].
      eapply Forall_impl; [exact Hpast|]. intros z Hz. cbn in Hz. destruct (Hin x Hxin) as [_ Hcx].
      destruct cursor as [c|]; [|done]. cbn in *. by eapply ahead_trans.
Qed.

(** A key that is there at every request and past the cursor is given out. *)
Lemma Chain_complete cursor ls out k :
  Chain cursor ls out -> Forall (fun l => NoDup (map key l)) ls -> (forall l, l ∈ ls -> k ∈ map key l) ->
  (match cursor with Some c => ahead c k = true | None => True end) -> k ∈ map key out.
Proof.
  induction 1 as [cursor limit l Hle|cursor limit l x ls out Hlt Hx Hc IH]; rewrite Forall_cons; intros [Hn Hns] Hk Hcur.
  - specialize (Hk l ltac:(set_solver)). apply list_elem_of_fmap in Hk as (r & -> & Hr).
    apply list_elem_of_fmap_2. unfold pageRows in *. rewrite length_take in Hle. rewrite take_ge by lia.
    apply sortBy_elem. rewrite list_elem_of_In, filter_In, <- list_elem_of_In. split; [done|]. by destruct cursor.
  - pose proof (Hk l ltac:(set_solver)) as Hkl. apply list_elem_of_fmap in Hkl as (r & -> & Hr).
    unfold pageRows in *. set (all := sortBy byPageKey (List.filter (pastCursor cursor) l)) in *.
    assert (Hra : r ∈ all).
    { apply sortBy_elem. rewrite list_elem_of_In, filter_In, <- list_elem_of_In. split; [done|]. by destruct cursor. }
    pose proof (sorted_matching cursor l Hn) as Hs. fold all in Hs.
    rewrite take_take, Nat.min_l in * by lia. rewrite fmap_app. apply elem_of_app.
    rewrite <- (take_drop limit all) in Hra. apply elem_of_app in Hra as [Ht|Hd]; [left; by apply list_elem_of_fmap_2|]. right.
    apply IH; [done|intros; apply Hk; set_solver|].
    rewrite <- (take_drop limit all) in Hs. apply StronglySorted_app in Hs as (Hpair & _ & _).
    apply Hpair; [|done]. apply last_Some in Hx as [pre ->]. set_solver.
Qed.

Lemma Chain_from cursor ls out x : Chain cursor ls out -> x ∈ out -> exists l, l ∈ ls /\ x ∈ l.
Proof.
  induction 1 as [cursor limit l Hle|cursor limit l y ls out Hlt Hx Hc IH].
  - intros [Hx _]%pageRows_elem. exists l. set_solver.
  - rewrite elem_of_app. intros [Ht|Ho].
    + exists l. split; [set_solver|]. apply (pageRows_elem cursor limit). rewrite <- (take_drop limit (pageRows cursor limit l)).
      apply elem_of_app. by left.
    + destruct (IH Ho) as (k & Hk & Hxk). exists k. set_solver.
Qed.

Lemma sorted_NoDup out : StronglySorted rowAhead out -> NoDup (map key out).
Proof.
  induction 1 as [|x l Hl IH Hx]; cbn; [constructor|]. apply NoDup_cons. split; [|done].
  intros (y & E & Hy)%list_elem_of_fmap. rewrite Forall_forall in Hx. specialize (Hx y Hy). unfold rowAhead in Hx.
  by rewrite E, ahead_irrefl in Hx.
Qed.
End Keyset.

(** ** A reader of a list *)

Section Reading.
Context {D R E K : Type} (key : R -> K) (ahead : K -> K -> bool) (compare : K -> K -> Z)
  `{!KeyOrder ahead compare}.

(** The rows a request may list, and the entry that shows one. *)
Context (matching : D -> list R) (shows : D -> R -> E -> Prop).

(** A request with a cursor that was answered with entries and a next cursor. *)
Context (answered : option string -> D -> list E -> option string -> Prop).

(** Requests that follow the cursors to the last page, and all they list. *)
Inductive Reading : option string -> list D -> list E -> Prop :=
| reading_last c d es : answered c d es None -> Reading c [d] es
| reading_next c d es text ds rest : answered c d es (Some text) -> Reading (Some text) ds rest -> Reading c (d :: ds) (es ++ rest).

(** The entries come in order and none twice, each shows a row that was there,
    and whatever was there all the time is shown. *)
Definition readOnce (ds : list D) (es : list E) : Prop :=
  exists rows, StronglySorted (rowAhead key ahead) rows /\
    Forall2 (fun r e => exists d, d ∈ ds /\ r ∈ matching d /\ shows d r e) rows es /\
    (forall k, (forall d, d ∈ ds -> k ∈ map key (matching d)) -> k ∈ map key rows) /\
    (length ds <= S (length es))%nat.

(** What a handler has to answer. *)
Context (cursorOf : option string -> option K).
Definition pageAnswer (c : option string) (d : D) (es : list E) (next : option string) : Prop :=
  exists limit, (1 <= limit)%nat /\
    Forall2 (fun r e => r ∈ matching d /\ shows d r e) (take limit (pageRows key ahead compare (cursorOf c) limit (matching d))) es /\
    match next with
    | None => (length (pageRows key ahead compare (cursorOf c) limit (matching d)) <= limit)%nat
    | Some text => (limit < length (pageRows key ahead compare (cursorOf c) limit (matching d)))%nat /\
        exists x, last (take limit (pageRows key ahead compare (cursorOf c) limit (matching d))) = Some x /\ cursorOf (Some text) = Some (key x)
    end.

Lemma Reading_Chain c ds es : Reading c ds es -> (forall c d es next, d ∈ ds -> answered c d es next -> pageAnswer c d es next) ->
  exists out, Chain key ahead compare (cursorOf c) (map matching ds) out /\
    Forall2 (fun r e => exists d, d ∈ ds /\ r ∈ matching d /\ shows d r e) out es /\ (length ds <= S (length es))%nat.
Proof.
  induction 1 as [c d es Ha|c d es text ds rest Ha Hr IH]; intros Hanswers;
    apply Hanswers in Ha as (limit & Hl & Hsh & Hn); [|set_solver| |set_solver].
  - exists (pageRows key ahead compare (cursorOf c) limit (matching d)). split; [by constructor|].
    rewrite take_ge in Hsh by done. split; [|cbn; lia]. eapply Forall2_impl; [exact Hsh|]. intros r e [Hr He]. exists d. set_solver.
  - destruct IH as (out & Hc & Hs & Hlen); [intros; apply Hanswers; set_solver|].
    destruct Hn as (Hlt & x & Hx & Ex). rewrite Ex in Hc. eexists. split; [by eapply chain_next|]. split.
    + apply Forall2_app.
      * eapply Forall2_impl; [exact Hsh|]. intros r e [Hr1 He]. exists d. set_solver.
      * eapply Forall2_impl; [exact Hs|]. intros r e (d' & ? & ? & ?). exists d'. set_solver.
    + apply Forall2_length in Hsh. rewrite length_take in Hsh. rewrite length_app. cbn. lia.
Qed.

Lemma Reading_once ds es :
  cursorOf None = None -> (forall d, d ∈ ds -> NoDup (map key (matching d))) ->
  (forall c d es next, d ∈ ds -> answered c d es next -> pageAnswer c d es next) -> Reading None ds es -> readOnce ds es.
Proof.
  intros Hnone Hn Ha Hr. destruct (Reading_Chain _ _ _ Hr Ha) as (out & Hc & Hs & Hlen). rewrite Hnone in Hc.
  assert (Hnd : Forall (fun l => NoDup (map key l)) (map matching ds)).
  { apply Forall_forall. intros l (d & -> & Hd)%list_elem_of_fmap. by apply Hn. }
  exists out. split_and!; [by apply (Chain_sorted key ahead compare None (map matching ds))|done| |done].
  intros k Hk. eapply (Chain_complete key ahead compare); [exact Hc|done| |done]. intros l (d & -> & Hd)%list_elem_of_fmap. by apply Hk.
Qed.
End Reading.

(** ** A handler with cursors

    The key a cursor text stands for, and a handler that reads the cursor, lists
    a page past it and encodes the key of its last row when there is more. *)
Definition keyFrom {K} (read : option string -> Result (option K)) (c : option string) : option K :=
  match read c with Ok key => key | Throw _ => None end.

Section Answer.
Context {D R E K : Type} (key : R -> K) (ahead : K -> K -> bool) (compare : K -> K -> Z).
Context (matching : D -> list R) (shows : D -> R -> E -> Prop).
Context (read : option string -> Result (option K)) (encode : R -> string).

Lemma pageAnswer_read c d es next limit cursor :
  let rows := pageRows key ahead compare cursor (Z.to_nat limit) (matching d) in
  1 <= limit -> read c = Ok cursor -> (forall r, r ∈ matching d -> read (Some (encode r)) = Ok (Some (key r))) ->
  Forall2 (shows d) (take (Z.to_nat limit) rows) es ->
  next = (if limit <? Z.of_nat (length rows) then encode <$> last (take (Z.to_nat limit) rows) else None) ->
  pageAnswer key ahead compare matching shows (keyFrom read) c d es next.
Proof.
  intros rows Hl Hc Henc Hsh ->. exists (Z.to_nat limit). assert (Ek : keyFrom read c = cursor) by (unfold keyFrom; by rewrite Hc).
  rewrite Ek. fold rows. split; [lia|].
  assert (Hin : forall r, r ∈ take (Z.to_nat limit) rows -> r ∈ matching d).
  { intros r Hr%takeElem. by apply pageRows_elem in Hr as [Hr _]. }
  split.
  - revert Hin. induction Hsh as [|r e l k He Hsh IH]; intros Hin; constructor; [split; [apply Hin; set_solver|done]|].
    apply IH. intros x Hx. apply Hin. set_solver.
  - destruct (limit <? Z.of_nat (length rows)) eqn:El; bools; [|cbn; lia].
    destruct (last (take (Z.to_nat limit) rows)) as [x|] eqn:Ex; cbn [fmap option_fmap option_map].
    + split; [lia|]. exists x. split; [done|]. unfold keyFrom. rewrite Henc; [done|]. apply Hin. apply last_Some in Ex as [k ->]. set_solver.
    + exfalso. apply last_None in Ex. apply (f_equal length) in Ex. rewrite length_take in Ex. cbn in Ex. lia.
Qed.
End Answer.
