(* ===== verification/Database.v ===== *)
(** * The database and its transactions

    The tables the modelled services read and write, as lists of rows, and the
    monad their handlers run in: [TenantDatabase.withTenant] of
    apps/api-v2/src/platform/database.ts, the guarded waits of
    apps/api-v2/src/operations/operations.service.ts and the Prisma calls the
    handlers make.

    A world is a database and a tick that advances at every call that leaves
    the process.  What a call meets there is decided by the environment ([Env]),
    a function of the tick: the clock, fresh identifiers, driver failures,
    whether the caller's authority still stands.  Theorems hold for every
    environment. *)

From S2P Require Import Prelude JsStd JsCollections JsDate ContractHelpers PayrollDates PayrollRecords.

(** ** Rows *)

Record Tenant := mkTenant {
  tn_id : string;
  tn_planTier : string;
  tn_status : string;
  tn_stripeSubscriptionId : option string;
  tn_stripeSubscriptionCurrentPeriodEnd : option Z;
  tn_trialEndsAt : option Z;
  tn_usageCredits : Z;
  tn_creditDebt : Z;
  tn_deletedAt : option Z;
  tn_name : string;
  tn_slug : string;
}.

Record TenantSetting := mkSetting { ts_tenantId : string; ts_key : string; ts_value : Json }.

Record PlanDefinition := mkPlanDefinition {
  pd_code : string; pd_metadata : Json; pd_name : string; pd_locationLimit : option Z;
}.

Record CreditTransaction := mkCredit {
  ct_id : string;
  ct_tenantId : string;
  ct_amount : Z;
  ct_debtAmount : Z;
  ct_reason : string;
  ct_balanceAfter : option Z;
  ct_debtAfter : option Z;
}.

(** Rows are appended: the order of the table is the order of [createdAt]. *)
Record AuditLog := mkAudit {
  al_id : string;
  al_tenantId : string;
  al_userId : option string;
  al_action : string;
  al_resource : string;
  al_resourceId : option string;
  al_oldValue : option Json;
  al_newValue : option Json;
  al_ipAddress : option string;
  al_userAgent : option string;
}.

Record Location := mkLocation {
  lo_id : string; lo_publicId : string; lo_tenantId : string; lo_deletedAt : option Z;
  lo_name : string; lo_timezone : string; lo_address : option string;
  lo_creationRequestKeyHash : option string; lo_creationRequestHash : option string;
  lo_createdAt : Z; lo_updatedAt : Z;
}.

Record User := mkUser {
  us_id : string;
  us_publicId : string;
  us_tenantId : string;
  us_name : string;
  us_role : string;
  us_deletedAt : option Z;
  us_suspendedAt : option Z;
  us_username : option string;
}.

Inductive ScheduleStatus := DRAFT | PUBLISHED | ARCHIVED.

#[global] Instance ScheduleStatus_eq_dec : EqDecision ScheduleStatus.
Proof. solve_decision. Defined.

Record Schedule := mkSchedule {
  sc_id : string;
  sc_publicId : string;
  sc_tenantId : string;
  sc_locationId : string;
  sc_startDate : Z;
  sc_endDate : Z;
  sc_status : ScheduleStatus;
  sc_publishedAt : option Z;
  sc_revision : Z;
  sc_deletedAt : option Z;
}.

Record Shift := mkShift {
  sh_id : string;
  sh_publicId : string;
  sh_tenantId : string;
  sh_locationId : string;
  sh_scheduleId : option string;
  sh_userId : option string;
  sh_startTime : Z;
  sh_endTime : Z;
  sh_role : option string;
  sh_updatedAt : Z;
  sh_deletedAt : option Z;
}.

Record BreakRow := mkBreak {
  br_id : string;
  br_shiftId : string;
  br_type : option string;
  br_startTime : Z;
  br_endTime : Z;
  br_paid : bool;
}.

Record ScheduleChangeSet := mkChangeSet {
  cs_id : string;
  cs_tenantId : string;
  cs_scheduleId : string;
  cs_actorUserId : string;
  cs_idempotencyKeyHash : string;
  cs_requestHash : string;
  cs_baseRevision : Z;
  cs_resultRevision : Z;
  cs_request : Json;
  cs_response : Json;
}.

Record ScheduleDemandWindow := mkDemand {
  dw_id : string;
  dw_publicId : string;
  dw_tenantId : string;
  dw_scheduleId : string;
  dw_locationId : string;
  dw_startTime : Z;
  dw_endTime : Z;
  dw_requiredStaff : Z;
  dw_skill : option string;
}.

Inductive NotificationType := INFO | SUCCESS | WARNING | ERROR | SCHEDULE_PUBLISHED | SHIFT_ASSIGNED | SHIFT_CHANGED.

Record Notification := mkNotification {
  nf_id : string;
  nf_publicId : string;
  nf_tenantId : string;
  nf_userId : string;
  nf_type : NotificationType;
  nf_title : string;
  nf_body : string;
  nf_readAt : option Z;
  nf_createdAt : Z;
}.

Record GenerationRow := mkGeneration {
  gn_id : string;
  gn_tenantId : string;
  gn_requestKeyHash : string;
  gn_requestHash : string;
  gn_status : string;
  gn_creditConsumption : option Json;
  gn_response : option Json;
  gn_failureStatus : option Z;
  gn_failureMessage : option string;
  gn_claimToken : option string;
  gn_claimExpiresAt : option Z;
  gn_attempts : Z;
  gn_creditTransactionId : option string;
  gn_completedAt : option Z;
  gn_calculationSnapshot : option Json;
}.

Record TimeCard := mkTimeCard {
  tc_id : string;
  tc_publicId : string;
  tc_tenantId : string;
  tc_userId : string;
  tc_locationId : option string;
  tc_shiftId : option string;
  tc_clockInOperationId : option string;
  tc_clockInRequestHash : option string;
  tc_clockInAt : Z;
  tc_clockOutAt : option Z;
  tc_payrollPeriodId : option string;
  tc_workTimeZone : string;
  tc_revision : Z;
  tc_breakMinutes : Z;
  tc_notes : option string;
  tc_status : CardStatus;
  tc_createdAt : Z;
  tc_updatedAt : Z;
  tc_deletedAt : option Z;
}.

Definition openCard (c : TimeCard) : bool :=
  bool_decide (tc_status c = OPEN) && bool_decide (tc_deletedAt c = None).

Record TimeCardBreak := mkCardBreak {
  tb_id : string; tb_publicId : string; tb_tenantId : string; tb_timeCardId : string; tb_startAt : Z; tb_endAt : Z;
}.

(** [status] is ['OPEN'], ['REVIEW'] or ['LOCKED']. *)
Record PayrollPeriodRow := mkPeriodRow {
  py_id : string;
  py_publicId : string;
  py_tenantId : string;
  py_policyVersionId : string;
  py_localStartDate : Z;
  py_localEndDateExclusive : Z;
  py_startsAt : Z;
  py_endsAt : Z;
  py_timeZone : string;
  py_cadence : Cadence;
  py_status : string;
  py_revision : Z;
  py_reviewStartedAt : option Z;
  py_reviewStartedByUserId : option string;
  py_lockedAt : option Z;
  py_lockedByUserId : option string;
  py_lockOperationId : option string;
  py_lockRequestHash : option string;
  py_lockedEntrySha256 : option string;
  py_lockedEntryCount : option Z;
  py_totalPayableMinutes : option Z;
  py_createdAt : Z;
  py_updatedAt : Z;
}.

Record PayrollPolicyVersion := mkPolicyVersion {
  pv_id : string;
  pv_publicId : string;
  pv_tenantId : string;
  pv_version : Z;
  pv_timeZone : string;
  pv_cadence : Cadence;
  pv_anchorDate : Z;
  pv_effectiveFrom : Z;
  pv_operationId : string;
  pv_requestHash : string;
  pv_createdByUserId : string;
  pv_createdAt : Z;
}.

Record PayrollOperation := mkOperation {
  po_operationId : string;
  po_tenantId : string;
  po_periodId : option string;
  po_kind : PayrollOperationName;
  po_requestHash : string;
  po_response : Json;
}.

Record PayrollTimeCardApproval := mkCardApproval {
  av_id : string;
  av_tenantId : string;
  av_periodId : string;
  av_timeCardId : string;
  av_timeCardRevision : Z;
  av_decision : Decision;
  av_reason : option string;
  av_operationId : string;
  av_requestHash : string;
  av_decidedAt : Z;
  av_decidedByUserId : string;
}.

Record PayrollLockedEntry := mkLockedEntry {
  pe_id : string;
  pe_publicId : string;
  pe_tenantId : string;
  pe_periodId : string;
  pe_sequence : Z;
  pe_sourceType : string;
  pe_sourceId : string;
  pe_sourceRevision : Z;
  pe_employeeId : string;
  pe_locationId : option string;
  pe_workTimeZone : string;
  pe_clockInAt : Z;
  pe_clockOutAt : Z;
  pe_breakMinutes : Z;
  pe_payableMinutes : Z;
  pe_approvedAt : Z;
  pe_approvedByUserId : string;
  pe_canonicalSha256 : string;
}.

Record PayrollAmendment := mkPayrollAmendment {
  pm_id : string;
  pm_publicId : string;
  pm_tenantId : string;
  pm_lockedEntryId : string;
  pm_adjustmentPeriodId : string;
  pm_operationId : string;
  pm_requestHash : string;
  pm_requestedByUserId : string;
  pm_reason : string;
  pm_replacementClockInAt : Z;
  pm_replacementClockOutAt : Z;
  pm_replacementBreakMinutes : Z;
  pm_replacementPayableMinutes : Z;
  pm_minuteDelta : Z;
  pm_createdAt : Z;
}.

Record PayrollAmendmentDecision := mkAmendmentDecision {
  px_id : string;
  px_tenantId : string;
  px_amendmentId : string;
  px_decision : Decision;
  px_reason : option string;
  px_operationId : string;
  px_requestHash : string;
  px_decidedByUserId : string;
  px_decidedAt : Z;
}.

Inductive ExportStatus := GENERATED | DOWNLOADED | RECONCILING | RECONCILED.

#[global] Instance ExportStatus_eq_dec : EqDecision ExportStatus.
Proof. solve_decision. Defined.

Record PayrollExportBatch := mkExportBatch {
  xb_id : string;
  xb_publicId : string;
  xb_tenantId : string;
  xb_periodId : string;
  xb_operationId : string;
  xb_requestHash : string;
  xb_creditTransactionId : string;
  xb_formatVersion : Z;
  xb_status : ExportStatus;
  xb_contentSha256 : string;
  xb_rowCount : Z;
  xb_totalPayableMinutes : Z;
  xb_consumedCredits : Z;
  xb_newBalance : Z;
  xb_createdAt : Z;
  xb_downloadedAt : option Z;
  xb_reconciledAt : option Z;
  xb_updatedAt : Z;
}.

Record PayrollExportLine := mkExportLine {
  xl_id : string;
  xl_publicId : string;
  xl_tenantId : string;
  xl_batchId : string;
  xl_lineNumber : Z;
  xl_lockedEntryId : string;
  xl_sourceType : string;
  xl_sourceId : string;
  xl_employeeId : string;
  xl_locationId : option string;
  xl_workTimeZone : string;
  xl_clockInAt : Z;
  xl_clockOutAt : Z;
  xl_breakMinutes : Z;
  xl_payableMinutes : Z;
  xl_canonicalSha256 : string;
}.

Record PayrollReconciliationReceipt := mkReceipt {
  xr_id : string;
  xr_publicId : string;
  xr_tenantId : string;
  xr_batchId : string;
  xr_provider : string;
  xr_providerEventId : string;
  xr_payloadSha256 : string;
  xr_providerTotalMinutes : Z;
  xr_acceptedCount : Z;
  xr_rejectedCount : Z;
  xr_pendingCount : Z;
  xr_receivedByUserId : string;
  xr_receivedAt : Z;
}.

Record PayrollReconciliationLineEvent := mkLineEvent {
  xe_id : string;
  xe_tenantId : string;
  xe_receiptId : string;
  xe_batchId : string;
  xe_lineId : string;
  xe_status : OutcomeStatus;
  xe_reason : option string;
}.

Record PayrollReconciliationLineState := mkLineState {
  xs_id : string;
  xs_tenantId : string;
  xs_batchId : string;
  xs_lineId : string;
  xs_status : OutcomeStatus;
  xs_latestReceiptId : string;
  xs_reason : option string;
}.

(** A UUID column holds lower-case text and compares values, not spellings. *)
Definition lowerText (s : string) : string := ofChars (map toLowerChar (chars s)).
Definition sameUuid (stored text : string) : bool := bool_decide (stored = lowerText text).

(** [[0-9a-f]{8}-[0-9a-f]{4}-[1-8][0-9a-f]{3}-[89ab][0-9a-f]{3}-[0-9a-f]{12}],
    ignoring case. *)
Definition uuidChar (i : nat) (c : ascii) : bool :=
  if bool_decide (i ∈ [8; 13; 18; 23]%nat) then bool_decide (c = "-"%char)
  else if (i =? 14)%nat then (49 <=? codeUnit c) && (codeUnit c <=? 56)
  else if (i =? 19)%nat then bool_decide (toLowerChar c ∈ ["8"; "9"; "a"; "b"]%char)
  else isHex c.
Definition isUuid (s : string) : bool :=
  (strLen s =? 36) && forallb (fun e : nat * ascii => uuidChar e.1 e.2) (imap pair (chars s)).

(** The order of text in SQL: the collation of the database. *)
Class Collation := collate : string -> string -> Z.

(** ** The database *)

(** The tables of the payroll service alone. *)
Record PayrollTables := mkPayrollTables {
  pt_operations : list PayrollOperation;
  pt_approvals : list PayrollTimeCardApproval;
  pt_entries : list PayrollLockedEntry;
  pt_amendments : list PayrollAmendment;
  pt_decisions : list PayrollAmendmentDecision;
}.

(** The tables of payroll's exports. *)
Record ExportTables := mkExportTables {
  et_batches : list PayrollExportBatch;
  et_lines : list PayrollExportLine;
  et_receipts : list PayrollReconciliationReceipt;
  et_events : list PayrollReconciliationLineEvent;
  et_states : list PayrollReconciliationLineState;
}.

Record Db := mkDb {
  db_tenants : list Tenant;
  db_settings : list TenantSetting;
  db_plans : list PlanDefinition;
  db_credits : list CreditTransaction;
  db_audits : list AuditLog;
  db_locations : list Location;
  db_users : list User;
  db_schedules : list Schedule;
  db_shifts : list Shift;
  db_breaks : list BreakRow;
  db_changeSets : list ScheduleChangeSet;
  db_generations : list GenerationRow;
  db_timeCards : list TimeCard;
  db_cardBreaks : list TimeCardBreak;
  db_periods : list PayrollPeriodRow;
  db_policies : list PayrollPolicyVersion;
  db_payroll : PayrollTables;
  db_exports : ExportTables;
  db_demand : list ScheduleDemandWindow;
  db_notifications : list Notification;
}.

(** A table of the database: its rows, their replacement, and when a unique
    index forbids a new row beside an old one. *)
Class Table (R : Type) := {
  rows : Db -> list R;
  withRows : list R -> Db -> Db;
  conflicts : R -> R -> bool;
  rows_withRows : forall l db, rows (withRows l db) = l;
}.

#[global, refine] Instance Table_Tenant : Table Tenant := {|
  rows := db_tenants;
  withRows l '(mkDb _ a b c d e f g h i j k m n o p q r s t) := mkDb l a b c d e f g h i j k m n o p q r s t;
  conflicts x y := bool_decide (tn_id x = tn_id y);
|}. Proof. by intros ? []. Defined.
#[global, refine] Instance Table_Setting : Table TenantSetting := {|
  rows := db_settings;
  withRows l '(mkDb a _ b c d e f g h i j k m n o p q r s t) := mkDb a l b c d e f g h i j k m n o p q r s t;
  conflicts x y := bool_decide (ts_tenantId x = ts_tenantId y) && bool_decide (ts_key x = ts_key y);
|}. Proof. by intros ? []. Defined.
#[global, refine] Instance Table_Plan : Table PlanDefinition := {|
  rows := db_plans;
  withRows l '(mkDb a b _ c d e f g h i j k m n o p q r s t) := mkDb a b l c d e f g h i j k m n o p q r s t;
  conflicts x y := bool_decide (pd_code x = pd_code y);
|}. Proof. by intros ? []. Defined.
#[global, refine] Instance Table_Credit : Table CreditTransaction := {|
  rows := db_credits;
  withRows l '(mkDb a b c _ d e f g h i j k m n o p q r s t) := mkDb a b c l d e f g h i j k m n o p q r s t;
  conflicts x y := bool_decide (ct_id x = ct_id y);
|}. Proof. by intros ? []. Defined.
#[global, refine] Instance Table_Audit : Table AuditLog := {|
  rows := db_audits;
  withRows l '(mkDb a b c d _ e f g h i j k m n o p q r s t) := mkDb a b c d l e f g h i j k m n o p q r s t;
  conflicts x y := bool_decide (al_id x = al_id y);
|}. Proof. by intros ? []. Defined.
#[global, refine] Instance Table_Location : Table Location := {|
  rows := db_locations;
  withRows l '(mkDb a b c d e _ f g h i j k m n o p q r s t) := mkDb a b c d e l f g h i j k m n o p q r s t;
  conflicts x y := bool_decide (lo_id x = lo_id y) || bool_decide (lo_publicId x = lo_publicId y)
    || (bool_decide (lo_tenantId x = lo_tenantId y) && bool_decide (is_Some (lo_creationRequestKeyHash x))
        && bool_decide (lo_creationRequestKeyHash x = lo_creationRequestKeyHash y));
|}. Proof. by intros ? []. Defined.
#[global, refine] Instance Table_User : Table User := {|
  rows := db_users;
  withRows l '(mkDb a b c d e f _ g h i j k m n o p q r s t) := mkDb a b c d e f l g h i j k m n o p q r s t;
  conflicts x y := bool_decide (us_id x = us_id y);
|}. Proof. by intros ? []. Defined.
#[global, refine] Instance Table_Schedule : Table Schedule := {|
  rows := db_schedules;
  withRows l '(mkDb a b c d e f g _ h i j k m n o p q r s t) := mkDb a b c d e f g l h i j k m n o p q r s t;
  conflicts x y := bool_decide (sc_id x = sc_id y);
|}. Proof. by intros ? []. Defined.
#[global, refine] Instance Table_Shift : Table Shift := {|
  rows := db_shifts;
  withRows l '(mkDb a b c d e f g h _ i j k m n o p q r s t) := mkDb a b c d e f g h l i j k m n o p q r s t;
  conflicts x y := bool_decide (sh_id x = sh_id y) || bool_decide (sh_publicId x = sh_publicId y);
|}. Proof. by intros ? []. Defined.
#[global, refine] Instance Table_Break : Table BreakRow := {|
  rows := db_breaks;
  withRows l '(mkDb a b c d e f g h i _ j k m n o p q r s t) := mkDb a b c d e f g h i l j k m n o p q r s t;
  conflicts x y := bool_decide (br_id x = br_id y);
|}. Proof. by intros ? []. Defined.
#[global, refine] Instance Table_ChangeSet : Table ScheduleChangeSet := {|
  rows := db_changeSets;
  withRows l '(mkDb a b c d e f g h i j _ k m n o p q r s t) := mkDb a b c d e f g h i j l k m n o p q r s t;
  conflicts x y := bool_decide (cs_id x = cs_id y)
    || (bool_decide (cs_tenantId x = cs_tenantId y)
        && bool_decide (cs_idempotencyKeyHash x = cs_idempotencyKeyHash y));
|}. Proof. by intros ? []. Defined.
#[global, refine] Instance Table_Generation : Table GenerationRow := {|
  rows := db_generations;
  withRows l '(mkDb a b c d e f g h i j k _ m n o p q r s t) := mkDb a b c d e f g h i j k l m n o p q r s t;
  conflicts x y := bool_decide (gn_id x = gn_id y)
    || (bool_decide (gn_tenantId x = gn_tenantId y)
        && bool_decide (gn_requestKeyHash x = gn_requestKeyHash y));
|}. Proof. by intros ? []. Defined.
#[global, refine] Instance Table_TimeCard : Table TimeCard := {|
  rows := db_timeCards;
  withRows l '(mkDb a b c d e f g h i j k m _ n o p q r s t) := mkDb a b c d e f g h i j k m l n o p q r s t;
  conflicts x y := bool_decide (tc_id x = tc_id y) || bool_decide (tc_publicId x = tc_publicId y)
    || (bool_decide (is_Some (tc_clockInOperationId x))
        && bool_decide (tc_clockInOperationId x = tc_clockInOperationId y))
    || (openCard x && openCard y && bool_decide (tc_tenantId x = tc_tenantId y)
        && bool_decide (tc_userId x = tc_userId y));
|}. Proof. by intros ? []. Defined.
#[global, refine] Instance Table_CardBreak : Table TimeCardBreak := {|
  rows := db_cardBreaks;
  withRows l '(mkDb a b c d e f g h i j k m n _ o p q r s t) := mkDb a b c d e f g h i j k m n l o p q r s t;
  conflicts x y := bool_decide (tb_id x = tb_id y);
|}. Proof. by intros ? []. Defined.
#[global, refine] Instance Table_Period : Table PayrollPeriodRow := {|
  rows := db_periods;
  withRows l '(mkDb a b c d e f g h i j k m n o _ p q r s t) := mkDb a b c d e f g h i j k m n o l p q r s t;
  conflicts x y := bool_decide (py_id x = py_id y) || bool_decide (py_publicId x = py_publicId y)
    || (bool_decide (py_tenantId x = py_tenantId y) && bool_decide (py_localStartDate x = py_localStartDate y))
    || (bool_decide (is_Some (py_lockOperationId x)) && bool_decide (py_lockOperationId x = py_lockOperationId y));
|}. Proof. by intros ? []. Defined.
#[global, refine] Instance Table_Policy : Table PayrollPolicyVersion := {|
  rows := db_policies;
  withRows l '(mkDb a b c d e f g h i j k m n o p _ q r s t) := mkDb a b c d e f g h i j k m n o p l q r s t;
  conflicts x y := bool_decide (pv_id x = pv_id y) || bool_decide (pv_publicId x = pv_publicId y)
    || bool_decide (pv_operationId x = pv_operationId y)
    || (bool_decide (pv_tenantId x = pv_tenantId y)
        && (bool_decide (pv_version x = pv_version y) || bool_decide (pv_effectiveFrom x = pv_effectiveFrom y)));
|}. Proof. by intros ? []. Defined.

Definition onPayroll (f : PayrollTables -> PayrollTables) (db : Db) : Db :=
  let '(mkDb a b c d e f0 g h i j k m n o p q r s t u) := db in mkDb a b c d e f0 g h i j k m n o p q (f r) s t u.

#[global, refine] Instance Table_Operation : Table PayrollOperation := {|
  rows db := pt_operations (db_payroll db);
  withRows l := onPayroll (fun '(mkPayrollTables _ b c d e) => mkPayrollTables l b c d e);
  conflicts x y := bool_decide (po_operationId x = po_operationId y);
|}. Proof. by intros ? [???????????????? [] ? ? ?]. Defined.
#[global, refine] Instance Table_Approval : Table PayrollTimeCardApproval := {|
  rows db := pt_approvals (db_payroll db);
  withRows l := onPayroll (fun '(mkPayrollTables a _ c d e) => mkPayrollTables a l c d e);
  conflicts x y := bool_decide (av_id x = av_id y) || bool_decide (av_operationId x = av_operationId y)
    || (bool_decide (av_tenantId x = av_tenantId y) && bool_decide (av_timeCardId x = av_timeCardId y)
        && bool_decide (av_timeCardRevision x = av_timeCardRevision y));
|}. Proof. by intros ? [???????????????? [] ? ? ?]. Defined.
#[global, refine] Instance Table_Entry : Table PayrollLockedEntry := {|
  rows db := pt_entries (db_payroll db);
  withRows l := onPayroll (fun '(mkPayrollTables a b _ d e) => mkPayrollTables a b l d e);
  conflicts x y := bool_decide (pe_id x = pe_id y) || bool_decide (pe_publicId x = pe_publicId y)
    || (bool_decide (pe_periodId x = pe_periodId y)
        && (bool_decide (pe_sequence x = pe_sequence y)
            || (bool_decide (pe_sourceType x = pe_sourceType y) && bool_decide (pe_sourceId x = pe_sourceId y))));
|}. Proof. by intros ? [???????????????? [] ? ? ?]. Defined.
#[global, refine] Instance Table_Amendment : Table PayrollAmendment := {|
  rows db := pt_amendments (db_payroll db);
  withRows l := onPayroll (fun '(mkPayrollTables a b c _ e) => mkPayrollTables a b c l e);
  conflicts x y := bool_decide (pm_id x = pm_id y) || bool_decide (pm_publicId x = pm_publicId y)
    || bool_decide (pm_operationId x = pm_operationId y);
|}. Proof. by intros ? [???????????????? [] ? ? ?]. Defined.
#[global, refine] Instance Table_Decision : Table PayrollAmendmentDecision := {|
  rows db := pt_decisions (db_payroll db);
  withRows l := onPayroll (fun '(mkPayrollTables a b c d _) => mkPayrollTables a b c d l);
  conflicts x y := bool_decide (px_id x = px_id y) || bool_decide (px_operationId x = px_operationId y)
    || bool_decide (px_amendmentId x = px_amendmentId y);
|}. Proof. by intros ? [???????????????? [] ? ? ?]. Defined.

Definition onExports (f : ExportTables -> ExportTables) (db : Db) : Db :=
  let '(mkDb a b c d e f0 g h i j k m n o p q r s t u) := db in mkDb a b c d e f0 g h i j k m n o p q r (f s) t u.

#[global, refine] Instance Table_Batch : Table PayrollExportBatch := {|
  rows db := et_batches (db_exports db);
  withRows l := onExports (fun '(mkExportTables _ b c d e) => mkExportTables l b c d e);
  conflicts x y := bool_decide (xb_id x = xb_id y) || bool_decide (xb_publicId x = xb_publicId y)
    || bool_decide (xb_periodId x = xb_periodId y) || bool_decide (xb_operationId x = xb_operationId y)
    || bool_decide (xb_creditTransactionId x = xb_creditTransactionId y);
|}. Proof. by intros ? [????????????????? [] ? ?]. Defined.
#[global, refine] Instance Table_Line : Table PayrollExportLine := {|
  rows db := et_lines (db_exports db);
  withRows l := onExports (fun '(mkExportTables a _ c d e) => mkExportTables a l c d e);
  conflicts x y := bool_decide (xl_id x = xl_id y) || bool_decide (xl_publicId x = xl_publicId y)
    || (bool_decide (xl_batchId x = xl_batchId y)
        && (bool_decide (xl_lineNumber x = xl_lineNumber y) || bool_decide (xl_lockedEntryId x = xl_lockedEntryId y)));
|}. Proof. by intros ? [????????????????? [] ? ?]. Defined.
#[global, refine] Instance Table_Receipt : Table PayrollReconciliationReceipt := {|
  rows db := et_receipts (db_exports db);
  withRows l := onExports (fun '(mkExportTables a b _ d e) => mkExportTables a b l d e);
  conflicts x y := bool_decide (xr_id x = xr_id y) || bool_decide (xr_publicId x = xr_publicId y)
    || (bool_decide (xr_tenantId x = xr_tenantId y) && bool_decide (xr_provider x = xr_provider y)
        && bool_decide (xr_providerEventId x = xr_providerEventId y));
|}. Proof. by intros ? [????????????????? [] ? ?]. Defined.
#[global, refine] Instance Table_Event : Table PayrollReconciliationLineEvent := {|
  rows db := et_events (db_exports db);
  withRows l := onExports (fun '(mkExportTables a b c _ e) => mkExportTables a b c l e);
  conflicts x y := bool_decide (xe_id x = xe_id y)
    || (bool_decide (xe_receiptId x = xe_receiptId y) && bool_decide (xe_lineId x = xe_lineId y));
|}. Proof. by intros ? [????????????????? [] ? ?]. Defined.
#[global, refine] Instance Table_State : Table PayrollReconciliationLineState := {|
  rows db := et_states (db_exports db);
  withRows l := onExports (fun '(mkExportTables a b c d _) => mkExportTables a b c d l);
  conflicts x y := bool_decide (xs_id x = xs_id y)
    || (bool_decide (xs_batchId x = xs_batchId y) && bool_decide (xs_lineId x = xs_lineId y));
|}. Proof. by intros ? [????????????????? [] ? ?]. Defined.

#[global, refine] Instance Table_Demand : Table ScheduleDemandWindow := {|
  rows := db_demand;
  withRows l '(mkDb a b c d e f g h i j k m n o p q r s _ t) := mkDb a b c d e f g h i j k m n o p q r s l t;
  conflicts x y := bool_decide (dw_id x = dw_id y) || bool_decide (dw_publicId x = dw_publicId y);
|}. Proof. by intros ? []. Defined.
#[global, refine] Instance Table_Notification : Table Notification := {|
  rows := db_notifications;
  withRows l '(mkDb a b c d e f g h i j k m n o p q r s t _) := mkDb a b c d e f g h i j k m n o p q r s t l;
  conflicts x y := bool_decide (nf_id x = nf_id y) || bool_decide (nf_publicId x = nf_publicId y);
|}. Proof. by intros ? []. Defined.

(** ** The deferred constraint

    TimeCard_employee_no_overlap of
    packages/db/prisma/migrations/20260713_time_card_corrections.sql: the
    half-open ranges of a worker's live cards do not meet; an open card has no
    upper bound, and an empty range meets nothing. *)

Definition cardCounts (c : TimeCard) : bool :=
  bool_decide (tc_deletedAt c = None) && negb (bool_decide (tc_status c = VOID)).

Definition beforeEnd (t : Z) (c : TimeCard) : bool :=
  match tc_clockOutAt c with Some out => t <? out | None => true end.

Definition rangesMeet (a b : TimeCard) : bool :=
  beforeEnd (tc_clockInAt a) a && beforeEnd (tc_clockInAt b) b
  && beforeEnd (tc_clockInAt a) b && beforeEnd (tc_clockInAt b) a.

Definition cardsClash (a b : TimeCard) : bool :=
  bool_decide (tc_tenantId a = tc_tenantId b) && bool_decide (tc_userId a = tc_userId b)
  && cardCounts a && cardCounts b && rangesMeet a b.

Fixpoint cardsExclusive (cards : list TimeCard) : bool :=
  match cards with
  | [] => true
  | c :: rest => forallb (fun d => negb (cardsClash c d)) rest && cardsExclusive rest
  end.

(** ** The monad *)

Class Env := {
  nowAt : nat -> Z;                  (* [Date.now()] *)
  uuidAt : nat -> string;            (* [randomUUID()] and database defaults *)
  faultAt : nat -> option Exn;       (* a failure of the driver *)
  currentAt : nat -> option Exn;     (* what [assertCurrent()] throws *)
}.

Record World := mkWorld { w_db : Db; w_tick : nat }.

Lemma w_db_mk db n : w_db (mkWorld db n) = db.
Proof. done. Qed.

Definition Tx (A : Type) : Type := World -> Result A * World.

#[global] Instance Tx_ret : MRet Tx := fun A a w => (Ok a, w).
#[global] Instance Tx_bind : MBind Tx := fun A B f m w =>
  match m w with (Ok a, w') => f a w' | (Throw e, w') => (Throw e, w') end.

Definition throwTx {A} (e : Exn) : Tx A := fun w => (Throw e, w).
Definition liftResult {A} (r : Result A) : Tx A := fun w => (r, w).
Definition throwProblemTx {A} (st : Z) (cd dt tt : string) : Tx A :=
  throwTx (Problem (problemError st cd dt tt)).

Definition tick (w : World) : World := mkWorld (w_db w) (S (w_tick w)).

Section Calls.
Context `{Env}.

Definition now : Tx Z := fun w => (Ok (nowAt (w_tick w)), tick w).
Definition randomUUID : Tx string := fun w => (Ok (uuidAt (w_tick w)), tick w).
Definition assertCurrent : Tx unit := fun w =>
  (match currentAt (w_tick w) with Some e => Throw e | None => Ok () end, tick w).

(** [operationsWait(assertCurrent, operation)] *)
Definition operationsWait {A} (operation : Tx A) : Tx A :=
  _ ← assertCurrent; result ← operation; _ ← assertCurrent; mret result.

(** A call to the database, which may fail instead. *)
Definition query {A} (f : Db -> Result (A * Db)) : Tx A := fun w =>
  match faultAt (w_tick w) with
  | Some e => (Throw e, tick w)
  | None =>
      match f (w_db w) with
      | Ok (a, db) => (Ok a, mkWorld db (S (w_tick w)))
      | Throw e => (Throw e, tick w)
      end
  end.

(** [findFirst], [findUnique] *)
Definition findFirst {R} `{Table R} (p : R -> bool) : Tx (option R) :=
  query (fun db => Ok (List.find p (rows db), db)).

(** [findMany], the order left to the caller. *)
Definition findMany {R} `{Table R} (p : R -> bool) : Tx (list R) :=
  query (fun db => Ok (List.filter p (rows db), db)).

(** [updateMany], returning the count. *)
Definition updateMany {R} `{Table R} (p : R -> bool) (f : R -> R) : Tx nat :=
  query (fun db => Ok (length (List.filter p (rows db)),
    withRows (map (fun r => if p r then f r else r) (rows db)) db)).

(** [update({ where: { id } })], which returns the row. *)
Definition updateRow {R} `{Table R} (p : R -> bool) (f : R -> R) : Tx R :=
  query (fun db => match List.find p (rows db) with
                   | None => Throw (DriverError "P2025" None)
                   | Some row => Ok (f row, withRows (map (fun r => if p r then f r else r) (rows db)) db)
                   end).

Definition countRows {R} `{Table R} (p : R -> bool) : Tx Z := query (fun db => Ok (Z.of_nat (length (List.filter p (rows db))), db)).

(** [create]: a unique index raises P2002. *)
Definition createRow {R} `{Table R} (r : R) : Tx unit :=
  query (fun db => if existsb (conflicts r) (rows db) then Throw (DriverError "P2002" None)
                   else Ok (tt, withRows (rows db ++ [r]) db)).

(** A row of a list conflicts with a later one. *)
Fixpoint anyConflict {R} `{Table R} (l : list R) : bool :=
  match l with
  | [] => false
  | r :: rest => existsb (conflicts r) rest || anyConflict rest
  end.

(** [updateMany] of a column of a unique index. *)
Definition updateUnique {R} `{Table R} (p : R -> bool) (f : R -> R) : Tx nat :=
  query (fun db =>
    let updated := map (fun r => if p r then f r else r) (rows db) in
    if anyConflict updated then Throw (DriverError "P2002" None)
    else Ok (length (List.filter p (rows db)), withRows updated db)).

(** [createMany]: one statement that inserts every row or none. *)
Fixpoint insertAll {R} `{Table R} (news : list R) (l : list R) : option (list R) :=
  match news with
  | [] => Some l
  | r :: rest => if existsb (conflicts r) l then None else insertAll rest (l ++ [r])
  end.
Definition createMany {R} `{Table R} (news : list R) : Tx unit :=
  query (fun db => match insertAll news (rows db) with
                   | Some l => Ok (tt, withRows l db)
                   | None => Throw (DriverError "P2002" None)
                   end).

Definition deleteMany {R} `{Table R} (p : R -> bool) : Tx unit :=
  query (fun db => Ok (tt, withRows (List.filter (fun r => negb (p r)) (rows db)) db)).

(** [for (const item of items) await f(item);] *)
Fixpoint forEach {A} (f : A -> Tx unit) (items : list A) : Tx unit :=
  match items with
  | [] => mret tt
  | item :: rest => _ ← f item; forEach f rest
  end.

(** A statement whose effect the model does not see: [set_current_tenant],
    row and table locks. *)
Definition statement : Tx unit := query (fun db => Ok (tt, db)).

(** The commit, where the deferred constraint is checked. *)
Definition commit : Tx unit := query (fun db =>
  if cardsExclusive (db_timeCards db) then Ok (tt, db)
  else Throw (JsError "conflicting key value violates exclusion constraint TimeCard_employee_no_overlap")).

(** An error, at the commit included, rolls the database back. *)
Definition transaction {A} (operation : Tx A) : Tx A :=
  _ ← statement; result ← operation; _ ← commit; mret result.

Definition withTenant {A} (tenantId : string) (operation : Tx A) : Tx A := fun w =>
  if isEmpty (trim tenantId) then
    (Throw (JsError "A tenant is required for tenant-scoped database access."), w)
  else
    match transaction operation w with
    | (Ok a, w') => (Ok a, w')
    | (Throw e, w') => (Throw e, mkWorld (w_db w) (w_tick w'))
    end.
End Calls.

Lemma insertAll_app {R} `{Table R} (news l k : list R) : insertAll news l = Some k -> k = l ++ news.
Proof.
  revert l. induction news as [|r news IH]; cbn; intros l.
  - intros [= <-]. by rewrite app_nil_r.
  - destruct (existsb _ _); [done|]. intros E%IH. by rewrite E, <- app_assoc.
Qed.

(** ** Reasoning about handlers *)

Lemma Tx_bind_Ok {A B} (f : A -> Tx B) m w b w' :
  (m ≫= f) w = (Ok b, w') <-> exists a w1, m w = (Ok a, w1) /\ f a w1 = (Ok b, w').
Proof.
  unfold mbind, Tx_bind. destruct (m w) as [[a|e] w1]; split; intros H; [by exists a, w1| |done|].
  - by destruct H as (? & ? & [= <- <-] & H).
  - by destruct H as (? & ? & [=] & _).
Qed.

Lemma Tx_ret_Ok {A} (a b : A) w w' : (mret a : Tx A) w = (Ok b, w') <-> a = b /\ w = w'.
Proof. unfold mret, Tx_ret. naive_solver. Qed.

Lemma throwTx_Ok {A} e (b : A) w w' : throwTx e w = (Ok b, w') <-> False.
Proof. unfold throwTx. naive_solver. Qed.

Lemma liftResult_Ok {A} (r : Result A) b w w' : liftResult r w = (Ok b, w') <-> r = Ok b /\ w = w'.
Proof. unfold liftResult. naive_solver. Qed.

(** A computation that leaves the database as it is, whatever it returns. *)
Definition ReadOnly {A} (m : Tx A) : Prop := forall w, w_db (m w).2 = w_db w.

Section Reasoning.
Context `{Env}.

Lemma now_Ok t w w' : now w = (Ok t, w') <-> t = nowAt (w_tick w) /\ w' = tick w.
Proof. unfold now. naive_solver. Qed.

Lemma randomUUID_Ok t w w' : randomUUID w = (Ok t, w') <-> t = uuidAt (w_tick w) /\ w' = tick w.
Proof. unfold randomUUID. naive_solver. Qed.

Lemma assertCurrent_Ok u w w' :
  assertCurrent w = (Ok u, w') <-> currentAt (w_tick w) = None /\ w' = tick w.
Proof. unfold assertCurrent. destruct (currentAt _), u; naive_solver. Qed.

Lemma query_Ok {A} (f : Db -> Result (A * Db)) a w w' :
  query f w = (Ok a, w') <->
  faultAt (w_tick w) = None /\ exists db, f (w_db w) = Ok (a, db) /\ w' = mkWorld db (S (w_tick w)).
Proof.
  unfold query. destruct (faultAt _); [naive_solver|]. destruct (f (w_db w)) as [[b db]|e]; naive_solver.
Qed.

Lemma operationsWait_Ok {A} (m : Tx A) a w w' :
  operationsWait m w = (Ok a, w') ->
  exists w1, m (tick w) = (Ok a, w1) /\ w_db w' = w_db w1.
Proof.
  unfold operationsWait. intros (? & ? & [_ ->]%assertCurrent_Ok & Hm)%Tx_bind_Ok.
  apply Tx_bind_Ok in Hm as (b & w1 & Hm & (? & ? & [_ ->]%assertCurrent_Ok & [-> <-]%Tx_ret_Ok)%Tx_bind_Ok).
  by exists w1.
Qed.

Lemma findFirst_Ok {R} `{Table R} (p : R -> bool) r w w' :
  findFirst p w = (Ok r, w') -> r = List.find p (rows (w_db w)) /\ w_db w' = w_db w.
Proof. intros (_ & db & [= <- <-] & ->)%query_Ok. done. Qed.

Lemma findMany_Ok {R} `{Table R} (p : R -> bool) l w w' :
  findMany p w = (Ok l, w') -> l = List.filter p (rows (w_db w)) /\ w_db w' = w_db w.
Proof. intros (_ & db & [= <- <-] & ->)%query_Ok. done. Qed.

Lemma updateMany_Ok {R} `{Table R} (p : R -> bool) f n w w' :
  updateMany p f w = (Ok n, w') ->
  n = length (List.filter p (rows (w_db w))) /\
  w_db w' = withRows (map (fun r => if p r then f r else r) (rows (w_db w))) (w_db w).
Proof. intros (_ & db & [= <- <-] & ->)%query_Ok. done. Qed.

Lemma updateRow_Ok {R} `{Table R} (p : R -> bool) f r w w' :
  updateRow p f w = (Ok r, w') ->
  exists row, List.find p (rows (w_db w)) = Some row /\ r = f row /\
    w_db w' = withRows (map (fun r => if p r then f r else r) (rows (w_db w))) (w_db w).
Proof.
  intros (_ & db & Hq & ->)%query_Ok. destruct (List.find _ _) as [row|]; [|done]. injection Hq as <- <-. by exists row.
Qed.

Lemma countRows_Ok {R} `{Table R} (p : R -> bool) n w w' :
  countRows p w = (Ok n, w') -> n = Z.of_nat (length (List.filter p (rows (w_db w)))) /\ w_db w' = w_db w.
Proof. intros (_ & db & [= <- <-] & ->)%query_Ok. done. Qed.

Lemma createRow_Ok {R} `{Table R} (r : R) u w w' :
  createRow r w = (Ok u, w') ->
  existsb (conflicts r) (rows (w_db w)) = false /\
  w_db w' = withRows (rows (w_db w) ++ [r]) (w_db w).
Proof.
  intros (_ & db & Hq & ->)%query_Ok. destruct (existsb _ _); [done|]. by injection Hq as _ <-.
Qed.

Lemma updateUnique_Ok {R} `{Table R} (p : R -> bool) f n w w' :
  updateUnique p f w = (Ok n, w') ->
  n = length (List.filter p (rows (w_db w))) /\
  anyConflict (map (fun r => if p r then f r else r) (rows (w_db w))) = false /\
  w_db w' = withRows (map (fun r => if p r then f r else r) (rows (w_db w))) (w_db w).
Proof.
  intros (_ & db & Hq & ->)%query_Ok. cbv zeta in Hq. destruct (anyConflict _); [done|].
  by injection Hq as <- <-.
Qed.

Lemma createMany_Ok {R} `{Table R} (news : list R) u w w' :
  createMany news w = (Ok u, w') ->
  insertAll news (rows (w_db w)) = Some (rows (w_db w) ++ news) /\
  w_db w' = withRows (rows (w_db w) ++ news) (w_db w).
Proof.
  intros (_ & db & Hq & ->)%query_Ok. destruct (insertAll _ _) as [l|] eqn:E; [|done].
  injection Hq as _ <-. by rewrite <- (insertAll_app _ _ _ E).
Qed.

Lemma deleteMany_Ok {R} `{Table R} (p : R -> bool) u w w' :
  deleteMany p w = (Ok u, w') ->
  w_db w' = withRows (List.filter (fun r => negb (p r)) (rows (w_db w))) (w_db w).
Proof. intros (_ & db & [= _ <-] & ->)%query_Ok. done. Qed.

(** *** Read-only computations *)

Lemma ReadOnly_ret {A} (a : A) : ReadOnly (mret a).
Proof. by intros w. Qed.
Lemma ReadOnly_throw {A} e : ReadOnly (throwTx (A := A) e).
Proof. by intros w. Qed.
Lemma ReadOnly_lift {A} (r : Result A) : ReadOnly (liftResult r).
Proof. by intros w. Qed.
Lemma ReadOnly_now : ReadOnly now.
Proof. by intros w. Qed.
Lemma ReadOnly_uuid : ReadOnly randomUUID.
Proof. by intros w. Qed.
Lemma ReadOnly_current : ReadOnly assertCurrent.
Proof. by intros w. Qed.
Lemma ReadOnly_bind {A B} (m : Tx A) (f : A -> Tx B) :
  ReadOnly m -> (forall a, ReadOnly (f a)) -> ReadOnly (m ≫= f).
Proof.
  intros Hm Hf w. unfold mbind, Tx_bind. specialize (Hm w).
  destruct (m w) as [[a|e] w1]; cbn in *; [by rewrite Hf|done].
Qed.
Lemma ReadOnly_wait {A} (m : Tx A) : ReadOnly m -> ReadOnly (operationsWait m).
Proof.
  intros Hm. unfold operationsWait. apply ReadOnly_bind; [apply ReadOnly_current|]. intros _.
  apply ReadOnly_bind; [done|]. intros a. apply ReadOnly_bind; [apply ReadOnly_current|].
  intros _. apply ReadOnly_ret.
Qed.
Lemma ReadOnly_findFirst {R} `{Table R} (p : R -> bool) : ReadOnly (findFirst p).
Proof. intros w. unfold findFirst, query. by destruct (faultAt _). Qed.
Lemma ReadOnly_findMany {R} `{Table R} (p : R -> bool) : ReadOnly (findMany p).
Proof. intros w. unfold findMany, query. by destruct (faultAt _). Qed.
Lemma ReadOnly_read {A} (g : Db -> A) : ReadOnly (query (fun db => Ok (g db, db))).
Proof. intros w. unfold query. by destruct (faultAt _). Qed.
Lemma ReadOnly_if {A} (b : bool) (m n : Tx A) : ReadOnly m -> ReadOnly n -> ReadOnly (if b then m else n).
Proof. by destruct b. Qed.

Lemma ReadOnly_Ok {A} (m : Tx A) a w w' : ReadOnly m -> m w = (Ok a, w') -> w_db w' = w_db w.
Proof. intros Hm E. specialize (Hm w). by rewrite E in Hm. Qed.

(** A transaction that fails changes nothing. *)
Lemma statement_ReadOnly : ReadOnly statement.
Proof. intros w. unfold statement, query. by destruct (faultAt _). Qed.

Lemma commit_ReadOnly : ReadOnly commit.
Proof. intros w. unfold commit, query. destruct (faultAt _); [done|]. by destruct (cardsExclusive _). Qed.

Lemma withTenant_rollback {A} tenantId (m : Tx A) w e w' :
  withTenant tenantId m w = (Throw e, w') -> w_db w' = w_db w.
Proof.
  unfold withTenant. destruct (isEmpty _); [by intros [= _ <-]|].
  destruct (transaction m w) as [[a|e'] w1]; [done|]. by intros [= _ <-].
Qed.

Lemma withTenant_Ok {A} tenantId (m : Tx A) w a w' :
  withTenant tenantId m w = (Ok a, w') ->
  exists w1 w2, w_db w1 = w_db w /\ m w1 = (Ok a, w2) /\ w_db w' = w_db w2.
Proof.
  unfold withTenant. destruct (isEmpty _); [done|].
  destruct (transaction m w) as [[b|e] wz] eqn:E; [|done]. intros [= -> ->].
  unfold transaction in E.
  apply Tx_bind_Ok in E as (? & w1 & E1 & E). apply Tx_bind_Ok in E as (b & w2 & E2 & E).
  apply Tx_bind_Ok in E as (? & w3 & E3 & [-> <-]%Tx_ret_Ok). exists w1, w2.
  split; [by eapply ReadOnly_Ok, E1; apply statement_ReadOnly|]. split; [done|].
  by eapply ReadOnly_Ok, E3; apply commit_ReadOnly.
Qed.

(** A transaction that committed satisfies the constraint. *)
Lemma withTenant_exclusive {A} tenantId (m : Tx A) w a w' :
  withTenant tenantId m w = (Ok a, w') -> cardsExclusive (db_timeCards (w_db w')) = true.
Proof.
  unfold withTenant. destruct (isEmpty _); [done|].
  destruct (transaction m w) as [[b|e] wz] eqn:E; [|done]. intros [= -> ->].
  unfold transaction in E. apply Tx_bind_Ok in E as (? & w1 & _ & E). apply Tx_bind_Ok in E as (b & w2 & _ & E).
  apply Tx_bind_Ok in E as (? & w3 & (_ & db & Hc & ->)%query_Ok & [_ <-]%Tx_ret_Ok).
  rewrite w_db_mk. destruct (cardsExclusive (db_timeCards (w_db w2))) eqn:Ex; [|done]. by injection Hc as _ <-.
Qed.
End Reasoning.

#[global] Create HintDb readonly.
#[export] Hint Resolve ReadOnly_ret ReadOnly_throw ReadOnly_lift ReadOnly_now ReadOnly_uuid
  ReadOnly_current ReadOnly_bind ReadOnly_wait statement_ReadOnly ReadOnly_findFirst ReadOnly_findMany
  ReadOnly_read ReadOnly_if
  : readonly.

(** Steps through a handler that is known to have returned. *)
Ltac inv_tx_step :=
  match goal with
  | H : (_ ≫= _) _ = (Ok _, _) |- _ => apply Tx_bind_Ok in H as (? & ? & ? & ?)
  | H : (mret _) _ = (Ok _, _) |- _ => apply Tx_ret_Ok in H as [? ?]; subst
  | H : throwTx _ _ = (Ok _, _) |- _ => by apply throwTx_Ok in H
  | H : throwProblemTx _ _ _ _ _ = (Ok _, _) |- _ => by apply throwTx_Ok in H
  | H : liftResult _ _ = (Ok _, _) |- _ => apply liftResult_Ok in H as [? ?]; subst
  | H : operationsWait _ _ = (Ok _, _) |- _ => apply operationsWait_Ok in H as (? & ? & ?)
  | H : now _ = (Ok _, _) |- _ => apply now_Ok in H as [? ?]; subst
  | H : randomUUID _ = (Ok _, _) |- _ => apply randomUUID_Ok in H as [? ?]; subst
  | H : findFirst _ _ = (Ok _, _) |- _ => apply findFirst_Ok in H as [? ?]
  | H : findMany _ _ = (Ok _, _) |- _ => apply findMany_Ok in H as [? ?]
  | H : updateMany _ _ _ = (Ok _, _) |- _ => apply updateMany_Ok in H as [? ?]
  | H : updateUnique _ _ _ = (Ok _, _) |- _ => apply updateUnique_Ok in H as (? & ? & ?)
  | H : createMany _ _ = (Ok _, _) |- _ => apply createMany_Ok in H as [? ?]
  | H : createRow _ _ = (Ok _, _) |- _ => apply createRow_Ok in H as [? ?]
  | H : deleteMany _ _ = (Ok _, _) |- _ => apply deleteMany_Ok in H
  end.
Ltac inv_tx := repeat inv_tx_step.

(** ** A calm environment, for the concrete instances *)

Definition emptyDb : Db :=
  mkDb [] [] [] [] [] [] [] [] [] [] [] [] [] [] [] [] (mkPayrollTables [] [] [] [] [])
    (mkExportTables [] [] [] [] []) [] [].

(** A weekly policy of the examples, and a period of it. *)
Definition samplePolicyRow (id tenantId : string) (version : Z) (timeZone : string) (effectiveFrom : Z) : PayrollPolicyVersion :=
  mkPolicyVersion id ("public-" +:+ id) tenantId version timeZone WEEKLY effectiveFrom effectiveFrom
    ("operation-" +:+ id) "" "u1" effectiveFrom.
Definition samplePeriodRow (id tenantId policyVersionId status timeZone : string) (startsAt endsAt : Z) : PayrollPeriodRow :=
  mkPeriodRow id ("public-" +:+ id) tenantId policyVersionId startsAt endsAt startsAt endsAt timeZone WEEKLY status 0
    None None None None None None None None None startsAt startsAt.

(** Nothing fails, the clock stands at [t], identifiers are numbers. *)
Definition calm (t : Z) : Env := {|
  nowAt n := t;
  uuidAt n := "id" +:+ showZ (Z.of_nat n);
  faultAt n := None;
  currentAt n := None;
|}.

(** Nothing fails, the clock stands at [t], identifiers are UUIDs. *)
Definition uuidText (n : nat) : string := "00000000-0000-4000-8000-" +:+ padDigits 12 (Z.of_nat n).
Definition calmUuid (t : Z) : Env := {|
  nowAt n := t;
  uuidAt := uuidText;
  faultAt n := None;
  currentAt n := None;
|}.

(** The result and the database of a handler run from a database. *)
Definition runOn {A} (m : Tx A) (db : Db) : Result A * Db :=
  let '(r, w) := m (mkWorld db 0) in (r, w_db w).

(** ** What a handler may change *)

(** Whenever [m] returns, the databases before and after are related. *)
Definition Steps (R : Db -> Db -> Prop) {A} (m : Tx A) : Prop :=
  forall w a w', m w = (Ok a, w') -> R (w_db w) (w_db w').

Section Steps.
Context `{Env} (R : Db -> Db -> Prop) `{!PreOrder R}.

Lemma Steps_readonly {A} (m : Tx A) : ReadOnly m -> Steps R m.
Proof. intros Hm w a w' E. by rewrite (ReadOnly_Ok _ _ _ _ Hm E). Qed.

Lemma Steps_bind {A B} (m : Tx A) (f : A -> Tx B) :
  Steps R m -> (forall a, Steps R (f a)) -> Steps R (m ≫= f).
Proof.
  intros Hm Hf w b w' (a & w1 & H1 & H2)%Tx_bind_Ok. etrans; [by eapply Hm|by eapply Hf].
Qed.

Lemma Steps_throw {A} e : Steps R (throwTx (A := A) e).
Proof. by intros w a w' ?%throwTx_Ok. Qed.

Lemma Steps_wait {A} (m : Tx A) : Steps R m -> Steps R (operationsWait m).
Proof. intros Hm w a w' (w1 & H1 & ->)%operationsWait_Ok. apply (Hm _ _ _ H1). Qed.

Lemma Steps_forEach {A} (f : A -> Tx unit) items : (forall a, Steps R (f a)) -> Steps R (forEach f items).
Proof.
  intros Hf. induction items as [|a items IH]; cbn [forEach].
  - apply Steps_readonly, ReadOnly_ret.
  - apply Steps_bind; [apply Hf|done].
Qed.
End Steps.
