(* ===== verification/FeatureEntitlement.v ===== *)
(** * Feature entitlement and credit settlement

    apps/api-v2/src/platform/feature-entitlement.ts and the scheduling variant
    in apps/api-v2/src/scheduling/entitlement.ts: whether a tenant may use a
    feature, and the debit of one usage credit, recorded in the immutable
    ledger under the identifier of the operation it pays for.

    Row locks and advisory locks are calls that change nothing: a transaction
    of the model runs alone. *)

From S2P Require Import Prelude JsStd JsCollections JsDate ContractHelpers PayrollRecords.
From S2P Require Import Database.

(** ** Stored JSON *)

(** [value[k]] for an object, [undefined] otherwise. *)
Definition prop (k : string) (value : Json) : option Json :=
  match value with
  | JObj es => match List.find (fun e : string * option Json => bool_decide (e.1 = k)) es with
               | Some (_, v) => v
               | None => None
               end
  | _ => None
  end.

Definition isObject (value : Json) : bool := match value with JObj _ => true | _ => false end.

Definition textIs (v : option Json) (s : string) : bool :=
  match v with Some (JStr t) => bool_decide (t = s) | _ => false end.
Definition numberIs (v : option Json) (n : Z) : bool :=
  match v with Some (JNum m) => m =? n | _ => false end.
Definition boolIs (v : option Json) (b : bool) : bool :=
  match v with Some (JBool c) => Bool.eqb b c | _ => false end.

(** [String(value)] *)
Fixpoint jsString (value : Json) : string :=
  match value with
  | JNull => "null"
  | JBool b => if b then "true" else "false"
  | JNum n => showZ n
  | JStr s => s
  | JArr l => joinWith "," (map (fun v => match v with JNull => "" | _ => jsString v end) l)
  | JObj _ => "[object Object]"
  end.

(** ** Features and plans *)

Inductive BillableFeature := lunch_breaks | scheduling | time_cards.

#[global] Instance BillableFeature_eq_dec : EqDecision BillableFeature.
Proof. solve_decision. Defined.

Definition featureText (f : BillableFeature) : string :=
  match f with lunch_breaks => "lunch_breaks" | scheduling => "scheduling" | time_cards => "time_cards" end.

Record FeatureEntitlement := mkEntitlement { en_feature : BillableFeature; en_creditCost : Z }.

(** [planCode]: a name that is not in [DEFAULT_FEATURES] is the free plan.
    [in] also finds the names every object inherits, upper case by then. *)
Definition planCode (value : string) : string :=
  let normalized := toUpperCase (trim value) in
  if bool_decide (normalized ∈ ["FREE"; "STARTER"; "GROWTH"; "ENTERPRISE"]) then normalized else "FREE".

Definition DEFAULT_FEATURES (code : string) : list BillableFeature :=
  if bool_decide (code = "STARTER") then [scheduling]
  else if bool_decide (code = "GROWTH") || bool_decide (code = "ENTERPRISE")
  then [scheduling; lunch_breaks; time_cards] else [].

Definition featureOf (value : Json) : option BillableFeature :=
  match value with
  | JStr s => if bool_decide (s = "scheduling") then Some scheduling
              else if bool_decide (s = "lunch_breaks") then Some lunch_breaks
              else if bool_decide (s = "time_cards") then Some time_cards else None
  | _ => None
  end.

(** The set of the listed features; only membership is asked of it. *)
Definition planFeatures (metadata : Json) (fallback : string) : list BillableFeature :=
  match metadata with
  | JObj _ => match prop "features" metadata with
              | Some (JArr values) => omap featureOf values
              | _ => []
              end
  | _ => DEFAULT_FEATURES fallback
  end.

(** The object stored for the feature, if it is one. *)
Definition overrideFor (value : Json) (feature : string) : option Json :=
  match prop "features" value with
  | Some features =>
      match prop feature features with
      | Some override => if isObject override then Some override else None
      | None => None
      end
  | None => None
  end.

Definition overrideProp (k : string) (override : option Json) : option Json :=
  o ← override; prop k o.

Definition featureDetail (feature : BillableFeature) (billable : bool) : string :=
  match feature with
  | time_cards =>
      if billable then "Clock-in requires an active paid subscription and enough separately purchased usage credits."
      else "Time cards require an active paid subscription."
  | scheduling =>
      if billable then "Setup shifts require an active paid subscription and enough separately purchased usage credits."
      else "Scheduling requires an active paid subscription."
  | lunch_breaks =>
      if billable then "Lunch and break changes require an active paid subscription and enough separately purchased usage credits."
      else "Lunch and break planning requires an active paid subscription."
  end.

Definition failure (feature : BillableFeature) (billable : bool) : Exn :=
  Problem (problemError 403 (featureText feature +:+ "_not_entitled") (featureDetail feature billable)
             "Feature unavailable").

(** ** The internal beta grant *)

(** What [new URL(env.APP_ORIGIN ?? '')] gives, [None] when it throws, and the
    flag beside it. *)
Record UrlParts := mkUrl {
  url_origin : string; url_pathname : string; url_search : string; url_hash : string;
  url_username : string; url_password : string;
}.

Class Process := {
  env_flag : option string;      (* INTERNAL_BETA_ENTITLEMENTS_ENABLED *)
  env_origin : option UrlParts;  (* APP_ORIGIN *)
}.

(** [toLowerCase], of the letters of Latin-1 that have a capital. *)
Definition latinLower (c : ascii) : ascii :=
  let n := codeUnit c in
  if (192 <=? n) && (n <=? 222) && negb (n =? 215) then ascii_of_N (Z.to_N (n + 32)) else toLowerChar c.
Definition toLowerCase (s : string) : string := ofChars (map latinLower (chars s)).

Definition internalBetaRuntimeEnabled `{Process} : bool :=
  match env_flag with
  | Some flag =>
      bool_decide (toLowerCase (trim flag) = "true") &&
      match env_origin with
      | Some u => bool_decide (url_origin u = "https://beta.lunchlineup.com")
                  && bool_decide (url_pathname u = "/") && isEmpty (url_search u)
                  && isEmpty (url_hash u) && isEmpty (url_username u) && isEmpty (url_password u)
      | None => false
      end
  | None => false
  end.

Definition INTERNAL_BETA_MAX_CREDITS : Z := 1000.

Record BetaGrant := mkGrant {
  gt_grantId : string;
  gt_auditId : string;
  gt_creditTransactionId : string;
  gt_creditsGranted : Z;
  gt_ledgerReason : string;
  gt_reason : string;
  gt_approvedAt : string;
  gt_approvedByUserId : string;
  gt_expiresAt : string;
}.

(** [boundedPrintable(value, maximum)], returning the text. *)
Definition boundedPrintable (value : option Json) (maximum : Z) : option string :=
  match value with
  | Some (JStr s) =>
      if (0 <? strLen (trim s)) && (strLen s <=? maximum) && negb (someChar isControl s)
      then Some s else None
  | _ => None
  end.

Definition textOf (v : option Json) : option string :=
  match v with Some (JStr s) => Some s | _ => None end.

Definition activeInternalBetaGrant (value : option Json) (nowMs : Z) : option BetaGrant :=
  grant ← value;
  if negb (numberIs (prop "version" grant) 1) || negb (textIs (prop "source" grant) "internal_beta")
     || negb (textIs (prop "status" grant) "ACTIVE") then None else
  features ← prop "features" grant;
  if negb (match features with JArr [f] => textIs (Some f) "scheduling" | _ => false end) then None else
  grantId ← boundedPrintable (prop "grantId" grant) 255;
  auditId ← textOf (prop "auditId" grant);
  creditTransactionId ← textOf (prop "creditTransactionId" grant);
  if negb (bool_decide (auditId = grantId +:+ "-internal-beta-audit"))
     || negb (bool_decide (creditTransactionId = grantId)) then None else
  creditsGranted ← match prop "creditsGranted" grant with Some (JNum n) => Some n | _ => None end;
  if negb (isSafeInteger creditsGranted) || (creditsGranted <? 1)
     || (INTERNAL_BETA_MAX_CREDITS <? creditsGranted) then None else
  ledgerReason ← boundedPrintable (prop "ledgerReason" grant) 500;
  reason ← boundedPrintable (prop "reason" grant) 240;
  approvedByUserId ← boundedPrintable (prop "approvedByUserId" grant) 255;
  approvedText ← textOf (prop "approvedAt" grant);
  expiresText ← textOf (prop "expiresAt" grant);
  approvedAt ← dateParse approvedText;
  expiresAt ← dateParse expiresText;
  if (nowMs <? approvedAt) || (expiresAt <=? nowMs) || (expiresAt <=? approvedAt) then None else
  Some (mkGrant grantId auditId creditTransactionId creditsGranted ledgerReason reason approvedText
          approvedByUserId expiresText).

(** The audit row repeats the grant field by field. *)
Definition auditedGrantMatches (grant : BetaGrant) (audited : option Json) : bool :=
  let p k := overrideProp k audited in
  textIs (p "grantId") (gt_grantId grant) && textIs (p "auditId") (gt_auditId grant)
  && textIs (p "creditTransactionId") (gt_creditTransactionId grant)
  && numberIs (p "creditsGranted") (gt_creditsGranted grant)
  && textIs (p "ledgerReason") (gt_ledgerReason grant) && textIs (p "reason") (gt_reason grant)
  && textIs (p "approvedAt") (gt_approvedAt grant)
  && textIs (p "approvedByUserId") (gt_approvedByUserId grant)
  && textIs (p "expiresAt") (gt_expiresAt grant).

Definition grantSettled (tenantId : string) (grant : BetaGrant) (credit : option CreditTransaction)
    (audit : option AuditLog) : bool :=
  let auditedGrant := a ← audit; v ← al_newValue a; e ← prop "entitlement" v;
                      if isObject e then Some e else None in
  match credit, audit with
  | Some c, Some a =>
      bool_decide (ct_tenantId c = tenantId) && (ct_amount c =? gt_creditsGranted grant)
      && (ct_debtAmount c =? 0) && bool_decide (ct_reason c = gt_ledgerReason grant)
      && match ct_balanceAfter c with Some b => isSafeInteger b && (0 <=? b) | None => false end
      && bool_decide (ct_debtAfter c = Some 0) && bool_decide (al_tenantId a = tenantId)
      && bool_decide (al_action a = "INTERNAL_BETA_ENTITLEMENT_GRANTED")
      && bool_decide (al_resource a = "TenantSetting")
      && bool_decide (al_resourceId a = Some (gt_grantId grant))
      && auditedGrantMatches grant auditedGrant
  | _, _ => false
  end.

Section Entitlement.
Context `{Env, Process}.

(** [SELECT ... FOR UPDATE], [LOCK TABLE], [pg_advisory_xact_lock] *)
Definition lockRows : Tx unit := statement.

Definition lockTenantForFeature (tenantId : string) : Tx unit := lockRows.
Definition lockSchedulingAggregate (tenantId : string) : Tx unit := lockRows.

Definition findSetting (tenantId key : string) : Tx (option TenantSetting) :=
  findFirst (fun s => bool_decide (ts_tenantId s = tenantId) && bool_decide (ts_key s = key)).

Definition findLiveTenant (tenantId : string) : Tx (option Tenant) :=
  findFirst (fun t => bool_decide (tn_id t = tenantId) && bool_decide (tn_deletedAt t = None)).

Definition hasActiveInternalBetaSchedulingEntitlement (tenantId : string) (tenant : Tenant)
    (setting : option TenantSetting) (nowMs : Z) : Tx bool :=
  if negb internalBetaRuntimeEnabled then mret false else
  match activeInternalBetaGrant (ts_value <$> setting) nowMs, tn_trialEndsAt tenant with
  | Some grant, Some trialEndsAt =>
      if bool_decide (planCode (tn_planTier tenant) = "FREE")
         || negb (bool_decide (tn_status tenant = "TRIAL")) || (trialEndsAt <=? nowMs)
         || match dateParse (gt_expiresAt grant) with Some e => trialEndsAt <? e | None => false end
      then mret false
      else
        credit ← findFirst (fun c => bool_decide (ct_id c = gt_creditTransactionId grant));
        audit ← findFirst (fun a => bool_decide (al_id a = gt_auditId grant));
        mret (grantSettled tenantId grant credit audit)
  | _, _ => mret false
  end.

Definition subscriptionActive (tenant : Tenant) (nowMs : Z) : bool :=
  bool_decide (tn_status tenant = "ACTIVE")
  && match tn_stripeSubscriptionId tenant with Some s => negb (isEmpty (trim s)) | None => false end
  && match tn_stripeSubscriptionCurrentPeriodEnd tenant with Some e => nowMs <? e | None => false end.

Definition overrideDisabled (override : option Json) : bool :=
  textIs (overrideProp "source" override) "disabled" || boolIs (overrideProp "enabled" override) false.

Definition overrideEnabled (override : option Json) : bool :=
  boolIs (overrideProp "enabled" override) true
  && bool_decide (match overrideProp "source" override with
                  | Some v => jsString v | None => "undefined" end ∈ ["manual"; "stripe"; "credits"]).

Definition disabledDetail (override : option Json) (feature : BillableFeature) (billable : bool) : string :=
  match overrideProp "reason" override with
  | Some (JStr r) => if isEmpty (trim r) then featureDetail feature billable else slice0 240 (trim r)
  | _ => featureDetail feature billable
  end.

(** The reads of the [Promise.all] are made in the order they are listed. *)
Definition assertFeatureEntitled (tenantId : string) (feature : BillableFeature) (billable : bool)
    : Tx (option FeatureEntitlement) :=
  _ ← lockTenantForFeature tenantId;
  found ← findLiveTenant tenantId;
  setting ← findSetting tenantId "feature_access";
  betaSetting ← (if internalBetaRuntimeEnabled then findSetting tenantId "internal_beta_entitlement"
                 else mret None);
  match found with
  | None => throwTx (failure feature billable)
  | Some tenant =>
      let override := overrideFor (default JNull (ts_value <$> setting)) (featureText feature) in
      if overrideDisabled override then
        throwProblemTx 403 (featureText feature +:+ "_not_entitled")
          (disabledDetail override feature billable) "Feature unavailable"
      else
        nowMs ← now;
        internalBetaActive ← (if bool_decide (feature = scheduling)
          then hasActiveInternalBetaSchedulingEntitlement tenantId tenant betaSetting nowMs
          else mret false);
        if negb (subscriptionActive tenant nowMs) && negb internalBetaActive then
          throwTx (failure feature billable)
        else
          let code := planCode (tn_planTier tenant) in
          plan ← findFirst (fun p => bool_decide (pd_code p = code));
          let features := planFeatures (default JNull (pd_metadata <$> plan)) code in
          if negb (overrideEnabled override) && negb (bool_decide (feature ∈ features)) then
            throwTx (failure feature billable)
          else if negb billable then mret None
          else if negb (isSafeInteger (tn_creditDebt tenant)) || negb (tn_creditDebt tenant =? 0) then
            throwTx (failure feature true)
          else if negb (isSafeInteger (tn_usageCredits tenant)) || (tn_usageCredits tenant <? 1) then
            throwTx (failure feature true)
          else mret (Some (mkEntitlement feature 1))
  end.

(** *** Settlement *)

Definition settlementConflict {A} (detail : string) : Tx A :=
  throwProblemTx 409 "credit_settlement_conflict" detail "Conflict".

(** The stored row is the settlement of this very operation. *)
Definition settlementMatches (tenantId reason : string) (cost : Z) (existing : CreditTransaction) : bool :=
  bool_decide (ct_tenantId existing = tenantId) && (ct_amount existing =? - cost)
  && (ct_debtAmount existing =? 0) && bool_decide (ct_reason existing = reason)
  && match ct_balanceAfter existing with Some b => isSafeInteger b && (0 <=? b) | None => false end
  && bool_decide (ct_debtAfter existing = Some 0).

(** The wallet that [updateMany] debits. *)
Definition canPay (tenantId : string) (cost : Z) (t : Tenant) : bool :=
  bool_decide (tn_id t = tenantId) && (tn_creditDebt t =? 0) && (cost <=? tn_usageCredits t).

Definition payCredits (cost : Z) (t : Tenant) : Tenant :=
  mkTenant (tn_id t) (tn_planTier t) (tn_status t) (tn_stripeSubscriptionId t)
    (tn_stripeSubscriptionCurrentPeriodEnd t) (tn_trialEndsAt t) (tn_usageCredits t - cost)
    (tn_creditDebt t) (tn_deletedAt t) (tn_name t) (tn_slug t).

(** Returns [consumedCredits] and [newBalance]; [guard] is the optional
    [assertCurrent] argument. *)
Definition debitFeatureCredit (guard : Tx unit) (tenantId : string) (entitlement : FeatureEntitlement)
    (operationId reason : string) (transactionIdArg : option string) : Tx (Z * Z) :=
  let cost := en_creditCost entitlement in
  _ ← guard;
  let transactionId := default ("feature-usage-" +:+ operationId) transactionIdArg in
  _ ← lockRows;
  _ ← lockRows;
  existing ← findFirst (fun c => bool_decide (ct_id c = transactionId));
  match existing with
  | Some row =>
      if negb (settlementMatches tenantId reason cost row) then
        settlementConflict "The saved credit settlement does not match this operation."
      else _ ← guard; mret (cost, default 0 (ct_balanceAfter row))
  | None =>
      _ ← guard;
      count ← updateMany (canPay tenantId cost) (payCredits cost);
      _ ← guard;
      if negb (count =? 1)%nat then throwTx (failure (en_feature entitlement) true) else
      found ← findFirst (fun t => bool_decide (tn_id t = tenantId));
      match found with
      | None => throwTx (DriverError "P2025" None)
      | Some tenant =>
          if negb (isSafeInteger (tn_usageCredits tenant)) || (tn_usageCredits tenant <? 0)
             || negb (tn_creditDebt tenant =? 0) then
            settlementConflict "Credit settlement produced an invalid wallet balance."
          else
            _ ← guard;
            _ ← createRow (mkCredit transactionId tenantId (- cost) 0 reason
                  (Some (tn_usageCredits tenant)) (Some (tn_creditDebt tenant)));
            _ ← guard;
            mret (cost, tn_usageCredits tenant)
      end
  end.
End Entitlement.

(** ** The scheduling variant *)

Section Scheduling.
Context `{Env, Process}.

Definition schedulingIncluded (metadata : Json) (code : string) : bool :=
  match metadata with
  | JObj es =>
      if bool_decide ("features" ∈ es.*1) then
        match prop "features" metadata with
        | Some (JArr values) => existsb (fun v => textIs (Some v) "scheduling") values
        | _ => false
        end
      else bool_decide (code ∈ ["STARTER"; "GROWTH"; "ENTERPRISE"])
  | _ => bool_decide (code ∈ ["STARTER"; "GROWTH"; "ENTERPRISE"])
  end.

(** [override.reason?.slice(0, 240) || ...]: a reason that is neither text
    nor an array has no [slice] to call. *)
Definition schedulingDisabledDetail (override : option Json) : Result string :=
  match overrideProp "reason" override with
  | Some (JStr r) => Ok (if isEmpty (slice0 240 r) then "Scheduling is disabled for this workspace." else slice0 240 r)
  | Some (JArr l) => Ok (jsString (JArr (take 240 l)))
  | None | Some JNull => Ok "Scheduling is disabled for this workspace."
  | Some _ => Throw (JsError "override.reason?.slice is not a function")
  end.

(** [now] is a default argument, evaluated at the call. *)
Definition assertSchedulingEntitled (tenantId : string) : Tx unit :=
  nowMs ← now;
  _ ← lockRows;
  found ← findLiveTenant tenantId;
  setting ← findSetting tenantId "feature_access";
  match found with
  | None => throwProblemTx 403 "tenant_unavailable" "The current workspace is unavailable." "Forbidden"
  | Some tenant =>
      let override := overrideFor (default JNull (ts_value <$> setting)) "scheduling" in
      if overrideDisabled override then
        detail ← liftResult (schedulingDisabledDetail override);
        throwProblemTx 403 "scheduling_not_entitled" detail "Scheduling unavailable"
      else if negb (subscriptionActive tenant nowMs) then
        _ ← assertFeatureEntitled tenantId scheduling false; mret tt
      else
        let code := toUpperCase (tn_planTier tenant) in
        plan ← findFirst (fun p => bool_decide (pd_code p = code));
        if negb (schedulingIncluded (default JNull (pd_metadata <$> plan)) code)
           && negb (overrideEnabled override) then
          throwProblemTx 403 "scheduling_not_entitled"
            "The active subscription does not include scheduling." "Scheduling unavailable"
        else mret tt
  end.
End Scheduling.

(** ** A debit is made once *)

Lemma find_app_none {A} (p : A -> bool) l k :
  List.find p l = None -> List.find p (l ++ k) = List.find p k.
Proof. induction l as [|x l IH]; cbn; [done|]. destruct (p x); [done|]. exact IH. Qed.

Lemma rows_withRows_credits l ts db : db_credits (withRows l (withRows (R := Tenant) ts db)) = l.
Proof. by destruct db. Qed.

Lemma filter_one {A} (p : A -> bool) (l : list A) :
  length (List.filter p l) = 1%nat -> exists x, x ∈ l /\ p x = true.
Proof.
  intros Hl. destruct (List.filter p l) as [|x [|y k]] eqn:E; try done.
  assert (Hin : In x (List.filter p l)) by (rewrite E; by left).
  apply filter_In in Hin as [Hin Hp]. exists x. split; [by apply list_elem_of_In|done].
Qed.

Section Settlement.
Context `{Env, Process}.
Context (guard : Tx unit) (Hguard : ReadOnly guard).

Lemma guard_Ok u w w' : guard w = (Ok u, w') -> w_db w' = w_db w.
Proof using Hguard. apply ReadOnly_Ok, Hguard. Qed.

Lemma lockRows_Ok u w w' : lockRows w = (Ok u, w') -> w_db w' = w_db w.
Proof. apply ReadOnly_Ok, statement_ReadOnly. Qed.

(** The two ways a debit returns. *)
Definition replayed (id tenantId reason : string) (cost : Z) (r : Z * Z) (db db' : Db) : Prop :=
  exists row, List.find (fun c => bool_decide (ct_id c = id)) (db_credits db) = Some row /\
    settlementMatches tenantId reason cost row = true /\ r = (cost, default 0 (ct_balanceAfter row)) /\
    db' = db.

Definition debited (id tenantId reason : string) (cost : Z) (r : Z * Z) (db db' : Db) : Prop :=
  List.find (fun c => bool_decide (ct_id c = id)) (db_credits db) = None /\
  length (List.filter (canPay tenantId cost) (db_tenants db)) = 1%nat /\
  r.1 = cost /\ 0 <= r.2 <= MAX_SAFE_INTEGER /\
  db' = withRows (db_credits db ++ [mkCredit id tenantId (- cost) 0 reason (Some r.2) (Some 0)])
         (withRows (map (fun t => if canPay tenantId cost t then payCredits cost t else t)
            (db_tenants db)) db).

Lemma debit_cases tenantId ent operationId reason txid w r w' :
  debitFeatureCredit guard tenantId ent operationId reason txid w = (Ok r, w') ->
  let id := default ("feature-usage-" +:+ operationId) txid in
  replayed id tenantId reason (en_creditCost ent) r (w_db w) (w_db w') \/
  debited id tenantId reason (en_creditCost ent) r (w_db w) (w_db w').
Proof using Hguard.
  unfold debitFeatureCredit, settlementConflict, throwProblemTx. intros Hd. cbv zeta.
  apply Tx_bind_Ok in Hd as (? & w1 & E1%guard_Ok & Hd).
  apply Tx_bind_Ok in Hd as (? & w2 & E2%lockRows_Ok & Hd).
  apply Tx_bind_Ok in Hd as (? & w3 & E3%lockRows_Ok & Hd).
  apply Tx_bind_Ok in Hd as (existing & w4 & [Ex E4]%findFirst_Ok & Hd).
  assert (E : w_db w4 = w_db w) by congruence. rewrite E3, E2, E1 in Ex. cbn [rows Table_Credit] in Ex.
  destruct existing as [row|].
  - destruct (settlementMatches _ _ _ row) eqn:Hm; [|by apply throwTx_Ok in Hd]. cbn [negb] in Hd.
    apply Tx_bind_Ok in Hd as (? & w5 & E5%guard_Ok & [<- <-]%Tx_ret_Ok).
    left. exists row. split_and!; [done..|congruence].
  - right. apply Tx_bind_Ok in Hd as (? & w5 & E5%guard_Ok & Hd).
    apply Tx_bind_Ok in Hd as (count & w6 & [-> E6]%updateMany_Ok & Hd).
    apply Tx_bind_Ok in Hd as (? & w7 & E7%guard_Ok & Hd).
    rewrite E5, E in Hd, E6. cbn [rows Table_Tenant] in Hd, E6.
    destruct (length _ =? 1)%nat eqn:Hc; [|by apply throwTx_Ok in Hd]. cbn [negb] in Hd. bools.
    apply Tx_bind_Ok in Hd as (found & w8 & [Ef E8]%findFirst_Ok & Hd).
    destruct found as [tenant|]; [|by apply throwTx_Ok in Hd].
    destruct (_ || _) eqn:Hv; [by apply throwTx_Ok in Hd|]. unfold isSafeInteger in Hv. bools.
    apply Tx_bind_Ok in Hd as (? & w9 & E9%guard_Ok & Hd).
    apply Tx_bind_Ok in Hd as (? & w10 & [_ E10]%createRow_Ok & Hd).
    apply Tx_bind_Ok in Hd as (? & w11 & E11%guard_Ok & [<- <-]%Tx_ret_Ok).
    destruct Hv as [Hv Hdebt]. unfold debited. cbn [fst snd].
    split_and!; [by symmetry|done|done|lia|lia|].
    rewrite E11, E10, E9, E8, E7, E6, Hdebt. by destruct (w_db w).
Qed.

Lemma replayed_after id tenantId reason cost r db db' :
  replayed id tenantId reason cost r db db' \/ debited id tenantId reason cost r db db' ->
  replayed id tenantId reason cost r db' db'.
Proof.
  intros [(row & Hf & Hm & Hr & ->)|(Hf & Hl & Hc & Hb & ->)]; [by exists row|].
  eexists. rewrite rows_withRows_credits. rewrite find_app_none by done. cbn [List.find].
  rewrite bool_decide_true by done. split_and!; [done| |destruct r; cbn in *; by subst|done].
  unfold settlementMatches, isSafeInteger, MAX_SAFE_INTEGER in *. cbn.
  rewrite !bool_decide_true, !Z.eqb_refl by done. cbn. rewrite !andb_true_r. bool_lia.
Qed.
End Settlement.

(** A credit is debited once per settlement identifier: a debit that
    returns either found the matching ledger row and changed nothing, or took
    the cost from exactly one wallet without debt and appended the ledger row
    that records the new balance; in both cases repeating the debit later, in
    any environment, changes nothing more and, if it returns, returns the same
    result. *)
Theorem debitFeatureCredit_once `{Env, Process} guard tenantId ent operationId reason txid w r w' :
  ReadOnly guard ->
  debitFeatureCredit guard tenantId ent operationId reason txid w = (Ok r, w') ->
  let id := default ("feature-usage-" +:+ operationId) txid in
  (replayed id tenantId reason (en_creditCost ent) r (w_db w) (w_db w') \/
   debited id tenantId reason (en_creditCost ent) r (w_db w) (w_db w')) /\
  forall (env2 : Env) guard2 w2 r2 w3, ReadOnly guard2 -> w_db w2 = w_db w' ->
    @debitFeatureCredit env2 guard2 tenantId ent operationId reason txid w2 = (Ok r2, w3) ->
    r2 = r /\ w_db w3 = w_db w'.
Proof.
  intros Hg Hd. cbv zeta. pose proof (debit_cases guard Hg _ _ _ _ _ _ _ _ Hd) as Hc.
  cbv zeta in Hc. split; [done|]. intros env2 guard2 w2 r2 w3 Hg2 Ew Hd2.
  apply replayed_after in Hc as (row & Hf & Hm & -> & _).
  pose proof (@debit_cases env2 guard2 Hg2 _ _ _ _ _ _ _ _ Hd2) as Hc2. cbv zeta in Hc2.
  rewrite Ew in Hc2. destruct Hc2 as [(row2 & Hf2 & _ & -> & ->)|(Hf2 & _)].
  - rewrite Hf in Hf2. by injection Hf2 as <-.
  - by rewrite Hf in Hf2.
Qed.

(** ** Wallets and the ledger agree *)

(** The sum of a tenant's ledger amounts. *)
Definition ledgerSum (tenantId : string) (credits : list CreditTransaction) : Z :=
  foldr (fun c total => (if bool_decide (ct_tenantId c = tenantId) then ct_amount c else 0) + total) 0 credits.

(** Every wallet holds what its ledger says, and no wallet is overdrawn. *)
Definition walletsBalanced (db : Db) : Prop :=
  NoDup (map tn_id (db_tenants db)) /\
  Forall (fun t => tn_usageCredits t = ledgerSum (tn_id t) (db_credits db) /\ 0 <= tn_usageCredits t)
    (db_tenants db).

Lemma ledgerSum_snoc tenantId credits c :
  ledgerSum tenantId (credits ++ [c]) =
  ledgerSum tenantId credits + (if bool_decide (ct_tenantId c = tenantId) then ct_amount c else 0).
Proof. unfold ledgerSum. induction credits as [|x l IH]; cbn [app foldr]; [lia|]. rewrite IH. lia. Qed.

Lemma debited_balanced id tenantId reason cost r db db' :
  debited id tenantId reason cost r db db' -> walletsBalanced db -> walletsBalanced db'.
Proof.
  intros (_ & Hl & _ & _ & ->) [Hnd Hall]. unfold walletsBalanced. rewrite rows_withRows_credits.
  assert (Ht : db_tenants (withRows (db_credits db ++ [mkCredit id tenantId (- cost) 0 reason (Some r.2) (Some 0)])
    (withRows (map (fun t => if canPay tenantId cost t then payCredits cost t else t) (db_tenants db)) db))
    = map (fun t => if canPay tenantId cost t then payCredits cost t else t) (db_tenants db)) by by destruct db.
  rewrite Ht. split.
  - rewrite map_map. erewrite map_ext; [exact Hnd|]. intros t. by destruct (canPay _ _ _).
  - apply filter_one in Hl as (payer & Hin & Hpay). apply Forall_fmap, Forall_forall. intros t Hti.
    rewrite Forall_forall in Hall. destruct (Hall t Hti) as [Hsum Hpos]. cbn.
    destruct (canPay tenantId cost t) eqn:Hp.
    + cbn. rewrite ledgerSum_snoc. cbn. unfold canPay in Hp. bools.
      rewrite bool_decide_true by (symmetry; tauto). split; lia.
    + rewrite ledgerSum_snoc. cbn. case_bool_decide as Ht0; [|rewrite Z.add_0_r; done]. exfalso.
      pose proof Hpay as Hpay0. unfold canPay in Hpay. rewrite !andb_true_iff, bool_decide_eq_true in Hpay. destruct Hpay as [[Hpi Hpd] Hpc].
      apply list_elem_of_lookup in Hin as [i Hi], Hti as [j Hj].
      assert (i = j) as ->.
      { eapply NoDup_lookup; [exact Hnd|..]; rewrite list_lookup_fmap; [by rewrite Hi|].
        rewrite Hj. cbn. congruence. }
      rewrite Hi in Hj. injection Hj as ->. by rewrite Hpay0 in Hp.
Qed.

(** The wallets always agree with the ledger: whatever a debit does
    (returns, replays, refuses, loses its authority, meets a driver failure),
    once its transaction ends every wallet still equals the sum of its ledger
    rows and none is negative. *)
Theorem debitFeatureCredit_conserves `{Env, Process} guard tenantId ent operationId reason txid w r w' :
  ReadOnly guard -> walletsBalanced (w_db w) ->
  withTenant tenantId (debitFeatureCredit guard tenantId ent operationId reason txid) w = (r, w') ->
  walletsBalanced (w_db w').
Proof.
  intros Hg Hw Hd. destruct r as [r|e].
  - apply withTenant_Ok in Hd as (w1 & w2 & E1 & Hd & ->). apply debit_cases in Hd; [|done].
    cbv zeta in Hd. rewrite E1 in Hd. destruct Hd as [(row & _ & _ & _ & ->)|Hd]; [done|by eapply debited_balanced].
  - by rewrite (withTenant_rollback _ _ _ _ _ Hd).
Qed.

(** ** Who is entitled *)

Section Access.
Context `{Env, Process}.

Lemma lockRows_ReadOnly : ReadOnly lockRows.
Proof. apply statement_ReadOnly. Qed.

Lemma hasActive_ReadOnly tenantId tenant setting nowMs :
  ReadOnly (hasActiveInternalBetaSchedulingEntitlement tenantId tenant setting nowMs).
Proof.
  unfold hasActiveInternalBetaSchedulingEntitlement. destruct (negb _); [apply ReadOnly_ret|].
  destruct (activeInternalBetaGrant _ _); [|apply ReadOnly_ret].
  destruct (tn_trialEndsAt _); [|apply ReadOnly_ret].
  destruct (_ || _); [apply ReadOnly_ret|]. auto with readonly.
Qed.

Lemma assertFeatureEntitled_ReadOnly tenantId feature billable :
  ReadOnly (assertFeatureEntitled tenantId feature billable).
Proof.
  unfold assertFeatureEntitled, throwProblemTx.
  apply ReadOnly_bind; [apply lockRows_ReadOnly|intros _].
  apply ReadOnly_bind; [apply ReadOnly_findFirst|intros found].
  apply ReadOnly_bind; [apply ReadOnly_findFirst|intros setting].
  apply ReadOnly_bind; [apply ReadOnly_if; [apply ReadOnly_findFirst|apply ReadOnly_ret]|intros beta].
  destruct found as [tenant|]; [|apply ReadOnly_throw]. destruct (overrideDisabled _); [apply ReadOnly_throw|].
  apply ReadOnly_bind; [apply ReadOnly_now|intros nowMs].
  apply ReadOnly_bind; [apply ReadOnly_if; [apply hasActive_ReadOnly|apply ReadOnly_ret]|intros active].
  destruct (_ && _); [apply ReadOnly_throw|].
  apply ReadOnly_bind; [apply ReadOnly_findFirst|intros plan].
  repeat (apply ReadOnly_if; [apply ReadOnly_throw || apply ReadOnly_ret|]). apply ReadOnly_ret.
Qed.

Lemma assertSchedulingEntitled_ReadOnly tenantId : ReadOnly (assertSchedulingEntitled tenantId).
Proof.
  unfold assertSchedulingEntitled, throwProblemTx.
  apply ReadOnly_bind; [apply ReadOnly_now|intros nowMs].
  apply ReadOnly_bind; [apply lockRows_ReadOnly|intros _].
  apply ReadOnly_bind; [apply ReadOnly_findFirst|intros found].
  apply ReadOnly_bind; [apply ReadOnly_findFirst|intros setting].
  destruct found as [tenant|]; [|apply ReadOnly_throw].
  destruct (overrideDisabled _); [auto with readonly|]. destruct (negb _).
  - apply ReadOnly_bind; [apply assertFeatureEntitled_ReadOnly|intros _; apply ReadOnly_ret].
  - apply ReadOnly_bind; [apply ReadOnly_findFirst|intros plan].
    apply ReadOnly_if; [apply ReadOnly_throw|apply ReadOnly_ret].
Qed.

Lemma assertFeatureEntitled_spec tenantId feature billable w granted w' :
  assertFeatureEntitled tenantId feature billable w = (Ok granted, w') ->
  w_db w' = w_db w /\
  exists tenant override features nowMs, tenant ∈ db_tenants (w_db w) /\ tn_id tenant = tenantId /\
    tn_deletedAt tenant = None /\ overrideDisabled override = false /\
    (subscriptionActive tenant nowMs = true \/ feature = scheduling /\ internalBetaRuntimeEnabled = true) /\
    (overrideEnabled override = true \/ feature ∈ planFeatures features (planCode (tn_planTier tenant))) /\
    granted = (if billable then Some (mkEntitlement feature 1) else None) /\
    (billable = true -> tn_creditDebt tenant = 0 /\ 1 <= tn_usageCredits tenant).
Proof.
  intros Hd. split; [by eapply ReadOnly_Ok; [apply assertFeatureEntitled_ReadOnly|]|].
  unfold assertFeatureEntitled, throwProblemTx in Hd.
  apply Tx_bind_Ok in Hd as (? & w1 & E1%lockRows_Ok & Hd).
  apply Tx_bind_Ok in Hd as (found & w2 & [Hf E2]%findFirst_Ok & Hd).
  apply Tx_bind_Ok in Hd as (setting & w3 & [_ E3]%findFirst_Ok & Hd).
  apply Tx_bind_Ok in Hd as (beta & w4 & _ & Hd).
  destruct found as [tenant|]; [|by apply throwTx_Ok in Hd].
  set (override := overrideFor _ _) in *.
  destruct (overrideDisabled override) eqn:Ho; [by apply throwTx_Ok in Hd|].
  apply Tx_bind_Ok in Hd as (nowMs & w5 & _ & Hd). apply Tx_bind_Ok in Hd as (active & w6 & Hact & Hd).
  destruct (_ && _) eqn:Ha; [by apply throwTx_Ok in Hd|].
  apply Tx_bind_Ok in Hd as (plan & w7 & _ & Hd).
  destruct (negb (overrideEnabled override) && _) eqn:Hi; [by apply throwTx_Ok in Hd|].
  symmetry in Hf. apply find_some in Hf as [Hin Hp]. rewrite E1 in Hin. cbn in Hin.
  exists tenant, override, (default JNull (pd_metadata <$> plan)), nowMs. bools.
  split; [by apply list_elem_of_In|]. split; [tauto|]. split; [tauto|]. split; [done|]. split; [|split].
  - destruct Ha as [Ha|Ha]; [by left|]. right. case_bool_decide as Hfs.
    + split; [done|]. unfold hasActiveInternalBetaSchedulingEntitlement in Hact.
      destruct internalBetaRuntimeEnabled; [done|]. apply Tx_ret_Ok in Hact as [<- _]. done.
    + by apply Tx_ret_Ok in Hact as [<- _].
  - tauto.
  - destruct billable; [|by apply Tx_ret_Ok in Hd as [<- _]]. cbn [negb] in Hd.
    destruct (_ || _) eqn:H1 in Hd; [by apply throwTx_Ok in Hd|].
    destruct (_ || _) eqn:H2 in Hd; [by apply throwTx_Ok in Hd|].
    apply Tx_ret_Ok in Hd as [<- _]. split; [done|]. intros _. apply orb_false_iff in H1, H2. bools. lia.
Qed.

Lemma assertFeatureEntitled_Ok tenantId feature billable w granted w' :
  assertFeatureEntitled tenantId feature billable w = (Ok granted, w') ->
  w_db w' = w_db w /\ granted = if billable then Some (mkEntitlement feature 1) else None.
Proof. intros [E (? & ? & ? & ? & _ & _ & _ & _ & _ & _ & Hg & _)]%assertFeatureEntitled_spec. done. Qed.

(** A feature is granted only to a live tenant whose override does not
    disable it, with an active subscription (or, for scheduling only, the
    internal beta enabled in this process), whose plan or override includes
    it; and a billable grant means a wallet without debt and with at least
    the one credit the entitlement costs. The check changes nothing. *)
Theorem assertFeatureEntitled_sound tenantId feature billable w granted w' :
  assertFeatureEntitled tenantId feature billable w = (Ok granted, w') ->
  w_db w' = w_db w /\
  exists tenant override features nowMs, tenant ∈ db_tenants (w_db w) /\ tn_id tenant = tenantId /\
    tn_deletedAt tenant = None /\ overrideDisabled override = false /\
    (subscriptionActive tenant nowMs = true \/ feature = scheduling /\ internalBetaRuntimeEnabled = true) /\
    (overrideEnabled override = true \/ feature ∈ planFeatures features (planCode (tn_planTier tenant))) /\
    granted = (if billable then Some (mkEntitlement feature 1) else None) /\
    (billable = true -> tn_creditDebt tenant = 0 /\ 1 <= tn_usageCredits tenant).
Proof. apply assertFeatureEntitled_spec. Qed.
End Access.

(** ** Concrete instances *)

Definition noBeta : Process := {| env_flag := None; env_origin := None |}.

Definition sampleTenant (credits : Z) : Tenant :=
  mkTenant "t1" "GROWTH" "ACTIVE" (Some "sub_1") (Some 2000000000000) None credits 0 None "Sample" "sample".

Definition sampleDb : Db :=
  withRows [mkCredit "grant" "t1" 5 0 "Starter credits" (Some 5) (Some 0)]
    (withRows [sampleTenant 5] emptyDb).

Definition sampleDebit : Tx (Z * Z) :=
  @debitFeatureCredit (calm 0) (mret tt) "t1" (mkEntitlement lunch_breaks 1) "op" "Generation" None.

Lemma debitFeatureCredit_once_witness :
  let w' := (sampleDebit (mkWorld sampleDb 0)).2 in
  let id := "feature-usage-op" in
  (replayed id "t1" "Generation" 1 (1, 4) sampleDb (w_db w') \/
   debited id "t1" "Generation" 1 (1, 4) sampleDb (w_db w')) /\
  forall (env2 : Env) guard2 w2 r2 w3, ReadOnly guard2 -> w_db w2 = w_db w' ->
    @debitFeatureCredit env2 guard2 "t1" (mkEntitlement lunch_breaks 1) "op" "Generation" None w2 = (Ok r2, w3) ->
    r2 = (1, 4) /\ w_db w3 = w_db w'.
Proof.
  cbv zeta. apply (@debitFeatureCredit_once (calm 0) noBeta (mret tt) "t1" (mkEntitlement lunch_breaks 1)
    "op" "Generation" None (mkWorld sampleDb 0)); [apply ReadOnly_ret|vm_compute; reflexivity].
Defined.

Lemma debitFeatureCredit_conserves_witness :
  walletsBalanced (w_db (@withTenant (calm 0) (Z * Z) "t1" sampleDebit (mkWorld sampleDb 0)).2).
Proof.
  refine (@debitFeatureCredit_conserves (calm 0) noBeta (mret tt) "t1" (mkEntitlement lunch_breaks 1)
    "op" "Generation" None (mkWorld sampleDb 0)
    (@withTenant (calm 0) _ "t1" sampleDebit (mkWorld sampleDb 0)).1 _ _ _ _).
  - apply ReadOnly_ret.
  - split; [apply NoDup_singleton|]. apply Forall_singleton. split; [reflexivity|discriminate].
  - vm_compute. reflexivity.
Defined.

Lemma assertFeatureEntitled_sound_witness :
  let w := mkWorld sampleDb 0 in
  let w' := (@assertFeatureEntitled (calm 0) noBeta "t1" time_cards true w).2 in
  w_db w' = w_db w /\
  exists tenant override features nowMs, tenant ∈ db_tenants (w_db w) /\ tn_id tenant = "t1" /\
    tn_deletedAt tenant = None /\ overrideDisabled override = false /\
    (subscriptionActive tenant nowMs = true \/ time_cards = scheduling /\ @internalBetaRuntimeEnabled noBeta = true) /\
    (overrideEnabled override = true \/ time_cards ∈ planFeatures features (planCode (tn_planTier tenant))) /\
    Some (mkEntitlement time_cards 1) = (if true then Some (mkEntitlement time_cards 1) else None) /\
    (true = true -> tn_creditDebt tenant = 0 /\ 1 <= tn_usageCredits tenant).
Proof.
  cbv zeta. apply (@assertFeatureEntitled_sound (calm 0) noBeta "t1" time_cards true (mkWorld sampleDb 0)).
  vm_compute. reflexivity.
Defined.

(** ** The two scheduling checks disagree *)

(** A paying tenant whose plan row carries metadata without a feature list. *)
Definition undecidedDb : Db :=
  withRows [mkPlanDefinition "GROWTH" (JObj [("tier", Some (JNum 2))]) "Growth" (Some 3)] (withRows [sampleTenant 5] emptyDb).

(** The board's check falls back to the default features of the plan; the
    check of the operations and time modules grants nothing. *)
Example scheduling_checks_disagree :
  (runOn (@assertSchedulingEntitled (calm 0) noBeta "t1") undecidedDb).1 = Ok tt /\
  (runOn (@assertFeatureEntitled (calm 0) noBeta "t1" scheduling false) undecidedDb).1 =
    Throw (failure scheduling false).
Proof. split; vm_compute; reflexivity. Qed.
