(* ===== verification/Authority.v ===== *)
(** * Authority scopes

    apps/api-v2/src/operations/operations.service.ts and
    apps/api-v2/src/platform/identity.ts: the identity of a request, permission
    checks, and the scope every handler runs in: a tenant transaction that
    first authorises the actor again, retried once on a serialization conflict.

    What the authorisation finds (the actor, or a refusal) is decided by the
    environment, one outcome per tick, like the guard [assertCurrent] that is
    evaluated around every wait. *)

From S2P Require Import Prelude JsStd JsCollections ContractHelpers PayrollRecords Database.

Record SessionRole := mkRole { ro_name : string; ro_legacyRole : option string }.

Record SessionIdentity := mkIdentity {
  si_sub : string;
  si_tenantId : string;
  si_permissions : list string;
  si_publicUserId : string;
  si_role : string;
  si_legacyRole : option string;
  si_roles : list SessionRole;
}.

(** The actor [authorize] resolves in its transaction, or its refusal. *)
Class AuthorityEnv := { authorityAt : nat -> Result SessionIdentity }.

(** [mutationIdentity] trims the identifiers. *)
Definition operationsIdentity (input : SessionIdentity) : SessionIdentity :=
  mkIdentity (trim (si_sub input)) (trim (si_tenantId input)) (si_permissions input) (si_publicUserId input)
    (si_role input) (si_legacyRole input) (si_roles input).

(** [value.trim().replace(/[\s-]+/g, '_').toUpperCase()] *)
Fixpoint underscored (l : list ascii) : list ascii :=
  match l with
  | [] => []
  | c :: rest =>
      if isWhite c || bool_decide (c = "-"%char) then
        match rest with
        | d :: _ => if isWhite d || bool_decide (d = "-"%char) then underscored rest else "_"%char :: underscored rest
        | [] => ["_"%char]
        end
      else c :: underscored rest
  end.
Definition normalizedRole (value : option string) : string :=
  match value with Some text => toUpperCase (ofChars (underscored (chars (trim text)))) | None => "" end.

Definition isStaffIdentity (identity : SessionIdentity) : bool :=
  existsb (fun role => bool_decide (normalizedRole role = "STAFF"))
    ([si_legacyRole identity; Some (si_role identity)]
     ++ flat_map (fun role => [Some (ro_name role); ro_legacyRole role]) (si_roles identity)).

(** The current identity of a scope: the actor's, in the tenant of the request. *)
Definition currentIdentity (identity authority : SessionIdentity) : SessionIdentity :=
  mkIdentity (si_sub authority) (si_tenantId identity) (si_permissions authority) (si_publicUserId authority)
    (si_role authority) (si_legacyRole authority) (si_roles authority).

Definition requirePermissions (identity : SessionIdentity) (permissions : list string) : Result unit :=
  if bool_decide (List.filter (fun p => negb (bool_decide (p ∈ si_permissions identity))) permissions = [])
  then Ok tt
  else throwProblem 403 "permission_denied" "You do not have permission to perform this action." "Forbidden".

Definition requireAnyPermission (identity : SessionIdentity) (permissions : list string) : Result unit :=
  if existsb (fun p => bool_decide (p ∈ si_permissions identity)) permissions then Ok tt
  else throwProblem 403 "permission_denied" "You do not have permission to perform this action." "Forbidden".

(** Driver conflicts and connectivity failures after which a receipt is looked
    for. *)
Definition isOperationsReceiptRecovery (error : Exn) : bool :=
  let code := errorCode error in
  let driverCode := if bool_decide (code = "P2010") then errorMetaCode error else "" in
  bool_decide (code ∈ ["P2002"; "P2034"; "40001"; "55P03"; "P1001"; "P1002"; "P1008"; "P1017";
                       "P2024"; "P2028"])
  || (bool_decide (code = "P2010") && bool_decide (driverCode ∈ ["40001"; "55P03"])).

Section Scope.
Context `{Env, AuthorityEnv}.

Definition authorize : Tx SessionIdentity := fun w => (authorityAt (w_tick w), tick w).

(** The preflight of [prepareOperationsAuthority]: one authorisation in its
    own transaction, and the guard. *)
Definition prepareOperationsAuthority (identity : SessionIdentity) : Tx unit :=
  _ ← retryPayrollSerializableMutation (withTenant (si_tenantId identity) authorize);
  assertCurrent.

(** [scope.run(operation)]: the current identity keeps the request's tenant. *)
Definition scopeRun {A} (identity : SessionIdentity) (operation : SessionIdentity -> Tx A) : Tx A :=
  retryPayrollSerializableMutation (withTenant (si_tenantId identity) (
    authority ← authorize;
    let current := currentIdentity identity authority in
    _ ← assertCurrent;
    result ← operation current;
    _ ← assertCurrent;
    mret result)).

Lemma authorize_ReadOnly : ReadOnly authorize.
Proof. by intros w. Qed.

Lemma retry_Ok {A} (m : Tx A) w a w' :
  retryPayrollSerializableMutation m w = (Ok a, w') ->
  m w = (Ok a, w') \/ exists e w1, m w = (Throw e, w1) /\ m w1 = (Ok a, w').
Proof.
  unfold retryPayrollSerializableMutation. cbn [retryLoop Nat.eqb andb].
  destruct (m w) as [[b|e] w1] eqn:E; [by left|].
  destruct (isSerializationConflict e); [|done]. right. exists e, w1. split; [done|].
  by destruct (m w1) as [[b|e'] w2].
Qed.

Lemma retry_Throw {A} (m : Tx A) w e w' :
  (forall w e w', m w = (Throw e, w') -> w_db w' = w_db w) ->
  retryPayrollSerializableMutation m w = (Throw e, w') -> w_db w' = w_db w.
Proof.
  intros Hm. unfold retryPayrollSerializableMutation. cbn [retryLoop Nat.eqb andb].
  destruct (m w) as [[b|e1] w1] eqn:E; [done|]. apply Hm in E.
  destruct (isSerializationConflict e1); [|intros [= _ <-]; done].
  destruct (m w1) as [[b|e2] w2] eqn:E2; [done|]. apply Hm in E2. intros [= _ <-]. congruence.
Qed.

(** A handler that returned ran to its end once, on the database the request
    met, as an actor the authorisation resolved in the request's tenant. *)
Lemma scopeRun_as {A} identity (operation : SessionIdentity -> Tx A) w a w' :
  scopeRun identity operation w = (Ok a, w') ->
  exists n authority w1 w2, authorityAt n = Ok authority /\
    operation (currentIdentity identity authority) w1 = (Ok a, w2) /\ w_db w1 = w_db w /\ w_db w' = w_db w2.
Proof.
  unfold scopeRun. intros H1.
  assert (Hone : forall w0, withTenant (si_tenantId identity) (
    authority ← authorize;
    let current := currentIdentity identity authority in
    _ ← assertCurrent; result ← operation current; _ ← assertCurrent; mret result) w0 = (Ok a, w') ->
    exists n authority w1 w2, authorityAt n = Ok authority /\
      operation (currentIdentity identity authority) w1 = (Ok a, w2) /\ w_db w1 = w_db w0 /\ w_db w' = w_db w2).
  { intros w0 (wi & wo & Ei & (auth & w1 & Ea & Hr)%Tx_bind_Ok & ->)%withTenant_Ok.
    apply Tx_bind_Ok in Hr as (? & w2 & [_ ->]%assertCurrent_Ok & Hr).
    apply Tx_bind_Ok in Hr as (b & w3 & Ho & Hr).
    apply Tx_bind_Ok in Hr as (? & w4 & [_ ->]%assertCurrent_Ok & [-> <-]%Tx_ret_Ok).
    eexists _, auth, _, _. split; [by injection Ea as Ea _|]. split; [exact Ho|]. split; [|done].
    by rewrite <- Ei, <- (ReadOnly_Ok _ _ _ _ authorize_ReadOnly Ea). }
  apply retry_Ok in H1 as [H1|(e & w1 & H1 & H2)]; [by apply Hone|].
  apply withTenant_rollback in H1. destruct (Hone w1 H2) as (n & auth & wa & wb & Hc & Ho & E1 & E2).
  exists n, auth, wa, wb. split_and!; congruence.
Qed.

Lemma scopeRun_Ok {A} identity (operation : SessionIdentity -> Tx A) w a w' :
  scopeRun identity operation w = (Ok a, w') ->
  exists current w1 w2, si_tenantId current = si_tenantId identity /\
    operation current w1 = (Ok a, w2) /\ w_db w1 = w_db w /\ w_db w' = w_db w2.
Proof. intros (n & authority & w1 & w2 & _ & H1)%scopeRun_as. by exists (currentIdentity identity authority), w1, w2. Qed.

Lemma scopeRun_Throw {A} identity (operation : SessionIdentity -> Tx A) w e w' :
  scopeRun identity operation w = (Throw e, w') -> w_db w' = w_db w.
Proof. apply retry_Throw. intros. by eapply withTenant_rollback. Qed.

Lemma prepareOperationsAuthority_ReadOnly identity : ReadOnly (prepareOperationsAuthority identity).
Proof.
  apply ReadOnly_bind; [|intros _; apply ReadOnly_current]. intros w.
  destruct (retryPayrollSerializableMutation _ w) as [[a|e] w'] eqn:E; cbn.
  - apply retry_Ok in E as [E|(e & w1 & E1 & E2)].
    + apply withTenant_Ok in E as (wi & wo & <- & E & ->).
      by eapply ReadOnly_Ok; [apply authorize_ReadOnly|].
    + apply withTenant_rollback in E1. apply withTenant_Ok in E2 as (wi & wo & Ei & E2 & ->).
      rewrite (ReadOnly_Ok _ _ _ _ authorize_ReadOnly E2). congruence.
  - eapply retry_Throw; [|exact E]. intros. by eapply withTenant_rollback.
Qed.
End Scope.

(** The environment of the examples: one actor, always authorised. *)
Definition actingAs (identity : SessionIdentity) : AuthorityEnv := {| authorityAt n := Ok identity |}.
