(* ===== verification/ScheduleStore.v ===== *)
(** * What the scheduling writes share

    apps/api-v2/src/scheduling/serialization.ts and authorization.ts, and the
    parts that change-set.service.ts and lifecycle.service.ts have in common:
    the stored result of an idempotency key, the locked schedule row, the
    public form of schedules and shifts.

    A response is the JSON value it is sent as; a property that holds
    [undefined] is dropped when the value is stored ([inputJson]).  A JSON
    column is read back as it was written. *)

From S2P Require Import Prelude JsStd JsCollections JsDate ContractHelpers ChangeSetPlan.
From S2P Require Import PayrollRecords Database FeatureEntitlement Authority.

(** [matchesContract(schema, value)], the schema by its name. *)
Class Contracts := matchesContract : string -> Json -> bool.

(** [JSON.parse(JSON.stringify(value))] *)
Fixpoint inputJson (value : Json) : Json :=
  match value with
  | JArr l => JArr (map inputJson l)
  | JObj entries =>
      JObj ((fix go (es : list (string * option Json)) : list (string * option Json) :=
        match es with
        | [] => []
        | (k, Some v) :: es' => (k, Some (inputJson v)) :: go es'
        | (_, None) :: es' => go es'
        end) entries)
  | _ => value
  end.

(** A value that may be [null]. *)
Definition orJNull (v : option string) : Json := match v with Some s => JStr s | None => JNull end.

(** The request headers and metadata of a write. *)
Record WriteHeaders := mkHeaders { hd_ifMatch : option string; hd_idempotencyKey : option string }.
Record WriteMetadata := mkMetadata { md_ipAddress : option string; md_userAgent : option string }.

(** ** Authorization *)

Definition isShiftDelete (operation : ChangeOperation) : bool :=
  match operation with ShiftDelete _ => true | _ => false end.

Definition authorizeScheduleChangeSet (identity : SessionIdentity) (operations : list ChangeOperation)
    : Result unit :=
  _ ← (if existsb isShiftDelete operations then requirePermissions identity ["shifts:delete"] else Ok tt);
  if existsb (fun o => negb (isShiftDelete o)) operations
  then requirePermissions identity ["shifts:write"] else Ok tt.

Definition authorizeScheduleReopen (identity : SessionIdentity) : Result unit :=
  requirePermissions identity ["schedules:publish"].

(** ** Serialization *)

Definition statusText (s : ScheduleStatus) : string :=
  match s with DRAFT => "DRAFT" | PUBLISHED => "PUBLISHED" | ARCHIVED => "ARCHIVED" end.

Definition serializeSchedule (schedule : Schedule) (locationPublicId : string) : Json :=
  JObj [field "id" (JStr (sc_publicId schedule)); field "locationId" (JStr locationPublicId);
        field "startDate" (JStr (toISOString (sc_startDate schedule)));
        field "endDate" (JStr (toISOString (sc_endDate schedule)));
        field "status" (JStr (statusText (sc_status schedule)));
        field "publishedAt" (orJNull (toISOString <$> sc_publishedAt schedule));
        field "revision" (JNum (sc_revision schedule));
        field "etag" (JStr (scheduleEtag (sc_publicId schedule) (sc_revision schedule)))].

(** A shift with its user and its breaks, as the queries select it. *)
Record StoredShift := mkStored {
  ss_shift : Shift;
  ss_user : option User;
  ss_breaks : list BreakRow;
}.

Definition serializeShift (row : StoredShift) (locationPublicId schedulePublicId : string) : Result Json :=
  let shift := ss_shift row in
  if match sh_scheduleId shift with Some s => isEmpty s | None => true end then
    throwProblem 500 "invalid_scheduling_record" "A saved shift is missing its schedule."
      "Scheduling data error"
  else Ok (JObj [
    field "id" (JStr (sh_publicId shift));
    field "userId" (orJNull (us_publicId <$> ss_user row));
    field "locationId" (JStr locationPublicId);
    field "scheduleId" (JStr schedulePublicId);
    field "startTime" (JStr (toISOString (sh_startTime shift)));
    field "endTime" (JStr (toISOString (sh_endTime shift)));
    field "role" (orJNull (sh_role shift));
    field "user" (match ss_user row with
      | Some user => JObj [field "id" (JStr (us_publicId user));
                           field "name" (JStr (if isEmpty (us_name user) then "Unnamed" else us_name user));
                           field "role" (JStr (us_role user))]
      | None => JNull end);
    field "breaks" (JArr (map (fun item => JObj [
      field "startTime" (JStr (toISOString (br_startTime item)));
      field "endTime" (JStr (toISOString (br_endTime item)));
      field "paid" (JBool (br_paid item))]) (ss_breaks row)))]).

(** ** The locked schedule *)

Record LockedSchedule := mkLocked { lk_row : Schedule; lk_locationPublicId : string }.

Definition wantedSchedule (tenantId publicId : string) (s : Schedule) : bool :=
  bool_decide (sc_tenantId s = tenantId) && bool_decide (sc_publicId s = lowerText publicId)
  && bool_decide (sc_deletedAt s = None).

Definition liveLocationOf (s : Schedule) (l : Location) : bool :=
  bool_decide (lo_id l = sc_locationId s) && bool_decide (lo_tenantId l = sc_tenantId s)
  && bool_decide (lo_deletedAt l = None).

(** The rows of the [SELECT ... JOIN "Location" ... FOR UPDATE OF schedule_row]. *)
Definition joinedSchedules (tenantId publicId : string) (db : Db) : list LockedSchedule :=
  flat_map (fun s => map (fun l => mkLocked s (lo_publicId l))
    (List.filter (liveLocationOf s) (db_locations db)))
    (List.filter (wantedSchedule tenantId publicId) (db_schedules db)).

Section Store.
Context `{Env, Contracts}.

Definition lockSchedule (tenantId publicId : string) : Tx (option LockedSchedule) :=
  query (fun db => Ok (head (joinedSchedules tenantId publicId db), db)).

Definition keyedBy (tenantId keyHash : string) (c : ScheduleChangeSet) : bool :=
  bool_decide (cs_tenantId c = tenantId) && bool_decide (cs_idempotencyKeyHash c = keyHash).

(** [replay], the same in both services but for the schema. *)
Definition replay (schema tenantId idempotencyKeyHash expectedRequestHash : string)
    : Tx (option Json) :=
  found ← operationsWait (findFirst (keyedBy tenantId idempotencyKeyHash));
  match found with
  | None => mret None
  | Some stored =>
      if negb (bool_decide (cs_requestHash stored = expectedRequestHash)) then
        throwProblemTx 409 "idempotency_key_reused"
          "Idempotency-Key was already used for a different schedule change." "Idempotency conflict"
      else if negb (matchesContract schema (cs_response stored)) then
        throwProblemTx 409 "idempotency_result_unavailable"
          "The stored idempotent result is unavailable. Use a new Idempotency-Key." "Idempotency conflict"
      else mret (Some (cs_response stored))
  end.

(** The stale revision refusals carry the current entity tag when it is known. *)
Definition staleRevision (detail : string) (etag : option string) : Exn :=
  Problem (mkProblem 412 "stale_schedule_revision" detail "Precondition failed" None etag None).

(** The rows an [updateMany] of a schedule selects: the revision the client
    named must still be there. *)
Definition atRevision (from : ScheduleStatus) (tenantId scheduleId : string) (baseRevision : Z)
    (s : Schedule) : bool :=
  bool_decide (sc_id s = scheduleId) && bool_decide (sc_tenantId s = tenantId)
  && bool_decide (sc_status s = from) && bool_decide (sc_deletedAt s = None)
  && (sc_revision s =? baseRevision).

(** *** Facts *)

Lemma lockSchedule_Ok tenantId publicId r w w' :
  lockSchedule tenantId publicId w = (Ok r, w') ->
  w_db w' = w_db w /\ r = head (joinedSchedules tenantId publicId (w_db w)).
Proof. intros (_ & db & [= <- <-] & ->)%query_Ok. done. Qed.

Lemma joinedSchedules_head tenantId publicId db locked :
  head (joinedSchedules tenantId publicId db) = Some locked ->
  lk_row locked ∈ db_schedules db /\ wantedSchedule tenantId publicId (lk_row locked) = true.
Proof.
  intros Hh. assert (Hin : In locked (joinedSchedules tenantId publicId db)).
  { destruct (joinedSchedules _ _ _); [done|]. injection Hh as ->. by left. }
  unfold joinedSchedules in Hin. apply in_flat_map in Hin as (s & [Hs Hw]%filter_In & Hin).
  apply in_map_iff in Hin as (l & <- & _). split; [by apply list_elem_of_In|done].
Qed.

Lemma replay_Ok schema tenantId keyHash expected r w w' :
  replay schema tenantId keyHash expected w = (Ok r, w') ->
  w_db w' = w_db w /\
  match List.find (keyedBy tenantId keyHash) (db_changeSets (w_db w)) with
  | None => r = None
  | Some stored => cs_requestHash stored = expected /\ r = Some (cs_response stored)
  end.
Proof.
  unfold replay, throwProblemTx. intros (found & w1 & (w2 & [-> E2]%findFirst_Ok & E1)%operationsWait_Ok & Hr)%Tx_bind_Ok.
  cbn [rows Table_ChangeSet w_db tick] in *.
  destruct (List.find _ _) as [stored|].
  - destruct (negb _) eqn:E in Hr; [by apply throwTx_Ok in Hr|].
    destruct (negb _) in Hr; [by apply throwTx_Ok in Hr|]. apply Tx_ret_Ok in Hr as [<- <-].
    bools. split; [congruence|done].
  - apply Tx_ret_Ok in Hr as [<- <-]. split; [congruence|done].
Qed.
End Store.

Section Replay.
Context `{Env, Process, Contracts}.

(** Both services look for a stored result before and after taking the lock
    of the tenant's schedules. *)
Definition replayOr (schema tenantId keyHash expectedHash : string) (write : Tx Json) : Tx Json :=
  initialReplay ← operationsWait (replay schema tenantId keyHash expectedHash);
  match initialReplay with
  | Some response => mret response
  | None =>
      _ ← operationsWait (assertSchedulingEntitled tenantId);
      _ ← operationsWait (lockSchedulingAggregate tenantId);
      lockedReplay ← operationsWait (replay schema tenantId keyHash expectedHash);
      match lockedReplay with
      | Some response => mret response
      | None => write
      end
  end.

End Replay.

(** ** What a scheduling write does to the database *)

(** The stored result of the key was returned and nothing changed. *)
Definition replayedResult (tenantId keyHash expectedHash : string) (response : Json) (db db' : Db) : Prop :=
  db' = db /\ exists stored, List.find (keyedBy tenantId keyHash) (db_changeSets db) = Some stored /\
    cs_requestHash stored = expectedHash /\ response = cs_response stored.

(** Exactly one schedule row moved: the one the client saw, still in the
    status [from] at the revision the client named. *)
Definition revisionStep (from : ScheduleStatus) (f : Schedule -> Schedule) (tenantId publicId : string)
    (baseRevision : Z) (l l' : list Schedule) : Prop :=
  exists row, row ∈ l /\ wantedSchedule tenantId publicId row = true /\ sc_status row = from /\
    sc_revision row = baseRevision /\
    let p := atRevision from tenantId (sc_id row) baseRevision in
    length (List.filter p l) = 1%nat /\ l' = map (fun s => if p s then f s else s) l.

(** The row that answers retries of the key. *)
Definition recordsResult (tenantId keyHash expectedHash : string) (baseRevision : Z) (response : Json)
    (c : ScheduleChangeSet) : Prop :=
  cs_tenantId c = tenantId /\ cs_idempotencyKeyHash c = keyHash /\ cs_requestHash c = expectedHash /\
  cs_baseRevision c = baseRevision /\ cs_resultRevision c = baseRevision + 1 /\
  cs_response c = inputJson response.

(** A write that was carried out: the key was new, one schedule advanced, one
    change set and one audit row were appended, all besides what [frame] says
    of the database before the revision was written. *)
Definition writtenResult (frame : string -> Db -> Db -> Prop) (from : ScheduleStatus) (f : Schedule -> Schedule)
    (tenantId publicId : string) (baseRevision : Z) (keyHash expectedHash : string) (response : Json)
    (db db' : Db) : Prop :=
  List.find (keyedBy tenantId keyHash) (db_changeSets db) = None /\
  exists row mid schedules c audit,
    row ∈ db_schedules db /\ wantedSchedule tenantId publicId row = true /\ frame (sc_id row) db mid /\
    db_schedules mid = db_schedules db /\ db_changeSets mid = db_changeSets db /\
    revisionStep from f tenantId publicId baseRevision (db_schedules db) schedules /\
    recordsResult tenantId keyHash expectedHash baseRevision response c /\
    db' = withRows (db_audits mid ++ [audit]) (withRows (db_changeSets mid ++ [c]) (withRows schedules mid)).

Lemma find_app_hit {A} (p : A -> bool) (l : list A) x :
  List.find p l = None -> p x = true -> List.find p (l ++ [x]) = Some x.
Proof. intros Hl Hx. induction l as [|y l IH]; cbn in *; [by rewrite Hx|]. destruct (p y); [done|auto]. Qed.

(** After a write, or a replay, the key has a stored result. *)
Definition keyAnswered (tenantId keyHash expectedHash : string) (response : Json) (db : Db) : Prop :=
  exists stored, List.find (keyedBy tenantId keyHash) (db_changeSets db) = Some stored /\
    cs_requestHash stored = expectedHash /\
    (cs_response stored = response \/ cs_response stored = inputJson response).

Lemma replayed_answered tenantId keyHash expectedHash response db db' :
  replayedResult tenantId keyHash expectedHash response db db' ->
  keyAnswered tenantId keyHash expectedHash response db'.
Proof. intros [-> (stored & Hf & Hh & ->)]. exists stored. auto. Qed.

Lemma written_answered frame from f tenantId publicId base keyHash expectedHash response db db' :
  writtenResult frame from f tenantId publicId base keyHash expectedHash response db db' ->
  keyAnswered tenantId keyHash expectedHash response db'.
Proof.
  intros [Hn (row & mid & scs & c & audit & _ & _ & _ & _ & Hc & _ & (H1 & H2 & H3 & _ & _ & H6) & ->)].
  exists c. split; [|by auto].
  replace (db_changeSets _) with (db_changeSets mid ++ [c]) by by destruct mid.
  rewrite Hc. apply find_app_hit; [done|]. unfold keyedBy. by rewrite H1, H2, !bool_decide_true.
Qed.

(** Schedules are told apart by their public identifiers. *)
Definition publicIdsUnique (l : list Schedule) : Prop := NoDup (map sc_publicId l).

Lemma wantedSchedule_true tenantId publicId s :
  wantedSchedule tenantId publicId s = true ->
  sc_tenantId s = tenantId /\ sc_publicId s = lowerText publicId /\ sc_deletedAt s = None.
Proof. unfold wantedSchedule. rewrite !andb_true_iff, !bool_decide_eq_true. tauto. Qed.

(** The revision the step started from is gone. *)
Lemma revisionStep_spent from f tenantId publicId base l l' :
  publicIdsUnique l ->
  (forall s, sc_publicId (f s) = sc_publicId s) -> (forall s, sc_revision (f s) = sc_revision s + 1) ->
  revisionStep from f tenantId publicId base l l' ->
  publicIdsUnique l' /\
  forall row, row ∈ l' -> wantedSchedule tenantId publicId row = true -> sc_revision row = base + 1.
Proof.
  intros Hu Hid Hrev (row & Hin & Hw & Hst & Hr & _ & ->). set (p := atRevision _ _ _ _). split.
  - unfold publicIdsUnique. rewrite map_map. erewrite map_ext; [exact Hu|]. intros s. by destruct (p s).
  - intros s' Hs' Hw'. apply list_elem_of_In, in_map_iff in Hs' as (s & <- & Hs%list_elem_of_In).
    assert (Hsame : s = row).
    { apply wantedSchedule_true in Hw as (_ & Hwp & _), Hw' as (_ & Hwp' & _).
      assert (E : sc_publicId s = sc_publicId row).
      { destruct (p s); [rewrite Hid in Hwp'|]; congruence. }
      apply list_elem_of_lookup in Hs as [i Hi], Hin as [j Hj].
      assert (i = j) as ->; [|congruence].
      eapply (NoDup_lookup (map sc_publicId l)); [exact Hu| |];
        change (map sc_publicId l) with (sc_publicId <$> l); rewrite list_lookup_fmap; [by rewrite Hi|].
      rewrite Hj. cbn. by rewrite E. }
    subst s. assert (Hp : p row = true).
    { apply wantedSchedule_true in Hw as (Ht & _ & Hd). unfold p, atRevision.
      rewrite !bool_decide_true by done. by apply Z.eqb_eq. }
    rewrite Hp, Hrev. lia.
Qed.

Section ReplayFacts.
Context `{Env, Process, Contracts}.

Lemma replayOr_Ok schema tenantId keyHash expectedHash write r w w' :
  replayOr schema tenantId keyHash expectedHash write w = (Ok r, w') ->
  replayedResult tenantId keyHash expectedHash r (w_db w) (w_db w') \/
  List.find (keyedBy tenantId keyHash) (db_changeSets (w_db w)) = None /\
  exists w1, w_db w1 = w_db w /\ write w1 = (Ok r, w').
Proof.
  unfold replayOr. intros (o & w1 & (w2 & [E2 H2]%replay_Ok & E1)%operationsWait_Ok & Hr)%Tx_bind_Ok.
  cbn [w_db tick] in E2, H2. unfold replayedResult.
  destruct o as [response|].
  - apply Tx_ret_Ok in Hr as [<- <-]. left. split; [congruence|].
    destruct (List.find _ _) as [stored|]; [|done]. exists stored. destruct H2 as [? [= ->]]. done.
  - destruct (List.find _ _) as [stored|] eqn:Ef; [by destruct H2|].
    apply Tx_bind_Ok in Hr as (? & w3 & (w4 & E4 & E3)%operationsWait_Ok & Hr).
    apply (ReadOnly_Ok _ _ _ _ (assertSchedulingEntitled_ReadOnly tenantId)) in E4.
    apply Tx_bind_Ok in Hr as (? & w5 & (w6 & E6%lockRows_Ok & E5)%operationsWait_Ok & Hr).
    apply Tx_bind_Ok in Hr as (o & w7 & (w8 & [E8 H8]%replay_Ok & E7)%operationsWait_Ok & Hr).
    cbn [w_db tick] in *. rewrite E5, E6, E3, E4, E1, E2, Ef in H8. subst o.
    right. split; [done|]. exists w7. split; [congruence|done].
Qed.
End ReplayFacts.

(** A scheduling write that returned. *)
Definition writeOutcome (frame : string -> Db -> Db -> Prop) (from : ScheduleStatus) (f : Schedule -> Schedule)
    (tenantId publicId : string) (baseRevision : Z) (keyHash expectedHash : string) (response : Json)
    (db db' : Db) : Prop :=
  replayedResult tenantId keyHash expectedHash response db db' \/
  writtenResult frame from f tenantId publicId baseRevision keyHash expectedHash response db db'.

Lemma outcome_answered frame from f tenantId publicId base keyHash expectedHash response db db' :
  writeOutcome frame from f tenantId publicId base keyHash expectedHash response db db' ->
  keyAnswered tenantId keyHash expectedHash response db'.
Proof. intros [?|?]; [by eapply replayed_answered|by eapply written_answered]. Qed.

(** Once a key is answered nothing is written for it any more. *)
Lemma answered_outcome frame from f tenantId publicId base keyHash hash hash2 response response2 db db' :
  keyAnswered tenantId keyHash hash response db ->
  writeOutcome frame from f tenantId publicId base keyHash hash2 response2 db db' ->
  db' = db /\ hash2 = hash /\ (response2 = response \/ response2 = inputJson response).
Proof.
  intros (stored & Hf & Hh & Hr) [[-> (stored2 & Hf2 & Hh2 & ->)]|[Hn _]].
  - rewrite Hf in Hf2. injection Hf2 as <-. split; [done|]. split; [congruence|done].
  - by rewrite Hf in Hn.
Qed.

(** A second write from the same revision is impossible. *)
Lemma outcome_spent frame frame2 from from2 f f2 tenantId publicId base keyHash keyHash2 hash hash2 r r2 db db' db2 :
  publicIdsUnique (db_schedules db) ->
  (forall s, sc_publicId (f s) = sc_publicId s) -> (forall s, sc_revision (f s) = sc_revision s + 1) ->
  writtenResult frame from f tenantId publicId base keyHash hash r db db' ->
  writtenResult frame2 from2 f2 tenantId publicId base keyHash2 hash2 r2 db' db2 -> False.
Proof.
  intros Hu Hid Hrev [_ (row & mid & scs & c & audit & _ & _ & _ & _ & _ & Hstep & _ & E)].
  intros [_ (row2 & mid2 & scs2 & c2 & audit2 & _ & _ & _ & _ & _ & Hstep2 & _ & _)].
  replace (db_schedules db') with scs in Hstep2 by (rewrite E; by destruct mid).
  destruct (revisionStep_spent _ _ _ _ _ _ _ Hu Hid Hrev Hstep) as [_ Hspent].
  destruct Hstep2 as (row3 & Hin & Hw & _ & Hr & _). specialize (Hspent _ Hin Hw). lia.
Qed.
