(* ===== verification/ScheduleChanges.v ===== *)
(** * Applying a schedule change set

    apps/api-v2/src/scheduling/change-set.service.ts: [apply] authorises the
    request, looks for the stored result of its idempotency key, locks the
    schedule, plans the change ([ChangeSetPlan]), writes the mutations
    (deletes, updates, creates), advances the revision and stores the response.

    The property theorems say what a call may do to the database: nothing,
    unless it is the one successful application of its key, on a draft at the
    revision the client named. *)

From S2P Require Import Prelude JsStd JsCollections JsDate ContractHelpers ChangeSetPlan.
From S2P Require Import PayrollRecords Database FeatureEntitlement Authority ScheduleStore.

Definition MAX_SCHEDULE_SHIFTS : nat := 5000.
Definition MAX_EXTERNAL_SHIFTS : nat := 10000.

(** [ScheduleChangeSetRequest], a closed contract. *)
Definition jOptional (k : string) (v : option Json) : string * option Json := (k, v).

Definition operationJson (operation : ChangeOperation) : Json :=
  match operation with
  | ShiftCreate clientId userId s e role =>
      JObj [field "op" (JStr "shift.create"); jOptional "clientId" (JStr <$> clientId);
            field "userId" (orJNull userId); field "startTime" (JStr s); field "endTime" (JStr e);
            jOptional "role" (orJNull <$> role)]
  | ShiftUpdate shiftId userId s e role =>
      JObj [field "op" (JStr "shift.update"); field "shiftId" (JStr shiftId);
            jOptional "userId" (orJNull <$> userId); jOptional "startTime" (JStr <$> s);
            jOptional "endTime" (JStr <$> e); jOptional "role" (orJNull <$> role)]
  | ShiftDelete shiftId =>
      JObj [field "op" (JStr "shift.delete"); field "shiftId" (JStr shiftId)]
  end.

Definition bodyJson (operations : list ChangeOperation) : Json :=
  JObj [field "operations" (JArr (map operationJson operations))].

Definition plannedShift (row : StoredShift) : PlannedShift :=
  let shift := ss_shift row in
  mkPlannedShift (Some (sh_id shift)) (sh_publicId shift) (sh_userId shift)
    (us_publicId <$> ss_user row) (sh_startTime shift) (sh_endTime shift) (sh_role shift)
    (map (fun item => mkPlannedBreak (br_id item) (br_startTime item) (br_endTime item)) (ss_breaks row))
    "/saved".

(** The users an operation names ([Set], asked for membership and emptiness). *)
Definition requestedUserIds (operations : list ChangeOperation) : list string :=
  omap (fun operation => match operation with
    | ShiftCreate _ userId _ _ _ => userId
    | ShiftUpdate _ (Some userId) _ _ _ => userId
    | _ => None
    end) operations.

(** [row.userId ? [row.userId] : []] *)
Definition userIdOf (userId : option string) : list string :=
  match userId with Some u => if isEmpty u then [] else [u] | None => [] end.

Definition requestedUser (tenantId : string) (wanted : list string) (u : User) : bool :=
  bool_decide (us_tenantId u = tenantId) && bool_decide (us_publicId u ∈ map lowerText wanted)
  && bool_decide (us_deletedAt u = None) && bool_decide (us_suspendedAt u = None)
  && bool_decide (us_role u ∈ ["MANAGER"; "STAFF"]).

(** A live shift of the schedule. *)
Definition shiftOfSchedule (tenantId scheduleId : string) (s : Shift) : bool :=
  bool_decide (sh_tenantId s = tenantId) && bool_decide (sh_scheduleId s = Some scheduleId)
  && bool_decide (sh_deletedAt s = None).

(** A live shift of an involved user outside the schedule, near its dates. *)
Definition externalTo (tenantId : string) (schedule : Schedule) (involved : list string) (s : Shift) : bool :=
  bool_decide (sh_tenantId s = tenantId)
  && negb (bool_decide (sh_scheduleId s = Some (sc_id schedule)))
  && match sh_userId s with Some u => bool_decide (u ∈ involved) | None => false end
  && bool_decide (sh_deletedAt s = None)
  && (sh_startTime s <? sc_endDate schedule + 86400000) && (sc_startDate schedule <? sh_endTime s).

Section Reads.
Context `{Env, Collation}.

(** [orderBy: [{ startTime: 'asc' }, { id: 'asc' }]] *)
Definition shiftOrder (l r : Shift) : Z := orElse (sh_startTime l - sh_startTime r) (collate (sh_id l) (sh_id r)).
Definition breakOrder (l r : BreakRow) : Z := orElse (br_startTime l - br_startTime r) (collate (br_id l) (br_id r)).

(** The relations of a selected shift. *)
Definition withRelations (db : Db) (s : Shift) : StoredShift :=
  mkStored s
    (u ← sh_userId s;
     List.find (fun user => bool_decide (us_id user = u) && bool_decide (us_tenantId user = sh_tenantId s))
       (db_users db))
    (sortBy breakOrder (List.filter (fun b => bool_decide (br_shiftId b = sh_id s)) (db_breaks db))).

(** [limit] is the [take] of the query. *)
Definition findScheduleShifts (tenantId scheduleId : string) (limit : option nat) : Tx (list StoredShift) :=
  query (fun db =>
    let found := sortBy shiftOrder (List.filter (shiftOfSchedule tenantId scheduleId) (db_shifts db)) in
    Ok (map (withRelations db) (match limit with Some n => take n found | None => found end), db)).

Definition findExternalShifts (tenantId : string) (schedule : Schedule) (involved : list string)
    : Tx (list Shift) :=
  query (fun db => Ok (take (S MAX_EXTERNAL_SHIFTS)
    (sortBy shiftOrder (List.filter (externalTo tenantId schedule involved) (db_shifts db))), db)).

(** The draft the change set is for, at its revision. *)
Definition lockDraft (tenantId schedulePublicId : string) (baseRevision : Z) : Tx LockedSchedule :=
  found ← operationsWait (lockSchedule tenantId schedulePublicId);
  match found with
  | None => throwProblemTx 404 "schedule_not_found" "The selected schedule was not found." "Schedule not found"
  | Some locked =>
      if negb (bool_decide (sc_status (lk_row locked) = DRAFT)) then
        throwProblemTx 409 "schedule_locked"
          "Published or archived schedules are locked. Reopen the schedule before changing shifts."
          "Schedule locked"
      else if negb (sc_revision (lk_row locked) =? baseRevision) then
        throwTx (staleRevision "The schedule changed after this board loaded. Reload before saving."
          (Some (scheduleEtag (sc_publicId (lk_row locked)) (sc_revision (lk_row locked)))))
      else mret locked
  end.

Definition loadCurrentShifts (tenantId : string) (schedule : Schedule) : Tx (list StoredShift) :=
  rows ← operationsWait (findScheduleShifts tenantId (sc_id schedule) (Some (S MAX_SCHEDULE_SHIFTS)));
  if (MAX_SCHEDULE_SHIFTS <? length rows)%nat then
    throwProblemTx 422 "schedule_too_large"
      "This schedule contains too many shifts for one safe aggregate change." "Schedule too large"
  else mret rows.

Definition loadRequestedUsers (tenantId : string) (operations : list ChangeOperation) : Tx (list User) :=
  let wanted := requestedUserIds operations in
  if bool_decide (wanted = []) then mret []
  else operationsWait (findMany (requestedUser tenantId wanted)).

Definition loadExternalShifts (tenantId : string) (schedule : Schedule) (involved : list string)
    : Tx (list ExternalShift) :=
  rows ← (if bool_decide (involved = []) then mret []
          else operationsWait (findExternalShifts tenantId schedule involved));
  if (MAX_EXTERNAL_SHIFTS <? length rows)%nat then
    throwProblemTx 422 "schedule_validation_too_large"
      "Too many related shifts exist to validate this change safely." "Schedule validation limit"
  else mret (flat_map (fun row => map (fun u => mkExternalShift (sh_id row) u (sh_startTime row) (sh_endTime row))
               (userIdOf (sh_userId row))) rows).

Definition loadPlanInput (tenantId : string) (schedule : Schedule) (operations : list ChangeOperation)
    : Tx PlanInput :=
  currentRows ← loadCurrentShifts tenantId schedule;
  requestedUsers ← loadRequestedUsers tenantId operations;
  externalShifts ← loadExternalShifts tenantId schedule
    (flat_map (fun row => userIdOf (sh_userId (ss_shift row))) currentRows ++ map us_id requestedUsers);
  mret (mkPlanInput (sc_startDate schedule) (sc_endDate schedule) (map plannedShift currentRows)
    externalShifts
    (mapOf (map (fun u => (us_publicId u, mkResolvedUser (us_id u) (us_publicId u))) requestedUsers))
    operations).

(** [planScheduleChangeSet(input)], its identifiers from [randomUUID]: one
    tick per operation is more than it uses. *)
Definition planTx `{LocaleCompare} (input : PlanInput) : Tx ChangeSetPlan := fun w =>
  (planScheduleChangeSet (fun n => uuidAt (w_tick w + n)) input,
   mkWorld (w_db w) (w_tick w + length (in_operations input))).
End Reads.

(** ** The writes *)

(** [id: mutation.before.internalId as string]; a planned shift without an
    internal identifier names no row. *)
Definition shiftNamed (tenantId scheduleId : string) (internalId : option string) (s : Shift) : bool :=
  bool_decide (Some (sh_id s) = internalId) && shiftOfSchedule tenantId scheduleId s.

Definition setDeleted (deletedAt updatedAt : Z) (s : Shift) : Shift :=
  mkShift (sh_id s) (sh_publicId s) (sh_tenantId s) (sh_locationId s) (sh_scheduleId s) (sh_userId s)
    (sh_startTime s) (sh_endTime s) (sh_role s) updatedAt (Some deletedAt).

Definition setPlanned (after : PlannedShift) (updatedAt : Z) (s : Shift) : Shift :=
  mkShift (sh_id s) (sh_publicId s) (sh_tenantId s) (sh_locationId s) (sh_scheduleId s)
    (ps_userInternalId after) (ps_startTime after) (ps_endTime after) (ps_role after) updatedAt (sh_deletedAt s).

Definition moveBreak (item : PlannedBreak) (b : BreakRow) : BreakRow :=
  mkBreak (br_id b) (br_shiftId b) (br_type b) (pb_startTime item) (pb_endTime item) (br_paid b).

Definition breakNamed (internalId : option string) (item : PlannedBreak) (b : BreakRow) : bool :=
  bool_decide (br_id b = pb_internalId item) && bool_decide (Some (br_shiftId b) = internalId).

(** [revision: { increment: 1 }] *)
Definition bumpRevision (s : Schedule) : Schedule :=
  mkSchedule (sc_id s) (sc_publicId s) (sc_tenantId s) (sc_locationId s) (sc_startDate s) (sc_endDate s)
    (sc_status s) (sc_publishedAt s) (sc_revision s + 1) (sc_deletedAt s).

Section Apply.
Context `{Env, Process, AuthorityEnv, Contracts, Collation, LocaleCompare, Sha256}.

(** Prisma stamps [updatedAt] on every update of a shift. *)
Definition updateShifts (p : Shift -> bool) (f : Z -> Shift -> Shift) : Tx nat :=
  updatedAt ← now; updateMany p (f updatedAt).

Definition oneRow (count : nat) (code detail : string) : Tx unit :=
  if negb (count =? 1)%nat then throwProblemTx 409 code detail "Concurrent change" else mret tt.

Definition SHIFT_CHANGED : string := "A shift changed while the change set was applying.".

Definition applyMutation (tenantId : string) (schedule : Schedule) (deletedAt : Z)
    (mutation : ShiftMutation) : Tx unit :=
  match mutation with
  | MutDelete before =>
      deleted ← operationsWait (updateShifts
        (shiftNamed tenantId (sc_id schedule) (ps_internalId before)) (setDeleted deletedAt));
      oneRow deleted "concurrent_change" SHIFT_CHANGED
  | MutCreate after _ =>
      operationsWait (
        id ← randomUUID;
        updatedAt ← now;
        createRow (mkShift id (ps_publicId after) tenantId (sc_locationId schedule)
          (Some (sc_id schedule)) (ps_userInternalId after) (ps_startTime after) (ps_endTime after)
          (ps_role after) updatedAt None))
  | MutUpdate before after =>
      updated ← operationsWait (updateShifts
        (shiftNamed tenantId (sc_id schedule) (ps_internalId before)) (setPlanned after));
      _ ← oneRow updated "concurrent_change" SHIFT_CHANGED;
      forEach (fun item =>
        translated ← operationsWait (updateMany (breakNamed (ps_internalId before) item) (moveBreak item));
        oneRow translated "dependent_break_changed"
          "A dependent break changed while the shift was moving. Reload and retry.") (ps_breaks after)
  end.

(** [SET CONSTRAINTS ALL DEFERRED], then the three loops. *)
Definition writeMutations (tenantId : string) (schedule : Schedule) (plan : ChangeSetPlan) : Tx unit :=
  _ ← operationsWait statement;
  deletedAt ← now;
  forEach (fun m => operationsWait (applyMutation tenantId schedule deletedAt m))
    (writeOrder (mutations plan)).

Definition reviseSchedule (tenantId : string) (schedule : Schedule) (baseRevision : Z) : Tx unit :=
  revised ← operationsWait (updateMany (atRevision DRAFT tenantId (sc_id schedule) baseRevision) bumpRevision);
  if negb (revised =? 1)%nat then
    throwTx (staleRevision
      "The schedule changed while this change set was applying. Reload before saving." None)
  else mret tt.

Definition changeSetResponse (changeSetId : string) (locked : LockedSchedule) (baseRevision : Z)
    (shifts : list Json) (plan : ChangeSetPlan) : Json :=
  let publicId := sc_publicId (lk_row locked) in
  JObj [field "data" (JObj [
    field "changeSetId" (JStr changeSetId);
    field "scheduleId" (JStr publicId);
    field "baseRevision" (JNum baseRevision);
    field "revision" (JNum (baseRevision + 1));
    field "etag" (JStr (scheduleEtag publicId (baseRevision + 1)));
    field "shifts" (JArr shifts);
    field "created" (JArr (map (fun c => JObj [field "clientId" (orJNull c.1); field "shiftId" (JStr c.2)])
      (created plan)))])].

Definition countJson {A} (p : A -> bool) (l : list A) : Json := JNum (Z.of_nat (length (List.filter p l))).

Definition changeSetAudit (id changeSetId : string) (identity : SessionIdentity) (publicId : string)
    (baseRevision : Z) (operations : list ChangeOperation) (plan : ChangeSetPlan)
    (metadata : WriteMetadata) : AuditLog :=
  mkAudit id (si_tenantId identity) (Some (si_sub identity)) "SCHEDULE_CHANGE_SET_APPLIED"
    "schedule_change_set" (Some changeSetId)
    (Some (JObj [field "scheduleId" (JStr publicId); field "revision" (JNum baseRevision)]))
    (Some (JObj [field "scheduleId" (JStr publicId); field "revision" (JNum (baseRevision + 1));
                 field "operationCount" (JNum (Z.of_nat (length operations)));
                 field "createdShiftCount" (countJson isCreate (mutations plan));
                 field "updatedShiftCount" (countJson isUpdate (mutations plan));
                 field "deletedShiftCount" (countJson isDelete (mutations plan))]))
    (slice0 128 <$> md_ipAddress metadata) (slice0 512 <$> md_userAgent metadata).

(** The response, its change set row and the audit row. *)
Definition recordChange (identity : SessionIdentity) (locked : LockedSchedule) (baseRevision : Z)
    (keyHash expectedHash : string) (operations : list ChangeOperation) (plan : ChangeSetPlan)
    (metadata : WriteMetadata) : Tx Json :=
  let tenantId := si_tenantId identity in
  let schedule := lk_row locked in
  resultRows ← operationsWait (findScheduleShifts tenantId (sc_id schedule) None);
  changeSetId ← randomUUID;
  shifts ← liftResult (mapM (fun row =>
    serializeShift row (lk_locationPublicId locked) (sc_publicId schedule)) resultRows);
  let response := changeSetResponse changeSetId locked baseRevision shifts plan in
  _ ← operationsWait (createRow (mkChangeSet changeSetId tenantId (sc_id schedule) (si_sub identity)
        keyHash expectedHash baseRevision (baseRevision + 1) (inputJson (bodyJson operations))
        (inputJson response)));
  _ ← operationsWait (
        id ← randomUUID;
        createRow (changeSetAudit id changeSetId identity (sc_publicId schedule) baseRevision operations plan metadata));
  mret response.

(** Everything after the replays. *)
Definition applyToDraft (identity : SessionIdentity) (schedulePublicId : string)
    (operations : list ChangeOperation) (baseRevision : Z) (keyHash expectedHash : string)
    (metadata : WriteMetadata) : Tx Json :=
  let tenantId := si_tenantId identity in
  locked ← lockDraft tenantId schedulePublicId baseRevision;
  input ← loadPlanInput tenantId (lk_row locked) operations;
  plan ← planTx input;
  _ ← writeMutations tenantId (lk_row locked) plan;
  _ ← reviseSchedule tenantId (lk_row locked) baseRevision;
  recordChange identity locked baseRevision keyHash expectedHash operations plan metadata.

Definition changeSetHash (schedulePublicId : string) (operations : list ChangeOperation) : string :=
  requestHash (JObj [field "schedulePublicId" (JStr schedulePublicId); field "body" (bodyJson operations)]).

Definition CHANGE_SET_SCHEMA : string := "ScheduleChangeSetResponseSchema".

Definition apply (identity : SessionIdentity) (schedulePublicId : string)
    (operations : list ChangeOperation) (headers : WriteHeaders) (metadata : WriteMetadata) : Tx Json :=
  let identity := operationsIdentity identity in
  _ ← liftResult (authorizeScheduleChangeSet identity operations);
  baseRevision ← liftResult (requireScheduleRevision (hd_ifMatch headers) schedulePublicId);
  idempotencyKey ← liftResult (requireIdempotencyKey (hd_idempotencyKey headers));
  let keyHash := sha256 idempotencyKey in
  let expectedHash := changeSetHash schedulePublicId operations in
  _ ← prepareOperationsAuthority identity;
  scopeRun identity (fun current =>
    replayOr CHANGE_SET_SCHEMA (si_tenantId current) keyHash expectedHash
      (applyToDraft current schedulePublicId operations baseRevision keyHash expectedHash metadata)).
End Apply.

(** ** The reads of the handler *)

Section ReadFacts.
Context `{Env, Contracts, Collation}.

Lemma findScheduleShifts_ReadOnly tenantId scheduleId limit : ReadOnly (findScheduleShifts tenantId scheduleId limit).
Proof. exact (ReadOnly_read _). Qed.
Lemma findExternalShifts_ReadOnly tenantId schedule involved : ReadOnly (findExternalShifts tenantId schedule involved).
Proof. exact (ReadOnly_read _). Qed.

Lemma lockDraft_Ok tenantId publicId base locked w w' :
  lockDraft tenantId publicId base w = (Ok locked, w') ->
  w_db w' = w_db w /\ lk_row locked ∈ db_schedules (w_db w) /\
  wantedSchedule tenantId publicId (lk_row locked) = true /\
  sc_status (lk_row locked) = DRAFT /\ sc_revision (lk_row locked) = base.
Proof.
  unfold lockDraft, throwProblemTx.
  intros (o & w1 & (w2 & [E2 ->]%lockSchedule_Ok & E1)%operationsWait_Ok & Hr)%Tx_bind_Ok.
  cbn [w_db tick] in *. destruct (head _) as [lk|] eqn:Eh; [|by apply throwTx_Ok in Hr].
  destruct (negb (bool_decide _)) eqn:E3; [by apply throwTx_Ok in Hr|].
  destruct (negb (_ =? _)) eqn:E4; [by apply throwTx_Ok in Hr|]. apply Tx_ret_Ok in Hr as [<- <-].
  apply joinedSchedules_head in Eh as [Hin Hw]. bools. split; [congruence|done].
Qed.

Lemma loadPlanInput_ReadOnly tenantId schedule operations : ReadOnly (loadPlanInput tenantId schedule operations).
Proof.
  unfold loadPlanInput, loadCurrentShifts, loadRequestedUsers, loadExternalShifts, throwProblemTx.
  pose proof findScheduleShifts_ReadOnly. pose proof findExternalShifts_ReadOnly.
  apply ReadOnly_bind; [apply ReadOnly_bind; auto with readonly|intros rows].
  apply ReadOnly_bind; [case_bool_decide; auto with readonly|intros users].
  apply ReadOnly_bind; [|auto with readonly].
  apply ReadOnly_bind; [case_bool_decide; auto with readonly|auto with readonly].
Qed.

Lemma planTx_ReadOnly `{LocaleCompare} input : ReadOnly (planTx input).
Proof. by intros w. Qed.
End ReadFacts.

(** ** The frame of the writes *)

Definition inSchedule (tenantId scheduleId : string) (s : Shift) : bool :=
  bool_decide (sh_tenantId s = tenantId) && bool_decide (sh_scheduleId s = Some scheduleId).

(** Only shifts and breaks change, and no shift outside the schedule does. *)
Definition shiftsOnly (tenantId scheduleId : string) (db db' : Db) : Prop :=
  (exists shifts breaks, db' = withRows (R := BreakRow) breaks (withRows (R := Shift) shifts db)) /\
  List.filter (fun s => negb (inSchedule tenantId scheduleId s)) (db_shifts db') =
  List.filter (fun s => negb (inSchedule tenantId scheduleId s)) (db_shifts db).

Lemma db_shifts_with breaks shifts db :
  db_shifts (withRows (R := BreakRow) breaks (withRows (R := Shift) shifts db)) = shifts.
Proof. by destruct db. Qed.
Lemma db_breaks_with breaks shifts db :
  db_breaks (withRows (R := BreakRow) breaks (withRows (R := Shift) shifts db)) = breaks.
Proof. by destruct db. Qed.

#[global] Instance shiftsOnly_preorder tenantId scheduleId : PreOrder (shiftsOnly tenantId scheduleId).
Proof.
  split.
  - intros db. split; [|done]. exists (db_shifts db), (db_breaks db). by destruct db.
  - intros a b c [(s1 & b1 & ->) E1] [(s2 & b2 & ->) E2]. split; [|congruence].
    exists s2, b2. by destruct a.
Qed.

Lemma shiftsOnly_shifts tenantId scheduleId l db :
  List.filter (fun s => negb (inSchedule tenantId scheduleId s)) l =
    List.filter (fun s => negb (inSchedule tenantId scheduleId s)) (db_shifts db) ->
  shiftsOnly tenantId scheduleId db (withRows (R := Shift) l db).
Proof.
  intros E. split; [exists l, (db_breaks db)|]; destruct db; [done|exact E].
Qed.

Lemma shiftsOnly_breaks tenantId scheduleId l db :
  shiftsOnly tenantId scheduleId db (withRows (R := BreakRow) l db).
Proof. split; [exists (db_shifts db), l|]; by destruct db. Qed.

(** An update of selected rows of the schedule that keeps them there. *)
Lemma filter_map_other {A} (out p : A -> bool) (f : A -> A) (l : list A) :
  (forall x, p x = true -> out x = false /\ out (f x) = false) ->
  List.filter out (map (fun x => if p x then f x else x) l) = List.filter out l.
Proof.
  intros Hp. induction l as [|x l IH]; cbn; [done|].
  destruct (p x) eqn:E; [destruct (Hp x E) as [-> ->]; exact IH|]. destruct (out x); by rewrite IH.
Qed.

Section WriteFacts.
Context `{Env, Process, AuthorityEnv, Contracts, Collation, LocaleCompare, Sha256}.

Lemma oneRow_Ok count code detail u w w' :
  oneRow count code detail w = (Ok u, w') -> count = 1%nat /\ w' = w.
Proof.
  unfold oneRow, throwProblemTx. destruct (negb _) eqn:E; [by intros ?%throwTx_Ok|].
  intros [_ <-]%Tx_ret_Ok. by bools.
Qed.

Lemma updateShifts_Ok p f n w w' :
  updateShifts p f w = (Ok n, w') ->
  n = length (List.filter p (db_shifts (w_db w))) /\
  exists t, w_db w' = withRows (map (fun r => if p r then f t r else r) (db_shifts (w_db w))) (w_db w).
Proof.
  unfold updateShifts. intros (t & w1 & [-> ->]%now_Ok & [-> E]%updateMany_Ok)%Tx_bind_Ok. eauto.
Qed.

Lemma updateShifts_steps tenantId scheduleId id f :
  (forall t s, sh_tenantId (f t s) = sh_tenantId s /\ sh_scheduleId (f t s) = sh_scheduleId s) ->
  Steps (shiftsOnly tenantId scheduleId) (updateShifts (shiftNamed tenantId scheduleId id) f).
Proof.
  intros Hf w n w' (_ & t & ->)%updateShifts_Ok. apply shiftsOnly_shifts, filter_map_other.
  intros s Hs. unfold shiftNamed, shiftOfSchedule in Hs. rewrite !andb_true_iff in Hs.
  unfold inSchedule. destruct (Hf t s) as [-> ->]. destruct Hs as (_ & [-> ->] & _). done.
Qed.

Lemma oneRow_steps R `{!PreOrder R} count code detail : Steps R (oneRow count code detail).
Proof. by intros w u w' [_ ->]%oneRow_Ok. Qed.

Lemma applyMutation_steps tenantId schedule deletedAt m :
  Steps (shiftsOnly tenantId (sc_id schedule)) (applyMutation tenantId schedule deletedAt m).
Proof.
  destruct m as [after c|before after|before]; cbn [applyMutation].
  - apply (Steps_wait _). intros w u w' Hw. apply Tx_bind_Ok in Hw as (id & w1 & [-> ->]%randomUUID_Ok & Hw).
    apply Tx_bind_Ok in Hw as (t & w2 & [-> ->]%now_Ok & [_ ->]%createRow_Ok).
    apply shiftsOnly_shifts. cbn. rewrite List.filter_app. cbn. unfold inSchedule; cbn.
    by rewrite !bool_decide_true, app_nil_r by done.
  - apply (Steps_bind _); [apply (Steps_wait _), updateShifts_steps; done|intros n].
    apply (Steps_bind _); [apply (oneRow_steps _)|intros _]. apply (Steps_forEach _). intros item.
    apply (Steps_bind _); [apply (Steps_wait _)|intros k; apply (oneRow_steps _)].
    intros w k w' [_ ->]%updateMany_Ok. apply shiftsOnly_breaks.
  - apply (Steps_bind _); [apply (Steps_wait _), updateShifts_steps; done|intros n].
    apply (oneRow_steps _).
Qed.

Lemma writeMutations_steps tenantId schedule plan :
  Steps (shiftsOnly tenantId (sc_id schedule)) (writeMutations tenantId schedule plan).
Proof.
  unfold writeMutations. apply (Steps_bind _); [apply (Steps_readonly _); auto with readonly|intros _].
  apply (Steps_bind _); [apply (Steps_readonly _); auto with readonly|intros t].
  apply (Steps_forEach _). intros m. apply (Steps_wait _), applyMutation_steps.
Qed.
End WriteFacts.

(** ** What [apply] does *)

Lemma withRows_schedules l db :
  db_schedules (withRows (R := Schedule) l db) = l /\
  db_changeSets (withRows (R := Schedule) l db) = db_changeSets db /\
  db_audits (withRows (R := Schedule) l db) = db_audits db.
Proof. by destruct db. Qed.
Lemma withRows_changeSets l db :
  db_changeSets (withRows (R := ScheduleChangeSet) l db) = l /\
  db_audits (withRows (R := ScheduleChangeSet) l db) = db_audits db.
Proof. by destruct db. Qed.

Lemma shiftsOnly_keeps tenantId scheduleId db mid :
  shiftsOnly tenantId scheduleId db mid ->
  db_schedules mid = db_schedules db /\ db_changeSets mid = db_changeSets db.
Proof. intros [(s & b & ->) _]. by destruct db. Qed.

Section ApplyFacts.
Context `{Env, Process, AuthorityEnv, Contracts, Collation, LocaleCompare, Sha256}.

(** The database when the plan is made and when it has been written. *)
Record DraftRun (identity : SessionIdentity) (publicId : string) (operations : list ChangeOperation)
    (baseRevision : Z) (db : Db) := mkRun {
  run_locked : LockedSchedule;
  run_plan : ChangeSetPlan;
  run_input : World;       (* where the plan's input is read *)
  run_planned : World;     (* where the plan is made *)
  run_write : World;       (* where the writes start and end *)
  run_written : World;
  run_input_db : w_db run_input = db;
  run_reads : exists input, loadPlanInput (si_tenantId identity) (lk_row run_locked) operations run_input
                = (Ok input, run_planned) /\ planTx input run_planned = (Ok run_plan, run_write);
  run_writes : writeMutations (si_tenantId identity) (lk_row run_locked) run_plan run_write
                = (Ok tt, run_written);
  run_row : lk_row run_locked ∈ db_schedules db;
  run_wanted : wantedSchedule (si_tenantId identity) publicId (lk_row run_locked) = true;
  run_draft : sc_status (lk_row run_locked) = DRAFT;
  run_revision : sc_revision (lk_row run_locked) = baseRevision;
}.
Arguments run_locked {_ _ _ _ _} _.
Arguments run_written {_ _ _ _ _} _.

Lemma reviseSchedule_Ok tenantId schedule base u w w' :
  reviseSchedule tenantId schedule base w = (Ok u, w') ->
  let p := atRevision DRAFT tenantId (sc_id schedule) base in
  length (List.filter p (db_schedules (w_db w))) = 1%nat /\
  w_db w' = withRows (map (fun s => if p s then bumpRevision s else s) (db_schedules (w_db w))) (w_db w).
Proof.
  unfold reviseSchedule. intros (n & w1 & (w2 & [-> E2]%updateMany_Ok & E1)%operationsWait_Ok & Hr)%Tx_bind_Ok.
  cbv zeta. cbn [rows Table_Schedule w_db tick] in *. destruct (negb _) eqn:E in Hr; [by apply throwTx_Ok in Hr|].
  apply Tx_ret_Ok in Hr as [_ <-]. bools. split; [done|congruence].
Qed.

Lemma recordChange_Ok identity locked base keyHash hash operations plan metadata r w w' :
  recordChange identity locked base keyHash hash operations plan metadata w = (Ok r, w') ->
  exists c audit, recordsResult (si_tenantId identity) keyHash hash base r c /\
    w_db w' = withRows (db_audits (w_db w) ++ [audit]) (withRows (db_changeSets (w_db w) ++ [c]) (w_db w)).
Proof.
  unfold recordChange. intros (found & w1 & (w2 & Hrows & E1)%operationsWait_Ok & Hr)%Tx_bind_Ok.
  apply (ReadOnly_Ok _ _ _ _ (findScheduleShifts_ReadOnly _ _ _)) in Hrows.
  apply Tx_bind_Ok in Hr as (id & w3 & [-> ->]%randomUUID_Ok & Hr).
  apply Tx_bind_Ok in Hr as (shifts & w4 & [_ <-]%liftResult_Ok & Hr).
  apply Tx_bind_Ok in Hr as (? & w5 & (w6 & [_ E6]%createRow_Ok & E5)%operationsWait_Ok & Hr).
  apply Tx_bind_Ok in Hr as (? & w7 & (w8 & Haud & E7)%operationsWait_Ok & [<- <-]%Tx_ret_Ok).
  apply Tx_bind_Ok in Haud as (aid & w9 & [-> ->]%randomUUID_Ok & [_ E8]%createRow_Ok).
  cbn [w_db tick rows Table_ChangeSet Table_Audit] in *.
  eexists _, _. split; [|rewrite E7, E8, E5, E6, E1, Hrows; by destruct (w_db w)].
  by repeat split.
Qed.

Lemma applyToDraft_Ok identity publicId operations base keyHash hash metadata r w w' :
  applyToDraft identity publicId operations base keyHash hash metadata w = (Ok r, w') ->
  exists (run : DraftRun identity publicId operations base (w_db w)) c audit,
    let mid := w_db (run_written run) in
    let p := atRevision DRAFT (si_tenantId identity) (sc_id (lk_row (run_locked run))) base in
    length (List.filter p (db_schedules mid)) = 1%nat /\
    recordsResult (si_tenantId identity) keyHash hash base r c /\
    w_db w' = withRows (db_audits mid ++ [audit]) (withRows (db_changeSets mid ++ [c])
      (withRows (map (fun s => if p s then bumpRevision s else s) (db_schedules mid)) mid)).
Proof.
  unfold applyToDraft. intros (locked & w1 & Hl & Hr)%Tx_bind_Ok.
  apply lockDraft_Ok in Hl as (E1 & Hin & Hw & Hst & Hrev).
  apply Tx_bind_Ok in Hr as (input & w2 & Hi & Hr). apply Tx_bind_Ok in Hr as (plan & w3 & Hp & Hr).
  apply Tx_bind_Ok in Hr as ([] & w4 & Hm & Hr). apply Tx_bind_Ok in Hr as (? & w5 & Hv & Hr).
  apply reviseSchedule_Ok in Hv as [Hone E5]. apply recordChange_Ok in Hr as (c & audit & Hc & E6).
  assert (Hx : exists input, loadPlanInput (si_tenantId identity) (lk_row locked) operations w1 = (Ok input, w2)
                 /\ planTx input w2 = (Ok plan, w3)) by (by exists input).
  exists (mkRun _ _ _ _ _ locked plan w1 w2 w3 w4 E1 Hx Hm Hin Hw Hst Hrev), c, audit.
  cbv zeta. cbn [run_written run_locked]. split; [done|]. split; [done|]. rewrite E6, E5.
  by destruct (withRows_schedules (map (fun s => if atRevision DRAFT (si_tenantId identity) (sc_id (lk_row locked)) base s
    then bumpRevision s else s) (db_schedules (w_db w4))) (w_db w4)) as (_ & -> & ->).
Qed.

Lemma applyToDraft_written identity publicId operations base keyHash hash metadata r w w' :
  List.find (keyedBy (si_tenantId identity) keyHash) (db_changeSets (w_db w)) = None ->
  applyToDraft identity publicId operations base keyHash hash metadata w = (Ok r, w') ->
  writtenResult (shiftsOnly (si_tenantId identity)) DRAFT bumpRevision (si_tenantId identity) publicId
    base keyHash hash r (w_db w) (w_db w').
Proof.
  intros Hn (run & c & audit & Hone & Hc & E)%applyToDraft_Ok. cbv zeta in *. split; [done|].
  destruct run as [locked plan wi wp w0 w1 E0 Hreads Hm Hin Hw Hst Hrev]. cbn [run_written run_locked] in *.
  apply writeMutations_steps in Hm.
  destruct Hreads as (input & Hi & Hp). apply (ReadOnly_Ok _ _ _ _ (loadPlanInput_ReadOnly _ _ _)) in Hi.
  apply (ReadOnly_Ok _ _ _ _ (planTx_ReadOnly _)) in Hp. rewrite Hp, Hi, E0 in Hm.
  destruct (shiftsOnly_keeps _ _ _ _ Hm) as [Es Ec].
  eexists (lk_row locked), (w_db w1), _, c, audit. split; [done|]. split; [done|]. split; [exact Hm|].
  split; [done|]. split; [done|]. split; [|split; [exact Hc|exact E]].
  exists (lk_row locked). rewrite Es in *. done.
Qed.

Lemma apply_Ok identity publicId operations headers metadata r w w' :
  apply identity publicId operations headers metadata w = (Ok r, w') ->
  exists base key, requireScheduleRevision (hd_ifMatch headers) publicId = Ok base /\
    requireIdempotencyKey (hd_idempotencyKey headers) = Ok key /\
    authorizeScheduleChangeSet (operationsIdentity identity) operations = Ok tt /\
    exists current w1 w2, si_tenantId current = trim (si_tenantId identity) /\
      w_db w1 = w_db w /\ w_db w' = w_db w2 /\
      replayOr CHANGE_SET_SCHEMA (si_tenantId current) (sha256 key) (changeSetHash publicId operations)
        (applyToDraft current publicId operations base (sha256 key) (changeSetHash publicId operations) metadata)
        w1 = (Ok r, w2).
Proof.
  unfold apply. intros ([] & w1 & [Ha <-]%liftResult_Ok & Hr)%Tx_bind_Ok.
  apply Tx_bind_Ok in Hr as (base & w2 & [Hb <-]%liftResult_Ok & Hr).
  apply Tx_bind_Ok in Hr as (key & w3 & [Hk <-]%liftResult_Ok & Hr).
  apply Tx_bind_Ok in Hr as (? & w4 & Hp & Hr).
  apply (ReadOnly_Ok _ _ _ _ (prepareOperationsAuthority_ReadOnly _)) in Hp.
  apply scopeRun_Ok in Hr as (current & w5 & w6 & Ht & Hr & E5 & E6).
  exists base, key. split; [done|]. split; [done|]. split; [done|].
  exists current, w5, w6. split; [exact Ht|]. split; [congruence|done].
Qed.
End ApplyFacts.

Section ApplyProperties.
Context `{Env, Process, AuthorityEnv, Contracts, Collation, LocaleCompare, Sha256}.

Lemma apply_outcome_spec identity publicId operations headers metadata r w w' :
  apply identity publicId operations headers metadata w = (Ok r, w') ->
  exists base key, requireScheduleRevision (hd_ifMatch headers) publicId = Ok base /\
    requireIdempotencyKey (hd_idempotencyKey headers) = Ok key /\
    writeOutcome (shiftsOnly (trim (si_tenantId identity))) DRAFT bumpRevision (trim (si_tenantId identity))
      publicId base (sha256 key) (changeSetHash publicId operations) r (w_db w) (w_db w').
Proof.
  intros (base & key & Hb & Hk & _ & current & w1 & w2 & Ht & E1 & E2 & Hr)%apply_Ok.
  exists base, key. split; [done|]. split; [done|]. rewrite <- Ht, <- E1, E2.
  apply replayOr_Ok in Hr as [Hr|(Hn & w3 & E3 & Hr)]; [by left|right].
  rewrite <- E3 in Hn |- *. by apply (applyToDraft_written _ _ _ _ _ _ _ _ _ _ Hn Hr).
Qed.

Lemma apply_Throw identity publicId operations headers metadata e w w' :
  apply identity publicId operations headers metadata w = (Throw e, w') -> w_db w' = w_db w.
Proof.
  unfold apply, mbind, Tx_bind, liftResult.
  destruct (authorizeScheduleChangeSet _ _); [|by intros [= _ <-]].
  destruct (requireScheduleRevision _ _); [|by intros [= _ <-]].
  destruct (requireIdempotencyKey _); [|by intros [= _ <-]].
  pose proof (prepareOperationsAuthority_ReadOnly (operationsIdentity identity) w) as Hp.
  destruct (prepareOperationsAuthority _ w) as [[?|?] w1]; cbn in Hp; [|by intros [= _ <-]].
  intros E%scopeRun_Throw. congruence.
Qed.
End ApplyProperties.

Lemma requirePermissions_Ok identity permissions u :
  requirePermissions identity permissions = Ok u -> Forall (fun p => p ∈ si_permissions identity) permissions.
Proof.
  unfold requirePermissions. destruct (bool_decide _) eqn:E; [|done]. intros _. bools.
  induction permissions as [|p l IH]; [constructor|]. cbn in E. destruct (bool_decide _) eqn:Ep; [|done].
  bools. constructor; auto.
Qed.

(** A change set that is accepted either replays the result stored under
    its idempotency key, changing nothing, or is a first application: the
    caller holds the permissions its operations need, the schedule is a live
    draft of the tenant at the revision named by If-Match, and the database
    after the call is the one before with shifts and breaks of that schedule
    rewritten, that one schedule row advanced by one revision, and one change
    set row (with the response) and one audit row appended. *)
Theorem apply_outcome `{Env, Process, AuthorityEnv, Contracts, Collation, LocaleCompare, Sha256}
    identity publicId operations headers metadata r w w' :
  apply identity publicId operations headers metadata w = (Ok r, w') ->
  (forall o, o ∈ operations ->
     (if isShiftDelete o then "shifts:delete" else "shifts:write") ∈ si_permissions identity) /\
  exists base key, requireScheduleRevision (hd_ifMatch headers) publicId = Ok base /\
    requireIdempotencyKey (hd_idempotencyKey headers) = Ok key /\
    writeOutcome (shiftsOnly (trim (si_tenantId identity))) DRAFT bumpRevision (trim (si_tenantId identity))
      publicId base (sha256 key) (changeSetHash publicId operations) r (w_db w) (w_db w').
Proof.
  intros Ha. split; [|by apply apply_outcome_spec in Ha].
  apply apply_Ok in Ha as (_ & _ & _ & _ & Hauth & _). intros o Ho%list_elem_of_In.
  unfold authorizeScheduleChangeSet in Hauth. apply Result_bind_Ok in Hauth as ([] & Hdel & Hwrt).
  assert (Hx : forall p : ChangeOperation -> bool, p o = true -> existsb p operations = true).
  { intros p Hp. apply existsb_exists. by exists o. }
  destruct (isShiftDelete o) eqn:E.
  - rewrite (Hx _ E) in Hdel. apply requirePermissions_Ok in Hdel. by inversion Hdel.
  - rewrite (Hx (fun o => negb (isShiftDelete o))) in Hwrt by by rewrite E.
    apply requirePermissions_Ok in Hwrt. by inversion Hwrt.
Qed.

(** C18: A change set is applied once per idempotency key.  A call that fails
    leaves the database as it was - a transaction that is not acknowledged being
    taken as rolled back.  After a call that returned, any later call of the
    tenant with the same key against that database (other environment and
    metadata, another schedule or request body) leaves the database as it is,
    and if it returns at all it was for the same request, by its hash, and
    returns the first result. *)
Theorem apply_once `{Process, Contracts, Collation, LocaleCompare, Sha256} (env1 : Env) (auth1 : AuthorityEnv)
    identity publicId operations headers metadata result w w' :
  apply (H := env1) (H1 := auth1) identity publicId operations headers metadata w = (result, w') ->
  (forall e, result = Throw e -> w_db w' = w_db w) /\
  (forall r, result = Ok r ->
   forall (env2 : Env) (auth2 : AuthorityEnv) identity2 publicId2 operations2 headers2 metadata2 r2 w2 w3,
   trim (si_tenantId identity2) = trim (si_tenantId identity) ->
   trim (default "" (hd_idempotencyKey headers2)) = trim (default "" (hd_idempotencyKey headers)) ->
   w_db w2 = w_db w' ->
   apply (H := env2) (H1 := auth2) identity2 publicId2 operations2 headers2 metadata2 w2 = (r2, w3) ->
   w_db w3 = w_db w' /\
   forall response2, r2 = Ok response2 ->
     changeSetHash publicId2 operations2 = changeSetHash publicId operations /\
     (response2 = r \/ response2 = inputJson r)).
Proof.
  intros Ha. split; [intros e ->; by eapply apply_Throw|]. intros r -> env2 auth2 identity2 publicId2 operations2 headers2 metadata2 r2 w2 w3 Et Ek Ew Ha2.
  destruct r2 as [response2|e]; [|apply (@apply_Throw env2) in Ha2; split; [congruence|done]].
  apply apply_outcome_spec in Ha as (base & key & _ & Hk & Ho).
  apply (@apply_outcome_spec env2) in Ha2 as (base2 & key2 & _ & Hk2 & Ho2).
  assert (key2 = key) as ->.
  { unfold requireIdempotencyKey in Hk, Hk2. rewrite Ek in Hk2. rewrite Hk2 in Hk. congruence. }
  apply outcome_answered in Ho. rewrite Et, Ew in Ho2.
  destruct (answered_outcome _ _ _ _ _ _ _ _ _ _ _ _ _ Ho Ho2) as (E & Hh & Hr).
  split; [done|]. by intros ? [= <-].
Qed.

(** What was stored for a key before a write under another key. *)
Lemma stored_before frame from f tenantId publicId base keyHash keyHash2 hash r db db' stored :
  writtenResult frame from f tenantId publicId base keyHash hash r db db' -> keyHash2 <> keyHash ->
  List.find (keyedBy tenantId keyHash2) (db_changeSets db') = Some stored ->
  List.find (keyedBy tenantId keyHash2) (db_changeSets db) = Some stored.
Proof.
  intros [_ (row & mid & schedules & c & audit & _ & _ & _ & _ & Ec & _ & (_ & Hk & _) & ->)] Hne.
  replace (db_changeSets (withRows _ _)) with (db_changeSets mid ++ [c]) by by destruct mid. rewrite Ec.
  assert (Hc : keyedBy tenantId keyHash2 c = false).
  { unfold keyedBy. rewrite (bool_decide_false (_ = keyHash2)) by congruence. by rewrite andb_false_r. }
  clear Ec. induction (db_changeSets db) as [|x l IH]; cbn [app List.find]; [by rewrite Hc|].
  by destruct (keyedBy tenantId keyHash2 x).
Qed.

(** C19: No lost update.  Of two change sets made from the same revision of a
    schedule at most one is carried out: after one was written, a call of the
    tenant for that schedule with the same If-Match, in any environment, changes
    nothing.  If it returns, it returns what is stored under its own idempotency
    key for the same request, by its hash; under a key with another hash than
    the first call's, that was stored before the first call. *)
Theorem apply_no_lost_update `{Process, Contracts, Collation, LocaleCompare, Sha256} (env1 env2 : Env)
    (auth1 auth2 : AuthorityEnv) identity identity2 publicId operations operations2 headers headers2
    metadata metadata2 r r2 w w' w2 w3 :
  publicIdsUnique (db_schedules (w_db w)) ->
  apply (H := env1) (H1 := auth1) identity publicId operations headers metadata w = (Ok r, w') ->
  w_db w' <> w_db w ->
  trim (si_tenantId identity2) = trim (si_tenantId identity) ->
  hd_ifMatch headers2 = hd_ifMatch headers -> w_db w2 = w_db w' ->
  apply (H := env2) (H1 := auth2) identity2 publicId operations2 headers2 metadata2 w2 = (r2, w3) ->
  w_db w3 = w_db w' /\
  forall response2, r2 = Ok response2 -> exists key key2 stored,
    requireIdempotencyKey (hd_idempotencyKey headers) = Ok key /\ requireIdempotencyKey (hd_idempotencyKey headers2) = Ok key2 /\
    List.find (keyedBy (trim (si_tenantId identity)) (sha256 key2)) (db_changeSets (w_db w')) = Some stored /\
    cs_requestHash stored = changeSetHash publicId operations2 /\ response2 = cs_response stored /\
    (sha256 key2 <> sha256 key ->
     List.find (keyedBy (trim (si_tenantId identity)) (sha256 key2)) (db_changeSets (w_db w)) = Some stored).
Proof.
  intros Hu Ha Hne Et Em Ew Ha2. destruct r2 as [response2|e]; [|apply apply_Throw in Ha2; split; [congruence|done]].
  apply apply_outcome_spec in Ha as (base & key & Hb & Hk & [[E _]|Hwr]); [done|].
  apply apply_outcome_spec in Ha2 as (base2 & key2 & Hb2 & Hk2 & Ho2). rewrite Em, Hb in Hb2. injection Hb2 as <-.
  rewrite Et, Ew in Ho2. destruct Ho2 as [[E (stored & Hf & Hh & Hr)]|Hwr2].
  - split; [done|]. intros ? [= <-]. exists key, key2, stored. repeat (split; [done|]). intros Hkeys. by eapply stored_before.
  - exfalso. by eapply outcome_spent; [exact Hu| | |exact Hwr|exact Hwr2].
Qed.

(** ** Concrete instances *)

Definition allContracts : Contracts := fun schema value => true.
Definition plainDigest : Sha256 := fun text => text.
Definition codeUnitOrder : Collation := compareText.

Definition sampleManager : SessionIdentity := mkIdentity "u-m" "t1" ["shifts:write"; "shifts:delete"; "schedules:publish"] "m1"
  "MANAGER" (Some "MANAGER") [].
Definition sampleScheduleId : string := "11111111-1111-4111-8111-111111111111".

(** 2026-03-02 to 2026-03-09, one shift of one staff member with a break. *)
Definition sampleScheduleRow (status : ScheduleStatus) : Schedule :=
  mkSchedule "sched" sampleScheduleId "t1" "loc" 1772409600000 1773014400000 status None 3 None.
Definition sampleScheduleDb (status : ScheduleStatus) : Db :=
  withRows [sampleTenant 5]
  (withRows [mkLocation "loc" "loc-public" "t1" None "Main" "UTC" None None None 0 0]
  (withRows [mkUser "u1" "p1" "t1" "Ana" "STAFF" None None None]
  (withRows [sampleScheduleRow status]
  (withRows [mkShift "s1" "s1-public" "t1" "loc" (Some "sched") (Some "u1") 1772438400000 1772467200000 None 0 None;
             mkShift "s2" "s2-public" "t1" "loc" (Some "sched") None 1772438400000 1772467200000 None 0 None]
  (withRows [mkBreak "b1" "s1" (Some "LUNCH") 1772445600000 1772447400000 false] emptyDb))))).

Definition sampleOperations : list ChangeOperation :=
  [ShiftUpdate "s1-public" None (Some "2026-03-02T09:00:00Z") (Some "2026-03-02T17:00:00Z") None;
   ShiftDelete "s2-public";
   ShiftCreate (Some "c1") (Some "p1") "2026-03-03T08:00:00Z" "2026-03-03T12:00:00Z" None].
Definition sampleHeaders (key : string) : WriteHeaders :=
  mkHeaders (Some (scheduleEtag sampleScheduleId 3)) (Some key).

Definition sampleApply (key : string) : Tx Json :=
  @apply (calm 1772409600000) noBeta (actingAs sampleManager) allContracts codeUnitOrder codeUnitCollation
    plainDigest sampleManager sampleScheduleId sampleOperations (sampleHeaders key) (mkMetadata None None).
Definition sampleApplied : Result Json * World := sampleApply "key-00001" (mkWorld (sampleScheduleDb DRAFT) 0).

Example sampleApplied_result :
  isOk sampleApplied.1 = true /\ map sc_revision (db_schedules (w_db sampleApplied.2)) = [4] /\
  map (fun s => (sh_publicId s, sh_startTime s, sh_deletedAt s)) (db_shifts (w_db sampleApplied.2)) =
    [("s1-public", 1772442000000, None); ("s2-public", 1772438400000, Some 1772409600000);
     ("id39", 1772524800000, None)].
Proof. vm_compute. repeat split. Qed.

Definition okJson (r : Result Json) : Json := match r with Ok v => v | Throw _ => JNull end.
Definition sampleResponse : Json := okJson sampleApplied.1.
Definition sampleAppliedDb : Db := w_db sampleApplied.2.

Lemma apply_outcome_witness :
  "shifts:delete" ∈ si_permissions sampleManager /\
  exists base key, base = 3 /\ key = "key-00001" /\
    writeOutcome (shiftsOnly "t1") DRAFT bumpRevision "t1" sampleScheduleId base (plainDigest key)
      (@changeSetHash codeUnitCollation plainDigest sampleScheduleId sampleOperations) sampleResponse
      (sampleScheduleDb DRAFT) sampleAppliedDb.
Proof.
  pose proof (@apply_outcome (calm 1772409600000) noBeta (actingAs sampleManager) allContracts codeUnitOrder
    codeUnitCollation plainDigest sampleManager sampleScheduleId sampleOperations (sampleHeaders "key-00001")
    (mkMetadata None None) sampleResponse (mkWorld (sampleScheduleDb DRAFT) 0) sampleApplied.2) as Hp.
  destruct Hp as [Hauth (base & key & Hb & Hk & Ho)]; [vm_compute; reflexivity|]. split.
  - apply (Hauth (ShiftDelete "s2-public")). right. left.
  - exists base, key. split; [|split; [|exact Ho]].
    + vm_compute in Hb. by injection Hb.
    + vm_compute in Hk. by injection Hk.
Defined.

Lemma apply_once_witness :
  let retry := sampleApply "key-00001" (mkWorld sampleAppliedDb 500) in
  w_db retry.2 = sampleAppliedDb /\ forall response2, retry.1 = Ok response2 ->
    @changeSetHash codeUnitCollation plainDigest sampleScheduleId sampleOperations =
    @changeSetHash codeUnitCollation plainDigest sampleScheduleId sampleOperations /\
    (response2 = sampleResponse \/ response2 = inputJson sampleResponse).
Proof.
  cbv zeta. apply (proj2 (@apply_once noBeta allContracts codeUnitOrder codeUnitCollation plainDigest
    (calm 1772409600000) (actingAs sampleManager) sampleManager sampleScheduleId sampleOperations
    (sampleHeaders "key-00001") (mkMetadata None None) sampleApplied.1 (mkWorld (sampleScheduleDb DRAFT) 0) sampleApplied.2 (surjective_pairing sampleApplied))
    sampleResponse ltac:(vm_compute; reflexivity)
    (calm 1772409600000) (actingAs sampleManager) sampleManager sampleScheduleId sampleOperations (sampleHeaders "key-00001") (mkMetadata None None)
    (sampleApply "key-00001" (mkWorld sampleAppliedDb 500)).1 (mkWorld sampleAppliedDb 500));
    [reflexivity|reflexivity|exact (w_db_mk sampleAppliedDb 500)|apply surjective_pairing].
Defined.

Lemma apply_no_lost_update_witness :
  isOk (sampleApply "key-00002" (mkWorld sampleAppliedDb 500)).1 = false /\
  w_db (sampleApply "key-00002" (mkWorld sampleAppliedDb 500)).2 = sampleAppliedDb.
Proof.
  split; [vm_compute; reflexivity|].
  apply (@apply_no_lost_update noBeta allContracts codeUnitOrder codeUnitCollation plainDigest
    (calm 1772409600000) (calm 1772409600000) (actingAs sampleManager) (actingAs sampleManager)
    sampleManager sampleManager sampleScheduleId sampleOperations sampleOperations
    (sampleHeaders "key-00001") (sampleHeaders "key-00002") (mkMetadata None None) (mkMetadata None None)
    sampleResponse (sampleApply "key-00002" (mkWorld sampleAppliedDb 500)).1 (mkWorld (sampleScheduleDb DRAFT) 0) sampleApplied.2
    (mkWorld sampleAppliedDb 500)).
  - apply NoDup_singleton.
  - vm_compute. reflexivity.
  - intros E. apply (f_equal (fun db => map sc_revision (db_schedules db))) in E. vm_compute in E. discriminate E.
  - reflexivity.
  - reflexivity.
  - exact (w_db_mk sampleAppliedDb 500).
  - apply surjective_pairing.
Defined.
