(* ===== verification/ScheduleLifecycle.v ===== *)
(** * Reopening a published schedule

    apps/api-v2/src/scheduling/lifecycle.service.ts: the transition of a
    schedule from PUBLISHED back to DRAFT, under the same preconditions and
    the same idempotency records as a change set. *)

From S2P Require Import Prelude JsStd JsCollections JsDate ContractHelpers ChangeSetPlan.
From S2P Require Import PayrollRecords Database FeatureEntitlement Authority ScheduleStore.
From S2P Require Import ScheduleChanges.

(** [status: 'DRAFT', publishedAt: null, revision: { increment: 1 }] *)
Definition reopenRow (s : Schedule) : Schedule :=
  mkSchedule (sc_id s) (sc_publicId s) (sc_tenantId s) (sc_locationId s) (sc_startDate s) (sc_endDate s)
    DRAFT None (sc_revision s + 1) (sc_deletedAt s).

(** [{ ...schedule, status: 'DRAFT', publishedAt: null, revision }] *)
Definition reopenedSchedule (s : Schedule) (revision : Z) : Schedule :=
  mkSchedule (sc_id s) (sc_publicId s) (sc_tenantId s) (sc_locationId s) (sc_startDate s) (sc_endDate s)
    DRAFT None revision (sc_deletedAt s).

Section Reopen.
Context `{Env, Process, AuthorityEnv, Contracts, LocaleCompare, Sha256}.

Definition lockPublished (tenantId schedulePublicId : string) (baseRevision : Z) : Tx LockedSchedule :=
  found ← operationsWait (lockSchedule tenantId schedulePublicId);
  match found with
  | None => throwProblemTx 404 "schedule_not_found" "The selected schedule was not found." "Schedule not found"
  | Some locked =>
      if negb (bool_decide (sc_status (lk_row locked) = PUBLISHED)) then
        throwProblemTx 409 "schedule_not_published" "Only a published schedule can be reopened."
          "Schedule state conflict"
      else if negb (sc_revision (lk_row locked) =? baseRevision) then
        throwTx (staleRevision "The schedule changed after this board loaded. Reload before reopening it."
          (Some (scheduleEtag (sc_publicId (lk_row locked)) (sc_revision (lk_row locked)))))
      else mret locked
  end.

Definition reopenAudit (id : string) (identity : SessionIdentity) (publicId : string) (baseRevision : Z)
    (metadata : WriteMetadata) : AuditLog :=
  mkAudit id (si_tenantId identity) (Some (si_sub identity)) "SCHEDULE_REOPENED" "schedule" (Some publicId)
    (Some (JObj [field "status" (JStr "PUBLISHED"); field "revision" (JNum baseRevision)]))
    (Some (JObj [field "status" (JStr "DRAFT"); field "revision" (JNum (baseRevision + 1))]))
    (slice0 128 <$> md_ipAddress metadata) (slice0 512 <$> md_userAgent metadata).

Definition REOPEN_REQUEST : Json := JObj [field "operation" (JStr "schedule.reopen")].

Definition reopenPublished (identity : SessionIdentity) (schedulePublicId : string) (baseRevision : Z)
    (keyHash expectedHash : string) (metadata : WriteMetadata) : Tx Json :=
  let tenantId := si_tenantId identity in
  locked ← lockPublished tenantId schedulePublicId baseRevision;
  let schedule := lk_row locked in
  updated ← operationsWait (updateMany (atRevision PUBLISHED tenantId (sc_id schedule) baseRevision) reopenRow);
  if negb (updated =? 1)%nat then
    throwTx (staleRevision "The schedule changed while it was reopening. Reload before retrying." None)
  else
    changeSetId ← randomUUID;
    let response := JObj [field "data"
      (serializeSchedule (reopenedSchedule schedule (baseRevision + 1)) (lk_locationPublicId locked))] in
    _ ← operationsWait (createRow (mkChangeSet changeSetId tenantId (sc_id schedule) (si_sub identity)
          keyHash expectedHash baseRevision (baseRevision + 1) (inputJson REOPEN_REQUEST) (inputJson response)));
    _ ← operationsWait (
          id ← randomUUID;
          createRow (reopenAudit id identity (sc_publicId schedule) baseRevision metadata));
    mret response.

Definition reopenHash (schedulePublicId : string) : string :=
  requestHash (JObj [field "operation" (JStr "schedule.reopen");
                     field "schedulePublicId" (JStr schedulePublicId)]).

Definition REOPEN_SCHEMA : string := "ScheduleReopenResponseSchema".

Definition reopen (identity : SessionIdentity) (schedulePublicId : string) (headers : WriteHeaders)
    (metadata : WriteMetadata) : Tx Json :=
  let identity := operationsIdentity identity in
  _ ← liftResult (authorizeScheduleReopen identity);
  baseRevision ← liftResult (requireScheduleRevision (hd_ifMatch headers) schedulePublicId);
  idempotencyKey ← liftResult (requireIdempotencyKey (hd_idempotencyKey headers));
  let keyHash := sha256 idempotencyKey in
  let expectedHash := reopenHash schedulePublicId in
  _ ← prepareOperationsAuthority identity;
  scopeRun identity (fun current =>
    replayOr REOPEN_SCHEMA (si_tenantId current) keyHash expectedHash
      (reopenPublished current schedulePublicId baseRevision keyHash expectedHash metadata)).

Lemma lockPublished_Ok tenantId publicId base locked w w' :
  lockPublished tenantId publicId base w = (Ok locked, w') ->
  w_db w' = w_db w /\ lk_row locked ∈ db_schedules (w_db w) /\
  wantedSchedule tenantId publicId (lk_row locked) = true /\
  sc_status (lk_row locked) = PUBLISHED /\ sc_revision (lk_row locked) = base.
Proof.
  unfold lockPublished, throwProblemTx.
  intros (o & w1 & (w2 & [E2 ->]%lockSchedule_Ok & E1)%operationsWait_Ok & Hr)%Tx_bind_Ok.
  cbn [w_db tick] in *. destruct (head _) as [lk|] eqn:Eh; [|by apply throwTx_Ok in Hr].
  destruct (negb (bool_decide _)) eqn:E3; [by apply throwTx_Ok in Hr|].
  destruct (negb (_ =? _)) eqn:E4; [by apply throwTx_Ok in Hr|]. apply Tx_ret_Ok in Hr as [<- <-].
  apply joinedSchedules_head in Eh as [Hin Hw]. bools. split; [congruence|done].
Qed.

(** Nothing else changes before the revision is written. *)
Definition unchanged (scheduleId : string) (db db' : Db) : Prop := db' = db.

Lemma reopenPublished_written identity publicId base keyHash hash metadata r w w' :
  List.find (keyedBy (si_tenantId identity) keyHash) (db_changeSets (w_db w)) = None ->
  reopenPublished identity publicId base keyHash hash metadata w = (Ok r, w') ->
  writtenResult unchanged PUBLISHED reopenRow (si_tenantId identity) publicId base keyHash hash r
    (w_db w) (w_db w').
Proof.
  intros Hn. unfold reopenPublished. intros (locked & w1 & Hl & Hr)%Tx_bind_Ok.
  apply lockPublished_Ok in Hl as (E1 & Hin & Hw & Hst & Hrev).
  apply Tx_bind_Ok in Hr as (n & w2 & (w3 & [-> E3]%updateMany_Ok & E2)%operationsWait_Ok & Hr).
  destruct (negb _) eqn:Hone in Hr; [by apply throwTx_Ok in Hr|]. bools.
  apply Tx_bind_Ok in Hr as (id & w4 & [-> ->]%randomUUID_Ok & Hr).
  apply Tx_bind_Ok in Hr as (? & w5 & (w6 & [_ E6]%createRow_Ok & E5)%operationsWait_Ok & Hr).
  apply Tx_bind_Ok in Hr as (? & w7 & (w8 & Haud & E7)%operationsWait_Ok & [<- <-]%Tx_ret_Ok).
  apply Tx_bind_Ok in Haud as (aid & w9 & [-> ->]%randomUUID_Ok & [_ E8]%createRow_Ok).
  cbn [w_db tick rows Table_ChangeSet Table_Audit Table_Schedule] in *. rewrite E1 in *.
  split; [done|].
  eexists (lk_row locked), (w_db w), _, _, _. split; [done|]. split; [done|]. split; [done|].
  split; [done|]. split; [done|]. split; [exists (lk_row locked); split_and!; done|].
  split; cycle 1; [rewrite E7, E8, E5, E6, E2, E3; by destruct (w_db w)|by repeat split].
Qed.

Lemma reopen_outcome_spec identity publicId headers metadata r w w' :
  reopen identity publicId headers metadata w = (Ok r, w') ->
  "schedules:publish" ∈ si_permissions identity /\
  exists base key, requireScheduleRevision (hd_ifMatch headers) publicId = Ok base /\
    requireIdempotencyKey (hd_idempotencyKey headers) = Ok key /\
    writeOutcome unchanged PUBLISHED reopenRow (trim (si_tenantId identity)) publicId base
      (sha256 key) (reopenHash publicId) r (w_db w) (w_db w').
Proof.
  unfold reopen. intros ([] & w1 & [Ha <-]%liftResult_Ok & Hr)%Tx_bind_Ok.
  apply requirePermissions_Ok in Ha. split; [by inversion Ha|].
  apply Tx_bind_Ok in Hr as (base & w2 & [Hb <-]%liftResult_Ok & Hr).
  apply Tx_bind_Ok in Hr as (key & w3 & [Hk <-]%liftResult_Ok & Hr).
  apply Tx_bind_Ok in Hr as (? & w4 & Hp & Hr).
  apply (ReadOnly_Ok _ _ _ _ (prepareOperationsAuthority_ReadOnly _)) in Hp.
  apply scopeRun_Ok in Hr as (current & w5 & w6 & Ht & Hr & E5 & E6).
  exists base, key. split; [done|]. split; [done|].
  change (trim (si_tenantId identity)) with (si_tenantId (operationsIdentity identity)).
  rewrite <- Ht, <- Hp, <- E5, E6.
  apply replayOr_Ok in Hr as [Hr|(Hn & w7 & E7 & Hr)]; [by left|right].
  rewrite <- E7 in Hn |- *. by apply (reopenPublished_written _ _ _ _ _ _ _ _ _ Hn Hr).
Qed.

(** Reopening a schedule is a state transition: a call that returns
    either replays the stored result of its key, or its caller may publish
    and it takes exactly one live schedule of the tenant from PUBLISHED at
    the revision of If-Match to DRAFT, unpublished, at the next revision,
    keeping its identity and dates and touching no other table but the
    change set and audit rows it appends. *)
Theorem reopen_transition identity publicId headers metadata r w w' :
  reopen identity publicId headers metadata w = (Ok r, w') ->
  "schedules:publish" ∈ si_permissions identity /\
  exists base key, requireScheduleRevision (hd_ifMatch headers) publicId = Ok base /\
    requireIdempotencyKey (hd_idempotencyKey headers) = Ok key /\
    writeOutcome unchanged PUBLISHED reopenRow (trim (si_tenantId identity)) publicId base
      (sha256 key) (reopenHash publicId) r (w_db w) (w_db w').
Proof. apply reopen_outcome_spec. Qed.
End Reopen.

(** ** The two writes together *)

Lemma public_id_row l tenantId publicId row row2 :
  publicIdsUnique l -> row ∈ l -> row2 ∈ l ->
  wantedSchedule tenantId publicId row = true -> wantedSchedule tenantId publicId row2 = true -> row2 = row.
Proof.
  intros Hu [i Hi]%list_elem_of_lookup [j Hj]%list_elem_of_lookup (_ & Hp & _)%wantedSchedule_true
    (_ & Hp2 & _)%wantedSchedule_true.
  assert (i = j) as ->; [|congruence].
  eapply (NoDup_lookup (map sc_publicId l)); [exact Hu| |];
    change (map sc_publicId l) with (sc_publicId <$> l); rewrite list_lookup_fmap; [by rewrite Hi|].
  rewrite Hj. cbn. congruence.
Qed.

(** A schedule that is not a draft is locked: no change set, whatever its
    revision, key and environment, changes anything while it is published or
    archived. *)
Theorem published_schedule_locked `{Env, Process, AuthorityEnv, Contracts, Collation, LocaleCompare, Sha256}
    identity publicId operations headers metadata row r w w' :
  publicIdsUnique (db_schedules (w_db w)) -> row ∈ db_schedules (w_db w) ->
  wantedSchedule (trim (si_tenantId identity)) publicId row = true -> sc_status row <> DRAFT ->
  apply identity publicId operations headers metadata w = (r, w') -> w_db w' = w_db w.
Proof.
  intros Hu Hin Hw Hst Ha. destruct r as [r|e]; [|by apply apply_Throw in Ha].
  apply apply_outcome_spec in Ha as (base & key & _ & _ & [[E _]|[_ Hwr]]); [done|]. exfalso.
  destruct Hwr as (row0 & mid & scs & c & audit & _ & _ & _ & _ & _ & Hstep & _).
  destruct Hstep as (row2 & Hin2 & Hw2 & Hst2 & _).
  by rewrite (public_id_row _ _ _ _ _ Hu Hin Hin2 Hw Hw2) in Hst2.
Qed.

(** Reopening invalidates every entity tag handed out while the schedule
    was published: after a reopen from some revision was written, a change set
    or a second reopen that names that revision changes nothing. *)
Theorem reopen_invalidates_etag `{Process, Contracts, Collation, LocaleCompare, Sha256} (env1 env2 : Env)
    (auth1 auth2 : AuthorityEnv) identity identity2 publicId headers headers2 metadata metadata2 operations
    r r2 w w' w2 w3 :
  publicIdsUnique (db_schedules (w_db w)) ->
  reopen (H := env1) (H1 := auth1) identity publicId headers metadata w = (Ok r, w') ->
  w_db w' <> w_db w ->
  trim (si_tenantId identity2) = trim (si_tenantId identity) ->
  hd_ifMatch headers2 = hd_ifMatch headers -> w_db w2 = w_db w' ->
  apply (H := env2) (H1 := auth2) identity2 publicId operations headers2 metadata2 w2 = (Ok r2, w3) \/
  reopen (H := env2) (H1 := auth2) identity2 publicId headers2 metadata2 w2 = (Ok r2, w3) ->
  w_db w3 = w_db w'.
Proof.
  intros Hu Ha Hne Et Em Ew Ha2.
  apply reopen_outcome_spec in Ha as (_ & base & key & Hb & _ & [[E _]|Hwr]); [done|].
  destruct Ha2 as [Ha2|Ha2].
  - apply apply_outcome_spec in Ha2 as (base2 & key2 & Hb2 & _ & Ho2). rewrite Em, Hb in Hb2. injection Hb2 as <-.
    rewrite Et, Ew in Ho2. destruct Ho2 as [[E _]|Hwr2]; [done|]. exfalso.
    by eapply outcome_spent; [exact Hu| | |exact Hwr|exact Hwr2].
  - apply reopen_outcome_spec in Ha2 as (_ & base2 & key2 & Hb2 & _ & Ho2). rewrite Em, Hb in Hb2. injection Hb2 as <-.
    rewrite Et, Ew in Ho2. destruct Ho2 as [[E _]|Hwr2]; [done|]. exfalso.
    by eapply outcome_spent; [exact Hu| | |exact Hwr|exact Hwr2].
Qed.

(** ** Concrete instances *)

Definition sampleReopen (key : string) : Tx Json :=
  @reopen (calm 1772409600000) noBeta (actingAs sampleManager) allContracts codeUnitCollation plainDigest
    sampleManager sampleScheduleId (sampleHeaders key) (mkMetadata None None).
Definition sampleReopened : Result Json * World := sampleReopen "key-00001" (mkWorld (sampleScheduleDb PUBLISHED) 0).
Definition sampleReopenResponse : Json := okJson sampleReopened.1.
Definition sampleReopenedDb : Db := w_db sampleReopened.2.

Lemma reopen_transition_witness :
  "schedules:publish" ∈ si_permissions sampleManager /\
  exists base key, base = 3 /\ key = "key-00001" /\
    writeOutcome unchanged PUBLISHED reopenRow "t1" sampleScheduleId base (plainDigest key)
      (@reopenHash codeUnitCollation plainDigest sampleScheduleId) sampleReopenResponse
      (sampleScheduleDb PUBLISHED) sampleReopenedDb.
Proof.
  pose proof (@reopen_transition (calm 1772409600000) noBeta (actingAs sampleManager) allContracts
    codeUnitCollation plainDigest sampleManager sampleScheduleId (sampleHeaders "key-00001")
    (mkMetadata None None) sampleReopenResponse (mkWorld (sampleScheduleDb PUBLISHED) 0) sampleReopened.2) as Hp.
  destruct Hp as [Hauth (base & key & Hb & Hk & Ho)]; [vm_compute; reflexivity|]. split; [exact Hauth|].
  exists base, key. split; [|split; [|exact Ho]].
  - vm_compute in Hb. by injection Hb.
  - vm_compute in Hk. by injection Hk.
Defined.

Lemma published_schedule_locked_witness :
  w_db (sampleApply "key-00002" (mkWorld (sampleScheduleDb PUBLISHED) 0)).2 = sampleScheduleDb PUBLISHED.
Proof.
  apply (@published_schedule_locked (calm 1772409600000) noBeta (actingAs sampleManager) allContracts
    codeUnitOrder codeUnitCollation plainDigest sampleManager sampleScheduleId sampleOperations
    (sampleHeaders "key-00002") (mkMetadata None None) (sampleScheduleRow PUBLISHED)
    (sampleApply "key-00002" (mkWorld (sampleScheduleDb PUBLISHED) 0)).1
    (mkWorld (sampleScheduleDb PUBLISHED) 0)).
  - apply NoDup_singleton.
  - left.
  - vm_compute. reflexivity.
  - discriminate.
  - apply surjective_pairing.
Defined.

(** After the reopen the old entity tag is stale; the replay of the reopen
    itself is the call that still returns. *)
Lemma reopen_invalidates_etag_witness :
  let retry := sampleReopen "key-00001" (mkWorld sampleReopenedDb 500) in
  isOk retry.1 = true /\ w_db retry.2 = sampleReopenedDb.
Proof.
  cbv zeta. split; [vm_compute; reflexivity|].
  apply (@reopen_invalidates_etag noBeta allContracts codeUnitOrder codeUnitCollation plainDigest
    (calm 1772409600000) (calm 1772409600000) (actingAs sampleManager) (actingAs sampleManager)
    sampleManager sampleManager sampleScheduleId (sampleHeaders "key-00001") (sampleHeaders "key-00001")
    (mkMetadata None None) (mkMetadata None None) sampleOperations sampleReopenResponse
    (okJson (sampleReopen "key-00001" (mkWorld sampleReopenedDb 500)).1)
    (mkWorld (sampleScheduleDb PUBLISHED) 0) sampleReopened.2 (mkWorld sampleReopenedDb 500)).
  - apply NoDup_singleton.
  - vm_compute. reflexivity.
  - intros E. apply (f_equal (fun db => map sc_revision (db_schedules db))) in E. vm_compute in E. discriminate E.
  - reflexivity.
  - reflexivity.
  - exact (w_db_mk sampleReopenedDb 500).
  - right. vm_compute. reflexivity.
Defined.
