(* ===== verification/DemandWindows.v ===== *)
(** * Demand windows

    apps/api-v2/src/scheduling/demand-window.service.ts: how many people a draft
    schedule needs and when.  [replace] puts a request's windows in the place of
    the ones there were, under the preconditions and the idempotency records of
    a change set, and advances the schedule's revision; [list] reads them. *)

From S2P Require Import Prelude JsStd JsCollections JsDate ContractHelpers ChangeSetPlan PayrollRecords.
From S2P Require Import Database FeatureEntitlement Authority ScheduleStore ScheduleChanges ScheduleLifecycle.

Record DemandWindow := mkWindow {
  wd_startTime : string;
  wd_endTime : string;
  wd_requiredStaff : Z;
  wd_skill : option string;
}.

(** [DemandWindowReplaceRequest] *)
Definition demandBody (windows : list DemandWindow) : Json :=
  JObj [field "windows" (JArr (map (fun w => JObj [
    field "startTime" (JStr (wd_startTime w)); field "endTime" (JStr (wd_endTime w));
    field "requiredStaff" (JNum (wd_requiredStaff w)); field "skill" (orJNull (wd_skill w))]) windows))].

Definition serializeWindows (rows : list ScheduleDemandWindow) : Json :=
  JArr (map (fun row => JObj [
    field "id" (JStr (dw_publicId row)); field "startTime" (JStr (toISOString (dw_startTime row)));
    field "endTime" (JStr (toISOString (dw_endTime row))); field "requiredStaff" (JNum (dw_requiredStaff row));
    field "skill" (orJNull (dw_skill row))]) rows).

Definition authorizeScheduleDemand (identity : SessionIdentity) : Result unit := requirePermissions identity ["schedules:write"].

(** The windows of a schedule. *)
Definition demandOf (tenantId : string) (schedule : Schedule) (row : ScheduleDemandWindow) : bool :=
  bool_decide (dw_tenantId row = tenantId) && bool_decide (dw_scheduleId row = sc_id schedule)
  && bool_decide (dw_locationId row = sc_locationId schedule).

(** ** Reading a request *)

Definition invalidDemand {A} (code detail pointer violation message : string) : Result A :=
  Throw (Problem (mkProblem 422 code detail "Demand validation failed" (Some [mkViolation pointer violation message]) None None)).

Definition windowPointer (index : nat) (suffix : string) : string := "/windows/" +:+ showZ (Z.of_nat index) +:+ suffix.

(** The range of one window, which starts inside the schedule. *)
Definition readWindow (schedule : Schedule) (index : nat) (window : DemandWindow) : Result (Z * Z) :=
  startTime ← parseUtcInstant (wd_startTime window) (windowPointer index "/startTime");
  endTime ← parseUtcInstant (wd_endTime window) (windowPointer index "/endTime");
  if endTime <=? startTime then
    invalidDemand "invalid_demand_window" "Demand window end time must be after its start time."
      (windowPointer index "/endTime") "invalid_window" "End time must be after start time."
  else if (startTime <? sc_startDate schedule) || (sc_endDate schedule <=? startTime) || (endTime <=? startTime)
          || (86400000 <? endTime - startTime) then
    invalidDemand "demand_outside_schedule" "Every demand window must stay inside the selected schedule."
      (windowPointer index "") "outside_schedule" "Keep this demand window inside its schedule."
  else Ok (startTime, endTime).

Definition demandSkill (window : DemandWindow) : option string :=
  skill ← wd_skill window; truthy (Some (toLowerCase (trim skill))).

Section Demand.
Context `{Env, Process, AuthorityEnv, Contracts, Collation, LocaleCompare, Sha256}.

Definition demandOrder (l r : ScheduleDemandWindow) : Z :=
  orElse (dw_startTime l - dw_startTime r) (collate (dw_id l) (dw_id r)).

(** [findMany] of the windows of a schedule, in order. *)
Definition findDemand (tenantId : string) (schedule : Schedule) (limit : option nat) : Tx (list ScheduleDemandWindow) :=
  query (fun db =>
    let found := sortBy demandOrder (List.filter (demandOf tenantId schedule) (db_demand db)) in
    Ok (match limit with Some n => take n found | None => found end, db)).

Definition demandRow (tenantId : string) (schedule : Schedule) (index : nat) (window : DemandWindow) : Tx ScheduleDemandWindow :=
  range ← liftResult (readWindow schedule index window);
  id ← randomUUID;
  mret (mkDemand id "" tenantId (sc_id schedule) (sc_locationId schedule) range.1 range.2 (wd_requiredStaff window) (demandSkill window)).

Fixpoint demandRows (tenantId : string) (schedule : Schedule) (index : nat) (windows : list DemandWindow) : Tx (list ScheduleDemandWindow) :=
  match windows with
  | [] => mret []
  | window :: rest =>
      row ← demandRow tenantId schedule index window;
      rows ← demandRows tenantId schedule (S index) rest;
      mret (row :: rows)
  end.

(** [createMany], the public identifiers given by the database. *)
Fixpoint publicRows (rows : list ScheduleDemandWindow) : Tx (list ScheduleDemandWindow) :=
  match rows with
  | [] => mret []
  | row :: rest =>
      publicId ← randomUUID;
      named ← publicRows rest;
      mret (mkDemand (dw_id row) publicId (dw_tenantId row) (dw_scheduleId row) (dw_locationId row) (dw_startTime row)
              (dw_endTime row) (dw_requiredStaff row) (dw_skill row) :: named)
  end.
Definition createDemand (rows : list ScheduleDemandWindow) : Tx unit := named ← publicRows rows; createMany named.

Definition lockDemandSchedule (tenantId schedulePublicId : string) (baseRevision : Z) : Tx Schedule :=
  found ← operationsWait (lockSchedule tenantId schedulePublicId);
  match found with
  | None => throwProblemTx 404 "schedule_not_found" "The selected schedule was not found." "Schedule not found"
  | Some locked =>
      let schedule := lk_row locked in
      if negb (bool_decide (sc_status schedule = DRAFT)) then
        throwProblemTx 409 "schedule_locked" "Demand can be changed only on a draft schedule." "Schedule locked"
      else if negb (sc_revision schedule =? baseRevision) then
        throwTx (staleRevision "The schedule changed after this board loaded. Reload before saving demand."
          (Some (scheduleEtag (sc_publicId schedule) (sc_revision schedule))))
      else mret schedule
  end.

Definition writeDemand (tenantId : string) (schedule : Schedule) (baseRevision : Z) (rows : list ScheduleDemandWindow) : Tx unit :=
  _ ← operationsWait (deleteMany (demandOf tenantId schedule));
  _ ← (match rows with [] => mret tt | _ => operationsWait (createDemand rows) end);
  revised ← operationsWait (updateMany (atRevision DRAFT tenantId (sc_id schedule) baseRevision) bumpRevision);
  if negb (revised =? 1)%nat then
    throwTx (staleRevision "The schedule changed while demand was saving. Reload before retrying." None)
  else mret tt.

Definition demandResponse (changeSetId : string) (schedule : Schedule) (baseRevision : Z) (saved : list ScheduleDemandWindow) : Json :=
  JObj [field "data" (serializeWindows saved); field "changeSetId" (JStr changeSetId);
        field "scheduleId" (JStr (sc_publicId schedule)); field "baseRevision" (JNum baseRevision);
        field "revision" (JNum (baseRevision + 1)); field "etag" (JStr (scheduleEtag (sc_publicId schedule) (baseRevision + 1)))].

Definition demandAudit (id changeSetId : string) (identity : SessionIdentity) (schedule : Schedule) (baseRevision : Z)
    (saved : list ScheduleDemandWindow) (metadata : WriteMetadata) : AuditLog :=
  mkAudit id (si_tenantId identity) (Some (si_sub identity)) "SCHEDULE_DEMAND_REPLACED" "schedule_change_set" (Some changeSetId)
    (Some (JObj [field "scheduleId" (JStr (sc_publicId schedule)); field "revision" (JNum baseRevision)]))
    (Some (JObj [field "scheduleId" (JStr (sc_publicId schedule)); field "revision" (JNum (baseRevision + 1));
                 field "demandWindowCount" (JNum (Z.of_nat (length saved)))]))
    (slice0 128 <$> md_ipAddress metadata) (slice0 512 <$> md_userAgent metadata).

(** Everything after the replays. *)
Definition replaceDemand (identity : SessionIdentity) (schedulePublicId : string) (windows : list DemandWindow) (baseRevision : Z)
    (keyHash expectedHash : string) (metadata : WriteMetadata) : Tx Json :=
  let tenantId := si_tenantId identity in
  schedule ← lockDemandSchedule tenantId schedulePublicId baseRevision;
  rows ← demandRows tenantId schedule 0 windows;
  _ ← writeDemand tenantId schedule baseRevision rows;
  savedRows ← operationsWait (findDemand tenantId schedule None);
  changeSetId ← randomUUID;
  let response := demandResponse changeSetId schedule baseRevision savedRows in
  _ ← operationsWait (createRow (mkChangeSet changeSetId tenantId (sc_id schedule) (si_sub identity) keyHash expectedHash
        baseRevision (baseRevision + 1) (inputJson (demandBody windows)) (inputJson response)));
  _ ← operationsWait (
        id ← randomUUID;
        createRow (demandAudit id changeSetId identity schedule baseRevision savedRows metadata));
  mret response.

Definition demandHash (schedulePublicId : string) (windows : list DemandWindow) : string :=
  requestHash (JObj [field "operation" (JStr "demand-windows.replace"); field "schedulePublicId" (JStr schedulePublicId);
                     field "body" (demandBody windows)]).

Definition REPLACE_SCHEMA : string := "DemandWindowReplaceResponseSchema".

Definition replace (identity : SessionIdentity) (schedulePublicId : string) (windows : list DemandWindow) (headers : WriteHeaders)
    (metadata : WriteMetadata) : Tx Json :=
  let identity := operationsIdentity identity in
  _ ← liftResult (authorizeScheduleDemand identity);
  baseRevision ← liftResult (requireScheduleRevision (hd_ifMatch headers) schedulePublicId);
  idempotencyKey ← liftResult (requireIdempotencyKey (hd_idempotencyKey headers));
  let keyHash := sha256 idempotencyKey in
  let expectedHash := demandHash schedulePublicId windows in
  _ ← prepareOperationsAuthority identity;
  scopeRun identity (fun current =>
    replayOr REPLACE_SCHEMA (si_tenantId current) keyHash expectedHash
      (replaceDemand current schedulePublicId windows baseRevision keyHash expectedHash metadata)).

Definition listWindows (identity : SessionIdentity) (schedulePublicId : string) : Tx Json :=
  let identity := operationsIdentity identity in
  _ ← liftResult (authorizeScheduleDemand identity);
  _ ← prepareOperationsAuthority identity;
  scopeRun identity (fun current =>
    let tenantId := si_tenantId current in
    found ← operationsWait (findFirst (wantedSchedule tenantId schedulePublicId));
    match found with
    | None => throwProblemTx 404 "schedule_not_found" "The selected schedule was not found." "Schedule not found"
    | Some schedule =>
        rows ← operationsWait (findDemand tenantId schedule (Some 501%nat));
        if (500 <? length rows)%nat then
          throwProblemTx 422 "demand_window_limit_exceeded"
            "This schedule contains too many demand windows for one safe response." "Demand window limit"
        else mret (JObj [field "data" (serializeWindows rows)])
    end).
End Demand.

(** ** What a replacement writes *)

(** A row saved for a window of a request. *)
Record savedWindow (tenantId : string) (schedule : Schedule) (index : nat) (window : DemandWindow) (row : ScheduleDemandWindow) : Prop := mkSaved {
  sw_range : readWindow schedule index window = Ok (dw_startTime row, dw_endTime row);
  sw_place : dw_tenantId row = tenantId /\ dw_scheduleId row = sc_id schedule /\ dw_locationId row = sc_locationId schedule;
  sw_staff : dw_requiredStaff row = wd_requiredStaff window;
  sw_skill : dw_skill row = demandSkill window;
}.

Fixpoint savedWindows (tenantId : string) (schedule : Schedule) (index : nat) (windows : list DemandWindow)
    (rows : list ScheduleDemandWindow) : Prop :=
  match windows, rows with
  | [], [] => True
  | window :: windows, row :: rows => savedWindow tenantId schedule index window row /\ savedWindows tenantId schedule (S index) windows rows
  | _, _ => False
  end.

(** The windows of the request stand in the place of those of the schedule, and
    nothing else changes. *)
Definition demandReplaced (tenantId : string) (windows : list DemandWindow) (scheduleId : string) (db mid : Db) : Prop :=
  exists schedule rows, schedule ∈ db_schedules db /\ sc_id schedule = scheduleId /\ savedWindows tenantId schedule 0 windows rows /\
    mid = withRows (List.filter (fun row => negb (demandOf tenantId schedule row)) (db_demand db) ++ rows) db.

Lemma savedWindows_elem tenantId schedule index windows rows row :
  savedWindows tenantId schedule index windows rows -> row ∈ rows ->
  exists i window, windows !! i = Some window /\ savedWindow tenantId schedule (index + i) window row.
Proof.
  revert index rows. induction windows as [|window windows IH]; intros index [|r rows]; cbn; try done; [by intros _ ?%elem_of_nil|].
  intros [Hr Hrows] [->|Hin]%elem_of_cons; [exists 0%nat, window; by rewrite Nat.add_0_r|].
  destruct (IH _ _ Hrows Hin) as (i & window' & Hi & Hw). exists (S i), window'. by rewrite Nat.add_succ_r.
Qed.

Lemma readWindow_Ok schedule index window s e :
  readWindow schedule index window = Ok (s, e) ->
  sc_startDate schedule <= s < sc_endDate schedule /\ s < e <= s + msPerDay.
Proof.
  unfold readWindow, invalidDemand. intros (s' & _ & (e' & _ & Hr)%Result_bind_Ok)%Result_bind_Ok.
  destruct (e' <=? s') eqn:E1; [done|]. destruct (_ || _) eqn:E2; [done|]. injection Hr as -> ->.
  rewrite !orb_false_iff in E2. unfold msPerDay. bool_lia.
Qed.

Section Facts.
Context `{Env, Process, AuthorityEnv, Contracts, Collation, LocaleCompare, Sha256}.

Lemma withRows_demand l db : db_demand (withRows (R := Schedule) l db) = db_demand db.
Proof. by destruct db. Qed.

Lemma findDemand_Ok tenantId schedule limit l w w' :
  findDemand tenantId schedule limit w = (Ok l, w') ->
  let found := sortBy demandOrder (List.filter (demandOf tenantId schedule) (db_demand (w_db w))) in
  l = match limit with Some n => take n found | None => found end /\ w_db w' = w_db w.
Proof. intros (_ & db & [= <- <-] & ->)%query_Ok. done. Qed.

Lemma demandRows_Ok tenantId schedule index windows rows w w' :
  demandRows tenantId schedule index windows w = (Ok rows, w') ->
  w_db w' = w_db w /\ savedWindows tenantId schedule index windows rows.
Proof.
  revert index rows w w'. induction windows as [|window windows IH]; intros index rows w w'; cbn.
  - by intros [<- <-]%Tx_ret_Ok.
  - intros (row & w1 & Hrow & (rest & w2 & Hrest & [<- <-]%Tx_ret_Ok)%Tx_bind_Ok)%Tx_bind_Ok.
    apply Tx_bind_Ok in Hrow as ([s e] & w3 & [Hr <-]%liftResult_Ok & Hrow). apply Tx_bind_Ok in Hrow as (id & w4 & [-> ->]%randomUUID_Ok & [<- <-]%Tx_ret_Ok).
    apply IH in Hrest as [E Hrest]. split; [done|]. by split.
Qed.

Lemma publicRows_Ok tenantId schedule index windows rows named w w' :
  publicRows rows w = (Ok named, w') -> savedWindows tenantId schedule index windows rows ->
  w_db w' = w_db w /\ savedWindows tenantId schedule index windows named.
Proof.
  revert index windows named w w'. induction rows as [|row rows IH]; intros index windows named w w'; cbn.
  - intros [<- <-]%Tx_ret_Ok. by split.
  - intros (id & w1 & [-> ->]%randomUUID_Ok & (rest & w2 & Hrest & [<- <-]%Tx_ret_Ok)%Tx_bind_Ok)%Tx_bind_Ok.
    destruct windows as [|window windows]; [done|]. intros [[] Hsaved]. destruct (IH _ _ _ _ _ Hrest Hsaved) as [E Hs]. by split.
Qed.

Lemma writeDemand_Ok tenantId schedule base windows news u w w' :
  savedWindows tenantId schedule 0 windows news -> writeDemand tenantId schedule base news w = (Ok u, w') ->
  exists named, savedWindows tenantId schedule 0 windows named /\
    let mid := withRows (List.filter (fun row => negb (demandOf tenantId schedule row)) (db_demand (w_db w)) ++ named) (w_db w) in
    let p := atRevision DRAFT tenantId (sc_id schedule) base in
    length (List.filter p (db_schedules (w_db w))) = 1%nat /\
    w_db w' = withRows (map (fun s => if p s then bumpRevision s else s) (db_schedules (w_db w))) mid.
Proof.
  intros Hsaved. unfold writeDemand. intros (? & w1 & (w2 & E2%deleteMany_Ok & E1)%operationsWait_Ok & Hr)%Tx_bind_Ok.
  cbn [rows Table_Demand w_db tick] in *. apply Tx_bind_Ok in Hr as (? & w3 & Hnew & Hr).
  set (kept := List.filter _ _) in *.
  assert (Hn : exists named, savedWindows tenantId schedule 0 windows named /\ w_db w3 = withRows (kept ++ named) (w_db w)).
  { destruct news as [|row news].
    - apply Tx_ret_Ok in Hnew as [_ <-]. exists []. by rewrite app_nil_r, E1, E2.
    - apply operationsWait_Ok in Hnew as (w4 & (named & w5 & Hp & [_ E5]%createMany_Ok)%Tx_bind_Ok & E4).
      destruct (publicRows_Ok _ _ _ _ _ _ _ _ Hp Hsaved) as [E6 Hnamed]. exists named. split; [done|].
      cbn [rows Table_Demand w_db tick] in *. rewrite E4, E5, E6, E1, E2. by destruct (w_db w). }
  destruct Hn as (named & Hnamed & E3). exists named. split; [done|]. cbv zeta.
  apply Tx_bind_Ok in Hr as (n & w4 & (w5 & [-> E5]%updateMany_Ok & E4)%operationsWait_Ok & Hr).
  cbn [rows Table_Schedule w_db tick] in *. destruct (negb _) eqn:Hone in Hr; [by apply throwTx_Ok in Hr|].
  apply Tx_ret_Ok in Hr as [_ <-]. bools. assert (Es : db_schedules (w_db w3) = db_schedules (w_db w)) by (rewrite E3; by destruct (w_db w)).
  rewrite Es in *. split; [done|]. by rewrite E4, E5, E3.
Qed.

(** The whole of a write. *)
Record DemandWritten (tenantId publicId : string) (windows : list DemandWindow) (base : Z) (keyHash hash : string) (db : Db)
    (response : Json) (db' : Db) : Prop := mkWritten {
  rw_first : List.find (keyedBy tenantId keyHash) (db_changeSets db) = None;
  rw_run : exists schedule rows changeSetId c audit,
    schedule ∈ db_schedules db /\ wantedSchedule tenantId publicId schedule = true /\
    sc_status schedule = DRAFT /\ sc_revision schedule = base /\ savedWindows tenantId schedule 0 windows rows /\
    let p := atRevision DRAFT tenantId (sc_id schedule) base in
    let mid := withRows (List.filter (fun row => negb (demandOf tenantId schedule row)) (db_demand db) ++ rows) db in
    length (List.filter p (db_schedules db)) = 1%nat /\ recordsResult tenantId keyHash hash base response c /\
    response = demandResponse changeSetId schedule base
      (sortBy demandOrder (List.filter (demandOf tenantId schedule) (db_demand mid))) /\
    db' = withRows (db_audits db ++ [audit]) (withRows (db_changeSets db ++ [c])
            (withRows (map (fun s => if p s then bumpRevision s else s) (db_schedules db)) mid));
}.

Lemma lockDemandSchedule_Ok tenantId publicId base schedule w w' :
  lockDemandSchedule tenantId publicId base w = (Ok schedule, w') ->
  w_db w' = w_db w /\ schedule ∈ db_schedules (w_db w) /\ wantedSchedule tenantId publicId schedule = true /\
  sc_status schedule = DRAFT /\ sc_revision schedule = base.
Proof.
  unfold lockDemandSchedule, throwProblemTx. intros (o & w1 & (w2 & [E2 ->]%lockSchedule_Ok & E1)%operationsWait_Ok & Hr)%Tx_bind_Ok.
  cbn [w_db tick] in *. destruct (head _) as [lk|] eqn:Eh; [|by apply throwTx_Ok in Hr].
  destruct (negb (bool_decide _)) eqn:E3; [by apply throwTx_Ok in Hr|].
  destruct (negb (_ =? _)) eqn:E4; [by apply throwTx_Ok in Hr|]. apply Tx_ret_Ok in Hr as [<- <-].
  apply joinedSchedules_head in Eh as [Hin Hw]. bools. split; [congruence|done].
Qed.

Lemma replaceDemand_Ok identity publicId windows base keyHash hash metadata r w w' :
  List.find (keyedBy (si_tenantId identity) keyHash) (db_changeSets (w_db w)) = None ->
  replaceDemand identity publicId windows base keyHash hash metadata w = (Ok r, w') ->
  DemandWritten (si_tenantId identity) publicId windows base keyHash hash (w_db w) r (w_db w').
Proof.
  intros Hn. unfold replaceDemand. intros (schedule & w1 & (E1 & Hin & Hw & Hst & Hrev)%lockDemandSchedule_Ok & Hr)%Tx_bind_Ok.
  apply Tx_bind_Ok in Hr as (news & w2 & [E2 Hrows]%demandRows_Ok & Hr).
  apply Tx_bind_Ok in Hr as (? & w3 & Hwrite & Hr). destruct (writeDemand_Ok _ _ _ _ _ _ _ _ Hrows Hwrite) as (named & Hnamed & Hone & E3).
  rewrite E2, E1 in *. set (mid := withRows _ (w_db w)) in *.
  apply Tx_bind_Ok in Hr as (saved & w4 & (w5 & [-> E5]%findDemand_Ok & E4)%operationsWait_Ok & Hr).
  apply Tx_bind_Ok in Hr as (id & w6 & [-> ->]%randomUUID_Ok & Hr).
  apply Tx_bind_Ok in Hr as (? & w7 & (w8 & [_ E8]%createRow_Ok & E7)%operationsWait_Ok & Hr).
  apply Tx_bind_Ok in Hr as (? & w9 & (w10 & Haud & E9)%operationsWait_Ok & [<- <-]%Tx_ret_Ok).
  apply Tx_bind_Ok in Haud as (aid & w11 & [-> ->]%randomUUID_Ok & [_ E10]%createRow_Ok).
  cbn [w_db tick rows Table_ChangeSet Table_Audit] in *. split; [done|].
  assert (Ed : db_demand (w_db w3) = db_demand mid) by (rewrite E3; apply withRows_demand).
  match type of E8 with _ = withRows (_ ++ [?row]) _ => set (c := row) in * end.
  match type of E10 with _ = withRows (_ ++ [?row]) _ => set (audit := row) in * end. clearbody audit.
  exists schedule, named, (uuidAt (w_tick w4)), c, audit. split; [exact Hin|]. split; [done|]. split; [done|]. split; [done|]. split; [exact Hnamed|]. cbv zeta. split; [done|].
  split; cycle 1; [split; [fold mid; by rewrite <- Ed|]|].
  - fold mid. clearbody c. rewrite E9, E10, E7, E8, E4, E5, E3. unfold mid. by destruct (w_db w).
  - unfold c. by repeat split.
Qed.
End Facts.

Section Outcome.
Context `{Env, Process, AuthorityEnv, Contracts, Collation, LocaleCompare, Sha256}.

Lemma replace_Ok identity publicId windows headers metadata r w w' :
  replace identity publicId windows headers metadata w = (Ok r, w') ->
  "schedules:write" ∈ si_permissions identity /\
  exists base key, requireScheduleRevision (hd_ifMatch headers) publicId = Ok base /\
    requireIdempotencyKey (hd_idempotencyKey headers) = Ok key /\
    let tenantId := trim (si_tenantId identity) in
    (replayedResult tenantId (sha256 key) (demandHash publicId windows) r (w_db w) (w_db w') \/
     DemandWritten tenantId publicId windows base (sha256 key) (demandHash publicId windows) (w_db w) r (w_db w')).
Proof.
  unfold replace. intros (? & w1 & [Ha%requirePermissions_Ok <-]%liftResult_Ok & Hr)%Tx_bind_Ok. split; [by inversion Ha|].
  apply Tx_bind_Ok in Hr as (base & w2 & [Hb <-]%liftResult_Ok & Hr).
  apply Tx_bind_Ok in Hr as (key & w3 & [Hk <-]%liftResult_Ok & Hr).
  apply Tx_bind_Ok in Hr as (? & w4 & Hp%(ReadOnly_Ok _ _ _ _ (prepareOperationsAuthority_ReadOnly _)) & Hr).
  apply scopeRun_Ok in Hr as (current & w5 & w6 & Ht & Hr & E5 & E6). exists base, key. split; [done|]. split; [done|].
  change (trim (si_tenantId identity)) with (si_tenantId (operationsIdentity identity)). cbv zeta. rewrite <- Ht, <- Hp, <- E5, E6.
  apply replayOr_Ok in Hr as [Hr|(Hn & w7 & E7 & Hr)]; [by left|right].
  rewrite <- E7 in Hn |- *. by apply (replaceDemand_Ok _ _ _ _ _ _ metadata).
Qed.

Lemma replace_Throw identity publicId windows headers metadata e w w' :
  replace identity publicId windows headers metadata w = (Throw e, w') -> w_db w' = w_db w.
Proof.
  unfold replace, mbind, Tx_bind, liftResult.
  destruct (authorizeScheduleDemand _); [|by intros [= _ <-]].
  destruct (requireScheduleRevision _ _); [|by intros [= _ <-]].
  destruct (requireIdempotencyKey _); [|by intros [= _ <-]].
  pose proof (prepareOperationsAuthority_ReadOnly (operationsIdentity identity) w) as Hp.
  destruct (prepareOperationsAuthority _ w) as [[?|?] w1]; cbn in Hp; [|by intros [= _ <-]].
  intros E%scopeRun_Throw. congruence.
Qed.

Lemma DemandWritten_written tenantId publicId windows base keyHash hash db r db' :
  DemandWritten tenantId publicId windows base keyHash hash db r db' ->
  writtenResult (demandReplaced tenantId windows) DRAFT bumpRevision tenantId publicId base keyHash hash r db db'.
Proof.
  intros [Hn (schedule & news & id & c & audit & Hin & Hw & Hst & Hrev & Hs & Hone & Hc & _ & ->)]. split; [done|].
  eexists schedule, _, _, c, audit. split; [done|]. split; [done|]. split; [by exists schedule, news|].
  split; [by destruct db|]. split; [by destruct db|]. split; [|split; [done|by destruct db]].
  exists schedule. by split_and!.
Qed.

Lemma replace_outcome_spec identity publicId windows headers metadata r w w' :
  replace identity publicId windows headers metadata w = (Ok r, w') ->
  "schedules:write" ∈ si_permissions identity /\
  exists base key, requireScheduleRevision (hd_ifMatch headers) publicId = Ok base /\
    requireIdempotencyKey (hd_idempotencyKey headers) = Ok key /\
    let tenantId := trim (si_tenantId identity) in
    writeOutcome (demandReplaced tenantId windows) DRAFT bumpRevision tenantId publicId base (sha256 key)
      (demandHash publicId windows) r (w_db w) (w_db w').
Proof.
  intros (Ha & base & key & Hb & Hk & Ho)%replace_Ok. split; [done|]. exists base, key. split; [done|]. split; [done|].
  destruct Ho as [Ho|Ho]; [by left|right; by apply DemandWritten_written].
Qed.

Lemma listWindows_Ok identity publicId r w w' :
  listWindows identity publicId w = (Ok r, w') ->
  w_db w' = w_db w /\
  exists schedule, schedule ∈ db_schedules (w_db w) /\ wantedSchedule (trim (si_tenantId identity)) publicId schedule = true /\
    r = JObj [field "data" (serializeWindows
          (sortBy demandOrder (List.filter (demandOf (trim (si_tenantId identity)) schedule) (db_demand (w_db w)))))].
Proof.
  unfold listWindows, throwProblemTx. intros (? & w1 & [_ <-]%liftResult_Ok & Hr)%Tx_bind_Ok.
  apply Tx_bind_Ok in Hr as (? & w1 & Hp%(ReadOnly_Ok _ _ _ _ (prepareOperationsAuthority_ReadOnly _)) & Hr).
  apply scopeRun_Ok in Hr as (current & w2 & w3 & Ht & Hr & E2 & E3). change (si_tenantId (operationsIdentity identity)) with (trim (si_tenantId identity)) in Ht.
  rewrite <- Ht, E3, <- Hp, <- E2. clear Hp E2 E3.
  apply Tx_bind_Ok in Hr as (found & w4 & (w5 & [-> E5]%findFirst_Ok & E4)%operationsWait_Ok & Hr). cbn [rows Table_Schedule w_db tick] in *.
  destruct (List.find _ _) as [schedule|] eqn:Ef; [|by apply throwTx_Ok in Hr]. apply find_some in Ef as [Hin Hw].
  apply Tx_bind_Ok in Hr as (found & w6 & (w7 & [-> E7]%findDemand_Ok & E6)%operationsWait_Ok & Hr). cbn [w_db tick] in *.
  destruct (500 <? _)%nat eqn:El; [by apply throwTx_Ok in Hr|]. apply Tx_ret_Ok in Hr as [<- <-].
  rewrite E4, E5 in *. split; [congruence|]. exists schedule. split; [by apply list_elem_of_In|]. split; [done|].
  apply Nat.ltb_ge in El. rewrite length_take in El. do 4 f_equal. apply take_ge. lia.
Qed.
End Outcome.

(** ** The contract of demand *)

(** Replacing demand is a state transition.  A call that returns either
    replays the stored result of its key, or its caller may write schedules and
    it takes exactly one draft schedule, at the revision of If-Match, to the next
    revision, with exactly the windows of the request in the place of those the
    schedule had - each with the instants, the number of people and the
    normalised skill that was asked for - the windows of all other schedules
    and every other table as they were, one change set and one audit row added.
    A call that fails changes nothing. *)
Theorem replace_outcome `{Env, Process, AuthorityEnv, Contracts, Collation, LocaleCompare, Sha256}
    identity publicId windows headers metadata r w w' :
  replace identity publicId windows headers metadata w = (r, w') ->
  match r with
  | Throw _ => w_db w' = w_db w
  | Ok response => "schedules:write" ∈ si_permissions identity /\
      exists base key, requireScheduleRevision (hd_ifMatch headers) publicId = Ok base /\
        requireIdempotencyKey (hd_idempotencyKey headers) = Ok key /\
        let tenantId := trim (si_tenantId identity) in
        writeOutcome (demandReplaced tenantId windows) DRAFT bumpRevision tenantId publicId base (sha256 key)
          (demandHash publicId windows) response (w_db w) (w_db w')
  end.
Proof. destruct r; [apply replace_outcome_spec|apply replace_Throw]. Qed.

Lemma bumped_row (p : Schedule -> bool) l s : s ∈ map (fun s => if p s then bumpRevision s else s) l ->
  exists s0, s0 ∈ l /\ sc_id s = sc_id s0 /\ sc_tenantId s = sc_tenantId s0 /\ sc_locationId s = sc_locationId s0 /\ sc_publicId s = sc_publicId s0 /\
    sc_startDate s = sc_startDate s0 /\ sc_endDate s = sc_endDate s0 /\ sc_deletedAt s = sc_deletedAt s0.
Proof. intros (s0 & -> & Hs0)%list_elem_of_fmap. exists s0. split; [done|]. destruct (p s0); by repeat split. Qed.

(** C24: What was saved is what is read.  After a replacement that wrote, and
    while the windows and schedules stay as they are, listing the schedule's
    demand - by anyone of the tenant - returns exactly the windows the
    replacement answered with, all of them, in the same order. *)
Theorem list_after_replace `{Process, Contracts, Collation, LocaleCompare, Sha256} (env1 env2 : Env) (auth1 auth2 : AuthorityEnv)
    identity identity2 publicId windows headers metadata response listed w w' w2 w3 :
  publicIdsUnique (db_schedules (w_db w)) ->
  replace (H := env1) (H1 := auth1) identity publicId windows headers metadata w = (Ok response, w') -> w_db w' <> w_db w ->
  trim (si_tenantId identity2) = trim (si_tenantId identity) ->
  db_demand (w_db w2) = db_demand (w_db w') -> db_schedules (w_db w2) = db_schedules (w_db w') ->
  listWindows (H := env2) (H1 := auth2) identity2 publicId w2 = (Ok listed, w3) ->
  w_db w3 = w_db w2 /\
  exists data rest, listed = JObj [field "data" data] /\ response = JObj (field "data" data :: rest).
Proof.
  intros Hu Ha Hne Et Ed Es (E3 & schedule2 & Hin2 & Hw2 & ->)%listWindows_Ok. split; [done|].
  apply replace_Ok in Ha as (_ & base & key & _ & _ & [[E _]|[_ Hrun]]); [done|].
  destruct Hrun as (schedule & news & id & c & audit & Hin & Hw & _ & _ & _ & _ & _ & -> & E).
  eexists _, _. split; [reflexivity|]. rewrite Et in *. rewrite Es, E in Hin2. rewrite Ed, E.
  set (p := atRevision _ _ _ _) in *. set (mid := withRows _ (w_db w)) in *.
  replace (db_schedules _) with (map (fun s => if p s then bumpRevision s else s) (db_schedules (w_db w))) in Hin2
    by (unfold mid; by destruct (w_db w)).
  apply bumped_row in Hin2 as (s0 & Hs0 & Eid & Eten & Eloc & Epub & _ & _ & Edel).
  assert (Hw0 : wantedSchedule (trim (si_tenantId identity)) publicId s0 = true).
  { apply wantedSchedule_true in Hw2. unfold wantedSchedule. rewrite <- Eten, <- Epub, <- Edel.
    destruct Hw2 as (-> & -> & ->). by rewrite !bool_decide_true. }
  assert (s0 = schedule) as -> by (eapply (public_id_row _ _ _ _ _ Hu Hin Hs0); done).
  unfold demandResponse. do 6 f_equal. unfold demandOf. rewrite Eid, Eloc. do 2 f_equal. unfold mid. by destruct (w_db w).
Qed.

(** Every window starts inside its schedule and lasts a day at most. *)
Definition demandSound (db : Db) : Prop :=
  forall row schedule, row ∈ db_demand db -> schedule ∈ db_schedules db -> sc_id schedule = dw_scheduleId row ->
    sc_startDate schedule <= dw_startTime row < sc_endDate schedule /\ dw_startTime row < dw_endTime row <= dw_startTime row + msPerDay.

(** C25: Demand stays with its schedule.  When every demand window of the
    database starts inside its schedule, ends after it starts and lasts a day at
    most, they all still do after a request to replace some, whatever it comes
    to.  (They may end after their schedule does.) *)
Theorem demand_in_schedule `{Env, Process, AuthorityEnv, Contracts, Collation, LocaleCompare, Sha256}
    identity publicId windows headers metadata r w w' :
  NoDup (map sc_id (db_schedules (w_db w))) -> demandSound (w_db w) ->
  replace identity publicId windows headers metadata w = (r, w') -> demandSound (w_db w').
Proof.
  intros Hnd Hs Hr. destruct r as [r|e]; [|apply replace_Throw in Hr; by rewrite Hr].
  apply replace_Ok in Hr as (_ & base & key & _ & _ & [[-> _]|[_ Hrun]]); [done|].
  destruct Hrun as (schedule & news & id & c & audit & Hin & _ & _ & _ & Hsaved & _ & _ & _ & ->).
  set (p := atRevision _ _ _ _). intros row s2 Hrow Hs2 Eid.
  replace (db_demand _) with (List.filter (fun row => negb (demandOf (trim (si_tenantId identity)) schedule row)) (db_demand (w_db w)) ++ news)
    in Hrow by by destruct (w_db w).
  replace (db_schedules _) with (map (fun s => if p s then bumpRevision s else s) (db_schedules (w_db w))) in Hs2 by by destruct (w_db w).
  apply bumped_row in Hs2 as (s0 & Hs0 & E1 & _ & _ & _ & E2 & E3 & _). rewrite E2, E3. rewrite E1 in Eid.
  apply elem_of_app in Hrow as [Hrow|Hrow].
  - apply list_elem_of_In, filter_In in Hrow as [Hrow%list_elem_of_In _]. by apply Hs.
  - destruct (savedWindows_elem _ _ _ _ _ _ Hsaved Hrow) as (i & window & _ & [Hread (_ & Esch & _) _ _]).
    apply readWindow_Ok in Hread. rewrite Esch in Eid. by rewrite (NoDup_map_inj sc_id _ _ _ Hnd Hs0 Hin Eid).
Qed.

(** ** Concrete instances *)

Definition demandManager : SessionIdentity :=
  mkIdentity "u-m" "t1" ["schedules:write"] "m1" "MANAGER" (Some "MANAGER") [].

(** The sample schedule, with a window that is to be replaced and one of another
    schedule. *)
Definition sampleDemandDb : Db :=
  withRows [mkDemand "d1" "d1-public" "t1" "sched" "loc" 1772409600000 1772413200000 1 None;
            mkDemand "d2" "d2-public" "t1" "other" "loc" 1772409600000 1772413200000 2 (Some "cook")] (sampleScheduleDb DRAFT).

(** The second window ends six hours after the schedule does. *)
Definition sampleDemand : list DemandWindow :=
  [mkWindow "2026-03-03T08:00:00Z" "2026-03-03T16:00:00Z" 3 (Some " Cook ");
   mkWindow "2026-03-08T22:00:00Z" "2026-03-09T06:00:00Z" 1 None].

Definition sampleReplace (windows : list DemandWindow) (key : string) : Tx Json :=
  @replace (calm 1772409600000) noBeta (actingAs demandManager) allContracts codeUnitOrder codeUnitCollation plainDigest
    demandManager sampleScheduleId windows (sampleHeaders key) (mkMetadata None None).
Definition sampleReplaced : Result Json * World := sampleReplace sampleDemand "key-00001" (mkWorld sampleDemandDb 0).
Definition sampleDemandList (db : Db) : Result Json * World :=
  @listWindows (calm 1772409600000) (actingAs demandManager) codeUnitOrder demandManager sampleScheduleId (mkWorld db 100).

Example sampleReplaced_result :
  isOk sampleReplaced.1 = true /\ map sc_revision (db_schedules (w_db sampleReplaced.2)) = [4] /\
  map (fun d => (dw_scheduleId d, dw_startTime d, dw_endTime d, dw_requiredStaff d, dw_skill d)) (db_demand (w_db sampleReplaced.2)) =
    [("other", 1772409600000, 1772413200000, 2, Some "cook"); ("sched", 1772524800000, 1772553600000, 3, Some "cook");
     ("sched", 1773007200000, 1773036000000, 1, None)].
Proof. vm_compute. repeat split. Qed.

(** A window that is empty, starts outside the schedule or lasts more than a
    day is refused, and the refusal leaves everything as it was. *)
Example sampleReplace_refused :
  let refused windows := (sampleReplace windows "key-00002" (mkWorld sampleDemandDb 0)) in
  Forall (fun wanted => match (refused [wanted.1]).1 with
      | Throw e => errorCode e = wanted.2 /\ w_db (refused [wanted.1]).2 = sampleDemandDb | Ok _ => False end)
    [(mkWindow "2026-03-03T08:00:00Z" "2026-03-03T08:00:00Z" 1 None, "invalid_demand_window");
     (mkWindow "2026-03-09T00:00:00Z" "2026-03-09T04:00:00Z" 1 None, "demand_outside_schedule");
     (mkWindow "2026-03-03T08:00:00Z" "2026-03-04T08:00:01Z" 1 None, "demand_outside_schedule")].
Proof. repeat (apply Forall_cons; split; [vm_compute; by split|]). by apply Forall_nil. Qed.

Lemma replace_outcome_witness :
  "schedules:write" ∈ si_permissions demandManager /\
  writeOutcome (demandReplaced "t1" sampleDemand) DRAFT bumpRevision "t1" sampleScheduleId 3 (plainDigest "key-00001")
    (@demandHash codeUnitCollation plainDigest sampleScheduleId sampleDemand) (okJson sampleReplaced.1) sampleDemandDb (w_db sampleReplaced.2).
Proof.
  pose proof (@replace_outcome (calm 1772409600000) noBeta (actingAs demandManager) allContracts codeUnitOrder codeUnitCollation
    plainDigest demandManager sampleScheduleId sampleDemand (sampleHeaders "key-00001") (mkMetadata None None)
    (Ok (okJson sampleReplaced.1)) (mkWorld sampleDemandDb 0) sampleReplaced.2) as Hp.
  destruct Hp as [Ha (base & key & Hb & Hk & Ho)]; [vm_compute; reflexivity|]. split; [exact Ha|].
  vm_compute in Hb, Hk. injection Hb as <-. injection Hk as <-. exact Ho.
Defined.

Lemma list_after_replace_witness :
  let listed := okJson (sampleDemandList (w_db sampleReplaced.2)).1 in
  w_db (sampleDemandList (w_db sampleReplaced.2)).2 = w_db sampleReplaced.2 /\
  exists data rest, listed = JObj [field "data" data] /\ okJson sampleReplaced.1 = JObj (field "data" data :: rest).
Proof.
  intros listed.
  apply (@list_after_replace noBeta allContracts codeUnitOrder codeUnitCollation plainDigest (calm 1772409600000) (calm 1772409600000)
    (actingAs demandManager) (actingAs demandManager) demandManager demandManager sampleScheduleId sampleDemand
    (sampleHeaders "key-00001") (mkMetadata None None) (okJson sampleReplaced.1) listed (mkWorld sampleDemandDb 0) sampleReplaced.2
    (mkWorld (w_db sampleReplaced.2) 100) (sampleDemandList (w_db sampleReplaced.2)).2).
  - apply NoDup_singleton.
  - vm_compute. reflexivity.
  - intros E. apply (f_equal (fun db => length (db_demand db))) in E. vm_compute in E. discriminate E.
  - reflexivity.
  - reflexivity.
  - reflexivity.
  - vm_compute. reflexivity.
Defined.

Lemma demand_in_schedule_witness : demandSound sampleDemandDb /\ demandSound (w_db sampleReplaced.2).
Proof.
  assert (Hs : demandSound sampleDemandDb).
  { intros row s Hrow Hin. apply list_elem_of_singleton in Hin as ->.
    apply elem_of_cons in Hrow as [->|Hrow]; [intros _; vm_compute; by repeat split|].
    apply list_elem_of_singleton in Hrow as ->. discriminate. }
  split; [exact Hs|].
  eapply (@demand_in_schedule (calm 1772409600000) noBeta (actingAs demandManager) allContracts codeUnitOrder codeUnitCollation
    plainDigest demandManager sampleScheduleId sampleDemand (sampleHeaders "key-00001") (mkMetadata None None)
    (Ok (okJson sampleReplaced.1)) (mkWorld sampleDemandDb 0)); [apply NoDup_singleton|exact Hs|vm_compute; reflexivity].
Defined.
