(* ===== verification/ScheduleCreate.v ===== *)
(** * Creating schedules

    [create] of apps/api-v2/src/scheduling/schedule-create.service.ts: a draft
    for a window at a location, unless a live schedule of the location meets the
    window; a retry of a key is answered from the audit row of the first
    request.  The database has a deferred exclusion constraint against windows
    that meet; the check of the handler keeps them apart without it. *)

From S2P Require Import Prelude JsStd JsCollections JsDate ContractHelpers ChangeSetPlan PayrollRecords.
From S2P Require Import Database FeatureEntitlement Authority ScheduleStore ScheduleChanges ScheduleLifecycle DemandWindows.

Definition CREATE_ACTION : string := "API_V2_SCHEDULE_CREATE".
Definition CREATE_RESOURCE : string := "api_v2_schedule_create".
Definition MAX_SCHEDULE_WINDOW_MS : Z := 31 * 24 * 60 * 60 * 1000.
Definition CREATE_SCHEMA : string := "ScheduleCreateResponseSchema".

Record ScheduleCreateRequest := mkScheduleCreate { sq_startDate : string; sq_endDate : string }.

(** [(value as Record<string, unknown>)[key]] *)
Definition jsonMember (key : string) (entries : list (string * option Json)) : option Json :=
  e ← List.find (fun e : string * option Json => bool_decide (e.1 = key)) entries; e.2.

Definition createOperationId `{Sha256} (tenantId idempotencyKey : string) : string :=
  sha256 (tenantId +:+ ":" +:+ CREATE_RESOURCE +:+ ":" +:+ idempotencyKey).

Definition createHash `{LocaleCompare, Sha256} (locationPublicId : string) (body : ScheduleCreateRequest) : string :=
  requestHash (JObj [field "locationPublicId" (JStr locationPublicId);
                     field "body" (JObj [field "startDate" (JStr (sq_startDate body)); field "endDate" (JStr (sq_endDate body))])]).

Definition createAuditOf (tenantId operationId : string) (a : AuditLog) : bool :=
  bool_decide (al_tenantId a = tenantId) && bool_decide (al_action a = CREATE_ACTION)
  && bool_decide (al_resource a = CREATE_RESOURCE) && bool_decide (al_resourceId a = Some operationId).

(** A live schedule of the location that meets the window. *)
Definition meetsWindow (tenantId locationId : string) (startDate endDate : Z) (s : Schedule) : bool :=
  bool_decide (sc_tenantId s = tenantId) && bool_decide (sc_locationId s = locationId) && bool_decide (sc_deletedAt s = None)
  && (sc_startDate s <? endDate) && (startDate <? sc_endDate s).

Definition draftRow (id publicId tenantId locationId : string) (startDate endDate : Z) : Schedule :=
  mkSchedule id publicId tenantId locationId startDate endDate DRAFT None 0 None.

Definition checkScheduleWindow (startDate endDate : Z) : Result unit :=
  if (endDate <=? startDate) || (MAX_SCHEDULE_WINDOW_MS <? endDate - startDate) then
    throwProblem 422 "invalid_schedule_window" "Schedule end must follow start and the window cannot exceed 31 days."
      "Schedule validation failed"
  else Ok tt.

Section Create.
Context `{Env, Process, AuthorityEnv, Contracts, LocaleCompare, Sha256}.

Definition replayCreate (tenantId operationId expectedRequestHash : string) : Tx (option Json) :=
  found ← operationsWait (findFirst (createAuditOf tenantId operationId));
  match found with
  | None => mret None
  | Some audit =>
      let reused := throwProblemTx 409 "idempotency_key_reused"
        "Idempotency-Key was already used for a different schedule request." "Idempotency conflict" in
      match al_newValue audit with
      | Some (JObj entries) =>
          match jsonMember "requestHash" entries with
          | Some (JStr stored) =>
              if negb (bool_decide (stored = expectedRequestHash)) then reused
              else match jsonMember "response" entries with
                   | Some response =>
                       if matchesContract CREATE_SCHEMA response then mret (Some response)
                       else throwProblemTx 409 "idempotency_result_unavailable"
                              "The stored idempotent result is unavailable. Use a new Idempotency-Key." "Idempotency conflict"
                   | None => throwProblemTx 409 "idempotency_result_unavailable"
                              "The stored idempotent result is unavailable. Use a new Idempotency-Key." "Idempotency conflict"
                   end
          | _ => reused
          end
      | _ => reused
      end
  end.

(** [SELECT ... FROM "Location" ... FOR UPDATE] *)
Definition lockLiveLocation (tenantId locationPublicId : string) : Tx (option Location) :=
  findFirst (fun l => bool_decide (lo_tenantId l = tenantId) && sameUuid (lo_publicId l) locationPublicId
                      && bool_decide (lo_deletedAt l = None)).

(** The draft for the window: the one that is there, or a new one. *)
Definition draftFor (tenantId locationId : string) (startDate endDate : Z) : Tx Schedule :=
  overlap ← operationsWait (findFirst (meetsWindow tenantId locationId startDate endDate));
  match overlap with
  | Some s =>
      if bool_decide (sc_status s = DRAFT) && (sc_startDate s =? startDate) && (sc_endDate s =? endDate) then mret s
      else throwProblemTx 409 "schedule_window_conflict"
             "The requested schedule window overlaps an existing schedule at this location." "Schedule conflict"
  | None =>
      operationsWait (
        publicId ← randomUUID; id ← randomUUID;
        let row := draftRow id publicId tenantId locationId startDate endDate in
        _ ← createRow row; mret row)
  end.

Definition createAudit (id : string) (identity : SessionIdentity) (operationId expectedRequestHash : string) (response : Json)
    (metadata : WriteMetadata) : AuditLog :=
  mkAudit id (si_tenantId identity) (Some (si_sub identity)) CREATE_ACTION CREATE_RESOURCE (Some operationId) None
    (Some (JObj [field "requestHash" (JStr expectedRequestHash); field "response" (inputJson response)]))
    (slice0 128 <$> md_ipAddress metadata) (slice0 512 <$> md_userAgent metadata).

Definition createDraft (identity : SessionIdentity) (locationPublicId operationId expectedRequestHash : string)
    (startDate endDate : Z) (metadata : WriteMetadata) : Tx Json :=
  let tenantId := si_tenantId identity in
  found ← operationsWait (lockLiveLocation tenantId locationPublicId);
  match found with
  | None => throwProblemTx 404 "location_not_found" "The selected location was not found." "Location not found"
  | Some location =>
      schedule ← draftFor tenantId (lo_id location) startDate endDate;
      let response := JObj [field "data" (serializeSchedule schedule (lo_publicId location))] in
      _ ← operationsWait (
            id ← randomUUID;
            createRow (createAudit id identity operationId expectedRequestHash response metadata));
      mret response
  end.

Definition create (identity : SessionIdentity) (locationPublicId : string) (body : ScheduleCreateRequest)
    (idempotencyKeyValue : option string) (metadata : WriteMetadata) : Tx Json :=
  let identity := operationsIdentity identity in
  _ ← liftResult (requireAnyPermission identity ["schedules:write"; "shifts:write"]);
  idempotencyKey ← liftResult (requireIdempotencyKey idempotencyKeyValue);
  let operationId := createOperationId (si_tenantId identity) idempotencyKey in
  let expectedRequestHash := createHash locationPublicId body in
  startDate ← liftResult (parseUtcInstant (sq_startDate body) "/startDate");
  endDate ← liftResult (parseUtcInstant (sq_endDate body) "/endDate");
  _ ← liftResult (checkScheduleWindow startDate endDate);
  _ ← prepareOperationsAuthority identity;
  scopeRun identity (fun current =>
    let tenantId := si_tenantId current in
    initialReplay ← operationsWait (replayCreate tenantId operationId expectedRequestHash);
    match initialReplay with
    | Some response => mret response
    | None =>
        _ ← operationsWait (assertSchedulingEntitled tenantId);
        _ ← operationsWait (lockSchedulingAggregate tenantId);
        lockedReplay ← operationsWait (replayCreate tenantId operationId expectedRequestHash);
        match lockedReplay with
        | Some response => mret response
        | None => createDraft current locationPublicId operationId expectedRequestHash startDate endDate metadata
        end
    end).
End Create.

(** ** What a request came to *)

(** Two live schedules of one location do not meet. *)
Definition live (s : Schedule) : bool := bool_decide (sc_deletedAt s = None).
Definition apart (a b : Schedule) : Prop :=
  live a = true -> live b = true -> sc_tenantId a = sc_tenantId b -> sc_locationId a = sc_locationId b ->
  windowsApart (sc_startDate a, sc_endDate a) (sc_startDate b, sc_endDate b).
Definition schedulesApart (l : list Schedule) : Prop := pairwise apart l.

#[global] Instance apart_symmetric : Symmetric apart.
Proof. intros a b Hab Hb Ha Ht Hl. symmetry. by apply Hab. Qed.

(** The audit row that answers retries of the operation. *)
Definition answersCreate (operationId hash : string) (response : Json) (a : AuditLog) : Prop :=
  exists entries, al_newValue a = Some (JObj entries) /\ jsonMember "requestHash" entries = Some (JStr hash) /\
    jsonMember "response" entries = Some response.

(** What a request that returned did: it was answered before, or it found or
    made the draft and recorded its answer. *)
Inductive CreateCommitted (tenantId operationId hash locationPublicId : string) (startDate endDate : Z) (db : Db) (response : Json) : Db -> Prop :=
  | create_replayed audit :
      List.find (createAuditOf tenantId operationId) (db_audits db) = Some audit -> answersCreate operationId hash response audit ->
      CreateCommitted tenantId operationId hash locationPublicId startDate endDate db response db
  | create_written location schedule schedules audit :
      List.find (createAuditOf tenantId operationId) (db_audits db) = None ->
      location ∈ db_locations db -> lo_tenantId location = tenantId -> lo_publicId location = lowerText locationPublicId ->
      lo_deletedAt location = None ->
      sc_tenantId schedule = tenantId -> sc_locationId schedule = lo_id location -> sc_status schedule = DRAFT ->
      sc_startDate schedule = startDate -> sc_endDate schedule = endDate -> sc_deletedAt schedule = None ->
      (schedule ∈ db_schedules db /\ schedules = db_schedules db \/
       Forall (fun s => meetsWindow tenantId (lo_id location) startDate endDate s = false) (db_schedules db) /\
       schedules = db_schedules db ++ [schedule]) ->
      response = JObj [field "data" (serializeSchedule schedule (lo_publicId location))] ->
      createAuditOf tenantId operationId audit = true -> answersCreate operationId hash response audit ->
      CreateCommitted tenantId operationId hash locationPublicId startDate endDate db response
        (withRows (db_audits db ++ [audit]) (withRows schedules db)).

Lemma serializeSchedule_stored schedule location :
  inputJson (JObj [field "data" (serializeSchedule schedule location)]) = JObj [field "data" (serializeSchedule schedule location)].
Proof. unfold serializeSchedule, field. destruct (sc_publishedAt schedule); reflexivity. Qed.

Section Outcome.
Context `{Env, Process, AuthorityEnv, Contracts, LocaleCompare, Sha256}.

Lemma replayCreate_Ok tenantId operationId hash r w w' :
  replayCreate tenantId operationId hash w = (Ok r, w') ->
  w_db w' = w_db w /\
  match List.find (createAuditOf tenantId operationId) (db_audits (w_db w)) with
  | None => r = None
  | Some audit => exists response, r = Some response /\ answersCreate operationId hash response audit
  end.
Proof.
  unfold replayCreate, throwProblemTx. intros (found & w1 & (w2 & [-> E2]%findFirst_Ok & E1)%operationsWait_Ok & Hr)%Tx_bind_Ok.
  cbn [rows Table_Audit w_db tick] in *. destruct (List.find _ _) as [audit|]; [|apply Tx_ret_Ok in Hr as [<- <-]; split; [congruence|done]].
  destruct (al_newValue audit) as [[]|] eqn:Ev; try (by apply throwTx_Ok in Hr).
  destruct (jsonMember "requestHash" _) as [[]|] eqn:Eh; try (by apply throwTx_Ok in Hr).
  case_bool_decide as Hs; [|by apply throwTx_Ok in Hr]. cbn [negb] in Hr.
  destruct (jsonMember "response" _) as [response|] eqn:Er; [|by apply throwTx_Ok in Hr].
  destruct (matchesContract _ _); [|by apply throwTx_Ok in Hr]. apply Tx_ret_Ok in Hr as [<- <-]. split; [congruence|].
  exists response. split; [done|]. eexists. split; [done|]. by rewrite <- Hs.
Qed.

Lemma draftFor_Ok tenantId locationId startDate endDate s w w' :
  draftFor tenantId locationId startDate endDate w = (Ok s, w') ->
  sc_tenantId s = tenantId /\ sc_locationId s = locationId /\ sc_status s = DRAFT /\ sc_startDate s = startDate /\
  sc_endDate s = endDate /\ sc_deletedAt s = None /\
  (s ∈ db_schedules (w_db w) /\ w_db w' = w_db w \/
   Forall (fun x => meetsWindow tenantId locationId startDate endDate x = false) (db_schedules (w_db w)) /\
   w_db w' = withRows (db_schedules (w_db w) ++ [s]) (w_db w)).
Proof.
  unfold draftFor, throwProblemTx. intros (o & w1 & (w2 & [-> E2]%findFirst_Ok & E1)%operationsWait_Ok & Hr)%Tx_bind_Ok.
  cbn [rows Table_Schedule w_db tick] in *. destruct (List.find _ _) as [found|] eqn:Ef.
  - destruct (_ && _) eqn:Em in Hr; [|by apply throwTx_Ok in Hr]. apply Tx_ret_Ok in Hr as [<- <-].
    apply find_some in Ef as [Hin Hm]. unfold meetsWindow in Hm. rewrite !andb_true_iff, !bool_decide_eq_true in Hm.
    rewrite !andb_true_iff, bool_decide_eq_true in Em. destruct Hm as [[[[Ht Hl] Hd] _] _], Em as [[Hs E3] E4].
    split_and!; [done|done|done|lia|lia|done|]. left. split; [by apply list_elem_of_In|congruence].
  - apply operationsWait_Ok in Hr as (w3 & Hc & E3). apply Tx_bind_Ok in Hc as (publicId & w4 & [-> ->]%randomUUID_Ok & Hc).
    apply Tx_bind_Ok in Hc as (id & w5 & [-> ->]%randomUUID_Ok & Hc). apply Tx_bind_Ok in Hc as (u & w6 & [_ E6]%createRow_Ok & [<- <-]%Tx_ret_Ok).
    split_and!; [done..|]. right. cbn [rows Table_Schedule w_db tick] in *. rewrite E1, E2 in E6. rewrite E3, E6.
    split; [|done]. apply Forall_forall. intros x Hx%list_elem_of_In. by apply (find_none _ _ Ef) in Hx.
Qed.

Lemma createDraft_Ok identity locationPublicId operationId hash startDate endDate metadata r w w' :
  List.find (createAuditOf (si_tenantId identity) operationId) (db_audits (w_db w)) = None ->
  createDraft identity locationPublicId operationId hash startDate endDate metadata w = (Ok r, w') ->
  CreateCommitted (si_tenantId identity) operationId hash locationPublicId startDate endDate (w_db w) r (w_db w').
Proof.
  intros Hn. unfold createDraft, throwProblemTx. intros (o & w1 & (w2 & [-> E2]%findFirst_Ok & E1)%operationsWait_Ok & Hr)%Tx_bind_Ok.
  cbn [rows Table_Location w_db tick] in *. destruct (List.find _ (db_locations _)) as [location|] eqn:El; [|by apply throwTx_Ok in Hr].
  apply find_some in El as [Hlin Hl]. unfold sameUuid in Hl. rewrite !andb_true_iff, !bool_decide_eq_true in Hl. destruct Hl as [[Hlt Hlp] Hld].
  apply Tx_bind_Ok in Hr as (s & w3 & (Ht & Hsl & Hst & Hs & He & Hd & Hcase)%draftFor_Ok & Hr).
  apply Tx_bind_Ok in Hr as (u & w4 & (w5 & Ha & E4)%operationsWait_Ok & [<- <-]%Tx_ret_Ok).
  apply Tx_bind_Ok in Ha as (aid & w6 & [-> ->]%randomUUID_Ok & [_ E5]%createRow_Ok). cbn [rows Table_Audit w_db tick] in *.
  assert (Edb : w_db w1 = w_db w) by congruence. rewrite Edb in Hcase.
  set (schedules := db_schedules (w_db w3)).
  assert (E3 : w_db w3 = withRows schedules (w_db w)) by (unfold schedules; destruct Hcase as [[_ ->]|[_ ->]]; by destruct (w_db w)).
  rewrite E4, E5, E3. replace (db_audits (withRows schedules (w_db w))) with (db_audits (w_db w)) by by destruct (w_db w).
  apply (create_written _ _ _ _ _ _ _ _ location s); try done; [by apply list_elem_of_In| | |].
  - unfold schedules. destruct Hcase as [[Hin ->]|[Hf ->]]; [by left|right; split; [done|by destruct (w_db w)]].
  - unfold createAuditOf, createAudit. cbn. by rewrite !bool_decide_true.
  - eexists. split; [reflexivity|]. split; [reflexivity|]. cbn [jsonMember List.find]. unfold jsonMember. cbn -[inputJson].
    by rewrite serializeSchedule_stored.
Qed.

Lemma create_Ok identity locationPublicId body keyValue metadata r w w' :
  create identity locationPublicId body keyValue metadata w = (Ok r, w') ->
  exists key startDate endDate, requireIdempotencyKey keyValue = Ok key /\ startDate < endDate /\
    CreateCommitted (trim (si_tenantId identity)) (createOperationId (trim (si_tenantId identity)) key) (createHash locationPublicId body)
      locationPublicId startDate endDate (w_db w) r (w_db w').
Proof.
  unfold create. intros (u & w1 & [_ <-]%liftResult_Ok & Hr)%Tx_bind_Ok.
  apply Tx_bind_Ok in Hr as (key & w1 & [Hk <-]%liftResult_Ok & Hr).
  apply Tx_bind_Ok in Hr as (startDate & w1 & [_ <-]%liftResult_Ok & Hr).
  apply Tx_bind_Ok in Hr as (endDate & w1 & [_ <-]%liftResult_Ok & Hr).
  apply Tx_bind_Ok in Hr as (u2 & w1 & [Hw <-]%liftResult_Ok & Hr).
  apply Tx_bind_Ok in Hr as (u3 & w1 & E1%(ReadOnly_Ok _ _ _ _ (prepareOperationsAuthority_ReadOnly _)) & Hr).
  apply scopeRun_Ok in Hr as (current & w2 & w3 & Ht & Hr & E2 & ->). exists key, startDate, endDate. split; [done|].
  split. { unfold checkScheduleWindow in Hw. destruct (_ || _) eqn:E; [done|]. apply orb_false_iff in E as [E _]. bool_lia. }
  change (trim (si_tenantId identity)) with (si_tenantId (operationsIdentity identity)). rewrite <- Ht in Hr |- *. rewrite <- E1, <- E2.
  apply Tx_bind_Ok in Hr as (o & w4 & (w5 & [E5 H5]%replayCreate_Ok & E4)%operationsWait_Ok & Hr). cbn [w_db tick] in E5, H5.
  destruct (List.find _ _) as [audit|] eqn:Ef.
  { destruct H5 as (response & -> & Ha). apply Tx_ret_Ok in Hr as [<- <-]. rewrite E4, E5. by eapply create_replayed. }
  subst o. apply Tx_bind_Ok in Hr as (? & w6 & (w7 & E7%(ReadOnly_Ok _ _ _ _ (assertSchedulingEntitled_ReadOnly _)) & E6)%operationsWait_Ok & Hr).
  apply Tx_bind_Ok in Hr as (? & w8 & (w9 & E9%lockRows_Ok & E8)%operationsWait_Ok & Hr).
  apply Tx_bind_Ok in Hr as (o & w10 & (w11 & [E11 H11]%replayCreate_Ok & E10)%operationsWait_Ok & Hr). cbn [w_db tick] in *.
  assert (E : w_db w10 = w_db w2) by congruence. assert (E' : w_db w8 = w_db w2) by congruence. rewrite E', Ef in H11. subst o.
  rewrite <- E in Ef |- *. by apply (createDraft_Ok current _ _ _ _ _ metadata).
Qed.

Lemma create_Throw identity locationPublicId body keyValue metadata e w w' :
  create identity locationPublicId body keyValue metadata w = (Throw e, w') -> w_db w' = w_db w.
Proof.
  unfold create, mbind, Tx_bind, liftResult.
  destruct (requireAnyPermission _ _); [|by intros [= _ <-]]. destruct (requireIdempotencyKey _); [|by intros [= _ <-]].
  destruct (parseUtcInstant _ "/startDate"); [|by intros [= _ <-]]. destruct (parseUtcInstant _ "/endDate"); [|by intros [= _ <-]].
  destruct (checkScheduleWindow _ _); [|by intros [= _ <-]].
  pose proof (prepareOperationsAuthority_ReadOnly (operationsIdentity identity) w) as Hp.
  destruct (prepareOperationsAuthority _ w) as [[?|?] w1]; cbn in Hp; [|by intros [= _ <-]].
  intros E%scopeRun_Throw. congruence.
Qed.
End Outcome.

(** ** Windows stay apart *)

Lemma created_apart tenantId operationId hash locationPublicId startDate endDate db response db' :
  CreateCommitted tenantId operationId hash locationPublicId startDate endDate db response db' ->
  schedulesApart (db_schedules db) -> schedulesApart (db_schedules db').
Proof.
  intros [audit _ _|location s schedules audit _ _ _ _ _ Ht Hl _ Hs He _ Hcase _ _ _] Ha; [done|].
  replace (db_schedules _) with schedules by by destruct db. destruct Hcase as [[_ ->]|[Hf ->]]; [done|].
  apply (pairwise_perm _ (s :: db_schedules db)); [by rewrite Permutation_cons_append|]. apply pairwise_cons; [apply _|]. split; [|done].
  eapply Forall_impl; [exact Hf|]. intros x Hx _ Hlx Etx Elx. unfold meetsWindow in Hx. rewrite <- Etx, <- Elx, Ht, Hl in Hx.
  rewrite !bool_decide_true in Hx by done. unfold live in Hlx. apply bool_decide_eq_true in Hlx. rewrite bool_decide_true in Hx by done.
  cbn [andb] in Hx. unfold windowsApart. cbn. rewrite Hs, He. apply andb_false_iff in Hx as [Hx|Hx]; bools; [left|right]; lia.
Qed.

(** A change of a row that leaves its window where it is and does not bring it
    back to life. *)
Definition keepsWindow (s s' : Schedule) : Prop :=
  sc_tenantId s' = sc_tenantId s /\ sc_locationId s' = sc_locationId s /\ sc_startDate s' = sc_startDate s /\
  sc_endDate s' = sc_endDate s /\ (live s' = true -> live s = true).

Lemma keepsWindow_refl s : keepsWindow s s.
Proof. by repeat split. Qed.

Lemma keepsWindow_bump s : keepsWindow s (bumpRevision s).
Proof. by repeat split. Qed.

Lemma keepsWindow_reopen s : keepsWindow s (reopenRow s).
Proof. by repeat split. Qed.

Lemma mapped_apart f p l :
  (forall s, keepsWindow s (f s)) -> schedulesApart l -> schedulesApart (map f (List.filter p l)).
Proof.
  intros Hf Ha. apply pairwise_fmap. apply (pairwise_impl apart); [|apply pairwise_filter; [apply _|exact Ha]].
  intros x y _ _ Hxy. destruct (Hf x) as (E1 & E2 & E3 & E4 & E5), (Hf y) as (F1 & F2 & F3 & F4 & F5). unfold apart.
  rewrite E1, E2, E3, E4, F1, F2, F3, F4. intros Hx Hy. by apply Hxy; [apply E5|apply F5].
Qed.

(** A scheduling write of one row keeps every window. *)
Lemma writeOutcome_apart frame from f tenantId publicId base keyHash hash response db db' :
  (forall s, keepsWindow s (f s)) ->
  writeOutcome frame from f tenantId publicId base keyHash hash response db db' ->
  schedulesApart (db_schedules db) -> schedulesApart (db_schedules db').
Proof.
  intros Hf [[-> _]|[_ (row & mid & schedules & c & audit & _ & _ & _ & _ & _ & Hrev & _ & ->)]] Ha; [done|].
  replace (db_schedules _) with schedules by by destruct mid. destruct Hrev as (row2 & _ & _ & _ & _ & _ & ->).
  set (p := atRevision _ _ _ _). rewrite <- (filter_all (fun _ => true) (db_schedules db)) by done. apply mapped_apart; [|done].
  intros s. destruct (p s); [apply Hf|apply keepsWindow_refl].
Qed.

(** What happens to the schedules: requests that create, change and reopen
    them or replace their demand, whatever they come to, in any environment and with any caller; and
    what the rest of the system does to the rows, which may go away, change
    their state or be deleted, in any number, their windows fixed. *)
Inductive scheduleStep `{Process, Contracts, Collation, LocaleCompare, Sha256} : Db -> Db -> Prop :=
  | step_create (env : Env) (auth : AuthorityEnv) identity locationPublicId body key metadata r w w' :
      create identity locationPublicId body key metadata w = (r, w') -> scheduleStep (w_db w) (w_db w')
  | step_change (env : Env) (auth : AuthorityEnv) identity publicId operations headers metadata r w w' :
      apply identity publicId operations headers metadata w = (r, w') -> scheduleStep (w_db w) (w_db w')
  | step_reopen (env : Env) (auth : AuthorityEnv) identity publicId headers metadata r w w' :
      reopen identity publicId headers metadata w = (r, w') -> scheduleStep (w_db w) (w_db w')
  | step_demand (env : Env) (auth : AuthorityEnv) identity publicId windows headers metadata r w w' :
      replace identity publicId windows headers metadata w = (r, w') -> scheduleStep (w_db w) (w_db w')
  | step_rest f p db :
      (forall s, keepsWindow s (f s)) -> scheduleStep db (withRows (map f (List.filter p (db_schedules db))) db).

Lemma reopen_Throw `{Env, Process, AuthorityEnv, Contracts, LocaleCompare, Sha256} identity publicId headers metadata e w w' :
  reopen identity publicId headers metadata w = (Throw e, w') -> w_db w' = w_db w.
Proof.
  unfold reopen, mbind, Tx_bind, liftResult.
  destruct (authorizeScheduleReopen _); [|by intros [= _ <-]].
  destruct (requireScheduleRevision _ _); [|by intros [= _ <-]].
  destruct (requireIdempotencyKey _); [|by intros [= _ <-]].
  pose proof (prepareOperationsAuthority_ReadOnly (operationsIdentity identity) w) as Hp.
  destruct (prepareOperationsAuthority _ w) as [[?|?] w1]; cbn in Hp; [|by intros [= _ <-]].
  intros E%scopeRun_Throw. congruence.
Qed.

Lemma scheduleStep_apart `{Process, Contracts, Collation, LocaleCompare, Sha256} db db' :
  scheduleStep db db' -> schedulesApart (db_schedules db) -> schedulesApart (db_schedules db').
Proof.
  intros [env auth ????? [r|err] w w' Hr|env auth ????? [r|err] w w' Hr|env auth ???? [r|err] w w' Hr
    |env auth ????? [r|err] w w' Hr|f p db0 Hf] Ha.
  - apply create_Ok in Hr as (k & s & e & _ & _ & Hc). by eapply created_apart.
  - apply create_Throw in Hr. by rewrite Hr.
  - apply apply_outcome_spec in Hr as (base & k & _ & _ & Ho). by eapply writeOutcome_apart; [exact keepsWindow_bump|exact Ho|].
  - apply apply_Throw in Hr. by rewrite Hr.
  - apply reopen_outcome_spec in Hr as (_ & base & k & _ & _ & Ho). by eapply writeOutcome_apart; [exact keepsWindow_reopen|exact Ho|].
  - apply reopen_Throw in Hr. by rewrite Hr.
  - apply replace_outcome_spec in Hr as (_ & base & k & _ & _ & Ho). by eapply writeOutcome_apart; [exact keepsWindow_bump|exact Ho|].
  - apply replace_Throw in Hr. by rewrite Hr.
  - replace (db_schedules _) with (map f (List.filter p (db_schedules db0))) by by destruct db0. by apply mapped_apart.
Qed.

(** C20: The schedules of a location never meet, and the check of a create is
    enough for that: the exclusion constraint [Schedule_no_overlap] of the
    database, which the model does not run, has nothing left to refuse.  If the
    windows of the live schedules of every location are apart, they stay apart
    whatever sequence of requests follows - creates, change sets, reopenings and
    replacements of demand, of any callers, that return or fail - and whatever the rest of the system
    does to the rows in between, as long as it does not move a window or
    undelete one. *)
Theorem windows_stay_apart `{Process, Contracts, Collation, LocaleCompare, Sha256} db db' :
  schedulesApart (db_schedules db) -> rtc scheduleStep db db' -> schedulesApart (db_schedules db').
Proof. intros Ha Hrun. induction Hrun as [db|db mid db' Hstep _ IH]; [done|]. by apply IH, (scheduleStep_apart _ _ Hstep). Qed.

(** ** One draft per key *)

(** The operation has its answer in the audit rows. *)
Lemma committed_answered tenantId operationId hash locationPublicId startDate endDate db response db' :
  CreateCommitted tenantId operationId hash locationPublicId startDate endDate db response db' ->
  exists audit, List.find (createAuditOf tenantId operationId) (db_audits db') = Some audit /\ answersCreate operationId hash response audit.
Proof.
  intros [audit Hf Ha|location s schedules audit Hn _ _ _ _ _ _ _ _ _ _ _ _ Hc Ha]; exists audit; [done|].
  replace (db_audits _) with (db_audits db ++ [audit]) by by destruct db. split; [by apply find_app_hit|done].
Qed.

Lemma find_app_left {A} (p : A -> bool) l k x : List.find p l = Some x -> List.find p (l ++ k) = Some x.
Proof. induction l as [|y l IH]; cbn; [done|]. by destruct (p y). Qed.

(** C21: A schedule is created once per idempotency key.  After a create that
    returned, the same tenant's create with that key - any caller, location,
    body and environment, and whatever was written to the database since, the
    audit log being append-only - changes nothing; if it returns at all, its
    request has the same hash, and it returns the very response of the first. *)
Theorem create_once `{Process, Contracts, LocaleCompare, Sha256} (env1 env2 : Env) (auth1 auth2 : AuthorityEnv)
    identity identity2 location location2 body body2 key key2 metadata metadata2 later r r2 w w' w2 w3 :
  create (H := env1) (H1 := auth1) identity location body key metadata w = (Ok r, w') ->
  trim (si_tenantId identity2) = trim (si_tenantId identity) -> trim (default "" key2) = trim (default "" key) ->
  db_audits (w_db w2) = db_audits (w_db w') ++ later ->
  create (H := env2) (H1 := auth2) identity2 location2 body2 key2 metadata2 w2 = (r2, w3) ->
  w_db w3 = w_db w2 /\
  forall response2, r2 = Ok response2 -> createHash location2 body2 = createHash location body /\ response2 = r.
Proof.
  intros Ha Et Ek Ew Ha2. destruct r2 as [response2|e]; [|apply create_Throw in Ha2; by split].
  apply create_Ok in Ha as (k & s & e & Hk & _ & (audit & Hf & entries & Hv & Hh & Hr)%committed_answered).
  apply create_Ok in Ha2 as (k2 & s2 & e2 & Hk2 & _ & Hc2). assert (k2 = k) as ->.
  { unfold requireIdempotencyKey in Hk, Hk2. rewrite Ek in Hk2. rewrite Hk2 in Hk. congruence. }
  apply (find_app_left _ _ later) in Hf. rewrite <- Ew in Hf. rewrite Et in Hc2.
  destruct Hc2 as [audit2 Hf2 (entries2 & Hv2 & Hh2 & Hr2)|???? Hn]; [|congruence].
  rewrite Hf in Hf2. injection Hf2 as <-. rewrite Hv in Hv2. injection Hv2 as <-. split; [done|]. intros ? [= <-]. split; congruence.
Qed.

(** ** Concrete instances *)

(** The week after the sample schedule's. *)
Definition sampleWeek (startDate endDate : string) : ScheduleCreateRequest := mkScheduleCreate startDate endDate.
Definition nextWeek : ScheduleCreateRequest := sampleWeek "2026-03-09T00:00:00Z" "2026-03-16T00:00:00Z".

Definition sampleCreate (body : ScheduleCreateRequest) (key : string) : Tx Json :=
  @create (calm 1772409600000) noBeta (actingAs sampleManager) allContracts codeUnitCollation plainDigest
    sampleManager "LOC-public" body (Some key) (mkMetadata (Some "10.0.0.1") None).
Definition sampleCreated : Result Json * World := sampleCreate nextWeek "key-00007" (mkWorld (sampleScheduleDb DRAFT) 0).
Definition sampleCreatedDb : Db := w_db sampleCreated.2.

Example sampleCreated_result :
  isOk sampleCreated.1 = true /\
  map (fun s => (sc_startDate s, sc_endDate s, sc_status s)) (db_schedules sampleCreatedDb) =
    [(1772409600000, 1773014400000, DRAFT); (1773014400000, 1773619200000, DRAFT)] /\
  map al_resource (db_audits sampleCreatedDb) = [CREATE_RESOURCE].
Proof. vm_compute. repeat split. Qed.

(** The window of the draft itself gives the draft, under a new key; a window
    that meets one does not; nor does a window that ends before it starts, or
    one of more than 31 days. *)
Example sampleCreate_checked :
  let at_ body := (sampleCreate body "key-00008" (mkWorld sampleCreatedDb 100)) in
  isOk (at_ nextWeek).1 = true /\ length (db_schedules (w_db (at_ nextWeek).2)) = 2%nat /\
  map (fun b => match (at_ b).1 with Throw e => Some (errorCode e) | Ok _ => None end)
    [sampleWeek "2026-03-08T00:00:00Z" "2026-03-10T00:00:00Z"; sampleWeek "2026-03-20T00:00:00Z" "2026-03-20T00:00:00Z";
     sampleWeek "2026-03-16T00:00:00Z" "2026-04-16T00:00:01Z"] =
    [Some "schedule_window_conflict"; Some "invalid_schedule_window"; Some "invalid_schedule_window"].
Proof. vm_compute. repeat split. Qed.

Lemma windows_stay_apart_witness :
  schedulesApart (db_schedules (sampleScheduleDb DRAFT)) /\
  schedulesApart (db_schedules (w_db (sampleApply "key-00001" (mkWorld sampleCreatedDb 500)).2)).
Proof.
  assert (Ha : schedulesApart (db_schedules (sampleScheduleDb DRAFT))).
  { intros [|i] [|j] x y Hij Hx Hy; [by destruct Hij|discriminate Hy|discriminate Hx|discriminate Hx]. }
  split; [exact Ha|].
  apply (@windows_stay_apart noBeta allContracts codeUnitOrder codeUnitCollation plainDigest (sampleScheduleDb DRAFT)); [exact Ha|].
  eapply rtc_l; [|eapply rtc_l; [|apply rtc_refl]].
  - exact (@step_create noBeta allContracts codeUnitOrder codeUnitCollation plainDigest (calm 1772409600000) (actingAs sampleManager)
      sampleManager "LOC-public" nextWeek (Some "key-00007") (mkMetadata (Some "10.0.0.1") None) sampleCreated.1
      (mkWorld (sampleScheduleDb DRAFT) 0) sampleCreated.2 (surjective_pairing _)).
  - exact (@step_change noBeta allContracts codeUnitOrder codeUnitCollation plainDigest (calm 1772409600000) (actingAs sampleManager)
      sampleManager sampleScheduleId sampleOperations (sampleHeaders "key-00001") (mkMetadata None None)
      (sampleApply "key-00001" (mkWorld sampleCreatedDb 500)).1 (mkWorld sampleCreatedDb 500)
      (sampleApply "key-00001" (mkWorld sampleCreatedDb 500)).2 (surjective_pairing _)).
Defined.

(** The key again, with another window: nothing is made, nothing is returned;
    with the window it was for: the first response. *)
Lemma create_once_witness :
  let retry body := sampleCreate body "key-00007" (mkWorld sampleCreatedDb 500) in
  w_db (retry nextWeek).2 = sampleCreatedDb /\ (retry nextWeek).1 = sampleCreated.1 /\
  w_db (retry (sampleWeek "2026-05-04T00:00:00Z" "2026-05-11T00:00:00Z")).2 = sampleCreatedDb.
Proof.
  intros retry.
  assert (Hone : forall body, w_db (retry body).2 = sampleCreatedDb /\ forall response2, (retry body).1 = Ok response2 ->
    @createHash codeUnitCollation plainDigest "LOC-public" body = @createHash codeUnitCollation plainDigest "LOC-public" nextWeek /\
    response2 = okJson sampleCreated.1).
  { intros body. eapply (@create_once noBeta allContracts codeUnitCollation plainDigest (calm 1772409600000) (calm 1772409600000)
      (actingAs sampleManager) (actingAs sampleManager) sampleManager sampleManager "LOC-public" "LOC-public" nextWeek body
      (Some "key-00007") (Some "key-00007") (mkMetadata (Some "10.0.0.1") None) (mkMetadata (Some "10.0.0.1") None) []
      (okJson sampleCreated.1) (retry body).1 (mkWorld (sampleScheduleDb DRAFT) 0) sampleCreated.2 (mkWorld sampleCreatedDb 500)
      (retry body).2); [vm_compute; reflexivity|reflexivity|reflexivity|symmetry; apply app_nil_r|apply surjective_pairing]. }
  split; [apply Hone|split; [|apply Hone]]. vm_compute. reflexivity.
Defined.
