(* ===== verification/ScheduleRefinement.v ===== *)
(** * The database after a change set is the planned schedule

    The planner ([ChangeSetPlan]) reasons about a list of planned shifts; the
    service ([ScheduleChanges]) writes rows.  Here the two meet: the rows of a
    schedule and the planner's map of shifts are related ([RowsAre]), every
    write preserves the relation, and so what the planner guarantees of its
    final schedule holds of the stored rows.  The result is stated without the
    planner: after a change set no member of staff is booked twice. *)

From S2P Require Import Prelude JsStd JsCollections JsDate ContractHelpers ChangeSetPlan.
From S2P Require Import PayrollRecords Database FeatureEntitlement Authority ScheduleStore.
From S2P Require Import ScheduleChanges.

(** ** Where the parts of a plan come from *)

Definition savedBefore (input : PlanInput) (m : ShiftMutation) : Prop :=
  match m with
  | MutCreate _ _ => True
  | MutUpdate before after => before ∈ in_currentShifts input /\ ps_publicId after = ps_publicId before
  | MutDelete before => before ∈ in_currentShifts input
  end.

(** A user the planner knows: of a saved shift or of the requested users. *)
Definition knownUser (input : PlanInput) (u : string) : Prop :=
  (exists c, c ∈ in_currentShifts input /\ ps_userInternalId c = Some u) \/
  (exists r, r ∈ mapValues (in_usersByPublicId input) /\ ru_internalId r = u).

Definition knownShift (input : PlanInput) (s : PlannedShift) : Prop :=
  forall u, ps_userInternalId s = Some u -> knownUser input u.

Lemma mapGet_value {V} (m : JsMap string V) k v : mapGet m k = Some v -> v ∈ mapValues m.
Proof. intros Hm%mapGet_Some_elem. apply list_elem_of_fmap. by exists (k, v). Qed.

Lemma mapSet_values {V} (P : V -> Prop) (m : JsMap string V) k v :
  P v -> Forall P (mapValues m) -> Forall P (mapValues (mapSet m k v)).
Proof.
  unfold mapValues. intros Hv. induction m as [|[k' v'] m IH]; cbn; [by constructor|].
  intros [Hv' Hm]%Forall_cons. case_decide; cbn; constructor; auto.
Qed.

Lemma mapDelete_values {V} (P : V -> Prop) (m : JsMap string V) k :
  Forall P (mapValues m) -> Forall P (mapValues (mapDelete m k)).
Proof.
  unfold mapValues. induction m as [|[k' v'] m IH]; cbn; [by constructor|].
  intros [Hv' Hm]%Forall_cons. case_decide; cbn; [done|]. constructor; auto.
Qed.

Lemma mapOf_values {V} (P : V -> Prop) (entries : list (string * V)) :
  Forall P entries.*2 -> Forall P (mapValues (mapOf entries)).
Proof.
  induction entries as [|e entries IH] using rev_ind; [constructor|].
  rewrite fmap_app, Forall_app. intros [Hl He]. rewrite mapOf_snoc. apply mapSet_values; [|auto].
  by inversion He.
Qed.

Section Origin.
Context (input : PlanInput) (idFactory : nat -> string).
Let base := mapOf (shiftEntries (in_currentShifts input)).

Lemma base_saved k s : mapGet base k = Some s -> s ∈ in_currentShifts input /\ ps_publicId s = k.
Proof.
  intros Hs. split; [|by eapply shiftEntries_key]. apply mapGet_value in Hs.
  assert (Hall : Forall (fun x => x ∈ in_currentShifts input) (mapValues base)).
  { apply mapOf_values, Forall_forall. unfold shiftEntries. intros x (e & -> & (y & -> & Hy)%list_elem_of_fmap)%list_elem_of_fmap. done. }
  rewrite Forall_forall in Hall. auto.
Qed.

Lemma userFor_known p ptr u : userFor p (in_usersByPublicId input) ptr = Ok u ->
  forall i, ru_internalId <$> u = Some i -> knownUser input i.
Proof.
  unfold userFor. destruct p as [p|]; [|by intros [= <-]].
  destruct (mapGet _ p) as [r|] eqn:E; [|done]. intros [= <-] i [= <-]. right. exists r.
  split; [by eapply mapGet_value|done].
Qed.

Lemma updatedShift_known ptr before userId s e role after :
  before ∈ in_currentShifts input -> updatedShift input ptr before userId s e role = Ok after ->
  knownShift input after.
Proof.
  unfold updatedShift. intros Hb (ns & _ & (ne & _ & (us & Hu & (r & _ & (bs & _ & [= <-]
    )%Result_bind_Ok)%Result_bind_Ok)%Result_bind_Ok)%Result_bind_Ok)%Result_bind_Ok i. cbn. intros Ei.
  destruct userId as [uid|].
  - apply Result_bind_Ok in Hu as (u & Hu & [= <-]). by eapply userFor_known.
  - injection Hu as <-. left. by exists before.
Qed.

Definition PlanOrigin (st : PlanState) : Prop :=
  Forall (savedBefore input) (st_mutations st) /\ Forall (knownShift input) (mapValues (st_working st)).

Lemma planOperation_origin i o st st' :
  planOperation input idFactory base i o st = Ok st' -> PlanOrigin st -> PlanOrigin st'.
Proof.
  unfold planOperation. intros Ho [Hm Hw]. destruct o as [c u s e r|k u s e r|k].
  - unfold planCreate in Ho. apply Result_bind_Ok in Ho as (? & _ & (user & Hu & (sv & _ & (ev & _ &
      (rv & _ & [= <-])%Result_bind_Ok)%Result_bind_Ok)%Result_bind_Ok)%Result_bind_Ok).
    split; [apply Forall_app; by split; [|repeat constructor]|]. apply mapSet_values; [|done].
    intros j. cbn. by eapply userFor_known.
  - unfold planUpdate in Ho. apply Result_bind_Ok in Ho
      as (before & [_ [Hb Hk]%base_saved]%touchShift_Ok & (after & Ha & [= <-])%Result_bind_Ok).
    pose proof (updatedShift_Ok _ _ _ _ _ _ _ _ Ha) as [Hid _].
    split; [|by apply mapSet_values; [eapply updatedShift_known|]]. cbn.
    destruct (sameShift _ _); [done|]. apply Forall_app. split; [done|]. by repeat constructor.
  - unfold planDelete in Ho. apply Result_bind_Ok in Ho as (before & [_ [Hb Hk]%base_saved]%touchShift_Ok & [= <-]).
    split; [apply Forall_app; by split; [|repeat constructor]|]. by apply mapDelete_values.
Qed.

Lemma planOperations_origin ops i st st' :
  planOperations input idFactory base i ops st = Ok st' -> PlanOrigin st -> PlanOrigin st'.
Proof.
  revert i st. induction ops as [|o ops IH]; cbn [planOperations]; intros i st Ho Hst; [by injection Ho as <-|].
  apply Result_bind_Ok in Ho as (st1 & H1 & H2). eapply IH, planOperation_origin; eauto.
Qed.

Lemma plan_origin `{LC : LocaleCompare} plan :
  planScheduleChangeSet idFactory input = Ok plan ->
  Forall (savedBefore input) (mutations plan) /\ Forall (knownShift input) (finalShifts plan).
Proof.
  intros (st & Hst & -> & _)%plan_inv. eapply planOperations_origin; [exact Hst|]. split; [constructor|].
  apply mapOf_values, Forall_forall. unfold shiftEntries.
  intros x (e & -> & (y & -> & Hy)%list_elem_of_fmap)%list_elem_of_fmap u Hu. left. by exists y.
Qed.
End Origin.

(** ** Rows and planned shifts *)

(** What both sides know of a shift. *)
Definition rowCore (s : Shift) : option string * Z * Z * option string :=
  (sh_userId s, sh_startTime s, sh_endTime s, sh_role s).
Definition plannedCore (s : PlannedShift) : option string * Z * Z * option string :=
  (ps_userInternalId s, ps_startTime s, ps_endTime s, ps_role s).

(** The identifiers of the shift table are unique, as its indexes demand. *)
Definition idsUnique (l : list Shift) : Prop := NoDup (map sh_id l) /\ NoDup (map sh_publicId l).

(** The live rows of the schedule are exactly the planner's shifts. *)
Definition RowsAre (tenantId scheduleId : string) (l : list Shift) (m : JsMap string PlannedShift) : Prop :=
  forall k c, (exists s, s ∈ l /\ shiftOfSchedule tenantId scheduleId s = true /\ sh_publicId s = k /\ rowCore s = c)
    <-> plannedCore <$> mapGet m k = Some c.

(** A planned shift names a stored row by both of its identifiers. *)
Definition names (l : list Shift) (before : PlannedShift) : Prop :=
  exists s, s ∈ l /\ ps_internalId before = Some (sh_id s) /\ ps_publicId before = sh_publicId s.

(** Rewriting the one row a planned shift names. *)
Section RewriteRow.
Context (tenantId scheduleId : string) (l : list Shift) (before : PlannedShift) (f : Shift -> Shift).
Context (Hids : idsUnique l) (Hnames : names l before).
Context (Hf : forall s, sh_id (f s) = sh_id s /\ sh_publicId (f s) = sh_publicId s).
Let p := shiftNamed tenantId scheduleId (ps_internalId before).
Let l' := map (fun s => if p s then f s else s) l.

Lemma rewrite_ids : idsUnique l'.
Proof using Hids Hf.
  unfold l'. destruct Hids as [H1 H2]. split; rewrite map_map.
  - erewrite map_ext; [exact H1|]. intros s. destruct (p s); [apply Hf|done].
  - erewrite map_ext; [exact H2|]. intros s. destruct (p s); [apply Hf|done].
Qed.

Lemma rewrite_names b : names l b -> names l' b.
Proof using Hf.
  intros (s & Hs & E1 & E2). exists (if p s then f s else s).
  split; [by apply (list_elem_of_fmap_2 (fun s => if p s then f s else s))|].
  destruct (p s); [|done]. by destruct (Hf s) as [-> ->].
Qed.

(** A live row of the schedule is the named one, or has another public id. *)
Lemma named_iff s : s ∈ l -> shiftOfSchedule tenantId scheduleId s = true ->
  p s = true <-> sh_publicId s = ps_publicId before.
Proof using Hids Hnames.
  destruct Hids as [H1 H2], Hnames as (s0 & Hs0 & E1 & E2). intros Hs Hlive.
  unfold p, shiftNamed. rewrite Hlive, andb_true_r, bool_decide_eq_true, E1, E2. split.
  - intros [= E]. by rewrite (NoDup_map_inj _ _ _ _ H1 Hs Hs0 E).
  - intros E. by rewrite (NoDup_map_inj _ _ _ _ H2 Hs Hs0 E).
Qed.

Lemma rewrite_rows m after :
  RowsAre tenantId scheduleId l m ->
  (forall s, p s = true ->
     match after with
     | Some a => shiftOfSchedule tenantId scheduleId (f s) = true /\ rowCore (f s) = plannedCore a
     | None => shiftOfSchedule tenantId scheduleId (f s) = false
     end) ->
  (exists s, s ∈ l /\ p s = true) ->
  forall m', (forall k, mapGet m' k = if decide (ps_publicId before = k) then after else mapGet m k) ->
  RowsAre tenantId scheduleId l' m'.
Proof using Hids Hnames Hf.
  intros Hrows Hafter (r & Hr & Hpr) m' Hm' k c. rewrite Hm'. unfold l'. split.
  - intros (s' & (s & -> & Hs)%list_elem_of_fmap & Hlive & Hk & Hc).
    destruct (p s) eqn:Ep.
    + destruct (Hf s) as [_ Hpid]. specialize (Hafter s Ep). destruct after as [a|]; [|congruence].
      assert (Hsl : shiftOfSchedule tenantId scheduleId s = true).
      { unfold p, shiftNamed in Ep. by apply andb_true_iff in Ep as [_ ?]. }
      apply named_iff in Ep; [|done..]. rewrite decide_True by congruence.
      destruct Hafter as [_ Hcore]. cbn. congruence.
    + rewrite decide_False.
      * apply Hrows. by exists s.
      * intros E. rewrite <- not_true_iff_false in Ep. apply Ep, named_iff; congruence.
  - case_decide as E.
    + destruct after as [a|]; [|done]. intros [= Hc]. exists (if p r then f r else r).
      split; [by apply (list_elem_of_fmap_2 (fun s => if p s then f s else s))|]. rewrite Hpr.
      destruct (Hafter r Hpr) as [Hlive Hcore]. split; [done|]. split; [|congruence].
      destruct (Hf r) as [_ ->]. rewrite <- E. apply named_iff; [done| |done].
      unfold p, shiftNamed in Hpr. by apply andb_true_iff in Hpr as [_ ?].
    + intros (s & Hs & Hlive & Hk & Hc)%Hrows. exists (if p s then f s else s).
      split; [by apply (list_elem_of_fmap_2 (fun s => if p s then f s else s))|].
      destruct (p s) eqn:Ep; [|done]. apply named_iff in Ep; [|done..]. congruence.
Qed.
End RewriteRow.


Definition RowsSync (tenantId scheduleId : string) (l : list Shift) (m : JsMap string PlannedShift) : Prop :=
  idsUnique l /\ NoDup m.*1 /\ RowsAre tenantId scheduleId l m.

(** What a mutation needs of the rows before it. *)
Definition mutationNamed (l : list Shift) (m : ShiftMutation) : Prop :=
  match m with
  | MutCreate _ _ => True
  | MutUpdate before after => names l before /\ ps_publicId after = ps_publicId before
  | MutDelete before => names l before
  end.

Section Writes.
Context `{Env, Process, AuthorityEnv, Contracts, Collation, LocaleCompare, Sha256}.

Lemma moveBreaks_keep id items u w w' :
  forEach (fun item =>
    translated ← operationsWait (updateMany (breakNamed id item) (moveBreak item));
    oneRow translated "dependent_break_changed"
      "A dependent break changed while the shift was moving. Reload and retry.") items w = (Ok u, w') ->
  db_shifts (w_db w') = db_shifts (w_db w).
Proof.
  revert w. induction items as [|item items IH]; cbn [forEach]; intros w Hr; [by apply Tx_ret_Ok in Hr as [_ <-]|].
  apply Tx_bind_Ok in Hr as (? & w1 & Hmove & Hr). rewrite (IH _ Hr).
  apply Tx_bind_Ok in Hmove as (n & w2 & (w3 & [_ E3]%updateMany_Ok & E2)%operationsWait_Ok & [_ ->]%oneRow_Ok).
  rewrite E2, E3. cbn [rows Table_Break w_db tick]. by destruct (w_db w).
Qed.

(** An update of the one named row. *)
Lemma updateNamed_Ok tenantId scheduleId id f n w w' :
  operationsWait (updateShifts (shiftNamed tenantId scheduleId id) f) w = (Ok n, w') -> n = 1%nat ->
  (exists s, s ∈ db_shifts (w_db w) /\ shiftNamed tenantId scheduleId id s = true) /\
  exists t, db_shifts (w_db w') =
    map (fun s => if shiftNamed tenantId scheduleId id s then f t s else s) (db_shifts (w_db w)).
Proof.
  intros (w1 & [-> (t & E)]%updateShifts_Ok & ->)%operationsWait_Ok. cbn [w_db tick] in *.
  intros Hone%filter_one. split; [done|]. exists t. rewrite E. by destruct (w_db w).
Qed.

Lemma createShift_rows tenantId scheduleId l m s after :
  RowsSync tenantId scheduleId l m -> existsb (conflicts s) l = false ->
  shiftOfSchedule tenantId scheduleId s = true -> sh_publicId s = ps_publicId after ->
  rowCore s = plannedCore after ->
  RowsSync tenantId scheduleId (l ++ [s]) (mapSet m (ps_publicId after) after).
Proof.
  intros ([H1d H2d] & Hd & Hrows) Hc Hlive Hpid Hcore.
  assert (Hfresh : forall x, x ∈ l -> sh_id s <> sh_id x /\ sh_publicId s <> sh_publicId x).
  { intros x Hx. rewrite <- not_true_iff_false, existsb_exists in Hc. cbn in Hc.
    split; intros E; destruct Hc; exists x; (split; [by apply list_elem_of_In|]).
    - by rewrite (bool_decide_true (sh_id s = sh_id x)).
    - rewrite (bool_decide_true (sh_publicId s = sh_publicId x)) by done. apply orb_true_r. }
  split; [|split; [by apply NoDup_mapSet|]].
  - split; rewrite map_app; apply NoDup_app; split_and!; try done; try apply NoDup_singleton;
      intros x Hx Hin; apply list_elem_of_singleton in Hin; subst x;
      apply list_elem_of_In, in_map_iff in Hx as (y & E & Hy%list_elem_of_In); cbn in E;
      destruct (Hfresh y Hy); congruence.
  - intros k c. rewrite mapGet_set. split.
    + intros (x & [Hx|Hx%list_elem_of_singleton]%elem_of_app & Hl & Hk & Hcx).
      * rewrite decide_False; [apply Hrows; by exists x|]. intros E. destruct (Hfresh x Hx). congruence.
      * subst x. rewrite decide_True by congruence. cbn. congruence.
    + case_decide as E.
      * intros [= <-]. exists s. split; [set_solver|]. split_and!; congruence.
      * intros (x & Hx & Hr)%Hrows. exists x. split; [set_solver|done].
Qed.

Lemma applyMutation_rows tenantId schedule deletedAt mut m u w w' :
  applyMutation tenantId schedule deletedAt mut w = (Ok u, w') ->
  mutationNamed (db_shifts (w_db w)) mut ->
  RowsSync tenantId (sc_id schedule) (db_shifts (w_db w)) m ->
  RowsSync tenantId (sc_id schedule) (db_shifts (w_db w')) (applyToMap m mut) /\
  forall b, names (db_shifts (w_db w)) b -> names (db_shifts (w_db w')) b.
Proof.
  intros Hr Hn Hsync. destruct mut as [after c|before after|before]; cbn [applyMutation mutationNamed] in *.
  - apply operationsWait_Ok in Hr as (w1 & Hr & ->).
    apply Tx_bind_Ok in Hr as (id & w2 & [-> ->]%randomUUID_Ok & Hr).
    apply Tx_bind_Ok in Hr as (t & w3 & [-> ->]%now_Ok & [Hc ->]%createRow_Ok).
    cbn [w_db tick rows Table_Shift] in *. set (s := mkShift _ _ _ _ _ _ _ _ _ _ _) in *.
    replace (db_shifts (withRows _ _)) with (db_shifts (w_db w) ++ [s]) by by destruct (w_db w).
    split; [|intros b (x & Hx & Hb); exists x; set_solver].
    apply createShift_rows with (s := s); [done..| |done|done].
    unfold shiftOfSchedule. cbn. by rewrite !bool_decide_true.
  - apply Tx_bind_Ok in Hr as (n & w1 & Hu & Hr). apply Tx_bind_Ok in Hr as (? & w2 & [E1 ->]%oneRow_Ok & Hr).
    destruct (updateNamed_Ok _ _ _ _ _ _ _ Hu E1) as [Hex (t & E)]. rewrite (moveBreaks_keep _ _ _ _ _ Hr), E.
    destruct Hsync as (Hids & Hd & Hrows), Hn as [Hn Hpid].
    split; [|intros b Hb; by apply rewrite_names]. split; [by apply rewrite_ids|].
    split; [by apply applyToMap_NoDup|].
    apply (rewrite_rows tenantId (sc_id schedule) _ before (setPlanned after t) Hids Hn) with (m := m) (after := Some after); try done.
    + intros s Hs. split; [|done]. unfold shiftNamed in Hs. apply andb_true_iff in Hs as [_ Hs]. exact Hs.
    + intros k. by rewrite applyToMap_get.
  - apply Tx_bind_Ok in Hr as (n & w1 & Hu & [E1 ->]%oneRow_Ok).
    destruct (updateNamed_Ok _ _ _ _ _ _ _ Hu E1) as [Hex (t & E)]. rewrite E.
    destruct Hsync as (Hids & Hd & Hrows).
    split; [|intros b Hb; by apply rewrite_names]. split; [by apply rewrite_ids|].
    split; [by apply applyToMap_NoDup|].
    apply (rewrite_rows tenantId (sc_id schedule) _ before (setDeleted deletedAt t) Hids Hn) with (m := m) (after := None); try done.
    + intros s Hs. unfold shiftOfSchedule. cbn. by rewrite !andb_false_r.
    + intros k. by rewrite applyToMap_get.
Qed.
End Writes.

(** ** The input of the plan is read completely *)

Lemma take_all_limit {A} n (l : list A) : (n <? length (take (S n) l))%nat = false -> take (S n) l = l.
Proof. rewrite Nat.ltb_ge, length_take. intros Hn. apply take_ge. lia. Qed.

Lemma userIdOf_elem u : u <> "" -> userIdOf (Some u) = [u].
Proof. intros Hu. unfold userIdOf, isEmpty. by rewrite bool_decide_false. Qed.

Section Input.
Context `{Env, Collation}.

Lemma loadCurrentShifts_Ok tenantId schedule r w w' :
  loadCurrentShifts tenantId schedule w = (Ok r, w') ->
  exists l, r = map (withRelations (w_db w)) l /\
    l ≡ₚ List.filter (shiftOfSchedule tenantId (sc_id schedule)) (db_shifts (w_db w)).
Proof.
  unfold loadCurrentShifts, throwProblemTx. intros (found & w1 & (w2 & Hq & _)%operationsWait_Ok & Hr)%Tx_bind_Ok.
  apply query_Ok in Hq as (_ & db & [= <- <-] & ->). cbn [w_db tick] in Hr |- *.
  rewrite length_map in Hr. destruct (_ <? _)%nat eqn:E; [by apply throwTx_Ok in Hr|].
  apply Tx_ret_Ok in Hr as [<- _]. rewrite take_all_limit by done. eexists. split; [done|]. apply sortBy_perm.
Qed.

Lemma loadExternalShifts_Ok tenantId schedule involved r w w' :
  loadExternalShifts tenantId schedule involved w = (Ok r, w') ->
  forall s u, s ∈ db_shifts (w_db w) -> externalTo tenantId schedule involved s = true ->
    sh_userId s = Some u -> u <> "" ->
    mkExternalShift (sh_id s) u (sh_startTime s) (sh_endTime s) ∈ r.
Proof.
  unfold loadExternalShifts, throwProblemTx. intros (found & w1 & Hf & Hr)%Tx_bind_Ok s u Hs He Hu Hne.
  destruct (_ <? _)%nat eqn:E; [by apply throwTx_Ok in Hr|]. apply Tx_ret_Ok in Hr as [<- _].
  apply list_elem_of_In, in_flat_map. exists s.
  rewrite Hu, userIdOf_elem by done. split; [|by left]. apply list_elem_of_In.
  case_bool_decide as Hi.
  - unfold externalTo in He. rewrite Hi, Hu in He. rewrite !andb_true_iff, bool_decide_eq_true in He. set_solver.
  - apply operationsWait_Ok in Hf as (w2 & Hq & _). apply query_Ok in Hq as (_ & db & [= <- <-] & ->).
    cbn [w_db tick] in E |- *. rewrite take_all_limit by done. apply sortBy_elem.
    apply list_elem_of_In, filter_In. by rewrite <- list_elem_of_In.
Qed.

Lemma loadPlanInput_Ok tenantId schedule operations input w w' :
  loadPlanInput tenantId schedule operations w = (Ok input, w') ->
  in_scheduleStart input = sc_startDate schedule /\ in_scheduleEnd input = sc_endDate schedule /\
  (exists l, in_currentShifts input = map plannedShift (map (withRelations (w_db w)) l) /\
     l ≡ₚ List.filter (shiftOfSchedule tenantId (sc_id schedule)) (db_shifts (w_db w))) /\
  (forall s u, s ∈ db_shifts (w_db w) -> sh_tenantId s = tenantId -> sh_scheduleId s <> Some (sc_id schedule) ->
     sh_deletedAt s = None -> sh_userId s = Some u -> u <> "" -> knownUser input u ->
     sh_startTime s < sc_endDate schedule + 86400000 -> sc_startDate schedule < sh_endTime s ->
     mkExternalShift (sh_id s) u (sh_startTime s) (sh_endTime s) ∈ in_externalShifts input).
Proof.
  unfold loadPlanInput. intros (cur & w1 & Hc & Hr)%Tx_bind_Ok.
  assert (E1 : w_db w1 = w_db w).
  { eapply ReadOnly_Ok, Hc. unfold loadCurrentShifts, throwProblemTx. pose proof findScheduleShifts_ReadOnly. auto with readonly. }
  apply loadCurrentShifts_Ok in Hc as (l & -> & Hp).
  apply Tx_bind_Ok in Hr as (users & w2 & Hu & Hr).
  assert (E2 : w_db w2 = w_db w).
  { rewrite <- E1. eapply ReadOnly_Ok, Hu. unfold loadRequestedUsers. case_bool_decide; auto with readonly. }
  apply Tx_bind_Ok in Hr as (ext & w3 & He & [<- _]%Tx_ret_Ok). cbn.
  split; [done|]. split; [done|]. split; [by exists l|].
  intros s u Hs Ht Hsch Hdel Hus Hne Hknown Hb1 Hb2.
  eapply loadExternalShifts_Ok; [exact He|by rewrite E2| |done..].
  unfold externalTo. rewrite Hus, !bool_decide_true by done. rewrite bool_decide_false by done. cbn [negb andb].
  rewrite bool_decide_true.
  { rewrite (bool_decide_true (sh_deletedAt s = None)) by done. rewrite !andb_true_l.
    apply andb_true_iff. split; apply Z.ltb_lt; lia. }
  apply elem_of_app. destruct Hknown as [(c & Hc & Euc)|(ru & Hru & <-)].
  - left. apply list_elem_of_In, in_flat_map. cbn in Hc.
    apply list_elem_of_fmap in Hc as (row & -> & Hrow). exists row. split; [by apply list_elem_of_In|].
    cbn in Euc. rewrite Euc, userIdOf_elem by done. by left.
  - right. cbn in Hru.
    assert (Hall : Forall (fun r => ru_internalId r ∈ map us_id users)
      (mapValues (mapOf (map (fun u => (us_publicId u, mkResolvedUser (us_id u) (us_publicId u))) users)))).
    { apply mapOf_values, Forall_forall.
      intros x (e & -> & (y & -> & Hy)%list_elem_of_fmap)%list_elem_of_fmap. cbn.
      by apply (list_elem_of_fmap_2 us_id). }
    rewrite Forall_forall in Hall. by apply Hall.
Qed.
End Input.

(** ** The writes realise the plan *)

Section Realised.
Context (db : Db) (tenantId scheduleId : string) (l : list Shift).
Context `{Collation} (Hids : idsUnique (db_shifts db)).
Context (Hl : l ≡ₚ List.filter (shiftOfSchedule tenantId scheduleId) (db_shifts db)).
Let current := map plannedShift (map (withRelations db) l).

Lemma live_elem s : s ∈ l <-> s ∈ db_shifts db /\ shiftOfSchedule tenantId scheduleId s = true.
Proof using Hl. rewrite Hl, list_elem_of_In, filter_In. by rewrite <- list_elem_of_In. Qed.

Lemma NoDup_map_filter {A B} (f : A -> B) (p : A -> bool) (k : list A) :
  NoDup (map f k) -> NoDup (map f (List.filter p k)).
Proof.
  induction k as [|x k IH]; cbn; [done|]. rewrite NoDup_cons. intros [Hx Hk].
  destruct (p x); cbn; [|auto]. apply NoDup_cons. split; [|auto]. intros Hin. apply Hx.
  apply list_elem_of_In, in_map_iff in Hin as (y & <- & [Hy _]%filter_In).
  by apply list_elem_of_In, in_map.
Qed.

Lemma current_keys : map ps_publicId current = map sh_publicId l.
Proof. unfold current. by rewrite !map_map. Qed.

Lemma base_entries : mapOf (shiftEntries current) = shiftEntries current.
Proof using Hids Hl.
  apply mapOf_NoDup. unfold shiftEntries. change ((map ?f ?x).*1) with (map fst (map f x)).
  rewrite map_map. cbn. change (map (fun x => ps_publicId x) current) with (map ps_publicId current).
  rewrite current_keys, Hl. apply NoDup_map_filter, Hids.
Qed.

Lemma base_rows : RowsSync tenantId scheduleId (db_shifts db) (mapOf (shiftEntries current)).
Proof using Hids Hl.
  split; [done|]. split; [apply NoDup_mapOf|]. intros k c. rewrite base_entries.
  assert (Hk : NoDup (shiftEntries current).*1) by (rewrite <- base_entries; apply NoDup_mapOf). split.
  - intros (s & Hs & Hlive & <- & <-). rewrite (proj2 (mapGet_Some _ _ (plannedShift (withRelations db s)) Hk)); [done|].
    unfold shiftEntries, current. apply list_elem_of_In, in_map_iff.
    exists (plannedShift (withRelations db s)). split; [reflexivity|]. apply in_map, in_map, list_elem_of_In, live_elem. done.
  - intros Hm. destruct (mapGet _ k) as [p|] eqn:E; [|done]. injection Hm as <-.
    apply mapGet_Some_elem, list_elem_of_In, in_map_iff in E as (p' & [= <- ->] & Hp).
    apply in_map_iff in Hp as (? & <- & (s & <- & Hs%list_elem_of_In%live_elem)%in_map_iff).
    exists s. tauto.
Qed.

Lemma current_named p : p ∈ current -> names (db_shifts db) p.
Proof using Hl.
  intros (? & -> & (s & -> & Hs%live_elem)%list_elem_of_fmap)%list_elem_of_fmap. exists s. split; [tauto|done].
Qed.
End Realised.

Lemma Pairwise_elem {A} (R : A -> A -> Prop) l x y :
  (forall a b, R a b -> R b a) -> ForallOrdPairs R l -> x ∈ l -> y ∈ l -> x <> y -> R x y.
Proof.
  intros Hsym. induction 1 as [|z l Hz Hl IH]; [set_solver|]. rewrite Forall_forall in Hz.
  intros [->|Hx]%elem_of_cons [->|Hy]%elem_of_cons Hne; auto. done.
Qed.

Section Plan.
Context `{Env, Process, AuthorityEnv, Contracts, Collation, LocaleCompare, Sha256}.

Lemma writeAll_rows tenantId schedule deletedAt ms m u w w' :
  forEach (fun x => operationsWait (applyMutation tenantId schedule deletedAt x)) ms w = (Ok u, w') ->
  Forall (mutationNamed (db_shifts (w_db w))) ms ->
  RowsSync tenantId (sc_id schedule) (db_shifts (w_db w)) m ->
  RowsSync tenantId (sc_id schedule) (db_shifts (w_db w')) (fold_left applyToMap ms m).
Proof.
  revert m w. induction ms as [|x ms IH]; cbn [forEach fold_left]; intros m w Hr Hn Hs;
    [by apply Tx_ret_Ok in Hr as [_ <-]|].
  apply Tx_bind_Ok in Hr as (? & w1 & (w2 & Hx & E1)%operationsWait_Ok & Hr).
  apply Forall_cons in Hn as [Hnx Hn].
  apply (applyMutation_rows _ _ _ _ m) in Hx as [Hs2 Hkeep]; [|done..]. rewrite <- E1 in Hs2, Hkeep.
  eapply IH; [exact Hr| |exact Hs2]. eapply Forall_impl; [exact Hn|].
  intros [after c|b after|b]; cbn; [done| |]; cbn [w_db tick] in Hkeep; naive_solver.
Qed.

Lemma writeMutations_rows tenantId schedule plan m u w w' :
  writeMutations tenantId schedule plan w = (Ok u, w') ->
  Forall (mutationNamed (db_shifts (w_db w))) (mutations plan) ->
  RowsSync tenantId (sc_id schedule) (db_shifts (w_db w)) m ->
  RowsSync tenantId (sc_id schedule) (db_shifts (w_db w')) (fold_left applyToMap (writeOrder (mutations plan)) m).
Proof.
  unfold writeMutations. intros (? & w1 & Hst & Hr)%Tx_bind_Ok Hn Hs.
  apply (ReadOnly_Ok _ _ _ _ (ReadOnly_wait _ statement_ReadOnly)) in Hst.
  apply Tx_bind_Ok in Hr as (t & w2 & [-> ->]%now_Ok & Hr). cbn [w_db tick] in *.
  eapply writeAll_rows; [exact Hr| |]; cbn [w_db tick]; rewrite Hst; [|done].
  by rewrite writeOrder_perm.
Qed.
End Plan.

(** The rows after the writes are the planned final schedule. *)
Definition StoresPlan (tenantId scheduleId : string) (l : list Shift) (plan : ChangeSetPlan) : Prop :=
  forall k c, (exists s, s ∈ l /\ shiftOfSchedule tenantId scheduleId s = true /\ sh_publicId s = k /\ rowCore s = c)
    <-> exists a, a ∈ finalShifts plan /\ ps_publicId a = k /\ plannedCore a = c.

Lemma shiftContent_core a b : shiftContent a = shiftContent b -> plannedCore a = plannedCore b.
Proof. unfold shiftContent, plannedCore. intros [= _ _ -> -> -> -> _]. done. Qed.

Lemma stores_plan `{LocaleCompare} idFactory input plan tenantId scheduleId l :
  planScheduleChangeSet idFactory input = Ok plan ->
  (forall n m, idFactory n = idFactory m -> n = m) ->
  (forall n, idFactory n ∉ map ps_publicId (in_currentShifts input)) ->
  RowsAre tenantId scheduleId l (fold_left applyToMap (writeOrder (mutations plan))
    (mapOf (shiftEntries (in_currentShifts input)))) ->
  StoresPlan tenantId scheduleId l plan.
Proof.
  intros Hp Hinj Hfr Hrows. destruct (plan_realise_spec _ _ _ Hp Hinj Hfr) as [Hin Hout].
  intros k c. rewrite (Hrows k c). split.
  - intros Hg. destruct (decide (k ∈ map ps_publicId (finalShifts plan))) as [Hk|Hk]; [|by rewrite (Hout k Hk) in Hg].
    apply list_elem_of_In, in_map_iff in Hk as (a & <- & Ha%list_elem_of_In). specialize (Hin a Ha).
    exists a. split; [done|]. split; [done|]. destruct (mapGet _ _) as [b|]; [|done].
    injection Hg as <-. symmetry. apply shiftContent_core, (inj Some), Hin.
  - intros (a & Ha & <- & <-). specialize (Hin a Ha). destruct (mapGet _ _) as [b|]; [|done]. cbn.
    f_equal. apply shiftContent_core, (inj Some), Hin.
Qed.

Section Booking.
Context `{Env, Process, AuthorityEnv, Contracts, Collation, LocaleCompare, Sha256}.

(** Everything a written change set establishes, before the planner's
    guarantees are used. *)
Record Applied (tenantId publicId : string) (db db' : Db) : Prop := mkApplied {
  ap_made : exists schedule ids input plan,
    schedule ∈ db_schedules db /\ wantedSchedule tenantId publicId schedule = true /\
    planScheduleChangeSet ids input = Ok plan /\
    in_scheduleStart input = sc_startDate schedule /\ in_scheduleEnd input = sc_endDate schedule /\
    (forall s u, s ∈ db_shifts db -> sh_tenantId s = tenantId -> sh_scheduleId s <> Some (sc_id schedule) ->
       sh_deletedAt s = None -> sh_userId s = Some u -> u <> "" -> knownUser input u ->
       sh_startTime s < sc_endDate schedule + 86400000 -> sc_startDate schedule < sh_endTime s ->
       mkExternalShift (sh_id s) u (sh_startTime s) (sh_endTime s) ∈ in_externalShifts input) /\
    StoresPlan tenantId (sc_id schedule) (db_shifts db') plan /\
    idsUnique (db_shifts db') /\
    (forall s, s ∈ db_shifts db' -> inSchedule tenantId (sc_id schedule) s = false -> s ∈ db_shifts db)
}.

Lemma applyToDraft_applied identity publicId operations base keyHash hash metadata r w w' :
  applyToDraft identity publicId operations base keyHash hash metadata w = (Ok r, w') ->
  idsUnique (db_shifts (w_db w)) ->
  (forall n m, uuidAt n = uuidAt m -> n = m) ->
  (forall n, uuidAt n ∉ map sh_publicId (db_shifts (w_db w))) ->
  Applied (si_tenantId identity) publicId (w_db w) (w_db w').
Proof.
  intros (run & c & audit & _ & _ & E)%applyToDraft_Ok Hids Hinj Hfr. cbv zeta in E.
  destruct run as [locked plan wi wp w0 w1 E0 (input & Hi & Hp) Hm Hin Hw Hst Hrev].
  cbn [run_written run_locked] in *. set (tid := si_tenantId identity) in *.
  assert (Edb : db_shifts (w_db w') = db_shifts (w_db w1)) by (rewrite E; by destruct (w_db w1)).
  pose proof (loadPlanInput_Ok _ _ _ _ _ _ Hi) as (Es & Ee & (l & El & Hl) & Hext). rewrite E0 in *.
  apply (ReadOnly_Ok _ _ _ _ (loadPlanInput_ReadOnly _ _ _)) in Hi.
  unfold planTx in Hp. injection Hp as Hp <-.
  assert (Ew : w_db wp = w_db w) by congruence.
  pose proof (writeMutations_steps _ _ _ _ _ _ Hm) as [_ Hout]. cbn [w_db] in Hout. rewrite Ew in Hout.
  pose proof (plan_origin _ _ _ Hp) as [Hor _].
  apply (writeMutations_rows _ _ _ (mapOf (shiftEntries (in_currentShifts input)))) in Hm; cbn [w_db]; rewrite ?Ew.
  - destruct Hm as (Hids' & _ & Hrows). split.
    exists (lk_row locked), (fun n => uuidAt (w_tick wp + n)), input, plan. rewrite Edb.
    split; [done|]. split; [done|]. split; [done|]. split; [done|]. split; [done|]. split; [exact Hext|].
    split; [|split; [exact Hids'|]].
    + eapply stores_plan; [exact Hp| | |exact Hrows].
      * intros n m E1%Hinj. lia.
      * intros n Hn. apply (Hfr (w_tick wp + n)%nat). rewrite El, current_keys in Hn.
        apply list_elem_of_In, in_map_iff in Hn as (s & Es' & Hs%list_elem_of_In).
        apply (live_elem _ _ _ _ Hl) in Hs as [Hs _]. rewrite <- Es'.
        apply list_elem_of_In, in_map. by apply list_elem_of_In.
    + intros s Hs Hout1. assert (Hf : In s (List.filter (fun s => negb (inSchedule tid (sc_id (lk_row locked)) s))
        (db_shifts (w_db w1)))) by (apply filter_In; rewrite <- list_elem_of_In; by rewrite Hout1).
      rewrite Hout in Hf. apply filter_In in Hf as [Hf _]. by apply list_elem_of_In.
  - eapply Forall_impl; [exact Hor|].
    intros [after cl|before after|before]; cbn; rewrite ?El; [done| |].
    + intros [Hb Hid]. split; [by eapply current_named|done].
    + intros Hb. by eapply current_named.
  - rewrite El. by apply base_rows.
Qed.
End Booking.

(** ** No one is booked twice *)

Definition shiftWindow (s : Shift) : Z * Z := (sh_startTime s, sh_endTime s).

(** The shift starts in the schedule and is longer than nothing and no longer
    than a day. *)
Definition windowInside (schedule : Schedule) (s : Shift) : Prop :=
  sh_startTime s < sh_endTime s <= sh_startTime s + 86400000 /\
  sc_startDate schedule <= sh_startTime s < sc_endDate schedule.

Lemma overlaps_apart ls le rs re : overlaps ls le rs re = false -> windowsApart (ls, le) (rs, re).
Proof. unfold overlaps, windowsApart. cbn. intros [?|?]%andb_false_iff; bool_lia. Qed.

Section NoDoubleBooking.
Context `{LC : LocaleCompare, !LocaleCompareLaws LC}.
Context (tenantId scheduleId : string) (db' : Db) (plan : ChangeSetPlan).
Context (Hstores : StoresPlan tenantId scheduleId (db_shifts db') plan).

Lemma stored_planned s : s ∈ db_shifts db' -> shiftOfSchedule tenantId scheduleId s = true ->
  exists a, a ∈ finalShifts plan /\ ps_publicId a = sh_publicId s /\ plannedCore a = rowCore s.
Proof using Hstores. intros Hs Hl. apply Hstores. by exists s. Qed.

(** Two live shifts of the schedule, by the planner's pairwise check. *)
Lemma inside_apart input ids s s2 u :
  planScheduleChangeSet ids input = Ok plan -> idsUnique (db_shifts db') ->
  s ∈ db_shifts db' -> s2 ∈ db_shifts db' ->
  shiftOfSchedule tenantId scheduleId s = true -> shiftOfSchedule tenantId scheduleId s2 = true ->
  sh_id s2 <> sh_id s -> sh_userId s = Some u -> sh_userId s2 = Some u -> u <> "" ->
  windowsApart (shiftWindow s) (shiftWindow s2).
Proof using Hstores LocaleCompareLaws0.
  intros Hp [_ Hd] Hs Hs2 Hl Hl2 Hne Hu Hu2 Hu0.
  destruct (stored_planned s Hs Hl) as (a & Ha & Eia & [= Ea1 Ea2 Ea3 _]).
  destruct (stored_planned s2 Hs2 Hl2) as (b & Hb & Eib & [= Eb1 Eb2 Eb3 _]).
  destruct (plan_overlap_spec _ _ _ Hp) as (_ & Hpair & _).
  assert (Hab : a <> b).
  { intros ->. apply Hne. f_equal. eapply NoDup_map_inj; [exact Hd|done..|]. congruence. }
  apply (Pairwise_elem _ _ a b) in Hpair; [|intros x y Hxy H1 H2; by apply separate_sym, Hxy|done..].
  unfold ChangeSetPlan.isAssigned, isEmpty in Hpair. rewrite Ea1, Eb1, Hu, Hu2, bool_decide_false in Hpair by done.
  specialize (Hpair eq_refl eq_refl). unfold separate, shiftsOverlap in Hpair.
  rewrite Ea1, Eb1, Ea2, Ea3, Eb2, Eb3, Hu, Hu2 in Hpair. by apply overlaps_apart, Hpair.
Qed.

(** A live shift of the schedule and one outside it.  The rows the service
    reads are those that could meet the schedule at all. *)
Lemma outside_apart input ids schedule s s2 u :
  planScheduleChangeSet ids input = Ok plan ->
  in_scheduleStart input = sc_startDate schedule -> in_scheduleEnd input = sc_endDate schedule ->
  (knownUser input u ->
   sh_startTime s2 < sc_endDate schedule + 86400000 -> sc_startDate schedule < sh_endTime s2 ->
   mkExternalShift (sh_id s2) u (sh_startTime s2) (sh_endTime s2) ∈ in_externalShifts input) ->
  s ∈ db_shifts db' -> shiftOfSchedule tenantId scheduleId s = true ->
  sh_userId s = Some u -> u <> "" ->
  windowInside schedule s /\ windowsApart (shiftWindow s) (shiftWindow s2).
Proof using Hstores LocaleCompareLaws0.
  intros Hp Es Ee Hext Hs Hl Hu Hu0.
  destruct (stored_planned s Hs Hl) as (a & Ha & _ & [= Ea1 Ea2 Ea3 _]).
  destruct (plan_overlap_spec _ _ _ Hp) as (Hwin & _ & Hx). rewrite Forall_forall in Hwin.
  specialize (Hwin a Ha). unfold validWindow in Hwin. rewrite Es, Ee, Ea2, Ea3 in Hwin. split; [exact Hwin|].
  destruct (decide (sh_startTime s2 < sc_endDate schedule + 86400000)); [|left; cbn; lia].
  destruct (decide (sc_startDate schedule < sh_endTime s2)); [|right; cbn; lia].
  destruct (plan_origin _ _ _ Hp) as [_ Hknown]. rewrite Forall_forall in Hknown.
  assert (Hk : knownUser input u) by (apply (Hknown a Ha); congruence).
  unfold ChangeSetPlan.isAssigned, isEmpty in Hx. specialize (Hx a (mkExternalShift (sh_id s2) u (sh_startTime s2) (sh_endTime s2)) Ha).
  rewrite Ea1, Hu, bool_decide_false in Hx by done.
  specialize (Hx eq_refl (Hext Hk l l0) eq_refl). cbn in Hx. rewrite Ea2, Ea3 in Hx. by apply overlaps_apart.
Qed.
End NoDoubleBooking.

Lemma shiftOfSchedule_iff tenantId scheduleId s :
  shiftOfSchedule tenantId scheduleId s = true <->
  sh_tenantId s = tenantId /\ sh_scheduleId s = Some scheduleId /\ sh_deletedAt s = None.
Proof. unfold shiftOfSchedule. rewrite !andb_true_iff, !bool_decide_eq_true. tauto. Qed.

(** C1: No one is booked twice.  After a change set has been written, in the
    database itself: every live shift of the schedule has a valid window (at
    most a day, starting inside the schedule), and no live shift of the tenant,
    in this schedule, in another one or in none, overlaps a live shift of this
    schedule assigned to the same person.  The planner checks neighbours in a
    sorted list, and the service loads only nearby shifts of the people
    involved, at most 10000; both are shown to be enough. *)
Theorem apply_no_double_booking `{Env, Process, AuthorityEnv, Contracts, Collation, LC : LocaleCompare, Sha256}
    `{!LocaleCompareLaws LC} identity publicId operations headers metadata r w w' :
  apply identity publicId operations headers metadata w = (Ok r, w') -> w_db w' <> w_db w ->
  idsUnique (db_shifts (w_db w)) ->
  (forall n m, uuidAt n = uuidAt m -> n = m) ->
  (forall n, uuidAt n ∉ map sh_publicId (db_shifts (w_db w))) ->
  let tenantId := trim (si_tenantId identity) in
  exists schedule, schedule ∈ db_schedules (w_db w) /\ wantedSchedule tenantId publicId schedule = true /\
    forall s, s ∈ db_shifts (w_db w') -> shiftOfSchedule tenantId (sc_id schedule) s = true ->
      windowInside schedule s /\
      forall s2 u, s2 ∈ db_shifts (w_db w') -> sh_tenantId s2 = tenantId -> sh_deletedAt s2 = None ->
        sh_id s2 <> sh_id s -> sh_userId s = Some u -> sh_userId s2 = Some u -> u <> "" ->
        windowsApart (shiftWindow s) (shiftWindow s2).
Proof.
  intros Ha Hne Hids Hinj Hfr tenantId.
  apply apply_Ok in Ha as (base & key & _ & _ & _ & current & w1 & w2 & Ht & E1 & E2 & Hr).
  apply replayOr_Ok in Hr as [[E _]|(_ & w3 & E3 & Hr)]; [congruence|].
  assert (Ew : w_db w3 = w_db w) by congruence.
  apply applyToDraft_applied in Hr as [(schedule & ids & input & plan & Hin & Hw & Hp & Es & Ee & Hext & Hst & Hu & Hold)];
    rewrite ?Ew; [|done..].
  rewrite Ht, Ew, <- E2 in *. fold tenantId in Hw, Hext, Hst, Hold |- *. exists schedule. split; [done|]. split; [done|].
  intros s Hs Hl. destruct (stored_planned _ _ _ _ Hst s Hs Hl) as (a & Haf & _ & [= Ea1 Ea2 Ea3 _]). split.
  - destruct (plan_overlap_spec _ _ _ Hp) as (Hwin & _). rewrite Forall_forall in Hwin.
    specialize (Hwin a Haf). unfold validWindow in Hwin. by rewrite Es, Ee, Ea2, Ea3 in Hwin.
  - intros s2 u Hs2 Ht2 Hdel Hid Hus Hus2 Hu0.
    destruct (decide (sh_scheduleId s2 = Some (sc_id schedule))) as [Esch|Esch].
    + eapply inside_apart; [exact Hst|exact Hp|done..| |done|done|done|done]. by apply shiftOfSchedule_iff.
    + eapply (outside_apart _ _ _ _ Hst input ids schedule s s2 u); try done. intros Hk Hb1 Hb2.
      apply Hext; try done. apply Hold; [done|]. unfold inSchedule.
      by rewrite (bool_decide_false (sh_scheduleId s2 = _)), andb_false_r.
Qed.

(** ** A concrete instance *)

Lemma calm_ids_inj t n m : @uuidAt (calm t) n = @uuidAt (calm t) m -> n = m.
Proof.
  cbn. intros E. apply sampleIds_inj. unfold sampleIds. f_equal. by apply (inj (String.app "id")) in E.
Qed.

Lemma apply_no_double_booking_witness :
  exists schedule, schedule ∈ db_schedules (sampleScheduleDb DRAFT) /\
    wantedSchedule "t1" sampleScheduleId schedule = true /\
    forall s, s ∈ db_shifts sampleAppliedDb -> shiftOfSchedule "t1" (sc_id schedule) s = true ->
      windowInside schedule s /\
      forall s2 u, s2 ∈ db_shifts sampleAppliedDb -> sh_tenantId s2 = "t1" -> sh_deletedAt s2 = None ->
        sh_id s2 <> sh_id s -> sh_userId s = Some u -> sh_userId s2 = Some u -> u <> "" ->
        windowsApart (shiftWindow s) (shiftWindow s2).
Proof.
  refine (@apply_no_double_booking (calm 1772409600000) noBeta (actingAs sampleManager) allContracts
    codeUnitOrder codeUnitCollation plainDigest codeUnitCollation_laws sampleManager sampleScheduleId
    sampleOperations (sampleHeaders "key-00001") (mkMetadata None None) sampleResponse
    (mkWorld (sampleScheduleDb DRAFT) 0) sampleApplied.2 _ _ _ _ _).
  - vm_compute. reflexivity.
  - intros E. apply (f_equal (fun db => map sc_revision (db_schedules db))) in E. vm_compute in E. discriminate E.
  - split; apply (bool_decide_unpack _); vm_compute; exact I.
  - apply calm_ids_inj.
  - intros n. cbn. rewrite !not_elem_of_cons. split; [discriminate|]. split; [discriminate|apply not_elem_of_nil].
Defined.
