(* ===== verification/LunchBreakStore.v ===== *)
(** * What the lunch and break writes share

    The database side of apps/api-v2/src/operations/lunch-breaks.service.ts
    that its handlers have in common: the selected shift with its relations,
    the stored policy, the draft guard and the revisions of the schedules a
    write touches, the receipt of an idempotent operation in the audit log. *)

From S2P Require Import Prelude JsStd JsCollections JsDate ContractHelpers LunchBreakPolicy.
From S2P Require Import LunchBreakPlacement LunchBreaks PayrollRecords Database.
From S2P Require Import FeatureEntitlement Authority.
From S2P Require Import ScheduleStore.

(** ** The selected shift *)

Record InternalShift := mkInternal {
  is_row : Shift;
  is_locationPublicId : string;
  is_schedule : option Schedule;
  is_user : option User;
  is_breaks : list BreakRow;
}.

Definition problem {A} (st : Z) (cd dt tt : string) : Tx A := throwProblemTx st cd dt tt.

Definition userOfShift (db : Db) (s : Shift) : option User :=
  u ← sh_userId s;
  List.find (fun user => bool_decide (us_id user = u) && bool_decide (us_tenantId user = sh_tenantId s))
    (db_users db).
Definition scheduleOfShift (db : Db) (s : Shift) : option Schedule :=
  i ← sh_scheduleId s;
  List.find (fun r => bool_decide (sc_id r = i) && bool_decide (sc_tenantId r = sh_tenantId s)) (db_schedules db).
Definition locationOfShift (db : Db) (s : Shift) : option Location :=
  List.find (fun l => bool_decide (lo_id l = sh_locationId s) && bool_decide (lo_tenantId l = sh_tenantId s))
    (db_locations db).

(** [SCHEDULABLE_SHIFT_USER_FILTER] *)
Definition schedulableUser (u : User) : bool :=
  bool_decide (us_role u ∈ ["MANAGER"; "STAFF"]) && bool_decide (us_deletedAt u = None)
  && bool_decide (us_suspendedAt u = None).
Definition schedulableShift (db : Db) (s : Shift) : bool :=
  match sh_userId s with
  | None => true
  | Some _ => match userOfShift db s with Some u => schedulableUser u | None => false end
  end.

(** [location: { is: { publicId, deletedAt: null } }] *)
Definition atLiveLocation (db : Db) (publicId : string) (s : Shift) : bool :=
  match locationOfShift db s with
  | Some l => bool_decide (lo_publicId l = lowerText publicId) && bool_decide (lo_deletedAt l = None)
  | None => false
  end.

Definition storedBreak (b : BreakRow) : StoredBreak :=
  LunchBreaks.mkStored (br_id b) (br_type b) (br_startTime b) (br_endTime b) (br_paid b).

(** ** JSON forms *)

Definition breakEntryJson (e : BreakEntry) : Json :=
  JObj [field "type" (JStr (breakTypeText (be_type e))); field "startTime" (JStr (be_startTime e));
        field "endTime" (JStr (be_endTime e)); field "durationMinutes" (JNum (be_durationMinutes e));
        field "paid" (JBool (be_paid e))].

Definition rowJson (r : LunchBreakRow) : Json :=
  JObj [field "shiftId" (orJNull (lr_shiftId r)); field "userId" (orJNull (lr_userId r));
        field "employeeName" (orJNull (lr_employeeName r)); field "startTime" (JStr (lr_startTime r));
        field "endTime" (JStr (lr_endTime r)); field "breaks" (JArr (map breakEntryJson (lr_breaks r)))].

Definition policyJson (p : LunchBreakPolicy) : Json :=
  JObj [field "break1OffsetMinutes" (JNum (break1OffsetMinutes p));
        field "lunchOffsetMinutes" (JNum (lunchOffsetMinutes p));
        field "break2OffsetMinutes" (JNum (break2OffsetMinutes p));
        field "break1DurationMinutes" (JNum (break1DurationMinutes p));
        field "lunchDurationMinutes" (JNum (lunchDurationMinutes p));
        field "break2DurationMinutes" (JNum (break2DurationMinutes p));
        field "timeStepMinutes" (JNum (timeStepMinutes p))].

(** A stored value as [Number(value)] sees it. *)
Fixpoint unknownOf (v : Json) : Unknown :=
  match v with
  | JNull => UNull
  | JBool b => UBool b
  | JNum n => UNumber (QArith_base.inject_Z n)
  | JStr s => UString s
  | JArr l => UArray (map unknownOf l)
  | JObj _ => UObject
  end.

Definition policyValueOf (value : Json) : PolicyValue :=
  let p k := match prop k value with Some v => unknownOf v | None => UUndefined end in
  mkPolicyValue (p "break1OffsetMinutes") (p "lunchOffsetMinutes") (p "break2OffsetMinutes")
    (p "break1DurationMinutes") (p "lunchDurationMinutes") (p "break2DurationMinutes") (p "timeStepMinutes").

Definition serializeLunchBreakRow `{LocaleCompare} (shift : InternalShift) : Result LunchBreakRow :=
  breaks ← serializeBreaks (map storedBreak (is_breaks shift));
  Ok (mkRow (Some (sh_publicId (is_row shift))) (us_publicId <$> is_user shift)
        (match is_user shift with Some u => if isEmpty (us_name u) then None else Some (us_name u) | None => None end)
        (toISOString (sh_startTime (is_row shift))) (toISOString (sh_endTime (is_row shift))) breaks).

(** [`${namespace}:${tenantId}:${key}`] *)
Definition canonicalIdempotencyOperation `{Sha256} (namespace tenantId key : string) : string :=
  sha256 (namespace +:+ ":" +:+ tenantId +:+ ":" +:+ key).

(** [[...new Set(ids.filter(Boolean))]] *)
Fixpoint dedupe (ids : list string) : list string :=
  match ids with
  | [] => []
  | i :: rest => if bool_decide (i ∈ rest) then dedupe rest else i :: dedupe rest
  end.
Definition scheduleIdSet (ids : list (option string)) : list string :=
  dedupe (flat_map (fun i => match i with Some s => if isEmpty s then [] else [s] | None => [] end) ids).

Section Store.
Context `{Env, Collation}.

(** The relations of a selected shift, its breaks in order of start. *)
Definition breakAsc (l r : BreakRow) : Z := orElse (br_startTime l - br_startTime r) (collate (br_id l) (br_id r)).
Definition internalShift (db : Db) (s : Shift) : InternalShift :=
  mkInternal s (match locationOfShift db s with Some l => lo_publicId l | None => "" end)
    (scheduleOfShift db s) (userOfShift db s)
    (sortBy breakAsc (List.filter (fun b => bool_decide (br_shiftId b = sh_id s)) (db_breaks db))).

(** [findFirst] and [findMany] on shifts with [internalShiftSelect]. *)
Definition findShift (p : Db -> Shift -> bool) : Tx (option InternalShift) :=
  query (fun db => Ok (internalShift db <$> List.find (p db) (db_shifts db), db)).
Definition findShifts (p : Db -> Shift -> bool) : Tx (list InternalShift) :=
  query (fun db => Ok (map (internalShift db) (List.filter (p db) (db_shifts db)), db)).

Definition readPolicy (tenantId : string) : Tx LunchBreakPolicy :=
  setting ← operationsWait (findSetting tenantId "lunch_break_policy");
  mret match setting with
       | Some s => if isObject (ts_value s) then normalizePolicy (policyValueOf (ts_value s)) else DEFAULT_POLICY
       | None => DEFAULT_POLICY
       end.

(** Schedules of the tenant among the identifiers. *)
Definition amongSchedules (tenantId : string) (ids : list string) (s : Schedule) : bool :=
  bool_decide (sc_tenantId s = tenantId) && bool_decide (sc_id s ∈ ids).

Definition assertDraftSchedules (tenantId : string) (scheduleIds : list (option string)) : Tx unit :=
  let ids := scheduleIdSet scheduleIds in
  if bool_decide (ids = []) then mret tt else
  found ← operationsWait (findMany (amongSchedules tenantId ids));
  if negb (length found =? length ids)%nat
     || existsb (fun s => negb (bool_decide (sc_status s = DRAFT))) found then
    problem 409 "schedule_locked"
      "Published schedules are locked. Reopen the schedule before changing lunch and breaks." "Schedule locked"
  else mret tt.

Definition liveDraftAmong (tenantId : string) (ids : list string) (s : Schedule) : bool :=
  amongSchedules tenantId ids s && bool_decide (sc_status s = DRAFT) && bool_decide (sc_deletedAt s = None).

Definition nextRevision (s : Schedule) : Schedule :=
  mkSchedule (sc_id s) (sc_publicId s) (sc_tenantId s) (sc_locationId s) (sc_startDate s) (sc_endDate s)
    (sc_status s) (sc_publishedAt s) (sc_revision s + 1) (sc_deletedAt s).

Definition incrementDraftRevisions (tenantId : string) (scheduleIds : list (option string)) : Tx unit :=
  let ids := scheduleIdSet scheduleIds in
  if bool_decide (ids = []) then mret tt else
  count ← operationsWait (updateMany (liveDraftAmong tenantId ids) nextRevision);
  if negb (count =? length ids)%nat then
    problem 409 "concurrent_change"
      "A draft schedule changed while lunch and breaks were being saved. Reload and retry." "Concurrent change"
  else mret tt.

(** *** Receipts *)

Definition receiptOf (tenantId action resource operationId : string) (a : AuditLog) : bool :=
  bool_decide (al_tenantId a = tenantId) && bool_decide (al_action a = action)
  && bool_decide (al_resource a = resource) && bool_decide (al_resourceId a = Some operationId).

(** The stored response of a receipt whose request is this one; [readable]
    is what the handler asks of the response. *)
Definition findReceipt (tenantId action resource operationId bodyHash unavailable conflict : string)
    (readable : Json -> bool) : Tx (option Json) :=
  found ← operationsWait (findFirst (receiptOf tenantId action resource operationId));
  match found with
  | None => mret None
  | Some stored =>
      match al_newValue stored with
      | Some (JObj es) =>
          match prop "response" (JObj es) with
          | Some response =>
              if negb (textIs (prop "requestHash" (JObj es)) bodyHash) || negb (isObject response)
                 || negb (readable response)
              then problem 409 "idempotency_conflict" conflict "Conflict"
              else mret (Some response)
          | None => problem 409 "idempotency_conflict" conflict "Conflict"
          end
      | _ => problem 409 "idempotency_conflict" unavailable "Conflict"
      end
  end.

Definition receiptValue (bodyHash : string) (response : Json) : Json :=
  JObj [field "requestHash" (JStr bodyHash); field "response" response].

Definition receipt (id action resource operationId bodyHash : string) (identity : SessionIdentity)
    (response : Json) : AuditLog :=
  mkAudit id (si_tenantId identity) (Some (si_sub identity)) action resource (Some operationId) None
    (Some (receiptValue bodyHash response)) None None.
End Store.

(** ** Facts *)

Section StoreFacts.
Context `{Env, Collation}.

Lemma findShift_Ok p r w w' : findShift p w = (Ok r, w') ->
  w_db w' = w_db w /\ r = internalShift (w_db w) <$> List.find (p (w_db w)) (db_shifts (w_db w)).
Proof. intros (_ & db & [= <- <-] & ->)%query_Ok. done. Qed.

Lemma findShifts_Ok p r w w' : findShifts p w = (Ok r, w') ->
  w_db w' = w_db w /\ r = map (internalShift (w_db w)) (List.filter (p (w_db w)) (db_shifts (w_db w))).
Proof. intros (_ & db & [= <- <-] & ->)%query_Ok. done. Qed.

Lemma DEFAULT_POLICY_valid : validPolicy DEFAULT_POLICY.
Proof. split; cbn; lia. Qed.

Lemma normalizePolicy_validPolicy value : validPolicy (normalizePolicy value).
Proof. split; apply integer_range; cbn; lia. Qed.

Lemma readPolicy_Ok tenantId p w w' :
  readPolicy tenantId w = (Ok p, w') -> w_db w' = w_db w /\ validPolicy p.
Proof.
  unfold readPolicy. intros (s & w1 & (w2 & [_ E2]%findFirst_Ok & E1)%operationsWait_Ok & [<- <-]%Tx_ret_Ok)%Tx_bind_Ok.
  split; [cbn in E2; congruence|]. destruct s as [s|]; [|apply DEFAULT_POLICY_valid].
  destruct (isObject _); [apply normalizePolicy_validPolicy|apply DEFAULT_POLICY_valid].
Qed.

Lemma assertDraftSchedules_ReadOnly tenantId ids : ReadOnly (assertDraftSchedules tenantId ids).
Proof.
  unfold assertDraftSchedules, problem, throwProblemTx. case_bool_decide; [auto with readonly|].
  apply ReadOnly_bind; [auto with readonly|]. intros found. destruct (_ || _); auto with readonly.
Qed.

(** Every schedule named is a draft of the tenant. *)
Lemma assertDraftSchedules_Ok tenantId ids u w w' :
  assertDraftSchedules tenantId ids w = (Ok u, w') ->
  forall s, s ∈ db_schedules (w_db w) -> sc_tenantId s = tenantId -> sc_id s ∈ scheduleIdSet ids -> sc_status s = DRAFT.
Proof.
  unfold assertDraftSchedules, problem, throwProblemTx. case_bool_decide as E; [rewrite E; set_solver|].
  intros (found & w1 & (w2 & [-> _]%findMany_Ok & _)%operationsWait_Ok & Hr)%Tx_bind_Ok s Hs Ht Hi.
  destruct (_ || _) eqn:Eb; [by apply throwTx_Ok in Hr|]. apply orb_false_iff in Eb as [_ Eb].
  destruct (decide (sc_status s = DRAFT)); [done|]. exfalso. rewrite <- not_true_iff_false, existsb_exists in Eb.
  apply Eb. exists s. split; [|by rewrite bool_decide_false].
  apply filter_In. cbn. split; [by apply list_elem_of_In|]. unfold amongSchedules. by rewrite !bool_decide_true.
Qed.

Lemma incrementDraftRevisions_Ok tenantId ids u w w' :
  incrementDraftRevisions tenantId ids w = (Ok u, w') ->
  w_db w' = withRows (map (fun s => if liveDraftAmong tenantId (scheduleIdSet ids) s then nextRevision s else s)
               (db_schedules (w_db w))) (w_db w).
Proof.
  unfold incrementDraftRevisions, problem, throwProblemTx. case_bool_decide as E.
  - intros [_ <-]%Tx_ret_Ok. rewrite E. rewrite (map_ext _ id); [rewrite map_id; by destruct (w_db w)|].
    intros s. unfold liveDraftAmong, amongSchedules. rewrite (bool_decide_false (sc_id s ∈ [])) by set_solver.
    by rewrite andb_false_r.
  - intros (n & w1 & (w2 & [-> E2]%updateMany_Ok & E1)%operationsWait_Ok & Hr)%Tx_bind_Ok.
    destruct (negb _); [by apply throwTx_Ok in Hr|]. apply Tx_ret_Ok in Hr as [_ <-].
    cbn [w_db tick rows Table_Schedule] in *. congruence.
Qed.

Lemma findReceipt_ReadOnly tenantId action resource operationId bodyHash un cf readable :
  ReadOnly (findReceipt tenantId action resource operationId bodyHash un cf readable).
Proof.
  unfold findReceipt, problem, throwProblemTx. apply ReadOnly_bind; [auto with readonly|]. intros [stored|]; [|auto with readonly].
  destruct (al_newValue stored) as [[]|]; auto with readonly. destruct (prop _ _); auto with readonly.
Qed.

(** A receipt that answers a request. *)
Definition answers (bodyHash : string) (response : Json) (a : AuditLog) : Prop :=
  exists es, al_newValue a = Some (JObj es) /\ prop "response" (JObj es) = Some response /\
    textIs (prop "requestHash" (JObj es)) bodyHash = true.

Lemma findReceipt_Ok tenantId action resource operationId bodyHash un cf readable r w w' :
  findReceipt tenantId action resource operationId bodyHash un cf readable w = (Ok r, w') ->
  match List.find (receiptOf tenantId action resource operationId) (db_audits (w_db w)) with
  | None => r = None
  | Some a => exists response, r = Some response /\ answers bodyHash response a
  end.
Proof.
  unfold findReceipt, problem, throwProblemTx.
  intros (found & w1 & (w2 & [-> _]%findFirst_Ok & _)%operationsWait_Ok & Hr)%Tx_bind_Ok.
  cbn [w_db tick rows Table_Audit] in Hr. destruct (List.find _ _) as [a|]; [|by apply Tx_ret_Ok in Hr as [<- _]].
  destruct (al_newValue a) as [[]|] eqn:Ev; try (by apply throwTx_Ok in Hr).
  destruct (prop "response" _) as [response|] eqn:Er; [|by apply throwTx_Ok in Hr].
  destruct (_ || _) eqn:Eb in Hr; [by apply throwTx_Ok in Hr|]. apply Tx_ret_Ok in Hr as [<- _].
  apply orb_false_iff in Eb as [[Eb _]%orb_false_iff _]. apply negb_false_iff in Eb.
  exists response. split; [done|]. by exists entries.
Qed.
End StoreFacts.

Lemma receipt_answers bodyHash response id action resource operationId identity :
  answers bodyHash response (receipt id action resource operationId bodyHash identity response).
Proof. eexists. split; [done|]. split; [done|]. by apply bool_decide_eq_true_2. Qed.

Lemma receipt_found tenantId id action resource operationId bodyHash identity response l :
  List.find (receiptOf tenantId action resource operationId) l = None -> si_tenantId identity = tenantId ->
  List.find (receiptOf tenantId action resource operationId)
    (l ++ [receipt id action resource operationId bodyHash identity response])
  = Some (receipt id action resource operationId bodyHash identity response).
Proof.
  intros Hl <-. apply find_app_hit; [done|]. unfold receiptOf, receipt. cbn. by rewrite !bool_decide_true.
Qed.
