(* ===== verification/ShiftBreaks.v ===== *)
(** * Replacing the breaks of a shift, and the policy

    The handlers [policy], [replacePolicy] and [replaceShiftBreaks] of
    apps/api-v2/src/operations/lunch-breaks.service.ts.  Replacing breaks is a
    billable, idempotent write: its receipt is an audit row keyed by the
    operation, found again before the write, under the lock, and after a
    failure whose outcome the caller cannot know. *)

From S2P Require Import ScheduleChanges.
From S2P Require Import Prelude JsStd JsCollections JsDate ContractHelpers LunchBreakPolicy.
From S2P Require Import LunchBreakPlacement LunchBreaks PayrollRecords Database.
From S2P Require Import FeatureEntitlement Authority.
From S2P Require Import ScheduleStore LunchBreakStore.

Definition POLICY_KEY : string := "lunch_break_policy".
Definition SHIFT_REPLACED : string := "API_V2_LUNCH_BREAK_SHIFT_REPLACED".
Definition SHIFT_RESOURCE : string := "ApiV2LunchBreakShiftRequest".

(** [ShiftBreakUpdateRequest] *)
Record ShiftBreakRequest := mkShiftBreakRequest { sr_locationId : string; sr_breaks : list BreakUpdate }.

Definition normalizedJson (e : NormalizedBreakInput) : Json :=
  JObj [field "type" (JStr (breakTypeText (nb_type e))); field "skip" (JBool (nb_skip e));
        ("startTime", JStr <$> nb_startTime e); ("durationMinutes", JNum <$> nb_durationMinutes e)].

Definition shiftBreakIdentity `{LocaleCompare, Sha256} (locationId : string) (breaks : list NormalizedBreakInput)
    : string :=
  sha256 (canonicalJson (JObj [field "locationId" (JStr locationId);
    field "breaks" (JArr (map normalizedJson
      (sortBy (fun l r => localeCompare (breakTypeText (nb_type l)) (breakTypeText (nb_type r))) breaks)))])).

(** The row of one new break. *)
Definition breakRowOf (id shiftId : string) (e : BreakEntry) : option BreakRow :=
  start ← dateParse (be_startTime e); stop ← dateParse (be_endTime e);
  Some (mkBreak id shiftId (Some (DB_BREAK_TYPE (be_type e))) start stop (be_paid e)).

Section Policy.
Context `{Env, Process, AuthorityEnv, Collation}.

Definition policy (identity : SessionIdentity) : Tx LunchBreakPolicy :=
  let identity := operationsIdentity identity in
  _ ← prepareOperationsAuthority identity;
  scopeRun identity (fun current =>
    _ ← operationsWait (assertFeatureEntitled (si_tenantId current) lunch_breaks false);
    readPolicy (si_tenantId current)).

Definition settingIs (tenantId key : string) (s : TenantSetting) : bool :=
  bool_decide (ts_tenantId s = tenantId) && bool_decide (ts_key s = key).

(** [tenantSetting.upsert] *)
Definition upsertSetting (tenantId key : string) (value : Json) : Tx unit :=
  query (fun db => Ok (tt, withRows
    (if existsb (settingIs tenantId key) (db_settings db)
     then map (fun s => if settingIs tenantId key s then mkSetting tenantId key value else s) (db_settings db)
     else db_settings db ++ [mkSetting tenantId key value]) db)).

Definition replacePolicy (identity : SessionIdentity) (patch : PolicyPatch) : Tx LunchBreakPolicy :=
  let identity := operationsIdentity identity in
  _ ← prepareOperationsAuthority identity;
  scopeRun identity (fun current =>
    _ ← operationsWait (assertFeatureEntitled (si_tenantId current) lunch_breaks false);
    saved ← operationsWait (readPolicy (si_tenantId current));
    let next := normalizePolicy (spreadPatch saved patch) in
    _ ← operationsWait (upsertSetting (si_tenantId current) POLICY_KEY (policyJson next));
    mret next).
End Policy.

Section Replace.
Context `{Env, Process, AuthorityEnv, Collation, LocaleCompare, Sha256}.

Definition findShiftBreakReplayInTransaction (tenantId operationId bodyHash : string) : Tx (option Json) :=
  findReceipt tenantId SHIFT_REPLACED SHIFT_RESOURCE operationId bodyHash
    "The saved lunch and break outcome is unavailable. Use a new Idempotency-Key."
    "Idempotency-Key was already used with a different lunch and break request." (fun _ => true).

Definition findShiftBreakReplay (identity : SessionIdentity) (tenantId operationId bodyHash : string)
    : Tx (option Json) :=
  scopeRun identity (fun _ => findShiftBreakReplayInTransaction tenantId operationId bodyHash).

Definition wantedShift (tenantId shiftPublicId locationId : string) (db : Db) (s : Shift) : bool :=
  bool_decide (sh_tenantId s = tenantId) && bool_decide (sh_publicId s = lowerText shiftPublicId)
  && bool_decide (sh_deletedAt s = None) && atLiveLocation db locationId s && schedulableShift db s.

Definition sameLiveShift (tenantId id : string) (db : Db) (s : Shift) : bool :=
  bool_decide (sh_id s = id) && bool_decide (sh_tenantId s = tenantId) && bool_decide (sh_deletedAt s = None).

Definition touchShift (updatedAt : Z) (s : Shift) : Shift :=
  mkShift (sh_id s) (sh_publicId s) (sh_tenantId s) (sh_locationId s) (sh_scheduleId s) (sh_userId s)
    (sh_startTime s) (sh_endTime s) (sh_role s) updatedAt (sh_deletedAt s).

(** [createMany] of the breaks; an entry whose texts are no instants would
    be a database error, which the window check has excluded. *)
Definition createBreaks (shiftId : string) (entries : list BreakEntry) : Tx unit :=
  forEach (fun e =>
    id ← randomUUID;
    match breakRowOf id shiftId e with
    | Some b => createRow b
    | None => throwTx (JsError "Invalid Date")
    end) entries.

(** The writes of the handler, after its checks. *)
Definition storeBreaks (current : SessionIdentity) (shift : InternalShift) (next : list BreakEntry)
    (operationId bodyHash : string) : Tx Json :=
  let tenantId := si_tenantId current in
  let id := sh_id (is_row shift) in
  granted ← operationsWait (assertFeatureEntitled tenantId lunch_breaks true);
  entitlement ← match granted with
    | Some e => mret e
    | None => problem 403 "lunch_breaks_not_entitled" "Lunch and break changes require usage credits."
                "Feature unavailable"
    end;
  _ ← operationsWait (debitFeatureCredit assertCurrent tenantId entitlement operationId
        ("Lunch/break shift replacement (" +:+ operationId +:+ ")") None);
  _ ← operationsWait (deleteMany (fun b => bool_decide (br_shiftId b = id)));
  _ ← (if bool_decide (next = []) then mret tt else operationsWait (createBreaks id next));
  _ ← operationsWait (
        updatedAt ← now;
        count ← updateMany (fun s => bool_decide (sh_id s = id)) (touchShift updatedAt);
        if (count =? 0)%nat then throwTx (DriverError "P2025" None) else mret tt);
  _ ← operationsWait (incrementDraftRevisions tenantId [sc_id <$> is_schedule shift]);
  updated ← operationsWait (findShift (sameLiveShift tenantId id));
  match updated with
  | None => problem 409 "concurrent_change"
      "The shift changed while lunch and breaks were being saved. Reload and retry." "Concurrent change"
  | Some row =>
      response ← liftResult (serializeLunchBreakRow row);
      _ ← operationsWait (
            aid ← randomUUID;
            createRow (receipt aid SHIFT_REPLACED SHIFT_RESOURCE operationId bodyHash current (rowJson response)));
      mret (rowJson response)
  end.

Definition replaceInScope (current : SessionIdentity) (shiftPublicId : string) (locationId : string)
    (breaks : list NormalizedBreakInput) (operationId bodyHash : string) : Tx Json :=
  let tenantId := si_tenantId current in
  lockedReplay ← operationsWait (findShiftBreakReplayInTransaction tenantId operationId bodyHash);
  match lockedReplay with
  | Some response => mret response
  | None =>
      _ ← operationsWait (lockTenantForFeature tenantId);
      _ ← operationsWait (lockSchedulingAggregate tenantId);
      found ← operationsWait (findShift (wantedShift tenantId shiftPublicId locationId));
      match found with
      | None => problem 404 "shift_not_found" "The selected shift was not found for this location." "Shift not found"
      | Some shift =>
          _ ← operationsWait (assertDraftSchedules tenantId [sc_id <$> is_schedule shift]);
          saved ← operationsWait (readPolicy tenantId);
          next ← liftResult (breakPayload breaks saved);
          _ ← liftResult (assertBreaksInsideShift (sh_startTime (is_row shift)) (sh_endTime (is_row shift)) next);
          row ← liftResult (serializeLunchBreakRow shift);
          if sameBreaks (lr_breaks row) next then mret (rowJson row)
          else storeBreaks current shift next operationId bodyHash
      end
  end.

(** [catch (error)]: the receipt of a write that may have been committed. *)
Definition recoverReceipt (attempt : Tx Json) (lookup : Tx (option Json)) : Tx Json := fun w =>
  match attempt w with
  | (Ok response, w1) => (Ok response, w1)
  | (Throw error, w1) =>
      if negb (isOperationsReceiptRecovery error) then (Throw error, w1) else
      match lookup w1 with
      | (Ok (Some committed), w2) => (Ok committed, w2)
      | (Ok None, w2) => (Throw error, w2)
      | (Throw e, w2) => (Throw e, w2)
      end
  end.

Definition replaceShiftBreaks (identity : SessionIdentity) (shiftPublicId : string) (body : ShiftBreakRequest)
    (idempotencyKeyValue : option string) : Tx Json :=
  let identity := operationsIdentity identity in
  let tenantId := si_tenantId identity in
  idempotencyKey ← liftResult (requireIdempotencyKey idempotencyKeyValue);
  breaks ← liftResult (normalizeBreakUpdate (sr_breaks body));
  let operationId := canonicalIdempotencyOperation ("api-v2:lunch-break-shift:" +:+ shiftPublicId)
                       tenantId idempotencyKey in
  let bodyHash := shiftBreakIdentity (sr_locationId body) breaks in
  _ ← prepareOperationsAuthority identity;
  replay ← findShiftBreakReplay identity tenantId operationId bodyHash;
  match replay with
  | Some response => mret response
  | None =>
      recoverReceipt
        (scopeRun identity (fun current =>
           replaceInScope current shiftPublicId (sr_locationId body) breaks operationId bodyHash))
        (findShiftBreakReplay identity tenantId operationId bodyHash)
  end.
End Replace.

(** ** What a replacement does *)

Definition creditReason (operationId : string) : string := "Lunch/break shift replacement (" +:+ operationId +:+ ")".

(** The outcome of a replacement that wrote. *)
Record BreaksReplaced (tenantId : string) (shift : InternalShift) (next : list BreakEntry)
    (operationId bodyHash : string) (response : Json) (db db' : Db) : Prop := mkReplaced {
  rp_credit : exists r paid,
    (replayed ("feature-usage-" +:+ operationId) tenantId (creditReason operationId) 1 r db paid \/
     debited ("feature-usage-" +:+ operationId) tenantId (creditReason operationId) 1 r db paid) /\
    db_tenants db' = db_tenants paid /\ db_credits db' = db_credits paid;
  rp_breaks : exists new,
    db_breaks db' = List.filter (fun b => negb (bool_decide (br_shiftId b = sh_id (is_row shift)))) (db_breaks db) ++ new /\
    Forall (fun b => br_shiftId b = sh_id (is_row shift)) new /\ Forall2 stores next (map storedBreak new);
  rp_schedules : db_schedules db' =
    map (fun s => if liveDraftAmong tenantId (scheduleIdSet [sc_id <$> is_schedule shift]) s then nextRevision s else s)
      (db_schedules db);
  rp_response : exists row, lr_breaks row = next /\ response = rowJson row;
  rp_receipt : exists id identity, si_tenantId identity = tenantId /\
    db_audits db' = db_audits db ++ [receipt id SHIFT_REPLACED SHIFT_RESOURCE operationId bodyHash identity response];
}.

Section ReplaceFacts.
Context `{Env, Process, AuthorityEnv, Collation, LocaleCompare, Sha256}.

Lemma breakRowOf_stores id shiftId e b :
  breakRowOf id shiftId e = Some b -> br_shiftId b = shiftId /\ stores e (storedBreak b).
Proof.
  unfold breakRowOf, mbind, option_bind. destruct (dateParse (be_startTime e)) as [s|] eqn:Es; [|done].
  destruct (dateParse (be_endTime e)) as [t|] eqn:Et; [|done]. intros [= <-]. by repeat split.
Qed.

Lemma createBreaks_Ok shiftId entries u w w' :
  createBreaks shiftId entries w = (Ok u, w') ->
  exists new, w_db w' = withRows (db_breaks (w_db w) ++ new) (w_db w) /\
    Forall (fun b => br_shiftId b = shiftId) new /\ Forall2 stores entries (map storedBreak new).
Proof.
  unfold createBreaks. revert w. induction entries as [|e entries IH]; cbn [forEach]; intros w Hr.
  - apply Tx_ret_Ok in Hr as [_ <-]. exists []. split; [rewrite app_nil_r; by destruct (w_db w)|].
    split; constructor.
  - apply Tx_bind_Ok in Hr as (? & w1 & Hc & Hr). apply IH in Hr as (new & E & Hid & Hst).
    apply Tx_bind_Ok in Hc as (id & w2 & [-> ->]%randomUUID_Ok & Hc).
    destruct (breakRowOf _ _ e) as [b|] eqn:Eb; [|by apply throwTx_Ok in Hc].
    apply createRow_Ok in Hc as [_ Hc]. apply breakRowOf_stores in Eb as [Eid Est].
    exists (b :: new). split; [|split; constructor; done].
    rewrite E, Hc. cbn [w_db tick rows Table_Break]. destruct (w_db w). cbn. by rewrite <- app_assoc.
Qed.

(** The breaks of a shift that holds exactly the new rows read back as the
    entries that were stored. *)
Lemma replaced_reads_back (db : Db) (row : Shift) (id : string) (others : list BreakRow) (new : list BreakRow) :
  sh_id row = id ->
  db_breaks db = List.filter (fun b => negb (bool_decide (br_shiftId b = id))) others ++ new ->
  Forall (fun b => br_shiftId b = id) new ->
  is_breaks (internalShift db row) ≡ₚ new.
Proof.
  intros Hid Hb Hn. cbn [is_breaks internalShift]. rewrite sortBy_perm, Hb, Hid, List.filter_app.
  assert (E1 : List.filter (fun b => bool_decide (br_shiftId b = id))
    (List.filter (fun b => negb (bool_decide (br_shiftId b = id))) others) = []).
  { clear Hb. induction others as [|b l IH]; cbn; [done|].
    destruct (bool_decide (br_shiftId b = id)) eqn:E; cbn; [exact IH|].
    by rewrite E. }
  assert (E2 : List.filter (fun b => bool_decide (br_shiftId b = id)) new = new).
  { clear Hb. induction Hn as [|b l Eb Hl IH]; cbn; [done|]. by rewrite bool_decide_true, IH by done. }
  by rewrite E1, E2.
Qed.

Definition debitOutcome (operationId tenantId : string) (db paid : Db) : Prop :=
  exists r, replayed ("feature-usage-" +:+ operationId) tenantId (creditReason operationId) 1 r db paid \/
    debited ("feature-usage-" +:+ operationId) tenantId (creditReason operationId) 1 r db paid.

(** A debit changes wallets and the ledger only. *)
Lemma debit_frame id tenantId reason cost r db paid :
  replayed id tenantId reason cost r db paid \/ debited id tenantId reason cost r db paid ->
  exists ts cs, paid = withRows (R := CreditTransaction) cs (withRows (R := Tenant) ts db).
Proof.
  intros [(row & _ & _ & _ & ->)|(_ & _ & _ & _ & ->)]; [|by eexists _, _].
  exists (db_tenants db), (db_credits db). by destruct db.
Qed.

Lemma storeBreaks_Ok current shift next operationId bodyHash r w w' :
  canonical next -> Forall wellFormed next ->
  storeBreaks current shift next operationId bodyHash w = (Ok r, w') ->
  BreaksReplaced (si_tenantId current) shift next operationId bodyHash r (w_db w) (w_db w').
Proof.
  intros Hcan Hwf. unfold storeBreaks, problem, throwProblemTx. set (id := sh_id (is_row shift)).
  intros (granted & w1 & (w2 & [E2 ->]%assertFeatureEntitled_Ok & E1)%operationsWait_Ok & Hr)%Tx_bind_Ok.
  apply Tx_bind_Ok in Hr as (ent & w3 & [<- <-]%Tx_ret_Ok & Hr).
  apply Tx_bind_Ok in Hr as (paid & w4 & (w5 & Hd & E4)%operationsWait_Ok & Hr).
  apply (debit_cases _ ReadOnly_current) in Hd. cbn [default en_creditCost w_db tick] in Hd, E2.
  apply Tx_bind_Ok in Hr as (? & w6 & (w7 & E7%deleteMany_Ok & E6)%operationsWait_Ok & Hr).
  apply Tx_bind_Ok in Hr as (? & w8 & Hc & Hr).
  assert (Hnew : exists new, w_db w8 = withRows (db_breaks (w_db w6) ++ new) (w_db w6) /\
    Forall (fun b => br_shiftId b = id) new /\ Forall2 stores next (map storedBreak new)).
  { case_bool_decide as En.
    - apply Tx_ret_Ok in Hc as [_ <-]. exists []. rewrite En. split; [rewrite app_nil_r; by destruct (w_db w6)|].
      split; constructor.
    - by apply operationsWait_Ok in Hc as (w9 & Hc%createBreaks_Ok & ->). }
  destruct Hnew as (new & E8 & Hid & Hst). clear Hc.
  apply Tx_bind_Ok in Hr as (? & w9 & (w10 & Ht & E9)%operationsWait_Ok & Hr).
  apply Tx_bind_Ok in Ht as (t & w11 & [-> ->]%now_Ok & Ht).
  apply Tx_bind_Ok in Ht as (n & w12 & [_ E12]%updateMany_Ok & Ht).
  destruct (_ =? 0)%nat; [by apply throwTx_Ok in Ht|]. apply Tx_ret_Ok in Ht as [_ <-].
  apply Tx_bind_Ok in Hr as (? & w13 & (w14 & E14%incrementDraftRevisions_Ok & E13)%operationsWait_Ok & Hr).
  apply Tx_bind_Ok in Hr as (upd & w15 & (w16 & [E16 ->]%findShift_Ok & E15)%operationsWait_Ok & Hr).
  cbn [w_db tick rows Table_Break Table_Shift] in *.
  destruct (debit_frame _ _ _ _ _ _ _ Hd) as (ts & cs & Epaid).
  destruct (List.find _ _) as [row|] eqn:Ef; cbn [fmap option_fmap option_map] in Hr; [|by apply throwTx_Ok in Hr].
  apply Tx_bind_Ok in Hr as (response & w17 & [Hser <-]%liftResult_Ok & Hr).
  apply Tx_bind_Ok in Hr as (? & w18 & (w19 & Ha & E18)%operationsWait_Ok & [<- <-]%Tx_ret_Ok).
  apply Tx_bind_Ok in Ha as (aid & w20 & [-> ->]%randomUUID_Ok & [_ E20]%createRow_Ok).
  cbn [w_db tick rows Table_Audit] in *.
  set (shifts' := map _ (db_shifts (w_db w8))) in E12.
  set (scheds := map _ (db_schedules _)) in E14.
  assert (Edb : w_db w15 = withRows (R := Schedule) scheds (withRows (R := Shift) shifts' (w_db w8))) by congruence.
  assert (E8' : w_db w8 = withRows (R := BreakRow)
    (List.filter (fun b => negb (bool_decide (br_shiftId b = id))) (db_breaks (w_db w)) ++ new)
    (withRows (R := CreditTransaction) cs (withRows (R := Tenant) ts (w_db w)))).
  { rewrite E8, E6, E7, E4, Epaid, E1, E2. by destruct (w_db w). }
  assert (Hback : lr_breaks response = next).
  { unfold serializeLunchBreakRow in Hser. apply Result_bind_Ok in Hser as (breaks & Hb & [= <-]). cbn [lr_breaks].
    assert (Hrow : sh_id row = id).
    { apply find_some in Ef as [_ Ef]. unfold sameLiveShift in Ef. rewrite !andb_true_iff, !bool_decide_eq_true in Ef. tauto. }
    rewrite (serializeBreaks_stored _ (map storedBreak new) next) in Hb; [by injection Hb|done..|].
    apply Permutation_map. eapply (replaced_reads_back _ row id (db_breaks (w_db w)) new Hrow); [|done].
    rewrite <- E16, <- E15, Edb, E8'. by destruct (w_db w). }
  rewrite E1, E2 in Hd. split.
  - exists paid, (w_db w5). split; [exact Hd|]. rewrite E18, E20, Edb, E8', Epaid, E1, E2. by destruct (w_db w).
  - exists new. split; [|done]. rewrite E18, E20, Edb, E8'. by destruct (w_db w).
  - rewrite E18, E20, Edb. unfold scheds. rewrite E9, E12, E8'. by destruct (w_db w).
  - by exists response.
  - eexists _, current. split; [done|]. rewrite E18, E20, Edb, E8'. by destruct (w_db w).
Qed.
End ReplaceFacts.

(** A stored receipt was returned. *)
Definition receiptReturned (tenantId operationId bodyHash : string) (response : Json) (db db' : Db) : Prop :=
  db' = db /\ exists a, List.find (receiptOf tenantId SHIFT_REPLACED SHIFT_RESOURCE operationId) (db_audits db) = Some a /\
    answers bodyHash response a.

(** The checks of a request that had no receipt: the shift, its new windows,
    and either nothing to change or the writes. *)
Definition freshReplacement `{Collation, LocaleCompare} (tenantId publicId locationId : string)
    (breaks : list NormalizedBreakInput) (operationId bodyHash : string) (response : Json) (db db' : Db) : Prop :=
  List.find (receiptOf tenantId SHIFT_REPLACED SHIFT_RESOURCE operationId) (db_audits db) = None /\
  exists row saved next, let shift := internalShift db row in
    row ∈ db_shifts db /\ wantedShift tenantId publicId locationId db row = true /\ validPolicy saved /\
    (forall s, s ∈ db_schedules db -> sc_tenantId s = tenantId -> sh_scheduleId row = Some (sc_id s) ->
       sc_id s <> "" -> is_schedule shift = Some s -> sc_status s = DRAFT) /\
    breakPayload breaks saved = Ok next /\
    assertBreaksInsideShift (sh_startTime row) (sh_endTime row) next = Ok tt /\
    (db' = db /\ (exists cur, serializeLunchBreakRow shift = Ok cur /\ sameBreaks (lr_breaks cur) next = true /\
        response = rowJson cur)
     \/ BreaksReplaced tenantId shift next operationId bodyHash response db db').

Section Handler.
Context `{Env, Process, AuthorityEnv, Collation, LocaleCompare, Sha256}.

Lemma breakPayload_normal breaks norm saved next :
  normalizeBreakUpdate breaks = Ok norm -> validPolicy saved -> breakPayload norm saved = Ok next ->
  canonical next /\ Forall wellFormed next.
Proof.
  intros Hn Hv Hp. apply normalizeBreakUpdate_types in Hn.
  destruct (breakPayload_shape _ _ _ _ Hv Hn Hp) as [Hwf Hsub]. split; [by apply sublist_canonical|done].
Qed.

Lemma scheduleIdSet_one i : i <> "" -> i ∈ scheduleIdSet [Some i].
Proof. intros Hi. unfold scheduleIdSet, isEmpty. cbn. rewrite bool_decide_false by done. cbn. set_solver. Qed.

Lemma replaceInScope_Ok current publicId locationId breaks norm operationId bodyHash r w w' :
  normalizeBreakUpdate breaks = Ok norm ->
  replaceInScope current publicId locationId norm operationId bodyHash w = (Ok r, w') ->
  receiptReturned (si_tenantId current) operationId bodyHash r (w_db w) (w_db w') \/
  freshReplacement (si_tenantId current) publicId locationId norm operationId bodyHash r (w_db w) (w_db w').
Proof.
  intros Hn. unfold replaceInScope, problem, throwProblemTx.
  intros (o & w1 & (w2 & Hf & E1)%operationsWait_Ok & Hr)%Tx_bind_Ok.
  pose proof (ReadOnly_Ok _ _ _ _ (findReceipt_ReadOnly _ _ _ _ _ _ _ _) Hf) as E2. cbn [w_db tick] in E2.
  apply findReceipt_Ok in Hf. cbn [w_db tick] in Hf.
  destruct (List.find _ _) as [a|] eqn:Ea in Hf.
  { destruct Hf as (response & -> & Ha). apply Tx_ret_Ok in Hr as [<- <-]. left. split; [congruence|].
    exists a. split; [exact Ea|exact Ha]. }
  subst o. right. split; [exact Ea|].
  apply Tx_bind_Ok in Hr as (? & w3 & (w4 & E4%lockRows_Ok & E3)%operationsWait_Ok & Hr).
  apply Tx_bind_Ok in Hr as (? & w5 & (w6 & E6%lockRows_Ok & E5)%operationsWait_Ok & Hr).
  apply Tx_bind_Ok in Hr as (found & w7 & (w8 & [E8 ->]%findShift_Ok & E7)%operationsWait_Ok & Hr).
  cbn [w_db tick] in *.
  assert (Edb : w_db w5 = w_db w) by congruence. rewrite Edb in Hr.
  destruct (List.find _ _) as [row|] eqn:Ef in Hr; cbn [fmap option_fmap option_map] in Hr; [|by apply throwTx_Ok in Hr].
  apply find_some in Ef as [Hin Hw].
  apply Tx_bind_Ok in Hr as (? & w9 & (w10 & Hds & E9)%operationsWait_Ok & Hr).
  pose proof (ReadOnly_Ok _ _ _ _ (assertDraftSchedules_ReadOnly _ _) Hds) as E10.
  pose proof (assertDraftSchedules_Ok _ _ _ _ _ Hds) as Hdraft. cbn [w_db tick] in E10, Hdraft.
  apply Tx_bind_Ok in Hr as (saved & w11 & (w12 & [E12 Hv]%readPolicy_Ok & E11)%operationsWait_Ok & Hr).
  apply Tx_bind_Ok in Hr as (next & w13 & [Hp <-]%liftResult_Ok & Hr).
  apply Tx_bind_Ok in Hr as ([] & w14 & [Hwin <-]%liftResult_Ok & Hr).
  apply Tx_bind_Ok in Hr as (cur & w15 & [Hcur <-]%liftResult_Ok & Hr).
  cbn [w_db tick is_row internalShift] in *.
  assert (E : w_db w11 = w_db w) by congruence.
  exists row, saved, next. cbv zeta. split; [by apply list_elem_of_In|]. split; [done|]. split; [done|].
  split; [|split; [done|split; [done|]]].
  { intros s Hs Ht Hsid Hne His. apply Hdraft; [congruence|done|].
    rewrite His. by apply scheduleIdSet_one. }
  destruct (sameBreaks _ _) eqn:Es.
  - apply Tx_ret_Ok in Hr as [<- <-]. left. split; [done|]. by exists cur.
  - right. destruct (breakPayload_normal _ _ _ _ Hn Hv Hp) as [Hcan Hwf].
    apply storeBreaks_Ok in Hr; [|done..]. by rewrite E in Hr.
Qed.

Lemma findShiftBreakReplay_ReadOnly identity tenantId operationId bodyHash :
  ReadOnly (findShiftBreakReplay identity tenantId operationId bodyHash).
Proof.
  intros w. unfold findShiftBreakReplay. destruct (scopeRun _ _ w) as [[r|e] w'] eqn:E; cbn.
  - apply scopeRun_Ok in E as (c & w1 & w2 & _ & E & E1 & E2).
    pose proof (ReadOnly_Ok _ _ _ _ (findReceipt_ReadOnly _ _ _ _ _ _ _ _) E). congruence.
  - by apply scopeRun_Throw in E.
Qed.

Lemma findShiftBreakReplay_Ok identity tenantId operationId bodyHash r w w' :
  findShiftBreakReplay identity tenantId operationId bodyHash w = (Ok r, w') ->
  match List.find (receiptOf tenantId SHIFT_REPLACED SHIFT_RESOURCE operationId) (db_audits (w_db w)) with
  | None => r = None
  | Some a => exists response, r = Some response /\ answers bodyHash response a
  end.
Proof. intros (c & w1 & w2 & _ & Hf%findReceipt_Ok & E1 & _)%scopeRun_Ok. by rewrite E1 in Hf. Qed.
End Handler.

Section Service.
Context `{Env, Process, AuthorityEnv, Collation, LocaleCompare, Sha256}.

(** The identifiers a request is stored under. *)
Definition shiftOperation (identity : SessionIdentity) (publicId key : string) : string :=
  canonicalIdempotencyOperation ("api-v2:lunch-break-shift:" +:+ publicId) (trim (si_tenantId identity)) key.

(** A replacement that returned. *)
Definition replacementOutcome (tenantId publicId locationId : string) (norm : list NormalizedBreakInput)
    (operationId bodyHash : string) (response : Json) (db db' : Db) : Prop :=
  receiptReturned tenantId operationId bodyHash response db db' \/
  freshReplacement tenantId publicId locationId norm operationId bodyHash response db db'.

Lemma scope_outcome identity publicId locationId breaks norm operationId bodyHash r w w' :
  normalizeBreakUpdate breaks = Ok norm ->
  scopeRun identity (fun current => replaceInScope current publicId locationId norm operationId bodyHash) w = (Ok r, w') ->
  replacementOutcome (si_tenantId identity) publicId locationId norm operationId bodyHash r (w_db w) (w_db w').
Proof.
  intros Hn (current & w1 & w2 & Ht & Hr & E1 & E2)%scopeRun_Ok. apply (replaceInScope_Ok _ _ _ _ _ _ _ _ _ _ Hn) in Hr.
  by rewrite Ht, E1, <- E2 in Hr.
Qed.

(** A recovery answers with what the attempt returned or what the lookup finds
    after it failed, and writes nothing itself. *)
Lemma recover_cases attempt lookup r w w' :
  (forall e w1, attempt w = (Throw e, w1) -> w_db w1 = w_db w) -> ReadOnly lookup ->
  recoverReceipt attempt lookup w = (r, w') ->
  (attempt w = (r, w') /\ isOk r = true) \/
  (w_db w' = w_db w /\ forall response, r = Ok response ->
     exists w1 w2, w_db w1 = w_db w /\ lookup w1 = (Ok (Some response), w2)).
Proof.
  intros Ht Hl. unfold recoverReceipt. destruct (attempt w) as [[x|e] w1] eqn:E; [intros [= <- <-]; by left|].
  specialize (Ht _ _ eq_refl). destruct (negb _); [intros [= <- <-]; by right|].
  pose proof (Hl w1) as E1. destruct (lookup w1) as [[[x|]|e2] w2] eqn:E2; cbn in E1; intros [= <- <-]; right; (split; [congruence|]);
    [|done..]. intros response [= <-]. by exists w1, w2.
Qed.

Lemma recoverReceipt_Ok identity tenantId operationId bodyHash attempt r w w' :
  (forall e w1, attempt w = (Throw e, w1) -> w_db w1 = w_db w) ->
  recoverReceipt attempt (findShiftBreakReplay identity tenantId operationId bodyHash) w = (Ok r, w') ->
  attempt w = (Ok r, w') \/ receiptReturned tenantId operationId bodyHash r (w_db w) (w_db w').
Proof.
  intros Ht Hr. apply recover_cases in Hr as [[? _]|[E Hf]]; [by left|right|done|apply findShiftBreakReplay_ReadOnly].
  split; [done|]. destruct (Hf r eq_refl) as (w1 & w2 & E1 & E2%findShiftBreakReplay_Ok). rewrite E1 in E2.
  destruct (List.find _ _) as [a|]; [|done]. exists a. destruct E2 as (? & [= <-] & Ha). done.
Qed.

Lemma recoverReceipt_Throw identity tenantId operationId bodyHash attempt e w w' :
  (forall e w1, attempt w = (Throw e, w1) -> w_db w1 = w_db w) ->
  recoverReceipt attempt (findShiftBreakReplay identity tenantId operationId bodyHash) w = (Throw e, w') ->
  w_db w' = w_db w.
Proof.
  intros Ht Hr. apply recover_cases in Hr as [[_ ?]|[? _]]; [done..|apply findShiftBreakReplay_ReadOnly].
Qed.

Lemma replaceShiftBreaks_Ok identity publicId body keyValue r w w' :
  replaceShiftBreaks identity publicId body keyValue w = (Ok r, w') ->
  exists key norm, requireIdempotencyKey keyValue = Ok key /\ normalizeBreakUpdate (sr_breaks body) = Ok norm /\
    replacementOutcome (trim (si_tenantId identity)) publicId (sr_locationId body) norm
      (shiftOperation identity publicId key) (shiftBreakIdentity (sr_locationId body) norm) r (w_db w) (w_db w').
Proof.
  unfold replaceShiftBreaks. intros (key & w1 & [Hk <-]%liftResult_Ok & Hr)%Tx_bind_Ok.
  apply Tx_bind_Ok in Hr as (norm & w2 & [Hn <-]%liftResult_Ok & Hr).
  apply Tx_bind_Ok in Hr as (? & w3 & Hp & Hr).
  apply (ReadOnly_Ok _ _ _ _ (prepareOperationsAuthority_ReadOnly _)) in Hp.
  apply Tx_bind_Ok in Hr as (o & w4 & Hf & Hr).
  pose proof (ReadOnly_Ok _ _ _ _ (findShiftBreakReplay_ReadOnly _ _ _ _) Hf) as E4.
  apply findShiftBreakReplay_Ok in Hf. rewrite Hp in Hf, E4. cbn [operationsIdentity si_tenantId] in *.
  exists key, norm. split; [done|]. split; [done|]. unfold shiftOperation.
  destruct o as [response|].
  - apply Tx_ret_Ok in Hr as [<- <-]. left. split; [done|].
    destruct (List.find _ _) as [a|]; [|done]. exists a. destruct Hf as (? & [= ->] & Ha). done.
  - apply recoverReceipt_Ok in Hr; [|intros e w5; apply scopeRun_Throw]. rewrite E4 in Hr.
    destruct Hr as [Hr|Hr]; [|by left]. apply (scope_outcome _ _ _ _ _ _ _ _ _ _ Hn) in Hr. by rewrite E4 in Hr.
Qed.

Lemma replaceShiftBreaks_Throw identity publicId body keyValue e w w' :
  replaceShiftBreaks identity publicId body keyValue w = (Throw e, w') -> w_db w' = w_db w.
Proof.
  unfold replaceShiftBreaks, liftResult, mbind, Tx_bind.
  destruct (requireIdempotencyKey _); [|by intros [= _ <-]].
  destruct (normalizeBreakUpdate _); [|by intros [= _ <-]].
  pose proof (prepareOperationsAuthority_ReadOnly (operationsIdentity identity) w) as Hp.
  destruct (prepareOperationsAuthority _ w) as [[?|?] w1]; cbn in Hp; [|by intros [= _ <-]].
  match goal with |- context [findShiftBreakReplay ?i ?t ?o ?h w1] =>
    pose proof (findShiftBreakReplay_ReadOnly i t o h w1) as Hf end.
  destruct (findShiftBreakReplay _ _ _ _ w1) as [[[?|]|?] w2]; cbn in Hf; try done; [|intros [= _ <-]; congruence].
  intros E%recoverReceipt_Throw; [congruence|]. intros e1 w3. apply scopeRun_Throw.
Qed.
End Service.

(** A replacement that writes does exactly what it was asked to.  The
    shift is live, at the named live location, schedulable, and in no
    published or archived schedule; the windows computed from the request lie
    inside it and do not overlap; afterwards the breaks of this shift are
    exactly those windows, every other break row is untouched, one credit has
    been settled under the operation's identifier, the draft's revision has
    advanced, and the answer read back from the stored rows lists the very
    windows that were requested. *)
Theorem replaceShiftBreaks_writes `{Env, Process, AuthorityEnv, Collation, LocaleCompare, Sha256}
    identity publicId body keyValue r w w' :
  replaceShiftBreaks identity publicId body keyValue w = (Ok r, w') -> w_db w' <> w_db w ->
  let tenantId := trim (si_tenantId identity) in
  exists key norm row saved next, requireIdempotencyKey keyValue = Ok key /\
    normalizeBreakUpdate (sr_breaks body) = Ok norm /\
    row ∈ db_shifts (w_db w) /\ wantedShift tenantId publicId (sr_locationId body) (w_db w) row = true /\
    validPolicy saved /\ breakPayload norm saved = Ok next /\
    Forall (fun e => exists s t, entryWindow e = Some (s, t) /\ sh_startTime row <= s < t /\ t <= sh_endTime row) next /\
    pairwise windowsApart (map windowOr0 next) /\
    BreaksReplaced tenantId (internalShift (w_db w) row) next (shiftOperation identity publicId key)
      (shiftBreakIdentity (sr_locationId body) norm) r (w_db w) (w_db w').
Proof.
  intros (key & norm & Hk & Hn & [[E _]|(_ & row & saved & next & Hin & Hw & Hv & _ & Hp & Hwin & [[E _]|Hwr])]
    )%replaceShiftBreaks_Ok Hne; [done|done|].
  apply assertBreaksInsideShift_spec in Hwin as [Hf Hpw].
  exists key, norm, row, saved, next. split_and!; done.
Qed.

(** Breaks are replaced once per idempotency key.  After a call that wrote,
    every later call with that key for that shift (in any environment, with
    any body) changes nothing, the credit included; if it returns, its body
    meant the same update and it returns the first answer. *)
Theorem replaceShiftBreaks_once `{Process, Collation, LocaleCompare, Sha256} (env1 env2 : Env)
    (auth1 auth2 : AuthorityEnv) identity identity2 publicId body body2 keyValue r r2 w w' w2 w3 :
  replaceShiftBreaks (H := env1) (H1 := auth1) identity publicId body keyValue w = (Ok r, w') ->
  w_db w' <> w_db w ->
  trim (si_tenantId identity2) = trim (si_tenantId identity) -> w_db w2 = w_db w' ->
  replaceShiftBreaks (H := env2) (H1 := auth2) identity2 publicId body2 keyValue w2 = (r2, w3) ->
  w_db w3 = w_db w' /\ forall response2, r2 = Ok response2 -> response2 = r /\
    exists norm norm2, normalizeBreakUpdate (sr_breaks body) = Ok norm /\
      normalizeBreakUpdate (sr_breaks body2) = Ok norm2 /\
      shiftBreakIdentity (sr_locationId body2) norm2 = shiftBreakIdentity (sr_locationId body) norm.
Proof.
  intros Ha Hne Et Ew Ha2.
  destruct r2 as [response2|e]; [|apply replaceShiftBreaks_Throw in Ha2; split; [congruence|done]].
  apply replaceShiftBreaks_Ok in Ha as (key & norm & Hk & Hn & Ho).
  apply replaceShiftBreaks_Ok in Ha2 as (key2 & norm2 & Hk2 & Hn2 & Ho2).
  rewrite Hk in Hk2. injection Hk2 as <-.
  destruct Ho as [[E _]|(Hnone & row & saved & next & _ & _ & _ & _ & _ & _ & [[E _]|Hwr])]; [done|done|].
  destruct (rp_receipt _ _ _ _ _ _ _ _ Hwr) as (id & ident & Eid & Eaud).
  unfold shiftOperation in *. rewrite Et, Ew in Ho2.
  pose proof (receipt_found _ id _ _ _ (shiftBreakIdentity (sr_locationId body) norm) _ r _ Hnone Eid) as Hfound.
  rewrite <- Eaud in Hfound. destruct Ho2 as [[-> (a & Hfa & es & Ea & Er & Eh)]|[Hn' _]]; [|by rewrite Hfound in Hn'].
  rewrite Hfound in Hfa. injection Hfa as <-. split; [done|]. intros ? [= <-].
  cbn in Ea. injection Ea as <-. cbn in Er. injection Er as <-. split; [done|].
  exists norm, norm2. split; [done|]. split; [done|]. cbn in Eh. symmetry. by apply bool_decide_eq_true in Eh.
Qed.

(** ** The policy *)

Section PolicyFacts.
Context `{Env, Process, AuthorityEnv, Collation}.

Lemma policyValueOf_json p : policyValueOf (policyJson p) = policyValue p.
Proof. reflexivity. Qed.

Lemma upsertSetting_Ok tenantId key value u w w' :
  upsertSetting tenantId key value w = (Ok u, w') ->
  List.find (settingIs tenantId key) (db_settings (w_db w'))
    = Some (mkSetting tenantId key value).
Proof.
  intros (_ & db & [= _ <-] & ->)%query_Ok. rewrite w_db_mk.
  destruct (w_db w) as [? settings]. cbn [db_settings].
  set (here := settingIs tenantId key).
  assert (Hnew : here (mkSetting tenantId key value) = true) by (unfold here, settingIs; cbn; by rewrite !bool_decide_true).
  destruct (existsb here settings) eqn:E.
  - induction settings as [|s l IH]; [done|]. cbn in E |- *.
    destruct (here s) eqn:Es; cbn; [by rewrite Hnew|]. rewrite Es. by apply IH.
  - apply find_app_hit; [|done]. induction settings as [|s l IH]; [done|]. cbn in E |- *.
    apply orb_false_iff in E as [Es E]. rewrite Es. by apply IH.
Qed.

Lemma readPolicy_stored tenantId p value w w' :
  readPolicy tenantId w = (Ok p, w') -> isObject value = true ->
  List.find (settingIs tenantId POLICY_KEY) (db_settings (w_db w))
    = Some (mkSetting tenantId POLICY_KEY value) ->
  p = normalizePolicy (policyValueOf value).
Proof.
  unfold readPolicy. intros (s & w1 & (w2 & [-> _]%findFirst_Ok & _)%operationsWait_Ok & [<- _]%Tx_ret_Ok)%Tx_bind_Ok.
  intros Ho Hf. change (List.find (settingIs tenantId POLICY_KEY) (db_settings (w_db w)))
    with (List.find (fun s => bool_decide (ts_tenantId s = tenantId) && bool_decide (ts_key s = "lunch_break_policy"))
            (rows (w_db (tick w)))) in Hf. rewrite Hf. cbn [ts_value]. by rewrite Ho.
Qed.

Lemma replacePolicy_Ok identity patch p w w' :
  replacePolicy identity patch w = (Ok p, w') ->
  validPolicy p /\
  List.find (settingIs (trim (si_tenantId identity)) POLICY_KEY)
    (db_settings (w_db w')) = Some (mkSetting (trim (si_tenantId identity)) POLICY_KEY (policyJson p)).
Proof.
  unfold replacePolicy. intros (? & w1 & _ & (c & w2 & w3 & Ht & Hr & _ & E3)%scopeRun_Ok)%Tx_bind_Ok.
  apply Tx_bind_Ok in Hr as (? & w4 & _ & Hr). apply Tx_bind_Ok in Hr as (saved & w5 & _ & Hr).
  apply Tx_bind_Ok in Hr as (? & w6 & (w7 & Hu%upsertSetting_Ok & E6)%operationsWait_Ok & [<- <-]%Tx_ret_Ok).
  split; [apply normalizePolicy_validPolicy|]. rewrite E3, E6. rewrite Ht in Hu. exact Hu.
Qed.
End PolicyFacts.

(** A policy that was saved is the policy that is read: after
    [replacePolicy] returned a policy, it is within the bounds of the
    placement, and whenever [policy] next returns for that tenant, in any
    environment, it returns exactly that policy, through the stored JSON and
    the normalisation on both sides. *)
Theorem replacePolicy_reads_back `{Process, Collation} (env1 env2 : Env) (auth1 auth2 : AuthorityEnv)
    identity identity2 patch p q w w' w2 w3 :
  replacePolicy (H := env1) (H1 := auth1) identity patch w = (Ok p, w') ->
  trim (si_tenantId identity2) = trim (si_tenantId identity) -> w_db w2 = w_db w' ->
  policy (H := env2) (H1 := auth2) identity2 w2 = (Ok q, w3) ->
  validPolicy p /\ q = p.
Proof.
  intros [Hv Hf]%replacePolicy_Ok Et Ew Hq. split; [done|]. unfold policy in Hq.
  apply Tx_bind_Ok in Hq as (? & w4 & Hp & Hq).
  apply (ReadOnly_Ok _ _ _ _ (prepareOperationsAuthority_ReadOnly _)) in Hp.
  apply scopeRun_Ok in Hq as (c & w5 & w6 & Ht & Hq & E5 & _).
  apply Tx_bind_Ok in Hq as (? & w7 & (w8 & [E8 _]%assertFeatureEntitled_Ok & E7)%operationsWait_Ok & Hq).
  cbn [w_db tick] in E8. cbn [operationsIdentity si_tenantId] in Ht.
  eapply (readPolicy_stored _ _ (policyJson p)) in Hq; [|done|].
  - rewrite Hq, policyValueOf_json. by apply normalizePolicy_id.
  - rewrite E7, E8, E5, Hp, Ew, Ht, Et. exact Hf.
Qed.

(** ** Concrete instances *)

Definition sampleBody : ShiftBreakRequest := mkShiftBreakRequest "loc-public"
  [mkUpdate Lunch (Some "2026-03-02T12:00:00Z") (Some 45) false; mkUpdate Break1 None None true].
Definition sampleStart : World := mkWorld (ScheduleChanges.sampleScheduleDb DRAFT) 0.
#[local] Notation sampleReplace w :=
  (@replaceShiftBreaks (calm 1772409600000) noBeta (actingAs ScheduleChanges.sampleManager)
    ScheduleChanges.codeUnitOrder codeUnitCollation ScheduleChanges.plainDigest ScheduleChanges.sampleManager
    "s1-public" sampleBody (Some "key-00001") w).
Definition sampleAnswer : Json := ScheduleChanges.okJson (sampleReplace sampleStart).1.
#[local] Notation sampleReplaced := (w_db (sampleReplace sampleStart).2).

Lemma sampleReplaced_differs : sampleReplaced <> w_db sampleStart.
Proof. intros E. apply (f_equal (fun db => map tn_usageCredits (db_tenants db))) in E. vm_compute in E. discriminate E. Qed.

Example sampleReplaced_breaks :
  map (fun b => (br_shiftId b, br_type b, br_startTime b, br_endTime b)) (db_breaks sampleReplaced) =
    [("s1", Some "LUNCH", 1772452800000, 1772455500000)] /\ map tn_usageCredits (db_tenants sampleReplaced) = [4].
Proof. split; vm_compute; reflexivity. Qed.

Lemma replaceShiftBreaks_writes_witness :
  exists key norm row saved next, requireIdempotencyKey (Some "key-00001") = Ok key /\
    normalizeBreakUpdate (sr_breaks sampleBody) = Ok norm /\
    row ∈ db_shifts (w_db sampleStart) /\ wantedShift "t1" "s1-public" "loc-public" (w_db sampleStart) row = true /\
    validPolicy saved /\ breakPayload norm saved = Ok next /\
    Forall (fun e => exists s t, entryWindow e = Some (s, t) /\ sh_startTime row <= s < t /\ t <= sh_endTime row) next /\
    pairwise windowsApart (map windowOr0 next) /\
    BreaksReplaced "t1" (@internalShift ScheduleChanges.codeUnitOrder (w_db sampleStart) row) next
      (@shiftOperation ScheduleChanges.plainDigest ScheduleChanges.sampleManager "s1-public" key)
      (@shiftBreakIdentity codeUnitCollation ScheduleChanges.plainDigest "loc-public" norm) sampleAnswer
      (w_db sampleStart) sampleReplaced.
Proof.
  apply (@replaceShiftBreaks_writes (calm 1772409600000) noBeta (actingAs ScheduleChanges.sampleManager)
    ScheduleChanges.codeUnitOrder codeUnitCollation ScheduleChanges.plainDigest ScheduleChanges.sampleManager
    "s1-public" sampleBody (Some "key-00001") sampleAnswer sampleStart (sampleReplace sampleStart).2).
  - vm_compute. reflexivity.
  - exact sampleReplaced_differs.
Defined.

Lemma replaceShiftBreaks_once_witness :
  w_db (sampleReplace (mkWorld sampleReplaced 700)).2 = sampleReplaced.
Proof.
  refine (proj1 (@replaceShiftBreaks_once noBeta ScheduleChanges.codeUnitOrder codeUnitCollation ScheduleChanges.plainDigest
    (calm 1772409600000) (calm 1772409600000) (actingAs ScheduleChanges.sampleManager)
    (actingAs ScheduleChanges.sampleManager) ScheduleChanges.sampleManager ScheduleChanges.sampleManager
    "s1-public" sampleBody sampleBody (Some "key-00001") sampleAnswer (sampleReplace (mkWorld sampleReplaced 700)).1
    sampleStart (sampleReplace sampleStart).2 (mkWorld sampleReplaced 700)
    (sampleReplace (mkWorld sampleReplaced 700)).2 _ _ _ _ _)).
  - vm_compute. reflexivity.
  - exact sampleReplaced_differs.
  - reflexivity.
  - exact (w_db_mk sampleReplaced 700).
  - apply surjective_pairing.
Defined.

Definition samplePatch : PolicyPatch := mkPolicyPatch None (Some 300) None None (Some 45) None None.
Definition samplePolicyRun : Result LunchBreakPolicy * World :=
  @replacePolicy (calm 0) noBeta (actingAs ScheduleChanges.sampleManager) ScheduleChanges.sampleManager
    samplePatch (mkWorld sampleDb 0).

Lemma replacePolicy_reads_back_witness :
  let p := mkPolicy 120 300 120 10 45 10 5 in validPolicy p /\ p = p.
Proof.
  cbv zeta. apply (@replacePolicy_reads_back noBeta ScheduleChanges.codeUnitOrder (calm 0) (calm 0)
    (actingAs ScheduleChanges.sampleManager) (actingAs ScheduleChanges.sampleManager)
    ScheduleChanges.sampleManager ScheduleChanges.sampleManager samplePatch (mkPolicy 120 300 120 10 45 10 5)
    (mkPolicy 120 300 120 10 45 10 5) (mkWorld sampleDb 0) samplePolicyRun.2 (mkWorld (w_db samplePolicyRun.2) 300)
    (mkWorld (w_db samplePolicyRun.2) 319)).
  - vm_compute. reflexivity.
  - reflexivity.
  - exact (w_db_mk _ _).
  - vm_compute. reflexivity.
Defined.
