(* ===== verification/SetupShifts.v ===== *)
(** * Setting up shifts for breaks

    The handler [setupShifts] of apps/api-v2/src/operations/lunch-breaks.service.ts:
    rows name existing shifts to move or reassign, or new shifts to create; the
    breaks of a moved shift move with it, nobody may be booked twice, and one
    credit pays for all.  The request is idempotent by its key, and by its
    content when it creates a shift for nobody. *)

From S2P Require Import ScheduleChanges ScheduleRefinement.
From S2P Require Import Prelude JsStd JsCollections JsDate ContractHelpers LunchBreakPolicy.
From S2P Require Import LunchBreakPlacement LunchBreaks PayrollRecords Database.
From S2P Require Import FeatureEntitlement Authority.
From S2P Require Import ScheduleStore LunchBreakStore ShiftBreaks.

Definition SETUP_PERSISTED : string := "API_V2_LUNCH_BREAK_SETUP_PERSISTED".
Definition SETUP_RESOURCE : string := "ApiV2LunchBreakSetupRequest".
Definition SETUP_SEMANTIC_RESOURCE : string := "ApiV2LunchBreakSetupSemanticRequest".

(** [SetupShiftInput]: [userId] may be absent, null or an identifier. *)
Record SetupRow := mkSetupRow {
  su_shiftId : option string;
  su_userId : option (option string);
  su_startTime : string;
  su_endTime : string;
}.
Record SetupShiftsRequest := mkSetupShifts { st_locationId : string; st_rows : list SetupRow }.

Definition setupRowJson (r : SetupRow) : Json :=
  JObj [("shiftId", JStr <$> su_shiftId r); ("userId", orJNull <$> su_userId r);
        field "startTime" (JStr (su_startTime r)); field "endTime" (JStr (su_endTime r))].

Definition setupIdentity `{LocaleCompare, Sha256} (input : SetupShiftsRequest) : string :=
  sha256 (canonicalJson (JObj [field "locationId" (JStr (st_locationId input));
                               field "rows" (JArr (map setupRowJson (st_rows input)))])).

(** A new shift for nobody: only then is the content a key of its own. *)
Definition createsUnassigned (input : SetupShiftsRequest) : bool :=
  existsb (fun row => bool_decide (su_shiftId row = None) && bool_decide (mjoin (su_userId row) = None)) (st_rows input).

(** ** Plans *)

Record SetupPlan := mkSetupPlan {
  sp_existing : option InternalShift;
  sp_startTime : Z;
  sp_endTime : Z;
  sp_nextUserId : option string;
  sp_translatedBreaks : list StoredBreak;
  sp_changed : bool;
}.

Definition setupInvalid {A} (detail : string) : Result A :=
  throwProblem 422 "invalid_setup_shifts" detail "Setup shift validation failed".

(** The shifts that exist already, as the request spells them. *)
Definition existingPublicIds (rows : list SetupRow) : list string := omap (fun row => truthy (su_shiftId row)) rows.

Definition assignedPublicIds (rows : list SetupRow) : list string := dedupe (omap (fun row => mjoin (su_userId row)) rows).

Definition planRow `{LocaleCompare} (existingByPublicId : JsMap string InternalShift) (userByPublicId : JsMap string string)
    (row : SetupRow) : Result SetupPlan :=
  let existing := truthy (su_shiftId row) ≫= mapGet existingByPublicId in
  startTime ← parseUtcInstant (su_startTime row) "/rows/startTime";
  endTime ← parseUtcInstant (su_endTime row) "/rows/endTime";
  if (endTime <=? startTime) || (86400000 <? endTime - startTime) then
    setupInvalid "Setup shift end time must be after start time."
  else if match existing ≫= is_schedule with
          | Some s => (startTime <? sc_startDate s) || (sc_endDate s <=? startTime)
          | None => false
          end then
    setupInvalid "A setup shift must remain inside its draft schedule window."
  else
    let nextUserId := match su_userId row with
                      | None => existing ≫= fun e => sh_userId (is_row e)
                      | Some None => None
                      | Some (Some userId) => mapGet userByPublicId userId
                      end in
    match existing with
    | None => Ok (mkSetupPlan None startTime endTime nextUserId [] true)
    | Some e =>
        let s := is_row e in
        let moved := negb (sh_startTime s =? startTime) || negb (sh_endTime s =? endTime) in
        translated ← (if moved then translateBreaks (map storedBreak (is_breaks e)) (sh_startTime s) startTime endTime else Ok []);
        Ok (mkSetupPlan (Some e) startTime endTime nextUserId translated
              (moved || negb (bool_decide (sh_userId s = nextUserId))))
    end.

(** ** Overlaps *)

Definition setupOverlap {A} (detail : string) : Result A := throwProblem 409 "setup_shift_overlap" detail "Conflict".

(** The loop that collects the plans of each person. *)
Fixpoint plansByUser (byUser : JsMap string (list SetupPlan)) (plans : list SetupPlan) : Result (JsMap string (list SetupPlan)) :=
  match plans with
  | [] => Ok byUser
  | plan :: rest =>
      match truthy (sp_nextUserId plan) with
      | None => plansByUser byUser rest
      | Some userId =>
          let prior := default [] (mapGet byUser userId) in
          if existsb (fun entry => (sp_startTime plan <? sp_endTime entry) && (sp_startTime entry <? sp_endTime plan)) prior then
            setupOverlap "Setup shifts cannot overlap for the same assigned staff member."
          else plansByUser (mapSet byUser userId (prior ++ [plan])) rest
      end
  end.

(** A live shift of a person that meets a plan, among those the request does
    not name. *)
Definition bookedElsewhere (tenantId userId : string) (excludedShiftIds : list string) (plan : SetupPlan) (s : Shift) : bool :=
  bool_decide (sh_tenantId s = tenantId) && bool_decide (sh_userId s = Some userId) && bool_decide (sh_deletedAt s = None)
  && (sh_startTime s <? sp_endTime plan) && (sp_startTime plan <? sh_endTime s)
  && negb (bool_decide (sh_id s ∈ excludedShiftIds)).

(** ** Writes *)

(** The row as it was read, at the location. *)
Definition unchangedShift (tenantId locationId : string) (row s : Shift) : bool :=
  bool_decide (sh_id s = sh_id row) && bool_decide (sh_tenantId s = tenantId) && bool_decide (sh_locationId s = locationId)
  && bool_decide (sh_userId s = sh_userId row) && (sh_startTime s =? sh_startTime row) && (sh_endTime s =? sh_endTime row)
  && bool_decide (sh_deletedAt s = None).

Definition replanned (plan : SetupPlan) (updatedAt : Z) (s : Shift) : Shift :=
  mkShift (sh_id s) (sh_publicId s) (sh_tenantId s) (sh_locationId s) (sh_scheduleId s) (sp_nextUserId plan)
    (sp_startTime plan) (sp_endTime plan) (sh_role s) updatedAt (sh_deletedAt s).

Definition newShift (id publicId tenantId locationId : string) (plan : SetupPlan) (updatedAt : Z) : Shift :=
  mkShift id publicId tenantId locationId None (sp_nextUserId plan) (sp_startTime plan) (sp_endTime plan) None updatedAt None.

Definition breakAt (id shiftId : string) (b : BreakRow) : bool := bool_decide (br_id b = id) && bool_decide (br_shiftId b = shiftId).
Definition movedBreak (entry : StoredBreak) (b : BreakRow) : BreakRow :=
  mkBreak (br_id b) (br_shiftId b) (br_type b) (sb_startTime entry) (sb_endTime entry) (br_paid b).

Definition locationAt (tenantId publicId : string) (l : Location) : bool :=
  bool_decide (lo_tenantId l = tenantId) && bool_decide (lo_publicId l = lowerText publicId) && bool_decide (lo_deletedAt l = None).

(** The existing shifts a request names. *)
Definition namedShift (tenantId : string) (publicIds : list string) (db : Db) (s : Shift) : bool :=
  bool_decide (sh_tenantId s = tenantId) && bool_decide (sh_deletedAt s = None)
  && bool_decide (sh_publicId s ∈ map lowerText publicIds) && schedulableShift db s.

Definition setupReason (operationId : string) : string := "Lunch/break setup shift persistence (" +:+ operationId +:+ ")".

(** [shiftIds] must be UUIDs. *)
Definition setupAnswer (response : Json) : bool :=
  match prop "shiftIds" response with
  | Some (JArr ids) => forallb (fun id => match id with JStr s => isUuid s | _ => false end) ids
  | _ => false
  end.

Definition setupResponse (publicShiftIds : list string) : Json := JObj [field "shiftIds" (JArr (map JStr publicShiftIds))].

Section Setup.
Context `{Env, Process, AuthorityEnv, Collation, LC : LocaleCompare, SH : Sha256}.

Definition assertSetupOverlaps (tenantId : string) (plans : list SetupPlan) (excludedShiftIds : list string) : Tx unit :=
  byUser ← liftResult (plansByUser [] plans);
  forEach (fun '(userId, entries) =>
    forEach (fun plan =>
      overlap ← operationsWait (findMany (bookedElsewhere tenantId userId excludedShiftIds plan));
      if (0 <? length overlap)%nat then
        liftResult (setupOverlap "A selected staff member already has a shift that overlaps this setup window.")
      else mret tt) entries) byUser.

(** The breaks of a moved shift. *)
Definition moveBreaks (shiftId : string) (entries : list StoredBreak) : Tx unit :=
  forEach (fun entry =>
    count ← operationsWait (updateMany (breakAt (sb_id entry) shiftId) (movedBreak entry));
    if negb (count =? 1)%nat then
      problem 409 "concurrent_change"
        "A dependent lunch or break changed while setup shifts were being saved. Reload and retry." "Concurrent change"
    else mret tt) entries.

Definition savePlan (tenantId locationId : string) (plan : SetupPlan) : Tx string :=
  match sp_existing plan with
  | Some existing =>
      let row := is_row existing in
      if negb (sp_changed plan) then mret (sh_publicId row) else
      count ← operationsWait (
        updatedAt ← now; updateMany (unchangedShift tenantId locationId row) (replanned plan updatedAt));
      if negb (count =? 1)%nat then
        problem 409 "concurrent_change" "A setup shift changed while it was being saved. Reload and retry." "Concurrent change"
      else
        _ ← moveBreaks (sh_id row) (sp_translatedBreaks plan);
        mret (sh_publicId row)
  | None =>
      operationsWait (
        id ← randomUUID; publicId ← randomUUID; updatedAt ← now;
        _ ← createRow (newShift id publicId tenantId locationId plan updatedAt);
        mret publicId)
  end.

Definition writeSetupAudit (identity : SessionIdentity) (operationId : string) (semanticOperationId : option string)
    (bodyHash : string) (response : Json) : Tx unit :=
  _ ← operationsWait (
        id ← randomUUID; createRow (receipt id SETUP_PERSISTED SETUP_RESOURCE operationId bodyHash identity response));
  match semanticOperationId with
  | None => mret tt
  | Some semantic =>
      operationsWait (
        id ← randomUUID;
        createRow (receipt id SETUP_PERSISTED SETUP_SEMANTIC_RESOURCE semantic bodyHash identity response))
  end.

Definition findSetupReplayInTransaction (resource tenantId operationId bodyHash : string) : Tx (option Json) :=
  findReceipt tenantId SETUP_PERSISTED resource operationId bodyHash
    "The saved setup shift outcome is unavailable. Use a new Idempotency-Key."
    "Idempotency-Key was already used with a different setup shift request." setupAnswer.

Definition findSetupReplay (identity : SessionIdentity) (resource tenantId operationId bodyHash : string) : Tx (option Json) :=
  scopeRun identity (fun _ => findSetupReplayInTransaction resource tenantId operationId bodyHash).

(** The existing shifts, in drafts, at the location, with their breaks locked. *)
Definition loadExisting (tenantId : string) (location : Location) (rows : list SetupRow) : Tx (list InternalShift) :=
  let publicIds := existingPublicIds rows in
  if negb (length (dedupe publicIds) =? length publicIds)%nat then
    liftResult (setupInvalid "Each existing setup shift can appear only once.")
  else
    found ← (if bool_decide (publicIds = []) then mret [] else operationsWait (findShifts (namedShift tenantId publicIds)));
    if negb (length found =? length publicIds)%nat
       || existsb (fun row => negb (bool_decide (is_locationPublicId row = lo_publicId location))) found then
      problem 404 "shift_not_found" "One or more setup shifts were not found for the selected location." "Shift not found"
    else
      _ ← operationsWait (assertDraftSchedules tenantId (map (fun row => sc_id <$> is_schedule row) found));
      _ ← (if bool_decide (found = []) then mret tt else operationsWait lockRows);
      mret found.

Definition loadAssigned (tenantId : string) (rows : list SetupRow) : Tx (JsMap string string) :=
  let publicIds := assignedPublicIds rows in
  users ← (if bool_decide (publicIds = []) then mret [] else operationsWait (findMany (requestedUser tenantId publicIds)));
  let userByPublicId := mapOf (map (fun u => (us_publicId u, us_id u)) users) in
  if negb (length userByPublicId =? length publicIds)%nat then
    problem 404 "staff_not_found" "A selected staff member is not available for scheduling in this workspace."
      "Staff member not found"
  else mret userByPublicId.

Definition payForSetup (tenantId operationId : string) : Tx unit :=
  granted ← operationsWait (assertFeatureEntitled tenantId scheduling true);
  match granted with
  | None => problem 403 "scheduling_not_entitled" "Setup shifts require usage credits." "Feature unavailable"
  | Some entitlement =>
      _ ← operationsWait (debitFeatureCredit assertCurrent tenantId entitlement operationId (setupReason operationId) None);
      mret tt
  end.

(** A setup that was not answered before. *)
Definition storeSetup (current : SessionIdentity) (body : SetupShiftsRequest) (operationId : string)
    (semanticOperationId : option string) (bodyHash : string) : Tx Json :=
  let tenantId := si_tenantId current in
  _ ← operationsWait (assertFeatureEntitled tenantId scheduling false);
  _ ← operationsWait (lockSchedulingAggregate tenantId);
  found ← operationsWait (findFirst (locationAt tenantId (st_locationId body)));
  match found with
  | None => problem 404 "location_not_found" "The selected location was not found in this workspace." "Location not found"
  | Some location =>
      existingRows ← loadExisting tenantId location (st_rows body);
      userByPublicId ← loadAssigned tenantId (st_rows body);
      let existingByPublicId := mapOf (map (fun row => (sh_publicId (is_row row), row)) existingRows) in
      plans ← liftResult (mapM (planRow existingByPublicId userByPublicId) (st_rows body));
      _ ← operationsWait (assertSetupOverlaps tenantId plans (map (fun row => sh_id (is_row row)) existingRows));
      _ ← (if existsb sp_changed plans then payForSetup tenantId operationId else mret tt);
      publicShiftIds ← mapM (savePlan tenantId (lo_id location)) plans;
      _ ← operationsWait (incrementDraftRevisions tenantId (map (fun plan => sc_id <$> (sp_existing plan ≫= is_schedule)) plans));
      let response := setupResponse publicShiftIds in
      _ ← operationsWait (writeSetupAudit current operationId semanticOperationId bodyHash response);
      mret response
  end.

(** A stored answer under the key, then under the content, or the writes. *)
Definition setupInScope (current : SessionIdentity) (body : SetupShiftsRequest) (operationId : string)
    (semanticOperationId : option string) (bodyHash : string) : Tx Json :=
  let tenantId := si_tenantId current in
  lockedReplay ← operationsWait (findSetupReplayInTransaction SETUP_RESOURCE tenantId operationId bodyHash);
  match lockedReplay with
  | Some response => mret response
  | None =>
      semanticReplay ← match semanticOperationId with
        | None => mret None
        | Some semantic => operationsWait (findSetupReplayInTransaction SETUP_SEMANTIC_RESOURCE tenantId semantic bodyHash)
        end;
      match semanticReplay with
      | Some response => mret response
      | None => storeSetup current body operationId semanticOperationId bodyHash
      end
  end.

Definition setupOperation (tenantId key : string) : string :=
  canonicalIdempotencyOperation "api-v2:lunch-break-setup" tenantId key.
Definition semanticOperation (tenantId : string) (body : SetupShiftsRequest) : option string :=
  if createsUnassigned body
  then Some (canonicalIdempotencyOperation "api-v2:lunch-break-setup-semantic" tenantId (setupIdentity body)) else None.

Definition setupShifts (identity : SessionIdentity) (body : SetupShiftsRequest) (idempotencyKeyValue : option string) : Tx Json :=
  let identity := operationsIdentity identity in
  let tenantId := si_tenantId identity in
  idempotencyKey ← liftResult (requireIdempotencyKey idempotencyKeyValue);
  let bodyHash := setupIdentity body in
  let operationId := setupOperation tenantId idempotencyKey in
  let semanticOperationId := semanticOperation tenantId body in
  _ ← prepareOperationsAuthority identity;
  byKey ← findSetupReplay identity SETUP_RESOURCE tenantId operationId bodyHash;
  replay ← match byKey, semanticOperationId with
           | None, Some semantic => findSetupReplay identity SETUP_SEMANTIC_RESOURCE tenantId semantic bodyHash
           | _, _ => mret byKey
           end;
  match replay with
  | Some response => mret response
  | None =>
      recoverReceipt
        (scopeRun identity (fun current => setupInScope current body operationId semanticOperationId bodyHash))
        (findSetupReplay identity SETUP_RESOURCE tenantId operationId bodyHash)
  end.
End Setup.

(** ** What a setup does *)

Definition planWindow (plan : SetupPlan) : Z * Z := (sp_startTime plan, sp_endTime plan).

(** Two plans for the same person do not meet. *)
Definition plansApart (p q : SetupPlan) : Prop :=
  forall u, u <> "" -> sp_nextUserId p = Some u -> sp_nextUserId q = Some u -> windowsApart (planWindow p) (planWindow q).

#[global] Instance plansApart_sym : Symmetric plansApart.
Proof. intros p q Hpq u Hu H1 H2. symmetry. by apply (Hpq u). Qed.

Lemma truthy_Some v u : truthy v = Some u <-> v = Some u /\ u <> "".
Proof. unfold truthy, isEmpty. destruct v as [v|]; [case_bool_decide|]; naive_solver. Qed.

Lemma overlap_apart p q :
  (sp_startTime p <? sp_endTime q) && (sp_startTime q <? sp_endTime p) = false -> windowsApart (planWindow p) (planWindow q).
Proof. unfold windowsApart, planWindow. cbn. intros [?|?]%andb_false_iff; bool_lia. Qed.

(** The loop over the plans finds every pair of the same person, and groups
    them. *)
Lemma plansByUser_Ok plans : forall m m', plansByUser m plans = Ok m' ->
  (forall p u e, p ∈ plans -> u <> "" -> sp_nextUserId p = Some u -> e ∈ default [] (mapGet m u) ->
     windowsApart (planWindow p) (planWindow e)) /\
  pairwise plansApart plans /\
  forall u, u <> "" -> forall p, p ∈ default [] (mapGet m u) \/ (p ∈ plans /\ sp_nextUserId p = Some u) -> p ∈ default [] (mapGet m' u).
Proof.
  induction plans as [|plan rest IH]; cbn [plansByUser]; intros m m' Hr.
  - injection Hr as <-. split; [set_solver|]. split; [by intros ? ? ? ? _ ?%list_elem_of_lookup_2%elem_of_nil|].
    intros u _ p [Hp|[Hp _]]; [done|set_solver].
  - destruct (truthy (sp_nextUserId plan)) as [v|] eqn:Ev.
    + apply truthy_Some in Ev as [Ev Hv]. destruct (existsb _ _) eqn:Ex; [done|]. apply IH in Hr as (Hpre & Hpair & Hin).
      assert (Hnew : Forall (fun e => windowsApart (planWindow plan) (planWindow e)) (default [] (mapGet m v))).
      { apply Forall_forall. intros e He. apply overlap_apart.
        destruct (_ && _) eqn:E; [|done]. rewrite <- not_true_iff_false, existsb_exists in Ex. exfalso. apply Ex.
        exists e. split; [by apply list_elem_of_In|done]. }
      rewrite Forall_forall in Hnew. split; [|split].
      * intros p u e [->|Hp]%elem_of_cons Hu Hpu He.
        -- assert (u = v) as -> by congruence. by apply Hnew.
        -- apply (Hpre p u e Hp Hu Hpu). rewrite mapGet_set. case_decide; [subst; set_solver|done].
      * apply pairwise_cons; [exact _|]. split; [|done]. apply Forall_forall. intros q Hq u Hu H1 H2.
        symmetry. apply (Hpre q u plan Hq Hu H2). assert (u = v) as -> by congruence. rewrite mapGet_set, decide_True by done. set_solver.
      * intros u Hu p Hp. apply Hin; [done|]. rewrite mapGet_set. case_decide as E; [subst u|].
        -- destruct Hp as [Hp|[[->|Hp]%elem_of_cons Hpu]]; [left; set_solver|left; set_solver|by right].
        -- destruct Hp as [Hp|[[->|Hp]%elem_of_cons Hpu]]; [by left|congruence|by right].
    + apply IH in Hr as (Hpre & Hpair & Hin).
      assert (Hno : forall u, u <> "" -> sp_nextUserId plan <> Some u) by (intros u Hu E; by rewrite (proj2 (truthy_Some _ u)) in Ev).
      split; [|split].
      * intros p u e [->|Hp]%elem_of_cons Hu Hpu He; [by destruct (Hno u)|by apply (Hpre p u)].
      * apply pairwise_cons; [exact _|]. split; [|done]. apply Forall_forall. intros q _ u Hu H1. by destruct (Hno u).
      * intros u Hu p [Hp|[[->|Hp]%elem_of_cons Hpu]]; [by apply Hin; [|left]|by destruct (Hno u)|by apply Hin; [|right]].
Qed.

(** *** The rows after the writes *)

Definition reviseShifts (tenantId locationId : string) (plan : SetupPlan) (row : Shift) (updatedAt : Z) (l : list Shift) : list Shift :=
  map (fun s => if unchangedShift tenantId locationId row s then replanned plan updatedAt s else s) l.

Definition reviseBreaks (shiftId : string) (entries : list StoredBreak) (l : list BreakRow) : list BreakRow :=
  fold_left (fun bs e => map (fun b => if breakAt (sb_id e) shiftId b then movedBreak e b else b) bs) entries l.

(** The shift a plan ends up in, by its two identifiers, and the tables. *)
Inductive planSaved (tenantId locationId : string) (plan : SetupPlan)
    : string * string -> list Shift * list BreakRow -> list Shift * list BreakRow -> Prop :=
| saved_kept e st : sp_existing plan = Some e -> sp_changed plan = false ->
    planSaved tenantId locationId plan (sh_id (is_row e), sh_publicId (is_row e)) st st
| saved_moved e updatedAt l bs : sp_existing plan = Some e -> sp_changed plan = true ->
    length (List.filter (unchangedShift tenantId locationId (is_row e)) l) = 1%nat ->
    planSaved tenantId locationId plan (sh_id (is_row e), sh_publicId (is_row e)) (l, bs)
      (reviseShifts tenantId locationId plan (is_row e) updatedAt l, reviseBreaks (sh_id (is_row e)) (sp_translatedBreaks plan) bs)
| saved_new id publicId updatedAt l bs : sp_existing plan = None ->
    existsb (conflicts (newShift id publicId tenantId locationId plan updatedAt)) l = false ->
    planSaved tenantId locationId plan (id, publicId) (l, bs) (l ++ [newShift id publicId tenantId locationId plan updatedAt], bs).

Inductive plansSaved (tenantId locationId : string)
    : list SetupPlan -> list (string * string) -> list Shift * list BreakRow -> list Shift * list BreakRow -> Prop :=
| plans_none st : plansSaved tenantId locationId [] [] st st
| plans_next plan plans owner owners st1 st2 st3 :
    planSaved tenantId locationId plan owner st1 st2 -> plansSaved tenantId locationId plans owners st2 st3 ->
    plansSaved tenantId locationId (plan :: plans) (owner :: owners) st1 st3.

Definition tablesOf (db : Db) : list Shift * list BreakRow := (db_shifts db, db_breaks db).
Definition withTables (st : list Shift * list BreakRow) (db : Db) : Db := withRows (R := BreakRow) st.2 (withRows (R := Shift) st.1 db).

Lemma withTables_id db : withTables (tablesOf db) db = db.
Proof. by destruct db. Qed.
Lemma withTables_twice st st' db : withTables st' (withTables st db) = withTables st' db.
Proof. by destruct db. Qed.
Lemma tablesOf_with st db : tablesOf (withTables st db) = st.
Proof. destruct db. by destruct st. Qed.

Section SetupFacts.
Context `{Env, Process, AuthorityEnv, Collation, LC : LocaleCompare, SH : Sha256}.

Lemma moveBreaks_Ok shiftId entries u w w' :
  moveBreaks shiftId entries w = (Ok u, w') ->
  w_db w' = withTables (db_shifts (w_db w), reviseBreaks shiftId entries (db_breaks (w_db w))) (w_db w).
Proof.
  unfold moveBreaks, problem, throwProblemTx. revert w. induction entries as [|e entries IH]; intros w; cbn [forEach].
  - intros [_ <-]%Tx_ret_Ok. symmetry. apply withTables_id.
  - intros (? & w1 & Hm & Hr%IH)%Tx_bind_Ok. apply Tx_bind_Ok in Hm as (n & w2 & (w3 & [-> E3]%updateMany_Ok & E2)%operationsWait_Ok & Hm).
    destruct (negb _); [by apply throwTx_Ok in Hm|]. apply Tx_ret_Ok in Hm as [_ <-]. cbn [w_db tick rows Table_Break] in *.
    rewrite Hr, E2, E3. by destruct (w_db w).
Qed.

Lemma savePlan_Ok tenantId locationId plan publicId w w' :
  savePlan tenantId locationId plan w = (Ok publicId, w') ->
  exists id st, planSaved tenantId locationId plan (id, publicId) (tablesOf (w_db w)) st /\ w_db w' = withTables st (w_db w).
Proof.
  unfold savePlan, problem, throwProblemTx. destruct (sp_existing plan) as [e|] eqn:Ee.
  - destruct (sp_changed plan) eqn:Ec; cbn [negb].
    + intros (n & w1 & (w2 & Hu & E1)%operationsWait_Ok & Hr)%Tx_bind_Ok.
      apply Tx_bind_Ok in Hu as (t & w3 & [-> ->]%now_Ok & [Hn E2]%updateMany_Ok).
      destruct (n =? 1)%nat eqn:En; cbn [negb] in Hr; [|by apply throwTx_Ok in Hr]. apply Nat.eqb_eq in En. subst n.
      apply Tx_bind_Ok in Hr as (? & w4 & Hb%moveBreaks_Ok & [<- <-]%Tx_ret_Ok). cbn [w_db tick rows Table_Shift] in *.
      eexists _, _. split; [by apply (saved_moved _ _ _ e)|]. rewrite Hb, E1, E2. by destruct (w_db w).
    + intros [<- <-]%Tx_ret_Ok. eexists _, _. split; [by apply saved_kept|]. symmetry. apply withTables_id.
  - intros (w1 & Hr & E1)%operationsWait_Ok. apply Tx_bind_Ok in Hr as (id & w2 & [-> ->]%randomUUID_Ok & Hr).
    apply Tx_bind_Ok in Hr as (pid & w3 & [-> ->]%randomUUID_Ok & Hr). apply Tx_bind_Ok in Hr as (t & w4 & [-> ->]%now_Ok & Hr).
    apply Tx_bind_Ok in Hr as (? & w5 & [Hc E5]%createRow_Ok & [<- <-]%Tx_ret_Ok). cbn [w_db tick rows Table_Shift] in *.
    eexists _, _. split; [by apply saved_new|]. rewrite E1, E5. by destruct (w_db w).
Qed.

Lemma savePlans_Ok tenantId locationId plans publicIds w w' :
  mapM (savePlan tenantId locationId) plans w = (Ok publicIds, w') ->
  exists owners st, owners.*2 = publicIds /\ plansSaved tenantId locationId plans owners (tablesOf (w_db w)) st /\
    w_db w' = withTables st (w_db w).
Proof.
  revert w w' publicIds. induction plans as [|plan plans IH]; intros w w' publicIds; cbn [mapM].
  - intros [<- <-]%Tx_ret_Ok. exists [], (tablesOf (w_db w)). split; [done|]. split; [constructor|]. symmetry. apply withTables_id.
  - intros (pid & w1 & (id & st & Hs & E1)%savePlan_Ok & Hr)%Tx_bind_Ok.
    apply Tx_bind_Ok in Hr as (rest & w2 & (owners & st' & <- & Hss & E2)%IH & [<- <-]%Tx_ret_Ok).
    rewrite E1, tablesOf_with in Hss. exists ((id, pid) :: owners), st'. split; [done|].
    split; [by econstructor|]. rewrite E2, E1. apply withTables_twice.
Qed.

Lemma bookings_Ok tenantId userId excluded entries u w w' :
  forEach (fun plan =>
    overlap ← operationsWait (findMany (bookedElsewhere tenantId userId excluded plan));
    if (0 <? length overlap)%nat then
      liftResult (setupOverlap "A selected staff member already has a shift that overlaps this setup window.")
    else mret tt) entries w = (Ok u, w') ->
  w_db w' = w_db w /\ forall p s, p ∈ entries -> s ∈ db_shifts (w_db w) -> bookedElsewhere tenantId userId excluded p s = false.
Proof.
  revert w. induction entries as [|plan entries IH]; intros w; cbn [forEach].
  - intros [_ <-]%Tx_ret_Ok. split; [done|set_solver].
  - intros (? & w1 & Hp & [E Hr]%IH)%Tx_bind_Ok. apply Tx_bind_Ok in Hp as (found & w2 & (w3 & [-> E3]%findMany_Ok & E2)%operationsWait_Ok & Hp).
    cbn [w_db tick rows Table_Shift] in *. destruct (0 <? _)%nat eqn:En; [by apply liftResult_Ok in Hp as [? _]|].
    apply Tx_ret_Ok in Hp as [_ <-]. rewrite E2, E3 in E, Hr. split; [done|]. intros p s [->|Hin]%elem_of_cons Hs; [|by apply Hr].
    destruct (bookedElsewhere _ _ _ plan s) eqn:Eb; [|done]. exfalso. apply Nat.ltb_ge in En.
    assert (Hf : In s (List.filter (bookedElsewhere tenantId userId excluded plan) (db_shifts (w_db w)))).
    { apply filter_In. split; [by apply list_elem_of_In|done]. }
    destruct (List.filter _ _); [done|cbn in En; lia].
Qed.

Lemma assertSetupOverlaps_Ok tenantId plans excluded u w w' :
  assertSetupOverlaps tenantId plans excluded w = (Ok u, w') ->
  w_db w' = w_db w /\ pairwise plansApart plans /\
  forall p v s, p ∈ plans -> sp_nextUserId p = Some v -> v <> "" -> s ∈ db_shifts (w_db w) ->
    bookedElsewhere tenantId v excluded p s = false.
Proof.
  unfold assertSetupOverlaps. intros (byUser & w1 & [Hg <-]%liftResult_Ok & Hr)%Tx_bind_Ok.
  apply plansByUser_Ok in Hg as (_ & Hpair & Hin).
  assert (Hall : w_db w' = w_db w /\ forall v entries p s, (v, entries) ∈ byUser -> p ∈ entries -> s ∈ db_shifts (w_db w) ->
    bookedElsewhere tenantId v excluded p s = false).
  { clear Hin. revert w Hr. induction byUser as [|[v entries] byUser IH]; intros w; cbn [forEach].
    - intros [_ <-]%Tx_ret_Ok. split; [done|set_solver].
    - intros (? & w2 & [E Hb]%bookings_Ok & [E' Hr]%IH)%Tx_bind_Ok. rewrite E in E', Hr. split; [done|].
      intros v' es p s [[= -> ->]|Hm]%elem_of_cons; [by apply Hb|by apply Hr]. }
  destruct Hall as [E Hb]. split; [done|]. split; [done|]. intros p v s Hp Hv Hne Hs.
  specialize (Hin v Hne p (or_intror (conj Hp Hv))). destruct (mapGet byUser v) as [entries|] eqn:Em; [|set_solver].
  by apply (Hb v entries); [apply mapGet_Some_elem in Em|..].
Qed.
End SetupFacts.

(** *** What the rows hold *)

(** The shift is live and is what its plan asked for. *)
Record holdsPlan (tenantId : string) (plan : SetupPlan) (publicId : string) (s : Shift) : Prop := mkHolds {
  hp_publicId : sh_publicId s = publicId;
  hp_tenant : sh_tenantId s = tenantId;
  hp_live : sh_deletedAt s = None;
  hp_window : shiftWindow s = planWindow plan;
  hp_user : sh_userId s = sp_nextUserId plan;
}.

(** The existing shift of a plan is a row as it was read. *)
Definition planRead (tenantId : string) (l0 : list Shift) (plan : SetupPlan) : Prop :=
  forall e, sp_existing plan = Some e -> is_row e ∈ l0 /\ sh_tenantId (is_row e) = tenantId /\ sh_deletedAt (is_row e) = None /\
    (sp_changed plan = false -> shiftWindow (is_row e) = planWindow plan /\ sh_userId (is_row e) = sp_nextUserId plan).

Definition existingId (plan : SetupPlan) : option string := (fun e => sh_id (is_row e)) <$> sp_existing plan.

Definition ownersOf (done : list (SetupPlan * (string * string))) : list string := map (fun d => d.2.1) done.

(** After the plans of [done]: each is held by the shift of its own, and the
    other rows are those that were there. *)
Record SetupInv (tenantId : string) (l0 : list Shift) (done : list (SetupPlan * (string * string))) (l : list Shift) : Prop := mkInv {
  iv_unique : idsUnique l;
  iv_owners : NoDup (ownersOf done);
  iv_done : forall d, d ∈ done -> exists s, s ∈ l /\ sh_id s = d.2.1 /\ holdsPlan tenantId d.1 d.2.2 s;
  iv_rows : forall s, s ∈ l -> (s ∈ l0 /\ sh_id s ∉ ownersOf done) \/
    exists d, d ∈ done /\ d.2.1 = sh_id s /\ holdsPlan tenantId d.1 d.2.2 s;
  iv_kept : forall s, s ∈ l0 -> sh_id s ∉ ownersOf done -> s ∈ l;
}.

Lemma ownersOf_snoc done d : ownersOf (done ++ [d]) = ownersOf done ++ [d.2.1].
Proof. unfold ownersOf. by rewrite map_app. Qed.
Lemma ownersOf_elem done d : d ∈ done -> d.2.1 ∈ ownersOf done.
Proof. intros Hd. unfold ownersOf. apply list_elem_of_In, in_map_iff. exists d. split; [done|by apply list_elem_of_In]. Qed.

Lemma SetupInv_start tenantId l0 : idsUnique l0 -> SetupInv tenantId l0 [] l0.
Proof. intros Hu. split; [done|constructor|set_solver|..]; intros s Hs; [left; split; [done|apply not_elem_of_nil]|done]. Qed.

Lemma unique_id (l : list Shift) s t : idsUnique l -> s ∈ l -> t ∈ l -> sh_id s = sh_id t -> s = t.
Proof. intros [Hn _] Hs Ht E. by apply (NoDup_map_inj sh_id l). Qed.

(** The one row that is updated is the one that was read. *)
Lemma revised_row tenantId locationId row l s :
  idsUnique l -> row ∈ l -> length (List.filter (unchangedShift tenantId locationId row) l) = 1%nat ->
  s ∈ l -> unchangedShift tenantId locationId row s = bool_decide (sh_id s = sh_id row).
Proof.
  intros Hu Hrow Hone Hs.
  assert (Hid : forall x, x ∈ l -> unchangedShift tenantId locationId row x = true -> x = row).
  { intros x Hx Hp. unfold unchangedShift in Hp. bools. destruct_and?; by apply (unique_id l). }
  case_bool_decide as E.
  - apply (unique_id l) in E; [|done..]. subst s. destruct (List.filter _ l) as [|x k] eqn:Ef; [done|].
    assert (Hx : In x (List.filter (unchangedShift tenantId locationId row) l)) by (rewrite Ef; by left).
    apply filter_In in Hx as [Hx%list_elem_of_In Hp]. pose proof (Hid x Hx Hp) as ->. exact Hp.
  - apply not_true_iff_false. intros Hp. apply E. by rewrite (Hid s).
Qed.

Lemma replanned_ids plan t s : sh_id (replanned plan t s) = sh_id s /\ sh_publicId (replanned plan t s) = sh_publicId s.
Proof. done. Qed.

Lemma reviseShifts_unique tenantId locationId plan row t l : idsUnique l -> idsUnique (reviseShifts tenantId locationId plan row t l).
Proof.
  intros [H1 H2]. unfold reviseShifts. split; rewrite map_map.
  - rewrite (map_ext _ sh_id); [done|]. intros s. by destruct (unchangedShift _ _ _ _).
  - rewrite (map_ext _ sh_publicId); [done|]. intros s. by destruct (unchangedShift _ _ _ _).
Qed.

Lemma planSaved_inv tenantId locationId l0 done plan owner l bs l' bs' :
  idsUnique l0 -> SetupInv tenantId l0 done l -> planRead tenantId l0 plan ->
  (forall i, existingId plan = Some i -> i ∉ ownersOf done) ->
  planSaved tenantId locationId plan owner (l, bs) (l', bs') ->
  SetupInv tenantId l0 (done ++ [(plan, owner)]) l' /\ (existingId plan = Some owner.1 \/ owner.1 ∉ map sh_id l0).
Proof.
  intros Hu0 Hi Hread Hown Hs. inversion Hs as [e st He Hc|e t l1 b1 He Hc Hone|id pid t l1 b1 He Hfresh]; subst.
  - destruct (Hread e He) as (Hrow & Ht & Hd & Heq). specialize (Heq Hc). unfold existingId in *. rewrite He in *. cbn in *.
    specialize (Hown _ eq_refl). split; [|by left]. destruct Hi as [Hu Hno Hdone Hrows Hkept].
    assert (Hhold : holdsPlan tenantId plan (sh_publicId (is_row e)) (is_row e)) by (split; tauto).
    split; [done|rewrite ownersOf_snoc|..].
    + apply NoDup_app. split; [done|]. split; [|apply NoDup_singleton]. intros x Hx ->%list_elem_of_singleton. by apply Hown.
    + intros d [Hd'| ->%list_elem_of_singleton]%elem_of_app; [by apply Hdone|]. exists (is_row e). split; [by apply Hkept|done].
    + intros s Hsin. rewrite ownersOf_snoc. destruct (Hrows s Hsin) as [[Hs0 Hn]|(d & Hd' & ? & ?)].
      * destruct (decide (sh_id s = sh_id (is_row e))) as [E|E].
        -- right. assert (s = is_row e) as -> by (by apply (unique_id l0)). exists (plan, (sh_id (is_row e), sh_publicId (is_row e))).
           split; [set_solver|done].
        -- left. split; [done|]. set_solver.
      * right. exists d. split; [set_solver|done].
    + intros s Hs0 Hn. apply Hkept; [done|]. rewrite ownersOf_snoc in Hn. set_solver.
  - destruct (Hread e He) as (Hrow & Ht & Hd & _). unfold existingId in *. rewrite He in *. cbn in *.
    specialize (Hown _ eq_refl). split; [|by left]. destruct Hi as [Hu Hno Hdone Hrows Hkept].
    pose proof (Hkept _ Hrow Hown) as Hrowl. pose proof (fun s => revised_row _ _ _ _ s Hu Hrowl Hone) as Hrev.
    assert (Hother : forall s, s ∈ l -> sh_id s <> sh_id (is_row e) -> s ∈ reviseShifts tenantId locationId plan (is_row e) t l).
    { intros s Hsl Hne. apply list_elem_of_In, in_map_iff. exists s. rewrite Hrev, bool_decide_false by done. split; [done|by apply list_elem_of_In]. }
    split; [by apply reviseShifts_unique|rewrite ownersOf_snoc|..].
    + apply NoDup_app. split; [done|]. split; [|apply NoDup_singleton]. intros x Hx ->%list_elem_of_singleton. by apply Hown.
    + intros d [Hd'| ->%list_elem_of_singleton]%elem_of_app.
      * destruct (Hdone d Hd') as (s & Hsl & Hid & Hh). exists s. split; [|done]. apply Hother; [done|]. intros E.
        apply Hown. rewrite <- E, Hid. by apply ownersOf_elem.
      * exists (replanned plan t (is_row e)). split; [|by repeat split].
        apply list_elem_of_In, in_map_iff. exists (is_row e). rewrite Hrev, bool_decide_true by done. split; [done|by apply list_elem_of_In].
    + intros s' Hs'. rewrite ownersOf_snoc. apply list_elem_of_In, in_map_iff in Hs' as (s & <- & Hsl%list_elem_of_In). rewrite Hrev by done.
      case_bool_decide as E.
      * right. exists (plan, (sh_id (is_row e), sh_publicId (is_row e))). apply (unique_id l) in E; [|done..]. subst s.
        split; [set_solver|]. by repeat split.
      * destruct (Hrows s Hsl) as [[Hs0 Hn]|(d & Hd' & ? & ?)]; [left|right; exists d; split; [set_solver|done]].
        split; [done|]. by intros [?|E2%list_elem_of_singleton]%elem_of_app.
    + intros s Hs0 Hn. rewrite ownersOf_snoc in Hn. apply Hother; [apply Hkept; [done|set_solver]|]. set_solver.
  - assert (Hnew : forall s, s ∈ l -> sh_id s <> id /\ sh_publicId s <> pid).
    { intros s Hsl. assert (Hc : conflicts (newShift id pid tenantId locationId plan t) s = false).
      { apply not_true_iff_false. intros Hc. rewrite <- not_true_iff_false, existsb_exists in Hfresh. apply Hfresh. exists s.
        split; [by apply list_elem_of_In|done]. }
      cbn in Hc. bools. naive_solver. }
    destruct Hi as [Hu Hno Hdone Hrows Hkept].
    assert (Hids : id ∉ ownersOf done /\ id ∉ map sh_id l0).
    { assert (Hd1 : id ∉ ownersOf done).
      { intros Hx. apply list_elem_of_In, in_map_iff in Hx as (d & Ed & Hd%list_elem_of_In). destruct (Hdone d Hd) as (s & Hsl & Hid & _).
        destruct (Hnew s Hsl). congruence. }
      split; [done|]. intros Hx. apply list_elem_of_In, in_map_iff in Hx as (s & <- & Hs0%list_elem_of_In).
      destruct (Hnew s); [by apply Hkept|done]. }
    destruct Hids as [Hid1 Hid2]. split; [|by right]. split; [|rewrite ownersOf_snoc|..].
    + destruct Hu as [Hu1 Hu2]. split; rewrite map_app; apply NoDup_app; (split; [done|split; [|apply NoDup_singleton]]); cbn;
        intros x Hx ->%list_elem_of_singleton; apply list_elem_of_In, in_map_iff in Hx as (s & E & Hsl%list_elem_of_In); by destruct (Hnew s Hsl).
    + apply NoDup_app. split; [done|]. split; [|apply NoDup_singleton]. cbn. intros x Hx ->%list_elem_of_singleton. done.
    + intros d [Hd'| ->%list_elem_of_singleton]%elem_of_app.
      * destruct (Hdone d Hd') as (s & Hsl & ?). exists s. split; [set_solver|done].
      * exists (newShift id pid tenantId locationId plan t). split; [set_solver|]. by repeat split.
    + intros s [Hsl| ->%list_elem_of_singleton]%elem_of_app; rewrite ownersOf_snoc.
      * destruct (Hrows s Hsl) as [[Hs0 Hn]|(d & Hd' & ? & ?)]; [left|right; exists d; split; [set_solver|done]].
        split; [done|]. cbn. destruct (Hnew s Hsl). set_solver.
      * right. exists (plan, (id, pid)). split; [set_solver|]. by repeat split.
    + intros s Hs0 Hn. rewrite ownersOf_snoc in Hn. apply elem_of_app. left. apply Hkept; [done|set_solver].
Qed.

(** The shifts of the plans, one after the other. *)
Lemma plansSaved_inv tenantId locationId l0 plans owners st1 st2 : forall done,
  idsUnique l0 -> SetupInv tenantId l0 done st1.1 -> Forall (planRead tenantId l0) plans ->
  (forall p i, p ∈ plans -> existingId p = Some i -> i ∉ ownersOf done) ->
  pairwise (fun p q => forall i, existingId p = Some i -> existingId q <> Some i) plans ->
  plansSaved tenantId locationId plans owners st1 st2 ->
  length owners = length plans /\ SetupInv tenantId l0 (done ++ zip plans owners) st2.1 /\
  Forall2 (fun p o => existingId p = Some o.1 \/ o.1 ∉ map sh_id l0) plans owners.
Proof.
  intros done Hu0 Hi Hread Hown Hpair Hs. revert done Hi Hread Hown Hpair.
  induction Hs as [st|plan plans owner owners [l bs] [l' bs'] st3 Hp Hs IH]; intros done Hi Hread Hown Hpair.
  - cbn. rewrite app_nil_r. split; [done|]. split; [done|constructor].
  - apply Forall_cons in Hread as [Hread Hreads]. cbn [fst] in *.
    destruct (planSaved_inv _ _ _ _ _ _ _ _ _ _ Hu0 Hi Hread ltac:(intros i; apply Hown; set_solver) Hp) as [Hi' Hid].
    destruct (IH (done ++ [(plan, owner)])) as (Hlen & Hfin & Howned); [done|done|..].
    + intros p i Hpin Hpi. rewrite ownersOf_snoc. cbn. intros [Hx| ->%list_elem_of_singleton]%elem_of_app; [by eapply Hown; [right|..]|].
      destruct Hid as [Hid|Hid].
      * apply list_elem_of_lookup_1 in Hpin as [k Hk]. by apply (Hpair 0%nat (S k) plan p ltac:(lia) eq_refl Hk _ Hid).
      * apply Hid. unfold existingId in Hpi. destruct (sp_existing p) as [e|] eqn:Ee; [|done]. injection Hpi as <-.
        rewrite Forall_forall in Hreads. destruct (Hreads p Hpin e Ee) as (Hrow & _). by apply list_elem_of_In, in_map, list_elem_of_In.
    + intros i j p q Hij Hi1 Hj1. by apply (Hpair (S i) (S j)); [lia|..].
    + cbn [length zip]. split; [by rewrite Hlen|]. rewrite <- app_assoc in Hfin. split; [exact Hfin|by constructor].
Qed.

(** *** The breaks that move *)

Definition breaksOf (shiftId : string) (bs : list BreakRow) : list BreakRow := List.filter (fun b => bool_decide (br_shiftId b = shiftId)) bs.
Definition displaceBreak (delta : Z) (b : BreakRow) : BreakRow :=
  mkBreak (br_id b) (br_shiftId b) (br_type b) (br_startTime b + delta) (br_endTime b + delta) (br_paid b).
Definition displaceAll (shiftId : string) (delta : Z) (bs : list BreakRow) : list BreakRow :=
  map (fun b => if bool_decide (br_shiftId b = shiftId) then displaceBreak delta b else b) bs.

Lemma translateBreaks_perm `{LocaleCompare} entries previousStart nextStart nextEnd out :
  translateBreaks entries previousStart nextStart nextEnd = Ok out -> out ≡ₚ map (moveBreak (nextStart - previousStart)) entries.
Proof. unfold translateBreaks. destruct (windowsInvalid _ _ _ _); [done|]. intros [= <-]. apply sortBy_perm. Qed.

Definition reviseBreak (shiftId : string) (entries : list StoredBreak) (b : BreakRow) : BreakRow :=
  fold_left (fun b e => if breakAt (sb_id e) shiftId b then movedBreak e b else b) entries b.

Lemma reviseBreaks_map shiftId entries bs : reviseBreaks shiftId entries bs = map (reviseBreak shiftId entries) bs.
Proof.
  unfold reviseBreaks, reviseBreak. revert bs. induction entries as [|e entries IH]; intros bs; cbn; [by rewrite map_id|].
  by rewrite IH, map_map.
Qed.

Lemma reviseBreak_other shiftId entries b :
  br_shiftId b <> shiftId \/ (forall e, e ∈ entries -> sb_id e <> br_id b) -> reviseBreak shiftId entries b = b.
Proof.
  intros Hb. unfold reviseBreak. induction entries as [|e entries IH]; cbn; [done|].
  assert (E : breakAt (sb_id e) shiftId b = false).
  { unfold breakAt. apply andb_false_iff. destruct Hb as [Hb|Hb]; [right|left]; apply bool_decide_eq_false; [done|].
    intros E. apply (Hb e); [set_solver|done]. }
  rewrite E. apply IH. destruct Hb as [Hb|Hb]; [by left|right; set_solver].
Qed.

Lemma reviseBreak_at shiftId entries e b :
  NoDup (map sb_id entries) -> e ∈ entries -> sb_id e = br_id b -> br_shiftId b = shiftId ->
  reviseBreak shiftId entries b = movedBreak e b.
Proof.
  intros Hn He Hid Hs. unfold reviseBreak. induction entries as [|x entries IH]; [set_solver|]. cbn in Hn |- *.
  apply NoDup_cons in Hn as [Hx Hn]. apply elem_of_cons in He as [<-|He].
  - unfold breakAt. rewrite !bool_decide_true by done. cbn.
    change (reviseBreak shiftId entries (movedBreak e b) = movedBreak e b). apply reviseBreak_other. right. intros y Hy E.
    apply Hx. cbn in E. rewrite Hid, <- E. by apply list_elem_of_In, in_map, list_elem_of_In.
  - assert (E : breakAt (sb_id x) shiftId b = false).
    { unfold breakAt. rewrite (bool_decide_false (br_id b = _)); [done|]. intros E. apply Hx. rewrite <- E, <- Hid.
      by apply list_elem_of_In, in_map, list_elem_of_In. }
    rewrite E. by apply IH.
Qed.

(** Updating each break of the shift to its translated times moves them all. *)
Lemma reviseBreaks_displace shiftId delta entries bs :
  NoDup (map br_id bs) -> entries ≡ₚ map (moveBreak delta) (map storedBreak (breaksOf shiftId bs)) ->
  reviseBreaks shiftId entries bs = displaceAll shiftId delta bs.
Proof.
  intros Hn Hp. rewrite reviseBreaks_map. unfold displaceAll. apply map_ext_in. intros b Hb.
  assert (Hel : forall e, e ∈ entries <-> exists x, x ∈ bs /\ br_shiftId x = shiftId /\ e = moveBreak delta (storedBreak x)).
  { intros e. rewrite Hp, map_map, list_elem_of_In, in_map_iff. unfold breaksOf. setoid_rewrite filter_In.
    setoid_rewrite bool_decide_eq_true. setoid_rewrite list_elem_of_In. naive_solver. }
  case_bool_decide as Hs; [|apply reviseBreak_other; by left].
  rewrite (reviseBreak_at _ _ (moveBreak delta (storedBreak b))); [done| |apply Hel; exists b; split; [by apply list_elem_of_In|done]|done|done].
  apply (Permutation_map sb_id) in Hp. rewrite Hp, !map_map. unfold breaksOf.
  clear -Hn. induction bs as [|x bs IH]; cbn in *; [constructor|]. apply NoDup_cons in Hn as [Hx Hn]. case_bool_decide; [|by apply IH].
  cbn. apply NoDup_cons. split; [|by apply IH]. intros Hin. apply Hx. apply list_elem_of_In, in_map_iff in Hin as (y & E & Hy%filter_In).
  apply list_elem_of_In, in_map_iff. exists y. split; [exact E|tauto].
Qed.

Lemma displaceAll_of shiftId delta bs : breaksOf shiftId (displaceAll shiftId delta bs) = map (displaceBreak delta) (breaksOf shiftId bs).
Proof.
  unfold breaksOf, displaceAll. induction bs as [|b bs IH]; cbn; [done|]. destruct (bool_decide (br_shiftId b = shiftId)) eqn:E; cbn; rewrite E; cbn; by rewrite IH.
Qed.
Lemma displaceAll_other shiftId delta i bs : i <> shiftId -> breaksOf i (displaceAll shiftId delta bs) = breaksOf i bs.
Proof.
  intros Hi. unfold breaksOf, displaceAll. induction bs as [|b bs IH]; cbn; [done|].
  destruct (bool_decide (br_shiftId b = shiftId)) eqn:E; cbn; [|by rewrite IH].
  apply bool_decide_eq_true in E. by rewrite (bool_decide_false (br_shiftId b = i)) by congruence.
Qed.
Lemma displaceAll_ids shiftId delta bs : map br_id (displaceAll shiftId delta bs) = map br_id bs.
Proof. unfold displaceAll. rewrite map_map. apply map_ext. intros b. by case_bool_decide. Qed.
Lemma displaceAll_zero shiftId bs : displaceAll shiftId 0 bs = bs.
Proof.
  unfold displaceAll. rewrite <- (map_id bs) at 2. apply map_ext. intros [i s t a b p]. case_bool_decide; [|done].
  unfold displaceBreak. cbn. by rewrite !Z.add_0_r.
Qed.

(** How far a plan moves the breaks of its shift. *)
Definition planShift (plan : SetupPlan) (e : InternalShift) : Z := sp_startTime plan - sh_startTime (is_row e).

Definition planTranslates (bs : list BreakRow) (plan : SetupPlan) : Prop :=
  forall e, sp_existing plan = Some e ->
    (planShift plan e = 0 /\ (sp_changed plan = false \/ sp_translatedBreaks plan = [])) \/
    (sp_changed plan = true /\
     sp_translatedBreaks plan ≡ₚ map (moveBreak (planShift plan e)) (map storedBreak (breaksOf (sh_id (is_row e)) bs))).

Lemma planSaved_breaks tenantId locationId plan owner l bs l' bs' :
  NoDup (map br_id bs) -> planTranslates bs plan -> planSaved tenantId locationId plan owner (l, bs) (l', bs') ->
  bs' = match sp_existing plan with Some e => displaceAll (sh_id (is_row e)) (planShift plan e) bs | None => bs end.
Proof.
  intros Hn Ht Hs. inversion Hs as [e st He Hc|e t l1 b1 He Hc Hone|id pid t l1 b1 He Hfresh]; subst; rewrite He; [..|done].
  - destruct (Ht e He) as [[-> _]|[? _]]; [by rewrite displaceAll_zero|congruence].
  - destruct (Ht e He) as [[-> [?|Hnil]]|[_ Hp]]; [congruence|by rewrite Hnil, displaceAll_zero|by apply reviseBreaks_displace].
Qed.

Lemma planTranslates_ext bs bs' plan :
  (forall i, existingId plan = Some i -> breaksOf i bs' = breaksOf i bs) -> planTranslates bs plan -> planTranslates bs' plan.
Proof.
  intros Hi Ht e He. rewrite (Hi (sh_id (is_row e))) by (unfold existingId; by rewrite He). by apply Ht.
Qed.

(** The breaks of every existing shift move with it; the others stay. *)
Lemma plansSaved_breaks tenantId locationId plans owners st1 st2 :
  NoDup (map br_id st1.2) -> Forall (planTranslates st1.2) plans ->
  pairwise (fun p q => forall i, existingId p = Some i -> existingId q <> Some i) plans ->
  plansSaved tenantId locationId plans owners st1 st2 ->
  (forall p e, p ∈ plans -> sp_existing p = Some e ->
     breaksOf (sh_id (is_row e)) st2.2 = map (displaceBreak (planShift p e)) (breaksOf (sh_id (is_row e)) st1.2)) /\
  forall i, (forall p, p ∈ plans -> existingId p <> Some i) -> breaksOf i st2.2 = breaksOf i st1.2.
Proof.
  intros Hn Ht Hpair Hs. revert Hn Ht Hpair. induction Hs as [st|plan plans owner owners [l bs] [l' bs'] st3 Hp Hs IH]; intros Hn Ht Hpair.
  - split; [set_solver|done].
  - apply Forall_cons in Ht as [Ht Hts]. cbn [snd] in *. pose proof (planSaved_breaks _ _ _ _ _ _ _ _ Hn Ht Hp) as E.
    assert (Hstep : NoDup (map br_id bs') /\ (forall i, existingId plan <> Some i -> breaksOf i bs' = breaksOf i bs) /\
      forall e, sp_existing plan = Some e -> breaksOf (sh_id (is_row e)) bs' = map (displaceBreak (planShift plan e)) (breaksOf (sh_id (is_row e)) bs)).
    { unfold existingId. destruct (sp_existing plan) as [e|]; subst bs'; [|done]. rewrite displaceAll_ids. split; [done|]. split.
      - intros i Hi. apply displaceAll_other. intros ->. by apply Hi.
      - intros ? [= <-]. apply displaceAll_of. }
    destruct Hstep as (Hn' & Hoth & Hown).
    assert (Hdis : forall p i, p ∈ plans -> existingId p = Some i -> existingId plan <> Some i).
    { intros p i Hpin Hpi Hi. apply list_elem_of_lookup_1 in Hpin as [k Hk]. by apply (Hpair 0%nat (S k) plan p ltac:(lia) eq_refl Hk i). }
    destruct (IH Hn') as [H1 H2].
    + rewrite Forall_forall in Hts |- *. intros p Hpin. apply (planTranslates_ext bs); [|by apply Hts]. intros i Hi. by apply Hoth, (Hdis p).
    + intros i j p q Hij Hi1 Hj1. by apply (Hpair (S i) (S j)); [lia|..].
    + split.
      * intros p e [->|Hpin]%elem_of_cons He.
        -- rewrite H2; [by apply Hown|]. intros q Hq Hqi. apply (Hdis q _ Hq Hqi). unfold existingId. by rewrite He.
        -- rewrite (H1 p e Hpin He), Hoth; [done|]. apply (Hdis p _ Hpin). unfold existingId. by rewrite He.
      * intros i Hi. rewrite H2 by (intros p Hpin; apply Hi; set_solver). apply Hoth, Hi. set_solver.
Qed.

(** *** Planning *)

(** The plan of a row, from what was read. *)
Record RowPlanned `{LocaleCompare} (existingByPublicId : JsMap string InternalShift) (userByPublicId : JsMap string string)
    (row : SetupRow) (plan : SetupPlan) : Prop := mkPlanned {
  rw_existing : sp_existing plan = truthy (su_shiftId row) ≫= mapGet existingByPublicId;
  rw_start : parseUtcInstant (su_startTime row) "/rows/startTime" = Ok (sp_startTime plan);
  rw_end : parseUtcInstant (su_endTime row) "/rows/endTime" = Ok (sp_endTime plan);
  rw_window : sp_startTime plan < sp_endTime plan <= sp_startTime plan + 86400000;
  rw_schedule : forall e s, sp_existing plan = Some e -> is_schedule e = Some s -> sc_startDate s <= sp_startTime plan < sc_endDate s;
  rw_user : sp_nextUserId plan = match su_userId row with
      | None => sp_existing plan ≫= fun e => sh_userId (is_row e)
      | Some None => None
      | Some (Some userId) => mapGet userByPublicId userId
      end;
  rw_changed : sp_changed plan = false -> exists e, sp_existing plan = Some e /\
    shiftWindow (is_row e) = planWindow plan /\ sh_userId (is_row e) = sp_nextUserId plan;
  rw_breaks : forall e, sp_existing plan = Some e ->
    (shiftWindow (is_row e) = planWindow plan /\ sp_translatedBreaks plan = []) \/
    (sp_changed plan = true /\
     translateBreaks (map storedBreak (is_breaks e)) (sh_startTime (is_row e)) (sp_startTime plan) (sp_endTime plan) = Ok (sp_translatedBreaks plan));
}.

Lemma planRow_Ok `{LocaleCompare} m um row plan : planRow m um row = Ok plan -> RowPlanned m um row plan.
Proof.
  unfold planRow, setupInvalid. intros (s & Hs & Hr)%Result_bind_Ok. apply Result_bind_Ok in Hr as (t & Ht & Hr).
  destruct (_ || _) eqn:Ew in Hr; [done|]. match type of Hr with (if ?b then _ else _) = _ => destruct b eqn:Esch end; [done|].
  cbv zeta in Hr. destruct (truthy (su_shiftId row) ≫= mapGet m) as [e|] eqn:Ee; cbn [mbind option_bind] in *.
  - apply Result_bind_Ok in Hr as (breaks & Hb & [= <-]).
    split; cbn; try done; [clear Esch; bool_lia|..].
    + intros ? sch [= <-] Hsch. rewrite Hsch in Esch. bool_lia.
    + unfold shiftWindow, planWindow. cbn. intros [Hmv Hu]%orb_false_iff. exists e. split; [done|].
      bools. destruct Hmv as [H1 H2]. bools. split; [congruence|done].
    + intros ? [= <-]. unfold shiftWindow, planWindow. cbn. destruct (negb (sh_startTime (is_row e) =? s) || _) eqn:Em; [right; done|left].
      bools. destruct Em as [H1 H2]. bools. injection Hb as <-. split; [congruence|done].
  - injection Hr as <-. split; cbn; try done. bool_lia.
Qed.

(** *** The whole setup *)

Lemma dedupe_sub l x : x ∈ dedupe l <-> x ∈ l.
Proof. induction l as [|y l IH]; cbn; [done|]. case_bool_decide; set_solver. Qed.
Lemma dedupe_NoDup l : NoDup (dedupe l).
Proof. induction l as [|y l IH]; cbn; [constructor|]. case_bool_decide; [done|]. constructor; [by rewrite dedupe_sub|done]. Qed.
Lemma dedupe_length_le l : (length (dedupe l) <= length l)%nat.
Proof. induction l as [|y l IH]; cbn; [done|]. case_bool_decide; cbn; lia. Qed.
Lemma dedupe_full l : length (dedupe l) = length l -> NoDup l.
Proof.
  induction l as [|y l IH]; cbn; [constructor|]. pose proof (dedupe_length_le l). case_bool_decide; cbn; intros E; [lia|].
  constructor; [done|]. apply IH. lia.
Qed.

Definition foundShifts `{Collation} (tenantId : string) (rows : list SetupRow) (db : Db) : list InternalShift :=
  map (internalShift db) (List.filter (namedShift tenantId (existingPublicIds rows) db) (db_shifts db)).
Definition byPublicId (found : list InternalShift) : JsMap string InternalShift :=
  mapOf (map (fun row => (sh_publicId (is_row row), row)) found).
Definition usersByPublicId (tenantId : string) (rows : list SetupRow) (db : Db) : JsMap string string :=
  mapOf (map (fun u => (us_publicId u, us_id u)) (List.filter (requestedUser tenantId (assignedPublicIds rows)) (db_users db))).

(** What a setup did: read, checked, paid and wrote. *)
Record SetupStored `{Collation, LocaleCompare} (current : SessionIdentity) (body : SetupShiftsRequest) (operationId : string)
    (semanticOperationId : option string) (bodyHash : string) (db db' : Db) (location : Location) (plans : list SetupPlan)
    (owners : list (string * string)) (st : list Shift * list BreakRow) (response : Json) : Prop := mkSetupStored {
  sd_location : location ∈ db_locations db /\ locationAt (si_tenantId current) (st_locationId body) location = true;
  sd_distinct : NoDup (existingPublicIds (st_rows body));
  sd_found : let found := foundShifts (si_tenantId current) (st_rows body) db in
    length found = length (existingPublicIds (st_rows body)) /\ Forall (fun e => is_locationPublicId e = lo_publicId location) found /\
    forall s, s ∈ db_schedules db -> sc_tenantId s = si_tenantId current ->
      sc_id s ∈ scheduleIdSet (map (fun row => sc_id <$> is_schedule row) found) -> sc_status s = DRAFT;
  sd_users : length (usersByPublicId (si_tenantId current) (st_rows body) db) = length (assignedPublicIds (st_rows body));
  sd_planned : Forall2 (RowPlanned (byPublicId (foundShifts (si_tenantId current) (st_rows body) db))
    (usersByPublicId (si_tenantId current) (st_rows body) db)) (st_rows body) plans;
  sd_apart : pairwise plansApart plans;
  sd_free : forall p v s, p ∈ plans -> sp_nextUserId p = Some v -> v <> "" -> s ∈ db_shifts db ->
    bookedElsewhere (si_tenantId current) v (map (fun row => sh_id (is_row row)) (foundShifts (si_tenantId current) (st_rows body) db)) p s = false;
  sd_saved : plansSaved (si_tenantId current) (lo_id location) plans owners (tablesOf db) st;
  sd_response : response = setupResponse owners.*2;
  sd_written : exists paid receipts,
    (if existsb sp_changed plans
     then exists r, replayed ("feature-usage-" +:+ operationId) (si_tenantId current) (setupReason operationId) 1 r db paid \/
                    debited ("feature-usage-" +:+ operationId) (si_tenantId current) (setupReason operationId) 1 r db paid
     else paid = db) /\
    map al_newValue receipts = map (fun _ => Some (receiptValue bodyHash response)) receipts /\
    (exists id, hd_error receipts = Some (receipt id SETUP_PERSISTED SETUP_RESOURCE operationId bodyHash current response)) /\
    (exists id, tail receipts = match semanticOperationId with
       | Some semantic => [receipt id SETUP_PERSISTED SETUP_SEMANTIC_RESOURCE semantic bodyHash current response]
       | None => [] end) /\
    db' = withRows (db_audits db ++ receipts) (withRows (map (fun s =>
      if liveDraftAmong (si_tenantId current) (scheduleIdSet (map (fun plan => sc_id <$> (sp_existing plan ≫= is_schedule)) plans)) s
      then nextRevision s else s) (db_schedules db)) (withTables st paid));
}.

Section StoreFacts.
Context `{Env, Process, AuthorityEnv, Collation, LC : LocaleCompare, SH : Sha256}.

Lemma filter_false {A} (p : A -> bool) l : (forall x, p x = false) -> List.filter p l = [].
Proof. intros Hp. induction l as [|x l IH]; cbn; [done|]. by rewrite Hp. Qed.

Lemma loadExisting_Ok tenantId location rows found w w' :
  loadExisting tenantId location rows w = (Ok found, w') ->
  w_db w' = w_db w /\ found = foundShifts tenantId rows (w_db w) /\ NoDup (existingPublicIds rows) /\
  length found = length (existingPublicIds rows) /\ Forall (fun e => is_locationPublicId e = lo_publicId location) found /\
  forall s, s ∈ db_schedules (w_db w) -> sc_tenantId s = tenantId ->
    sc_id s ∈ scheduleIdSet (map (fun row => sc_id <$> is_schedule row) found) -> sc_status s = DRAFT.
Proof.
  unfold loadExisting, problem, throwProblemTx. destruct (negb _) eqn:Ed; [by intros [? _]%liftResult_Ok|].
  intros (rs & w1 & Hf & Hr)%Tx_bind_Ok.
  assert (Hfound : w_db w1 = w_db w /\ rs = foundShifts tenantId rows (w_db w)).
  { destruct (bool_decide (existingPublicIds rows = [])) eqn:En; [apply bool_decide_eq_true in En|].
    - apply Tx_ret_Ok in Hf as [<- <-]. split; [done|]. unfold foundShifts. rewrite En, filter_false; [done|].
      intros s. unfold namedShift. rewrite (bool_decide_false (sh_publicId s ∈ _)) by (cbn; set_solver). by rewrite andb_false_r.
    - apply operationsWait_Ok in Hf as (w2 & [E2 ->]%findShifts_Ok & E1). split; [by rewrite E1, E2|done]. }
  destruct Hfound as [E1 ->]. clear Hf. destruct (_ || _) eqn:Eb; [by apply throwTx_Ok in Hr|].
  apply orb_false_iff in Eb as [El%negb_false_iff%Nat.eqb_eq Eloc].
  apply Tx_bind_Ok in Hr as (? & w2 & (w3 & Hds & E2)%operationsWait_Ok & Hr).
  pose proof (ReadOnly_Ok _ _ _ _ (assertDraftSchedules_ReadOnly _ _) Hds) as E3. pose proof (assertDraftSchedules_Ok _ _ _ _ _ Hds) as Hdraft.
  apply Tx_bind_Ok in Hr as (? & w4 & Hl & [<- <-]%Tx_ret_Ok).
  assert (E4 : w_db w4 = w_db w2).
  { destruct (bool_decide _) in Hl; [by apply Tx_ret_Ok in Hl as [_ <-]|]. by apply operationsWait_Ok in Hl as (w5 & E5%lockRows_Ok & ->). }
  cbn [w_db tick] in *. split; [congruence|]. split; [done|]. split; [by apply dedupe_full, Nat.eqb_eq, negb_false_iff|]. split; [done|]. split.
  - apply Forall_forall. intros e He. destruct (decide (is_locationPublicId e = lo_publicId location)); [done|]. exfalso.
    rewrite <- not_true_iff_false, existsb_exists in Eloc. apply Eloc. exists e. split; [by apply list_elem_of_In|]. by rewrite bool_decide_false.
  - rewrite E1 in Hdraft. exact Hdraft.
Qed.

Lemma loadAssigned_Ok tenantId rows m w w' :
  loadAssigned tenantId rows w = (Ok m, w') ->
  w_db w' = w_db w /\ m = usersByPublicId tenantId rows (w_db w) /\ length m = length (assignedPublicIds rows).
Proof.
  unfold loadAssigned, problem, throwProblemTx. intros (us & w1 & Hf & Hr)%Tx_bind_Ok. cbv zeta in Hr.
  assert (Hus : w_db w1 = w_db w /\ us = List.filter (requestedUser tenantId (assignedPublicIds rows)) (db_users (w_db w))).
  { destruct (bool_decide (assignedPublicIds rows = [])) eqn:En; [apply bool_decide_eq_true in En|].
    - apply Tx_ret_Ok in Hf as [<- <-]. split; [done|]. rewrite En, filter_false; [done|].
      intros s. unfold requestedUser. rewrite (bool_decide_false (us_publicId s ∈ _)) by (cbn; set_solver). by rewrite andb_false_r.
    - by apply operationsWait_Ok in Hf as (w2 & [-> E2]%findMany_Ok & ->). }
  destruct Hus as [E1 ->]. destruct (negb _) eqn:Eb; [by apply throwTx_Ok in Hr|]. apply Tx_ret_Ok in Hr as [<- <-].
  split; [done|]. split; [done|]. by apply Nat.eqb_eq, negb_false_iff.
Qed.

Lemma payForSetup_Ok tenantId operationId u w w' :
  payForSetup tenantId operationId w = (Ok u, w') ->
  exists r, replayed ("feature-usage-" +:+ operationId) tenantId (setupReason operationId) 1 r (w_db w) (w_db w') \/
            debited ("feature-usage-" +:+ operationId) tenantId (setupReason operationId) 1 r (w_db w) (w_db w').
Proof.
  unfold payForSetup. intros (granted & w1 & (w2 & [E2 ->]%assertFeatureEntitled_Ok & E1)%operationsWait_Ok & Hr)%Tx_bind_Ok.
  apply Tx_bind_Ok in Hr as (r & w3 & (w4 & Hd & E3)%operationsWait_Ok & [_ <-]%Tx_ret_Ok).
  apply (debit_cases _ ReadOnly_current) in Hd. cbn [default en_creditCost w_db tick] in *. exists r.
  rewrite E3. by rewrite E1, E2 in Hd.
Qed.

Lemma writeSetupAudit_Ok identity operationId semanticOperationId bodyHash response u w w' :
  writeSetupAudit identity operationId semanticOperationId bodyHash response w = (Ok u, w') ->
  exists receipts, map al_newValue receipts = map (fun _ => Some (receiptValue bodyHash response)) receipts /\
    (exists id, hd_error receipts = Some (receipt id SETUP_PERSISTED SETUP_RESOURCE operationId bodyHash identity response)) /\
    (exists id, tail receipts = match semanticOperationId with
       | Some semantic => [receipt id SETUP_PERSISTED SETUP_SEMANTIC_RESOURCE semantic bodyHash identity response]
       | None => [] end) /\
    w_db w' = withRows (db_audits (w_db w) ++ receipts) (w_db w).
Proof.
  unfold writeSetupAudit. intros (? & w1 & (w2 & Ha & E1)%operationsWait_Ok & Hr)%Tx_bind_Ok.
  apply Tx_bind_Ok in Ha as (id & w3 & [-> ->]%randomUUID_Ok & [_ E2]%createRow_Ok). cbn [w_db tick rows Table_Audit] in *.
  destruct semanticOperationId as [semantic|].
  - apply operationsWait_Ok in Hr as (w4 & Ha & E4). apply Tx_bind_Ok in Ha as (id & w5 & [-> ->]%randomUUID_Ok & [_ E5]%createRow_Ok).
    cbn [w_db tick rows Table_Audit] in *.
    eexists [receipt _ _ _ operationId bodyHash identity response; receipt _ _ _ semantic bodyHash identity response].
    split; [done|]. split; [by eexists|]. split; [by eexists|].
    rewrite E4, E5, E1, E2. destruct (w_db w). cbn. by rewrite <- app_assoc.
  - apply Tx_ret_Ok in Hr as [_ <-]. eexists [receipt _ _ _ operationId bodyHash identity response].
    split; [done|]. split; [by eexists|]. split; [by exists ""|]. by rewrite E1, E2.
Qed.

Lemma storeSetup_Ok current body operationId semanticOperationId bodyHash response w w' :
  storeSetup current body operationId semanticOperationId bodyHash w = (Ok response, w') ->
  exists location plans owners st,
    SetupStored current body operationId semanticOperationId bodyHash (w_db w) (w_db w') location plans owners st response.
Proof.
  unfold storeSetup, problem, throwProblemTx. cbv zeta.
  intros (? & w1 & (w2 & [E2 _]%assertFeatureEntitled_Ok & E1)%operationsWait_Ok & Hr)%Tx_bind_Ok.
  apply Tx_bind_Ok in Hr as (? & w3 & (w4 & E4%lockRows_Ok & E3)%operationsWait_Ok & Hr).
  apply Tx_bind_Ok in Hr as (loc & w5 & (w6 & [Eloc E6]%findFirst_Ok & E5)%operationsWait_Ok & Hr).
  cbn [w_db tick rows Table_Location] in *. assert (E : w_db w5 = w_db w) by congruence. rewrite E3, E4, E1, E2 in Eloc. clear E5 E6 E3 E4 E1.
  destruct loc as [location|]; [|by apply throwTx_Ok in Hr]. symmetry in Eloc. apply find_some in Eloc as [Hlin Hlat].
  apply Tx_bind_Ok in Hr as (found & w7 & (E7 & -> & Hdist & Hlen & Hplace & Hdraft)%loadExisting_Ok & Hr).
  apply Tx_bind_Ok in Hr as (m & w8 & (E8 & -> & Hm)%loadAssigned_Ok & Hr). rewrite E7, E in *.
  apply Tx_bind_Ok in Hr as (plans & w9 & [Hplans%mapM_Ok_Forall2 <-]%liftResult_Ok & Hr).
  apply Tx_bind_Ok in Hr as (? & w10 & (w11 & (E11 & Hap & Hfree)%assertSetupOverlaps_Ok & E10)%operationsWait_Ok & Hr).
  cbn [w_db tick] in *. rewrite E8 in *.
  apply Tx_bind_Ok in Hr as (? & w12 & Hpay & Hr).
  assert (Hpaid : if existsb sp_changed plans
     then exists r, replayed ("feature-usage-" +:+ operationId) (si_tenantId current) (setupReason operationId) 1 r (w_db w) (w_db w12) \/
                    debited ("feature-usage-" +:+ operationId) (si_tenantId current) (setupReason operationId) 1 r (w_db w) (w_db w12)
     else w_db w12 = w_db w).
  { destruct (existsb _ _); [|apply Tx_ret_Ok in Hpay as [_ <-]; congruence]. apply payForSetup_Ok in Hpay. by rewrite E10, E11 in Hpay. }
  assert (Htab : tablesOf (w_db w12) = tablesOf (w_db w) /\ db_schedules (w_db w12) = db_schedules (w_db w) /\ db_audits (w_db w12) = db_audits (w_db w)).
  { destruct (existsb _ _); [|by rewrite Hpaid]. destruct Hpaid as [r Hd]. apply debit_frame in Hd as (ts & cs & ->). by destruct (w_db w). }
  destruct Htab as (Htab & Hsch & Haud).
  apply Tx_bind_Ok in Hr as (publicIds & w13 & (owners & st & <- & Hsaved & E13)%savePlans_Ok & Hr). rewrite Htab in Hsaved.
  apply Tx_bind_Ok in Hr as (? & w14 & (w15 & E15%incrementDraftRevisions_Ok & E14)%operationsWait_Ok & Hr).
  apply Tx_bind_Ok in Hr as (? & w16 & (w17 & (receipts & Hrec)%writeSetupAudit_Ok & E16)%operationsWait_Ok & [<- <-]%Tx_ret_Ok).
  cbn [w_db tick] in *. destruct Hrec as (Hvals & Hfirst & Hsecond & E17).
  exists location, plans, owners, st. split; try done.
  - split; [by apply list_elem_of_In|done].
  - eapply Forall2_impl; [exact Hplans|]. intros row plan. apply planRow_Ok.
  - exists (w_db w12), receipts. split; [exact Hpaid|]. split; [done|]. split; [done|]. split; [done|].
    rewrite E16, E17, E14, E15, E13, <- Hsch, <- Haud. by destruct (w_db w12).
Qed.
End StoreFacts.

(** *** The handler *)

Section Handler.
Context `{Env, Process, AuthorityEnv, Collation, LC : LocaleCompare, SH : Sha256}.

Definition setupReceipt (resource tenantId operationId : string) (db : Db) : option AuditLog :=
  List.find (receiptOf tenantId SETUP_PERSISTED resource operationId) (db_audits db).

(** A stored answer: under the key, or else under the content. *)
Definition setupReplayed (tenantId operationId : string) (semanticOperationId : option string) (bodyHash : string)
    (response : Json) (db db' : Db) : Prop :=
  db' = db /\ exists a, answers bodyHash response a /\
    (setupReceipt SETUP_RESOURCE tenantId operationId db = Some a \/
     setupReceipt SETUP_RESOURCE tenantId operationId db = None /\
     exists semantic, semanticOperationId = Some semantic /\ setupReceipt SETUP_SEMANTIC_RESOURCE tenantId semantic db = Some a).

Definition setupFresh (tenantId operationId : string) (semanticOperationId : option string) (db : Db) : Prop :=
  setupReceipt SETUP_RESOURCE tenantId operationId db = None /\
  forall semantic, semanticOperationId = Some semantic -> setupReceipt SETUP_SEMANTIC_RESOURCE tenantId semantic db = None.

Definition setupOutcome (tenantId : string) (body : SetupShiftsRequest) (operationId : string)
    (semanticOperationId : option string) (bodyHash : string) (response : Json) (db db' : Db) : Prop :=
  setupReplayed tenantId operationId semanticOperationId bodyHash response db db' \/
  setupFresh tenantId operationId semanticOperationId db /\
  exists current location plans owners st, si_tenantId current = tenantId /\
    SetupStored current body operationId semanticOperationId bodyHash db db' location plans owners st response.

Lemma findSetup_Ok resource tenantId operationId bodyHash r w w' :
  findSetupReplayInTransaction resource tenantId operationId bodyHash w = (Ok r, w') ->
  w_db w' = w_db w /\ match setupReceipt resource tenantId operationId (w_db w) with
    | None => r = None
    | Some a => exists response, r = Some response /\ answers bodyHash response a
    end.
Proof.
  unfold findSetupReplayInTransaction. intros Hr. split; [by eapply ReadOnly_Ok, Hr; apply findReceipt_ReadOnly|].
  by apply findReceipt_Ok in Hr.
Qed.

Lemma findSetupReplay_ReadOnly identity resource tenantId operationId bodyHash :
  ReadOnly (findSetupReplay identity resource tenantId operationId bodyHash).
Proof.
  intros w. unfold findSetupReplay. destruct (scopeRun _ _ w) as [[r|e] w'] eqn:E; cbn.
  - apply scopeRun_Ok in E as (c & w1 & w2 & _ & [E _]%findSetup_Ok & E1 & E2). congruence.
  - by apply scopeRun_Throw in E.
Qed.

Lemma findSetupReplay_Ok identity resource tenantId operationId bodyHash r w w' :
  findSetupReplay identity resource tenantId operationId bodyHash w = (Ok r, w') ->
  match setupReceipt resource tenantId operationId (w_db w) with
  | None => r = None
  | Some a => exists response, r = Some response /\ answers bodyHash response a
  end.
Proof. intros (c & w1 & w2 & _ & [_ Hf]%findSetup_Ok & E1 & _)%scopeRun_Ok. by rewrite E1 in Hf. Qed.

Lemma setupInScope_Ok current body operationId semanticOperationId bodyHash r w w' :
  setupInScope current body operationId semanticOperationId bodyHash w = (Ok r, w') ->
  setupOutcome (si_tenantId current) body operationId semanticOperationId bodyHash r (w_db w) (w_db w').
Proof.
  unfold setupInScope. cbv zeta. intros (o & w1 & (w2 & [E2 Hf]%findSetup_Ok & E1)%operationsWait_Ok & Hr)%Tx_bind_Ok.
  cbn [w_db tick] in *. destruct (setupReceipt SETUP_RESOURCE _ _ _) as [a|] eqn:Ea.
  { destruct Hf as (response & -> & Ha). apply Tx_ret_Ok in Hr as [<- <-]. left. split; [congruence|]. exists a. split; [done|by left]. }
  subst o. apply Tx_bind_Ok in Hr as (o & w3 & Hsem & Hr).
  assert (Hs : w_db w3 = w_db w /\ match o with
    | Some response => exists a semantic, answers bodyHash response a /\ semanticOperationId = Some semantic /\
        setupReceipt SETUP_SEMANTIC_RESOURCE (si_tenantId current) semantic (w_db w) = Some a
    | None => forall semantic, semanticOperationId = Some semantic ->
        setupReceipt SETUP_SEMANTIC_RESOURCE (si_tenantId current) semantic (w_db w) = None
    end).
  { destruct semanticOperationId as [semantic|]; [|apply Tx_ret_Ok in Hsem as [<- <-]; split; [congruence|done]].
    apply operationsWait_Ok in Hsem as (w4 & [E4 Hf]%findSetup_Ok & E3). cbn [w_db tick] in *. rewrite E1, E2 in *.
    split; [congruence|]. destruct (setupReceipt SETUP_SEMANTIC_RESOURCE _ _ _) as [a|] eqn:Eb.
    - destruct Hf as (response & -> & Ha). by exists a, semantic.
    - subst o. by intros ? [= <-]. }
  destruct Hs as [E3 Hs]. destruct o as [response|].
  - apply Tx_ret_Ok in Hr as [<- <-]. left. split; [done|]. destruct Hs as (a & semantic & Ha & -> & Hb). exists a. split; [done|].
    right. split; [done|]. by exists semantic.
  - right. split; [by split|]. apply storeSetup_Ok in Hr as (location & plans & owners & st & Hst). rewrite E3 in Hst.
    by exists current, location, plans, owners, st.
Qed.

Lemma setupShifts_Ok identity body keyValue r w w' :
  setupShifts identity body keyValue w = (Ok r, w') ->
  exists key, requireIdempotencyKey keyValue = Ok key /\
    setupOutcome (trim (si_tenantId identity)) body (setupOperation (trim (si_tenantId identity)) key)
      (semanticOperation (trim (si_tenantId identity)) body) (setupIdentity body) r (w_db w) (w_db w').
Proof.
  unfold setupShifts. cbv zeta. cbn [operationsIdentity si_tenantId]. set (tid := trim (si_tenantId identity)).
  intros (key & w1 & [Hk <-]%liftResult_Ok & Hr)%Tx_bind_Ok. exists key. split; [done|].
  set (op := setupOperation tid key) in *. set (sem := semanticOperation tid body) in *. set (hash := setupIdentity body) in *.
  apply Tx_bind_Ok in Hr as (? & w3 & Hp & Hr). apply (ReadOnly_Ok _ _ _ _ (prepareOperationsAuthority_ReadOnly _)) in Hp.
  apply Tx_bind_Ok in Hr as (o & w4 & Hf & Hr).
  pose proof (ReadOnly_Ok _ _ _ _ (findSetupReplay_ReadOnly _ _ _ _ _) Hf) as E4. apply findSetupReplay_Ok in Hf. rewrite Hp in Hf, E4.
  apply Tx_bind_Ok in Hr as (o2 & w5 & Hs & Hr).
  assert (E5 : w_db w5 = w_db w /\ forall response, o2 = Some response -> setupReplayed tid op sem hash response (w_db w) (w_db w)).
  { destruct (setupReceipt _ _ _ _) as [a|] eqn:Ea.
    - destruct Hf as (response & -> & Ha). apply Tx_ret_Ok in Hs as [<- <-]. split; [done|]. intros ? [= <-]. split; [done|].
      exists a. split; [done|by left].
    - subst o. destruct sem as [semantic|] eqn:Esem; [|apply Tx_ret_Ok in Hs as [<- <-]; by split].
      pose proof (ReadOnly_Ok _ _ _ _ (findSetupReplay_ReadOnly _ _ _ _ _) Hs) as E. apply findSetupReplay_Ok in Hs. rewrite E4 in *.
      split; [done|]. intros response ->. split; [done|]. destruct (setupReceipt SETUP_SEMANTIC_RESOURCE _ _ _) as [a|] eqn:Eb; [|done].
      destruct Hs as (? & [= <-] & Ha). exists a. split; [done|]. right. split; [done|]. by exists semantic. }
  destruct E5 as [E5 Hrep]. destruct o2 as [response|].
  - apply Tx_ret_Ok in Hr as [<- <-]. left. rewrite E5. by apply Hrep.
  - apply recover_cases in Hr as [[Hr _]|[E Hl]].
    + apply scopeRun_Ok in Hr as (current & w6 & w7 & Ht & Hr%setupInScope_Ok & E6 & E7). rewrite Ht, E6, E5, <- E7 in Hr. exact Hr.
    + left. rewrite E, E5. split; [done|]. destruct (Hl r eq_refl) as (w6 & w7 & E6 & Hf2%findSetupReplay_Ok). rewrite E6, E5 in Hf2.
      destruct (setupReceipt _ _ _ _) as [a|] eqn:Ea; [|done]. destruct Hf2 as (? & [= <-] & Ha). exists a. split; [done|by left].
    + intros e w6. apply scopeRun_Throw.
    + apply findSetupReplay_ReadOnly.
Qed.

Lemma setupShifts_Throw identity body keyValue e w w' :
  setupShifts identity body keyValue w = (Throw e, w') -> w_db w' = w_db w.
Proof.
  unfold setupShifts. cbv zeta. intros Hr. unfold liftResult at 1 in Hr. unfold mbind at 1, Tx_bind at 1 in Hr.
  destruct (requireIdempotencyKey _); [|by injection Hr as _ <-]. revert Hr. set (m1 := prepareOperationsAuthority _). intros Hr.
  unfold mbind at 1, Tx_bind at 1 in Hr. pose proof (prepareOperationsAuthority_ReadOnly (operationsIdentity identity) w : w_db (m1 w).2 = w_db w) as Hp.
  destruct (m1 w) as [[?|?] w1]; cbn in Hp; [|by injection Hr as _ <-].
  unfold mbind at 1, Tx_bind at 1 in Hr. match type of Hr with context [findSetupReplay ?i ?s ?t ?o ?h w1] =>
    pose proof (findSetupReplay_ReadOnly i s t o h w1) as Hf; destruct (findSetupReplay i s t o h w1) as [[o1|?] w2]; cbn in Hf end;
    [|injection Hr as _ <-; congruence].
  unfold mbind at 1, Tx_bind at 1 in Hr.
  match type of Hr with context [match ?m w2 with _ => _ end] => assert (Hs : ReadOnly m) end.
  { destruct o1; [auto with readonly|]. destruct (semanticOperation _ _); [apply findSetupReplay_ReadOnly|auto with readonly]. }
  match type of Hr with context [match ?m w2 with _ => _ end] => specialize (Hs w2); destruct (m w2) as [[o2|?] w3]; cbn in Hs end;
    [|injection Hr as _ <-; congruence].
  destruct o2 as [response|]; [done|]. apply recover_cases in Hr as [[_ ?]|[E _]]; [done|congruence| |apply findSetupReplay_ReadOnly].
  intros e' w4. apply scopeRun_Throw.
Qed.
End Handler.

(** ** The properties *)

(** Nobody of the tenant has two live shifts that meet. *)
Definition bookedOnce (tenantId : string) (l : list Shift) : Prop :=
  forall s t u, s ∈ l -> t ∈ l -> sh_tenantId s = tenantId -> sh_tenantId t = tenantId ->
    sh_deletedAt s = None -> sh_deletedAt t = None -> sh_userId s = Some u -> sh_userId t = Some u -> u <> "" ->
    sh_id s <> sh_id t -> windowsApart (shiftWindow s) (shiftWindow t).

(** The request spells the shifts it names as they are stored. *)
Definition spelled (body : SetupShiftsRequest) : Prop :=
  Forall (fun id => lowerText id = id) (existingPublicIds (st_rows body)).

Section Outcome.
Context `{Collation, LC : LocaleCompare}.

Lemma internalShift_row db s : is_row (internalShift db s) = s.
Proof. done. Qed.

Lemma foundShifts_elem tenantId rows db e :
  e ∈ foundShifts tenantId rows db <-> exists s, e = internalShift db s /\ s ∈ db_shifts db /\ namedShift tenantId (existingPublicIds rows) db s = true.
Proof.
  unfold foundShifts. rewrite list_elem_of_In, in_map_iff. setoid_rewrite filter_In. setoid_rewrite list_elem_of_In. naive_solver.
Qed.

Lemma byPublicId_elem found id e : mapGet (byPublicId found) id = Some e -> e ∈ found /\ sh_publicId (is_row e) = id.
Proof.
  unfold byPublicId. intros Hg%mapGet_Some_elem%mapOf_elem. apply list_elem_of_In, in_map_iff in Hg as (e' & [= <- <-] & Hin).
  split; [by apply list_elem_of_In|done].
Qed.

Section Planned.
Context (tenantId : string) (rows : list SetupRow) (db : Db) (um : JsMap string string).
Let found := foundShifts tenantId rows db.

Lemma planned_existing row plan e :
  RowPlanned (byPublicId found) um row plan -> sp_existing plan = Some e ->
  exists id, truthy (su_shiftId row) = Some id /\ e ∈ found /\ sh_publicId (is_row e) = id /\ is_row e ∈ db_shifts db /\
    sh_tenantId (is_row e) = tenantId /\ sh_deletedAt (is_row e) = None /\ is_breaks e ≡ₚ breaksOf (sh_id (is_row e)) (db_breaks db).
Proof.
  intros Hp He. pose proof (rw_existing _ _ _ _ Hp) as E. rewrite He in E. destruct (truthy (su_shiftId row)) as [id|] eqn:Ei; [|done].
  cbn in E. symmetry in E. apply byPublicId_elem in E as [Hin Hid]. exists id. split; [done|]. split; [done|]. split; [done|].
  apply foundShifts_elem in Hin as (s & -> & Hs & Hn). unfold namedShift in Hn. bools. cbn. destruct_and?. split_and!; try done.
  apply sortBy_perm.
Qed.

Lemma planned_read row plan : RowPlanned (byPublicId found) um row plan -> planRead tenantId (db_shifts db) plan.
Proof.
  intros Hp e He. destruct (planned_existing _ _ _ Hp He) as (id & _ & _ & _ & Hs & Ht & Hd & _). split; [done|]. split; [done|]. split; [done|].
  intros Hc. destruct (rw_changed _ _ _ _ Hp Hc) as (e' & He' & Hw & Hu). by assert (e' = e) as -> by congruence.
Qed.

Lemma planned_translates row plan :
  RowPlanned (byPublicId found) um row plan -> planTranslates (db_breaks db) plan.
Proof.
  intros Hp e He. destruct (planned_existing _ _ _ Hp He) as (id & _ & _ & _ & _ & _ & _ & Hbr).
  destruct (rw_breaks _ _ _ _ Hp e He) as [[[= Hw _] Hnil]|[Hc Ht]].
  - left. unfold planShift. split; [lia|by right].
  - right. split; [done|]. apply translateBreaks_perm in Ht. rewrite Ht. unfold planShift. by rewrite Hbr.
Qed.

#[local] Instance distinct_sym : Symmetric (fun p q => forall i, existingId p = Some i -> existingId q <> Some i).
Proof. intros p q Hpq i Hq Hp. by apply (Hpq i). Qed.

(** Two rows never name the same shift. *)
Lemma planned_distinct some plans :
  idsUnique (db_shifts db) -> NoDup (existingPublicIds some) -> Forall2 (RowPlanned (byPublicId found) um) some plans ->
  pairwise (fun p q => forall i, existingId p = Some i -> existingId q <> Some i) plans.
Proof.
  intros Hu Hn Hp. induction Hp as [|row plan some plans Hrow Hrest IH]; [by intros ? ? ? ? _ ?%list_elem_of_lookup_2%elem_of_nil|].
  assert (Hn' : NoDup (existingPublicIds some)).
  { unfold existingPublicIds in *. cbn in Hn. destruct (truthy (su_shiftId row)); [by apply NoDup_cons in Hn as [_ ?]|done]. }
  apply pairwise_cons; [exact _|]. split; [|by apply IH]. apply Forall_forall. intros q Hq i Hpi Hqi.
  unfold existingId in *. destruct (sp_existing plan) as [e|] eqn:Ee; [|done]. destruct (sp_existing q) as [f|] eqn:Ef; [|done].
  injection Hpi as <-. injection Hqi as E. destruct (planned_existing _ _ _ Hrow Ee) as (id & Hid & _ & Hpid & Hrow1 & _).
  destruct (Forall2_elem_r _ _ _ _ Hrest Hq) as (row2 & Hin & Hrow2). destruct (planned_existing _ _ _ Hrow2 Ef) as (id2 & Hid2 & _ & Hpid2 & Hrow3 & _).
  assert (is_row f = is_row e) as Efe by (by apply (unique_id (db_shifts db))).
  unfold existingPublicIds in Hn. cbn in Hn. rewrite Hid in Hn. apply NoDup_cons in Hn as [Hno _]. apply Hno.
  apply list_elem_of_omap. exists row2. split; [done|]. rewrite Hid2. congruence.
Qed.

(** Every shift that was found is the shift of some row. *)
Lemma found_planned plans e :
  idsUnique (db_shifts db) -> Forall (fun id => lowerText id = id) (existingPublicIds rows) ->
  Forall2 (RowPlanned (byPublicId found) um) rows plans -> e ∈ found ->
  exists plan, plan ∈ plans /\ existingId plan = Some (sh_id (is_row e)).
Proof.
  intros Hu Hlow Hp He. pose proof He as He2. apply foundShifts_elem in He as (s & -> & Hs & Hn). rewrite internalShift_row.
  unfold namedShift in Hn. bools. destruct Hn as [[[_ _] Hin] _]. apply list_elem_of_In, in_map_iff in Hin as (id & Eid & Hid%list_elem_of_In).
  rewrite Forall_forall in Hlow. rewrite (Hlow id Hid) in Eid. unfold existingPublicIds in Hid. apply list_elem_of_omap in Hid as (row & Hrow & Ht).
  destruct (Forall2_elem_l _ _ _ _ Hp Hrow) as (plan & Hplan & Hpl). exists plan. split; [done|].
  pose proof (rw_existing _ _ _ _ Hpl) as Eex. rewrite Ht in Eex. cbn in Eex.
  destruct (mapGet (byPublicId found) id) as [f|] eqn:Eg.
  - unfold existingId. rewrite Eex. apply byPublicId_elem in Eg as [Hf Hfid]. apply foundShifts_elem in Hf as (t & -> & Htin & _).
    cbn in *. do 2 f_equal. destruct Hu as [_ Hu]. apply (NoDup_map_inj sh_publicId (db_shifts db)); [done..|congruence].
  - exfalso. apply mapGet_None in Eg. apply Eg. unfold byPublicId. apply mapOf_keys. apply list_elem_of_fmap. exists (id, internalShift db s).
    split; [done|]. apply list_elem_of_In, in_map_iff. exists (internalShift db s). split; [cbn; congruence|by apply list_elem_of_In].
Qed.
End Planned.

Lemma plansSaved_owner tenantId locationId plans owners st1 st2 :
  plansSaved tenantId locationId plans owners st1 st2 ->
  Forall2 (fun p o => forall e, sp_existing p = Some e -> o = (sh_id (is_row e), sh_publicId (is_row e))) plans owners.
Proof.
  induction 1 as [|plan plans owner owners st1 st2 st3 Hp _ IH]; constructor; [|done].
  inversion Hp as [e st He|e t l bs He|id pid t l bs He]; subst; rewrite He; by intros i [= <-].
Qed.

(** A named person who can be scheduled, spelled as stored, is found. *)
Lemma assigned_found tenantId rows db userId :
  length (usersByPublicId tenantId rows db) = length (assignedPublicIds rows) ->
  userId ∈ assignedPublicIds rows -> lowerText userId = userId ->
  exists user, user ∈ db_users db /\ us_tenantId user = tenantId /\ us_publicId user = userId /\ us_deletedAt user = None /\
    us_suspendedAt user = None /\ mapGet (usersByPublicId tenantId rows db) userId = Some (us_id user).
Proof.
  intros Hlen Hin Hlow. set (m := usersByPublicId tenantId rows db) in *.
  assert (Hm : forall k v, (k, v) ∈ m -> exists user, user ∈ db_users db /\ requestedUser tenantId (assignedPublicIds rows) user = true /\
    us_publicId user = k /\ us_id user = v).
  { intros k v Hk%mapOf_elem. apply list_elem_of_In, in_map_iff in Hk as (user & [= <- <-] & Hf%filter_In). exists user.
    rewrite list_elem_of_In. tauto. }
  assert (Hkeys : userId ∈ m.*1).
  { apply list_elem_of_In. assert (Hinc : List.incl (map lowerText (assignedPublicIds rows)) m.*1).
    { apply NoDup_length_incl.
      - apply NoDup_ListNoDup, NoDup_mapOf.
      - by rewrite length_map, length_fmap, Hlen.
      - intros k Hk%list_elem_of_In. apply list_elem_of_fmap in Hk as ([k' v] & -> & Hkv). destruct (Hm _ _ Hkv) as (user & _ & Hr & <- & _).
        unfold requestedUser in Hr. bools. apply list_elem_of_In. tauto. }
    apply Hinc. apply in_map_iff. exists userId. split; [done|by apply list_elem_of_In]. }
  destruct (mapGet m userId) as [v|] eqn:Eg; [|by apply mapGet_None in Eg].
  destruct (Hm userId v) as (user & Hu & Hr & Hp & <-); [by apply mapGet_Some_elem|]. unfold requestedUser in Hr. bools.
  exists user. tauto.
Qed.

(** After a setup, every row of the tenant's shifts is one that no plan owns, as
    it was, or the shift of a plan. *)
Lemma stored_inv current body op sem hash db db' location plans owners st response :
  SetupStored current body op sem hash db db' location plans owners st response -> idsUnique (db_shifts db) ->
  db_shifts db' = st.1 /\ db_breaks db' = st.2 /\ length owners = length plans /\
  SetupInv (si_tenantId current) (db_shifts db) (zip plans owners) st.1 /\
  Forall2 (fun p o => existingId p = Some o.1 \/ o.1 ∉ map sh_id (db_shifts db)) plans owners.
Proof.
  intros [_ Hdist _ _ Hpl _ _ Hsaved _ (paid & receipts & _ & _ & _ & _ & ->)] Hu.
  destruct (plansSaved_inv (si_tenantId current) (lo_id location) (db_shifts db) plans owners (tablesOf db) st []) as (Hlen & Hi & Howned); try done.
  - by apply SetupInv_start.
  - apply Forall_forall. intros p Hp. destruct (Forall2_elem_r _ _ _ _ Hpl Hp) as (row & _ & Hrow). by eapply planned_read.
  - intros p i _ _. apply not_elem_of_nil.
  - by eapply planned_distinct.
  - split; [by destruct paid|]. split; [by destruct paid|]. by split.
Qed.

Lemma zip_lookup_fst {A B} (l : list A) (k : list B) d : d ∈ zip l k -> exists i, l !! i = Some d.1 /\ k !! i = Some d.2.
Proof.
  intros Hd%list_elem_of_lookup_1. destruct Hd as [i Hi]. exists i. destruct d as [a b]. by apply lookup_zip_with_Some in Hi as (? & ? & [= -> ->] & ? & ?).
Qed.
End Outcome.

(** C5: Setting up shifts books nobody twice: when no person of the tenant had
    two live shifts that meet, none has after a request that returned, in any
    environment, whatever it moved, reassigned and created, provided the shifts
    it names are spelled as they are stored. *)
Theorem setupShifts_books_once `{Env, Process, AuthorityEnv, Collation, LocaleCompare, Sha256} identity body keyValue r w w' :
  setupShifts identity body keyValue w = (Ok r, w') -> spelled body -> idsUnique (db_shifts (w_db w)) ->
  bookedOnce (trim (si_tenantId identity)) (db_shifts (w_db w)) -> bookedOnce (trim (si_tenantId identity)) (db_shifts (w_db w')).
Proof.
  intros (key & _ & [[-> _]|(_ & current & location & plans & owners & st & Ht & Hst)])%setupShifts_Ok Hlow Hu Honce; [done|].
  rewrite <- Ht in *. destruct (stored_inv _ _ _ _ _ _ _ _ _ _ _ _ Hst Hu) as (-> & _ & Hlen & Hinv & _).
  destruct Hst as [_ _ _ _ Hpl Hap Hfree Hsaved _ _].
  assert (Hfound : forall e, e ∈ foundShifts (si_tenantId current) (st_rows body) (w_db w) -> sh_id (is_row e) ∈ ownersOf (zip plans owners)).
  { intros e He. destruct (found_planned _ _ _ _ _ _ Hu Hlow Hpl He) as (plan & Hin & Hex).
    apply plansSaved_owner in Hsaved. apply list_elem_of_lookup_1 in Hin as [i Hi].
    destruct (Forall2_lookup_l _ _ _ _ _ Hsaved Hi) as (o & Ho & Hid). unfold existingId in Hex.
    destruct (sp_existing plan) as [f|]; [|done]. injection Hex as <-. specialize (Hid f eq_refl). subst o.
    apply (ownersOf_elem _ (plan, (sh_id (is_row f), sh_publicId (is_row f)))). apply list_elem_of_lookup. exists i. apply lookup_zip_with_Some. by eexists _, _. }
  assert (Hmeets : forall s t u d, s ∈ db_shifts (w_db w) -> sh_id s ∉ ownersOf (zip plans owners) -> sh_tenantId s = si_tenantId current ->
    sh_deletedAt s = None -> sh_userId s = Some u -> u <> "" -> d ∈ zip plans owners -> sh_userId t = Some u ->
    holdsPlan (si_tenantId current) d.1 d.2.2 t -> windowsApart (shiftWindow s) (shiftWindow t)).
  { intros s t u d Hs Hno Hts Hds Hus Hu0 Hd Htu [_ _ _ Hwin Huser]. apply zip_lookup_fst in Hd as (i & Hi & _).
    specialize (Hfree d.1 u s (list_elem_of_lookup_2 _ _ _ Hi) ltac:(congruence) Hu0 Hs). rewrite Hwin.
    unfold bookedElsewhere in Hfree. rewrite !bool_decide_true in Hfree by done. cbn in Hfree.
    rewrite (bool_decide_false (sh_id s ∈ _)), andb_true_r in Hfree.
    - unfold windowsApart, shiftWindow, planWindow. cbn. apply andb_false_iff in Hfree as [?|?]; bool_lia.
    - intros Hx. apply Hno. apply list_elem_of_In, in_map_iff in Hx as (e & <- & He%list_elem_of_In). by apply Hfound. }
  intros s t u Hs Htin Hts Htt Hds Hdt Hus Hut Hu0 Hne.
  destruct (iv_rows _ _ _ _ Hinv s Hs) as [[Hs0 Hsno]|(d & Hd & Hdid & Hdh)], (iv_rows _ _ _ _ Hinv t Htin) as [[Ht0 Htno]|(d2 & Hd2 & Hd2id & Hd2h)].
  - by apply (Honce s t u).
  - by eapply Hmeets.
  - symmetry. by eapply Hmeets.
  - destruct (zip_lookup_fst _ _ _ Hd) as (i & Hi & Hi2), (zip_lookup_fst _ _ _ Hd2) as (j & Hj & Hj2).
    rewrite (hp_window _ _ _ _ Hdh), (hp_window _ _ _ _ Hd2h). apply (Hap i j d.1 d2.1) with (u := u); [|done..| |].
    + intros ->. apply Hne. congruence.
    + by rewrite <- (hp_user _ _ _ _ Hdh).
    + by rewrite <- (hp_user _ _ _ _ Hd2h).
Qed.

(** The shift a row of the request ends up in; the shift and the person a row
    names are spoken of where it writes them in lower case. *)
Record rowHeld (tenantId : string) (db : Db) (row : SetupRow) (s : Shift) : Prop := mkRowHeld {
  rh_live : sh_tenantId s = tenantId /\ sh_deletedAt s = None;
  rh_start : parseUtcInstant (su_startTime row) "/rows/startTime" = Ok (sh_startTime s);
  rh_end : parseUtcInstant (su_endTime row) "/rows/endTime" = Ok (sh_endTime s);
  rh_window : sh_startTime s < sh_endTime s <= sh_startTime s + 86400000;
  rh_named : forall id, su_shiftId row = Some id -> id <> "" -> lowerText id = id ->
    sh_publicId s = id /\ exists old, old ∈ db_shifts db /\ sh_id old = sh_id s;
  rh_nobody : su_userId row = Some None -> sh_userId s = None;
  rh_user : forall userId, su_userId row = Some (Some userId) -> lowerText userId = userId ->
    exists user, user ∈ db_users db /\ us_tenantId user = tenantId /\ us_publicId user = userId /\ us_deletedAt user = None /\
      us_suspendedAt user = None /\ sh_userId s = Some (us_id user);
}.

Section Saved.
Context `{Collation, LC : LocaleCompare}.
Context (current : SessionIdentity) (body : SetupShiftsRequest) (op : string) (sem : option string) (hash : string) (db db' : Db)
  (location : Location) (plans : list SetupPlan) (owners : list (string * string)) (st : list Shift * list BreakRow) (response : Json).
Context (Hst : SetupStored current body op sem hash db db' location plans owners st response).
Context (Hu : idsUnique (db_shifts db)).

Lemma named_found row plan id :
  row ∈ st_rows body -> RowPlanned (byPublicId (foundShifts (si_tenantId current) (st_rows body) db))
    (usersByPublicId (si_tenantId current) (st_rows body) db) row plan ->
  su_shiftId row = Some id -> id <> "" -> lowerText id = id ->
  exists e, sp_existing plan = Some e /\ sh_publicId (is_row e) = id.
Proof using Hst Hu.
  intros Hrow Hpl Hid Hne Hlow. destruct Hst as [_ Hdist (Hlen & _ & _) _ _ _ _ _ _ _]. set (found := foundShifts _ _ _) in *.
  pose proof (rw_existing _ _ _ _ Hpl) as Eex. rewrite Hid, (proj2 (truthy_Some (Some id) id)) in Eex by done. cbn in Eex.
  destruct (mapGet (byPublicId found) id) as [e|] eqn:Eg; [exists e; by apply byPublicId_elem in Eg as [_ ?]|exfalso].
  apply mapGet_None in Eg. apply Eg. unfold byPublicId. apply mapOf_keys.
  (* the found shifts have as many public identifiers as the request names *)
  assert (Hinc : List.incl (map lowerText (existingPublicIds (st_rows body))) (map (fun e => sh_publicId (is_row e)) found)).
  { apply NoDup_length_incl.
    - apply NoDup_ListNoDup. unfold found, foundShifts. rewrite map_map. cbn. destruct Hu as [_ Hn]. clear -Hn.
      induction (db_shifts db) as [|s l IH]; cbn in *; [constructor|]. apply NoDup_cons in Hn as [Hs Hn]. destruct (namedShift _ _ _ s); [|by apply IH].
      cbn. apply NoDup_cons. split; [|by apply IH]. intros Hx. apply Hs. apply list_elem_of_In, in_map_iff in Hx as (t & E & Ht%filter_In).
      apply list_elem_of_In, in_map_iff. exists t. tauto.
    - rewrite !length_map. by rewrite Hlen.
    - intros k (e & <- & He%list_elem_of_In)%in_map_iff. apply foundShifts_elem in He as (s & -> & _ & Hn). unfold namedShift in Hn. bools.
      apply list_elem_of_In. tauto. }
  assert (Hin : In id (map (fun e => sh_publicId (is_row e)) found)).
  { apply Hinc, in_map_iff. exists id. split; [done|]. apply list_elem_of_In, list_elem_of_omap. exists row. split; [done|].
    by apply truthy_Some. }
  apply in_map_iff in Hin as (e & <- & He). apply list_elem_of_fmap. exists (sh_publicId (is_row e), e). split; [done|].
  apply list_elem_of_In, in_map_iff. by exists e.
Qed.

Lemma rows_held : Forall2 (fun row o => exists s, s ∈ db_shifts db' /\ sh_publicId s = o.2 /\ rowHeld (si_tenantId current) db row s)
  (st_rows body) owners.
Proof using Hst Hu.
  destruct (stored_inv _ _ _ _ _ _ _ _ _ _ _ _ Hst Hu) as (-> & _ & Hlen & Hinv & _).
  pose proof (sd_planned _ _ _ _ _ _ _ _ _ _ _ _ Hst) as Hpl. pose proof (plansSaved_owner _ _ _ _ _ _ (sd_saved _ _ _ _ _ _ _ _ _ _ _ _ Hst)) as Hown.
  apply Forall2_same_length_lookup_2; [by rewrite (Forall2_length _ _ _ Hpl)|]. intros i row o Hrow Ho.
  destruct (Forall2_lookup_l _ _ _ _ _ Hpl Hrow) as (plan & Hplan & Hrp).
  destruct (iv_done _ _ _ _ Hinv (plan, o)) as (s & Hs & Hsid & [Hpid Ht Hd [= Hw1 Hw2] Huser]).
  { apply list_elem_of_lookup. exists i. apply lookup_zip_with_Some. by eexists _, _. }
  cbn in *. exists s. split; [done|]. split; [done|]. pose proof Hrp as [_ Hstart Hend Hwin _ Hru _ _]. split.
  - by split.
  - by rewrite Hw1.
  - by rewrite Hw2.
  - by rewrite Hw1, Hw2.
  - intros id Hid Hne Hlow. destruct (named_found row plan id) as (e & He & Hpe); [by eapply list_elem_of_lookup_2|done..|].
    destruct (Forall2_lookup_l _ _ _ _ _ Hown Hplan) as (o' & Ho' & Hoe). rewrite Ho in Ho'. injection Ho' as <-. specialize (Hoe e He). subst o.
    cbn in *. split; [congruence|]. exists (is_row e). split; [|done].
    by destruct (planned_existing _ _ _ _ _ _ _ Hrp He) as (_ & _ & _ & _ & ? & _).
  - intros Hno. rewrite Hno in Hru. congruence.
  - intros userId Hus Hlow. rewrite Hus in Hru.
    destruct (assigned_found (si_tenantId current) (st_rows body) db userId) as (user & Huin & Hut & Hup & Hud & Hususp & Hget); [apply Hst| |done|].
    + unfold assignedPublicIds. apply dedupe_sub, list_elem_of_omap. exists row. split; [by eapply list_elem_of_lookup_2|by rewrite Hus].
    + exists user. split_and!; try done. by rewrite Huser, Hru.
Qed.

(** The other shifts stay, and none appears. *)
Lemma others_stay s : sh_publicId s ∉ owners.*2 -> s ∈ db_shifts db <-> s ∈ db_shifts db'.
Proof using Hst Hu.
  destruct (stored_inv _ _ _ _ _ _ _ _ _ _ _ _ Hst Hu) as (-> & _ & Hlen & Hinv & Howned).
  pose proof (plansSaved_owner _ _ _ _ _ _ (sd_saved _ _ _ _ _ _ _ _ _ _ _ _ Hst)) as Hown. intros Hno. split; intros Hs.
  - apply (iv_kept _ _ _ _ Hinv); [done|]. intros Hx. apply list_elem_of_In, in_map_iff in Hx as (d & Ed & Hd%list_elem_of_In).
    apply zip_lookup_fst in Hd as (i & Hi & Ho). destruct (Forall2_lookup_lr _ _ _ _ _ _ Howned Hi Ho) as [Hex|Hfresh].
    + pose proof (Forall2_lookup_lr _ _ _ _ _ _ Hown Hi Ho) as He. unfold existingId in Hex. destruct (sp_existing d.1) as [e|] eqn:Ee; [|done].
      specialize (He e Ee). destruct (Forall2_lookup_r _ _ _ _ _ (sd_planned _ _ _ _ _ _ _ _ _ _ _ _ Hst) Hi) as (row & _ & Hrp).
      destruct (planned_existing _ _ _ _ _ _ _ Hrp Ee) as (_ & _ & _ & _ & Hein & _). injection Hex as Hex.
      assert (s = is_row e) as -> by (apply (unique_id (db_shifts db)); [done..|congruence]).
      apply Hno, list_elem_of_fmap. exists d.2. rewrite He. split; [done|]. rewrite <- He. by eapply list_elem_of_lookup_2.
    + apply Hfresh. rewrite Ed. by apply list_elem_of_In, in_map, list_elem_of_In.
  - destruct (iv_rows _ _ _ _ Hinv s Hs) as [[? _]|(d & Hd & _ & Hh)]; [done|]. exfalso. apply Hno, list_elem_of_fmap. exists d.2.
    split; [apply Hh|]. apply zip_lookup_fst in Hd as (i & _ & Ho). by eapply list_elem_of_lookup_2.
Qed.

(** The breaks of a shift move with it. *)
Lemma breaks_move s0 s : NoDup (map br_id (db_breaks db)) -> s0 ∈ db_shifts db -> s ∈ db_shifts db' -> sh_id s = sh_id s0 ->
  breaksOf (sh_id s) (db_breaks db') = map (displaceBreak (sh_startTime s - sh_startTime s0)) (breaksOf (sh_id s) (db_breaks db)).
Proof using Hst Hu.
  intros Hn Hs0 Hs Hid. destruct (stored_inv _ _ _ _ _ _ _ _ _ _ _ _ Hst Hu) as (Esh & -> & Hlen & Hinv & Howned). rewrite Esh in Hs.
  pose proof (plansSaved_owner _ _ _ _ _ _ (sd_saved _ _ _ _ _ _ _ _ _ _ _ _ Hst)) as Hown.
  pose proof (sd_planned _ _ _ _ _ _ _ _ _ _ _ _ Hst) as Hpl.
  pose proof (sd_saved _ _ _ _ _ _ _ _ _ _ _ _ Hst) as Hsv. apply plansSaved_breaks in Hsv as [Hmove Hstay].
  2:{ exact Hn. }
  2:{ apply Forall_forall. intros p Hp. destruct (Forall2_elem_r _ _ _ _ Hpl Hp) as (row & _ & Hrp). by eapply planned_translates. }
  2:{ eapply planned_distinct; [done|apply Hst|exact Hpl]. }
  cbn [tablesOf snd] in Hmove, Hstay.
  destruct (iv_rows _ _ _ _ Hinv s Hs) as [[Hin Hno]|(d & Hd & Hdid & Hh)].
  - assert (s = s0) as -> by (by apply (unique_id (db_shifts db))). rewrite Z.sub_diag.
    assert (E : forall l, map (displaceBreak 0) l = l).
    { intros l. induction l as [|[i k t a b p] l IH]; [done|]. cbn [map]. rewrite IH. unfold displaceBreak. cbn. by rewrite !Z.add_0_r. }
    rewrite E. apply Hstay. intros p Hp Hex. apply Hno. apply list_elem_of_lookup_1 in Hp as [i Hi].
    destruct (Forall2_lookup_l _ _ _ _ _ Hown Hi) as (o & Ho & Hoe). unfold existingId in Hex. destruct (sp_existing p) as [e|]; [|done].
    injection Hex as <-. specialize (Hoe e eq_refl). subst o. apply (ownersOf_elem _ (p, (sh_id (is_row e), sh_publicId (is_row e)))).
    apply list_elem_of_lookup. exists i. apply lookup_zip_with_Some. by eexists _, _.
  - apply zip_lookup_fst in Hd as (i & Hi & Ho). destruct (Forall2_lookup_lr _ _ _ _ _ _ Howned Hi Ho) as [Hex|Hfresh].
    + unfold existingId in Hex. destruct (sp_existing d.1) as [e|] eqn:Ee; [|done]. injection Hex as Hex.
      destruct (Forall2_lookup_r _ _ _ _ _ Hpl Hi) as (row & _ & Hrp). destruct (planned_existing _ _ _ _ _ _ _ Hrp Ee) as (_ & _ & _ & _ & Hein & _).
      assert (s0 = is_row e) as -> by (apply (unique_id (db_shifts db)); [done..|congruence]).
      rewrite <- Hdid, <- Hex, (Hmove d.1 e (list_elem_of_lookup_2 _ _ _ Hi) Ee). unfold planShift.
      destruct Hh as [_ _ _ [= Hw _] _]. by rewrite Hw.
    + exfalso. apply Hfresh. rewrite Hdid, Hid. by apply list_elem_of_In, in_map, list_elem_of_In.
Qed.
End Saved.

(** C31: A setup that writes does what its rows ask: it answers with one public
    identifier for each row, in order, and each names a live shift of the tenant
    with the row's window, of nobody when the row says so; a row that names its
    shift or its person by an identifier in lower case, as identifiers are
    stored, gets that very shift and that person (nothing is said of one written
    with capitals, which the code does not find again); every shift that is not of
    the answer stayed as it was and none else appeared; and the breaks of every
    shift move exactly as far as its start. *)
Theorem setupShifts_saves `{Env, Process, AuthorityEnv, Collation, LocaleCompare, Sha256} identity body keyValue r w w' :
  setupShifts identity body keyValue w = (Ok r, w') -> w_db w' <> w_db w ->
  idsUnique (db_shifts (w_db w)) -> NoDup (map br_id (db_breaks (w_db w))) ->
  let tenantId := trim (si_tenantId identity) in
  exists ids, r = setupResponse ids /\
    Forall2 (fun row id => exists s, s ∈ db_shifts (w_db w') /\ sh_publicId s = id /\ rowHeld tenantId (w_db w) row s) (st_rows body) ids /\
    (forall s, sh_publicId s ∉ ids -> s ∈ db_shifts (w_db w) <-> s ∈ db_shifts (w_db w')) /\
    forall s0 s, s0 ∈ db_shifts (w_db w) -> s ∈ db_shifts (w_db w') -> sh_id s = sh_id s0 ->
      breaksOf (sh_id s) (db_breaks (w_db w')) =
        map (displaceBreak (sh_startTime s - sh_startTime s0)) (breaksOf (sh_id s) (db_breaks (w_db w))).
Proof.
  intros (key & _ & [[E _]|(_ & current & location & plans & owners & st & Ht & Hst)])%setupShifts_Ok Hne Hu Hn tenantId; [done|].
  fold tenantId in Ht. rewrite <- Ht. exists owners.*2. split; [apply Hst|]. split; [|split].
  - apply Forall2_fmap_r. by eapply rows_held.
  - intros s. by eapply others_stay.
  - intros s0 s. by eapply breaks_move.
Qed.

(** A setup is stored once: after one that wrote, as long as the audit log
    is only added to, a request with its key, whatever it asks, changes nothing
    and, if it returns, asked the same and gets the same answer; and when it
    created a shift for nobody, the same request under any other key changes
    nothing either. *)
Theorem setupShifts_once `{Process, Collation, LocaleCompare, Sha256} (env1 env2 : Env) (auth1 auth2 : AuthorityEnv)
    identity identity2 body body2 keyValue keyValue2 r r2 w w' w2 w3 :
  setupShifts (H := env1) (H1 := auth1) identity body keyValue w = (Ok r, w') -> w_db w' <> w_db w ->
  (exists more, db_audits (w_db w2) = db_audits (w_db w') ++ more) ->
  trim (si_tenantId identity2) = trim (si_tenantId identity) ->
  setupShifts (H := env2) (H1 := auth2) identity2 body2 keyValue2 w2 = (r2, w3) ->
  (keyValue2 = keyValue -> w_db w3 = w_db w2 /\ forall response, r2 = Ok response ->
     response = r /\ setupIdentity body2 = setupIdentity body) /\
  (createsUnassigned body = true -> body2 = body -> w_db w3 = w_db w2).
Proof.
  intros Hr Hne [more Hmore] Ht Hr2. apply setupShifts_Ok in Hr as (key & Hk & [[E _]|(Hfresh & current & location & plans & owners & st & Htc & Hst)]); [done|].
  destruct Hst as [_ _ _ _ _ _ _ _ _ (paid & receipts & Hpaid & Hvals & (id1 & Hfirst) & (id2 & Hsecond) & Edb)].
  assert (Haud : db_audits (w_db w') = db_audits (w_db w) ++ receipts) by (rewrite Edb; by destruct paid).
  rewrite Haud, <- app_assoc in Hmore. destruct receipts as [|r1 rest]; [done|]. cbn in Hfirst, Hsecond. injection Hfirst as ->. subst rest.
  set (tid := trim (si_tenantId identity)) in *. set (hash := setupIdentity body) in *.
  assert (Hkey : setupReceipt SETUP_RESOURCE tid (setupOperation tid key) (w_db w2) =
    Some (receipt id1 SETUP_PERSISTED SETUP_RESOURCE (setupOperation tid key) hash current r)).
  { unfold setupReceipt. rewrite Hmore, find_app_none by apply Hfresh. cbn. unfold receiptOf, receipt. cbn. by rewrite Htc, !bool_decide_true. }
  assert (Hsem : forall semantic, semanticOperation tid body = Some semantic ->
    setupReceipt SETUP_SEMANTIC_RESOURCE tid semantic (w_db w2) =
      Some (receipt id2 SETUP_PERSISTED SETUP_SEMANTIC_RESOURCE semantic hash current r)).
  { intros semantic Es. unfold setupReceipt. rewrite Hmore, find_app_none by (by apply Hfresh). rewrite Es. cbn.
    unfold receiptOf at 1, receipt at 1. cbn. rewrite (bool_decide_false (SETUP_RESOURCE = _)) by done. rewrite andb_false_r. cbn.
    unfold receiptOf, receipt. cbn. by rewrite Htc, !bool_decide_true. }
  destruct r2 as [response2|e]; [|apply setupShifts_Throw in Hr2; split; [by split|done]].
  apply setupShifts_Ok in Hr2 as (key2 & Hk2 & Ho). rewrite Ht in Ho. split.
  - intros ->. rewrite Hk in Hk2. injection Hk2 as <-. destruct Ho as [[-> (a & Ha & [Hfa|(Hfa & _)])]|[[Hfa _] _]];
      rewrite Hkey in Hfa; [|done..]. injection Hfa as <-. split; [done|]. intros ? [= <-].
    destruct Ha as (es & Ea & Er & Eh). cbn in Ea. injection Ea as <-. cbn in Er. injection Er as ->. split; [done|].
    cbn in Eh. symmetry. by apply bool_decide_eq_true in Eh.
  - intros Hc ->. destruct Ho as [[-> _]|[[_ Hno] _]]; [done|]. exfalso.
    assert (Es : exists semantic, semanticOperation tid body = Some semantic) by (unfold semanticOperation; rewrite Hc; by eexists).
    destruct Es as [semantic Es]. specialize (Hno semantic Es). by rewrite (Hsem semantic Es) in Hno.
Qed.

(** ** Concrete instances *)

#[local] Notation morning := 1772438400000.
#[local] Notation sampleShiftId := "aaaaaaaa-0000-4000-8000-000000000001".
#[local] Notation otherShiftId := "aaaaaaaa-0000-4000-8000-000000000002".
#[local] Notation sampleUserId := "bbbbbbbb-0000-4000-8000-000000000001".
#[local] Notation sampleLocationId := "cccccccc-0000-4000-8000-000000000001".

(** One shift of one worker from eight to four with a break at ten, and one of
    nobody on the same day. *)
Definition setupDb : Db :=
  withRows [sampleTenant 5]
  (withRows [mkLocation "loc" sampleLocationId "t1" None "Main" "UTC" None None None 0 0]
  (withRows [mkUser "u1" sampleUserId "t1" "Ana" "STAFF" None None None]
  (withRows [ScheduleChanges.sampleScheduleRow DRAFT]
  (withRows [mkShift "s1" sampleShiftId "t1" "loc" (Some "sched") (Some "u1") morning 1772467200000 None 0 None;
             mkShift "s2" otherShiftId "t1" "loc" (Some "sched") None morning 1772467200000 None 0 None]
  (withRows [mkBreak "b1" "s1" (Some "LUNCH") 1772445600000 1772447400000 false] emptyDb))))).

#[local] Notation setupWith body := (@setupShifts (calmUuid 1772409600000) noBeta (actingAs ScheduleChanges.sampleManager)
  ScheduleChanges.codeUnitOrder codeUnitCollation ScheduleChanges.plainDigest ScheduleChanges.sampleManager
  body (Some "key-00001")).

(** The shift of the worker an hour later, and a new one for nobody. *)
Definition setupBody : SetupShiftsRequest := mkSetupShifts sampleLocationId
  [mkSetupRow (Some sampleShiftId) None "2026-03-02T09:00:00Z" "2026-03-02T17:00:00Z";
   mkSetupRow None None "2026-03-02T08:00:00Z" "2026-03-02T12:00:00Z"].
#[local] Notation setupRun := (setupWith setupBody (mkWorld setupDb 0)).
Definition setupDone : Db := Eval vm_compute in w_db setupRun.2.
Definition setupReply : Json := Eval vm_compute in ScheduleChanges.okJson setupRun.1.

Example setupDone_rows :
  map (fun s => (sh_userId s, sh_startTime s, sh_endTime s)) (db_shifts setupDone) =
    [(Some "u1", 1772442000000, 1772470800000); (None, morning, 1772467200000); (None, morning, 1772452800000)] /\
  map (fun b => (br_startTime b, br_endTime b)) (db_breaks setupDone) = [(1772449200000, 1772451000000)] /\
  map tn_usageCredits (db_tenants setupDone) = [4] /\ length (db_audits setupDone) = 2%nat.
Proof. repeat split; vm_compute; reflexivity. Qed.

Lemma setupDone_differs : setupDone <> setupDb.
Proof. intros E. apply (f_equal (fun db => map tn_usageCredits (db_tenants db))) in E. vm_compute in E. discriminate E. Qed.

(** Shifts are found by identifier whatever its case, and matched with the rows
    of the request by spelling: a request that spells a shift in upper case
    books its person twice. *)
Example setup_uppercase_double_books :
  let body := mkSetupShifts sampleLocationId
    [mkSetupRow (Some "AAAAAAAA-0000-4000-8000-000000000001") (Some (Some sampleUserId)) "2026-03-02T08:00:00Z" "2026-03-02T16:00:00Z"] in
  isOk (setupWith body (mkWorld setupDb 0)).1 = true /\
  map (fun s => (sh_startTime s, sh_endTime s))
    (List.filter (fun s => bool_decide (sh_userId s = Some "u1")) (db_shifts (w_db (setupWith body (mkWorld setupDb 0)).2))) =
    [(morning, 1772467200000); (morning, 1772467200000)].
Proof. split; vm_compute; reflexivity. Qed.

Lemma setupDb_unique : idsUnique (db_shifts setupDb).
Proof. split; apply (bool_decide_unpack _); vm_compute; exact I. Qed.

Lemma setupShifts_books_once_witness : bookedOnce "t1" (db_shifts setupDone).
Proof.
  apply (@setupShifts_books_once (calmUuid 1772409600000) noBeta (actingAs ScheduleChanges.sampleManager)
    ScheduleChanges.codeUnitOrder codeUnitCollation ScheduleChanges.plainDigest ScheduleChanges.sampleManager
    setupBody (Some "key-00001") setupReply (mkWorld setupDb 0) (mkWorld setupDone (w_tick setupRun.2))).
  - vm_compute. reflexivity.
  - repeat constructor.
  - exact setupDb_unique.
  - intros s t u Hs Ht _ _ _ _ Hus Hut _ Hne. cbn in Hs, Ht.
    rewrite !elem_of_cons in Hs, Ht. destruct Hs as [->|[->|[]%not_elem_of_nil]], Ht as [->|[->|[]%not_elem_of_nil]]; done.
Defined.

Lemma setupShifts_saves_witness :
  exists ids, setupReply = setupResponse ids /\
    Forall2 (fun row id => exists s, s ∈ db_shifts setupDone /\ sh_publicId s = id /\
      rowHeld "t1" setupDb row s) (st_rows setupBody) ids /\
    (forall s, sh_publicId s ∉ ids -> s ∈ db_shifts setupDb <-> s ∈ db_shifts setupDone) /\
    forall s0 s, s0 ∈ db_shifts setupDb -> s ∈ db_shifts setupDone -> sh_id s = sh_id s0 ->
      breaksOf (sh_id s) (db_breaks setupDone) =
        map (displaceBreak (sh_startTime s - sh_startTime s0)) (breaksOf (sh_id s) (db_breaks setupDb)).
Proof.
  apply (@setupShifts_saves (calmUuid 1772409600000) noBeta (actingAs ScheduleChanges.sampleManager)
    ScheduleChanges.codeUnitOrder codeUnitCollation ScheduleChanges.plainDigest ScheduleChanges.sampleManager
    setupBody (Some "key-00001") setupReply (mkWorld setupDb 0) (mkWorld setupDone (w_tick setupRun.2))).
  - vm_compute. reflexivity.
  - exact setupDone_differs.
  - exact setupDb_unique.
  - apply (bool_decide_unpack _). vm_compute. exact I.
Defined.

(** The same request again, under its key and under another one. *)
#[local] Notation setupAgain key := (@setupShifts (calmUuid 1772409700000) noBeta (actingAs ScheduleChanges.sampleManager)
  ScheduleChanges.codeUnitOrder codeUnitCollation ScheduleChanges.plainDigest ScheduleChanges.sampleManager
  setupBody (Some key) (mkWorld setupDone 900)).

Lemma setupShifts_once_witness :
  w_db (setupAgain "key-00002").2 = setupDone.
Proof.
  apply (@setupShifts_once noBeta ScheduleChanges.codeUnitOrder codeUnitCollation ScheduleChanges.plainDigest
    (calmUuid 1772409600000) (calmUuid 1772409700000) (actingAs ScheduleChanges.sampleManager) (actingAs ScheduleChanges.sampleManager)
    ScheduleChanges.sampleManager ScheduleChanges.sampleManager setupBody setupBody (Some "key-00001") (Some "key-00002")
    setupReply (setupAgain "key-00002").1 (mkWorld setupDb 0) (mkWorld setupDone (w_tick setupRun.2))
    (mkWorld setupDone 900) (setupAgain "key-00002").2).
  - vm_compute. reflexivity.
  - exact setupDone_differs.
  - exists []. by rewrite app_nil_r.
  - reflexivity.
  - apply surjective_pairing.
  - vm_compute. reflexivity.
  - reflexivity.
Defined.
