(* ===== verification/OperationsPages.v ===== *)
(** * Pagination of the operational lists

    apps/api-v2/src/operations/pagination.ts: the limit, the window and the
    cursor of a list request, and the page of its answer.  A cursor that a page
    carries is read back as the key of the page's last row. *)

From S2P Require Import Prelude JsStd JsCollections JsDate ContractHelpers PayrollRecords JsEncoding JsDecoding Database Paging.

Definition DEFAULT_LIMIT : Z := 100.
Definition MAX_LIMIT : Z := 200.

Record OperationsCursor := mkCursor { oc_timestamp : Z; oc_publicId : string }.
Record OperationsWindow := mkWindow { ow_startDate : option Z; ow_endDate : option Z }.

Definition invalidPagination {A} (detail : string) : Result A :=
  throwProblem 422 "invalid_pagination" detail "Pagination validation failed".

(** Query values are texts. *)
Definition parseLimit (value : option string) : Result Z :=
  match truthy value with
  | None => Ok DEFAULT_LIMIT
  | Some text =>
      let parsed := digitsValue text in
      if negb (allChars isDigit text) || negb (isSafeInteger parsed) || (parsed <? 1) || (MAX_LIMIT <? parsed)
      then invalidPagination "limit must be an integer from 1 through 200." else Ok parsed
  end.

Definition parseOptionalInstant (value : option string) (field : string) : Result (option Z) :=
  let refuse := invalidPagination (field +:+ " must be a UTC ISO 8601 instant.") in
  match truthy value with
  | None => Ok None
  | Some text =>
      match matchInstant text, dateParse text with
      | Some _, Some parsed => if bool_decide (toISOString parsed = text) then Ok (Some parsed) else refuse
      | _, _ => refuse
      end
  end.

Definition parseWindow (startDate endDate : option string) : Result OperationsWindow :=
  startDate ← parseOptionalInstant startDate "startDate";
  endDate ← parseOptionalInstant endDate "endDate";
  match startDate, endDate with
  | Some s, Some e => if e <=? s then invalidPagination "endDate must be after startDate." else Ok (mkWindow startDate endDate)
  | _, _ => Ok (mkWindow startDate endDate)
  end.

(** Thirty-six hexadecimal digits or hyphens. *)
Definition cursorId (s : string) : bool := (strLen s =? 36) && allChars (fun c => isHex c || bool_decide (c = "-"%char)) s.

(** What the [try] block of [decodeCursor] returns, if it does. *)
Definition readCursor (value : string) : option OperationsCursor :=
  payload ← decodeJson value;
  v ← memberOf "v" payload;
  version ← safeNatural v;
  timestampValue ← memberOf "timestamp" payload;
  publicIdValue ← memberOf "publicId" payload;
  match timestampValue, publicIdValue with
  | VStr timestampPoints, VStr publicIdPoints =>
      timestampText ← pointsText timestampPoints;
      publicId ← pointsText publicIdPoints;
      timestamp ← dateParse timestampText;
      if (version =? 1) && cursorId publicId && bool_decide (toISOString timestamp = timestampText)
      then Some (mkCursor timestamp publicId) else None
  | _, _ => None
  end.

Definition decodeCursor (value : option string) : Result (option OperationsCursor) :=
  match truthy value with
  | None => Ok None
  | Some text =>
      if 512 <? strLen text then invalidPagination "cursor is invalid."
      else match readCursor text with Some cursor => Ok (Some cursor) | None => invalidPagination "cursor is invalid." end
  end.

Definition cursorJson (cursor : OperationsCursor) : Json :=
  JObj [field "v" (JNum 1); field "timestamp" (JStr (toISOString (oc_timestamp cursor)));
        field "publicId" (JStr (oc_publicId cursor))].

Definition encodeCursor (cursor : OperationsCursor) : Result string :=
  if negb (cursorId (oc_publicId cursor)) then Throw (JsError "Cannot encode an operations cursor.")
  else Ok (base64url (utf8Bytes (stringify (cursorJson cursor)))).

Record BoundedPagination := mkPagination {
  bp_limit : Z;
  bp_maxLimit : Z;
  bp_returned : Z;
  bp_hasMore : bool;
  bp_nextCursor : option string;
  bp_windowStartDate : option string;
  bp_windowEndDate : option string;
}.

Record Paged (T : Type) := mkPaged { pg_data : list T; pg_pagination : BoundedPagination }.
Arguments mkPaged {T}.
Arguments pg_data {T} p.
Arguments pg_pagination {T} p.

Definition page {T} (rows : list T) (limit : Z) (rowCursor : T -> OperationsCursor) (window : OperationsWindow) : Result (Paged T) :=
  let hasMore := limit <? Z.of_nat (length rows) in
  let data := if hasMore then take (Z.to_nat limit) rows else rows in
  nextCursor ← match (if hasMore then last data else None) with
               | Some row => Some <$> encodeCursor (rowCursor row)
               | None => Ok None
               end;
  Ok (mkPaged data (mkPagination limit 200 (Z.of_nat (length data)) hasMore nextCursor
    (toISOString <$> ow_startDate window) (toISOString <$> ow_endDate window))).

(** ** Cursors are read back *)

Definition plainChar (c : ascii) : bool :=
  let n := codeUnit c in (32 <=? n) && (n <? 128) && negb (n =? 34) && negb (n =? 92).

Lemma quoteChar_plain c : plainChar c = true -> quoteChar c = [c].
Proof.
  unfold plainChar, quoteChar. intros H. bools. destruct H as [[[H1 H2] H3] H4].
  rewrite (proj2 (Z.eqb_neq _ 34)), (proj2 (Z.eqb_neq _ 92)), (proj2 (Z.eqb_neq _ 8)), (proj2 (Z.eqb_neq _ 9)),
    (proj2 (Z.eqb_neq _ 10)), (proj2 (Z.eqb_neq _ 12)), (proj2 (Z.eqb_neq _ 13)), (proj2 (Z.ltb_ge _ 32)) by lia. done.
Qed.

Lemma quoteJson_plain s : allChars plainChar s = true -> quoteJson s = String dquote (s +:+ String dquote "").
Proof.
  unfold quoteJson, allChars. intros H. rewrite <- (ofChars_chars s) at 2. induction (chars s) as [|c l IH]; [done|].
  cbn [forallb flat_map] in *. apply andb_true_iff in H as [Hc Hl]. rewrite (quoteChar_plain c) by done.
  cbn [app ofChars String.string_of_list_ascii] in *. apply IH in Hl. injection Hl as Hl.
  rewrite strapp_cons. do 2 f_equal. exact Hl.
Qed.

Lemma allChars_impl (p q : ascii -> bool) s : (forall c, p c = true -> q c = true) -> allChars p s = true -> allChars q s = true.
Proof. unfold allChars. rewrite !forallb_forall. naive_solver. Qed.

Lemma isDigit_plain c : isDigit c = true -> plainChar c = true.
Proof. unfold isDigit, plainChar. intros H. bools. bool_lia. Qed.

Lemma toISOString_plain t : allChars plainChar (toISOString t) = true.
Proof.
  assert (Hp : forall n z, allChars plainChar (padDigits n z) = true).
  { intros n z. eapply allChars_impl; [apply isDigit_plain|apply padDigits_digits]. }
  unfold toISOString, isoDate, isoTime, showYear. rewrite !allChars_app, !Hp.
  destruct ((0 <=? _) && _); [by rewrite Hp|]. destruct (_ <? 0); by rewrite allChars_app, Hp.
Qed.

Lemma length_strapp s t : String.length (s +:+ t) = (String.length s + String.length t)%nat.
Proof. by rewrite <- !length_chars, chars_app, length_app. Qed.

Lemma toISOString_length t : (String.length (toISOString t) <= 27)%nat.
Proof.
  unfold toISOString, isoDate, isoTime, showYear. rewrite !length_strapp, !length_padDigits.
  destruct (_ && _); [rewrite length_padDigits; cbn; lia|]. destruct (_ <? _); rewrite length_strapp, length_padDigits; cbn; lia.
Qed.

Lemma cursorId_plain s : cursorId s = true -> allChars plainChar s = true /\ String.length s = 36%nat.
Proof.
  unfold cursorId, strLen. intros H. bools. destruct H as [Hl Hc]. split; [|lia]. eapply allChars_impl; [|exact Hc].
  intros c Hx. apply orb_true_iff in Hx as [Hx|Hx]; [|by apply bool_decide_eq_true in Hx as ->].
  unfold isHex, isLowerHex, isDigit, plainChar in *. bools. bool_lia.
Qed.

(** The cursors of an instant and an identifier are short enough. *)
Definition instantCursor (name : string) (t : Z) (publicId : string) : Json :=
  JObj [field "v" (JNum 1); field name (JStr (toISOString t)); field "publicId" (JStr publicId)].

Lemma instantCursor_short name t publicId :
  allChars plainChar name = true -> (String.length name <= 16)%nat -> cursorId publicId = true ->
  strLen (base64url (utf8Bytes (stringify (instantCursor name t publicId)))) <= 512.
Proof.
  intros Hn Hnl [Hp Hl]%cursorId_plain. unfold instantCursor. rewrite stringify_kept.
  pose proof (toISOString_plain t) as Ht. pose proof (toISOString_length t) as Htl.
  set (ts := toISOString t) in *. clearbody ts.
  cbn [keptPairs flat_map field snd fst app map memberText]. rewrite !joinWith_cons2. cbn [joinWith fold_left].
  unfold memberText. cbn [fst snd stringify]. rewrite (quoteJson_plain ts), (quoteJson_plain publicId), (quoteJson_plain name) by done.
  set (text := _ +:+ _). pose proof (base64url_length (utf8Bytes text)) as Hb.
  assert (Hlow : forall s, allChars plainChar s = true -> allChars (fun c => codeUnit c <? 128) s = true).
  { intros s. apply allChars_impl. unfold plainChar. intros c H. bools. bool_lia. }
  rewrite utf8Bytes_length in Hb.
  - enough (String.length text <= 130)%nat by (unfold strLen; lia). unfold text. rewrite !length_strapp. cbn [String.length].
    rewrite !length_strapp. change (String.length (quoteJson "v")) with 3%nat.
    change (String.length (quoteJson "publicId")) with 10%nat. change (String.length (showZ 1)) with 1%nat. cbn [String.length]. lia.
  - unfold text. rewrite !allChars_app, !allChars_cons, !allChars_app, (Hlow ts), (Hlow publicId), (Hlow name) by done.
    vm_compute. reflexivity.
Qed.

(** The cursor of a page, read back. *)
Lemma decodeCursor_encoded cursor text :
  validTime (oc_timestamp cursor) -> encodeCursor cursor = Ok text -> decodeCursor (Some text) = Ok (Some cursor) /\ text <> "".
Proof.
  intros Hv. unfold encodeCursor. destruct (cursorId (oc_publicId cursor)) eqn:Hid; [|done]. intros E.
  assert (text = base64url (utf8Bytes (stringify (cursorJson cursor)))) as -> by (cbn [negb] in E; congruence). clear E.
  set (text := base64url (utf8Bytes (stringify (cursorJson cursor)))).
  assert (Hbound : strLen text <= 512) by (apply (instantCursor_short "timestamp"); [done|cbn; lia|done]).
  assert (Hread : readCursor text = Some cursor).
  { unfold readCursor, text. rewrite decodeJson_encoded. unfold cursorJson. rewrite valueOf_kept. cbn [mbind option_bind].
    change (memberOf "v" _) with (Some (VNum 1 0)). change (memberOf "timestamp" _) with (Some (VStr (codePoints (toISOString (oc_timestamp cursor))))).
    change (memberOf "publicId" _) with (Some (VStr (codePoints (oc_publicId cursor)))). cbn [mbind option_bind].
    rewrite (safeNatural_int 1) by (vm_compute; split; discriminate). cbn [mbind option_bind].
    rewrite !pointsText_codePoints. cbn [mbind option_bind].
    rewrite dateParse_iso by done. cbn [mbind option_bind]. rewrite Hid, bool_decide_true by done. by destruct cursor. }
  assert (Hne : text <> "") by (intros E; by rewrite E in Hread). split; [|done].
  unfold decodeCursor, truthy. destruct (isEmpty text) eqn:Ee; [by apply bool_decide_eq_true in Ee|].
  cbn iota. rewrite (proj2 (Z.ltb_ge 512 _)) by done. by rewrite Hread.
Qed.

(** ** Pages *)

Lemma parseLimit_range value limit : parseLimit value = Ok limit -> 1 <= limit <= 200.
Proof.
  unfold parseLimit. destruct (truthy value) as [text|]; [|intros [= <-]; unfold DEFAULT_LIMIT; lia]. unfold MAX_LIMIT.
  destruct (_ || _) eqn:E; [done|]. intros [= <-]. apply orb_false_iff in E as [E E3]. apply orb_false_iff in E as [_ E2]. bool_lia.
Qed.

Lemma page_Ok {T} (rows : list T) limit rowCursor window p :
  page rows limit rowCursor window = Ok p -> 1 <= limit ->
  pg_data p = take (Z.to_nat limit) rows /\
  match bp_nextCursor (pg_pagination p) with
  | None => (length rows <= Z.to_nat limit)%nat
  | Some text => (Z.to_nat limit < length rows)%nat /\
      exists x, last (take (Z.to_nat limit) rows) = Some x /\ encodeCursor (rowCursor x) = Ok text
  end.
Proof.
  unfold page. intros (next & Hn & [= <-])%Result_bind_Ok Hl. cbn. destruct (limit <? Z.of_nat (length rows)) eqn:E; bools.
  - split; [done|]. destruct (last _) as [x|] eqn:Ex.
    + apply Result_fmap_Ok in Hn as (text & Ht & ->). split; [lia|]. by exists x.
    + exfalso. apply last_None in Ex. apply (f_equal length) in Ex. rewrite length_take in Ex. cbn in Ex. lia.
  - injection Hn as <-. rewrite take_ge by lia. split; [done|]. lia.
Qed.
