(* ===== verification/OperationsLists.v ===== *)
(** * The operational lists

    The read models of apps/api-v2/src/operations: [listSchedules],
    [listShifts] and [staffRoster] of operations.service.ts and the break list
    of lunch-breaks.service.ts.  Each reads one page of the rows its actor may
    see; staff see their own published shifts.  Whoever follows the cursors sees
    each row once, whatever changes meanwhile. *)

From S2P Require Import ScheduleChanges SetupShifts.
From S2P Require Import Prelude JsStd JsCollections JsDate ContractHelpers LunchBreakPolicy.
From S2P Require Import LunchBreakPlacement LunchBreaks PayrollRecords JsEncoding JsDecoding Database.
From S2P Require Import FeatureEntitlement Authority ScheduleStore LunchBreakStore Paging OperationsPages.

Record OperationsListQuery := mkListQuery {
  ql_locationId : option string;
  ql_scheduleId : option string;
  ql_startDate : option string;
  ql_endDate : option string;
  ql_limit : option string;
  ql_cursor : option string;
}.

Record ScheduleSummary := mkScheduleSummary {
  su_id : string;
  su_locationId : string;
  su_startDate : string;
  su_endDate : string;
  su_status : string;
  su_publishedAt : option string;
  su_revision : Z;
}.

Record StaffRosterMember := mkMember { rm_id : string; rm_name : string; rm_role : string }.

Record ShiftSummary := mkShiftSummary {
  hs_id : string;
  hs_userId : option string;
  hs_locationId : string;
  hs_scheduleId : option string;
  hs_startTime : string;
  hs_endTime : string;
  hs_role : option string;
  hs_user : option StaffRosterMember;
  hs_breaks : list BreakEntry;
}.

(** ** Serialization *)

Definition serializeSchedule (row : Schedule) (locationPublicId : string) : ScheduleSummary :=
  mkScheduleSummary (sc_publicId row) locationPublicId (toISOString (sc_startDate row)) (toISOString (sc_endDate row))
    (statusText (sc_status row)) (toISOString <$> sc_publishedAt row) (sc_revision row).

Definition memberOfUser (u : User) : StaffRosterMember :=
  mkMember (us_publicId u) (if isEmpty (us_name u) then "Unnamed" else us_name u)
    (if bool_decide (us_role u = "MANAGER") then "MANAGER" else "STAFF").

Definition serializeShift `{LocaleCompare} (row : InternalShift) : Result ShiftSummary :=
  let shift := is_row row in
  breaks ← serializeBreaks (map storedBreak (is_breaks row));
  Ok (mkShiftSummary (sh_publicId shift) (us_publicId <$> is_user row) (is_locationPublicId row) (sc_publicId <$> is_schedule row)
        (toISOString (sh_startTime shift)) (toISOString (sh_endTime shift)) (sh_role shift) (memberOfUser <$> is_user row) breaks).

(** ** What a request lists *)

(** [...(id ? { publicId: id } : {})] *)
Definition matchesId (publicId : option string) (stored : string) : bool :=
  match truthy publicId with Some id => sameUuid stored id | None => true end.

Definition atLocation (publicId : option string) (location : option Location) : bool :=
  match location with Some l => bool_decide (lo_deletedAt l = None) && matchesId publicId (lo_publicId l) | None => false end.

(** The schedule filter, absent when it has no condition. *)
Definition inSchedule (current : SessionIdentity) (publicId : option string) (schedule : option Schedule) : bool :=
  let staff := isStaffIdentity current in
  if negb staff && bool_decide (truthy publicId = None) then true
  else match schedule with
       | Some s => matchesId publicId (sc_publicId s)
                   && (negb staff || (bool_decide (sc_status s = PUBLISHED) && bool_decide (sc_deletedAt s = None)))
       | None => false
       end.

Definition shiftInWindow (window : OperationsWindow) (s : Shift) : bool :=
  match ow_startDate window with Some start => start <? sh_endTime s | None => true end
  && match ow_endDate window with Some finish => sh_startTime s <? finish | None => true end.

(** The shifts of a list, [shiftIds] being what the break list may also ask for. *)
Definition listedShift (current : SessionIdentity) (locationId scheduleId : option string) (shiftIds : option (list string))
    (window : OperationsWindow) (db : Db) (s : Shift) : bool :=
  bool_decide (sh_tenantId s = si_tenantId current) && bool_decide (sh_deletedAt s = None)
  && atLocation locationId (locationOfShift db s) && schedulableShift db s
  && inSchedule current scheduleId (scheduleOfShift db s)
  && match shiftIds with Some ids => bool_decide (sh_publicId s ∈ map lowerText ids) | None => true end
  && (negb (isStaffIdentity current) || bool_decide (sh_userId s = Some (si_sub current)))
  && shiftInWindow window s.

Definition locationOfSchedule (db : Db) (s : Schedule) : option Location :=
  List.find (fun l => bool_decide (lo_id l = sc_locationId s) && bool_decide (lo_tenantId l = sc_tenantId s)) (db_locations db).

(** [shifts: { some: ... }] *)
Definition hasShiftOf (current : SessionIdentity) (db : Db) (s : Schedule) : bool :=
  existsb (fun h => bool_decide (sh_scheduleId h = Some (sc_id s)) && bool_decide (sh_tenantId h = si_tenantId current)
    && bool_decide (sh_userId h = Some (si_sub current)) && bool_decide (sh_deletedAt h = None)) (db_shifts db).

Definition listedSchedule (current : SessionIdentity) (locationId : option string) (window : OperationsWindow) (db : Db) (s : Schedule) : bool :=
  bool_decide (sc_tenantId s = si_tenantId current) && bool_decide (sc_deletedAt s = None)
  && atLocation locationId (locationOfSchedule db s)
  && match ow_startDate window with Some start => start <? sc_endDate s | None => true end
  && match ow_endDate window with Some finish => sc_startDate s <? finish | None => true end
  && (negb (isStaffIdentity current) || (bool_decide (sc_status s = PUBLISHED) && hasShiftOf current db s)).

Definition listedUser (current : SessionIdentity) (db : Db) (u : User) : bool :=
  bool_decide (us_tenantId u = si_tenantId current) && schedulableUser u
  && (negb (isStaffIdentity current) || bool_decide (us_id u = si_sub current)).

(** Rows in the order of a key; a cursor's identifier is compared as a UUID. *)
Definition shiftKey (s : Shift) : PageKey := (sh_startTime s, sh_publicId s).
Definition scheduleKey (s : Schedule) : PageKey := (sc_startDate s, sc_publicId s).
Definition userKey (u : User) : PageKey := (0, us_publicId u).

Definition cursorKey (cursor : OperationsCursor) : PageKey := (oc_timestamp cursor, lowerText (oc_publicId cursor)).
(** The roster only looks at the identifier. *)
Definition rosterKey (cursor : OperationsCursor) : PageKey := (0, lowerText (oc_publicId cursor)).

(** [value.split(',')] *)
Fixpoint splitCommas (l : list ascii) : list (list ascii) :=
  match l with
  | [] => [[]]
  | c :: rest => if bool_decide (c = ","%char) then [] :: splitCommas rest
                 else match splitCommas rest with word :: words => (c :: word) :: words | [] => [[c]] end
  end.

Definition publicShiftIds (value : string) : Result (list string) :=
  let ids := dedupe (List.filter (fun id => negb (isEmpty id)) (map (fun word => trim (ofChars word)) (splitCommas (chars value)))) in
  if bool_decide (ids = []) || (1000 <? Z.of_nat (length ids)) || existsb (fun id => negb (isUuid id)) ids
  then throwProblem 422 "invalid_shift_reference" "shiftIds must contain up to 1,000 public shift UUIDs." "Lunch and break validation failed"
  else Ok ids.

(** ** Handlers *)

Section Lists.
Context `{Env, Process, AuthorityEnv, Collation, LC : LocaleCompare}.

(** [findMany] with an order and a limit, past a cursor. *)
Definition findPage {R} `{Table R} (key : R -> PageKey) (ahead : PageKey -> PageKey -> bool) (compare : PageKey -> PageKey -> Z)
    (where_ : Db -> R -> bool) (cursor : option PageKey) (limit : Z) : Tx (list R) :=
  query (fun db => Ok (take (Z.to_nat (limit + 1)) (sortBy (byPageKey key compare)
    (List.filter (fun r => where_ db r && pastCursor key ahead cursor r) (rows db))), db)).

(** The selected relations of rows that were just read. *)
Definition withRelations {R T} (select : Db -> R -> T) (l : Tx (list R)) : Tx (list T) := fun w =>
  match l w with (Ok found, w') => (Ok (map (select (w_db w)) found), w') | (Throw e, w') => (Throw e, w') end.

Definition shiftCursor (row : InternalShift) : OperationsCursor := mkCursor (sh_startTime (is_row row)) (sh_publicId (is_row row)).

Definition listSchedules (identity : SessionIdentity) (q : OperationsListQuery) : Tx (Paged ScheduleSummary) :=
  let identity := operationsIdentity identity in
  limit ← liftResult (parseLimit (ql_limit q));
  cursor ← liftResult (decodeCursor (ql_cursor q));
  window ← liftResult (parseWindow (ql_startDate q) (ql_endDate q));
  _ ← prepareOperationsAuthority identity;
  scopeRun identity (fun current =>
    rows ← withRelations (fun db s => (s, match locationOfSchedule db s with Some l => lo_publicId l | None => "" end))
             (findPage scheduleKey (descending keyBefore) (descending compareKeys)
               (listedSchedule current (ql_locationId q) window) (cursorKey <$> cursor) limit);
    _ ← assertCurrent;
    result ← liftResult (page rows limit (fun row => mkCursor (sc_startDate row.1) (sc_publicId row.1)) window);
    mret (mkPaged (map (fun row => serializeSchedule row.1 row.2) (pg_data result)) (pg_pagination result))).

Definition listShifts (identity : SessionIdentity) (q : OperationsListQuery) : Tx (Paged ShiftSummary) :=
  let identity := operationsIdentity identity in
  limit ← liftResult (parseLimit (ql_limit q));
  cursor ← liftResult (decodeCursor (ql_cursor q));
  window ← liftResult (parseWindow (ql_startDate q) (ql_endDate q));
  _ ← prepareOperationsAuthority identity;
  scopeRun identity (fun current =>
    rows ← withRelations internalShift (findPage shiftKey keyBefore compareKeys
             (listedShift current (ql_locationId q) (ql_scheduleId q) None window) (cursorKey <$> cursor) limit);
    _ ← assertCurrent;
    result ← liftResult (page rows limit shiftCursor window);
    data ← liftResult (mapM serializeShift (pg_data result));
    mret (mkPaged data (pg_pagination result))).

Definition staffRoster (identity : SessionIdentity) (limitValue cursorValue : option string) : Tx (Paged StaffRosterMember) :=
  let identity := operationsIdentity identity in
  limit ← liftResult (parseLimit limitValue);
  cursor ← liftResult (decodeCursor cursorValue);
  _ ← prepareOperationsAuthority identity;
  scopeRun identity (fun current =>
    rows ← findPage userKey keyBefore compareKeys (listedUser current) (rosterKey <$> cursor) limit;
    _ ← assertCurrent;
    result ← liftResult (page rows limit (fun row => mkCursor 0 (us_publicId row)) (mkWindow None None));
    mret (mkPaged (map memberOfUser (pg_data result)) (pg_pagination result))).

(** [LunchBreakService.list] *)
Definition listBreaks (identity : SessionIdentity) (q : OperationsListQuery) (shiftIds : option string) : Tx (Paged LunchBreakRow) :=
  let identity := operationsIdentity identity in
  limit ← liftResult (parseLimit (ql_limit q));
  cursor ← liftResult (decodeCursor (ql_cursor q));
  window ← liftResult (parseWindow (ql_startDate q) (ql_endDate q));
  ids ← liftResult (match truthy shiftIds with Some value => Some <$> publicShiftIds value | None => Ok None end);
  _ ← prepareOperationsAuthority identity;
  scopeRun identity (fun current =>
    _ ← operationsWait (assertFeatureEntitled (si_tenantId current) lunch_breaks false);
    rows ← operationsWait (withRelations internalShift (findPage shiftKey keyBefore compareKeys
             (listedShift current (ql_locationId q) (ql_scheduleId q) ids window) (cursorKey <$> cursor) limit));
    result ← liftResult (page rows limit shiftCursor window);
    data ← liftResult (mapM serializeLunchBreakRow (pg_data result));
    mret (mkPaged data (pg_pagination result))).
End Lists.

(** ** What a page holds *)

Section Pages.
Context `{Env}.

Lemma findPage_Ok {R} `{Table R} key ahead compare (where_ : Db -> R -> bool) cursor limit l w w' :
  findPage key ahead compare where_ cursor limit w = (Ok l, w') -> 0 <= limit ->
  w_db w' = w_db w /\ l = pageRows key ahead compare cursor (Z.to_nat limit) (List.filter (where_ (w_db w)) (rows (w_db w))).
Proof.
  intros (_ & db & [= <- <-] & ->)%query_Ok Hl. split; [done|]. unfold pageRows.
  rewrite Z2Nat.inj_add, Nat.add_1_r by lia. do 2 f_equal.
  generalize (rows (w_db w)). intros k. induction k as [|r k IH]; [done|]. cbn [List.filter].
  destruct (where_ _ r); cbn [andb List.filter]; [|done]. destruct (pastCursor _ _ _ r); by rewrite IH.
Qed.

Lemma withRelations_Ok {R T} (select : Db -> R -> T) m l w w' :
  withRelations select m w = (Ok l, w') <-> exists found, m w = (Ok found, w') /\ l = map (select (w_db w)) found.
Proof. unfold withRelations. destruct (m w) as [[found|e] w1]; naive_solver. Qed.
End Pages.

(** A page of rows with their relations, as the page of the bare rows. *)
Lemma page_map {R T} (select : R -> T) rows limit rowCursor window p :
  page (map select rows) limit rowCursor window = Ok p -> 1 <= limit ->
  pg_data p = map select (take (Z.to_nat limit) rows) /\
  match bp_nextCursor (pg_pagination p) with
  | None => (length rows <= Z.to_nat limit)%nat
  | Some text => (Z.to_nat limit < length rows)%nat /\
      exists x, last (take (Z.to_nat limit) rows) = Some x /\ encodeCursor (rowCursor (select x)) = Ok text
  end.
Proof.
  intros Hp Hl. apply page_Ok in Hp as [Hd Hn]; [|done]. rewrite length_map in Hn. rewrite firstn_map in Hd, Hn. split; [done|].
  destruct (bp_nextCursor _); [|done]. destruct Hn as (Hlt & x & Hx & He). split; [done|].
  change (map select) with (fmap (M := list) select) in Hx. rewrite fmap_last in Hx. apply fmap_Some in Hx as (r & Hr & ->). by exists r.
Qed.

(** The key a cursor text stands for. *)
Definition keyOf (asKey : OperationsCursor -> PageKey) (cursor : option string) : option PageKey :=
  match decodeCursor cursor with Ok c => asKey <$> c | Throw _ => None end.

Lemma keyOf_encoded asKey cursor text :
  validTime (oc_timestamp cursor) -> encodeCursor cursor = Ok text -> keyOf asKey (Some text) = Some (asKey cursor).
Proof. intros Hv Ht. unfold keyOf. by destruct (decodeCursor_encoded cursor text Hv Ht) as [-> _]. Qed.

(** The next cursor of a page, in the terms of [pageAnswer]. *)
Section Answer.
Context {R : Type} (key : R -> PageKey) (ahead : PageKey -> PageKey -> bool) (compare : PageKey -> PageKey -> Z).
Context {D E : Type} (matching : D -> list R) (shows : D -> R -> E -> Prop) (asKey : OperationsCursor -> PageKey).
Context (rowCursor : R -> OperationsCursor).

(** What the columns of a key hold: a time value, a lower-case identifier. *)
Definition keyStored (r : R) : Prop := validTime (oc_timestamp (rowCursor r)) /\ asKey (rowCursor r) = key r.

Lemma pageAnswer_intro c d es next limit cursor :
  1 <= limit -> Forall keyStored (matching d) -> decodeCursor c = Ok cursor ->
  Forall2 (shows d) (take (Z.to_nat limit) (pageRows key ahead compare (asKey <$> cursor) (Z.to_nat limit) (matching d))) es ->
  match next with
  | None => (length (pageRows key ahead compare (asKey <$> cursor) (Z.to_nat limit) (matching d)) <= Z.to_nat limit)%nat
  | Some text => (Z.to_nat limit < length (pageRows key ahead compare (asKey <$> cursor) (Z.to_nat limit) (matching d)))%nat /\
      exists x, last (take (Z.to_nat limit) (pageRows key ahead compare (asKey <$> cursor) (Z.to_nat limit) (matching d))) = Some x /\
        encodeCursor (rowCursor x) = Ok text
  end ->
  pageAnswer key ahead compare matching shows (keyOf asKey) c d es next.
Proof.
  intros Hl Hst Hc Hsh Hn. assert (Ek : keyOf asKey c = asKey <$> cursor) by (unfold keyOf; by rewrite Hc).
  exists (Z.to_nat limit). rewrite Ek. set (rows := pageRows key ahead compare (asKey <$> cursor) (Z.to_nat limit) (matching d)) in *.
  assert (Hin : forall r, r ∈ take (Z.to_nat limit) rows -> r ∈ matching d).
  { intros r Hr. apply (pageRows_elem key ahead compare (asKey <$> cursor) (Z.to_nat limit)). fold rows.
    rewrite <- (take_drop (Z.to_nat limit) rows). apply elem_of_app. by left. }
  split; [lia|]. split.
  - clear Hn. induction Hsh as [|r e l k He Hsh IH]; constructor; [split; [apply Hin; set_solver|done]|].
    apply IH. intros x Hx. apply Hin. set_solver.
  - destruct next as [text|]; [|done]. destruct Hn as (Hlt & x & Hx & He). split; [done|]. exists x. split; [done|].
    rewrite Forall_forall in Hst. destruct (Hst x) as [Hv Hk].
    { apply Hin. apply last_Some in Hx as [k ->]. set_solver. }
    by rewrite (keyOf_encoded asKey _ _ Hv He), Hk.
Qed.
End Answer.

(** ** Reading a list to its end *)

Definition asked (q : OperationsListQuery) (limit cursor : option string) : OperationsListQuery :=
  mkListQuery (ql_locationId q) (ql_scheduleId q) (ql_startDate q) (ql_endDate q) limit cursor.

Definition windowOf (q : OperationsListQuery) : OperationsWindow :=
  match parseWindow (ql_startDate q) (ql_endDate q) with Ok window => window | Throw _ => mkWindow None None end.

(** The authorisations of a request resolve one actor, or refuse. *)
Definition actsAs (identity actor : SessionIdentity) (auth : AuthorityEnv) : Prop :=
  forall n authority, authorityAt (AuthorityEnv := auth) n = Ok authority -> currentIdentity (operationsIdentity identity) authority = actor.

(** The rows of a table as its columns hold them. *)
Definition rowsStored {R} (key : R -> PageKey) (l : list R) : Prop :=
  NoDup (map (fun r => (key r).2) l) /\ Forall (fun r => validTime (key r).1 /\ lowerText (key r).2 = (key r).2) l.

Lemma stored_keys {R} (key : R -> PageKey) (p : R -> bool) l : rowsStored key l -> NoDup (map key (List.filter p l)).
Proof.
  intros [Hn _]. induction l as [|r l IH]; [constructor|]. cbn in Hn. apply NoDup_cons in Hn as [Hr Hn]. cbn [List.filter].
  destruct (p r); [|by apply IH]. cbn [map]. apply NoDup_cons. split; [|by apply IH].
  intros (x & E & Hx%list_elem_of_In%filter_In)%list_elem_of_fmap. apply Hr. rewrite E.
  apply (list_elem_of_fmap_2 (fun r => (key r).2)), list_elem_of_In, Hx.
Qed.

Lemma stored_matching {R} (key : R -> PageKey) (rowCursor : R -> OperationsCursor) (p : R -> bool) l :
  (forall r, rowCursor r = mkCursor (key r).1 (key r).2) -> rowsStored key l -> Forall (keyStored key cursorKey rowCursor) (List.filter p l).
Proof.
  intros Hc [_ Hs]. rewrite Forall_forall in Hs. apply Forall_forall. intros r [Hr _]%list_elem_of_In%filter_In.
  destruct (Hs r) as [Hv Hl]; [by apply list_elem_of_In|]. unfold keyStored. rewrite Hc. split; [exact Hv|]. unfold cursorKey. cbn [oc_timestamp oc_publicId].
  rewrite Hl. by destruct (key r).
Qed.

(** What [listShifts] did when it returned. *)
Lemma listShifts_Ok `{Env, AuthorityEnv, Collation, LC : LocaleCompare} identity q p w w' :
  listShifts identity q w = (Ok p, w') ->
  exists limit cursor window n authority result,
    parseLimit (ql_limit q) = Ok limit /\ decodeCursor (ql_cursor q) = Ok cursor /\
    parseWindow (ql_startDate q) (ql_endDate q) = Ok window /\ authorityAt n = Ok authority /\
    page (map (internalShift (w_db w)) (pageRows shiftKey keyBefore compareKeys (cursorKey <$> cursor) (Z.to_nat limit)
      (List.filter (listedShift (currentIdentity (operationsIdentity identity) authority) (ql_locationId q) (ql_scheduleId q) None window (w_db w))
        (db_shifts (w_db w))))) limit shiftCursor window = Ok result /\
    mapM serializeShift (pg_data result) = Ok (pg_data p) /\ pg_pagination p = pg_pagination result.
Proof.
  intros Hr. unfold listShifts in Hr.
  apply Tx_bind_Ok in Hr as (limit & w1 & [Hlim <-]%liftResult_Ok & Hr). pose proof (parseLimit_range _ _ Hlim) as Hrange.
  apply Tx_bind_Ok in Hr as (cursor & w2 & [Hcur <-]%liftResult_Ok & Hr).
  apply Tx_bind_Ok in Hr as (window & w3 & [Hwin <-]%liftResult_Ok & Hr).
  apply Tx_bind_Ok in Hr as (u & w4 & E4%(ReadOnly_Ok _ _ _ _ (prepareOperationsAuthority_ReadOnly _)) & Hr).
  apply scopeRun_as in Hr as (n & authority & w5 & w6 & Ha & Hr & E5 & _).
  apply Tx_bind_Ok in Hr as (rows & w7 & (found & Hfound & ->)%withRelations_Ok & Hr).
  apply findPage_Ok in Hfound as [_ ->]; [|lia].
  apply Tx_bind_Ok in Hr as (u1 & w8 & _ & Hr). apply Tx_bind_Ok in Hr as (result & w9 & [Hp _]%liftResult_Ok & Hr).
  apply Tx_bind_Ok in Hr as (data & w10 & [Hd _]%liftResult_Ok & [<- _]%Tx_ret_Ok).
  assert (Edb : w_db w5 = w_db w) by congruence. rewrite Edb in *. by exists limit, cursor, window, n, authority, result.
Qed.

Section ShiftPages.
Context `{Collation, LC : LocaleCompare}.
Context (identity actor : SessionIdentity) (q : OperationsListQuery).

(** A request for a page of shifts, in some environment, with some limit. *)
Definition shiftsAnswered (c : option string) (d : Db) (es : list ShiftSummary) (next : option string) : Prop :=
  exists (env : Env) (auth : AuthorityEnv) limit w w' p, actsAs identity actor auth /\ w_db w = d /\
    listShifts (H := env) (H1 := auth) identity (asked q limit c) w = (Ok p, w') /\
    pg_data p = es /\ bp_nextCursor (pg_pagination p) = next.

Definition shiftsListed (d : Db) : list Shift :=
  List.filter (listedShift actor (ql_locationId q) (ql_scheduleId q) None (windowOf q) d) (db_shifts d).
Definition shiftShown (d : Db) (s : Shift) (e : ShiftSummary) : Prop := serializeShift (internalShift d s) = Ok e.

Lemma listShifts_answers c d es next :
  rowsStored shiftKey (db_shifts d) -> shiftsAnswered c d es next ->
  pageAnswer shiftKey keyBefore compareKeys shiftsListed shiftShown (keyOf cursorKey) c d es next.
Proof.
  intros Hst (env & auth & limitText & w & w' & p & Hact & <- & Hr & <- & <-).
  apply listShifts_Ok in Hr as (limit & cursor & window & n & authority & result & Hlim%parseLimit_range & Hcur & Hwin & Ha & Hp & Hd & ->).
  rewrite (Hact _ _ Ha) in Hp. assert (Ew : windowOf q = window) by (unfold windowOf; cbn in Hwin; by rewrite Hwin). rewrite <- Ew in Hp.
  apply page_map in Hp as [Hdata Hnext]; [|lia]. rewrite Hdata in Hd. cbn [asked ql_locationId ql_scheduleId] in *.
  eapply (pageAnswer_intro _ _ _ shiftsListed shiftShown cursorKey (fun s => shiftCursor (internalShift (w_db w) s)));
    [apply Hlim|by apply stored_matching|exact Hcur| |exact Hnext].
  apply mapM_Ok_Forall2 in Hd. by rewrite Forall2_fmap_l in Hd.
Qed.
End ShiftPages.

(** C26: Whoever reads the shifts of the board page by page, with any limits and
    whatever changes between the requests, gets entries in the order of start
    and identifier, no start and identifier twice; each entry shows a shift the actor could
    see when its page was read, and every shift that was there at each request,
    at the same time, is shown; no more requests are needed than entries, and
    one. *)
Theorem listShifts_read_once `{Collation, LocaleCompare} identity actor q ds es :
  Reading (shiftsAnswered identity actor q) None ds es -> (forall d, d ∈ ds -> rowsStored shiftKey (db_shifts d)) ->
  readOnce shiftKey keyBefore (shiftsListed actor q) shiftShown ds es.
Proof.
  intros Hr Hst. eapply (Reading_once _ _ _ _ _ _ (keyOf cursorKey)); [done| | |exact Hr].
  - intros d Hd. by apply stored_keys, Hst.
  - intros c d es1 next Hd. apply listShifts_answers, Hst, Hd.
Qed.

(** The same for schedules, the roster and the break list. *)
Section OtherPages.
Context `{Collation, LC : LocaleCompare}.
Context (identity actor : SessionIdentity) (q : OperationsListQuery) (shiftIds : option string).

Definition schedulesAnswered (c : option string) (d : Db) (es : list ScheduleSummary) (next : option string) : Prop :=
  exists (env : Env) (auth : AuthorityEnv) limit w w' p, actsAs identity actor auth /\ w_db w = d /\
    listSchedules (H := env) (H1 := auth) identity (asked q limit c) w = (Ok p, w') /\
    pg_data p = es /\ bp_nextCursor (pg_pagination p) = next.
Definition schedulesListed (d : Db) : list Schedule :=
  List.filter (listedSchedule actor (ql_locationId q) (windowOf q) d) (db_schedules d).
Definition scheduleShown (d : Db) (s : Schedule) (e : ScheduleSummary) : Prop :=
  serializeSchedule s (match locationOfSchedule d s with Some l => lo_publicId l | None => "" end) = e.

Lemma listSchedules_answers c d es next :
  rowsStored scheduleKey (db_schedules d) -> schedulesAnswered c d es next ->
  pageAnswer scheduleKey (descending keyBefore) (descending compareKeys) schedulesListed scheduleShown (keyOf cursorKey) c d es next.
Proof.
  intros Hst (env & auth & limitText & w & w' & p & Hact & <- & Hr & <- & <-). unfold listSchedules in Hr.
  apply Tx_bind_Ok in Hr as (limit & w1 & [Hlim <-]%liftResult_Ok & Hr). apply parseLimit_range in Hlim.
  apply Tx_bind_Ok in Hr as (cursor & w2 & [Hcur <-]%liftResult_Ok & Hr).
  apply Tx_bind_Ok in Hr as (window & w3 & [Hwin <-]%liftResult_Ok & Hr).
  apply Tx_bind_Ok in Hr as (u & w4 & E4%(ReadOnly_Ok _ _ _ _ (prepareOperationsAuthority_ReadOnly _)) & Hr).
  apply scopeRun_as in Hr as (n & authority & w5 & w6 & Ha & Hr & E5 & _). rewrite (Hact _ _ Ha) in Hr.
  apply Tx_bind_Ok in Hr as (rows & w7 & (found & Hfound & ->)%withRelations_Ok & Hr).
  apply findPage_Ok in Hfound as [E7 ->]; [|lia].
  apply Tx_bind_Ok in Hr as (u1 & w8 & _ & Hr). apply Tx_bind_Ok in Hr as (result & w9 & [Hp _]%liftResult_Ok & [<- _]%Tx_ret_Ok).
  assert (Ew : windowOf q = window) by (unfold windowOf; cbn in Hwin; by rewrite Hwin).
  assert (Edb : w_db w5 = w_db w) by congruence. rewrite Edb in *. rewrite <- Ew in *.
  apply page_map in Hp as [Hdata Hnext]; [|lia]. cbn [pg_data pg_pagination asked ql_locationId ql_scheduleId fst snd] in *. rewrite Hdata.
  eapply (pageAnswer_intro _ _ _ schedulesListed scheduleShown cursorKey (fun s => mkCursor (sc_startDate s) (sc_publicId s)));
    [apply Hlim|by apply stored_matching|exact Hcur| |exact Hnext].
  rewrite map_map. apply Forall2_fmap_r. apply Forall_Forall2_diag, Forall_forall. by intros s _.
Qed.

Definition rosterAnswered (c : option string) (d : Db) (es : list StaffRosterMember) (next : option string) : Prop :=
  exists (env : Env) (auth : AuthorityEnv) limit w w' p, actsAs identity actor auth /\ w_db w = d /\
    staffRoster (H := env) (H1 := auth) identity limit c w = (Ok p, w') /\
    pg_data p = es /\ bp_nextCursor (pg_pagination p) = next.
Definition rosterListed (d : Db) : list User := List.filter (listedUser actor d) (db_users d).
Definition memberShown (d : Db) (u : User) (e : StaffRosterMember) : Prop := memberOfUser u = e.

Lemma staffRoster_answers c d es next :
  rowsStored userKey (db_users d) -> rosterAnswered c d es next ->
  pageAnswer userKey keyBefore compareKeys rosterListed memberShown (keyOf rosterKey) c d es next.
Proof.
  intros Hst (env & auth & limitText & w & w' & p & Hact & <- & Hr & <- & <-). unfold staffRoster in Hr.
  apply Tx_bind_Ok in Hr as (limit & w1 & [Hlim <-]%liftResult_Ok & Hr). apply parseLimit_range in Hlim.
  apply Tx_bind_Ok in Hr as (cursor & w2 & [Hcur <-]%liftResult_Ok & Hr).
  apply Tx_bind_Ok in Hr as (u & w4 & E4%(ReadOnly_Ok _ _ _ _ (prepareOperationsAuthority_ReadOnly _)) & Hr).
  apply scopeRun_as in Hr as (n & authority & w5 & w6 & Ha & Hr & E5 & _). rewrite (Hact _ _ Ha) in Hr.
  apply Tx_bind_Ok in Hr as (found & w7 & [E7 ->]%findPage_Ok & Hr); [|lia].
  apply Tx_bind_Ok in Hr as (u1 & w8 & _ & Hr). apply Tx_bind_Ok in Hr as (result & w9 & [Hp _]%liftResult_Ok & [<- _]%Tx_ret_Ok).
  assert (Edb : w_db w5 = w_db w) by congruence. rewrite Edb in *.
  apply page_Ok in Hp as [Hdata Hnext]; [|lia]. cbn [pg_data pg_pagination] in *. rewrite Hdata.
  eapply (pageAnswer_intro _ _ _ rosterListed memberShown rosterKey (fun s => mkCursor 0 (us_publicId s)));
    [apply Hlim| |exact Hcur| |exact Hnext].
  - destruct Hst as [_ Hs]. rewrite Forall_forall in Hs. apply Forall_forall. intros r [Hr _]%list_elem_of_In%filter_In.
    destruct (Hs r) as [Hv Hl]; [by apply list_elem_of_In|]. split; [exact Hv|]. exact (f_equal (pair 0) Hl).
  - apply Forall2_fmap_r. apply Forall_Forall2_diag, Forall_forall. by intros s _.
Qed.

Definition idsOf : option (list string) :=
  match truthy shiftIds with
  | Some value => match publicShiftIds value with Ok ids => Some ids | Throw _ => None end
  | None => None
  end.
Definition breaksAnswered `{Process} (c : option string) (d : Db) (es : list LunchBreakRow) (next : option string) : Prop :=
  exists (env : Env) (auth : AuthorityEnv) limit w w' p, actsAs identity actor auth /\ w_db w = d /\
    listBreaks (H := env) (H1 := auth) identity (asked q limit c) shiftIds w = (Ok p, w') /\
    pg_data p = es /\ bp_nextCursor (pg_pagination p) = next.
Definition breaksListed (d : Db) : list Shift :=
  List.filter (listedShift actor (ql_locationId q) (ql_scheduleId q) idsOf (windowOf q) d) (db_shifts d).
Definition rowShown (d : Db) (s : Shift) (e : LunchBreakRow) : Prop := serializeLunchBreakRow (internalShift d s) = Ok e.

Lemma listBreaks_answers `{Process} c d es next :
  rowsStored shiftKey (db_shifts d) -> breaksAnswered c d es next ->
  pageAnswer shiftKey keyBefore compareKeys breaksListed rowShown (keyOf cursorKey) c d es next.
Proof.
  intros Hst (env & auth & limitText & w & w' & p & Hact & <- & Hr & <- & <-). unfold listBreaks in Hr.
  apply Tx_bind_Ok in Hr as (limit & w1 & [Hlim <-]%liftResult_Ok & Hr). apply parseLimit_range in Hlim.
  apply Tx_bind_Ok in Hr as (cursor & w2 & [Hcur <-]%liftResult_Ok & Hr).
  apply Tx_bind_Ok in Hr as (window & w3 & [Hwin <-]%liftResult_Ok & Hr).
  apply Tx_bind_Ok in Hr as (ids & w31 & [Hids <-]%liftResult_Ok & Hr).
  apply Tx_bind_Ok in Hr as (u & w4 & E4%(ReadOnly_Ok _ _ _ _ (prepareOperationsAuthority_ReadOnly _)) & Hr).
  apply scopeRun_as in Hr as (n & authority & w5 & w6 & Ha & Hr & E5 & _). rewrite (Hact _ _ Ha) in Hr.
  apply Tx_bind_Ok in Hr as (u0 & w51 & (w52 & [E51 _]%assertFeatureEntitled_Ok & E50)%operationsWait_Ok & Hr).
  apply Tx_bind_Ok in Hr as (rows & w7 & (w71 & (found & Hfound & ->)%withRelations_Ok & _)%operationsWait_Ok & Hr).
  apply findPage_Ok in Hfound as [_ ->]; [|lia].
  apply Tx_bind_Ok in Hr as (result & w9 & [Hp _]%liftResult_Ok & Hr).
  apply Tx_bind_Ok in Hr as (data & w10 & [Hd _]%liftResult_Ok & [<- _]%Tx_ret_Ok).
  assert (Ew : windowOf q = window) by (unfold windowOf; cbn in Hwin; by rewrite Hwin).
  assert (Ei : idsOf = ids).
  { unfold idsOf. destruct (truthy shiftIds); [|by injection Hids]. by apply Result_fmap_Ok in Hids as (l & -> & ->). }
  assert (Edb : w_db (tick w51) = w_db w) by (cbn in *; congruence). rewrite Edb in *. rewrite <- Ew, <- Ei in *.
  apply page_map in Hp as [Hdata Hnext]; [|lia]. rewrite Hdata in Hd. cbn [pg_data pg_pagination asked ql_locationId ql_scheduleId] in *.
  eapply (pageAnswer_intro _ _ _ breaksListed rowShown cursorKey (fun s => shiftCursor (internalShift (w_db w) s)));
    [apply Hlim|by apply stored_matching|exact Hcur| |exact Hnext].
  apply mapM_Ok_Forall2 in Hd. by rewrite Forall2_fmap_l in Hd.
Qed.
End OtherPages.

Theorem listSchedules_read_once identity actor q ds es :
  Reading (schedulesAnswered identity actor q) None ds es -> (forall d, d ∈ ds -> rowsStored scheduleKey (db_schedules d)) ->
  readOnce scheduleKey (descending keyBefore) (schedulesListed actor q) scheduleShown ds es.
Proof.
  intros Hr Hst. eapply (Reading_once _ _ _ _ _ _ (keyOf cursorKey)); [done| | |exact Hr].
  - intros d Hd. by apply stored_keys, Hst.
  - intros c d es1 next Hd. apply listSchedules_answers, Hst, Hd.
Qed.

Theorem staffRoster_read_once identity actor ds es :
  Reading (rosterAnswered identity actor) None ds es -> (forall d, d ∈ ds -> rowsStored userKey (db_users d)) ->
  readOnce userKey keyBefore (rosterListed actor) memberShown ds es.
Proof.
  intros Hr Hst. eapply (Reading_once _ _ _ _ _ _ (keyOf rosterKey)); [done| | |exact Hr].
  - intros d Hd. by apply stored_keys, Hst.
  - intros c d es1 next Hd. apply staffRoster_answers, Hst, Hd.
Qed.

Theorem listBreaks_read_once `{Collation, LocaleCompare, Process} identity actor q shiftIds ds es :
  Reading (breaksAnswered identity actor q shiftIds) None ds es -> (forall d, d ∈ ds -> rowsStored shiftKey (db_shifts d)) ->
  readOnce shiftKey keyBefore (breaksListed actor q shiftIds) rowShown ds es.
Proof.
  intros Hr Hst. eapply (Reading_once _ _ _ _ _ _ (keyOf cursorKey)); [done| | |exact Hr].
  - intros d Hd. by apply stored_keys, Hst.
  - intros c d es1 next Hd. apply listBreaks_answers, Hst, Hd.
Qed.

(** ** Concrete instances *)

(** The shifts of the sample before and after a setup, one shift and then the
    others: the setup moves the shift that was given out behind the cursor. *)
#[local] Notation listed limit c db := (@listShifts (calmUuid 1772409600000) (actingAs ScheduleChanges.sampleManager)
  ScheduleChanges.codeUnitOrder codeUnitCollation ScheduleChanges.sampleManager
  (asked (mkListQuery None None (Some "2026-03-02T00:00:00.000Z") None None None) limit c) (mkWorld db 0)).
Definition pageOf {T} (r : Result (Paged T)) : Paged T :=
  match r with Ok p => p | Throw _ => mkPaged [] (mkPagination 0 0 0 false None None None) end.
Definition firstPage : Paged ShiftSummary := Eval vm_compute in pageOf (listed (Some "1") None SetupShifts.setupDb).1.
Definition firstCursor : string := Eval vm_compute in default "" (bp_nextCursor (pg_pagination firstPage)).
Definition secondPage : Paged ShiftSummary := Eval vm_compute in pageOf (listed None (Some firstCursor) SetupShifts.setupDone).1.

Example pages_listed :
  map (fun e => (hs_id e, hs_startTime e)) (pg_data firstPage ++ pg_data secondPage) =
    [("aaaaaaaa-0000-4000-8000-000000000001", "2026-03-02T08:00:00.000Z");
     ("aaaaaaaa-0000-4000-8000-000000000002", "2026-03-02T08:00:00.000Z");
     ("aaaaaaaa-0000-4000-8000-000000000001", "2026-03-02T09:00:00.000Z")].
Proof. vm_compute. reflexivity. Qed.

Definition listActor : SessionIdentity :=
  currentIdentity (operationsIdentity ScheduleChanges.sampleManager) ScheduleChanges.sampleManager.

Lemma listShifts_read_once_witness :
  @readOnce Db Shift ShiftSummary PageKey shiftKey keyBefore
    (shiftsListed listActor (mkListQuery None None (Some "2026-03-02T00:00:00.000Z") None None None))
    (@shiftShown ScheduleChanges.codeUnitOrder codeUnitCollation)
    [SetupShifts.setupDb; SetupShifts.setupDone] (pg_data firstPage ++ pg_data secondPage).
Proof.
  apply (@listShifts_read_once ScheduleChanges.codeUnitOrder codeUnitCollation ScheduleChanges.sampleManager).
  - eapply reading_next with (text := firstCursor); [|apply reading_last].
    + exists (calmUuid 1772409600000), (actingAs ScheduleChanges.sampleManager), (Some "1"), (mkWorld SetupShifts.setupDb 0),
        (listed (Some "1") None SetupShifts.setupDb).2, firstPage. split_and!;
        [intros n authority; by intros [= <-]|reflexivity|vm_compute; reflexivity|reflexivity|reflexivity].
    + exists (calmUuid 1772409600000), (actingAs ScheduleChanges.sampleManager), None, (mkWorld SetupShifts.setupDone 0),
        (listed None (Some firstCursor) SetupShifts.setupDone).2, secondPage. split_and!;
        [intros n authority; by intros [= <-]|reflexivity|vm_compute; reflexivity|reflexivity|reflexivity].
  - intros d [->|[->|[]%not_elem_of_nil]%elem_of_cons]%elem_of_cons;
      (split; [apply (bool_decide_unpack _); vm_compute; exact I|]); repeat constructor; vm_compute; congruence.
Defined.
