(* ===== verification/PagesRead.v ===== *)
(** * Lists are read to their end

    A client that follows the cursors of a list of OperationsLists until a page
    has none.  When nothing fails and the rows stay as they are, it ends, and
    has been given the whole list. *)

From S2P Require Import ScheduleChanges SetupShifts.
From S2P Require Import Prelude JsStd JsCollections JsDate ContractHelpers LunchBreakPolicy.
From S2P Require Import LunchBreakPlacement LunchBreaks PayrollRecords JsEncoding JsDecoding Database.
From S2P Require Import FeatureEntitlement Authority ScheduleStore LunchBreakStore Paging OperationsPages OperationsLists.

(** ** Calls that succeed *)

(** Whatever the tick, the call returns this and leaves the database alone. *)
Definition Succeeds (d : Db) {A} (m : Tx A) (a : A) : Prop := forall n, exists n', m (mkWorld d n) = (Ok a, mkWorld d n').

Section Succeeds.
Context (d : Db).

Lemma Succeeds_ret {A} (a : A) : Succeeds d (mret a) a.
Proof. intros n. by exists n. Qed.

Lemma Succeeds_lift {A} (r : Result A) a : r = Ok a -> Succeeds d (liftResult r) a.
Proof. intros -> n. by exists n. Qed.

Lemma Succeeds_bind {A B} (m : Tx A) (f : A -> Tx B) a b : Succeeds d m a -> Succeeds d (f a) b -> Succeeds d (m ≫= f) b.
Proof. intros Hm Hf n. destruct (Hm n) as [n1 E1], (Hf n1) as [n2 E2]. exists n2. unfold mbind, Tx_bind. by rewrite E1. Qed.

Lemma Succeeds_retry {A} (m : Tx A) a : Succeeds d m a -> Succeeds d (retryPayrollSerializableMutation m) a.
Proof.
  intros Hm n. destruct (Hm n) as [n' E]. exists n'. unfold retryPayrollSerializableMutation. cbn [retryLoop Nat.eqb andb]. by rewrite E.
Qed.

(** Nothing fails, the actor is authorised, and the commit finds no overlap. *)
Record Quiet `{Env, AuthorityEnv} (authority : SessionIdentity) : Prop := mkQuiet {
  quiet_faults : forall n, faultAt n = None;
  quiet_current : forall n, currentAt n = None;
  quiet_authority : forall n, authorityAt n = Ok authority;
  quiet_commit : cardsExclusive (db_timeCards d) = true;
}.

Context `{Env, AuthorityEnv} (authority : SessionIdentity) (Hq : Quiet authority).

Lemma Succeeds_query {A} (f : Db -> Result (A * Db)) a : f d = Ok (a, d) -> Succeeds d (query f) a.
Proof. intros E n. exists (S n). unfold query. cbn. by rewrite (quiet_faults _ Hq), E. Qed.

Lemma Succeeds_current : Succeeds d assertCurrent tt.
Proof. intros n. exists (S n). unfold assertCurrent. cbn. by rewrite (quiet_current _ Hq). Qed.

Lemma Succeeds_authorize : Succeeds d authorize authority.
Proof. intros n. exists (S n). unfold authorize. cbn. by rewrite (quiet_authority _ Hq). Qed.

Lemma Succeeds_withTenant {A} tenantId (m : Tx A) a : isEmpty (trim tenantId) = false -> Succeeds d m a -> Succeeds d (withTenant tenantId m) a.
Proof.
  intros Ht Hm n. unfold withTenant. rewrite Ht.
  assert (Htx : Succeeds d (transaction m) a).
  { apply (Succeeds_bind _ _ tt); [by apply Succeeds_query|]. apply (Succeeds_bind _ _ a); [done|].
    apply (Succeeds_bind _ _ tt); [|apply Succeeds_ret]. apply Succeeds_query. by rewrite (quiet_commit _ Hq). }
  destruct (Htx n) as [n' E]. exists n'. by rewrite E.
Qed.

Lemma Succeeds_prepare identity : isEmpty (trim (si_tenantId identity)) = false -> Succeeds d (prepareOperationsAuthority identity) tt.
Proof.
  intros Ht. apply (Succeeds_bind _ _ authority); [|apply Succeeds_current]. apply Succeeds_retry, Succeeds_withTenant; [done|apply Succeeds_authorize].
Qed.

Lemma Succeeds_scope {A} identity (operation : SessionIdentity -> Tx A) a :
  isEmpty (trim (si_tenantId identity)) = false -> Succeeds d (operation (currentIdentity identity authority)) a ->
  Succeeds d (scopeRun identity operation) a.
Proof.
  intros Ht Ho. apply Succeeds_retry, Succeeds_withTenant; [done|]. apply (Succeeds_bind _ _ authority); [apply Succeeds_authorize|].
  apply (Succeeds_bind _ _ tt); [apply Succeeds_current|]. apply (Succeeds_bind _ _ a); [done|].
  apply (Succeeds_bind _ _ tt); [apply Succeeds_current|apply Succeeds_ret].
Qed.

Lemma Succeeds_findPage {R} `{Table R} key ahead compare (where_ : Db -> R -> bool) cursor limit :
  0 <= limit ->
  Succeeds d (findPage key ahead compare where_ cursor limit)
    (pageRows key ahead compare cursor (Z.to_nat limit) (List.filter (where_ d) (rows d))).
Proof.
  intros Hl n. exists (S n). destruct (findPage key ahead compare where_ cursor limit (mkWorld d n)) as [r w'] eqn:E.
  pose proof E as E'. unfold findPage, query in E. cbn [w_tick w_db] in E. rewrite (quiet_faults _ Hq) in E. injection E as <- <-.
  apply findPage_Ok in E' as [_ ->]; [|done]. done.
Qed.

Lemma Succeeds_withRelations {R T} (select : Db -> R -> T) m l : Succeeds d m l -> Succeeds d (withRelations select m) (map (select d) l).
Proof. intros Hm n. destruct (Hm n) as [n' E]. exists n'. unfold withRelations. by rewrite E. Qed.
End Succeeds.

(** ** Following the cursors *)

(** A client of a list: it asks again until a page carries no cursor. *)
Fixpoint followPages {E} (fuel : nat) (request : option string -> Tx (list E * option string)) (c : option string) : Tx (list E) :=
  match fuel with
  | O => liftResult (Throw (JsError "too many pages"))
  | S fuel =>
      answer ← request c;
      match answer.2 with
      | None => mret answer.1
      | Some text => rest ← followPages fuel request (Some text); mret (answer.1 ++ rest)
      end
  end.

(** All of a list, in its order. *)
Definition wholeList {R E} (key : R -> PageKey) (ahead : PageKey -> PageKey -> bool) (l : list R) (shows : R -> E -> Prop) (es : list E) : Prop :=
  exists rows, StronglySorted (rowAhead key ahead) rows /\ rows ≡ₚ l /\ Forall2 shows rows es.

Section Follow.
Context {R E : Type} (key : R -> PageKey) (ahead : PageKey -> PageKey -> bool) (compare : PageKey -> PageKey -> Z) `{!KeyOrder ahead compare}.
Context (d : Db) (matching : Db -> list R) (shows : Db -> R -> E -> Prop) (request : option string -> Tx (list E * option string)).
Context (cursorOf : option string -> option PageKey) (readable : option string -> Prop).
#[local] Notation past c := (List.filter (pastCursor key ahead (cursorOf c)) (matching d)).

Lemma filter_fewer (p : R -> bool) l x : x ∈ l -> p x = false -> (length (List.filter p l) < length l)%nat.
Proof.
  intros Hx Hp. induction l as [|y l IH]; [by apply not_elem_of_nil in Hx|]. cbn [List.filter length].
  apply elem_of_cons in Hx as [<-|Hx]; [rewrite Hp; pose proof (List.filter_length_le p l); lia|].
  specialize (IH Hx). destruct (p y); cbn [length]; lia.
Qed.

Lemma past_next c text x :
  x ∈ matching d -> pastCursor key ahead (cursorOf c) x = true -> cursorOf (Some text) = Some (key x) ->
  (length (past (Some text)) < length (past c))%nat.
Proof.
  intros Hx Hp Ht. assert (E1 : past (Some text) = List.filter (pastCursor key ahead (Some (key x))) (past c)).
  { rewrite Ht. destruct (cursorOf c) as [k|]; [symmetry; by apply (filter_past key ahead compare)|].
    f_equal. clear. induction (matching d) as [|y l IH]; [done|]. cbn. by rewrite <- IH. }
  rewrite E1. apply (filter_fewer _ _ x); [apply list_elem_of_In, filter_In; split; [by apply list_elem_of_In|done]|].
  cbn. apply (ahead_irrefl ahead compare).
Qed.

Context (answers : forall c, readable c -> exists es next, Succeeds d (request c) (es, next) /\
  pageAnswer key ahead compare matching shows cursorOf c d es next /\ (forall text, next = Some text -> readable (Some text))).

Lemma followPages_Chain fuel c :
  readable c -> (length (past c) < fuel)%nat -> exists es n out, Succeeds d (followPages fuel request c) es /\
    Chain key ahead compare (cursorOf c) (replicate (S n) (matching d)) out /\ Forall2 (shows d) out es.
Proof.
  revert c. induction fuel as [|fuel IH]; intros c Hc Hl; [lia|].
  destruct (answers c Hc) as (es & next & Hs & (limit & Hlim & Hsh & Hn) & Hnext).
  assert (Hshown : Forall2 (shows d) (take limit (pageRows key ahead compare (cursorOf c) limit (matching d))) es).
  { eapply Forall2_impl; [exact Hsh|]. by intros r e [_ He]. }
  destruct next as [text|].
  - destruct Hn as (Hlt & x & Hx & Hcur). assert (Hin : x ∈ pageRows key ahead compare (cursorOf c) limit (matching d)).
    { rewrite <- (take_drop limit (pageRows _ _ _ _ _ _)). apply elem_of_app. left. apply last_Some in Hx as [k ->]. set_solver. }
    apply pageRows_elem in Hin as [Hin Hpast]. destruct (IH (Some text)) as (rest & n & out & Hr & Hch & Hrest); [by apply Hnext| |].
    { pose proof (past_next c text x Hin Hpast Hcur). lia. }
    exists (es ++ rest), (S n), (take limit (pageRows key ahead compare (cursorOf c) limit (matching d)) ++ out). split_and!.
    + cbn [followPages]. eapply Succeeds_bind; [exact Hs|]. cbn [fst snd]. eapply Succeeds_bind; [exact Hr|]. apply Succeeds_ret.
    + change (replicate (S (S n)) (matching d)) with (matching d :: replicate (S n) (matching d)).
      eapply chain_next; [done|exact Hx|]. by rewrite <- Hcur.
    + by apply Forall2_app.
  - exists es, 0%nat, (pageRows key ahead compare (cursorOf c) limit (matching d)). split_and!.
    + cbn [followPages]. eapply Succeeds_bind; [exact Hs|]. apply Succeeds_ret.
    + by apply chain_last.
    + by rewrite take_ge in Hshown by done.
Qed.

Lemma followPages_whole :
  readable None -> cursorOf None = None -> NoDup (map key (matching d)) ->
  exists es, Succeeds d (followPages (S (length (matching d))) request None) es /\ wholeList key ahead (matching d) (shows d) es.
Proof.
  intros Hc Hnone Hn. destruct (followPages_Chain (S (length (matching d))) None Hc) as (es & n & out & Hs & Hch & Hsh).
  { pose proof (List.filter_length_le (pastCursor key ahead (cursorOf None)) (matching d)). lia. }
  rewrite Hnone in Hch. exists es. split; [done|]. exists out.
  assert (Hall : forall l, l ∈ replicate (S n) (matching d) -> l = matching d) by (intros l [-> _]%elem_of_replicate; done).
  destruct (Chain_sorted key ahead compare _ _ _ Hch) as [Hso _]; [apply Forall_forall; by intros l ->%Hall|].
  split; [done|]. split; [|done].
  pose proof (sorted_NoDup key ahead compare out Hso) as Hno. apply NoDup_Permutation.
  - by apply NoDup_fmap_1 in Hno.
  - by apply NoDup_fmap_1 in Hn.
  - intros x. split.
    + intros Hx. destruct (Chain_from key ahead compare _ _ _ _ Hch Hx) as (l & ->%Hall & Hin). done.
    + intros Hx. assert (Hk : key x ∈ map key out).
      { apply (Chain_complete key ahead compare _ _ _ _ Hch); [apply Forall_forall; by intros l ->%Hall|intros l ->%Hall; by apply list_elem_of_fmap_2|done]. }
      apply list_elem_of_fmap in Hk as (y & Hxy & Hy).
      destruct (Chain_from key ahead compare _ _ _ _ Hch Hy) as (l & ->%Hall & Hin).
      by rewrite (NoDup_map_inj key _ _ _ Hn Hx Hin Hxy).
Qed.
End Follow.

(** ** The lists *)

Lemma page_total {T} (rows : list T) limit rowCursor window :
  (forall r, r ∈ rows -> cursorId (oc_publicId (rowCursor r)) = true /\ validTime (oc_timestamp (rowCursor r))) ->
  exists p, page rows limit rowCursor window = Ok p /\
    forall text, bp_nextCursor (pg_pagination p) = Some text -> exists cursor, decodeCursor (Some text) = Ok (Some cursor).
Proof.
  intros Hids. unfold page. destruct (limit <? Z.of_nat (length rows)).
  - destruct (last _) as [row|] eqn:El.
    + assert (Hin : row ∈ rows).
      { rewrite <- (take_drop (Z.to_nat limit) rows). apply elem_of_app. left. apply last_Some in El as [l ->]. set_solver. }
      destruct (Hids row Hin) as [Hid Hv]. unfold encodeCursor at 1. rewrite Hid. cbn [negb]. eexists. split; [reflexivity|].
      cbn [pg_pagination bp_nextCursor]. intros text [= <-]. exists (rowCursor row).
      apply (decodeCursor_encoded (rowCursor row)); [done|]. unfold encodeCursor. by rewrite Hid.
    + eexists. split; [reflexivity|]. by intros text [=].
  - eexists. split; [reflexivity|]. by intros text [=].
Qed.

Definition isOk {A} (r : Result A) : bool := match r with Ok _ => true | Throw _ => false end.

Lemma allOk {A B} (f : A -> Result B) l : forallb (fun x => isOk (f x)) l = true -> forall x, x ∈ l -> exists y, f x = Ok y.
Proof. rewrite forallb_forall. intros Hf x Hx%list_elem_of_In%Hf. destruct (f x) as [y|]; [by exists y|done]. Qed.

(** The rows of a table whose identifiers cursors can carry. *)
Definition rowsNamed {R} (key : R -> PageKey) (l : list R) : Prop := rowsStored key l /\ Forall (fun r => cursorId (key r).2 = true) l.

(** The rows of a page are those of the table. *)
Lemma page_named {R} (key : R -> PageKey) ahead compare (p : R -> bool) l cursor limit r :
  rowsNamed key l -> r ∈ pageRows key ahead compare cursor limit (List.filter p l) ->
  r ∈ List.filter p l /\ cursorId (key r).2 = true /\ validTime (key r).1.
Proof.
  intros [[_ Hst] Hids] [Hr _]%pageRows_elem. split; [done|]. apply list_elem_of_In, filter_In in Hr as [Hr _]. apply list_elem_of_In in Hr.
  rewrite Forall_forall in Hst, Hids. split; [by apply Hids|]. by apply Hst.
Qed.

Section Lists.
Context `{Env, AuthorityEnv, Collation, LC : LocaleCompare}.
Context (identity authority : SessionIdentity) (q : OperationsListQuery) (limitText : option string) (limit : Z) (d : Db).
#[local] Notation actor := (currentIdentity (operationsIdentity identity) authority).

(** What a request needs to be answered: a tenant, a limit and a window that
    parse, and conditions in which nothing fails. *)
Record Answerable : Prop := mkAnswerable {
  an_quiet : Quiet d authority;
  an_tenant : isEmpty (trim (trim (si_tenantId identity))) = false;
  an_limit : parseLimit limitText = Ok limit;
  an_window : exists window, parseWindow (ql_startDate q) (ql_endDate q) = Ok window;
}.

Definition readableCursor (c : option string) : Prop := exists cursor, decodeCursor c = Ok cursor.

(** The entries and the next cursor of a request. *)
Definition shiftsPage (c : option string) : Tx (list ShiftSummary * option string) :=
  p ← listShifts identity (asked q limitText c); mret (pg_data p, bp_nextCursor (pg_pagination p)).

Lemma shiftsPage_answers c :
  Answerable -> rowsNamed shiftKey (db_shifts d) ->
  (forall s, s ∈ shiftsListed actor q d -> exists e, serializeShift (internalShift d s) = Ok e) -> readableCursor c ->
  exists es next, Succeeds d (shiftsPage c) (es, next) /\
    pageAnswer shiftKey keyBefore compareKeys (shiftsListed actor q) shiftShown (keyOf cursorKey) c d es next /\
    (forall text, next = Some text -> readableCursor (Some text)).
Proof.
  intros [Hq Ht Hlim [window Hw]] Hrows Hser [cursor Hcur]. pose proof (parseLimit_range _ _ Hlim) as Hrange.
  set (found := pageRows shiftKey keyBefore compareKeys (cursorKey <$> cursor) (Z.to_nat limit) (shiftsListed actor q d)).
  assert (Hfound : forall s, s ∈ found -> s ∈ shiftsListed actor q d /\ cursorId (sh_publicId s) = true /\ validTime (sh_startTime s)).
  { intros s Hs. by apply (page_named shiftKey _ _ _ (db_shifts d)) in Hs. }
  destruct (page_total (map (internalShift d) found) limit shiftCursor window) as (p & Hp & Hnext).
  { intros r (s & -> & Hs)%list_elem_of_fmap. apply Hfound, Hs. }
  destruct (mapM_total serializeShift (pg_data p)) as [data Hdata].
  { apply page_map in Hp as [-> _]; [|lia]. intros r (s & -> & Hs)%list_elem_of_fmap. apply Hser, Hfound.
    rewrite <- (take_drop (Z.to_nat limit) found). apply elem_of_app. by left. }
  assert (Hw' : windowOf q = window) by (unfold windowOf; by rewrite Hw).
  assert (Hs : Succeeds d (listShifts identity (asked q limitText c)) (mkPaged data (pg_pagination p))).
  { unfold listShifts. eapply Succeeds_bind; [by apply Succeeds_lift|]. eapply Succeeds_bind; [by apply Succeeds_lift|].
    eapply Succeeds_bind; [by apply Succeeds_lift|]. eapply Succeeds_bind; [by eapply Succeeds_prepare|].
    eapply Succeeds_scope; [done|done|]. eapply Succeeds_bind; [apply Succeeds_withRelations; eapply Succeeds_findPage; [done|lia]|].
    eapply Succeeds_bind; [by eapply Succeeds_current|]. eapply Succeeds_bind; [apply Succeeds_lift|].
    - cbn [asked ql_locationId ql_scheduleId ql_startDate ql_endDate]. rewrite <- Hw' in Hp |- *. exact Hp.
    - eapply Succeeds_bind; [by apply Succeeds_lift|]. apply Succeeds_ret. }
  exists data, (bp_nextCursor (pg_pagination p)). split_and!.
  - eapply Succeeds_bind; [exact Hs|]. apply Succeeds_ret.
  - apply (listShifts_answers identity); [by apply Hrows|]. destruct (Hs 0%nat) as [n' E].
    exists H, H0, limitText, (mkWorld d 0), (mkWorld d n'), (mkPaged data (pg_pagination p)). split_and!; [|done..].
    intros n a Ha. rewrite (quiet_authority _ _ Hq) in Ha. by injection Ha as <-.
  - intros text Htext. destruct (Hnext text Htext) as [cur Hc]. by exists (Some cur).
Qed.
End Lists.

(** C27: While nothing fails and the schedule does not change, whoever asks for
    the shifts of the board and follows the cursors, with any limit, comes to an
    end, after at most one request more than there are shifts, and has then been
    given exactly the shifts the actor may see, in order. *)
Theorem listShifts_ends `{Env, AuthorityEnv, Collation, LocaleCompare} identity authority q limitText limit d :
  let listed := shiftsListed (currentIdentity (operationsIdentity identity) authority) q d in
  Answerable identity authority q limitText limit d -> rowsNamed shiftKey (db_shifts d) ->
  (forall s, s ∈ listed -> exists e, serializeShift (internalShift d s) = Ok e) ->
  exists es, Succeeds d (followPages (S (length listed)) (shiftsPage identity q limitText) None) es /\
    wholeList shiftKey keyBefore listed (shiftShown d) es.
Proof.
  intros listed Ha Hrows Hser.
  apply (followPages_whole shiftKey keyBefore compareKeys d (shiftsListed (currentIdentity (operationsIdentity identity) authority) q)
    shiftShown (shiftsPage identity q limitText) (keyOf cursorKey) readableCursor).
  - intros c Hc. by apply (shiftsPage_answers identity authority q limitText limit).
  - by exists None.
  - done.
  - apply stored_keys, Hrows.
Qed.

(** ** A concrete instance *)

(** The sample's shifts, read one at a time. *)
Lemma listShifts_ends_witness :
  let listed := shiftsListed listActor (mkListQuery None None (Some "2026-03-02T00:00:00.000Z") None None None) SetupShifts.setupDb in
  length listed = 2%nat /\
  exists es, @Succeeds SetupShifts.setupDb _ (followPages (S (length listed))
      (@shiftsPage (calmUuid 1772409600000) (actingAs ScheduleChanges.sampleManager) ScheduleChanges.codeUnitOrder codeUnitCollation
        ScheduleChanges.sampleManager (mkListQuery None None (Some "2026-03-02T00:00:00.000Z") None None None) (Some "1")) None) es /\
    wholeList shiftKey keyBefore listed (@shiftShown ScheduleChanges.codeUnitOrder codeUnitCollation SetupShifts.setupDb) es.
Proof.
  split; [vm_compute; reflexivity|].
  apply (@listShifts_ends (calmUuid 1772409600000) (actingAs ScheduleChanges.sampleManager) ScheduleChanges.codeUnitOrder codeUnitCollation
    ScheduleChanges.sampleManager ScheduleChanges.sampleManager _ (Some "1") 1).
  - split; [split; [intros n; reflexivity|intros n; reflexivity|intros n; reflexivity|vm_compute; reflexivity]|vm_compute; reflexivity|vm_compute; reflexivity|eexists; vm_compute; reflexivity].
  - split; [split; [apply (bool_decide_unpack _); vm_compute; exact I|]|]; repeat constructor; vm_compute; congruence.
  - apply (allOk (fun s => @serializeShift ScheduleChanges.codeUnitOrder (@internalShift codeUnitCollation SetupShifts.setupDb s))).
    vm_compute. reflexivity.
Defined.
