(* ===== verification/ScheduleBoard.v ===== *)
(** * The schedule board

    [get] of apps/api-v2/src/scheduling/board.service.ts: what the scheduling
    screen shows of one location over a day, three days or a week - its
    schedules, their shifts, and the people who can be scheduled.  Staff see
    only themselves and what is published to them. *)

From S2P Require Import Prelude JsStd JsCollections JsDate ContractHelpers TimeZone PayrollRecords.
From S2P Require Import Database FeatureEntitlement Authority LunchBreakStore ScheduleStore ScheduleChanges.
From S2P Require SetupShifts OperationsLists.
From S2P Require Import PagesRead.

Definition MAX_LOCATIONS : nat := 500.
Definition MAX_STAFF : nat := 1000.
Definition MAX_SCHEDULES : nat := 200.
Definition MAX_SHIFTS : nat := 5000.

Record BoardQuery := mkBoardQuery { bq_date : string; bq_view : SchedulerView; bq_locationId : option string }.

Record BoardLocation := mkBoardLocation { bl_id : string; bl_name : string; bl_timezone : string }.
Record BoardMember := mkBoardMember { bm_id : string; bm_name : string; bm_role : string }.

Record ScheduleBoard := mkBoard {
  bd_permissions : list string;
  bd_locations : list BoardLocation;
  bd_locationsTruncated : bool;
  bd_selectedLocationId : option string;
  bd_staff : list BoardMember;
  bd_schedules : list Json;
  bd_shifts : list Json;
  bd_start : string;
  bd_end : string;
  bd_generatedAt : string;
}.

(** ** What a board selects *)

Definition liveLocation (tenantId : string) (l : Location) : bool :=
  bool_decide (lo_tenantId l = tenantId) && bool_decide (lo_deletedAt l = None).

Definition namedLocation (tenantId publicId : string) (l : Location) : bool :=
  bool_decide (lo_tenantId l = tenantId) && sameUuid (lo_publicId l) publicId && bool_decide (lo_deletedAt l = None).

Definition isBoardRole (role : string) : bool := bool_decide (role = "MANAGER") || bool_decide (role = "STAFF").

Definition boardUser (current : SessionIdentity) (u : User) : bool :=
  bool_decide (us_tenantId u = si_tenantId current) && bool_decide (us_deletedAt u = None) && bool_decide (us_suspendedAt u = None)
  && isBoardRole (us_role u) && (negb (isStaffIdentity current) || bool_decide (us_id u = si_sub current)).

Definition boardSchedule (current : SessionIdentity) (locationId : string) (start stop : Z) (db : Db) (s : Schedule) : bool :=
  bool_decide (sc_tenantId s = si_tenantId current) && bool_decide (sc_locationId s = locationId)
  && bool_decide (sc_deletedAt s = None) && (sc_startDate s <? stop) && (start <? sc_endDate s)
  && (negb (isStaffIdentity current)
      || (bool_decide (sc_status s = PUBLISHED) && OperationsLists.hasShiftOf current db s)).

(** The assignment of a shift is shown also after its user was suspended. *)
Definition assignmentShown (db : Db) (s : Shift) : bool :=
  match sh_userId s with
  | None => true
  | Some _ => match userOfShift db s with
              | Some u => isBoardRole (us_role u) && bool_decide (us_deletedAt u = None)
              | None => false
              end
  end.

Definition boardShift (current : SessionIdentity) (locationId : string) (scheduleIds : list string) (db : Db) (s : Shift) : bool :=
  bool_decide (sh_tenantId s = si_tenantId current) && bool_decide (sh_locationId s = locationId)
  && match sh_scheduleId s with Some i => bool_decide (i ∈ scheduleIds) | None => false end
  && bool_decide (sh_deletedAt s = None) && assignmentShown db s
  && match scheduleOfShift db s with
     | Some schedule =>
         bool_decide (sc_deletedAt schedule = None)
         && (negb (isStaffIdentity current)
             || (bool_decide (sh_userId s = Some (si_sub current)) && bool_decide (sc_status schedule = PUBLISHED)))
     | None => false
     end.

(** ** Serialization *)

Definition boardLocation (l : Location) : BoardLocation := mkBoardLocation (lo_publicId l) (lo_name l) (lo_timezone l).

Definition schedulableRole (value : string) : Result string :=
  if isBoardRole value then Ok value
  else throwProblem 500 "invalid_scheduling_record" "A scheduling record references an ineligible staff role." "Scheduling data error".

Definition boardMember (u : User) : Result BoardMember :=
  role ← schedulableRole (us_role u);
  Ok (mkBoardMember (us_publicId u) (if isEmpty (us_name u) then "Unnamed" else us_name u) role).

Definition schedulePublicIds (schedules : list Schedule) : JsMap string string := mapOf (map (fun s => (sc_id s, sc_publicId s)) schedules).

Definition boardShiftJson (selected : Location) (publicIds : JsMap string string) (row : StoredShift) : Result Json :=
  let schedulePublicId := i ← truthy (sh_scheduleId (ss_shift row)); mapGet publicIds i in
  match truthy schedulePublicId with
  | None => throwProblem 500 "invalid_scheduling_record" "A saved shift could not be matched to its schedule." "Scheduling data error"
  | Some id => serializeShift row (lo_publicId selected) id
  end.

Definition boardTooLarge {A} : Tx A :=
  throwProblemTx 422 "schedule_board_too_large"
    "The selected board contains too much data for one safe response. Choose a shorter range." "Schedule board too large".

(** ** The handler *)

Section Board.
Context `{Env, AuthorityEnv, Collation, LocaleCompare, Intl}.

Definition locationOrder (l r : Location) : Z := orElse (collate (lo_name l) (lo_name r)) (collate (lo_id l) (lo_id r)).
Definition userOrder (l r : User) : Z := orElse (collate (us_name l) (us_name r)) (collate (us_id l) (us_id r)).
Definition scheduleOrder (l r : Schedule) : Z := orElse (sc_startDate l - sc_startDate r) (collate (sc_id l) (sc_id r)).
Definition shownOrder (l r : Location) : Z := orElse (localeCompare (lo_name l) (lo_name r)) (localeCompare (lo_id l) (lo_id r)).

(** [findMany] with an order and a limit. *)
Definition findOrdered {R} `{Table R} (order : R -> R -> Z) (p : Db -> R -> bool) (limit : nat) : Tx (list R) :=
  query (fun db => Ok (take limit (sortBy order (List.filter (p db) (rows db))), db)).

Definition findBoardShifts (p : Db -> Shift -> bool) (limit : nat) : Tx (list StoredShift) :=
  query (fun db => Ok (map (withRelations db) (take limit (sortBy shiftOrder (List.filter (p db) (db_shifts db)))), db)).

Definition findRequested (tenantId : string) (locationId : option string) : Tx (option Location) :=
  match truthy locationId with
  | Some publicId => operationsWait (findFirst (namedLocation tenantId publicId))
  | None => mret None
  end.

(** The location asked for takes the last place when it is not among the
    first five hundred (of which there are five hundred then). *)
Definition visibleLocations (first : list Location) (requested : option Location) : list Location :=
  let visible := take MAX_LOCATIONS first in
  match requested with
  | Some r => if existsb (fun item => bool_decide (lo_id item = lo_id r)) visible then visible
              else sortBy shownOrder (take (MAX_LOCATIONS - 1) visible ++ [r])
  | None => visible
  end.

Definition findBoardRows (current : SessionIdentity) (selected : Location) (start stop : Z) : Tx (list User * list Schedule) :=
  staff ← findOrdered userOrder (fun _ => boardUser current) (S MAX_STAFF);
  schedules ← findOrdered scheduleOrder (boardSchedule current (lo_id selected) start stop) (S MAX_SCHEDULES);
  mret (staff, schedules).

Definition shownPermissions (current : SessionIdentity) : list string := sortBy compareText (dedupe (si_permissions current)).

Definition emptyBoard (current : SessionIdentity) (start stop : Z) : Tx ScheduleBoard :=
  generatedAt ← now;
  mret (mkBoard (shownPermissions current) [] false None [] [] [] (toISOString start) (toISOString stop) (toISOString generatedAt)).

Definition boardAt (current : SessionIdentity) (first visible : list Location) (selected : Location) (start stop : Z) : Tx ScheduleBoard :=
  found ← operationsWait (findBoardRows current selected start stop);
  let '(staffRows, scheduleRows) := found in
  if (MAX_STAFF <? length staffRows)%nat || (MAX_SCHEDULES <? length scheduleRows)%nat then boardTooLarge
  else
    let scheduleIds := map sc_id scheduleRows in
    shiftRows ← (if bool_decide (scheduleIds = []) then mret []
                 else operationsWait (findBoardShifts (boardShift current (lo_id selected) scheduleIds) (S MAX_SHIFTS)));
    if (MAX_SHIFTS <? length shiftRows)%nat then boardTooLarge
    else
      shifts ← liftResult (mapM (boardShiftJson selected (schedulePublicIds scheduleRows)) shiftRows);
      staff ← liftResult (mapM boardMember staffRows);
      generatedAt ← now;
      mret (mkBoard (shownPermissions current) (map boardLocation visible) (MAX_LOCATIONS <? length first)%nat (Some (lo_publicId selected))
              staff (map (fun s => serializeSchedule s (lo_publicId selected)) scheduleRows) shifts
              (toISOString start) (toISOString stop) (toISOString generatedAt)).

Definition get (identity : SessionIdentity) (q : BoardQuery) : Tx ScheduleBoard :=
  let identity := operationsIdentity identity in
  let permissions := ["locations:read"; "schedules:read"; "shifts:read"] in
  _ ← liftResult (requirePermissions identity permissions);
  _ ← prepareOperationsAuthority identity;
  scopeRun identity (fun current =>
    firstLocations ← operationsWait (findOrdered locationOrder (fun _ => liveLocation (si_tenantId current)) (S MAX_LOCATIONS));
    requestedLocation ← findRequested (si_tenantId current) (bq_locationId q);
    let visible := visibleLocations firstLocations requestedLocation in
    let selected := match requestedLocation with Some l => Some l | None => hd_error visible end in
    range ← liftResult (boardRange (bq_date q) (bq_view q) (default "America/New_York" (lo_timezone <$> selected)));
    match selected with
    | None => emptyBoard current range.1 range.2
    | Some location => boardAt current firstLocations visible location range.1 range.2
    end).
End Board.

(** ** What a board shows *)

Section Shows.
Context `{Env, AuthorityEnv, Collation, LocaleCompare, Intl}.

(** The location asked for, or else the first. *)
Definition boardSelected (tenantId : string) (q : BoardQuery) (db : Db) : option Location :=
  match publicId ← truthy (bq_locationId q); List.find (namedLocation tenantId publicId) (db_locations db) with
  | Some l => Some l
  | None => hd_error (sortBy locationOrder (List.filter (liveLocation tenantId) (db_locations db)))
  end.

Definition shownUsers (current : SessionIdentity) (db : Db) : list User :=
  sortBy userOrder (List.filter (boardUser current) (db_users db)).
Definition shownSchedules (current : SessionIdentity) (selected : Location) (start stop : Z) (db : Db) : list Schedule :=
  sortBy scheduleOrder (List.filter (boardSchedule current (lo_id selected) start stop db) (db_schedules db)).
Definition shownShifts (current : SessionIdentity) (selected : Location) (start stop : Z) (db : Db) : list Shift :=
  sortBy shiftOrder (List.filter (boardShift current (lo_id selected) (map sc_id (shownSchedules current selected start stop db)) db)
    (db_shifts db)).

(** A shift under the public identifier of its schedule. *)
Definition showsShift (selected : Location) (db : Db) (schedules : list Schedule) (h : Shift) (shown : Json) : Prop :=
  exists s, s ∈ schedules /\ sh_scheduleId h = Some (sc_id s) /\
    serializeShift (withRelations db h) (lo_publicId selected) (sc_publicId s) = Ok shown.

(** All that the location has in the range, in order, nothing cut off. *)
Record BoardShows (current : SessionIdentity) (selected : Location) (start stop : Z) (db : Db) (b : ScheduleBoard) : Prop := mkShows {
  shows_permissions : forall p, p ∈ bd_permissions b <-> p ∈ si_permissions current;
  shows_staff : Forall2 (fun u m => boardMember u = Ok m) (shownUsers current db) (bd_staff b);
  shows_schedules : bd_schedules b =
    map (fun s => serializeSchedule s (lo_publicId selected)) (shownSchedules current selected start stop db);
  shows_shifts : Forall2 (showsShift selected db (shownSchedules current selected start stop db))
    (shownShifts current selected start stop db) (bd_shifts b);
  shows_selected : bd_selectedLocationId b = Some (lo_publicId selected);
  shows_locations : (bd_locationsTruncated b = false -> bd_locations b =
      map boardLocation (sortBy locationOrder (List.filter (liveLocation (si_tenantId current)) (db_locations db)))) /\
    (bd_locationsTruncated b = true -> length (bd_locations b) = MAX_LOCATIONS);
  shows_range : bd_start b = toISOString start /\ bd_end b = toISOString stop;
}.

Lemma findOrdered_Ok {R} `{Table R} order (p : Db -> R -> bool) limit l w w' :
  findOrdered order p limit w = (Ok l, w') -> l = take limit (sortBy order (List.filter (p (w_db w)) (rows (w_db w)))) /\ w_db w' = w_db w.
Proof. intros (_ & db & [= <- <-] & ->)%query_Ok. done. Qed.

Lemma findBoardShifts_Ok p limit l w w' :
  findBoardShifts p limit w = (Ok l, w') ->
  l = map (withRelations (w_db w)) (take limit (sortBy shiftOrder (List.filter (p (w_db w)) (db_shifts (w_db w))))) /\ w_db w' = w_db w.
Proof. intros (_ & db & [= <- <-] & ->)%query_Ok. done. Qed.

Lemma findRequested_Ok tenantId locationId l w w' :
  findRequested tenantId locationId w = (Ok l, w') ->
  l = (publicId ← truthy locationId; List.find (namedLocation tenantId publicId) (db_locations (w_db w))) /\ w_db w' = w_db w.
Proof.
  unfold findRequested. destruct (truthy locationId) as [publicId|]; [|by intros [<- <-]%Tx_ret_Ok].
  intros (w1 & [-> E]%findFirst_Ok & E1)%operationsWait_Ok. cbn in *. split; [done|congruence].
Qed.

(** Nothing is cut off by a limit that one row more would have met. *)
Lemma take_whole {A} n (l : list A) : (n <? length (take (S n) l))%nat = false -> take (S n) l = l.
Proof. rewrite Nat.ltb_ge, length_take. intros Hl. apply take_ge. lia. Qed.

Lemma named_live tenantId publicId l : namedLocation tenantId publicId l = true -> liveLocation tenantId l = true.
Proof. unfold namedLocation, liveLocation. rewrite !andb_true_iff. tauto. Qed.

(** When a location is put in the last place there are five hundred. *)
Lemma visible_locations l r :
  (forall x, r = Some x -> x ∈ l) ->
  let first := take (S MAX_LOCATIONS) l in
  ((MAX_LOCATIONS <? length first)%nat = false -> visibleLocations first r = l) /\
  ((MAX_LOCATIONS <? length first)%nat = true -> length (visibleLocations first r) = MAX_LOCATIONS).
Proof.
  intros Hr first. assert (Hpos : (1 <= MAX_LOCATIONS)%nat) by (apply Nat.leb_le; reflexivity).
  unfold visibleLocations. split; intros Hl.
  - apply Nat.ltb_ge in Hl. unfold first in *. rewrite length_take in Hl. rewrite !take_ge by (rewrite ?length_take; lia).
    destruct r as [x|]; [|done]. rewrite (proj2 (existsb_exists _ _)); [done|].
    exists x. split; [by apply list_elem_of_In, Hr|by apply bool_decide_true].
  - apply Nat.ltb_lt in Hl. assert (Hv : length (take MAX_LOCATIONS first) = MAX_LOCATIONS) by (rewrite length_take; lia).
    destruct r as [x|]; [|done]. destruct (existsb _ _); [done|]. rewrite sortBy_length, length_app, length_take, Hv.
    change (length [x]) with 1%nat. lia.
Qed.

Lemma find_matching {A} (p : A -> bool) l x : List.find p l = Some x -> x ∈ l /\ p x = true.
Proof. intros [Hx Hp]%find_some. by rewrite list_elem_of_In. Qed.

Lemma schedulePublicIds_Some schedules i p :
  mapGet (schedulePublicIds schedules) i = Some p -> exists s, s ∈ schedules /\ sc_id s = i /\ sc_publicId s = p.
Proof.
  intros (s & [= -> ->] & Hs)%mapGet_Some_elem%mapOf_elem%list_elem_of_fmap. by exists s.
Qed.

Lemma boardShiftJson_Ok selected db schedules h shown :
  boardShiftJson selected (schedulePublicIds schedules) (withRelations db h) = Ok shown -> showsShift selected db schedules h shown.
Proof.
  unfold boardShiftJson. cbn [ss_shift withRelations]. destruct (truthy (sh_scheduleId h)) as [i|] eqn:Ei; [|done]. cbn [mbind option_bind].
  destruct (mapGet _ i) as [p|] eqn:Ep; [|done]. destruct (truthy (Some p)) as [p'|] eqn:Et; [|done].
  apply schedulePublicIds_Some in Ep as (s & Hs & <- & <-). intros E. exists s. split; [done|].
  unfold truthy in *. destruct (sh_scheduleId h) as [i|]; [|done]. destruct (isEmpty i); [done|]. injection Ei as ->.
  destruct (isEmpty _); [done|]. by injection Et as <-.
Qed.

(** A board without schedules has no shifts. *)
Lemma no_schedules_no_shifts current selected start stop db :
  map sc_id (shownSchedules current selected start stop db) = [] -> shownShifts current selected start stop db = [].
Proof.
  intros Hnone. unfold shownShifts. rewrite Hnone, filter_none; [done|]. intros h _. unfold boardShift.
  destruct (sh_scheduleId h) as [i|]; [rewrite (bool_decide_false (i ∈ [])) by apply not_elem_of_nil|]; by rewrite andb_false_r.
Qed.

Lemma boardAt_Ok current first visible selected start stop b w w' :
  boardAt current first visible selected start stop w = (Ok b, w') ->
  w_db w' = w_db w /\
  bd_locations b = map boardLocation visible /\ bd_locationsTruncated b = (MAX_LOCATIONS <? length first)%nat /\
  bd_permissions b = shownPermissions current /\ bd_selectedLocationId b = Some (lo_publicId selected) /\
  Forall2 (fun u m => boardMember u = Ok m) (shownUsers current (w_db w)) (bd_staff b) /\
  bd_schedules b = map (fun s => serializeSchedule s (lo_publicId selected)) (shownSchedules current selected start stop (w_db w)) /\
  Forall2 (showsShift selected (w_db w) (shownSchedules current selected start stop (w_db w)))
    (shownShifts current selected start stop (w_db w)) (bd_shifts b) /\
  bd_start b = toISOString start /\ bd_end b = toISOString stop.
Proof.
  unfold boardAt, boardTooLarge, throwProblemTx, findBoardRows.
  intros ([staff schedules] & w1 & (w2 & Hf & E1)%operationsWait_Ok & Hr)%Tx_bind_Ok.
  apply Tx_bind_Ok in Hf as (? & w3 & [-> E3]%findOrdered_Ok & Hf). apply Tx_bind_Ok in Hf as (? & w4 & [-> E4]%findOrdered_Ok & [[= <- <-] <-]%Tx_ret_Ok).
  cbn [rows Table_User Table_Schedule w_db tick] in *. rewrite E3 in *.
  destruct (_ || _) eqn:El in Hr; [by apply throwTx_Ok in Hr|]. apply orb_false_iff in El as [Eu%take_whole Es%take_whole].
  rewrite Eu, Es in Hr. fold (shownUsers current (w_db w)) in Hr. fold (shownSchedules current selected start stop (w_db w)) in Hr.
  set (schedules := shownSchedules _ _ _ _ _) in *. assert (E : w_db w1 = w_db w) by congruence.
  apply Tx_bind_Ok in Hr as (found & w5 & Hfound & Hr).
  destruct (MAX_SHIFTS <? length found)%nat eqn:Elen; [by apply throwTx_Ok in Hr|].
  assert (Hshifts : found = map (withRelations (w_db w)) (shownShifts current selected start stop (w_db w)) /\ w_db w5 = w_db w).
  { case_bool_decide as Hnone.
    - apply Tx_ret_Ok in Hfound as [<- <-]. split; [|done]. by rewrite no_schedules_no_shifts.
    - apply operationsWait_Ok in Hfound as (w6 & [-> E6]%findBoardShifts_Ok & E5). cbn [w_db tick] in *. rewrite E in *.
      split; [|congruence]. rewrite length_map in Elen. by rewrite (take_whole _ _ Elen). }
  destruct Hshifts as [-> E5].
  apply Tx_bind_Ok in Hr as (shifts & ? & [Hsh <-]%liftResult_Ok & Hr). apply Tx_bind_Ok in Hr as (members & ? & [Hm <-]%liftResult_Ok & Hr).
  apply Tx_bind_Ok in Hr as (t & w7 & [= <- <-] & [<- <-]%Tx_ret_Ok). apply mapM_Ok_Forall2 in Hsh, Hm. rewrite Forall2_fmap_l in Hsh.
  repeat match goal with |- _ /\ _ => split end; try done. eapply Forall2_impl; [exact Hsh|]. intros h shown. apply boardShiftJson_Ok.
Qed.

Lemma shownPermissions_elem current p : p ∈ shownPermissions current <-> p ∈ si_permissions current.
Proof. unfold shownPermissions. by rewrite sortBy_elem, SetupShifts.dedupe_sub. Qed.

Lemma hd_error_take {A} n (l : list A) : (0 < n)%nat -> hd_error (take n l) = hd_error l.
Proof. intros Hn. destruct n; [lia|]. by destruct l. Qed.

Lemma get_Ok identity q b w w' :
  get identity q w = (Ok b, w') ->
  w_db w' = w_db w /\
  exists n authority start stop, authorityAt n = Ok authority /\
    let current := currentIdentity (operationsIdentity identity) authority in
    let selected := boardSelected (trim (si_tenantId identity)) q (w_db w) in
    boardRange (bq_date q) (bq_view q) (default "America/New_York" (lo_timezone <$> selected)) = Ok (start, stop) /\
    match selected with
    | Some location => BoardShows current location start stop (w_db w) b
    | None => bd_selectedLocationId b = None /\ bd_locations b = [] /\ bd_staff b = [] /\ bd_schedules b = [] /\ bd_shifts b = []
    end.
Proof.
  unfold get. intros (? & w1 & [_ <-]%liftResult_Ok & Hr)%Tx_bind_Ok.
  apply Tx_bind_Ok in Hr as (? & w1 & E1%(ReadOnly_Ok _ _ _ _ (prepareOperationsAuthority_ReadOnly _)) & Hr).
  apply scopeRun_as in Hr as (n & authority & w2 & w3 & Ha & Hr & E2 & E3). rewrite E3, <- E1, <- E2. clear E3 E1 E2.
  set (current := currentIdentity _ _) in *. set (tenantId := trim (si_tenantId identity)).
  change (si_tenantId current) with tenantId in Hr. set (live := sortBy locationOrder (List.filter (liveLocation tenantId) (db_locations (w_db w2)))).
  apply Tx_bind_Ok in Hr as (first & w4 & (w5 & [Ef E5]%findOrdered_Ok & E4)%operationsWait_Ok & Hr). cbn [rows Table_Location w_db tick] in Ef, E5.
  fold live in Ef. apply Tx_bind_Ok in Hr as (requested & w6 & [Er E6]%findRequested_Ok & Hr). rewrite E4, E5 in Er. rewrite E5 in E4.
  apply Tx_bind_Ok in Hr as ([start stop] & ? & [Hrange <-]%liftResult_Ok & Hr).
  assert (Hreq : forall x, requested = Some x -> x ∈ live).
  { intros loc ->. destruct (truthy _) as [publicId|]; [|done]. cbn in Er. symmetry in Er. apply find_matching in Er as [Hx Hn%named_live].
    unfold live. apply sortBy_elem, list_elem_of_In, filter_In. by rewrite <- list_elem_of_In. }
  assert (Es : match requested with Some l => Some l | None => hd_error (visibleLocations first requested) end
               = boardSelected tenantId q (w_db w2)).
  { unfold boardSelected. rewrite <- Er. destruct requested; [done|]. unfold visibleLocations. rewrite Ef.
    by rewrite !hd_error_take by (apply Nat.ltb_lt; reflexivity). }
  rewrite Es in Hr, Hrange. destruct (visible_locations live requested Hreq) as [Hall Hcut]. rewrite <- Ef in Hall, Hcut.
  destruct (boardSelected tenantId q (w_db w2)) as [location|] eqn:Esel.
  - apply boardAt_Ok in Hr as (E7 & Hl & Htr & Hp & Hsel & Hm & Hs & Hh & Hst & Hen). rewrite E6, E4 in *. split; [done|].
    exists n, authority, start, stop. split; [done|]. split; [done|]. split; try done.
    + intros p. rewrite Hp. apply shownPermissions_elem.
    + rewrite Hl, Htr. split; intros Hc; [by rewrite Hall|by rewrite length_map; apply Hcut].
  - apply Tx_bind_Ok in Hr as (t & w7 & [= <- <-] & [<- <-]%Tx_ret_Ok). split; [cbn; congruence|].
    exists n, authority, start, stop. split; [done|]. by repeat split.
Qed.

(** A board reads, whatever it comes to. *)
Lemma get_reads identity q r w w' : get identity q w = (r, w') -> w_db w' = w_db w.
Proof.
  destruct r as [b|e]; [by intros [E _]%get_Ok|]. unfold get, mbind, Tx_bind, liftResult.
  destruct (requirePermissions _ _); [|by intros [= _ <-]].
  pose proof (prepareOperationsAuthority_ReadOnly (operationsIdentity identity) w) as Hp.
  destruct (prepareOperationsAuthority _ w) as [[?|?] w1]; cbn in Hp; [|by intros [= _ <-]].
  intros E%scopeRun_Throw. congruence.
Qed.
End Shows.

(** ** Boards are answered *)

(** The rows a board is made of are within its limits, and schedules have
    identifiers. *)
Record WithinLimits `{Collation} (current : SessionIdentity) (selected : Location) (start stop : Z) (d : Db) : Prop := mkWithin {
  within_staff : (length (shownUsers current d) <= MAX_STAFF)%nat;
  within_schedules : (length (shownSchedules current selected start stop d) <= MAX_SCHEDULES)%nat;
  within_shifts : (length (shownShifts current selected start stop d) <= MAX_SHIFTS)%nat;
  within_named : Forall (fun s => isEmpty (sc_id s) = false /\ isEmpty (sc_publicId s) = false) (db_schedules d);
}.

Section Answers.
Context `{Env, AuthorityEnv, Collation, LocaleCompare, Intl}.

(** The two records the board refuses to show cannot be met. *)
Lemma member_shown current u : boardUser current u = true -> exists m, boardMember u = Ok m.
Proof.
  unfold boardUser, boardMember, schedulableRole. rewrite !andb_true_iff. intros [[_ ->] _]. by eexists.
Qed.

Lemma shift_shown current selected start stop d h :
  Forall (fun s => isEmpty (sc_id s) = false /\ isEmpty (sc_publicId s) = false) (db_schedules d) ->
  h ∈ shownShifts current selected start stop d ->
  exists shown, boardShiftJson selected (schedulePublicIds (shownSchedules current selected start stop d)) (withRelations d h) = Ok shown.
Proof.
  intros Hnamed Hh. unfold shownShifts in Hh. apply sortBy_elem, list_elem_of_In, filter_In in Hh as [_ Hh].
  unfold boardShift in Hh. rewrite !andb_true_iff in Hh. destruct Hh as [[[[_ Hid] _] _] _].
  assert (Hin : forall s, s ∈ shownSchedules current selected start stop d -> isEmpty (sc_id s) = false /\ isEmpty (sc_publicId s) = false).
  { intros s Hs. unfold shownSchedules in Hs. apply sortBy_elem, list_elem_of_In, filter_In in Hs as [Hs _].
    rewrite Forall_forall in Hnamed. by apply Hnamed, list_elem_of_In. }
  unfold boardShiftJson, serializeShift. cbn [ss_shift withRelations]. destruct (sh_scheduleId h) as [i|]; [|done].
  apply bool_decide_eq_true in Hid. assert (Hi : isEmpty i = false) by (apply list_elem_of_fmap in Hid as (s & -> & Hs); by apply Hin).
  unfold truthy at 2. rewrite Hi. cbn [mbind option_bind]. destruct (mapGet _ i) as [p|] eqn:Ep.
  - apply schedulePublicIds_Some in Ep as (s & Hs & _ & <-). unfold truthy. destruct (Hin s Hs) as [_ ->]. by eexists.
  - exfalso. apply mapGet_None in Ep. apply Ep, mapOf_keys. rewrite list_elem_of_fmap. apply list_elem_of_fmap in Hid as (s & -> & Hs).
    exists (sc_id s, sc_publicId s). split; [done|]. apply list_elem_of_fmap. by exists s.
Qed.

Lemma requirePermissions_holds identity permissions :
  Forall (fun p => p ∈ si_permissions identity) permissions -> requirePermissions identity permissions = Ok tt.
Proof.
  intros Hp. unfold requirePermissions. rewrite bool_decide_true; [done|]. apply filter_none. intros p Hin.
  rewrite Forall_forall in Hp. by rewrite bool_decide_true by by apply Hp.
Qed.

Context (d : Db) (authority : SessionIdentity) (Hq : Quiet d authority).

Lemma Succeeds_wait {A} (m : Tx A) a : Succeeds d m a -> Succeeds d (operationsWait m) a.
Proof.
  intros Hm. apply (Succeeds_bind _ _ _ tt); [by eapply Succeeds_current|]. apply (Succeeds_bind _ _ _ a); [done|].
  apply (Succeeds_bind _ _ _ tt); [by eapply Succeeds_current|apply Succeeds_ret].
Qed.

Lemma Succeeds_findOrdered {R} `{Table R} order (p : Db -> R -> bool) limit :
  Succeeds d (findOrdered order p limit) (take limit (sortBy order (List.filter (p d) (rows d)))).
Proof. by eapply Succeeds_query. Qed.

Lemma Succeeds_requested tenantId locationId :
  Succeeds d (findRequested tenantId locationId)
    (publicId ← truthy locationId; List.find (namedLocation tenantId publicId) (db_locations d)).
Proof.
  unfold findRequested. destruct (truthy locationId); [|apply Succeeds_ret]. apply Succeeds_wait. by eapply Succeeds_query.
Qed.

Lemma Succeeds_boardAt t current first visible selected start stop :
  (forall n, nowAt n = t) -> WithinLimits current selected start stop d ->
  exists b, Succeeds d (boardAt current first visible selected start stop) b.
Proof.
  intros Ht [Hu Hs Hh Hnamed]. unfold boardAt, findBoardRows.
  assert (Hrows : Succeeds d (findBoardRows current selected start stop) (shownUsers current d, shownSchedules current selected start stop d)).
  { eapply Succeeds_bind; [apply Succeeds_findOrdered|]. rewrite take_ge by by apply Nat.le_le_succ_r.
    eapply Succeeds_bind; [apply Succeeds_findOrdered|]. rewrite take_ge by by apply Nat.le_le_succ_r. apply Succeeds_ret. }
  destruct (mapM_total boardMember (shownUsers current d)) as [members Hm].
  { intros u Hin. apply (member_shown current). unfold shownUsers in Hin. by apply sortBy_elem, list_elem_of_In, filter_In in Hin as [_ Hin]. }
  destruct (mapM_total (boardShiftJson selected (schedulePublicIds (shownSchedules current selected start stop d)))
    (map (withRelations d) (shownShifts current selected start stop d))) as [shifts Hsh].
  { intros row (h & -> & Hin)%list_elem_of_fmap. by apply (shift_shown current selected start stop d h). }
  eexists. eapply Succeeds_bind; [apply Succeeds_wait, Hrows|]. cbv beta iota. rewrite !(proj2 (Nat.ltb_ge _ _)) by done. cbn [orb].
  eapply Succeeds_bind.
  { instantiate (1 := map (withRelations d) (shownShifts current selected start stop d)). case_bool_decide as Hnone.
    - rewrite no_schedules_no_shifts by done. apply Succeeds_ret.
    - apply Succeeds_wait. eapply Succeeds_query; [exact Hq|]. do 3 f_equal. apply take_ge. by apply Nat.le_le_succ_r. }
  rewrite length_map, (proj2 (Nat.ltb_ge _ _)) by done. eapply Succeeds_bind; [apply Succeeds_lift, Hsh|].
  eapply Succeeds_bind; [apply Succeeds_lift, Hm|]. eapply Succeeds_bind; [|apply Succeeds_ret].
  intros n. exists (S n). unfold now. cbn. by rewrite Ht.
Qed.
End Answers.

(** ** The board of a request *)

Lemma board_shows `{Env, AuthorityEnv, Collation, LocaleCompare, Intl} d authority t identity q selected start stop :
  let current := currentIdentity (operationsIdentity identity) authority in
  Quiet d authority -> (forall n, nowAt n = t) -> isEmpty (trim (trim (si_tenantId identity))) = false ->
  Forall (fun p => p ∈ si_permissions identity) ["locations:read"; "schedules:read"; "shifts:read"] ->
  boardSelected (trim (si_tenantId identity)) q d = Some selected ->
  boardRange (bq_date q) (bq_view q) (lo_timezone selected) = Ok (start, stop) ->
  WithinLimits current selected start stop d ->
  exists b, Succeeds d (get identity q) b /\ BoardShows current selected start stop d b.
Proof.
  intros current Hq Ht Hten Hperm Hsel Hrange Hlim.
  assert (Hs : exists b, Succeeds d (get identity q) b).
  { set (tenantId := trim (si_tenantId identity)) in *.
    set (live := sortBy locationOrder (List.filter (liveLocation tenantId) (db_locations d))).
    set (requested := publicId ← truthy (bq_locationId q); List.find (namedLocation tenantId publicId) (db_locations d)).
    assert (Es : match requested with Some l => Some l | None => hd_error (visibleLocations (take (S MAX_LOCATIONS) live) requested) end
                 = Some selected).
    { rewrite <- Hsel. unfold boardSelected. fold requested. destruct requested; [done|]. unfold visibleLocations.
      by rewrite !hd_error_take by (apply Nat.ltb_lt; reflexivity). }
    destruct (Succeeds_boardAt d authority Hq t current (take (S MAX_LOCATIONS) live)
      (visibleLocations (take (S MAX_LOCATIONS) live) requested) selected start stop Ht Hlim) as [b Hb].
    exists b. eapply Succeeds_bind; [by apply Succeeds_lift, requirePermissions_holds|].
    eapply Succeeds_bind; [by eapply Succeeds_prepare|]. eapply Succeeds_scope; [exact Hq|done|].
    eapply (Succeeds_bind _ _ _ (take (S MAX_LOCATIONS) live)); [eapply Succeeds_wait; [exact Hq|]; by eapply Succeeds_findOrdered|].
    eapply (Succeeds_bind _ _ _ requested); [by eapply Succeeds_requested|]. cbv zeta. rewrite Es.
    eapply Succeeds_bind; [apply Succeeds_lift, Hrange|]. exact Hb. }
  destruct Hs as [b Hb]. exists b. split; [done|]. destruct (Hb 0%nat) as [n' E].
  apply get_Ok in E as [_ (n & authority2 & start2 & stop2 & Ha & Hr & Hshows)]. cbn [w_db] in *.
  rewrite (quiet_authority _ _ Hq) in Ha. injection Ha as <-. rewrite Hsel in *. cbn in Hr. rewrite Hrange in Hr. by injection Hr as <- <-.
Qed.

(** ** The board's contract

    What a board is to show, told by the columns of the rows. *)

(** [l] is the rows of a table with [P], in the order of the table. *)
Definition Selected {R} (P : R -> Prop) (rows l : list R) : Prop :=
  exists p : R -> bool, (forall r, r ∈ rows -> p r = true <-> P r) /\ l = List.filter p rows.

(** Someone who can be scheduled; staff see themselves. *)
Definition PersonOnBoard (current : SessionIdentity) (u : User) : Prop :=
  us_tenantId u = si_tenantId current /\ us_deletedAt u = None /\ us_suspendedAt u = None /\
  (us_role u = "MANAGER" \/ us_role u = "STAFF") /\ (isStaffIdentity current = true -> us_id u = si_sub current).

(** A live schedule of the location that meets the range; staff see those that
    are published and have a shift of theirs. *)
Definition ScheduleOnBoard (current : SessionIdentity) (selected : Location) (start stop : Z) (db : Db) (s : Schedule) : Prop :=
  sc_tenantId s = si_tenantId current /\ sc_locationId s = lo_id selected /\ sc_deletedAt s = None /\
  sc_startDate s < stop /\ start < sc_endDate s /\
  (isStaffIdentity current = true -> sc_status s = PUBLISHED /\
     exists h, h ∈ db_shifts db /\ sh_scheduleId h = Some (sc_id s) /\ sh_tenantId h = si_tenantId current /\
       sh_userId h = Some (si_sub current) /\ sh_deletedAt h = None).

(** A live shift of the schedule [s] at the location, of nobody or of someone
    with a role that can be scheduled whose account is not deleted; staff see
    their own. *)
Definition ShiftOnBoard (current : SessionIdentity) (selected : Location) (start stop : Z) (db : Db) (h : Shift) (s : Schedule) : Prop :=
  s ∈ db_schedules db /\ ScheduleOnBoard current selected start stop db s /\ sh_scheduleId h = Some (sc_id s) /\
  sh_tenantId h = si_tenantId current /\ sh_locationId h = lo_id selected /\ sh_deletedAt h = None /\
  (sh_userId h = None \/ exists u, u ∈ db_users db /\ us_tenantId u = si_tenantId current /\ sh_userId h = Some (us_id u) /\
     (us_role u = "MANAGER" \/ us_role u = "STAFF") /\ us_deletedAt u = None) /\
  (isStaffIdentity current = true -> sh_userId h = Some (si_sub current)).

Definition LocationOnBoard (tenantId : string) (l : Location) : Prop := lo_tenantId l = tenantId /\ lo_deletedAt l = None.

Section Contract.
Context `{Collation}.

(** In the orders of the screen: people and places by name, schedules and shifts
    by their start. *)
Definition peopleByName : list User -> list User := sortBy (fun l r => orElse (collate (us_name l) (us_name r)) (collate (us_id l) (us_id r))).
Definition placesByName : list Location -> list Location :=
  sortBy (fun l r => orElse (collate (lo_name l) (lo_name r)) (collate (lo_id l) (lo_id r))).
Definition schedulesByStart : list Schedule -> list Schedule :=
  sortBy (fun l r => orElse (sc_startDate l - sc_startDate r) (collate (sc_id l) (sc_id r))).
Definition shiftsByStart : list Shift -> list Shift :=
  sortBy (fun l r => orElse (sh_startTime l - sh_startTime r) (collate (sh_id l) (sh_id r))).

(** The live location of the tenant the query names, or the first by name when it
    names none. *)
Definition LocationChosen (tenantId : string) (q : BoardQuery) (db : Db) (l : Location) : Prop :=
  let named x := exists id, truthy (bq_locationId q) = Some id /\ lo_publicId x = lowerText id in
  l ∈ db_locations db /\ LocationOnBoard tenantId l /\
  (named l \/
   (forall x, x ∈ db_locations db -> LocationOnBoard tenantId x -> ~ named x) /\
   forall live, Selected (LocationOnBoard tenantId) (db_locations db) live -> hd_error (placesByName live) = Some l).

Record BoardContract (current : SessionIdentity) (selected : Location) (start stop : Z) (db : Db) (b : ScheduleBoard) : Prop := mkContract {
  bc_permissions : forall p, p ∈ bd_permissions b <-> p ∈ si_permissions current;
  bc_staff : exists people, Selected (PersonOnBoard current) (db_users db) people /\
    bd_staff b = map (fun u => mkBoardMember (us_publicId u) (if bool_decide (us_name u = "") then "Unnamed" else us_name u) (us_role u))
      (peopleByName people);
  bc_schedules : exists schedules, Selected (ScheduleOnBoard current selected start stop db) (db_schedules db) schedules /\
    bd_schedules b = map (fun s => serializeSchedule s (lo_publicId selected)) (schedulesByStart schedules);
  bc_shifts : exists shifts, Selected (fun h => exists s, ShiftOnBoard current selected start stop db h s) (db_shifts db) shifts /\
    Forall2 (fun h shown => exists s, ShiftOnBoard current selected start stop db h s /\
      serializeShift (withRelations db h) (lo_publicId selected) (sc_publicId s) = Ok shown) (shiftsByStart shifts) (bd_shifts b);
  bc_selected : bd_selectedLocationId b = Some (lo_publicId selected);
  bc_locations : exists live, Selected (LocationOnBoard (si_tenantId current)) (db_locations db) live /\
    (bd_locationsTruncated b = false -> bd_locations b = map boardLocation (placesByName live)) /\
    (bd_locationsTruncated b = true -> length (bd_locations b) = MAX_LOCATIONS);
  bc_range : bd_start b = toISOString start /\ bd_end b = toISOString stop;
}.

(** The rows to show are within the limits, and identifiers are keys. *)
Record BoardFits (current : SessionIdentity) (selected : Location) (start stop : Z) (db : Db) : Prop := mkFits {
  bf_staff : forall l, Selected (PersonOnBoard current) (db_users db) l -> (length l <= MAX_STAFF)%nat;
  bf_schedules : forall l, Selected (ScheduleOnBoard current selected start stop db) (db_schedules db) l -> (length l <= MAX_SCHEDULES)%nat;
  bf_shifts : forall l, Selected (fun h => exists s, ShiftOnBoard current selected start stop db h s) (db_shifts db) l ->
    (length l <= MAX_SHIFTS)%nat;
  bf_keyed : NoDup (map sc_id (db_schedules db)) /\ NoDup (map us_id (db_users db)) /\ NoDup (map lo_publicId (db_locations db));
  bf_named : Forall (fun s => sc_id s <> "" /\ sc_publicId s <> "") (db_schedules db);
}.

(** *** The handler selects what is to be shown *)

Lemma isBoardRole_spec role : isBoardRole role = true <-> role = "MANAGER" \/ role = "STAFF".
Proof. unfold isBoardRole. by rewrite orb_true_iff, !bool_decide_eq_true. Qed.

Lemma staffOnly_spec (staff shown : bool) (P : Prop) : (shown = true <-> P) -> negb staff || shown = true <-> (staff = true -> P).
Proof. intros <-. destruct staff; cbn; naive_solver. Qed.

Lemma boardUser_spec current u : boardUser current u = true <-> PersonOnBoard current u.
Proof.
  unfold boardUser, PersonOnBoard. rewrite !andb_true_iff, !bool_decide_eq_true, isBoardRole_spec.
  rewrite (staffOnly_spec _ _ (us_id u = si_sub current)) by apply bool_decide_eq_true. tauto.
Qed.

Lemma boardSchedule_spec current selected start stop db s :
  boardSchedule current (lo_id selected) start stop db s = true <-> ScheduleOnBoard current selected start stop db s.
Proof.
  unfold boardSchedule, ScheduleOnBoard. rewrite !andb_true_iff, !bool_decide_eq_true, !Z.ltb_lt.
  rewrite (staffOnly_spec _ _ (sc_status s = PUBLISHED /\ exists h, h ∈ db_shifts db /\ sh_scheduleId h = Some (sc_id s) /\
    sh_tenantId h = si_tenantId current /\ sh_userId h = Some (si_sub current) /\ sh_deletedAt h = None)); [tauto|].
  rewrite andb_true_iff, bool_decide_eq_true. unfold OperationsLists.hasShiftOf. rewrite existsb_exists.
  setoid_rewrite andb_true_iff. setoid_rewrite andb_true_iff. setoid_rewrite andb_true_iff. setoid_rewrite bool_decide_eq_true.
  setoid_rewrite <- list_elem_of_In. naive_solver.
Qed.

Lemma find_unique {A K} (key : A -> K) (p : A -> bool) l x :
  NoDup (map key l) -> x ∈ l -> p x = true -> (forall y, p y = true -> key y = key x) -> List.find p l = Some x.
Proof.
  intros Hn Hx Hp Hk. destruct (List.find p l) as [y|] eqn:Ef.
  - apply find_matching in Ef as [Hy Hpy]. f_equal. apply (NoDup_map_inj key l y x Hn Hy Hx). by apply Hk.
  - pose proof (find_none _ _ Ef x ltac:(by apply list_elem_of_In)). congruence.
Qed.

Lemma assignmentShown_spec db h :
  NoDup (map us_id (db_users db)) ->
  assignmentShown db h = true <->
  (sh_userId h = None \/ exists u, u ∈ db_users db /\ us_tenantId u = sh_tenantId h /\ sh_userId h = Some (us_id u) /\
     (us_role u = "MANAGER" \/ us_role u = "STAFF") /\ us_deletedAt u = None).
Proof.
  intros Hn. unfold assignmentShown, userOfShift. destruct (sh_userId h) as [i|] eqn:Ei; cbn [mbind option_bind]; [|naive_solver].
  split.
  - destruct (List.find _ _) as [u|] eqn:Ef; [|done]. rewrite andb_true_iff, bool_decide_eq_true, isBoardRole_spec. intros [Hr Hd]. right.
    apply find_matching in Ef as [Hu [<-%bool_decide_eq_true Ht%bool_decide_eq_true]%andb_true_iff]. by exists u.
  - intros [|(u & Hu & Ht & [= ->] & Hr & Hd)]; [done|].
    rewrite (find_unique us_id _ _ u Hn Hu).
    + by rewrite andb_true_iff, bool_decide_eq_true, isBoardRole_spec.
    + by rewrite !bool_decide_true.
    + intros y [Hy _]%andb_true_iff. by apply bool_decide_eq_true in Hy.
Qed.

Lemma boardShift_spec current selected start stop db h :
  NoDup (map sc_id (db_schedules db)) -> NoDup (map us_id (db_users db)) ->
  boardShift current (lo_id selected) (map sc_id (shownSchedules current selected start stop db)) db h = true <->
  exists s, ShiftOnBoard current selected start stop db h s.
Proof.
  intros Hs Hu. unfold boardShift. rewrite !andb_true_iff, !bool_decide_eq_true, assignmentShown_spec by done.
  assert (Hin : forall i, i ∈ map sc_id (shownSchedules current selected start stop db) <->
    exists s, s ∈ db_schedules db /\ ScheduleOnBoard current selected start stop db s /\ sc_id s = i).
  { intros i. rewrite list_elem_of_fmap. unfold shownSchedules. setoid_rewrite sortBy_elem. setoid_rewrite list_elem_of_In.
    setoid_rewrite filter_In. setoid_rewrite boardSchedule_spec. naive_solver. }
  assert (Hof : forall s, s ∈ db_schedules db -> sh_scheduleId h = Some (sc_id s) -> sc_tenantId s = sh_tenantId h -> scheduleOfShift db h = Some s).
  { intros s Hin' Hi Ht. unfold scheduleOfShift. rewrite Hi. cbn [mbind option_bind]. apply (find_unique sc_id); [done|done| |].
    - by rewrite !bool_decide_true.
    - intros y [Hy _]%andb_true_iff. by apply bool_decide_eq_true in Hy. }
  split.
  - intros [[[[[Ht Hl] Hi] Hd] Ha] Hsch]. destruct (sh_scheduleId h) as [i|] eqn:Ei; [|done]. apply bool_decide_eq_true, Hin in Hi as (s & Hsin & Hon & <-).
    rewrite (Hof s Hsin eq_refl) in Hsch by (destruct Hon; congruence). apply andb_true_iff in Hsch as [_ Hown].
    rewrite Ht in Ha. exists s. unfold ShiftOnBoard. rewrite Ei. repeat (split; [done|]).
    intros Hst. rewrite Hst in Hown. cbn in Hown. apply andb_true_iff in Hown as [Hown _]. by apply bool_decide_eq_true in Hown.
  - intros (s & Hsin & Hon & Ei & Ht & Hl & Hd & Ha & Hown). rewrite Ei, (Hof s Hsin Ei) by (destruct Hon; congruence). rewrite Ht.
    assert (Hi : bool_decide (sc_id s ∈ map sc_id (shownSchedules current selected start stop db)) = true) by (apply bool_decide_eq_true, Hin; by exists s).
    split_and!; try done. rewrite andb_true_iff, bool_decide_eq_true. split; [apply Hon|].
    rewrite (staffOnly_spec _ _ (sh_userId h = Some (si_sub current) /\ sc_status s = PUBLISHED)); [|by rewrite andb_true_iff, !bool_decide_eq_true].
    intros Hst. split; [by apply Hown|]. by apply Hon.
Qed.

Lemma liveLocation_spec tenantId l : liveLocation tenantId l = true <-> LocationOnBoard tenantId l.
Proof. unfold liveLocation, LocationOnBoard. by rewrite andb_true_iff, !bool_decide_eq_true. Qed.

Lemma chosen_selected tenantId q db l :
  NoDup (map lo_publicId (db_locations db)) -> LocationChosen tenantId q db l -> boardSelected tenantId q db = Some l.
Proof.
  intros Hn (Hl & [Ht Hd] & Hc). unfold boardSelected.
  assert (Hnamed : forall id x, namedLocation tenantId id x = true <-> LocationOnBoard tenantId x /\ lo_publicId x = lowerText id).
  { intros id x. unfold namedLocation, sameUuid, LocationOnBoard. rewrite !andb_true_iff, !bool_decide_eq_true. tauto. }
  destruct Hc as [(id & -> & Hid)|[Hnone Hfirst]].
  - cbn [mbind option_bind]. rewrite (find_unique lo_publicId _ _ l Hn Hl); [done|by apply Hnamed|]. intros y [_ Hy]%Hnamed. congruence.
  - destruct (truthy (bq_locationId q)) as [id|] eqn:Eq; cbn [mbind option_bind].
    + destruct (List.find _ _) as [x|] eqn:Ef.
      * apply find_matching in Ef as [Hx [Hlive Hid]%Hnamed]. exfalso. apply (Hnone x Hx Hlive). by exists id.
      * apply Hfirst. exists (liveLocation tenantId). split; [intros; apply liveLocation_spec|done].
    + apply Hfirst. exists (liveLocation tenantId). split; [intros; apply liveLocation_spec|done].
Qed.

Lemma fits_within current selected start stop db : BoardFits current selected start stop db -> WithinLimits current selected start stop db.
Proof.
  intros [Hu Hs Hh (Hks & Hku & _) Hn]. split; unfold shownUsers, shownSchedules, shownShifts; rewrite ?sortBy_length.
  - apply Hu. exists (boardUser current). split; [intros; apply boardUser_spec|done].
  - apply Hs. eexists. split; [intros; apply boardSchedule_spec|done].
  - apply Hh. eexists. split; [intros; by apply boardShift_spec|done].
  - eapply Forall_impl; [exact Hn|]. intros s [H1 H2]. split; by apply bool_decide_eq_false.
Qed.
End Contract.

Lemma shows_contract `{Collation} current selected start stop db b :
  BoardFits current selected start stop db -> BoardShows current selected start stop db b -> BoardContract current selected start stop db b.
Proof.
  intros Hf [Hp Hu Hs Hh Hsel Hl Hr]. destruct (bf_keyed _ _ _ _ _ Hf) as (Hks & Hku & _). split; try done.
  - eexists. split; [exists (boardUser current); split; [intros; apply boardUser_spec|reflexivity]|].
    change (peopleByName _) with (shownUsers current db). clear -Hu. induction Hu as [|u m us ms Hm _ IH]; [done|]. cbn [map]. rewrite IH. f_equal.
    unfold boardMember, schedulableRole in Hm. destruct (isBoardRole _); [|done]. by injection Hm as <-.
  - eexists. split; [eexists; split; [intros; apply boardSchedule_spec|reflexivity]|]. exact Hs.
  - eexists. split; [eexists; split; [intros; by apply boardShift_spec|reflexivity]|].
    change (shiftsByStart _) with (shownShifts current selected start stop db).
    assert (Hin : forall h, h ∈ shownShifts current selected start stop db -> exists s, ShiftOnBoard current selected start stop db h s).
    { intros h Hh'. unfold shownShifts in Hh'. apply sortBy_elem, filter_elem in Hh' as [_ Hh']. by apply boardShift_spec in Hh'. }
    revert Hin. induction Hh as [|h shown hs js (s & Hs' & Ei & E) _ IH]; intros Hin; constructor; [|apply IH; intros; apply Hin; by right].
    destruct (Hin h ltac:(by left)) as (s2 & Hon). exists s2. split; [done|]. destruct Hon as (Hs2 & _ & Ei2 & _).
    unfold shownSchedules in Hs'. apply sortBy_elem, filter_elem in Hs' as [Hs' _].
    rewrite (NoDup_map_inj sc_id _ s2 s Hks Hs2 Hs' ltac:(congruence)). exact E.
  - eexists. split; [exists (liveLocation (si_tenantId current)); split; [intros; apply liveLocation_spec|reflexivity]|]. exact Hl.
Qed.

(** C23: A board shows its location, all of it and nothing else.  When the
    database answers and the actor is authorised, a request whose location - the
    one it names, or else the first - has a day that can be told, with no more
    rows than the limits, is answered, neither of the two refusals of
    inconsistent records being met.  The answer has every person of the tenant
    who can be scheduled, every live schedule of the location that meets the
    range, and every live shift of these schedules that is of nobody or of
    someone with a manager's or staff role whose account is not deleted; each in
    order, and each shift under the public identifier of its schedule.  Staff
    are shown themselves, the published schedules they work in and their own
    shifts. *)
Theorem board_answers `{Env, AuthorityEnv, Collation, LocaleCompare, Intl} d authority t identity q selected start stop :
  let current := currentIdentity (operationsIdentity identity) authority in
  Quiet d authority -> (forall n, nowAt n = t) -> isEmpty (trim (trim (si_tenantId identity))) = false ->
  Forall (fun p => p ∈ si_permissions identity) ["locations:read"; "schedules:read"; "shifts:read"] ->
  LocationChosen (trim (si_tenantId identity)) q d selected ->
  boardRange (bq_date q) (bq_view q) (lo_timezone selected) = Ok (start, stop) ->
  BoardFits current selected start stop d ->
  exists b, Succeeds d (get identity q) b /\ BoardContract current selected start stop d b.
Proof.
  intros current Hq Ht Hten Hperm Hch Hrange Hfits. pose proof (bf_keyed _ _ _ _ _ Hfits) as (_ & _ & Hlo).
  destruct (board_shows d authority t identity q selected start stop Hq Ht Hten Hperm (chosen_selected _ _ _ _ Hlo Hch) Hrange
    (fits_within _ _ _ _ _ Hfits)) as (b & Hb & Hshows).
  exists b. split; [done|]. by apply shows_contract.
Qed.

(** A shift of the actor. *)
Definition ownShift (current : SessionIdentity) (db : Db) (h : Shift) : Prop :=
  h ∈ db_shifts db /\ sh_tenantId h = si_tenantId current /\ sh_userId h = Some (si_sub current) /\ sh_deletedAt h = None.

(** C22: Staff see themselves and what is published to them.  Whatever a request
    for a board comes to, it changes nothing; and when the actor it was
    authorised for has the staff role, in any of its spellings, the board it
    returns names no other person than the actor, has only published live
    schedules in which the actor has a shift, and only the actor's own shifts of
    published live schedules, all of them of the tenant of the request. *)
Theorem staff_board_private `{Env, AuthorityEnv, Collation, LocaleCompare, Intl} identity q r w w' :
  get identity q w = (r, w') ->
  w_db w' = w_db w /\
  forall b, r = Ok b -> exists n authority, authorityAt n = Ok authority /\
    let current := currentIdentity (operationsIdentity identity) authority in
    isStaffIdentity current = true ->
    Forall (fun m => exists u, u ∈ db_users (w_db w) /\ us_tenantId u = si_tenantId current /\ us_id u = si_sub current /\
      bm_id m = us_publicId u) (bd_staff b) /\
    Forall (fun shown => exists s h location, s ∈ db_schedules (w_db w) /\ sc_tenantId s = si_tenantId current /\
      sc_status s = PUBLISHED /\ sc_deletedAt s = None /\ ownShift current (w_db w) h /\ sh_scheduleId h = Some (sc_id s) /\
      shown = serializeSchedule s location) (bd_schedules b) /\
    Forall (fun shown => exists h s location id, ownShift current (w_db w) h /\ scheduleOfShift (w_db w) h = Some s /\
      sc_status s = PUBLISHED /\ sc_deletedAt s = None /\
      serializeShift (withRelations (w_db w) h) location id = Ok shown) (bd_shifts b).
Proof.
  intros Hg. split; [by eapply get_reads|]. intros b ->. apply get_Ok in Hg as [_ (n & authority & start & stop & Ha & _ & Hb)].
  exists n, authority. split; [done|]. intros current Hstaff. fold current in Hb.
  destruct (boardSelected _ _ _) as [selected|]; [|by destruct Hb as (_ & _ & -> & -> & ->)].
  split_and!; apply Forall_forall.
  - intros m Hm. destruct (Forall2_elem_r _ _ _ _ (shows_staff _ _ _ _ _ _ Hb) Hm) as (u & Hu & E).
    unfold shownUsers in Hu. apply sortBy_elem, list_elem_of_In, filter_In in Hu as [Hu Hp]. unfold boardUser in Hp.
    rewrite Hstaff, !andb_true_iff, !bool_decide_eq_true in Hp. destruct Hp as [[[[Ht _] _] _] Hme]. cbn in Hme. apply bool_decide_eq_true in Hme.
    exists u. rewrite list_elem_of_In. split_and!; try done. unfold boardMember in E. by apply Result_bind_Ok in E as (role & _ & [= <-]).
  - rewrite (shows_schedules _ _ _ _ _ _ Hb). intros shown (s & -> & Hs)%list_elem_of_fmap. unfold shownSchedules in Hs.
    apply sortBy_elem, list_elem_of_In, filter_In in Hs as [Hs Hp]. unfold boardSchedule in Hp.
    rewrite Hstaff, !andb_true_iff, !bool_decide_eq_true in Hp. destruct Hp as [[[[[Ht _] Hd] _] _] Hown]. cbn [negb orb] in Hown.
    apply andb_true_iff in Hown as [Hst%bool_decide_eq_true Hown]. apply existsb_exists in Hown as (h & Hh & Hown).
    rewrite !andb_true_iff, !bool_decide_eq_true in Hown. destruct Hown as [[[Hsh Hht] Hhu] Hhd].
    exists s, h, (lo_publicId selected). split_and!; try done; [by apply list_elem_of_In|]. split; [by apply list_elem_of_In|done].
  - intros shown Hshown. destruct (Forall2_elem_r _ _ _ _ (shows_shifts _ _ _ _ _ _ Hb) Hshown) as (h & Hh & s & _ & _ & E).
    unfold shownShifts in Hh. apply sortBy_elem, list_elem_of_In, filter_In in Hh as [Hh Hp]. unfold boardShift in Hp.
    rewrite Hstaff, !andb_true_iff, !bool_decide_eq_true in Hp. destruct Hp as [[[[[Ht _] _] Hd] _] Hsch].
    destruct (scheduleOfShift _ h) as [s'|] eqn:Es; [|done]. cbn [negb orb] in Hsch. rewrite !andb_true_iff, !bool_decide_eq_true in Hsch.
    exists h, s', (lo_publicId selected), (sc_publicId s). destruct Hsch as (? & ? & ?). split_and!; try done.
    split; [by apply list_elem_of_In|done].
Qed.

(** ** Concrete instances *)

Definition utcClock : Intl := {| intlZonedParts t tz := shownAt t; intlTimeZone tz := true |}.

Definition boardManager : SessionIdentity :=
  mkIdentity "u-m" "t1" ["shifts:read"; "locations:read"; "schedules:read"; "shifts:read"] "m1" "MANAGER" (Some "MANAGER") [].
Definition boardStaff : SessionIdentity :=
  mkIdentity "u1" "t1" ["locations:read"; "schedules:read"; "shifts:read"] "p1" "crew" (Some " staff ") [].
Definition sampleQuery : BoardQuery := mkBoardQuery "2026-03-02" ViewWeek None.

Definition sampleBoard (actor : SessionIdentity) (db : Db) : Result ScheduleBoard * World :=
  @get (calm 1772409600000) (actingAs actor) codeUnitOrder codeUnitCollation utcClock actor sampleQuery (mkWorld db 0).

(** The manager sees both shifts and Ana; Ana her own shift, once it is
    published. *)
Example sampleBoard_seen :
  let seen actor db := match (sampleBoard actor db).1 with
    | Ok b => Some (length (bd_shifts b), length (bd_schedules b), map bm_name (bd_staff b), bd_permissions b)
    | Throw _ => None end in
  seen boardManager (sampleScheduleDb DRAFT) = Some (2%nat, 1%nat, ["Ana"], ["locations:read"; "schedules:read"; "shifts:read"]) /\
  seen boardStaff (sampleScheduleDb DRAFT) = Some (0%nat, 0%nat, ["Ana"], ["locations:read"; "schedules:read"; "shifts:read"]) /\
  seen boardStaff (sampleScheduleDb PUBLISHED) = Some (1%nat, 1%nat, ["Ana"], ["locations:read"; "schedules:read"; "shifts:read"]).
Proof. vm_compute. repeat split. Qed.

Definition sampleLocation : Location := mkLocation "loc" "loc-public" "t1" None "Main" "UTC" None None None 0 0.

Lemma Selected_length {R} (P : R -> Prop) rows l n : Selected P rows l -> (length rows <= n)%nat -> (length l <= n)%nat.
Proof. intros (p & _ & ->) Hn. etrans; [apply List.filter_length_le|done]. Qed.

Lemma board_answers_witness :
  exists b, @Succeeds (sampleScheduleDb DRAFT) _ (@get (calm 1772409600000) (actingAs boardManager) codeUnitOrder codeUnitCollation
      utcClock boardManager sampleQuery) b /\
    @BoardContract codeUnitOrder boardManager sampleLocation 1772409600000 1773014400000 (sampleScheduleDb DRAFT) b.
Proof.
  apply (@board_answers (calm 1772409600000) (actingAs boardManager) codeUnitOrder codeUnitCollation utcClock
    (sampleScheduleDb DRAFT) boardManager 1772409600000 boardManager sampleQuery sampleLocation 1772409600000 1773014400000).
  - split; [intros n; reflexivity|intros n; reflexivity|intros n; reflexivity|vm_compute; reflexivity].
  - intros n. reflexivity.
  - reflexivity.
  - apply (bool_decide_unpack _). vm_compute. exact I.
  - split; [left|]. split; [split; reflexivity|]. right. split; [intros x _ _ (id & [=] & _)|].
    intros live (p & Hp & ->). change (db_locations (sampleScheduleDb DRAFT)) with [sampleLocation] in *. cbn [List.filter].
    rewrite (proj2 (Hp sampleLocation ltac:(left))) by (split; reflexivity). reflexivity.
  - vm_compute. reflexivity.
  - split; [intros l Hl; eapply Selected_length; [exact Hl|apply Nat.leb_le; vm_compute; reflexivity]..| |].
    + split_and!; apply NoDup_singleton.
    + repeat constructor; discriminate.
Defined.

Lemma staff_board_private_witness :
  let b := match (sampleBoard boardStaff (sampleScheduleDb PUBLISHED)).1 with Ok b => b | Throw _ => mkBoard [] [] false None [] [] [] "" "" "" end in
  length (bd_shifts b) = 1%nat /\
  Forall (fun m => exists u, u ∈ db_users (sampleScheduleDb PUBLISHED) /\ us_tenantId u = "t1" /\ us_id u = "u1" /\
    bm_id m = us_publicId u) (bd_staff b).
Proof.
  intros b. split; [vm_compute; reflexivity|].
  destruct (@staff_board_private (calm 1772409600000) (actingAs boardStaff) codeUnitOrder codeUnitCollation utcClock
    boardStaff sampleQuery _ (mkWorld (sampleScheduleDb PUBLISHED) 0) _ (surjective_pairing _)) as [_ Hb].
  destruct (Hb b) as (n & authority & Ha & Hown); [vm_compute; reflexivity|]. cbn in Ha. injection Ha as <-.
  destruct Hown as [Hown _]; [vm_compute; reflexivity|]. exact Hown.
Defined.
