(* ===== verification/Locations.v ===== *)
(** * Locations

    apps/api-v2/src/locations/locations.service.ts: the places of a tenant.  A
    location is created within the capacity of the tenant's plan, once per
    idempotency key; it is edited at the version the client saw; its time zone
    cannot change once a schedule was published there, and changing it makes the
    boards of its drafts stale. *)

From S2P Require Import Prelude JsStd JsCollections JsDate ContractHelpers TimeZone PayrollRecords.
From S2P Require Import Database FeatureEntitlement Authority ScheduleStore LunchBreakStore ScheduleChanges.

Definition MAX_LOCATION_NAME_LENGTH : Z := 200.
Definition MAX_LOCATION_ADDRESS_LENGTH : Z := 500.
Definition MAX_TIME_ZONE_LENGTH : Z := 100.
Definition MAX_TENANT_NAME_LENGTH : Z := 200.
Definition MAX_WORKSPACE_SLUG_LENGTH : Z := 128.
Definition MAX_IDEMPOTENCY_KEY_LENGTH : Z := 200.

Record LocationCreateRequest := mkLocationCreate {
  lq_name : string;
  lq_address : option string;
  lq_timezone : string;
  lq_tenantName : option string;
  lq_workspaceSlug : option string;
}.

(** An absent property, and for the address one that may be null. *)
Record LocationUpdateRequest := mkLocationUpdate {
  lu_expectedUpdatedAt : option string;
  lu_name : option string;
  lu_address : option (option string);
  lu_timezone : string;
}.

Record LocationRecord := mkLocationRecord {
  lr_id : string;
  lr_name : string;
  lr_address : option string;
  lr_timezone : string;
  lr_createdAt : string;
  lr_updatedAt : string;
}.

Record NormalizedCreate := mkNormalizedCreate {
  nc_name : string;
  nc_address : option string;
  nc_timezone : string;
  nc_tenantName : option string;
  nc_workspaceSlug : option string;
}.

Record NormalizedUpdate := mkNormalizedUpdate {
  nu_name : option string;
  nu_address : option (option string);
  nu_timezone : string;
}.

Record IdempotencyIdentity := mkIdempotency { ii_keyHash : string; ii_requestHash : string }.

Definition publicLocation (row : Location) : LocationRecord :=
  mkLocationRecord (lo_publicId row) (lo_name row) (lo_address row) (lo_timezone row)
    (toISOString (lo_createdAt row)) (toISOString (lo_updatedAt row)).

(** ** Reading requests *)

Definition invalidInput {A} (detail : string) : Result A :=
  throwProblem 422 "invalid_location_input" detail "Location validation failed".

(** The values are texts or missing; the branch for other types is the
    contract's. *)
Definition normalizeText (value : option string) (fieldName : string) (maximum : Z) (required : bool) : Result (option string) :=
  match value with
  | None => if required then invalidInput (fieldName +:+ " is required.") else Ok None
  | Some text =>
      let normalized := trim text in
      if required && isEmpty normalized then invalidInput (fieldName +:+ " is required.")
      else if maximum <? strLen normalized then
        invalidInput (fieldName +:+ " must be at most " +:+ showZ maximum +:+ " characters.")
      else Ok (truthy (Some normalized))
  end.

Definition normalizeTimeZone `{Intl} (value : string) : Result string :=
  timeZone ← normalizeText (Some value) "timezone" MAX_TIME_ZONE_LENGTH true;
  match timeZone with
  | None => invalidInput "timezone is required."
  | Some zone =>
      if intlTimeZone zone then Ok zone
      else throwProblem 422 "invalid_timezone" "Location timezone must be a valid IANA timezone." "Location validation failed"
  end.

(** [replace(/\s+/g, ' ')] *)
Fixpoint collapseWhite (l : list ascii) : list ascii :=
  match l with
  | [] => []
  | c :: rest =>
      if isWhite c then
        match rest with
        | d :: _ => if isWhite d then collapseWhite rest else " "%char :: collapseWhite rest
        | [] => [" "%char]
        end
      else c :: collapseWhite rest
  end.

Definition parseCreate `{Intl} (body : LocationCreateRequest) : Result NormalizedCreate :=
  name ← normalizeText (Some (lq_name body)) "name" MAX_LOCATION_NAME_LENGTH true;
  address ← normalizeText (lq_address body) "address" MAX_LOCATION_ADDRESS_LENGTH false;
  tenantName ← normalizeText (lq_tenantName body) "tenantName" MAX_TENANT_NAME_LENGTH false;
  slug ← normalizeText (lq_workspaceSlug body) "workspaceSlug" MAX_WORKSPACE_SLUG_LENGTH false;
  let workspaceSlug := toLowerCase <$> slug in
  if bool_decide (is_Some (truthy tenantName)) && negb (bool_decide (is_Some (truthy workspaceSlug))) then
    throwProblem 422 "workspace_slug_required" "workspaceSlug is required for first-location setup." "Location validation failed"
  else
    timezone ← normalizeTimeZone (lq_timezone body);
    Ok (mkNormalizedCreate (default "" name) address timezone
          ((fun text => ofChars (collapseWhite (chars text))) <$> tenantName) workspaceSlug).

Definition parseUpdate `{Intl} (body : LocationUpdateRequest) : Result NormalizedUpdate :=
  timezone ← normalizeTimeZone (lu_timezone body);
  name ← match lu_name body with
         | None => Ok None
         | Some name => (fun n => Some (default "" n)) <$> normalizeText (Some name) "name" MAX_LOCATION_NAME_LENGTH true
         end;
  address ← match lu_address body with
            | None => Ok None
            | Some address => Some <$> normalizeText address "address" MAX_LOCATION_ADDRESS_LENGTH false
            end;
  Ok (mkNormalizedUpdate name address timezone).

Definition idempotencyIdentity `{Sha256} (key : option string) (input : NormalizedCreate) : Result (option IdempotencyIdentity) :=
  match key with
  | None => Ok None
  | Some key =>
      let normalizedKey := trim key in
      if isEmpty normalizedKey || (MAX_IDEMPOTENCY_KEY_LENGTH <? strLen normalizedKey) then
        invalidInput ("Idempotency-Key must contain between 1 and " +:+ showZ MAX_IDEMPOTENCY_KEY_LENGTH +:+ " characters.")
      else
        let canonical := stringify (JObj [field "name" (JStr (nc_name input)); field "address" (orJNull (nc_address input));
                                          field "timezone" (JStr (nc_timezone input)); field "tenantName" (orJNull (nc_tenantName input));
                                          field "workspaceSlug" (orJNull (nc_workspaceSlug input))]) in
        Ok (Some (mkIdempotency (sha256 normalizedKey) (sha256 canonical)))
  end.

(** The plan in force. *)
Definition effectivePlanCode (tenant : Tenant) (nowMs : Z) : string :=
  let requested := toUpperCase (trim (tn_planTier tenant)) in
  let planCode := if bool_decide (requested ∈ ["FREE"; "STARTER"; "GROWTH"; "ENTERPRISE"]) then requested else "FREE" in
  if bool_decide (planCode = "FREE") then "FREE"
  else
    let paid := bool_decide (tn_status tenant = "ACTIVE")
      && match tn_stripeSubscriptionId tenant with Some s => negb (isEmpty (trim s)) | None => false end
      && match tn_stripeSubscriptionCurrentPeriodEnd tenant with Some e => nowMs <? e | None => false end in
    let trial := bool_decide (tn_status tenant = "TRIAL")
      && match tn_trialEndsAt tenant with Some e => nowMs <? e | None => false end in
    if paid || trial then planCode else "FREE".

(** The value a UUID parameter of a query has; the driver refuses a text that is
    none. *)
Class UuidText := {
  uuidValue : string -> option string;
  uuidValue_uuid s : isUuid s = true -> uuidValue s = Some (lowerText s);
}.

Definition uuidParameter `{UuidText} (text : string) : Result string :=
  match uuidValue text with Some value => Ok value | None => Throw (DriverError "P2023" None) end.

(** ** Rows *)

Definition activeLocation (tenantId : string) (l : Location) : bool :=
  bool_decide (lo_tenantId l = tenantId) && bool_decide (lo_deletedAt l = None).

Definition namedLocation (tenantId publicId : string) (l : Location) : bool :=
  activeLocation tenantId l && sameUuid (lo_publicId l) publicId.

Definition requestedBefore (tenantId keyHash : string) (l : Location) : bool :=
  bool_decide (lo_tenantId l = tenantId) && bool_decide (lo_creationRequestKeyHash l = Some keyHash).

Definition newLocation (id publicId tenantId : string) (input : NormalizedCreate) (request : option IdempotencyIdentity) (createdAt updatedAt : Z) : Location :=
  mkLocation id publicId tenantId None (nc_name input) (nc_timezone input) (nc_address input)
    (ii_keyHash <$> request) (ii_requestHash <$> request) createdAt updatedAt.

Definition editedLocation (input : NormalizedUpdate) (updatedAt : Z) (l : Location) : Location :=
  mkLocation (lo_id l) (lo_publicId l) (lo_tenantId l) (lo_deletedAt l) (default (lo_name l) (nu_name input)) (nu_timezone input)
    (default (lo_address l) (nu_address input)) (lo_creationRequestKeyHash l) (lo_creationRequestHash l) (lo_createdAt l) updatedAt.

Definition removedLocation (deletedAt updatedAt : Z) (l : Location) : Location :=
  mkLocation (lo_id l) (lo_publicId l) (lo_tenantId l) (Some deletedAt) (lo_name l) (lo_timezone l) (lo_address l)
    (lo_creationRequestKeyHash l) (lo_creationRequestHash l) (lo_createdAt l) updatedAt.

Definition renamedTenant (name : string) (t : Tenant) : Tenant :=
  mkTenant (tn_id t) (tn_planTier t) (tn_status t) (tn_stripeSubscriptionId t) (tn_stripeSubscriptionCurrentPeriodEnd t)
    (tn_trialEndsAt t) (tn_usageCredits t) (tn_creditDebt t) (tn_deletedAt t) name (tn_slug t).

(** A live schedule of the location. *)
Definition scheduleOf (tenantId locationId : string) (s : Schedule) : bool :=
  bool_decide (sc_tenantId s = tenantId) && bool_decide (sc_locationId s = locationId) && bool_decide (sc_deletedAt s = None).

Definition draftAt (tenantId locationId : string) (s : Schedule) : bool :=
  scheduleOf tenantId locationId s && bool_decide (sc_status s = DRAFT).

(** ** Handlers *)

Section Locations.
Context `{Env, Intl, Sha256}.

Definition locationMissing {A} : Tx A :=
  throwProblemTx 404 "location_not_found" "The selected location was not found." "Location not found".

Definition assertWorkspaceMatchesSession (tenantId workspaceSlug : string) : Tx unit :=
  tenant ← findFirst (fun t => bool_decide (tn_id t = tenantId));
  match tenant with
  | Some t => if bool_decide (tn_slug t = workspaceSlug) then mret tt
              else throwProblemTx 403 "workspace_session_mismatch" "First-location setup does not match the signed-in workspace." "Forbidden"
  | None => throwProblemTx 403 "workspace_session_mismatch" "First-location setup does not match the signed-in workspace." "Forbidden"
  end.

Definition assertLocationCapacity (tenantId : string) : Tx Z :=
  tenant ← findFirst (fun t => bool_decide (tn_id t = tenantId));
  match tenant with
  | None => throwProblemTx 404 "tenant_not_found" "The signed-in workspace was not found." "Not found"
  | Some tenant =>
      nowMs ← now;
      let planCode := effectivePlanCode tenant nowMs in
      plan ← findFirst (fun p => bool_decide (pd_code p = planCode));
      match plan with
      | None => throwProblemTx 503 "plan_configuration_unavailable" "Location capacity is temporarily unavailable." "Service unavailable"
      | Some plan =>
          activeCount ← countRows (activeLocation tenantId);
          match pd_locationLimit plan with
          | Some limit =>
              if limit <=? activeCount then
                throwProblemTx 403 "location_limit_reached" ("Location limit reached for " +:+ pd_name plan +:+ " plan.") "Forbidden"
              else mret activeCount
          | None => mret activeCount
          end
      end
  end.

(** The location an earlier request with the key created. *)
Definition findRequested (tenantId : string) (request : option IdempotencyIdentity) : Tx (option Location) :=
  match request with
  | None => mret None
  | Some request => findFirst (requestedBefore tenantId (ii_keyHash request))
  end.

Definition createWithin (tenantId : string) (input : NormalizedCreate) (request : option IdempotencyIdentity) : Tx LocationRecord :=
  activeCount ← assertLocationCapacity tenantId;
  _ ← (match truthy (nc_tenantName input) with
       | Some name =>
           if 0 <? activeCount then
             throwProblemTx 409 "first_location_only" "Organization name can only be set during first-location setup." "Request conflict"
           else _ ← updateRow (fun t => bool_decide (tn_id t = tenantId)) (renamedTenant name); mret tt
       | None => mret tt
       end);
  publicId ← randomUUID; id ← randomUUID; createdAt ← now; updatedAt ← now;
  let row := newLocation id publicId tenantId input request createdAt updatedAt in
  _ ← createRow row;
  mret (publicLocation row).

Definition create (identity : SessionIdentity) (body : LocationCreateRequest) (idempotencyKey : option string) : Tx LocationRecord :=
  input ← liftResult (parseCreate body);
  request ← liftResult (idempotencyIdentity idempotencyKey input);
  let tenantId := si_tenantId identity in
  withTenant tenantId (
    _ ← statement;
    _ ← (match truthy (nc_workspaceSlug input) with Some slug => assertWorkspaceMatchesSession tenantId slug | None => mret tt end);
    existing ← findRequested tenantId request;
    match existing with
    | Some existing =>
        if bool_decide (lo_creationRequestHash existing = ii_requestHash <$> request) then mret (publicLocation existing)
        else throwProblemTx 409 "idempotency_key_reused" "Idempotency-Key was already used for a different location request." "Request conflict"
    | None => createWithin tenantId input request
    end).

Definition lockActiveLocation (tenantId locationPublicId : string) : Tx (option Location) :=
  findFirst (namedLocation tenantId locationPublicId).

Definition assertTimezoneCanChange (tenantId locationId : string) : Tx unit :=
  schedules ← findMany (scheduleOf tenantId locationId);
  if existsb (fun s => bool_decide (sc_status s ∈ [PUBLISHED; ARCHIVED])) schedules then
    throwProblemTx 409 "location_timezone_locked"
      "Location timezone cannot change after a schedule has been published. Name and address can still be updated." "Request conflict"
  else mret tt.

Definition invalidateDraftSchedules (tenantId locationId : string) : Tx unit :=
  _ ← updateMany (draftAt tenantId locationId) bumpRevision; mret tt.

Definition VERSION_REQUIRED : string := "Cancel this edit and refresh Locations before trying again.".
Definition LOCATION_CHANGED : string :=
  "This location changed while you were editing. Your draft has not been saved. Cancel this edit and refresh Locations before trying again.".

Definition update (identity : SessionIdentity) (locationPublicId : string) (body : LocationUpdateRequest) : Tx LocationRecord :=
  input ← liftResult (parseUpdate body);
  match truthy (lu_expectedUpdatedAt body) with
  | None => throwProblemTx 428 "location_version_required" VERSION_REQUIRED "Location version required"
  | Some expectedUpdatedAt =>
      let tenantId := si_tenantId identity in
      withTenant tenantId (
        found ← lockActiveLocation tenantId locationPublicId;
        match found with
        | None => locationMissing
        | Some current =>
            if negb (bool_decide (expectedUpdatedAt = toISOString (lo_updatedAt current))) then
              throwProblemTx 409 "location_changed" LOCATION_CHANGED "Location changed"
            else
              let timezoneChanged := negb (bool_decide (nu_timezone input = lo_timezone current)) in
              _ ← (if timezoneChanged then assertTimezoneCanChange tenantId (lo_id current) else mret tt);
              updatedAt ← now;
              location ← updateRow (fun l => bool_decide (lo_id l = lo_id current)) (editedLocation input updatedAt);
              _ ← (if timezoneChanged then invalidateDraftSchedules tenantId (lo_id current) else mret tt);
              mret (publicLocation location)
        end)
  end.

Definition remove (identity : SessionIdentity) (locationPublicId : string) : Tx unit :=
  let tenantId := si_tenantId identity in
  withTenant tenantId (
    found ← lockActiveLocation tenantId locationPublicId;
    match found with
    | None => mret tt
    | Some current =>
        _ ← invalidateDraftSchedules tenantId (lo_id current);
        deletedAt ← now; updatedAt ← now;
        _ ← updateRow (fun l => bool_decide (lo_id l = lo_id current)) (removedLocation deletedAt updatedAt);
        mret tt
    end).

Definition summary (identity : SessionIdentity) : Tx Z :=
  withTenant (si_tenantId identity) (countRows (activeLocation (si_tenantId identity))).

Definition get (identity : SessionIdentity) (locationPublicId : string) : Tx LocationRecord :=
  withTenant (si_tenantId identity) (
    location ← findFirst (namedLocation (si_tenantId identity) locationPublicId);
    match location with Some l => mret (publicLocation l) | None => locationMissing end).

(** Active locations by public identifier. *)
Definition resolvePublicIds `{UuidText} (tenantId : string) (publicIds : list string) : Tx (JsMap string string) :=
  let ids := dedupe publicIds in
  if bool_decide (ids = []) then mret []
  else withTenant tenantId (
    values ← liftResult (mapM uuidParameter ids);
    rows ← findMany (fun l => activeLocation tenantId l && bool_decide (lo_publicId l ∈ values));
    mret (mapOf (map (fun row => (lo_publicId row, lo_id row)) rows))).

(** Locations by storage identifier, removed ones too. *)
Definition resolveInternalIds (tenantId : string) (internalIds : list string) : Tx (JsMap string string) :=
  let ids := dedupe internalIds in
  if bool_decide (ids = []) then mret []
  else withTenant tenantId (
    rows ← findMany (fun l => bool_decide (lo_tenantId l = tenantId) && bool_decide (lo_id l ∈ ids));
    mret (mapOf (map (fun row => (lo_id row, lo_publicId row)) rows))).
End Locations.

(** ** What the writes do *)

(** Locations are told apart by their identifiers. *)
Definition locationIdsUnique (l : list Location) : Prop := NoDup (map lo_id l).

Definition activeCount (tenantId : string) (db : Db) : nat := length (List.filter (activeLocation tenantId) (db_locations db)).

(** The capacity of a plan; a plan without a limit has room for all. *)
Definition withinPlan (limit : option Z) (count : nat) : Prop := match limit with Some l => Z.of_nat count <= l | None => True end.

Section Facts.
Context `{Env, Intl, Sha256}.

Lemma assertLocationCapacity_Ok tenantId n w w' :
  assertLocationCapacity tenantId w = (Ok n, w') ->
  w_db w' = w_db w /\ n = Z.of_nat (activeCount tenantId (w_db w)) /\
  exists tenant plan i, List.find (fun t => bool_decide (tn_id t = tenantId)) (db_tenants (w_db w)) = Some tenant /\
    List.find (fun p => bool_decide (pd_code p = effectivePlanCode tenant (nowAt i))) (db_plans (w_db w)) = Some plan /\
    withinPlan (pd_locationLimit plan) (S (activeCount tenantId (w_db w))).
Proof.
  unfold assertLocationCapacity, throwProblemTx. intros (o & w1 & [-> E1]%findFirst_Ok & Hr)%Tx_bind_Ok.
  cbn [rows Table_Tenant] in *. destruct (List.find _ (db_tenants _)) as [tenant|] eqn:Et; [|by apply throwTx_Ok in Hr].
  apply Tx_bind_Ok in Hr as (nowMs & w2 & [-> ->]%now_Ok & Hr).
  apply Tx_bind_Ok in Hr as (o & w3 & [-> E3]%findFirst_Ok & Hr). cbn [rows Table_Plan w_db tick] in *. rewrite E1 in *.
  destruct (List.find _ (db_plans _)) as [plan|] eqn:Ep; [|by apply throwTx_Ok in Hr].
  apply Tx_bind_Ok in Hr as (count & w4 & [-> E4]%countRows_Ok & Hr). cbn [rows Table_Location] in *. rewrite E3 in *.
  fold (activeCount tenantId (w_db w)) in *.
  assert (Hdone : n = Z.of_nat (activeCount tenantId (w_db w)) /\ w_db w' = w_db w /\ withinPlan (pd_locationLimit plan) (S (activeCount tenantId (w_db w)))).
  { unfold withinPlan. destruct (pd_locationLimit plan) as [limit|].
    - destruct (limit <=? _) eqn:El; [by apply throwTx_Ok in Hr|]. apply Tx_ret_Ok in Hr as [<- <-]. bools. split_and!; [done|congruence|lia].
    - apply Tx_ret_Ok in Hr as [<- <-]. split_and!; [done|congruence|done]. }
  destruct Hdone as (-> & Ew & Hp). split; [done|]. split; [done|]. by exists tenant, plan, (w_tick w1).
Qed.

(** What a request to create came to. *)
Inductive LocationCreated (tenantId : string) (input : NormalizedCreate) (request : option IdempotencyIdentity) (db : Db)
    : LocationRecord -> Db -> Prop :=
  | location_replayed existing keys :
      request = Some keys -> List.find (requestedBefore tenantId (ii_keyHash keys)) (db_locations db) = Some existing ->
      lo_creationRequestHash existing = Some (ii_requestHash keys) ->
      LocationCreated tenantId input request db (publicLocation existing) db
  | location_created row tenants tenant plan i :
      (forall keys, request = Some keys -> List.find (requestedBefore tenantId (ii_keyHash keys)) (db_locations db) = None) ->
      List.find (fun t => bool_decide (tn_id t = tenantId)) (db_tenants db) = Some tenant ->
      List.find (fun p => bool_decide (pd_code p = effectivePlanCode tenant (nowAt i))) (db_plans db) = Some plan ->
      withinPlan (pd_locationLimit plan) (S (activeCount tenantId db)) ->
      tenants = match truthy (nc_tenantName input) with
                | Some name => map (fun t => if bool_decide (tn_id t = tenantId) then renamedTenant name t else t) (db_tenants db)
                | None => db_tenants db
                end ->
      (is_Some (truthy (nc_tenantName input)) -> activeCount tenantId db = 0%nat) ->
      (exists id publicId createdAt updatedAt, row = newLocation id publicId tenantId input request createdAt updatedAt) ->
      existsb (conflicts row) (db_locations db) = false ->
      LocationCreated tenantId input request db (publicLocation row) (withRows (db_locations db ++ [row]) (withRows tenants db)).

Lemma createWithin_Ok tenantId input request r w w' :
  (forall keys, request = Some keys -> List.find (requestedBefore tenantId (ii_keyHash keys)) (db_locations (w_db w)) = None) ->
  createWithin tenantId input request w = (Ok r, w') -> LocationCreated tenantId input request (w_db w) r (w_db w').
Proof.
  intros Hnew. unfold createWithin, throwProblemTx.
  intros (n & w1 & (E1 & -> & tenant & plan & i & Ht & Hp & Hin)%assertLocationCapacity_Ok & Hr)%Tx_bind_Ok.
  apply Tx_bind_Ok in Hr as (u & w2 & Hname & Hr).
  set (tenants := match truthy (nc_tenantName input) with
                  | Some name => map (fun t => if bool_decide (tn_id t = tenantId) then renamedTenant name t else t) (db_tenants (w_db w))
                  | None => db_tenants (w_db w) end).
  assert (Hten : w_db w2 = withRows tenants (w_db w) /\ (is_Some (truthy (nc_tenantName input)) -> activeCount tenantId (w_db w) = 0%nat)).
  { unfold tenants. destruct (truthy (nc_tenantName input)) as [name|].
    - destruct (0 <? _) eqn:E0 in Hname; [by apply throwTx_Ok in Hname|]. bools.
      apply Tx_bind_Ok in Hname as (t & w3 & (row & _ & _ & E3)%updateRow_Ok & [_ <-]%Tx_ret_Ok). cbn [rows Table_Tenant] in E3.
      rewrite E3, E1. split; [done|lia].
    - apply Tx_ret_Ok in Hname as [_ <-]. rewrite E1. split; [by destruct (w_db w)|]. by intros [? [=]]. }
  destruct Hten as [E2 Hzero].
  apply Tx_bind_Ok in Hr as (publicId & w3 & [-> ->]%randomUUID_Ok & Hr). apply Tx_bind_Ok in Hr as (id & w4 & [-> ->]%randomUUID_Ok & Hr).
  apply Tx_bind_Ok in Hr as (t1 & w5 & [-> ->]%now_Ok & Hr). apply Tx_bind_Ok in Hr as (t2 & w6 & [-> ->]%now_Ok & Hr).
  apply Tx_bind_Ok in Hr as (v & w7 & [Hc E7]%createRow_Ok & [<- <-]%Tx_ret_Ok). cbn [rows Table_Location w_db tick] in *.
  rewrite E2 in *. replace (db_locations (withRows tenants (w_db w))) with (db_locations (w_db w)) in * by by destruct (w_db w).
  rewrite E7. by eapply (location_created _ _ _ _ _ tenants tenant plan i); try done; [do 4 eexists].
Qed.

Lemma createLocation_Ok identity body key r w w' :
  create identity body key w = (Ok r, w') ->
  exists input request, parseCreate body = Ok input /\ idempotencyIdentity key input = Ok request /\
    LocationCreated (si_tenantId identity) input request (w_db w) r (w_db w').
Proof.
  unfold create, throwProblemTx. intros (input & w1 & [Hi <-]%liftResult_Ok & Hr)%Tx_bind_Ok.
  apply Tx_bind_Ok in Hr as (request & w1 & [Hk <-]%liftResult_Ok & Hr). exists input, request. split; [done|]. split; [done|].
  apply withTenant_Ok in Hr as (wi & wo & Ei & Hr & Eo). rewrite <- Ei, Eo. clear Ei Eo.
  apply Tx_bind_Ok in Hr as (? & w2 & E2%(ReadOnly_Ok _ _ _ _ statement_ReadOnly) & Hr).
  apply Tx_bind_Ok in Hr as (? & w3 & Hslug & Hr).
  assert (E3 : w_db w3 = w_db w2).
  { destruct (truthy (nc_workspaceSlug input)) as [slug|]; [|by apply Tx_ret_Ok in Hslug as [_ <-]].
    unfold assertWorkspaceMatchesSession, throwProblemTx in Hslug. apply Tx_bind_Ok in Hslug as (o & w4 & [_ E4]%findFirst_Ok & Hs).
    destruct o as [t|]; [destruct (bool_decide _)|]; try (by apply throwTx_Ok in Hs). apply Tx_ret_Ok in Hs as [_ <-]. done. }
  apply Tx_bind_Ok in Hr as (existing & w4 & Hfound & Hr).
  assert (E4 : w_db w4 = w_db w3 /\ existing = match request with Some k => List.find (requestedBefore (si_tenantId identity) (ii_keyHash k)) (db_locations (w_db w3)) | None => None end).
  { unfold findRequested in Hfound. destruct request; [by apply findFirst_Ok in Hfound as [-> ->]|by apply Tx_ret_Ok in Hfound as [<- <-]]. }
  destruct E4 as [E4 ->]. assert (E : w_db w4 = w_db wi) by congruence. rewrite E3, E2 in Hr.
  destruct request as [keys|].
  - destruct (List.find _ _) as [existing|] eqn:Ef.
    + case_bool_decide as Hh; [|by apply throwTx_Ok in Hr]. apply Tx_ret_Ok in Hr as [<- <-]. rewrite E. by eapply location_replayed.
    + rewrite <- E in Ef |- *. apply createWithin_Ok; [by intros ? [= <-]|done].
  - rewrite <- E. by apply createWithin_Ok.
Qed.

(** An edit that was carried out, at the version the client saw. *)
Definition locationEdited (tenantId publicId : string) (input : NormalizedUpdate) (expectedUpdatedAt : string) (db : Db)
    (r : LocationRecord) (db' : Db) : Prop :=
  exists current updatedAt, current ∈ db_locations db /\ namedLocation tenantId publicId current = true /\
    expectedUpdatedAt = toISOString (lo_updatedAt current) /\ r = publicLocation (editedLocation input updatedAt current) /\
    (nu_timezone input <> lo_timezone current ->
       Forall (fun s => scheduleOf tenantId (lo_id current) s = true -> sc_status s = DRAFT) (db_schedules db)) /\
    let locations := map (fun l => if bool_decide (lo_id l = lo_id current) then editedLocation input updatedAt l else l) (db_locations db) in
    let schedules := if bool_decide (nu_timezone input = lo_timezone current) then db_schedules db
                     else map (fun s => if draftAt tenantId (lo_id current) s then bumpRevision s else s) (db_schedules db) in
    db' = withRows schedules (withRows locations db).

Lemma update_Ok identity publicId body r w w' :
  locationIdsUnique (db_locations (w_db w)) -> update identity publicId body w = (Ok r, w') ->
  exists input expectedUpdatedAt, parseUpdate body = Ok input /\ truthy (lu_expectedUpdatedAt body) = Some expectedUpdatedAt /\
    locationEdited (si_tenantId identity) publicId input expectedUpdatedAt (w_db w) r (w_db w').
Proof.
  intros Hu. unfold update, throwProblemTx, locationMissing. intros (input & w1 & [Hi <-]%liftResult_Ok & Hr)%Tx_bind_Ok.
  destruct (truthy _) as [expected|]; [|by apply throwTx_Ok in Hr]. exists input, expected. split; [done|]. split; [done|].
  apply withTenant_Ok in Hr as (wi & wo & Ei & Hr & Eo). rewrite <- Ei in *. rewrite Eo. clear Ei Eo.
  apply Tx_bind_Ok in Hr as (found & w2 & [-> E2]%findFirst_Ok & Hr). cbn [rows Table_Location] in *.
  destruct (List.find _ _) as [current|] eqn:Ef; [|by apply throwTx_Ok in Hr]. apply find_some in Ef as [Hin%list_elem_of_In Hn].
  case_bool_decide as Hv; [|by apply throwTx_Ok in Hr]. cbn [negb] in Hr.
  apply Tx_bind_Ok in Hr as (? & w3 & Htz & Hr). apply Tx_bind_Ok in Hr as (updatedAt & w4 & [-> ->]%now_Ok & Hr).
  apply Tx_bind_Ok in Hr as (location & w5 & (row & Hrow & -> & E5)%updateRow_Ok & Hr). cbn [rows Table_Location w_db tick] in *.
  apply Tx_bind_Ok in Hr as (? & w6 & Hdraft & [<- <-]%Tx_ret_Ok).
  assert (Htz2 : w_db w3 = w_db wi /\ (nu_timezone input <> lo_timezone current ->
       Forall (fun s => scheduleOf (si_tenantId identity) (lo_id current) s = true -> sc_status s = DRAFT) (db_schedules (w_db wi)))).
  { case_bool_decide as Ez; cbn [negb] in Htz; [by apply Tx_ret_Ok in Htz as [_ <-]|]. unfold assertTimezoneCanChange, throwProblemTx in Htz.
    apply Tx_bind_Ok in Htz as (schedules & w7 & [-> E7]%findMany_Ok & Hs). cbn [rows Table_Schedule] in *.
    destruct (existsb _ _) eqn:Ex; [by apply throwTx_Ok in Hs|]. apply Tx_ret_Ok in Hs as [_ <-]. split; [congruence|]. intros _.
    rewrite E2 in Ex. apply Forall_forall. intros s Hs Hsch. destruct (sc_status s) eqn:Est; [done|..]; exfalso; apply not_true_iff_false in Ex;
      apply Ex, existsb_exists; exists s; (split; [by apply filter_In; rewrite <- list_elem_of_In|]); rewrite Est; apply bool_decide_true; set_solver. }
  destruct Htz2 as [E3 Hlock]. rewrite E3 in *.
  assert (Er : row = current).
  { apply find_some in Hrow as [Hrow%list_elem_of_In Hid]. apply bool_decide_eq_true in Hid. by apply (NoDup_map_inj lo_id _ _ _ Hu). }
  exists current, (nowAt (w_tick w3)). subst row. split_and!; [done..|]. cbv zeta. case_bool_decide as Ez; cbn [negb] in Hdraft.
  - apply Tx_ret_Ok in Hdraft as [_ <-]. rewrite E5. by destruct (w_db wi).
  - unfold invalidateDraftSchedules in Hdraft. apply Tx_bind_Ok in Hdraft as (n & w8 & [_ E8]%updateMany_Ok & [_ <-]%Tx_ret_Ok).
    cbn [rows Table_Schedule] in *. rewrite E8, E5. by destruct (w_db wi).
Qed.

Lemma remove_Ok identity publicId u w w' :
  locationIdsUnique (db_locations (w_db w)) -> remove identity publicId w = (Ok u, w') ->
  w_db w' = w_db w /\ List.find (namedLocation (si_tenantId identity) publicId) (db_locations (w_db w)) = None \/
  exists current deletedAt updatedAt, current ∈ db_locations (w_db w) /\ namedLocation (si_tenantId identity) publicId current = true /\
    w_db w' = withRows (map (fun l => if bool_decide (lo_id l = lo_id current) then removedLocation deletedAt updatedAt l else l) (db_locations (w_db w)))
      (withRows (map (fun s => if draftAt (si_tenantId identity) (lo_id current) s then bumpRevision s else s) (db_schedules (w_db w))) (w_db w)).
Proof.
  intros Hu. unfold remove. intros (wi & wo & Ei & Hr & Eo)%withTenant_Ok. rewrite <- Ei in *. rewrite Eo. clear Ei Eo.
  apply Tx_bind_Ok in Hr as (found & w2 & [-> E2]%findFirst_Ok & Hr). cbn [rows Table_Location] in *.
  destruct (List.find _ _) as [current|] eqn:Ef; [|apply Tx_ret_Ok in Hr as [_ <-]; by left]. right.
  apply find_some in Ef as [Hin%list_elem_of_In Hn]. apply Tx_bind_Ok in Hr as (? & w3 & Hdraft & Hr).
  unfold invalidateDraftSchedules in Hdraft. apply Tx_bind_Ok in Hdraft as (n & w8 & [_ E8]%updateMany_Ok & [_ <-]%Tx_ret_Ok).
  apply Tx_bind_Ok in Hr as (t1 & w4 & [-> ->]%now_Ok & Hr). apply Tx_bind_Ok in Hr as (t2 & w5 & [-> ->]%now_Ok & Hr).
  apply Tx_bind_Ok in Hr as (l & w6 & (row & _ & _ & E6)%updateRow_Ok & [_ <-]%Tx_ret_Ok). cbn [rows Table_Location Table_Schedule w_db tick] in *.
  eexists current, _, _. split; [done|]. split; [done|]. rewrite E6, E8, E2. by destruct (w_db wi).
Qed.
End Facts.

Section Throws.
Context `{Env, Intl, Sha256}.

Lemma createLocation_Throw identity body key e w w' : create identity body key w = (Throw e, w') -> w_db w' = w_db w.
Proof.
  unfold create, mbind, Tx_bind, liftResult. destruct (parseCreate body); [|by intros [= _ <-]].
  destruct (idempotencyIdentity key _); [|by intros [= _ <-]]. apply withTenant_rollback.
Qed.

Lemma update_Throw identity publicId body e w w' : update identity publicId body w = (Throw e, w') -> w_db w' = w_db w.
Proof.
  unfold update, mbind, Tx_bind, liftResult. destruct (parseUpdate body); [|by intros [= _ <-]].
  destruct (truthy _); [apply withTenant_rollback|by intros [= _ <-]].
Qed.

Lemma remove_Throw identity publicId e w w' : remove identity publicId w = (Throw e, w') -> w_db w' = w_db w.
Proof. apply withTenant_rollback. Qed.
End Throws.

Lemma activeCount_map tenantId f l :
  (forall x, activeLocation tenantId (f x) = true -> activeLocation tenantId x = true) ->
  (length (List.filter (activeLocation tenantId) (map f l)) <= length (List.filter (activeLocation tenantId) l))%nat.
Proof.
  intros Hf. induction l as [|x l IH]; [done|]. cbn [map List.filter]. specialize (Hf x).
  destruct (activeLocation tenantId (f x)); [rewrite Hf by done; cbn; lia|]. destruct (activeLocation tenantId x); cbn; lia.
Qed.

(** ** Steps *)

(** A request about locations, in any environment, whatever it comes to. *)
Inductive locationStep `{Intl, Sha256} : Db -> Db -> Prop :=
  | location_create (env : Env) identity body key r w w' :
      create identity body key w = (r, w') -> locationStep (w_db w) (w_db w')
  | location_update (env : Env) identity publicId body r w w' :
      update identity publicId body w = (r, w') -> locationStep (w_db w) (w_db w')
  | location_remove (env : Env) identity publicId r w w' :
      remove identity publicId w = (r, w') -> locationStep (w_db w) (w_db w').

(** What a step does to the locations: one more, or the same ones edited, and
    to the schedules: nothing but the revisions of drafts. *)
Definition sameSchedule (s s' : Schedule) : Prop :=
  sc_id s' = sc_id s /\ sc_tenantId s' = sc_tenantId s /\ sc_locationId s' = sc_locationId s /\ sc_status s' = sc_status s /\
  sc_deletedAt s' = sc_deletedAt s.

Lemma bumped_same (p : Schedule -> bool) l : Forall2 sameSchedule l (map (fun s => if p s then bumpRevision s else s) l).
Proof. induction l as [|s l IH]; constructor; [|done]. destruct (p s); by repeat split. Qed.

Lemma same_refl l : Forall2 sameSchedule l l.
Proof. induction l; constructor; [by repeat split|done]. Qed.

(** The location [l] as it is after a step. *)
Definition keptLocation (db : Db) (l l' : Location) : Prop :=
  lo_id l' = lo_id l /\ lo_tenantId l' = lo_tenantId l /\
  (lo_timezone l' = lo_timezone l \/
   Forall (fun s => scheduleOf (lo_tenantId l) (lo_id l) s = true -> sc_status s = DRAFT) (db_schedules db)).

Lemma keptLocation_refl db l : keptLocation db l l.
Proof. split; [done|]. split; [done|]. by left. Qed.

Lemma keptLocation_all db l : Forall2 (keptLocation db) l l.
Proof. induction l; constructor; [apply keptLocation_refl|done]. Qed.

Lemma named_active tenantId publicId l : namedLocation tenantId publicId l = true ->
  lo_tenantId l = tenantId /\ lo_deletedAt l = None /\ lo_publicId l = lowerText publicId.
Proof. unfold namedLocation, activeLocation, sameUuid. rewrite !andb_true_iff, !bool_decide_eq_true. tauto. Qed.

Lemma edited_kept db tenantId publicId input expected r db' :
  locationIdsUnique (db_locations db) -> locationEdited tenantId publicId input expected db r db' ->
  Forall2 (keptLocation db) (db_locations db) (db_locations db') /\ Forall2 sameSchedule (db_schedules db) (db_schedules db').
Proof.
  intros Hu (current & t & Hin & (Hten & _ & _)%named_active & _ & _ & Htz & ->). cbv zeta. split.
  - replace (db_locations (withRows _ (withRows _ db))) with (map (fun l => if bool_decide (lo_id l = lo_id current) then editedLocation input t l else l) (db_locations db)) by by destruct db.
    rewrite Forall2_fmap_r. apply Forall_Forall2_diag, Forall_forall. intros x Hx. unfold compose.
    case_bool_decide as Hid; [|apply keptLocation_refl].
    assert (x = current) as -> by by apply (NoDup_map_inj lo_id _ _ _ Hu).
    split; [done|]. split; [done|]. cbn. destruct (decide (nu_timezone input = lo_timezone current)) as [E|Hne]; [by left|right].
    rewrite Hten. by apply Htz.
  - case_bool_decide; [replace (db_schedules (withRows _ _)) with (db_schedules db) by (by destruct db); apply same_refl|].
    replace (db_schedules (withRows _ _)) with (map (fun s => if draftAt tenantId (lo_id current) s then bumpRevision s else s) (db_schedules db))
      by by destruct db. apply bumped_same.
Qed.

Lemma created_locations `{Env} tenantId input request db r db' :
  LocationCreated tenantId input request db r db' ->
  db_schedules db' = db_schedules db /\
  (db_locations db' = db_locations db \/
   exists row, db_locations db' = db_locations db ++ [row] /\ existsb (conflicts row) (db_locations db) = false).
Proof. intros [|row]; [by split; [|left]|]. split; [by destruct db|]. right. exists row. split; [by destruct db|done]. Qed.

Lemma unconflicted_unique row l : locationIdsUnique l -> existsb (conflicts row) l = false -> locationIdsUnique (l ++ [row]).
Proof.
  intros Hu Hc. unfold locationIdsUnique. rewrite map_app. apply NoDup_app. split; [done|]. split; [|apply NoDup_singleton].
  intros i (x & -> & Hx)%list_elem_of_fmap Hi. apply list_elem_of_singleton in Hi. apply not_true_iff_false in Hc. apply Hc, existsb_exists.
  exists x. split; [by apply list_elem_of_In|]. cbn. by rewrite bool_decide_true.
Qed.

Lemma removed_kept db tenantId current t1 t2 :
  let db' := withRows (map (fun l => if bool_decide (lo_id l = lo_id current) then removedLocation t1 t2 l else l) (db_locations db))
      (withRows (map (fun s => if draftAt tenantId (lo_id current) s then bumpRevision s else s) (db_schedules db)) db) in
  Forall2 (keptLocation db) (db_locations db) (db_locations db') /\ Forall2 sameSchedule (db_schedules db) (db_schedules db').
Proof.
  intros db'. split.
  - replace (db_locations db') with (map (fun l => if bool_decide (lo_id l = lo_id current) then removedLocation t1 t2 l else l) (db_locations db)) by by destruct db.
    rewrite Forall2_fmap_r. apply Forall_Forall2_diag, Forall_forall. intros x _. unfold compose. case_bool_decide; [|apply keptLocation_refl].
    split; [done|]. split; [done|]. by left.
  - replace (db_schedules db') with (map (fun s => if draftAt tenantId (lo_id current) s then bumpRevision s else s) (db_schedules db)) by by destruct db.
    apply bumped_same.
Qed.

(** One step, seen from the locations that were there. *)
Lemma locationStep_keeps `{Intl, Sha256} db db' :
  locationIdsUnique (db_locations db) -> locationStep db db' ->
  locationIdsUnique (db_locations db') /\ Forall2 sameSchedule (db_schedules db) (db_schedules db') /\
  exists kept more, db_locations db' = kept ++ more /\ Forall2 (keptLocation db) (db_locations db) kept.
Proof.
  intros Hu Hstep.
  assert (Hsame : forall d, d = db -> locationIdsUnique (db_locations d) /\ Forall2 sameSchedule (db_schedules db) (db_schedules d) /\
    exists kept more, db_locations d = kept ++ more /\ Forall2 (keptLocation db) (db_locations db) kept).
  { intros ? ->. split; [done|]. split; [apply same_refl|]. exists (db_locations db), []. rewrite app_nil_r. split; [done|apply keptLocation_all]. }
  assert (Hkept : forall d, Forall2 (keptLocation db) (db_locations db) (db_locations d) -> Forall2 sameSchedule (db_schedules db) (db_schedules d) ->
    locationIdsUnique (db_locations d) /\ Forall2 sameSchedule (db_schedules db) (db_schedules d) /\
    exists kept more, db_locations d = kept ++ more /\ Forall2 (keptLocation db) (db_locations db) kept).
  { intros d Hl Hs. split; [|split; [done|exists (db_locations d), []; rewrite app_nil_r; by split]].
    unfold locationIdsUnique in *. replace (map lo_id (db_locations d)) with (map lo_id (db_locations db)); [done|].
    clear -Hl. induction Hl as [|x y l k [E _] _ IH]; [done|]. cbn. by rewrite E, IH. }
  destruct Hstep as [env identity body key [r|err] w w' Hr|env identity publicId body [r|err] w w' Hr|env identity publicId [r|err] w w' Hr];
    try (by apply createLocation_Throw in Hr; apply Hsame); try (by apply update_Throw in Hr; apply Hsame); try (by apply remove_Throw in Hr; apply Hsame).
  - apply createLocation_Ok in Hr as (input & request & _ & _ & [Es Hl]%created_locations). rewrite Es.
    destruct Hl as [El|(row & El & Hc)]; rewrite El; (split; [|split; [apply same_refl|]]); [done| |by apply unconflicted_unique|].
    + exists (db_locations (w_db w)), []. rewrite app_nil_r. split; [done|apply keptLocation_all].
    + exists (db_locations (w_db w)), [row]. split; [done|apply keptLocation_all].
  - apply update_Ok in Hr as (input & expected & _ & _ & He); [|done]. destruct (edited_kept _ _ _ _ _ _ _ Hu He). by apply Hkept.
  - apply remove_Ok in Hr as [[E _]|(current & t1 & t2 & _ & _ & E)]; [by apply Hsame| |done].
    rewrite E. destruct (removed_kept (w_db w) (si_tenantId identity) current t1 t2). by apply Hkept.
Qed.

Lemma newLocation_active id publicId tenantId input request t1 t2 tenantId2 :
  activeLocation tenantId2 (newLocation id publicId tenantId input request t1 t2) = bool_decide (tenantId = tenantId2).
Proof. unfold activeLocation, newLocation. cbn [lo_tenantId lo_deletedAt]. by rewrite (bool_decide_true (@None Z = None)), andb_true_r. Qed.

Lemma created_rows l ts db : db_locations (withRows (R := Location) l (withRows (R := Tenant) ts db)) = l.
Proof. by destruct db. Qed.

(** ** The contract of locations *)

(** A tenant never has more locations than its plan allows.  After any
    request about locations, whatever it comes to, every tenant has at most as
    many active locations as before, or at most as many as the plan in force -
    at an instant of the request - has room for, a paid plan counting only while
    its subscription or trial runs. *)
Theorem locations_within_plan `{Intl, Sha256} db db' tenantId :
  locationIdsUnique (db_locations db) -> locationStep db db' ->
  (activeCount tenantId db' <= activeCount tenantId db)%nat \/
  exists tenant plan nowMs, List.find (fun t => bool_decide (tn_id t = tenantId)) (db_tenants db) = Some tenant /\
    List.find (fun p => bool_decide (pd_code p = effectivePlanCode tenant nowMs)) (db_plans db) = Some plan /\
    withinPlan (pd_locationLimit plan) (activeCount tenantId db').
Proof.
  intros Hu Hstep. destruct Hstep as [env identity body key [r|e] w w' Hr|env identity publicId body [r|e] w w' Hr|env identity publicId [r|e] w w' Hr];
    try (by apply createLocation_Throw in Hr; rewrite Hr; left); try (by apply update_Throw in Hr; rewrite Hr; left);
    try (by apply remove_Throw in Hr; rewrite Hr; left).
  - apply createLocation_Ok in Hr as (input & request & _ & _ & [existing keys _ _ _|row tenants tenant plan i _ Ht Hp Hin _ _ (id & publicId & t1 & t2 & ->) _]); [by left|].
    unfold activeCount in *. replace (db_locations (withRows _ (withRows _ _))) with
      (db_locations (w_db w) ++ [newLocation id publicId (si_tenantId identity) input request t1 t2]) by by destruct (w_db w).
    rewrite List.filter_app, length_app. cbn [List.filter]. rewrite newLocation_active. case_bool_decide as E; cbn [length].
    + right. rewrite <- E. exists tenant, plan, (nowAt i). by rewrite Nat.add_1_r.
    + left. lia.
  - apply update_Ok in Hr as (input & expected & _ & _ & current & t & _ & _ & _ & _ & _ & E); [|done]. left. rewrite E. cbv zeta. unfold activeCount.
    replace (db_locations (withRows _ (withRows _ _))) with
      (map (fun l => if bool_decide (lo_id l = lo_id current) then editedLocation input t l else l) (db_locations (w_db w))) by by destruct (w_db w).
    apply activeCount_map. intros x. destruct (bool_decide (lo_id x = lo_id current)); exact (fun Hx => Hx).
  - apply remove_Ok in Hr as [[E _]|(current & t1 & t2 & _ & _ & E)]; [by rewrite E; left| |done]. left. rewrite E. unfold activeCount.
    replace (db_locations (withRows _ (withRows _ _))) with
      (map (fun l => if bool_decide (lo_id l = lo_id current) then removedLocation t1 t2 l else l) (db_locations (w_db w))) by by destruct (w_db w).
    apply activeCount_map. intros x. destruct (bool_decide (lo_id x = lo_id current)); [|done]. unfold activeLocation, removedLocation. cbn [lo_tenantId lo_deletedAt]. rewrite (bool_decide_false (Some _ = None)) by done.
    by rewrite andb_false_r.
Qed.

(** A schedule of the location was published. *)
Definition publishedAt (db : Db) (l : Location) : Prop :=
  exists s, s ∈ db_schedules db /\ scheduleOf (lo_tenantId l) (lo_id l) s = true /\ sc_status s <> DRAFT.

Lemma published_same db db' l l' :
  Forall2 sameSchedule (db_schedules db) (db_schedules db') -> lo_id l' = lo_id l -> lo_tenantId l' = lo_tenantId l ->
  publishedAt db l -> publishedAt db' l'.
Proof.
  intros Hs E1 E2 (s & Hin & Hof & Hst). destruct (Forall2_elem_l _ _ _ _ Hs Hin) as (s' & Hin' & _ & Ht & Hl & Est & Hd).
  exists s'. split; [done|]. unfold scheduleOf in *. by rewrite E1, E2, Ht, Hl, Hd, Est.
Qed.

(** The time zone of a location is settled once a schedule was published
    there.  Along any sequence of requests about locations - creations, edits
    and removals by any callers, that return or fail - a location that has a
    published or archived live schedule stays, in its tenant, and keeps its time
    zone; only its name, its address and whether it is removed may change. *)
Theorem published_timezone_kept `{Intl, Sha256} db db' l :
  locationIdsUnique (db_locations db) -> l ∈ db_locations db -> publishedAt db l -> rtc locationStep db db' ->
  exists l', l' ∈ db_locations db' /\ lo_id l' = lo_id l /\ lo_tenantId l' = lo_tenantId l /\ lo_timezone l' = lo_timezone l.
Proof.
  intros Hu Hin Hp Hrun. revert l Hu Hin Hp. induction Hrun as [db|db mid db' Hstep _ IH]; intros l Hu Hin Hp; [by exists l|].
  destruct (locationStep_keeps _ _ Hu Hstep) as (Hu' & Hs & kept & more & El & Hkept).
  destruct (Forall2_elem_l _ _ _ _ Hkept Hin) as (l1 & Hin1 & Eid & Eten & Etz).
  assert (Ez : lo_timezone l1 = lo_timezone l).
  { destruct Etz as [|Hdraft]; [done|]. destruct Hp as (s & Hs1 & Hof & Hst). rewrite Forall_forall in Hdraft. exfalso. by apply Hst, Hdraft. }
  destruct (IH l1) as (l2 & ? & ? & ? & ?); [done|rewrite El; apply elem_of_app; by left|by eapply published_same|].
  exists l2. split_and!; congruence.
Qed.

Lemma created_found `{Env} tenantId input keys db r db' :
  LocationCreated tenantId input (Some keys) db r db' ->
  exists stored, List.find (requestedBefore tenantId (ii_keyHash keys)) (db_locations db') = Some stored /\
    lo_creationRequestHash stored = Some (ii_requestHash keys) /\ r = publicLocation stored.
Proof.
  intros [existing keys' E Hf Hh|row tenants tenant plan i Hn _ _ _ _ _ (id & publicId & t1 & t2 & Erow) _].
  - injection E as <-. by exists existing.
  - exists row. split; [|by subst row]. rewrite created_rows. apply find_app_hit; [by apply Hn|].
    subst row. unfold requestedBefore. cbn. by rewrite !bool_decide_true.
Qed.

(** A location is created once per idempotency key.  After a create with a
    key that returned, the tenant's creates with that key - in any environment,
    whatever locations were added since - change nothing; one that returns was
    for the same normalised request, by its hash, and returns the same record. *)
Theorem location_created_once `{Intl, Sha256} (env1 env2 : Env) identity identity2 body body2 key key2 later r r2 w w' w2 w3 :
  create (H := env1) identity body (Some key) w = (Ok r, w') ->
  si_tenantId identity2 = si_tenantId identity -> trim key2 = trim key ->
  db_locations (w_db w2) = db_locations (w_db w') ++ later ->
  create (H := env2) identity2 body2 (Some key2) w2 = (r2, w3) ->
  w_db w3 = w_db w2 /\
  forall record, r2 = Ok record -> record = r /\
    exists input input2 keys, parseCreate body = Ok input /\ parseCreate body2 = Ok input2 /\
      idempotencyIdentity (Some key) input = Ok (Some keys) /\ idempotencyIdentity (Some key2) input2 = Ok (Some keys).
Proof.
  intros Hc Et Ek El Hc2. destruct r2 as [record|e]; [|apply createLocation_Throw in Hc2; by split].
  apply createLocation_Ok in Hc as (input & request & Hi & Hk & Hcreated). apply createLocation_Ok in Hc2 as (input2 & request2 & Hi2 & Hk2 & Hcreated2).
  destruct request as [keys|]; [|unfold idempotencyIdentity in Hk; by destruct (_ || _)].
  destruct request2 as [keys2|]; [|unfold idempotencyIdentity in Hk2; by destruct (_ || _)].
  assert (Ekey : ii_keyHash keys2 = ii_keyHash keys).
  { unfold idempotencyIdentity in Hk, Hk2. rewrite Ek in Hk2. destruct (_ || _); [done|]. injection Hk as <-. by injection Hk2 as <-. }
  pose proof (created_found _ _ _ _ _ _ Hcreated) as Hfound.
  destruct Hfound as (stored & Hf & Hh & ->). rewrite Et in Hcreated2.
  assert (Hf2 : List.find (requestedBefore (si_tenantId identity) (ii_keyHash keys)) (db_locations (w_db w2)) = Some stored).
  { rewrite El. clear -Hf. revert Hf. induction (db_locations (w_db w')) as [|x l IH]; cbn; [done|]. by destruct (requestedBefore _ _ x). }
  destruct Hcreated2 as [existing keys' E Hf' Hh'|row tenants tenant plan i Hn].
  - injection E as <-. rewrite Ekey, Hf2 in Hf'. injection Hf' as <-. split; [done|]. intros ? [= <-]. split; [done|].
    exists input, input2, keys. split_and!; try done. rewrite Hk2. do 2 f_equal. destruct keys, keys2. cbn in *. congruence.
  - specialize (Hn keys2 eq_refl). rewrite Ekey, Hf2 in Hn. done.
Qed.

(** ** Boards of a location that changed *)

(** Drafts that advanced cannot be written at the revision they had. *)
Lemma staled_unwritten `{Env, Process, AuthorityEnv, Contracts, Collation, LocaleCompare, Sha256} tenantId locationId db s publicId identity
    operations headers metadata r w2 w3 :
  publicIdsUnique (db_schedules db) -> s ∈ db_schedules db -> draftAt tenantId locationId s = true -> sc_publicId s = lowerText publicId ->
  db_schedules (w_db w2) = map (fun s => if draftAt tenantId locationId s then bumpRevision s else s) (db_schedules db) ->
  requireScheduleRevision (hd_ifMatch headers) publicId = Ok (sc_revision s) ->
  apply identity publicId operations headers metadata w2 = (r, w3) -> w_db w3 = w_db w2.
Proof.
  intros Hu Hin Hd Hid Es Hrev Ha. destruct r as [response|e]; [|by apply apply_Throw in Ha].
  apply apply_outcome_spec in Ha as (base & key & Hb & _ & [[E _]|Hwr]); [done|]. rewrite Hrev in Hb. injection Hb as <-.
  destruct Hwr as (_ & row & mid & schedules & c & audit & _ & _ & _ & _ & _ & (row2 & Hrow2 & Hw2 & _ & Hr & _) & _).
  exfalso. rewrite Es in Hrow2. apply list_elem_of_fmap in Hrow2 as (s0 & -> & Hs0).
  apply wantedSchedule_true in Hw2 as (_ & Hp & _).
  assert (s0 = s) as ->.
  { apply (NoDup_map_inj sc_publicId _ _ _ Hu); [done|done|]. rewrite Hid, <- Hp. by destruct (draftAt _ _ s0). }
  rewrite Hd in Hr. cbn [bumpRevision sc_revision] in Hr. lia.
Qed.

(** A location found under its public identifier. *)
Lemma named_same tenantId publicId (locations : list Location) l l' :
  NoDup (map lo_publicId locations) -> l ∈ locations -> l' ∈ locations ->
  namedLocation tenantId publicId l = true -> namedLocation tenantId publicId l' = true -> l' = l.
Proof. intros Hu Hl Hl' (_ & _ & E)%named_active (_ & _ & E')%named_active. apply (NoDup_map_inj lo_publicId _ _ _ Hu); congruence. Qed.

(** The requests that move what a board of the location shows: its removal, or an
    edit with another time zone. *)
Inductive relocated `{Intl} (l : Location) : Db -> Db -> Prop :=
  | zone_changed (env : Env) identity publicId body input r w w' :
      update identity publicId body w = (Ok r, w') -> l ∈ db_locations (w_db w) ->
      namedLocation (si_tenantId identity) publicId l = true ->
      parseUpdate body = Ok input -> nu_timezone input <> lo_timezone l -> relocated l (w_db w) (w_db w')
  | place_removed (env : Env) identity publicId u w w' :
      remove identity publicId w = (Ok u, w') -> l ∈ db_locations (w_db w) ->
      namedLocation (si_tenantId identity) publicId l = true -> relocated l (w_db w) (w_db w').

Lemma relocated_stales `{Intl} l db db' :
  locationIdsUnique (db_locations db) -> NoDup (map lo_publicId (db_locations db)) -> relocated l db db' ->
  db_schedules db' = map (fun s => if draftAt (lo_tenantId l) (lo_id l) s then bumpRevision s else s) (db_schedules db).
Proof.
  intros Hu Hp Hrel. destruct Hrel as [env identity publicId body input r w w' Hr Hl Hn Hi Hz|env identity publicId u w w' Hr Hl Hn];
    pose proof Hn as (-> & _ & _)%named_active.
  - apply update_Ok in Hr as (input2 & expected & Hi2 & _ & current & t & Hc & Hcn & _ & _ & _ & ->); [|done].
    rewrite Hi in Hi2. injection Hi2 as <-. rewrite (named_same _ _ _ _ _ Hp Hl Hc Hn Hcn). rewrite (bool_decide_false (_ = lo_timezone _)) by done. by destruct (w_db w).
  - apply remove_Ok in Hr as [[_ Hnone]|(current & t1 & t2 & Hc & Hcn & ->)]; [| |done].
    + pose proof (find_none _ _ Hnone l (proj1 (list_elem_of_In _ _) Hl)). congruence.
    + rewrite (named_same _ _ _ _ _ Hp Hl Hc Hn Hcn). by destruct (w_db w).
Qed.

(** Boards of a location that changed are stale.  After the time zone of a
    location was changed, or the location was removed, a change set made from a
    revision a draft of that location had before - by anyone, in any
    environment - changes nothing: it is refused, or answered with what was
    stored for its idempotency key. *)
Theorem relocated_boards_stale `{Env, Process, AuthorityEnv, Contracts, Collation, LocaleCompare, Intl, Sha256} l db s publicId identity
    operations headers metadata r w2 w3 :
  locationIdsUnique (db_locations db) -> NoDup (map lo_publicId (db_locations db)) -> publicIdsUnique (db_schedules db) ->
  relocated l db (w_db w2) -> s ∈ db_schedules db -> draftAt (lo_tenantId l) (lo_id l) s = true ->
  sc_publicId s = lowerText publicId -> requireScheduleRevision (hd_ifMatch headers) publicId = Ok (sc_revision s) ->
  apply identity publicId operations headers metadata w2 = (r, w3) -> w_db w3 = w_db w2.
Proof.
  intros Hl Hp Hs Hrel Hin Hd Hid Hrev. by apply (staled_unwritten (lo_tenantId l) (lo_id l) db s); [..|apply relocated_stales|].
Qed.

(** ** Concrete instances *)

Definition twoZones : Intl := {| intlZonedParts t tz := shownAt t; intlTimeZone tz := bool_decide (tz ∈ ["UTC"; "Asia/Tokyo"]) |}.

(** A workspace on the growth plan, which has room for two locations, with one. *)
Definition growthDb (status : ScheduleStatus) : Db :=
  withRows [mkPlanDefinition "GROWTH" (JObj []) "Growth" (Some 2)] (sampleScheduleDb status).
Definition secondPlace : LocationCreateRequest := mkLocationCreate " Annex  B " None "Asia/Tokyo" None None.
Definition mainPlace : Location := mkLocation "loc" "loc-public" "t1" None "Main" "UTC" None None None 0 0.

Definition placed : Result LocationRecord * World :=
  @create (calm 1000) twoZones plainDigest sampleManager secondPlace (Some " key-1 ") (mkWorld (growthDb DRAFT) 0).
Definition placeMade : LocationRecord :=
  Eval vm_compute in match placed.1 with Ok r => r | Throw _ => mkLocationRecord "" "" None "" "" "" end.
Definition tokyoEdit : LocationUpdateRequest := mkLocationUpdate (Some "1970-01-01T00:00:00.000Z") None None "Asia/Tokyo".
Definition moved (status : ScheduleStatus) : Result LocationRecord * World :=
  @update (calm 2000) twoZones sampleManager "loc-public" tokyoEdit (mkWorld (growthDb status) 0).

(** A third location is refused, and so is another zone once a schedule is out. *)
Example locations_decided :
  lr_name placeMade = "Annex  B" /\ map lo_timezone (db_locations (w_db placed.2)) = ["UTC"; "Asia/Tokyo"] /\
  (@create (calm 1000) twoZones plainDigest sampleManager secondPlace None placed.2).1 =
    throwProblem 403 "location_limit_reached" "Location limit reached for Growth plan." "Forbidden" /\
  map sc_revision (db_schedules (w_db (moved DRAFT).2)) = [4] /\
  (moved PUBLISHED).1 = throwProblem 409 "location_timezone_locked"
    "Location timezone cannot change after a schedule has been published. Name and address can still be updated." "Request conflict".
Proof. vm_compute. repeat split. Qed.

Lemma growth_unique status : locationIdsUnique (db_locations (growthDb status)) /\ NoDup (map lo_publicId (db_locations (growthDb status))).
Proof. split; apply NoDup_singleton. Qed.

Lemma locations_within_plan_witness :
  (activeCount "t1" (w_db placed.2) <= activeCount "t1" (growthDb DRAFT))%nat \/
  exists tenant plan nowMs, List.find (fun t => bool_decide (tn_id t = "t1")) (db_tenants (growthDb DRAFT)) = Some tenant /\
    List.find (fun p => bool_decide (pd_code p = effectivePlanCode tenant nowMs)) (db_plans (growthDb DRAFT)) = Some plan /\
    withinPlan (pd_locationLimit plan) (activeCount "t1" (w_db placed.2)).
Proof.
  apply (@locations_within_plan twoZones plainDigest (growthDb DRAFT) (w_db placed.2) "t1"); [apply growth_unique|].
  exact (@location_create twoZones plainDigest (calm 1000) sampleManager secondPlace (Some " key-1 ") placed.1 (mkWorld (growthDb DRAFT) 0) placed.2
    (surjective_pairing placed)).
Defined.

Lemma published_timezone_kept_witness :
  exists l', l' ∈ db_locations (w_db (moved PUBLISHED).2) /\ lo_id l' = "loc" /\ lo_tenantId l' = "t1" /\ lo_timezone l' = "UTC".
Proof.
  apply (@published_timezone_kept twoZones plainDigest (growthDb PUBLISHED) (w_db (moved PUBLISHED).2) mainPlace);
    [apply growth_unique|left| |].
  - exists (sampleScheduleRow PUBLISHED). split; [left|]. split; [vm_compute; reflexivity|discriminate].
  - eapply rtc_once, (@location_update twoZones plainDigest (calm 2000) sampleManager "loc-public" _ _ (mkWorld (growthDb PUBLISHED) 0)).
    apply surjective_pairing.
Defined.

Lemma location_created_once_witness :
  let again := @create (calm 5000) twoZones plainDigest sampleManager secondPlace (Some "key-1") placed.2 in
  w_db again.2 = w_db placed.2 /\ forall record, again.1 = Ok record -> record = placeMade /\
    exists input input2 keys, @parseCreate twoZones secondPlace = Ok input /\ @parseCreate twoZones secondPlace = Ok input2 /\
      @idempotencyIdentity plainDigest (Some " key-1 ") input = Ok (Some keys) /\ @idempotencyIdentity plainDigest (Some "key-1") input2 = Ok (Some keys).
Proof.
  intros again. apply (@location_created_once twoZones plainDigest (calm 1000) (calm 5000) sampleManager sampleManager secondPlace secondPlace
    " key-1 " "key-1" [] placeMade again.1 (mkWorld (growthDb DRAFT) 0) placed.2 placed.2 again.2);
    [vm_compute; reflexivity|reflexivity|vm_compute; reflexivity|by rewrite app_nil_r|apply surjective_pairing].
Defined.

Definition movedPlace : LocationRecord :=
  Eval vm_compute in match (moved DRAFT).1 with Ok r => r | Throw _ => mkLocationRecord "" "" None "" "" "" end.

Lemma moved_relocated : @relocated twoZones mainPlace (growthDb DRAFT) (w_db (moved DRAFT).2).
Proof.
  refine (@zone_changed twoZones mainPlace (calm 2000) sampleManager "loc-public" tokyoEdit (mkNormalizedUpdate None None "Asia/Tokyo") movedPlace
    (mkWorld (growthDb DRAFT) 0) (moved DRAFT).2 _ _ _ _ _); [vm_compute; reflexivity|left|vm_compute; reflexivity..|discriminate].
Qed.

Lemma relocated_boards_stale_witness :
  w_db (sampleApply "key-00001" (moved DRAFT).2).2 = w_db (moved DRAFT).2.
Proof.
  apply (@relocated_boards_stale (calm 1772409600000) noBeta (actingAs sampleManager) allContracts codeUnitOrder codeUnitCollation twoZones
    plainDigest mainPlace (growthDb DRAFT) (sampleScheduleRow DRAFT) sampleScheduleId sampleManager sampleOperations (sampleHeaders "key-00001")
    (mkMetadata None None) (sampleApply "key-00001" (moved DRAFT).2).1 (moved DRAFT).2).
  - apply growth_unique.
  - apply growth_unique.
  - apply NoDup_singleton.
  - exact moved_relocated.
  - left.
  - vm_compute. reflexivity.
  - vm_compute. reflexivity.
  - vm_compute. reflexivity.
  - apply surjective_pairing.
Defined.
