(* ===== verification/ListContracts.v ===== *)
(** * The lists keep to their contract

    The response schemas of packages/api-contract/src/operations.ts as
    predicates; what [listShifts] returns keeps its contract whatever the rows
    hold, and all of it is of its type when the columns hold what the schemas
    say of them. *)

From S2P Require Import ScheduleChanges SetupShifts.
From S2P Require Import Prelude JsStd JsCollections JsDate ContractHelpers LunchBreakPolicy.
From S2P Require Import LunchBreakPlacement LunchBreaks PayrollRecords JsEncoding JsDecoding Database.
From S2P Require Import FeatureEntitlement Authority ScheduleStore LunchBreakStore Paging OperationsPages OperationsLists.

(** ** The schemas *)

(** [format: 'date-time'], in the form of the instants of the API. *)
Definition InstantSchema (s : string) : bool :=
  match matchInstant s, dateParse s with Some _, Some _ => true | _, _ => false end.
Definition UuidSchema (s : string) : bool := isUuid s.
Definition CursorSchema (s : string) : bool := (1 <=? strLen s) && (strLen s <=? 512).
Definition boundedText (least most : Z) (s : string) : bool := (least <=? strLen s) && (strLen s <=? most).
(** [Type.Union([schema, Type.Null()])] *)
Definition orNull {A} (schema : A -> bool) (v : option A) : bool := match v with Some x => schema x | None => true end.

Definition BoundedPaginationSchema (p : BoundedPagination) : bool :=
  (1 <=? bp_limit p) && (bp_limit p <=? 200) && (bp_maxLimit p =? 200) && (0 <=? bp_returned p) && (bp_returned p <=? 200)
  && orNull CursorSchema (bp_nextCursor p) && orNull InstantSchema (bp_windowStartDate p) && orNull InstantSchema (bp_windowEndDate p).

Definition ShiftBreakSummarySchema (e : BreakEntry) : bool :=
  InstantSchema (be_startTime e) && InstantSchema (be_endTime e) && (1 <=? be_durationMinutes e) && (be_durationMinutes e <=? 720).

Definition StaffRosterMemberSchema (m : StaffRosterMember) : bool :=
  UuidSchema (rm_id m) && boundedText 1 200 (rm_name m) && (bool_decide (rm_role m = "MANAGER") || bool_decide (rm_role m = "STAFF")).

Definition ShiftSummarySchema (e : ShiftSummary) : bool :=
  UuidSchema (hs_id e) && orNull UuidSchema (hs_userId e) && UuidSchema (hs_locationId e) && orNull UuidSchema (hs_scheduleId e)
  && InstantSchema (hs_startTime e) && InstantSchema (hs_endTime e) && orNull (boundedText 0 64) (hs_role e)
  && orNull StaffRosterMemberSchema (hs_user e) && forallb ShiftBreakSummarySchema (hs_breaks e)
  && (Z.of_nat (length (hs_breaks e)) <=? 20).

Definition ShiftSummaryListResponseSchema (p : Paged ShiftSummary) : bool :=
  (Z.of_nat (length (pg_data p)) <=? 200) && forallb ShiftSummarySchema (pg_data p) && BoundedPaginationSchema (pg_pagination p).

(** ** Columns *)

Definition shiftTyped (s : Shift) : bool :=
  isUuid (sh_publicId s) && fourDigitYear (sh_startTime s) && fourDigitYear (sh_endTime s) && orNull (boundedText 0 64) (sh_role s).
Definition userTyped (u : User) : bool := isUuid (us_publicId u) && (strLen (us_name u) <=? 200).
(** No break is longer than twelve hours. *)
Definition breakTyped (b : BreakRow) : bool :=
  fourDigitYear (br_startTime b) && fourDigitYear (br_endTime b) && (br_endTime b - br_startTime b <=? 720 * 60000).

Record ColumnsTyped (db : Db) : Prop := mkColumnsTyped {
  ct_shifts : Forall (fun s => shiftTyped s = true) (db_shifts db);
  ct_users : Forall (fun u => userTyped u = true) (db_users db);
  ct_breaks : Forall (fun b => breakTyped b = true) (db_breaks db);
  ct_locations : Forall (fun l => isUuid (lo_publicId l) = true) (db_locations db);
  ct_schedules : Forall (fun s => isUuid (sc_publicId s) = true) (db_schedules db);
}.

(** ** Entries *)

Lemma InstantSchema_iso t : fourDigitYear t = true -> InstantSchema (toISOString t) = true.
Proof. intros Ht. unfold InstantSchema. by rewrite matchInstant_toISOString, dateParse_toISOString. Qed.

Lemma firstSome_elem {A} (l : list (option A)) x : firstSome l = Some x -> Some x ∈ l.
Proof. induction l as [|[y|] l IH]; cbn; [done|intros [= ->]; by left|intros Hx; right; by apply IH]. Qed.

Lemma classified_elem l : forall acc e,
  (e ∈ mapValues (fold_left classify l acc).1 \/ e ∈ (fold_left classify l acc).2) -> e ∈ mapValues acc.1 \/ e ∈ acc.2 \/ e ∈ l.
Proof.
  induction l as [|x l IH]; intros acc e; [cbn; tauto|]. cbn [fold_left]. intros [He|[He|He]]%IH; [| |set_solver].
  - unfold classify in He. destruct (publicBreakType _) as [t|]; [|tauto]. destruct (mapHas acc.1 t); [tauto|].
    cbn [fst] in He. apply list_elem_of_fmap in He as ([k v] & -> & Hk). cbn.
    apply mapSet_elem in Hk as [E|Hk]; [injection E as -> ->; set_solver|left; apply list_elem_of_fmap; by exists (k, v)].
  - unfold classify in He. destruct (publicBreakType _) as [t|]; [destruct (mapHas acc.1 t); tauto|]. cbn [snd] in He. set_solver.
Qed.

(** A break that has a type is told under it. *)
Lemma classified_types l : forall acc,
  (forall k v, (k, v) ∈ acc.1 -> publicBreakType (sb_type v.2) = Some k) -> Forall (fun v : Located => publicBreakType (sb_type v.2) = None) acc.2 ->
  (forall k v, (k, v) ∈ (fold_left classify l acc).1 -> publicBreakType (sb_type v.2) = Some k) /\
  Forall (fun v : Located => publicBreakType (sb_type v.2) = None) (fold_left classify l acc).2.
Proof.
  induction l as [|x l IH]; intros acc H1 H2; [done|]. cbn [fold_left]. apply IH; unfold classify; destruct (publicBreakType _) as [t|] eqn:Et.
  - destruct (mapHas acc.1 t); [done|]. cbn [fst]. intros k v [[= -> ->]|Hk]%mapSet_elem; [done|by apply H1].
  - done.
  - destruct (mapHas acc.1 t); done.
  - cbn [snd]. apply Forall_app. split; [done|by constructor].
Qed.

Lemma fallbackFor_type l t v :
  fallbackFor (fold_left classify l ([], [])).1 (fold_left classify l ([], [])).2 t = Some v ->
  match publicBreakType (sb_type v.2) with Some k => t = k | None => True end.
Proof.
  destruct (classified_types l ([], [])) as [H1 H2]; [by intros k v' ?%elem_of_nil|constructor|].
  destruct (fold_left classify l ([], [])) as [typed untyped]. cbn [fst snd] in *. rewrite Forall_forall in H2.
  assert (Hget : forall k, Some v = mapGet typed k -> publicBreakType (sb_type v.2) = Some k).
  { intros k Hk. symmetry in Hk. apply H1. by apply mapGet_Some_elem in Hk. }
  assert (Hsub : forall p k, Some v = List.filter p untyped !! k -> publicBreakType (sb_type v.2) = None).
  { intros p k Hk. symmetry in Hk. apply list_elem_of_lookup_2, list_elem_of_In, filter_In in Hk as [Hk _]. by apply H2, list_elem_of_In. }
  assert (Hat : forall k, Some v = untyped !! k -> publicBreakType (sb_type v.2) = None).
  { intros k Hk. symmetry in Hk. by eapply H2, list_elem_of_lookup_2. }
  assert (Hlast : Some v = last untyped -> publicBreakType (sb_type v.2) = None).
  { intros Hl. symmetry in Hl. apply last_Some in Hl as [l' ->]. apply H2. set_solver. }
  unfold fallbackFor. destruct t; intros Hf%firstSome_elem;
    repeat (apply elem_of_cons in Hf as [Hf|Hf]); try (by apply not_elem_of_nil in Hf);
    first [by rewrite (Hget _ Hf)|by rewrite (Hsub _ _ Hf)|by rewrite (Hat _ Hf)|by rewrite (Hlast Hf)].
Qed.

(** What the entry of a break tells: the times of the stored break, whether it
    is paid, its length to the nearest minute, and its type, if it has one. *)
Record BreakTold (s : StoredBreak) (e : BreakEntry) : Prop := mkBreakTold {
  bk_when : be_startTime e = toISOString (sb_startTime s) /\ be_endTime e = toISOString (sb_endTime s) /\ sb_startTime s < sb_endTime s;
  bk_minutes : 1 <= be_durationMinutes e /\
    be_durationMinutes e * 60000 - 30000 <= sb_endTime s - sb_startTime s < be_durationMinutes e * 60000 + 30000;
  bk_paid : be_paid e = sb_paid s;
  bk_type : match publicBreakType (sb_type s) with Some t => be_type e = t | None => True end;
}.

Section Entries.
Context `{LC : LocaleCompare}.

Lemma serializeLoop_Ok fallback used types es :
  (forall t v, fallback t = Some v -> match publicBreakType (sb_type v.2) with Some k => t = k | None => True end) ->
  serializeLoop fallback used types = Ok es -> map be_type es `sublist_of` types /\
  Forall (fun e => exists v, fallback (be_type e) = Some v /\ BreakTold v.2 e) es.
Proof.
  intros Hty. revert used es. induction types as [|t types IH]; intros used es; cbn [serializeLoop]; [intros [= <-]; split; [done|constructor]|].
  destruct (fallback t) as [[pos entry]|] eqn:Ef; [|intros [Hl Hf]%IH; split; [by apply sublist_cons|done]].
  case_bool_decide; [intros [Hl Hf]%IH; split; [by apply sublist_cons|done]|]. destruct (_ || _) eqn:E; [done|]. apply orb_false_iff in E as [E1 E2].
  intros (out & [Hl Hf]%IH & [= <-])%Result_bind_Ok. split; [by apply sublist_skip|]. constructor; [|done].
  exists (pos, entry). split; [done|]. specialize (Hty t _ Ef). bools.
  split; [split_and!; [done..|cbn; lia]| |done|exact Hty]. cbn. unfold roundDiv in *. div_lia.
Qed.

Lemma serializeBreaks_entries (entries : list StoredBreak) es :
  serializeBreaks entries = Ok es -> map be_type es `sublist_of` BREAK_TYPES /\
  Forall (fun e => exists s, s ∈ entries /\ BreakTold s e) es.
Proof.
  unfold serializeBreaks. set (ordered := sortBy _ entries).
  assert (Hord : forall s, s ∈ ordered -> s ∈ entries) by (intros s; apply sortBy_elem). clearbody ordered.
  pose proof (fallbackFor_type (imap pair ordered)) as Hty.
  destruct (fold_left classify (imap pair ordered) ([], [])) as [typed untyped] eqn:Ec. intros [Hl Hf]%serializeLoop_Ok; [|exact Hty].
  split; [exact Hl|]. eapply Forall_impl; [exact Hf|]. intros e ([pos s] & Ht & He). exists s. split; [|exact He].
  apply Hord. assert (Hin : (pos, s) ∈ mapValues typed \/ (pos, s) ∈ untyped).
  { assert (Hget : forall k, mapGet typed k = Some (pos, s) -> (pos, s) ∈ mapValues typed).
    { intros k Hk%mapGet_Some_elem. apply list_elem_of_fmap. by exists (k, (pos, s)). }
    assert (Hsub : forall p k, List.filter p untyped !! k = Some (pos, s) -> (pos, s) ∈ untyped).
    { intros p k Hk%list_elem_of_lookup_2. apply list_elem_of_In, filter_In in Hk as [Hk _]. by apply list_elem_of_In. }
    assert (Hlast : last untyped = Some (pos, s) -> (pos, s) ∈ untyped) by (intros [l ->]%last_Some; set_solver).
    unfold fallbackFor in Ht. destruct (be_type e); apply firstSome_elem in Ht;
      repeat (apply elem_of_cons in Ht as [Ht|Ht]); try (by apply not_elem_of_nil in Ht); symmetry in Ht;
      eauto using list_elem_of_lookup_2. }
  pose proof (classified_elem (imap pair ordered) ([], []) (pos, s)) as Hc. rewrite Ec in Hc. destruct (Hc Hin) as [H|[H|H]];
    [by apply not_elem_of_nil in H|by apply not_elem_of_nil in H|].
  apply elem_of_lookup_imap in H as (i & x & [= _ ->] & Hx). by eapply list_elem_of_lookup_2.
Qed.
End Entries.

Lemma parseOptionalInstant_typed value name t : parseOptionalInstant value name = Ok (Some t) -> InstantSchema (toISOString t) = true.
Proof.
  unfold parseOptionalInstant. destruct (truthy value) as [text|]; [|done]. destruct (matchInstant text) as [f|] eqn:Em; [|done].
  destruct (dateParse text) as [parsed|] eqn:Ed; [|done]. case_bool_decide as Ht; [|done]. intros [= ->]. unfold InstantSchema. by rewrite Ht, Em, Ed.
Qed.

Lemma parseWindow_typed s e window : parseWindow s e = Ok window ->
  orNull InstantSchema (toISOString <$> ow_startDate window) = true /\ orNull InstantSchema (toISOString <$> ow_endDate window) = true.
Proof.
  unfold parseWindow. intros (start & Hs & (finish & He & Hr)%Result_bind_Ok)%Result_bind_Ok.
  assert (E : window = mkWindow start finish) by
    (destruct start as [a|], finish as [b|]; [destruct (b <=? a); [done|]|..]; by injection Hr as <-). subst. cbn [ow_startDate ow_endDate].
  split; [destruct start; [|done]; by eapply parseOptionalInstant_typed|destruct finish; [|done]; by eapply parseOptionalInstant_typed].
Qed.

Lemma encodeCursor_typed cursor text : encodeCursor cursor = Ok text -> CursorSchema text = true.
Proof.
  unfold encodeCursor. destruct (cursorId _) eqn:Hid; [|done]. intros E.
  assert (text = base64url (utf8Bytes (stringify (cursorJson cursor)))) as -> by (cbn [negb] in E; congruence). clear E.
  set (text := base64url _). assert (Hbound : strLen text <= 512) by (apply (instantCursor_short "timestamp"); [done|cbn; lia|done]).
  assert (Hd : decodeJson text = Some (valueOf (cursorJson cursor))) by apply decodeJson_encoded.
  assert (Hne : decodeJson "" = None) by (vm_compute; reflexivity). clearbody text.
  unfold CursorSchema, strLen in *. destruct text; [congruence|].
  cbn [String.length] in *. bool_lia.
Qed.

(** The counts of a page: it has the limit that was asked for and at most that
    many entries, and a cursor exactly when there is more. *)
Definition PageCounted (limit : Z) (p : BoundedPagination) (entries : nat) : Prop :=
  bp_limit p = limit /\ bp_returned p = Z.of_nat entries /\ bp_returned p <= limit /\ (bp_hasMore p = true <-> is_Some (bp_nextCursor p)).

(** The pagination of a page. *)
Lemma page_typed {T} (rows : list T) limit rowCursor window p :
  page rows limit rowCursor window = Ok p -> 1 <= limit <= 200 ->
  orNull InstantSchema (toISOString <$> ow_startDate window) = true -> orNull InstantSchema (toISOString <$> ow_endDate window) = true ->
  BoundedPaginationSchema (pg_pagination p) = true /\ PageCounted limit (pg_pagination p) (length (pg_data p)) /\
  (forall r, r ∈ pg_data p -> r ∈ rows).
Proof.
  intros Hp Hl Hs He. pose proof Hp as Hp'. apply page_Ok in Hp' as [Hd Hn]; [|lia].
  assert (Hin : forall r, r ∈ pg_data p -> r ∈ rows).
  { rewrite Hd. intros r Hr. rewrite <- (take_drop (Z.to_nat limit) rows). apply elem_of_app. by left. }
  assert (Hlen : Z.of_nat (length (pg_data p)) <= limit) by (rewrite Hd, length_take; lia). split_and!; [| |done].
  2: { revert Hlen Hn. unfold page in Hp. apply Result_bind_Ok in Hp as (next & Hnx & [= <-]). unfold PageCounted.
       cbn [pg_pagination pg_data bp_nextCursor bp_limit bp_returned bp_hasMore]. intros Hlen Hn. split_and!; [done..|].
       rewrite Z.ltb_lt. destruct next; split; [done|lia|lia|by intros []]. }
  assert (Hcur : orNull CursorSchema (bp_nextCursor (pg_pagination p)) = true).
  { destruct (bp_nextCursor _) as [text|]; [|done]. destruct Hn as (_ & x & Hx & Htext). cbn. by eapply encodeCursor_typed. }
  revert Hlen Hcur. unfold page in Hp. apply Result_bind_Ok in Hp as (next & _ & [= <-]). cbn [pg_pagination pg_data bp_nextCursor]. intros Hlen Hcur.
  unfold BoundedPaginationSchema. cbn [bp_limit bp_maxLimit bp_returned bp_nextCursor bp_windowStartDate bp_windowEndDate].
  rewrite Hcur, Hs, He, !andb_true_r. bool_lia.
Qed.

(** ** The list of shifts *)

Section Shifts.
Context `{Collation, LC : LocaleCompare} (db : Db) (Ht : ColumnsTyped db).

Lemma find_elem {A} (p : A -> bool) l x : List.find p l = Some x -> x ∈ l.
Proof. intros [Hx _]%find_some. by apply list_elem_of_In. Qed.

Lemma memberOfUser_typed u : u ∈ db_users db -> StaffRosterMemberSchema (memberOfUser u) = true.
Proof.
  intros Hu. pose proof (ct_users _ Ht) as Hall. rewrite Forall_forall in Hall. specialize (Hall u Hu). unfold userTyped in Hall.
  apply andb_true_iff in Hall as [Hid Hl]. unfold StaffRosterMemberSchema, UuidSchema, memberOfUser. cbn [rm_id rm_name rm_role]. rewrite Hid.
  assert (Hr : forall b : bool, bool_decide ((if b then "MANAGER" else "STAFF") = "MANAGER") || bool_decide ((if b then "MANAGER" else "STAFF") = "STAFF") = true)
    by (by intros []).
  rewrite Hr, andb_true_r. cbn [andb]. unfold boundedText. destruct (isEmpty (us_name u)) eqn:Ee; [done|].
  rewrite Hl, andb_true_r. unfold strLen. destruct (us_name u); [done|]. cbn [String.length]. bool_lia.
Qed.

Lemma serializeShift_typed s e location :
  s ∈ db_shifts db -> locationOfShift db s = Some location -> serializeShift (internalShift db s) = Ok e -> ShiftSummarySchema e = true.
Proof.
  intros Hs Hloc. unfold serializeShift. intros (breaks & [Hlen Hb]%serializeBreaks_entries & [= <-])%Result_bind_Ok.
  destruct Ht as [Hshifts Husers Hbreaks Hlocs Hscheds]. rewrite Forall_forall in Hshifts. rewrite Forall_forall in Husers.
  rewrite Forall_forall in Hbreaks. rewrite Forall_forall in Hlocs. rewrite Forall_forall in Hscheds. rewrite Forall_forall in Hb.
  pose proof (Hshifts s Hs) as Hts. unfold shiftTyped in Hts. rewrite !andb_true_iff in Hts. destruct Hts as [[[Hid Hst] Hen] Hro].
  unfold ShiftSummarySchema. cbn [hs_id hs_userId hs_locationId hs_scheduleId hs_startTime hs_endTime hs_role hs_user hs_breaks].
  cbn [internalShift is_row is_locationPublicId is_schedule is_user is_breaks] in *. rewrite Hloc.
  rewrite !InstantSchema_iso by done. rewrite Hro. unfold UuidSchema at 1 3. rewrite Hid, (Hlocs location) by (by eapply find_elem).
  assert (Hu : orNull UuidSchema (us_publicId <$> userOfShift db s) = true /\ orNull StaffRosterMemberSchema (memberOfUser <$> userOfShift db s) = true).
  { destruct (userOfShift db s) as [u|] eqn:Eu; [|done]. cbn. apply bind_Some in Eu as (i & _ & Eu%find_elem). split; [|by apply memberOfUser_typed].
    pose proof (Husers u Eu) as Hu. unfold userTyped in Hu. by apply andb_true_iff in Hu as [Hu _]. }
  assert (Hsc : orNull UuidSchema (sc_publicId <$> scheduleOfShift db s) = true).
  { destruct (scheduleOfShift db s) as [r|] eqn:Er; [|done]. cbn. apply bind_Some in Er as (i & _ & Er%find_elem). by apply Hscheds. }
  destruct Hu as [-> ->]. rewrite Hsc. cbn [andb].
  assert (Hbr : forallb ShiftBreakSummarySchema breaks = true).
  { apply forallb_forall. intros e He%list_elem_of_In. destruct (Hb e He) as (sb & Hin & [(Es & Ee & _) Hd _ _]).
    apply list_elem_of_fmap in Hin as (b & -> & Hin%sortBy_elem). apply list_elem_of_In, filter_In in Hin as [Hin _]. apply list_elem_of_In in Hin.
    pose proof (Hbreaks b Hin) as Hbt. unfold breakTyped in Hbt. rewrite !andb_true_iff in Hbt. destruct Hbt as [[H1 H2] H3%Z.leb_le].
    unfold ShiftBreakSummarySchema. rewrite Es, Ee. cbn [storedBreak sb_startTime sb_endTime] in *. rewrite !InstantSchema_iso by done. cbn [andb].
    bool_lia. }
  apply sublist_length in Hlen. rewrite length_map in Hlen. cbn in Hlen. rewrite Hbr. bool_lia.
Qed.
End Shifts.

(** What the entry of a shift tells, of the rows of the database. *)
Record ShiftTold (db : Db) (s : Shift) (e : ShiftSummary) : Prop := mkShiftTold {
  ht_row : hs_id e = sh_publicId s /\ hs_startTime e = toISOString (sh_startTime s) /\ hs_endTime e = toISOString (sh_endTime s) /\
    hs_role e = sh_role s;
  ht_location : exists l, l ∈ db_locations db /\ lo_id l = sh_locationId s /\ lo_tenantId l = sh_tenantId s /\ lo_deletedAt l = None /\
    hs_locationId e = lo_publicId l;
  ht_user : match sh_userId s with
    | None => hs_userId e = None /\ hs_user e = None
    | Some id => exists u m, u ∈ db_users db /\ us_id u = id /\ us_tenantId u = sh_tenantId s /\ us_deletedAt u = None /\
        us_suspendedAt u = None /\ hs_userId e = Some (us_publicId u) /\ hs_user e = Some m /\ rm_id m = us_publicId u /\
        rm_role m = us_role u /\ (us_role u = "MANAGER" \/ us_role u = "STAFF") /\
        rm_name m <> "" /\ (us_name u <> "" -> rm_name m = us_name u)
    end;
  ht_breaks : Forall (fun b => exists row, row ∈ db_breaks db /\ br_shiftId row = sh_id s /\ BreakTold (storedBreak row) b) (hs_breaks e);
  ht_types : map be_type (hs_breaks e) `sublist_of` BREAK_TYPES;
}.

Lemma serializeShift_told `{Collation, LocaleCompare} db s e publicId :
  atLocation publicId (locationOfShift db s) = true -> schedulableShift db s = true -> serializeShift (internalShift db s) = Ok e ->
  ShiftTold db s e.
Proof.
  intros Hl Hs (breaks & [Ht Hb]%serializeBreaks_entries & [= <-])%Result_bind_Ok. split; [done| | | |done].
  - unfold atLocation in Hl. cbn. destruct (locationOfShift db s) as [l|] eqn:El; [|done]. apply andb_true_iff in Hl as [Hl%bool_decide_eq_true _].
    unfold locationOfShift in El. apply find_some in El as [Hin Hp]. bools. destruct Hp. exists l. split; [by apply list_elem_of_In|done].
  - unfold schedulableShift in Hs. cbn. unfold userOfShift in *. destruct (sh_userId s) as [i|]; [|done]. cbn in *.
    destruct (List.find _ _) as [u|] eqn:Eu; [|done]. apply find_some in Eu as [Hin Hp]. unfold schedulableUser in Hs. bools.
    destruct Hp as [Hi Ht'], Hs as [[Hr Hd] Hsu]. exists u, (memberOfUser u). cbn.
    split; [by apply list_elem_of_In|]. repeat (split; [done|]).
    assert (Hr' : us_role u = "MANAGER" \/ us_role u = "STAFF") by set_solver. unfold isEmpty. split.
    { by destruct Hr' as [-> | ->]. }
    split; [done|]. case_bool_decide; split; done.
  - cbn [hs_breaks]. eapply Forall_impl; [exact Hb|]. cbn. intros b (sb & (row & -> & Hin%sortBy_elem)%list_elem_of_fmap & Hbt).
    apply list_elem_of_In, filter_In in Hin as [Hin Hid]. bools. exists row. split; [by apply list_elem_of_In|done].
Qed.

(** C28: Whatever [listShifts] returns keeps its contract, with nothing assumed
    of the rows: the page has the limit that was asked for, between one and two
    hundred, at most that many entries, counted, well-formed window instants, and
    exactly when there is more a cursor of one to five hundred and twelve
    characters; each entry tells a live shift of the tenant with its own times
    and role, its live location, its person if it has one, who is not deleted or
    suspended, has a name and is a manager or staff; and each break told is a
    stored break of the shift that ends after it starts, of at least a minute
    and its length to the nearest one, under its own type if it has one, no type
    twice. *)
Theorem listShifts_typed `{Env, AuthorityEnv, Collation, LocaleCompare} identity q p w w' :
  listShifts identity q w = (Ok p, w') ->
  exists limit, parseLimit (ql_limit q) = Ok limit /\ 1 <= limit <= 200 /\
    BoundedPaginationSchema (pg_pagination p) = true /\ PageCounted limit (pg_pagination p) (length (pg_data p)) /\
    Forall (fun e => exists s, s ∈ db_shifts (w_db w) /\ sh_tenantId s = trim (si_tenantId identity) /\ sh_deletedAt s = None /\
      ShiftTold (w_db w) s e) (pg_data p).
Proof.
  intros Hr. apply listShifts_Ok in Hr as (limit & cursor & window & n & authority & result & Hlim & _ & Hwin & _ & Hp & Hd & Epag).
  pose proof (parseLimit_range _ _ Hlim) as Hrange. destruct (parseWindow_typed _ _ _ Hwin) as [Hws Hwe].
  destruct (page_typed _ _ _ _ _ Hp Hrange Hws Hwe) as (Hpag & Hcount & Hin). apply mapM_Ok_Forall2 in Hd.
  exists limit. rewrite Epag. split; [done|]. split; [done|]. split; [done|]. rewrite (Forall2_length _ _ _ Hd) in Hcount. split; [done|].
  apply Forall_forall. intros e He. apply list_elem_of_lookup in He as [i He].
  destruct (Forall2_lookup_r _ _ _ _ _ Hd He) as (row & Hrow & Hser). apply list_elem_of_lookup_2, Hin, list_elem_of_fmap in Hrow as (s & -> & Hs).
  apply pageRows_elem in Hs as [Hs _]. apply list_elem_of_In, filter_In in Hs as [Hs Hl]. unfold listedShift in Hl. rewrite !andb_true_iff in Hl.
  destruct Hl as [[[[[[[Ht Hdel] Hloc] Hsch] _] _] _] _]. bools. exists s. split; [by apply list_elem_of_In|]. split; [done|]. split; [done|].
  by eapply serializeShift_told.
Qed.

(** Over columns that hold what the schema says of them, the whole of what
    [listShifts] returns is of its type. *)
Lemma listShifts_schema `{Env, AuthorityEnv, Collation, LocaleCompare} identity q p w w' :
  ColumnsTyped (w_db w) -> listShifts identity q w = (Ok p, w') -> ShiftSummaryListResponseSchema p = true.
Proof.
  intros Ht Hr. apply listShifts_Ok in Hr as (limit & cursor & window & n & authority & result & Hlim%parseLimit_range & _ & Hwin & _ & Hp & Hd & Epag).
  destruct (parseWindow_typed _ _ _ Hwin) as [Hws Hwe]. set (found := pageRows _ _ _ _ _ _) in Hp.
  assert (Hfound : forall s, s ∈ found -> s ∈ db_shifts (w_db w) /\ exists l, locationOfShift (w_db w) s = Some l).
  { intros s [Hs _]%pageRows_elem. apply list_elem_of_In, filter_In in Hs as [Hs Hl]. split; [by apply list_elem_of_In|].
    unfold listedShift in Hl. rewrite !andb_true_iff in Hl. destruct Hl as [[[[[[_ Hl] _] _] _] _] _]. unfold atLocation in Hl.
    destruct (locationOfShift _ s) as [l|]; [by exists l|done]. }
  pose proof (ct_shifts _ Ht) as Hst. rewrite Forall_forall in Hst.
  destruct (page_typed _ _ _ _ _ Hp Hlim Hws Hwe) as (Hpag & (_ & Hret & Hle & _) & Hin).
  assert (Hlen : Z.of_nat (length (pg_data result)) <= 200) by lia.
  unfold ShiftSummaryListResponseSchema. rewrite Epag, Hpag, andb_true_r.
  apply mapM_Ok_Forall2 in Hd. rewrite <- (Forall2_length _ _ _ Hd). rewrite (proj2 (Z.leb_le _ _)) by exact Hlen. cbn [andb].
  apply forallb_forall. intros e He%list_elem_of_In. apply list_elem_of_lookup in He as [i He].
  destruct (Forall2_lookup_r _ _ _ _ _ Hd He) as (row & Hrow & Hser). apply list_elem_of_lookup_2, Hin, list_elem_of_fmap in Hrow as (s & -> & Hs).
  destruct (Hfound s Hs) as (Hdb & l & Hl). by eapply serializeShift_typed.
Qed.

(** ** A concrete instance *)

(** The first page of the sample's shifts. *)
Lemma listShifts_typed_witness :
  (length (pg_data firstPage) = 1%nat /\ bp_hasMore (pg_pagination firstPage) = true) /\
  exists limit, parseLimit (Some "1") = Ok limit /\ 1 <= limit <= 200 /\
    BoundedPaginationSchema (pg_pagination firstPage) = true /\ PageCounted limit (pg_pagination firstPage) (length (pg_data firstPage)) /\
    Forall (fun e => exists s, s ∈ db_shifts SetupShifts.setupDb /\ sh_tenantId s = "t1" /\ sh_deletedAt s = None /\
      ShiftTold SetupShifts.setupDb s e) (pg_data firstPage).
Proof.
  split; [split; reflexivity|].
  apply (@listShifts_typed (calmUuid 1772409600000) (actingAs ScheduleChanges.sampleManager) ScheduleChanges.codeUnitOrder codeUnitCollation
    ScheduleChanges.sampleManager (asked (mkListQuery None None (Some "2026-03-02T00:00:00.000Z") None None None) (Some "1") None)
    firstPage (mkWorld SetupShifts.setupDb 0)
    (@listShifts (calmUuid 1772409600000) (actingAs ScheduleChanges.sampleManager) ScheduleChanges.codeUnitOrder codeUnitCollation
      ScheduleChanges.sampleManager (asked (mkListQuery None None (Some "2026-03-02T00:00:00.000Z") None None None) (Some "1") None)
      (mkWorld SetupShifts.setupDb 0)).2).
  vm_compute. reflexivity.
Defined.
