(* ===== verification/LunchBreakGeneration.v ===== *)
(** * Generating lunch and breaks

    The handler [generate] of
    apps/api-v2/src/operations/lunch-breaks.service.ts.  One request runs in
    several transactions: it claims its idempotency key (a row that is PENDING
    with a token and a deadline), computes the rows, and completes the claim,
    which debits one credit and stores the answer; a failure releases the
    claim.  Other requests run between those transactions, take over expired
    claims, and retry.

    Each transaction is a definition and [generate] composes them; the effect
    of each on the database is proved here, their interleavings are the subject
    of GenerationProtocol. *)

From S2P Require Import ScheduleChanges.
From S2P Require Import Prelude JsStd JsCollections JsDate ContractHelpers LunchBreakPolicy.
From S2P Require Import LunchBreakPlacement LunchBreaks PayrollRecords Database.
From S2P Require Import FeatureEntitlement Authority.
From S2P Require Import ScheduleStore LunchBreakStore ShiftBreaks.

(** ** Data *)

Record GenerationSnapshot := mkSnapshot {
  gs_id : string;
  gs_publicId : string;
  gs_scheduleId : option string;
  gs_startTime : string;
  gs_endTime : string;
  gs_updatedAt : string;
}.

Record GenerationClaim := mkClaim { gc_requestId : string; gc_claimToken : string }.

Record PreparedGeneration := mkPrepared {
  pg_locationId : option string;
  pg_source : string;
  pg_persisted : bool;
  pg_policy : LunchBreakPolicy;
  pg_data : list LunchBreakRow;
  pg_snapshot : list GenerationSnapshot;
}.

(** [GenerationClaim | { response }] *)
Inductive ClaimOutcome :=
  | Claimed (claim : GenerationClaim)
  | AlreadyAnswered (response : Json).

(** [GenerationClaimExpired]: only the completion builds it. *)
Definition claimExpired : Exn :=
  Problem (problemError 409 "generation_claim_expired"
    "The lunch and break generation claim expired. Retry the request." "Conflict").
Definition isClaimExpired (e : Exn) : bool :=
  match e with Problem p => bool_decide (pCode p = "generation_claim_expired") | _ => false end.

Definition IN_PROGRESS : string :=
  "Lunch and break generation is already in progress for this Idempotency-Key.".

Definition toStoredResponse (value : option Json) : option Json :=
  match value with
  | Some (JObj es) =>
      match prop "data" (JObj es), prop "policy" (JObj es) with
      | Some (JArr _), Some (JObj _) | Some (JArr _), Some (JArr _) => Some (JObj es)
      | _, _ => None
      end
  | _ => None
  end.

(** [{ ...response, reused: true }] *)
Definition markReused (response : Json) : Json :=
  match response with
  | JObj es => JObj (List.filter (fun e : string * option Json => negb (bool_decide (e.1 = "reused"))) es
                     ++ [field "reused" (JBool true)])
  | _ => response
  end.

Definition CLAIM_MS : Z := 2 * 60000.

(** ** The request as JSON *)

Definition manualShiftJson (s : ManualShift) : Json :=
  JObj [("id", JStr <$> ms_id s); ("userId", orJNull <$> ms_userId s); ("employeeName", JStr <$> ms_employeeName s);
        field "startTime" (JStr (ms_startTime s)); field "endTime" (JStr (ms_endTime s));
        ("lunchDurationMinutes", JNum <$> ms_lunchDurationMinutes s)].

Definition patchJson (p : PolicyPatch) : Json :=
  JObj [("break1OffsetMinutes", JNum <$> p_break1OffsetMinutes p);
        ("lunchOffsetMinutes", JNum <$> p_lunchOffsetMinutes p);
        ("break2OffsetMinutes", JNum <$> p_break2OffsetMinutes p);
        ("break1DurationMinutes", JNum <$> p_break1DurationMinutes p);
        ("lunchDurationMinutes", JNum <$> p_lunchDurationMinutes p);
        ("break2DurationMinutes", JNum <$> p_break2DurationMinutes p);
        ("timeStepMinutes", JNum <$> p_timeStepMinutes p)].

Definition generationJson (body : LunchBreakGenerationRequest) : Json :=
  JObj [("scheduleId", JStr <$> gr_scheduleId body); ("locationId", JStr <$> gr_locationId body);
        ("shiftIds", (fun l => JArr (map JStr l)) <$> gr_shiftIds body); ("persist", JBool <$> gr_persist body);
        ("policy", patchJson <$> gr_policy body);
        ("shifts", (fun l => JArr (map manualShiftJson l)) <$> gr_shifts body)].

(** ** The claim *)

Definition forKey (tenantId keyHash : string) (g : GenerationRow) : bool :=
  bool_decide (gn_tenantId g = tenantId) && bool_decide (gn_requestKeyHash g = keyHash).

(** What [updateMany] may take over. *)
Definition reclaimable (id tenantId bodyHash : string) (nowMs : Z) (g : GenerationRow) : bool :=
  bool_decide (gn_id g = id) && bool_decide (gn_tenantId g = tenantId) && bool_decide (gn_requestHash g = bodyHash)
  && (bool_decide (gn_status g = "FAILED")
      || (bool_decide (gn_status g = "PENDING")
          && match gn_claimExpiresAt g with Some t => t <=? nowMs | None => true end)).

Definition reclaim (claimToken : string) (claimExpiresAt : Z) (g : GenerationRow) : GenerationRow :=
  mkGeneration (gn_id g) (gn_tenantId g) (gn_requestKeyHash g) (gn_requestHash g) "PENDING"
    (gn_creditConsumption g) (gn_response g) None None (Some claimToken) (Some claimExpiresAt)
    (gn_attempts g + 1) (gn_creditTransactionId g) None (gn_calculationSnapshot g).

Definition newGeneration (id tenantId keyHash bodyHash claimToken : string) (claimExpiresAt : Z) : GenerationRow :=
  mkGeneration id tenantId keyHash bodyHash "PENDING" None None None None (Some claimToken)
    (Some claimExpiresAt) 1 None None None.

(** The row a claim still owns. *)
Definition ownedBy (tenantId : string) (claim : GenerationClaim) (g : GenerationRow) : bool :=
  bool_decide (gn_id g = gc_requestId claim) && bool_decide (gn_tenantId g = tenantId)
  && bool_decide (gn_status g = "PENDING") && bool_decide (gn_claimToken g = Some (gc_claimToken claim)).

Definition renew (claimExpiresAt : Z) (g : GenerationRow) : GenerationRow :=
  mkGeneration (gn_id g) (gn_tenantId g) (gn_requestKeyHash g) (gn_requestHash g) (gn_status g)
    (gn_creditConsumption g) (gn_response g) (gn_failureStatus g) (gn_failureMessage g) (gn_claimToken g)
    (Some claimExpiresAt) (gn_attempts g) (gn_creditTransactionId g) (gn_completedAt g) (gn_calculationSnapshot g).

Definition succeed (response consumption snapshot : Json) (creditId : string) (completedAt : Z) (g : GenerationRow)
    : GenerationRow :=
  mkGeneration (gn_id g) (gn_tenantId g) (gn_requestKeyHash g) (gn_requestHash g) "SUCCEEDED"
    (Some consumption) (Some response) None None None None (gn_attempts g) (Some creditId) (Some completedAt)
    (Some snapshot).

Definition markFailed (failureStatus : Z) (failureMessage : string) (completedAt : Z) (g : GenerationRow) : GenerationRow :=
  mkGeneration (gn_id g) (gn_tenantId g) (gn_requestKeyHash g) (gn_requestHash g) "FAILED"
    (gn_creditConsumption g) (gn_response g) (Some failureStatus) (Some failureMessage) None None (gn_attempts g)
    (gn_creditTransactionId g) (Some completedAt) (gn_calculationSnapshot g).

Definition creditId (requestId : string) : string := "lunch-break-credit-" +:+ requestId.

Section Claim.
Context `{Env, Process, AuthorityEnv, Collation, LocaleCompare, Sha256}.

(** The branch for an existing row of the same request. *)
Definition takeOver (tenantId bodyHash claimToken : string) (existing : GenerationRow) : Tx ClaimOutcome :=
  if bool_decide (gn_status existing = "SUCCEEDED") then
    match toStoredResponse (gn_response existing) with
    | None => problem 409 "idempotency_conflict"
        "The saved lunch and break generation outcome is unavailable. Use a new Idempotency-Key." "Conflict"
    | Some response => mret (AlreadyAnswered (markReused response))
    end
  else
    nowMs ← now;
    if bool_decide (gn_status existing = "PENDING")
       && match gn_claimExpiresAt existing with Some t => nowMs <? t | None => false end
    then problem 409 "generation_in_progress" IN_PROGRESS "Conflict"
    else
      let failureStatus := gn_failureStatus existing in
      if bool_decide (gn_status existing = "FAILED") && negb (bool_decide (failureStatus = Some 403))
         && negb (bool_decide (failureStatus = Some 409)) && (default 500 failureStatus <? 500)
      then problem (default 422 failureStatus) "generation_previously_rejected"
             (match gn_failureMessage existing with
              | Some m => if isEmpty m then "The previous lunch and break generation request was rejected." else m
              | None => "The previous lunch and break generation request was rejected."
              end) "Request rejected"
      else
        reclaimed ← operationsWait (updateMany (reclaimable (gn_id existing) tenantId bodyHash nowMs)
                      (reclaim claimToken (nowMs + CLAIM_MS)));
        if negb (reclaimed =? 1)%nat then problem 409 "generation_in_progress" IN_PROGRESS "Conflict"
        else mret (Claimed (mkClaim (gn_id existing) claimToken)).

Definition claimInScope (tenantId keyHash bodyHash claimToken : string) (allowCreate : bool) : Tx ClaimOutcome :=
  found ← operationsWait (findFirst (forKey tenantId keyHash));
  match found with
  | None =>
      if negb allowCreate then
        problem 503 "generation_claim_unavailable"
          "Lunch and break generation is temporarily unavailable. Retry the request." "Service unavailable"
      else
        nowMs ← now;
        id ← randomUUID;
        _ ← operationsWait (createRow (newGeneration id tenantId keyHash bodyHash claimToken (nowMs + CLAIM_MS)));
        mret (Claimed (mkClaim id claimToken))
  | Some existing =>
      if negb (bool_decide (gn_requestHash existing = bodyHash)) then
        problem 409 "idempotency_conflict"
          "Idempotency-Key was already used with a different lunch and break generation request." "Conflict"
      else takeOver tenantId bodyHash claimToken existing
  end.

(** [try { return await claim(true); } catch ... return claim(false);] *)
Definition claimTwice (attempt : bool -> Tx ClaimOutcome) : Tx ClaimOutcome := fun w =>
  match attempt true w with
  | (Throw e, w1) => if bool_decide (errorCode e = "P2002") then attempt false w1 else (Throw e, w1)
  | ok => ok
  end.

Definition claimGeneration (identity : SessionIdentity) (tenantId idempotencyKey bodyHash : string)
    : Tx ClaimOutcome :=
  claimToken ← randomUUID;
  claimTwice (fun allowCreate => scopeRun identity (fun _ =>
    claimInScope tenantId (sha256 idempotencyKey) bodyHash claimToken allowCreate)).

Definition findGeneration (identity : SessionIdentity) (tenantId idempotencyKey : string)
    : Tx (option GenerationRow) :=
  scopeRun identity (fun _ => findFirst (forKey tenantId (sha256 idempotencyKey))).

(** Errors of the settlement are swallowed. *)
Definition failGeneration (tenantId : string) (claim : GenerationClaim) (error : Exn) : Tx unit := fun w =>
  let '(failureStatus, detail) := match error with
    | Problem p => (pStatus p, pDetail p)
    | _ => (503, "Lunch and break generation failed.")
    end in
  (Ok tt, (retryPayrollSerializableMutation (withTenant tenantId (
    completedAt ← now;
    updateMany (ownedBy tenantId claim) (markFailed failureStatus (slice0 1000 detail) completedAt))) w).2).
End Claim.

(** ** The computation *)

Definition MAX_GENERATION_SHIFTS : nat := 1000.

(** The scope of a generation from saved shifts. *)
Definition inGenerationScope (tenantId : string) (location : option Location)
    (body : LunchBreakGenerationRequest) (db : Db) (s : Shift) : bool :=
  bool_decide (sh_tenantId s = tenantId) && bool_decide (sh_deletedAt s = None) && schedulableShift db s
  && match location with Some l => bool_decide (sh_locationId s = lo_id l) | None => true end
  && (if textTruthy (gr_scheduleId body) then
        match scheduleOfShift db s with
        | Some r => bool_decide (Some (sc_publicId r) = lowerText <$> gr_scheduleId body) && bool_decide (sc_deletedAt r = None)
        | None => false
        end
      else true)
  && match gr_shiftIds body with Some ids => bool_decide (sh_publicId s ∈ map lowerText ids) | None => true end.

(** UUIDs are ordered as their lower case text. *)
Definition byStartThenPublicId (l r : Shift) : Z :=
  orElse (sh_startTime l - sh_startTime r) (compareText (sh_publicId l) (sh_publicId r)).

Definition explicitInput (entry : ManualShift) : GeneratedInput :=
  mkGenerated (ms_id entry) (mjoin (ms_userId entry))
    (Some (match ms_employeeName entry with
           | Some n => if isEmpty (trim n) then "Unassigned" else trim n
           | None => "Unassigned" end))
    (ms_startTime entry) (ms_endTime entry) (ms_lunchDurationMinutes entry).

Definition savedInput (p : LunchBreakPolicy) (row : InternalShift) : GeneratedInput :=
  mkGenerated (Some (sh_publicId (is_row row))) (us_publicId <$> is_user row) (us_name <$> is_user row)
    (toISOString (sh_startTime (is_row row))) (toISOString (sh_endTime (is_row row)))
    (Some (lunchDurationMinutes p)).

Definition snapshotOf (row : InternalShift) : GenerationSnapshot :=
  let s := is_row row in
  mkSnapshot (sh_id s) (sh_publicId s) (sc_id <$> is_schedule row) (toISOString (sh_startTime s))
    (toISOString (sh_endTime s)) (toISOString (sh_updatedAt s)).

(** Every requested shift was found, and nothing else. *)
Definition scopeMatches (requested : option (list string)) (found : list InternalShift) : bool :=
  match requested with
  | None => true
  | Some ids =>
      (length (dedupe ids) =? length found)%nat
      && forallb (fun row => bool_decide (sh_publicId (is_row row) ∈ ids)) found
  end.

Section Prepare.
Context `{Env, Process, AuthorityEnv, Collation}.

Definition findGenerationShifts (tenantId : string) (location : option Location)
    (body : LunchBreakGenerationRequest) : Tx (list InternalShift) :=
  query (fun db => Ok (map (internalShift db) (take (S MAX_GENERATION_SHIFTS)
    (sortBy byStartThenPublicId (List.filter (inGenerationScope tenantId location body db) (db_shifts db)))), db)).

Definition findRequestedLocation (tenantId : string) (locationId : option string) : Tx (option Location) :=
  if textTruthy locationId then
    found ← operationsWait (findFirst (fun l =>
      bool_decide (lo_tenantId l = tenantId) && bool_decide (Some (lo_publicId l) = lowerText <$> locationId)
      && bool_decide (lo_deletedAt l = None)));
    match found with
    | None => problem 404 "location_not_found" "The selected location was not found in this workspace." "Location not found"
    | Some l => mret (Some l)
    end
  else mret None.

Definition prepareStandalone (location : option Location) (p : LunchBreakPolicy) (shifts : list ManualShift)
    : Tx PreparedGeneration :=
  data ← liftResult (buildBreakSchedule (map explicitInput shifts) p);
  if bool_decide (length data = 0%nat) then
    liftResult (generationProblem "Add at least one valid shift before generating lunch and breaks.")
  else mret (mkPrepared (lo_publicId <$> location) "standalone" false p data []).

Definition prepareShared (tenantId : string) (location : option Location) (p : LunchBreakPolicy)
    (body : LunchBreakGenerationRequest) : Tx PreparedGeneration :=
  found ← operationsWait (findGenerationShifts tenantId location body);
  if (MAX_GENERATION_SHIFTS <? length found)%nat then
    problem 422 "break_generation_too_large"
      "Choose at most 1,000 shifts for one lunch and break generation request." "Break generation validation failed"
  else if negb (scopeMatches (gr_shiftIds body) found) then
    problem 422 "invalid_break_generation_scope"
      "Every selected shift must belong to the requested active location and schedule scope."
      "Break generation validation failed"
  else if bool_decide (length found = 0%nat) then
    liftResult (generationProblem "Add at least one valid shift before generating lunch and breaks.")
  else
    data ← liftResult (buildBreakSchedule (map (savedInput p) found) p);
    mret (mkPrepared (lo_publicId <$> location) "shared_schedule" (bool_decide (gr_persist body = Some true)) p
            data (map snapshotOf found)).

Definition prepareInScope (tenantId : string) (body : LunchBreakGenerationRequest) : Tx PreparedGeneration :=
  _ ← operationsWait (assertFeatureEntitled tenantId lunch_breaks false);
  location ← findRequestedLocation tenantId (gr_locationId body);
  saved ← operationsWait (readPolicy tenantId);
  let p := normalizePolicy (match gr_policy body with
             | Some patch => spreadPatch saved patch
             | None => policyValue saved end) in
  match gr_shifts body with
  | Some ((_ :: _) as shifts) => prepareStandalone location p shifts
  | _ => prepareShared tenantId location p body
  end.

Definition prepareGeneration (identity : SessionIdentity) (body : LunchBreakGenerationRequest)
    : Tx PreparedGeneration :=
  scopeRun identity (fun current => prepareInScope (si_tenantId current) body).
End Prepare.

(** ** The completion *)

Definition creditReasonOf (requestId : string) : string := "Lunch/break generation (" +:+ requestId +:+ ")".

Definition scopeChanged {A} (detail : string) : Result A :=
  throwProblem 409 "generation_scope_changed" detail "Concurrent change".

(** [new Map(entries).get(key)]: of equal keys the last one counts. *)
Definition lastWith {A} (p : A -> bool) (l : list A) : option A := List.find p (rev l).

(** The shifts a persisted generation writes to. *)
Definition shiftAmong (tenantId : string) (ids : list string) (s : Shift) : bool :=
  bool_decide (sh_tenantId s = tenantId) && bool_decide (sh_deletedAt s = None) && bool_decide (sh_id s ∈ ids).

(** The shift still is what was computed from. *)
Definition snapshotHolds (locationId : option string) (current : list InternalShift) (snapshot : GenerationSnapshot)
    : bool :=
  match lastWith (fun row => bool_decide (sh_id (is_row row) = gs_id snapshot)) current with
  | None => false
  | Some row =>
      let s := is_row row in
      bool_decide (sh_publicId s = gs_publicId snapshot)
      && bool_decide (Some (is_locationPublicId row) = locationId)
      && bool_decide (sh_scheduleId s = gs_scheduleId snapshot)
      && bool_decide (toISOString (sh_startTime s) = gs_startTime snapshot)
      && bool_decide (toISOString (sh_endTime s) = gs_endTime snapshot)
      && bool_decide (toISOString (sh_updatedAt s) = gs_updatedAt snapshot)
      && (bool_decide (sh_scheduleId s = None)
          || match is_schedule row with Some r => bool_decide (sc_status r = DRAFT) | None => false end)
  end.

(** The [flatMap] of [persistGeneratedBreaks]. *)
Definition persistEntries (prepared : PreparedGeneration) : Result (list (string * BreakEntry)) :=
  let shiftIdOf publicId :=
    if textTruthy publicId
    then gs_id <$> lastWith (fun item => bool_decide (Some (gs_publicId item) = publicId)) (pg_snapshot prepared)
    else None in
  nested ← mapM (fun row => mapM (fun entry =>
    match shiftIdOf (lr_shiftId row) with
    | Some id => if isEmpty id
        then scopeChanged "A selected shift could not be resolved while saving lunch and breaks."
        else Ok (id, entry)
    | None => scopeChanged "A selected shift could not be resolved while saving lunch and breaks."
    end) (lr_breaks row)) (pg_data prepared);
  Ok (concat nested).

Definition snapshotJson (s : GenerationSnapshot) : Json :=
  JObj [field "id" (JStr (gs_id s)); field "publicId" (JStr (gs_publicId s));
        field "scheduleId" (orJNull (gs_scheduleId s)); field "startTime" (JStr (gs_startTime s));
        field "endTime" (JStr (gs_endTime s)); field "updatedAt" (JStr (gs_updatedAt s))].

Definition consumptionJson (settlement : Z * Z) : Json :=
  JObj [field "consumedCredits" (JNum settlement.1); field "newBalance" (JNum settlement.2);
        field "source" (JStr "credits")].

Definition generationResponse (prepared : PreparedGeneration) (settlement : Z * Z) : Json :=
  JObj [field "locationId" (orJNull (pg_locationId prepared)); field "source" (JStr (pg_source prepared));
        field "persisted" (JBool (pg_persisted prepared)); field "policy" (policyJson (pg_policy prepared));
        field "creditConsumption" (consumptionJson settlement);
        field "data" (JArr (map rowJson (pg_data prepared))); field "reused" (JBool false)].

(** The row a completion may still finish. *)
Definition renewable (tenantId bodyHash : string) (claim : GenerationClaim) (g : GenerationRow) : bool :=
  ownedBy tenantId claim g && bool_decide (gn_requestHash g = bodyHash).

Section Complete.
Context `{Env, Process, AuthorityEnv, Collation, LocaleCompare, Sha256}.

Definition assertPersistableGeneration (tenantId : string) (prepared : PreparedGeneration) : Tx unit :=
  let snapshot := pg_snapshot prepared in
  if negb (textTruthy (pg_locationId prepared)) || (length snapshot =? 0)%nat
     || negb (length snapshot =? length (pg_data prepared))%nat then
    liftResult (scopeChanged
      "The selected shifts changed before lunch and break generation could be saved. Retry the request.")
  else
    _ ← operationsWait (assertDraftSchedules tenantId (map gs_scheduleId snapshot));
    let shiftIds := sortBy compareText (map gs_id snapshot) in
    _ ← operationsWait lockRows;
    current ← operationsWait (findShifts (fun db s => shiftAmong tenantId shiftIds s && schedulableShift db s));
    if existsb (fun s => negb (snapshotHolds (pg_locationId prepared) current s)) snapshot
       || negb (length current =? length snapshot)%nat then
      liftResult (scopeChanged
        "One or more selected shifts changed after lunch and break calculation. Reload and retry.")
    else mret tt.

(** [createMany] over several shifts. *)
Definition createEntries (entries : list (string * BreakEntry)) : Tx unit :=
  forEach (fun e : string * BreakEntry => createBreaks e.1 [e.2]) entries.

Definition persistGeneratedBreaks (tenantId : string) (prepared : PreparedGeneration) : Tx unit :=
  entries ← liftResult (persistEntries prepared);
  let shiftIds := map gs_id (pg_snapshot prepared) in
  _ ← operationsWait (deleteMany (fun b => bool_decide (br_shiftId b ∈ shiftIds)));
  _ ← (if (0 <? length entries)%nat then operationsWait (createEntries entries) else mret tt);
  _ ← operationsWait (
        updatedAt ← now;
        updateMany (shiftAmong tenantId shiftIds) (touchShift updatedAt));
  operationsWait (incrementDraftRevisions tenantId (map gs_scheduleId (pg_snapshot prepared))).

Definition finishRow (claim : GenerationClaim) (response consumption snapshot : Json) : Tx unit :=
  completedAt ← now;
  count ← updateMany (fun g => bool_decide (gn_id g = gc_requestId claim))
            (succeed response consumption snapshot (creditId (gc_requestId claim)) completedAt);
  if (count =? 0)%nat then throwTx (DriverError "P2025" None) else mret tt.

Definition completeInScope (tenantId : string) (claim : GenerationClaim) (bodyHash : string)
    (prepared : PreparedGeneration) : Tx Json :=
  renewed ← operationsWait (
    nowMs ← now;
    updateMany (renewable tenantId bodyHash claim) (renew (nowMs + CLAIM_MS)));
  if negb (renewed =? 1)%nat then throwTx claimExpired else
  granted ← operationsWait (assertFeatureEntitled tenantId lunch_breaks true);
  entitlement ← match granted with
    | Some e => mret e
    | None => problem 403 "lunch_breaks_not_entitled" "Lunch and break generation requires usage credits."
                "Feature unavailable"
    end;
  _ ← operationsWait (lockSchedulingAggregate tenantId);
  _ ← (if pg_persisted prepared then operationsWait (assertPersistableGeneration tenantId prepared) else mret tt);
  settlement ← operationsWait (debitFeatureCredit assertCurrent tenantId entitlement (gc_requestId claim)
                 (creditReasonOf (gc_requestId claim)) (Some (creditId (gc_requestId claim))));
  let response := generationResponse prepared settlement in
  _ ← (if pg_persisted prepared then operationsWait (persistGeneratedBreaks tenantId prepared) else mret tt);
  _ ← operationsWait (finishRow claim response (consumptionJson settlement)
                        (JArr (map snapshotJson (pg_snapshot prepared))));
  mret response.

Definition completeGeneration (identity : SessionIdentity) (claim : GenerationClaim) (bodyHash : string)
    (prepared : PreparedGeneration) : Tx Json :=
  scopeRun identity (fun current => completeInScope (si_tenantId current) claim bodyHash prepared).

(** *** The request *)

(** What the [catch] of [generate] finds: an answer, or the error to rethrow. *)
Definition recoverGeneration (identity : SessionIdentity) (idempotencyKey bodyHash : string) (error : Exn)
    : World -> (Json + Exn) * World := fun w =>
  if isClaimExpired error || isOperationsReceiptRecovery error then
    match findGeneration identity (si_tenantId identity) idempotencyKey w with
    | (Ok (Some existing), w1) =>
        if bool_decide (gn_status existing = "SUCCEEDED") then
          match toStoredResponse (gn_response existing) with
          | Some response =>
              if bool_decide (gn_requestHash existing = bodyHash) then (inl (markReused response), w1)
              else (inr error, w1)
          | None => (inr error, w1)
          end
        else (inr error, w1)
    | (Ok None, w1) => (inr error, w1)
    | (Throw recoveryError, w1) => (inr recoveryError, w1)
    end
  else (inr error, w).

Definition settleFailure (identity : SessionIdentity) (claim : GenerationClaim) (idempotencyKey bodyHash : string)
    (attempt : Tx Json) : Tx Json := fun w =>
  match attempt w with
  | (Ok response, w1) => (Ok response, w1)
  | (Throw error, w1) =>
      match recoverGeneration identity idempotencyKey bodyHash error w1 with
      | (inl response, w2) => (Ok response, w2)
      | (inr failure, w2) =>
          let '(_, w3) := failGeneration (si_tenantId identity) claim failure w2 in (Throw failure, w3)
      end
  end.

Definition generate (identity : SessionIdentity) (body : LunchBreakGenerationRequest)
    (idempotencyKeyValue : option string) : Tx Json :=
  let identity := operationsIdentity identity in
  idempotencyKey ← liftResult (requireIdempotencyKey idempotencyKeyValue);
  _ ← liftResult (assertGenerationRequest body);
  let bodyHash := requestHash (generationJson body) in
  _ ← prepareOperationsAuthority identity;
  claimed ← claimGeneration identity (si_tenantId identity) idempotencyKey bodyHash;
  match claimed with
  | AlreadyAnswered response => mret response
  | Claimed claim =>
      settleFailure identity claim idempotencyKey bodyHash (
        prepared ← prepareGeneration identity body;
        completeGeneration identity claim bodyHash prepared)
  end.
End Complete.

(** ** What the transactions do *)

Section ClaimFacts.
Context `{Env, Process, AuthorityEnv, Collation, LocaleCompare, Sha256}.

(** How a claim that returned left the table. *)
Definition claimOutcome (tenantId keyHash bodyHash claimToken : string) (r : ClaimOutcome) (db db' : Db) : Prop :=
  match r with
  | AlreadyAnswered response =>
      db' = db /\ exists g stored, List.find (forKey tenantId keyHash) (db_generations db) = Some g /\
        gn_requestHash g = bodyHash /\ gn_status g = "SUCCEEDED" /\
        toStoredResponse (gn_response g) = Some stored /\ response = markReused stored
  | Claimed claim =>
      gc_claimToken claim = claimToken /\
      ((exists t, let g := newGeneration (gc_requestId claim) tenantId keyHash bodyHash claimToken t in
          List.find (forKey tenantId keyHash) (db_generations db) = None /\
          existsb (conflicts g) (db_generations db) = false /\
          db' = withRows (db_generations db ++ [g]) db) \/
       (exists g nowMs, List.find (forKey tenantId keyHash) (db_generations db) = Some g /\
          gn_requestHash g = bodyHash /\ gn_id g = gc_requestId claim /\ gn_status g <> "SUCCEEDED" /\
          length (List.filter (reclaimable (gn_id g) tenantId bodyHash nowMs) (db_generations db)) = 1%nat /\
          db' = withRows (map (fun x => if reclaimable (gn_id g) tenantId bodyHash nowMs x
                                        then reclaim claimToken (nowMs + CLAIM_MS) x else x) (db_generations db)) db))
  end.

Lemma claimInScope_Ok tenantId keyHash bodyHash claimToken allowCreate r w w' :
  claimInScope tenantId keyHash bodyHash claimToken allowCreate w = (Ok r, w') ->
  claimOutcome tenantId keyHash bodyHash claimToken r (w_db w) (w_db w').
Proof.
  unfold claimInScope, problem, throwProblemTx.
  intros (found & w1 & (w2 & [-> E2]%findFirst_Ok & E1)%operationsWait_Ok & Hr)%Tx_bind_Ok.
  cbn [w_db tick rows Table_Generation] in *. destruct (List.find _ _) as [g|] eqn:Ef in Hr.
  - destruct (negb _) eqn:Eh; [by apply throwTx_Ok in Hr|]. apply negb_false_iff, bool_decide_eq_true in Eh.
    unfold takeOver, problem, throwProblemTx in Hr. case_bool_decide as Es.
    { destruct (toStoredResponse _) as [stored|] eqn:Et; [|by apply throwTx_Ok in Hr].
      apply Tx_ret_Ok in Hr as [<- <-]. split; [congruence|]. by exists g, stored. }
    apply Tx_bind_Ok in Hr as (nowMs & w3 & [-> ->]%now_Ok & Hr).
    destruct (_ && _) in Hr; [by apply throwTx_Ok in Hr|]. destruct (_ && _) in Hr; [by apply throwTx_Ok in Hr|].
    apply Tx_bind_Ok in Hr as (n & w4 & (w5 & [-> E5]%updateMany_Ok & E4)%operationsWait_Ok & Hr).
    destruct (negb _) eqn:En in Hr; [by apply throwTx_Ok in Hr|]. apply Tx_ret_Ok in Hr as [<- <-].
    cbn [w_db tick rows Table_Generation] in *. apply negb_false_iff, Nat.eqb_eq in En.
    split; [done|]. right. exists g, (nowAt (w_tick w1)). split_and!; try done; congruence.
  - destruct (negb _); [by apply throwTx_Ok in Hr|].
    apply Tx_bind_Ok in Hr as (nowMs & w3 & [-> ->]%now_Ok & Hr).
    apply Tx_bind_Ok in Hr as (id & w4 & [-> ->]%randomUUID_Ok & Hr).
    apply Tx_bind_Ok in Hr as (? & w5 & (w6 & [Ec E6]%createRow_Ok & E5)%operationsWait_Ok & [<- <-]%Tx_ret_Ok).
    cbn [w_db tick rows Table_Generation] in *. split; [done|]. left.
    exists (nowAt (w_tick w1) + CLAIM_MS). cbn [gc_requestId]. split_and!; [done|congruence|congruence].
Qed.

(** A claim, its retry included, ends as one of its attempts. *)
Lemma claimGeneration_Ok identity tenantId key bodyHash r w w' :
  claimGeneration identity tenantId key bodyHash w = (Ok r, w') ->
  claimOutcome tenantId (sha256 key) bodyHash (uuidAt (w_tick w)) r (w_db w) (w_db w').
Proof.
  unfold claimGeneration. intros (token & w1 & [-> ->]%randomUUID_Ok & Hr)%Tx_bind_Ok.
  unfold claimTwice in Hr.
  destruct (scopeRun identity _ (tick w)) as [[x|e] w2] eqn:E1.
  - injection Hr as -> ->. apply scopeRun_Ok in E1 as (c & w3 & w4 & _ & Hc%claimInScope_Ok & E3 & E4).
    by rewrite E3, <- E4 in Hc.
  - apply scopeRun_Throw in E1. case_bool_decide; [|done].
    apply scopeRun_Ok in Hr as (c & w3 & w4 & _ & Hc%claimInScope_Ok & E3 & E4).
    rewrite E3, <- E4, E1 in Hc. exact Hc.
Qed.

Lemma claimGeneration_Throw identity tenantId key bodyHash e w w' :
  claimGeneration identity tenantId key bodyHash w = (Throw e, w') -> w_db w' = w_db w.
Proof.
  unfold claimGeneration, mbind, Tx_bind, randomUUID, claimTwice.
  destruct (scopeRun identity _ (tick w)) as [[x|e1] w2] eqn:E1; [done|]. apply scopeRun_Throw in E1.
  case_bool_decide; [|by intros [= _ <-]]. intros E2%scopeRun_Throw. cbn in E1. congruence.
Qed.

(** Releasing a claim touches the rows it owns and nothing else. *)
Lemma failGeneration_effect tenantId claim error w :
  let db' := w_db (failGeneration tenantId claim error w).2 in
  db' = w_db w \/ exists st msg t, db' = withRows
    (map (fun g => if ownedBy tenantId claim g then markFailed st msg t g else g) (db_generations (w_db w))) (w_db w).
Proof.
  unfold failGeneration. destruct (match error with Problem p => _ | _ => _ end) as [st detail].
  cbv zeta. cbn [snd].
  match goal with |- context [retryPayrollSerializableMutation ?m w] => set (run := m) end.
  assert (Hrun : forall w0 n w1, run w0 = (Ok n, w1) -> exists st msg t, w_db w1 = withRows
    (map (fun g => if ownedBy tenantId claim g then markFailed st msg t g else g) (db_generations (w_db w0))) (w_db w0)).
  { intros w0 n w1 (wi & wo & Ei & Hr & ->)%withTenant_Ok.
    apply Tx_bind_Ok in Hr as (t & w2 & [-> ->]%now_Ok & [_ E2]%updateMany_Ok).
    cbn [w_db tick rows Table_Generation] in E2. rewrite Ei in E2. by eexists _, _, _. }
  destruct (retryPayrollSerializableMutation run w) as [[n|e] w1] eqn:E; cbn [snd].
  - right. apply retry_Ok in E as [E|(e & w2 & E1 & E2)]; [by eapply Hrun|].
    apply Hrun in E2. unfold run in E1. apply withTenant_rollback in E1. by rewrite E1 in E2.
  - left. eapply retry_Throw; [|exact E]. intros. by eapply withTenant_rollback.
Qed.
End ClaimFacts.

(** A stored row of one generated entry. *)
Definition entryStored (e : string * BreakEntry) (b : BreakRow) : Prop := br_shiftId b = e.1 /\ stores e.2 (storedBreak b).

(** The breaks after a generation was saved: those of the shifts it covers are
    exactly the generated ones. *)
Definition breaksGenerated (tenantId : string) (prepared : PreparedGeneration) (db db' : Db) : Prop :=
  exists entries new, persistEntries prepared = Ok entries /\ Forall2 entryStored entries new /\
    db_breaks db' = List.filter (fun b => negb (bool_decide (br_shiftId b ∈ map gs_id (pg_snapshot prepared))))
                      (db_breaks db) ++ new /\
    db_schedules db' = map (fun s => if liveDraftAmong tenantId (scheduleIdSet (map gs_scheduleId (pg_snapshot prepared))) s
                                     then nextRevision s else s) (db_schedules db).

(** The shifts still are what the rows were computed from. *)
Definition snapshotCurrent (tenantId : string) (prepared : PreparedGeneration) (db : Db) : Prop :=
  length (pg_snapshot prepared) = length (pg_data prepared) /\
  Forall (fun snap => exists s, s ∈ db_shifts db /\ sh_id s = gs_id snap /\ sh_tenantId s = tenantId /\
    sh_deletedAt s = None /\ sh_publicId s = gs_publicId snap /\ sh_scheduleId s = gs_scheduleId snap /\
    toISOString (sh_startTime s) = gs_startTime snap /\ toISOString (sh_endTime s) = gs_endTime snap /\
    (sh_scheduleId s = None \/ exists r, scheduleOfShift db s = Some r /\ sc_status r = DRAFT)) (pg_snapshot prepared).

Section CompleteFacts.
Context `{Env, Process, AuthorityEnv, Collation, LocaleCompare, Sha256}.

Lemma createEntries_Ok entries u w w' :
  createEntries entries w = (Ok u, w') ->
  exists new, w_db w' = withRows (db_breaks (w_db w) ++ new) (w_db w) /\ Forall2 entryStored entries new.
Proof.
  unfold createEntries. revert w. induction entries as [|e entries IH]; cbn [forEach]; intros w Hr.
  - apply Tx_ret_Ok in Hr as [_ <-]. exists []. split; [rewrite app_nil_r; by destruct (w_db w)|constructor].
  - apply Tx_bind_Ok in Hr as (? & w1 & (new1 & E1 & Hid & Hst)%createBreaks_Ok & (new2 & E2 & Hst2)%IH).
    inversion Hst as [|? ? ? ? Hs Hn Eq1 Eq2]; subst. inversion Hn; subst.
    destruct new1 as [|b [|? ?]]; try done. injection Eq2 as ->. inversion Hid; subst.
    exists (b :: new2). split; [|constructor; [split; done|done]].
    rewrite E2, E1. destruct (w_db w). cbn. by rewrite <- app_assoc.
Qed.

Lemma persistGeneratedBreaks_Ok tenantId prepared u w w' :
  persistGeneratedBreaks tenantId prepared w = (Ok u, w') ->
  breaksGenerated tenantId prepared (w_db w) (w_db w') /\
  exists breaks shifts scheds, w_db w' = withRows (R := Schedule) scheds (withRows (R := Shift) shifts
    (withRows (R := BreakRow) breaks (w_db w))).
Proof.
  unfold persistGeneratedBreaks. intros (entries & w1 & [He <-]%liftResult_Ok & Hr)%Tx_bind_Ok.
  apply Tx_bind_Ok in Hr as (? & w2 & (w3 & E3%deleteMany_Ok & E2)%operationsWait_Ok & Hr).
  apply Tx_bind_Ok in Hr as (? & w4 & Hc & Hr).
  assert (Hnew : exists new, w_db w4 = withRows (db_breaks (w_db w2) ++ new) (w_db w2) /\ Forall2 entryStored entries new).
  { destruct (0 <? length entries)%nat eqn:El.
    - by apply operationsWait_Ok in Hc as (w5 & Hc%createEntries_Ok & ->).
    - apply Tx_ret_Ok in Hc as [_ <-]. exists []. split; [rewrite app_nil_r; by destruct (w_db w2)|].
      destruct entries; [constructor|done]. }
  destruct Hnew as (new & E4 & Hst). clear Hc.
  apply Tx_bind_Ok in Hr as (? & w5 & (w6 & Ht & E5)%operationsWait_Ok & (w7 & E7%incrementDraftRevisions_Ok & E6)%operationsWait_Ok).
  apply Tx_bind_Ok in Ht as (t & w8 & [-> ->]%now_Ok & [_ E8]%updateMany_Ok).
  cbn [w_db tick rows Table_Break Table_Shift] in *. rewrite E6, E7, E5, E8, E4, E2, E3. clear -He Hst. split.
  - exists entries, new. split; [done|]. split; [done|]. by destruct (w_db w).
  - destruct (w_db w). eexists _, _, _. cbn. reflexivity.
Qed.

Lemma assertPersistable_ReadOnly tenantId prepared : ReadOnly (assertPersistableGeneration tenantId prepared).
Proof.
  unfold assertPersistableGeneration. apply ReadOnly_if; [auto with readonly|].
  apply ReadOnly_bind; [apply ReadOnly_wait, assertDraftSchedules_ReadOnly|intros _].
  apply ReadOnly_bind; [apply ReadOnly_wait, lockRows_ReadOnly|intros _].
  apply ReadOnly_bind; [unfold findShifts; auto with readonly|intros current]. auto with readonly.
Qed.

Lemma assertPersistable_Ok tenantId prepared u w w' :
  assertPersistableGeneration tenantId prepared w = (Ok u, w') -> snapshotCurrent tenantId prepared (w_db w).
Proof.
  unfold assertPersistableGeneration, scopeChanged, throwProblem. destruct (_ || _) eqn:Eb; [by intros [[=] _]%liftResult_Ok|].
  apply orb_false_iff in Eb as [_ El%negb_false_iff]. apply Nat.eqb_eq in El.
  intros (? & w1 & (w2 & E2%(ReadOnly_Ok _ _ _ _ (assertDraftSchedules_ReadOnly _ _)) & E1)%operationsWait_Ok & Hr)%Tx_bind_Ok.
  apply Tx_bind_Ok in Hr as (? & w3 & (w4 & E4%lockRows_Ok & E3)%operationsWait_Ok & Hr).
  apply Tx_bind_Ok in Hr as (current & w5 & (w6 & [E6 ->]%findShifts_Ok & E5)%operationsWait_Ok & Hr).
  cbn [w_db tick] in *. assert (E : w_db w3 = w_db w) by congruence. rewrite E in Hr.
  destruct (_ || _) eqn:Eb in Hr; [by apply liftResult_Ok in Hr as [[=] _]|].
  apply orb_false_iff in Eb as [Eb _]. split; [done|]. apply Forall_forall. intros snap Hin.
  rewrite <- not_true_iff_false, existsb_exists in Eb.
  match type of Eb with context [snapshotHolds _ ?cur] => set (current := cur) in * end.
  destruct (snapshotHolds (pg_locationId prepared) current snap) eqn:Eh;
    [|exfalso; apply Eb; exists snap; split; [by apply list_elem_of_In|by rewrite Eh]].
  unfold snapshotHolds, lastWith in Eh. destruct (List.find _ (rev _)) as [row|] eqn:Ef; [|done].
  apply find_some in Ef as [Hrow Hid]. apply in_rev in Hrow. unfold current in Hrow. apply in_map_iff in Hrow as (s & <- & Hs).
  apply filter_In in Hs as [Hs Hw]. unfold shiftAmong in Hw. cbn [is_row is_schedule internalShift] in *.
  rewrite !andb_true_iff, !bool_decide_eq_true in *. exists s. split_and!; try tauto; [by apply list_elem_of_In|].
  destruct Eh as [_ [Hd|Hd]%orb_true_iff]; [left; by apply bool_decide_eq_true in Hd|right].
  destruct (scheduleOfShift _ s) as [r|]; [|done]. exists r. by apply bool_decide_eq_true in Hd.
Qed.
End CompleteFacts.

(** The outcome of a completion. *)
Record Completed (tenantId : string) (claim : GenerationClaim) (bodyHash : string) (prepared : PreparedGeneration)
    (response : Json) (db db' : Db) : Prop := mkCompleted {
  co_owned : exists g, g ∈ db_generations db /\ renewable tenantId bodyHash claim g = true;
  co_credit : exists settlement before after,
    db_tenants before = db_tenants db /\ db_credits before = db_credits db /\
    (replayed (creditId (gc_requestId claim)) tenantId (creditReasonOf (gc_requestId claim)) 1 settlement before after \/
     debited (creditId (gc_requestId claim)) tenantId (creditReasonOf (gc_requestId claim)) 1 settlement before after) /\
    db_tenants db' = db_tenants after /\ db_credits db' = db_credits after /\
    response = generationResponse prepared settlement;
  co_row : exists consumption snapshot t, db_generations db' = map (fun g =>
    if bool_decide (gn_id g = gc_requestId claim)
    then succeed response consumption snapshot (creditId (gc_requestId claim)) t g else g) (db_generations db);
  co_breaks : if pg_persisted prepared
    then breaksGenerated tenantId prepared db db' /\ snapshotCurrent tenantId prepared db
    else db_breaks db' = db_breaks db /\ db_schedules db' = db_schedules db /\ db_shifts db' = db_shifts db;
}.

Lemma snapshotCurrent_frame tenantId prepared db gens :
  snapshotCurrent tenantId prepared (withRows (R := GenerationRow) gens db) -> snapshotCurrent tenantId prepared db.
Proof. by destruct db. Qed.

Section CompletionFacts.
Context `{Env, Process, AuthorityEnv, Collation, LocaleCompare, Sha256}.

(** Renewing a claim is undone by finishing it. *)
Lemma renew_then_finish tenantId bodyHash claim t response consumption snapshot completedAt (gens : list GenerationRow) :
  map (fun g => if bool_decide (gn_id g = gc_requestId claim)
                then succeed response consumption snapshot (creditId (gc_requestId claim)) completedAt g else g)
    (map (fun g => if renewable tenantId bodyHash claim g then renew t g else g) gens) =
  map (fun g => if bool_decide (gn_id g = gc_requestId claim)
                then succeed response consumption snapshot (creditId (gc_requestId claim)) completedAt g else g) gens.
Proof.
  rewrite map_map. apply map_ext. intros g. destruct (renewable _ _ _ g) eqn:E; [|done].
  unfold renewable, ownedBy in E. rewrite !andb_true_iff, !bool_decide_eq_true in E.
  by rewrite !bool_decide_true by (cbn; tauto).
Qed.

Lemma finishRow_Ok claim response consumption snapshot u w w' :
  finishRow claim response consumption snapshot w = (Ok u, w') ->
  exists t, w_db w' = withRows (map (fun g => if bool_decide (gn_id g = gc_requestId claim)
    then succeed response consumption snapshot (creditId (gc_requestId claim)) t g else g)
    (db_generations (w_db w))) (w_db w).
Proof.
  unfold finishRow. intros (t & w1 & [-> ->]%now_Ok & (n & w2 & [_ E2]%updateMany_Ok & Hr)%Tx_bind_Ok)%Tx_bind_Ok.
  destruct (_ =? 0)%nat; [by apply throwTx_Ok in Hr|]. apply Tx_ret_Ok in Hr as [_ <-]. by eexists.
Qed.

Lemma completeInScope_Ok tenantId claim bodyHash prepared r w w' :
  completeInScope tenantId claim bodyHash prepared w = (Ok r, w') ->
  Completed tenantId claim bodyHash prepared r (w_db w) (w_db w').
Proof.
  unfold completeInScope, problem, throwProblemTx.
  intros (n & w1 & (w2 & Hn & E1)%operationsWait_Ok & Hr)%Tx_bind_Ok.
  apply Tx_bind_Ok in Hn as (t & w3 & [-> ->]%now_Ok & [-> E2]%updateMany_Ok).
  destruct (negb _) eqn:Eo; [by apply throwTx_Ok in Hr|]. apply negb_false_iff, Nat.eqb_eq, filter_one in Eo.
  apply Tx_bind_Ok in Hr as (granted & w4 & (w5 & [E5 ->]%assertFeatureEntitled_Ok & E4)%operationsWait_Ok & Hr).
  apply Tx_bind_Ok in Hr as (ent & w6 & [<- <-]%Tx_ret_Ok & Hr).
  apply Tx_bind_Ok in Hr as (? & w7 & (w8 & E8%lockRows_Ok & E7)%operationsWait_Ok & Hr).
  apply Tx_bind_Ok in Hr as (? & w9 & Hp & Hr).
  assert (E9 : w_db w9 = w_db w7 /\ (pg_persisted prepared = true -> snapshotCurrent tenantId prepared (w_db w7))).
  { destruct (pg_persisted prepared).
    - apply operationsWait_Ok in Hp as (w10 & Hp & E9). split; [|intros _; by apply assertPersistable_Ok in Hp].
      by rewrite E9, (ReadOnly_Ok _ _ _ _ (assertPersistable_ReadOnly _ _) Hp).
    - by apply Tx_ret_Ok in Hp as [_ <-]. }
  destruct E9 as [E9 Hcur]. clear Hp.
  apply Tx_bind_Ok in Hr as (settlement & w10 & (w11 & Hd & E10)%operationsWait_Ok & Hr).
  apply (debit_cases _ ReadOnly_current) in Hd. cbn [default en_creditCost w_db tick] in Hd.
  apply Tx_bind_Ok in Hr as (? & w12 & Hp & Hr).
  apply Tx_bind_Ok in Hr as (? & w13 & (w14 & [completedAt Ef]%finishRow_Ok & E13)%operationsWait_Ok & [<- <-]%Tx_ret_Ok).
  cbn [w_db tick rows Table_Generation] in *.
  set (gens := map _ (db_generations (w_db w))) in E2.
  assert (Eb : w_db w9 = withRows gens (w_db w)) by congruence.
  assert (Eb7 : w_db w7 = withRows gens (w_db w)) by congruence.
  destruct (debit_frame _ _ _ _ _ _ _ Hd) as (ts & cs & Epaid). rewrite Eb in Hd, Epaid.
  assert (E12 : exists breaks shifts scheds, w_db w12 = withRows (R := Schedule) scheds
      (withRows (R := Shift) shifts (withRows (R := BreakRow) breaks (w_db w11))) /\
    (if pg_persisted prepared then breaksGenerated tenantId prepared (w_db w11) (w_db w12)
     else w_db w12 = w_db w11)).
  { destruct (pg_persisted prepared).
    - apply operationsWait_Ok in Hp as (w15 & [Hb (b & s & c & E15)]%persistGeneratedBreaks_Ok & E12).
      cbn [w_db tick] in *. rewrite E10 in Hb, E15. exists b, s, c. rewrite E12. done.
    - apply Tx_ret_Ok in Hp as [_ <-]. exists (db_breaks (w_db w11)), (db_shifts (w_db w11)), (db_schedules (w_db w11)).
      rewrite E10. split; [by destruct (w_db w11)|done]. }
  destruct E12 as (breaks & shifts & scheds & E12 & Hbr). clear Hp.
  assert (Efin : w_db w13 = withRows (map (fun g => if bool_decide (gn_id g = gc_requestId claim)
    then succeed (generationResponse prepared settlement) (consumptionJson settlement)
           (JArr (map snapshotJson (pg_snapshot prepared))) (creditId (gc_requestId claim)) completedAt g else g)
    (db_generations (w_db w))) (w_db w12)).
  { rewrite E13, Ef, E12, Epaid. rewrite <- (renew_then_finish tenantId bodyHash claim (nowAt (w_tick (tick w)) + CLAIM_MS)
      _ _ _ _ (db_generations (w_db w))).
    fold gens. by destruct (w_db w). }
  clear Ef E13 E1 E2 E4 E5 E7 E8 E9 E10. split.
  - destruct Eo as (g & Hg & Ho). by exists g.
  - exists settlement, (withRows gens (w_db w)), (w_db w11). split_and!; try done; rewrite ?Efin, ?E12; by destruct (w_db w), (w_db w11).
  - exists (consumptionJson settlement), (JArr (map snapshotJson (pg_snapshot prepared))), completedAt.
    rewrite Efin. by destruct (w_db w12).
  - destruct (pg_persisted prepared).
    + specialize (Hcur eq_refl). rewrite Eb7 in Hcur. split; [|by apply snapshotCurrent_frame in Hcur].
      destruct Hbr as (entries & new & He & Hst & Hb & Hs). exists entries, new. split_and!; [done|done|..].
      * rewrite Efin. transitivity (db_breaks (w_db w12)); [by destruct (w_db w12)|]. rewrite Hb, Epaid. by destruct (w_db w).
      * rewrite Efin. transitivity (db_schedules (w_db w12)); [by destruct (w_db w12)|]. rewrite Hs, Epaid. by destruct (w_db w).
    + rewrite Efin, Hbr, Epaid. by destruct (w_db w).
Qed.

Lemma completeGeneration_Ok identity claim bodyHash prepared r w w' :
  completeGeneration identity claim bodyHash prepared w = (Ok r, w') ->
  Completed (si_tenantId identity) claim bodyHash prepared r (w_db w) (w_db w').
Proof. intros (c & w1 & w2 & Ht & Hr%completeInScope_Ok & E1 & E2)%scopeRun_Ok. by rewrite Ht, E1, <- E2 in Hr. Qed.
End CompletionFacts.

(** A completion that returns did all of it at once: it still owned the
    pending request, one credit was settled under the request's own
    identifier, the row became answered with the very response returned, and a
    persisted generation replaced the breaks of exactly its shifts by the
    generated ones, after checking inside the transaction that no shift had
    moved and no schedule was published since the computation; otherwise
    shifts, schedules and breaks are untouched. *)
Theorem completeGeneration_writes `{Env, Process, AuthorityEnv, Collation}
    identity claim bodyHash prepared r w w' :
  completeGeneration identity claim bodyHash prepared w = (Ok r, w') ->
  Completed (si_tenantId identity) claim bodyHash prepared r (w_db w) (w_db w').
Proof. apply completeGeneration_Ok. Qed.

(** ** Concrete instances *)

Definition sampleRequest : LunchBreakGenerationRequest :=
  mkGenerationRequest None (Some "loc-public") (Some ["s1-public"]) (Some true) None None.
Definition sampleGenerationHash : string :=
  @requestHash codeUnitCollation ScheduleChanges.plainDigest (generationJson sampleRequest).

#[local] Notation sampleClaimRun t w :=
  (@claimGeneration (calm t) (actingAs ScheduleChanges.sampleManager) ScheduleChanges.plainDigest
    ScheduleChanges.sampleManager "t1" "key-00001" sampleGenerationHash w).
#[local] Notation samplePrepareRun w :=
  (@prepareGeneration (calm 1772409600000) noBeta (actingAs ScheduleChanges.sampleManager)
    ScheduleChanges.codeUnitOrder ScheduleChanges.sampleManager sampleRequest w).
#[local] Notation sampleCompleteRun c p w :=
  (@completeGeneration (calm 1772409600000) noBeta (actingAs ScheduleChanges.sampleManager)
    ScheduleChanges.codeUnitOrder ScheduleChanges.sampleManager c sampleGenerationHash p w).

Definition sampleClaimed : World := (sampleClaimRun 1772409600000 sampleStart).2.
Definition sampleClaim : GenerationClaim :=
  match (sampleClaimRun 1772409600000 sampleStart).1 with Ok (Claimed c) => c | _ => mkClaim "" "" end.
Definition samplePrepared : PreparedGeneration :=
  match (samplePrepareRun sampleClaimed).1 with
  | Ok p => p
  | Throw _ => mkPrepared None "" false DEFAULT_POLICY [] []
  end.
Definition sampleCompletion : Json := ScheduleChanges.okJson (sampleCompleteRun sampleClaim samplePrepared sampleClaimed).1.
Definition sampleCompleted : World := (sampleCompleteRun sampleClaim samplePrepared sampleClaimed).2.

Example sampleCompleted_breaks :
  map (fun b => (br_shiftId b, br_type b, br_startTime b)) (db_breaks (w_db sampleCompleted)) =
    [("s1", Some "BREAK1", 1772445600000); ("s1", Some "LUNCH", 1772452800000); ("s1", Some "BREAK2", 1772461800000)] /\
  map gn_status (db_generations (w_db sampleCompleted)) = ["SUCCEEDED"] /\
  map tn_usageCredits (db_tenants (w_db sampleCompleted)) = [4].
Proof. split_and!; vm_compute; reflexivity. Qed.

Lemma completeGeneration_writes_witness :
  pg_persisted samplePrepared = true /\
  Completed "t1" sampleClaim sampleGenerationHash samplePrepared sampleCompletion (w_db sampleClaimed) (w_db sampleCompleted).
Proof.
  split; [vm_compute; reflexivity|].
  apply (@completeGeneration_writes (calm 1772409600000) noBeta (actingAs ScheduleChanges.sampleManager)
    ScheduleChanges.codeUnitOrder ScheduleChanges.sampleManager sampleClaim sampleGenerationHash samplePrepared sampleCompletion sampleClaimed sampleCompleted).
  vm_compute. reflexivity.
Defined.
