(* ===== verification/GenerationProtocol.v ===== *)
(** * The generation protocol

    Generation requests run in several transactions, with other requests
    between them.  This file makes the transactions of LunchBreakGeneration the
    steps of a transition system, proves by induction on reachability that
    every generation is charged exactly once and that an answer never changes,
    and that a request whose claim was taken over can neither finish nor fail
    it. *)

From S2P Require Import ScheduleChanges.
From S2P Require Import Prelude JsStd JsCollections JsDate ContractHelpers LunchBreakPolicy.
From S2P Require Import LunchBreakPlacement LunchBreaks PayrollRecords Database.
From S2P Require Import FeatureEntitlement Authority.
From S2P Require Import ScheduleStore LunchBreakStore ShiftBreaks LunchBreakGeneration.

(** ** Interleavings

    A state is the database; a step is one transaction of any request, in any
    environment, whether it commits or fails.  Steps of the rest of the system
    leave the generation requests alone and only append to the ledger, never
    under the identifier of a generation. *)

Inductive gstep : Db -> Db -> Prop :=
  | step_claim `{Env, AuthorityEnv} identity tenantId keyHash bodyHash claimToken allowCreate w r w' :
      scopeRun identity (fun _ => claimInScope tenantId keyHash bodyHash claimToken allowCreate) w = (r, w') ->
      gstep (w_db w) (w_db w')
  | step_complete `{Env, Process, AuthorityEnv, Collation} identity claim bodyHash prepared w r w' :
      completeGeneration identity claim bodyHash prepared w = (r, w') ->
      gstep (w_db w) (w_db w')
  | step_fail `{Env} tenantId claim error w :
      gstep (w_db w) (w_db (failGeneration tenantId claim error w).2)
  | step_other db db' added :
      db_generations db' = db_generations db ->
      db_credits db' = db_credits db ++ added ->
      Forall (fun c => forall id, ct_id c <> creditId id) added ->
      NoDup (map ct_id (db_credits db')) ->
      gstep db db'.

Definition succeeded (g : GenerationRow) : Prop := gn_status g = "SUCCEEDED".

#[global] Instance succeeded_dec g : base.Decision (succeeded g).
Proof. unfold succeeded. apply _. Defined.

Definition requestKey (g : GenerationRow) : string * string := (gn_tenantId g, gn_requestKeyHash g).

(** The two unique indexes of the table. *)
Definition uniqueGenerations (gens : list GenerationRow) : Prop :=
  NoDup (map gn_id gens) /\ NoDup (map requestKey gens).

(** The same request, whatever became of it. *)
Definition sameRequest (g g' : GenerationRow) : Prop :=
  gn_id g' = gn_id g /\ requestKey g' = requestKey g /\ gn_requestHash g' = gn_requestHash g.

(** How the table may change: rows are never removed, an answered request is
    never touched, and at most the [finished] one becomes answered. *)
Definition evolves (finished : option string) (gens gens' : list GenerationRow) : Prop :=
  (uniqueGenerations gens -> uniqueGenerations gens') /\
  exists f added, gens' = map f gens ++ added /\ Forall (fun g => ~ succeeded g) added /\
    forall g, g ∈ gens -> sameRequest g (f g) /\ (succeeded g -> finished <> Some (gn_id g) -> f g = g) /\
      (succeeded (f g) -> succeeded g \/ finished = Some (gn_id g)).

Lemma evolves_map finished (p : GenerationRow -> bool) f gens :
  (forall g, sameRequest g (f g)) ->
  (forall g, g ∈ gens -> p g = true -> succeeded g -> finished = Some (gn_id g)) ->
  (forall g, g ∈ gens -> p g = true -> succeeded (f g) -> finished = Some (gn_id g)) ->
  evolves finished gens (map (fun g => if p g then f g else g) gens).
Proof.
  intros Hs Hf Hn. split.
  - intros [H1 H2]. split; rewrite map_map;
      [rewrite (map_ext _ gn_id)|rewrite (map_ext _ requestKey)]; try done;
      intros g; destruct (p g); try done; apply Hs.
  - exists (fun g => if p g then f g else g), []. rewrite app_nil_r. split; [done|]. split; [constructor|].
    intros g Hg. destruct (p g) eqn:E; [|split; [done|split; [done|by left]]].
    split; [apply Hs|]. split; [intros Hd Hne; by destruct Hne; apply Hf|]. intros Hd. right. by apply Hn.
Qed.

Lemma evolves_refl gens : evolves None gens gens.
Proof.
  split; [done|]. exists id, []. rewrite app_nil_r, map_id. split; [done|]. split; [constructor|].
  intros g _. split; [done|]. split; [done|]. by left.
Qed.

Lemma evolves_snoc gens g :
  existsb (conflicts g) gens = false -> ~ succeeded g -> evolves None gens (gens ++ [g]).
Proof.
  intros Hc Hs. split.
  - assert (Hno : forall x, x ∈ gens -> gn_id x <> gn_id g /\ requestKey x <> requestKey g).
    { intros x Hx. rewrite <- not_true_iff_false, existsb_exists in Hc.
      destruct (conflicts g x) eqn:E; [exfalso; apply Hc; exists x; split; [by apply list_elem_of_In|done]|].
      cbn in E. apply orb_false_iff in E as [E1 E2]. apply bool_decide_eq_false in E1. split; [congruence|].
      intros [= E3 E4]. rewrite E3, E4, !bool_decide_true in E2 by done. done. }
    intros [H1 H2]. split; rewrite map_app; apply NoDup_app; (split; [done|]); (split; [|apply NoDup_singleton]);
      intros i (x & -> & Hx)%list_elem_of_fmap E%list_elem_of_singleton; destruct (Hno x Hx) as [E1 E2];
      first [by apply E1|by apply E2].
  - exists id, [g]. rewrite map_id. split; [done|]. split; [by constructor|].
    intros x _. split; [done|]. split; [done|]. by left.
Qed.

Lemma reclaim_same token t g : sameRequest g (reclaim token t g).
Proof. done. Qed.
Lemma markFailed_same st msg t g : sameRequest g (markFailed st msg t g).
Proof. done. Qed.
Lemma succeed_same r c s i t g : sameRequest g (succeed r c s i t g).
Proof. done. Qed.

Lemma owned_pending tenantId claim g :
  ownedBy tenantId claim g = true -> gn_id g = gc_requestId claim /\ gn_tenantId g = tenantId /\
    gn_status g = "PENDING" /\ gn_claimToken g = Some (gc_claimToken claim).
Proof. unfold ownedBy. rewrite !andb_true_iff, !bool_decide_eq_true. tauto. Qed.

Lemma renewable_owned tenantId bodyHash claim g :
  renewable tenantId bodyHash claim g = true -> ownedBy tenantId claim g = true /\ gn_requestHash g = bodyHash.
Proof. unfold renewable. by rewrite andb_true_iff, bool_decide_eq_true. Qed.

Lemma reclaimable_open id tenantId bodyHash nowMs g :
  reclaimable id tenantId bodyHash nowMs g = true -> gn_id g = id /\ ~ succeeded g.
Proof.
  unfold reclaimable, succeeded. rewrite !andb_true_iff, orb_true_iff, andb_true_iff, !bool_decide_eq_true.
  intros [[[H1 _] _] [H2|[H2 _]]]; split; congruence.
Qed.

Lemma reclaim_evolves id tenantId bodyHash nowMs token t gens :
  evolves None gens (map (fun x => if reclaimable id tenantId bodyHash nowMs x then reclaim token t x else x) gens).
Proof.
  apply evolves_map; [intros g; apply reclaim_same|..]; intros g _ Hr Hs; [|done].
  by apply reclaimable_open in Hr as [_ Hr].
Qed.

Lemma fail_evolves tenantId claim st msg t gens :
  evolves None gens (map (fun g => if ownedBy tenantId claim g then markFailed st msg t g else g) gens).
Proof.
  apply evolves_map; [intros g; apply markFailed_same|..]; intros g _ Ho Hs; [|done].
  apply owned_pending in Ho as (_ & _ & Ho & _). unfold succeeded in Hs. congruence.
Qed.

(** What the ledger gains. *)
Definition charges (gens : list GenerationRow) (id : string) (credits added : list CreditTransaction) : Prop :=
  (forall c, c ∈ credits -> ct_id c <> creditId id) /\
  exists g c, g ∈ gens /\ gn_id g = id /\ ~ succeeded g /\ added = [c] /\
    ct_id c = creditId id /\ ct_amount c = -1 /\ ct_tenantId c = gn_tenantId g.

(** The two kinds of steps: an answer with its charge, and everything else. *)
Definition quiet (db db' : Db) : Prop :=
  evolves None (db_generations db) (db_generations db') /\
  exists added, db_credits db' = db_credits db ++ added /\
    Forall (fun c => forall id, ct_id c <> creditId id) added /\
    (NoDup (map ct_id (db_credits db)) -> NoDup (map ct_id (db_credits db'))).

Definition finishes (id : string) (db db' : Db) : Prop :=
  evolves (Some id) (db_generations db) (db_generations db') /\
  (exists g, g ∈ db_generations db' /\ gn_id g = id) /\
  (forall g, g ∈ db_generations db' -> gn_id g = id -> succeeded g) /\
  (exists g, g ∈ db_generations db /\ gn_id g = id /\ ~ succeeded g) /\
  (db_credits db' = db_credits db /\ (exists c, c ∈ db_credits db /\ ct_id c = creditId id) \/
   exists added, db_credits db' = db_credits db ++ added /\ charges (db_generations db) id (db_credits db) added).

Lemma quiet_same db db' :
  evolves None (db_generations db) (db_generations db') -> db_credits db' = db_credits db -> quiet db db'.
Proof. intros He Ec. split; [done|]. exists []. rewrite app_nil_r, Ec. split; [done|]. split; [constructor|done]. Qed.

Lemma generations_withRows gens db : db_generations (withRows gens db) = gens.
Proof. exact (rows_withRows gens db). Qed.

Lemma claimOutcome_quiet tenantId keyHash bodyHash token r db db' :
  claimOutcome tenantId keyHash bodyHash token r db db' -> quiet db db'.
Proof.
  destruct r as [claim|response]; [|intros [-> _]; by apply quiet_same; [apply evolves_refl|]].
  intros [_ [(t & _ & Hc & ->)|(g & nowMs & _ & _ & _ & _ & _ & ->)]]; apply quiet_same; try by destruct db.
  - rewrite generations_withRows. by apply evolves_snoc.
  - rewrite generations_withRows. apply reclaim_evolves.
Qed.

Lemma find_none_forall {A} (p : A -> bool) l : List.find p l = None -> forall x, x ∈ l -> p x = false.
Proof. intros Hf x Hx. eapply find_none; [exact Hf|by apply list_elem_of_In]. Qed.

Lemma Completed_finishes tenantId claim bodyHash prepared r db db' :
  Completed tenantId claim bodyHash prepared r db db' -> finishes (gc_requestId claim) db db'.
Proof.
  intros [(g & Hg & [Ho _]%renewable_owned) (settlement & before & after & Et & Ec & Hd & _ & Ec' & _) (cons & snap & t & Er) _].
  apply owned_pending in Ho as (Hid & Hten & Hst & _).
  assert (Hno : ~ succeeded g) by (unfold succeeded; congruence).
  unfold finishes. rewrite Ec'. split; [|split; [|split; [|split]]].
  - rewrite Er. apply (evolves_map _ (fun g => bool_decide (gn_id g = gc_requestId claim))); [intros x; apply succeed_same|..];
      intros x _ Hx _; apply bool_decide_eq_true in Hx; congruence.
  - exists (succeed r cons snap (creditId (gc_requestId claim)) t g). rewrite Er. split; [|done].
    apply list_elem_of_In, in_map_iff. exists g. by rewrite bool_decide_true, <- list_elem_of_In.
  - rewrite Er. intros x Hx Hxid. apply list_elem_of_In, in_map_iff in Hx as (y & <- & _).
    case_bool_decide as E; [done|]. by destruct E.
  - by exists g.
  - destruct Hd as [(row & Hf & _ & _ & ->)|(Hf & _ & _ & _ & ->)].
    + left. rewrite Ec. split; [done|]. apply find_some in Hf as [Hin Hp]. rewrite Ec in Hin.
      exists row. split; [by apply list_elem_of_In|by apply bool_decide_eq_true in Hp].
    + right. rewrite rows_withRows_credits, Ec. eexists. split; [done|]. rewrite Ec in Hf. split.
      * intros c Hc E. pose proof (find_none_forall _ _ Hf c Hc) as E2. cbn in E2. by rewrite bool_decide_true in E2.
      * exists g. eexists. split_and!; done.
Qed.

Lemma gstep_cases db db' : gstep db db' -> quiet db db' \/ exists id, finishes id db db'.
Proof.
  destruct 1 as [? ? ? ? ? ? ? ? w r w' Hr|? ? ? ? identity claim bodyHash prepared w r w' Hr|? tenantId claim error w
    |db db' added Eg Ec Hf Hn].
  - left. destruct r as [r|e]; [|apply scopeRun_Throw in Hr; rewrite Hr; by apply quiet_same; [apply evolves_refl|]].
    apply scopeRun_Ok in Hr as (c & w1 & w2 & _ & Hr%claimInScope_Ok%claimOutcome_quiet & E1 & E2). by rewrite E1, <- E2 in Hr.
  - destruct r as [r|e]; [|left; apply scopeRun_Throw in Hr; rewrite Hr; by apply quiet_same; [apply evolves_refl|]].
    right. eexists. by eapply Completed_finishes, completeGeneration_Ok.
  - left. destruct (failGeneration_effect tenantId claim error w) as [->|(st & msg & t & ->)];
      [by apply quiet_same; [apply evolves_refl|]|]. apply quiet_same; [|by destruct (w_db w)].
    rewrite generations_withRows. apply fail_evolves.
  - left. split; [rewrite Eg; apply evolves_refl|]. exists added. done.
Qed.

(** ** The ledger and the answers agree *)

Record ledgerMatches (db : Db) : Prop := mkMatches {
  lm_unique : uniqueGenerations (db_generations db);
  lm_keys : NoDup (map ct_id (db_credits db));
  lm_charged : forall c id, c ∈ db_credits db -> ct_id c = creditId id ->
    exists g, g ∈ db_generations db /\ gn_id g = id /\ succeeded g;
  lm_answered : forall g, g ∈ db_generations db -> succeeded g ->
    exists c, c ∈ db_credits db /\ ct_id c = creditId (gn_id g) /\ ct_amount c = -1 /\ ct_tenantId c = gn_tenantId g;
}.

Lemma creditId_inj i j : creditId i = creditId j -> i = j.
Proof. unfold creditId. intros E. by repeat (injection E as E). Qed.

Lemma NoDup_map_eq {A B} (f : A -> B) (l : list A) x y :
  NoDup (map f l) -> x ∈ l -> y ∈ l -> f x = f y -> x = y.
Proof.
  induction l as [|a l IH]; cbn; [set_solver|]. intros [Hn Hd]%NoDup_cons Hx Hy E.
  apply elem_of_cons in Hx as [->|Hx], Hy as [->|Hy]; [done| | |by apply IH].
  - exfalso. apply Hn. rewrite E. by apply list_elem_of_fmap_2.
  - exfalso. apply Hn. rewrite <- E. by apply list_elem_of_fmap_2.
Qed.

Lemma evolves_kept finished gens gens' g :
  evolves finished gens gens' -> g ∈ gens -> succeeded g -> finished <> Some (gn_id g) -> g ∈ gens'.
Proof.
  intros [_ (f & added & -> & _ & Hf)] Hg Hs Hne. destruct (Hf g Hg) as (_ & Hk & _).
  apply elem_of_app. left. rewrite <- (Hk Hs Hne). by apply list_elem_of_fmap_2.
Qed.

(** An answer of the new table was one before, or is the one just given. *)
Lemma evolves_answers finished gens gens' g' :
  evolves finished gens gens' -> g' ∈ gens' -> succeeded g' ->
  exists g, g ∈ gens /\ sameRequest g g' /\ (succeeded g /\ (finished <> Some (gn_id g) -> g' = g) \/ finished = Some (gn_id g)).
Proof.
  intros [_ (f & added & -> & Ha & Hf)] Hg Hs. apply elem_of_app in Hg as [Hg|Hg].
  - apply list_elem_of_fmap in Hg as (g & -> & Hg). destruct (Hf g Hg) as (Hsame & Hk & Hb).
    exists g. split; [done|]. split; [done|]. destruct (Hb Hs) as [H|H]; [left|by right]. split; [done|]. by apply Hk.
  - rewrite Forall_forall in Ha. by destruct (Ha g' Hg).
Qed.

Lemma quiet_ledger db db' : ledgerMatches db -> quiet db db' -> ledgerMatches db'.
Proof.
  intros [Hu Hk Hc Ha] [He (added & Ec & Hadd & Hn)]. split; [by apply He|by apply Hn|..].
  - intros c id Hin Hid. rewrite Ec in Hin. apply elem_of_app in Hin as [Hin|Hin].
    + destruct (Hc c id Hin Hid) as (g & Hg & Hgi & Hs). exists g. split; [|done]. by eapply evolves_kept.
    + rewrite Forall_forall in Hadd. by destruct (Hadd c Hin id).
  - intros g' Hg Hs. destruct (evolves_answers _ _ _ _ He Hg Hs) as (g & Hgo & _ & [[Hs' Heq]|[=]]).
    rewrite (Heq ltac:(done)). destruct (Ha g Hgo Hs') as (c & Hin & Hrest). exists c. split; [|done].
    rewrite Ec. apply elem_of_app. by left.
Qed.

Lemma finishes_ledger id db db' : ledgerMatches db -> finishes id db db' -> ledgerMatches db'.
Proof.
  intros [Hu Hk Hc Ha] (He & (g' & Hg' & Hid') & Hall & (g & Hg & Hid & Hns) & Hl).
  destruct Hl as [(_ & c & Hin & Hci)|(added & Ec & Hfresh & g0 & c & Hg0 & Hid0 & _ & -> & Hci & Ham & Hten)].
  { exfalso. destruct (Hc c id Hin Hci) as (g1 & Hg1 & Hid1 & Hs1). apply Hns.
    rewrite (NoDup_map_eq gn_id _ g g1 (proj1 Hu)); [done..|congruence]. }
  assert (g0 = g) as -> by (apply (NoDup_map_eq gn_id _ _ _ (proj1 Hu)); [done..|congruence]).
  assert (Hother : forall x, x ∈ db_generations db -> succeeded x -> Some id <> Some (gn_id x)).
  { intros x Hx Hs [= E]. apply Hns. rewrite (NoDup_map_eq gn_id _ g x (proj1 Hu)); [done..|congruence]. }
  split; [by apply He| |..].
  - rewrite Ec, map_app. apply NoDup_app. split; [done|]. split; [|apply NoDup_singleton].
    intros i (x & -> & Hx)%list_elem_of_fmap E%list_elem_of_singleton. apply (Hfresh x Hx). congruence.
  - intros x i Hin Hxi. rewrite Ec in Hin. apply elem_of_app in Hin as [Hin|Hin];
      [|apply list_elem_of_singleton in Hin as ->].
    + destruct (Hc x i Hin Hxi) as (y & Hy & Hyi & Hs). exists y. split; [|done]. eapply evolves_kept; [done..|by apply Hother].
    + rewrite Hci in Hxi. apply creditId_inj in Hxi as <-. exists g'. split_and!; [done..|by apply Hall].
  - intros x Hx Hs. destruct (evolves_answers _ _ _ _ He Hx Hs) as (y & Hy & (Hyi & Hyk & _) & [[Hs' Heq]|Hfin]).
    + rewrite (Heq (Hother y Hy Hs')). destruct (Ha y Hy Hs') as (c' & Hin & Hrest). exists c'. split; [|done].
      rewrite Ec. apply elem_of_app. by left.
    + injection Hfin as Hfin. exists c. split; [rewrite Ec; apply elem_of_app; right; by apply list_elem_of_singleton|].
      assert (y = g) as -> by (apply (NoDup_map_eq gn_id _ _ _ (proj1 Hu)); [done..|congruence]).
      injection Hyk as Ht _. split_and!; congruence.
Qed.

Lemma gsteps_ledger db db' : rtc gstep db db' -> ledgerMatches db -> ledgerMatches db'.
Proof.
  induction 1 as [|db1 db2 db3 H1 _ IH]; [done|]. intros Hm. apply IH.
  apply gstep_cases in H1 as [Hq|[id Hf]]; [by eapply quiet_ledger|by eapply finishes_ledger].
Qed.

Lemma gsteps_kept db db' g :
  rtc gstep db db' -> uniqueGenerations (db_generations db) -> g ∈ db_generations db -> succeeded g ->
  uniqueGenerations (db_generations db') /\ g ∈ db_generations db'.
Proof.
  induction 1 as [|db1 db2 db3 H1 _ IH]; [done|]. intros Hu Hg Hs.
  apply gstep_cases in H1 as [[He _]|[id (He & _ & _ & (g0 & Hg0 & Hid & Hns) & _)]].
  - apply IH; [by apply He|by eapply evolves_kept|done].
  - apply IH; [by apply He| |done]. eapply evolves_kept; [done..|]. intros [= E]. apply Hns.
    rewrite (NoDup_map_eq gn_id _ g0 g (proj1 Hu)); [done..|congruence].
Qed.

(** The ledger rows of one generation. *)
Definition chargesFor (db : Db) (g : GenerationRow) : list CreditTransaction :=
  List.filter (fun c => bool_decide (ct_id c = creditId (gn_id g))) (db_credits db).

Lemma filter_unique {A B} `{EqDecision B} (f : A -> B) (l : list A) x :
  NoDup (map f l) -> x ∈ l -> List.filter (fun y => bool_decide (f y = f x)) l = [x].
Proof.
  induction l as [|a l IH]; cbn; [set_solver|]. intros [Hn Hd]%NoDup_cons Hx.
  apply elem_of_cons in Hx as [->|Hx].
  - rewrite bool_decide_true by done. f_equal. clear IH Hd. induction l as [|b l IH]; [done|]. cbn in *.
    rewrite bool_decide_false by (intros E; apply Hn; rewrite E; set_solver). apply IH. set_solver.
  - rewrite bool_decide_false; [by apply IH|]. intros E. apply Hn. rewrite E. by apply list_elem_of_fmap_2.
Qed.

Lemma filter_nothing {A} (p : A -> bool) l : (forall x, x ∈ l -> p x = false) -> List.filter p l = [].
Proof. intros Hp. induction l as [|a l IH]; cbn; [done|]. rewrite Hp by set_solver. apply IH. set_solver. Qed.

Lemma ledgerMatches_charges db g :
  ledgerMatches db -> g ∈ db_generations db ->
  if decide (succeeded g) then exists c, chargesFor db g = [c] /\ ct_amount c = -1 /\ ct_tenantId c = gn_tenantId g
  else chargesFor db g = [].
Proof.
  intros Hm Hg. unfold chargesFor. case_decide as Hs.
  - destruct (lm_answered _ Hm g Hg Hs) as (c & Hin & Hid & Ham & Hten). exists c. split; [|done].
    rewrite <- Hid. apply (filter_unique ct_id); [apply Hm|done].
  - apply filter_nothing. intros c Hc. apply bool_decide_eq_false_2. intros E.
    destruct (lm_charged _ Hm c _ Hc E) as (g2 & Hg2 & Hid & Hs2). apply Hs.
    rewrite (NoDup_map_eq gn_id _ g g2 (proj1 (lm_unique _ Hm))); [done..|congruence].
Qed.

(** A database with no generation yet. *)
Definition noGenerations (db : Db) : Prop :=
  db_generations db = [] /\ NoDup (map ct_id (db_credits db)) /\
  Forall (fun c => forall id, ct_id c <> creditId id) (db_credits db).

Lemma noGenerations_matches db : noGenerations db -> ledgerMatches db.
Proof.
  intros (Eg & Hn & Hf). split; rewrite ?Eg; [split; constructor|done|..].
  - intros c id Hc E. rewrite Forall_forall in Hf. by destruct (Hf c Hc id).
  - set_solver.
Qed.

(** C4: Every generation is charged exactly once.  However the transactions of
    any number of requests interleave (claims, takeovers of expired claims,
    retries, completions, failures, and the rest of the system), an answered
    generation has exactly one ledger row under its identifier, one credit
    from its own tenant, and a generation that is not answered has none. *)
Theorem generations_charged_once db db' g :
  noGenerations db -> rtc gstep db db' -> g ∈ db_generations db' ->
  if decide (succeeded g) then exists c, chargesFor db' g = [c] /\ ct_amount c = -1 /\ ct_tenantId c = gn_tenantId g
  else chargesFor db' g = [].
Proof. intros Hn Hs. apply ledgerMatches_charges. by eapply gsteps_ledger, noGenerations_matches. Qed.

(** ** Answers are final, takeovers fence *)

Lemma find_by_key gens g :
  uniqueGenerations gens -> g ∈ gens ->
  List.find (forKey (gn_tenantId g) (gn_requestKeyHash g)) gens = Some g.
Proof.
  intros [_ Hu] Hg. destruct (List.find _ gens) as [x|] eqn:E.
  - apply find_some in E as [Hx%list_elem_of_In Hk]. unfold forKey in Hk.
    rewrite andb_true_iff, !bool_decide_eq_true in Hk. destruct Hk as [E1 E2]. f_equal.
    apply (NoDup_map_eq requestKey gens); [done..|]. unfold requestKey. congruence.
  - pose proof (find_none_forall _ _ E g Hg) as Hk. unfold forKey in Hk. by rewrite !bool_decide_true in Hk.
Qed.

Lemma toStoredResponse_generated prepared settlement :
  toStoredResponse (Some (generationResponse prepared settlement)) = Some (generationResponse prepared settlement).
Proof. reflexivity. Qed.

(** The row a completion leaves behind. *)
Lemma Completed_row tenantId claim bodyHash prepared r db db' :
  uniqueGenerations (db_generations db) -> Completed tenantId claim bodyHash prepared r db db' ->
  uniqueGenerations (db_generations db') /\ exists g, g ∈ db_generations db' /\ gn_id g = gc_requestId claim /\ gn_tenantId g = tenantId /\
    gn_requestHash g = bodyHash /\ succeeded g /\ gn_response g = Some r.
Proof.
  intros Hu Hc. pose proof (Completed_finishes _ _ _ _ _ _ _ Hc) as [[Hun _] _]. split; [by apply Hun|].
  destruct Hc as [(g & Hg & [Ho Hh]%renewable_owned) _ (cons & snap & t & Er) _].
  apply owned_pending in Ho as (Hid & Hten & _ & _).
  exists (succeed r cons snap (creditId (gc_requestId claim)) t g). split; [|done].
  rewrite Er. apply list_elem_of_In, in_map_iff. exists g. by rewrite bool_decide_true, <- list_elem_of_In.
Qed.

(** C36: An answer is final.  Once a completion returned, its row is answered
    with exactly that response, no interleaving of later transactions changes
    the row, and a later claim of the same key by the tenant, in any
    environment, can only return for the same request, and then returns that
    very response marked as reused and changes nothing. *)
Theorem generation_answer_final `{Sha256} (env1 : Env) (process : Process) (auth1 : AuthorityEnv) (coll : Collation)
    identity claim bodyHash prepared response w w' :
  uniqueGenerations (db_generations (w_db w)) ->
  completeGeneration identity claim bodyHash prepared w = (Ok response, w') ->
  exists g, gn_id g = gc_requestId claim /\ gn_requestHash g = bodyHash /\ gn_response g = Some response /\
    forall db2, rtc gstep (w_db w') db2 -> g ∈ db_generations db2 /\
      forall (env2 : Env) (auth2 : AuthorityEnv) identity2 key hash2 w2 outcome w3,
        w_db w2 = db2 -> sha256 key = gn_requestKeyHash g ->
        claimGeneration identity2 (si_tenantId identity) key hash2 w2 = (Ok outcome, w3) ->
        hash2 = bodyHash /\ outcome = AlreadyAnswered (markReused response) /\ w_db w3 = db2.
Proof.
  intros Hu Hc%completeGeneration_Ok.
  destruct (co_credit _ _ _ _ _ _ _ Hc) as (settlement & _ & _ & _ & _ & _ & _ & _ & Er).
  destruct (Completed_row _ _ _ _ _ _ _ Hu Hc) as (Hu' & g & Hg & Hid & Hten & Hh & Hs & Hr).
  exists g. split_and!; [done..|]. intros db2 Hsteps.
  destruct (gsteps_kept _ _ g Hsteps Hu' Hg Hs) as [Hu2 Hg2]. split; [done|].
  intros env2 auth2 identity2 key hash2 w2 outcome w3 <- Hkey Hcl%claimGeneration_Ok.
  pose proof (find_by_key _ g Hu2 Hg2) as Hf. rewrite Hten, <- Hkey in Hf.
  destruct outcome as [c|answer].
  - destruct Hcl as [_ [(t & Hn & _)|(x & nowMs & Hx & _ & _ & Hns & _)]]; [by rewrite Hf in Hn|].
    rewrite Hf in Hx. injection Hx as <-. by destruct Hns.
  - destruct Hcl as [Edb (x & stored & Hx & Hxh & _ & Hst & ->)]. rewrite Hf in Hx. injection Hx as <-.
    rewrite Hr, Er, toStoredResponse_generated in Hst. injection Hst as <-. split_and!; congruence.
Qed.

(** The row of a claim carries its token, and is the only one with its id. *)
Lemma claimed_token tenantId keyHash bodyHash token claim db db' :
  uniqueGenerations (db_generations db) -> claimOutcome tenantId keyHash bodyHash token (Claimed claim) db db' ->
  forall g, g ∈ db_generations db' -> gn_id g = gc_requestId claim -> gn_claimToken g = Some (gc_claimToken claim).
Proof.
  intros Hu [Ht [(t & _ & Hc & ->)|(x & nowMs & Hf & _ & Hid & _ & Hl & ->)]] g Hg Hgi; rewrite generations_withRows in Hg.
  - apply elem_of_app in Hg as [Hg|Hg]; [|apply list_elem_of_singleton in Hg as ->; by rewrite Ht].
    exfalso. rewrite <- not_true_iff_false, existsb_exists in Hc. apply Hc. exists g. split; [by apply list_elem_of_In|].
    cbn. by rewrite bool_decide_true.
  - apply list_elem_of_fmap in Hg as (y & -> & Hy). destruct (reclaimable _ _ _ _ y) eqn:Er; [by rewrite Ht|].
    apply filter_one in Hl as (z & Hz & Hzr). pose proof (reclaimable_open _ _ _ _ _ Hzr) as [Hzi _].
    rewrite (NoDup_map_eq gn_id _ y z (proj1 Hu)) in Er; [by rewrite Hzr in Er|done..|congruence].
Qed.

(** A takeover fences the previous owner.  After a claim took over (or
    created) a request, a worker that still holds another token for it can
    neither complete it, whatever it prepared and in whatever environment, nor
    release it: both leave the database as it is. *)
Theorem generation_takeover_fences `{Sha256} (env1 : Env) (auth1 : AuthorityEnv)
    identity tenantId key bodyHash claim stale w w1 w2 :
  uniqueGenerations (db_generations (w_db w)) ->
  claimGeneration identity tenantId key bodyHash w = (Ok (Claimed claim), w1) ->
  gc_requestId stale = gc_requestId claim -> gc_claimToken stale <> gc_claimToken claim -> w_db w2 = w_db w1 ->
  forall (env2 : Env) (process : Process) (auth2 : AuthorityEnv) (coll : Collation),
    (forall identity2 hash2 prepared, exists e w3,
       completeGeneration identity2 stale hash2 prepared w2 = (Throw e, w3) /\ w_db w3 = w_db w1) /\
    (forall tenant2 error, w_db (failGeneration tenant2 stale error w2).2 = w_db w1).
Proof.
  intros Hu Hc%claimGeneration_Ok Eid Etok Ew env2 process auth2 coll.
  assert (Hfence : forall t g, g ∈ db_generations (w_db w2) -> ownedBy t stale g = false).
  { intros t g Hg. rewrite Ew in Hg. apply not_true_iff_false. intros Ho. apply owned_pending in Ho as (Hid & _ & _ & Ht).
    pose proof (claimed_token _ _ _ _ _ _ _ Hu Hc g Hg ltac:(congruence)) as Ht2. congruence. }
  split.
  - intros identity2 hash2 prepared. destruct (completeGeneration identity2 stale hash2 prepared w2) as [[r|e] w3] eqn:E.
    + exfalso. apply completeGeneration_Ok in E as [(g & Hg & [Ho _]%renewable_owned) _ _ _].
      by rewrite Hfence in Ho.
    + exists e, w3. split; [done|]. apply scopeRun_Throw in E. congruence.
  - intros tenant2 error. destruct (failGeneration_effect tenant2 stale error w2) as [->|(st & msg & t & ->)]; [done|].
    rewrite <- Ew. rewrite (map_ext_in _ id); [rewrite map_id; by destruct (w_db w2)|].
    intros g Hg%list_elem_of_In. by rewrite Hfence.
Qed.

(** ** The handler is a run of the protocol *)

Section Handler.
Context `{Env, Process, AuthorityEnv, Collation, LocaleCompare, Sha256}.

Lemma ReadOnly_scopeRun {A} identity (operation : SessionIdentity -> Tx A) :
  (forall current, ReadOnly (operation current)) -> ReadOnly (scopeRun identity operation).
Proof.
  intros Hro w. destruct (scopeRun identity operation w) as [[a|e] w'] eqn:E; cbn; [|by apply scopeRun_Throw in E].
  apply scopeRun_Ok in E as (c & w1 & w2 & _ & E & E1 & E2). apply ReadOnly_Ok in E; [congruence|done].
Qed.

Lemma readPolicy_ReadOnly tenantId : ReadOnly (readPolicy tenantId).
Proof. unfold readPolicy, findSetting. auto with readonly. Qed.

Lemma prepareGeneration_ReadOnly identity body : ReadOnly (prepareGeneration identity body).
Proof.
  apply ReadOnly_scopeRun. intros current. unfold prepareInScope.
  apply ReadOnly_bind; [apply ReadOnly_wait, assertFeatureEntitled_ReadOnly|intros _].
  apply ReadOnly_bind; [|intros location; apply ReadOnly_bind; [apply ReadOnly_wait, readPolicy_ReadOnly|intros saved]].
  - unfold findRequestedLocation, problem, throwProblemTx. apply ReadOnly_if; [|auto with readonly].
    apply ReadOnly_bind; [auto with readonly|]. intros [l|]; auto with readonly.
  - assert (Hshared : forall p, ReadOnly (prepareShared (si_tenantId current) location p body)).
    { intros p. unfold prepareShared, problem, throwProblemTx.
      apply ReadOnly_bind; [unfold findGenerationShifts; auto with readonly|intros found].
      repeat (apply ReadOnly_if; [auto with readonly|]). auto with readonly. }
    destruct (gr_shifts body) as [[|s l]|]; [done| |done]. unfold prepareStandalone. auto with readonly.
Qed.

Lemma recoverGeneration_db identity key bodyHash error w :
  w_db (recoverGeneration identity key bodyHash error w).2 = w_db w.
Proof.
  unfold recoverGeneration. destruct (_ || _); [|done].
  assert (Hro : ReadOnly (findGeneration identity (si_tenantId identity) key)) by (apply ReadOnly_scopeRun; auto with readonly).
  specialize (Hro w). destruct (findGeneration _ _ _ w) as [[[g|]|e] w1]; cbn in Hro |- *; [|done..].
  case_bool_decide; [|done]. destruct (toStoredResponse _); [|done]. by case_bool_decide.
Qed.

Lemma claimGeneration_steps identity tenantId key bodyHash r w w' :
  claimGeneration identity tenantId key bodyHash w = (r, w') -> rtc gstep (w_db w) (w_db w').
Proof.
  unfold claimGeneration, mbind, Tx_bind, randomUUID, claimTwice.
  destruct (scopeRun identity _ (tick w)) as [[x|e] w1] eqn:E1.
  - intros [= <- <-]. apply rtc_once. change (w_db w) with (w_db (tick w)). by eapply step_claim.
  - case_bool_decide; [|intros [= <- <-]; apply rtc_once; change (w_db w) with (w_db (tick w)); by eapply step_claim].
    intros E2. eapply rtc_l; [|apply rtc_once; by eapply step_claim].
    change (w_db w) with (w_db (tick w)). by eapply step_claim.
Qed.

Lemma generate_run identity body keyValue r w w' :
  generate identity body keyValue w = (r, w') -> rtc gstep (w_db w) (w_db w').
Proof.
  unfold generate, liftResult, mbind, Tx_bind.
  destruct (requireIdempotencyKey _) as [key|e]; [|by intros [= _ <-]].
  destruct (assertGenerationRequest body); [|by intros [= _ <-]].
  pose proof (prepareOperationsAuthority_ReadOnly (operationsIdentity identity) w) as Hp.
  destruct (prepareOperationsAuthority _ w) as [[u|e] w1]; cbn in Hp; [|intros [= _ <-]; by rewrite Hp].
  destruct (claimGeneration _ _ _ _ w1) as [[[claim|answer]|e] w2] eqn:Ec; apply claimGeneration_steps in Ec; rewrite Hp in Ec;
    [|by intros [= _ <-]..].
  unfold settleFailure, Result_bind.
  pose proof (prepareGeneration_ReadOnly (operationsIdentity identity) body w2) as Hprep.
  destruct (prepareGeneration _ body w2) as [[prepared|e] w3]; cbn in Hprep.
  - match goal with |- context [completeGeneration ?i ?c ?h prepared w3] =>
      destruct (completeGeneration i c h prepared w3) as [rc w4] eqn:Eg end.
    apply step_complete in Eg. rewrite Hprep in Eg.
    destruct rc as [response|e]; [intros [= _ <-]; by eapply rtc_r|].
    match goal with |- context [recoverGeneration ?i ?k ?h e w4] =>
      pose proof (recoverGeneration_db i k h e w4) as Hr; destruct (recoverGeneration i k h e w4) as [[response|failure] w5] end;
      cbn in Hr; [intros [= _ <-]; rewrite Hr; by eapply rtc_r|].
    match goal with |- context [failGeneration ?t ?c failure w5] =>
      pose proof (step_fail t c failure w5) as Hf; destruct (failGeneration t c failure w5) as [u2 w6] end.
    intros [= _ <-]. rewrite Hr in Hf. eapply rtc_r; [|exact Hf]. by eapply rtc_r.
  - match goal with |- context [recoverGeneration ?i ?k ?h e w3] =>
      pose proof (recoverGeneration_db i k h e w3) as Hr; destruct (recoverGeneration i k h e w3) as [[response|failure] w5] end;
      cbn in Hr; [intros [= _ <-]; by rewrite Hr, Hprep|].
    match goal with |- context [failGeneration ?t ?c failure w5] =>
      pose proof (step_fail t c failure w5) as Hf; destruct (failGeneration t c failure w5) as [u2 w6] end.
    intros [= _ <-]. rewrite Hr, Hprep in Hf. by eapply rtc_r.
Qed.
End Handler.

Lemma claimed_row tenantId keyHash bodyHash token claim db db' :
  claimOutcome tenantId keyHash bodyHash token (Claimed claim) db db' ->
  exists y, y ∈ db_generations db' /\ gn_id y = gc_requestId claim /\ requestKey y = (tenantId, keyHash).
Proof.
  intros [_ [(t & _ & _ & ->)|(x & nowMs & Hf & _ & Hid & _ & _ & ->)]]; rewrite generations_withRows.
  - eexists. split; [apply elem_of_app; right; by apply list_elem_of_singleton|done].
  - apply find_some in Hf as [Hx Hk]. unfold forKey in Hk. rewrite andb_true_iff, !bool_decide_eq_true in Hk.
    destruct Hk as [E1 E2]. eexists. split; [apply list_elem_of_In, in_map_iff; by exists x|].
    destruct (reclaimable _ _ _ _ x); unfold requestKey; cbn; split; congruence.
Qed.

(** Answered, with one charge: what a caller may rely on after an answer. *)
Definition answeredOnce (tenantId keyHash bodyHash : string) (stored : Json) (db : Db) : Prop :=
  exists g c, g ∈ db_generations db /\ requestKey g = (tenantId, keyHash) /\ gn_requestHash g = bodyHash /\
    succeeded g /\ gn_response g = Some stored /\
    chargesFor db g = [c] /\ ct_amount c = -1 /\ ct_tenantId c = tenantId.

Lemma answeredOnce_intro db g tenantId keyHash stored :
  ledgerMatches db -> g ∈ db_generations db -> requestKey g = (tenantId, keyHash) -> succeeded g ->
  gn_response g = Some stored -> answeredOnce tenantId keyHash (gn_requestHash g) stored db.
Proof.
  intros Hm Hg Hk Hs Hr. pose proof (ledgerMatches_charges db g Hm Hg) as Hc. rewrite decide_True in Hc by done.
  destruct Hc as (c & Hc & Ham & Hten). exists g, c. split_and!; try done. injection Hk as <- _. done.
Qed.

Lemma stored_answer tenantId keyHash bodyHash db g stored :
  ledgerMatches db -> List.find (forKey tenantId keyHash) (db_generations db) = Some g -> gn_requestHash g = bodyHash ->
  succeeded g -> toStoredResponse (gn_response g) = Some stored ->
  answeredOnce tenantId keyHash bodyHash stored db.
Proof.
  intros Hm Hf <- Hs Hst. apply find_some in Hf as [Hg%list_elem_of_In Hk]. unfold forKey in Hk.
  rewrite andb_true_iff, !bool_decide_eq_true in Hk. destruct Hk as [E1 E2].
  apply answeredOnce_intro; [done|done|unfold requestKey; congruence|done|].
  destruct (gn_response g) as [j|]; [|done]. unfold toStoredResponse in Hst. destruct j; try done.
  repeat case_match; congruence.
Qed.

Section Answers.
Context `{Env, Process, AuthorityEnv, Collation, LocaleCompare, Sha256}.

Lemma Completed_answers tenantId keyHash claim bodyHash prepared r db db' y :
  ledgerMatches db' -> y ∈ db_generations db -> gn_id y = gc_requestId claim -> requestKey y = (tenantId, keyHash) ->
  uniqueGenerations (db_generations db) ->
  Completed tenantId claim bodyHash prepared r db db' -> answeredOnce tenantId keyHash bodyHash r db'.
Proof.
  intros Hm Hy Hid Hk Hu [(g & Hg & [Ho Hh]%renewable_owned) _ (cons & snap & t & Er) _].
  apply owned_pending in Ho as (Hgi & _ & _ & _).
  assert (g = y) as -> by (apply (NoDup_map_eq gn_id _ _ _ (proj1 Hu)); [done..|congruence]).
  rewrite <- Hh. change (gn_requestHash y) with (gn_requestHash (succeed r cons snap (creditId (gc_requestId claim)) t y)).
  apply answeredOnce_intro; try done. rewrite Er. apply list_elem_of_In, in_map_iff. exists y.
  by rewrite bool_decide_true, <- list_elem_of_In.
Qed.

Lemma recoverGeneration_answer identity key bodyHash error w r w' :
  ledgerMatches (w_db w) -> recoverGeneration identity key bodyHash error w = (inl r, w') ->
  exists stored, r = markReused stored /\ answeredOnce (si_tenantId identity) (sha256 key) bodyHash stored (w_db w').
Proof.
  intros Hm. unfold recoverGeneration. destruct (_ || _); [|done].
  destruct (findGeneration identity (si_tenantId identity) key w) as [[[g|]|e] w1] eqn:E; try done.
  case_bool_decide as Es; [|done]. destruct (toStoredResponse _) as [stored|] eqn:Est; [|done].
  case_bool_decide as Eh; [|done]. intros [= <- <-]. exists stored. split; [done|].
  apply scopeRun_Ok in E as (c & w2 & w3 & _ & [Ef Ew]%findFirst_Ok & E1 & E2).
  cbn [rows Table_Generation] in Ef. apply (stored_answer _ _ _ _ g); try done; congruence.
Qed.

(** C17: What [generate] promises.  From any database whose ledger and answers
    agree, whatever fails inside the call, the handler is a run of the
    protocol and the agreement is kept; and if it returns, the request of this
    tenant under this key and with this very body is answered, the answer
    given is the stored one (marked as reused when another attempt produced
    it), and exactly one credit of the tenant pays for it. *)
Theorem generate_answers_once identity body keyValue r w w' :
  ledgerMatches (w_db w) -> generate identity body keyValue w = (r, w') ->
  rtc gstep (w_db w) (w_db w') /\ ledgerMatches (w_db w') /\
  forall response, r = Ok response ->
    exists key stored, requireIdempotencyKey keyValue = Ok key /\ (response = stored \/ response = markReused stored) /\
      answeredOnce (trim (si_tenantId identity)) (sha256 key) (requestHash (generationJson body)) stored (w_db w').
Proof.
  intros Hm Hg. pose proof (generate_run _ _ _ _ _ _ Hg) as Hsteps. pose proof (gsteps_ledger _ _ Hsteps Hm) as Hm'.
  split; [done|]. split; [done|]. intros response ->. revert Hg. unfold generate.
  intros (key & w1 & [Hk <-]%liftResult_Ok & Hr)%Tx_bind_Ok. apply Tx_bind_Ok in Hr as (? & w2 & [_ <-]%liftResult_Ok & Hr).
  apply Tx_bind_Ok in Hr as (? & w3 & Hp & Hr). apply (ReadOnly_Ok _ _ _ _ (prepareOperationsAuthority_ReadOnly _)) in Hp.
  apply Tx_bind_Ok in Hr as (claimed & w4 & Hc & Hr). pose proof (claimGeneration_steps _ _ _ _ _ _ _ Hc) as Hs4.
  apply claimGeneration_Ok in Hc. rewrite Hp in Hc, Hs4. exists key.
  pose proof (gsteps_ledger _ _ Hs4 Hm) as Hm4. cbn [operationsIdentity si_tenantId] in *.
  destruct claimed as [claim|answer].
  - unfold settleFailure in Hr. destruct (mbind (M := Tx) _ _ w4) as [[answer|e] w5] eqn:E.
    + injection Hr as -> ->. exists response. split; [done|]. split; [by left|].
      apply Tx_bind_Ok in E as (prepared & w6 & Hprep%(ReadOnly_Ok _ _ _ _ (prepareGeneration_ReadOnly _ _)) & Hcomp%completeGeneration_Ok).
      destruct (claimed_row _ _ _ _ _ _ _ Hc) as (y & Hy & Hyi & Hyk). rewrite Hprep in Hcomp.
      eapply Completed_answers; [done..|apply Hm4|exact Hcomp].
    + destruct (recoverGeneration _ _ _ e w5) as [[answer|failure] w6] eqn:Erec; [|by destruct (failGeneration _ _ _ _)].
      injection Hr as -> ->.
      assert (Hm5 : ledgerMatches (w_db w5)).
      { pose proof (recoverGeneration_db (operationsIdentity identity) key (requestHash (generationJson body)) e w5) as Edb.
        rewrite Erec in Edb. cbn in Edb. congruence. }
      destruct (recoverGeneration_answer _ _ _ _ _ _ _ Hm5 Erec) as (stored & -> & Ha). exists stored.
      split; [done|]. split; [by right|]. exact Ha.
  - apply Tx_ret_Ok in Hr as [-> <-]. destruct Hc as [Edb (g & stored & Hf & Hh & Hs & Hst & ->)].
    exists stored. split; [done|]. split; [by right|]. rewrite Edb. by eapply stored_answer.
Qed.
End Answers.

(** ** Concrete instances *)

#[local] Notation sampleGenerate w :=
  (@generate (calm 1772409600000) noBeta (actingAs ScheduleChanges.sampleManager)
    ScheduleChanges.codeUnitOrder codeUnitCollation ScheduleChanges.plainDigest ScheduleChanges.sampleManager
    sampleRequest (Some "key-00001") w).
#[local] Notation sampleGenerated := (w_db (sampleGenerate sampleStart).2).

Definition sampleGeneration (db : Db) : GenerationRow :=
  default (newGeneration "" "" "" "" "" 0) (head (db_generations db)).

Lemma sampleGeneration_in db : db_generations db <> [] -> sampleGeneration db ∈ db_generations db.
Proof. unfold sampleGeneration. destruct (db_generations db); [done|]. intros _. left. Qed.

Lemma sampleStart_empty : noGenerations (w_db sampleStart).
Proof. split; [reflexivity|]. split; [constructor|constructor]. Qed.

Lemma sampleGenerated_run : rtc gstep (w_db sampleStart) sampleGenerated.
Proof. eapply generate_run. apply surjective_pairing. Qed.

Lemma generations_charged_once_witness :
  let g := sampleGeneration sampleGenerated in
  gn_status g = "SUCCEEDED" /\
  if decide (succeeded g) then exists c, chargesFor sampleGenerated g = [c] /\ ct_amount c = -1 /\ ct_tenantId c = gn_tenantId g
  else chargesFor sampleGenerated g = [].
Proof.
  split; [vm_compute; reflexivity|].
  apply (generations_charged_once (w_db sampleStart)).
  - exact sampleStart_empty.
  - exact sampleGenerated_run.
  - apply sampleGeneration_in. vm_compute. discriminate.
Defined.

Lemma generate_answers_once_witness :
  rtc gstep (w_db sampleStart) sampleGenerated /\ ledgerMatches sampleGenerated /\
  forall response, (sampleGenerate sampleStart).1 = Ok response ->
    exists key stored, requireIdempotencyKey (Some "key-00001") = Ok key /\
      (response = stored \/ response = markReused stored) /\
      answeredOnce (trim (si_tenantId ScheduleChanges.sampleManager)) (@sha256 ScheduleChanges.plainDigest key)
        (@requestHash codeUnitCollation ScheduleChanges.plainDigest (generationJson sampleRequest)) stored sampleGenerated.
Proof.
  apply (@generate_answers_once (calm 1772409600000) noBeta (actingAs ScheduleChanges.sampleManager)
    ScheduleChanges.codeUnitOrder codeUnitCollation ScheduleChanges.plainDigest ScheduleChanges.sampleManager
    sampleRequest (Some "key-00001") (sampleGenerate sampleStart).1 sampleStart (sampleGenerate sampleStart).2).
  - exact (noGenerations_matches _ sampleStart_empty).
  - apply surjective_pairing.
Defined.

Lemma sampleClaimed_unique : uniqueGenerations (db_generations (w_db sampleClaimed)).
Proof.
  assert (Hl : length (db_generations (w_db sampleClaimed)) = 1%nat) by (vm_compute; reflexivity).
  destruct (db_generations (w_db sampleClaimed)) as [|g [|? ?]]; try discriminate Hl.
  split; apply NoDup_singleton.
Qed.

Lemma generation_answer_final_witness :
  exists g, gn_id g = gc_requestId sampleClaim /\ gn_requestHash g = sampleGenerationHash /\
    gn_response g = Some sampleCompletion /\
    forall db2, rtc gstep (w_db sampleCompleted) db2 -> g ∈ db_generations db2 /\
      forall (env2 : Env) (auth2 : AuthorityEnv) identity2 key hash2 w2 outcome w3,
        w_db w2 = db2 -> @sha256 ScheduleChanges.plainDigest key = gn_requestKeyHash g ->
        @claimGeneration env2 auth2 ScheduleChanges.plainDigest identity2 "t1" key hash2 w2 = (Ok outcome, w3) ->
        hash2 = sampleGenerationHash /\ outcome = AlreadyAnswered (markReused sampleCompletion) /\ w_db w3 = db2.
Proof.
  apply (@generation_answer_final ScheduleChanges.plainDigest (calm 1772409600000) noBeta
    (actingAs ScheduleChanges.sampleManager) ScheduleChanges.codeUnitOrder ScheduleChanges.sampleManager
    sampleClaim sampleGenerationHash samplePrepared sampleCompletion sampleClaimed sampleCompleted).
  - exact sampleClaimed_unique.
  - vm_compute. reflexivity.
Defined.

(** Three minutes later the claim has expired, and a retry takes it over. *)
#[local] Notation sampleTakeover :=
  (@claimGeneration (calm 1772409780000) (actingAs ScheduleChanges.sampleManager) ScheduleChanges.plainDigest
    ScheduleChanges.sampleManager "t1" "key-00001" sampleGenerationHash (mkWorld (w_db sampleClaimed) 100)).

Lemma generation_takeover_fences_witness :
  let w1 := sampleTakeover.2 in
  (exists e w3, @completeGeneration (calm 1772409600000) noBeta (actingAs ScheduleChanges.sampleManager)
     ScheduleChanges.codeUnitOrder ScheduleChanges.sampleManager sampleClaim sampleGenerationHash samplePrepared
     (mkWorld (w_db w1) 200) = (Throw e, w3) /\ w_db w3 = w_db w1) /\
  w_db (@failGeneration (calm 1772409600000) "t1" sampleClaim claimExpired (mkWorld (w_db w1) 200)).2 = w_db w1.
Proof.
  cbv zeta.
  pose proof (@generation_takeover_fences ScheduleChanges.plainDigest (calm 1772409780000)
    (actingAs ScheduleChanges.sampleManager) ScheduleChanges.sampleManager "t1" "key-00001"
    sampleGenerationHash (mkClaim (gc_requestId sampleClaim) "id100") sampleClaim (mkWorld (w_db sampleClaimed) 100)
    sampleTakeover.2 (mkWorld (w_db sampleTakeover.2) 200) sampleClaimed_unique) as Hf.
  destruct (Hf ltac:(vm_compute; reflexivity) ltac:(reflexivity) ltac:(vm_compute; discriminate) (w_db_mk _ _)
    (calm 1772409600000) noBeta (actingAs ScheduleChanges.sampleManager) ScheduleChanges.codeUnitOrder) as [H1 H2].
  split; [apply H1|apply H2].
Defined.
