(* ===== verification/TimeCardValidation.v ===== *)
(** * Time-card inputs

    apps/api-v2/src/time/validation.ts and the instants of
    apps/api-v2/src/time/pagination.ts: the corrections of a time card, its
    notes and break minutes, and the value its audit rows record.

    Requests come from the contract's validation, so their texts are texts and
    their numbers integers; an optional property is an [option], one that may
    also be [null] an [option] of an [option]. *)

From S2P Require Import Prelude JsStd JsDate ContractHelpers PayrollRecords.

Definition MAX_CORRECTION_WINDOW_MS : Z := 31 * 24 * 60 * 60 * 1000.
Definition MAX_FUTURE_SKEW_MS : Z := 5 * 60 * 1000.
Definition MAX_BREAK_INTERVALS : nat := 24.

Definition invalidTimeCardInput {A} (detail : string) : Result A :=
  throwProblem 422 "invalid_time_card_input" detail "Time-card validation failed".

(** ** Instants *)

Definition parseTimeCardInstant (value field : string) : Result Z :=
  if isEmpty (trim value) then invalidTimeCardInput (field +:+ " is required.") else
  let normalized := trim value in
  match matchInstant normalized with
  | None => invalidTimeCardInput (field +:+ " must use a UTC ISO 8601 instant.")
  | Some _ =>
      match dateParse normalized with
      | Some parsed =>
          if bool_decide (slice0 19 (toISOString parsed) = slice0 19 normalized) then Ok parsed
          else invalidTimeCardInput (field +:+ " must use a valid UTC ISO 8601 instant.")
      | None => invalidTimeCardInput (field +:+ " must use a valid UTC ISO 8601 instant.")
      end
  end.

(** ** Corrections *)

Record PersistedBreakInterval := mkInterval { pi_startAt : Z; pi_endAt : Z }.

#[global] Instance PersistedBreakInterval_eq_dec : EqDecision PersistedBreakInterval.
Proof. solve_decision. Defined.

Record CorrectableTimeCard := mkCorrectable {
  ct_clockInAt : Z;
  ct_clockOutAt : option Z;
  ct_breakMinutes : Z;
  ct_breaks : list PersistedBreakInterval;
}.

(** [TimeCardCorrectionRequest] *)
Record CorrectionRequest := mkCorrectionRequest {
  cr_clockInAt : option string;
  cr_clockOutAt : option (option string);
  cr_breakIntervals : option (list (string * string));
  cr_expectedUpdatedAt : string;
  cr_reason : string;
}.

Record ValidatedTimeCardCorrection := mkCorrection {
  vc_clockInAt : Z;
  vc_clockOutAt : option Z;
  vc_breakIntervals : option (list PersistedBreakInterval);
  vc_breakMinutes : Z;
  vc_expectedUpdatedAt : Z;
  vc_reason : string;
  vc_status : CardStatus;
}.

Definition requiredReason (value : string) : Result string :=
  let reason := trim value in
  if (strLen reason <? 5) || (500 <? strLen reason)
  then invalidTimeCardInput "Correction reason must be between 5 and 500 characters."
  else Ok reason.

(** [(end - start) / 60_000]; the intervals it is asked of have whole minutes. *)
Definition durationMinutes (interval : PersistedBreakInterval) : Z :=
  (pi_endAt interval - pi_startAt interval) / 60000.

Definition ordinal (index : nat) : string := showZ (Z.of_nat index + 1).

(** [value.map((entry, index) => ...)] for the intervals of a request. *)
Fixpoint parseIntervals (index : nat) (value : list (string * string)) : Result (list PersistedBreakInterval) :=
  match value with
  | [] => Ok []
  | (startText, endText) :: rest =>
      let name := "breakIntervals[" +:+ showZ (Z.of_nat index) +:+ "]" in
      startAt ← parseTimeCardInstant startText (name +:+ ".startAt");
      endAt ← parseTimeCardInstant endText (name +:+ ".endAt");
      intervals ← parseIntervals (S index) rest;
      Ok (mkInterval startAt endAt :: intervals)
  end.

(** The loop over [intervals.entries()]. *)
Fixpoint checkIntervals (index : nat) (clockInAt cardEnd : Z) (previousEnd : option Z)
    (intervals : list PersistedBreakInterval) : Result unit :=
  match intervals with
  | [] => Ok tt
  | interval :: rest =>
      if pi_endAt interval <=? pi_startAt interval then
        invalidTimeCardInput ("Break " +:+ ordinal index +:+ " must end after it starts.")
      else if negb (Z.rem (pi_endAt interval - pi_startAt interval) 60000 =? 0) then
        invalidTimeCardInput ("Break " +:+ ordinal index +:+ " must use whole-minute boundaries.")
      else if (pi_startAt interval <? clockInAt) || (cardEnd <? pi_endAt interval) then
        invalidTimeCardInput ("Break " +:+ ordinal index +:+ " must be inside the time-card window.")
      else if match previousEnd with Some p => pi_startAt interval <? p | None => false end then
        invalidTimeCardInput "Break intervals must be chronological and cannot overlap."
      else checkIntervals (S index) clockInAt cardEnd (Some (pi_endAt interval)) rest
  end.

(** [validateBreakIntervals], once for texts and once for stored dates. *)
Definition validateIntervals (count : nat) (parsed : Result (list PersistedBreakInterval))
    (clockInAt : Z) (clockOutAt : option Z) (nowMs : Z) : Result (list PersistedBreakInterval) :=
  if (MAX_BREAK_INTERVALS <? count)%nat then
    invalidTimeCardInput "A time card cannot contain more than 24 break intervals."
  else
    intervals ← parsed;
    _ ← checkIntervals 0 clockInAt (default nowMs clockOutAt) None intervals;
    Ok intervals.

Definition assertCorrectionWindow (clockInAt : Z) (clockOutAt : option Z) (nowMs : Z) : Result unit :=
  let latestAllowed := nowMs + MAX_FUTURE_SKEW_MS in
  if (latestAllowed <? clockInAt) || match clockOutAt with Some out => latestAllowed <? out | None => false end then
    invalidTimeCardInput "Corrected timestamps cannot be more than five minutes in the future."
  else
    let effectiveEnd := default nowMs clockOutAt in
    if effectiveEnd <=? clockInAt then invalidTimeCardInput "Clock out must be after clock in."
    else if MAX_CORRECTION_WINDOW_MS <? effectiveEnd - clockInAt then
      invalidTimeCardInput "A corrected time card cannot span more than 31 days."
    else Ok tt.

Definition sumMinutes (intervals : list PersistedBreakInterval) : Z :=
  fold_left (fun total interval => total + durationMinutes interval) intervals 0.

Definition validateTimeCardCorrection (body : CorrectionRequest) (current : CorrectableTimeCard) (nowMs : Z)
    : Result ValidatedTimeCardCorrection :=
  reason ← requiredReason (cr_reason body);
  expectedUpdatedAt ← parseTimeCardInstant (cr_expectedUpdatedAt body) "expectedUpdatedAt";
  _ ← (match cr_clockInAt body, cr_clockOutAt body, cr_breakIntervals body with
       | None, None, None => invalidTimeCardInput "Provide at least one time-card field to correct."
       | _, _, _ => Ok tt
       end);
  clockInAt ← (match cr_clockInAt body with
               | Some value => parseTimeCardInstant value "clockInAt"
               | None => Ok (ct_clockInAt current)
               end);
  clockOutAt ← (match cr_clockOutAt body with
                | Some (Some value) => Some <$> parseTimeCardInstant value "clockOutAt"
                | Some None => Ok None
                | None => Ok (ct_clockOutAt current)
                end);
  _ ← assertCorrectionWindow clockInAt clockOutAt nowMs;
  intervals ← (match cr_breakIntervals body with
               | Some value => validateIntervals (length value) (parseIntervals 0 value) clockInAt clockOutAt nowMs
               | None => validateIntervals (length (ct_breaks current)) (Ok (ct_breaks current)) clockInAt clockOutAt nowMs
               end);
  let hasBreakIntervals := match cr_breakIntervals body with Some _ => true | None => false end in
  let breakMinutes := sumMinutes intervals in
  if negb hasBreakIntervals && (0 <? length intervals)%nat && negb (breakMinutes =? ct_breakMinutes current) then
    invalidTimeCardInput "Stored break intervals do not match aggregate break minutes."
  else
    let grossMinutes := (default nowMs clockOutAt - clockInAt) / 60000 in
    let nextBreakMinutes := if hasBreakIntervals then breakMinutes else ct_breakMinutes current in
    if (0 <? nextBreakMinutes) && (grossMinutes <=? nextBreakMinutes) then
      invalidTimeCardInput "Break time must be less than the time-card window."
    else Ok (mkCorrection clockInAt clockOutAt (if hasBreakIntervals then Some intervals else None) nextBreakMinutes
               expectedUpdatedAt reason (if clockOutAt then CLOSED else OPEN)).

(** ** Notes and break minutes *)

Definition normalizeTimeCardNotes (value : option string) : Result (option (option string)) :=
  match value with
  | None => Ok None
  | Some text =>
      let normalized := trim text in
      if 1000 <? strLen normalized then invalidTimeCardInput "notes must be at most 1000 characters."
      else Ok (Some (if isEmpty normalized then None else Some normalized))
  end.

Definition normalizeClockOutBreakMinutes (value : option Z) (totalMinutes : Z) : Result Z :=
  match value with
  | None => Ok 0
  | Some minutes =>
      if minutes <? 0 then invalidTimeCardInput "Break minutes must be a non-negative whole number."
      else if (0 <? minutes) && (totalMinutes <=? minutes) then
        invalidTimeCardInput "Break minutes must be less than worked minutes."
      else Ok minutes
  end.

(** [error.message.includes(text)] *)
Definition textIncludes (text message : string) : bool :=
  match String.index 0 text message with Some _ => true | None => false end.

Definition isTimeCardOverlap (error : Exn) : bool :=
  match error with
  | Problem p => bool_decide (pCode p = "time_card_overlap") || textIncludes "TimeCard_employee_no_overlap" (pDetail p)
  | JsError m => textIncludes "TimeCard_employee_no_overlap" m
  | DriverError _ _ => false
  end.

(** ** What a correction guarantees *)

Definition insideCard (clockInAt cardEnd : Z) (interval : PersistedBreakInterval) : Prop :=
  clockInAt <= pi_startAt interval < pi_endAt interval /\ pi_endAt interval <= cardEnd /\
  (pi_endAt interval - pi_startAt interval) mod 60000 = 0.

(** Breaks in order, apart and inside the card. *)
Definition breaksFit (clockInAt cardEnd : Z) (intervals : list PersistedBreakInterval) : Prop :=
  Forall (insideCard clockInAt cardEnd) intervals /\
  StronglySorted (fun a b => pi_endAt a <= pi_startAt b) intervals.

Lemma checkIntervals_Ok index clockInAt cardEnd previousEnd intervals u :
  checkIntervals index clockInAt cardEnd previousEnd intervals = Ok u <->
  breaksFit clockInAt cardEnd intervals /\
  (forall p i, previousEnd = Some p -> i ∈ intervals -> p <= pi_startAt i).
Proof.
  unfold breaksFit. revert index previousEnd. induction intervals as [|[s e] rest IH]; intros index previousEnd.
  - cbn. destruct u. split; [|done]. intros _. split; [split; constructor|]. intros ? ? _ Hin. by apply elem_of_nil in Hin.
  - cbn [checkIntervals pi_startAt pi_endAt]. destruct (e <=? s) eqn:E1.
    { split; [done|]. intros [[Hf _] _]. inversion Hf as [|? ? [Hs _]]; subst; cbn in Hs. bool_lia. }
    destruct (negb _) eqn:E2.
    { split; [done|]. intros [[Hf _] _]. inversion Hf as [|? ? (Hs & _ & Hm)]; subst; cbn in Hs, Hm.
      bools. exfalso. apply E2. by rewrite Z.rem_mod_nonneg by lia. }
    destruct (_ || _) eqn:E3.
    { split; [done|]. intros [[Hf _] _]. inversion Hf as [|? ? (Hs & He & _)]; subst; cbn in Hs, He. bool_lia. }
    destruct (match previousEnd with Some p => s <? p | None => false end) eqn:E4.
    { split; [done|]. intros [_ Hp]. destruct previousEnd as [p|]; [|done].
      specialize (Hp p (mkInterval s e) eq_refl ltac:(left)). cbn in Hp. bool_lia. }
    rewrite IH. bools. rewrite Z.rem_mod_nonneg in E2 by lia.
    split.
    + intros [[Hf Hs] Hp]. split; [split; constructor|].
      * split; cbn; [lia|split; [lia|done]].
      * done.
      * done.
      * apply Forall_forall. intros i Hi. by apply (Hp e i).
      * intros p i -> [->|Hi]%elem_of_cons; cbn; [bool_lia|]. pose proof (Hp e i eq_refl Hi). bool_lia.
    + intros [[Hf Hs] Hp]. inversion Hf; subst. apply StronglySorted_inv in Hs as [Hs Hall].
      split; [done|]. intros p i [= <-] Hi. rewrite Forall_forall in Hall. by apply Hall.
Qed.

Lemma requiredReason_Ok value reason :
  requiredReason value = Ok reason <-> reason = trim value /\ 5 <= strLen (trim value) <= 500.
Proof.
  unfold requiredReason. destruct (_ || _) eqn:E; [split; [done|]; intros [-> ?]; bool_lia|].
  split; [intros [= <-]; split; [done|]; bool_lia|by intros [-> _]].
Qed.

Definition windowAllowed (clockInAt : Z) (clockOutAt : option Z) (nowMs : Z) : Prop :=
  clockInAt < default nowMs clockOutAt <= clockInAt + MAX_CORRECTION_WINDOW_MS /\
  clockInAt <= nowMs + MAX_FUTURE_SKEW_MS /\ (forall out, clockOutAt = Some out -> out <= nowMs + MAX_FUTURE_SKEW_MS).

Lemma assertCorrectionWindow_Ok clockInAt clockOutAt nowMs u :
  assertCorrectionWindow clockInAt clockOutAt nowMs = Ok u <-> windowAllowed clockInAt clockOutAt nowMs.
Proof.
  unfold assertCorrectionWindow, windowAllowed. destruct u.
  destruct (_ || _) eqn:E1.
  { split; [done|]. intros (_ & H1 & H2). apply orb_true_iff in E1 as [E1|E1]; [bool_lia|].
    destruct clockOutAt as [out|]; [|done]. specialize (H2 out eq_refl). bool_lia. }
  apply orb_false_iff in E1 as [E1 E1']. destruct (_ <=? clockInAt) eqn:E2; [split; [done|]; intros [H _]; bool_lia|].
  destruct (MAX_CORRECTION_WINDOW_MS <? _) eqn:E3; [split; [done|]; intros [H _]; bool_lia|].
  split; [intros _|done]. split; [bool_lia|]. split; [bool_lia|]. intros out ->. bool_lia.
Qed.

Lemma validateIntervals_Ok count parsed clockInAt clockOutAt nowMs intervals :
  validateIntervals count parsed clockInAt clockOutAt nowMs = Ok intervals <->
  (count <= MAX_BREAK_INTERVALS)%nat /\ parsed = Ok intervals /\
  breaksFit clockInAt (default nowMs clockOutAt) intervals.
Proof.
  unfold validateIntervals. destruct (MAX_BREAK_INTERVALS <? count)%nat eqn:E.
  { apply Nat.ltb_lt in E. split; [done|]. intros [? _]. lia. }
  apply Nat.ltb_ge in E. split.
  - intros (l & -> & Hr)%Result_bind_Ok. apply Result_bind_Ok in Hr as ([] & [Hf _]%checkIntervals_Ok & [= <-]). done.
  - intros (_ & -> & Hf). apply Result_bind_Ok. exists intervals. split; [done|]. apply Result_bind_Ok. exists tt.
    split; [|done]. apply checkIntervals_Ok. done.
Qed.

(** The correction a request asks for, and when it may be made. *)
Record CorrectionAccepted (body : CorrectionRequest) (current : CorrectableTimeCard) (nowMs : Z)
    (v : ValidatedTimeCardCorrection) : Prop := mkAccepted {
  ca_reason : vc_reason v = trim (cr_reason body) /\ 5 <= strLen (trim (cr_reason body)) <= 500;
  ca_expected : parseTimeCardInstant (cr_expectedUpdatedAt body) "expectedUpdatedAt" = Ok (vc_expectedUpdatedAt v);
  ca_some : ~ (cr_clockInAt body = None /\ cr_clockOutAt body = None /\ cr_breakIntervals body = None);
  ca_clockIn : match cr_clockInAt body with
               | Some value => parseTimeCardInstant value "clockInAt" = Ok (vc_clockInAt v)
               | None => vc_clockInAt v = ct_clockInAt current
               end;
  ca_clockOut : match cr_clockOutAt body with
                | Some (Some value) => exists out, parseTimeCardInstant value "clockOutAt" = Ok out /\ vc_clockOutAt v = Some out
                | Some None => vc_clockOutAt v = None
                | None => vc_clockOutAt v = ct_clockOutAt current
                end;
  ca_window : windowAllowed (vc_clockInAt v) (vc_clockOutAt v) nowMs;
  ca_breaks : exists intervals, breaksFit (vc_clockInAt v) (default nowMs (vc_clockOutAt v)) intervals /\
    (length intervals <= MAX_BREAK_INTERVALS)%nat /\
    match cr_breakIntervals body with
    | Some value => parseIntervals 0 value = Ok intervals /\ vc_breakIntervals v = Some intervals /\
                    vc_breakMinutes v = sumMinutes intervals
    | None => intervals = ct_breaks current /\ vc_breakIntervals v = None /\
              vc_breakMinutes v = ct_breakMinutes current /\
              (intervals <> [] -> sumMinutes intervals = ct_breakMinutes current)
    end;
  ca_minutes : 0 < vc_breakMinutes v ->
    (vc_breakMinutes v + 1) * 60000 <= default nowMs (vc_clockOutAt v) - vc_clockInAt v;
  ca_status : vc_status v = if vc_clockOutAt v then CLOSED else OPEN;
}.

Lemma parseIntervals_length index value intervals :
  parseIntervals index value = Ok intervals -> length intervals = length value.
Proof.
  revert index intervals. induction value as [|[s e] rest IH]; intros index intervals; cbn [parseIntervals]; [by intros [= <-]|].
  intros (a & _ & Hr)%Result_bind_Ok. apply Result_bind_Ok in Hr as (b & _ & Hr).
  apply Result_bind_Ok in Hr as (l & Hl & [= <-]). cbn. f_equal. by eapply IH.
Qed.

Lemma minutes_below (total minutes : Z) : (total / 60000 <=? minutes) = false <-> (minutes + 1) * 60000 <= total.
Proof. rewrite Z.leb_gt. split; intros; div_lia. Qed.

Lemma validateTimeCardCorrection_Ok body current nowMs v :
  validateTimeCardCorrection body current nowMs = Ok v <-> CorrectionAccepted body current nowMs v.
Proof.
  unfold validateTimeCardCorrection. split.
  - intros (reason & [-> Hreason]%requiredReason_Ok & Hr)%Result_bind_Ok.
    apply Result_bind_Ok in Hr as (expected & Hexp & Hr). apply Result_bind_Ok in Hr as (u1 & Hsome & Hr).
    apply Result_bind_Ok in Hr as (clockInAt & Hin & Hr). apply Result_bind_Ok in Hr as (clockOutAt & Hout & Hr).
    apply Result_bind_Ok in Hr as (u2 & Hwin%assertCorrectionWindow_Ok & Hr).
    apply Result_bind_Ok in Hr as (intervals & Hint & Hr).
    destruct (negb _ && _ && _) eqn:Esum; [done|]. destruct ((0 <? _) && _) eqn:Emin; [done|].
    injection Hr as <-. split; cbn [vc_reason vc_expectedUpdatedAt vc_clockInAt vc_clockOutAt vc_breakIntervals vc_breakMinutes vc_status].
    + done.
    + done.
    + intros (E1 & E2 & E3). by rewrite E1, E2, E3 in Hsome.
    + destruct (cr_clockInAt body); [done|by injection Hin].
    + destruct (cr_clockOutAt body) as [[text|]|]; [|by injection Hout..].
      apply Result_fmap_Ok in Hout as (out & Hout & E). exists out. by rewrite E.
    + done.
    + exists intervals. destruct (cr_breakIntervals body) as [value|]; apply validateIntervals_Ok in Hint as (Hl & Hp & Hf).
      * split; [done|]. split; [by rewrite (parseIntervals_length _ _ _ Hp)|]. done.
      * injection Hp as Hp. subst intervals. split; [done|]. split; [done|]. split; [done|]. split; [done|]. split; [done|].
        intros Hne. cbn in Esum. apply andb_false_iff in Esum as [E|E]; bools; [|done].
        destruct (ct_breaks current); [done|]. cbn in E. lia.
    + intros Hpos. rewrite (proj2 (Z.ltb_lt _ _) Hpos) in Emin. by apply minutes_below.
    + done.
  - intros [[Hreason Hlen] Hexp Hsome Hin Hout Hwin (intervals & Hfit & Hcount & Hint) Hmin Hst].
    apply Result_bind_Ok. exists (vc_reason v). split; [by apply requiredReason_Ok|].
    apply Result_bind_Ok. exists (vc_expectedUpdatedAt v). split; [done|]. apply Result_bind_Ok. exists tt. split.
    { destruct (cr_clockInAt body), (cr_clockOutAt body), (cr_breakIntervals body); try done. by destruct Hsome. }
    apply Result_bind_Ok. exists (vc_clockInAt v). split; [by destruct (cr_clockInAt body); [|rewrite Hin]|].
    apply Result_bind_Ok. exists (vc_clockOutAt v). split.
    { destruct (cr_clockOutAt body) as [[text|]|]; [|by rewrite Hout..].
      destruct Hout as (out & E1 & E2). by rewrite E1, E2. }
    apply Result_bind_Ok. exists tt. split; [by apply assertCorrectionWindow_Ok|].
    apply Result_bind_Ok. exists intervals. split.
    { destruct (cr_breakIntervals body) as [value|]; apply validateIntervals_Ok.
      - destruct Hint as (Hp & _). by rewrite <- (parseIntervals_length _ _ _ Hp).
      - destruct Hint as (-> & _). done. }
    assert (Eguard : forall minutes, minutes = vc_breakMinutes v ->
      (0 <? minutes) && ((default nowMs (vc_clockOutAt v) - vc_clockInAt v) / 60000 <=? minutes) = false).
    { intros minutes ->. destruct (0 <? vc_breakMinutes v) eqn:E; [|done]. apply minutes_below, Hmin. bool_lia. }
    destruct (cr_breakIntervals body) as [value|]; cbn [negb andb].
    + destruct Hint as (_ & Hi & Hm). rewrite Eguard by done. destruct v; cbn in *. by subst.
    + destruct Hint as (Hi & Hnone & Hm & Hsum). rewrite (Eguard (ct_breakMinutes current)) by done.
      destruct (_ && _) eqn:E.
      { exfalso. apply andb_true_iff in E as [E1 E2]. bools. apply E2, Hsum. intros ->. cbn in E1. lia. }
      destruct v; cbn in *. by subst.
Qed.

(** A correction of a time card is accepted exactly when its reason,
    window, breaks and break minutes allow it, and then says what will be
    written: the fields it names, or those of the card; a window that is not
    empty, not in the future and at most 31 days; at most 24 breaks of whole
    minutes, in order, apart and inside the window, whose sum is the break
    minutes and leaves at least a minute of work. *)
Theorem validateTimeCardCorrection_accepts body current nowMs v :
  validateTimeCardCorrection body current nowMs = Ok v <-> CorrectionAccepted body current nowMs v.
Proof. apply validateTimeCardCorrection_Ok. Qed.
