(* ===== verification/TimeCardPayroll.v ===== *)
(** * Time cards and payroll periods

    apps/api-v2/src/time/payroll.ts: the payroll period a time card is
    assigned to when it is created or corrected, the locks a change of a card
    takes on its periods, and the cutoff of a clock-out.

    The policy in force is searched page by page.  The loop of the source is
    bounded by fuel, one page more than there are policies, and
    [policyLoop_ends] shows that it is always enough. *)

From S2P Require Import Prelude JsStd JsCollections JsDate ContractHelpers TimeZone PayrollRecords.
From S2P Require Import Database FeatureEntitlement.

Definition POLICY_ASSIGNMENT_PAGE_SIZE : nat := 100.

Record TimeCardPayrollAssignment := mkAssignment {
  pa_payrollPeriodId : option string;
  pa_workTimeZone : string;
}.

(** [{ id; timezone }] *)
Record TimeCardLocation := mkCardLocation { cl_id : string; cl_timezone : string }.

(** The date the format shows, its year unpadded. *)
Definition dateValueInTimeZone `{Intl} (value : Z) (timeZone : string) : Result string :=
  if intlTimeZone timeZone then
    let parts := intlZonedParts value timeZone in
    Ok (showZ (zp_year parts) +:+ "-" +:+ padStart2 (zp_month parts) +:+ "-" +:+ padStart2 (zp_day parts))
  else throwProblem 500 "invalid_time_card_timezone" "A saved time-card location timezone is invalid."
         "Time-card data error".

(** ** The policy in force *)

(** [orderBy: [{ effectiveFrom: 'desc' }, { version: 'desc' }]] *)
Definition policyOrder (l r : PayrollPolicyVersion) : Z :=
  orElse (pv_effectiveFrom r - pv_effectiveFrom l) (pv_version r - pv_version l).

Definition tenantPolicies (tenantId : string) (db : Db) : list PayrollPolicyVersion :=
  sortBy policyOrder (List.filter (fun p => bool_decide (pv_tenantId p = tenantId)) (db_policies db)).

(** [cursor: { id }, skip: 1]: the rows after the cursor. *)
Definition afterCursor (cursorId : option string) (l : list PayrollPolicyVersion) : list PayrollPolicyVersion :=
  match cursorId with
  | Some id => skipn 1 (dropWhile (fun p => negb (bool_decide (pv_id p = id))) l)
  | None => l
  end.

(** [findMany] with its order, cursor and limit. *)
Definition policyPage (tenantId : string) (cursorId : option string) (db : Db) : list PayrollPolicyVersion :=
  firstn POLICY_ASSIGNMENT_PAGE_SIZE (afterCursor cursorId (tenantPolicies tenantId db)).

Definition effectiveAt `{Intl} (clockInAt : Z) (candidate : PayrollPolicyVersion) : Result bool :=
  local ← dateValueInTimeZone clockInAt (pv_timeZone candidate);
  Ok (compareText (slice0 10 (toISOString (pv_effectiveFrom candidate))) local <=? 0).

(** [policies.find(...)], whose callback may throw. *)
Fixpoint findEffective `{Intl} (clockInAt : Z) (policies : list PayrollPolicyVersion)
    : Result (option PayrollPolicyVersion) :=
  match policies with
  | [] => Ok None
  | candidate :: rest =>
      hit ← effectiveAt clockInAt candidate;
      if (hit : bool) then Ok (Some candidate) else findEffective clockInAt rest
  end.

Section Assignment.
Context `{Env, Intl}.

Fixpoint policyLoop (fuel : nat) (tenantId : string) (clockInAt : Z) (cursorId : option string)
    : Tx (option PayrollPolicyVersion) :=
  match fuel with
  | O => throwTx (JsError "out of fuel")
  | S fuel =>
      _ ← assertCurrent;
      policies ← query (fun db => Ok (policyPage tenantId cursorId db, db));
      _ ← assertCurrent;
      policy ← liftResult (findEffective clockInAt policies);
      match policy with
      | Some p => mret (Some p)
      | None =>
          if (length policies <? POLICY_ASSIGNMENT_PAGE_SIZE)%nat then mret None else
          match last policies with
          | Some p => if isEmpty (pv_id p) then mret None
                      else policyLoop fuel tenantId clockInAt (Some (pv_id p))
          | None => mret None
          end
      end
  end.

Definition findPolicy (tenantId : string) (clockInAt : Z) : Tx (option PayrollPolicyVersion) := fun w =>
  policyLoop (S (length (db_policies (w_db w)))) tenantId clockInAt None w.

Definition openPeriodAt (tenantId policyId : string) (clockInAt : Z) (p : PayrollPeriodRow) : bool :=
  bool_decide (py_tenantId p = tenantId) && bool_decide (py_policyVersionId p = policyId)
  && bool_decide (py_status p = "OPEN") && (py_startsAt p <=? clockInAt) && (clockInAt <? py_endsAt p).

Definition lockPayrollTenant (tenantId : string) : Tx unit := statement.
Definition lockPayrollPeriod (tenantId periodId : string) : Tx unit := statement.

Definition resolveTimeCardPayrollAssignment (tenantId : string) (clockInAt : Z) (location : option TimeCardLocation)
    : Tx TimeCardPayrollAssignment :=
  _ ← assertCurrent;
  policy ← findPolicy tenantId clockInAt;
  match policy, location with
  | None, _ => mret (mkAssignment None (match location with Some l => cl_timezone l | None => "UTC" end))
  | Some _, None =>
      throwProblemTx 422 "time_card_location_required" "Payroll-enabled time cards require a location."
        "Time-card validation failed"
  | Some p, Some l =>
      period ← findFirst (openPeriodAt tenantId (pv_id p) clockInAt);
      _ ← assertCurrent;
      match period with
      | None => throwProblemTx 409 "no_open_payroll_period" "No open payroll period covers this clock-in time."
                  "Payroll period unavailable"
      | Some period =>
          _ ← lockPayrollTenant tenantId;
          _ ← assertCurrent;
          _ ← lockPayrollPeriod tenantId (py_id period);
          _ ← assertCurrent;
          current ← findMany (fun q => bool_decide (py_id q = py_id period) && openPeriodAt tenantId (pv_id p) clockInAt q);
          _ ← assertCurrent;
          if negb (length current =? 1)%nat then
            throwProblemTx 409 "payroll_period_changed"
              "The payroll period changed while this time card was being created." "Concurrent change"
          else mret (mkAssignment (Some (py_id period)) (cl_timezone l))
      end
  end.

(** ** The locks of a change *)

(** [[...new Set(periodIds.filter(Boolean))].sort()] *)
Definition orderedPeriodIds (periodIds : list (option string)) : list string :=
  sortBy compareText (remove_dups
    (flat_map (fun i => match i with Some s => if isEmpty s then [] else [s] | None => [] end) periodIds)).

Definition periodNamed (tenantId periodId : string) (p : PayrollPeriodRow) : bool :=
  bool_decide (py_id p = periodId) && bool_decide (py_tenantId p = tenantId).

(** The loop over [orderedPeriodIds]. *)
Fixpoint lockPeriods (tenantId : string) (periodIds : list string) : Tx (list PayrollPeriodWindow) :=
  match periodIds with
  | [] => mret []
  | periodId :: rest =>
      _ ← assertCurrent;
      _ ← lockPayrollPeriod tenantId periodId;
      _ ← assertCurrent;
      periods ← findMany (periodNamed tenantId periodId);
      _ ← assertCurrent;
      match periods with
      | [period] =>
          if bool_decide (py_status period = "LOCKED") then
            throwProblemTx 409 "payroll_period_locked"
              "This time card belongs to a locked payroll period and cannot be changed." "Payroll period locked"
          else
            locked ← lockPeriods tenantId rest;
            mret (mkWindow (py_id period) (py_startsAt period) (py_endsAt period) :: locked)
      | _ => throwProblemTx 409 "payroll_period_changed"
               "The payroll period changed while this time card was being updated." "Concurrent change"
      end
  end.

Definition lockTimeCardPayrollContext (tenantId timeCardId : string) (periodIds : list (option string))
    : Tx (list PayrollPeriodWindow) :=
  _ ← assertCurrent;
  _ ← statement;
  _ ← assertCurrent;
  _ ← lockPayrollTenant tenantId;
  _ ← assertCurrent;
  locked ← lockPeriods tenantId (orderedPeriodIds periodIds);
  _ ← statement;
  _ ← assertCurrent;
  _ ← statement;
  _ ← assertCurrent;
  mret locked.
End Assignment.

Definition assertClockOutWithinPayrollPeriod (payrollPeriodId : option string) (clockOutAt : Z)
    (periods : list PayrollPeriodWindow) : Result unit :=
  match payrollPeriodId with
  | None => Ok tt
  | Some id =>
      if isEmpty id then Ok tt else
      match List.find (fun p => bool_decide (pw_id p = id)) periods with
      | None => throwProblem 409 "payroll_period_changed"
                  "The assigned payroll period changed while this time card was being closed." "Concurrent change"
      | Some period =>
          if pw_endsAt period <? clockOutAt then
            throwProblem 409 "payroll_period_cutoff"
              "Clock out cannot cross the assigned payroll period cutoff." "Payroll period cutoff"
          else Ok tt
      end
  end.

(** ** The search finds the policy in force *)

(** Identifiers are keys and never empty. *)
Definition policiesKeyed (db : Db) : Prop :=
  NoDup (map pv_id (db_policies db)) /\ Forall (fun p => pv_id p <> "") (db_policies db).

Lemma NoDup_filter_map {A B} (f : A -> B) (p : A -> bool) l : NoDup (map f l) -> NoDup (map f (List.filter p l)).
Proof.
  induction l as [|x l IH]; [done|]. intros [Hn Hd]%NoDup_cons. cbn. destruct (p x); [|auto].
  constructor; [|auto]. intros Hin. apply Hn. apply list_elem_of_In, in_map_iff in Hin as (y & E & [Hy _]%filter_In).
  apply list_elem_of_In, in_map_iff. eauto.
Qed.

Lemma tenantPolicies_keyed tenantId db :
  policiesKeyed db -> NoDup (map pv_id (tenantPolicies tenantId db)) /\
    Forall (fun p => pv_id p <> "") (tenantPolicies tenantId db).
Proof.
  intros [Hn Hf]. unfold tenantPolicies. split.
  - rewrite (sortBy_perm policyOrder _). by apply NoDup_filter_map.
  - apply Forall_forall. intros p Hp%sortBy_elem. apply list_elem_of_In, filter_In in Hp as [Hp _].
    rewrite Forall_forall in Hf. apply Hf. by apply list_elem_of_In.
Qed.

Lemma tenantPolicies_length tenantId db : (length (tenantPolicies tenantId db) <= length (db_policies db))%nat.
Proof. unfold tenantPolicies. rewrite sortBy_length. apply List.filter_length_le. Qed.

Lemma dropWhile_app_id (id : string) (pre : list PayrollPolicyVersion) p s :
  id ∉ map pv_id pre -> pv_id p = id ->
  dropWhile (fun q => negb (bool_decide (pv_id q = id))) (pre ++ p :: s) = p :: s.
Proof.
  intros Hn E. induction pre as [|q pre IH]; cbn in *.
  - by rewrite bool_decide_true.
  - apply not_elem_of_cons in Hn as [Hq Hn]. rewrite bool_decide_false by congruence. cbn. by apply IH.
Qed.

Lemma afterCursor_app pre p s :
  NoDup (map pv_id (pre ++ p :: s)) -> afterCursor (Some (pv_id p)) (pre ++ p :: s) = s.
Proof.
  intros Hn. cbn [afterCursor]. rewrite dropWhile_app_id; [done| |done].
  rewrite map_app in Hn. apply NoDup_app in Hn as (_ & Hd & _). intros Hin. apply (Hd _ Hin). by left.
Qed.

Section Search.
Context `{Env, Intl}.

Lemma findEffective_app clockInAt l k :
  findEffective clockInAt (l ++ k) =
  match findEffective clockInAt l with Ok None => findEffective clockInAt k | r => r end.
Proof.
  induction l as [|p l IH]; [done|]. cbn [app findEffective].
  destruct (effectiveAt clockInAt p) as [[]|e]; [done| |done]. cbn. exact IH.
Qed.

(** One page of a list whose identifiers are distinct: either the list ends in
    it, or the next page starts after its last row. *)
Lemma page_split pre (s : list PayrollPolicyVersion) :
  let page := firstn POLICY_ASSIGNMENT_PAGE_SIZE s in
  NoDup (map pv_id (pre ++ s)) -> Forall (fun p => pv_id p <> "") (pre ++ s) ->
  (length page <? POLICY_ASSIGNMENT_PAGE_SIZE)%nat = true /\ page = s \/
  (length page <? POLICY_ASSIGNMENT_PAGE_SIZE)%nat = false /\
  exists q rest pre', last page = Some q /\ isEmpty (pv_id q) = false /\ pre ++ s = pre' ++ rest /\
    s = page ++ rest /\ (length rest < length s)%nat /\ afterCursor (Some (pv_id q)) (pre ++ s) = rest.
Proof.
  intros page Hn Hf. destruct (length page <? POLICY_ASSIGNMENT_PAGE_SIZE)%nat eqn:E.
  - left. split; [done|]. apply Nat.ltb_lt in E. unfold page in *. rewrite length_firstn in E.
    apply firstn_all2. lia.
  - right. split; [done|]. apply Nat.ltb_ge in E. unfold POLICY_ASSIGNMENT_PAGE_SIZE in E.
    destruct (exists_last (l := page)) as (init & q & Ep); [intros E0; rewrite E0 in E; cbn in E; lia|].
    set (rest := skipn POLICY_ASSIGNMENT_PAGE_SIZE s).
    assert (Es : s = page ++ rest) by (symmetry; apply firstn_skipn).
    assert (Eq : pre ++ s = (pre ++ init) ++ q :: rest) by (rewrite Es, Ep, <- !app_assoc; done).
    exists q, rest, (pre ++ init ++ [q]). split; [by rewrite Ep, last_snoc|]. split.
    { unfold isEmpty. apply bool_decide_eq_false. rewrite Forall_forall in Hf. apply Hf. rewrite Eq. set_solver. }
    split; [by rewrite Eq, <- !app_assoc|]. split; [done|]. split.
    { rewrite Es, length_app. lia. }
    rewrite Eq in *. by apply afterCursor_app.
Qed.

Lemma policyLoop_Ok tenantId clockInAt fuel cursor pre w r w' :
  policiesKeyed (w_db w) ->
  let s := afterCursor cursor (tenantPolicies tenantId (w_db w)) in
  tenantPolicies tenantId (w_db w) = pre ++ s ->
  policyLoop fuel tenantId clockInAt cursor w = (Ok r, w') ->
  w_db w' = w_db w /\ findEffective clockInAt s = Ok r.
Proof.
  intros Hk. revert cursor pre w Hk. induction fuel as [|fuel IH]; intros cursor pre w Hk s Hs; cbn [policyLoop].
  { by intros ?%throwTx_Ok. }
  destruct (tenantPolicies_keyed tenantId _ Hk) as [Hn Hf]. rewrite Hs in Hn, Hf.
  intros (? & w1 & [_ ->]%assertCurrent_Ok & Hr)%Tx_bind_Ok.
  apply Tx_bind_Ok in Hr as (page & w2 & (_ & db & [= <- <-] & ->)%query_Ok & Hr).
  apply Tx_bind_Ok in Hr as (? & w3 & [_ ->]%assertCurrent_Ok & Hr).
  apply Tx_bind_Ok in Hr as (policy & w4 & [Hp <-]%liftResult_Ok & Hr).
  cbn [w_db tick] in *. unfold policyPage in *. fold s in Hp, Hr.
  destruct (page_split pre s Hn Hf) as [[E1 E2]|(E1 & q & rest & pre' & Eq & Ee & Epre & Es & _ & Ea)].
  - rewrite E1 in Hr. rewrite E2 in Hp. by destruct policy; apply Tx_ret_Ok in Hr as [<- <-].
  - destruct policy as [p|].
    + apply Tx_ret_Ok in Hr as [<- <-]. split; [done|]. by rewrite Es, findEffective_app, Hp.
    + rewrite E1, Eq, Ee in Hr. rewrite Es, findEffective_app, Hp.
      rewrite <- Hs in Ea, Epre. apply (IH _ pre') in Hr as [E1' E2']; cbn [w_db tick] in *; rewrite ?Ea in *; done.
Qed.

(** What a search through the policies comes to, between two ticks: its
    answer, or a failure that a call of the search met on the way. *)
Definition searched (clockInAt : Z) (policies : list PayrollPolicyVersion) (first next : nat) (r : Result (option PayrollPolicyVersion)) : Prop :=
  r = findEffective clockInAt policies \/
  exists n e, (first <= n < next)%nat /\ r = Throw e /\ (faultAt n = Some e \/ currentAt n = Some e).

Lemma policyLoop_ends tenantId clockInAt fuel cursor pre w r w' :
  policiesKeyed (w_db w) ->
  let s := afterCursor cursor (tenantPolicies tenantId (w_db w)) in
  tenantPolicies tenantId (w_db w) = pre ++ s -> (length s < fuel)%nat ->
  policyLoop fuel tenantId clockInAt cursor w = (r, w') ->
  searched clockInAt s (w_tick w) (w_tick w') r /\
  exists k, (POLICY_ASSIGNMENT_PAGE_SIZE * k <= length s)%nat /\ (w_tick w' <= w_tick w + 3 * S k)%nat.
Proof.
  intros Hk. revert cursor pre w Hk. induction fuel as [|fuel IH]; intros cursor pre w Hk s Hs Hl; [lia|].
  cbn [policyLoop]. destruct (tenantPolicies_keyed tenantId _ Hk) as [Hn Hf]. rewrite Hs in Hn, Hf.
  assert (Hfail : forall n e w1, (w_tick w <= n < w_tick w1)%nat -> (w_tick w1 <= w_tick w + 3)%nat -> faultAt n = Some e \/ currentAt n = Some e ->
    searched clockInAt s (w_tick w) (w_tick w1) (Throw e) /\
    exists k, (POLICY_ASSIGNMENT_PAGE_SIZE * k <= length s)%nat /\ (w_tick w1 <= w_tick w + 3 * S k)%nat).
  { intros n e w1 Hn1 Hn2 He. split; [right; by exists n, e|]. exists 0%nat. lia. }
  unfold mbind at 1, Tx_bind, assertCurrent at 1. destruct (currentAt (w_tick w)) as [e|] eqn:E1.
  { intros [= <- <-]. apply (Hfail (w_tick w)); [cbn; lia..|by right]. }
  unfold query at 1, mbind at 1. cbn [w_tick w_db tick]. destruct (faultAt (S (w_tick w))) as [e|] eqn:E2.
  { intros [= <- <-]. apply (Hfail (S (w_tick w))); [cbn; lia..|by left]. }
  cbn [w_tick w_db tick]. unfold mbind at 1, assertCurrent at 1. cbn [w_tick w_db tick].
  destruct (currentAt (S (S (w_tick w)))) as [e|] eqn:E3.
  { intros [= <- <-]. apply (Hfail (S (S (w_tick w)))); [cbn; lia..|by right]. }
  assert (Hdone : forall r0, r0 = findEffective clockInAt s ->
    searched clockInAt s (w_tick w) (S (S (S (w_tick w)))) r0 /\
    exists k, (POLICY_ASSIGNMENT_PAGE_SIZE * k <= length s)%nat /\ (S (S (S (w_tick w))) <= w_tick w + 3 * S k)%nat).
  { intros r0 Hr0. split; [by left|]. exists 0%nat. lia. }
  unfold mbind at 1, liftResult. unfold policyPage. fold s. unfold policyPage in IH.
  destruct (page_split pre s Hn Hf) as [[E4 E5]|(E4 & q & rest & pre' & Eq & Ee & Epre & Es & Hlt & Ea)].
  - rewrite E4, E5. destruct (findEffective clockInAt s) as [[p|]|e]; intros [= <- <-]; by apply Hdone.
  - assert (Hfe : findEffective clockInAt s = _) by (rewrite Es at 1; apply findEffective_app).
    destruct (findEffective clockInAt (firstn _ s)) as [[p|]|e]; [intros [= <- <-]; by apply Hdone| |intros [= <- <-]; by apply Hdone].
    rewrite E4, Eq, Ee. intros Hr. rewrite <- Hs in Ea, Epre.
    apply (IH _ pre') in Hr as [Hr (k & Hk1 & Hk2)]; cbn [w_db w_tick tick] in *; rewrite ?Ea in *; [|done|done|lia].
    split.
    + destruct Hr as [->|(n & e & Hb & -> & He)]; [by left|right; exists n, e; split; [lia|done]].
    + exists (S k). split; [|lia]. apply (f_equal length) in Es. rewrite length_app in Es. apply Nat.ltb_ge in E4. lia.
Qed.
End Search.

#[global] Instance policyOrder_comparator : Comparator policyOrder.
Proof.
  apply (Comparator_orElse (fun l r => pv_effectiveFrom r - pv_effectiveFrom l) (fun l r => pv_version r - pv_version l));
    apply Comparator_sub_desc.
Qed.

(** The policy that applies at an instant: of those whose first day has come
    where they apply, the one with the latest first day, and of these the
    latest version. *)
Definition policyInForce `{Intl} (tenantId : string) (clockInAt : Z) (db : Db) (p : PayrollPolicyVersion) : Prop :=
  let effective q := q ∈ db_policies db /\ pv_tenantId q = tenantId /\ effectiveAt clockInAt q = Ok true in
  effective p /\ forall q, effective q -> pv_effectiveFrom q < pv_effectiveFrom p \/
    pv_effectiveFrom q = pv_effectiveFrom p /\ pv_version q <= pv_version p.

Section InForce.
Context `{Env, Intl}.

Lemma findEffective_sorted clockInAt l r :
  StronglySorted (fun a b => policyOrder a b <= 0) l -> findEffective clockInAt l = Ok r ->
  match r with
  | Some p => p ∈ l /\ effectiveAt clockInAt p = Ok true /\
      forall q, q ∈ l -> effectiveAt clockInAt q = Ok true -> policyOrder p q <= 0
  | None => forall q, q ∈ l -> effectiveAt clockInAt q <> Ok true
  end.
Proof.
  induction 1 as [|p l Hs IH Hp]; cbn [findEffective].
  { intros [= <-] q Hq. by apply elem_of_nil in Hq. }
  intros (hit & Eh & Hr)%Result_bind_Ok. destruct hit.
  - injection Hr as <-. split; [by left|]. split; [done|]. intros q [->|Hq]%elem_of_cons _.
    + by rewrite (cmp_refl policyOrder).
    + rewrite Forall_forall in Hp. by apply Hp.
  - specialize (IH Hr). destruct r as [r|].
    + destruct IH as (Hin & He & Hmax). split; [by right|]. split; [done|].
      intros q [->|Hq]%elem_of_cons Hqe; [congruence|by apply Hmax].
    + intros q [->|Hq]%elem_of_cons; [congruence|by apply IH].
Qed.

Lemma tenantPolicies_elem tenantId db q :
  q ∈ tenantPolicies tenantId db <-> q ∈ db_policies db /\ pv_tenantId q = tenantId.
Proof.
  unfold tenantPolicies. rewrite sortBy_elem, !list_elem_of_In, filter_In, bool_decide_eq_true. done.
Qed.

Lemma findPolicy_Ok tenantId clockInAt w r w' :
  policiesKeyed (w_db w) -> findPolicy tenantId clockInAt w = (Ok r, w') ->
  w_db w' = w_db w /\
  match r with
  | Some p => policyInForce tenantId clockInAt (w_db w) p
  | None => forall p, ~ policyInForce tenantId clockInAt (w_db w) p
  end.
Proof.
  intros Hk Hr. apply (policyLoop_Ok _ _ _ _ []) in Hr as [E Hf]; [|done..]. split; [done|].
  cbn [afterCursor] in Hf. apply findEffective_sorted in Hf; [|apply sortBy_sorted, _]. unfold policyInForce. destruct r as [p|].
  - destruct Hf as (Hin & He & Hmax). apply tenantPolicies_elem in Hin as [Hin Ht]. split; [done|].
    intros q (Hq & Hqt & Hqe). specialize (Hmax q). rewrite tenantPolicies_elem in Hmax.
    specialize (Hmax (conj Hq Hqt) Hqe). unfold policyOrder, orElse in Hmax. destruct (_ =? 0) eqn:E0; bools; lia.
  - intros p [(Hin & Ht & He) _]. by apply (Hf p); [apply tenantPolicies_elem|].
Qed.

Lemma policyLoop_ReadOnly fuel tenantId clockInAt cursor : ReadOnly (policyLoop fuel tenantId clockInAt cursor).
Proof.
  revert cursor. induction fuel as [|fuel IH]; intros cursor; cbn [policyLoop]; [apply ReadOnly_throw|].
  apply ReadOnly_bind; [apply ReadOnly_current|intros _].
  apply ReadOnly_bind; [apply (ReadOnly_read (fun db => policyPage tenantId cursor db))|intros page].
  apply ReadOnly_bind; [apply ReadOnly_current|intros _]. apply ReadOnly_bind; [apply ReadOnly_lift|intros [p|]]; [apply ReadOnly_ret|].
  apply ReadOnly_if; [apply ReadOnly_ret|]. destruct (last page); [|apply ReadOnly_ret].
  apply ReadOnly_if; [apply ReadOnly_ret|apply IH].
Qed.

Lemma findPolicy_ReadOnly tenantId clockInAt : ReadOnly (findPolicy tenantId clockInAt).
Proof. intros w. apply policyLoop_ReadOnly. Qed.

Lemma resolveTimeCardPayrollAssignment_ReadOnly tenantId clockInAt location :
  ReadOnly (resolveTimeCardPayrollAssignment tenantId clockInAt location).
Proof.
  unfold resolveTimeCardPayrollAssignment, throwProblemTx, lockPayrollTenant, lockPayrollPeriod.
  apply ReadOnly_bind; [apply ReadOnly_current|intros _]. apply ReadOnly_bind; [apply findPolicy_ReadOnly|intros [p|]];
    [|apply ReadOnly_ret]. destruct location as [l|]; [|apply ReadOnly_throw].
  apply ReadOnly_bind; [apply ReadOnly_findFirst|intros period].
  apply ReadOnly_bind; [apply ReadOnly_current|intros _]. destruct period as [period|]; [|apply ReadOnly_throw].
  repeat (apply ReadOnly_bind; [auto with readonly|intros _]).
  apply ReadOnly_bind; [apply ReadOnly_findMany|intros current].
  apply ReadOnly_bind; [apply ReadOnly_current|intros _]. apply ReadOnly_if; [apply ReadOnly_throw|apply ReadOnly_ret].
Qed.

(** What a card created or corrected to an instant is assigned to. *)
Inductive AssignedTo (tenantId : string) (clockInAt : Z) (location : option TimeCardLocation) (db : Db)
    : TimeCardPayrollAssignment -> Prop :=
  | assigned_none :
      (forall p, ~ policyInForce tenantId clockInAt db p) ->
      AssignedTo tenantId clockInAt location db
        (mkAssignment None (match location with Some l => cl_timezone l | None => "UTC" end))
  | assigned_period p l period :
      policyInForce tenantId clockInAt db p -> location = Some l ->
      period ∈ db_periods db -> py_tenantId period = tenantId -> py_policyVersionId period = pv_id p ->
      py_status period = "OPEN" -> py_startsAt period <= clockInAt < py_endsAt period ->
      AssignedTo tenantId clockInAt location db (mkAssignment (Some (py_id period)) (cl_timezone l)).

Lemma resolveTimeCardPayrollAssignment_Ok tenantId clockInAt location w a w' :
  policiesKeyed (w_db w) ->
  resolveTimeCardPayrollAssignment tenantId clockInAt location w = (Ok a, w') ->
  w_db w' = w_db w /\ AssignedTo tenantId clockInAt location (w_db w) a.
Proof.
  intros Hk Hr. split; [eapply ReadOnly_Ok, Hr; apply resolveTimeCardPayrollAssignment_ReadOnly|].
  unfold resolveTimeCardPayrollAssignment, throwProblemTx, lockPayrollTenant, lockPayrollPeriod in Hr.
  apply Tx_bind_Ok in Hr as (? & w1 & [_ ->]%assertCurrent_Ok & Hr).
  apply Tx_bind_Ok in Hr as (policy & w2 & [E2 Hp]%findPolicy_Ok & Hr); [|done].
  cbn [w_db tick] in *. destruct policy as [p|]; [|apply Tx_ret_Ok in Hr as [<- _]; by apply assigned_none].
  destruct location as [l|]; [|by apply throwTx_Ok in Hr].
  apply Tx_bind_Ok in Hr as (period & w3 & [Ef E3]%findFirst_Ok & Hr). rewrite E2 in Ef. cbn [rows Table_Period] in Ef.
  apply Tx_bind_Ok in Hr as (? & w4 & _ & Hr). destruct period as [period|]; [|by apply throwTx_Ok in Hr].
  do 4 apply Tx_bind_Ok in Hr as (? & ? & _ & Hr). apply Tx_bind_Ok in Hr as (current & ? & _ & Hr).
  apply Tx_bind_Ok in Hr as (? & ? & _ & Hr). destruct (negb _); [by apply throwTx_Ok in Hr|].
  apply Tx_ret_Ok in Hr as [<- _]. symmetry in Ef. apply find_some in Ef as [Hin Hopen].
  unfold openPeriodAt in Hopen. rewrite !andb_true_iff, !bool_decide_eq_true in Hopen.
  destruct Hopen as ((((? & ?) & ?) & ?) & ?). eapply assigned_period; [done..| | | | |]; [by apply list_elem_of_In|done..|bool_lia].
Qed.
End InForce.

Section Locks.
Context `{Env}.

(** A period a change may touch: it is there and not locked. *)
Definition unlockedPeriod (tenantId periodId : string) (db : Db) : Prop :=
  exists period, List.filter (periodNamed tenantId periodId) (db_periods db) = [period] /\
    py_status period <> "LOCKED".

Lemma lockPeriods_Ok tenantId ids w locked w' :
  lockPeriods tenantId ids w = (Ok locked, w') ->
  w_db w' = w_db w /\ Forall (fun id => unlockedPeriod tenantId id (w_db w)) ids /\
  Forall2 (fun id pw => exists period, List.filter (periodNamed tenantId id) (db_periods (w_db w)) = [period] /\
    pw = mkWindow (py_id period) (py_startsAt period) (py_endsAt period)) ids locked.
Proof.
  revert w locked. induction ids as [|id ids IH]; intros w locked; cbn [lockPeriods].
  { intros [<- <-]%Tx_ret_Ok. done. }
  unfold lockPayrollPeriod, throwProblemTx. intros (? & w1 & [_ ->]%assertCurrent_Ok & Hr)%Tx_bind_Ok.
  apply Tx_bind_Ok in Hr as (? & w2 & E2 & Hr). apply (ReadOnly_Ok _ _ _ _ statement_ReadOnly) in E2.
  apply Tx_bind_Ok in Hr as (? & w3 & [_ ->]%assertCurrent_Ok & Hr).
  apply Tx_bind_Ok in Hr as (periods & w4 & [Ep E4]%findMany_Ok & Hr).
  apply Tx_bind_Ok in Hr as (? & w5 & [_ ->]%assertCurrent_Ok & Hr). cbn [w_db tick rows Table_Period] in *.
  destruct periods as [|period [|? ?]]; [by apply throwTx_Ok in Hr| |by apply throwTx_Ok in Hr].
  case_bool_decide as Es; [by apply throwTx_Ok in Hr|].
  apply Tx_bind_Ok in Hr as (rest & w6 & Hl & [<- <-]%Tx_ret_Ok). apply IH in Hl as (E & Hf & Hf2).
  cbn [w_db tick] in *. rewrite E4, E2 in *. split; [done|]. split; constructor; try done; by exists period.
Qed.

Lemma orderedPeriodIds_elem ids id : id ∈ orderedPeriodIds ids <-> id <> "" /\ Some id ∈ ids.
Proof.
  unfold orderedPeriodIds. rewrite sortBy_elem, elem_of_remove_dups, list_elem_of_In, in_flat_map.
  split.
  - intros ([s|] & Hin & Hs); [|done]. unfold isEmpty in Hs. case_bool_decide as E; [done|].
    destruct Hs as [<-|[]]. split; [done|]. by apply list_elem_of_In.
  - intros [Hne Hin]. exists (Some id). split; [by apply list_elem_of_In|]. unfold isEmpty.
    rewrite bool_decide_false by done. by left.
Qed.

Lemma lockTimeCardPayrollContext_Ok tenantId cardId ids w locked w' :
  lockTimeCardPayrollContext tenantId cardId ids w = (Ok locked, w') ->
  w_db w' = w_db w /\
  (forall id, id <> "" -> Some id ∈ ids -> unlockedPeriod tenantId id (w_db w)) /\
  (forall pw, pw ∈ locked -> exists period, period ∈ db_periods (w_db w) /\ py_tenantId period = tenantId /\
    pw = mkWindow (py_id period) (py_startsAt period) (py_endsAt period)).
Proof.
  unfold lockTimeCardPayrollContext, lockPayrollTenant. intros (? & w1 & [_ ->]%assertCurrent_Ok & Hr)%Tx_bind_Ok.
  apply Tx_bind_Ok in Hr as (? & w2 & E2%(ReadOnly_Ok _ _ _ _ statement_ReadOnly) & Hr).
  apply Tx_bind_Ok in Hr as (? & w3 & [_ ->]%assertCurrent_Ok & Hr).
  apply Tx_bind_Ok in Hr as (? & w4 & E4%(ReadOnly_Ok _ _ _ _ statement_ReadOnly) & Hr).
  apply Tx_bind_Ok in Hr as (? & w5 & [_ ->]%assertCurrent_Ok & Hr).
  apply Tx_bind_Ok in Hr as (l & w6 & (E6 & Hf & Hf2)%lockPeriods_Ok & Hr).
  apply Tx_bind_Ok in Hr as (? & w7 & E7%(ReadOnly_Ok _ _ _ _ statement_ReadOnly) & Hr).
  apply Tx_bind_Ok in Hr as (? & w8 & [_ ->]%assertCurrent_Ok & Hr).
  apply Tx_bind_Ok in Hr as (? & w9 & E9%(ReadOnly_Ok _ _ _ _ statement_ReadOnly) & Hr).
  apply Tx_bind_Ok in Hr as (? & w10 & [_ ->]%assertCurrent_Ok & [<- <-]%Tx_ret_Ok).
  cbn [w_db tick] in *. assert (E : w_db w4 = w_db w) by congruence. rewrite E in *. split; [congruence|]. split.
  - intros id Hne Hin. rewrite Forall_forall in Hf. apply Hf. by apply orderedPeriodIds_elem.
  - intros pw Hpw. apply list_elem_of_lookup in Hpw as [i Hi].
    destruct (Forall2_lookup_r _ _ _ _ _ Hf2 Hi) as (id & _ & period & Hp & ->). exists period.
    assert (Hin : In period (List.filter (periodNamed tenantId id) (db_periods (w_db w)))) by (rewrite Hp; by left).
    apply filter_In in Hin as [Hin Hn]. unfold periodNamed in Hn. rewrite andb_true_iff, !bool_decide_eq_true in Hn.
    split; [by apply list_elem_of_In|]. by destruct Hn.
Qed.

Lemma lockPeriods_ReadOnly tenantId ids : ReadOnly (lockPeriods tenantId ids).
Proof.
  induction ids as [|id ids IH]; cbn [lockPeriods]; [apply ReadOnly_ret|]. unfold lockPayrollPeriod, throwProblemTx.
  repeat (apply ReadOnly_bind; [auto with readonly|intros _]).
  apply ReadOnly_bind; [apply ReadOnly_findMany|intros periods]. apply ReadOnly_bind; [apply ReadOnly_current|intros _].
  destruct periods as [|period [|? ?]]; [apply ReadOnly_throw| |apply ReadOnly_throw].
  apply ReadOnly_if; [apply ReadOnly_throw|]. apply ReadOnly_bind; [done|intros locked; apply ReadOnly_ret].
Qed.

Lemma lockTimeCardPayrollContext_ReadOnly tenantId cardId ids :
  ReadOnly (lockTimeCardPayrollContext tenantId cardId ids).
Proof.
  unfold lockTimeCardPayrollContext, lockPayrollTenant. repeat (apply ReadOnly_bind; [auto with readonly|intros _]).
  apply ReadOnly_bind; [apply lockPeriods_ReadOnly|intros locked].
  repeat (apply ReadOnly_bind; [auto with readonly|intros _]). apply ReadOnly_ret.
Qed.
End Locks.

Lemma assertClockOutWithinPayrollPeriod_Ok id clockOutAt periods u :
  assertClockOutWithinPayrollPeriod (Some id) clockOutAt periods = Ok u -> id <> "" ->
  exists pw, pw ∈ periods /\ pw_id pw = id /\ clockOutAt <= pw_endsAt pw.
Proof.
  cbn [assertClockOutWithinPayrollPeriod]. intros Hr Hne. unfold isEmpty in Hr. rewrite bool_decide_false in Hr by done.
  destruct (List.find _ _) as [pw|] eqn:Ef; [|done]. destruct (_ <? _) eqn:E; [done|].
  apply find_some in Ef as [Hin Hid]. exists pw. split; [by apply list_elem_of_In|]. apply bool_decide_eq_true in Hid. split; [done|bool_lia].
Qed.

(** ** The search and the assignment *)

(** C37: Where the identifiers of policies are keys and never empty, the paged
    search for a tenant's payroll policy ends whatever its calls come to: after a
    page for every hundred policies and one more, three calls each, it returns
    exactly what a search through all the tenant's policies, latest first, would
    (the first whose first day has come where it applies, or the error of the
    first time zone that is invalid), unless one of its own calls failed, whose
    failure it then throws; it changes nothing. *)
Theorem findPolicy_complete `{Env, Intl} tenantId clockInAt w r w' :
  policiesKeyed (w_db w) -> findPolicy tenantId clockInAt w = (r, w') ->
  w_db w' = w_db w /\
  (w_tick w' <= w_tick w + 3 * (length (tenantPolicies tenantId (w_db w)) / 100 + 1))%nat /\
  (r = findEffective clockInAt (tenantPolicies tenantId (w_db w)) \/
   exists n e, (w_tick w <= n < w_tick w')%nat /\ r = Throw e /\ (faultAt n = Some e \/ currentAt n = Some e)).
Proof.
  intros Hk Hr. split.
  { pose proof (findPolicy_ReadOnly tenantId clockInAt w) as Hro. by rewrite Hr in Hro. }
  unfold findPolicy in Hr. apply (policyLoop_ends _ _ _ _ []) in Hr as [Hs (k & Hk1 & Hk2)]; [|done|done|].
  - split; [|exact Hs]. cbn [afterCursor] in Hk1. unfold POLICY_ASSIGNMENT_PAGE_SIZE in Hk1.
    apply Nat.div_le_lower_bound in Hk1; lia.
  - cbn [afterCursor]. pose proof (tenantPolicies_length tenantId (w_db w)). lia.
Qed.

(** A time card is assigned to payroll as the policy in force demands: if
    no policy of the tenant has come into force on the local day of the clock
    in, to no period and the zone of its location (or UTC); otherwise to an
    open period of the latest policy in force whose half-open window holds the
    clock-in, and to the zone of its location, which it then must have. The
    database is not changed. *)
Theorem resolveTimeCardPayrollAssignment_spec `{Env, Intl} tenantId clockInAt location w a w' :
  policiesKeyed (w_db w) ->
  resolveTimeCardPayrollAssignment tenantId clockInAt location w = (Ok a, w') ->
  w_db w' = w_db w /\ AssignedTo tenantId clockInAt location (w_db w) a.
Proof. apply resolveTimeCardPayrollAssignment_Ok. Qed.

(** A tenant with more policies than a page: a new one every day of the year
    1970, all of them after the card's day but the first. *)
Definition manyPolicies (n : nat) : list PayrollPolicyVersion :=
  map (fun i => samplePolicyRow ("p" +:+ showZ (Z.of_nat i)) "t1" (Z.of_nat i) "UTC" (Z.of_nat i * 86400000)) (seq 1 n).

Definition policyDb : Db :=
  withRows [samplePeriodRow "w1" "t1" "p1" "OPEN" "UTC" 86400000 691200000]
    (withRows (manyPolicies 150) emptyDb).

Definition utcIntl : Intl := {|
  intlZonedParts t _ := mkParts (getUTCFullYear t) (getUTCMonth t + 1) (getUTCDate t) (getUTCHours t)
    (getUTCMinutes t) (getUTCSeconds t);
  intlTimeZone _ := true;
|}.

Lemma policyDb_keyed : policiesKeyed policyDb.
Proof. split; apply (bool_decide_eq_true_1 _); vm_compute; reflexivity. Qed.

(** The second page of the search is not answered. *)
Definition lostPage : Env :=
  {| nowAt _ := 0; uuidAt _ := ""; currentAt _ := None; faultAt n := if (n =? 4)%nat then Some (DriverError "P1001" None) else None |}.

Lemma findPolicy_complete_witness :
  let run := @findPolicy (calm 0) utcIntl "t1" 100000000 (mkWorld policyDb 0) in
  let lost := @findPolicy lostPage utcIntl "t1" 100000000 (mkWorld policyDb 0) in
  (run.1 = Ok (Some (samplePolicyRow "p1" "t1" 1 "UTC" 86400000)) /\ w_tick run.2 = 6%nat /\ lost.1 = Throw (DriverError "P1001" None)) /\
  w_db run.2 = policyDb /\
  (w_tick run.2 <= 0 + 3 * (length (tenantPolicies "t1" policyDb) / 100 + 1))%nat /\
  (run.1 = @findEffective utcIntl 100000000 (tenantPolicies "t1" policyDb) \/
   exists n e, (0 <= n < w_tick run.2)%nat /\ run.1 = Throw e /\ (@faultAt (calm 0) n = Some e \/ @currentAt (calm 0) n = Some e)).
Proof.
  cbv zeta. split; [split_and!; vm_compute; reflexivity|].
  apply (@findPolicy_complete (calm 0) utcIntl "t1" 100000000 (mkWorld policyDb 0)); [apply policyDb_keyed|apply surjective_pairing].
Defined.

#[local] Notation sampleAssignment :=
  (@resolveTimeCardPayrollAssignment (calm 0) utcIntl "t1" 100000000 (Some (mkCardLocation "l1" "Europe/Oslo"))
     (mkWorld policyDb 0)).

Lemma resolveTimeCardPayrollAssignment_spec_witness :
  w_db sampleAssignment.2 = policyDb /\
  @AssignedTo utcIntl "t1" 100000000 (Some (mkCardLocation "l1" "Europe/Oslo")) policyDb
    (mkAssignment (Some "w1") "Europe/Oslo").
Proof.
  apply (@resolveTimeCardPayrollAssignment_spec (calm 0) utcIntl "t1" 100000000
    (Some (mkCardLocation "l1" "Europe/Oslo")) (mkWorld policyDb 0) _ sampleAssignment.2 policyDb_keyed).
  rewrite (surjective_pairing sampleAssignment).  vm_compute. reflexivity.
Defined.
