(* ===== verification/TimeCardStore.v ===== *)
(** * What the time-card handlers share

    apps/api-v2/src/time/serialization.ts, [timeCardAuditValue] of
    validation.ts, and the helpers and the scope of
    apps/api-v2/src/time/time-cards.service.ts.

    A handler of this service is retried and recovers from failures, and
    clocking in keeps a variable across its attempts.  [Held V] is the monad of
    a handler with such a variable: it survives a transaction that is rolled
    back.  A transaction here may also commit and still report an error, the
    acknowledgement being lost ([CommitEnv]); Postgres reports a serialization
    conflict only for a transaction it rolled back. *)

From S2P Require Import Prelude JsStd JsCollections JsDate ContractHelpers PayrollRecords Database.
From S2P Require Import FeatureEntitlement Authority ScheduleStore TimeCardValidation TimeCardPayroll.

Definition timeCardProblem {A} (st : Z) (cd dt tt : string) : Result A := throwProblem st cd dt tt.

(** ** Cards with their relations *)

(** [TIME_CARD_SELECT] *)
Record InternalTimeCard := mkInternalCard {
  ic_row : TimeCard;
  ic_user : User;
  ic_location : option Location;
  ic_shift : option Shift;
  ic_breaks : list TimeCardBreak;
}.

(** [orderBy: [{ startAt: 'asc' }, { publicId: 'asc' }]]; a [uuid] is ordered
    as its text. *)
Definition cardBreakOrder (l r : TimeCardBreak) : Z :=
  orElse (tb_startAt l - tb_startAt r) (compareText (tb_publicId l) (tb_publicId r)).

Definition breakOfCard (c : TimeCard) (b : TimeCardBreak) : bool :=
  bool_decide (tb_timeCardId b = tc_id c) && bool_decide (tb_tenantId b = tc_tenantId c).

(** The user of a card is a required relation: Prisma refuses a row without. *)
Definition selectCard (db : Db) (c : TimeCard) : Result InternalTimeCard :=
  match List.find (fun u => bool_decide (us_id u = tc_userId c) && bool_decide (us_tenantId u = tc_tenantId c)) (db_users db) with
  | None => Throw (JsError "Inconsistent query result: Field user is required to return data, got `null` instead.")
  | Some user =>
      Ok (mkInternalCard c user
            (id ← tc_locationId c; List.find (fun l => bool_decide (lo_id l = id) && bool_decide (lo_tenantId l = tc_tenantId c)) (db_locations db))
            (id ← tc_shiftId c; List.find (fun s => bool_decide (sh_id s = id) && bool_decide (sh_tenantId s = tc_tenantId c)) (db_shifts db))
            (sortBy cardBreakOrder (List.filter (breakOfCard c) (db_cardBreaks db))))
  end.

Definition cardStatusText (s : CardStatus) : string :=
  match s with OPEN => "OPEN" | CLOSED => "CLOSED" | VOID => "VOID" end.

(** ** Serialization *)

Record TimeCardRecord := mkCardRecord {
  tr_id : string;
  tr_userId : string;
  tr_locationId : option string;
  tr_shiftId : option string;
  tr_clockInAt : string;
  tr_clockOutAt : option string;
  tr_breakMinutes : Z;
  tr_status : CardStatus;
  tr_revision : Z;
  tr_grossMinutes : Z;
  tr_workedMinutes : Z;
  tr_notes : option string;
  tr_createdAt : string;
  tr_updatedAt : string;
  tr_displayTimeZone : string;
  tr_breaks : list (string * string * string);
  tr_user : string * string * option string * string;
  tr_location : option (string * string * string);
}.

Definition serializeCardBreak (interval : TimeCardBreak) : Result (string * string * string) :=
  if tb_endAt interval <=? tb_startAt interval then
    throwProblem 500 "invalid_time_card_break" "A saved time-card break is invalid." "Time-card data error"
  else Ok (tb_publicId interval, toISOString (tb_startAt interval), toISOString (tb_endAt interval)).

(** [value?.trim() || null] *)
Definition trimmedOrNull (value : option string) : option string :=
  match value with
  | Some s => if isEmpty (trim s) then None else Some (trim s)
  | None => None
  end.

Definition grossMinutesOf (row : TimeCard) (nowMs : Z) : Z :=
  Z.max 0 ((default nowMs (tc_clockOutAt row) - tc_clockInAt row) / 60000).

Definition serializeTimeCard (card : InternalTimeCard) (nowMs : Z) : Result TimeCardRecord :=
  let row := ic_row card in
  let grossMinutes := grossMinutesOf row nowMs in
  let workedMinutes := Z.max 0 (grossMinutes - tc_breakMinutes row) in
  if (tc_breakMinutes row <? 0) || (tc_revision row <? 1) then
    throwProblem 500 "invalid_time_card_record" "A saved time-card record is invalid." "Time-card data error"
  else
    breaks ← mapM serializeCardBreak (ic_breaks card);
    Ok (mkCardRecord (tc_publicId row) (us_publicId (ic_user card)) (lo_publicId <$> ic_location card)
          (sh_publicId <$> ic_shift card) (toISOString (tc_clockInAt row)) (toISOString <$> tc_clockOutAt row)
          (tc_breakMinutes row) (tc_status row) (tc_revision row) grossMinutes workedMinutes (tc_notes row)
          (toISOString (tc_createdAt row)) (toISOString (tc_updatedAt row))
          (if isEmpty (tc_workTimeZone row) then "UTC" else tc_workTimeZone row) breaks
          (us_publicId (ic_user card), (if isEmpty (us_name (ic_user card)) then "Unnamed" else us_name (ic_user card)),
           trimmedOrNull (us_username (ic_user card)), us_role (ic_user card))
          ((fun l => (lo_publicId l, lo_name l, lo_timezone l)) <$> ic_location card)).

(** [timeCardAuditValue], and the reason a correction adds. *)
Definition timeCardAuditFields (card : InternalTimeCard) : list (string * option Json) :=
  let row := ic_row card in
  [field "targetUserId" (JStr (tc_userId row)); field "locationId" (orJNull (tc_locationId row));
   field "shiftId" (orJNull (tc_shiftId row)); field "clockInAt" (JStr (toISOString (tc_clockInAt row)));
   field "clockOutAt" (orJNull (toISOString <$> tc_clockOutAt row)); field "breakMinutes" (JNum (tc_breakMinutes row));
   field "breakIntervals" (JArr (map (fun b => JObj [field "startAt" (JStr (toISOString (tb_startAt b)));
                                                     field "endAt" (JStr (toISOString (tb_endAt b)))]) (ic_breaks card)));
   field "status" (JStr (cardStatusText (tc_status row)))].
Definition timeCardAuditValue (card : InternalTimeCard) : Json := JObj (timeCardAuditFields card).

(** ** Keys and hashes *)

Definition isUniqueConstraint (error : Exn) : bool :=
  match error with
  | DriverError code _ => bool_decide (code = "P2002")
  | Problem p => bool_decide (pCode p = "P2002")
  | JsError _ => false
  end.

Definition operationId `{Sha256} (tenantId idempotencyKey : string) : string :=
  sha256 (tenantId +:+ ":" +:+ idempotencyKey).

Definition clockInRequestHash `{Sha256} (actorUserId targetUserId : string)
    (locationId shiftId clockInAt notes : option string) : string :=
  sha256 (stringify (JObj [field "actorUserId" (JStr actorUserId); field "targetUserId" (JStr targetUserId);
    field "locationId" (orJNull locationId); field "shiftId" (orJNull shiftId);
    field "clockInAt" (orJNull clockInAt); field "notes" (orJNull notes)])).

Definition normalizeClockInIdempotencyKey (value : option string) : Result string :=
  let key := match value with Some v => trim v | None => "" end in
  if isEmpty key then
    timeCardProblem 428 "idempotency_key_required" "Clock-in requires an Idempotency-Key header." "Precondition required"
  else if (255 <? strLen key) || someChar isControl key then
    timeCardProblem 422 "invalid_idempotency_key" "Idempotency-Key must contain 255 printable characters or fewer."
      "Time-card validation failed"
  else Ok key.

(** ** The scope *)

(** An error after the commit, in place of the result. *)
Class CommitEnv := {
  lostAt : nat -> option Exn;
  lost_not_conflict : forall n e, lostAt n = Some e -> isSerializationConflict e = false;
}.

Definition Held (V A : Type) : Type := World * V -> Result A * (World * V).

#[global] Instance Held_ret V : MRet (Held V) := fun A a s => (Ok a, s).
#[global] Instance Held_bind V : MBind (Held V) := fun A B f m s =>
  match m s with (Ok a, s') => f a s' | (Throw e, s') => (Throw e, s') end.

Definition held {V A} (m : Tx A) : Held V A := fun '(w, v) => let '(r, w') := m w in (r, (w', v)).
Definition assign {V} (v : V) : Held V unit := fun '(w, _) => (Ok tt, (w, v)).
Definition readVar {V} : Held V V := fun '(w, v) => (Ok v, (w, v)).

Section Scope.
Context `{Env, AuthorityEnv, CommitEnv}.

Definition withTenantHeld {V A} (tenantId : string) (operation : Held V A) : Held V A := fun '(w, v) =>
  if isEmpty (trim tenantId) then
    (Throw (JsError "A tenant is required for tenant-scoped database access."), (w, v))
  else
    match (_ ← held statement; result ← operation; _ ← held commit; mret result) (w, v) with
    | (Throw e, (w', v')) => (Throw e, (mkWorld (w_db w) (w_tick w'), v'))
    | (Ok a, (w', v')) =>
        match lostAt (w_tick w') with
        | Some e => (Throw e, (tick w', v'))
        | None => (Ok a, (tick w', v'))
        end
    end.

(** [{ ...identity, sub, publicUserId, permissions }] *)
Definition actingIdentity (identity authority : SessionIdentity) : SessionIdentity :=
  mkIdentity (si_sub authority) (si_tenantId identity) (si_permissions authority) (si_publicUserId authority)
    (si_role identity) (si_legacyRole identity) (si_roles identity).

(** [scope.run(operation, locateTarget)] of [prepare]: what the authorisation
    and the observation of a second factor find is the environment's. *)
Definition timeScopeHeld {V A} (identity : SessionIdentity) (locateTarget : Tx (option string))
    (operation : SessionIdentity -> option string -> Held V A) : Held V A :=
  retryPayrollSerializableMutation (withTenantHeld (si_tenantId identity) (
    targetUserId ← held locateTarget;
    authority ← held authorize;
    let current := actingIdentity identity authority in
    _ ← held assertCurrent;
    result ← operation current targetUserId;
    _ ← held assertCurrent;
    mret result)).

Definition timeScope {A} (identity : SessionIdentity) (operation : SessionIdentity -> Tx A) : Tx A := fun w =>
  let '(r, (w', _)) := timeScopeHeld identity (mret None) (fun current _ => held (operation current)) (w, tt) in (r, w').

(** ** Finding things *)

Definition canViewTeam (identity : SessionIdentity) : bool :=
  forallb (fun permission => bool_decide (permission ∈ si_permissions identity)) ["users:read"; "shifts:read"].

Definition writableTargetPublicId (identity : SessionIdentity) (requestedPublicId : option string) : Result string :=
  let publicId := default (si_publicUserId identity) requestedPublicId in
  if negb (canViewTeam identity) && negb (bool_decide (publicId = si_publicUserId identity)) then
    timeCardProblem 403 "time_card_scope_denied" "Staff can only manage their own time cards." "Forbidden"
  else Ok publicId.

(** A read that must find its row. *)
Definition foundOr {A} (detail : string) (m : Tx (option A)) : Tx A :=
  found ← m; match found with Some a => mret a | None => liftResult (invalidTimeCardInput detail) end.

Definition userNamed (tenantId publicId : string) (u : User) : bool :=
  bool_decide (us_tenantId u = tenantId) && bool_decide (us_publicId u = lowerText publicId).
Definition locationNamed (tenantId publicId : string) (l : Location) : bool :=
  bool_decide (lo_tenantId l = tenantId) && bool_decide (lo_publicId l = lowerText publicId).
Definition shiftNamed (tenantId publicId : string) (s : Shift) : bool :=
  bool_decide (sh_tenantId s = tenantId) && bool_decide (sh_publicId s = lowerText publicId).

Definition resolveClockInTargetForReplay (tenantId publicId : string) : Tx User :=
  foundOr "User is not available for time tracking in this workspace." (findFirst (userNamed tenantId publicId)).

Definition activeWorker (u : User) : bool :=
  bool_decide (us_role u ∈ ["MANAGER"; "STAFF"]) && bool_decide (us_deletedAt u = None) && bool_decide (us_suspendedAt u = None).

Definition readActiveClockInTarget (tenantId publicId : string) : Tx User :=
  foundOr "User is not available for time tracking in this workspace."
    (findFirst (fun u => userNamed tenantId publicId u && activeWorker u)).

Definition resolveLocationForReplay (tenantId publicId : string) : Tx Location :=
  foundOr "Location is not available for this workspace." (findFirst (locationNamed tenantId publicId)).

Definition resolveShiftForReplay (tenantId publicId : string) : Tx Shift :=
  foundOr "Shift is not available for this workspace." (findFirst (shiftNamed tenantId publicId)).

Definition resolveLocation (tenantId publicId : string) : Tx Location :=
  foundOr "Location is not available for this workspace."
    (findFirst (fun l => locationNamed tenantId publicId l && bool_decide (lo_deletedAt l = None))).

Definition resolveLocationByInternalId (tenantId id : string) : Tx Location :=
  foundOr "Shift location is not available for this workspace."
    (findFirst (fun l => bool_decide (lo_id l = id) && bool_decide (lo_tenantId l = tenantId) && bool_decide (lo_deletedAt l = None))).

Definition resolveShift (tenantId publicId targetUserId : string) : Tx Shift :=
  shift ← foundOr "Shift is not available for this workspace."
    (findFirst (fun s => shiftNamed tenantId publicId s && bool_decide (sh_deletedAt s = None)));
  if match sh_userId shift with Some u => negb (isEmpty u) && negb (bool_decide (u = targetUserId)) | None => false end then
    liftResult (invalidTimeCardInput "Shift is assigned to a different employee.")
  else mret shift.

(** [findFirst] and [findUnique] with [TIME_CARD_SELECT]. *)
Definition findCard (p : TimeCard -> bool) : Tx (option InternalTimeCard) :=
  query (fun db => match List.find p (db_timeCards db) with
                   | Some c => match selectCard db c with Ok card => Ok (Some card, db) | Throw e => Throw e end
                   | None => Ok (None, db)
                   end).

Definition cardOfOperation (operation : string) (c : TimeCard) : bool :=
  bool_decide (tc_clockInOperationId c = Some operation).

Definition findClockInReplay (tenantId operation requestHash : string) : Tx (option InternalTimeCard) :=
  row ← findCard (cardOfOperation operation);
  match row with
  | None => mret None
  | Some card =>
      if negb (bool_decide (tc_tenantId (ic_row card) = tenantId)) then mret None
      else if negb (bool_decide (tc_clockInRequestHash (ic_row card) = Some requestHash)) then
        liftResult (timeCardProblem 409 "idempotency_conflict"
          "Idempotency-Key was already used with a different clock-in request." "Conflict")
      else mret (Some card)
  end.

Definition scopedCard (identity : SessionIdentity) (publicId : string) (includeClosed : bool) (c : TimeCard) : bool :=
  bool_decide (tc_tenantId c = si_tenantId identity) && bool_decide (tc_publicId c = lowerText publicId)
  && bool_decide (tc_deletedAt c = None)
  && (includeClosed || negb (bool_decide (tc_status c = VOID)))
  && (canViewTeam identity || bool_decide (tc_userId c = si_sub identity)).

Definition findScopedTimeCard (identity : SessionIdentity) (publicId : string) (includeClosed : bool)
    : Tx InternalTimeCard :=
  row ← findCard (scopedCard identity publicId includeClosed);
  match row with
  | Some card => mret card
  | None => liftResult (timeCardProblem 404 "time_card_not_found" "Time card not found in this workspace." "Not found")
  end.

(** [new Date('9999-12-31T23:59:59.999Z')] *)
Definition LATEST_INSTANT : Z := 253402300799999.

Definition overlapsCard (tenantId userId timeCardId : string) (clockInAt : Z) (clockOutAt : option Z) (c : TimeCard) : bool :=
  bool_decide (tc_tenantId c = tenantId) && bool_decide (tc_userId c = userId)
  && negb (bool_decide (tc_id c = timeCardId)) && bool_decide (tc_deletedAt c = None)
  && negb (bool_decide (tc_status c = VOID))
  && (tc_clockInAt c <? default LATEST_INSTANT clockOutAt)
  && match tc_clockOutAt c with None => true | Some out => clockInAt <? out end.

Definition assertNoOverlap (tenantId userId timeCardId : string) (clockInAt : Z) (clockOutAt : option Z) : Tx unit :=
  overlap ← findFirst (overlapsCard tenantId userId timeCardId clockInAt clockOutAt);
  match overlap with
  | Some _ => liftResult (timeCardProblem 409 "time_card_overlap"
                "Corrected time cards cannot overlap another card for this employee." "Conflict")
  | None => mret tt
  end.

(** [serializeTimeCard(row)], at the time of the call. *)
Definition serialize (card : InternalTimeCard) : Tx TimeCardRecord :=
  nowMs ← now; liftResult (serializeTimeCard card nowMs).

(** [auditLog.create] of this service. *)
Definition auditCard (identity : SessionIdentity) (action cardId : string) (oldValue : option Json) (newValue : Json) : Tx unit :=
  id ← randomUUID;
  createRow (mkAudit id (si_tenantId identity) (Some (si_sub identity)) action "TimeCard" (Some cardId) oldValue
    (Some newValue) None None).
End Scope.

(** ** What a scope does *)

Lemma Held_bind_Ok {V A B} (f : A -> Held V B) m s b s' :
  (m ≫= f) s = (Ok b, s') <-> exists a s1, m s = (Ok a, s1) /\ f a s1 = (Ok b, s').
Proof.
  unfold mbind, Held_bind. destruct (m s) as [[a|e] s1]; split; intros H; [by exists a, s1| |done|].
  - by destruct H as (? & ? & [= <- <-] & H).
  - by destruct H as (? & ? & [=] & _).
Qed.

Lemma held_Ok {V A} (m : Tx A) (w : World) (v : V) a s' :
  held m (w, v) = (Ok a, s') <-> exists w', m w = (Ok a, w') /\ s' = (w', v).
Proof. unfold held. destruct (m w) as [r w1]. naive_solver. Qed.

(** The current identity of a scope: of some actor the authorisation resolved. *)
Definition ActsFor `{AuthorityEnv} (identity current : SessionIdentity) : Prop :=
  exists n authority, authorityAt n = Ok authority /\ current = actingIdentity identity authority.

Lemma ActsFor_tenant `{AuthorityEnv} identity current : ActsFor identity current -> si_tenantId current = si_tenantId identity.
Proof. by intros (n & authority & _ & ->). Qed.

Section ScopeFacts.
Context `{Env, AuthorityEnv, CommitEnv}.
Context {V A : Type} (identity : SessionIdentity) (locateTarget : Tx (option string)) (Hlocate : ReadOnly locateTarget).
Context (operation : SessionIdentity -> option string -> Held V A).

(** The run of the handler in a transaction: on the database the transaction
    met, as some actor of the request's tenant, for the target that was found. *)
Definition Ran (db : Db) (v : V) (r : Result A) (w2 : World) (v2 : V) : Prop :=
  exists current target w0 w0' w1, ActsFor identity current /\
    locateTarget w0 = (Ok target, w0') /\ w_db w0 = db /\ w_db w1 = db /\
    operation current target (w1, v) = (r, (w2, v2)).

(** One transaction: nothing ran, or the handler ran and was rolled back, or
    it was committed, whether or not the caller learns its result. *)
Inductive Attempt (db : Db) (v : V) : Result A -> Db -> V -> Prop :=
  | attempt_unstarted e : Attempt db v (Throw e) db v
  | attempt_failed r e w2 v2 : Ran db v r w2 v2 -> Attempt db v (Throw e) db v2
  | attempt_committed a w2 v2 :
      Ran db v (Ok a) w2 v2 -> cardsExclusive (db_timeCards (w_db w2)) = true ->
      Attempt db v (Ok a) (w_db w2) v2
  | attempt_lost a e w2 v2 :
      Ran db v (Ok a) w2 v2 -> cardsExclusive (db_timeCards (w_db w2)) = true ->
      isSerializationConflict e = false -> Attempt db v (Throw e) (w_db w2) v2.

#[local] Notation body := (
    targetUserId ← held locateTarget;
    authority ← held authorize;
    let current := actingIdentity identity authority in
    _ ← held assertCurrent;
    result ← operation current targetUserId;
    _ ← held assertCurrent;
    mret result).

(** The handler between the statements that open and close its transaction. *)
Lemma body_run w v r w' v' :
  body (w, v) = (r, (w', v')) ->
  v' = v /\ (exists e, r = Throw e) \/
  exists r0 w2, Ran (w_db w) v r0 w2 v' /\
    ((exists e, r = Throw e) \/ exists a, r = Ok a /\ r0 = Ok a /\ w_db w' = w_db w2).
Proof using Hlocate.
  unfold mbind, Held_bind, held at 1. destruct (locateTarget w) as [rt wt] eqn:Et.
  assert (Edb : w_db wt = w_db w) by (specialize (Hlocate w); by rewrite Et in Hlocate).
  destruct rt as [target|e]; [|intros [= <- <- <-]; left; by eauto].
  unfold held at 1, authorize. destruct (authorityAt (w_tick wt)) as [auth|e] eqn:Hauth; [|intros [= <- <- <-]; left; by eauto].
  unfold held at 1, assertCurrent at 1. destruct (currentAt _); [intros [= <- <- <-]; left; by eauto|].
  match goal with |- context [operation ?c target ?s] => destruct (operation c target s) as [ro [w2 v2]] eqn:Eo end.
  assert (HR : Ran (w_db w) v ro w2 v2).
  { eexists _, target, w, wt, _. split; [|split; [exact Et|split; [done|split; [|exact Eo]]]]; [by exists (w_tick wt), auth|].
    by cbn [w_db tick]. }
  destruct ro as [a|e]; [|intros [= <- <- <-]; right; eexists _, _; split; [exact HR|]; left; by eauto].
  unfold held, assertCurrent. destruct (currentAt _); intros [= <- <- <-]; right; eexists _, _;
    (split; [exact HR|]); [left|right]; by eauto.
Qed.

Lemma withTenantHeld_attempt w v r w' v' :
  withTenantHeld (si_tenantId identity) body (w, v) = (r, (w', v')) -> Attempt (w_db w) v r (w_db w') v'.
Proof using Hlocate.
  unfold withTenantHeld. destruct (isEmpty _); [intros [= <- <- <-]; apply attempt_unstarted|].
  unfold mbind at 1, Held_bind at 1, held at 1. destruct (statement w) as [rs ws] eqn:Es.
  assert (Edb : w_db ws = w_db w) by (pose proof (statement_ReadOnly w) as Hs; by rewrite Es in Hs).
  destruct rs as [u|e]; [|intros [= <- <- <-]; apply attempt_unstarted].
  unfold mbind at 1, Held_bind at 1. destruct (body (ws, v)) as [r0 [wb vb]] eqn:Eb.
  apply body_run in Eb as [[-> [e ->]]|(r1 & w2 & HR & Hr)]; [intros [= <- <- <-]; apply attempt_unstarted|].
  rewrite Edb in HR. destruct Hr as [[e ->]|(a & -> & -> & E2)].
  { intros [= <- <- <-]. by eapply attempt_failed. }
  unfold mbind at 1, Held_bind at 1, held at 1. destruct (commit wb) as [rc wc] eqn:Ec.
  destruct rc as [uc|e]; [|intros [= <- <- <-]; by eapply attempt_failed].
  unfold mret, Held_ret. apply query_Ok in Ec as (_ & dbc & Ec & ->).
  destruct (cardsExclusive (db_timeCards (w_db wb))) eqn:Ex; [|done]. injection Ec as _ <-.
  cbn [w_tick]. rewrite E2 in *.
  destruct (lostAt _) as [e|] eqn:El; intros [= <- <- <-]; cbn [w_db tick].
  - eapply attempt_lost; [exact HR|done|]. by eapply lost_not_conflict.
  - by apply attempt_committed with (w2 := w2).
Qed.

(** The scope: an attempt, repeated once if it met a serialization conflict,
    which has left the database as it was. *)
Lemma timeScopeHeld_cases w v r w' v' :
  timeScopeHeld identity locateTarget operation (w, v) = (r, (w', v')) ->
  exists v1, (v1 = v \/ exists e, Attempt (w_db w) v (Throw e) (w_db w) v1) /\ Attempt (w_db w) v1 r (w_db w') v'.
Proof using Hlocate.
  unfold timeScopeHeld, retryPayrollSerializableMutation. cbn [retryLoop Nat.eqb andb].
  destruct (withTenantHeld _ _ (w, v)) as [r1 [w1 v1]] eqn:E1. apply withTenantHeld_attempt in E1.
  destruct r1 as [a|e]; [intros [= <- <- <-]; exists v; by split; [left|]|].
  destruct (isSerializationConflict e) eqn:Ec; [|intros [= <- <- <-]; exists v; by split; [left|]].
  assert (Edb : w_db w1 = w_db w /\ Attempt (w_db w) v (Throw e) (w_db w) v1).
  { inversion E1; subst; [split; [done|]; constructor|split; [done|]; by econstructor|congruence]. }
  destruct Edb as [Edb Ha]. destruct (withTenantHeld _ _ (w1, v1)) as [r2 [w2 v2]] eqn:E2.
  apply withTenantHeld_attempt in E2. rewrite Edb in E2. destruct r2; intros [= <- <- <-]; exists v1; (split; [right; by exists e|done]).
Qed.

(** What holds of the variable whenever the handler leaves it. *)
Lemma timeScopeHeld_var (P : V -> Prop) w v r w' v' :
  P v -> (forall v1 r1 w2 v2, P v1 -> Ran (w_db w) v1 r1 w2 v2 -> P v2) ->
  timeScopeHeld identity locateTarget operation (w, v) = (r, (w', v')) -> P v'.
Proof using Hlocate.
  intros Hv Hop (v1 & Hv1 & Ha)%timeScopeHeld_cases.
  assert (Hstep : forall v r db v', P v -> Attempt (w_db w) v r db v' -> P v').
  { intros va ra dba va' Hp Hat. inversion Hat; subst; [done|by eapply Hop..]. }
  destruct Hv1 as [->|[e Ha1]]; [by eapply Hstep|]. eapply Hstep, Ha. by eapply Hstep.
Qed.
End ScopeFacts.

Section PlainScope.
Context `{Env, AuthorityEnv, CommitEnv}.

(** The handler ran to its end once, in a transaction that committed. *)
Definition Committed {A} (identity : SessionIdentity) (operation : SessionIdentity -> Tx A) (a : A) (db db' : Db) : Prop :=
  exists current w1 w2, ActsFor identity current /\ operation current w1 = (Ok a, w2) /\
    w_db w1 = db /\ db' = w_db w2 /\ cardsExclusive (db_timeCards db') = true.

Lemma Ran_plain {A} identity (operation : SessionIdentity -> Tx A) db (v : unit) r w2 v2 :
  Ran identity (mret None) (fun current _ => held (operation current)) db v r w2 v2 ->
  exists current w1, ActsFor identity current /\ operation current w1 = (r, w2) /\ w_db w1 = db.
Proof.
  intros (current & target & w0 & w0' & w1 & Ht & _ & _ & E1 & Eo). exists current, w1. split; [done|]. split; [|done].
  unfold held in Eo. destruct (operation current w1). by injection Eo as -> -> _.
Qed.

Lemma timeScope_as {A} identity (operation : SessionIdentity -> Tx A) w a w' :
  timeScope identity operation w = (Ok a, w') ->
  exists current w1 w2, ActsFor identity current /\ operation current w1 = (Ok a, w2) /\ w_db w1 = w_db w /\
    w_db w' = w_db w2 /\ cardsExclusive (db_timeCards (w_db w')) = true.
Proof.
  unfold timeScope. destruct (timeScopeHeld _ _ _ _) as [r [w1 []]] eqn:E. intros [= -> ->].
  apply timeScopeHeld_cases in E as ([] & _ & Ha); [|apply ReadOnly_ret].
  inversion Ha as [| |? ? ? HR Hx|]; subst. apply Ran_plain in HR as (current & w3 & Ht & Ho & E). by exists current, w3, w2.
Qed.

Lemma timeScope_Ok {A} identity (operation : SessionIdentity -> Tx A) w a w' :
  timeScope identity operation w = (Ok a, w') -> Committed identity operation a (w_db w) (w_db w').
Proof. intros (current & w1 & w2 & Ha & Hc)%timeScope_as. by exists current, w1, w2. Qed.

Lemma timeScope_Throw {A} identity (operation : SessionIdentity -> Tx A) w e w' :
  timeScope identity operation w = (Throw e, w') ->
  w_db w' = w_db w \/ exists a, Committed identity operation a (w_db w) (w_db w').
Proof.
  unfold timeScope. destruct (timeScopeHeld _ _ _ _) as [r [w1 []]] eqn:E. intros [= -> ->].
  apply timeScopeHeld_cases in E as ([] & _ & Ha); [|apply ReadOnly_ret].
  inversion Ha as [| | |a ? ? ? HR Hx]; subst; [by left|by left|right]. apply Ran_plain in HR as (current & w3 & Ht & Ho & E).
  exists a. by exists current, w3, w2.
Qed.

(** What committed runs keep true, every run of the scope keeps true. *)
Lemma timeScope_keeps {A} (P : Db -> Prop) identity (operation : SessionIdentity -> Tx A) w r w' :
  (forall a db', Committed identity operation a (w_db w) db' -> P db') -> P (w_db w) ->
  timeScope identity operation w = (r, w') -> P (w_db w').
Proof.
  intros Hc Hp. destruct r as [a|e]; intros E; [by eapply Hc, timeScope_Ok|].
  apply timeScope_Throw in E as [->|[a Ha]]; [done|by eapply Hc].
Qed.

Lemma timeScope_ReadOnly {A} identity (operation : SessionIdentity -> Tx A) :
  (forall current, ReadOnly (operation current)) -> ReadOnly (timeScope identity operation).
Proof.
  intros Hro w. destruct (timeScope identity operation w) as [r w'] eqn:E. cbn.
  eapply (timeScope_keeps (fun db => db = w_db w)); [|done|exact E].
  intros a db' (current & w1 & w2 & _ & Ho & <- & -> & _). by eapply ReadOnly_Ok.
Qed.
End PlainScope.

(** ** Reads *)

Section Reads.
Context `{Env}.

Lemma findCard_ReadOnly p : ReadOnly (findCard p).
Proof.
  intros w. unfold findCard, query. destruct (faultAt _); [done|]. destruct (List.find p _) as [c|]; [|done].
  by destruct (selectCard _ c).
Qed.

Lemma findCard_Ok p card w w' :
  findCard p w = (Ok card, w') -> w_db w' = w_db w /\
  match List.find p (db_timeCards (w_db w)) with
  | Some c => exists ic, card = Some ic /\ selectCard (w_db w) c = Ok ic
  | None => card = None
  end.
Proof.
  unfold findCard. intros (_ & db & Hq & ->)%query_Ok. destruct (List.find p _) as [c|].
  - destruct (selectCard _ c) as [ic|e] eqn:Es; [|done]. injection Hq as <- <-. split; [done|]. by exists ic.
  - by injection Hq as <- <-.
Qed.

Lemma selectCard_row db c card : selectCard db c = Ok card -> ic_row card = c.
Proof. unfold selectCard. destruct (List.find _ _); [|done]. by intros [= <-]. Qed.

Lemma selectCard_breaks db c card :
  selectCard db c = Ok card -> ic_breaks card = sortBy cardBreakOrder (List.filter (breakOfCard c) (db_cardBreaks db)).
Proof. unfold selectCard. destruct (List.find _ _); [|done]. by intros [= <-]. Qed.

Lemma foundOr_ReadOnly {A} detail (m : Tx (option A)) : ReadOnly m -> ReadOnly (foundOr detail m).
Proof. intros Hm. apply ReadOnly_bind; [done|]. intros [a|]; [apply ReadOnly_ret|apply ReadOnly_lift]. Qed.

Lemma findClockInReplay_ReadOnly tenantId operation hash : ReadOnly (findClockInReplay tenantId operation hash).
Proof.
  apply ReadOnly_bind; [apply findCard_ReadOnly|]. intros [card|]; [|apply ReadOnly_ret].
  repeat (apply ReadOnly_if; [apply ReadOnly_ret || apply ReadOnly_lift|]). apply ReadOnly_ret.
Qed.

Lemma findScopedTimeCard_ReadOnly identity publicId closed : ReadOnly (findScopedTimeCard identity publicId closed).
Proof. apply ReadOnly_bind; [apply findCard_ReadOnly|]. intros [card|]; [apply ReadOnly_ret|apply ReadOnly_lift]. Qed.

Lemma assertNoOverlap_ReadOnly tenantId userId cardId clockInAt clockOutAt :
  ReadOnly (assertNoOverlap tenantId userId cardId clockInAt clockOutAt).
Proof. apply ReadOnly_bind; [apply ReadOnly_findFirst|]. intros [c|]; [apply ReadOnly_lift|apply ReadOnly_ret]. Qed.

Lemma serialize_ReadOnly card : ReadOnly (serialize card).
Proof. apply ReadOnly_bind; [apply ReadOnly_now|intros t; apply ReadOnly_lift]. Qed.

(** The card a scoped search returns is in the table, live, of the tenant, and
    of the actor unless the actor sees the team. *)
Lemma findScopedTimeCard_Ok identity publicId closed card w w' :
  findScopedTimeCard identity publicId closed w = (Ok card, w') ->
  w_db w' = w_db w /\ List.find (scopedCard identity publicId closed) (db_timeCards (w_db w)) = Some (ic_row card) /\
  selectCard (w_db w) (ic_row card) = Ok card.
Proof.
  unfold findScopedTimeCard, timeCardProblem. intros (o & w1 & [E1 Hf]%findCard_Ok & Hr)%Tx_bind_Ok.
  destruct (List.find _ _) as [c|].
  - destruct Hf as (ic & -> & Hs). apply Tx_ret_Ok in Hr as [<- <-]. pose proof (selectCard_row _ _ _ Hs) as Ec.
    split; [done|]. by rewrite Ec.
  - subst o. by apply liftResult_Ok in Hr as [? _].
Qed.

Lemma findClockInReplay_Ok tenantId operation hash r w w' :
  findClockInReplay tenantId operation hash w = (Ok r, w') ->
  w_db w' = w_db w /\
  match List.find (cardOfOperation operation) (db_timeCards (w_db w)) with
  | Some c => if bool_decide (tc_tenantId c = tenantId)
              then exists card, r = Some card /\ selectCard (w_db w) c = Ok card /\ tc_clockInRequestHash c = Some hash
              else r = None
  | None => r = None
  end.
Proof.
  unfold findClockInReplay, timeCardProblem. intros (o & w1 & [E1 Hf]%findCard_Ok & Hr)%Tx_bind_Ok.
  destruct (List.find _ _) as [c|].
  - destruct Hf as (ic & -> & Hs). rewrite (selectCard_row _ _ _ Hs) in Hr. case_bool_decide; cbn [negb] in Hr.
    + case_bool_decide; cbn [negb] in Hr; [|by apply liftResult_Ok in Hr as [? _]].
      apply Tx_ret_Ok in Hr as [<- <-]. split; [done|]. by exists ic.
    + by apply Tx_ret_Ok in Hr as [<- <-].
  - subst o. by apply Tx_ret_Ok in Hr as [<- <-].
Qed.
End Reads.

#[export] Hint Resolve findCard_ReadOnly foundOr_ReadOnly findClockInReplay_ReadOnly findScopedTimeCard_ReadOnly
  assertNoOverlap_ReadOnly serialize_ReadOnly resolveTimeCardPayrollAssignment_ReadOnly
  lockTimeCardPayrollContext_ReadOnly assertFeatureEntitled_ReadOnly : readonly.
