(* ===== verification/TimeCards.v ===== *)
(** * Clocking in and out

    The handlers [active], [get], [clockIn], [clockOut] and [correct] of
    apps/api-v2/src/time/time-cards.service.ts, over the store of
    TimeCardStore, and what each does to the database. *)

From S2P Require Import Prelude JsStd JsCollections JsDate ContractHelpers TimeZone PayrollRecords.
From S2P Require Import Database FeatureEntitlement Authority ScheduleStore.
From S2P Require Import TimeCardValidation TimeCardPayroll TimeCardStore.

(** [TimeCardClockInRequest], [TimeCardClockInResponse] and
    [TimeCardClockOutRequest] *)
Record ClockInRequest := mkClockIn {
  ci_userId : option string;
  ci_locationId : option string;
  ci_shiftId : option string;
  ci_clockInAt : option string;
  ci_notes : option string;
}.
Record ClockInResponse := mkClockInResponse { ck_data : TimeCardRecord; ck_reused : bool }.
Record ClockOutRequest := mkClockOut {
  co_clockOutAt : option string;
  co_breakMinutes : option Z;
  co_notes : option string;
}.

(** [value ? await f(value) : null] *)
Definition optionally {A} (value : option string) (f : string -> Tx A) : Tx (option A) :=
  match truthy value with
  | Some s => a ← f s; mret (Some a)
  | None => mret None
  end.

Definition isPresent {A} (value : option A) : bool := match value with Some _ => true | None => false end.

(** [parse(value)] of an optional instant. *)
Definition optionalInstant (value : option string) (name : string) : Result (option Z) :=
  match value with Some text => Some <$> parseTimeCardInstant text name | None => Ok None end.

Section Handlers.
Context `{Env, Process, AuthorityEnv, CommitEnv, Intl, Sha256}.

(** ** Reading *)

Definition cardListOrder (l r : TimeCard) : Z :=
  orElse (tc_clockInAt r - tc_clockInAt l) (compareText (tc_publicId r) (tc_publicId l)).

Definition ofPublicUser (db : Db) (publicUserId : string) (c : TimeCard) : bool :=
  existsb (fun u => bool_decide (us_id u = tc_userId c) && bool_decide (us_tenantId u = tc_tenantId c)
                    && bool_decide (us_publicId u = lowerText publicUserId)) (db_users db).

Definition activeCard (tenantId publicUserId : string) (db : Db) (c : TimeCard) : bool :=
  bool_decide (tc_tenantId c = tenantId) && openCard c && ofPublicUser db publicUserId c.

Definition findActiveCard (tenantId publicUserId : string) : Tx (option InternalTimeCard) :=
  query (fun db =>
    match head (sortBy cardListOrder (List.filter (activeCard tenantId publicUserId db) (db_timeCards db))) with
    | Some c => match selectCard db c with Ok card => Ok (Some card, db) | Throw e => Throw e end
    | None => Ok (None, db)
    end).

Definition assertReadScope (current : SessionIdentity) (userId : option string) : Result unit :=
  if negb (canViewTeam current)
     && match truthy userId with Some u => negb (bool_decide (u = si_publicUserId current)) | None => false end
  then timeCardProblem 403 "time_card_scope_denied" "Staff can only view their own time cards." "Forbidden"
  else Ok tt.

Definition active (identity : SessionIdentity) (userId : option string) : Tx (option TimeCardRecord) :=
  let identity := operationsIdentity identity in
  _ ← prepareOperationsAuthority identity;
  timeScope identity (fun current =>
    _ ← liftResult (assertReadScope current userId);
    row ← findActiveCard (si_tenantId current) (default (si_publicUserId current) userId);
    _ ← assertCurrent;
    match row with
    | Some card => data ← serialize card; mret (Some data)
    | None => mret None
    end).

Definition get (identity : SessionIdentity) (timeCardPublicId : string) : Tx TimeCardRecord :=
  let identity := operationsIdentity identity in
  _ ← prepareOperationsAuthority identity;
  timeScope identity (fun current =>
    _ ← assertFeatureEntitled (si_tenantId current) time_cards false;
    _ ← assertCurrent;
    card ← findScopedTimeCard current timeCardPublicId true;
    _ ← assertCurrent;
    serialize card).

(** ** Clocking in *)

Definition assertRequestScope (body : ClockInRequest) (current : SessionIdentity) : Result unit :=
  _ ← writableTargetPublicId current (ci_userId body);
  if negb (canViewTeam current) && isPresent (ci_clockInAt body) then
    timeCardProblem 403 "manual_clock_time_denied" "Staff self-service clockInAt uses server time." "Forbidden"
  else Ok tt.

Definition locateTarget (identity : SessionIdentity) (body : ClockInRequest) : Tx (option string) :=
  match truthy (ci_userId body) with
  | None => mret (Some (si_sub identity))
  | Some publicId =>
      target ← findFirst (userNamed (si_tenantId identity) publicId);
      mret (us_id <$> target)
  end.

(** The request as it is stored: its target and its hash. *)
Definition identifyClockIn (body : ClockInRequest) (requestedClockInAt : option Z) (notes : option string)
    (current : SessionIdentity) (targetUserId : option string) : Tx (string * string) :=
  let tenantId := si_tenantId current in
  _ ← liftResult (assertRequestScope body current);
  targetPublicId ← liftResult (writableTargetPublicId current (ci_userId body));
  requestedTarget ← resolveClockInTargetForReplay tenantId targetPublicId;
  _ ← assertCurrent;
  if negb (bool_decide (Some (us_id requestedTarget) = targetUserId)) then
    liftResult (timeCardProblem 409 "time_card_target_changed"
      "The selected worker changed while this request was being authorized." "Concurrent change")
  else
    requestedLocation ← optionally (ci_locationId body) (resolveLocationForReplay tenantId);
    _ ← assertCurrent;
    requestedShift ← optionally (ci_shiftId body) (resolveShiftForReplay tenantId);
    _ ← assertCurrent;
    mret (targetPublicId, clockInRequestHash (si_sub current) (us_id requestedTarget) (lo_id <$> requestedLocation)
            (sh_id <$> requestedShift) (toISOString <$> requestedClockInAt) notes).

(** The target, shift and location of a new card. *)
Definition resolveClockIn (tenantId targetPublicId : string) (body : ClockInRequest)
    : Tx (User * option Shift * option Location) :=
  target ← readActiveClockInTarget tenantId targetPublicId;
  _ ← assertCurrent;
  shift ← optionally (ci_shiftId body) (fun publicId => resolveShift tenantId publicId (us_id target));
  _ ← assertCurrent;
  location ← (match truthy (ci_locationId body), shift with
              | Some publicId, _ => l ← resolveLocation tenantId publicId; mret (Some l)
              | None, Some s => l ← resolveLocationByInternalId tenantId (sh_locationId s); mret (Some l)
              | None, None => mret None
              end);
  _ ← assertCurrent;
  match shift, location with
  | Some s, Some l =>
      if negb (bool_decide (lo_id l = sh_locationId s)) then
        liftResult (invalidTimeCardInput "Time-card location must match the selected shift location.")
      else mret (target, shift, location)
  | _, _ => mret (target, shift, location)
  end.

(** [timeCard.create] with [TIME_CARD_SELECT] *)
Definition createCard (tenantId userId operation requestHash : string) (location : option Location) (shift : option Shift)
    (clockInAt : Z) (payroll : TimeCardPayrollAssignment) (notes : option string) : Tx InternalTimeCard :=
  id ← randomUUID;
  publicId ← randomUUID;
  at_ ← now;
  let card := mkTimeCard id publicId tenantId userId (lo_id <$> location) (sh_id <$> shift) (Some operation)
                (Some requestHash) clockInAt None (pa_payrollPeriodId payroll) (pa_workTimeZone payroll) 1 0 notes OPEN
                at_ at_ None in
  _ ← createRow card;
  query (fun db => match selectCard db card with Ok ic => Ok (ic, db) | Throw e => Throw e end).

Definition openCardOf (tenantId userId : string) (c : TimeCard) : bool :=
  bool_decide (tc_tenantId c = tenantId) && bool_decide (tc_userId c = userId) && openCard c.

(** The rest of the attempt, for a key without a card. *)
Definition chargeClockIn (current : SessionIdentity) (targetPublicId operation requestHash : string)
    (body : ClockInRequest) (requestedClockInAt : option Z) (notes : option string) : Tx ClockInResponse :=
  let tenantId := si_tenantId current in
  '(target, shift, location) ← resolveClockIn tenantId targetPublicId body;
  granted ← assertFeatureEntitled tenantId time_cards true;
  _ ← assertCurrent;
  match granted with
  | None => liftResult (timeCardProblem 403 "time_cards_not_entitled" "Clock-in requires usage credits." "Feature unavailable")
  | Some entitlement =>
      open ← findFirst (openCardOf tenantId (us_id target));
      _ ← assertCurrent;
      if isPresent open then liftResult (invalidTimeCardInput "This employee already has an open time card.") else
      clockInAt ← (match requestedClockInAt with Some t => mret t | None => now end);
      payroll ← resolveTimeCardPayrollAssignment tenantId clockInAt
                  ((fun l => mkCardLocation (lo_id l) (lo_timezone l)) <$> location);
      _ ← assertCurrent;
      created ← createCard tenantId (us_id target) operation requestHash location shift clockInAt payroll notes;
      _ ← assertCurrent;
      _ ← debitFeatureCredit assertCurrent tenantId entitlement operation
            ("Time card clock-in (" +:+ tc_id (ic_row created) +:+ ")") None;
      _ ← assertCurrent;
      _ ← auditCard current "TIME_CARD_CLOCKED_IN" (tc_id (ic_row created)) None (timeCardAuditValue created);
      _ ← assertCurrent;
      data ← serialize created;
      mret (mkClockInResponse data false)
  end.

Definition settleClockIn (current : SessionIdentity) (targetPublicId operation requestHash : string)
    (body : ClockInRequest) (requestedClockInAt : option Z) (notes : option string) : Tx ClockInResponse :=
  replay ← findClockInReplay (si_tenantId current) operation requestHash;
  _ ← assertCurrent;
  match replay with
  | Some card => data ← serialize card; mret (mkClockInResponse data true)
  | None => chargeClockIn current targetPublicId operation requestHash body requestedClockInAt notes
  end.

(** An attempt; [expectedRequestHash] is the variable. *)
Definition clockInAttempt (operation : string) (body : ClockInRequest) (requestedClockInAt : option Z)
    (notes : option string) (current : SessionIdentity) (targetUserId : option string)
    : Held (option string) ClockInResponse :=
  '(targetPublicId, requestHash) ← held (identifyClockIn body requestedClockInAt notes current targetUserId);
  _ ← assign (Some requestHash);
  held (settleClockIn current targetPublicId operation requestHash body requestedClockInAt notes).

(** The lookup after a failure. *)
Definition recoverClockIn (operation : string) (body : ClockInRequest) (current : SessionIdentity)
    (targetUserId : option string) : Held (option string) (option ClockInResponse) :=
  _ ← held (liftResult (assertRequestScope body current));
  row ← held (findCard (cardOfOperation operation));
  _ ← held assertCurrent;
  expectedRequestHash ← readVar;
  match row, truthy expectedRequestHash with
  | Some card, Some expected =>
      if negb (bool_decide (tc_tenantId (ic_row card) = si_tenantId current)) then mret None
      else if negb (bool_decide (tc_clockInRequestHash (ic_row card) = Some expected)) then
        held (liftResult (timeCardProblem 409 "idempotency_conflict"
          "Idempotency-Key was already used with a different clock-in request." "Conflict"))
      else data ← held (serialize card); mret (Some (mkClockInResponse data true))
  | _, _ => mret None
  end.

Definition deniedClockIn (error : Exn) : bool :=
  match error with
  | Problem p => bool_decide (pCode p ∈ ["permission_denied"; "pin_rotation_required"; "mfa_verification_required";
                                         "time_card_scope_denied"; "manual_clock_time_denied"])
  | _ => false
  end.

Definition clockInOrRecover (identity : SessionIdentity) (operation : string) (body : ClockInRequest)
    (requestedClockInAt : option Z) (notes : option string) : Tx ClockInResponse := fun w =>
  let locate := locateTarget identity body in
  match timeScopeHeld identity locate (clockInAttempt operation body requestedClockInAt notes) (w, None) with
  | (Ok response, (w1, _)) => (Ok response, w1)
  | (Throw error, (w1, expectedRequestHash)) =>
      if deniedClockIn error then (Throw error, w1) else
      match timeScopeHeld identity locate (recoverClockIn operation body) (w1, expectedRequestHash) with
      | (Ok (Some recovery), (w2, _)) => (Ok recovery, w2)
      | (Ok None, (w2, _)) =>
          if isUniqueConstraint error then
            (invalidTimeCardInput "This employee already has an open time card.", w2)
          else (Throw error, w2)
      | (Throw e, (w2, _)) => (Throw e, w2)
      end
  end.

Definition clockIn (identity : SessionIdentity) (body : ClockInRequest) (idempotencyKeyValue : option string)
    : Tx ClockInResponse :=
  let identity := operationsIdentity identity in
  idempotencyKey ← liftResult (normalizeClockInIdempotencyKey idempotencyKeyValue);
  let operation := operationId (si_tenantId identity) idempotencyKey in
  requestedClockInAt ← liftResult (optionalInstant (ci_clockInAt body) "clockInAt");
  notes ← liftResult (normalizeTimeCardNotes (ci_notes body));
  _ ← prepareOperationsAuthority identity;
  clockInOrRecover identity operation body requestedClockInAt (default None notes).
(** ** Clocking out *)

Definition closeCard (clockOutAt breakMinutes : Z) (notes : option (option string)) (updatedAt : Z) (c : TimeCard) : TimeCard :=
  mkTimeCard (tc_id c) (tc_publicId c) (tc_tenantId c) (tc_userId c) (tc_locationId c) (tc_shiftId c)
    (tc_clockInOperationId c) (tc_clockInRequestHash c) (tc_clockInAt c) (Some clockOutAt) (tc_payrollPeriodId c)
    (tc_workTimeZone c) (tc_revision c + 1) breakMinutes (match notes with Some n => n | None => tc_notes c end)
    CLOSED (tc_createdAt c) updatedAt (tc_deletedAt c).

Definition openAtRevision (tenantId : string) (card : TimeCard) (c : TimeCard) : bool :=
  bool_decide (tc_id c = tc_id card) && bool_decide (tc_tenantId c = tenantId) && bool_decide (tc_deletedAt c = None)
  && bool_decide (tc_status c = OPEN) && bool_decide (tc_clockOutAt c = None) && (tc_revision c =? tc_revision card).

(** What a clock-out stores, or the reason it cannot. *)
Definition checkClockOut (body : ClockOutRequest) (card : TimeCard) (clockOutAt : Z) (payrollPeriods : list PayrollPeriodWindow)
    : Result Z :=
  if clockOutAt <=? tc_clockInAt card then invalidTimeCardInput "Clock out must be after clock in." else
  _ ← assertClockOutWithinPayrollPeriod (tc_payrollPeriodId card) clockOutAt payrollPeriods;
  normalizeClockOutBreakMinutes (co_breakMinutes body) ((clockOutAt - tc_clockInAt card) / 60000).

Definition clockOutInScope (timeCardPublicId : string) (body : ClockOutRequest) (requestedClockOutAt : option Z)
    (notes : option (option string)) (current : SessionIdentity) : Tx TimeCardRecord :=
  let tenantId := si_tenantId current in
  if negb (canViewTeam current) && isPresent (co_clockOutAt body) then
    liftResult (timeCardProblem 403 "manual_clock_time_denied" "Staff self-service clockOutAt uses server time." "Forbidden")
  else
    initial ← findScopedTimeCard current timeCardPublicId false;
    _ ← assertCurrent;
    payrollPeriods ← lockTimeCardPayrollContext tenantId (tc_id (ic_row initial)) [tc_payrollPeriodId (ic_row initial)];
    card ← findScopedTimeCard current timeCardPublicId false;
    _ ← assertCurrent;
    let row := ic_row card in
    if negb (bool_decide (tc_status row = OPEN)) then
      liftResult (invalidTimeCardInput "This time card is already closed.")
    else
      clockOutAt ← (match requestedClockOutAt with Some t => mret t | None => now end);
      breakMinutes ← liftResult (checkClockOut body row clockOutAt payrollPeriods);
      _ ← assertCurrent;
      updatedAt ← now;
      count ← updateMany (openAtRevision tenantId row) (closeCard clockOutAt breakMinutes notes updatedAt);
      _ ← assertCurrent;
      if negb (count =? 1)%nat then
        liftResult (timeCardProblem 409 "concurrent_time_card_change"
          "This time card was already clocked out by another request." "Concurrent change")
      else
        result ← findScopedTimeCard current timeCardPublicId true;
        _ ← assertCurrent;
        _ ← auditCard current "TIME_CARD_CLOCKED_OUT" (tc_id (ic_row result)) (Some (timeCardAuditValue card)) (timeCardAuditValue result);
        _ ← assertCurrent;
        serialize result.

Definition clockOut (identity : SessionIdentity) (timeCardPublicId : string) (body : ClockOutRequest) : Tx TimeCardRecord :=
  let identity := operationsIdentity identity in
  _ ← prepareOperationsAuthority identity;
  requestedClockOutAt ← liftResult (optionalInstant (co_clockOutAt body) "clockOutAt");
  notes ← liftResult (normalizeTimeCardNotes (co_notes body));
  timeScope identity (clockOutInScope timeCardPublicId body requestedClockOutAt notes).

(** ** Correcting *)

Definition correctCard (correction : ValidatedTimeCardCorrection) (assignment : TimeCardPayrollAssignment) (updatedAt : Z)
    (c : TimeCard) : TimeCard :=
  mkTimeCard (tc_id c) (tc_publicId c) (tc_tenantId c) (tc_userId c) (tc_locationId c) (tc_shiftId c)
    (tc_clockInOperationId c) (tc_clockInRequestHash c) (vc_clockInAt correction) (vc_clockOutAt correction)
    (pa_payrollPeriodId assignment) (pa_workTimeZone assignment) (tc_revision c + 1) (vc_breakMinutes correction)
    (tc_notes c) (vc_status correction) (tc_createdAt c) updatedAt (tc_deletedAt c).

Definition asExpected (tenantId : string) (card : TimeCard) (expectedUpdatedAt : Z) (c : TimeCard) : bool :=
  bool_decide (tc_id c = tc_id card) && bool_decide (tc_tenantId c = tenantId) && bool_decide (tc_deletedAt c = None)
  && (tc_updatedAt c =? expectedUpdatedAt) && (tc_revision c =? tc_revision card).

Definition correctable (card : InternalTimeCard) : CorrectableTimeCard :=
  mkCorrectable (tc_clockInAt (ic_row card)) (tc_clockOutAt (ic_row card)) (tc_breakMinutes (ic_row card))
    (map (fun b => mkInterval (tb_startAt b) (tb_endAt b)) (ic_breaks card)).

Definition voided {A} : Result A := invalidTimeCardInput "Voided time cards cannot be corrected.".

(** [deleteMany] and [createMany] of the breaks of a card. *)
Definition replaceCardBreaks (tenantId cardId : string) (intervals : list PersistedBreakInterval) : Tx unit :=
  _ ← assertCurrent;
  _ ← deleteMany (fun b => bool_decide (tb_tenantId b = tenantId) && bool_decide (tb_timeCardId b = cardId));
  _ ← assertCurrent;
  match intervals with
  | [] => mret tt
  | _ =>
      _ ← assertCurrent;
      _ ← forEach (fun interval =>
            id ← randomUUID;
            publicId ← randomUUID;
            createRow (mkCardBreak id publicId tenantId cardId (pi_startAt interval) (pi_endAt interval))) intervals;
      assertCurrent
  end.

(** The writes of a correction, after its checks. *)
Definition applyCorrection (timeCardPublicId : string) (correction : ValidatedTimeCardCorrection)
    (assignment : TimeCardPayrollAssignment) (periods : list PayrollPeriodWindow) (card : InternalTimeCard)
    (current : SessionIdentity) : Tx TimeCardRecord :=
  let tenantId := si_tenantId current in
  let row := ic_row card in
  updatedAt ← now;
  count ← updateMany (asExpected tenantId row (vc_expectedUpdatedAt correction)) (correctCard correction assignment updatedAt);
  _ ← assertCurrent;
  if negb (count =? 1)%nat then
    liftResult (timeCardProblem 409 "concurrent_time_card_change"
      "This time card changed while you were editing it. Refresh and try again." "Concurrent change")
  else
    _ ← (match vc_breakIntervals correction with
         | Some intervals => replaceCardBreaks tenantId (tc_id row) intervals
         | None => mret tt
         end);
    result ← findScopedTimeCard current timeCardPublicId true;
    _ ← assertCurrent;
    _ ← liftResult (match truthy (tc_payrollPeriodId (ic_row result)), tc_clockOutAt (ic_row result) with
                    | Some period, Some out => assertClockOutWithinPayrollPeriod (Some period) out periods
                    | _, _ => Ok tt
                    end);
    _ ← assertCurrent;
    _ ← auditCard current "TIME_CARD_CORRECTED" (tc_id (ic_row result)) (Some (timeCardAuditValue card))
          (JObj (timeCardAuditFields result ++ [field "correctionReason" (JStr (vc_reason correction))]));
    _ ← assertCurrent;
    serialize result.

Definition correctInScope (timeCardPublicId : string) (body : CorrectionRequest) (current : SessionIdentity)
    : Tx TimeCardRecord :=
  let tenantId := si_tenantId current in
  if negb (canViewTeam current) then
    liftResult (timeCardProblem 403 "time_card_correction_denied" "Team time-card corrections require manager access." "Forbidden")
  else
    _ ← assertFeatureEntitled tenantId time_cards false;
    _ ← assertCurrent;
    initial ← findScopedTimeCard current timeCardPublicId true;
    _ ← assertCurrent;
    if bool_decide (tc_status (ic_row initial) = VOID) then liftResult voided else
    nowMs ← now;
    correction ← liftResult (validateTimeCardCorrection body (correctable initial) nowMs);
    assignment ← resolveTimeCardPayrollAssignment tenantId (vc_clockInAt correction)
      (match ic_location initial, truthy (tc_locationId (ic_row initial)) with
       | Some _, Some id => Some (mkCardLocation id (tc_workTimeZone (ic_row initial)))
       | _, _ => None
       end);
    periods ← lockTimeCardPayrollContext tenantId (tc_id (ic_row initial))
      [tc_payrollPeriodId (ic_row initial); pa_payrollPeriodId assignment];
    card ← findScopedTimeCard current timeCardPublicId true;
    _ ← assertCurrent;
    if bool_decide (tc_status (ic_row card) = VOID) then liftResult voided else
    _ ← assertNoOverlap tenantId (tc_userId (ic_row card)) (tc_id (ic_row card)) (vc_clockInAt correction) (vc_clockOutAt correction);
    _ ← assertCurrent;
    applyCorrection timeCardPublicId correction assignment periods card current.

(** [catch (error)] *)
Definition overlapAs409 {A} (attempt : Tx A) : Tx A := fun w =>
  match attempt w with
  | (Ok a, w1) => (Ok a, w1)
  | (Throw error, w1) =>
      if isTimeCardOverlap error then
        (timeCardProblem 409 "time_card_overlap"
           "Corrected time cards cannot overlap another card for this employee." "Conflict", w1)
      else (Throw error, w1)
  end.

Definition correct (identity : SessionIdentity) (timeCardPublicId : string) (body : CorrectionRequest) : Tx TimeCardRecord :=
  let identity := operationsIdentity identity in
  _ ← prepareOperationsAuthority identity;
  overlapAs409 (timeScope identity (correctInScope timeCardPublicId body)).
End Handlers.

(** ** Keys *)

(** The unique indexes of the cards. *)
Record cardsKeyed (db : Db) : Prop := mkKeyed {
  ck_ids : NoDup (map tc_id (db_timeCards db));
  ck_publicIds : NoDup (map tc_publicId (db_timeCards db));
  ck_operations : forall c d, c ∈ db_timeCards db -> d ∈ db_timeCards db ->
    is_Some (tc_clockInOperationId c) -> tc_clockInOperationId c = tc_clockInOperationId d -> c = d;
}.

Lemma find_keyed {A K} (key : A -> K) (p : A -> bool) l x :
  NoDup (map key l) -> x ∈ l -> p x = true -> (forall y, p y = true -> key y = key x) -> List.find p l = Some x.
Proof.
  intros Hn Hx Hp Hk. destruct (List.find p l) as [y|] eqn:Ef.
  - apply find_some in Ef as [Hy%list_elem_of_In Hpy]. f_equal. eapply (NoDup_map_inj key); [done..|]. by apply Hk.
  - eapply find_none in Ef; [|by apply list_elem_of_In]. congruence.
Qed.

(** One row of a keyed table is replaced. *)
Definition replaceRow {A} (key : A -> string) (k : string) (f : A -> A) (l : list A) : list A :=
  map (fun x => if bool_decide (key x = k) then f x else x) l.

Lemma update_one {A} (key : A -> string) (p : A -> bool) (f : A -> A) l row :
  NoDup (map key l) -> row ∈ l -> (forall x, p x = true -> key x = key row) ->
  length (List.filter p l) = 1%nat ->
  p row = true /\ map (fun x => if p x then f x else x) l = replaceRow key (key row) f l.
Proof.
  intros Hn Hrow Hk Hl.
  assert (Hp : p row = true).
  { destruct (List.filter p l) as [|c rest] eqn:Ef; [done|].
    assert (Hc : In c (List.filter p l)) by (rewrite Ef; by left). apply filter_In in Hc as [Hc%list_elem_of_In Hpc].
    by rewrite <- (NoDup_map_inj key l c row Hn Hc Hrow (Hk _ Hpc)). }
  split; [done|]. unfold replaceRow. apply map_ext_in. intros x Hx%list_elem_of_In.
  destruct (p x) eqn:E; case_bool_decide as Ek; [done|by destruct Ek; apply Hk| |done].
  rewrite (NoDup_map_inj key l x row Hn Hx Hrow Ek) in E. congruence.
Qed.

Lemma replaceRow_elem {A} (key : A -> string) k f l row :
  row ∈ l -> key row = k -> f row ∈ replaceRow key k f l.
Proof.
  intros Hrow Hk. apply list_elem_of_In, in_map_iff. exists row. by rewrite bool_decide_true; [split; [|apply list_elem_of_In]|].
Qed.

Lemma replaceRow_keys {A B} (key : A -> string) (g : A -> B) k f l :
  (forall x, g (f x) = g x) -> map g (replaceRow key k f l) = map g l.
Proof. intros Hg. unfold replaceRow. rewrite map_map. apply map_ext. intros x. by case_bool_decide. Qed.

(** ** What a clock-out does *)

Definition auditAppended (db : Db) (cards : list TimeCard) (a : AuditLog) : Db :=
  withRows (db_audits db ++ [a]) (withRows (R := TimeCard) cards db).

Lemma scopedCard_true current publicId closed c :
  scopedCard current publicId closed c = true ->
  tc_tenantId c = si_tenantId current /\ tc_publicId c = lowerText publicId /\ tc_deletedAt c = None /\
  (canViewTeam current = false -> tc_userId c = si_sub current).
Proof.
  unfold scopedCard. rewrite !andb_true_iff, !orb_true_iff, !bool_decide_eq_true. intros ((((? & ?) & ?) & ?) & [Hv|?]).
  - split_and!; [done..|]. congruence.
  - by split_and!.
Qed.

Lemma scopedCard_intro current publicId c :
  tc_tenantId c = si_tenantId current -> tc_publicId c = lowerText publicId -> tc_deletedAt c = None ->
  (canViewTeam current = false -> tc_userId c = si_sub current) -> scopedCard current publicId true c = true.
Proof.
  intros Ht Hp Hd Hu. unfold scopedCard. rewrite (bool_decide_true (tc_tenantId c = _)), (bool_decide_true (tc_publicId c = _)),
    (bool_decide_true (tc_deletedAt c = None)) by done. cbn [andb orb].
  destruct (canViewTeam current); [done|]. apply bool_decide_eq_true. by apply Hu.
Qed.

(** A worker's open card is closed: after its clock-in, at or before the end of
    its payroll period, which is not locked, with less break than work; one
    row changes and one audit row is appended. *)
Record ClockedOut (current : SessionIdentity) (publicId : string) (r : TimeCardRecord) (db db' : Db)
    (row : TimeCard) (clockOutAt breakMinutes : Z) (notes : option (option string)) : Prop := mkClockedOut {
  cd_row : row ∈ db_timeCards db /\ tc_publicId row = lowerText publicId /\ tc_tenantId row = si_tenantId current /\
    tc_deletedAt row = None /\ tc_status row = OPEN /\ tc_clockOutAt row = None;
  cd_scope : canViewTeam current = false -> tc_userId row = si_sub current;
  cd_after : tc_clockInAt row < clockOutAt;
  cd_breaks : 0 <= breakMinutes /\ (0 < breakMinutes -> (breakMinutes + 1) * 60000 <= clockOutAt - tc_clockInAt row);
  cd_period : forall id, tc_payrollPeriodId row = Some id -> id <> "" ->
    unlockedPeriod (si_tenantId current) id db /\
    exists period, period ∈ db_periods db /\ py_id period = id /\ py_tenantId period = si_tenantId current /\
      clockOutAt <= py_endsAt period;
  cd_written : exists updatedAt a, db' = auditAppended db
    (replaceRow tc_id (tc_id row) (closeCard clockOutAt breakMinutes notes updatedAt) (db_timeCards db)) a;
  cd_response : tr_id r = lowerText publicId /\ tr_status r = CLOSED /\ tr_clockOutAt r = Some (toISOString clockOutAt) /\
    tr_breakMinutes r = breakMinutes /\ tr_revision r = tc_revision row + 1 /\
    tr_grossMinutes r = (clockOutAt - tc_clockInAt row) / 60000 /\
    tr_workedMinutes r = (clockOutAt - tc_clockInAt row) / 60000 - breakMinutes;
}.

(** [assertCurrent();] *)
Ltac pass_current H := apply Tx_bind_Ok in H as (? & ? & [_ ->]%assertCurrent_Ok & H).

Section ClockOutFacts.
Context `{Env}.

Lemma checkClockOut_Ok body card clockOutAt periods breakMinutes :
  checkClockOut body card clockOutAt periods = Ok breakMinutes ->
  tc_clockInAt card < clockOutAt /\
  assertClockOutWithinPayrollPeriod (tc_payrollPeriodId card) clockOutAt periods = Ok tt /\
  0 <= breakMinutes /\ (0 < breakMinutes -> (breakMinutes + 1) * 60000 <= clockOutAt - tc_clockInAt card).
Proof.
  unfold checkClockOut. destruct (_ <=? _) eqn:E; [done|]. intros ([] & Ha & Hn)%Result_bind_Ok.
  split; [bool_lia|]. split; [done|]. unfold normalizeClockOutBreakMinutes in Hn.
  destruct (co_breakMinutes body) as [m|]; [|injection Hn as <-; lia].
  destruct (m <? 0) eqn:E1; [done|]. destruct (_ && _) eqn:E2; [done|]. injection Hn as <-.
  split; [bool_lia|]. intros Hm. rewrite (proj2 (Z.ltb_lt _ _) Hm) in E2. by apply minutes_below.
Qed.

Lemma serialize_Ok card r w w' :
  serialize card w = (Ok r, w') -> w_db w' = w_db w /\ exists nowMs, serializeTimeCard card nowMs = Ok r.
Proof. unfold serialize. intros (t & w1 & [-> ->]%now_Ok & [? <-]%liftResult_Ok)%Tx_bind_Ok. eauto. Qed.

Lemma serializeTimeCard_Ok card nowMs r :
  serializeTimeCard card nowMs = Ok r ->
  let row := ic_row card in
  0 <= tc_breakMinutes row /\ 1 <= tc_revision row /\
  tr_id r = tc_publicId row /\ tr_status r = tc_status row /\ tr_clockInAt r = toISOString (tc_clockInAt row) /\
  tr_clockOutAt r = toISOString <$> tc_clockOutAt row /\ tr_breakMinutes r = tc_breakMinutes row /\
  tr_revision r = tc_revision row /\ tr_grossMinutes r = grossMinutesOf row nowMs /\
  tr_workedMinutes r = Z.max 0 (grossMinutesOf row nowMs - tc_breakMinutes row).
Proof.
  unfold serializeTimeCard. destruct (_ || _) eqn:E; [done|]. intros (bs & _ & [= <-])%Result_bind_Ok.
  cbn. bools. by split_and!; try lia.
Qed.

Lemma auditCard_Ok current action cardId old new u w w' :
  auditCard current action cardId old new w = (Ok u, w') ->
  exists a, al_tenantId a = si_tenantId current /\ al_userId a = Some (si_sub current) /\ al_action a = action /\
    al_resourceId a = Some cardId /\ al_oldValue a = old /\ al_newValue a = Some new /\
    w_db w' = withRows (db_audits (w_db w) ++ [a]) (w_db w).
Proof.
  unfold auditCard. intros (id & w1 & [-> ->]%randomUUID_Ok & [_ E]%createRow_Ok)%Tx_bind_Ok.
  eexists. by split_and!; [..|exact E].
Qed.

Lemma find_some_elem {A} (p : A -> bool) l x : List.find p l = Some x -> x ∈ l /\ p x = true.
Proof. intros [Hx Hp]%find_some. split; [by apply list_elem_of_In|done]. Qed.

Lemma openAtRevision_true tenantId card c :
  openAtRevision tenantId card c = true ->
  tc_id c = tc_id card /\ tc_tenantId c = tenantId /\ tc_status c = OPEN /\ tc_clockOutAt c = None /\
  tc_revision c = tc_revision card.
Proof. unfold openAtRevision. rewrite !andb_true_iff, !bool_decide_eq_true. intros (((((? & ?) & ?) & ?) & ?) & ?%Z.eqb_eq). done. Qed.

(** What the update wrote is what is read again. *)
Lemma rescoped current publicId db cards row row' card :
  cardsKeyed db -> map tc_publicId cards = map tc_publicId (db_timeCards db) ->
  row' ∈ cards -> tc_publicId row' = lowerText publicId -> tc_tenantId row' = si_tenantId current -> tc_deletedAt row' = None ->
  (canViewTeam current = false -> tc_userId row' = si_sub current) ->
  List.find (scopedCard current publicId true) cards = Some (ic_row card) -> row = row' -> ic_row card = row.
Proof.
  intros Hk Hm Hin Hp Ht Hd Hu Hf ->. rewrite (find_keyed tc_publicId _ cards row') in Hf; [by injection Hf| |done| |].
  - rewrite Hm. apply (ck_publicIds _ Hk).
  - by apply scopedCard_intro.
  - intros y (_ & Hy & _)%scopedCard_true. congruence.
Qed.

Lemma clockOutInScope_Ok publicId body requested notes current w r w' :
  cardsKeyed (w_db w) -> clockOutInScope publicId body requested notes current w = (Ok r, w') ->
  exists row clockOutAt breakMinutes,
    ClockedOut current publicId r (w_db w) (w_db w') row clockOutAt breakMinutes notes /\
    (canViewTeam current = false -> co_clockOutAt body = None) /\
    (forall t, requested = Some t -> clockOutAt = t).
Proof.
  intros Hk. unfold clockOutInScope, timeCardProblem, invalidTimeCardInput.
  destruct (negb (canViewTeam current) && _) eqn:Escope; [by intros [? _]%liftResult_Ok|].
  intros (initial & w1 & (E1 & Hf1 & Hs1)%findScopedTimeCard_Ok & Hr)%Tx_bind_Ok. pass_current Hr.
  apply Tx_bind_Ok in Hr as (periods & w2 & (E2 & Hlock & Hwin)%lockTimeCardPayrollContext_Ok & Hr).
  apply Tx_bind_Ok in Hr as (card & w3 & (E3 & Hf & _)%findScopedTimeCard_Ok & Hr). pass_current Hr.
  cbn [w_db tick] in *. rewrite E2, E1 in Hf. rewrite E1 in Hlock, Hwin.
  rewrite Hf1 in Hf. injection Hf as Erow. rewrite <- Erow in Hr. set (row := ic_row initial) in *.
  apply find_some_elem in Hf1 as [Hrow (Ht & Hp & Hd & Hu)%scopedCard_true].
  destruct (negb (bool_decide (tc_status row = OPEN))) eqn:Est; [by apply liftResult_Ok in Hr as [? _]|].
  apply Tx_bind_Ok in Hr as (out & w4 & Hout & Hr).
  assert (H4 : w_db w4 = w_db w3 /\ (forall t, requested = Some t -> out = t)).
  { destruct requested; [apply Tx_ret_Ok in Hout as [<- <-]|apply now_Ok in Hout as [-> ->]]; split; try done. by intros t [= <-]. }
  destruct H4 as [E4 Hreq]. clear Hout.
  apply Tx_bind_Ok in Hr as (bm & w5 & [(Hafter & Hperiod & Hbm)%checkClockOut_Ok <-]%liftResult_Ok & Hr). pass_current Hr.
  apply Tx_bind_Ok in Hr as (updatedAt & w6 & [_ ->]%now_Ok & Hr).
  apply Tx_bind_Ok in Hr as (count & w7 & [-> E7]%updateMany_Ok & Hr). pass_current Hr.
  cbn [w_db tick rows Table_TimeCard] in *. assert (Ew : w_db w4 = w_db w) by congruence. rewrite Ew in E7, Hr.
  destruct (negb _) eqn:Ecount in Hr; [by apply liftResult_Ok in Hr as [? _]|]. apply negb_false_iff, Nat.eqb_eq in Ecount.
  destruct (update_one tc_id _ (closeCard out bm notes updatedAt) _ row (ck_ids _ Hk) Hrow
    (fun c Hc => proj1 (openAtRevision_true _ _ _ Hc)) Ecount) as [(_ & _ & Hopen & Hnone & _)%openAtRevision_true Eupd].
  rewrite Eupd in E7.
  apply Tx_bind_Ok in Hr as (result & w8 & (E8 & Hf8 & _)%findScopedTimeCard_Ok & Hr). pass_current Hr.
  apply Tx_bind_Ok in Hr as (? & w9 & (a & _ & _ & _ & _ & _ & _ & E9)%auditCard_Ok & Hr). pass_current Hr.
  apply serialize_Ok in Hr as (E10 & nowMs & Hser). cbn [w_db tick] in *.
  set (cards := replaceRow _ _ _ _) in E7.
  assert (Ecards : db_timeCards (w_db w7) = cards) by (rewrite E7; by destruct (w_db w)).
  rewrite Ecards in Hf8.
  assert (Eres : ic_row result = closeCard out bm notes updatedAt row).
  { eapply (rescoped current publicId (w_db w) cards); [done| | |..|exact Hf8|reflexivity]; try done.
    - by apply replaceRow_keys.
    - by apply replaceRow_elem. }
  apply serializeTimeCard_Ok in Hser. cbv zeta in Hser. rewrite Eres in Hser.
  cbn [closeCard tc_publicId tc_status tc_clockInAt tc_clockOutAt tc_breakMinutes tc_revision] in Hser.
  destruct Hser as (_ & _ & R1 & R2 & _ & R4 & R5 & R6 & R7 & R8).
  assert (Eg : grossMinutesOf (closeCard out bm notes updatedAt row) nowMs = (out - tc_clockInAt row) / 60000).
  { unfold grossMinutesOf, closeCard; cbn. apply Z.max_r. div_lia. }
  exists row, out, bm. split; [|split; [|done]].
  - split.
    + by split_and!.
    + done.
    + done.
    + done.
    + intros id Hid Hne. split; [apply Hlock; [done|]; rewrite Hid; by left|].
      rewrite Hid in Hperiod. apply assertClockOutWithinPayrollPeriod_Ok in Hperiod as (pw & Hpw & Hpid & Hle); [|done].
      apply Hwin in Hpw as (period & Hin & Hpt & ->). by exists period.
    + exists updatedAt, a. rewrite E10, E9, E8, E7. unfold auditAppended. by destruct (w_db w).
    + rewrite Hp in R1. rewrite Eg in R7, R8. split_and!; try done.
      destruct Hbm as [H0 Hlt]. rewrite R8. apply Z.max_r. destruct (Z.eq_dec bm 0) as [->|]; [|specialize (Hlt ltac:(lia))]; div_lia.
  - intros Hv. rewrite Hv in Escope. by destruct (co_clockOutAt body).
Qed.
End ClockOutFacts.

(** ** What a correction does *)

Definition breakNamed (tenantId cardId : string) (b : TimeCardBreak) : bool :=
  bool_decide (tb_tenantId b = tenantId) && bool_decide (tb_timeCardId b = cardId).

(** The rows that store the intervals of a card. *)
Definition storesIntervals (tenantId cardId : string) (intervals : list PersistedBreakInterval) (new : list TimeCardBreak) : Prop :=
  Forall2 (fun i b => tb_tenantId b = tenantId /\ tb_timeCardId b = cardId /\
    tb_startAt b = pi_startAt i /\ tb_endAt b = pi_endAt i) intervals new.

(** The breaks of a card after a correction. *)
Definition breaksCorrected (tenantId cardId : string) (intervals : option (list PersistedBreakInterval))
    (l l' : list TimeCardBreak) : Prop :=
  match intervals with
  | None => l' = l
  | Some i => exists new, storesIntervals tenantId cardId i new /\
      l' = List.filter (fun b => negb (breakNamed tenantId cardId b)) l ++ new
  end.

(** A manager replaced the times of a live card that had not changed since it
    was read: as the request asks ([CorrectionAccepted]), assigned to payroll
    as a new card would be, neither the old nor the new period being locked;
    one row changes, its breaks are replaced if the request names breaks, and
    one audit row is appended. *)
Record Corrected `{Intl} (current : SessionIdentity) (publicId : string) (body : CorrectionRequest) (r : TimeCardRecord)
    (db db' : Db) (card : InternalTimeCard) (nowMs : Z) (v : ValidatedTimeCardCorrection)
    (assignment : TimeCardPayrollAssignment) : Prop := mkCorrected {
  co_manager : canViewTeam current = true;
  co_row : ic_row card ∈ db_timeCards db /\ selectCard db (ic_row card) = Ok card /\
    tc_publicId (ic_row card) = lowerText publicId /\ tc_tenantId (ic_row card) = si_tenantId current /\
    tc_deletedAt (ic_row card) = None /\ tc_status (ic_row card) <> VOID;
  co_expected : tc_updatedAt (ic_row card) = vc_expectedUpdatedAt v;
  co_accepted : CorrectionAccepted body (correctable card) nowMs v;
  co_assigned : AssignedTo (si_tenantId current) (vc_clockInAt v)
    (match ic_location card, truthy (tc_locationId (ic_row card)) with
     | Some _, Some id => Some (mkCardLocation id (tc_workTimeZone (ic_row card)))
     | _, _ => None
     end) db assignment;
  co_unlocked : forall id, id <> "" -> tc_payrollPeriodId (ic_row card) = Some id \/ pa_payrollPeriodId assignment = Some id ->
    unlockedPeriod (si_tenantId current) id db;
  co_cutoff : forall id out, id <> "" -> pa_payrollPeriodId assignment = Some id -> vc_clockOutAt v = Some out ->
    exists period, period ∈ db_periods db /\ py_id period = id /\ py_tenantId period = si_tenantId current /\
      out <= py_endsAt period;
  co_written : exists updatedAt a breaks,
    breaksCorrected (si_tenantId current) (tc_id (ic_row card)) (vc_breakIntervals v) (db_cardBreaks db) breaks /\
    db' = auditAppended (withRows (R := TimeCardBreak) breaks db)
      (replaceRow tc_id (tc_id (ic_row card)) (correctCard v assignment updatedAt) (db_timeCards db)) a;
  co_response : tr_id r = lowerText publicId /\ tr_status r = vc_status v /\ tr_clockInAt r = toISOString (vc_clockInAt v) /\
    tr_clockOutAt r = toISOString <$> vc_clockOutAt v /\ tr_breakMinutes r = vc_breakMinutes v /\
    tr_revision r = tc_revision (ic_row card) + 1;
}.

Section CorrectFacts.
Context `{Env, Process, Intl}.

Lemma createCardBreaks_Ok tenantId cardId intervals u w w' :
  forEach (fun interval =>
    id ← randomUUID;
    publicId ← randomUUID;
    createRow (mkCardBreak id publicId tenantId cardId (pi_startAt interval) (pi_endAt interval))) intervals w = (Ok u, w') ->
  exists new, storesIntervals tenantId cardId intervals new /\
    w_db w' = withRows (db_cardBreaks (w_db w) ++ new) (w_db w).
Proof.
  revert w. induction intervals as [|i intervals IH]; cbn [forEach]; intros w Hr.
  - apply Tx_ret_Ok in Hr as [_ <-]. exists []. split; [constructor|]. rewrite app_nil_r. by destruct (w_db w).
  - apply Tx_bind_Ok in Hr as (? & w1 & Hc & Hr). apply IH in Hr as (new & Hs & E).
    apply Tx_bind_Ok in Hc as (id & w2 & [-> ->]%randomUUID_Ok & Hc).
    apply Tx_bind_Ok in Hc as (pid & w3 & [-> ->]%randomUUID_Ok & [_ Hc]%createRow_Ok).
    cbn [w_db tick rows Table_CardBreak] in *. eexists (_ :: new). split; [constructor; [|exact Hs]|].
    2: { rewrite E, Hc. destruct (w_db w). cbn. by rewrite <- app_assoc. }
    by split_and!.
Qed.

Lemma replaceCardBreaks_Ok tenantId cardId intervals u w w' :
  replaceCardBreaks tenantId cardId intervals w = (Ok u, w') ->
  exists breaks, breaksCorrected tenantId cardId (Some intervals) (db_cardBreaks (w_db w)) breaks /\
    w_db w' = withRows breaks (w_db w).
Proof.
  unfold replaceCardBreaks. intros Hr. pass_current Hr. apply Tx_bind_Ok in Hr as (? & w1 & E1%deleteMany_Ok & Hr).
  pass_current Hr. cbn [w_db tick rows Table_CardBreak] in *.
  destruct intervals as [|i intervals].
  - apply Tx_ret_Ok in Hr as [_ <-]. eexists. split; [exists []; split; [constructor|done]|].
    by rewrite app_nil_r.
  - pass_current Hr. apply Tx_bind_Ok in Hr as (? & w2 & (new & Hs & E2)%createCardBreaks_Ok & [_ ->]%assertCurrent_Ok).
    cbn [w_db tick] in *. eexists. split; [exists new; split; [exact Hs|done]|]. rewrite E2, E1. by destruct (w_db w).
Qed.

Lemma asExpected_true tenantId card expected c :
  asExpected tenantId card expected c = true -> tc_id c = tc_id card /\ tc_updatedAt c = expected.
Proof. unfold asExpected. rewrite !andb_true_iff, !bool_decide_eq_true. intros ((((? & ?) & ?) & ?%Z.eqb_eq) & ?). done. Qed.

(** The writes, once the checks were passed. *)
Lemma applyCorrection_Ok publicId v assignment periods card current r w w' :
  cardsKeyed (w_db w) ->
  List.find (scopedCard current publicId true) (db_timeCards (w_db w)) = Some (ic_row card) ->
  applyCorrection publicId v assignment periods card current w = (Ok r, w') ->
  tc_updatedAt (ic_row card) = vc_expectedUpdatedAt v /\
  (forall id out, id <> "" -> pa_payrollPeriodId assignment = Some id -> vc_clockOutAt v = Some out ->
    exists pw, pw ∈ periods /\ pw_id pw = id /\ out <= pw_endsAt pw) /\
  (exists updatedAt a breaks,
    breaksCorrected (si_tenantId current) (tc_id (ic_row card)) (vc_breakIntervals v) (db_cardBreaks (w_db w)) breaks /\
    w_db w' = auditAppended (withRows (R := TimeCardBreak) breaks (w_db w))
      (replaceRow tc_id (tc_id (ic_row card)) (correctCard v assignment updatedAt) (db_timeCards (w_db w))) a) /\
  tr_id r = lowerText publicId /\ tr_status r = vc_status v /\ tr_clockInAt r = toISOString (vc_clockInAt v) /\
  tr_clockOutAt r = toISOString <$> vc_clockOutAt v /\ tr_breakMinutes r = vc_breakMinutes v /\
  tr_revision r = tc_revision (ic_row card) + 1.
Proof.
  intros Hk [Hrow (Ht & Hp & Hd & Hu)%scopedCard_true]%find_some_elem. unfold applyCorrection, timeCardProblem.
  set (row := ic_row card) in *. intros (updatedAt & w1 & [_ ->]%now_Ok & Hr)%Tx_bind_Ok.
  apply Tx_bind_Ok in Hr as (count & w2 & [-> E2]%updateMany_Ok & Hr). pass_current Hr.
  cbn [w_db tick rows Table_TimeCard] in *.
  destruct (negb _) eqn:Ecount in Hr; [by apply liftResult_Ok in Hr as [? _]|]. apply negb_false_iff, Nat.eqb_eq in Ecount.
  destruct (update_one tc_id _ (correctCard v assignment updatedAt) _ row (ck_ids _ Hk) Hrow
    (fun c Hc => proj1 (asExpected_true _ _ _ _ Hc)) Ecount) as [[_ Hexp]%asExpected_true Eupd].
  rewrite Eupd in E2. set (cards := replaceRow _ _ _ _) in E2.
  apply Tx_bind_Ok in Hr as (? & w3 & Hb & Hr).
  assert (Hbreaks : exists breaks, breaksCorrected (si_tenantId current) (tc_id row) (vc_breakIntervals v) (db_cardBreaks (w_db w)) breaks /\
    w_db w3 = withRows (R := TimeCardBreak) breaks (withRows (R := TimeCard) cards (w_db w))).
  { destruct (vc_breakIntervals v) as [intervals|].
    - apply replaceCardBreaks_Ok in Hb as (breaks & Hb & E3). cbn [w_db tick] in *. exists breaks. rewrite E3, E2. split; [|done].
      rewrite E2 in Hb. by destruct (w_db w).
    - apply Tx_ret_Ok in Hb as [_ <-]. cbn [w_db tick]. eexists. split; [reflexivity|]. rewrite E2. by destruct (w_db w). }
  destruct Hbreaks as (breaks & Hbreaks & E3). clear Hb.
  apply Tx_bind_Ok in Hr as (result & w4 & (E4 & Hf4 & _)%findScopedTimeCard_Ok & Hr). pass_current Hr.
  apply Tx_bind_Ok in Hr as (? & w5 & [Hcut <-]%liftResult_Ok & Hr). pass_current Hr.
  apply Tx_bind_Ok in Hr as (? & w6 & (a & _ & _ & _ & _ & _ & _ & E6)%auditCard_Ok & Hr). pass_current Hr.
  apply serialize_Ok in Hr as (E7 & nowMs & Hser). cbn [w_db tick] in *.
  assert (Ecards : db_timeCards (w_db w3) = cards) by (rewrite E3; by destruct (w_db w)).
  rewrite Ecards in Hf4.
  assert (Eres : ic_row result = correctCard v assignment updatedAt row).
  { eapply (rescoped current publicId (w_db w) cards); [done| | |..|exact Hf4|reflexivity]; try done.
    - by apply replaceRow_keys.
    - by apply replaceRow_elem. }
  apply serializeTimeCard_Ok in Hser. cbv zeta in Hser. rewrite Eres in Hser, Hcut.
  cbn [correctCard tc_publicId tc_status tc_clockInAt tc_clockOutAt tc_breakMinutes tc_revision tc_payrollPeriodId] in Hser, Hcut.
  destruct Hser as (_ & _ & R1 & R2 & R3 & R4 & R5 & R6 & _ & _).
  split; [done|]. split; [|split; [|rewrite Hp in R1; by split_and!]].
  - intros id out Hne Eid Eout. rewrite Eid, Eout in Hcut. unfold truthy, isEmpty in Hcut.
    rewrite bool_decide_false in Hcut by done. by apply assertClockOutWithinPayrollPeriod_Ok in Hcut.
  - exists updatedAt, a, breaks. split; [done|]. rewrite E7, E6, E4, E3. unfold auditAppended. by destruct (w_db w).
Qed.

Lemma assertNoOverlap_Ok tenantId userId cardId clockInAt clockOutAt u w w' :
  assertNoOverlap tenantId userId cardId clockInAt clockOutAt w = (Ok u, w') ->
  w_db w' = w_db w /\ forall c, c ∈ db_timeCards (w_db w) -> overlapsCard tenantId userId cardId clockInAt clockOutAt c = false.
Proof.
  unfold assertNoOverlap, timeCardProblem. intros (o & w1 & [-> E]%findFirst_Ok & Hr)%Tx_bind_Ok.
  cbn [rows Table_TimeCard] in Hr. destruct (List.find _ _) as [c|] eqn:Ef; [by apply liftResult_Ok in Hr as [? _]|].
  apply Tx_ret_Ok in Hr as [_ <-]. split; [done|]. intros c Hc. eapply find_none in Ef; [done|]. by apply list_elem_of_In.
Qed.

Lemma correctInScope_Ok publicId body current r w w' :
  cardsKeyed (w_db w) -> policiesKeyed (w_db w) -> correctInScope publicId body current w = (Ok r, w') ->
  exists card nowMs v assignment, Corrected current publicId body r (w_db w) (w_db w') card nowMs v assignment.
Proof.
  intros Hk Hpk. unfold correctInScope, timeCardProblem, voided, invalidTimeCardInput.
  destruct (canViewTeam current) eqn:Eteam; cbn [negb]; [|by intros [? _]%liftResult_Ok].
  intros (? & w1 & E1%(ReadOnly_Ok _ _ _ _ (assertFeatureEntitled_ReadOnly _ _ _)) & Hr)%Tx_bind_Ok. pass_current Hr.
  apply Tx_bind_Ok in Hr as (initial & w2 & (E2 & Hf2 & Hs2)%findScopedTimeCard_Ok & Hr). pass_current Hr.
  cbn [w_db tick] in *. rewrite E1 in Hf2, Hs2, E2.
  case_bool_decide as Evoid; [by apply liftResult_Ok in Hr as [? _]|].
  apply Tx_bind_Ok in Hr as (nowMs & w3 & [_ ->]%now_Ok & Hr).
  apply Tx_bind_Ok in Hr as (v & w4 & [Hv <-]%liftResult_Ok & Hr).
  apply Tx_bind_Ok in Hr as (assignment & w5 & [E5 Ha]%resolveTimeCardPayrollAssignment_Ok & Hr);
    [|cbn [w_db tick]; by rewrite E2].
  apply Tx_bind_Ok in Hr as (periods & w6 & (E6 & Hlock & Hwin)%lockTimeCardPayrollContext_Ok & Hr).
  apply Tx_bind_Ok in Hr as (card & w7 & (E7 & Hf7 & Hs7)%findScopedTimeCard_Ok & Hr). pass_current Hr.
  cbn [w_db tick] in *. rewrite E2 in Ha. assert (Ew5 : w_db w5 = w_db w) by congruence.
  assert (Ew6 : w_db w6 = w_db w) by congruence. rewrite Ew6 in Hf7, Hs7. rewrite Ew5 in Hlock, Hwin.
  rewrite Hf2 in Hf7. injection Hf7 as Erow. rewrite <- Erow, Hs2 in Hs7. injection Hs7 as <-.
  case_bool_decide as Evoid2; [by apply liftResult_Ok in Hr as [? _]|]. clear Evoid2 Erow.
  apply Tx_bind_Ok in Hr as (? & w8 & [E8 _]%assertNoOverlap_Ok & Hr). pass_current Hr. cbn [w_db tick] in *.
  assert (Ew8 : w_db w8 = w_db w) by congruence.
  apply applyCorrection_Ok in Hr as (Hexp & Hcut & Hdb & Hresp); cbn [w_db tick]; rewrite ?Ew8; [|done|done].
  cbn [w_db tick] in Hdb. rewrite Ew8 in Hdb.
  pose proof Hf2 as [Hrow (Ht & Hp & Hd & Hu)%scopedCard_true]%find_some_elem.
  exists initial, nowMs, v, assignment. split; try done.
  - by apply validateTimeCardCorrection_Ok.
  - intros id Hne Hid. apply Hlock; [done|]. set_solver.
  - intros id out Hne Hid Hout. destruct (Hcut id out Hne Hid Hout) as (pw & Hpw & Hpid & Hle).
    apply Hwin in Hpw as (period & Hin & Hpt & ->). by exists period.
Qed.
End CorrectFacts.
