(* ===== verification/TimeCardClockIn.v ===== *)
(** * What clocking in does

    The outcome of [clockIn] of apps/api-v2/src/time/time-cards.service.ts: a
    key creates one card and takes one credit, whatever is retried or lost. *)

From S2P Require Import Prelude JsStd JsCollections JsDate ContractHelpers TimeZone PayrollRecords.
From S2P Require Import Database FeatureEntitlement Authority ScheduleStore.
From S2P Require Import TimeCardValidation TimeCardPayroll TimeCardStore TimeCards.

(** ** Reading the request *)

Section Reading.
Context `{Env, Process, Intl, Sha256}.

Lemma foundOr_Ok {A} detail (m : Tx (option A)) a w w' :
  foundOr detail m w = (Ok a, w') -> m w = (Ok (Some a), w').
Proof.
  unfold foundOr, invalidTimeCardInput. intros ([x|] & w1 & Hm & Hr)%Tx_bind_Ok; [|by apply liftResult_Ok in Hr as [? _]].
  by apply Tx_ret_Ok in Hr as [<- <-].
Qed.

Lemma foundFirst_Ok {R} `{Table R} detail p (a : R) w w' :
  foundOr detail (findFirst p) w = (Ok a, w') -> w_db w' = w_db w /\ a ∈ rows (w_db w) /\ p a = true.
Proof. intros [E Hf]%foundOr_Ok%findFirst_Ok. split; [done|]. apply find_some_elem. by symmetry. Qed.

Lemma optionally_ReadOnly {A} value (f : string -> Tx A) : (forall s, ReadOnly (f s)) -> ReadOnly (optionally value f).
Proof.
  intros Hf. unfold optionally. destruct (truthy value) as [s|]; [|apply ReadOnly_ret].
  apply ReadOnly_bind; [apply Hf|intros a; apply ReadOnly_ret].
Qed.

Lemma optionally_Ok {A} value (f : string -> Tx A) r w w' :
  optionally value f w = (Ok r, w') ->
  match truthy value with Some s => exists a, f s w = (Ok a, w') /\ r = Some a | None => r = None /\ w' = w end.
Proof.
  unfold optionally. destruct (truthy value) as [s|]; [|by intros [<- <-]%Tx_ret_Ok].
  intros (a & w1 & Hf & [<- <-]%Tx_ret_Ok)%Tx_bind_Ok. by exists a.
Qed.

Lemma resolveShift_ReadOnly tenantId publicId userId : ReadOnly (resolveShift tenantId publicId userId).
Proof.
  unfold resolveShift. apply ReadOnly_bind; [apply foundOr_ReadOnly, ReadOnly_findFirst|intros s].
  apply ReadOnly_if; [apply ReadOnly_lift|apply ReadOnly_ret].
Qed.

Lemma identifyClockIn_ReadOnly body requested notes current target :
  ReadOnly (identifyClockIn body requested notes current target).
Proof.
  unfold identifyClockIn, resolveClockInTargetForReplay, resolveLocationForReplay, resolveShiftForReplay.
  repeat (apply ReadOnly_bind; [auto with readonly|intros ?]). apply ReadOnly_if; [apply ReadOnly_lift|].
  repeat (apply ReadOnly_bind; [auto using optionally_ReadOnly with readonly|intros ?]). apply ReadOnly_ret.
Qed.

Lemma resolveClockIn_ReadOnly tenantId publicId body : ReadOnly (resolveClockIn tenantId publicId body).
Proof.
  unfold resolveClockIn, readActiveClockInTarget, resolveLocation, resolveLocationByInternalId.
  apply ReadOnly_bind; [auto with readonly|intros user]. apply ReadOnly_bind; [auto with readonly|intros _].
  apply ReadOnly_bind; [apply optionally_ReadOnly; intros; apply resolveShift_ReadOnly|intros shift].
  apply ReadOnly_bind; [auto with readonly|intros _]. apply ReadOnly_bind; [|intros location].
  { destruct (truthy _), shift; auto 8 with readonly. }
  apply ReadOnly_bind; [auto with readonly|intros _]. destruct shift, location; auto with readonly.
Qed.

Lemma locateTarget_ReadOnly identity body : ReadOnly (locateTarget identity body).
Proof. unfold locateTarget. destruct (truthy _); auto with readonly. Qed.

Lemma assertRequestScope_Ok body current u :
  assertRequestScope body current = Ok u ->
  canViewTeam current = true \/
  default (si_publicUserId current) (ci_userId body) = si_publicUserId current /\ ci_clockInAt body = None.
Proof.
  unfold assertRequestScope, writableTargetPublicId, timeCardProblem. destruct (canViewTeam current); [by left|right].
  cbn [negb andb] in *. destruct (bool_decide _) eqn:E; [|done]. bools. split; [done|].
  by destruct (ci_clockInAt body).
Qed.

Lemma identifyClockIn_Ok body requested notes current target publicId hash w w' :
  identifyClockIn body requested notes current target w = (Ok (publicId, hash), w') ->
  assertRequestScope body current = Ok tt /\ publicId = default (si_publicUserId current) (ci_userId body) /\
  exists user location shift, user ∈ db_users (w_db w) /\ userNamed (si_tenantId current) publicId user = true /\
    target = Some (us_id user) /\
    hash = clockInRequestHash (si_sub current) (us_id user) location shift (toISOString <$> requested) notes.
Proof.
  unfold identifyClockIn, resolveClockInTargetForReplay. intros ([] & w1 & [Hscope <-]%liftResult_Ok & Hr)%Tx_bind_Ok.
  apply Tx_bind_Ok in Hr as (pid & w2 & [Hpid <-]%liftResult_Ok & Hr).
  apply Tx_bind_Ok in Hr as (user & w3 & (E3 & Hin & Hu)%foundFirst_Ok & Hr). pass_current Hr.
  destruct (negb _) eqn:Et; [by apply liftResult_Ok in Hr as [? _]|]. apply negb_false_iff, bool_decide_eq_true in Et.
  apply Tx_bind_Ok in Hr as (loc & w4 & _ & Hr). pass_current Hr. apply Tx_bind_Ok in Hr as (shift & w5 & _ & Hr). pass_current Hr.
  apply Tx_ret_Ok in Hr as [Epair _]. injection Epair as -> <-.
  unfold writableTargetPublicId, timeCardProblem in Hpid. destruct (_ && _); [done|]. injection Hpid as <-.
  split; [done|]. split; [done|]. exists user, (lo_id <$> loc), (sh_id <$> shift). by split_and!.
Qed.
End Reading.

(** ** A card is created *)

Definition clockInReason (cardId : string) : string := "Time card clock-in (" +:+ cardId +:+ ")".

(** The target of a new card, as the request and the actor's permissions allow. *)
Definition mayClockIn (current : SessionIdentity) (body : ClockInRequest) (user : User) (db : Db) : Prop :=
  user ∈ db_users db /\ us_tenantId user = si_tenantId current /\ activeWorker user = true /\
  us_publicId user = lowerText (default (si_publicUserId current) (ci_userId body)) /\
  (canViewTeam current = true \/ us_publicId user = lowerText (si_publicUserId current) /\ ci_clockInAt body = None) /\
  (forall c, c ∈ db_timeCards db -> openCardOf (si_tenantId current) (us_id user) c = false).

(** The row of a new card. *)
Definition newCard (tenantId operation requestHash : string) (user : User) (notes : option string)
    (assignment : TimeCardPayrollAssignment) (card : TimeCard) : Prop :=
  tc_tenantId card = tenantId /\ tc_userId card = us_id user /\ tc_clockInOperationId card = Some operation /\
  tc_clockInRequestHash card = Some requestHash /\ tc_clockOutAt card = None /\
  tc_payrollPeriodId card = pa_payrollPeriodId assignment /\ tc_workTimeZone card = pa_workTimeZone assignment /\
  tc_revision card = 1 /\ tc_breakMinutes card = 0 /\ tc_notes card = notes /\ tc_status card = OPEN /\ tc_deletedAt card = None.

(** One card, one credit, one audit row. *)
Record ClockedIn `{Intl} (current : SessionIdentity) (operation requestHash : string) (body : ClockInRequest)
    (requestedClockInAt : option Z) (notes : option string) (r : ClockInResponse) (db db' : Db)
    (card : TimeCard) : Prop := mkClockedIn {
  cn_fresh : existsb (conflicts card) (db_timeCards db) = false;
  cn_target : exists user location assignment, mayClockIn current body user db /\
    newCard (si_tenantId current) operation requestHash user notes assignment card /\
    AssignedTo (si_tenantId current) (tc_clockInAt card) location db assignment;
  cn_instant : forall t, requestedClockInAt = Some t -> tc_clockInAt card = t;
  cn_written : exists paid a balance,
    (replayed ("feature-usage-" +:+ operation) (si_tenantId current) (clockInReason (tc_id card)) 1 balance
       (withRows (R := TimeCard) (db_timeCards db ++ [card]) db) paid \/
     debited ("feature-usage-" +:+ operation) (si_tenantId current) (clockInReason (tc_id card)) 1 balance
       (withRows (R := TimeCard) (db_timeCards db ++ [card]) db) paid) /\
    db' = withRows (db_audits db ++ [a]) paid;
  cn_response : ck_reused r = false /\ tr_id (ck_data r) = tc_publicId card /\ tr_status (ck_data r) = OPEN;
}.

(** A debit changes wallets and the ledger only. *)
Lemma debit_only_money id tenantId reason cost r db paid :
  replayed id tenantId reason cost r db paid \/ debited id tenantId reason cost r db paid ->
  exists ts cs, paid = withRows (R := CreditTransaction) cs (withRows (R := Tenant) ts db).
Proof.
  intros [(row & _ & _ & _ & ->)|(_ & _ & _ & _ & ->)]; [|by eexists _, _].
  exists (db_tenants db), (db_credits db). by destruct db.
Qed.

Lemma debit_ledger id tenantId reason cost r db paid :
  replayed id tenantId reason cost r db paid \/ debited id tenantId reason cost r db paid ->
  db_credits db `prefix_of` db_credits paid.
Proof.
  intros [(row & _ & _ & _ & ->)|(_ & _ & _ & _ & ->)]; [done|]. destruct db. cbn. by apply prefix_app_r.
Qed.

Section Creating.
Context `{Env, Process, Intl, Sha256}.

Lemma resolveClockIn_Ok tenantId publicId body user shift location w w' :
  resolveClockIn tenantId publicId body w = (Ok (user, shift, location), w') ->
  w_db w' = w_db w /\ user ∈ db_users (w_db w) /\ userNamed tenantId publicId user = true /\ activeWorker user = true.
Proof.
  intros Hr. split; [by eapply ReadOnly_Ok, Hr; apply resolveClockIn_ReadOnly|].
  unfold resolveClockIn, readActiveClockInTarget in Hr.
  apply Tx_bind_Ok in Hr as (target & w1 & (_ & Hin & Hu)%foundFirst_Ok & Hr). pass_current Hr.
  apply Tx_bind_Ok in Hr as (s & w2 & _ & Hr). pass_current Hr.
  apply Tx_bind_Ok in Hr as (l & w3 & _ & Hr). pass_current Hr.
  assert (E : target = user).
  { destruct s, l; try (by apply Tx_ret_Ok in Hr as [[= <- _ _] _]).
    destruct (negb _); [by apply liftResult_Ok in Hr as [? _]|by apply Tx_ret_Ok in Hr as [[= <- _ _] _]]. }
  subst target. by apply andb_true_iff in Hu as [? ?].
Qed.

Lemma createCard_Ok tenantId userId operation hash location shift clockInAt payroll notes created w w' :
  createCard tenantId userId operation hash location shift clockInAt payroll notes w = (Ok created, w') ->
  exists id publicId at_,
    let card := mkTimeCard id publicId tenantId userId (lo_id <$> location) (sh_id <$> shift) (Some operation)
                  (Some hash) clockInAt None (pa_payrollPeriodId payroll) (pa_workTimeZone payroll) 1 0 notes OPEN
                  at_ at_ None in
    ic_row created = card /\ existsb (conflicts card) (db_timeCards (w_db w)) = false /\
    w_db w' = withRows (R := TimeCard) (db_timeCards (w_db w) ++ [card]) (w_db w).
Proof.
  unfold createCard. intros (id & w1 & [-> ->]%randomUUID_Ok & Hr)%Tx_bind_Ok.
  apply Tx_bind_Ok in Hr as (pid & w2 & [-> ->]%randomUUID_Ok & Hr).
  apply Tx_bind_Ok in Hr as (at_ & w3 & [-> ->]%now_Ok & Hr).
  apply Tx_bind_Ok in Hr as (? & w4 & [Hc E4]%createRow_Ok & Hr). cbn [w_db tick rows Table_TimeCard] in *.
  apply query_Ok in Hr as (_ & db & Hs & ->). destruct (selectCard _ _) as [ic|e] eqn:Es; [|done].
  injection Hs as <- <-. eexists _, _, _. cbv zeta. split; [by eapply selectCard_row|]. by split.
Qed.

Lemma chargeClockIn_Ok current operation hash body requested notes r w w' :
  policiesKeyed (w_db w) -> assertRequestScope body current = Ok tt ->
  chargeClockIn current (default (si_publicUserId current) (ci_userId body)) operation hash body requested notes w = (Ok r, w') ->
  exists card, ClockedIn current operation hash body requested notes r (w_db w) (w_db w') card.
Proof.
  intros Hk Hscope. unfold chargeClockIn, timeCardProblem, invalidTimeCardInput.
  intros ([[user shift] location] & w1 & (E1 & Hin & Hu & Hactive)%resolveClockIn_Ok & Hr)%Tx_bind_Ok.
  apply Tx_bind_Ok in Hr as (granted & w2 & [E2 ->]%assertFeatureEntitled_Ok & Hr). pass_current Hr.
  apply Tx_bind_Ok in Hr as (open & w3 & [Hopen E3]%findFirst_Ok & Hr). pass_current Hr.
  cbn [w_db tick rows Table_TimeCard] in *. rewrite E2, E1 in Hopen.
  destruct open as [o|]; cbn [isPresent] in Hr; [by apply liftResult_Ok in Hr as [? _]|].
  apply Tx_bind_Ok in Hr as (clockInAt & w4 & Hat & Hr).
  assert (H4 : w_db w4 = w_db w3 /\ forall t, requested = Some t -> clockInAt = t).
  { destruct requested; [apply Tx_ret_Ok in Hat as [<- <-]|apply now_Ok in Hat as [-> ->]]; split; try done. by intros t [= <-]. }
  destruct H4 as [E4 Hreq]. assert (Ew4 : w_db w4 = w_db w) by congruence.
  apply Tx_bind_Ok in Hr as (payroll & w5 & [E5 Ha]%resolveTimeCardPayrollAssignment_Ok & Hr); [|by rewrite Ew4].
  pass_current Hr. cbn [w_db tick] in *. rewrite Ew4 in *.
  apply Tx_bind_Ok in Hr as (created & w6 & (id & pid & at_ & Hcard)%createCard_Ok & Hr). cbv zeta in Hcard.
  set (card := mkTimeCard _ _ _ _ _ _ _ _ _ _ _ _ _ _ _ _ _ _ _) in Hcard.
  destruct Hcard as (Erow & Hc & E6). pass_current Hr. cbn [w_db tick] in *. rewrite E5 in Hc, E6.
  rewrite Erow in Hr. apply Tx_bind_Ok in Hr as (balance & w7 & Hd & Hr).
  apply (debit_cases _ ReadOnly_current) in Hd. cbn [default en_creditCost w_db tick] in Hd. rewrite E6 in Hd. pass_current Hr.
  apply Tx_bind_Ok in Hr as (? & w8 & (a & _ & _ & _ & _ & _ & _ & E8)%auditCard_Ok & Hr). pass_current Hr.
  apply Tx_bind_Ok in Hr as (data & w9 & (E9 & nowMs & Hser)%serialize_Ok & [<- <-]%Tx_ret_Ok). cbn [w_db tick] in *.
  apply serializeTimeCard_Ok in Hser. cbv zeta in Hser. rewrite Erow in Hser. destruct Hser as (_ & _ & R1 & R2 & _).
  unfold userNamed in Hu. rewrite andb_true_iff, !bool_decide_eq_true in Hu. destruct Hu as [Hut Hup].
  exists card. split.
  - done.
  - eexists user, _, payroll. split; [|split; [|exact Ha]].
    + split_and!; try done.
      * apply assertRequestScope_Ok in Hscope as [?|[Eown ?]]; [by left|right]. split; congruence.
      * intros c Hcin. destruct (openCardOf _ _ c) eqn:Eo; [|done]. symmetry in Hopen.
        eapply find_none in Hopen; [|by apply list_elem_of_In]. unfold si_tenantId in *. congruence.
    + by split_and!.
  - done.
  - exists (w_db w7), a, balance. split; [exact Hd|]. rewrite E9, E8. f_equal.
    destruct (debit_only_money _ _ _ _ _ _ _ Hd) as (ts & cs & ->). by destruct (w_db w).
  - by split_and!.
Qed.
End Creating.

(** ** The outcome of a request *)

(** The stored card of the key answered the request. *)
Definition ClockInReplayed (tenantId operation requestHash : string) (r : ClockInResponse) (db : Db) (card : TimeCard) : Prop :=
  card ∈ db_timeCards db /\ tc_tenantId card = tenantId /\ tc_clockInOperationId card = Some operation /\
  tc_clockInRequestHash card = Some requestHash /\ ck_reused r = true /\ tr_id (ck_data r) = tc_publicId card.

Section Outcome.
Context `{Env, Process, Intl, Sha256}.

Lemma cardOfOperation_true operation c : cardOfOperation operation c = true <-> tc_clockInOperationId c = Some operation.
Proof. unfold cardOfOperation. apply bool_decide_eq_true. Qed.

Lemma find_operation db operation card :
  cardsKeyed db -> card ∈ db_timeCards db -> tc_clockInOperationId card = Some operation ->
  List.find (cardOfOperation operation) (db_timeCards db) = Some card.
Proof.
  intros Hk Hin Ho. destruct (List.find _ _) as [c|] eqn:Ef.
  - apply find_some_elem in Ef as [Hc Hop%cardOfOperation_true]. f_equal.
    apply (ck_operations _ Hk); [done..|by rewrite Hop|congruence].
  - eapply find_none in Ef; [|by apply list_elem_of_In]. apply cardOfOperation_true in Ho. congruence.
Qed.

Lemma settleClockIn_Ok current operation hash body requested notes r w w' :
  policiesKeyed (w_db w) -> assertRequestScope body current = Ok tt ->
  settleClockIn current (default (si_publicUserId current) (ci_userId body)) operation hash body requested notes w = (Ok r, w') ->
  w_db w' = w_db w /\ (exists card, ClockInReplayed (si_tenantId current) operation hash r (w_db w) card) \/
  (forall card, card ∈ db_timeCards (w_db w) -> tc_tenantId card = si_tenantId current ->
     tc_clockInOperationId card <> Some operation) /\
  exists card, ClockedIn current operation hash body requested notes r (w_db w) (w_db w') card.
Proof.
  intros Hk Hscope. unfold settleClockIn. intros (replay & w1 & [E1 Hf]%findClockInReplay_Ok & Hr)%Tx_bind_Ok.
  pass_current Hr. destruct (List.find _ _) as [c|] eqn:Ef.
  - case_bool_decide as Et.
    + left. destruct Hf as (card & -> & Hs & Hh).
      apply Tx_bind_Ok in Hr as (data & w2 & (E2 & t & Hser)%serialize_Ok & [<- <-]%Tx_ret_Ok).
      cbn [w_db tick] in *. split; [congruence|]. apply serializeTimeCard_Ok in Hser. cbv zeta in Hser.
      rewrite (selectCard_row _ _ _ Hs) in Hser. apply find_some_elem in Ef as [Hin Hop%cardOfOperation_true].
      exists c. split_and!; try done. by destruct Hser as (_ & _ & ? & _).
    + right. subst replay. apply chargeClockIn_Ok in Hr as [card Hr]; [|by cbn [w_db tick]; rewrite E1|done].
      cbn [w_db tick] in Hr. rewrite E1 in Hr. destruct Hr as [Hfresh Htarget _ _ _].
      (* the index on the operation forbids a second card of the key, whatever its tenant *)
      exfalso. apply find_some_elem in Ef as [Hin Hop%cardOfOperation_true].
      destruct Htarget as (user & loc & asg & _ & Hn & _). destruct Hn as (_ & _ & Ho & _).
      apply not_true_iff_false in Hfresh. apply Hfresh, existsb_exists. exists c. split; [by apply list_elem_of_In|].
      cbn [conflicts Table_TimeCard]. rewrite Ho, Hop. rewrite (bool_decide_true (is_Some _)) by done.
      rewrite (bool_decide_true (Some operation = _)) by done. cbn. by rewrite orb_true_r.
  - right. subst replay. apply chargeClockIn_Ok in Hr as [card Hr]; [|by cbn [w_db tick]; rewrite E1|done].
    cbn [w_db tick] in Hr. rewrite E1 in Hr. split; [|by exists card].
    intros c Hin _ Hop. eapply find_none in Ef; [|by apply list_elem_of_In]. apply cardOfOperation_true in Hop. congruence.
Qed.

(** The hash of the request, as some actor of the tenant made it. *)
Definition requestHashed (tenantId : string) (body : ClockInRequest) (requested : option Z) (notes : option string)
    (hash : string) : Prop :=
  exists actor user location shift,
    hash = clockInRequestHash actor user location shift (toISOString <$> requested) notes.

Lemma clockInAttempt_run operation body requested notes current target w v r w' v' :
  policiesKeyed (w_db w) ->
  clockInAttempt operation body requested notes current target (w, v) = (r, (w', v')) ->
  (v' = v /\ (exists e, r = Throw e) \/
   exists hash, v' = Some hash /\ requestHashed (si_tenantId current) body requested notes hash /\
     match r with
     | Ok a => w_db w' = w_db w /\ (exists card, ClockInReplayed (si_tenantId current) operation hash a (w_db w) card) \/
         (forall card, card ∈ db_timeCards (w_db w) -> tc_tenantId card = si_tenantId current ->
           tc_clockInOperationId card <> Some operation) /\
         exists card, ClockedIn current operation hash body requested notes a (w_db w) (w_db w') card
     | Throw _ => True
     end).
Proof.
  intros Hk. unfold clockInAttempt, mbind, Held_bind, held.
  destruct (identifyClockIn body requested notes current target w) as [[[pid hash]|e] w1] eqn:Ei;
    [|intros [= <- <- <-]; left; by eauto].
  pose proof (ReadOnly_Ok _ _ _ _ (identifyClockIn_ReadOnly _ _ _ _ _) Ei) as E1.
  apply identifyClockIn_Ok in Ei as (Hscope & -> & user & loc & shift & _ & _ & _ & Hh).
  cbn [assign]. destruct (settleClockIn _ _ _ _ _ _ _ w1) as [rs ws] eqn:Es. intros [= <- <- <-]. right.
  exists hash. split; [done|]. split; [by exists (si_sub current), (us_id user), loc, shift|].
  destruct rs as [a|e]; [|done]. apply settleClockIn_Ok in Es; [|by rewrite E1|done]. by rewrite E1 in Es.
Qed.

Lemma recoverClockIn_Ok operation body current target w v r w' v' :
  recoverClockIn operation body current target (w, v) = (Ok r, (w', v')) ->
  w_db w' = w_db w /\ v' = v /\
  match r with
  | Some a => exists hash card, v = Some hash /\ ClockInReplayed (si_tenantId current) operation hash a (w_db w) card
  | None => True
  end.
Proof.
  unfold recoverClockIn, timeCardProblem. intros (? & s1 & (w1 & [_ <-]%liftResult_Ok & ->)%held_Ok & Hr)%Held_bind_Ok.
  apply Held_bind_Ok in Hr as (row & s2 & (w2 & [E2 Hf]%findCard_Ok & ->)%held_Ok & Hr).
  apply Held_bind_Ok in Hr as (? & s3 & (w3 & [_ ->]%assertCurrent_Ok & ->)%held_Ok & Hr).
  apply Held_bind_Ok in Hr as (expected & s4 & Hv & Hr). cbn [readVar] in Hv. injection Hv as <- <-.
  assert (Hnone : forall y : option ClockInResponse, (mret y : Held (option string) _) (tick w2, v) = (Ok r, (w', v')) ->
    r = y /\ w_db w' = w_db w /\ v' = v) by (intros y [= <- <- <-]; done).
  destruct row as [card|]; [|apply Hnone in Hr as (-> & ? & ?); by split_and!].
  destruct (truthy v) as [h|] eqn:Ev; [|apply Hnone in Hr as (-> & ? & ?); by split_and!].
  destruct (List.find _ _) as [c|] eqn:Ef; [|done]. destruct Hf as (ic & [= <-] & Hs).
  rewrite (selectCard_row _ _ _ Hs) in Hr.
  case_bool_decide as Et; cbn [negb] in Hr; [|apply Hnone in Hr as (-> & ? & ?); by split_and!].
  case_bool_decide as Eh; cbn [negb] in Hr; [|by apply held_Ok in Hr as (? & [? _]%liftResult_Ok & _)].
  apply Held_bind_Ok in Hr as (data & s5 & (w5 & (E5 & t & Hser)%serialize_Ok & ->)%held_Ok & Hr).
  injection Hr as <- <- <-. cbn [w_db tick] in *. split; [congruence|]. split; [done|].
  exists h, c. split.
  - unfold truthy in Ev. destruct v as [hv|]; [|done]. destruct (isEmpty hv); [done|congruence].
  - apply serializeTimeCard_Ok in Hser. cbv zeta in Hser. rewrite (selectCard_row _ _ _ Hs) in Hser.
    apply find_some_elem in Ef as [Hin Hop%cardOfOperation_true]. split_and!; try done. by destruct Hser as (_ & _ & ? & _).
Qed.
End Outcome.

(** What a request may do to the database and what it may answer. *)
Inductive ClockInOutcome `{Intl, Sha256} (tenantId operation : string) (body : ClockInRequest) (requested : option Z)
    (notes : option string) (db : Db) : Result ClockInResponse -> Db -> Prop :=
  | clockIn_refused e : ClockInOutcome tenantId operation body requested notes db (Throw e) db
  | clockIn_replayed hash r card :
      requestHashed tenantId body requested notes hash -> ClockInReplayed tenantId operation hash r db card ->
      ClockInOutcome tenantId operation body requested notes db (Ok r) db
  | clockIn_created current hash r card db' :
      si_tenantId current = tenantId -> requestHashed tenantId body requested notes hash ->
      ClockedIn current operation hash body requested notes r db db' card ->
      cardsExclusive (db_timeCards db') = true ->
      ClockInOutcome tenantId operation body requested notes db (Ok r) db'
  | clockIn_lost current hash r0 card db' r :
      si_tenantId current = tenantId -> requestHashed tenantId body requested notes hash ->
      ClockedIn current operation hash body requested notes r0 db db' card ->
      cardsExclusive (db_timeCards db') = true ->
      (forall a, r = Ok a -> exists hash2 card2, ClockInReplayed tenantId operation hash2 a db' card2) ->
      ClockInOutcome tenantId operation body requested notes db r db'.

Section Whole.
Context `{Env, Process, AuthorityEnv, CommitEnv, Intl, Sha256}.

#[local] Notation hashed identity body requested notes :=
  (fun v : option string => forall h, v = Some h -> requestHashed (si_tenantId identity) body requested notes h).

(** The first scope of the request. *)
Lemma clockIn_scope identity operation body requested notes w r w' v' :
  policiesKeyed (w_db w) ->
  timeScopeHeld identity (locateTarget identity body) (clockInAttempt operation body requested notes) (w, None) = (r, (w', v')) ->
  hashed identity body requested notes v' /\
  (w_db w' = w_db w /\ (forall a, r = Ok a -> exists hash card, requestHashed (si_tenantId identity) body requested notes hash /\
     ClockInReplayed (si_tenantId identity) operation hash a (w_db w) card) \/
   exists current hash r0 card, si_tenantId current = si_tenantId identity /\
     requestHashed (si_tenantId identity) body requested notes hash /\
     ClockedIn current operation hash body requested notes r0 (w_db w) (w_db w') card /\
     cardsExclusive (db_timeCards (w_db w')) = true /\ (r = Ok r0 \/ exists e, r = Throw e)).
Proof.
  intros Hk Hs. split.
  - eapply (timeScopeHeld_var identity _ (locateTarget_ReadOnly _ _) _ (hashed identity body requested notes)); [|..|exact Hs]; [done|].
    intros v1 r1 w2 v2 Hv1 (current & target & w0 & w0' & w1 & Ht%ActsFor_tenant & _ & _ & E1 & Ho).
    apply clockInAttempt_run in Ho; [|by rewrite E1].
    destruct Ho as [[-> _]|(hash & -> & Hh & _)]; [done|]. intros h [= <-]. by rewrite Ht in Hh.
  - apply timeScopeHeld_cases in Hs as (v1 & _ & Ha); [|apply locateTarget_ReadOnly].
    assert (Hrun : forall a w2 v2, Ran identity (locateTarget identity body) (clockInAttempt operation body requested notes)
        (w_db w) v1 (Ok a) w2 v2 ->
      w_db w2 = w_db w /\ (exists hash card, requestHashed (si_tenantId identity) body requested notes hash /\
        ClockInReplayed (si_tenantId identity) operation hash a (w_db w) card) \/
      exists current hash card, si_tenantId current = si_tenantId identity /\
        requestHashed (si_tenantId identity) body requested notes hash /\
        ClockedIn current operation hash body requested notes a (w_db w) (w_db w2) card).
    { intros a w2 v2 (current & target & w0 & w0' & w3 & Ht%ActsFor_tenant & _ & _ & E1 & Ho).
      apply clockInAttempt_run in Ho; [|by rewrite E1]. rewrite E1, Ht in Ho.
      destruct Ho as [[_ [e [=]]]|(hash & _ & Hh & [[Edb [card Hr]]|[_ [card Hc]]])].
      - left. split; [done|]. by exists hash, card.
      - right. by exists current, hash, card. }
    inversion Ha as [e|? e w2 v2 HR|a w2 v2 HR Hx|a e w2 v2 HR Hx Hc]; subst; [left; by split|left; by split| |].
    + apply Hrun in HR as [(E & Hr)|(current & hash & card & Ht & Hh & Hc)]; [left|right].
      * split; [congruence|]. by intros ? [= <-].
      * exists current, hash, a, card. split_and!; try done; try congruence. by left.
    + apply Hrun in HR as [(E & Hr)|(current & hash & card & Ht & Hh & Hc')]; [left; split; [congruence|done]|right].
      exists current, hash, a, card. split_and!; try done; try congruence. right. by exists e.
Qed.
End Whole.

Section Recovery.
Context `{Env, Process, AuthorityEnv, CommitEnv, Intl, Sha256}.

Lemma recoverClockIn_var operation body current target w v r w' v' :
  recoverClockIn operation body current target (w, v) = (r, (w', v')) -> v' = v.
Proof.
  unfold recoverClockIn, mbind, Held_bind, held, readVar, mret, Held_ret, liftResult.
  destruct (assertRequestScope body current); [|by intros [= _ _ <-]].
  destruct (findCard _ w) as [[row|e] w1]; [|by intros [= _ _ <-]].
  destruct (assertCurrent w1) as [[u|e] w2]; [|by intros [= _ _ <-]].
  destruct row as [card|]; [|by intros [= _ _ <-]]. destruct (truthy v); [|by intros [= _ _ <-]].
  destruct (negb _); [by intros [= _ _ <-]|]. destruct (negb _); [by intros [= _ _ <-]|].
  destruct (serialize card w2) as [[d|e] w3]; by intros [= _ _ <-].
Qed.

Lemma recover_scope identity operation body w v r w' v' :
  timeScopeHeld identity (locateTarget identity body) (recoverClockIn operation body) (w, v) = (r, (w', v')) ->
  w_db w' = w_db w /\
  (forall a, r = Ok (Some a) -> exists hash card, v = Some hash /\
    ClockInReplayed (si_tenantId identity) operation hash a (w_db w) card).
Proof.
  intros (v1 & Hv1 & Ha)%timeScopeHeld_cases; [|apply locateTarget_ReadOnly].
  assert (Hsame : forall db va ra wa va', Ran identity (locateTarget identity body) (recoverClockIn operation body)
    db va ra wa va' -> va' = va).
  { intros db va ra wa va' (c & t & w0 & w0' & w1 & _ & _ & _ & _ & Ho). by eapply recoverClockIn_var. }
  assert (v1 = v) as ->.
  { destruct Hv1 as [->|[e Hb]]; [done|]. inversion Hb as [|? ? ? ? HR| |? ? ? ? HR]; subst; [done|by apply Hsame in HR..]. }
  assert (Hrun : forall a w2 v2, Ran identity (locateTarget identity body) (recoverClockIn operation body)
      (w_db w) v (Ok a) w2 v2 -> w_db w2 = w_db w /\
    match a with Some x => exists hash card, v = Some hash /\
      ClockInReplayed (si_tenantId identity) operation hash x (w_db w) card | None => True end).
  { intros a w2 v2 (c & t & w0 & w0' & w1 & Ht%ActsFor_tenant & _ & _ & E1 & (Eo & _ & Hr)%recoverClockIn_Ok). rewrite E1, Ht in *.
    by destruct a. }
  inversion Ha as [e|? e w2 v2 HR|a w2 v2 HR Hx|a e w2 v2 HR Hx Hc]; subst; [done|done| |];
    apply Hrun in HR as [Edb HR]; (split; [congruence|]); [|done]. by intros x [= ->].
Qed.

Lemma clockInOrRecover_outcome identity operation body requested notes w r w' :
  policiesKeyed (w_db w) -> clockInOrRecover identity operation body requested notes w = (r, w') ->
  ClockInOutcome (si_tenantId identity) operation body requested notes (w_db w) r (w_db w').
Proof.
  intros Hk. unfold clockInOrRecover.
  destruct (timeScopeHeld identity _ _ (w, None)) as [r1 [w1 v1]] eqn:E1. apply clockIn_scope in E1 as [Hv Hfirst]; [|done].
  destruct r1 as [response|error].
  { intros [= <- <-]. destruct Hfirst as [[-> Hr]|(c & hash & r0 & card & Ht & Hh & Hc & Hx & [[= <-]|[e [=]]])].
    - destruct (Hr _ eq_refl) as (hash & card & Hh & Hrep). by eapply clockIn_replayed.
    - by eapply clockIn_created. }
  assert (Hout : forall r2 w2, w_db w2 = w_db w1 ->
    (forall a, r2 = Ok a -> exists hash card, requestHashed (si_tenantId identity) body requested notes hash /\
       ClockInReplayed (si_tenantId identity) operation hash a (w_db w1) card) ->
    ClockInOutcome (si_tenantId identity) operation body requested notes (w_db w) r2 (w_db w2)).
  { intros r2 w2 -> Hr2. destruct Hfirst as [[Edb _]|(c & hash & r0 & card & Ht & Hh & Hc & Hx & _)].
    - rewrite Edb in *. destruct r2 as [a|e]; [|apply clockIn_refused].
      destruct (Hr2 _ eq_refl) as (hash & card & Hh & Hrep). by eapply clockIn_replayed.
    - eapply clockIn_lost; [done..|]. intros a ->. destruct (Hr2 _ eq_refl) as (hash2 & card2 & _ & Hrep). by exists hash2, card2. }
  destruct (deniedClockIn error); [intros [= <- <-]; by apply Hout|].
  destruct (timeScopeHeld identity _ _ (w1, v1)) as [r2 [w2 v2]] eqn:E2. apply recover_scope in E2 as [Edb Hr2].
  destruct r2 as [[recovery|]|e].
  - intros [= <- <-]. apply Hout; [done|]. intros a [= <-]. destruct (Hr2 _ eq_refl) as (hash & card & Ev & Hrep).
    exists hash, card. split; [by apply Hv|done].
  - destruct (isUniqueConstraint error); intros [= <- <-]; by apply Hout.
  - intros [= <- <-]. by apply Hout.
Qed.

(** The parts of a request that are read before anything else happens. *)
Definition readsClockIn (identity : SessionIdentity) (body : ClockInRequest) (key : option string)
    (operation : string) (requested : option Z) (notes : option string) : Prop :=
  exists k n, normalizeClockInIdempotencyKey key = Ok k /\ operation = operationId (trim (si_tenantId identity)) k /\
    optionalInstant (ci_clockInAt body) "clockInAt" = Ok requested /\
    normalizeTimeCardNotes (ci_notes body) = Ok n /\ notes = default None n.

Lemma clockIn_cases identity body key w r w' :
  policiesKeyed (w_db w) -> clockIn identity body key w = (r, w') ->
  w_db w' = w_db w /\ (exists e, r = Throw e) \/
  exists operation requested notes, readsClockIn identity body key operation requested notes /\
    ClockInOutcome (trim (si_tenantId identity)) operation body requested notes (w_db w) r (w_db w').
Proof.
  intros Hk. unfold clockIn, mbind, Tx_bind, liftResult.
  destruct (normalizeClockInIdempotencyKey key) as [k|e] eqn:Ek; [|intros [= <- <-]; left; by eauto].
  destruct (optionalInstant _ _) as [requested|e] eqn:Er; [|intros [= <- <-]; left; by eauto].
  destruct (normalizeTimeCardNotes _) as [n|e] eqn:En; [|intros [= <- <-]; left; by eauto].
  destruct (prepareOperationsAuthority _ w) as [[u|e] w1] eqn:Ep;
    pose proof (prepareOperationsAuthority_ReadOnly (operationsIdentity identity) w) as Hro; rewrite Ep in Hro; cbn in Hro;
    [|intros [= <- <-]; left; by eauto].
  intros Hr. right. eexists _, requested, (default None n). split; [by exists k, n|].
  apply clockInOrRecover_outcome in Hr; [|by rewrite Hro]. by rewrite Hro in Hr.
Qed.
End Recovery.
