(* ===== verification/TimeCardOutcomes.v ===== *)
(** * Outcomes of the time-card handlers

    What [clockIn], [clockOut] and [correct] of
    apps/api-v2/src/time/time-cards.service.ts leave behind, alone and in any
    sequence: a key clocks in once, a card is closed once, a card of a locked
    payroll period never changes again, and the cards of a worker stay apart. *)

From S2P Require Import Prelude JsStd JsCollections JsDate ContractHelpers TimeZone PayrollRecords.
From S2P Require Import Database FeatureEntitlement Authority ScheduleStore.
From S2P Require Import TimeCardValidation TimeCardPayroll TimeCardStore TimeCards TimeCardClockIn.

(** ** Clocking out and correcting, whatever is returned *)

Section Cases.
Context `{Env, Process, AuthorityEnv, CommitEnv, Intl, Sha256}.

(** [clockOut] either left the database alone or closed the card; when it
    returned, it closed it. *)
Lemma clockOut_cases identity publicId body w r w' :
  cardsKeyed (w_db w) -> clockOut identity publicId body w = (r, w') ->
  w_db w' = w_db w /\ (exists e, r = Throw e) \/
  exists current r0 row clockOutAt breakMinutes notes, ActsFor (operationsIdentity identity) current /\
    ClockedOut current publicId r0 (w_db w) (w_db w') row clockOutAt breakMinutes notes /\
    normalizeTimeCardNotes (co_notes body) = Ok notes /\
    (forall t, optionalInstant (co_clockOutAt body) "clockOutAt" = Ok (Some t) -> clockOutAt = t) /\
    (canViewTeam current = false -> co_clockOutAt body = None) /\
    cardsExclusive (db_timeCards (w_db w')) = true /\ (r = Ok r0 \/ exists e, r = Throw e).
Proof.
  intros Hk. unfold clockOut, mbind, Tx_bind.
  destruct (prepareOperationsAuthority _ w) as [[u|e] w1] eqn:Ep;
    pose proof (prepareOperationsAuthority_ReadOnly (operationsIdentity identity) w) as Hro; rewrite Ep in Hro; cbn in Hro;
    [|intros [= <- <-]; left; by eauto].
  unfold liftResult. destruct (optionalInstant _ _) as [requested|e] eqn:Er; [|intros [= <- <-]; left; by eauto].
  destruct (normalizeTimeCardNotes _) as [notes|e] eqn:En; [|intros [= <- <-]; left; by eauto]. intros Hr.
  assert (Hc : forall a db', Committed (operationsIdentity identity) (clockOutInScope publicId body requested notes) a (w_db w1) db' ->
    exists current row clockOutAt breakMinutes, ActsFor (operationsIdentity identity) current /\
    ClockedOut current publicId a (w_db w) db' row clockOutAt breakMinutes notes /\
    (forall t, Ok requested = Ok (Some t) -> clockOutAt = t) /\ (canViewTeam current = false -> co_clockOutAt body = None) /\
    cardsExclusive (db_timeCards db') = true).
  { intros a db' (current & w2 & w3 & Ht & Ho & E2 & -> & Hx).
    apply clockOutInScope_Ok in Ho as (row & out & bm & Hcd & Hself & Hreq); [|by rewrite E2, Hro].
    rewrite E2, Hro in Hcd. exists current, row, out, bm. split_and!; try done. intros t [= ->]. by apply Hreq. }
  destruct r as [a|e].
  - apply timeScope_Ok, Hc in Hr as (current & row & out & bm & ? & ? & ? & ? & ?). right.
    exists current, a, row, out, bm, notes. split_and!; try done. by left.
  - apply timeScope_Throw in Hr as [Hr|[a (current & row & out & bm & ? & ? & ? & ? & ?)%Hc]].
    + left. split; [congruence|by exists e].
    + right. exists current, a, row, out, bm, notes. split_and!; try done. right. by exists e.
Qed.

(** [correct] either left the database alone or corrected the card. *)
Lemma correct_cases identity publicId body w r w' :
  cardsKeyed (w_db w) -> policiesKeyed (w_db w) -> correct identity publicId body w = (r, w') ->
  w_db w' = w_db w /\ (exists e, r = Throw e) \/
  exists current r0 card nowMs v assignment, si_tenantId current = trim (si_tenantId identity) /\
    Corrected current publicId body r0 (w_db w) (w_db w') card nowMs v assignment /\
    cardsExclusive (db_timeCards (w_db w')) = true /\ (r = Ok r0 \/ exists e, r = Throw e).
Proof.
  intros Hk Hp. unfold correct, mbind, Tx_bind.
  destruct (prepareOperationsAuthority _ w) as [[u|e] w1] eqn:Ep;
    pose proof (prepareOperationsAuthority_ReadOnly (operationsIdentity identity) w) as Hro; rewrite Ep in Hro; cbn in Hro;
    [|intros [= <- <-]; left; by eauto].
  assert (Hc : forall a db', Committed (operationsIdentity identity) (correctInScope publicId body) a (w_db w1) db' ->
    exists current card nowMs v assignment, si_tenantId current = trim (si_tenantId identity) /\
    Corrected current publicId body a (w_db w) db' card nowMs v assignment /\ cardsExclusive (db_timeCards db') = true).
  { intros a db' (current & w2 & w3 & Ht%ActsFor_tenant & Ho & E2 & -> & Hx).
    apply correctInScope_Ok in Ho as (card & nowMs & v & asg & Hcd); [|by rewrite E2, Hro..].
    rewrite E2, Hro in Hcd. by exists current, card, nowMs, v, asg. }
  unfold overlapAs409. destruct (timeScope _ _ w1) as [[a|e] w2] eqn:Es.
  - intros [= <- <-]. apply timeScope_Ok, Hc in Es as (current & card & nowMs & v & asg & ? & ? & ?). right.
    exists current, a, card, nowMs, v, asg. split_and!; try done. by left.
  - intros Hr. assert (He : w' = w2 /\ exists e0, r = Throw e0)
      by (destruct (isTimeCardOverlap e); unfold timeCardProblem, throwProblem in Hr; injection Hr as <- <-; eauto).
    destruct He as [-> [e0 ->]]. apply timeScope_Throw in Es as [Es|[a (current & card & nowMs & v & asg & ? & ? & ?)%Hc]].
    + left. split; [congruence|by exists e0].
    + right. exists current, a, card, nowMs, v, asg. split_and!; try done. right. by exists e0.
Qed.
End Cases.

(** ** Clocking in once *)

(** A key that has a card changes nothing any more. *)
Lemma outcome_known `{Intl, Sha256} tenantId operation body requested notes db r db' card :
  cardsKeyed db -> card ∈ db_timeCards db -> tc_clockInOperationId card = Some operation ->
  ClockInOutcome tenantId operation body requested notes db r db' ->
  db' = db /\ forall a, r = Ok a -> ck_reused a = true /\ tr_id (ck_data a) = tc_publicId card.
Proof.
  intros Hk Hin Hop Hout.
  assert (Hno : forall current hash r0 c, ClockedIn current operation hash body requested notes r0 db db' c -> False).
  { intros current hash r0 c [Hfresh (user & loc & asg & _ & (_ & _ & Ho & _) & _) _ _ _].
    apply not_true_iff_false in Hfresh. apply Hfresh, existsb_exists. exists card. split; [by apply list_elem_of_In|].
    cbn [conflicts Table_TimeCard]. rewrite Ho, Hop, (bool_decide_true (is_Some _)), (bool_decide_true (Some operation = _)) by done.
    cbn. by rewrite orb_true_r. }
  destruct Hout as [e|hash r c Hh (Hc & _ & Hco & _ & Hr1 & Hr2)| |]; [done| |exfalso; by eapply Hno..].
  split; [done|]. intros a [= <-]. split; [done|]. rewrite Hr2. f_equal. apply (ck_operations _ Hk); [done..|by rewrite Hco|congruence].
Qed.

(** The card of an answered key. *)
Lemma outcome_card `{Intl, Sha256} tenantId operation body requested notes db r db' :
  ClockInOutcome tenantId operation body requested notes db (Ok r) db' ->
  exists card, card ∈ db_timeCards db' /\ tc_tenantId card = tenantId /\ tc_clockInOperationId card = Some operation /\
    tr_id (ck_data r) = tc_publicId card.
Proof.
  intros Hout. remember (Ok r) as r0 eqn:Er. destruct Hout as [e|hash a c Hh (Hc & Ht & Hco & _ & _ & Hid)|
    current hash a c db' Ht Hh [_ (user & loc & asg & _ & (Hct & _ & Ho & _) & _) _ (paid & al & bal & Hd & ->) (_ & Hid & _)] _|
    current hash a0 c db' r1 Ht Hh _ _ Hrep]; [done| | |].
  - injection Er as ->. by exists c.
  - injection Er as ->. exists c. destruct (debit_only_money _ _ _ _ _ _ _ Hd) as (ts & cs & ->).
    split; [destruct db; cbn; set_solver|]. split_and!; [congruence|done|done].
  - subst r1. destruct (Hrep _ eq_refl) as (h2 & c2 & Hc & Hct & Hco & _ & _ & Hid). by exists c2.
Qed.

(** ** What holds of the cards at all times *)

(** The times of a card agree with its status; an open card has no end. *)
Definition cardConsistent (c : TimeCard) : Prop :=
  0 <= tc_breakMinutes c /\ 1 <= tc_revision c /\
  match tc_status c with
  | OPEN => tc_clockOutAt c = None
  | CLOSED => exists out, tc_clockOutAt c = Some out /\ tc_clockInAt c < out /\
      (0 < tc_breakMinutes c -> (tc_breakMinutes c + 1) * 60000 <= out - tc_clockInAt c)
  | VOID => True
  end.

Record consistent (db : Db) : Prop := mkConsistent {
  cs_keyed : cardsKeyed db;
  cs_policies : policiesKeyed db;
  cs_cards : Forall cardConsistent (db_timeCards db);
  cs_exclusive : cardsExclusive (db_timeCards db) = true;
}.

(** A run of a handler of the cards, in any environment and whatever it
    returns, or a step of the rest of the system, which keeps the cards and the
    locked periods. *)
Definition lockedPeriod (tenantId id : string) (db : Db) : Prop :=
  exists p, p ∈ db_periods db /\ periodNamed tenantId id p = true /\ py_status p = "LOCKED".

Inductive cardStep : Db -> Db -> Prop :=
  | step_clockIn `{Env, Process, AuthorityEnv, CommitEnv, Intl, Sha256} identity body key w :
      cardStep (w_db w) (w_db (clockIn identity body key w).2)
  | step_clockOut `{Env, AuthorityEnv, CommitEnv} identity publicId body w :
      cardStep (w_db w) (w_db (clockOut identity publicId body w).2)
  | step_correct `{Env, Process, AuthorityEnv, CommitEnv, Intl} identity publicId body w :
      cardStep (w_db w) (w_db (correct identity publicId body w).2)
  | step_rest db db' :
      db_timeCards db' = db_timeCards db -> db_cardBreaks db' = db_cardBreaks db ->
      (policiesKeyed db -> policiesKeyed db') ->
      (forall tenantId id, lockedPeriod tenantId id db -> lockedPeriod tenantId id db') -> cardStep db db'.

(** A card is put into open periods only. *)
Definition openPeriod (tenantId id : string) (db : Db) : Prop :=
  exists p, p ∈ db_periods db /\ py_id p = id /\ py_tenantId p = tenantId /\ py_status p = "OPEN".

(** The exports of payroll stay, and the ledger only grows. *)
Definition keepsExports (db db' : Db) : Prop :=
  db_exports db' = db_exports db /\ db_credits db `prefix_of` db_credits db'.

(** What a step of a handler does to the tables of the cards. *)
Inductive cardEffect (db db' : Db) : Prop :=
  | effect_none : db' = db -> cardEffect db db'
  | effect_new card : existsb (conflicts card) (db_timeCards db) = false -> cardConsistent card ->
      (forall id, tc_payrollPeriodId card = Some id -> openPeriod (tc_tenantId card) id db) ->
      db_timeCards db' = db_timeCards db ++ [card] -> db_cardBreaks db' = db_cardBreaks db ->
      db_periods db' = db_periods db -> db_policies db' = db_policies db -> db_payroll db' = db_payroll db ->
      cardsExclusive (db_timeCards db') = true -> keepsExports db db' -> cardEffect db db'
  | effect_row row f breaks :
      row ∈ db_timeCards db ->
      (forall id, tc_payrollPeriodId row = Some id -> id <> "" -> unlockedPeriod (tc_tenantId row) id db) ->
      (forall c, tc_id (f c) = tc_id c /\ tc_publicId (f c) = tc_publicId c /\
         tc_clockInOperationId (f c) = tc_clockInOperationId c) ->
      (cardConsistent row -> cardConsistent (f row)) ->
      db_timeCards db' = replaceRow tc_id (tc_id row) f (db_timeCards db) ->
      breaksCorrected (tc_tenantId row) (tc_id row) breaks (db_cardBreaks db) (db_cardBreaks db') ->
      (forall c, tc_tenantId (f c) = tc_tenantId c /\ tc_userId (f c) = tc_userId c) ->
      (tc_payrollPeriodId (f row) = tc_payrollPeriodId row \/
       forall id, tc_payrollPeriodId (f row) = Some id -> openPeriod (tc_tenantId row) id db) ->
      db_periods db' = db_periods db -> db_policies db' = db_policies db -> db_payroll db' = db_payroll db ->
      cardsExclusive (db_timeCards db') = true -> keepsExports db db' -> cardEffect db db'.

(** What [AssignedTo] gives. *)
Lemma assigned_open `{Intl} tenantId clockInAt location db assignment id :
  AssignedTo tenantId clockInAt location db assignment -> pa_payrollPeriodId assignment = Some id -> openPeriod tenantId id db.
Proof. intros [?|p l period ? ? ? ? ? ? ?]; [done|]. cbn. intros [= <-]. by exists period. Qed.

Section Effects.
Context `{Env, Process, AuthorityEnv, CommitEnv, Intl, Sha256}.

Lemma clockIn_effect identity body key w : policiesKeyed (w_db w) -> cardEffect (w_db w) (w_db (clockIn identity body key w).2).
Proof.
  intros Hp. destruct (clockIn identity body key w) as [r w'] eqn:E. cbn [snd].
  apply clockIn_cases in E as [[-> _]|(op & req & notes & _ & Hout)]; [by apply effect_none| |done].
  assert (Hnew : forall current hash r0 card db', ClockedIn current op hash body req notes r0 (w_db w) db' card ->
    cardsExclusive (db_timeCards db') = true -> cardEffect (w_db w) db').
  { intros current hash r0 card db' [Hf (user & loc & asg & _ & Hn & Hasg) _ (paid & a & bal & Hd & ->) _] Hx.
    pose proof (debit_ledger _ _ _ _ _ _ _ Hd) as Hled.
    destruct (debit_only_money _ _ _ _ _ _ _ Hd) as (ts & cs & ->). destruct Hn as (Htn & _ & _ & _ & Ho & Hper & _ & Hrev & Hbm & _ & Hst & _).
    eapply (effect_new _ _ card); [done| | |by destruct (w_db w)..|done|by split; destruct (w_db w)]; [split_and!; rewrite ?Hbm, ?Hrev, ?Hst; done|].
    intros id. rewrite Htn, Hper. by apply (assigned_open _ _ _ _ _ _ Hasg). }
  remember (w_db w') as db' eqn:Edb. clear Edb. destruct Hout; [by apply effect_none|by apply effect_none|by eapply Hnew..].
Qed.

Lemma clockOut_effect identity publicId body w :
  cardsKeyed (w_db w) -> cardEffect (w_db w) (w_db (clockOut identity publicId body w).2).
Proof.
  intros Hk. destruct (clockOut identity publicId body w) as [r w'] eqn:E. cbn [snd].
  apply clockOut_cases in E as [[-> _]|(current & r0 & row & out & bm & notes & Ht & Hcd & _ & _ & _ & Hx & _)]; [by apply effect_none| |done].
  destruct Hcd as [(Hrow & _ & Hrt & _ & _ & _) _ Hafter [Hb0 Hb] Hperiod (at_ & a & E) _]. rewrite E in *.
  eapply (effect_row _ _ row (closeCard out bm notes at_) None); [done| |by intros c| |by destruct (w_db w)|cbn; by destruct (w_db w)|by intros c|by left|by destruct (w_db w)..|done|by split; destruct (w_db w)].
  - intros id Hid Hne. rewrite Hrt. by apply Hperiod.
  - intros (_ & Hrev & _). unfold cardConsistent. cbn. split; [done|]. split; [lia|]. exists out. by split_and!.
Qed.

Lemma correct_effect identity publicId body w :
  cardsKeyed (w_db w) -> policiesKeyed (w_db w) ->
  cardEffect (w_db w) (w_db (correct identity publicId body w).2).
Proof.
  intros Hk Hp. destruct (correct identity publicId body w) as [r w'] eqn:E. cbn [snd].
  apply correct_cases in E as [[-> _]|(current & r0 & card & nowMs & v & asg & Ht & Hcd & Hx & _)]; [by apply effect_none| |done..].
  destruct Hcd as [_ (Hrow & Hsel & _ & Hrt & _ & _) _ Hacc Hasg Hunl _ (at_ & a & breaks & Hbr & E) _]. rewrite E in *.
  rewrite <- Hrt in Hbr.
  eapply (effect_row _ _ (ic_row card) (correctCard v asg at_) (vc_breakIntervals v));
    [done| |by intros c| |by destruct (w_db w)| |by intros c|right; intros id; rewrite Hrt; by apply (assigned_open _ _ _ _ _ _ Hasg)
    |by destruct (w_db w)..|done|by split; destruct (w_db w)].
  - intros id Hid Hne. rewrite Hrt. apply Hunl; [done|by left].
  - destruct Hacc as [_ _ _ _ _ [Hw _] Hb Hm Hst]. intros (Hbm & Hrev & _). unfold cardConsistent. cbn.
    split; [|split; [lia|]].
    + destruct Hb as (ivs & [Hfit _] & _ & Hb). destruct (cr_breakIntervals body).
      * destruct Hb as (_ & _ & ->). clear -Hfit. unfold sumMinutes. rewrite <- fold_left_rev_right.
        apply Forall_rev in Hfit. induction Hfit as [|i l Hi Hl IH]; cbn; [lia|].
        destruct Hi as (? & _ & _). assert (0 <= durationMinutes i) by (unfold durationMinutes; div_lia). lia.
      * destruct Hb as (_ & _ & -> & _). done.
    + rewrite Hst. destruct (vc_clockOutAt v) as [out|]; [|done]. exists out. cbn in Hw, Hm. split; [done|]. split; [lia|done].
  - assert (Eb : forall cards, db_cardBreaks (auditAppended (withRows (R := TimeCardBreak) breaks (w_db w)) cards a) = breaks)
      by (intros; by destruct (w_db w)). by rewrite Eb.
Qed.
End Effects.

(** *** Every step keeps the invariant *)

Lemma NoDup_snoc {A} (l : list A) x : NoDup l -> x ∉ l -> NoDup (l ++ [x]).
Proof. intros Hl Hx. apply NoDup_app. split_and!; [done|set_solver|apply NoDup_singleton]. Qed.

Lemma fresh_conflicts card l :
  existsb (conflicts card) l = false ->
  forall c, c ∈ l -> tc_id card <> tc_id c /\ tc_publicId card <> tc_publicId c /\
    (is_Some (tc_clockInOperationId card) -> tc_clockInOperationId card <> tc_clockInOperationId c).
Proof.
  intros Hf c Hc. assert (Hn : conflicts card c = false).
  { destruct (conflicts card c) eqn:E; [|done]. apply not_true_iff_false in Hf. destruct Hf. apply existsb_exists.
    exists c. split; [by apply list_elem_of_In|done]. }
  cbn [conflicts Table_TimeCard] in Hn. apply orb_false_iff in Hn as [Hn _]. apply orb_false_iff in Hn as [Hn H3].
  apply orb_false_iff in Hn as [H1 H2]. apply bool_decide_eq_false in H1, H2. split; [done|]. split; [done|].
  intros Hs E. apply andb_false_iff in H3 as [H3|H3]; by apply bool_decide_eq_false in H3.
Qed.

Lemma cardsKeyed_snoc db db' card :
  cardsKeyed db -> existsb (conflicts card) (db_timeCards db) = false ->
  db_timeCards db' = db_timeCards db ++ [card] -> cardsKeyed db'.
Proof.
  intros [H1 H2 H3] Hf E. pose proof (fresh_conflicts _ _ Hf) as Hn. split.
  - rewrite E, map_app. apply NoDup_snoc; [done|]. intros Hin. apply list_elem_of_In, in_map_iff in Hin as (c & Hc & Hin%list_elem_of_In).
    destruct (Hn c Hin) as (? & _). congruence.
  - rewrite E, map_app. apply NoDup_snoc; [done|]. intros Hin. apply list_elem_of_In, in_map_iff in Hin as (c & Hc & Hin%list_elem_of_In).
    destruct (Hn c Hin) as (_ & ? & _). congruence.
  - rewrite E. intros c d [Hc| ->%list_elem_of_singleton]%elem_of_app [Hd| ->%list_elem_of_singleton]%elem_of_app Hs Ho.
    + by apply H3.
    + destruct (Hn c Hc) as (_ & _ & Hop). exfalso. rewrite Ho in Hs. by apply Hop.
    + destruct (Hn d Hd) as (_ & _ & Hop). exfalso. by apply Hop.
    + done.
Qed.

Lemma cardsKeyed_replace db db' k f :
  cardsKeyed db ->
  (forall c, tc_id (f c) = tc_id c /\ tc_publicId (f c) = tc_publicId c /\ tc_clockInOperationId (f c) = tc_clockInOperationId c) ->
  db_timeCards db' = replaceRow tc_id k f (db_timeCards db) -> cardsKeyed db'.
Proof.
  intros [H1 H2 H3] Hf E. split.
  - rewrite E, replaceRow_keys; [done|apply Hf].
  - rewrite E, replaceRow_keys; [done|apply Hf].
  - rewrite E. unfold replaceRow. intros c d Hc Hd Hs Ho.
    apply list_elem_of_In, in_map_iff in Hc as (c0 & <- & Hc%list_elem_of_In), Hd as (d0 & <- & Hd%list_elem_of_In).
    assert (c0 = d0) as ->; [|done]. destruct (Hf c0) as (_ & _ & Ec), (Hf d0) as (_ & _ & Ed).
    apply H3; [done..| |]; repeat case_bool_decide; congruence.
Qed.

Lemma effect_consistent db db' : consistent db -> cardEffect db db' -> consistent db'.
Proof.
  intros [Hk Hp Hc Hx] [->|card Hf Hcc _ Ec Eb Ep Epol _ Hx'|row f breaks Hrow Hu Hkeys Hcc Ec Eb _ _ Ep Epol _ Hx']; [done| |].
  - split; [by eapply cardsKeyed_snoc|unfold policiesKeyed; by rewrite Epol| |done]. rewrite Ec.
    apply Forall_app. split; [done|]. by constructor.
  - split; [by eapply cardsKeyed_replace|unfold policiesKeyed; by rewrite Epol| |done]. rewrite Ec.
    apply Forall_forall. intros c Hin. apply list_elem_of_In, in_map_iff in Hin as (c0 & <- & Hin%list_elem_of_In).
    rewrite Forall_forall in Hc. case_bool_decide as E; [|by apply Hc].
    rewrite (NoDup_map_inj tc_id _ c0 row (ck_ids _ Hk) Hin Hrow E). apply Hcc, Hc, Hrow.
Qed.

Lemma locked_not_unlocked tenantId id db : lockedPeriod tenantId id db -> unlockedPeriod tenantId id db -> False.
Proof.
  intros (p & Hin & Hn & Hs) (q & Hq & Hns). assert (Hp : In p (List.filter (periodNamed tenantId id) (db_periods db))).
  { apply filter_In. split; [by apply list_elem_of_In|done]. }
  rewrite Hq in Hp. destruct Hp as [->|[]]. done.
Qed.

(** The card and its breaks, as payroll reads them. *)
Definition keepsCard (card : TimeCard) (db db' : Db) : Prop :=
  card ∈ db_timeCards db' /\
  List.filter (breakOfCard card) (db_cardBreaks db') = List.filter (breakOfCard card) (db_cardBreaks db).

Lemma breaksCorrected_other tenantId cardId intervals l l' card :
  tc_id card <> cardId -> breaksCorrected tenantId cardId intervals l l' ->
  List.filter (breakOfCard card) l' = List.filter (breakOfCard card) l.
Proof.
  intros Hne. destruct intervals as [i|]; cbn; [|by intros ->]. intros (new & Hs & ->). rewrite List.filter_app.
  assert (E1 : List.filter (breakOfCard card) new = []).
  { clear -Hne Hs. induction Hs as [|i b i' l (_ & Hb & _) Hs IH]; cbn; [done|]. unfold breakOfCard at 1.
    rewrite bool_decide_false by congruence. done. }
  rewrite E1, app_nil_r. clear -Hne. induction l as [|b l IH]; cbn; [done|].
  destruct (breakNamed tenantId cardId b) eqn:E; cbn; [|by rewrite IH].
  unfold breakNamed in E. apply andb_true_iff in E as [_ E%bool_decide_eq_true]. unfold breakOfCard at 2.
  by rewrite (bool_decide_false (tb_timeCardId b = tc_id card)) by congruence.
Qed.

Lemma effect_frozen db db' card id :
  cardsKeyed db -> cardEffect db db' -> card ∈ db_timeCards db -> tc_payrollPeriodId card = Some id -> id <> "" ->
  lockedPeriod (tc_tenantId card) id db -> keepsCard card db db' /\ lockedPeriod (tc_tenantId card) id db'.
Proof.
  intros Hk [->|new Hf Hcc _ Ec Eb Ep Epol _ Hx'|row f breaks Hrow Hu Hkeys Hcc Ec Eb _ _ Ep Epol _ Hx'] Hin Hid Hne Hl.
  - by split.
  - unfold keepsCard, lockedPeriod. rewrite Ec, Eb, Ep. split; [|done]. split; [set_solver|done].
  - assert (Hdiff : tc_id card <> tc_id row).
    { intros E. rewrite (NoDup_map_inj tc_id _ card row (ck_ids _ Hk) Hin Hrow E) in *.
      by eapply locked_not_unlocked, Hu. }
    unfold keepsCard, lockedPeriod. rewrite Ep. split; [|done]. split; [|by eapply breaksCorrected_other].
    rewrite Ec. apply list_elem_of_In, in_map_iff. exists card. rewrite bool_decide_false by done.
    split; [done|by apply list_elem_of_In].
Qed.

(** One step, of a handler or of the rest. *)
Lemma step_effect db db' :
  consistent db -> cardStep db db' ->
  cardEffect db db' \/
  db_timeCards db' = db_timeCards db /\ db_cardBreaks db' = db_cardBreaks db /\ policiesKeyed db' /\
  forall tenantId id, lockedPeriod tenantId id db -> lockedPeriod tenantId id db'.
Proof.
  intros [Hk Hp _ _] Hs. destruct Hs as [? ? ? ? ? ? identity body key w|? ? ? identity publicId body w|? ? ? ? ? identity publicId body w|db db' Ec Eb Hpol Hl].
  - left. by apply clockIn_effect.
  - left. by apply clockOut_effect.
  - left. by apply correct_effect.
  - right. auto.
Qed.

Lemma step_consistent db db' : consistent db -> cardStep db db' -> consistent db'.
Proof.
  intros Hc Hs. destruct (step_effect _ _ Hc Hs) as [He|(Ec & Eb & Hp & _)]; [by eapply effect_consistent|].
  destruct Hc as [[H1 H2 H3] _ Hcc Hx]. split; [split|done| |]; by rewrite ?Ec.
Qed.

Lemma steps_consistent db db' : rtc cardStep db db' -> consistent db -> consistent db'.
Proof. induction 1 as [|db1 db2 db3 Hs _ IH]; [done|]. intros Hc. by eapply IH, step_consistent. Qed.

Lemma cardsExclusive_elem l a b :
  cardsExclusive l = true -> a ∈ l -> b ∈ l -> tc_id a <> tc_id b -> cardsClash a b = false \/ cardsClash b a = false.
Proof.
  induction l as [|c l IH]; [set_solver|]. cbn [cardsExclusive]. intros [Hf Hx]%andb_true_iff Ha Hb Hne.
  rewrite forallb_forall in Hf.
  apply elem_of_cons in Ha as [->|Ha], Hb as [->|Hb]; [done| | |by apply IH].
  - left. apply negb_true_iff, Hf. by apply list_elem_of_In.
  - right. apply negb_true_iff, Hf. by apply list_elem_of_In.
Qed.

Lemma cardsClash_sym a b : cardsClash a b = cardsClash b a.
Proof.
  unfold cardsClash, rangesMeet. rewrite (bool_decide_ext (tc_tenantId a = tc_tenantId b) (tc_tenantId b = tc_tenantId a)) by (split; congruence).
  rewrite (bool_decide_ext (tc_userId a = tc_userId b) (tc_userId b = tc_userId a)) by (split; congruence).
  destruct (cardCounts a), (cardCounts b), (beforeEnd (tc_clockInAt a) a), (beforeEnd (tc_clockInAt b) b),
    (beforeEnd (tc_clockInAt a) b), (beforeEnd (tc_clockInAt b) a); cbn; by rewrite ?andb_false_r.
Qed.

(** ** The properties *)

(** C6: Along any sequence of clock-ins, clock-outs and corrections, in any
    environment and whether or not their answers were received, among steps of
    the rest of the system that leave the cards alone, the cards stay
    consistent: keys are unique, an open card has no end and a closed one ends
    after it begins and leaves more work than break, and the live cards of one
    worker never overlap; so two live cards of a worker without an end are the
    same card. *)
Theorem timeCards_consistent db db' :
  rtc cardStep db db' -> consistent db ->
  consistent db' /\
  forall a b, a ∈ db_timeCards db' -> b ∈ db_timeCards db' -> tc_tenantId a = tc_tenantId b -> tc_userId a = tc_userId b ->
    tc_deletedAt a = None -> tc_deletedAt b = None -> tc_status a = OPEN -> tc_status b = OPEN -> a = b.
Proof.
  intros Hs Hc%(steps_consistent _ _ Hs). split; [done|]. intros a b Ha Hb Ht Hu Hda Hdb Hsa Hsb.
  destruct Hc as [Hk _ Hcc Hx]. apply (NoDup_map_inj tc_id _ a b (ck_ids _ Hk)); [done..|].
  destruct (decide (tc_id a = tc_id b)) as [|Hne]; [done|exfalso].
  assert (Hclash : cardsClash a b = true).
  { rewrite Forall_forall in Hcc. pose proof (Hcc a Ha) as (_ & _ & Oa). pose proof (Hcc b Hb) as (_ & _ & Ob).
    rewrite Hsa in Oa. rewrite Hsb in Ob. unfold cardsClash, rangesMeet, cardCounts, beforeEnd.
    rewrite Hda, Hdb, Hsa, Hsb, Oa, Ob, !bool_decide_true by done. done. }
  destruct (cardsExclusive_elem _ a b Hx Ha Hb Hne); [congruence|]. rewrite cardsClash_sym in Hclash. congruence.
Qed.

(** C13: A card that belongs to a locked payroll period never changes again:
    along any sequence of clock-ins, clock-outs and corrections, and of steps
    of the rest of the system that leave the cards and the locked periods as
    they are, the card stays in the table as it is, with the same breaks. *)
Theorem locked_card_frozen db db' card id :
  rtc cardStep db db' -> consistent db -> card ∈ db_timeCards db -> tc_payrollPeriodId card = Some id -> id <> "" ->
  lockedPeriod (tc_tenantId card) id db -> keepsCard card db db'.
Proof.
  intros Hs. induction Hs as [db|db1 db2 db3 Hstep _ IH]; intros Hc Hin Hid Hne Hl; [by split|].
  assert (Hk : keepsCard card db1 db2 /\ lockedPeriod (tc_tenantId card) id db2).
  { destruct (step_effect _ _ Hc Hstep) as [He|(Ec & Eb & _ & Hkeep)]; [eapply effect_frozen; [apply Hc|done..]|].
    split; [|by apply Hkeep]. unfold keepsCard. by rewrite Ec, Eb. }
  destruct Hk as [[Hin2 Hbr] Hl2]. destruct (IH (step_consistent _ _ Hc Hstep) Hin2 Hid Hne Hl2) as [Hin3 Hbr3].
  split; [done|congruence].
Qed.

(** A clock-in request, in any environment and whether or not the answer
    of its transaction was lost, has one of these outcomes: it is refused and
    changes nothing; it returns the stored card of its key and request, having
    changed nothing; or it created exactly one open card for a worker the actor
    may clock in and who had none, assigned as payroll demands, took exactly
    one credit under the key, and appended one audit row. *)
Theorem clockIn_outcome `{Env, Process, AuthorityEnv, CommitEnv, Intl, Sha256} identity body key w r w' :
  policiesKeyed (w_db w) -> clockIn identity body key w = (r, w') ->
  w_db w' = w_db w /\ (exists e, r = Throw e) \/
  exists operation requested notes, readsClockIn identity body key operation requested notes /\
    ClockInOutcome (trim (si_tenantId identity)) operation body requested notes (w_db w) r (w_db w').
Proof. apply clockIn_cases. Qed.

(** C14: A key clocks in once: when a clock-in returned a card, the card is in
    the database under the key, and every later request of the tenant with that
    key, by anyone, for anything and in any environment, changes nothing as long
    as the card is there, and if it returns, returns that same card as reused. *)
Theorem clockIn_once `{Env, Process, AuthorityEnv, CommitEnv, Intl, Sha256} identity body key w r w' :
  policiesKeyed (w_db w) -> clockIn identity body key w = (Ok r, w') ->
  exists card, card ∈ db_timeCards (w_db w') /\ tr_id (ck_data r) = tc_publicId card /\
    forall (env2 : Env) (process2 : Process) (authority2 : AuthorityEnv) (commit2 : CommitEnv) (intl2 : Intl)
      identity2 body2 key2 w2 r2 w3,
      trim (si_tenantId identity2) = trim (si_tenantId identity) ->
      normalizeClockInIdempotencyKey key2 = normalizeClockInIdempotencyKey key ->
      cardsKeyed (w_db w2) -> policiesKeyed (w_db w2) -> card ∈ db_timeCards (w_db w2) ->
      @clockIn env2 process2 authority2 commit2 intl2 _ identity2 body2 key2 w2 = (r2, w3) ->
      w_db w3 = w_db w2 /\ forall a, r2 = Ok a -> ck_reused a = true /\ tr_id (ck_data a) = tr_id (ck_data r).
Proof.
  intros Hp [[_ [e [=]]]|(op & req & notes & (k & n & Hk & Hop & _) & Hout)]%clockIn_cases; [|done].
  apply outcome_card in Hout as (card & Hin & Ht & Hco & Hid). exists card. split; [done|]. split; [done|].
  intros env2 process2 authority2 commit2 intl2 identity2 body2 key2 w2 r2 w3 Htn Hkey Hkeyed Hp2 Hin2 Hr2.
  apply (@clockIn_cases env2) in Hr2 as [[-> [e ->]]|(op2 & req2 & notes2 & (k2 & n2 & Hk2 & Hop2 & _) & Hout2)]; [done| |done].
  rewrite Hkey, Hk in Hk2. injection Hk2 as <-. rewrite Htn, <- Hop in Hop2. subst op2.
  eapply outcome_known in Hout2 as [-> Hr]; [|done..]. split; [done|]. rewrite Hid. exact Hr.
Qed.

(** C33: A clock-out that returned closed the worker's one open card: after its
    clock-in, at or before the end of its payroll period, which is not locked,
    with fewer break minutes than minutes worked, at the time the request names,
    if it names one; its revision rises by one, no other row changes but the
    audit row appended, and the live cards stay apart.  The actor is one the
    request was authorised as: unless that actor sees the team, the request names
    no time and the card is the actor's own. *)
Theorem clockOut_closes `{Env, AuthorityEnv, CommitEnv} identity publicId body w r w' :
  cardsKeyed (w_db w) -> clockOut identity publicId body w = (Ok r, w') ->
  exists n authority row clockOutAt breakMinutes notes, authorityAt n = Ok authority /\
    let current := actingIdentity (operationsIdentity identity) authority in
    ClockedOut current publicId r (w_db w) (w_db w') row clockOutAt breakMinutes notes /\
    normalizeTimeCardNotes (co_notes body) = Ok notes /\
    (forall t, optionalInstant (co_clockOutAt body) "clockOutAt" = Ok (Some t) -> clockOutAt = t) /\
    (canViewTeam current = false -> co_clockOutAt body = None /\ tc_userId row = si_sub authority) /\
    cardsExclusive (db_timeCards (w_db w')) = true.
Proof.
  intros Hk Hr. apply clockOut_cases in Hr as [[_ [e [=]]]|(current & r0 & row & out & bm & notes & (n & authority & Ha & ->) & Hcd & Hn & Ht & Hs & Hx & [[= <-]|[e [=]]])];
    [|done]. exists n, authority, row, out, bm, notes. split; [done|]. cbv zeta. repeat (split; [done|]). split; [|done].
  intros Hv. split; [by apply Hs|]. exact (cd_scope _ _ _ _ _ _ _ _ _ Hcd Hv).
Qed.

(** A card is closed once: after a clock-out returned, every clock-out of
    that card, by anyone and in any environment, is refused and changes
    nothing. *)
Theorem clockOut_once `{Env, AuthorityEnv, CommitEnv} identity publicId body w r w' :
  cardsKeyed (w_db w) -> clockOut identity publicId body w = (Ok r, w') ->
  forall (env2 : Env) (authority2 : AuthorityEnv) (commit2 : CommitEnv) identity2 body2 w2 r2 w3,
    w_db w2 = w_db w' -> @clockOut env2 authority2 commit2 identity2 publicId body2 w2 = (r2, w3) ->
    w_db w3 = w_db w2 /\ exists e, r2 = Throw e.
Proof.
  intros Hk Hr env2 authority2 commit2 identity2 body2 w2 r2 w3 E2 Hr2.
  apply clockOut_cases in Hr as [[_ [e [=]]]|(current & r0 & row & out & bm & notes & _ & Hcd & _)]; [|done].
  destruct Hcd as [(Hrow & Hpub & _) _ _ _ _ (at_ & a & E) _].
  assert (Ec : db_timeCards (w_db w2) = replaceRow tc_id (tc_id row) (closeCard out bm notes at_) (db_timeCards (w_db w)))
    by (rewrite E2, E; by destruct (w_db w)).
  assert (Hk2 : cardsKeyed (w_db w2)) by (eapply cardsKeyed_replace; [exact Hk| |exact Ec]; by intros c).
  apply (@clockOut_cases env2) in Hr2 as [[-> [e ->]]|(c2 & r3 & row2 & out2 & bm2 & n2 & _ & Hcd2 & _)]; [|exfalso|done].
  { split; [done|by exists e]. }
  destruct Hcd2 as [(Hrow2 & Hpub2 & _ & _ & Hopen & _) _ _ _ _ _ _].
  assert (Hclosed : closeCard out bm notes at_ row ∈ db_timeCards (w_db w2)) by (rewrite Ec; by apply replaceRow_elem).
  rewrite (NoDup_map_inj tc_publicId _ row2 _ (ck_publicIds _ Hk2) Hrow2 Hclosed) in Hopen; [done|]. cbn. congruence.
Qed.

(** A correction that returned was made by an actor who sees the team, to
    a live card that is as the request last saw it, as the rules of corrections
    allow; the card is assigned to payroll as a new card at its corrected
    clock-in would be, neither its old nor its new period being locked and its
    clock-out not crossing the new one's end; one row changes, its breaks are
    replaced exactly when the request names breaks, one audit row is appended,
    and the live cards stay apart. *)
Theorem correct_replaces `{Env, Process, AuthorityEnv, CommitEnv, Intl} identity publicId body w r w' :
  cardsKeyed (w_db w) -> policiesKeyed (w_db w) -> correct identity publicId body w = (Ok r, w') ->
  exists current card nowMs v assignment, si_tenantId current = trim (si_tenantId identity) /\
    Corrected current publicId body r (w_db w) (w_db w') card nowMs v assignment /\
    cardsExclusive (db_timeCards (w_db w')) = true.
Proof.
  intros Hk Hp Hr. apply correct_cases in Hr as [[_ [e [=]]]|(current & r0 & card & nowMs & v & asg & ? & ? & ? & [[= <-]|[e [=]]])];
    [|done..]. by exists current, card, nowMs, v, asg.
Qed.

(** ** Concrete instances *)

(** Every commit is acknowledged, or the one at a given tick is not. *)
Definition acknowledged : CommitEnv.
Proof. exists (fun _ => None). done. Defined.
Definition lostOnce (at_ : nat) : CommitEnv.
Proof.
  exists (fun n => if bool_decide (n = at_) then Some (DriverError "P1017" None) else None).
  intros n e. case_bool_decide; [|done]. by intros [= <-].
Defined.

Definition timeManager : SessionIdentity :=
  mkIdentity "u1" "t1" ["users:read"; "shifts:read"; "time_cards:read"; "time_cards:write"] "pu1" "MANAGER" None [].
Definition timeWorker : SessionIdentity := mkIdentity "u2" "t1" ["time_cards:read"; "time_cards:write"] "pu2" "STAFF" None [].

(** A tenant with five credits, a manager, a worker, a location, and an open
    payroll period of its policy. *)
Definition timeDb : Db :=
  withRows [samplePeriodRow "w1" "t1" "p1" "OPEN" "UTC" 86400000 691200000]
    (withRows [samplePolicyRow "p1" "t1" 1 "UTC" 86400000]
       (withRows [mkLocation "l1" "pl1" "t1" None "Oslo" "Europe/Oslo" None None None 0 0]
          (withRows [mkUser "u1" "pu1" "t1" "Mona" "MANAGER" None None None;
                     mkUser "u2" "pu2" "t1" "Stig" "STAFF" None None None] sampleDb))).

(** The worker clocks in at eight on the second of January 1970, out at four,
    and the manager corrects the break. *)
Definition clockInBody : ClockInRequest := mkClockIn None (Some "pl1") None None (Some "early").
#[local] Notation clockInRun :=
  (@clockIn (calm 115200000) noBeta (actingAs timeWorker) acknowledged utcIntl sampleDigest timeWorker clockInBody
     (Some "key-1") (mkWorld timeDb 0)).
Definition okOr {A} (d : A) (r : Result A) : A := match r with Ok a => a | Throw _ => d end.
Definition noRecord : TimeCardRecord :=
  mkCardRecord "" "" None None "" None 0 VOID 0 0 0 None "" "" "" [] ("", "", None, "") None.
Definition clockInAnswer : ClockInResponse := Eval vm_compute in okOr (mkClockInResponse noRecord true) clockInRun.1.
Definition workingDb : Db := Eval vm_compute in w_db clockInRun.2.

#[local] Notation clockOutRun :=
  (@clockOut (calm 144000000) (actingAs timeWorker) acknowledged timeWorker (tr_id (ck_data clockInAnswer))
     (mkClockOut None (Some 30) None) (mkWorld workingDb 100)).
Definition clockOutAnswer : TimeCardRecord := Eval vm_compute in okOr noRecord clockOutRun.1.
Definition workedDb : Db := Eval vm_compute in w_db clockOutRun.2.

Definition correctionBody : CorrectionRequest :=
  mkCorrectionRequest None None (Some [("1970-01-02T12:00:00Z", "1970-01-02T12:45:00Z")]) "1970-01-02T16:00:00.000Z" "longer lunch".
#[local] Notation correctRun :=
  (@correct (calm 150000000) noBeta (actingAs timeManager) acknowledged utcIntl timeManager (tr_id (ck_data clockInAnswer))
     correctionBody (mkWorld workedDb 200)).
Definition correctAnswer : TimeCardRecord := Eval vm_compute in okOr noRecord correctRun.1.

Lemma workingDb_keyed : cardsKeyed workingDb /\ policiesKeyed workingDb.
Proof.
  split; [|split; apply (bool_decide_eq_true_1 _); vm_compute; reflexivity]. split.
  - apply (bool_decide_eq_true_1 _); vm_compute; reflexivity.
  - apply (bool_decide_eq_true_1 _); vm_compute; reflexivity.
  - by intros c d ->%list_elem_of_singleton ->%list_elem_of_singleton.
Qed.

Lemma timeDb_consistent : consistent timeDb.
Proof.
  split; [| |constructor|reflexivity].
  - split; [constructor|constructor|by intros c d ?%elem_of_nil].
  - split; apply (bool_decide_eq_true_1 _); vm_compute; reflexivity.
Qed.

Lemma clockIn_step : cardStep timeDb workingDb.
Proof.
  replace workingDb with (w_db clockInRun.2) by (vm_compute; reflexivity).
  exact (@step_clockIn _ _ _ _ _ _ _ _ _ (mkWorld timeDb 0)).
Qed.

Lemma clockOut_step : cardStep workingDb workedDb.
Proof.
  replace workedDb with (w_db clockOutRun.2) by (vm_compute; reflexivity).
  exact (@step_clockOut _ _ _ _ _ _ (mkWorld workingDb 100)).
Qed.

Lemma timeCards_consistent_witness :
  consistent workedDb /\
  forall a b, a ∈ db_timeCards workedDb -> b ∈ db_timeCards workedDb -> tc_tenantId a = tc_tenantId b ->
    tc_userId a = tc_userId b -> tc_deletedAt a = None -> tc_deletedAt b = None ->
    tc_status a = OPEN -> tc_status b = OPEN -> a = b.
Proof.
  apply (timeCards_consistent timeDb workedDb).
  - eapply rtc_l; [exact clockIn_step|]. apply rtc_once, clockOut_step.
  - exact timeDb_consistent.
Defined.

(** Payroll locked the period: the manager's correction is refused. *)
Definition lockedDb : Db := Eval vm_compute in withRows [samplePeriodRow "w1" "t1" "p1" "LOCKED" "UTC" 86400000 691200000] workedDb.
Definition workedCard : TimeCard := Eval vm_compute in default (mkTimeCard "" "" "" "" None None None None 0 None None "" 0 0 None VOID 0 0 None) (head (db_timeCards lockedDb)).
#[local] Notation lockedRun :=
  (@correct (calm 150000000) noBeta (actingAs timeManager) acknowledged utcIntl timeManager (tr_id (ck_data clockInAnswer))
     (mkCorrectionRequest (Some "1970-01-01T00:00:00Z") None None "1970-01-02T16:00:00.000Z" "before payroll") (mkWorld lockedDb 200)).

Lemma locked_card_frozen_witness :
  problemCode (match lockedRun.1 with Throw e => e | Ok _ => JsError "" end) = Some "payroll_period_locked" /\
  keepsCard workedCard lockedDb (w_db lockedRun.2).
Proof.
  split; [vm_compute; reflexivity|]. apply (locked_card_frozen lockedDb (w_db lockedRun.2) workedCard "w1").
  - apply rtc_once. exact (@step_correct _ _ _ _ _ _ _ _ (mkWorld lockedDb 200)).
  - split; [| | |vm_compute; reflexivity].
    + split; [apply (bool_decide_eq_true_1 _); vm_compute; reflexivity..|].
      by intros c d ->%list_elem_of_singleton ->%list_elem_of_singleton.
    + split; apply (bool_decide_eq_true_1 _); vm_compute; reflexivity.
    + apply Forall_singleton. split; [done|]. split; [done|]. exists 144000000. split; [done|]. split; done.
  - by left.
  - reflexivity.
  - done.
  - exists (samplePeriodRow "w1" "t1" "p1" "LOCKED" "UTC" 86400000 691200000). split; [by left|]. split; reflexivity.
Defined.

(** The acknowledgement of the commit is lost: the request finds its card. *)
#[local] Notation lostRun :=
  (@clockIn (calm 115200000) noBeta (actingAs timeWorker) (lostOnce 65) utcIntl sampleDigest timeWorker clockInBody
     (Some "key-1") (mkWorld timeDb 0)).

Lemma clockIn_outcome_witness :
  (exists data, lostRun.1 = Ok (mkClockInResponse data true) /\ tr_id data = "id42") /\
  length (db_timeCards (w_db lostRun.2)) = 1%nat /\ map tn_usageCredits (db_tenants (w_db lostRun.2)) = [4] /\
  (w_db lostRun.2 = timeDb /\ (exists e, lostRun.1 = Throw e) \/
   exists operation requested notes, @readsClockIn sampleDigest timeWorker clockInBody (Some "key-1") operation requested notes /\
     @ClockInOutcome utcIntl sampleDigest "t1" operation clockInBody requested notes timeDb lostRun.1 (w_db lostRun.2)).
Proof.
  split; [eexists; split; vm_compute; reflexivity|]. split; [vm_compute; reflexivity|]. split; [vm_compute; reflexivity|].
  apply (@clockIn_outcome (calm 115200000) noBeta (actingAs timeWorker) (lostOnce 65) utcIntl sampleDigest timeWorker clockInBody
    (Some "key-1") (mkWorld timeDb 0) lostRun.1 lostRun.2); [apply timeDb_consistent|apply surjective_pairing].
Defined.

Lemma clockIn_once_witness :
  exists card, card ∈ db_timeCards workingDb /\ tr_id (ck_data clockInAnswer) = tc_publicId card /\
    forall (env2 : Env) (process2 : Process) (authority2 : AuthorityEnv) (commit2 : CommitEnv) (intl2 : Intl)
      identity2 body2 key2 w2 r2 w3,
      trim (si_tenantId identity2) = trim (si_tenantId timeWorker) ->
      normalizeClockInIdempotencyKey key2 = normalizeClockInIdempotencyKey (Some "key-1") ->
      cardsKeyed (w_db w2) -> policiesKeyed (w_db w2) -> card ∈ db_timeCards (w_db w2) ->
      @clockIn env2 process2 authority2 commit2 intl2 sampleDigest identity2 body2 key2 w2 = (r2, w3) ->
      w_db w3 = w_db w2 /\ forall a, r2 = Ok a -> ck_reused a = true /\ tr_id (ck_data a) = tr_id (ck_data clockInAnswer).
Proof.
  replace workingDb with (w_db clockInRun.2) by (vm_compute; reflexivity).
  apply (@clockIn_once (calm 115200000) noBeta (actingAs timeWorker) acknowledged utcIntl sampleDigest timeWorker clockInBody
    (Some "key-1") (mkWorld timeDb 0)); [apply timeDb_consistent|vm_compute; reflexivity].
Defined.

Lemma clockOut_closes_witness :
  exists n authority row clockOutAt breakMinutes notes, @authorityAt (actingAs timeWorker) n = Ok authority /\
    let current := actingIdentity (operationsIdentity timeWorker) authority in
    ClockedOut current (tr_id (ck_data clockInAnswer)) clockOutAnswer workingDb workedDb row clockOutAt breakMinutes notes /\
    normalizeTimeCardNotes None = Ok notes /\
    (forall t, optionalInstant None "clockOutAt" = Ok (Some t) -> clockOutAt = t) /\
    (canViewTeam current = false -> (None : option string) = None /\ tc_userId row = si_sub authority) /\
    cardsExclusive (db_timeCards workedDb) = true.
Proof.
  replace workedDb with (w_db clockOutRun.2) by (vm_compute; reflexivity).
  apply (@clockOut_closes (calm 144000000) (actingAs timeWorker) acknowledged timeWorker (tr_id (ck_data clockInAnswer))
    (mkClockOut None (Some 30) None) (mkWorld workingDb 100)); [apply workingDb_keyed|vm_compute; reflexivity].
Defined.

Lemma clockOut_once_witness :
  clockOutRun.1 = Ok clockOutAnswer /\
  forall (env2 : Env) (authority2 : AuthorityEnv) (commit2 : CommitEnv) identity2 body2 w2 r2 w3,
    w_db w2 = workedDb -> @clockOut env2 authority2 commit2 identity2 (tr_id (ck_data clockInAnswer)) body2 w2 = (r2, w3) ->
    w_db w3 = w_db w2 /\ exists e, r2 = Throw e.
Proof.
  split; [vm_compute; reflexivity|]. replace workedDb with (w_db clockOutRun.2) by (vm_compute; reflexivity).
  apply (@clockOut_once (calm 144000000) (actingAs timeWorker) acknowledged timeWorker (tr_id (ck_data clockInAnswer))
    (mkClockOut None (Some 30) None) (mkWorld workingDb 100) clockOutAnswer clockOutRun.2); [apply workingDb_keyed|vm_compute; reflexivity].
Defined.

Lemma workedDb_keyed : cardsKeyed workedDb /\ policiesKeyed workedDb.
Proof.
  assert (Hc : consistent workedDb); [|by destruct Hc]. eapply steps_consistent, timeDb_consistent.
  eapply rtc_l; [exact clockIn_step|]. apply rtc_once, clockOut_step.
Qed.

Lemma correct_replaces_witness :
  exists current card nowMs v assignment, si_tenantId current = "t1" /\
    @Corrected utcIntl current (tr_id (ck_data clockInAnswer)) correctionBody correctAnswer workedDb (w_db correctRun.2)
      card nowMs v assignment /\
    cardsExclusive (db_timeCards (w_db correctRun.2)) = true.
Proof.
  apply (@correct_replaces (calm 150000000) noBeta (actingAs timeManager) acknowledged utcIntl timeManager
    (tr_id (ck_data clockInAnswer)) correctionBody (mkWorld workedDb 200)); [apply workedDb_keyed..|].
  rewrite (surjective_pairing correctRun). vm_compute. reflexivity.
Defined.
