(* ===== verification/TimeCardLists.v ===== *)
(** * The list of time cards

    [list] of apps/api-v2/src/time/time-cards.service.ts with the cursors of
    apps/api-v2/src/time/pagination.ts: staff see their own cards, those who can
    view the team see any; newest first, a page at a time. *)

From S2P Require Import Prelude JsStd JsCollections JsDate JsEncoding JsDecoding ContractHelpers TimeZone PayrollRecords.
From S2P Require Import Database FeatureEntitlement Authority ScheduleStore Paging OperationsPages OperationsLists.
From S2P Require Import TimeCardValidation TimeCardPayroll TimeCardStore TimeCards TimeCardOutcomes.

Record TimeCardListQuery := mkCardQuery {
  cq_userId : option string;
  cq_locationId : option string;
  cq_startDate : option string;
  cq_endDate : option string;
  cq_limit : option string;
  cq_cursor : option string;
}.

Definition invalidCursorOrLimit {A} (detail : string) : Result A :=
  throwProblem 422 "invalid_time_card_pagination" detail "Time-card pagination failed".

Definition parseTimeCardLimit (value : option string) : Result Z :=
  match truthy value with
  | None => Ok 100
  | Some text =>
      let parsed := digitsValue text in
      if negb (allChars isDigit text) || negb (isSafeInteger parsed) || (parsed <? 1) || (200 <? parsed)
      then invalidCursorOrLimit "limit must be an integer from 1 through 200." else Ok parsed
  end.

Record TimeCardCursor := mkCardCursor { cc_clockInAt : Z; cc_publicId : string }.

Definition cardCursorJson (cursor : TimeCardCursor) : Json :=
  JObj [field "v" (JNum 1); field "clockInAt" (JStr (toISOString (cc_clockInAt cursor)));
        field "publicId" (JStr (cc_publicId cursor))].
Definition encodeTimeCardCursor (cursor : TimeCardCursor) : string := base64url (utf8Bytes (stringify (cardCursorJson cursor))).

Definition parseStoredInstant (value : JsonValue) : option Z :=
  match value with
  | VStr points => text ← pointsText points; _ ← matchInstant text; dateParse text
  | _ => None
  end.

(** What the [try] block of [decodeTimeCardCursor] returns, if it does. *)
Definition readCardCursor (value : string) : option TimeCardCursor :=
  parsed ← decodeJson value;
  clockInValue ← memberOf "clockInAt" parsed;
  clockInAt ← parseStoredInstant clockInValue;
  v ← memberOf "v" parsed;
  version ← safeNatural v;
  publicIdValue ← memberOf "publicId" parsed;
  match publicIdValue with
  | VStr points =>
      publicId ← pointsText points;
      if (version =? 1) && isUuid publicId then Some (mkCardCursor clockInAt publicId) else None
  | _ => None
  end.

Definition decodeTimeCardCursor (value : option string) : Result (option TimeCardCursor) :=
  match truthy value with
  | None => Ok None
  | Some text =>
      if 512 <? strLen text then invalidCursorOrLimit "cursor is invalid."
      else match readCardCursor text with Some cursor => Ok (Some cursor) | None => invalidCursorOrLimit "cursor is invalid." end
  end.

(** [text ? parseTimeCardInstant(text, field) : undefined] *)
Definition instantIfGiven (value : option string) (name : string) : Result (option Z) :=
  match truthy value with Some text => Some <$> parseTimeCardInstant text name | None => Ok None end.

Definition cardWindow (q : TimeCardListQuery) : Result (option Z * option Z) :=
  startDate ← instantIfGiven (cq_startDate q) "startDate";
  endDate ← instantIfGiven (cq_endDate q) "endDate";
  match startDate, endDate with
  | Some s, Some e => if e <=? s then invalidTimeCardInput "endDate must be after startDate." else Ok (startDate, endDate)
  | _, _ => Ok (startDate, endDate)
  end.

Definition requestedPublicUser (current : SessionIdentity) (userId : option string) : option string :=
  match userId with
  | Some u => Some u
  | None => if canViewTeam current then None else Some (si_publicUserId current)
  end.

(** A card at a live location. *)
Definition atPublicLocation (db : Db) (publicId : string) (c : TimeCard) : bool :=
  match tc_locationId c with
  | Some id => existsb (fun l => bool_decide (lo_id l = id) && bool_decide (lo_tenantId l = tc_tenantId c)
                                 && sameUuid (lo_publicId l) publicId && bool_decide (lo_deletedAt l = None)) (db_locations db)
  | None => false
  end.

Definition listedCard (current : SessionIdentity) (q : TimeCardListQuery) (window : option Z * option Z) (db : Db) (c : TimeCard) : bool :=
  bool_decide (tc_tenantId c = si_tenantId current) && bool_decide (tc_deletedAt c = None)
  && match truthy (requestedPublicUser current (cq_userId q)) with Some u => ofPublicUser db u c | None => true end
  && match truthy (cq_locationId q) with Some l => atPublicLocation db l c | None => true end
  && match window.1 with Some s => s <=? tc_clockInAt c | None => true end
  && match window.2 with Some e => tc_clockInAt c <? e | None => true end.

Definition cardKey (c : TimeCard) : PageKey := (tc_clockInAt c, tc_publicId c).
Definition cardCursorKey (cursor : TimeCardCursor) : PageKey := (cc_clockInAt cursor, lowerText (cc_publicId cursor)).

Section CardList.
Context `{Env, Process, AuthorityEnv, CommitEnv}.

(** The rows of the page with their relations, all of which must be there. *)
Definition findCardPage (where_ : Db -> TimeCard -> bool) (cursor : option PageKey) (limit : Z) : Tx (list InternalTimeCard) := fun w =>
  match findPage cardKey (descending keyBefore) (descending compareKeys) where_ cursor limit w with
  | (Ok found, w') => (mapM (selectCard (w_db w)) found, w')
  | (Throw e, w') => (Throw e, w')
  end.

Definition listCards (identity : SessionIdentity) (q : TimeCardListQuery) : Tx (Paged TimeCardRecord) :=
  let identity := operationsIdentity identity in
  _ ← prepareOperationsAuthority identity;
  limit ← liftResult (parseTimeCardLimit (cq_limit q));
  cursor ← liftResult (decodeTimeCardCursor (cq_cursor q));
  window ← liftResult (cardWindow q);
  timeScope identity (fun current =>
    _ ← assertFeatureEntitled (si_tenantId current) time_cards false;
    _ ← assertCurrent;
    _ ← liftResult (assertReadScope current (cq_userId q));
    rows ← findCardPage (listedCard current q window) (cardCursorKey <$> cursor) limit;
    _ ← assertCurrent;
    let page := take (Z.to_nat limit) rows in
    let hasMore := limit <? Z.of_nat (length rows) in
    data ← mapM serialize page;
    mret (mkPaged data (mkPagination limit 200 (Z.of_nat (length page)) hasMore
      (if hasMore then match last page with
                       | Some card => Some (encodeTimeCardCursor (mkCardCursor (tc_clockInAt (ic_row card)) (tc_publicId (ic_row card))))
                       | None => None
                       end else None)
      (toISOString <$> window.1) (toISOString <$> window.2)))).
End CardList.

(** ** Reading the list to its end *)

Lemma uuidChar_hex i c : uuidChar i c = true -> isHex c || bool_decide (c = "-"%char) = true.
Proof.
  unfold uuidChar. destruct (bool_decide (i ∈ _)); [intros ->; apply orb_true_r|].
  destruct (i =? 14)%nat; [|destruct (i =? 19)%nat; [|by intros ->]].
  - unfold isHex, isLowerHex, isDigit. intros H. bools. bool_lia.
  - destruct c as [[] [] [] [] [] [] [] []]; vm_compute; congruence.
Qed.

Lemma isUuid_cursorId s : isUuid s = true -> cursorId s = true.
Proof.
  unfold isUuid, cursorId, allChars. intros [-> H]%andb_true_iff. cbn [andb]. rewrite forallb_forall in H |- *.
  intros c Hc. apply list_elem_of_In, list_elem_of_lookup in Hc as [i Hi]. apply (uuidChar_hex i), (H (i, c)), list_elem_of_In.
  apply list_elem_of_lookup. exists i. by rewrite list_lookup_imap, Hi.
Qed.

Lemma cardCursor_read cursor :
  fourDigitYear (cc_clockInAt cursor) = true -> isUuid (cc_publicId cursor) = true ->
  decodeTimeCardCursor (Some (encodeTimeCardCursor cursor)) = Ok (Some cursor).
Proof.
  intros Hy Hid. unfold encodeTimeCardCursor. set (text := base64url _).
  assert (Hbound : strLen text <= 512) by (apply (instantCursor_short "clockInAt"); [done|cbn; lia|by apply isUuid_cursorId]).
  assert (Hread : readCardCursor text = Some cursor).
  { unfold readCardCursor, text. rewrite decodeJson_encoded. unfold cardCursorJson. rewrite valueOf_kept. cbn [mbind option_bind].
    change (memberOf "v" _) with (Some (VNum 1 0)). change (memberOf "clockInAt" _) with (Some (VStr (codePoints (toISOString (cc_clockInAt cursor))))).
    change (memberOf "publicId" _) with (Some (VStr (codePoints (cc_publicId cursor)))). cbn [mbind option_bind parseStoredInstant].
    rewrite !pointsText_codePoints. cbn [mbind option_bind]. rewrite matchInstant_toISOString, dateParse_toISOString by done. cbn [mbind option_bind].
    rewrite (safeNatural_int 1) by (vm_compute; split; discriminate). cbn [mbind option_bind]. rewrite Hid. by destruct cursor. }
  unfold decodeTimeCardCursor, truthy. destruct (isEmpty text) eqn:Ee; [by apply bool_decide_eq_true in Ee as Et; rewrite Et in Hread|].
  cbn iota. rewrite (proj2 (Z.ltb_ge 512 _)) by done. by rewrite Hread.
Qed.

Lemma parseTimeCardLimit_range value limit : parseTimeCardLimit value = Ok limit -> 1 <= limit <= 200.
Proof.
  unfold parseTimeCardLimit. destruct (truthy value) as [text|]; [|intros [= <-]; lia].
  destruct (_ || _) eqn:E; [done|]. intros [= <-]. apply orb_false_iff in E as [E E3]. apply orb_false_iff in E as [_ E2]. bool_lia.
Qed.

Lemma findCardPage_Ok `{Env} where_ cursor limit l w w' :
  findCardPage where_ cursor limit w = (Ok l, w') -> 0 <= limit ->
  w_db w' = w_db w /\ Forall2 (fun c card => selectCard (w_db w) c = Ok card)
    (pageRows cardKey (descending keyBefore) (descending compareKeys) cursor (Z.to_nat limit)
      (List.filter (where_ (w_db w)) (db_timeCards (w_db w)))) l.
Proof.
  unfold findCardPage. destruct (findPage _ _ _ _ _ _ w) as [[found|e] w1] eqn:E; [|done]. intros [= Hm ->] Hl.
  apply findPage_Ok in E as [-> ->]; [|done]. split; [done|]. by apply mapM_Ok_Forall2.
Qed.

Lemma serializeAll_Ok `{Env} cards es w w' : mapM serialize cards w = (Ok es, w') ->
  Forall2 (fun card e => exists nowMs, serializeTimeCard card nowMs = Ok e) cards es.
Proof.
  revert es w w'. induction cards as [|card cards IH]; intros es w w'.
  - intros [<- _]%Tx_ret_Ok. constructor.
  - cbn [mapM]. intros (e & w1 & (nowMs & w2 & _ & [He _]%liftResult_Ok)%Tx_bind_Ok & (es' & w3 & Hes & [<- _]%Tx_ret_Ok)%Tx_bind_Ok)%Tx_bind_Ok.
    constructor; [by exists nowMs|by eapply IH].
Qed.

(** The columns of stored cards; the cursor of a year beyond four digits would
    not be read back. *)
Definition cardStored (c : TimeCard) : Prop :=
  fourDigitYear (tc_clockInAt c) = true /\ isUuid (tc_publicId c) = true /\ lowerText (tc_publicId c) = tc_publicId c.
Definition cardsStored (db : Db) : Prop := NoDup (map tc_publicId (db_timeCards db)) /\ Forall cardStored (db_timeCards db).

Section Reading.
Context `{Process} (identity actor : SessionIdentity) (q : TimeCardListQuery).

Definition askedCards (limit cursor : option string) : TimeCardListQuery :=
  mkCardQuery (cq_userId q) (cq_locationId q) (cq_startDate q) (cq_endDate q) limit cursor.
Definition cardsAnswered (c : option string) (d : Db) (es : list TimeCardRecord) (next : option string) : Prop :=
  exists (env : Env) (auth : AuthorityEnv) (lost : CommitEnv) limit w w' p,
    (forall current, ActsFor (operationsIdentity identity) current -> current = actor) /\ w_db w = d /\
    listCards (H := env) (H1 := auth) (H2 := lost) identity (askedCards limit c) w = (Ok p, w') /\
    pg_data p = es /\ bp_nextCursor (pg_pagination p) = next.
Definition cardWindowOf : option Z * option Z := match cardWindow q with Ok window => window | Throw _ => (None, None) end.
Definition cardsListed (d : Db) : list TimeCard := List.filter (listedCard actor q cardWindowOf d) (db_timeCards d).
Definition cardShown (d : Db) (c : TimeCard) (e : TimeCardRecord) : Prop :=
  exists card nowMs, selectCard d c = Ok card /\ serializeTimeCard card nowMs = Ok e.
Definition cardKeyOf (cursor : option string) : option PageKey :=
  match decodeTimeCardCursor cursor with Ok c => cardCursorKey <$> c | Throw _ => None end.

Lemma listCards_answers c d es next :
  cardsStored d -> cardsAnswered c d es next ->
  pageAnswer cardKey (descending keyBefore) (descending compareKeys) cardsListed cardShown cardKeyOf c d es next.
Proof.
  intros [_ Hst] (env & auth & lost & limitText & w & w' & p & Hact & <- & Hr & <- & <-). unfold listCards in Hr.
  apply Tx_bind_Ok in Hr as (u & w1 & E1%(ReadOnly_Ok _ _ _ _ (prepareOperationsAuthority_ReadOnly _)) & Hr).
  apply Tx_bind_Ok in Hr as (limit & w2 & [Hlim <-]%liftResult_Ok & Hr). apply parseTimeCardLimit_range in Hlim.
  apply Tx_bind_Ok in Hr as (cursor & w3 & [Hcur <-]%liftResult_Ok & Hr).
  apply Tx_bind_Ok in Hr as (window & w4 & [Hwin <-]%liftResult_Ok & Hr).
  apply timeScope_as in Hr as (current & w5 & w6 & ->%Hact & Hr & E5 & _).
  apply Tx_bind_Ok in Hr as (g & w7 & [E7 _]%assertFeatureEntitled_Ok & Hr).
  apply Tx_bind_Ok in Hr as (u1 & w8 & [_ ->]%assertCurrent_Ok & Hr).
  apply Tx_bind_Ok in Hr as (u2 & w9 & [_ <-]%liftResult_Ok & Hr).
  apply Tx_bind_Ok in Hr as (rows & w10 & Hfound & Hr). apply findCardPage_Ok in Hfound as [_ Hsel]; [|lia].
  apply Tx_bind_Ok in Hr as (u3 & w11 & _ & Hr). cbv zeta in Hr.
  apply Tx_bind_Ok in Hr as (data & w12 & Hd%serializeAll_Ok & [<- _]%Tx_ret_Ok). cbn [pg_data pg_pagination bp_nextCursor].
  assert (Ew : cardWindowOf = window) by (unfold cardWindowOf; unfold cardWindow in *; cbn in Hwin; by rewrite Hwin).
  assert (Edb : w_db (tick w7) = w_db w) by (cbn; congruence). rewrite Edb in Hsel. rewrite <- Ew in Hsel.
  change (List.filter _ _) with (cardsListed (w_db w)) in Hsel.
  assert (Ek : cardKeyOf c = cardCursorKey <$> cursor) by (unfold cardKeyOf; cbn in Hcur; by rewrite Hcur).
  exists (Z.to_nat limit). rewrite Ek. set (found := pageRows _ _ _ _ _ _) in *.
  assert (Hin : forall r, r ∈ found -> r ∈ cardsListed (w_db w)) by (intros r; apply pageRows_elem).
  pose proof (Forall2_length _ _ _ Hsel) as Hlen. split; [lia|]. split.
  - pose proof (Forall2_take _ _ _ (Z.to_nat limit) Hsel) as Hst2.
    assert (Hin2 : forall r, r ∈ take (Z.to_nat limit) found -> r ∈ cardsListed (w_db w)).
    { intros r Hr. apply Hin. rewrite <- (take_drop (Z.to_nat limit) found). apply elem_of_app. by left. }
    revert Hd Hst2 Hin2. generalize (take (Z.to_nat limit) found), (take (Z.to_nat limit) rows). intros l k Hd. revert l.
    induction Hd as [|card e k es He Hd IH]; intros l Hl Hin2; inversion Hl as [|r ? l' ? Hr Hl']; subst; constructor.
    + split; [apply Hin2; set_solver|]. destruct He as [nowMs He]. by exists card, nowMs.
    + apply IH; [done|]. intros x Hx. apply Hin2. set_solver.
  - rewrite <- Hlen. destruct (limit <? Z.of_nat (length found)) eqn:El; bools; [|lia].
    destruct (last (take (Z.to_nat limit) rows)) as [card|] eqn:Ec.
    + split; [lia|]. pose proof (Forall2_take _ _ _ (Z.to_nat limit) Hsel) as Hst2.
      apply last_Some in Ec as [k Ek2]. rewrite Ek2 in Hst2. apply Forall2_app_inv_r in Hst2 as (l1 & l2 & _ & Hl2 & Etake).
      inversion Hl2 as [|x ? l3 ? Hx Hl3]; subst. inversion Hl3; subst. exists x. rewrite Etake, last_snoc. split; [done|].
      apply selectCard_row in Hx as ->. rewrite Forall_forall in Hst. destruct (Hst x) as (Hy & Hid & Hlow).
      { assert (Hxl : x ∈ cardsListed (w_db w)).
        { apply Hin. rewrite <- (take_drop (Z.to_nat limit) found), Etake. set_solver. }
        apply list_elem_of_In, filter_In in Hxl as [Hxl _]. by apply list_elem_of_In. }
      unfold cardKeyOf. rewrite cardCursor_read by done. cbn [fmap option_fmap option_map]. unfold cardCursorKey. cbn [cc_clockInAt cc_publicId].
      by rewrite Hlow.
    + exfalso. apply last_None in Ec. apply (f_equal length) in Ec. rewrite length_take in Ec. cbn in Ec. lia.
Qed.
End Reading.

(** C30: Whoever reads the time cards page by page, with any limits and whatever
    changes between the requests, gets them newest first, no clock-in and
    identifier twice; each entry shows a card the actor could list when its page
    was read, and every card that was there at each request, with the same
    clock-in, is shown; no more requests are needed than entries, and one. *)
Theorem listCards_read_once `{Process} identity actor q ds es :
  Reading (cardsAnswered identity actor q) None ds es -> (forall d, d ∈ ds -> cardsStored d) ->
  readOnce cardKey (descending keyBefore) (cardsListed actor q) cardShown ds es.
Proof.
  intros Hr Hst. eapply (Reading_once _ _ _ _ _ _ cardKeyOf); [done| | |exact Hr].
  - intros d [Hn _]%Hst. unfold cardsListed. revert Hn. generalize (db_timeCards d). intros l.
    induction l as [|c l IH]; [intros _; constructor|]. cbn [map List.filter]. intros [Hc Hn]%NoDup_cons.
    destruct (listedCard _ _ _ _ c); [|by apply IH]. cbn [map]. apply NoDup_cons. split; [|by apply IH].
    intros (x & E & Hx%list_elem_of_In%filter_In)%list_elem_of_fmap. apply Hc. apply (f_equal snd) in E. cbn in E. rewrite E.
    apply list_elem_of_fmap_2, list_elem_of_In, Hx.
  - intros c d es1 next Hd. apply listCards_answers, Hst, Hd.
Qed.

(** ** Concrete instances *)

(** Three days of the sample worker, from eight to four; the third is added
    while the first two are read. *)
Definition dayCard (n : nat) : TimeCard :=
  let start := 115200000 + 86400000 * Z.of_nat n in
  mkTimeCard ("card-" +:+ showNat (Z.of_nat n)) (uuidText n) "t1" "u2" (Some "l1") None None None start (Some (start + 28800000))
    None "UTC" 1 30 None CLOSED start start None.
Definition twoDays : Db := withRows [dayCard 1; dayCard 2] timeDb.
Definition threeDays : Db := withRows [dayCard 1; dayCard 2; dayCard 3] timeDb.

#[local] Notation cardsRun limit c db := (@listCards (calm 600000000) noBeta (actingAs timeWorker) acknowledged timeWorker
  (askedCards (mkCardQuery None None None None None None) limit c) (mkWorld db 0)).
Definition newestCard : Paged TimeCardRecord := Eval vm_compute in pageOf (cardsRun (Some "1") None twoDays).1.
Definition cardCursor : string := Eval vm_compute in default "" (bp_nextCursor (pg_pagination newestCard)).
Definition olderCards : Paged TimeCardRecord := Eval vm_compute in pageOf (cardsRun None (Some cardCursor) threeDays).1.

Example cards_listed :
  map (fun e => (tr_clockInAt e, tr_workedMinutes e)) (pg_data newestCard ++ pg_data olderCards) =
    [("1970-01-04T08:00:00.000Z", 450); ("1970-01-03T08:00:00.000Z", 450)].
Proof. vm_compute. reflexivity. Qed.

Definition workerActor : SessionIdentity := actingIdentity (operationsIdentity timeWorker) timeWorker.

Lemma listCards_read_once_witness :
  readOnce cardKey (descending keyBefore) (cardsListed workerActor (mkCardQuery None None None None None None)) cardShown
    [twoDays; threeDays] (pg_data newestCard ++ pg_data olderCards).
Proof.
  apply (@listCards_read_once noBeta timeWorker).
  - eapply reading_next with (text := cardCursor); [|apply reading_last].
    + exists (calm 600000000), (actingAs timeWorker), acknowledged, (Some "1"), (mkWorld twoDays 0),
        (cardsRun (Some "1") None twoDays).2, newestCard. split_and!;
        [intros current (n & authority & [= <-] & ->); reflexivity|reflexivity|vm_compute; reflexivity|reflexivity|reflexivity].
    + exists (calm 600000000), (actingAs timeWorker), acknowledged, None, (mkWorld threeDays 0),
        (cardsRun None (Some cardCursor) threeDays).2, olderCards. split_and!;
        [intros current (n & authority & [= <-] & ->); reflexivity|reflexivity|vm_compute; reflexivity|reflexivity|reflexivity].
  - intros d [->|[->|[]%not_elem_of_nil]%elem_of_cons]%elem_of_cons;
      (split; [apply (bool_decide_unpack _); vm_compute; exact I|]); repeat constructor; vm_compute; reflexivity.
Defined.
