(* ===== verification/PayrollStore.v ===== *)
(** * The payroll store

    apps/api-v2/src/payroll/payroll.service.ts, the parts its handlers share:
    the scope of a mutation, public identifiers and their resolution, the rows
    as the records of PayrollRecords read them, serialised policies and
    periods, recorded answers and audit rows.

    A mutation runs like a change of a time card ([timeScopeHeld]): authorised
    again in its transaction, repeated once on a serialization conflict, its
    commit possibly not acknowledged. *)

From S2P Require Import Prelude JsStd JsCollections JsDate ContractHelpers TimeZone PayrollDates PayrollRecords.
From S2P Require Import Database FeatureEntitlement Authority ScheduleStore TimeCardPayroll TimeCardStore.

Definition PAYROLL_CONCURRENT_CHANGE : string :=
  "Payroll records changed before the request could be committed. Retry safely.".
Definition PAYROLL_REPLAY_CONFLICT : string := "Idempotency-Key was already used for a different payroll request.".

(** [payrollProblem(status, code, detail, title)] *)
Definition payrollRefused {A} (status : Z) (code detail title : string) : Result A :=
  throwProblem status code detail title.

(** [{ operationId, requestHash }] *)
Definition PayrollRequestIdentity : Type := string * string.

(** ** Public identifiers *)

(** The pattern of [requiredPublicId], which ignores case. *)
Definition isPublicId : string -> bool := isUuid.

(** [resource.replace(/_/g, ' ')] *)
Definition spaced (resource : string) : string :=
  ofChars (map (fun c => if bool_decide (c = "_"%char) then " "%char else c) (chars resource)).

Definition requiredPublicId (value resource : string) : Result string :=
  let id := trim value in
  if isPublicId id then Ok id
  else payrollRefused 404 (resource +:+ "_not_found")
         ("The requested " +:+ spaced resource +:+ " was not found in this workspace.") "Not found".

Definition sameHash (left right : string) : bool := bool_decide (left = right).

(** [values.get(id)], which must be there. *)
Definition requireMapped (values : JsMap string string) (id resource : string) : Result string :=
  match mapGet values id with
  | Some value =>
      if isEmpty value then
        payrollRefused 503 "payroll_reference_integrity_failed" ("Saved " +:+ resource +:+ " reference is unavailable.")
          "Service unavailable"
      else Ok value
  | None => payrollRefused 503 "payroll_reference_integrity_failed" ("Saved " +:+ resource +:+ " reference is unavailable.")
              "Service unavailable"
  end.

(** [ids.filter(Boolean)] *)
Definition presentIds (ids : list (option string)) : list string :=
  flat_map (fun i => match i with Some s => if isEmpty s then [] else [s] | None => [] end) ids.

(** A parsed date that Prisma accepts. *)
Definition prismaDate (value : string) : Result Z :=
  date ← dateOnlyForPrisma value;
  match date with Some t => Ok t | None => Throw (JsError "Provided Date object is invalid.") end.

(** ** Rows as PayrollRecords reads them *)

Definition candidateOf (c : TimeCard) : PayrollCandidateCard :=
  mkCard (tc_id c) (tc_tenantId c) (tc_userId c) (tc_locationId c) (tc_payrollPeriodId c) (tc_workTimeZone c)
    (tc_revision c) (tc_clockInAt c) (tc_clockOutAt c) (tc_breakMinutes c) (tc_status c) (tc_deletedAt c).

Definition windowOf (p : PayrollPeriodRow) : PayrollPeriodWindow := mkWindow (py_id p) (py_startsAt p) (py_endsAt p).

Definition approvalOf (a : PayrollTimeCardApproval) : ApprovalRow :=
  mkApproval (av_tenantId a) (av_periodId a) (av_timeCardId a) (av_timeCardRevision a) (av_decision a).

(** An amendment with the decision the join finds. *)
Definition amendmentOf (decisions : list PayrollAmendmentDecision) (m : PayrollAmendment) : AmendmentRow :=
  mkAmendment (pm_tenantId m) (pm_adjustmentPeriodId m)
    (px_decision <$> List.find (fun d => bool_decide (px_tenantId d = pm_tenantId m)
                                         && bool_decide (px_amendmentId d = pm_id m)) decisions).

Definition summaryTables (db : Db) : SummaryTables :=
  mkTables (map (fun p => (py_tenantId p, py_id p)) (db_periods db)) (map candidateOf (db_timeCards db))
    (map approvalOf (pt_approvals (db_payroll db)))
    (map (amendmentOf (pt_decisions (db_payroll db))) (pt_amendments (db_payroll db)))
    (map (fun e => (pe_tenantId e, pe_periodId e)) (pt_entries (db_payroll db))).

(** ** Serialization *)

Definition cadenceText (c : Cadence) : string := match c with WEEKLY => "WEEKLY" | BIWEEKLY => "BIWEEKLY" end.
Definition orJNum (v : option Z) : Json := match v with Some n => JNum n | None => JNull end.

Definition summaryJson (s : PeriodSummary) : Json :=
  JObj [jInt "cardCount" (su_cardCount s); jInt "closedCardCount" (su_closedCardCount s);
        jInt "approvedCardCount" (su_approvedCardCount s); jInt "rejectedCardCount" (su_rejectedCardCount s);
        jInt "pendingCardCount" (su_pendingCardCount s); jInt "amendmentCount" (su_amendmentCount s);
        jInt "pendingAmendmentCount" (su_pendingAmendmentCount s);
        jInt "approvedAmendmentCount" (su_approvedAmendmentCount s); jInt "lockedEntryCount" (su_lockedEntryCount s)].

(** Stored dates are valid, so [serializeDateOnly] returns. *)
Definition storedDate (t : Z) : string := slice0 10 (toISOString t).

Definition serializePolicy (row : PayrollPolicyVersion) (publicUsers : JsMap string string) : Result Json :=
  createdBy ← requireMapped publicUsers (pv_createdByUserId row) "staff";
  Ok (JObj [jText "id" (pv_publicId row); jInt "version" (pv_version row); jText "timeZone" (pv_timeZone row);
            jText "cadence" (cadenceText (pv_cadence row)); jText "anchorDate" (storedDate (pv_anchorDate row));
            jText "effectiveFrom" (storedDate (pv_effectiveFrom row)); jText "createdByUserId" createdBy;
            jText "createdAt" (toISOString (pv_createdAt row))]).

Definition serializePeriodWith (row : PayrollPeriodRow) (summary : PeriodSummary) (publicPolicies : JsMap string string)
    (exportBatch : Json) : Result Json :=
  policy ← requireMapped publicPolicies (py_policyVersionId row) "payroll policy";
  Ok (JObj [jText "id" (py_publicId row); jText "policyVersionId" policy;
            jText "localStartDate" (storedDate (py_localStartDate row));
            jText "localEndDateExclusive" (storedDate (py_localEndDateExclusive row));
            jText "startsAt" (toISOString (py_startsAt row)); jText "endsAt" (toISOString (py_endsAt row));
            jText "timeZone" (py_timeZone row); jText "cadence" (cadenceText (py_cadence row));
            jText "status" (py_status row); jInt "revision" (py_revision row);
            jOptText "reviewStartedAt" (toISOString <$> py_reviewStartedAt row);
            jOptText "lockedAt" (toISOString <$> py_lockedAt row);
            jOptText "lockedEntrySha256" (py_lockedEntrySha256 row);
            ("lockedEntryCount", Some (orJNum (py_lockedEntryCount row)));
            ("totalPayableMinutes", Some (orJNum (py_totalPayableMinutes row)));
            jText "createdAt" (toISOString (py_createdAt row)); jText "updatedAt" (toISOString (py_updatedAt row));
            ("summary", Some (summaryJson summary)); ("exportBatch", Some exportBatch)]).

(** A period without its export, as every answer but [getPeriod]'s has it. *)
Definition serializePeriod (row : PayrollPeriodRow) (summary : PeriodSummary) (publicPolicies : JsMap string string) : Result Json :=
  serializePeriodWith row summary publicPolicies JNull.

Definition replayOperation (row : PayrollOperation) (requestHash : string) : Result Json :=
  if negb (sameHash (po_requestHash row) requestHash) then
    payrollRefused 409 "idempotency_conflict" PAYROLL_REPLAY_CONFLICT "Conflict"
  else match po_response row with
       | JObj _ => Ok (po_response row)
       | _ => payrollRefused 503 "payroll_replay_unavailable" "Saved payroll replay evidence is invalid." "Service unavailable"
       end.

(** ** The scope *)

Section Scope.
Context `{Env, AuthorityEnv, CommitEnv, Collation}.

Definition applyPayrollTransactionTimeouts : Tx unit := statement.

(** The preflight of [prepareCurrentMutation]: an authorisation in its own
    transaction, the observation of a second factor, and the guard. *)
Definition prepareCurrentMutation (identity : SessionIdentity) : Tx unit :=
  _ ← retryPayrollSerializableMutation (withTenant (si_tenantId identity) (
    _ ← applyPayrollTransactionTimeouts; authorize));
  assertCurrent.

(** [mutation.run(operation)]: the timeouts are set where [timeScopeHeld]
    locates its target; the request's identity stays the actor. *)
Definition mutationRun {A} (identity : SessionIdentity) (operation : Tx A) : Tx A := fun w =>
  let '(r, (w', _)) := timeScopeHeld identity (_ ← applyPayrollTransactionTimeouts; mret None)
    (fun _ _ => held operation) (w, tt) in (r, w').

(** [catch (error) { if (isUniqueConflict(error)) throw conflict; throw error; }] *)
Definition uniqueConflictAs {A} (code detail : string) (m : Tx A) : Tx A := fun w =>
  match m w with
  | (Throw e, w') => if isUniqueConflict e then (payrollRefused 409 code detail "Conflict", w') else (Throw e, w')
  | ok => ok
  end.

(** [findFirst] with an order. *)
Definition findFirstBy {R} `{Table R} (order : R -> R -> Z) (p : R -> bool) : Tx (option R) :=
  query (fun db => Ok (hd_error (sortBy order (List.filter p (rows db))), db)).

(** [findMany] with an order. *)
Definition findManyBy {R} `{Table R} (order : R -> R -> Z) (p : R -> bool) : Tx (list R) :=
  query (fun db => Ok (sortBy order (List.filter p (rows db)), db)).

(** ** Reading *)

(** [publicUsers], [publicPolicies] and the like, by the table they read. *)
Definition publicMap {R} `{Table R} (tenantOf idOf publicOf : R -> string) (tenantId : string)
    (ids : list (option string)) : Tx (JsMap string string) :=
  let uniqueIds := remove_dups (presentIds ids) in
  match uniqueIds with
  | [] => mret []
  | _ =>
      found ← findMany (fun r => bool_decide (tenantOf r = tenantId) && bool_decide (idOf r ∈ uniqueIds));
      mret (mapOf (map (fun r => (idOf r, publicOf r)) found))
  end.

Definition publicUsers : string -> list (option string) -> Tx (JsMap string string) :=
  publicMap us_tenantId us_id us_publicId.
Definition publicPolicies : string -> list (option string) -> Tx (JsMap string string) :=
  publicMap pv_tenantId pv_id pv_publicId.
Definition publicPeriods : string -> list (option string) -> Tx (JsMap string string) :=
  publicMap py_tenantId py_id py_publicId.

(** The parameter [assertCurrent] of the helpers is a no-op by default; an
    empty request skips it. *)
Definition noGuard : Tx unit := mret tt.
Definition guarded (guard : Tx unit) (read : string -> list (option string) -> Tx (JsMap string string)) (tenantId : string)
    (ids : list (option string)) : Tx (JsMap string string) :=
  found ← read tenantId ids;
  _ ← (if bool_decide (presentIds ids = []) then mret tt else guard);
  mret found.

Definition requirePeriodById (tenantId id : string) : Tx PayrollPeriodRow :=
  row ← findFirst (fun p => bool_decide (py_tenantId p = tenantId) && bool_decide (py_id p = id));
  match row with
  | Some p => mret p
  | None => liftResult (payrollRefused 404 "payroll_period_not_found"
              "The requested payroll period was not found in this workspace." "Not found")
  end.

(** A public identifier read in a transaction of its own. *)
Definition resolveId {R} `{Table R} (resource : string) (tenantOf publicOf idOf : R -> string)
    (identity : SessionIdentity) (publicId : string) : Tx string :=
  id ← liftResult (requiredPublicId publicId resource);
  withTenant (si_tenantId identity) (
    row ← findFirst (fun r => bool_decide (tenantOf r = si_tenantId identity) && sameUuid (publicOf r) id);
    match row with
    | Some r => mret (idOf r)
    | None => liftResult (payrollRefused 404 (resource +:+ "_not_found")
                ("The requested " +:+ spaced resource +:+ " was not found in this workspace.") "Not found")
    end).

Definition resolvePeriodId : SessionIdentity -> string -> Tx string :=
  resolveId "payroll_period" py_tenantId py_publicId py_id.
Definition resolveLockedEntryId : SessionIdentity -> string -> Tx string :=
  resolveId "payroll_locked_entry" pe_tenantId pe_publicId pe_id.
Definition resolveAmendmentId : SessionIdentity -> string -> Tx string :=
  resolveId "payroll_amendment" pm_tenantId pm_publicId pm_id.

(** The map keeps the stored spelling, so an identifier spelt otherwise is
    found by the query and missed by the map. *)
Definition resolveTimeCards (identity : SessionIdentity) (publicIds : list string) : Tx (JsMap string string) :=
  ids ← liftResult (mapM (fun publicId => requiredPublicId publicId "time_card") publicIds);
  let uniqueIds := remove_dups ids in
  withTenant (si_tenantId identity) (
    found ← findMany (fun c => bool_decide (tc_tenantId c = si_tenantId identity)
                               && existsb (sameUuid (tc_publicId c)) uniqueIds);
    let byPublicId := mapOf (map (fun c => (tc_publicId c, tc_id c)) found) in
    if existsb (fun publicId => negb (mapHas byPublicId publicId)) uniqueIds then
      liftResult (payrollRefused 404 "time_card_not_found" "One or more time cards were not found in this workspace." "Not found")
    else mret byPublicId).

(** [loadPayrollPeriodSummary] of the tables as they are. *)
Definition loadSummary (tenantId periodId : string) : Tx PeriodSummary :=
  query (fun db => Ok (loadPayrollPeriodSummary (summaryTables db) tenantId periodId, db)).

(** [lockPayrollCandidateCards], the text order being the database's. *)
Definition lockCandidateCards (tenantId : string) (period : PayrollPeriodRow) : Tx (list PayrollCandidateCard) :=
  query (fun db => match @lockPayrollCandidateCards collate (map candidateOf (db_timeCards db)) tenantId (windowOf period) with
                   | Ok cards => Ok (cards, db)
                   | Throw e => Throw e
                   end).

Definition findOperation (operationId : string) : Tx (option PayrollOperation) :=
  findFirst (fun o => bool_decide (po_operationId o = operationId)).

(** The answer recorded under the operation, or what the request does. *)
Definition replayOr (request : PayrollRequestIdentity) (operation : Tx Json) : Tx Json :=
  replay ← findOperation request.1;
  match replay with
  | Some row => liftResult (replayOperation row request.2)
  | None => operation
  end.

(** ** Writing *)

Definition recordOperation (request : PayrollRequestIdentity) (tenantId periodId : string) (kind : PayrollOperationName)
    (response : Json) : Tx unit :=
  createRow (mkOperation request.1 tenantId (Some periodId) kind request.2 response).

(** The columns [actorUserId] and [actorTenantId] repeat the first two. *)
Definition writePayrollAudit (actor : SessionIdentity) (action resource resourceId : string) (oldValue newValue : option Json)
    : Tx unit :=
  id ← randomUUID;
  createRow (mkAudit id (si_tenantId actor) (Some (si_sub actor)) action resource (Some resourceId) oldValue newValue None None).

(** The end of a request about a period: its answer recorded and audited. *)
Definition answerWith (identity : SessionIdentity) (request : PayrollRequestIdentity) (periodId : string)
    (kind : PayrollOperationName) (action : string) (oldValue : Result (option Json)) (response : Json) : Tx Json :=
  _ ← assertCurrent;
  _ ← recordOperation request (si_tenantId identity) periodId kind response;
  _ ← assertCurrent;
  old ← liftResult oldValue;
  _ ← writePayrollAudit identity action "PayrollPeriod" periodId old (Some response);
  _ ← assertCurrent;
  mret response.
End Scope.

(** ** What a handler can come to *)

(** The answer [response] was recorded under the request. *)
Definition operationRow (request : PayrollRequestIdentity) (tenantId periodId : string) (kind : PayrollOperationName) (response : Json)
    : PayrollOperation := mkOperation request.1 tenantId (Some periodId) kind request.2 response.

(** The answer was recorded and one audit row appended. *)
Definition answered (request : PayrollRequestIdentity) (tenantId periodId : string) (kind : PayrollOperationName)
    (action : string) (response : Json) (db db' : Db) : Prop :=
  exists a, al_action a = action /\
    db' = withRows (db_audits db ++ [a])
      (withRows (pt_operations (db_payroll db) ++ [operationRow request tenantId periodId kind response]) db).

(** What a request of the payroll service that records its answer came to:
    the recorded answer again, or [C]. *)
Inductive Recorded (request : PayrollRequestIdentity) (C : Json -> Db -> Prop) (db : Db) : Json -> Db -> Prop :=
  | recorded_replayed o :
      o ∈ pt_operations (db_payroll db) -> po_operationId o = request.1 -> po_requestHash o = request.2 ->
      Recorded request C db (po_response o) db
  | recorded_now response db' :
      (forall o, o ∈ pt_operations (db_payroll db) -> po_operationId o <> request.1) -> C response db' ->
      Recorded request C db response db'.

(** From the database [db], the handler is refused and changes nothing, or it
    committed [C], whether or not its answer was received. *)
Definition OutcomeAt (db : Db) {A} (m : Tx A) (C : A -> Db -> Prop) : Prop :=
  forall w r w', w_db w = db -> m w = (r, w') ->
    w_db w' = db /\ (exists e, r = Throw e) \/
    exists a, C a (w_db w') /\ (r = Ok a \/ exists e, r = Throw e).

Section Outcomes.
Context `{Env, AuthorityEnv, CommitEnv}.

Lemma OutcomeAt_bind {A B} db (m : Tx A) (f : A -> Tx B) C :
  ReadOnly m -> (forall w a w', w_db w = db -> m w = (Ok a, w') -> OutcomeAt db (f a) C) -> OutcomeAt db (m ≫= f) C.
Proof.
  intros Hm Hf w r w' Hw. unfold mbind, Tx_bind. pose proof (Hm w) as Hro.
  destruct (m w) as [[a|e] w1] eqn:E; cbn in Hro.
  - intros Hr. eapply (Hf w a w1 Hw E w1 r w'); [congruence|done].
  - intros [= <- <-]. left. split; [congruence|by exists e].
Qed.

Lemma OutcomeAt_impl {A} db (m : Tx A) (C D : A -> Db -> Prop) :
  OutcomeAt db m C -> (forall a db', C a db' -> D a db') -> OutcomeAt db m D.
Proof. intros Hm Hi w r w' Hw E. destruct (Hm w r w' Hw E) as [?|(a & ? & ?)]; [by left|right; eauto]. Qed.

Lemma OutcomeAt_conflict {A} db code detail (m : Tx A) C :
  OutcomeAt db m C -> OutcomeAt db (uniqueConflictAs code detail m) C.
Proof.
  intros Hm w r w' Hw E. unfold uniqueConflictAs in E. destruct (m w) as [[a|e] w1] eqn:Em.
  - injection E as <- <-. by apply (Hm w).
  - destruct (Hm w _ _ Hw Em) as [[Hdb _]|(a & Ha & _)].
    + left. destruct (isUniqueConflict e); injection E as <- <-; (split; [done|eexists; reflexivity]).
    + right. exists a. destruct (isUniqueConflict e); injection E as <- <-; (split; [done|right; eexists; reflexivity]).
Qed.

(** What the handler wrote in the transaction that committed. *)
Definition CommittedAt {A} (db : Db) (operation : Tx A) (a : A) (db' : Db) : Prop :=
  exists w1 w2, w_db w1 = db /\ operation w1 = (Ok a, w2) /\ db' = w_db w2 /\ cardsExclusive (db_timeCards db') = true.

Lemma timeouts_ReadOnly : ReadOnly (_ ← applyPayrollTransactionTimeouts; mret (None : option string)).
Proof. apply ReadOnly_bind; [apply statement_ReadOnly|]. intros _. apply ReadOnly_ret. Qed.

Lemma mutationRun_outcome {A} db identity (operation : Tx A) :
  OutcomeAt db (mutationRun identity operation) (CommittedAt db operation).
Proof.
  intros w r w' <-. unfold mutationRun. destruct (timeScopeHeld _ _ _ _) as [r1 [w1 []]] eqn:E. intros [= -> ->].
  apply timeScopeHeld_cases in E as ([] & _ & Ha); [|apply timeouts_ReadOnly].
  assert (Hran : forall a w2 v2, Ran identity (_ ← applyPayrollTransactionTimeouts; mret None)
      (fun (_ : SessionIdentity) (_ : option string) => held operation) (w_db w) tt (Ok a) w2 v2 ->
      cardsExclusive (db_timeCards (w_db w2)) = true -> CommittedAt (w_db w) operation a (w_db w2)).
  { intros a w2 v2 (current & target & w0 & w0' & w1 & _ & _ & _ & E1 & Eo) Hx. exists w1, w2.
    unfold held in Eo. destruct (operation w1). by injection Eo as -> -> _. }
  inversion Ha as [e|? e ? ? _|a w2 v2 HR Hx|a e w2 v2 HR Hx _]; subst.
  - left. split; [done|by exists e].
  - left. split; [done|by exists e].
  - right. exists a. split; [by eapply Hran|by left].
  - right. exists a. split; [by eapply Hran|right; by exists e].
Qed.

(** A handler that only reads in its transaction changes nothing. *)
Lemma mutationRun_ReadOnly {A} identity (operation : Tx A) : ReadOnly operation -> ReadOnly (mutationRun identity operation).
Proof.
  intros Hro w. destruct (mutationRun identity operation w) as [r w'] eqn:E. cbn.
  destruct (mutationRun_outcome (w_db w) identity operation w r w' eq_refl E) as [[-> _]|(a & (w1 & w2 & <- & Ho & -> & _) & _)]; [done|].
  by eapply ReadOnly_Ok.
Qed.

Lemma prepareCurrentMutation_ReadOnly identity : ReadOnly (prepareCurrentMutation identity).
Proof.
  assert (Ha : ReadOnly (_ ← applyPayrollTransactionTimeouts; authorize)).
  { apply ReadOnly_bind; [apply statement_ReadOnly|]. intros _. apply authorize_ReadOnly. }
  apply ReadOnly_bind; [|intros _; apply ReadOnly_current]. intros w.
  destruct (retryPayrollSerializableMutation _ w) as [[a|e] w'] eqn:E; cbn.
  - apply retry_Ok in E as [E|(e & w1 & E1 & E2)].
    + apply withTenant_Ok in E as (wi & wo & <- & E & ->). by eapply ReadOnly_Ok.
    + apply withTenant_rollback in E1. apply withTenant_Ok in E2 as (wi & wo & Ei & E2 & ->).
      rewrite (ReadOnly_Ok _ _ _ _ Ha E2). congruence.
  - eapply retry_Throw; [|exact E]. intros. by eapply withTenant_rollback.
Qed.

(** ** The reads leave the database alone *)

Lemma withTenant_ReadOnly {A} tenantId (m : Tx A) : ReadOnly m -> ReadOnly (withTenant tenantId m).
Proof.
  intros Hm w. destruct (withTenant tenantId m w) as [[a|e] w'] eqn:E; cbn.
  - apply withTenant_Ok in E as (w1 & w2 & <- & E & ->). by eapply ReadOnly_Ok.
  - by eapply withTenant_rollback.
Qed.

Lemma lockPayrollTenant_ReadOnly tenantId : ReadOnly (lockPayrollTenant tenantId).
Proof. apply statement_ReadOnly. Qed.
Lemma lockPayrollPeriod_ReadOnly tenantId periodId : ReadOnly (lockPayrollPeriod tenantId periodId).
Proof. apply statement_ReadOnly. Qed.

Lemma findFirstBy_ReadOnly {R} `{Table R} order (p : R -> bool) : ReadOnly (findFirstBy order p).
Proof. apply ReadOnly_read. Qed.
Lemma findManyBy_ReadOnly {R} `{Table R} order (p : R -> bool) : ReadOnly (findManyBy order p).
Proof. apply ReadOnly_read. Qed.

Lemma publicMap_ReadOnly {R} `{Table R} (tenantOf idOf publicOf : R -> string) tenantId ids :
  ReadOnly (publicMap tenantOf idOf publicOf tenantId ids).
Proof. unfold publicMap. destruct (remove_dups _); eauto with readonly. Qed.

Lemma publicUsers_ReadOnly tenantId ids : ReadOnly (publicUsers tenantId ids).
Proof. apply publicMap_ReadOnly. Qed.
Lemma publicPolicies_ReadOnly tenantId ids : ReadOnly (publicPolicies tenantId ids).
Proof. apply publicMap_ReadOnly. Qed.
Lemma publicPeriods_ReadOnly tenantId ids : ReadOnly (publicPeriods tenantId ids).
Proof. apply publicMap_ReadOnly. Qed.

Lemma noGuard_ReadOnly : ReadOnly noGuard.
Proof. apply ReadOnly_ret. Qed.
Lemma guarded_ReadOnly guard read tenantId ids :
  ReadOnly guard -> ReadOnly (read tenantId ids) -> ReadOnly (guarded guard read tenantId ids).
Proof.
  intros Hg Hr. apply ReadOnly_bind; [done|]. intros found. case_bool_decide; eauto with readonly.
Qed.
Lemma requirePeriodById_ReadOnly tenantId id : ReadOnly (requirePeriodById tenantId id).
Proof. apply ReadOnly_bind; [apply ReadOnly_findFirst|]. intros [p|]; eauto with readonly. Qed.

Lemma resolveId_ReadOnly {R} `{Table R} resource (tenantOf publicOf idOf : R -> string) identity publicId :
  ReadOnly (resolveId resource tenantOf publicOf idOf identity publicId).
Proof.
  apply ReadOnly_bind; [apply ReadOnly_lift|]. intros id. apply withTenant_ReadOnly.
  apply ReadOnly_bind; [apply ReadOnly_findFirst|]. intros [r|]; eauto with readonly.
Qed.
Lemma resolvePeriodId_ReadOnly identity publicId : ReadOnly (resolvePeriodId identity publicId).
Proof. apply resolveId_ReadOnly. Qed.

Lemma resolveTimeCards_ReadOnly identity publicIds : ReadOnly (resolveTimeCards identity publicIds).
Proof.
  apply ReadOnly_bind; [apply ReadOnly_lift|]. intros ids. apply withTenant_ReadOnly.
  apply ReadOnly_bind; [apply ReadOnly_findMany|]. intros found. cbv zeta. destruct (existsb _ _); eauto with readonly.
Qed.

Lemma loadSummary_ReadOnly tenantId periodId : ReadOnly (loadSummary tenantId periodId).
Proof. apply ReadOnly_read. Qed.
Lemma findOperation_ReadOnly operationId : ReadOnly (findOperation operationId).
Proof. apply ReadOnly_findFirst. Qed.
End Outcomes.

Lemma lockCandidateCards_ReadOnly `{Env, Collation} tenantId period : ReadOnly (lockCandidateCards tenantId period).
Proof. intros w. unfold lockCandidateCards, query. destruct (faultAt _); [done|]. by destruct (lockPayrollCandidateCards _ _ _). Qed.

#[export] Hint Resolve lockPayrollTenant_ReadOnly lockPayrollPeriod_ReadOnly findFirstBy_ReadOnly findManyBy_ReadOnly
  publicUsers_ReadOnly publicPolicies_ReadOnly publicPeriods_ReadOnly requirePeriodById_ReadOnly resolveId_ReadOnly
  resolvePeriodId_ReadOnly resolveTimeCards_ReadOnly loadSummary_ReadOnly findOperation_ReadOnly
  lockCandidateCards_ReadOnly prepareCurrentMutation_ReadOnly withTenant_ReadOnly noGuard_ReadOnly guarded_ReadOnly : readonly.

(** ** Stepping through a handler that returned *)

Section StoreFacts.
Context `{Env, Collation}.

Lemma findFirstBy_Ok {R} `{Table R} order (p : R -> bool) r w w' :
  findFirstBy order p w = (Ok r, w') ->
  w_db w' = w_db w /\
  match r with
  | Some x => exists rest, sortBy order (List.filter p (rows (w_db w))) = x :: rest
  | None => forall x, x ∈ rows (w_db w) -> p x = false
  end.
Proof.
  intros (_ & db & [= <- <-] & ->)%query_Ok. split; [done|].
  destruct (sortBy order _) as [|x rest] eqn:E; cbn; [|by exists rest].
  intros x Hx. destruct (p x) eqn:Ep; [|done]. exfalso.
  assert (Hin : x ∈ sortBy order (List.filter p (rows (w_db w)))).
  { apply sortBy_elem, list_elem_of_In, filter_In. split; [by apply list_elem_of_In|done]. }
  rewrite E in Hin. set_solver.
Qed.

Lemma findManyBy_Ok {R} `{Table R} order (p : R -> bool) l w w' :
  findManyBy order p w = (Ok l, w') -> w_db w' = w_db w /\ l = sortBy order (List.filter p (rows (w_db w))).
Proof. intros (_ & db & [= <- <-] & ->)%query_Ok. done. Qed.

Lemma requirePeriodById_Ok tenantId id p w w' :
  requirePeriodById tenantId id w = (Ok p, w') ->
  w_db w' = w_db w /\ p ∈ db_periods (w_db w) /\ py_tenantId p = tenantId /\ py_id p = id /\
  List.find (fun p => bool_decide (py_tenantId p = tenantId) && bool_decide (py_id p = id)) (db_periods (w_db w)) = Some p.
Proof.
  unfold requirePeriodById. intros (o & w1 & [-> E1]%findFirst_Ok & Hr)%Tx_bind_Ok.
  destruct (List.find _ _) as [q|] eqn:Ef; [|by apply liftResult_Ok in Hr as [? _]].
  apply Tx_ret_Ok in Hr as [<- <-]. split; [done|]. pose proof Ef as Ef'. apply find_some in Ef' as [Hin Hp].
  apply andb_true_iff in Hp as [Ht%bool_decide_eq_true Hi%bool_decide_eq_true].
  split; [by apply list_elem_of_In|]. done.
Qed.

Lemma writePayrollAudit_Ok actor action resource resourceId old new u w w' :
  writePayrollAudit actor action resource resourceId old new w = (Ok u, w') ->
  exists a, al_action a = action /\ al_tenantId a = si_tenantId actor /\ al_userId a = Some (si_sub actor) /\
    al_resource a = resource /\ al_resourceId a = Some resourceId /\ al_oldValue a = old /\ al_newValue a = new /\
    w_db w' = withRows (db_audits (w_db w) ++ [a]) (w_db w).
Proof.
  unfold writePayrollAudit. intros (id & w1 & [-> ->]%randomUUID_Ok & [_ E]%createRow_Ok)%Tx_bind_Ok.
  eexists. by split_and!; [..|exact E].
Qed.

Lemma answerWith_Ok identity request periodId kind action oldValue response r w w' :
  answerWith identity request periodId kind action oldValue response w = (Ok r, w') ->
  r = response /\ answered request (si_tenantId identity) periodId kind action response (w_db w) (w_db w').
Proof.
  unfold answerWith. intros (? & ? & [_ ->]%assertCurrent_Ok & Hr)%Tx_bind_Ok.
  apply Tx_bind_Ok in Hr as (? & w1 & [_ E1]%createRow_Ok & Hr).
  apply Tx_bind_Ok in Hr as (? & ? & [_ ->]%assertCurrent_Ok & Hr).
  apply Tx_bind_Ok in Hr as (? & ? & [_ <-]%liftResult_Ok & Hr).
  apply Tx_bind_Ok in Hr as (? & w2 & (a & Ha & _ & _ & _ & _ & _ & _ & E2)%writePayrollAudit_Ok & Hr).
  apply Tx_bind_Ok in Hr as (? & ? & [_ ->]%assertCurrent_Ok & [<- <-]%Tx_ret_Ok). split; [done|].
  exists a. split; [done|]. cbn [w_db tick] in *. rewrite E2, E1. destruct (w_db w) as [? ? ? ? ? ? ? ? ? ? ? ? ? ? ? ? []]. done.
Qed.

Lemma lockCandidateCards_Ok tenantId period cards w w' :
  lockCandidateCards tenantId period w = (Ok cards, w') ->
  w_db w' = w_db w /\
  @lockPayrollCandidateCards collate (map candidateOf (db_timeCards (w_db w))) tenantId (windowOf period) = Ok cards.
Proof.
  intros (_ & db & Hq & ->)%query_Ok. destruct (lockPayrollCandidateCards _ _ _) as [l|e]; [|done].
  by injection Hq as <- <-.
Qed.

Lemma replayOperation_Ok row hash response :
  replayOperation row hash = Ok response -> po_requestHash row = hash /\ po_response row = response.
Proof.
  unfold replayOperation, sameHash. case_bool_decide; [|done]. cbn. destruct (po_response row); try done. by intros [= <-].
Qed.

(** An operation that returned replayed its recorded answer and changed
    nothing, or is new and ran. *)
Lemma replayOrOperation_Ok request (operation : Tx Json) response w w' :
  replayOr request operation w = (Ok response, w') ->
  (w_db w' = w_db w /\ exists row, row ∈ pt_operations (db_payroll (w_db w)) /\ po_operationId row = request.1 /\
     po_requestHash row = request.2 /\ po_response row = response) \/
  (forall row, row ∈ pt_operations (db_payroll (w_db w)) -> po_operationId row <> request.1) /\
  exists w1, w_db w1 = w_db w /\ operation w1 = (Ok response, w').
Proof.
  unfold replayOr. intros (o & w1 & [-> E1]%findFirst_Ok & Hr)%Tx_bind_Ok.
  destruct (List.find _ _) as [row|] eqn:Ef.
  - left. apply liftResult_Ok in Hr as [[Hh Hres]%replayOperation_Ok <-]. split; [done|]. exists row.
    apply find_some in Ef as [Hin Hid%bool_decide_eq_true]. split; [by apply list_elem_of_In|done].
  - right. split; [|by exists w1]. intros row Hin Hid.
    eapply find_none in Ef; [|by apply list_elem_of_In]. by rewrite bool_decide_true in Ef.
Qed.
End StoreFacts.

(** What a call that only reads leaves: [E' : w_db w1 = w_db w]. *)
Ltac read_only E E' :=
  let Hro := fresh in
  match type of E with ?m ?w = (Ok _, _) =>
    assert (Hro : ReadOnly m) by (solve [eauto 6 with readonly]);
    pose proof (ReadOnly_Ok m _ w _ Hro E) as E'; clear Hro
  end.

(** [H] is a run from a database equal to [db] by [Hdb]; the next call only
    reads and returns [a]. *)
Ltac pass_read H Hdb a :=
  let w1 := fresh "wx" in let E := fresh "Ex" in let E' := fresh "E'" in
  apply Tx_bind_Ok in H as (a & w1 & E & H); read_only E E';
  rewrite Hdb in E'; clear Hdb; rename E' into Hdb; clear E.

(** The same, keeping what the call returned. *)
Ltac keep_read H Hdb a E :=
  let w1 := fresh "wx" in let E' := fresh "E'" in
  apply Tx_bind_Ok in H as (a & w1 & E & H); read_only E E';
  rewrite Hdb in E'; clear Hdb; rename E' into Hdb.

Ltac skip_read H Hdb := let a := fresh "u" in pass_read H Hdb a.
