(* ===== verification/PayrollPolicies.v ===== *)
(** * Payroll policies and periods

    [createPolicy], [latestPolicy] and [createPeriod] of
    apps/api-v2/src/payroll/payroll.service.ts: policies are appended, each
    taking over from the one before at an aligned later date in the same time
    zone; periods are cut from the policy in force and never overlap. *)

From S2P Require Import Prelude JsStd JsCollections JsDate ContractHelpers TimeZone PayrollDates PayrollRecords.
From S2P Require Import Database FeatureEntitlement Authority ScheduleStore TimeCardPayroll TimeCardStore PayrollStore.

(** ** Policies *)

(** [orderBy: [{ version: 'desc' }, { publicId: 'desc' }]] *)
Definition policyNewest (l r : PayrollPolicyVersion) : Z :=
  orElse (pv_version r - pv_version l) (compareText (pv_publicId r) (pv_publicId l)).

Definition ofTenant (tenantId : string) (p : PayrollPolicyVersion) : bool := bool_decide (pv_tenantId p = tenantId).

(** The normalised policy, as it is hashed. *)
Definition policyBody (p : PayrollPolicy) : Json :=
  JObj [jText "timeZone" (pp_timeZone p); jText "cadence" (cadenceText (pp_cadence p));
        jText "anchorDate" (pp_anchorDate p); jText "effectiveFrom" (pp_effectiveFrom p)].

(** The row [create] stores, its defaults filled in. *)
Definition policyRow (id publicId : string) (createdAt : Z) (identity : SessionIdentity) (version : Z) (policy : PayrollPolicy)
    (anchorDate effectiveFrom : Z) (request : PayrollRequestIdentity) : PayrollPolicyVersion :=
  mkPolicyVersion id publicId (si_tenantId identity) version (pp_timeZone policy) (pp_cadence policy) anchorDate
    effectiveFrom request.1 request.2 (si_sub identity) createdAt.

Section Policies.
Context `{Env, AuthorityEnv, CommitEnv, Collation, Intl, LocaleCompare, Sha256}.

Definition replayPolicy (identity : SessionIdentity) (requestHash : string) (replay : PayrollPolicyVersion) : Tx Json :=
  if negb (bool_decide (pv_tenantId replay = si_tenantId identity)) || negb (sameHash (pv_requestHash replay) requestHash) then
    liftResult (payrollRefused 409 "idempotency_conflict" PAYROLL_REPLAY_CONFLICT "Conflict")
  else
    users ← publicUsers (si_tenantId identity) [Some (pv_createdByUserId replay)];
    liftResult (serializePolicy replay users).

(** What the new policy must satisfy beside the latest. *)
Definition checkPolicyBoundary (latest : option PayrollPolicyVersion) (policy : PayrollPolicy) : Tx unit :=
  match latest with
  | None => mret tt
  | Some l =>
      if 0 <=? compareText (storedDate (pv_effectiveFrom l)) (pp_effectiveFrom policy) then
        liftResult (payrollRefused 409 "payroll_policy_boundary_conflict"
          "effectiveFrom must be after the latest payroll policy boundary." "Conflict")
      else
        nowMs ← now;
        _ ← liftResult (assertFutureEffectiveBoundary policy nowMs);
        if negb (bool_decide (pv_timeZone l = pp_timeZone policy)) then
          liftResult (payrollRefused 422 "payroll_policy_timezone_immutable"
            "Payroll policy timezone cannot change after version 1." "Payroll validation failed")
        else liftResult (assertPayrollAnchorAlignment (pp_effectiveFrom policy) (storedDate (pv_anchorDate l)) (pv_cadence l))
  end.

Definition insertPolicy (identity : SessionIdentity) (latest : option PayrollPolicyVersion) (policy : PayrollPolicy)
    (request : PayrollRequestIdentity) : Tx PayrollPolicyVersion :=
  anchorDate ← liftResult (prismaDate (pp_anchorDate policy));
  effectiveFrom ← liftResult (prismaDate (pp_effectiveFrom policy));
  id ← randomUUID;
  publicId ← randomUUID;
  createdAt ← now;
  let version := match latest with Some l => pv_version l | None => 0 end + 1 in
  let row := policyRow id publicId createdAt identity version policy anchorDate effectiveFrom request in
  _ ← createRow row;
  mret row.

Definition createPolicyInScope (identity : SessionIdentity) (policy : PayrollPolicy) (request : PayrollRequestIdentity)
    : Tx Json :=
  _ ← lockPayrollTenant (si_tenantId identity);
  replay ← findFirst (fun p => bool_decide (pv_operationId p = request.1));
  match replay with
  | Some row => replayPolicy identity request.2 row
  | None =>
      latest ← findFirstBy policyNewest (ofTenant (si_tenantId identity));
      _ ← checkPolicyBoundary latest policy;
      _ ← assertCurrent;
      created ← insertPolicy identity latest policy request;
      _ ← assertCurrent;
      users ← publicUsers (si_tenantId identity) [Some (si_sub identity)];
      response ← liftResult (serializePolicy created users);
      _ ← assertCurrent;
      _ ← writePayrollAudit identity "PAYROLL_POLICY_VERSION_CREATED" "PayrollPolicyVersion" (pv_id created) None (Some response);
      _ ← assertCurrent;
      mret response
  end.

Definition createPolicy (identity : SessionIdentity) (body : PayrollPolicy) (idempotencyKeyRaw : option string) : Tx Json :=
  let identity := operationsIdentity identity in
  _ ← prepareCurrentMutation identity;
  policy ← liftResult (normalizePayrollPolicy body);
  _ ← liftResult (assertPayrollAnchorAlignment (pp_effectiveFrom policy) (pp_anchorDate policy) (pp_cadence policy));
  idempotencyKey ← liftResult (normalizeIdempotencyKey idempotencyKeyRaw);
  let request := payrollRequestIdentity (si_tenantId identity) (si_sub identity) POLICY_CREATE idempotencyKey (policyBody policy) in
  uniqueConflictAs "payroll_policy_boundary_conflict" "Payroll policy version conflicts with an existing boundary."
    (mutationRun identity (createPolicyInScope identity policy request)).

Definition latestPolicy (identity : SessionIdentity) : Tx (option Json) :=
  let identity := operationsIdentity identity in
  _ ← prepareCurrentMutation identity;
  mutationRun identity (
    row ← findFirstBy policyNewest (ofTenant (si_tenantId identity));
    _ ← assertCurrent;
    match row with
    | None => mret None
    | Some row =>
        users ← publicUsers (si_tenantId identity) [Some (pv_createdByUserId row)];
        _ ← assertCurrent;
        data ← liftResult (serializePolicy row users);
        mret (Some data)
    end).

(** ** Periods *)

(** [orderBy: [{ effectiveFrom: 'desc' }, { version: 'desc' }]]: [policyOrder]. *)
Definition effectivePolicy (tenantId : string) (date : Z) : Tx (option PayrollPolicyVersion) :=
  findFirstBy policyOrder (fun p => ofTenant tenantId p && (pv_effectiveFrom p <=? date)).

Definition overlapsPeriod (tenantId : string) (boundaries : PeriodBoundaries) (p : PayrollPeriodRow) : bool :=
  bool_decide (py_tenantId p = tenantId) && (py_startsAt p <? pb_endsAt boundaries) && (pb_startsAt boundaries <? py_endsAt p).

(** The row [create] stores, its defaults filled in. *)
Definition periodRow (id publicId : string) (createdAt : Z) (tenantId : string) (policy : PayrollPolicyVersion)
    (boundaries : PeriodBoundaries) (localStart localEnd : Z) : PayrollPeriodRow :=
  mkPeriodRow id publicId tenantId (pv_id policy) localStart localEnd (pb_startsAt boundaries) (pb_endsAt boundaries)
    (pv_timeZone policy) (pv_cadence policy) "OPEN" 0 None None None None None None None None None createdAt createdAt.

Definition insertPeriod (tenantId : string) (policy : PayrollPolicyVersion) (boundaries : PeriodBoundaries) : Tx PayrollPeriodRow :=
  localStart ← liftResult (prismaDate (pb_localStartDate boundaries));
  localEnd ← liftResult (prismaDate (pb_localEndDateExclusive boundaries));
  id ← randomUUID;
  publicId ← randomUUID;
  createdAt ← now;
  let row := periodRow id publicId createdAt tenantId policy boundaries localStart localEnd in
  _ ← createRow row;
  mret row.

Definition createPeriodInScope (identity : SessionIdentity) (localStartDate : string) (request : PayrollRequestIdentity)
    : Tx Json :=
  _ ← lockPayrollTenant (si_tenantId identity);
  replayOr request (
    date ← liftResult (prismaDate localStartDate);
    policy ← effectivePolicy (si_tenantId identity) date;
    match policy with
    | None =>
        liftResult (payrollRefused 422 "payroll_policy_missing" "No payroll policy is effective for localStartDate."
          "Payroll validation failed")
    | Some policy =>
        boundaries ← liftResult (payrollPeriodBoundaries localStartDate
          (mkPayrollPolicy (pv_timeZone policy) (pv_cadence policy) (storedDate (pv_anchorDate policy))
             (storedDate (pv_effectiveFrom policy))));
        overlap ← findFirst (overlapsPeriod (si_tenantId identity) boundaries);
        match overlap with
        | Some _ => liftResult (payrollRefused 409 "payroll_period_overlap" "Payroll period overlaps an existing period." "Conflict")
        | None =>
            _ ← assertCurrent;
            created ← insertPeriod (si_tenantId identity) policy boundaries;
            _ ← assertCurrent;
            response ← liftResult (serializePeriod created emptySummary [(pv_id policy, pv_publicId policy)]);
            answerWith identity request (py_id created) PERIOD_CREATE "PAYROLL_PERIOD_CREATED" (Ok None) response
        end
    end).

Definition createPeriod (identity : SessionIdentity) (localStartDate : string) (idempotencyKeyRaw : option string) : Tx Json :=
  let identity := operationsIdentity identity in
  _ ← prepareCurrentMutation identity;
  idempotencyKey ← liftResult (normalizeIdempotencyKey idempotencyKeyRaw);
  let request := payrollRequestIdentity (si_tenantId identity) (si_sub identity) PERIOD_CREATE idempotencyKey
    (JObj [jText "localStartDate" localStartDate]) in
  uniqueConflictAs "payroll_period_conflict" "Payroll period conflicts with an existing period."
    (mutationRun identity (createPeriodInScope identity localStartDate request)).
End Policies.

(** ** Stored dates are days *)

(** [t] is the midnight, in UTC, of the day [n] of a year the dates of
    payroll admit. *)
Definition storedDay (t n : Z) : Prop := t = n * msPerDay /\ 100 <= yearFromDay n <= 9999.

Lemma normalizeDateOnly_dayText value field date :
  normalizeDateOnly value field = Ok date -> exists n, 100 <= yearFromDay n <= 9999 /\ date = dayText n.
Proof.
  intros (_ & y & m & d & Hy & Hr & ->)%normalizeDateOnly_Ok. exists (makeDay y (m - 1) d).
  destruct (fields_makeDay y (m - 1) d) as (E1 & E2 & E3); [destruct Hr; lia..|].
  split; [lia|]. unfold dayText. rewrite E1, E2, E3. f_equal. lia.
Qed.

Lemma toISOString_day n : 0 <= yearFromDay n <= 9999 -> toISOString (n * msPerDay) = dayText n +:+ "T00:00:00.000Z".
Proof.
  intros Hy. unfold toISOString.
  assert (Hd : isoDate (n * msPerDay) = dayText n).
  { unfold isoDate, getUTCFullYear, getUTCMonth, getUTCDate, dayText, dateText. rewrite msPerDay_mul.
    unfold showYear. by rewrite (proj2 (andb_true_iff _ _)) by (split; bool_lia). }
  assert (Ht : isoTime (n * msPerDay) = "00:00:00.000Z").
  { assert (H1 : getUTCHours (n * msPerDay) = 0) by (unfold getUTCHours; by rewrite Z.mod_mul by done).
    assert (H2 : getUTCMinutes (n * msPerDay) = 0).
    { unfold getUTCMinutes. replace (n * msPerDay) with (n * 24 * 3600000) by (unfold msPerDay; lia). by rewrite Z.mod_mul. }
    assert (H3 : getUTCSeconds (n * msPerDay) = 0).
    { unfold getUTCSeconds. replace (n * msPerDay) with (n * 1440 * 60000) by (unfold msPerDay; lia). by rewrite Z.mod_mul. }
    assert (H4 : getUTCMilliseconds (n * msPerDay) = 0).
    { unfold getUTCMilliseconds. replace (n * msPerDay) with (n * 86400 * 1000) by (unfold msPerDay; lia). by rewrite Z.mod_mul. }
    unfold isoTime. by rewrite H1, H2, H3, H4. }
  by rewrite Hd, Ht.
Qed.

Lemma prismaDate_day n : 100 <= yearFromDay n <= 9999 -> prismaDate (dayText n) = Ok (n * msPerDay).
Proof.
  intros Hy. unfold prismaDate, dateOnlyForPrisma. rewrite normalizeDateOnly_day by done. cbn [mbind Result_bind].
  rewrite <- toISOString_day by lia. rewrite dateParse_toISOString; [done|].
  unfold fourDigitYear, getUTCFullYear. rewrite msPerDay_mul. apply andb_true_iff. split; bool_lia.
Qed.

Lemma storedDate_day t n : storedDay t n -> storedDate t = dayText n.
Proof. intros [-> Hy]. apply isoDate_slice. lia. Qed.

Lemma dayText_compare n m :
  100 <= yearFromDay n <= 9999 -> 100 <= yearFromDay m <= 9999 -> compareText (dayText n) (dayText m) <= 0 <-> n <= m.
Proof.
  intros Hn Hm. unfold dayText. rewrite dateText_compare by (lia || apply dayText_real).
  by rewrite !Z.add_simpl_r, !makeDay_fields.
Qed.

Lemma alignment_days n m cadence :
  100 <= yearFromDay n <= 9999 -> 100 <= yearFromDay m <= 9999 ->
  assertPayrollAnchorAlignment (dayText n) (dayText m) cadence = Ok tt <-> (n - m) mod cadenceDays cadence = 0.
Proof.
  intros Hn Hm. rewrite assertAlignment_Ok by by apply dayText_isDate. split.
  - intros (a & Ha & Hd). rewrite normalizeDateOnly_day in Ha by done. injection Ha as <-. by rewrite !dayText_number in Hd.
  - intros Hd. exists (dayText m). split; [by apply normalizeDateOnly_day|]. by rewrite !dayText_number.
Qed.

#[global] Instance policyNewest_comparator : Comparator policyNewest.
Proof.
  apply (Comparator_orElse (fun l r => pv_version r - pv_version l) (fun l r => compareText (pv_publicId r) (pv_publicId l)));
    [apply Comparator_sub_desc|apply (Comparator_flip (fun l r => compareText (pv_publicId l) (pv_publicId r))), Comparator_text].
Qed.

(** ** What a new policy is *)

(** Both dates are days, a whole number of periods apart. *)
Definition policySound (p : PayrollPolicyVersion) : Prop :=
  exists n m, storedDay (pv_effectiveFrom p) n /\ storedDay (pv_anchorDate p) m /\ (n - m) mod cadenceDays (pv_cadence p) = 0.

(** The next policy takes over at a later date, on a period boundary of the
    one before, in the same zone. *)
Definition takesOver (old new : PayrollPolicyVersion) : Prop :=
  pv_version new = pv_version old + 1 /\ pv_effectiveFrom old < pv_effectiveFrom new /\
  pv_timeZone new = pv_timeZone old /\
  exists n m, storedDay (pv_effectiveFrom new) n /\ storedDay (pv_anchorDate old) m /\
    (n - m) mod cadenceDays (pv_cadence old) = 0.

(** The latest policy of a tenant, as [createPolicy] finds it. *)
Definition isLatest (tenantId : string) (db : Db) (latest : option PayrollPolicyVersion) : Prop :=
  match latest with
  | Some l => l ∈ db_policies db /\ pv_tenantId l = tenantId /\
      forall p, p ∈ db_policies db -> pv_tenantId p = tenantId -> pv_version p <= pv_version l
  | None => forall p, p ∈ db_policies db -> pv_tenantId p <> tenantId
  end.

(** A policy was appended, with one audit row. *)
Record PolicyCreated `{Env} (identity : SessionIdentity) (policy : PayrollPolicy) (request : PayrollRequestIdentity) (response : Json)
    (db db' : Db) (latest : option PayrollPolicyVersion) (row : PayrollPolicyVersion) : Prop := mkPolicyCreated {
  pc_new : forall p, p ∈ db_policies db -> pv_operationId p <> request.1;
  pc_fresh : existsb (conflicts row) (db_policies db) = false;
  pc_latest : isLatest (si_tenantId identity) db latest;
  pc_row : exists i j createdAt n m,
    100 <= yearFromDay n <= 9999 /\ pp_effectiveFrom policy = dayText n /\
    100 <= yearFromDay m <= 9999 /\ pp_anchorDate policy = dayText m /\
    row = policyRow (uuidAt i) (uuidAt j) createdAt identity (match latest with Some l => pv_version l | None => 0 end + 1) policy
            (m * msPerDay) (n * msPerDay) request;
  pc_sound : policySound row;
  pc_follows : forall l, latest = Some l -> policySound l -> takesOver l row;
  pc_written : exists a, al_action a = "PAYROLL_POLICY_VERSION_CREATED" /\
    db' = withRows (db_audits db ++ [a]) (withRows (db_policies db ++ [row]) db);
}.

Section PolicyFacts.
Context `{Env, AuthorityEnv, CommitEnv, Collation, Intl, LocaleCompare, Sha256}.

Lemma replayPolicy_ReadOnly identity hash replay : ReadOnly (replayPolicy identity hash replay).
Proof. unfold replayPolicy. eauto 6 with readonly. Qed.

Lemma checkPolicyBoundary_ReadOnly latest policy : ReadOnly (checkPolicyBoundary latest policy).
Proof. unfold checkPolicyBoundary. destruct latest; eauto 8 with readonly. Qed.

Lemma latest_found tenantId latest w w' :
  findFirstBy policyNewest (ofTenant tenantId) w = (Ok latest, w') -> isLatest tenantId (w_db w) latest.
Proof.
  intros [_ Hl]%findFirstBy_Ok. destruct latest as [l|]; cbn.
  - destruct Hl as [rest [Hin Hle]%sortBy_head]; [|apply _].
    apply list_elem_of_In, filter_In in Hin as [Hin Ht%bool_decide_eq_true].
    split; [by apply list_elem_of_In|]. split; [done|]. intros p Hp Htp.
    assert (Hf : p ∈ List.filter (ofTenant tenantId) (rows (w_db w))).
    { apply list_elem_of_In, filter_In. split; [by apply list_elem_of_In|]. by apply bool_decide_eq_true. }
    specialize (Hle p Hf). unfold policyNewest, orElse in Hle.
    destruct (pv_version p - pv_version l =? 0) eqn:E; bools; lia.
  - intros p Hp Ht. specialize (Hl p Hp). unfold ofTenant in Hl. by rewrite bool_decide_true in Hl.
Qed.

Lemma checkPolicyBoundary_Ok l policy n u w w' :
  100 <= yearFromDay n <= 9999 -> pp_effectiveFrom policy = dayText n -> policySound l ->
  checkPolicyBoundary (Some l) policy w = (Ok u, w') ->
  pv_effectiveFrom l < n * msPerDay /\ pv_timeZone l = pp_timeZone policy /\
  exists m, storedDay (pv_anchorDate l) m /\ (n - m) mod cadenceDays (pv_cadence l) = 0.
Proof.
  intros Hn En (e & m & He & Hm & _). unfold checkPolicyBoundary.
  rewrite (storedDate_day _ _ He), (storedDate_day _ _ Hm), En.
  destruct (0 <=? _) eqn:Ec; [by intros [? _]%liftResult_Ok|]. bools.
  intros (nowMs & w1 & _ & Hr)%Tx_bind_Ok. apply Tx_bind_Ok in Hr as (? & w2 & _ & Hr).
  case_bool_decide as Etz; cbn [negb] in Hr; [|by apply liftResult_Ok in Hr as [? _]].
  apply liftResult_Ok in Hr as [Ha _]. destruct u. apply alignment_days in Ha; [|done|apply Hm].
  split; [|split; [done|by exists m]]. destruct He as [-> Hy].
  assert (Hlt : ~ n <= e); [|unfold msPerDay; lia]. intros Hle. apply dayText_compare in Hle; [|done..].
  pose proof (compareText_antisym (dayText e) (dayText n)). lia.
Qed.

Lemma insertPolicy_Ok identity latest policy request n m row w w' :
  100 <= yearFromDay n <= 9999 -> pp_effectiveFrom policy = dayText n ->
  100 <= yearFromDay m <= 9999 -> pp_anchorDate policy = dayText m ->
  insertPolicy identity latest policy request w = (Ok row, w') ->
  existsb (conflicts row) (db_policies (w_db w)) = false /\
  w_db w' = withRows (db_policies (w_db w) ++ [row]) (w_db w) /\
  exists i j createdAt,
    row = policyRow (uuidAt i) (uuidAt j) createdAt identity (match latest with Some l => pv_version l | None => 0 end + 1) policy
            (m * msPerDay) (n * msPerDay) request.
Proof.
  intros Hn En Hm Em. unfold insertPolicy. rewrite En, Em, !prismaDate_day by done.
  intros (t & w1 & [[= <-] <-]%liftResult_Ok & Hr)%Tx_bind_Ok.
  apply Tx_bind_Ok in Hr as (t & w1 & [[= <-] <-]%liftResult_Ok & Hr).
  apply Tx_bind_Ok in Hr as (id & w1 & [-> ->]%randomUUID_Ok & Hr).
  apply Tx_bind_Ok in Hr as (publicId & w1 & [-> ->]%randomUUID_Ok & Hr).
  apply Tx_bind_Ok in Hr as (createdAt & w1 & [-> ->]%now_Ok & Hr).
  apply Tx_bind_Ok in Hr as (u & w1 & [Hf Hdb]%createRow_Ok & Hr). apply Tx_ret_Ok in Hr as [<- <-].
  split; [exact Hf|]. split; [exact Hdb|]. by do 3 eexists.
Qed.

(** The policy of a request, once normalised and aligned. *)
Lemma normalizePayrollPolicy_days body policy :
  normalizePayrollPolicy body = Ok policy ->
  assertPayrollAnchorAlignment (pp_effectiveFrom policy) (pp_anchorDate policy) (pp_cadence policy) = Ok tt ->
  exists n m, 100 <= yearFromDay n <= 9999 /\ pp_effectiveFrom policy = dayText n /\
    100 <= yearFromDay m <= 9999 /\ pp_anchorDate policy = dayText m /\ (n - m) mod cadenceDays (pp_cadence policy) = 0.
Proof.
  unfold normalizePayrollPolicy. intros Hn Ha. inv_ok. subst policy. cbn [pp_effectiveFrom pp_anchorDate pp_cadence] in *.
  repeat match goal with H : normalizeDateOnly _ _ = Ok _ |- _ => apply normalizeDateOnly_dayText in H as (? & ? & ->) end.
  match type of Ha with assertPayrollAnchorAlignment (dayText ?n) (dayText ?m) _ = _ => exists n, m end.
  split_and!; try done; [lia..|]. by apply alignment_days in Ha.
Qed.

Inductive PolicyCommitted `{Env} (identity : SessionIdentity) (policy : PayrollPolicy) (request : PayrollRequestIdentity) (db : Db)
    : Json -> Db -> Prop :=
  | policy_replayed row response :
      row ∈ db_policies db -> pv_operationId row = request.1 -> pv_tenantId row = si_tenantId identity ->
      pv_requestHash row = request.2 -> PolicyCommitted identity policy request db response db
  | policy_created latest row response db' :
      PolicyCreated identity policy request response db db' latest row -> PolicyCommitted identity policy request db response db'.

Lemma createPolicyInScope_Ok identity body policy request response w w' :
  normalizePayrollPolicy body = Ok policy ->
  assertPayrollAnchorAlignment (pp_effectiveFrom policy) (pp_anchorDate policy) (pp_cadence policy) = Ok tt ->
  createPolicyInScope identity policy request w = (Ok response, w') ->
  PolicyCommitted identity policy request (w_db w) response (w_db w').
Proof.
  intros Hpol Hal. destruct (normalizePayrollPolicy_days _ _ Hpol Hal) as (n & m & Hn & En & Hm & Em & Hmod).
  remember (w_db w) as db eqn:Hdb. symmetry in Hdb. unfold createPolicyInScope. intros Hr.
  pass_read Hr Hdb u. apply Tx_bind_Ok in Hr as (replay & w2 & [-> E2]%findFirst_Ok & Hr). rewrite Hdb in *.
  destruct (List.find _ _) as [row|] eqn:Ef.
  - pose proof (ReadOnly_Ok _ _ _ _ (replayPolicy_ReadOnly _ _ _) Hr) as Ero. rewrite Ero, E2.
    apply find_some in Ef as [Hin Hop%bool_decide_eq_true]. unfold replayPolicy in Hr.
    destruct (_ || _) eqn:E; [by apply liftResult_Ok in Hr as [? _]|]. unfold sameHash in E. bools. destruct E.
    eapply policy_replayed; [by apply list_elem_of_In|done..].
  - assert (Hnew : forall p, p ∈ db_policies db -> pv_operationId p <> request.1).
    { intros p Hp Ho. eapply find_none in Ef; [|by apply list_elem_of_In]. by rewrite bool_decide_true in Ef. }
    apply Tx_bind_Ok in Hr as (latest & w3 & Hl & Hr). pose proof (findFirstBy_Ok _ _ _ _ _ Hl) as [E3 _].
    apply latest_found in Hl. rewrite E2 in Hl, E3.
    apply Tx_bind_Ok in Hr as (u4 & w4 & Hc & Hr).
    pose proof (ReadOnly_Ok _ _ _ _ (checkPolicyBoundary_ReadOnly _ _) Hc) as E4. rewrite E3 in E4. pass_read Hr E4 u5.
    apply Tx_bind_Ok in Hr as (row & w6 & Hi & Hr). apply (insertPolicy_Ok _ _ _ _ n m) in Hi as (Hfresh & E6 & id & pid & at_ & Erow); [|done..].
    rewrite E4 in E6, Hfresh. pass_read Hr E6 u7. pass_read Hr E6 users.
    pass_read Hr E6 resp. pass_read Hr E6 u8.
    apply Tx_bind_Ok in Hr as (u9 & w9 & Ha & Hr). apply writePayrollAudit_Ok in Ha as (a & Hact & _ & _ & _ & _ & _ & _ & E9).
    rewrite E6 in E9. pass_read Hr E9 u10. apply Tx_ret_Ok in Hr as [<- ->].
    eapply (policy_created _ _ _ _ latest row). split; [done|done|done| | | |].
    + exists id, pid, at_, n, m. by split_and!; first [lia|done].
    + subst row. exists n, m. by split_and!; first [lia|done].
    + intros l -> Hs. apply (checkPolicyBoundary_Ok l policy n) in Hc as (Hlt & Htz & m' & Hm' & Hmod'); [|done..].
      subst row. split; [done|]. split; [exact Hlt|]. split; [done|]. exists n, m'. by split_and!; first [lia|done].
    + exists a. split; [done|]. rewrite E9. by destruct db.
Qed.

Lemma createPolicy_outcome_Ok db identity body key :
  OutcomeAt db (createPolicy identity body key) (fun response db' =>
    exists policy idempotencyKey, normalizePayrollPolicy body = Ok policy /\ normalizeIdempotencyKey key = Ok idempotencyKey /\
      let request := payrollRequestIdentity (trim (si_tenantId identity)) (trim (si_sub identity)) POLICY_CREATE idempotencyKey (policyBody policy) in
      PolicyCommitted (operationsIdentity identity) policy request db response db').
Proof.
  unfold createPolicy. apply OutcomeAt_bind; [eauto with readonly|]. intros _ _ _ _ _.
  apply OutcomeAt_bind; [eauto with readonly|]. intros w0 policy w0' _ [Hp _]%liftResult_Ok.
  apply OutcomeAt_bind; [eauto with readonly|]. intros w1 [] w1' _ [Ha _]%liftResult_Ok.
  apply OutcomeAt_bind; [eauto with readonly|]. intros w2 k w2' _ [Hk _]%liftResult_Ok.
  apply OutcomeAt_conflict. eapply OutcomeAt_impl; [apply mutationRun_outcome|].
  intros response db' (wa & wb & <- & Ho & -> & _). exists policy, k. split; [done|]. split; [done|].
  by eapply createPolicyInScope_Ok.
Qed.
End PolicyFacts.

(** ** What a new period is *)

(** The policy in force on a date: the one that took effect last. *)
Definition inForce (tenantId : string) (date : Z) (db : Db) (policy : PayrollPolicyVersion) : Prop :=
  policy ∈ db_policies db /\ pv_tenantId policy = tenantId /\ pv_effectiveFrom policy <= date /\
  forall p, p ∈ db_policies db -> pv_tenantId p = tenantId -> pv_effectiveFrom p <= date ->
    pv_effectiveFrom p <= pv_effectiveFrom policy.

(** The policy of a row, as [payrollPeriodBoundaries] takes it. *)
Definition asPolicy (p : PayrollPolicyVersion) : PayrollPolicy :=
  mkPayrollPolicy (pv_timeZone p) (pv_cadence p) (storedDate (pv_anchorDate p)) (storedDate (pv_effectiveFrom p)).

Definition periodWindow (p : PayrollPeriodRow) : Z * Z := (py_startsAt p, py_endsAt p).

(** A period was appended, with its recorded answer and one audit row. *)
Record PeriodCreated `{Env, Intl} (identity : SessionIdentity) (localStartDate : string) (request : PayrollRequestIdentity) (response : Json)
    (db db' : Db) (policy : PayrollPolicyVersion) (boundaries : PeriodBoundaries) (row : PayrollPeriodRow) : Prop := mkPeriodCreated {
  pd_policy : exists date, prismaDate localStartDate = Ok date /\ inForce (si_tenantId identity) date db policy;
  pd_boundaries : payrollPeriodBoundaries localStartDate (asPolicy policy) = Ok boundaries;
  pd_apart : forall p, p ∈ db_periods db -> py_tenantId p = si_tenantId identity -> windowsApart (periodWindow p) (periodWindow row);
  pd_fresh : existsb (conflicts row) (db_periods db) = false;
  pd_row : exists i j createdAt localStart localEnd,
    prismaDate (pb_localStartDate boundaries) = Ok localStart /\ prismaDate (pb_localEndDateExclusive boundaries) = Ok localEnd /\
    row = periodRow (uuidAt i) (uuidAt j) createdAt (si_tenantId identity) policy boundaries localStart localEnd;
  pd_response : serializePeriod row emptySummary [(pv_id policy, pv_publicId policy)] = Ok response;
  pd_written : answered request (si_tenantId identity) (py_id row) PERIOD_CREATE "PAYROLL_PERIOD_CREATED" response
    (withRows (db_periods db ++ [row]) db) db';
}.

Section PeriodFacts.
Context `{Env, AuthorityEnv, CommitEnv, Collation, Intl, LocaleCompare, Sha256}.

Lemma effectivePolicy_ReadOnly tenantId date : ReadOnly (effectivePolicy tenantId date).
Proof. apply findFirstBy_ReadOnly. Qed.

Lemma effectivePolicy_Ok tenantId date policy w w' :
  effectivePolicy tenantId date w = (Ok (Some policy), w') -> w_db w' = w_db w /\ inForce tenantId date (w_db w) policy.
Proof.
  intros [Edb [rest [Hin Hle]%sortBy_head]]%findFirstBy_Ok; [|apply _]. split; [done|].
  apply list_elem_of_In, filter_In in Hin as [Hin Hp]. apply andb_true_iff in Hp as [Ht%bool_decide_eq_true Hd%Z.leb_le].
  split; [by apply list_elem_of_In|]. split; [done|]. split; [done|]. intros p Hp Htp Hdp.
  assert (Hf : p ∈ List.filter (fun p => ofTenant tenantId p && (pv_effectiveFrom p <=? date)) (rows (w_db w))).
  { apply list_elem_of_In, filter_In. split; [by apply list_elem_of_In|]. unfold ofTenant.
    rewrite bool_decide_true by done. by apply Z.leb_le. }
  specialize (Hle p Hf). unfold policyOrder, orElse in Hle.
  destruct (pv_effectiveFrom p - pv_effectiveFrom policy =? 0) eqn:E; bools; lia.
Qed.

Lemma insertPeriod_Ok tenantId policy boundaries row w w' :
  insertPeriod tenantId policy boundaries w = (Ok row, w') ->
  existsb (conflicts row) (db_periods (w_db w)) = false /\
  w_db w' = withRows (db_periods (w_db w) ++ [row]) (w_db w) /\
  exists i j createdAt localStart localEnd,
    prismaDate (pb_localStartDate boundaries) = Ok localStart /\ prismaDate (pb_localEndDateExclusive boundaries) = Ok localEnd /\
    row = periodRow (uuidAt i) (uuidAt j) createdAt tenantId policy boundaries localStart localEnd.
Proof.
  unfold insertPeriod. intros (s & w1 & [Hs <-]%liftResult_Ok & Hr)%Tx_bind_Ok.
  apply Tx_bind_Ok in Hr as (e & w1 & [He <-]%liftResult_Ok & Hr).
  apply Tx_bind_Ok in Hr as (id & w1 & [-> ->]%randomUUID_Ok & Hr).
  apply Tx_bind_Ok in Hr as (publicId & w1 & [-> ->]%randomUUID_Ok & Hr).
  apply Tx_bind_Ok in Hr as (createdAt & w1 & [-> ->]%now_Ok & Hr).
  apply Tx_bind_Ok in Hr as (u & w1 & [Hf Hdb]%createRow_Ok & Hr). apply Tx_ret_Ok in Hr as [<- <-].
  split; [exact Hf|]. split; [exact Hdb|]. by do 5 eexists.
Qed.

Lemma overlapsPeriod_apart tenantId boundaries p :
  overlapsPeriod tenantId boundaries p = false -> py_tenantId p = tenantId ->
  windowsApart (periodWindow p) (pb_startsAt boundaries, pb_endsAt boundaries).
Proof.
  unfold overlapsPeriod, windowsApart, periodWindow. intros Ho Ht. rewrite bool_decide_true in Ho by done. cbn in *.
  apply andb_false_iff in Ho as [Ho|Ho]; bool_lia.
Qed.

Lemma createPeriodInScope_Ok identity localStartDate request response w w' :
  createPeriodInScope identity localStartDate request w = (Ok response, w') ->
  Recorded request (fun response db' => exists policy boundaries row,
    PeriodCreated identity localStartDate request response (w_db w) db' policy boundaries row) (w_db w) response (w_db w').
Proof.
  remember (w_db w) as db eqn:Hdb. symmetry in Hdb. unfold createPeriodInScope. intros Hr. pass_read Hr Hdb u.
  apply replayOrOperation_Ok in Hr as [[E (o & Ho & Hid & Hh & <-)]|[Hnew (w2 & E2 & Hr)]]; rewrite ?Hdb in *.
  { rewrite E. by apply recorded_replayed. }
  apply recorded_now; [done|]. keep_read Hr E2 date Hd. apply liftResult_Ok in Hd as [Hd _].
  keep_read Hr E2 policy Hp. destruct policy as [policy|]; [|by apply liftResult_Ok in Hr as [? _]].
  apply effectivePolicy_Ok in Hp as [Ep Hp]. rewrite <- Ep in Hp. rewrite E2 in Hp.
  keep_read Hr E2 boundaries Hb. apply liftResult_Ok in Hb as [Hb _].
  apply Tx_bind_Ok in Hr as (overlap & w5 & [-> E5]%findFirst_Ok & Hr). rewrite E2 in *.
  destruct (List.find _ _) as [q|] eqn:Ef; [by apply liftResult_Ok in Hr as [? _]|]. pass_read Hr E5 u6.
  apply Tx_bind_Ok in Hr as (row & w7 & (Hfresh & E7 & id & pid & at_ & s & e & Hs & He & Erow)%insertPeriod_Ok & Hr).
  rewrite E5 in *. pass_read Hr E7 u8. keep_read Hr E7 resp Hresp. apply liftResult_Ok in Hresp as [Hresp _].
  apply answerWith_Ok in Hr as [<- Hans]. rewrite E7 in Hans.
  exists policy, boundaries, row. split; try done.
  - exists date. done.
  - intros p Hin Ht. eapply find_none in Ef; [|by apply list_elem_of_In].
    apply overlapsPeriod_apart in Ef; [|done]. subst row. exact Ef.
  - by exists id, pid, at_, s, e.
Qed.

Lemma createPeriod_outcome_Ok db identity localStartDate key :
  OutcomeAt db (createPeriod identity localStartDate key) (fun response db' =>
    exists idempotencyKey, normalizeIdempotencyKey key = Ok idempotencyKey /\
      let request := payrollRequestIdentity (trim (si_tenantId identity)) (trim (si_sub identity)) PERIOD_CREATE idempotencyKey
        (JObj [jText "localStartDate" localStartDate]) in
      Recorded request (fun response db' => exists policy boundaries row,
        PeriodCreated (operationsIdentity identity) localStartDate request response db db' policy boundaries row) db response db').
Proof.
  unfold createPeriod. apply OutcomeAt_bind; [eauto with readonly|]. intros _ _ _ _ _.
  apply OutcomeAt_bind; [eauto with readonly|]. intros w2 k w2' _ [Hk _]%liftResult_Ok.
  apply OutcomeAt_conflict. eapply OutcomeAt_impl; [apply mutationRun_outcome|].
  intros response db' (wa & wb & <- & Ho & -> & _). exists k. split; [done|]. by apply createPeriodInScope_Ok.
Qed.
End PeriodFacts.

#[export] Hint Resolve effectivePolicy_ReadOnly : readonly.
