(* ===== verification/PayrollReview.v ===== *)
(** * Review of a payroll period

    [startReview], [adoptCards] and [decideCards] of
    apps/api-v2/src/payroll/payroll.service.ts: cards are taken into an open
    period, an ended period whose cards are all in order enters review, and in
    review the current revision of each card is approved or rejected, once and
    never by its own worker. *)

From S2P Require Import Prelude JsStd JsCollections JsDate ContractHelpers TimeZone PayrollDates PayrollRecords.
From S2P Require Import Database FeatureEntitlement Authority ScheduleStore TimeCardPayroll TimeCardStore TimeCards.
From S2P Require Import PayrollStore PayrollPolicies.

(** [PayrollCardsAdoptRequest] and [PayrollDecisionsRequest] *)
Record AdoptedCard := mkAdopted { ac_id : string; ac_expectedRevision : Z }.
Record CardDecision := mkCardDecision {
  cd_timeCardId : string; cd_expectedRevision : Z; cd_decision : Decision; cd_reason : option string;
}.

(** The same, with internal identifiers. *)
Record ResolvedCard := mkResolved { rs_id : string; rs_publicId : string; rs_expectedRevision : Z }.
Record ResolvedDecision := mkResolvedDecision {
  rd_timeCardId : string; rd_publicTimeCardId : string; rd_expectedRevision : Z; rd_decision : Decision; rd_reason : option string;
}.

Definition decisionText (d : Decision) : string := match d with APPROVED_D => "APPROVED" | REJECTED_D => "REJECTED" end.

Definition concurrentChange {A} : Result A :=
  payrollRefused 409 "payroll_concurrent_change" PAYROLL_CONCURRENT_CHANGE "Concurrent change".

(** The row [updateMany] of a period aims at. *)
Definition periodAt (tenantId periodId status : string) (revision : Z) (p : PayrollPeriodRow) : bool :=
  bool_decide (py_id p = periodId) && bool_decide (py_tenantId p = tenantId) && bool_decide (py_status p = status)
  && (py_revision p =? revision).

(** The update of [startReview]. *)
Definition reviewPeriod (reviewStartedAt : Z) (userId : string) (updatedAt : Z) (p : PayrollPeriodRow) : PayrollPeriodRow :=
  mkPeriodRow (py_id p) (py_publicId p) (py_tenantId p) (py_policyVersionId p) (py_localStartDate p)
    (py_localEndDateExclusive p) (py_startsAt p) (py_endsAt p) (py_timeZone p) (py_cadence p) "REVIEW" (py_revision p + 1)
    (Some reviewStartedAt) (Some userId) (py_lockedAt p) (py_lockedByUserId p) (py_lockOperationId p) (py_lockRequestHash p)
    (py_lockedEntrySha256 p) (py_lockedEntryCount p) (py_totalPayableMinutes p) (py_createdAt p) updatedAt.

(** The update of [adoptCards]. *)
Definition adoptCard (periodId : string) (updatedAt : Z) (c : TimeCard) : TimeCard :=
  mkTimeCard (tc_id c) (tc_publicId c) (tc_tenantId c) (tc_userId c) (tc_locationId c) (tc_shiftId c)
    (tc_clockInOperationId c) (tc_clockInRequestHash c) (tc_clockInAt c) (tc_clockOutAt c) (Some periodId)
    (tc_workTimeZone c) (tc_revision c + 1) (tc_breakMinutes c) (tc_notes c) (tc_status c) (tc_createdAt c) updatedAt
    (tc_deletedAt c).

Section Handlers.
Context `{Env, AuthorityEnv, CommitEnv, Collation, Intl, LC : LocaleCompare, Sha256}.

(** ** Starting a review *)

Definition checkReviewable (period : PayrollPeriodRow) (expectedRevision : Z) : Tx unit :=
  if negb (bool_decide (py_status period = "OPEN")) then
    liftResult (payrollRefused 409 "payroll_review_state_invalid" "Only an open payroll period can enter review." "Conflict")
  else if negb (py_revision period =? expectedRevision) then liftResult concurrentChange
  else
    nowMs ← now;
    if nowMs <? py_endsAt period then
      liftResult (payrollRefused 422 "payroll_period_not_ended" "Payroll review cannot begin before the period ends."
        "Payroll validation failed")
    else mret tt.

(** The cards of the period, all of them in order. *)
Definition candidateCards (tenantId : string) (period : PayrollPeriodRow) : Tx (list PayrollCandidateCard) :=
  candidates ← lockCandidateCards tenantId period;
  liftResult (validatePayrollCandidateCards candidates (windowOf period)).

(** The period as it is now, serialised. *)
Definition serializeCurrent (tenantId periodId : string) : Tx (PayrollPeriodRow * JsMap string string * Json) :=
  updated ← requirePeriodById tenantId periodId;
  summary ← loadSummary tenantId (py_id updated);
  policies ← publicPolicies tenantId [Some (py_policyVersionId updated)];
  response ← liftResult (serializePeriod updated summary policies);
  mret (updated, policies, response).

Definition startReviewInScope (identity : SessionIdentity) (periodId : string) (expectedRevision : Z)
    (request : PayrollRequestIdentity) : Tx Json :=
  let tenantId := si_tenantId identity in
  _ ← lockPayrollTenant tenantId;
  _ ← lockPayrollPeriod tenantId periodId;
  replayOr request (
    period ← requirePeriodById tenantId periodId;
    _ ← checkReviewable period expectedRevision;
    _ ← candidateCards tenantId period;
    _ ← assertCurrent;
    reviewStartedAt ← now;
    updatedAt ← now;
    changed ← updateMany (periodAt tenantId (py_id period) "OPEN" expectedRevision)
      (reviewPeriod reviewStartedAt (si_sub identity) updatedAt);
    _ ← assertCurrent;
    if negb (changed =? 1)%nat then liftResult concurrentChange else
    '(updated, policies, response) ← serializeCurrent tenantId (py_id period);
    answerWith identity request (py_id updated) REVIEW "PAYROLL_PERIOD_REVIEW_STARTED"
      (Some <$> serializePeriod period emptySummary policies) response).

Definition startReview (identity : SessionIdentity) (publicPeriodId : string) (expectedRevision : Z)
    (idempotencyKeyRaw : option string) : Tx Json :=
  let identity := operationsIdentity identity in
  _ ← prepareCurrentMutation identity;
  periodId ← resolvePeriodId identity publicPeriodId;
  idempotencyKey ← liftResult (normalizeIdempotencyKey idempotencyKeyRaw);
  let request := payrollRequestIdentity (si_tenantId identity) (si_sub identity) REVIEW idempotencyKey
    (JObj [jText "periodId" periodId; jInt "expectedRevision" expectedRevision]) in
  mutationRun identity (startReviewInScope identity periodId expectedRevision request).

(** ** Adopting cards *)

(** The cards of the request, sorted by internal identifier. *)
Definition resolveAdopted (cardsByPublicId : JsMap string string) (cards : list AdoptedCard) : Result (list ResolvedCard) :=
  if negb (setSize (map ac_id cards) =? length cards)%nat then
    payrollRefused 422 "duplicate_payroll_cards" "cards must not contain duplicate IDs." "Payroll validation failed"
  else
    resolved ← mapM (fun card => id ← requireMapped cardsByPublicId (ac_id card) "time card";
                                 Ok (mkResolved id (ac_id card) (ac_expectedRevision card))) cards;
    Ok (sortBy (fun l r => localeCompare (rs_id l) (rs_id r)) resolved).

Definition adoptBody (periodId : string) (cards : list ResolvedCard) : Json :=
  JObj [jText "periodId" periodId;
        ("cards", Some (JArr (map (fun c => JObj [jText "id" (rs_id c); jInt "expectedRevision" (rs_expectedRevision c)]) cards)))].

Definition cardsNamed (tenantId : string) (ids : list string) (c : TimeCard) : bool :=
  bool_decide (tc_tenantId c = tenantId) && bool_decide (tc_id c ∈ ids).

Definition byCardId (l r : TimeCard) : Z := collate (tc_id l) (tc_id r).

Definition checkAdoptable (period : PayrollPeriodRow) (expectedById : JsMap string Z) (card : TimeCard) : Result unit :=
  if negb (bool_decide (mapGet expectedById (tc_id card) = Some (tc_revision card)))
     || negb (bool_decide (tc_status card = CLOSED)) || isPresent (tc_deletedAt card)
     || negb (isPresent (tc_clockOutAt card)) || isPresent (truthy (tc_payrollPeriodId card))
  then concurrentChange
  else if (tc_clockInAt card <? py_startsAt period)
          || match tc_clockOutAt card with Some out => py_endsAt period <? out | None => false end
          || isEmpty (trim (tc_workTimeZone card))
  then payrollRefused 422 "payroll_card_not_adoptable"
         "Only complete, unassigned time cards wholly inside the payroll period can be adopted." "Payroll validation failed"
  else Ok tt.

Definition adoptable (tenantId : string) (expectedById : JsMap string Z) (card c : TimeCard) : bool :=
  bool_decide (tc_id c = tc_id card) && bool_decide (tc_tenantId c = tenantId)
  && bool_decide (mapGet expectedById (tc_id card) = Some (tc_revision c))
  && bool_decide (tc_payrollPeriodId c = None) && bool_decide (tc_status c = CLOSED) && bool_decide (tc_deletedAt c = None).

Definition adoptOne (tenantId : string) (period : PayrollPeriodRow) (expectedById : JsMap string Z) (card : TimeCard) : Tx unit :=
  _ ← assertCurrent;
  updatedAt ← now;
  updated ← updateMany (adoptable tenantId expectedById card) (adoptCard (py_id period) updatedAt);
  _ ← assertCurrent;
  if negb (updated =? 1)%nat then liftResult concurrentChange else mret tt.

Definition adoptResponse (period : PayrollPeriodRow) (cards : list ResolvedCard) (found : list TimeCard) : Result Json :=
  let publicByInternalId := mapOf (map (fun c => (rs_id c, rs_publicId c)) cards) in
  adopted ← mapM (fun card => id ← requireMapped publicByInternalId (tc_id card) "time card";
                              Ok (JObj [jText "id" id; jInt "revision" (tc_revision card + 1)])) found;
  Ok (JObj [jText "periodId" (py_publicId period); ("cards", Some (JArr adopted))]).

Definition adoptCardsInScope (identity : SessionIdentity) (periodId : string) (cards : list ResolvedCard)
    (request : PayrollRequestIdentity) : Tx Json :=
  let tenantId := si_tenantId identity in
  _ ← lockPayrollTenant tenantId;
  _ ← lockPayrollPeriod tenantId periodId;
  replayOr request (
    period ← requirePeriodById tenantId periodId;
    if negb (bool_decide (py_status period = "OPEN")) then
      liftResult (payrollRefused 409 "payroll_adoption_state_invalid" "Cards can be adopted only into an open payroll period." "Conflict")
    else
      found ← findManyBy byCardId (cardsNamed tenantId (map rs_id cards));
      if negb (length found =? length cards)%nat then
        liftResult (payrollRefused 404 "time_card_not_found" "One or more time cards were not found in this workspace." "Not found")
      else
        let expectedById := mapOf (map (fun c => (rs_id c, rs_expectedRevision c)) cards) in
        _ ← liftResult (mapM (checkAdoptable period expectedById) found);
        _ ← forEach (adoptOne tenantId period expectedById) found;
        response ← liftResult (adoptResponse period cards found);
        answerWith identity request (py_id period) ADOPT "PAYROLL_TIME_CARDS_ADOPTED" (Ok None) response).

Definition adoptCards (identity : SessionIdentity) (publicPeriodId : string) (cards : list AdoptedCard)
    (idempotencyKeyRaw : option string) : Tx Json :=
  let identity := operationsIdentity identity in
  _ ← prepareCurrentMutation identity;
  periodId ← resolvePeriodId identity publicPeriodId;
  cardsByPublicId ← resolveTimeCards identity (map ac_id cards);
  resolved ← liftResult (resolveAdopted cardsByPublicId cards);
  idempotencyKey ← liftResult (normalizeIdempotencyKey idempotencyKeyRaw);
  let request := payrollRequestIdentity (si_tenantId identity) (si_sub identity) ADOPT idempotencyKey (adoptBody periodId resolved) in
  uniqueConflictAs "payroll_adoption_conflict" "A time-card adoption changed before it could be committed."
    (mutationRun identity (adoptCardsInScope identity periodId resolved request)).

(** ** Deciding cards *)

Definition resolveDecision (cardsByPublicId : JsMap string string) (decision : CardDecision) : Result ResolvedDecision :=
  timeCardId ← requireMapped cardsByPublicId (cd_timeCardId decision) "time card";
  Ok (mkResolvedDecision timeCardId (cd_timeCardId decision) (cd_expectedRevision decision) (cd_decision decision)
        (trimmedOrNull (cd_reason decision))).

Definition decisionKey (d : ResolvedDecision) : string := rd_timeCardId d +:+ ":" +:+ showZ (rd_expectedRevision d).

Definition resolveDecisions (cardsByPublicId : JsMap string string) (decisions : list CardDecision)
    : Result (list ResolvedDecision) :=
  resolved ← mapM (resolveDecision cardsByPublicId) decisions;
  let sorted := sortBy (fun l r => localeCompare (rd_timeCardId l) (rd_timeCardId r)) resolved in
  if negb (setSize (map decisionKey sorted) =? length sorted)%nat then
    payrollRefused 422 "duplicate_payroll_decisions" "decisions must not repeat a time-card revision." "Payroll validation failed"
  else Ok sorted.

Definition decisionBody (d : ResolvedDecision) : Json :=
  JObj [jText "timeCardId" (rd_timeCardId d); jInt "expectedRevision" (rd_expectedRevision d);
        jText "decision" (decisionText (rd_decision d)); jOptText "reason" (rd_reason d)].

Definition decisionsBody (periodId : string) (decisions : list ResolvedDecision) : Json :=
  JObj [jText "periodId" periodId; ("decisions", Some (JArr (map decisionBody decisions)))].

Definition checkDecidable (sub : string) (decisionById : JsMap string ResolvedDecision) (card : TimeCard) : Result unit :=
  match mapGet decisionById (tc_id card) with
  | None => concurrentChange
  | Some decision =>
      if negb (bool_decide (tc_status card = CLOSED)) || isPresent (tc_deletedAt card)
         || negb (tc_revision card =? rd_expectedRevision decision)
      then concurrentChange
      else if bool_decide (tc_userId card = sub) then
        payrollRefused 409 "payroll_self_approval_denied" "Employees cannot approve or reject their own time cards." "Conflict"
      else Ok tt
  end.

Definition decides (d : ResolvedDecision) (a : PayrollTimeCardApproval) : bool :=
  bool_decide (av_timeCardId a = rd_timeCardId d) && (av_timeCardRevision a =? rd_expectedRevision d).

(** The whole decision, its public identifier included, is hashed. *)
Definition childRequest (identity : SessionIdentity) (request : PayrollRequestIdentity) (d : ResolvedDecision) : PayrollRequestIdentity :=
  payrollRequestIdentity (si_tenantId identity) (si_sub identity) APPROVAL (childPayrollOperationId request.1 (decisionKey d))
    (JObj [jText "timeCardId" (rd_timeCardId d); jText "publicTimeCardId" (rd_publicTimeCardId d);
           jInt "expectedRevision" (rd_expectedRevision d); jText "decision" (decisionText (rd_decision d));
           jOptText "reason" (rd_reason d)]).

Definition approvalRow (id : string) (decidedAt : Z) (identity : SessionIdentity) (periodId : string)
    (request : PayrollRequestIdentity) (d : ResolvedDecision) : PayrollTimeCardApproval :=
  let child := childRequest identity request d in
  mkCardApproval id (si_tenantId identity) periodId (rd_timeCardId d) (rd_expectedRevision d) (rd_decision d) (rd_reason d)
    child.1 child.2 decidedAt (si_sub identity).

Fixpoint createApprovals (identity : SessionIdentity) (periodId : string) (request : PayrollRequestIdentity)
    (decisions : list ResolvedDecision) : Tx (list PayrollTimeCardApproval) :=
  match decisions with
  | [] => mret []
  | d :: rest =>
      _ ← assertCurrent;
      id ← randomUUID;
      decidedAt ← now;
      let row := approvalRow id decidedAt identity periodId request d in
      _ ← createRow row;
      _ ← assertCurrent;
      created ← createApprovals identity periodId request rest;
      mret (row :: created)
  end.

Definition decidedJson (identity : SessionIdentity) (publicByInternalId : JsMap string string) (a : PayrollTimeCardApproval)
    : Result Json :=
  timeCardId ← requireMapped publicByInternalId (av_timeCardId a) "time card";
  Ok (JObj [jText "timeCardId" timeCardId; jInt "timeCardRevision" (av_timeCardRevision a);
            jText "decision" (decisionText (av_decision a)); jOptText "reason" (av_reason a);
            jText "decidedAt" (toISOString (av_decidedAt a)); jText "decidedByUserId" (si_publicUserId identity)]).

Definition decideResponse (identity : SessionIdentity) (period : PayrollPeriodRow) (decisions : list ResolvedDecision)
    (created : list PayrollTimeCardApproval) : Result Json :=
  let publicByInternalId := mapOf (map (fun d => (rd_timeCardId d, rd_publicTimeCardId d)) decisions) in
  decided ← mapM (decidedJson identity publicByInternalId) created;
  Ok (JObj [jText "periodId" (py_publicId period); ("decisions", Some (JArr decided))]).

Definition inPeriod (tenantId periodId : string) (ids : list string) (c : TimeCard) : bool :=
  bool_decide (tc_tenantId c = tenantId) && bool_decide (tc_payrollPeriodId c = Some periodId) && bool_decide (tc_id c ∈ ids).

Definition decideCardsInScope (identity : SessionIdentity) (periodId : string) (decisions : list ResolvedDecision)
    (request : PayrollRequestIdentity) : Tx Json :=
  let tenantId := si_tenantId identity in
  _ ← lockPayrollTenant tenantId;
  _ ← lockPayrollPeriod tenantId periodId;
  replayOr request (
    period ← requirePeriodById tenantId periodId;
    if negb (bool_decide (py_status period = "REVIEW")) then
      liftResult (payrollRefused 409 "payroll_decision_state_invalid" "Time-card decisions require a payroll period in review." "Conflict")
    else
      found ← findManyBy byCardId (inPeriod tenantId (py_id period) (map rd_timeCardId decisions));
      if negb (length found =? length decisions)%nat then
        liftResult (payrollRefused 404 "time_card_not_found" "One or more time cards were not found in this payroll period." "Not found")
      else
        let decisionById := mapOf (map (fun d => (rd_timeCardId d, d)) decisions) in
        _ ← liftResult (mapM (checkDecidable (si_sub identity) decisionById) found);
        existing ← findMany (fun a => bool_decide (av_tenantId a = tenantId) && existsb (fun d => decides d a) decisions);
        if (0 <? length existing)%nat then
          liftResult (payrollRefused 409 "payroll_decision_exists" "A decision already exists for a time-card revision." "Conflict")
        else
          created ← createApprovals identity (py_id period) request decisions;
          response ← liftResult (decideResponse identity period decisions created);
          answerWith identity request (py_id period) APPROVAL "PAYROLL_TIME_CARD_DECISIONS_RECORDED" (Ok None) response).

Definition decideCards (identity : SessionIdentity) (publicPeriodId : string) (decisions : list CardDecision)
    (idempotencyKeyRaw : option string) : Tx Json :=
  let identity := operationsIdentity identity in
  _ ← prepareCurrentMutation identity;
  periodId ← resolvePeriodId identity publicPeriodId;
  cardsByPublicId ← resolveTimeCards identity (map cd_timeCardId decisions);
  resolved ← liftResult (resolveDecisions cardsByPublicId decisions);
  idempotencyKey ← liftResult (normalizeIdempotencyKey idempotencyKeyRaw);
  let request := payrollRequestIdentity (si_tenantId identity) (si_sub identity) APPROVAL idempotencyKey (decisionsBody periodId resolved) in
  uniqueConflictAs "payroll_decision_conflict" "A payroll decision already exists for this request or revision."
    (mutationRun identity (decideCardsInScope identity periodId resolved request)).
End Handlers.

(** ** What each handler does *)

Definition periodsKeyed (db : Db) : Prop := NoDup (map py_id (db_periods db)) /\ Forall (fun p => py_id p <> "") (db_periods db).

(** Every card that touches the period can be paid in it. *)
Definition cardsInOrder (db : Db) (period : PayrollPeriodRow) : Prop :=
  forall c, c ∈ db_timeCards db -> tc_tenantId c = py_tenantId period ->
    touchesPeriod (windowOf period) (candidateOf c) -> payableIn (windowOf period) (candidateOf c).

(** The cards after the adoption of some, at the times given. *)
Definition adoptedRows (periodId : string) (adopted : list (TimeCard * Z)) (l : list TimeCard) : list TimeCard :=
  foldl (fun l (e : TimeCard * Z) => replaceRow tc_id (tc_id e.1) (adoptCard periodId e.2) l) l adopted.

Record ReviewStarted (identity : SessionIdentity) (periodId : string) (expectedRevision : Z) (request : PayrollRequestIdentity)
    (response : Json) (db db' : Db) (period : PayrollPeriodRow) (startedAt updatedAt : Z) : Prop := mkReviewStarted {
  rv_period : period ∈ db_periods db /\ py_id period = periodId /\ py_tenantId period = si_tenantId identity;
  rv_open : py_status period = "OPEN" /\ py_revision period = expectedRevision;
  rv_cards : cardsInOrder db period;
  rv_written : answered request (si_tenantId identity) periodId REVIEW "PAYROLL_PERIOD_REVIEW_STARTED" response
    (withRows (replaceRow py_id periodId (reviewPeriod startedAt (si_sub identity) updatedAt) (db_periods db)) db) db';
}.

Record CardsAdopted (identity : SessionIdentity) (periodId : string) (cards : list ResolvedCard) (request : PayrollRequestIdentity)
    (response : Json) (db db' : Db) (period : PayrollPeriodRow) (adopted : list (TimeCard * Z)) : Prop := mkCardsAdopted {
  ad_period : period ∈ db_periods db /\ py_id period = periodId /\ py_tenantId period = si_tenantId identity;
  ad_open : py_status period = "OPEN";
  ad_cards : Forall (fun e : TimeCard * Z => e.1 ∈ db_timeCards db /\ tc_tenantId e.1 = si_tenantId identity /\
      tc_payrollPeriodId e.1 = None /\ tc_status e.1 = CLOSED /\ tc_deletedAt e.1 = None /\
      exists c out, c ∈ cards /\ rs_id c = tc_id e.1 /\ rs_expectedRevision c = tc_revision e.1 /\
        tc_clockOutAt e.1 = Some out /\ py_startsAt period <= tc_clockInAt e.1 /\ out <= py_endsAt period) adopted;
  ad_complete : map (fun e : TimeCard * Z => tc_id e.1) adopted ≡ₚ map rs_id cards;
  ad_written : answered request (si_tenantId identity) periodId ADOPT "PAYROLL_TIME_CARDS_ADOPTED" response
    (withRows (adoptedRows periodId adopted (db_timeCards db)) db) db';
}.

Record CardsDecided `{LocaleCompare, Sha256} (identity : SessionIdentity) (periodId : string) (decisions : list ResolvedDecision)
    (request : PayrollRequestIdentity) (response : Json) (db db' : Db) (period : PayrollPeriodRow)
    (approvals : list PayrollTimeCardApproval) : Prop := mkCardsDecided {
  dc_period : period ∈ db_periods db /\ py_id period = periodId /\ py_tenantId period = si_tenantId identity;
  dc_review : py_status period = "REVIEW";
  dc_approvals : Forall2 (fun d a => exists id decidedAt, a = approvalRow id decidedAt identity periodId request d) decisions approvals;
  dc_cards : Forall (fun d => exists c, c ∈ db_timeCards db /\ tc_id c = rd_timeCardId d /\ tc_tenantId c = si_tenantId identity /\
      tc_payrollPeriodId c = Some periodId /\ tc_status c = CLOSED /\ tc_deletedAt c = None /\
      tc_revision c = rd_expectedRevision d /\ tc_userId c <> si_sub identity) decisions;
  dc_fresh : insertAll approvals (pt_approvals (db_payroll db)) = Some (pt_approvals (db_payroll db) ++ approvals);
  dc_written : answered request (si_tenantId identity) periodId APPROVAL "PAYROLL_TIME_CARD_DECISIONS_RECORDED" response
    (withRows (pt_approvals (db_payroll db) ++ approvals) db) db';
}.

Section ReviewFacts.
Context `{Env, AuthorityEnv, CommitEnv, Collation, Intl, LC : LocaleCompare, Sha256}.

Lemma checkReviewable_ReadOnly period expectedRevision : ReadOnly (checkReviewable period expectedRevision).
Proof. unfold checkReviewable. eauto 8 with readonly. Qed.

Lemma checkReviewable_Ok period expectedRevision u w w' :
  checkReviewable period expectedRevision w = (Ok u, w') ->
  py_status period = "OPEN" /\ py_revision period = expectedRevision /\ py_endsAt period <= nowAt (w_tick w).
Proof.
  unfold checkReviewable, concurrentChange, payrollRefused. case_bool_decide; cbn [negb]; [|by intros [? _]%liftResult_Ok].
  destruct (_ =? _) eqn:E; cbn [negb]; [|by intros [? _]%liftResult_Ok].
  intros (t & w1 & [-> ->]%now_Ok & Hr)%Tx_bind_Ok. destruct (_ <? _) eqn:El; [by apply liftResult_Ok in Hr as [? _]|].
  by bools.
Qed.

Lemma candidateCards_ReadOnly tenantId period : ReadOnly (candidateCards tenantId period).
Proof. unfold candidateCards. eauto with readonly. Qed.

Lemma candidateCards_Ok tenantId period cards w w' :
  py_tenantId period = tenantId -> candidateCards tenantId period w = (Ok cards, w') ->
  cardsInOrder (w_db w) period /\
  (forall c, c ∈ db_timeCards (w_db w) -> tc_tenantId c = tenantId -> tc_payrollPeriodId c = Some (py_id period) -> candidateOf c ∈ cards) /\
  (forall pc, pc ∈ cards -> payableIn (windowOf period) pc /\
     exists c, c ∈ db_timeCards (w_db w) /\ candidateOf c = pc /\ tc_tenantId c = tenantId /\ tc_payrollPeriodId c = Some (py_id period)).
Proof.
  intros Ht. unfold candidateCards. intros (candidates & w1 & [_ Hl]%lockCandidateCards_Ok & [Hv _]%liftResult_Ok)%Tx_bind_Ok.
  assert (Hcand : forall c, c ∈ db_timeCards (w_db w) -> tc_tenantId c = tenantId ->
    touchesPeriod (windowOf period) (candidateOf c) -> candidateOf c ∈ cards /\ payableIn (windowOf period) (candidateOf c)).
  { intros c Hc Htc Htouch. eapply validatePayrollCandidateCards_payable; [exact Hv|].
    eapply (@lockPayrollCandidateCards_all collate); [exact Hl| |exact Htc|done]. apply list_elem_of_fmap_2, Hc. }
  split; [intros c Hc Htc Htouch; apply Hcand; [done|congruence|done]|]. split.
  - intros c Hc Htc Hp. apply (Hcand c); [done..|]. left. exact Hp.
  - intros pc Hpc.
    assert (Hsub : pc ∈ candidates).
    { unfold validatePayrollCandidateCards, payrollConflict in Hv. inv_ok. subst cards.
      apply list_elem_of_In, filter_In in Hpc as [Hpc _]. by apply list_elem_of_In. }
    assert (Hpay : payableIn (windowOf period) pc) by by eapply validatePayrollCandidateCards_payable.
    split; [done|]. unfold lockPayrollCandidateCards in Hl. destruct (_ <? _); [done|]. injection Hl as <-.
    apply elem_of_take in Hsub as (i & Hi & _). apply list_elem_of_lookup_2, sortBy_elem, list_elem_of_In, filter_In in Hi as [Hi Hf].
    apply in_map_iff in Hi as (c & <- & Hc%list_elem_of_In). exists c. split; [done|]. split; [done|].
    unfold isCandidate in Hf. apply andb_true_iff in Hf as [Hf%bool_decide_eq_true _]. split; [exact Hf|].
    by destruct Hpay as (_ & _ & Hp & _).
Qed.

Lemma serializeCurrent_ReadOnly tenantId periodId : ReadOnly (serializeCurrent tenantId periodId).
Proof. unfold serializeCurrent. eauto 10 with readonly. Qed.

Lemma serializeCurrent_Ok tenantId periodId updated policies response w w' :
  serializeCurrent tenantId periodId w = (Ok (updated, policies, response), w') ->
  updated ∈ db_periods (w_db w) /\ py_id updated = periodId /\ py_tenantId updated = tenantId.
Proof.
  unfold serializeCurrent. intros (p & w1 & (_ & Hin & Ht & Hi & _)%requirePeriodById_Ok & Hr)%Tx_bind_Ok.
  do 3 apply Tx_bind_Ok in Hr as (? & ? & _ & Hr). by apply Tx_ret_Ok in Hr as [[= <- <- <-] _].
Qed.

Lemma periodAt_true tenantId periodId status revision p :
  periodAt tenantId periodId status revision p = true ->
  py_id p = periodId /\ py_tenantId p = tenantId /\ py_status p = status /\ py_revision p = revision.
Proof. unfold periodAt. rewrite !andb_true_iff, !bool_decide_eq_true, Z.eqb_eq. tauto. Qed.

#[local] Hint Resolve checkReviewable_ReadOnly candidateCards_ReadOnly serializeCurrent_ReadOnly : readonly.

Lemma startReviewInScope_Ok identity periodId expectedRevision request response w w' :
  periodsKeyed (w_db w) ->
  startReviewInScope identity periodId expectedRevision request w = (Ok response, w') ->
  Recorded request (fun response db' => exists period startedAt updatedAt,
    ReviewStarted identity periodId expectedRevision request response (w_db w) db' period startedAt updatedAt /\
    exists tick, py_endsAt period <= nowAt tick) (w_db w) response (w_db w').
Proof.
  intros [Hk _]. remember (w_db w) as db eqn:Hdb. symmetry in Hdb. unfold startReviewInScope. intros Hr.
  skip_read Hr Hdb. skip_read Hr Hdb.
  apply replayOrOperation_Ok in Hr as [[E (o & Ho & Hid & Hh & <-)]|[Hnew (w2 & E2 & Hr)]]; rewrite ?Hdb in *.
  { rewrite E. by apply recorded_replayed. }
  apply recorded_now; [done|].
  apply Tx_bind_Ok in Hr as (period & w3 & (E3 & Hin & Ht & Hi & _)%requirePeriodById_Ok & Hr). rewrite E2 in *.
  keep_read Hr E3 u4 Hc. apply checkReviewable_Ok in Hc as (Hst & Hrev & Hended).
  apply Tx_bind_Ok in Hr as (cards & w5 & Hcands & Hr). read_only Hcands E5. rewrite E3 in E5.
  apply candidateCards_Ok in Hcands as (Hcards & _ & _); [|done]. rewrite E3 in Hcards.
  pass_read Hr E5 u6. pass_read Hr E5 startedAt. pass_read Hr E5 updatedAt.
  apply Tx_bind_Ok in Hr as (changed & w7 & [-> E7]%updateMany_Ok & Hr). rewrite E5 in *. pass_read Hr E7 u8.
  destruct (negb _) eqn:Ec in Hr; [by apply liftResult_Ok in Hr as [? _]|]. apply negb_false_iff, Nat.eqb_eq in Ec.
  destruct (update_one py_id _ (reviewPeriod startedAt (si_sub identity) updatedAt) _ period Hk Hin
    (fun p Hp => proj1 (periodAt_true _ _ _ _ _ Hp)) Ec) as [_ Eupd].
  change (rows db) with (db_periods db) in E7. rewrite Eupd in E7.
  keep_read Hr E7 cur Hcur. destruct cur as [[updated policies] resp].
  apply serializeCurrent_Ok in Hcur as (_ & Hui & Hut). apply answerWith_Ok in Hr as [<- Hans]. rewrite E7, Hui, Hi in Hans.
  rewrite Hi in *. exists period, startedAt, updatedAt. split; [|by eexists]. by split.
Qed.

(** *** Adoption *)

Lemma adoptable_true tenantId expectedById card c :
  adoptable tenantId expectedById card c = true ->
  tc_id c = tc_id card /\ tc_tenantId c = tenantId /\ tc_payrollPeriodId c = None /\ tc_status c = CLOSED /\ tc_deletedAt c = None.
Proof. unfold adoptable. rewrite !andb_true_iff, !bool_decide_eq_true. tauto. Qed.

Lemma adoptOne_Ok tenantId period expectedById card u w w' :
  NoDup (map tc_id (db_timeCards (w_db w))) -> card ∈ db_timeCards (w_db w) ->
  adoptOne tenantId period expectedById card w = (Ok u, w') ->
  tc_tenantId card = tenantId /\ tc_payrollPeriodId card = None /\ tc_status card = CLOSED /\ tc_deletedAt card = None /\
  exists updatedAt, w_db w' =
    withRows (replaceRow tc_id (tc_id card) (adoptCard (py_id period) updatedAt) (db_timeCards (w_db w))) (w_db w).
Proof.
  intros Hk Hin. unfold adoptOne. intros (? & ? & [_ ->]%assertCurrent_Ok & Hr)%Tx_bind_Ok.
  apply Tx_bind_Ok in Hr as (updatedAt & w1 & [_ ->]%now_Ok & Hr).
  apply Tx_bind_Ok in Hr as (n & w2 & [-> E2]%updateMany_Ok & Hr).
  apply Tx_bind_Ok in Hr as (? & ? & [_ ->]%assertCurrent_Ok & Hr). cbn [w_db tick] in *.
  destruct (negb _) eqn:Ec in Hr; [by apply liftResult_Ok in Hr as [? _]|]. apply negb_false_iff, Nat.eqb_eq in Ec.
  apply Tx_ret_Ok in Hr as [_ <-].
  destruct (update_one tc_id _ (adoptCard (py_id period) updatedAt) _ card Hk Hin
    (fun c Hc => proj1 (adoptable_true _ _ _ _ Hc)) Ec) as [(_ & ? & ? & ? & ?)%adoptable_true Eupd].
  split_and!; try done. exists updatedAt. change (rows (w_db w)) with (db_timeCards (w_db w)) in E2. by rewrite Eupd in E2.
Qed.

Lemma adoptAll_Ok tenantId period expectedById found : forall u w w',
  NoDup (map tc_id (db_timeCards (w_db w))) -> NoDup (map tc_id found) -> Forall (fun c => c ∈ db_timeCards (w_db w)) found ->
  forEach (adoptOne tenantId period expectedById) found w = (Ok u, w') ->
  exists times, length times = length found /\
    Forall (fun c => tc_tenantId c = tenantId /\ tc_payrollPeriodId c = None /\ tc_status c = CLOSED /\ tc_deletedAt c = None) found /\
    w_db w' = withRows (adoptedRows (py_id period) (zip found times) (db_timeCards (w_db w))) (w_db w).
Proof.
  induction found as [|card found IH]; intros u w w' Hk Hn Hf; cbn [forEach].
  - intros [_ <-]%Tx_ret_Ok. exists []. split; [done|]. split; [done|]. by destruct (w_db w).
  - intros ([] & w1 & Ho & Hr)%Tx_bind_Ok. apply Forall_cons in Hf as [Hin Hf]. cbn [map] in Hn.
    apply NoDup_cons in Hn as [Hni Hn]. apply adoptOne_Ok in Ho as (? & ? & ? & ? & t & E1); [|done..].
    set (l1 := replaceRow _ _ _ _) in E1. assert (El : db_timeCards (w_db w1) = l1) by (rewrite E1; by destruct (w_db w)).
    apply IH in Hr as (times & Hl & Hall & E2).
    + exists (t :: times). split; [cbn; lia|]. split; [by constructor|]. rewrite E2, El, E1. cbn [zip zip_with adoptedRows foldl].
      by destruct (w_db w).
    + rewrite El. unfold l1. by rewrite replaceRow_keys.
    + done.
    + rewrite El. apply Forall_forall. intros c Hc. rewrite Forall_forall in Hf. specialize (Hf c Hc).
      unfold l1, replaceRow. apply list_elem_of_In, in_map_iff. exists c. rewrite bool_decide_false; [split; [done|by apply list_elem_of_In]|].
      intros E. apply Hni. rewrite <- E. apply list_elem_of_fmap_2, Hc.
Qed.

(** As many rows as names, no row twice: every name has its row. *)
Lemma all_found (ids names : list string) :
  NoDup ids -> Forall (fun i => i ∈ names) ids -> length ids = length names -> ids ≡ₚ names.
Proof.
  intros Hn Hf Hl. apply submseteq_length_Permutation; [|lia]. apply NoDup_submseteq; [done|].
  intros x Hx. rewrite Forall_forall in Hf. by apply Hf.
Qed.

Lemma adoptCardsInScope_Ok identity periodId cards request response w w' :
  cardsKeyed (w_db w) ->
  adoptCardsInScope identity periodId cards request w = (Ok response, w') ->
  Recorded request (fun response db' => exists period adopted,
    CardsAdopted identity periodId cards request response (w_db w) db' period adopted) (w_db w) response (w_db w').
Proof.
  intros Hk. remember (w_db w) as db eqn:Hdb. symmetry in Hdb. unfold adoptCardsInScope. intros Hr.
  skip_read Hr Hdb. skip_read Hr Hdb.
  apply replayOrOperation_Ok in Hr as [[E (o & Ho & Hid & Hh & <-)]|[Hnew (w2 & E2 & Hr)]]; rewrite ?Hdb in *.
  { rewrite E. by apply recorded_replayed. }
  apply recorded_now; [done|].
  apply Tx_bind_Ok in Hr as (period & w3 & (E3 & Hin & Ht & Hi & _)%requirePeriodById_Ok & Hr). rewrite E2 in *.
  case_bool_decide as Hst; cbn [negb] in Hr; [|by apply liftResult_Ok in Hr as [? _]].
  apply Tx_bind_Ok in Hr as (found & w4 & [E4 Ef]%findManyBy_Ok & Hr). rewrite E3 in *.
  destruct (negb (length found =? _)%nat) eqn:Elen; [by apply liftResult_Ok in Hr as [? _]|].
  apply negb_false_iff, Nat.eqb_eq in Elen. cbv zeta in Hr. set (expectedById := mapOf _) in Hr.
  apply Tx_bind_Ok in Hr as (oks & w5 & [Hchk <-]%liftResult_Ok & Hr).
  assert (Hfound : Forall (fun c => c ∈ db_timeCards db /\ tc_id c ∈ map rs_id cards) found).
  { apply Forall_forall. intros c Hc. rewrite Ef in Hc. apply sortBy_elem, list_elem_of_In, filter_In in Hc as [Hc Hp].
    split; [by apply list_elem_of_In|]. unfold cardsNamed in Hp. by apply andb_true_iff in Hp as [_ Hp%bool_decide_eq_true]. }
  assert (Hnd : NoDup (map tc_id found)).
  { rewrite Ef, (sortBy_perm byCardId _). apply NoDup_filter_map, (ck_ids _ Hk). }
  apply Tx_bind_Ok in Hr as (u6 & w6 & Hall & Hr).
  assert (E5 : w_db w4 = db) by congruence. pose proof (ck_ids _ Hk) as Hkids. rewrite <- E5 in Hkids.
  apply adoptAll_Ok in Hall as (times & Hl & Hcards & E6); [|done|done|].
  2:{ eapply Forall_impl; [exact Hfound|]. intros c [Hc _]. by rewrite E5. }
  rewrite E5 in E6. apply Tx_bind_Ok in Hr as (resp & w7 & [_ <-]%liftResult_Ok & Hr).
  apply answerWith_Ok in Hr as [<- Hans]. rewrite E6, Hi in Hans.
  assert (Hz1 : map (fun e : TimeCard * Z => tc_id e.1) (zip found times) = map tc_id found).
  { change (map tc_id found) with (tc_id <$> found). rewrite <- (fst_zip found times) at 2 by lia.
    change (map (fun e : TimeCard * Z => tc_id e.1) (zip found times)) with ((fun e : TimeCard * Z => tc_id e.1) <$> zip found times).
    by rewrite <- list_fmap_compose. }
  exists period, (zip found times). split; try done.
  - apply Forall_forall. intros [c t] Hc. apply elem_of_zip_l in Hc. cbn [fst].
    rewrite Forall_forall in Hfound, Hcards. destruct (Hfound c Hc) as [Hcin Hcid], (Hcards c Hc) as (? & ? & ? & ?).
    split_and!; try done. apply mapM_checks in Hchk.
    rewrite Forall_forall in Hchk. specialize (Hchk c Hc). unfold checkAdoptable, concurrentChange, payrollRefused in Hchk.
    destruct (_ || _) eqn:Ea in Hchk; [done|]. destruct (_ || _) eqn:Eb in Hchk; [done|].
    rewrite !orb_false_iff, !negb_false_iff in Ea. rewrite !orb_false_iff in Eb. destruct Ea as ((((Hrev%bool_decide_eq_true & _) & _) & Hout) & _).
    destruct Eb as ((Hs & He) & _). apply mapGet_Some_elem in Hrev.
    destruct (tc_clockOutAt c) as [out|] eqn:Eo; [|done].
    assert (Hrs : exists r, r ∈ cards /\ (rs_id r, rs_expectedRevision r) = (tc_id c, tc_revision c)).
    { unfold expectedById in Hrev. pose proof (mapOf_elem _ _ Hrev) as Hm. apply list_elem_of_In, in_map_iff in Hm as (r & Er & Hr%list_elem_of_In).
      exists r. split; [done|by rewrite Er]. }
    destruct Hrs as (r & Hr & [= Hr1 Hr2]). exists r, out. split_and!; try done; bool_lia.
  - rewrite Hz1. apply all_found; [done| |by rewrite !length_map].
    apply Forall_fmap. eapply Forall_impl; [exact Hfound|]. by intros c [_ ?].
Qed.

(** *** Decisions *)

Lemma createApprovals_Ok identity periodId request decisions : forall created w w',
  createApprovals identity periodId request decisions w = (Ok created, w') ->
  Forall2 (fun d a => exists id decidedAt, a = approvalRow id decidedAt identity periodId request d) decisions created /\
  insertAll created (pt_approvals (db_payroll (w_db w))) = Some (pt_approvals (db_payroll (w_db w)) ++ created) /\
  w_db w' = withRows (pt_approvals (db_payroll (w_db w)) ++ created) (w_db w).
Proof.
  induction decisions as [|d decisions IH]; intros created w w'; cbn [createApprovals].
  - intros [<- <-]%Tx_ret_Ok. rewrite app_nil_r. split; [constructor|]. split; [done|].
    destruct (w_db w) as [? ? ? ? ? ? ? ? ? ? ? ? ? ? ? ? []]. done.
  - intros (? & ? & [_ ->]%assertCurrent_Ok & Hr)%Tx_bind_Ok.
    apply Tx_bind_Ok in Hr as (id & w1 & [_ ->]%randomUUID_Ok & Hr).
    apply Tx_bind_Ok in Hr as (decidedAt & w1 & [_ ->]%now_Ok & Hr). cbv zeta in Hr.
    set (row := approvalRow id decidedAt identity periodId request d) in Hr.
    apply Tx_bind_Ok in Hr as (u & w2 & [Hf E2]%createRow_Ok & Hr).
    apply Tx_bind_Ok in Hr as (? & ? & [_ ->]%assertCurrent_Ok & Hr).
    apply Tx_bind_Ok in Hr as (rest & w3 & (H21 & H22 & H23)%IH & [<- <-]%Tx_ret_Ok). cbn [w_db tick] in *.
    assert (Ea : pt_approvals (db_payroll (w_db w2)) = pt_approvals (db_payroll (w_db w)) ++ [row]).
    { rewrite E2. destruct (w_db w) as [? ? ? ? ? ? ? ? ? ? ? ? ? ? ? ? []]. done. }
    rewrite Ea in H22, H23. split; [constructor; [by eexists _, _|done]|]. split.
    + cbn [insertAll]. change (rows (w_db w)) with (pt_approvals (db_payroll (w_db w))) in Hf. rewrite Hf, H22, <- app_assoc. done.
    + rewrite H23, E2, <- app_assoc. destruct (w_db w) as [? ? ? ? ? ? ? ? ? ? ? ? ? ? ? ? []]. done.
Qed.

Lemma decideCardsInScope_Ok identity periodId decisions request response w w' :
  cardsKeyed (w_db w) ->
  decideCardsInScope identity periodId decisions request w = (Ok response, w') ->
  Recorded request (fun response db' => exists period approvals,
    CardsDecided identity periodId decisions request response (w_db w) db' period approvals) (w_db w) response (w_db w').
Proof.
  intros Hk. remember (w_db w) as db eqn:Hdb. symmetry in Hdb. unfold decideCardsInScope. intros Hr.
  skip_read Hr Hdb. skip_read Hr Hdb.
  apply replayOrOperation_Ok in Hr as [[E (o & Ho & Hid & Hh & <-)]|[Hnew (w2 & E2 & Hr)]]; rewrite ?Hdb in *.
  { rewrite E. by apply recorded_replayed. }
  apply recorded_now; [done|].
  apply Tx_bind_Ok in Hr as (period & w3 & (E3 & Hin & Ht & Hi & _)%requirePeriodById_Ok & Hr). rewrite E2 in *.
  case_bool_decide as Hst; cbn [negb] in Hr; [|by apply liftResult_Ok in Hr as [? _]].
  apply Tx_bind_Ok in Hr as (found & w4 & [E4 Ef]%findManyBy_Ok & Hr). rewrite E3 in *.
  destruct (negb (length found =? _)%nat) eqn:Elen; [by apply liftResult_Ok in Hr as [? _]|].
  apply negb_false_iff, Nat.eqb_eq in Elen. cbv zeta in Hr. set (decisionById := mapOf _) in Hr.
  apply Tx_bind_Ok in Hr as (oks & w5 & [Hchk%mapM_checks <-]%liftResult_Ok & Hr).
  assert (Hfound : Forall (fun c => c ∈ db_timeCards db /\ tc_tenantId c = si_tenantId identity /\
      tc_payrollPeriodId c = Some periodId /\ tc_id c ∈ map rd_timeCardId decisions) found).
  { apply Forall_forall. intros c Hc. rewrite Ef in Hc. apply sortBy_elem, list_elem_of_In, filter_In in Hc as [Hc Hp].
    split; [by apply list_elem_of_In|]. unfold inPeriod in Hp. rewrite Hi, !andb_true_iff, !bool_decide_eq_true in Hp. tauto. }
  assert (Hnd : NoDup (map tc_id found)).
  { rewrite Ef, (sortBy_perm byCardId _). apply NoDup_filter_map, (ck_ids _ Hk). }
  assert (Hperm : map tc_id found ≡ₚ map rd_timeCardId decisions).
  { apply all_found; [done| |by rewrite !length_map]. apply Forall_fmap. eapply Forall_impl; [exact Hfound|].
    by intros c (_ & _ & _ & ?). }
  assert (Hget : forall d, d ∈ decisions -> mapGet decisionById (rd_timeCardId d) = Some d).
  { assert (Hn2 : NoDup (map (fun d => (rd_timeCardId d, d)) decisions).*1).
    { rewrite <- list_fmap_compose. change (NoDup (map rd_timeCardId decisions)). by rewrite <- Hperm. }
    intros d Hd. unfold decisionById. rewrite mapOf_NoDup by done. apply mapGet_Some; [done|].
    exact (list_elem_of_fmap_2 (fun d => (rd_timeCardId d, d)) _ _ Hd). }
  apply Tx_bind_Ok in Hr as (existing & w6 & [_ E6]%findMany_Ok & Hr).
  destruct (0 <? _)%nat; [by apply liftResult_Ok in Hr as [? _]|].
  apply Tx_bind_Ok in Hr as (created & w7 & (H21 & H22 & H23)%createApprovals_Ok & Hr).
  assert (E5 : w_db w6 = db) by congruence. rewrite E5 in *.
  apply Tx_bind_Ok in Hr as (resp & w8 & [_ <-]%liftResult_Ok & Hr).
  apply answerWith_Ok in Hr as [<- Hans]. rewrite H23, Hi in Hans. rewrite Hi in H21.
  exists period, created. split; try done. apply Forall_forall. intros d Hd.
  assert (Hid : rd_timeCardId d ∈ map tc_id found) by (rewrite Hperm; apply list_elem_of_fmap_2, Hd).
  apply list_elem_of_In, in_map_iff in Hid as (c & Hcid & Hc%list_elem_of_In).
  rewrite Forall_forall in Hfound, Hchk. destruct (Hfound c Hc) as (Hcin & Hct & Hcp & _). specialize (Hchk c Hc).
  unfold checkDecidable, concurrentChange, payrollRefused in Hchk. rewrite Hcid, (Hget d Hd) in Hchk.
  destruct (_ || _) eqn:Ea in Hchk; [done|]. case_bool_decide as Hself; [done|].
  rewrite !orb_false_iff, !negb_false_iff in Ea. destruct Ea as ((Hcl%bool_decide_eq_true & Hdel) & Hrev%Z.eqb_eq).
  exists c. split_and!; try done. by destruct (tc_deletedAt c).
Qed.

(** *** The handlers *)

(** The request a handler computes its operation and its hash from. *)
Definition requestOf (identity : SessionIdentity) (operation : PayrollOperationName) (idempotencyKey : string) (body : Json)
    : PayrollRequestIdentity :=
  payrollRequestIdentity (trim (si_tenantId identity)) (trim (si_sub identity)) operation idempotencyKey body.

Lemma startReview_outcome_Ok db identity publicPeriodId expectedRevision key :
  periodsKeyed db ->
  OutcomeAt db (startReview identity publicPeriodId expectedRevision key) (fun response db' =>
    exists periodId idempotencyKey, normalizeIdempotencyKey key = Ok idempotencyKey /\
      let request := requestOf identity REVIEW idempotencyKey
        (JObj [jText "periodId" periodId; jInt "expectedRevision" expectedRevision]) in
      Recorded request (fun response db' => exists period startedAt updatedAt,
        ReviewStarted (operationsIdentity identity) periodId expectedRevision request response db db' period startedAt updatedAt /\
        exists tick, py_endsAt period <= nowAt tick) db response db').
Proof.
  intros Hk. unfold startReview. apply OutcomeAt_bind; [eauto with readonly|]. intros _ _ _ _ _.
  apply OutcomeAt_bind; [eauto with readonly|]. intros w1 periodId w1' _ _.
  apply OutcomeAt_bind; [eauto with readonly|]. intros w2 k w2' _ [Hkey _]%liftResult_Ok.
  eapply OutcomeAt_impl; [apply mutationRun_outcome|].
  intros response db' (wa & wb & <- & Ho & -> & _). exists periodId, k. split; [done|]. by apply startReviewInScope_Ok.
Qed.

Lemma adoptCards_outcome_Ok db identity publicPeriodId cards key :
  cardsKeyed db ->
  OutcomeAt db (adoptCards identity publicPeriodId cards key) (fun response db' =>
    exists periodId resolved idempotencyKey, normalizeIdempotencyKey key = Ok idempotencyKey /\
      let request := requestOf identity ADOPT idempotencyKey (adoptBody periodId resolved) in
      cardsExclusive (db_timeCards db') = true /\
      Recorded request (fun response db' => exists period adopted,
        CardsAdopted (operationsIdentity identity) periodId resolved request response db db' period adopted) db response db').
Proof.
  intros Hk. unfold adoptCards. apply OutcomeAt_bind; [eauto with readonly|]. intros _ _ _ _ _.
  apply OutcomeAt_bind; [eauto with readonly|]. intros w1 periodId w1' _ _.
  apply OutcomeAt_bind; [eauto with readonly|]. intros w2 byPublicId w2' _ _.
  apply OutcomeAt_bind; [eauto with readonly|]. intros w3 resolved w3' _ _.
  apply OutcomeAt_bind; [eauto with readonly|]. intros w4 k w4' _ [Hkey _]%liftResult_Ok.
  apply OutcomeAt_conflict. eapply OutcomeAt_impl; [apply mutationRun_outcome|].
  intros response db' (wa & wb & <- & Ho & -> & Hx). exists periodId, resolved, k. split; [done|]. split; [done|].
  by apply adoptCardsInScope_Ok.
Qed.

Lemma decideCards_outcome_Ok db identity publicPeriodId decisions key :
  cardsKeyed db ->
  OutcomeAt db (decideCards identity publicPeriodId decisions key) (fun response db' =>
    exists periodId resolved idempotencyKey, normalizeIdempotencyKey key = Ok idempotencyKey /\
      let request := requestOf identity APPROVAL idempotencyKey (decisionsBody periodId resolved) in
      Recorded request (fun response db' => exists period approvals,
        CardsDecided (operationsIdentity identity) periodId resolved request response db db' period approvals) db response db').
Proof.
  intros Hk. unfold decideCards. apply OutcomeAt_bind; [eauto with readonly|]. intros _ _ _ _ _.
  apply OutcomeAt_bind; [eauto with readonly|]. intros w1 periodId w1' _ _.
  apply OutcomeAt_bind; [eauto with readonly|]. intros w2 byPublicId w2' _ _.
  apply OutcomeAt_bind; [eauto with readonly|]. intros w3 resolved w3' _ _.
  apply OutcomeAt_bind; [eauto with readonly|]. intros w4 k w4' _ [Hkey _]%liftResult_Ok.
  apply OutcomeAt_conflict. eapply OutcomeAt_impl; [apply mutationRun_outcome|].
  intros response db' (wa & wb & <- & Ho & -> & _). exists periodId, resolved, k. split; [done|].
  by apply decideCardsInScope_Ok.
Qed.
End ReviewFacts.
