(* ===== verification/PayrollLock.v ===== *)
(** * Locking a payroll period

    [lockPeriod] of apps/api-v2/src/payroll/payroll.service.ts, with
    [lockAndValidateBreaks], [approvedCardSources] and
    [approvedAmendmentSources]: a period in review that has ended is frozen
    into entries, one for the approved current revision of each of its cards
    and one for each approved amendment, and never leaves that state. *)

From S2P Require Import Prelude JsStd JsCollections JsDate ContractHelpers TimeZone PayrollDates PayrollRecords.
From S2P Require Import Database FeatureEntitlement Authority ScheduleStore TimeCardPayroll TimeCardStore TimeCards.
From S2P Require Import PayrollStore PayrollPolicies PayrollReview.

Definition unprocessable {A} (code detail : string) : Result A :=
  payrollRefused 422 code detail "Payroll validation failed".

(** [try { return value; } catch { throw problem; }] *)
Definition catchAs {A} (code detail : string) (r : Result A) : Result A :=
  match r with Ok a => Ok a | Throw _ => unprocessable code detail end.

Definition breakIntervalOf (b : TimeCardBreak) : DateOrText * DateOrText :=
  (DDate (Some (tb_startAt b)), DDate (Some (tb_endAt b))).

(** ** Breaks *)

(** [byCard.get(interval.timeCardId)?.push(interval)] *)
Definition pushBreak (byCard : JsMap string (list TimeCardBreak)) (b : TimeCardBreak) : JsMap string (list TimeCardBreak) :=
  match mapGet byCard (tb_timeCardId b) with
  | Some l => mapSet byCard (tb_timeCardId b) (l ++ [b])
  | None => byCard
  end.

Definition breakInvalid (card : PayrollCandidateCard) (previousEnd : Z) (b : TimeCardBreak) : bool :=
  (tb_startAt b <? pc_clockInAt card)
  || match pc_clockOutAt card with None => true | Some out => out <? tb_endAt b end
  || (tb_endAt b <=? tb_startAt b) || (tb_startAt b <? previousEnd).

(** The inner loop: the minutes of the breaks of a card. *)
Fixpoint breakTotal (card : PayrollCandidateCard) (previousEnd total : Z) (intervals : list TimeCardBreak) : Result Z :=
  match intervals with
  | [] => Ok total
  | b :: rest =>
      if breakInvalid card previousEnd b then
        unprocessable "payroll_break_evidence_invalid" "Time-card break evidence is invalid for payroll locking."
      else breakTotal card (tb_endAt b) (total + (tb_endAt b - tb_startAt b) / 60000) rest
  end.

Definition checkCardBreaks (cardById : JsMap string PayrollCandidateCard) (e : string * list TimeCardBreak) : Result unit :=
  match mapGet cardById e.1 with
  | None => payrollRefused 503 "payroll_reference_integrity_failed" "Saved payroll time-card evidence is unavailable."
              "Service unavailable"
  | Some card =>
      total ← breakTotal card (pc_clockInAt card) 0 e.2;
      if (0 <? length e.2)%nat && negb (total =? pc_breakMinutes card) then
        unprocessable "payroll_break_minutes_mismatch" "Time-card breaks do not match aggregate break minutes."
      else Ok tt
  end.

(** ** The sources of the entries *)

(** The key of the map of approvals. *)
Definition revisionKey (id : string) (revision : Z) : string := id +:+ ":" +:+ showZ revision.

Definition cardSource (exact : JsMap string PayrollTimeCardApproval) (breaksByCard : JsMap string (list TimeCardBreak))
    (card : PayrollCandidateCard) : Result LockedEntrySource :=
  match mapGet exact (revisionKey (pc_id card) (pc_revision card)), pc_clockOutAt card with
  | Some approval, Some out =>
      if negb (bool_decide (av_decision approval = APPROVED_D)) then
        unprocessable "payroll_approval_missing" "Every current time-card revision must have an approved decision."
      else
        payableMinutes ← catchAs "payroll_card_duration_invalid" "Time-card duration is invalid for payroll locking."
          (payrollWorkedMinutes (DDate (Some (pc_clockInAt card))) (DDate (Some out)) (pc_breakMinutes card));
        Ok (mkSource "TIME_CARD" (pc_id card) (pc_revision card) (pc_userId card) (pc_locationId card) (pc_workTimeZone card)
              (DDate (Some (pc_clockInAt card))) (DDate (Some out)) (pc_breakMinutes card) payableMinutes
              (DDate (Some (av_decidedAt approval))) (av_decidedByUserId approval)
              (Some (map breakIntervalOf (default [] (mapGet breaksByCard (pc_id card))))))
  | _, _ => unprocessable "payroll_approval_missing" "Every current time-card revision must have an approved decision."
  end.

Definition amendmentSource (originalById : JsMap string PayrollLockedEntry) (decisionByAmendment : JsMap string PayrollAmendmentDecision)
    (amendment : PayrollAmendment) : Result LockedEntrySource :=
  match mapGet originalById (pm_lockedEntryId amendment), mapGet decisionByAmendment (pm_id amendment) with
  | Some original, Some decision =>
      Ok (mkSource "AMENDMENT" (pm_id amendment) 1 (pe_employeeId original) (pe_locationId original) (pe_workTimeZone original)
            (DDate (Some (pm_replacementClockInAt amendment))) (DDate (Some (pm_replacementClockOutAt amendment)))
            (pm_replacementBreakMinutes amendment) (pm_minuteDelta amendment)
            (DDate (Some (px_decidedAt decision))) (px_decidedByUserId decision) None)
  | _, _ => payrollRefused 503 "payroll_reference_integrity_failed" "Saved payroll amendment evidence is unavailable."
              "Service unavailable"
  end.

(** The instant of a stored source, none of which is text. *)
Definition instantOf (value : DateOrText) : Result Z := requiredDate value "Provided Date object is invalid.".

(** The row [createMany] stores for an entry. *)
Definition entryRow (tenantId periodId id publicId : string) (entry : LockedEntry) : Result PayrollLockedEntry :=
  let s := le_source entry in
  clockInAt ← instantOf (ls_clockInAt s);
  clockOutAt ← instantOf (ls_clockOutAt s);
  approvedAt ← instantOf (ls_approvedAt s);
  Ok (mkLockedEntry id publicId tenantId periodId (le_sequence entry) (ls_sourceType s) (ls_sourceId s) (ls_sourceRevision s)
        (ls_employeeId s) (ls_locationId s) (ls_workTimeZone s) clockInAt clockOutAt (ls_breakMinutes s) (ls_payableMinutes s)
        approvedAt (ls_approvedByUserId s) (le_canonicalSha256 entry)).

(** The update of [lockPeriod]. *)
Definition lockRow (lockedAt : Z) (userId : string) (request : PayrollRequestIdentity) (snapshot : LockedSnapshots)
    (updatedAt : Z) (p : PayrollPeriodRow) : PayrollPeriodRow :=
  mkPeriodRow (py_id p) (py_publicId p) (py_tenantId p) (py_policyVersionId p) (py_localStartDate p)
    (py_localEndDateExclusive p) (py_startsAt p) (py_endsAt p) (py_timeZone p) (py_cadence p) "LOCKED" (py_revision p + 1)
    (py_reviewStartedAt p) (py_reviewStartedByUserId p) (Some lockedAt) (Some userId) (Some request.1) (Some request.2)
    (Some (sn_aggregateSha256 snapshot)) (Some (Z.of_nat (length (sn_entries snapshot)))) (Some (sn_totalPayableMinutes snapshot))
    (py_createdAt p) updatedAt.

Section Lock.
Context `{Env, AuthorityEnv, CommitEnv, Collation, Intl, LC : LocaleCompare, Sha256}.

Definition breakOrder (l r : TimeCardBreak) : Z :=
  orElse (collate (tb_timeCardId l) (tb_timeCardId r)) (orElse (tb_startAt l - tb_startAt r) (collate (tb_id l) (tb_id r))).

Definition lockAndValidateBreaks (tenantId : string) (cards : list PayrollCandidateCard) : Tx (JsMap string (list TimeCardBreak)) :=
  let byCard := mapOf (map (fun card => (pc_id card, [])) cards) in
  match cards with
  | [] => mret byCard
  | _ =>
      breaks ← findManyBy breakOrder (fun b => bool_decide (tb_tenantId b = tenantId) && bool_decide (tb_timeCardId b ∈ map pc_id cards));
      let cardById := mapOf (map (fun card => (pc_id card, card)) cards) in
      let byCard := foldl pushBreak byCard breaks in
      _ ← liftResult (mapM (checkCardBreaks cardById) byCard);
      mret byCard
  end.

Definition approvesCard (card : PayrollCandidateCard) (a : PayrollTimeCardApproval) : bool :=
  bool_decide (av_timeCardId a = pc_id card) && (av_timeCardRevision a =? pc_revision card).

Definition approvedCardSources (tenantId periodId : string) (cards : list PayrollCandidateCard)
    (breaksByCard : JsMap string (list TimeCardBreak)) : Tx (list LockedEntrySource) :=
  match cards with
  | [] => mret []
  | _ =>
      approvals ← findManyBy (fun l r => collate (av_timeCardId l) (av_timeCardId r))
        (fun a => bool_decide (av_tenantId a = tenantId) && bool_decide (av_periodId a = periodId)
                  && existsb (fun card => approvesCard card a) cards);
      let exact := mapOf (map (fun a => (revisionKey (av_timeCardId a) (av_timeCardRevision a), a)) (take (length cards) approvals)) in
      liftResult (mapM (cardSource exact breaksByCard) cards)
  end.

Definition amendmentOrder (l r : PayrollAmendment) : Z :=
  orElse (pm_createdAt l - pm_createdAt r) (collate (pm_id l) (pm_id r)).

Definition approvedAmendmentSources (tenantId adjustmentPeriodId : string) : Tx (list LockedEntrySource) :=
  found ← findManyBy amendmentOrder (fun m => bool_decide (pm_tenantId m = tenantId)
    && bool_decide (pm_adjustmentPeriodId m = adjustmentPeriodId));
  let amendments := take (Z.to_nat (MAX_PAYROLL_LOCK_ENTRIES + 1)) found in
  if MAX_PAYROLL_LOCK_ENTRIES <? Z.of_nat (length amendments) then
    liftResult (unprocessable "payroll_amendment_limit_invalid"
      ("Payroll period exceeds the " +:+ showZ MAX_PAYROLL_LOCK_ENTRIES +:+ "-amendment lock limit."))
  else
  match amendments with
  | [] => mret []
  | _ =>
      decisions ← findManyBy (fun l r => collate (px_amendmentId l) (px_amendmentId r))
        (fun d => bool_decide (px_tenantId d = tenantId) && bool_decide (px_amendmentId d ∈ map pm_id amendments));
      let decisionByAmendment := mapOf (map (fun d => (px_amendmentId d, d)) (take (length amendments) decisions)) in
      if existsb (fun m => negb (mapHas decisionByAmendment (pm_id m))) amendments then
        liftResult (unprocessable "payroll_amendment_pending" "Pending payroll amendments block payroll locking.")
      else
      let approved := List.filter (fun m => bool_decide (px_decision <$> mapGet decisionByAmendment (pm_id m) = Some APPROVED_D)) amendments in
      match approved with
      | [] => mret []
      | _ =>
          originals ← findManyBy (fun l r => collate (pe_id l) (pe_id r))
            (fun e => bool_decide (pe_tenantId e = tenantId) && bool_decide (pe_id e ∈ map pm_lockedEntryId approved));
          let originalById := mapOf (map (fun e => (pe_id e, e)) (take (length approved) originals)) in
          liftResult (mapM (amendmentSource originalById decisionByAmendment) approved)
      end
  end.

(** What the period must satisfy before its cards are read. *)
Definition checkLockable (period : PayrollPeriodRow) (expectedRevision : Z) : Tx unit :=
  if negb (bool_decide (py_status period = "REVIEW")) then
    liftResult (payrollRefused 409 "payroll_lock_state_invalid" "Only a payroll period in review can be locked." "Conflict")
  else if negb (py_revision period =? expectedRevision) then liftResult concurrentChange
  else
    nowMs ← now;
    if nowMs <? py_endsAt period then
      liftResult (unprocessable "payroll_period_not_ended" "Payroll period cannot be locked before it ends.")
    else mret tt.

(** The entries of the lock, from the cards and the amendments. *)
Definition lockSnapshot (tenantId : string) (period : PayrollPeriodRow) : Tx LockedSnapshots :=
  cards ← candidateCards tenantId period;
  breaksByCard ← lockAndValidateBreaks tenantId cards;
  cardSources ← approvedCardSources tenantId (py_id period) cards breaksByCard;
  amendmentSources ← approvedAmendmentSources tenantId (py_id period);
  if MAX_PAYROLL_LOCK_ENTRIES <? Z.of_nat (length cardSources + length amendmentSources) then
    liftResult (unprocessable "payroll_lock_entry_limit"
      ("Payroll period exceeds the " +:+ showZ MAX_PAYROLL_LOCK_ENTRIES +:+ "-entry lock limit."))
  else
    liftResult (catchAs "payroll_source_invalid" "Payroll source data is invalid for locking."
      (materializeLockedSnapshots tenantId (py_id period) (cardSources ++ amendmentSources))).

Fixpoint freshEntries (tenantId periodId : string) (entries : list LockedEntry) : Tx (list PayrollLockedEntry) :=
  match entries with
  | [] => mret []
  | entry :: rest =>
      id ← randomUUID;
      publicId ← randomUUID;
      row ← liftResult (entryRow tenantId periodId id publicId entry);
      rows ← freshEntries tenantId periodId rest;
      mret (row :: rows)
  end.

Definition createEntries (tenantId periodId : string) (entries : list LockedEntry) : Tx unit :=
  match entries with
  | [] => mret tt
  | _ =>
      _ ← assertCurrent;
      rows ← freshEntries tenantId periodId entries;
      _ ← createMany rows;
      assertCurrent
  end.

(** A locked period answers the request that locked it, and no other. *)
Definition replayLocked (tenantId : string) (period : PayrollPeriodRow) (request : PayrollRequestIdentity) : Tx Json :=
  if bool_decide (py_lockOperationId period = Some request.1) && bool_decide (py_lockRequestHash period = Some request.2) then
    summary ← loadSummary tenantId (py_id period);
    policies ← publicPolicies tenantId [Some (py_policyVersionId period)];
    liftResult (serializePeriod period summary policies)
  else liftResult (payrollRefused 409 "idempotency_conflict" PAYROLL_REPLAY_CONFLICT "Conflict").

Definition lockPeriodInScope (identity : SessionIdentity) (periodId : string) (expectedRevision : Z)
    (request : PayrollRequestIdentity) : Tx Json :=
  let tenantId := si_tenantId identity in
  _ ← lockPayrollTenant tenantId;
  _ ← lockPayrollPeriod tenantId periodId;
  period ← requirePeriodById tenantId periodId;
  if bool_decide (py_status period = "LOCKED") then replayLocked tenantId period request
  else
    _ ← checkLockable period expectedRevision;
    snapshot ← lockSnapshot tenantId period;
    _ ← createEntries tenantId (py_id period) (sn_entries snapshot);
    _ ← assertCurrent;
    lockedAt ← now;
    updatedAt ← now;
    changed ← updateUnique (periodAt tenantId (py_id period) "REVIEW" expectedRevision)
      (lockRow lockedAt (si_sub identity) request snapshot updatedAt);
    _ ← assertCurrent;
    if negb (changed =? 1)%nat then liftResult concurrentChange else
    '(updated, policies, response) ← serializeCurrent tenantId (py_id period);
    _ ← assertCurrent;
    old ← liftResult (serializePeriod period emptySummary policies);
    _ ← writePayrollAudit identity "PAYROLL_PERIOD_LOCKED" "PayrollPeriod" (py_id period) (Some old) (Some response);
    _ ← assertCurrent;
    mret response.

Definition lockPeriod (identity : SessionIdentity) (publicPeriodId : string) (expectedRevision : Z)
    (idempotencyKeyRaw : option string) : Tx Json :=
  let identity := operationsIdentity identity in
  _ ← prepareCurrentMutation identity;
  periodId ← resolvePeriodId identity publicPeriodId;
  idempotencyKey ← liftResult (normalizeIdempotencyKey idempotencyKeyRaw);
  let request := payrollRequestIdentity (si_tenantId identity) (si_sub identity) LOCK idempotencyKey
    (JObj [jText "periodId" periodId; jInt "expectedRevision" expectedRevision]) in
  mutationRun identity (lockPeriodInScope identity periodId expectedRevision request).
End Lock.

(** ** What a lock leaves *)

Definition breakWindow (b : TimeCardBreak) : Z * Z := (tb_startAt b, tb_endAt b).

(** The breaks of a card lie inside it, apart, and add up to its break
    minutes when there are any. *)
Definition breaksSupport (c : TimeCard) (breaks : list TimeCardBreak) : Prop :=
  Forall (fun b => tc_clockInAt c <= tb_startAt b < tb_endAt b /\
                   exists out, tc_clockOutAt c = Some out /\ tb_endAt b <= out) breaks /\
  pairwise windowsApart (map breakWindow breaks) /\
  (breaks <> [] -> foldr Z.add 0 (map (fun b => (tb_endAt b - tb_startAt b) / 60000) breaks) = tc_breakMinutes c).

(** The entry pays the card as it stands, for the minutes it worked, as its
    current revision was approved. *)
Record PaysCard (periodId : string) (db : Db) (c : TimeCard) (e : PayrollLockedEntry) : Prop := mkPaysCard {
  ps_source : pe_sourceType e = "TIME_CARD" /\ pe_sourceId e = tc_id c /\ pe_sourceRevision e = tc_revision c;
  ps_work : pe_employeeId e = tc_userId c /\ pe_locationId e = tc_locationId c /\ pe_workTimeZone e = tc_workTimeZone c /\
    pe_clockInAt e = tc_clockInAt c /\ tc_clockOutAt c = Some (pe_clockOutAt e) /\ pe_breakMinutes e = tc_breakMinutes c;
  ps_minutes : 0 <= pe_payableMinutes e /\
    pe_payableMinutes e = (pe_clockOutAt e - pe_clockInAt e) / 60000 - pe_breakMinutes e;
  ps_approved : exists a, a ∈ pt_approvals (db_payroll db) /\ av_tenantId a = tc_tenantId c /\ av_periodId a = periodId /\
    av_timeCardId a = tc_id c /\ av_timeCardRevision a = tc_revision c /\ av_decision a = APPROVED_D /\
    pe_approvedAt e = av_decidedAt a /\ pe_approvedByUserId e = av_decidedByUserId a;
}.

(** The entry pays the minutes by which an approved amendment of an entry of
    the tenant changes it. *)
Record PaysAmendment (db : Db) (m : PayrollAmendment) (e : PayrollLockedEntry) : Prop := mkPaysAmendment {
  pa_source : pe_sourceType e = "AMENDMENT" /\ pe_sourceId e = pm_id m /\ pe_sourceRevision e = 1;
  pa_minutes : pe_payableMinutes e = pm_minuteDelta m;
  pa_original : exists o, o ∈ pt_entries (db_payroll db) /\ pe_tenantId o = pm_tenantId m /\ pe_id o = pm_lockedEntryId m /\
    pe_employeeId e = pe_employeeId o;
  pa_approved : exists d, d ∈ pt_decisions (db_payroll db) /\ px_tenantId d = pm_tenantId m /\ px_amendmentId d = pm_id m /\
    px_decision d = APPROVED_D /\ pe_approvedAt e = px_decidedAt d /\ pe_approvedByUserId e = px_decidedByUserId d;
}.

(** The cards and the amendments of a period. *)
Definition assignedTo (tenantId periodId : string) (c : TimeCard) : Prop :=
  tc_tenantId c = tenantId /\ tc_payrollPeriodId c = Some periodId.
Definition amends (tenantId periodId : string) (m : PayrollAmendment) : Prop :=
  pm_tenantId m = tenantId /\ pm_adjustmentPeriodId m = periodId.

(** The sum of what the entries pay. *)
Definition payTotal (entries : list PayrollLockedEntry) : Z := foldr Z.add 0 (map pe_payableMinutes entries).

Record PeriodLocked `{LocaleCompare, Sha256} (identity : SessionIdentity) (periodId : string) (expectedRevision : Z)
    (request : PayrollRequestIdentity) (db db' : Db) (period : PayrollPeriodRow) (readAt lockedAt updatedAt : Z)
    (snapshot : LockedSnapshots) (entries : list PayrollLockedEntry) : Prop := mkPeriodLocked {
  lk_period : period ∈ db_periods db /\ py_id period = periodId /\ py_tenantId period = si_tenantId identity;
  lk_review : py_status period = "REVIEW" /\ py_revision period = expectedRevision;
  lk_ended : py_endsAt period <= readAt;
  lk_cards : cardsInOrder db period;
  lk_breaks : forall c, c ∈ db_timeCards db -> assignedTo (si_tenantId identity) periodId c ->
    breaksSupport c (List.filter (breakNamed (si_tenantId identity) (tc_id c)) (db_cardBreaks db));
  lk_pays : forall c, c ∈ db_timeCards db -> assignedTo (si_tenantId identity) periodId c ->
    exists e, e ∈ entries /\ PaysCard periodId db c e;
  lk_amends : forall m, m ∈ pt_amendments (db_payroll db) -> amends (si_tenantId identity) periodId m ->
    (exists d, d ∈ pt_decisions (db_payroll db) /\ px_tenantId d = si_tenantId identity /\ px_amendmentId d = pm_id m /\
       (px_decision d = APPROVED_D -> exists e, e ∈ entries /\ PaysAmendment db m e));
  lk_only : forall e, e ∈ entries -> pe_tenantId e = si_tenantId identity /\ pe_periodId e = periodId /\
    ((exists c, c ∈ db_timeCards db /\ assignedTo (si_tenantId identity) periodId c /\ PaysCard periodId db c e) \/
     (exists m, m ∈ pt_amendments (db_payroll db) /\ amends (si_tenantId identity) periodId m /\ PaysAmendment db m e));
  lk_fresh : insertAll entries (pt_entries (db_payroll db)) = Some (pt_entries (db_payroll db) ++ entries);
  lk_sequence : map pe_sequence entries = map Z.of_nat (seq 0 (length entries));
  lk_total : length (sn_entries snapshot) = length entries /\ sn_totalPayableMinutes snapshot = payTotal entries /\
    payrollLockAggregateSha256 (si_tenantId identity) periodId (map pe_canonicalSha256 entries) (payTotal entries)
      = Ok (sn_aggregateSha256 snapshot);
  lk_written : exists a, al_action a = "PAYROLL_PERIOD_LOCKED" /\
    anyConflict (replaceRow py_id periodId (lockRow lockedAt (si_sub identity) request snapshot updatedAt) (db_periods db)) = false /\
    db' = withRows (db_audits db ++ [a])
      (withRows (replaceRow py_id periodId (lockRow lockedAt (si_sub identity) request snapshot updatedAt) (db_periods db))
        (withRows (pt_entries (db_payroll db) ++ entries) db));
}.

(** ** Breaks *)

Lemma breakTotal_Ok card previousEnd total breaks total' :
  breakTotal card previousEnd total breaks = Ok total' ->
  total' = total + foldr Z.add 0 (map (fun b => (tb_endAt b - tb_startAt b) / 60000) breaks) /\
  Forall (fun b => pc_clockInAt card <= tb_startAt b < tb_endAt b /\ previousEnd <= tb_startAt b /\
                   exists out, pc_clockOutAt card = Some out /\ tb_endAt b <= out) breaks /\
  pairwise windowsApart (map breakWindow breaks).
Proof.
  revert previousEnd total. induction breaks as [|b breaks IH]; intros previousEnd total; cbn [breakTotal map foldr].
  - intros [= <-]. split; [lia|]. split; [constructor|]. by intros i j x y _ [=].
  - destruct (breakInvalid _ _ _) eqn:Eb; [done|]. intros (-> & Hf & Hp)%IH. split; [lia|].
    unfold breakInvalid in Eb. rewrite !orb_false_iff in Eb. destruct Eb as (((H1 & H2) & H3) & H4).
    destruct (pc_clockOutAt card) as [out|] eqn:Eo; [|done]. bools. split.
    + constructor; [split; [lia|]; split; [lia|]; by exists out|]. eapply Forall_impl; [exact Hf|].
      intros x (? & ? & o & [= <-] & ?). split; [done|]. split; [lia|by exists out].
    + apply pairwise_cons; [apply _|]. split; [|done]. apply Forall_fmap. eapply Forall_impl; [exact Hf|].
      intros x (? & ? & _). left. cbn. lia.
Qed.

Lemma pushBreaks_get breaks byCard k l :
  mapGet byCard k = Some l ->
  mapGet (foldl pushBreak byCard breaks) k = Some (l ++ List.filter (fun b => bool_decide (tb_timeCardId b = k)) breaks).
Proof.
  revert byCard l. induction breaks as [|b breaks IH]; intros byCard l Hg; cbn [foldl List.filter]; [by rewrite app_nil_r|].
  unfold pushBreak at 2. destruct (mapGet byCard (tb_timeCardId b)) as [k0|] eqn:Eb.
  - case_bool_decide as E.
    + rewrite E, Hg in Eb. injection Eb as <-. rewrite (IH _ (l ++ [b])); [by rewrite <- app_assoc|].
      by rewrite mapGet_set, E, decide_True.
    + apply IH. by rewrite mapGet_set, decide_False.
  - rewrite bool_decide_false by (intros E; congruence). by apply IH.
Qed.

Lemma pairwise_map_perm {A B} (R : B -> B -> Prop) (f : A -> B) l k : l ≡ₚ k -> pairwise R (map f l) -> pairwise R (map f k).
Proof. intros Hp. apply pairwise_perm. by apply Permutation_map. Qed.

Lemma sum_perm l k : l ≡ₚ k -> foldr Z.add 0 l = foldr Z.add 0 k.
Proof. induction 1; cbn; lia. Qed.

Lemma breaksSupport_perm c l k : l ≡ₚ k -> breaksSupport c l -> breaksSupport c k.
Proof.
  intros Hp (Hf & Hw & Hs). split; [by rewrite <- Hp|]. split; [by eapply pairwise_map_perm|].
  intros Hne. rewrite <- Hs; [by apply sum_perm, Permutation_map|]. intros ->. by apply Permutation_nil_l in Hp.
Qed.

(** The keys are read back from a map built of them. *)
Lemma mapOf_get {A V} (key : A -> string) (value : A -> V) l x :
  NoDup (map key l) -> x ∈ l -> mapGet (mapOf (map (fun a => (key a, value a)) l)) (key x) = Some (value x).
Proof.
  intros Hn Hx. assert (Hk : (map (fun a => (key a, value a)) l).*1 = map key l) by by rewrite <- list_fmap_compose.
  rewrite mapOf_NoDup by by rewrite Hk. apply mapGet_Some; [by rewrite Hk|].
  exact (list_elem_of_fmap_2 (fun a => (key a, value a)) _ _ Hx).
Qed.

Lemma mapOf_found {A V} (key : A -> string) (value : A -> V) l k v :
  mapGet (mapOf (map (fun a => (key a, value a)) l)) k = Some v -> exists x, x ∈ l /\ key x = k /\ value x = v.
Proof.
  intros Hg%mapGet_Some_elem%mapOf_elem%list_elem_of_fmap. destruct Hg as (x & [= -> ->] & Hx). by exists x.
Qed.

(** ** Keys *)

Lemma showZ_solid z : allChars (fun c => isDigit c || bool_decide (c = "-"%char)) (showZ z) = true.
Proof.
  assert (Hd : forall n, 0 <= n -> allChars (fun c => isDigit c || bool_decide (c = "-"%char)) (showNat n) = true).
  { intros n Hn. destruct (showNat_spec n Hn) as (_ & Hd & _). unfold allChars in *. rewrite forallb_forall in *.
    intros c Hc. by rewrite Hd. }
  unfold showZ. destruct (_ <? _) eqn:E; bools; [|apply Hd; lia]. rewrite allChars_app, Hd by lia. done.
Qed.

Lemma showZ_inj y z : showZ y = showZ z -> y = z.
Proof.
  assert (Hneg : forall a b, 0 < a -> 0 <= b -> "-" +:+ showNat a <> showNat b).
  { intros a b _ Hb E. destruct (showNat_spec b Hb) as (_ & Hd & _). by rewrite <- E in Hd. }
  assert (Hnat : forall a b, 0 <= a -> 0 <= b -> showNat a = showNat b -> a = b).
  { intros a b Ha Hb E. destruct (showNat_spec a Ha) as (_ & _ & <-), (showNat_spec b Hb) as (_ & _ & <-). by rewrite E. }
  unfold showZ. destruct (y <? 0) eqn:Ey, (z <? 0) eqn:Ez; bools; intros E.
  - injection E as E. apply Hnat in E; lia.
  - by apply Hneg in E; [|lia..].
  - by symmetry in E; apply Hneg in E; [|lia..].
  - apply Hnat; [lia..|done].
Qed.

Lemma app_last_inj {A} (sep : A) l1 l2 r1 r2 :
  sep ∉ r1 -> sep ∉ r2 -> l1 ++ sep :: r1 = l2 ++ sep :: r2 -> l1 = l2 /\ r1 = r2.
Proof.
  intros H1 H2 E. revert l2 E. induction l1 as [|x l1 IH]; intros [|y l2]; cbn; intros E.
  - by injection E.
  - injection E as -> E. destruct H1. rewrite E. set_solver.
  - injection E as -> E. destruct H2. rewrite <- E. set_solver.
  - injection E as -> E. destruct (IH _ E) as [-> ->]. done.
Qed.

Lemma revisionKey_inj id id' n n' : revisionKey id n = revisionKey id' n' -> id = id' /\ n = n'.
Proof.
  assert (Hs : forall z, ":"%char ∉ chars (showZ z)).
  { intros z Hin%list_elem_of_In. pose proof (showZ_solid z) as Hz. unfold allChars in Hz. rewrite forallb_forall in Hz.
    by specialize (Hz _ Hin). }
  unfold revisionKey. intros E%(f_equal chars). rewrite !chars_app in E. apply app_last_inj in E as [E1 E2]; [|apply Hs..].
  split; [|apply showZ_inj]; rewrite <- ofChars_chars; by rewrite <- ?E1, <- ?E2, ofChars_chars.
Qed.

Lemma filter_perm {A} (p : A -> bool) l k : l ≡ₚ k -> List.filter p l ≡ₚ List.filter p k.
Proof.
  induction 1 as [|x l k _ IH|x y l|l k j _ IH1 _ IH2]; cbn; [done| | |by rewrite IH1].
  - destruct (p x); [by apply perm_skip|done].
  - destruct (p x), (p y); try done. apply perm_swap.
Qed.

Lemma filter_both {A} (p q : A -> bool) l : List.filter p (List.filter q l) = List.filter (fun x => q x && p x) l.
Proof. induction l as [|x l IH]; cbn; [done|]. destruct (q x); cbn; [destruct (p x)|]; by rewrite IH. Qed.

(** What a lock came to: the period was locked by this request before, or now. *)
Inductive LockCommitted `{LocaleCompare, Sha256} (identity : SessionIdentity) (periodId : string) (expectedRevision : Z)
    (request : PayrollRequestIdentity) (db : Db) : Db -> Prop :=
  | lock_replayed period :
      period ∈ db_periods db -> py_id period = periodId -> py_tenantId period = si_tenantId identity -> py_status period = "LOCKED" ->
      py_lockOperationId period = Some request.1 -> py_lockRequestHash period = Some request.2 ->
      LockCommitted identity periodId expectedRevision request db db
  | lock_now db' period readAt lockedAt updatedAt snapshot entries :
      PeriodLocked identity periodId expectedRevision request db db' period readAt lockedAt updatedAt snapshot entries ->
      LockCommitted identity periodId expectedRevision request db db'.

Section LockFacts.
Context `{Env, AuthorityEnv, CommitEnv, Collation, Intl, LC : LocaleCompare, Sha256}.

Lemma lockAndValidateBreaks_ReadOnly tenantId cards : ReadOnly (lockAndValidateBreaks tenantId cards).
Proof. unfold lockAndValidateBreaks. destruct cards; eauto with readonly. Qed.

Lemma approvedCardSources_ReadOnly tenantId periodId cards byCard : ReadOnly (approvedCardSources tenantId periodId cards byCard).
Proof. unfold approvedCardSources. destruct cards; eauto with readonly. Qed.

Lemma approvedAmendmentSources_ReadOnly tenantId periodId : ReadOnly (approvedAmendmentSources tenantId periodId).
Proof.
  unfold approvedAmendmentSources. apply ReadOnly_bind; [eauto with readonly|]. intros found. cbv zeta.
  apply ReadOnly_if; [eauto with readonly|]. destruct (take _ found); [eauto with readonly|].
  apply ReadOnly_bind; [eauto with readonly|]. intros decisions.
  apply ReadOnly_if; [eauto with readonly|]. destruct (List.filter _ _); eauto with readonly.
Qed.

#[local] Hint Resolve lockAndValidateBreaks_ReadOnly approvedCardSources_ReadOnly approvedAmendmentSources_ReadOnly
  candidateCards_ReadOnly serializeCurrent_ReadOnly : readonly.

Lemma lockSnapshot_ReadOnly tenantId period : ReadOnly (lockSnapshot tenantId period).
Proof. unfold lockSnapshot. eauto 10 with readonly. Qed.

Lemma checkLockable_ReadOnly period expectedRevision : ReadOnly (checkLockable period expectedRevision).
Proof. unfold checkLockable. eauto 8 with readonly. Qed.

Lemma replayLocked_ReadOnly tenantId period request : ReadOnly (replayLocked tenantId period request).
Proof. unfold replayLocked. eauto 8 with readonly. Qed.

Lemma lockAndValidateBreaks_Ok tenantId cards byCard c w w' :
  NoDup (map pc_id cards) -> lockAndValidateBreaks tenantId cards w = (Ok byCard, w') -> candidateOf c ∈ cards ->
  breaksSupport c (List.filter (breakNamed tenantId (tc_id c)) (db_cardBreaks (w_db w))).
Proof.
  intros Hn. unfold lockAndValidateBreaks. destruct cards as [|card0 cards0]; [by intros _ ?%elem_of_nil|].
  set (cards := card0 :: cards0) in *. intros (breaks & w1 & [_ ->]%findManyBy_Ok & Hr)%Tx_bind_Ok Hin.
  cbv zeta in Hr. set (breaks := sortBy _ _) in Hr.
  apply Tx_bind_Ok in Hr as (oks & w2 & [Hchk%mapM_checks _]%liftResult_Ok & _).
  assert (Hg : mapGet (mapOf (map (fun card => (pc_id card, [])) cards)) (tc_id c) = Some ([] : list TimeCardBreak)).
  { exact (mapOf_get pc_id (fun _ => []) cards _ Hn Hin). }
  apply (pushBreaks_get breaks) in Hg. cbn [app] in Hg. apply mapGet_Some_elem in Hg. rewrite Forall_forall in Hchk. specialize (Hchk _ Hg).
  unfold checkCardBreaks in Hchk. cbn [fst snd] in Hchk.
  pose proof (mapOf_get pc_id (fun card => card) cards _ Hn Hin) as Hgc. cbn [pc_id candidateOf] in Hgc. rewrite Hgc in Hchk.
  set (mine := List.filter (fun b => bool_decide (tb_timeCardId b = tc_id c)) breaks) in Hchk.
  apply Result_bind_Ok in Hchk as (total & (-> & Hf & Hw)%breakTotal_Ok & Hm).
  apply (breaksSupport_perm _ mine).
  - unfold mine, breaks. rewrite (filter_perm _ _ _ (sortBy_perm breakOrder _)), filter_both.
    rewrite (List.filter_ext _ (breakNamed tenantId (tc_id c))); [done|]. intros b. unfold breakNamed.
    destruct (bool_decide (tb_timeCardId b = tc_id c)) eqn:E; [|by rewrite !andb_false_r]. rewrite !andb_true_r. apply bool_decide_eq_true in E.
    rewrite (bool_decide_true (tb_timeCardId b ∈ _)); [by rewrite andb_true_r|]. rewrite E.
    exact (list_elem_of_fmap_2 pc_id _ _ Hin).
  - split; [|split; [done|]].
    + eapply Forall_impl; [exact Hf|]. by intros b (? & _ & ?).
    + intros Hne. destruct mine; [done|]. cbn [length Nat.ltb Nat.leb andb] in Hm. destruct (_ =? _) eqn:E; [|done].
      bools. cbn [pc_breakMinutes candidateOf] in E. lia.
Qed.

(** The entry source of a card, as [cardSource] makes it. *)
Definition sourceOfCard (tenantId periodId : string) (approvals : list PayrollTimeCardApproval) (card : PayrollCandidateCard)
    (s : LockedEntrySource) : Prop :=
  exists a out minutes breaks, a ∈ approvals /\ av_tenantId a = tenantId /\ av_periodId a = periodId /\
    av_timeCardId a = pc_id card /\ av_timeCardRevision a = pc_revision card /\ av_decision a = APPROVED_D /\
    pc_clockOutAt card = Some out /\ 0 <= minutes /\ minutes = (out - pc_clockInAt card) / 60000 - pc_breakMinutes card /\
    s = mkSource "TIME_CARD" (pc_id card) (pc_revision card) (pc_userId card) (pc_locationId card) (pc_workTimeZone card)
          (DDate (Some (pc_clockInAt card))) (DDate (Some out)) (pc_breakMinutes card) minutes
          (DDate (Some (av_decidedAt a))) (av_decidedByUserId a) (Some breaks).

Lemma workedMinutes_Ok t out breakMinutes minutes :
  payrollWorkedMinutes (DDate (Some t)) (DDate (Some out)) breakMinutes = Ok minutes ->
  0 <= minutes /\ minutes = (out - t) / 60000 - breakMinutes.
Proof.
  unfold payrollWorkedMinutes, requiredDate. cbn [mbind Result_bind]. destruct (_ || _); [done|].
  destruct (_ || _) eqn:E; [done|]. intros [= <-]. split; bool_lia.
Qed.

Lemma approvedCardSources_Ok tenantId periodId cards byCard sources w w' :
  approvedCardSources tenantId periodId cards byCard w = (Ok sources, w') ->
  Forall2 (sourceOfCard tenantId periodId (pt_approvals (db_payroll (w_db w)))) cards sources.
Proof.
  unfold approvedCardSources. destruct cards as [|card0 cards0]; [intros [<- _]%Tx_ret_Ok; constructor|].
  set (cards := card0 :: cards0). intros (approvals & w1 & [_ ->]%findManyBy_Ok & Hr)%Tx_bind_Ok. cbv zeta in Hr.
  apply liftResult_Ok in Hr as [Hs%mapM_Ok_Forall2 _]. eapply Forall2_impl; [exact Hs|].
  intros card s Hc. unfold cardSource in Hc. destruct (mapGet _ _) as [a|] eqn:Ea; [|done].
  destruct (pc_clockOutAt card) as [out|] eqn:Eo; [|done]. case_bool_decide as Ed; cbn [negb] in Hc; [|done].
  apply Result_bind_Ok in Hc as (minutes & Hm & [= <-]). unfold catchAs in Hm.
  destruct (payrollWorkedMinutes _ _ _) as [m|] eqn:Em; [|done]. injection Hm as ->. apply workedMinutes_Ok in Em as [Hm0 Hm].
  apply (mapOf_found (fun a => revisionKey (av_timeCardId a) (av_timeCardRevision a)) (fun a => a)) in Ea as (a0 & Ha & [Ei Er]%revisionKey_inj & ->).
  apply takeElem, sortBy_elem, list_elem_of_In, filter_In in Ha as [Ha%list_elem_of_In Hp]. rewrite !andb_true_iff, !bool_decide_eq_true in Hp.
  destruct Hp as ((? & ?) & _). eexists a, out, minutes, _. split_and!; try done.
Qed.

(** The entry source of an approved amendment. *)
Definition sourceOfAmendment (db : Db) (m : PayrollAmendment) (s : LockedEntrySource) : Prop :=
  exists o d, o ∈ pt_entries (db_payroll db) /\ pe_tenantId o = pm_tenantId m /\ pe_id o = pm_lockedEntryId m /\
    d ∈ pt_decisions (db_payroll db) /\ px_tenantId d = pm_tenantId m /\ px_amendmentId d = pm_id m /\ px_decision d = APPROVED_D /\
    s = mkSource "AMENDMENT" (pm_id m) 1 (pe_employeeId o) (pe_locationId o) (pe_workTimeZone o)
          (DDate (Some (pm_replacementClockInAt m))) (DDate (Some (pm_replacementClockOutAt m)))
          (pm_replacementBreakMinutes m) (pm_minuteDelta m) (DDate (Some (px_decidedAt d))) (px_decidedByUserId d) None.

Lemma approvedAmendmentSources_Ok tenantId periodId sources w w' :
  approvedAmendmentSources tenantId periodId w = (Ok sources, w') ->
  Forall (fun s => exists m, m ∈ pt_amendments (db_payroll (w_db w)) /\ amends tenantId periodId m /\ sourceOfAmendment (w_db w) m s) sources /\
  forall m, m ∈ pt_amendments (db_payroll (w_db w)) -> amends tenantId periodId m ->
    exists d, d ∈ pt_decisions (db_payroll (w_db w)) /\ px_tenantId d = tenantId /\ px_amendmentId d = pm_id m /\
      (px_decision d = APPROVED_D -> exists s, s ∈ sources /\ sourceOfAmendment (w_db w) m s).
Proof.
  unfold approvedAmendmentSources. intros (found & w1 & [E1 Ef]%findManyBy_Ok & Hr)%Tx_bind_Ok. cbv zeta in Hr.
  destruct (_ <? _) eqn:Elim; [by apply liftResult_Ok in Hr as [? _]|]. bools.
  assert (Etake : take (Z.to_nat (MAX_PAYROLL_LOCK_ENTRIES + 1)) found = found).
  { apply take_ge. rewrite length_take in Elim. unfold MAX_PAYROLL_LOCK_ENTRIES in *. lia. }
  rewrite Etake in Hr. clear Elim Etake.
  assert (Hfound : forall m, m ∈ found <-> m ∈ pt_amendments (db_payroll (w_db w)) /\ amends tenantId periodId m).
  { intros m. rewrite Ef, (sortBy_elem amendmentOrder), list_elem_of_In, filter_In, <- list_elem_of_In, andb_true_iff, !bool_decide_eq_true. done. }
  clear Ef. destruct found as [|m0 found0]; [|set (found := m0 :: found0) in *].
  { apply Tx_ret_Ok in Hr as [<- _]. split; [constructor|]. intros m Hm Ha. exfalso. by apply (elem_of_nil m), Hfound. }
  apply Tx_bind_Ok in Hr as (decisions & w2 & [E2 Ed]%findManyBy_Ok & Hr). rewrite E1 in *.
  set (decisionOf := mapOf _) in Hr. destruct (existsb _ _) eqn:Epend; [by apply liftResult_Ok in Hr as [? _]|].
  assert (Hdec : forall k d, mapGet decisionOf k = Some d -> d ∈ pt_decisions (db_payroll (w_db w)) /\ px_tenantId d = tenantId /\ px_amendmentId d = k).
  { intros k d (d0 & Hd & <- & ->)%(mapOf_found px_amendmentId (fun d => d)).
    apply takeElem in Hd. rewrite Ed in Hd. apply sortBy_elem, list_elem_of_In, filter_In in Hd as [Hd%list_elem_of_In Hp].
    apply andb_true_iff in Hp as [Hp%bool_decide_eq_true _]. done. }
  set (approved := List.filter _ found) in Hr.
  assert (Hall : mapM (amendmentSource (mapOf (map (fun e => (pe_id e, e)) (take (length approved)
      (sortBy (fun l r => collate (pe_id l) (pe_id r)) (List.filter (fun e => bool_decide (pe_tenantId e = tenantId)
        && bool_decide (pe_id e ∈ map pm_lockedEntryId approved)) (pt_entries (db_payroll (w_db w)))))))) decisionOf) approved = Ok sources).
  { destruct approved as [|a0 approved0]; [by apply Tx_ret_Ok in Hr as [<- _]|].
    apply Tx_bind_Ok in Hr as (originals & w3 & [_ ->]%findManyBy_Ok & [Hr _]%liftResult_Ok). by rewrite E2 in Hr. }
  clear Hr. apply mapM_Ok_Forall2 in Hall. set (originalById := mapOf _) in Hall.
  assert (Hsrc : forall m s, m ∈ approved -> amendmentSource originalById decisionOf m = Ok s -> sourceOfAmendment (w_db w) m s).
  { intros m s Hm Hs. unfold approved in Hm. apply list_elem_of_In, filter_In in Hm as [Hm%list_elem_of_In Hd%bool_decide_eq_true].
    apply Hfound in Hm as [_ [Ht _]]. unfold amendmentSource in Hs. destruct (mapGet originalById _) as [o|] eqn:Eo; [|done].
    destruct (mapGet decisionOf _) as [d|] eqn:Edd; [|done]. injection Hs as <-. cbn in Hd. injection Hd as Hd.
    apply Hdec in Edd as (? & ? & ?).
    apply (mapOf_found pe_id (fun e => e)) in Eo as (o0 & Ho & Hoi & ->).
    apply takeElem, sortBy_elem, list_elem_of_In, filter_In in Ho as [Ho%list_elem_of_In Hp].
    apply andb_true_iff in Hp as [Hp%bool_decide_eq_true _]. exists o, d. by split_and!; first [congruence|done]. }
  split.
  - apply Forall_forall. intros s Hs. apply (Forall2_elem_r _ _ _ _ Hall) in Hs as (m & Hm & Hs). exists m.
    pose proof Hm as Hm'. unfold approved in Hm'. apply list_elem_of_In, filter_In in Hm' as [Hm'%list_elem_of_In _].
    apply Hfound in Hm' as [? ?]. split; [done|]. split; [done|]. by apply Hsrc.
  - intros m Hm Ham. assert (Hmf : m ∈ found) by by apply Hfound.
    pose proof (existsb_false _ _ Epend m Hmf) as Hhas. apply negb_false_iff in Hhas. unfold mapHas in Hhas.
    apply bool_decide_eq_true in Hhas as [d Hd]. destruct (Hdec _ _ Hd) as (? & ? & ?). exists d. split_and!; try done.
    intros Happ. assert (Hma : m ∈ approved).
    { unfold approved. apply list_elem_of_In, filter_In. split; [by apply list_elem_of_In|]. rewrite Hd. cbn. by rewrite Happ. }
    destruct (Forall2_elem_l _ _ _ _ Hall Hma) as (s & Hs & Hms). exists s. split; [done|]. by apply Hsrc.
Qed.

(** *** The snapshot *)

Lemma candidateCards_keys tenantId period cards w w' :
  NoDup (map tc_id (db_timeCards (w_db w))) -> candidateCards tenantId period w = (Ok cards, w') -> NoDup (map pc_id cards).
Proof.
  intros Hn. unfold candidateCards. intros (candidates & w1 & [_ Hl]%lockCandidateCards_Ok & [Hv _]%liftResult_Ok)%Tx_bind_Ok.
  assert (Hc : NoDup (map pc_id candidates)).
  { unfold lockPayrollCandidateCards in Hl. destruct (_ <? _); [done|]. injection Hl as <-.
    eapply sublist_NoDup; [|change (map ?f (take ?n ?l)) with (f <$> take n l); rewrite fmap_take; apply sublist_take].
    change (NoDup (map pc_id (sortBy (fun l r => collate (pc_id l) (pc_id r))
      (List.filter (isCandidate tenantId (windowOf period)) (map candidateOf (db_timeCards (w_db w))))))).
    rewrite (sortBy_perm _ _). apply NoDup_filter_map. by rewrite map_map. }
  unfold validatePayrollCandidateCards, payrollConflict in Hv. inv_ok. subst cards. by apply NoDup_filter_map.
Qed.

Lemma lockSnapshot_Ok tenantId period snapshot w w' :
  NoDup (map tc_id (db_timeCards (w_db w))) -> py_tenantId period = tenantId ->
  lockSnapshot tenantId period w = (Ok snapshot, w') ->
  let db := w_db w in let approvals := pt_approvals (db_payroll db) in
  cardsInOrder db period /\
  (forall c, c ∈ db_timeCards db -> assignedTo tenantId (py_id period) c ->
     breaksSupport c (List.filter (breakNamed tenantId (tc_id c)) (db_cardBreaks db))) /\
  exists sources, materializeLockedSnapshots tenantId (py_id period) sources = Ok snapshot /\
    (forall c, c ∈ db_timeCards db -> assignedTo tenantId (py_id period) c ->
       exists s, s ∈ sources /\ sourceOfCard tenantId (py_id period) approvals (candidateOf c) s) /\
    (forall m, m ∈ pt_amendments (db_payroll db) -> amends tenantId (py_id period) m ->
       exists d, d ∈ pt_decisions (db_payroll db) /\ px_tenantId d = tenantId /\ px_amendmentId d = pm_id m /\
         (px_decision d = APPROVED_D -> exists s, s ∈ sources /\ sourceOfAmendment db m s)) /\
    (forall s, s ∈ sources ->
       (exists c, c ∈ db_timeCards db /\ assignedTo tenantId (py_id period) c /\
          sourceOfCard tenantId (py_id period) approvals (candidateOf c) s) \/
       (exists m, m ∈ pt_amendments (db_payroll db) /\ amends tenantId (py_id period) m /\ sourceOfAmendment db m s)).
Proof.
  intros Hn Ht. cbv zeta. unfold lockSnapshot. intros (cards & w1 & Hc & Hr)%Tx_bind_Ok. read_only Hc E1.
  pose proof (candidateCards_keys _ _ _ _ _ Hn Hc) as Hkeys.
  apply candidateCards_Ok in Hc as (Horder & Hall & Honly); [|done].
  apply Tx_bind_Ok in Hr as (byCard & w2 & Hb & Hr). read_only Hb E2. rewrite E1 in E2.
  apply Tx_bind_Ok in Hr as (cardSources & w3 & Hcs & Hr). read_only Hcs E3. rewrite E2 in E3.
  apply approvedCardSources_Ok in Hcs. rewrite E2 in Hcs.
  apply Tx_bind_Ok in Hr as (amendSources & w4 & [Has Ham]%approvedAmendmentSources_Ok & Hr). rewrite E3 in Has, Ham.
  destruct (_ <? _); [by apply liftResult_Ok in Hr as [? _]|]. apply liftResult_Ok in Hr as [Hm _].
  unfold catchAs, unprocessable, payrollRefused in Hm. destruct (materializeLockedSnapshots _ _ _) as [sn|] eqn:Emat; [|done].
  injection Hm as ->. split; [done|]. split.
  - intros c Hc [Htc Hp]. rewrite <- E1. eapply lockAndValidateBreaks_Ok; [done|exact Hb|]. by apply Hall.
  - exists (cardSources ++ amendSources). split; [done|]. split; [|split].
    + intros c Hc [Htc Hp]. destruct (Forall2_elem_l _ _ _ _ Hcs (Hall c Hc Htc Hp)) as (s & Hs & Hcs'). exists s. set_solver.
    + intros m Hm Hamd. destruct (Ham m Hm Hamd) as (d & ? & ? & ? & Happ). exists d. split_and!; try done.
      intros Hd. destruct (Happ Hd) as (s & ? & ?). exists s. set_solver.
    + intros s [Hs|Hs]%elem_of_app.
      * left. destruct (Forall2_elem_r _ _ _ _ Hcs Hs) as (pc & Hpc & Hsrc). destruct (Honly pc Hpc) as (_ & c & ? & <- & ? & ?). by exists c.
      * right. rewrite Forall_forall in Has. by apply Has.
Qed.

(** *** The entries *)

(** The rows of the entries, identifiers apart. *)
Definition rowOfEntry (tenantId periodId : string) (entry : LockedEntry) (row : PayrollLockedEntry) : Prop :=
  exists id publicId, entryRow tenantId periodId id publicId entry = Ok row.

Lemma freshEntries_Ok tenantId periodId entries : forall news w w',
  freshEntries tenantId periodId entries w = (Ok news, w') ->
  Forall2 (rowOfEntry tenantId periodId) entries news /\ w_db w' = w_db w.
Proof.
  induction entries as [|entry entries IH]; intros news w w'; cbn [freshEntries].
  - intros [<- <-]%Tx_ret_Ok. split; [constructor|done].
  - intros (id & w1 & [-> ->]%randomUUID_Ok & Hr)%Tx_bind_Ok.
    apply Tx_bind_Ok in Hr as (publicId & w1 & [-> ->]%randomUUID_Ok & Hr).
    apply Tx_bind_Ok in Hr as (row & w1 & [Hrow <-]%liftResult_Ok & Hr).
    apply Tx_bind_Ok in Hr as (rest & w1 & [Hf E]%IH & [<- <-]%Tx_ret_Ok). split; [|done].
    constructor; [by eexists _, _|done].
Qed.

Lemma createLockedEntries_Ok tenantId periodId entries u w w' :
  createEntries tenantId periodId entries w = (Ok u, w') ->
  exists news, Forall2 (rowOfEntry tenantId periodId) entries news /\
    insertAll news (pt_entries (db_payroll (w_db w))) = Some (pt_entries (db_payroll (w_db w)) ++ news) /\
    w_db w' = withRows (pt_entries (db_payroll (w_db w)) ++ news) (w_db w).
Proof.
  unfold createEntries. destruct entries as [|entry0 entries0].
  - intros [_ <-]%Tx_ret_Ok. exists []. rewrite app_nil_r. split; [constructor|]. split; [done|].
    destruct (w_db w) as [? ? ? ? ? ? ? ? ? ? ? ? ? ? ? ? []]. done.
  - set (entries := entry0 :: entries0). intros (? & ? & [_ ->]%assertCurrent_Ok & Hr)%Tx_bind_Ok.
    apply Tx_bind_Ok in Hr as (news & w1 & [Hf E1]%freshEntries_Ok & Hr).
    apply Tx_bind_Ok in Hr as (? & w2 & [Hi E2]%createMany_Ok & [_ ->]%assertCurrent_Ok).
    exists news. rewrite E1 in *. done.
Qed.

Lemma entry_pays_card tenantId periodId db c entry row :
  tc_tenantId c = tenantId -> sourceOfCard tenantId periodId (pt_approvals (db_payroll db)) (candidateOf c) (le_source entry) ->
  rowOfEntry tenantId periodId entry row -> PaysCard periodId db c row.
Proof.
  intros Ht (a & out & minutes & breaks & Ha & Hat & Hap & Hac & Har & Had & Ho & Hm0 & Hm & Es) (id & publicId & Er).
  unfold entryRow in Er. rewrite Es in Er. cbn in Er. injection Er as <-. split; cbn; [done|done|done|].
  exists a. split_and!; congruence || done.
Qed.

Lemma entry_pays_amendment tenantId periodId db m entry row :
  sourceOfAmendment db m (le_source entry) -> rowOfEntry tenantId periodId entry row -> PaysAmendment db m row.
Proof.
  intros (o & d & Ho & Hot & Hoi & Hd & Hdt & Hda & Hdd & Es) (id & publicId & Er).
  unfold entryRow in Er. rewrite Es in Er. cbn in Er. injection Er as <-. split; cbn; [done|done|by exists o|by exists d].
Qed.

Lemma rowOfEntry_copies tenantId periodId entry row :
  rowOfEntry tenantId periodId entry row ->
  pe_tenantId row = tenantId /\ pe_periodId row = periodId /\ pe_sequence row = le_sequence entry /\
  pe_payableMinutes row = ls_payableMinutes (le_source entry) /\ pe_canonicalSha256 row = le_canonicalSha256 entry.
Proof.
  intros (id & publicId & Er). unfold entryRow in Er. inv_ok. by subst row.
Qed.

Lemma Forall2_map_eq {A B C} (f : A -> C) (g : B -> C) (R : A -> B -> Prop) l k :
  (forall x y, R x y -> f x = g y) -> Forall2 R l k -> map f l = map g k.
Proof. intros Hfg. induction 1 as [|x y l k Hxy _ IH]; cbn; [done|]. by rewrite IH, (Hfg x y). Qed.

(** *** The handler *)

Lemma checkLockable_Ok period expectedRevision u w w' :
  checkLockable period expectedRevision w = (Ok u, w') ->
  py_status period = "REVIEW" /\ py_revision period = expectedRevision /\ py_endsAt period <= nowAt (w_tick w).
Proof.
  unfold checkLockable, concurrentChange, unprocessable, payrollRefused. case_bool_decide; cbn [negb]; [|by intros [? _]%liftResult_Ok].
  destruct (_ =? _) eqn:E; cbn [negb]; [|by intros [? _]%liftResult_Ok].
  intros (t & w1 & [-> ->]%now_Ok & Hr)%Tx_bind_Ok. destruct (_ <? _) eqn:El; [by apply liftResult_Ok in Hr as [? _]|].
  by bools.
Qed.

#[local] Hint Resolve lockSnapshot_ReadOnly checkLockable_ReadOnly replayLocked_ReadOnly : readonly.

Lemma lockPeriodInScope_Ok identity periodId expectedRevision request response w w' :
  periodsKeyed (w_db w) -> NoDup (map tc_id (db_timeCards (w_db w))) ->
  lockPeriodInScope identity periodId expectedRevision request w = (Ok response, w') ->
  LockCommitted identity periodId expectedRevision request (w_db w) (w_db w').
Proof.
  intros [Hk _] Hkc. remember (w_db w) as db eqn:Hdb. symmetry in Hdb. unfold lockPeriodInScope. intros Hr.
  skip_read Hr Hdb. skip_read Hr Hdb. keep_read Hr Hdb period Hper.
  apply requirePeriodById_Ok in Hper as (Eq & Hin & Ht & Hi & _). rewrite <- Eq in Hin. rewrite Hdb in Hin. clear Eq.
  case_bool_decide as Hl.
  { read_only Hr E. rewrite E, Hdb. unfold replayLocked in Hr. case_bool_decide as Ho; [|by apply liftResult_Ok in Hr as [? _]].
    case_bool_decide as Hh; [|by apply liftResult_Ok in Hr as [? _]]. by eapply lock_replayed. }
  keep_read Hr Hdb u1 Hck. apply checkLockable_Ok in Hck as (Hst & Hrev & Hended).
  apply Tx_bind_Ok in Hr as (snapshot & w5 & Hsn & Hr). read_only Hsn E5. rewrite Hdb in E5.
  apply lockSnapshot_Ok in Hsn as (Hcards & Hbreaks & sources & Hmat & Hcs & Ham & Honly); [|by rewrite Hdb|done]. rewrite Hdb in *.
  apply Tx_bind_Ok in Hr as (u6 & w6 & (entries & Hf & Hins & E6)%createLockedEntries_Ok & Hr). rewrite E5 in *.
  pass_read Hr E6 u7. pass_read Hr E6 lockedAt. pass_read Hr E6 updatedAt.
  apply Tx_bind_Ok in Hr as (changed & w7 & (-> & Hno & E7)%updateUnique_Ok & Hr). rewrite E6 in *. pass_read Hr E7 u8.
  destruct (negb _) eqn:Ec in Hr; [by apply liftResult_Ok in Hr as [? _]|]. apply negb_false_iff, Nat.eqb_eq in Ec.
  assert (Ep : rows (withRows (pt_entries (db_payroll db) ++ entries) db) = db_periods db) by by destruct db.
  rewrite Ep in *. set (upd := lockRow lockedAt (si_sub identity) request snapshot updatedAt) in *.
  destruct (update_one py_id _ upd _ period Hk Hin (fun p Hp => proj1 (periodAt_true _ _ _ _ _ Hp)) Ec) as [_ Eupd].
  rewrite Eupd in *. keep_read Hr E7 cur Hcur. destruct cur as [[updated policies] resp]. pass_read Hr E7 u9. pass_read Hr E7 old.
  apply Tx_bind_Ok in Hr as (u10 & w10 & (a & Hact & _ & _ & _ & _ & _ & _ & E10)%writePayrollAudit_Ok & Hr). rewrite E7 in E10.
  pass_read Hr E10 u11. apply Tx_ret_Ok in Hr as [<- ->].
  destruct (materializeLockedSnapshots_Ok _ _ _ _ Hmat) as (Hperm & Hseq & Htotal & Hagg).
  assert (Hcopy : forall entry row, rowOfEntry (si_tenantId identity) (py_id period) entry row -> _) by apply rowOfEntry_copies.
  assert (Hlen : length (sn_entries snapshot) = length entries) by by eapply Forall2_length.
  assert (Hrow : forall s, s ∈ sources -> exists entry row, row ∈ entries /\ le_source entry = s /\
    rowOfEntry (si_tenantId identity) (py_id period) entry row).
  { intros s Hs. rewrite <- Hperm in Hs. apply list_elem_of_fmap in Hs as (entry & -> & He).
    destruct (Forall2_elem_l _ _ _ _ Hf He) as (row & ? & ?). by exists entry, row. }
  assert (Hpt : sn_totalPayableMinutes snapshot = payTotal entries).
  { rewrite Htotal. unfold payTotal. f_equal. rewrite map_map. eapply Forall2_map_eq; [|exact Hf].
    intros x y Hxy. symmetry. by apply Hcopy in Hxy as (_ & _ & _ & ? & _). }
  eapply (lock_now _ _ _ _ _ _ period _ lockedAt updatedAt snapshot entries). rewrite Hi in *. split; try done.
  - intros c Hc Hac. destruct (Hcs c Hc Hac) as (s & Hs & Hsc). destruct (Hrow s Hs) as (entry & row & ? & <- & ?). exists row.
    split; [done|]. eapply entry_pays_card; [apply Hac|done..].
  - intros m Hm Hma. destruct (Ham m Hm Hma) as (d & ? & ? & ? & Happ). exists d. split_and!; try done. intros Hd.
    destruct (Happ Hd) as (s & Hs & Hsm). destruct (Hrow s Hs) as (entry & row & ? & <- & ?). exists row. split; [done|].
    by eapply entry_pays_amendment.
  - intros e He. destruct (Forall2_elem_r _ _ _ _ Hf He) as (entry & Hentry & Hre). destruct (Hcopy _ _ Hre) as (-> & -> & _).
    split; [done|]. split; [done|].
    assert (Hs : le_source entry ∈ sources) by (rewrite <- Hperm; by apply list_elem_of_fmap_2).
    destruct (Honly _ Hs) as [(c & ? & Hac & Hsc)|(m & ? & ? & Hsm)]; [left; exists c|right; exists m].
    + split; [done|]. split; [done|]. eapply entry_pays_card; [apply Hac|done..].
    + split; [done|]. split; [done|]. by eapply entry_pays_amendment.
  - rewrite <- (Permutation_length Hperm), length_map, Hlen in Hseq. rewrite <- Hseq. symmetry. eapply Forall2_map_eq; [|exact Hf].
    intros x y Hxy. symmetry. by apply Hcopy in Hxy as (_ & _ & ? & _).
  - split; [done|]. split; [done|]. rewrite <- Hpt, <- Hagg. f_equal. symmetry. eapply Forall2_map_eq; [|exact Hf].
    intros x y Hxy. symmetry. by apply Hcopy in Hxy as (_ & _ & _ & _ & ?).
  - exists a. split; [done|]. split; [done|]. rewrite E10. destruct db as [? ? ? ? ? ? ? ? ? ? ? ? ? ? ? ? []]. done.
Qed.

Lemma lockPeriod_outcome_Ok db identity publicPeriodId expectedRevision key :
  periodsKeyed db -> NoDup (map tc_id (db_timeCards db)) ->
  OutcomeAt db (lockPeriod identity publicPeriodId expectedRevision key) (fun response db' =>
    exists periodId idempotencyKey, normalizeIdempotencyKey key = Ok idempotencyKey /\
      LockCommitted (operationsIdentity identity) periodId expectedRevision
        (requestOf identity LOCK idempotencyKey
          (JObj [jText "periodId" periodId; jInt "expectedRevision" expectedRevision])) db db').
Proof.
  intros Hk Hkc. unfold lockPeriod. apply OutcomeAt_bind; [eauto with readonly|]. intros _ _ _ _ _.
  apply OutcomeAt_bind; [eauto with readonly|]. intros w1 periodId w1' _ _.
  apply OutcomeAt_bind; [eauto with readonly|]. intros w2 k w2' _ [Hkey _]%liftResult_Ok.
  eapply OutcomeAt_impl; [apply mutationRun_outcome|].
  intros response db' (wa & wb & <- & Ho & -> & _). exists periodId, k. split; [done|]. by eapply lockPeriodInScope_Ok.
Qed.
End LockFacts.
