(* ===== verification/PayrollAmendments.v ===== *)
(** * Amendments of locked payroll entries

    [createAmendment], [decideAmendment] and [serializedAmendments] of
    apps/api-v2/src/payroll/payroll.service.ts: a locked entry of a time card
    is never changed; what was wrong with it is asked for in a later, open
    period, decided while that period is in review by someone who neither
    asked nor is paid by it, and paid there as a difference of minutes. *)

From S2P Require Import Prelude JsStd JsCollections JsDate ContractHelpers TimeZone PayrollDates PayrollRecords.
From S2P Require Import Database FeatureEntitlement Authority ScheduleStore TimeCardPayroll TimeCardStore TimeCards.
From S2P Require Import PayrollStore PayrollPolicies PayrollReview PayrollLock.

(** [PayrollAmendmentRequest] and [PayrollAmendmentDecisionRequest] *)
Record AmendmentRequest := mkAmendmentRequest {
  ar_adjustmentPeriodId : string;
  ar_reason : string;
  ar_replacementClockInAt : string;
  ar_replacementClockOutAt : string;
  ar_replacementBreakMinutes : Z;
}.
Record AmendmentDecisionRequest := mkDecisionRequest { dr_decision : Decision; dr_reason : option string }.

(** The times of a request, read. *)
Record Replacement := mkReplacement { rp_clockInAt : Z; rp_clockOutAt : Z; rp_payableMinutes : Z }.

Definition readReplacement (body : AmendmentRequest) : Result Replacement :=
  clockInAt ← parseInstant (ar_replacementClockInAt body) "replacement_clock_in";
  clockOutAt ← parseInstant (ar_replacementClockOutAt body) "replacement_clock_out";
  payableMinutes ← catchAs "invalid_payroll_amendment_time" "Replacement payroll times and breaks are invalid."
    (payrollWorkedMinutes (DDate (Some clockInAt)) (DDate (Some clockOutAt)) (ar_replacementBreakMinutes body));
  Ok (mkReplacement clockInAt clockOutAt payableMinutes).

Definition amendmentBody (entryId adjustmentPeriodId : string) (body : AmendmentRequest) (r : Replacement) : Json :=
  JObj [jText "entryId" entryId; jText "adjustmentPeriodId" adjustmentPeriodId; jText "reason" (trim (ar_reason body));
        jText "replacementClockInAt" (toISOString (rp_clockInAt r)); jText "replacementClockOutAt" (toISOString (rp_clockOutAt r));
        jInt "replacementBreakMinutes" (ar_replacementBreakMinutes body)].

(** The row [create] stores, its defaults filled in. *)
Definition amendmentRow (id publicId : string) (createdAt : Z) (identity : SessionIdentity) (entry : PayrollLockedEntry)
    (adjustment : PayrollPeriodRow) (body : AmendmentRequest) (r : Replacement) (request : PayrollRequestIdentity) : PayrollAmendment :=
  mkPayrollAmendment id publicId (si_tenantId identity) (pe_id entry) (py_id adjustment) request.1 request.2 (si_sub identity)
    (trim (ar_reason body)) (rp_clockInAt r) (rp_clockOutAt r) (ar_replacementBreakMinutes body) (rp_payableMinutes r)
    (rp_payableMinutes r - pe_payableMinutes entry) createdAt.

Definition decisionRow (id : string) (decidedAt : Z) (identity : SessionIdentity) (amendment : PayrollAmendment)
    (body : AmendmentDecisionRequest) (request : PayrollRequestIdentity) : PayrollAmendmentDecision :=
  mkAmendmentDecision id (si_tenantId identity) (pm_id amendment) (dr_decision body) (trimmedOrNull (dr_reason body))
    request.1 request.2 (si_sub identity) decidedAt.

(** ** Serialization *)

Definition decisionJson (users : JsMap string string) (d : PayrollAmendmentDecision) : Result Json :=
  decidedBy ← requireMapped users (px_decidedByUserId d) "staff";
  Ok (JObj [jText "decision" (decisionText (px_decision d)); jOptText "reason" (px_reason d);
            jText "decidedByUserId" decidedBy; jText "decidedAt" (toISOString (px_decidedAt d))]).

Definition amendmentJson (sourceById : JsMap string PayrollLockedEntry) (decisionByAmendment : JsMap string PayrollAmendmentDecision)
    (periods users : JsMap string string) (row : PayrollAmendment) : Result (string * Json) :=
  match mapGet sourceById (pm_lockedEntryId row) with
  | None => payrollRefused 503 "payroll_reference_integrity_failed" "Saved payroll locked entry reference is unavailable."
              "Service unavailable"
  | Some source =>
      employee ← requireMapped users (pe_employeeId source) "staff";
      period ← requireMapped periods (pm_adjustmentPeriodId row) "payroll period";
      requestedBy ← requireMapped users (pm_requestedByUserId row) "staff";
      decision ← match mapGet decisionByAmendment (pm_id row) with
                 | Some d => decisionJson users d
                 | None => Ok JNull
                 end;
      Ok (pm_publicId row, JObj [jText "id" (pm_publicId row); jText "lockedEntryId" (pe_publicId source);
        jText "sourceEmployeeId" employee; jText "adjustmentPeriodId" period; jText "requestedByUserId" requestedBy;
        jText "reason" (pm_reason row);
        jText "replacementClockInAt" (toISOString (pm_replacementClockInAt row));
        jText "replacementClockOutAt" (toISOString (pm_replacementClockOutAt row));
        jInt "replacementBreakMinutes" (pm_replacementBreakMinutes row);
        jInt "replacementPayableMinutes" (pm_replacementPayableMinutes row); jInt "minuteDelta" (pm_minuteDelta row);
        jText "createdAt" (toISOString (pm_createdAt row)); ("decision", Some decision)])
  end.

Definition decidedAnswer (identity : SessionIdentity) (amendment : PayrollAmendment) (d : PayrollAmendmentDecision) : Json :=
  JObj [jText "amendmentId" (pm_publicId amendment); jText "decision" (decisionText (px_decision d));
        jOptText "reason" (px_reason d); jText "decidedByUserId" (si_publicUserId identity);
        jText "decidedAt" (toISOString (px_decidedAt d))].

(** [orderBy: [{ createdAt: 'asc' }, { publicId: 'asc' }]] *)
Definition amendmentAge (l r : PayrollAmendment) : Z :=
  orElse (pm_createdAt l - pm_createdAt r) (compareText (pm_publicId l) (pm_publicId r)).

Section Amendments.
Context `{Env, AuthorityEnv, CommitEnv, Collation, Intl, LC : LocaleCompare, Sha256}.

(** What [serializedAmendments] selects: what is paid in the period and, once
    it is locked, what amends its entries. *)
Definition amendmentRows (guard : Tx unit) (tenantId periodId status : string) : Tx (list PayrollAmendment) :=
  lockedEntries ← (if bool_decide (status = "LOCKED")
                   then findMany (fun e => bool_decide (pe_tenantId e = tenantId) && bool_decide (pe_periodId e = periodId))
                   else mret []);
  _ ← guard;
  let lockedEntryIds := map pe_id (take (Z.to_nat (MAX_PAYROLL_LOCK_ENTRIES + 1)) lockedEntries) in
  found ← findManyBy amendmentAge (fun m => bool_decide (pm_tenantId m = tenantId)
    && (bool_decide (pm_adjustmentPeriodId m = periodId) || bool_decide (pm_lockedEntryId m ∈ lockedEntryIds)));
  _ ← guard;
  let page := take (Z.to_nat (MAX_PAYROLL_LOCK_ENTRIES + 1)) found in
  if MAX_PAYROLL_LOCK_ENTRIES <? Z.of_nat (length page) then
    liftResult (payrollRefused 503 "payroll_amendment_limit_invalid" "Stored payroll amendment evidence exceeds the supported limit."
      "Service unavailable")
  else mret page.

(** [rows.length === 0 ? [] : await ...findMany(...)] *)
Definition findManyFor {R A} `{Table R} (page : list A) (p : R -> bool) : Tx (list R) :=
  match page with [] => mret [] | _ => findMany p end.

Definition serializedAmendments (guard : Tx unit) (tenantId periodId status : string) : Tx (list (string * Json)) :=
  page ← amendmentRows guard tenantId periodId status;
  decisions ← findManyFor page (fun d => bool_decide (px_tenantId d = tenantId) && bool_decide (px_amendmentId d ∈ map pm_id page));
  _ ← guard;
  sources ← findManyFor page (fun e => bool_decide (pe_tenantId e = tenantId) && bool_decide (pe_id e ∈ map pm_lockedEntryId page));
  _ ← guard;
  periods ← guarded guard publicPeriods tenantId (map (fun m => Some (pm_adjustmentPeriodId m)) page);
  users ← guarded guard publicUsers tenantId
            (map Some (map pm_requestedByUserId page ++ map px_decidedByUserId decisions ++ map pe_employeeId sources));
  _ ← guard;
  liftResult (mapM (amendmentJson (mapOf (map (fun e => (pe_id e, e)) sources))
                      (mapOf (map (fun d => (px_amendmentId d, d)) decisions)) periods users) page).

Definition serializeAmendment (tenantId : string) (row : PayrollAmendment) : Tx Json :=
  adjustmentPeriod ← requirePeriodById tenantId (pm_adjustmentPeriodId row);
  amendments ← serializedAmendments noGuard tenantId (py_id adjustmentPeriod) (py_status adjustmentPeriod);
  match List.find (fun candidate : string * Json => bool_decide (candidate.1 = pm_publicId row)) amendments with
  | Some amendment => mret amendment.2
  | None => liftResult (payrollRefused 503 "payroll_reference_integrity_failed" "Saved payroll amendment evidence is unavailable."
              "Service unavailable")
  end.

(** ** Asking for an amendment *)

Definition replayConflict {A} : Tx A := liftResult (payrollRefused 409 "idempotency_conflict" PAYROLL_REPLAY_CONFLICT "Conflict").

Definition checkAmendable (identity : SessionIdentity) (entry : PayrollLockedEntry) (adjustment : PayrollPeriodRow) : Result unit :=
  if negb (bool_decide (pe_sourceType entry = "TIME_CARD")) then
    unprocessable "payroll_amendment_source_invalid" "Only original time-card entries can be amended."
  else if bool_decide (pe_employeeId entry = si_sub identity) then
    payrollRefused 409 "payroll_self_amendment_denied" "Employees cannot request amendments to their own payroll entries." "Conflict"
  else if negb (bool_decide (py_status adjustment = "OPEN")) then
    payrollRefused 409 "payroll_adjustment_period_invalid" "The adjustment payroll period must be open." "Conflict"
  else Ok tt.

Definition insertAmendment (identity : SessionIdentity) (entry : PayrollLockedEntry) (adjustment : PayrollPeriodRow)
    (body : AmendmentRequest) (r : Replacement) (request : PayrollRequestIdentity) : Tx PayrollAmendment :=
  id ← randomUUID;
  publicId ← randomUUID;
  createdAt ← now;
  let row := amendmentRow id publicId createdAt identity entry adjustment body r request in
  _ ← createRow row;
  mret row.

Definition createAmendmentInScope (identity : SessionIdentity) (entryId adjustmentPeriodId : string) (body : AmendmentRequest)
    (r : Replacement) (request : PayrollRequestIdentity) : Tx Json :=
  let tenantId := si_tenantId identity in
  _ ← lockPayrollTenant tenantId;
  replay ← findFirst (fun m => bool_decide (pm_operationId m = request.1));
  match replay with
  | Some row =>
      if negb (bool_decide (pm_tenantId row = tenantId)) || negb (bool_decide (pm_requestHash row = request.2)) then replayConflict
      else serializeAmendment tenantId row
  | None =>
      entry ← findFirst (fun e => bool_decide (pe_id e = entryId) && bool_decide (pe_tenantId e = tenantId));
      adjustment ← requirePeriodById tenantId adjustmentPeriodId;
      match entry with
      | None => liftResult (payrollRefused 404 "payroll_locked_entry_not_found"
                  "The requested payroll locked entry was not found in this workspace." "Not found")
      | Some entry =>
          _ ← liftResult (checkAmendable identity entry adjustment);
          sourcePeriod ← requirePeriodById tenantId (pe_periodId entry);
          if py_startsAt adjustment <? py_endsAt sourcePeriod then
            liftResult (payrollRefused 409 "payroll_adjustment_period_order_invalid"
              "The adjustment payroll period must begin after the source payroll period ends." "Conflict")
          else if negb (isSafeInteger (rp_payableMinutes r - pe_payableMinutes entry)) then
            liftResult (unprocessable "payroll_amendment_delta_invalid" "Amendment minute delta is invalid.")
          else
            _ ← assertCurrent;
            created ← insertAmendment identity entry adjustment body r request;
            _ ← assertCurrent;
            response ← serializeAmendment tenantId created;
            _ ← assertCurrent;
            _ ← writePayrollAudit identity "PAYROLL_AMENDMENT_REQUESTED" "PayrollAmendment" (pm_id created) None (Some response);
            _ ← assertCurrent;
            mret response
      end
  end.

Definition createAmendment (identity : SessionIdentity) (publicEntryId : string) (body : AmendmentRequest)
    (idempotencyKeyRaw : option string) : Tx Json :=
  let identity := operationsIdentity identity in
  _ ← prepareCurrentMutation identity;
  entryId ← resolveLockedEntryId identity publicEntryId;
  adjustmentPeriodId ← resolvePeriodId identity (ar_adjustmentPeriodId body);
  r ← liftResult (readReplacement body);
  idempotencyKey ← liftResult (normalizeIdempotencyKey idempotencyKeyRaw);
  let request := payrollRequestIdentity (si_tenantId identity) (si_sub identity) AMENDMENT_CREATE idempotencyKey
    (amendmentBody entryId adjustmentPeriodId body r) in
  uniqueConflictAs "payroll_amendment_conflict" "A saved payroll amendment does not match this request."
    (mutationRun identity (createAmendmentInScope identity entryId adjustmentPeriodId body r request)).

(** ** Deciding it *)

Definition evidenceMissing {A} (what : string) : Tx A :=
  liftResult (payrollRefused 503 "payroll_reference_integrity_failed" ("Saved payroll amendment " +:+ what +:+ " is unavailable.")
    "Service unavailable").

Definition replayDecision (identity : SessionIdentity) (requestHash : string) (replay : PayrollAmendmentDecision) : Tx Json :=
  if negb (bool_decide (px_tenantId replay = si_tenantId identity)) || negb (bool_decide (px_requestHash replay = requestHash)) then
    replayConflict
  else
    amendment ← findFirst (fun m => bool_decide (pm_id m = px_amendmentId replay) && bool_decide (pm_tenantId m = si_tenantId identity));
    match amendment with
    | Some amendment => mret (decidedAnswer identity amendment replay)
    | None => evidenceMissing "evidence"
    end.

Definition checkAmendmentDecidable (identity : SessionIdentity) (amendment : PayrollAmendment) (adjustment : PayrollPeriodRow)
    (source : PayrollLockedEntry) : Result unit :=
  if negb (bool_decide (py_status adjustment = "REVIEW")) then
    payrollRefused 409 "payroll_amendment_decision_state_invalid"
      "Amendments can be decided only while their adjustment period is in review." "Conflict"
  else if bool_decide (pm_requestedByUserId amendment = si_sub identity) || bool_decide (pe_employeeId source = si_sub identity) then
    payrollRefused 409 "payroll_self_amendment_decision_denied"
      "Requesters and source employees cannot decide payroll amendments." "Conflict"
  else Ok tt.

Definition decideAmendmentInScope (identity : SessionIdentity) (amendmentId : string) (body : AmendmentDecisionRequest)
    (request : PayrollRequestIdentity) : Tx Json :=
  let tenantId := si_tenantId identity in
  _ ← lockPayrollTenant tenantId;
  replay ← findFirst (fun d => bool_decide (px_operationId d = request.1));
  match replay with
  | Some row => replayDecision identity request.2 row
  | None =>
      amendment ← findFirst (fun m => bool_decide (pm_id m = amendmentId) && bool_decide (pm_tenantId m = tenantId));
      match amendment with
      | None => liftResult (payrollRefused 404 "payroll_amendment_not_found"
                  "The requested payroll amendment was not found in this workspace." "Not found")
      | Some amendment =>
          _ ← lockPayrollPeriod tenantId (pm_adjustmentPeriodId amendment);
          adjustment ← requirePeriodById tenantId (pm_adjustmentPeriodId amendment);
          source ← findFirst (fun e => bool_decide (pe_id e = pm_lockedEntryId amendment) && bool_decide (pe_tenantId e = tenantId));
          match source with
          | None => evidenceMissing "source evidence"
          | Some source =>
              _ ← liftResult (checkAmendmentDecidable identity amendment adjustment source);
              existing ← findFirst (fun d => bool_decide (px_amendmentId d = pm_id amendment));
              match existing with
              | Some _ => liftResult (payrollRefused 409 "payroll_amendment_decision_exists"
                            "A decision already exists for this payroll amendment." "Conflict")
              | None =>
                  _ ← assertCurrent;
                  id ← randomUUID;
                  decidedAt ← now;
                  let created := decisionRow id decidedAt identity amendment body request in
                  _ ← createRow created;
                  _ ← assertCurrent;
                  let response := decidedAnswer identity amendment created in
                  _ ← assertCurrent;
                  _ ← writePayrollAudit identity "PAYROLL_AMENDMENT_DECIDED" "PayrollAmendment" (pm_id amendment) None (Some response);
                  _ ← assertCurrent;
                  mret response
              end
          end
      end
  end.

Definition decideAmendment (identity : SessionIdentity) (publicAmendmentId : string) (body : AmendmentDecisionRequest)
    (idempotencyKeyRaw : option string) : Tx Json :=
  let identity := operationsIdentity identity in
  _ ← prepareCurrentMutation identity;
  amendmentId ← resolveAmendmentId identity publicAmendmentId;
  idempotencyKey ← liftResult (normalizeIdempotencyKey idempotencyKeyRaw);
  let request := payrollRequestIdentity (si_tenantId identity) (si_sub identity) AMENDMENT_DECISION idempotencyKey
    (JObj [jText "amendmentId" amendmentId; jText "decision" (decisionText (dr_decision body));
           jOptText "reason" (trimmedOrNull (dr_reason body))]) in
  uniqueConflictAs "payroll_amendment_decision_conflict" "A payroll amendment decision already exists for this request."
    (mutationRun identity (decideAmendmentInScope identity amendmentId body request)).
End Amendments.

(** ** What each handler does *)

(** An amendment was appended, with one audit row. *)
Record AmendmentRequested (identity : SessionIdentity) (entryId adjustmentPeriodId : string) (body : AmendmentRequest)
    (r : Replacement) (request : PayrollRequestIdentity) (db db' : Db) (entry : PayrollLockedEntry)
    (adjustment source : PayrollPeriodRow) (row : PayrollAmendment) : Prop := mkAmendmentRequested {
  aq_new : forall m, m ∈ pt_amendments (db_payroll db) -> pm_operationId m <> request.1;
  aq_entry : entry ∈ pt_entries (db_payroll db) /\ pe_id entry = entryId /\ pe_tenantId entry = si_tenantId identity /\
    pe_sourceType entry = "TIME_CARD" /\ pe_employeeId entry <> si_sub identity;
  aq_adjustment : adjustment ∈ db_periods db /\ py_id adjustment = adjustmentPeriodId /\
    py_tenantId adjustment = si_tenantId identity /\ py_status adjustment = "OPEN";
  aq_source : source ∈ db_periods db /\ py_id source = pe_periodId entry /\ py_tenantId source = si_tenantId identity /\
    py_endsAt source <= py_startsAt adjustment;
  aq_row : exists id publicId createdAt, row = amendmentRow id publicId createdAt identity entry adjustment body r request;
  aq_fresh : existsb (conflicts row) (pt_amendments (db_payroll db)) = false;
  aq_written : exists a, al_action a = "PAYROLL_AMENDMENT_REQUESTED" /\
    db' = withRows (db_audits db ++ [a]) (withRows (pt_amendments (db_payroll db) ++ [row]) db);
}.

(** A decision was appended, with one audit row. *)
Record AmendmentDecided (identity : SessionIdentity) (amendmentId : string) (body : AmendmentDecisionRequest)
    (request : PayrollRequestIdentity) (db db' : Db) (amendment : PayrollAmendment) (adjustment : PayrollPeriodRow)
    (source : PayrollLockedEntry) (row : PayrollAmendmentDecision) : Prop := mkAmendmentDecided {
  ax_new : forall d, d ∈ pt_decisions (db_payroll db) -> px_operationId d <> request.1;
  ax_amendment : amendment ∈ pt_amendments (db_payroll db) /\ pm_id amendment = amendmentId /\
    pm_tenantId amendment = si_tenantId identity /\ pm_requestedByUserId amendment <> si_sub identity;
  ax_adjustment : adjustment ∈ db_periods db /\ py_id adjustment = pm_adjustmentPeriodId amendment /\
    py_tenantId adjustment = si_tenantId identity /\ py_status adjustment = "REVIEW";
  ax_source : source ∈ pt_entries (db_payroll db) /\ pe_id source = pm_lockedEntryId amendment /\
    pe_tenantId source = si_tenantId identity /\ pe_employeeId source <> si_sub identity;
  ax_row : exists id decidedAt, row = decisionRow id decidedAt identity amendment body request;
  ax_fresh : existsb (conflicts row) (pt_decisions (db_payroll db)) = false;
  ax_written : exists a, al_action a = "PAYROLL_AMENDMENT_DECIDED" /\
    db' = withRows (db_audits db ++ [a]) (withRows (pt_decisions (db_payroll db) ++ [row]) db);
}.

(** What a request about amendments came to: its row is there, under the
    operation and hash of the request, or it is new. *)
Inductive AmendmentCommitted (identity : SessionIdentity) (entryId adjustmentPeriodId : string) (body : AmendmentRequest)
    (r : Replacement) (request : PayrollRequestIdentity) (db : Db) : Db -> Prop :=
  | amendment_replayed m :
      m ∈ pt_amendments (db_payroll db) -> pm_operationId m = request.1 -> pm_requestHash m = request.2 ->
      pm_tenantId m = si_tenantId identity -> AmendmentCommitted identity entryId adjustmentPeriodId body r request db db
  | amendment_requested db' entry adjustment source row :
      AmendmentRequested identity entryId adjustmentPeriodId body r request db db' entry adjustment source row ->
      AmendmentCommitted identity entryId adjustmentPeriodId body r request db db'.

Inductive DecisionCommitted (identity : SessionIdentity) (amendmentId : string) (body : AmendmentDecisionRequest)
    (request : PayrollRequestIdentity) (db : Db) : Db -> Prop :=
  | decision_replayed d :
      d ∈ pt_decisions (db_payroll db) -> px_operationId d = request.1 -> px_requestHash d = request.2 ->
      px_tenantId d = si_tenantId identity -> DecisionCommitted identity amendmentId body request db db
  | decision_recorded db' amendment adjustment source row :
      AmendmentDecided identity amendmentId body request db db' amendment adjustment source row ->
      DecisionCommitted identity amendmentId body request db db'.

(** A search by a key that misses. *)
Lemma find_key_none {A} (key : A -> string) k (l : list A) :
  List.find (fun x => bool_decide (key x = k)) l = None -> forall x, x ∈ l -> key x <> k.
Proof. intros Hf x Hx Hk. eapply find_none in Hf; [|by apply list_elem_of_In]. by rewrite bool_decide_true in Hf. Qed.

(** A search by an identifier within a tenant that hits. *)
Lemma find_owned {A} (idOf tenantOf : A -> string) id tenantId (l : list A) x :
  List.find (fun x => bool_decide (idOf x = id) && bool_decide (tenantOf x = tenantId)) l = Some x ->
  x ∈ l /\ idOf x = id /\ tenantOf x = tenantId.
Proof.
  intros [Hin [H1%bool_decide_eq_true H2%bool_decide_eq_true]%andb_true_iff]%find_some. split; [by apply list_elem_of_In|done].
Qed.

Section AmendmentFacts.
Context `{Env, AuthorityEnv, CommitEnv, Collation, Intl, LC : LocaleCompare, Sha256}.

Lemma amendmentRows_ReadOnly guard tenantId periodId status : ReadOnly guard -> ReadOnly (amendmentRows guard tenantId periodId status).
Proof. intros Hg. unfold amendmentRows. case_bool_decide; eauto 12 with readonly. Qed.
#[local] Hint Resolve amendmentRows_ReadOnly : readonly.

Lemma findManyFor_ReadOnly {R A} `{Table R} (page : list A) (p : R -> bool) : ReadOnly (findManyFor page p).
Proof. destruct page; eauto with readonly. Qed.
#[local] Hint Resolve findManyFor_ReadOnly : readonly.

Lemma serializedAmendments_ReadOnly guard tenantId periodId status :
  ReadOnly guard -> ReadOnly (serializedAmendments guard tenantId periodId status).
Proof. intros Hg. unfold serializedAmendments. eauto 25 with readonly. Qed.
#[local] Hint Resolve serializedAmendments_ReadOnly : readonly.

Lemma serializeAmendment_ReadOnly tenantId row : ReadOnly (serializeAmendment tenantId row).
Proof.
  unfold serializeAmendment. apply ReadOnly_bind; [eauto with readonly|]. intros p. apply ReadOnly_bind; [eauto with readonly|].
  intros amendments. destruct (List.find _ _); eauto with readonly.
Qed.

Lemma replayDecision_ReadOnly identity hash replay : ReadOnly (replayDecision identity hash replay).
Proof.
  unfold replayDecision, replayConflict, evidenceMissing. destruct (_ || _); [eauto with readonly|].
  apply ReadOnly_bind; [eauto with readonly|]. intros [m|]; eauto with readonly.
Qed.

Lemma resolveAmendmentId_ReadOnly identity publicId : ReadOnly (resolveAmendmentId identity publicId).
Proof. apply resolveId_ReadOnly. Qed.
Lemma resolveLockedEntryId_ReadOnly identity publicId : ReadOnly (resolveLockedEntryId identity publicId).
Proof. apply resolveId_ReadOnly. Qed.
#[local] Hint Resolve serializeAmendment_ReadOnly replayDecision_ReadOnly resolveAmendmentId_ReadOnly
  resolveLockedEntryId_ReadOnly : readonly.

Lemma insertAmendment_Ok identity entry adjustment body r request row w w' :
  insertAmendment identity entry adjustment body r request w = (Ok row, w') ->
  (exists id publicId createdAt, row = amendmentRow id publicId createdAt identity entry adjustment body r request) /\
  existsb (conflicts row) (pt_amendments (db_payroll (w_db w))) = false /\
  w_db w' = withRows (pt_amendments (db_payroll (w_db w)) ++ [row]) (w_db w).
Proof.
  unfold insertAmendment. intros (id & w1 & [-> ->]%randomUUID_Ok & Hr)%Tx_bind_Ok.
  apply Tx_bind_Ok in Hr as (publicId & w1 & [-> ->]%randomUUID_Ok & Hr).
  apply Tx_bind_Ok in Hr as (createdAt & w1 & [-> ->]%now_Ok & Hr).
  apply Tx_bind_Ok in Hr as (u & w1 & [Hf Hdb]%createRow_Ok & [<- <-]%Tx_ret_Ok). split; [by do 3 eexists|]. done.
Qed.

Lemma createAmendmentInScope_Ok identity entryId adjustmentPeriodId body r request response w w' :
  createAmendmentInScope identity entryId adjustmentPeriodId body r request w = (Ok response, w') ->
  AmendmentCommitted identity entryId adjustmentPeriodId body r request (w_db w) (w_db w').
Proof.
  remember (w_db w) as db eqn:Hdb. symmetry in Hdb. unfold createAmendmentInScope. intros Hr. skip_read Hr Hdb.
  apply Tx_bind_Ok in Hr as (replay & w2 & [-> E2]%findFirst_Ok & Hr). rewrite Hdb in *.
  destruct (List.find _ _) as [m|] eqn:Ef.
  { destruct (_ || _) eqn:Eb; [by apply liftResult_Ok in Hr as [? _]|]. read_only Hr E3. rewrite E3, E2.
    apply find_some in Ef as [Hin%list_elem_of_In Ho%bool_decide_eq_true]. rewrite orb_false_iff, !negb_false_iff, !bool_decide_eq_true in Eb.
    destruct Eb. by eapply amendment_replayed. }
  pose proof (find_key_none _ _ _ Ef) as Hnew. apply Tx_bind_Ok in Hr as (entry & w3 & [-> E3]%findFirst_Ok & Hr). rewrite E2 in *.
  keep_read Hr E3 adjustment Hadj. apply requirePeriodById_Ok in Hadj as (Ea & Hadj & Hat & Hai & _). rewrite <- Ea, E3 in Hadj.
  destruct (List.find _ (rows db)) as [entry|] eqn:Ee in Hr; [|by apply liftResult_Ok in Hr as [? _]].
  apply find_owned in Ee as (Hin & Hei & Het). keep_read Hr E3 u4 Hchk. apply liftResult_Ok in Hchk as [Hchk _].
  keep_read Hr E3 source Hsrc. apply requirePeriodById_Ok in Hsrc as (Es & Hsrc & Hst & Hsi & _). rewrite <- Es, E3 in Hsrc.
  destruct (_ <? _) eqn:Eord; [by apply liftResult_Ok in Hr as [? _]|]. destruct (negb _) eqn:Edelta in Hr; [by apply liftResult_Ok in Hr as [? _]|].
  pass_read Hr E3 u5. apply Tx_bind_Ok in Hr as (row & w6 & (Hrow & Hfresh & E6)%insertAmendment_Ok & Hr). rewrite E3 in *.
  pass_read Hr E6 u7. pass_read Hr E6 resp. pass_read Hr E6 u8.
  apply Tx_bind_Ok in Hr as (u9 & w9 & (a & Hact & _ & _ & _ & _ & _ & _ & E9)%writePayrollAudit_Ok & Hr). rewrite E6 in E9.
  pass_read Hr E9 u10. apply Tx_ret_Ok in Hr as [_ ->].
  unfold checkAmendable, unprocessable, payrollRefused in Hchk.
  case_bool_decide as Htype; cbn [negb] in Hchk; [|done]. case_bool_decide as Hself; [done|].
  case_bool_decide as Hopen; cbn [negb] in Hchk; [|done]. bools.
  eapply (amendment_requested _ _ _ _ _ _ _ _ entry adjustment source row). split; try done.
  exists a. split; [done|]. rewrite E9. destruct db as [? ? ? ? ? ? ? ? ? ? ? ? ? ? ? ? []]. done.
Qed.

Lemma decideAmendmentInScope_Ok identity amendmentId body request response w w' :
  decideAmendmentInScope identity amendmentId body request w = (Ok response, w') ->
  DecisionCommitted identity amendmentId body request (w_db w) (w_db w').
Proof.
  remember (w_db w) as db eqn:Hdb. symmetry in Hdb. unfold decideAmendmentInScope. intros Hr. skip_read Hr Hdb.
  apply Tx_bind_Ok in Hr as (replay & w2 & [-> E2]%findFirst_Ok & Hr). rewrite Hdb in *.
  destruct (List.find _ _) as [d|] eqn:Ef.
  { read_only Hr E3. rewrite E3, E2. unfold replayDecision in Hr. destruct (_ || _) eqn:Eb; [by apply liftResult_Ok in Hr as [? _]|].
    apply find_some in Ef as [Hin%list_elem_of_In Ho%bool_decide_eq_true]. rewrite orb_false_iff, !negb_false_iff, !bool_decide_eq_true in Eb.
    destruct Eb. by eapply decision_replayed. }
  pose proof (find_key_none _ _ _ Ef) as Hnew. apply Tx_bind_Ok in Hr as (found & w3 & [-> E3]%findFirst_Ok & Hr). rewrite E2 in *.
  destruct (List.find _ (rows db)) as [m|] eqn:Em in Hr; [|by apply liftResult_Ok in Hr as [? _]].
  apply find_owned in Em as (Hin & Hmi & Hmt). skip_read Hr E3.
  keep_read Hr E3 adjustment Hadj. apply requirePeriodById_Ok in Hadj as (Ea & Hadj & Hat & Hai & _). rewrite <- Ea, E3 in Hadj.
  apply Tx_bind_Ok in Hr as (found & w4 & [-> E4]%findFirst_Ok & Hr). rewrite E3 in *.
  destruct (List.find _ (rows db)) as [source|] eqn:Es in Hr; [|by apply liftResult_Ok in Hr as [? _]].
  apply find_owned in Es as (Hsin & Hsi & Hst). keep_read Hr E4 u5 Hchk. apply liftResult_Ok in Hchk as [Hchk _].
  apply Tx_bind_Ok in Hr as (existing & w6 & [-> E6]%findFirst_Ok & Hr). rewrite E4 in *.
  destruct (List.find _ (rows db)) in Hr; [by apply liftResult_Ok in Hr as [? _]|]. cbv zeta in Hr.
  pass_read Hr E6 u7. pass_read Hr E6 newId. pass_read Hr E6 decidedAt.
  apply Tx_bind_Ok in Hr as (u8 & w8 & [Hfresh E8]%createRow_Ok & Hr). rewrite E6 in *.
  pass_read Hr E8 u9. pass_read Hr E8 u10.
  apply Tx_bind_Ok in Hr as (u11 & w11 & (a & Hact & _ & _ & _ & _ & _ & _ & E11)%writePayrollAudit_Ok & Hr). rewrite E8 in E11.
  pass_read Hr E11 u12. apply Tx_ret_Ok in Hr as [_ ->].
  unfold checkAmendmentDecidable, payrollRefused in Hchk. case_bool_decide as Hrev; cbn [negb] in Hchk; [|done].
  destruct (_ || _) eqn:Eself in Hchk; [done|]. rewrite orb_false_iff, !bool_decide_eq_false in Eself. destruct Eself.
  eapply (decision_recorded _ _ _ _ _ _ m adjustment source (decisionRow newId decidedAt identity m body request)). split; try done; [by do 2 eexists|].
  exists a. split; [done|]. rewrite E11. destruct db as [? ? ? ? ? ? ? ? ? ? ? ? ? ? ? ? []]. done.
Qed.

Lemma createAmendment_outcome_Ok db identity publicEntryId body key :
  OutcomeAt db (createAmendment identity publicEntryId body key) (fun response db' =>
    exists entryId adjustmentPeriodId r idempotencyKey, readReplacement body = Ok r /\ normalizeIdempotencyKey key = Ok idempotencyKey /\
      AmendmentCommitted (operationsIdentity identity) entryId adjustmentPeriodId body r
        (requestOf identity AMENDMENT_CREATE idempotencyKey (amendmentBody entryId adjustmentPeriodId body r)) db db').
Proof.
  unfold createAmendment. apply OutcomeAt_bind; [eauto with readonly|]. intros _ _ _ _ _.
  apply OutcomeAt_bind; [eauto with readonly|]. intros w1 entryId w1' _ _.
  apply OutcomeAt_bind; [eauto with readonly|]. intros w2 periodId w2' _ _.
  apply OutcomeAt_bind; [eauto with readonly|]. intros w3 r w3' _ [Hread _]%liftResult_Ok.
  apply OutcomeAt_bind; [eauto with readonly|]. intros w4 k w4' _ [Hkey _]%liftResult_Ok.
  apply OutcomeAt_conflict. eapply OutcomeAt_impl; [apply mutationRun_outcome|].
  intros response db' (wa & wb & <- & Ho & -> & _). exists entryId, periodId, r, k. split; [done|]. split; [done|].
  by eapply createAmendmentInScope_Ok.
Qed.

Lemma decideAmendment_outcome_Ok db identity publicAmendmentId body key :
  OutcomeAt db (decideAmendment identity publicAmendmentId body key) (fun response db' =>
    exists amendmentId idempotencyKey, normalizeIdempotencyKey key = Ok idempotencyKey /\
      DecisionCommitted (operationsIdentity identity) amendmentId body
        (requestOf identity AMENDMENT_DECISION idempotencyKey
          (JObj [jText "amendmentId" amendmentId; jText "decision" (decisionText (dr_decision body));
                 jOptText "reason" (trimmedOrNull (dr_reason body))])) db db').
Proof.
  unfold decideAmendment. apply OutcomeAt_bind; [eauto with readonly|]. intros _ _ _ _ _.
  apply OutcomeAt_bind; [eauto with readonly|]. intros w1 amendmentId w1' _ _.
  apply OutcomeAt_bind; [eauto with readonly|]. intros w2 k w2' _ [Hkey _]%liftResult_Ok.
  apply OutcomeAt_conflict. eapply OutcomeAt_impl; [apply mutationRun_outcome|].
  intros response db' (wa & wb & <- & Ho & -> & _). exists amendmentId, k. split; [done|].
  by eapply decideAmendmentInScope_Ok.
Qed.
End AmendmentFacts.
