(* ===== verification/PayrollHistory.v ===== *)
(** * The history of payroll

    The handlers of time cards and of payroll as the steps of one system, and
    what no sequence of them ever rewrites: policies, approvals, entries,
    amendments, decisions and recorded answers are appended, a period keeps its
    identity and only moves forward, and once it is locked it stays as it is,
    with the cards it pays, their breaks and its entries. *)

From S2P Require Import Prelude JsStd JsCollections JsDate ContractHelpers TimeZone PayrollDates PayrollRecords.
From S2P Require Import Database FeatureEntitlement Authority ScheduleStore TimeCardPayroll TimeCardStore TimeCards.
From S2P Require Import TimeCardClockIn TimeCardOutcomes PayrollStore PayrollPolicies PayrollReview PayrollLock PayrollAmendments.

(** ** Steps *)

(** A run of a handler of the cards or of payroll, in any environment whose
    fresh identifiers are not empty and whatever the handler returns. The
    collation, the text order and the hash are those of the deployment. *)
Inductive payrollRequest `{Coll : Collation, LC : LocaleCompare, SH : Sha256} : Db -> Db -> Prop :=
  | pay_clockIn `{Env, Process, AuthorityEnv, CommitEnv, Intl} identity body key w :
      payrollRequest (w_db w) (w_db (clockIn identity body key w).2)
  | pay_clockOut `{Env, AuthorityEnv, CommitEnv} identity publicId body w :
      payrollRequest (w_db w) (w_db (clockOut identity publicId body w).2)
  | pay_correct `{Env, Process, AuthorityEnv, CommitEnv, Intl} identity publicId body w :
      payrollRequest (w_db w) (w_db (correct identity publicId body w).2)
  | pay_policy `{Env, AuthorityEnv, CommitEnv, Intl} identity body key w :
      (forall n, uuidAt n <> "") -> payrollRequest (w_db w) (w_db (createPolicy identity body key w).2)
  | pay_period `{Env, AuthorityEnv, CommitEnv, Intl} identity localStartDate key w :
      (forall n, uuidAt n <> "") -> payrollRequest (w_db w) (w_db (createPeriod identity localStartDate key w).2)
  | pay_review `{Env, AuthorityEnv, CommitEnv, Intl} identity publicPeriodId expectedRevision key w :
      payrollRequest (w_db w) (w_db (startReview identity publicPeriodId expectedRevision key w).2)
  | pay_adopt `{Env, AuthorityEnv, CommitEnv} identity publicPeriodId cards key w :
      payrollRequest (w_db w) (w_db (adoptCards identity publicPeriodId cards key w).2)
  | pay_decide `{Env, AuthorityEnv, CommitEnv} identity publicPeriodId decisions key w :
      payrollRequest (w_db w) (w_db (decideCards identity publicPeriodId decisions key w).2)
  | pay_lock `{Env, AuthorityEnv, CommitEnv, Intl} identity publicPeriodId expectedRevision key w :
      payrollRequest (w_db w) (w_db (lockPeriod identity publicPeriodId expectedRevision key w).2)
  | pay_amend `{Env, AuthorityEnv, CommitEnv} identity publicEntryId body key w :
      payrollRequest (w_db w) (w_db (createAmendment identity publicEntryId body key w).2)
  | pay_decideAmendment `{Env, AuthorityEnv, CommitEnv} identity publicAmendmentId body key w :
      payrollRequest (w_db w) (w_db (decideAmendment identity publicAmendmentId body key w).2).

(** A request, or a step of the rest of the system, which leaves these tables
    alone. *)
Inductive payrollStep `{Coll : Collation, LC : LocaleCompare, SH : Sha256} (db db' : Db) : Prop :=
  | pay_request : payrollRequest db db' -> payrollStep db db'
  | pay_rest :
      db_timeCards db' = db_timeCards db -> db_cardBreaks db' = db_cardBreaks db -> db_periods db' = db_periods db ->
      db_policies db' = db_policies db -> db_payroll db' = db_payroll db -> payrollStep db db'.

(** What a step does. *)
Inductive payrollEffect `{LC : LocaleCompare, SH : Sha256} (db db' : Db) : Prop :=
  | does_cards : cardEffect db db' -> payrollEffect db db'
  | does_policy `{Env} identity policy request response latest row :
      pv_id row <> "" -> PolicyCreated identity policy request response db db' latest row -> payrollEffect db db'
  | does_period `{Env, Intl} identity localStartDate request response policy boundaries row :
      py_id row <> "" -> (forall o, o ∈ pt_operations (db_payroll db) -> po_operationId o <> request.1) ->
      PeriodCreated identity localStartDate request response db db' policy boundaries row -> payrollEffect db db'
  | does_review identity periodId expectedRevision request response period startedAt updatedAt :
      (forall o, o ∈ pt_operations (db_payroll db) -> po_operationId o <> request.1) ->
      ReviewStarted identity periodId expectedRevision request response db db' period startedAt updatedAt -> payrollEffect db db'
  | does_adopt identity periodId cards request response period adopted :
      (forall o, o ∈ pt_operations (db_payroll db) -> po_operationId o <> request.1) ->
      CardsAdopted identity periodId cards request response db db' period adopted ->
      cardsExclusive (db_timeCards db') = true -> payrollEffect db db'
  | does_decide identity periodId decisions request response period approvals :
      (forall o, o ∈ pt_operations (db_payroll db) -> po_operationId o <> request.1) ->
      CardsDecided identity periodId decisions request response db db' period approvals -> payrollEffect db db'
  | does_lock identity periodId expectedRevision request period readAt lockedAt updatedAt snapshot entries :
      PeriodLocked identity periodId expectedRevision request db db' period readAt lockedAt updatedAt snapshot entries ->
      payrollEffect db db'
  | does_amend identity entryId adjustmentPeriodId body r request entry adjustment source row :
      AmendmentRequested identity entryId adjustmentPeriodId body r request db db' entry adjustment source row -> payrollEffect db db'
  | does_decideAmendment identity amendmentId body request amendment adjustment source row :
      AmendmentDecided identity amendmentId body request db db' amendment adjustment source row -> payrollEffect db db'
  | does_rest :
      db_timeCards db' = db_timeCards db -> db_cardBreaks db' = db_cardBreaks db -> db_periods db' = db_periods db ->
      db_policies db' = db_policies db -> db_payroll db' = db_payroll db -> payrollEffect db db'.

(** What the handlers rely on: identifiers are keys. *)
Definition keyed (db : Db) : Prop := cardsKeyed db /\ policiesKeyed db /\ periodsKeyed db.

(** The equation of the new database, from what the handler did. *)
Ltac written He E := first
  [ pose proof (pc_written _ _ _ _ _ _ _ _ He) as (?a & _ & E) | pose proof (pd_written _ _ _ _ _ _ _ _ _ He) as (?a & _ & E)
  | pose proof (rv_written _ _ _ _ _ _ _ _ _ _ He) as (?a & _ & E) | pose proof (ad_written _ _ _ _ _ _ _ _ _ He) as (?a & _ & E)
  | pose proof (dc_written _ _ _ _ _ _ _ _ _ He) as (?a & _ & E) | pose proof (lk_written _ _ _ _ _ _ _ _ _ _ _ _ He) as (?a & _ & _ & E)
  | pose proof (aq_written _ _ _ _ _ _ _ _ _ _ _ _ He) as (?a & _ & E) | pose proof (ax_written _ _ _ _ _ _ _ _ _ _ He) as (?a & _ & E) ].

Section Effects.
Context `{Coll : Collation, LC : LocaleCompare, SH : Sha256}.

(** What a request does: one of the effects, which leave the exports alone. *)
Definition requestEffect (db db' : Db) : Prop := payrollEffect db db' /\ keepsExports db db'.

Lemma effect_idle db : requestEffect db db.
Proof. split; [by apply does_rest|by split]. Qed.

Lemma cardEffect_request db db' : cardEffect db db' -> requestEffect db db'.
Proof. intros He. split; [by apply does_cards|]. by destruct He as [->|? _ _ _ _ _ _ _ _ _ ?|? ? ? _ _ _ _ _ _ _ _ _ _ _ _ ?]. Qed.

(** An effect whose new database is written out by [He]. *)
Ltac request_effect He tac := split; [tac|let E := fresh in written He E; rewrite E;
  match goal with |- keepsExports ?db _ => split; by destruct db as [? ? ? ? ? ? ? ? ? ? ? ? ? ? ? ? []] end].

(** A handler that only commits [C] and whose [C] is an effect. *)
Lemma outcome_effect {A} db (m : Tx A) (C : A -> Db -> Prop) w :
  w_db w = db -> OutcomeAt db m C -> (forall a db', C a db' -> requestEffect db db') -> requestEffect (w_db w) (w_db (m w).2).
Proof.
  intros Hw Hm Hc. destruct (m w) as [r w'] eqn:E. rewrite Hw. cbn [snd].
  destruct (Hm w r w' Hw E) as [[-> _]|(a & Ha & _)]; [apply effect_idle|by eapply Hc].
Qed.

Lemma recorded_effect request (C : Json -> Db -> Prop) db response db' :
  Recorded request C db response db' ->
  ((forall o, o ∈ pt_operations (db_payroll db) -> po_operationId o <> request.1) -> C response db' -> requestEffect db db') ->
  requestEffect db db'.
Proof. intros Hr Hi. destruct Hr as [|? ? Hn Hc]; [apply effect_idle|by apply Hi]. Qed.

Lemma payrollRequest_effect db db' : keyed db -> payrollRequest db db' -> requestEffect db db'.
Proof.
  intros (Hk & Hp & Hpe) Hs. destruct Hs.
  - by apply cardEffect_request, clockIn_effect.
  - by apply cardEffect_request, clockOut_effect.
  - by apply cardEffect_request, correct_effect.
  - eapply outcome_effect; [done|apply createPolicy_outcome_Ok|].
    intros a db' (policy & k & _ & _ & Hc). cbv zeta in Hc. destruct Hc as [|latest row response db' Hc]; [apply effect_idle|].
    request_effect Hc ltac:(eapply does_policy; [|exact Hc]). destruct (pc_row _ _ _ _ _ _ _ _ Hc) as (i & j & t & n & m & _ & _ & _ & _ & ->). by apply H3.
  - eapply outcome_effect; [done|apply createPeriod_outcome_Ok|].
    intros a db' (k & _ & Hc). cbv zeta in Hc. eapply recorded_effect; [exact Hc|]. intros Hn (policy & boundaries & row & Hpc).
    request_effect Hpc ltac:(eapply does_period; [|exact Hn|exact Hpc]). destruct (pd_row _ _ _ _ _ _ _ _ _ Hpc) as (i & j & t & s & e & _ & _ & ->). by apply H3.
  - eapply outcome_effect; [done|by apply startReview_outcome_Ok|].
    intros a db' (periodId & k & _ & Hc). cbv zeta in Hc. eapply recorded_effect; [exact Hc|].
    intros Hn (period & startedAt & updatedAt & Hr & _). request_effect Hr ltac:(by eapply does_review).
  - eapply outcome_effect; [done|by apply adoptCards_outcome_Ok|].
    intros a db' (periodId & resolved & k & _ & Hc). cbv zeta in Hc. destruct Hc as [Hx Hc]. eapply recorded_effect; [exact Hc|].
    intros Hn (period & adopted & Ha). request_effect Ha ltac:(by eapply does_adopt).
  - eapply outcome_effect; [done|by apply decideCards_outcome_Ok|].
    intros a db' (periodId & resolved & k & _ & Hc). cbv zeta in Hc. eapply recorded_effect; [exact Hc|].
    intros Hn (period & approvals & Ha). request_effect Ha ltac:(by eapply does_decide).
  - eapply outcome_effect; [done|apply lockPeriod_outcome_Ok; [done|apply Hk]|].
    intros a db' (periodId & k & _ & Hc). destruct Hc as [|? ? ? ? ? ? ? Hc]; [apply effect_idle|]. request_effect Hc ltac:(by eapply does_lock).
  - eapply outcome_effect; [done|by apply createAmendment_outcome_Ok|].
    intros a db' (entryId & periodId & r & k & _ & _ & Hc). destruct Hc as [|? ? ? ? ? Hc]; [apply effect_idle|]. request_effect Hc ltac:(by eapply does_amend).
  - eapply outcome_effect; [done|by apply decideAmendment_outcome_Ok|].
    intros a db' (amendmentId & k & _ & Hc). destruct Hc as [|? ? ? ? ? Hc]; [apply effect_idle|]. request_effect Hc ltac:(by eapply does_decideAmendment).
Qed.

Lemma payrollStep_effect db db' : keyed db -> payrollStep db db' -> payrollEffect db db'.
Proof. intros Hk [Hr|]; [by apply payrollRequest_effect|by apply does_rest]. Qed.
End Effects.

(** ** What is never rewritten *)

(** The same period: who it belongs to, the policy it was cut from, its window. *)
Record samePeriod (p p' : PayrollPeriodRow) : Prop := mkSamePeriod {
  sp_id : py_id p' = py_id p /\ py_publicId p' = py_publicId p /\ py_tenantId p' = py_tenantId p;
  sp_policy : py_policyVersionId p' = py_policyVersionId p /\ py_timeZone p' = py_timeZone p /\ py_cadence p' = py_cadence p;
  sp_dates : py_localStartDate p' = py_localStartDate p /\ py_localEndDateExclusive p' = py_localEndDateExclusive p;
  sp_window : py_startsAt p' = py_startsAt p /\ py_endsAt p' = py_endsAt p;
}.

(** A period moves from open to review and from there to locked, its revision
    counting the moves, and stays as it is once locked. *)
Inductive advances (p p' : PayrollPeriodRow) : Prop :=
  | advances_same : p' = p -> advances p p'
  | advances_review : samePeriod p p' -> py_status p = "OPEN" -> py_status p' = "REVIEW" ->
      py_revision p' = py_revision p + 1 -> advances p p'
  | advances_lock : samePeriod p p' -> py_status p = "REVIEW" -> py_status p' = "LOCKED" ->
      py_revision p' = py_revision p + 1 -> advances p p'
  | advances_both : samePeriod p p' -> py_status p = "OPEN" -> py_status p' = "LOCKED" ->
      py_revision p' = py_revision p + 2 -> advances p p'.

Definition isLocked (p : PayrollPeriodRow) : Prop := py_status p = "LOCKED".

(** The entries and the cards of a period. *)
Definition entryOf (p : PayrollPeriodRow) (e : PayrollLockedEntry) : bool :=
  bool_decide (pe_tenantId e = py_tenantId p) && bool_decide (pe_periodId e = py_id p).
Definition entriesOf (db : Db) (p : PayrollPeriodRow) : list PayrollLockedEntry :=
  List.filter (entryOf p) (pt_entries (db_payroll db)).
Definition cardOf (p : PayrollPeriodRow) (c : TimeCard) : Prop := assignedTo (py_tenantId p) (py_id p) c.

Record grows (db db' : Db) : Prop := mkGrows {
  gr_cards : forall c, c ∈ db_timeCards db -> exists c', c' ∈ db_timeCards db' /\
    tc_id c' = tc_id c /\ tc_tenantId c' = tc_tenantId c /\ tc_userId c' = tc_userId c;
  gr_periods : forall p, p ∈ db_periods db -> exists p', p' ∈ db_periods db' /\ advances p p';
  gr_frozen : forall p, p ∈ db_periods db -> isLocked p ->
    (forall c, c ∈ db_timeCards db -> cardOf p c -> keepsCard c db db') /\
    (forall c, c ∈ db_timeCards db' -> cardOf p c -> c ∈ db_timeCards db) /\
    entriesOf db' p = entriesOf db p /\
    (forall m, m ∈ pt_amendments (db_payroll db') -> amends (py_tenantId p) (py_id p) m -> m ∈ pt_amendments (db_payroll db));
  gr_policies : db_policies db `prefix_of` db_policies db';
  gr_operations : pt_operations (db_payroll db) `prefix_of` pt_operations (db_payroll db');
  gr_approvals : pt_approvals (db_payroll db) `prefix_of` pt_approvals (db_payroll db');
  gr_entries : pt_entries (db_payroll db) `prefix_of` pt_entries (db_payroll db');
  gr_amendments : pt_amendments (db_payroll db) `prefix_of` pt_amendments (db_payroll db');
  gr_decisions : pt_decisions (db_payroll db) `prefix_of` pt_decisions (db_payroll db');
}.

Lemma samePeriod_refl p : samePeriod p p.
Proof. by split. Qed.
Lemma samePeriod_trans p q r : samePeriod p q -> samePeriod q r -> samePeriod p r.
Proof. intros [(? & ? & ?) (? & ? & ?) (? & ?) (? & ?)] [(? & ? & ?) (? & ? & ?) (? & ?) (? & ?)]. split; split_and!; congruence. Qed.

Lemma advances_samePeriod p p' : advances p p' -> samePeriod p p'.
Proof. intros [->| | |]; [apply samePeriod_refl|done..]. Qed.

Lemma advances_trans p q r : advances p q -> advances q r -> advances p r.
Proof.
  intros Hpq Hqr. pose proof (samePeriod_trans _ _ _ (advances_samePeriod _ _ Hpq) (advances_samePeriod _ _ Hqr)) as Hs.
  destruct Hpq as [->|_ S1 S2 R1|_ S1 S2 R1|_ S1 S2 R1]; [done|..];
    destruct Hqr as [->|_ T1 T2 R2|_ T1 T2 R2|_ T1 T2 R2]; try congruence.
  - by apply advances_review.
  - apply advances_both; [done..|lia].
  - by apply advances_lock.
  - by apply advances_both.
Qed.

Lemma advances_locked p p' : isLocked p -> advances p p' -> p' = p.
Proof. unfold isLocked. intros Hl [->|? Ho|? Ho|? Ho]; [done|congruence..]. Qed.

Lemma prefix_elem {A} (l k : list A) x : l `prefix_of` k -> x ∈ l -> x ∈ k.
Proof. intros [m ->]. set_solver. Qed.

#[global] Instance grows_preorder : PreOrder grows.
Proof.
  split.
  - intros db. split; try done; [eauto|]. intros p Hp. exists p. split; [done|by apply advances_same].
  - intros db1 db2 db3 G12 G23. split; try (by etrans; [apply G12|apply G23]).
    + intros c Hc. destruct (gr_cards _ _ G12 c Hc) as (c2 & Hc2 & E1 & E2 & E3), (gr_cards _ _ G23 c2 Hc2) as (c3 & Hc3 & F1 & F2 & F3).
      exists c3. split_and!; congruence || done.
    + intros p Hp. destruct (gr_periods _ _ G12 p Hp) as (p2 & Hp2 & A1), (gr_periods _ _ G23 p2 Hp2) as (p3 & Hp3 & A2).
      exists p3. split; [done|by eapply advances_trans].
    + intros p Hp Hl. destruct (gr_periods _ _ G12 p Hp) as (p2 & Hp2 & A1). apply (advances_locked p p2 Hl) in A1 as ->.
      destruct (gr_frozen _ _ G12 p Hp Hl) as (C1 & C2 & C3 & C4), (gr_frozen _ _ G23 p Hp2 Hl) as (D1 & D2 & D3 & D4). split_and!.
      * intros c Hc Ho. destruct (C1 c Hc Ho) as [Hc2 Hb]. destruct (D1 c Hc2 Ho) as [Hc3 Hb3]. split; [done|congruence].
      * intros c Hc Ho. apply C2; [by apply D2|done].
      * congruence.
      * intros m Hm Ha. apply C4; [by apply D4|done].
Qed.

(** *** A way to show it *)

Lemma replaceRow_advances l k f :
  (forall p, p ∈ l -> py_id p = k -> advances p (f p)) ->
  forall p, p ∈ l -> exists p', p' ∈ replaceRow py_id k f l /\ advances p p'.
Proof.
  intros Hf p Hp. destruct (decide (py_id p = k)) as [E|E].
  - exists (f p). split; [by apply replaceRow_elem|by apply Hf].
  - exists p. split; [|by apply advances_same]. apply list_elem_of_In, in_map_iff. exists p. rewrite bool_decide_false by done.
    split; [done|by apply list_elem_of_In].
Qed.

Lemma entriesOf_app db db' p news :
  pt_entries (db_payroll db') = pt_entries (db_payroll db) ++ news -> (forall e, e ∈ news -> entryOf p e = false) ->
  entriesOf db' p = entriesOf db p.
Proof.
  intros E Hn. unfold entriesOf. rewrite E, List.filter_app. rewrite <- (app_nil_r (List.filter _ _)) at 2. f_equal. clear E.
  induction news as [|e news IH]; [done|]. cbn. rewrite Hn by by left. apply IH. intros x Hx. apply Hn. by right.
Qed.

(** The cards and their breaks are as they were. *)
Lemma grows_keeping db db' entries amendments :
  db_timeCards db' = db_timeCards db -> db_cardBreaks db' = db_cardBreaks db ->
  (forall p, p ∈ db_periods db -> exists p', p' ∈ db_periods db' /\ advances p p') ->
  db_policies db `prefix_of` db_policies db' ->
  pt_operations (db_payroll db) `prefix_of` pt_operations (db_payroll db') ->
  pt_approvals (db_payroll db) `prefix_of` pt_approvals (db_payroll db') ->
  pt_decisions (db_payroll db) `prefix_of` pt_decisions (db_payroll db') ->
  pt_entries (db_payroll db') = pt_entries (db_payroll db) ++ entries ->
  pt_amendments (db_payroll db') = pt_amendments (db_payroll db) ++ amendments ->
  (forall p, p ∈ db_periods db -> isLocked p -> (forall e, e ∈ entries -> entryOf p e = false) /\
     forall m, m ∈ amendments -> ~ amends (py_tenantId p) (py_id p) m) ->
  grows db db'.
Proof.
  intros Ec Eb Hp Hpol Hop Hap Hde Een Eam Hl. split; try done.
  - rewrite Ec. eauto.
  - intros p Hin Hlock. destruct (Hl p Hin Hlock) as [He Hm]. split_and!.
    + intros c Hc _. unfold keepsCard. by rewrite Ec, Eb.
    + intros c. by rewrite Ec.
    + by eapply entriesOf_app.
    + intros m. rewrite Eam, elem_of_app. intros [?|Hm'] Ha; [done|]. by apply Hm in Ha.
  - rewrite Een. by apply prefix_app_r.
  - rewrite Eam. by apply prefix_app_r.
Qed.

(** ** Every step only adds *)

Lemma period_same db p q : periodsKeyed db -> p ∈ db_periods db -> q ∈ db_periods db -> py_id p = py_id q -> p = q.
Proof. intros [Hn _] Hp Hq. by apply (NoDup_map_inj py_id _ p q Hn). Qed.

(** A card that may change belongs to no locked period. *)
Lemma locked_not_open db p tenantId :
  periodsKeyed db -> p ∈ db_periods db -> isLocked p -> openPeriod tenantId (py_id p) db -> False.
Proof.
  intros Hk Hp Hl (q & Hq & Hi & _ & Ho). rewrite (period_same db q p Hk Hq Hp Hi) in Ho. unfold isLocked in Hl. congruence.
Qed.

Lemma locked_named db p : p ∈ db_periods db -> isLocked p -> lockedPeriod (py_tenantId p) (py_id p) db.
Proof. intros Hp Hl. exists p. split; [done|]. split; [|done]. unfold periodNamed. by rewrite !bool_decide_true. Qed.

Lemma period_named_ne db p : periodsKeyed db -> p ∈ db_periods db -> py_id p <> "".
Proof. intros [_ Hn] Hp. rewrite Forall_forall in Hn. by apply Hn. Qed.

Lemma cardEffect_grows db db' : keyed db -> cardEffect db db' -> grows db db'.
Proof.
  intros (Hk & _ & Hpk) He. destruct He as [->|card Hf Hcc Hopen Ec Eb Ep Epol Epay Hx|row f breaks Hrow Hu Hkeys Hcc Ec Eb Hown Hper Ep Epol Epay Hx].
  - reflexivity.
  - split; rewrite ?Ep, ?Epol, ?Epay; try done.
    + intros c Hc. exists c. rewrite Ec. split; [set_solver|done].
    + intros p Hp. exists p. split; [done|by apply advances_same].
    + intros p Hp Hl. split_and!; [| |unfold entriesOf; by rewrite Epay|done].
      * intros c Hc _. unfold keepsCard. rewrite Ec, Eb. split; [set_solver|done].
      * intros c. rewrite Ec, elem_of_app, list_elem_of_singleton. intros [Hc| ->] [Ht Hid]; [done|]. exfalso.
        eapply locked_not_open; [exact Hpk|exact Hp|exact Hl|]. by apply Hopen.
  - assert (Hnone : forall p c, p ∈ db_periods db -> isLocked p -> c ∈ db_timeCards db -> cardOf p c -> tc_id c <> tc_id row).
    { intros p c Hp Hl Hc [Ht Hid] E. rewrite (NoDup_map_inj tc_id _ c row (ck_ids _ Hk) Hc Hrow E) in *.
      eapply locked_not_unlocked; [by apply locked_named|]. rewrite <- Ht. apply Hu; [done|by eapply period_named_ne]. }
    split; rewrite ?Ep, ?Epol, ?Epay; try done.
    + intros c Hc. rewrite Ec. exists (if bool_decide (tc_id c = tc_id row) then f c else c). split.
      * apply list_elem_of_In, in_map_iff. exists c. split; [done|by apply list_elem_of_In].
      * case_bool_decide; [|done]. destruct (Hkeys c) as (? & _), (Hown c). done.
    + intros p Hp. exists p. split; [done|by apply advances_same].
    + intros p Hp Hl. split_and!; [| |unfold entriesOf; by rewrite Epay|done].
      * intros c Hc Ho. pose proof (Hnone p c Hp Hl Hc Ho) as Hne. split; [|by eapply breaksCorrected_other].
        rewrite Ec. apply list_elem_of_In, in_map_iff. exists c. rewrite bool_decide_false by done. split; [done|by apply list_elem_of_In].
      * intros c Hc Ho. rewrite Ec in Hc. apply list_elem_of_In, in_map_iff in Hc as (c0 & <- & Hc0%list_elem_of_In).
        case_bool_decide as E; [|done]. exfalso. rewrite (NoDup_map_inj tc_id _ c0 row (ck_ids _ Hk) Hc0 Hrow E) in *.
        destruct Ho as [Ht Hid]. rewrite (proj1 (Hown row)) in Ht. destruct Hper as [Hsame|Hopen].
        { rewrite Hsame in Hid. by apply (Hnone p row Hp Hl Hrow). }
        eapply locked_not_open; [exact Hpk|exact Hp|exact Hl|]. by apply Hopen.
Qed.

(** *** Adoption *)

(** What adoption makes of one card. *)
Definition adoptedCard (periodId : string) (adopted : list (TimeCard * Z)) (c : TimeCard) : TimeCard :=
  foldl (fun c (e : TimeCard * Z) => if bool_decide (tc_id c = tc_id e.1) then adoptCard periodId e.2 c else c) c adopted.

Lemma adoptedRows_map periodId adopted l : adoptedRows periodId adopted l = map (adoptedCard periodId adopted) l.
Proof.
  unfold adoptedRows, adoptedCard. revert l. induction adopted as [|e adopted IH]; intros l; cbn [foldl].
  - symmetry. apply map_id.
  - rewrite IH. unfold replaceRow. by rewrite map_map.
Qed.

(** The same card at a later revision. *)
Record laterRevision (c c' : TimeCard) : Prop := mkLaterRevision {
  lr_keys : tc_id c' = tc_id c /\ tc_publicId c' = tc_publicId c /\ tc_clockInOperationId c' = tc_clockInOperationId c;
  lr_owner : tc_tenantId c' = tc_tenantId c /\ tc_userId c' = tc_userId c;
  lr_times : tc_clockInAt c' = tc_clockInAt c /\ tc_clockOutAt c' = tc_clockOutAt c /\ tc_breakMinutes c' = tc_breakMinutes c;
  lr_state : tc_status c' = tc_status c /\ tc_deletedAt c' = tc_deletedAt c;
  lr_revision : tc_revision c <= tc_revision c';
}.

Lemma adoptedCard_later periodId adopted c :
  laterRevision c (adoptedCard periodId adopted c) /\
  (adoptedCard periodId adopted c = c \/
   tc_id c ∈ map (fun e : TimeCard * Z => tc_id e.1) adopted /\ tc_payrollPeriodId (adoptedCard periodId adopted c) = Some periodId).
Proof.
  unfold adoptedCard. induction adopted as [|e adopted IH] using rev_ind; [by repeat split; [..|left]|].
  rewrite foldl_app. cbn [foldl]. destruct IH as [IH1 IH2]. set (c1 := foldl _ c adopted) in *. rewrite map_app.
  case_bool_decide as E.
  - destruct IH1 as [(? & ? & ?) (? & ?) (? & ? & ?) (? & ?) ?]. split; [by split; cbn; [..|lia]|]. right. split; [|done].
    apply elem_of_app. right. apply list_elem_of_singleton. congruence.
  - split; [done|]. destruct IH2 as [?|[? ?]]; [by left|right]. split; [|done]. apply elem_of_app. by left.
Qed.

Lemma laterRevision_consistent c c' : laterRevision c c' -> cardConsistent c -> cardConsistent c'.
Proof.
  intros [_ _ (E1 & E2 & E3) (E4 & _) Hr] (? & ? & Hs). unfold cardConsistent. rewrite E1, E2, E3, E4. split; [done|]. split; [lia|done].
Qed.

Lemma map_keys_keyed db db' (f : TimeCard -> TimeCard) :
  (forall c, laterRevision c (f c)) -> db_timeCards db' = map f (db_timeCards db) -> cardsKeyed db -> cardsKeyed db'.
Proof.
  intros Hf E [H1 H2 H3].
  assert (Hmap : forall (B : Type) (g : TimeCard -> B), (forall c, g (f c) = g c) -> map g (db_timeCards db') = map g (db_timeCards db)).
  { intros B g Hg. rewrite E, map_map. by apply map_ext. }
  split.
  - rewrite Hmap; [done|]. intros c. apply (Hf c).
  - rewrite Hmap; [done|]. intros c. by destruct (Hf c) as [(? & ? & ?) _ _ _ _].
  - rewrite E. intros c d (c0 & -> & Hc)%list_elem_of_fmap (d0 & -> & Hd)%list_elem_of_fmap Hs Ho.
    destruct (Hf c0) as [(_ & _ & Ec) _ _ _ _], (Hf d0) as [(_ & _ & Ed) _ _ _ _]. rewrite Ec, Ed in *. by rewrite (H3 c0 d0).
Qed.

(** *** All steps *)

(** The tables of a database written explicitly. *)
Ltac tables db := destruct db as [? ? ? ? ? ? ? ? ? ? ? ? ? ? ? ? []]; cbn; rewrite ?app_nil_r; first [reflexivity | by apply prefix_app_r].

Lemma periods_stay (db db' : Db) : db_periods db' = db_periods db ->
  forall p, p ∈ db_periods db -> exists p', p' ∈ db_periods db' /\ advances p p'.
Proof. intros E p Hp. exists p. rewrite E. split; [done|by apply advances_same]. Qed.

Lemma nothing_new (db : Db) p : p ∈ db_periods db -> isLocked p ->
  (forall e, e ∈ [] -> entryOf p e = false) /\ forall m, m ∈ [] -> ~ amends (py_tenantId p) (py_id p) m.
Proof. intros _ _. split; [intros e ?%elem_of_nil|intros m ?%elem_of_nil]; done. Qed.

Section Grows.
Context `{LC : LocaleCompare, SH : Sha256}.

Lemma adopted_grows identity periodId cards request response db db' period adopted :
  keyed db -> CardsAdopted identity periodId cards request response db db' period adopted -> grows db db'.
Proof.
  intros (Hk & _ & Hpk) [(Hin & Hi & Ht) Hopen Hcards _ (a & _ & E)].
  assert (Ec : db_timeCards db' = map (adoptedCard periodId adopted) (db_timeCards db)) by (rewrite E, adoptedRows_map; by destruct db as [? ? ? ? ? ? ? ? ? ? ? ? ? ? ? ? []]).
  assert (Ep : db_periods db' = db_periods db) by (rewrite E; by destruct db as [? ? ? ? ? ? ? ? ? ? ? ? ? ? ? ? []]).
  assert (Hfree : forall c p, c ∈ db_timeCards db -> p ∈ db_periods db -> isLocked p -> cardOf p c -> adoptedCard periodId adopted c = c).
  { intros c p Hc Hp Hl [_ Hid]. destruct (adoptedCard_later periodId adopted c) as [_ [?|[Hm _]]]; [done|exfalso].
    apply list_elem_of_fmap in Hm as (e & Hide & He). rewrite Forall_forall in Hcards. destruct (Hcards e He) as (Hce & _ & Hnone & _).
    rewrite (NoDup_map_inj tc_id _ c e.1 (ck_ids _ Hk) Hc Hce Hide) in Hid. congruence. }
  split; try (rewrite E; by tables db).
  - intros c Hc. exists (adoptedCard periodId adopted c). rewrite Ec. split; [by apply list_elem_of_fmap_2|].
    destruct (adoptedCard_later periodId adopted c) as [[(? & _) (? & ?) _ _ _] _]. done.
  - by apply periods_stay.
  - intros p Hp Hl. split_and!.
    + intros c Hc Ho. unfold keepsCard. rewrite Ec. split; [|rewrite E; by destruct db as [? ? ? ? ? ? ? ? ? ? ? ? ? ? ? ? []]].
      apply list_elem_of_fmap. exists c. split; [symmetry; by eapply Hfree|done].
    + rewrite Ec. intros c (c0 & -> & Hc0)%list_elem_of_fmap [Htc Hid].
      destruct (adoptedCard_later periodId adopted c0) as [[_ (Ett & _) _ _ _] [Es|[_ Hnew]]]; [by rewrite Es|]. exfalso.
      rewrite Hid in Hnew. injection Hnew as Hnew.
      rewrite (period_same db period p Hpk Hin Hp ltac:(congruence)) in Hopen. unfold isLocked in Hl. congruence.
    + rewrite E. unfold entriesOf. by destruct db as [? ? ? ? ? ? ? ? ? ? ? ? ? ? ? ? []].
    + rewrite E. intros m. by destruct db as [? ? ? ? ? ? ? ? ? ? ? ? ? ? ? ? []].
Qed.

Lemma locked_grows identity periodId expectedRevision request db db' period readAt lockedAt updatedAt snapshot entries :
  periodsKeyed db ->
  PeriodLocked identity periodId expectedRevision request db db' period readAt lockedAt updatedAt snapshot entries -> grows db db'.
Proof.
  intros Hpk [(Hin & Hi & Ht) (Hst & Hrev) _ _ _ _ _ Honly _ _ _ (a & _ & _ & E)].
  apply (grows_keeping _ _ entries []); try (rewrite E; by tables db).
  - assert (Ep : db_periods db' = replaceRow py_id periodId (lockRow lockedAt (si_sub identity) request snapshot updatedAt) (db_periods db))
      by (rewrite E; by destruct db as [? ? ? ? ? ? ? ? ? ? ? ? ? ? ? ? []]).
    rewrite Ep. apply replaceRow_advances. intros p Hp Hid. rewrite (period_same db p period Hpk Hp Hin ltac:(congruence)).
    by apply advances_lock.
  - intros p Hp Hl. split; [|by intros m ?%elem_of_nil]. intros e He. destruct (Honly e He) as (_ & Hpe & _).
    unfold entryOf. apply andb_false_iff. right. apply bool_decide_eq_false. intros Heq.
    rewrite (period_same db p period Hpk Hp Hin ltac:(congruence)) in Hl. unfold isLocked in Hl. congruence.
Qed.

Lemma effect_grows db db' : keyed db -> payrollEffect db db' -> grows db db'.
Proof.
  intros Hkeyed He. pose proof Hkeyed as (Hk & _ & Hpk). destruct He as [He|? ? ? ? ? ? ? _ He|? ? ? ? ? ? ? ? ? _ _ He|
    ? ? ? ? ? period ? ? _ He|? ? ? ? ? ? ? _ He _|? ? ? ? ? ? approvals _ He|? ? ? ? ? ? ? ? ? ? He|? ? ? ? ? ? ? adjustment ? row He|
    ? ? ? ? ? ? ? ? He|E1 E2 E3 E4 E5].
  - by apply cardEffect_grows.
  - destruct He as [_ _ _ _ _ _ (a & _ & E)]. apply (grows_keeping _ _ [] []); try (rewrite E; by tables db); [|apply nothing_new].
    apply periods_stay. rewrite E. by tables db.
  - destruct He as [_ _ _ _ _ _ (a & _ & E)]. apply (grows_keeping _ _ [] []); try (rewrite E; by tables db); [|apply nothing_new].
    intros p Hp. exists p. split; [|by apply advances_same]. rewrite E. destruct db as [? ? ? ? ? ? ? ? ? ? ? ? ? ? ? ? []]. cbn in *. set_solver.
  - destruct He as [(Hin & Hi & Ht) (Hst & Hrev) _ (a & _ & E)]. apply (grows_keeping _ _ [] []); try (rewrite E; by tables db); [|apply nothing_new].
    match type of E with context [replaceRow py_id ?k ?f _] => assert (Ep : db_periods db' = replaceRow py_id k f (db_periods db))
      by (rewrite E; by tables db) end.
    rewrite Ep. apply replaceRow_advances. intros p Hp Hid. rewrite (period_same db p period Hpk Hp Hin ltac:(congruence)).
    by apply advances_review.
  - by eapply adopted_grows.
  - destruct He as [_ _ _ _ _ (a & _ & E)]. apply (grows_keeping _ _ [] []); try (rewrite E; by tables db); [|apply nothing_new].
    apply periods_stay. rewrite E. by tables db.
  - by eapply locked_grows.
  - destruct He as [_ _ (Hin & Hi & Ht & Hst) _ (id & pid & t & ->) _ (a & _ & E)].
    match type of E with context [_ ++ [?r]] => apply (grows_keeping _ _ [] [r]); try (rewrite E; by tables db) end.
    + apply periods_stay. rewrite E. by tables db.
    + intros p Hp Hl. split; [by intros e ?%elem_of_nil|]. intros m ->%list_elem_of_singleton [_ Ha]. cbn in Ha.
      rewrite (period_same db p adjustment Hpk Hp Hin ltac:(congruence)) in Hl. unfold isLocked in Hl. congruence.
  - destruct He as [_ _ _ _ _ _ (a & _ & E)]. apply (grows_keeping _ _ [] []); try (rewrite E; by tables db); [|apply nothing_new].
    apply periods_stay. rewrite E. by tables db.
  - apply (grows_keeping _ _ [] []); rewrite ?E5, ?E4, ?app_nil_r; try done; [by apply periods_stay|apply nothing_new].
Qed.
End Grows.

(** ** Which step writes which table *)

(** A table of the new database. *)
Ltac table_of db := 
  match goal with
  | He : cardEffect db _ |- _ => destruct He as [->|? _ _ _ _ _ ? ? ? _|? ? ? _ _ _ _ _ _ _ _ ? ? ? _]; congruence
  | He : _ |- _ => let E := fresh in written He E; rewrite E; by destruct db as [? ? ? ? ? ? ? ? ? ? ? ? ? ? ? ? []]
  | _ => congruence
  end.

Section Writers.
Context `{LC : LocaleCompare, SH : Sha256}.

Lemma policies_step db db' : payrollEffect db db' ->
  db_policies db' = db_policies db \/
  exists (HE : Env) identity policy request response latest row, pv_id row <> "" /\
    PolicyCreated identity policy request response db db' latest row /\ db_policies db' = db_policies db ++ [row].
Proof.
  intros []; try (left; table_of db). right. do 7 eexists. split; [done|]. split; [done|]. table_of db.
Qed.

Lemma periods_step db db' : payrollEffect db db' ->
  db_periods db' = db_periods db \/
  (exists (HE : Env) (HI : Intl) identity localStartDate request response policy boundaries row, py_id row <> "" /\
    PeriodCreated identity localStartDate request response db db' policy boundaries row /\ db_periods db' = db_periods db ++ [row]) \/
  (exists identity periodId expectedRevision request response period startedAt updatedAt,
    ReviewStarted identity periodId expectedRevision request response db db' period startedAt updatedAt /\
    db_periods db' = replaceRow py_id periodId (reviewPeriod startedAt (si_sub identity) updatedAt) (db_periods db)) \/
  (exists identity periodId expectedRevision request period readAt lockedAt updatedAt snapshot entries,
    PeriodLocked identity periodId expectedRevision request db db' period readAt lockedAt updatedAt snapshot entries /\
    db_periods db' = replaceRow py_id periodId (lockRow lockedAt (si_sub identity) request snapshot updatedAt) (db_periods db)).
Proof.
  intros []; try (left; table_of db); right; [left; do 9 eexists; split; [done|]|right; left; do 8 eexists|right; right; do 10 eexists];
    (split; [done|]); table_of db.
Qed.

Lemma approvals_step db db' : payrollEffect db db' ->
  pt_approvals (db_payroll db') = pt_approvals (db_payroll db) \/
  exists identity periodId decisions request response period approvals,
    CardsDecided identity periodId decisions request response db db' period approvals /\
    pt_approvals (db_payroll db') = pt_approvals (db_payroll db) ++ approvals.
Proof. intros []; try (left; table_of db). right. do 7 eexists. split; [done|]. table_of db. Qed.

Lemma entries_step db db' : payrollEffect db db' ->
  pt_entries (db_payroll db') = pt_entries (db_payroll db) \/
  exists identity periodId expectedRevision request period readAt lockedAt updatedAt snapshot entries,
    PeriodLocked identity periodId expectedRevision request db db' period readAt lockedAt updatedAt snapshot entries /\
    pt_entries (db_payroll db') = pt_entries (db_payroll db) ++ entries.
Proof. intros []; try (left; table_of db). right. do 10 eexists. split; [done|]. table_of db. Qed.

Lemma amendments_step db db' : payrollEffect db db' ->
  pt_amendments (db_payroll db') = pt_amendments (db_payroll db) \/
  exists identity entryId adjustmentPeriodId body r request entry adjustment source row,
    AmendmentRequested identity entryId adjustmentPeriodId body r request db db' entry adjustment source row /\
    pt_amendments (db_payroll db') = pt_amendments (db_payroll db) ++ [row].
Proof. intros []; try (left; table_of db). right. do 10 eexists. split; [done|]. table_of db. Qed.

Lemma decisions_step db db' : payrollEffect db db' ->
  pt_decisions (db_payroll db') = pt_decisions (db_payroll db) \/
  exists identity amendmentId body request amendment adjustment source row,
    AmendmentDecided identity amendmentId body request db db' amendment adjustment source row /\
    pt_decisions (db_payroll db') = pt_decisions (db_payroll db) ++ [row].
Proof. intros []; try (left; table_of db). right. do 8 eexists. split; [done|]. table_of db. Qed.

Lemma operations_step db db' : payrollEffect db db' ->
  pt_operations (db_payroll db') = pt_operations (db_payroll db) \/
  exists o, pt_operations (db_payroll db') = pt_operations (db_payroll db) ++ [o] /\
    forall old, old ∈ pt_operations (db_payroll db) -> po_operationId old <> po_operationId o.
Proof. intros []; try (left; table_of db); right; eexists; (split; [table_of db|done]). Qed.

Lemma cards_step db db' : payrollEffect db db' ->
  db_timeCards db' = db_timeCards db \/ cardEffect db db' \/
  exists identity periodId cards request response period adopted,
    CardsAdopted identity periodId cards request response db db' period adopted /\ cardsExclusive (db_timeCards db') = true /\
    db_timeCards db' = map (adoptedCard periodId adopted) (db_timeCards db).
Proof.
  intros []; try (left; table_of db); [by right; left|]. right. right. do 7 eexists. split; [done|]. split; [done|].
  rewrite <- adoptedRows_map. table_of db.
Qed.
End Writers.
