(* ===== verification/PayrollProtocol.v ===== *)
(** * Payroll stays sound

    The invariant of the payroll tables along every sequence of steps
    ([payrollStep]): the cards are consistent; policies follow one another;
    periods of a tenant do not meet and are open, in review or locked; a
    decision about a card is never its worker's own; a locked period pays each
    of its cards once, for the minutes worked, and its count, total and hash
    are those of its entries; an amendment is asked for and decided by people
    it does not pay. *)

From S2P Require Import Prelude JsStd JsCollections JsDate ContractHelpers TimeZone PayrollDates PayrollRecords.
From S2P Require Import Database FeatureEntitlement Authority ScheduleStore TimeCardPayroll TimeCardStore TimeCards.
From S2P Require Import TimeCardClockIn TimeCardOutcomes PayrollStore PayrollPolicies PayrollReview PayrollLock PayrollAmendments PayrollHistory.

(** ** The invariant *)

(** The revision of a period counts its moves; the columns of the lock are
    filled by the lock. *)
Inductive periodState (p : PayrollPeriodRow) : Prop :=
  | state_open : py_status p = "OPEN" -> py_revision p = 0 -> py_reviewStartedAt p = None -> py_lockedAt p = None ->
      py_lockedEntryCount p = None -> periodState p
  | state_review : py_status p = "REVIEW" -> py_revision p = 1 -> is_Some (py_reviewStartedAt p) -> py_lockedAt p = None ->
      py_lockedEntryCount p = None -> periodState p
  | state_locked : py_status p = "LOCKED" -> py_revision p = 2 -> is_Some (py_reviewStartedAt p) -> is_Some (py_lockedAt p) ->
      is_Some (py_lockedEntryCount p) -> periodState p.

(** The period was cut from a policy of its tenant. *)
Definition cutFrom (db : Db) (p : PayrollPeriodRow) : Prop :=
  exists v, v ∈ db_policies db /\ pv_id v = py_policyVersionId p /\ pv_tenantId v = py_tenantId p /\
    pv_timeZone v = py_timeZone p /\ pv_cadence v = py_cadence p.

(** The policies of each tenant are numbered from one and take over one from
    another, in one time zone, at later and later dates. *)
Record policyHistory (l : list PayrollPolicyVersion) : Prop := mkPolicyHistory {
  hi_sound : Forall policySound l;
  hi_unique : forall p q, p ∈ l -> q ∈ l -> pv_tenantId p = pv_tenantId q -> pv_version p = pv_version q -> p = q;
  hi_ordered : forall p q, p ∈ l -> q ∈ l -> pv_tenantId p = pv_tenantId q -> pv_version p < pv_version q ->
    pv_effectiveFrom p < pv_effectiveFrom q /\ pv_timeZone p = pv_timeZone q;
  hi_chained : forall q, q ∈ l -> pv_version q = 1 \/
    exists p, p ∈ l /\ pv_tenantId p = pv_tenantId q /\ 1 <= pv_version p /\ takesOver p q;
}.

(** Decided by someone other than the worker of the card. *)
Definition approvalSound (db : Db) (a : PayrollTimeCardApproval) : Prop :=
  exists c, c ∈ db_timeCards db /\ tc_id c = av_timeCardId a /\ tc_tenantId c = av_tenantId a /\ tc_userId c <> av_decidedByUserId a.

Definition approvalId (a : PayrollTimeCardApproval) : string * string * Z := (av_tenantId a, av_timeCardId a, av_timeCardRevision a).
Definition entryId (e : PayrollLockedEntry) : string * string * string := (pe_periodId e, pe_sourceType e, pe_sourceId e).

(** The entry belongs to a locked period. *)
Definition entryLocked (db : Db) (e : PayrollLockedEntry) : Prop :=
  exists p, p ∈ db_periods db /\ isLocked p /\ entryOf p e = true.

(** Asked for by someone it does not pay, for an entry of a locked period, to
    be paid in a period that begins after it. *)
Definition amendmentSound (db : Db) (m : PayrollAmendment) : Prop :=
  exists e source adjustment, e ∈ pt_entries (db_payroll db) /\ pe_id e = pm_lockedEntryId m /\ pe_tenantId e = pm_tenantId m /\
    pe_sourceType e = "TIME_CARD" /\ pe_employeeId e <> pm_requestedByUserId m /\
    pm_minuteDelta m = pm_replacementPayableMinutes m - pe_payableMinutes e /\
    source ∈ db_periods db /\ isLocked source /\ entryOf source e = true /\
    adjustment ∈ db_periods db /\ py_id adjustment = pm_adjustmentPeriodId m /\ py_tenantId adjustment = pm_tenantId m /\
    py_endsAt source <= py_startsAt adjustment.

(** Decided by someone who neither asked nor is paid. *)
Definition decisionSound (db : Db) (d : PayrollAmendmentDecision) : Prop :=
  exists m e, m ∈ pt_amendments (db_payroll db) /\ pm_id m = px_amendmentId d /\ pm_tenantId m = px_tenantId d /\
    pm_requestedByUserId m <> px_decidedByUserId d /\
    e ∈ pt_entries (db_payroll db) /\ pe_id e = pm_lockedEntryId m /\ pe_tenantId e = pm_tenantId m /\
    pe_employeeId e <> px_decidedByUserId d.

(** A locked period and what it pays. *)
Record PaidInFull `{LocaleCompare, Sha256} (db : Db) (p : PayrollPeriodRow) : Prop := mkPaidInFull {
  pf_totals : py_lockedEntryCount p = Some (Z.of_nat (length (entriesOf db p))) /\
    py_totalPayableMinutes p = Some (payTotal (entriesOf db p)) /\
    map pe_sequence (entriesOf db p) = map Z.of_nat (seq 0 (length (entriesOf db p)));
  pf_hash : exists h, py_lockedEntrySha256 p = Some h /\
    payrollLockAggregateSha256 (py_tenantId p) (py_id p) (map pe_canonicalSha256 (entriesOf db p)) (payTotal (entriesOf db p)) = Ok h;
  pf_cards : forall c, c ∈ db_timeCards db -> cardOf p c ->
    breaksSupport c (List.filter (breakNamed (py_tenantId p) (tc_id c)) (db_cardBreaks db)) /\
    exists e, e ∈ entriesOf db p /\ PaysCard (py_id p) db c e;
  pf_amendments : forall m, m ∈ pt_amendments (db_payroll db) -> amends (py_tenantId p) (py_id p) m ->
    exists d, d ∈ pt_decisions (db_payroll db) /\ px_tenantId d = py_tenantId p /\ px_amendmentId d = pm_id m /\
      (px_decision d = APPROVED_D -> exists e, e ∈ entriesOf db p /\ PaysAmendment db m e);
  pf_only : forall e, e ∈ entriesOf db p ->
    (exists c, c ∈ db_timeCards db /\ cardOf p c /\ PaysCard (py_id p) db c e) \/
    (exists m, m ∈ pt_amendments (db_payroll db) /\ amends (py_tenantId p) (py_id p) m /\ PaysAmendment db m e);
}.

(** Unique indexes of the payroll tables. *)
Record payrollKeys (db : Db) : Prop := mkPayrollKeys {
  pk_periods : periodsKeyed db;
  pk_operations : NoDup (map po_operationId (pt_operations (db_payroll db)));
  pk_approvals : NoDup (map approvalId (pt_approvals (db_payroll db)));
  pk_entries : NoDup (map entryId (pt_entries (db_payroll db)));
  pk_decisions : NoDup (map px_amendmentId (pt_decisions (db_payroll db)));
}.

Record payrollSound `{LocaleCompare, Sha256} (db : Db) : Prop := mkPayrollSound {
  ok_cards : consistent db;
  ok_keys : payrollKeys db;
  ok_policies : policyHistory (db_policies db);
  ok_periods : forall p, p ∈ db_periods db -> periodState p /\ cutFrom db p;
  ok_apart : forall p q, p ∈ db_periods db -> q ∈ db_periods db -> py_tenantId p = py_tenantId q -> p <> q ->
    windowsApart (periodWindow p) (periodWindow q);
  ok_approvals : Forall (approvalSound db) (pt_approvals (db_payroll db));
  ok_entries : Forall (entryLocked db) (pt_entries (db_payroll db));
  ok_paid : forall p, p ∈ db_periods db -> isLocked p -> PaidInFull db p;
  ok_amendments : Forall (amendmentSound db) (pt_amendments (db_payroll db));
  ok_decisions : Forall (decisionSound db) (pt_decisions (db_payroll db));
}.

(** ** What holds keeps holding *)

Lemma grows_period db db' p : grows db db' -> p ∈ db_periods db -> exists p', p' ∈ db_periods db' /\ samePeriod p p'.
Proof. intros Hg Hp. destruct (gr_periods _ _ Hg p Hp) as (p' & Hp' & Ha). exists p'. split; [done|by apply advances_samePeriod]. Qed.

Lemma grows_locked db db' p : grows db db' -> p ∈ db_periods db -> isLocked p -> p ∈ db_periods db'.
Proof. intros Hg Hp Hl. destruct (gr_periods _ _ Hg p Hp) as (p' & Hp' & Ha). by rewrite <- (advances_locked p p' Hl Ha). Qed.

Lemma approvalSound_grows db db' a : grows db db' -> approvalSound db a -> approvalSound db' a.
Proof.
  intros Hg (c & Hc & Hi & Ht & Hu). destruct (gr_cards _ _ Hg c Hc) as (c' & Hc' & Ei & Et & Eu). exists c'. split_and!; congruence || done.
Qed.

Lemma entryLocked_grows db db' e : grows db db' -> entryLocked db e -> entryLocked db' e.
Proof. intros Hg (p & Hp & Hl & He). exists p. split; [by eapply grows_locked|done]. Qed.

Lemma amendmentSound_grows db db' m : grows db db' -> amendmentSound db m -> amendmentSound db' m.
Proof.
  intros Hg (e & s & q & He & Hi & Ht & Hty & Hemp & Hd & Hs & Hsl & Hse & Hq & Hqi & Hqt & Hw).
  destruct (grows_period _ _ q Hg Hq) as (q' & Hq' & [(Ei & _ & Et) _ _ (Es & _)]).
  exists e, s, q'. split_and!; try done; [by eapply prefix_elem, He; apply Hg|by eapply grows_locked|congruence..].
Qed.

Lemma decisionSound_grows db db' d : grows db db' -> decisionSound db d -> decisionSound db' d.
Proof.
  intros Hg (m & e & Hm & Hi & Ht & Hr & He & Hei & Het & Hemp). exists m, e. split_and!; try done.
  - by eapply prefix_elem, Hm; apply Hg.
  - by eapply prefix_elem, He; apply Hg.
Qed.

Lemma cutFrom_grows db db' p p' : grows db db' -> samePeriod p p' -> cutFrom db p -> cutFrom db' p'.
Proof.
  intros Hg [(_ & _ & Et) (Ep & Ez & Ec) _ _] (v & Hv & ? & ? & ? & ?). exists v.
  split; [by eapply prefix_elem, Hv; apply Hg|]. split_and!; congruence.
Qed.

Lemma PaysCard_grows periodId db db' c e : grows db db' -> PaysCard periodId db c e -> PaysCard periodId db' c e.
Proof.
  intros Hg [? ? ? (a & Ha & Hrest)]. split; try done. exists a. split; [by eapply prefix_elem, Ha; apply Hg|done].
Qed.

Lemma PaysAmendment_grows db db' m e : grows db db' -> PaysAmendment db m e -> PaysAmendment db' m e.
Proof.
  intros Hg [? ? (o & Ho & Hrest) (d & Hd & Hrest')]. split; try done; [exists o|exists d]; (split; [|done]).
  - by eapply prefix_elem, Ho; apply Hg.
  - by eapply prefix_elem, Hd; apply Hg.
Qed.

Lemma breaks_named_kept tenantId c db db' :
  tc_tenantId c = tenantId -> keepsCard c db db' ->
  List.filter (breakNamed tenantId (tc_id c)) (db_cardBreaks db') = List.filter (breakNamed tenantId (tc_id c)) (db_cardBreaks db).
Proof.
  intros <- [_ Hb].
  assert (Hf : forall l, List.filter (breakNamed (tc_tenantId c) (tc_id c)) l = List.filter (breakOfCard c) l).
  { intros l. apply List.filter_ext. intros b. unfold breakNamed, breakOfCard. apply andb_comm. }
  by rewrite !Hf.
Qed.

Lemma PaidInFull_grows `{LocaleCompare, Sha256} db db' p :
  grows db db' -> p ∈ db_periods db -> isLocked p -> PaidInFull db p -> PaidInFull db' p.
Proof.
  intros Hg Hp Hl [Ht Hh Hc Ha Ho]. destruct (gr_frozen _ _ Hg p Hp Hl) as (Hkeep & Hback & Hent & Ham). split; rewrite ?Hent; try done.
  - intros c Hc' Hco. pose proof (Hback c Hc' Hco) as Hin. destruct (Hc c Hin Hco) as (Hb & e & He & Hpay).
    split; [rewrite (breaks_named_kept _ c db db'); [done|apply Hco|by apply Hkeep]|]. exists e. split; [done|by eapply PaysCard_grows].
  - intros m Hm Hma. destruct (Ha m (Ham m Hm Hma) Hma) as (d & Hd & ? & ? & Happ). exists d.
    split; [by eapply prefix_elem, Hd; apply Hg|]. split_and!; try done. intros Hdec. destruct (Happ Hdec) as (e & ? & ?).
    exists e. split; [done|by eapply PaysAmendment_grows].
  - intros e He. destruct (Ho e He) as [(c & Hcin & Hco & Hpay)|(m & Hm & Hma & Hpay)]; [left; exists c|right; exists m].
    + split; [by apply Hkeep|]. split; [done|by eapply PaysCard_grows].
    + split; [by eapply prefix_elem, Hm; apply Hg|]. split; [done|by eapply PaysAmendment_grows].
Qed.

(** ** Keys stay keys *)

Section Keys.
Context {R K : Type} `{Table R} (key : R -> K).
Hypothesis key_conflicts : forall x y, key x = key y -> conflicts x y = true.

Lemma create_keys r l : existsb (conflicts r) l = false -> NoDup (map key l) -> NoDup (map key (l ++ [r])).
Proof.
  intros Hf Hn. rewrite map_app. apply NoDup_snoc; [done|]. intros Hin%list_elem_of_In. apply in_map_iff in Hin as (x & Ex & Hx%list_elem_of_In).
  apply not_true_iff_false in Hf. apply Hf, existsb_exists. exists x. split; [by apply list_elem_of_In|]. by apply key_conflicts.
Qed.

Lemma insertAll_keys news : forall l k, insertAll news l = Some k -> NoDup (map key l) -> NoDup (map key k).
Proof.
  induction news as [|r news IH]; intros l k; cbn [insertAll]; [by intros [= <-]|].
  destruct (existsb _ _) eqn:E; [done|]. intros Hi Hn. by eapply IH, create_keys.
Qed.
End Keys.

Section Preserved.
Context `{LC : LocaleCompare, SH : Sha256}.

Lemma policiesKeyed_step db db' : payrollEffect db db' -> policiesKeyed db -> policiesKeyed db'.
Proof.
  intros [E|(HE & id & pol & rq & rs & la & row & Hne & He & E)]%policies_step [Hn Hf]; unfold policiesKeyed; rewrite E; [done|]. split.
  - apply (create_keys pv_id); [|apply He|done]. intros x y Exy. cbn [conflicts Table_Policy]. by rewrite (bool_decide_true (pv_id x = pv_id y)).
  - apply Forall_app. split; [done|]. by constructor.
Qed.

Lemma consistent_step db db' : payrollEffect db db' -> consistent db -> consistent db'.
Proof.
  intros He [Hk Hp Hc Hx]. pose proof (policiesKeyed_step _ _ He Hp) as Hp'.
  destruct (cards_step _ _ He) as [E|[Hce|(id & pid & cs & rq & rs & p & ad & Ha & Hx' & E)]].
  - destruct Hk as [H1 H2 H3]. split; [split|done|..]; by rewrite ?E.
  - by eapply effect_consistent.
  - split; [|done| |done].
    + eapply (map_keys_keyed _ _ (adoptedCard pid ad)); [|done|done]. intros c. apply adoptedCard_later.
    + rewrite E. apply Forall_fmap. eapply Forall_impl; [exact Hc|]. intros c Hcc. cbn.
      eapply laterRevision_consistent, Hcc. apply adoptedCard_later.
Qed.

Lemma periodsKeyed_step db db' : payrollEffect db db' -> periodsKeyed db -> periodsKeyed db'.
Proof.
  intros He [Hn Hf]. unfold periodsKeyed.
  assert (Hrep : forall k f, (forall p, py_id (f p) = py_id p) -> NoDup (map py_id (replaceRow py_id k f (db_periods db))) /\
    Forall (fun p => py_id p <> "") (replaceRow py_id k f (db_periods db))).
  { intros k f Hid. split; [by rewrite replaceRow_keys|]. apply Forall_forall. intros p Hp. rewrite Forall_forall in Hf.
    apply list_elem_of_In, in_map_iff in Hp as (q & <- & Hq%list_elem_of_In). case_bool_decide; rewrite ?Hid; by apply Hf. }
  destruct (periods_step _ _ He) as [E|[(HE & HI & id & d & rq & rs & pol & b & row & Hne & Hc & E)|[(id & pid & er & rq & rs & p & t & u & Hr & E)|
    (id & pid & er & rq & p & ra & t & u & sn & es & Hl & E)]]]; rewrite E; [done| |by apply Hrep..].
  split; [|apply Forall_app; split; [done|by constructor]].
  apply (create_keys py_id); [|apply Hc|done]. intros x y Exy. cbn [conflicts Table_Period]. by rewrite (bool_decide_true (py_id x = py_id y)).
Qed.

Lemma payrollKeys_step db db' : payrollEffect db db' -> payrollKeys db -> payrollKeys db'.
Proof.
  intros He [H1 H2 H3 H4 H5]. split.
  - by eapply periodsKeyed_step.
  - destruct (operations_step _ _ He) as [->|(o & -> & Ho)]; [done|]. rewrite map_app. apply NoDup_snoc; [done|].
    intros (o1 & Ex & Hx)%list_elem_of_fmap. by apply (Ho o1).
  - destruct (approvals_step _ _ He) as [->|(? & ? & ? & ? & ? & ? & aps & Hd & ->)]; [done|].
    eapply (insertAll_keys approvalId); [|apply (dc_fresh _ _ _ _ _ _ _ _ _ Hd)|done]. unfold approvalId. intros r1 r2 [= E1 E2 E3].
    cbn [conflicts Table_Approval]. rewrite (bool_decide_true (av_tenantId r1 = _)), (bool_decide_true (av_timeCardId r1 = _)),
      (bool_decide_true (av_timeCardRevision r1 = _)) by done. by rewrite !orb_true_r.
  - destruct (entries_step _ _ He) as [->|(? & ? & ? & ? & ? & ? & ? & ? & ? & es & Hl & ->)]; [done|].
    eapply (insertAll_keys entryId); [|apply (lk_fresh _ _ _ _ _ _ _ _ _ _ _ _ Hl)|done]. unfold entryId. intros r1 r2 [= E1 E2 E3].
    cbn [conflicts Table_Entry]. rewrite (bool_decide_true (pe_periodId r1 = _)), (bool_decide_true (pe_sourceType r1 = _)), (bool_decide_true (pe_sourceId r1 = _)) by done.
    by rewrite !orb_true_r.
  - destruct (decisions_step _ _ He) as [->|(? & ? & ? & ? & ? & ? & ? & row & Hd & ->)]; [done|].
    apply (create_keys px_amendmentId); [|apply Hd|done]. intros r1 r2 Exy. cbn [conflicts Table_Decision].
    by rewrite (bool_decide_true (px_amendmentId r1 = _)), !orb_true_r.
Qed.

(** ** Policies and periods *)

Lemma policyHistory_step db db' : payrollEffect db db' -> policyHistory (db_policies db) -> policyHistory (db_policies db').
Proof.
  intros [->|(HE & id & pol & rq & rs & latest & row & _ & Hc & ->)]%policies_step; [done|]. intros [Hs Hu Ho Hch].
  destruct Hc as [_ _ Hlatest (i & j & t & n & m & _ & _ & _ & _ & Erow) Hsound Hfollows _].
  assert (Et : pv_tenantId row = si_tenantId id) by by rewrite Erow.
  assert (Hpos : forall q, q ∈ db_policies db -> 1 <= pv_version q).
  { intros q Hq. destruct (Hch q Hq) as [->|(p & _ & _ & Hp & Hv & _)]; lia. }
  assert (Hnew : forall q, q ∈ db_policies db -> pv_tenantId q = pv_tenantId row ->
    pv_version q < pv_version row /\ pv_effectiveFrom q < pv_effectiveFrom row /\ pv_timeZone q = pv_timeZone row).
  { intros q Hq Hqt. destruct latest as [l|]; cbn in Hlatest; [|exfalso; apply (Hlatest q Hq); congruence].
    destruct Hlatest as (Hl & Hlt & Hmax). rewrite Forall_forall in Hs. specialize (Hmax q Hq ltac:(congruence)).
    destruct (Hfollows l eq_refl (Hs l Hl)) as (Hv & He & Hz & _). split; [lia|].
    destruct (decide (pv_version q = pv_version l)) as [Ev|Ev].
    - rewrite (Hu q l Hq Hl ltac:(congruence) Ev). done.
    - destruct (Ho q l Hq Hl ltac:(congruence) ltac:(lia)). split; [lia|congruence]. }
  split.
  - apply Forall_app. split; [done|]. by constructor.
  - intros p q [Hp| ->%list_elem_of_singleton]%elem_of_app [Hq| ->%list_elem_of_singleton]%elem_of_app Htt Hv; [by apply Hu| | |done].
    + destruct (Hnew p Hp Htt). lia.
    + destruct (Hnew q Hq ltac:(congruence)). lia.
  - intros p q [Hp| ->%list_elem_of_singleton]%elem_of_app [Hq| ->%list_elem_of_singleton]%elem_of_app Htt Hv; [by apply Ho| | |lia].
    + by destruct (Hnew p Hp Htt).
    + destruct (Hnew q Hq ltac:(congruence)). lia.
  - intros q [Hq| ->%list_elem_of_singleton]%elem_of_app.
    + destruct (Hch q Hq) as [?|(p & Hp & ?)]; [by left|right]. exists p. split; [set_solver|done].
    + destruct latest as [l|]; [right|left; by rewrite Erow]. destruct Hlatest as (Hl & Hlt & _). exists l. rewrite Forall_forall in Hs.
      split; [set_solver|]. split; [congruence|]. split; [by apply Hpos|]. by apply Hfollows; [|apply Hs].
Qed.

(** The period of a database after a change of one row. *)
Lemma replaced_period l k f p :
  p ∈ replaceRow py_id k f l -> exists q, q ∈ l /\ (p = q /\ py_id q <> k \/ p = f q /\ py_id q = k).
Proof.
  intros Hp. apply list_elem_of_In, in_map_iff in Hp as (q & <- & Hq%list_elem_of_In). exists q. split; [done|].
  case_bool_decide; [right|left]; done.
Qed.

Lemma periods_sound_step db db' :
  payrollEffect db db' -> keyed db -> (forall p, p ∈ db_periods db -> periodState p /\ cutFrom db p) ->
  forall p, p ∈ db_periods db' -> periodState p /\ cutFrom db' p.
Proof.
  intros He Hkeyed Hall p. pose proof (effect_grows _ _ Hkeyed He) as Hg. pose proof Hkeyed as (_ & _ & Hk).
  destruct (periods_step _ _ He) as [E|[(HE & HI & id & d & rq & rs & pol & b & row & Hne & Hc & E)|[(id & pid & er & rq & rs & q & t & u & Hr & E)|
    (id & pid & er & rq & q & ra & t & u & sn & es & Hl & E)]]]; rewrite E.
  - intros Hp. destruct (Hall p Hp) as [? ?]. split; [done|]. by eapply cutFrom_grows, H0; [|apply samePeriod_refl].
  - intros [Hp| ->%list_elem_of_singleton]%elem_of_app.
    + destruct (Hall p Hp) as [? ?]. split; [done|]. by eapply cutFrom_grows, H0; [|apply samePeriod_refl].
    + destruct Hc as [(date & _ & Hin & Ht & _) _ _ _ (i & j & at_ & s & e & _ & _ & ->) _ _]. split; [by apply state_open|].
      exists pol. split; [by eapply prefix_elem, Hin; apply Hg|]. done.
  - intros (q0 & Hq0 & [[-> _]|[-> Hid]])%replaced_period.
    + destruct (Hall q0 Hq0) as [? ?]. split; [done|]. by eapply cutFrom_grows, H0; [|apply samePeriod_refl].
    + destruct Hr as [(Hin & Hi & _) (Ho & _) _ _]. rewrite (period_same db q0 q Hk Hq0 Hin ltac:(congruence)).
      destruct (Hall q Hin) as [Hst Hcut]. split; [|by eapply cutFrom_grows, Hcut].
      destruct Hst as [? Er ? ? ?|? ? ? ? ?|? ? ? ? ?]; [|congruence..]. apply state_review; cbn; try done. by rewrite Er.
  - intros (q0 & Hq0 & [[-> _]|[-> Hid]])%replaced_period.
    + destruct (Hall q0 Hq0) as [? ?]. split; [done|]. by eapply cutFrom_grows, H0; [|apply samePeriod_refl].
    + destruct Hl as [(Hin & Hi & _) (Ho & _) _ _ _ _ _ _ _ _ _]. rewrite (period_same db q0 q Hk Hq0 Hin ltac:(congruence)).
      destruct (Hall q Hin) as [Hst Hcut]. split; [|by eapply cutFrom_grows, Hcut].
      destruct Hst as [? ? ? ? ?|? Er ? ? ?|? ? ? ? ?]; [congruence| |congruence]. apply state_locked; cbn; try done. by rewrite Er.
Qed.

Lemma apart_step db db' :
  payrollEffect db db' -> keyed db ->
  (forall p q, p ∈ db_periods db -> q ∈ db_periods db -> py_tenantId p = py_tenantId q -> p <> q ->
     windowsApart (periodWindow p) (periodWindow q)) ->
  forall p q, p ∈ db_periods db' -> q ∈ db_periods db' -> py_tenantId p = py_tenantId q -> p <> q ->
    windowsApart (periodWindow p) (periodWindow q).
Proof.
  intros He (_ & _ & Hk) Hall.
  assert (Hrep : forall k f, (forall p, py_tenantId (f p) = py_tenantId p /\ periodWindow (f p) = periodWindow p) ->
    forall p q, p ∈ replaceRow py_id k f (db_periods db) -> q ∈ replaceRow py_id k f (db_periods db) ->
      py_tenantId p = py_tenantId q -> p <> q -> windowsApart (periodWindow p) (periodWindow q)).
  { intros k f Hf p q (p0 & Hp0 & Hpp)%replaced_period (q0 & Hq0 & Hqq)%replaced_period Ht Hne.
    destruct (Hf p0) as [Et0 Ew0], (Hf q0) as [Et1 Ew1].
    destruct (decide (py_id p0 = py_id q0)) as [Heq|Hne0].
    - exfalso. rewrite (period_same db p0 q0 Hk Hp0 Hq0 Heq) in *. destruct Hpp as [[-> ?]|[-> ?]], Hqq as [[-> ?]|[-> ?]]; congruence.
    - destruct Hpp as [[-> _]|[-> _]], Hqq as [[-> _]|[-> _]]; rewrite ?Ew0, ?Ew1; apply Hall; congruence. }
  destruct (periods_step _ _ He) as [E|[(HE & HI & id & d & rq & rs & pol & b & row & Hne & Hc & E)|[(id & pid & er & rq & rs & q & t & u & Hr & E)|
    (id & pid & er & rq & q & ra & t & u & sn & es & Hl & E)]]]; rewrite E; [done| |by apply Hrep..].
  assert (Hrow : forall p, p ∈ db_periods db -> py_tenantId p = py_tenantId row -> windowsApart (periodWindow p) (periodWindow row)).
  { intros p Hp Ht. apply (pd_apart _ _ _ _ _ _ _ _ _ Hc p Hp). rewrite Ht.
    by destruct (pd_row _ _ _ _ _ _ _ _ _ Hc) as (? & ? & ? & ? & ? & _ & _ & ->). }
  intros p q [Hp| ->%list_elem_of_singleton]%elem_of_app [Hq| ->%list_elem_of_singleton]%elem_of_app Htt Hpq; [by apply Hall|by apply Hrow| |done].
  symmetry. by apply Hrow.
Qed.

(** ** Decisions about cards *)

Lemma approvals_sound_step db db' :
  payrollEffect db db' -> keyed db -> Forall (approvalSound db) (pt_approvals (db_payroll db)) ->
  Forall (approvalSound db') (pt_approvals (db_payroll db')).
Proof.
  intros He Hkeyed Hall. pose proof (effect_grows _ _ Hkeyed He) as Hg.
  assert (Hold : Forall (approvalSound db') (pt_approvals (db_payroll db))).
  { eapply Forall_impl; [exact Hall|]. intros a. by apply approvalSound_grows. }
  destruct (approvals_step _ _ He) as [->|(id & pid & ds & rq & rs & p & aps & Hd & ->)]; [done|]. apply Forall_app. split; [done|].
  apply Forall_forall. intros a Ha. apply (approvalSound_grows db db' a Hg).
  destruct Hd as [_ _ Haps Hcards _ _]. destruct (Forall2_elem_r _ _ _ _ Haps Ha) as (d & Hd & i & t & ->).
  rewrite Forall_forall in Hcards. destruct (Hcards d Hd) as (c & ? & ? & ? & _ & _ & _ & _ & ?). by exists c.
Qed.

(** ** Entries *)

(** The row of the period a lock wrote. *)
Lemma locked_row identity periodId expectedRevision request db db' period readAt lockedAt updatedAt snapshot entries :
  PeriodLocked identity periodId expectedRevision request db db' period readAt lockedAt updatedAt snapshot entries ->
  db_periods db' = replaceRow py_id periodId (lockRow lockedAt (si_sub identity) request snapshot updatedAt) (db_periods db) ->
  lockRow lockedAt (si_sub identity) request snapshot updatedAt period ∈ db_periods db'.
Proof. intros [(Hin & Hi & _) _ _ _ _ _ _ _ _ _ _ _] ->. by apply replaceRow_elem. Qed.

Lemma entries_locked_step db db' :
  payrollEffect db db' -> keyed db -> Forall (entryLocked db) (pt_entries (db_payroll db)) ->
  Forall (entryLocked db') (pt_entries (db_payroll db')).
Proof.
  intros He Hkeyed Hall. pose proof (effect_grows _ _ Hkeyed He) as Hg.
  assert (Hold : Forall (entryLocked db') (pt_entries (db_payroll db))).
  { eapply Forall_impl; [exact Hall|]. intros e. by apply entryLocked_grows. }
  destruct (entries_step _ _ He) as [->|(id & pid & er & rq & p & ra & t & u & sn & es & Hl & ->)]; [done|]. apply Forall_app. split; [done|].
  apply Forall_forall. intros e Hin. exists (lockRow t (si_sub id) rq sn u p).
  split; [|split; [done|]].
  - eapply locked_row; [exact Hl|]. written Hl E. rewrite E. by destruct db as [? ? ? ? ? ? ? ? ? ? ? ? ? ? ? ? []].
  - destruct (lk_only _ _ _ _ _ _ _ _ _ _ _ _ Hl e Hin) as (Ht & Hp & _). destruct (lk_period _ _ _ _ _ _ _ _ _ _ _ _ Hl) as (_ & Hi & Htp).
    unfold entryOf. cbn. by rewrite !bool_decide_true by congruence.
Qed.

(** A period that is not locked has no entries. *)
Lemma no_entries db p :
  periodsKeyed db -> Forall (entryLocked db) (pt_entries (db_payroll db)) -> p ∈ db_periods db -> ~ isLocked p -> entriesOf db p = [].
Proof.
  intros Hk Hall Hp Hl. unfold entriesOf. rewrite Forall_forall in Hall.
  destruct (List.filter (entryOf p) (pt_entries (db_payroll db))) as [|e l] eqn:E; [done|exfalso].
  assert (Hin : In e (List.filter (entryOf p) (pt_entries (db_payroll db)))) by (rewrite E; by left).
  apply filter_In in Hin as [Hin%list_elem_of_In Ho]. destruct (Hall e Hin) as (q & Hq & Hql & Hqo).
  unfold entryOf in Ho, Hqo. rewrite !andb_true_iff, !bool_decide_eq_true in Ho, Hqo.
  rewrite (period_same db q p Hk Hq Hp) in Hql; [done|]. destruct Ho, Hqo. congruence.
Qed.

(** The lock pays its period. *)
Lemma lock_pays identity periodId expectedRevision request db db' period readAt lockedAt updatedAt snapshot entries :
  periodsKeyed db -> Forall (entryLocked db) (pt_entries (db_payroll db)) -> grows db db' ->
  PeriodLocked identity periodId expectedRevision request db db' period readAt lockedAt updatedAt snapshot entries ->
  PaidInFull db' (lockRow lockedAt (si_sub identity) request snapshot updatedAt period).
Proof.
  intros Hk Hent Hg Hl. set (p' := lockRow _ _ _ _ _ _).
  pose proof Hl as [(Hin & Hi & Ht) (Hst & _) _ _ Hbreaks Hpays Ham Honly _ Hseq (Hlen & Htot & Hhash) (a & _ & _ & E)].
  assert (Hof : forall e, e ∈ entries -> entryOf p' e = true).
  { intros e He. destruct (Honly e He) as (? & ? & _). unfold entryOf. cbn. by rewrite !bool_decide_true by congruence. }
  assert (Hnew : entriesOf db' p' = entries).
  { unfold entriesOf. assert (Ee : pt_entries (db_payroll db') = pt_entries (db_payroll db) ++ entries)
      by (rewrite E; by destruct db as [? ? ? ? ? ? ? ? ? ? ? ? ? ? ? ? []]).
    rewrite Ee, List.filter_app, (filter_all _ entries) by done.
    change (entriesOf db period ++ entries = entries). rewrite no_entries; [done..|]. unfold isLocked. by rewrite Hst. }
  assert (Hc : db_timeCards db' = db_timeCards db /\ db_cardBreaks db' = db_cardBreaks db /\
    pt_amendments (db_payroll db') = pt_amendments (db_payroll db) /\ pt_decisions (db_payroll db') = pt_decisions (db_payroll db))
    by (rewrite E; by destruct db as [? ? ? ? ? ? ? ? ? ? ? ? ? ? ? ? []]).
  destruct Hc as (Ec & Eb & Eam & Ed).
  assert (Hcard : forall c, cardOf p' c <-> assignedTo (si_tenantId identity) periodId c).
  { intros c. unfold cardOf. cbn. by rewrite Hi, Ht. }
  assert (Hamd : forall m, amends (py_tenantId p') (py_id p') m <-> amends (si_tenantId identity) periodId m).
  { intros m. cbn. by rewrite Hi, Ht. }
  assert (Eid : py_id p' = periodId) by (cbn; exact Hi). assert (Ett : py_tenantId p' = si_tenantId identity) by (cbn; exact Ht).
  split; rewrite ?Hnew.
  - cbn. rewrite Hlen, Htot. done.
  - exists (sn_aggregateSha256 snapshot). split; [done|]. by rewrite Eid, Ett.
  - rewrite Ec, Eb, Eid, Ett. intros c Hcin Hco%Hcard. split; [by apply Hbreaks|]. destruct (Hpays c Hcin Hco) as (e & He & Hpay). exists e.
    split; [done|by eapply PaysCard_grows].
  - rewrite Eam, Ed. intros m Hm Hma%Hamd. rewrite Ett. destruct (Ham m Hm Hma) as (d & ? & ? & ? & Happ). exists d. split_and!; try done.
    intros Hdec. destruct (Happ Hdec) as (e & ? & ?). exists e. split; [done|by eapply PaysAmendment_grows].
  - rewrite Ec, Eam, Eid, Ett. intros e He. destruct (Honly e He) as (_ & _ & [(c & ? & ? & ?)|(m & ? & ? & ?)]); [left; exists c|right; exists m].
    + split; [done|]. split; [by apply Hcard|by eapply PaysCard_grows].
    + split; [done|]. split; [done|by eapply PaysAmendment_grows].
Qed.

Lemma paid_step db db' :
  payrollEffect db db' -> keyed db -> Forall (entryLocked db) (pt_entries (db_payroll db)) ->
  (forall p, p ∈ db_periods db -> isLocked p -> PaidInFull db p) ->
  forall p, p ∈ db_periods db' -> isLocked p -> PaidInFull db' p.
Proof.
  intros He Hkeyed Hent Hall p. pose proof (effect_grows _ _ Hkeyed He) as Hg. pose proof Hkeyed as (_ & _ & Hk).
  destruct (periods_step _ _ He) as [E|[(HE & HI & id & d & rq & rs & pol & b & row & Hne & Hc & E)|[(id & pid & er & rq & rs & q & t & u & Hr & E)|
    (id & pid & er & rq & q & ra & t & u & sn & es & Hl & E)]]]; rewrite E.
  - intros Hp Hlo. eapply PaidInFull_grows; [done..|by apply Hall].
  - intros [Hp| ->%list_elem_of_singleton]%elem_of_app Hlo; [eapply PaidInFull_grows; [done..|by apply Hall]|exfalso].
    destruct (pd_row _ _ _ _ _ _ _ _ _ Hc) as (? & ? & ? & ? & ? & _ & _ & ->). done.
  - intros (q0 & Hq0 & [[-> _]|[-> _]])%replaced_period Hlo; [eapply PaidInFull_grows; [done..|by apply Hall]|done].
  - intros (q0 & Hq0 & [[-> _]|[-> Hid]])%replaced_period Hlo; [eapply PaidInFull_grows; [done..|by apply Hall]|].
    destruct (lk_period _ _ _ _ _ _ _ _ _ _ _ _ Hl) as (Hin & Hi & _). rewrite (period_same db q0 q Hk Hq0 Hin ltac:(congruence)).
    by eapply lock_pays.
Qed.

(** ** Amendments *)

Lemma amendments_sound_step db db' :
  payrollEffect db db' -> keyed db -> Forall (entryLocked db) (pt_entries (db_payroll db)) ->
  Forall (amendmentSound db) (pt_amendments (db_payroll db)) -> Forall (amendmentSound db') (pt_amendments (db_payroll db')).
Proof.
  intros He Hkeyed Hent Hall. pose proof (effect_grows _ _ Hkeyed He) as Hg. pose proof Hkeyed as (_ & _ & Hk).
  assert (Hold : Forall (amendmentSound db') (pt_amendments (db_payroll db))).
  { eapply Forall_impl; [exact Hall|]. intros m. by apply amendmentSound_grows. }
  destruct (amendments_step _ _ He) as [->|(id & eid & aid & b & r & rq & e & adj & src & row & Ha & ->)]; [done|].
  apply Forall_app. split; [done|]. apply Forall_singleton, (amendmentSound_grows db db' _ Hg).
  destruct Ha as [_ (Hin & Hei & Het & Hty & Hemp) (Hadj & Hai & Hat & _) (Hsrc & Hsi & Hst & Hord) (i & j & t & ->) _ _].
  rewrite Forall_forall in Hent. destruct (Hent e Hin) as (q & Hq & Hql & Hqo). pose proof Hqo as Hqo'.
  unfold entryOf in Hqo'. rewrite andb_true_iff, !bool_decide_eq_true in Hqo'. destruct Hqo' as [_ Hqi].
  rewrite (period_same db q src Hk Hq Hsrc ltac:(congruence)) in *. exists e, src, adj. by split_and!.
Qed.

Lemma decisions_sound_step db db' :
  payrollEffect db db' -> keyed db -> Forall (decisionSound db) (pt_decisions (db_payroll db)) ->
  Forall (decisionSound db') (pt_decisions (db_payroll db')).
Proof.
  intros He Hkeyed Hall. pose proof (effect_grows _ _ Hkeyed He) as Hg.
  assert (Hold : Forall (decisionSound db') (pt_decisions (db_payroll db))).
  { eapply Forall_impl; [exact Hall|]. intros d. by apply decisionSound_grows. }
  destruct (decisions_step _ _ He) as [->|(id & aid & b & rq & m & adj & e & row & Hd & ->)]; [done|].
  apply Forall_app. split; [done|]. apply Forall_singleton, (decisionSound_grows db db' _ Hg).
  destruct Hd as [_ (Hm & Hmi & Hmt & Hreq) _ (He' & Hei & Het & Hemp) (i & t & ->) _ _]. exists m, e. by split_and!; congruence || done.
Qed.

Lemma effect_sound db db' : payrollSound db -> payrollEffect db db' -> payrollSound db'.
Proof.
  intros [Hc Hk Hpol Hper Hap Happ Hent Hpaid Ham Hdec] He.
  assert (Hkeyed : keyed db) by (split; [apply Hc|split; [apply Hc|apply Hk]]). split.
  - by eapply consistent_step.
  - by eapply payrollKeys_step.
  - by eapply policyHistory_step.
  - by eapply periods_sound_step.
  - by eapply apart_step.
  - by eapply approvals_sound_step.
  - by eapply entries_locked_step.
  - by eapply paid_step.
  - by eapply amendments_sound_step.
  - by eapply decisions_sound_step.
Qed.
Lemma sound_keyed db : payrollSound db -> keyed db.
Proof. intros Hs. split; [apply Hs|split; [apply Hs|apply Hs]]. Qed.

End Preserved.
