(* ===== verification/PayrollOutcomes.v ===== *)
(** * Properties of payroll

    What the invariant and the history of the payroll tables say of each
    period, decision and answer, what the handlers do in one run, and concrete
    runs of a small payroll. *)

From S2P Require Import Prelude JsStd JsCollections JsDate ContractHelpers TimeZone PayrollDates PayrollRecords.
From S2P Require Import Database FeatureEntitlement Authority ScheduleStore TimeCardValidation TimeCardPayroll TimeCardStore TimeCards.
From S2P Require Import TimeCardClockIn TimeCardOutcomes PayrollStore PayrollPolicies PayrollReview PayrollLock PayrollAmendments.
From S2P Require Import PayrollHistory PayrollProtocol.

(** ** Requests whose answers are recorded *)

Inductive PayrollCall :=
  | CreatePeriod (localStartDate : string)
  | StartReview (publicPeriodId : string) (expectedRevision : Z)
  | AdoptCards (publicPeriodId : string) (cards : list AdoptedCard)
  | DecideCards (publicPeriodId : string) (decisions : list CardDecision).

Definition callOperation (call : PayrollCall) : PayrollOperationName :=
  match call with
  | CreatePeriod _ => PERIOD_CREATE
  | StartReview _ _ => REVIEW
  | AdoptCards _ _ => ADOPT
  | DecideCards _ _ => APPROVAL
  end.

Definition runCall `{Env, AuthorityEnv, CommitEnv, Collation, Intl, LocaleCompare, Sha256} (identity : SessionIdentity)
    (call : PayrollCall) (key : option string) : Tx Json :=
  match call with
  | CreatePeriod localStartDate => createPeriod identity localStartDate key
  | StartReview publicPeriodId expectedRevision => startReview identity publicPeriodId expectedRevision key
  | AdoptCards publicPeriodId cards => adoptCards identity publicPeriodId cards key
  | DecideCards publicPeriodId decisions => decideCards identity publicPeriodId decisions key
  end.

(** The operation of a request, which its body does not enter. *)
Definition operationOf `{LocaleCompare, Sha256} (identity : SessionIdentity) (operation : PayrollOperationName) (key : string) : string :=
  (requestOf identity operation key JNull).1.

(** An answer is on record. *)
Definition onRecord (operationId : string) (response : Json) (db : Db) : Prop :=
  exists o, o ∈ pt_operations (db_payroll db) /\ po_operationId o = operationId /\ po_response o = response.

Lemma answered_record request tenantId periodId kind action response db0 db' :
  answered request tenantId periodId kind action response db0 db' -> onRecord request.1 response db'.
Proof.
  intros (a & _ & ->). exists (operationRow request tenantId periodId kind response). split; [|done].
  destruct db0 as [? ? ? ? ? ? ? ? ? ? ? ? ? ? ? ? []]. cbn. set_solver.
Qed.

Section Steps.
Context `{Coll : Collation, LC : LocaleCompare, SH : Sha256}.

Lemma steps_sound db db' : rtc payrollStep db db' -> payrollSound db -> payrollSound db' /\ grows db db'.
Proof.
  induction 1 as [db|db1 db2 db3 Hs _ IH]; intros Hsound; [by split|].
  pose proof (payrollStep_effect _ _ (sound_keyed _ Hsound) Hs) as He.
  destruct (IH (effect_sound _ _ Hsound He)) as [Hs3 Hg]. split; [done|]. etrans; [|exact Hg].
  by apply effect_grows; [apply sound_keyed|].
Qed.

(** ** The properties *)

(** C2: Along any sequence of clock-ins, clock-outs, corrections, policies,
    periods, reviews, adoptions, decisions, locks and amendments, in any
    environment and whether or not their answers arrived, a locked period pays
    exactly its cards: each card assigned to it has exactly one entry, which
    pays its current revision for the minutes worked less its breaks, approved
    by someone other than its worker; every amendment for the period is decided,
    and paid when approved; there is no other entry; and the stored count, total
    and aggregate hash are those of the entries. *)
Theorem locked_period_pays db db' p :
  rtc payrollStep db db' -> payrollSound db -> p ∈ db_periods db' -> py_status p = "LOCKED" ->
  PaidInFull db' p /\
  forall c, c ∈ db_timeCards db' -> cardOf p c ->
    exists e, e ∈ entriesOf db' p /\ PaysCard (py_id p) db' c e /\ pe_approvedByUserId e <> tc_userId c /\
      forall e', e' ∈ entriesOf db' p -> pe_sourceType e' = "TIME_CARD" -> pe_sourceId e' = tc_id c -> e' = e.
Proof.
  intros Hr Hs Hp Hl. destruct (steps_sound _ _ Hr Hs) as [Hs' _]. pose proof (ok_paid _ Hs' p Hp Hl) as Hpaid. split; [done|].
  intros c Hc Ho. destruct (pf_cards _ _ Hpaid c Hc Ho) as (_ & e & He & Hpay). exists e. split; [done|]. split; [done|].
  destruct Hpay as [(Hty & Hid & _) _ _ (a & Ha & _ & _ & Hac & _ & _ & _ & Hby)]. split.
  - rewrite Hby. pose proof (ok_approvals _ Hs') as Happ. rewrite Forall_forall in Happ. destruct (Happ a Ha) as (c' & Hc' & Hci & _ & Hne).
    rewrite (NoDup_map_inj tc_id _ c c' (ck_ids _ (cs_keyed _ (ok_cards _ Hs'))) Hc Hc' ltac:(congruence)). congruence.
  - intros e' He' Hty' Hid'. unfold entriesOf in He, He'. apply list_elem_of_In, filter_In in He as [He%list_elem_of_In Hof], He' as [He'%list_elem_of_In Hof'].
    unfold entryOf in Hof, Hof'. rewrite andb_true_iff, !bool_decide_eq_true in Hof, Hof'.
    apply (NoDup_map_inj entryId _ e' e (pk_entries _ (ok_keys _ Hs')) He' He). unfold entryId. destruct Hof, Hof'. congruence.
Qed.

(** C9: Payroll is never rewritten: along any such sequence policies,
    approvals, entries, amendments, decisions and recorded answers are only
    appended, every period keeps its identity, policy and window and moves only
    from open to review to locked, and once it is locked its row, its entries,
    its cards and their breaks stay as they are and no card joins it. *)
Theorem payroll_history db db' : rtc payrollStep db db' -> payrollSound db -> grows db db'.
Proof. intros Hr Hs. by apply steps_sound. Qed.

(** C15: Along any such sequence the periods of a tenant never meet, each is
    open, in review or locked with the revision that counts its moves, and was
    cut from a policy of its tenant in the same zone and cadence; the policies
    of a tenant are numbered from one without gaps, each taking over from the one
    before on a period boundary at a later date, all in one time zone. *)
Theorem payroll_calendar_sound db db' :
  rtc payrollStep db db' -> payrollSound db ->
  (forall p q, p ∈ db_periods db' -> q ∈ db_periods db' -> py_tenantId p = py_tenantId q -> p <> q ->
     windowsApart (periodWindow p) (periodWindow q)) /\
  (forall p, p ∈ db_periods db' -> periodState p /\ cutFrom db' p) /\
  policyHistory (db_policies db').
Proof. intros Hr Hs. destruct (steps_sound _ _ Hr Hs) as [Hs' _]. split; [apply Hs'|]. split; [apply Hs'|apply Hs']. Qed.

(** C10: Along any such sequence nobody decides about their own pay: a decision
    about a revision of a card is made once and not by its worker, an amendment
    is not asked for by the employee of the entry it amends, and it is decided
    once, by neither that employee nor whoever asked. *)
Theorem nobody_decides_own_pay db db' :
  rtc payrollStep db db' -> payrollSound db ->
  (forall a, a ∈ pt_approvals (db_payroll db') ->
     approvalSound db' a /\ forall b, b ∈ pt_approvals (db_payroll db') -> approvalId b = approvalId a -> b = a) /\
  (forall m, m ∈ pt_amendments (db_payroll db') -> amendmentSound db' m) /\
  (forall d, d ∈ pt_decisions (db_payroll db') ->
     decisionSound db' d /\ forall b, b ∈ pt_decisions (db_payroll db') -> px_amendmentId b = px_amendmentId d -> b = d).
Proof.
  intros Hr Hs. destruct (steps_sound _ _ Hr Hs) as [Hs' _]. pose proof (ok_approvals _ Hs') as Ha. pose proof (ok_amendments _ Hs') as Hm.
  pose proof (ok_decisions _ Hs') as Hd. rewrite Forall_forall in Ha. rewrite Forall_forall in Hm. rewrite Forall_forall in Hd. split; [|split; [exact Hm|]].
  - intros a Hin. split; [by apply Ha|]. intros b Hb E. by apply (NoDup_map_inj approvalId _ b a (pk_approvals _ (ok_keys _ Hs'))).
  - intros d Hin. split; [by apply Hd|]. intros b Hb E. by apply (NoDup_map_inj px_amendmentId _ b d (pk_decisions _ (ok_keys _ Hs'))).
Qed.

(** C32: A lock that returned either found the period locked by this very
    request and changed nothing, or locked it: the period was in review, ended
    and as the request expected, every card that touches it could be paid in it,
    the breaks of its cards supported their break minutes, and exactly the
    entries of its approved cards and amendments were written, numbered from
    zero, with one audit row. *)
Theorem lockPeriod_locks `{Env, AuthorityEnv, CommitEnv, Intl} identity publicPeriodId expectedRevision key w r w' :
  payrollSound (w_db w) -> lockPeriod identity publicPeriodId expectedRevision key w = (Ok r, w') ->
  exists periodId idempotencyKey, normalizeIdempotencyKey key = Ok idempotencyKey /\
    LockCommitted (operationsIdentity identity) periodId expectedRevision
      (requestOf identity LOCK idempotencyKey (JObj [jText "periodId" periodId; jInt "expectedRevision" expectedRevision]))
      (w_db w) (w_db w').
Proof.
  intros Hs Hr. destruct (sound_keyed _ Hs) as (Hk & _ & Hpk).
  destruct (lockPeriod_outcome_Ok (w_db w) identity publicPeriodId expectedRevision key Hpk (ck_ids _ Hk) w _ w' eq_refl Hr)
    as [[_ [e [=]]]|(a & Hc & _)]. exact Hc.
Qed.

(** A batch of decisions that returned either replayed its recorded answer
    or recorded, in a period under review, exactly one decision for each card
    named, at the revision named, none of them decided before and none of them
    the actor's own card. *)
Theorem decideCards_decides `{Env, AuthorityEnv, CommitEnv} identity publicPeriodId decisions key w r w' :
  payrollSound (w_db w) -> decideCards identity publicPeriodId decisions key w = (Ok r, w') ->
  exists periodId resolved idempotencyKey, normalizeIdempotencyKey key = Ok idempotencyKey /\
    let request := requestOf identity APPROVAL idempotencyKey (decisionsBody periodId resolved) in
    Recorded request (fun response db' => exists period approvals,
      CardsDecided (operationsIdentity identity) periodId resolved request response (w_db w) db' period approvals)
      (w_db w) r (w_db w').
Proof.
  intros Hs Hr. destruct (sound_keyed _ Hs) as (Hk & _ & _).
  destruct (decideCards_outcome_Ok (w_db w) identity publicPeriodId decisions key Hk w _ w' eq_refl Hr)
    as [[_ [e [=]]]|(a & Hc & [[= <-]|[e [=]]])]. exact Hc.
Qed.

(** A request for an amendment that returned either found its row or
    appended it: for an entry of a time card, of another employee, in an open
    period that begins after the entry's period ends, for the difference between
    the minutes of the replacement and the minutes paid. *)
Theorem createAmendment_requests `{Env, AuthorityEnv, CommitEnv} identity publicEntryId body key w r w' :
  createAmendment identity publicEntryId body key w = (Ok r, w') ->
  exists entryId adjustmentPeriodId replacement idempotencyKey,
    readReplacement body = Ok replacement /\ normalizeIdempotencyKey key = Ok idempotencyKey /\
    AmendmentCommitted (operationsIdentity identity) entryId adjustmentPeriodId body replacement
      (requestOf identity AMENDMENT_CREATE idempotencyKey (amendmentBody entryId adjustmentPeriodId body replacement)) (w_db w) (w_db w').
Proof.
  intros Hr. destruct (createAmendment_outcome_Ok (w_db w) identity publicEntryId body key w _ w' eq_refl Hr)
    as [[_ [e [=]]]|(a & Hc & _)]. exact Hc.
Qed.

(** *** Recorded answers *)

Lemma recorded_answer request (C : Json -> Db -> Prop) db response db' :
  (C response db' -> onRecord request.1 response db') -> Recorded request C db response db' ->
  onRecord request.1 response db' /\
  forall r, NoDup (map po_operationId (pt_operations (db_payroll db))) -> onRecord request.1 r db -> response = r /\ db' = db.
Proof.
  intros Hc Hr. revert Hc. destruct Hr as [o Ho Hid Hh|response' db1 Hnew HC]; intros Hc.
  - split; [by exists o|]. intros r Hn (o' & Ho' & Hid' & <-). split; [|done]. f_equal.
    apply (NoDup_map_inj po_operationId _ o o' Hn Ho Ho'). congruence.
  - split; [by apply Hc|]. intros r _ (o' & Ho' & Hid' & _). by destruct (Hnew o' Ho').
Qed.

Lemma runCall_outcome `{Env, AuthorityEnv, CommitEnv, Intl} db identity call key :
  keyed db -> NoDup (map po_operationId (pt_operations (db_payroll db))) ->
  OutcomeAt db (runCall identity call key) (fun response db' =>
    exists k, normalizeIdempotencyKey key = Ok k /\ onRecord (operationOf identity (callOperation call) k) response db' /\
      forall r, onRecord (operationOf identity (callOperation call) k) r db -> response = r /\ db' = db).
Proof.
  intros (Hk & _ & Hpk) Hn.
  assert (Hrec : forall (C : Json -> Db -> Prop) operation k body response db',
    let request := requestOf identity operation k body in
    (C response db' -> onRecord request.1 response db') -> normalizeIdempotencyKey key = Ok k -> Recorded request C db response db' ->
    exists k, normalizeIdempotencyKey key = Ok k /\ onRecord (operationOf identity operation k) response db' /\
      forall r, onRecord (operationOf identity operation k) r db -> response = r /\ db' = db).
  { intros C operation k body response db' request Hc Hkey Hr. destruct (recorded_answer _ _ _ _ _ Hc Hr) as [H1' H2'].
    exists k. split; [done|]. split; [exact H1'|]. intros r Hon. by apply H2'. }
  destruct call as [d|pid er|pid cs|pid ds]; cbn [runCall callOperation].
  - eapply OutcomeAt_impl; [apply createPeriod_outcome_Ok|]. intros response db' (k & Hkey & Hr). cbv zeta in Hr.
    eapply Hrec; [|exact Hkey|exact Hr]. intros (pol & b & row & Hc). eapply answered_record, Hc.
  - eapply OutcomeAt_impl; [by apply startReview_outcome_Ok|]. intros response db' (periodId & k & Hkey & Hr). cbv zeta in Hr.
    eapply Hrec; [|exact Hkey|exact Hr]. intros (p & t & u & Hc & _). eapply answered_record, Hc.
  - eapply OutcomeAt_impl; [by apply adoptCards_outcome_Ok|]. intros response db' (periodId & rs & k & Hkey & Hr). cbv zeta in Hr.
    destruct Hr as [_ Hr]. eapply Hrec; [|exact Hkey|exact Hr]. intros (p & ad & Hc). eapply answered_record, Hc.
  - eapply OutcomeAt_impl; [by apply decideCards_outcome_Ok|]. intros response db' (periodId & rs & k & Hkey & Hr). cbv zeta in Hr.
    eapply Hrec; [|exact Hkey|exact Hr]. intros (p & aps & Hc). eapply answered_record, Hc.
Qed.

(** C16: An answer is final: when the creation or the review of a period, an
    adoption of cards or a batch of decisions returned, then, whatever steps of
    payroll follow, any later request of the same actor for the same operation
    under the same key, whatever its body and in any environment, changes nothing
    and returns that same answer or fails. *)
Theorem payroll_answer_final `{Env, AuthorityEnv, CommitEnv, Intl} identity call key w r w' :
  payrollSound (w_db w) -> runCall identity call key w = (Ok r, w') ->
  forall (env2 : Env) (authority2 : AuthorityEnv) (commit2 : CommitEnv) (intl2 : Intl) identity2 call2 key2 w2 r2 w3,
    payrollSound (w_db w') -> rtc payrollStep (w_db w') (w_db w2) ->
    trim (si_tenantId identity2) = trim (si_tenantId identity) -> trim (si_sub identity2) = trim (si_sub identity) ->
    callOperation call2 = callOperation call -> normalizeIdempotencyKey key2 = normalizeIdempotencyKey key ->
    @runCall env2 authority2 commit2 Coll intl2 LC SH identity2 call2 key2 w2 = (r2, w3) ->
    w_db w3 = w_db w2 /\ (r2 = Ok r \/ exists e, r2 = Throw e).
Proof.
  intros Hs Hr env2 authority2 commit2 intl2 identity2 call2 key2 w2 r2 w3 Hs' Hsteps Ht Hu Hop Hkey Hr2.
  destruct (steps_sound _ _ Hsteps Hs') as [Hs2 Hg].
  destruct (runCall_outcome (w_db w) identity call key (sound_keyed _ Hs) (pk_operations _ (ok_keys _ Hs)) w _ w' eq_refl Hr)
    as [[_ [e [=]]]|(a & (k & Hk & Hon & _) & [[= <-]|[e [=]]])].
  destruct (@runCall_outcome env2 authority2 commit2 intl2 (w_db w2) identity2 call2 key2 (sound_keyed _ Hs2)
    (pk_operations _ (ok_keys _ Hs2)) w2 _ w3 eq_refl Hr2) as [[-> [e ->]]|(a & (k2 & Hk2 & _ & Hfinal) & Ha)]; [by split; [|right; exists e]|].
  rewrite Hkey, Hk in Hk2. injection Hk2 as <-.
  assert (Hon2 : onRecord (operationOf identity2 (callOperation call2) k) r (w_db w2)).
  { destruct Hon as (o & Ho & Hid & Hres). exists o. split; [eapply prefix_elem, Ho; apply Hg|]. split; [|done].
    rewrite Hid. unfold operationOf, requestOf. by rewrite Ht, Hu, Hop. }
  destruct (Hfinal r Hon2) as [-> ->]. split; [done|exact Ha].
Qed.

(** *** A card under review *)

(** C38: No correction leaves or puts a card's clock-in in a period that is no
    longer open: while a policy is in force at the corrected clock-in (the one the
    request names, or the card's own where it names none) and that instant lies
    in such a period of the tenant, a correction of the card is refused and
    changes nothing. *)
Theorem correct_refuses_review `{Env, Process, AuthorityEnv, CommitEnv, Intl} identity publicId body w r w' p card clockIn :
  payrollSound (w_db w) -> correct identity publicId body w = (r, w') ->
  p ∈ db_periods (w_db w) -> py_status p <> "OPEN" -> py_tenantId p = tc_tenantId card -> card ∈ db_timeCards (w_db w) ->
  tc_tenantId card = trim (si_tenantId identity) -> tc_publicId card = lowerText publicId ->
  match cr_clockInAt body with
  | Some text => parseTimeCardInstant text "clockInAt" = Ok clockIn
  | None => clockIn = tc_clockInAt card
  end ->
  py_startsAt p <= clockIn < py_endsAt p ->
  (exists v, policyInForce (tc_tenantId card) clockIn (w_db w) v) ->
  w_db w' = w_db w /\ exists e, r = Throw e.
Proof.
  intros Hs Hr Hp Hno Hct Hcard Ht Hpub Hbody Hwin [v Hv].
  apply correct_cases in Hr as [?|(current & r0 & ic & nowMs & c & asg & Htc & Hcd & _ & _)]; [done|exfalso|apply Hs..].
  destruct Hcd as [_ (Hrow & _ & Hip & Hit & _) _ Hacc Hasg _ _ _ _].
  assert (Hic : ic_row ic = card).
  { apply (NoDup_map_inj tc_publicId _ _ _ (ck_publicIds _ (cs_keyed _ (ok_cards _ Hs)))); [done..|congruence]. }
  assert (Hin : vc_clockInAt c = clockIn).
  { pose proof (ca_clockIn _ _ _ _ Hacc) as Hin. cbn in Hin. rewrite Hic in Hin. destruct (cr_clockInAt body); congruence. }
  rewrite Hic, Hin in *. inversion Hasg as [Hnone|v' l q Hv' Hl Hq Hqt Hqp Hqs Hqw]; subst.
  - apply (Hnone v). by rewrite <- Hit.
  - assert (Hne : q <> p) by (intros ->; congruence).
    pose proof (ok_apart _ Hs q p Hq Hp ltac:(congruence) Hne) as Hap. unfold windowsApart, periodWindow in Hap. cbn in Hap. lia.
Qed.
End Steps.

(** ** Concrete instances *)

(** The staff of a tenant without payroll. *)
Definition staffDb : Db :=
  withRows [mkLocation "l1" "pl1" "t1" None "Oslo" "UTC" None None None 0 0]
    (withRows [mkUser "u1" "pu1" "t1" "Mona" "MANAGER" None None None;
               mkUser "u2" "pu2" "t1" "Stig" "STAFF" None None None] sampleDb).

(** A weekly policy from Monday the fifth of January 2026, and its first
    period; the worker works from eight to four with half an hour of break; at
    the end of the week the manager reviews, approves and locks, opens the next
    period and asks to amend the break. *)
Definition weekEnds : Z := 1768176000000.
#[local] Notation asManager := (actingAs timeManager).
#[local] Notation coll := codeUnitCollation.

#[local] Notation policyRun := (@createPolicy (calmUuid 1767312000000) asManager acknowledged utcIntl coll sampleDigest timeManager
  (mkPayrollPolicy "UTC" WEEKLY "2026-01-05" "2026-01-05") (Some "policy") (mkWorld staffDb 0)).
Definition policyDb : Db := Eval vm_compute in w_db policyRun.2.

#[local] Notation periodRun := (@createPeriod (calmUuid 1767312000000) asManager acknowledged utcIntl coll sampleDigest timeManager
  "2026-01-05" (Some "period") (mkWorld policyDb 100)).
Definition periodDb : Db := Eval vm_compute in w_db periodRun.2.
Definition periodId : string := Eval vm_compute in default "" (py_publicId <$> head (db_periods periodDb)).

#[local] Notation shiftStart := (@clockIn (calmUuid 1767600000000) noBeta (actingAs timeWorker) acknowledged utcIntl sampleDigest timeWorker
  clockInBody (Some "key-1") (mkWorld periodDb 200)).
Definition startedDb : Db := Eval vm_compute in w_db shiftStart.2.
Definition cardId : string := Eval vm_compute in default "" (tc_publicId <$> head (db_timeCards startedDb)).

#[local] Notation shiftEnd := (@clockOut (calmUuid 1767628800000) (actingAs timeWorker) acknowledged timeWorker cardId
  (mkClockOut None (Some 30) None) (mkWorld startedDb 300)).
Definition endedDb : Db := Eval vm_compute in w_db shiftEnd.2.

#[local] Notation reviewRun := (@startReview (calmUuid weekEnds) asManager acknowledged coll utcIntl coll sampleDigest timeManager
  periodId 0 (Some "review") (mkWorld endedDb 400)).
Definition reviewDb : Db := Eval vm_compute in w_db reviewRun.2.
Definition reviewAnswer : Json := Eval vm_compute in okOr JNull reviewRun.1.

#[local] Notation decideRun := (@decideCards (calmUuid weekEnds) asManager acknowledged coll coll sampleDigest timeManager
  periodId [mkCardDecision cardId 2 APPROVED_D (Some "fine")] (Some "decide") (mkWorld reviewDb 500)).
Definition decidedDb : Db := Eval vm_compute in w_db decideRun.2.
Definition decideAnswer : Json := Eval vm_compute in okOr JNull decideRun.1.

#[local] Notation lockRun := (@lockPeriod (calmUuid weekEnds) asManager acknowledged coll utcIntl coll sampleDigest timeManager
  periodId 1 (Some "lock") (mkWorld decidedDb 600)).
Definition paidDb : Db := Eval vm_compute in w_db lockRun.2.
Definition lockAnswer : Json := Eval vm_compute in okOr JNull lockRun.1.

#[local] Notation nextRun := (@createPeriod (calmUuid weekEnds) asManager acknowledged utcIntl coll sampleDigest timeManager
  "2026-01-12" (Some "next-period") (mkWorld paidDb 700)).
Definition nextDb : Db := Eval vm_compute in w_db nextRun.2.
Definition paidEntryId : string := Eval vm_compute in default "" (pe_publicId <$> head (pt_entries (db_payroll nextDb))).
Definition nextPeriodId : string := Eval vm_compute in default "" (py_publicId <$> last (db_periods nextDb)).

Definition amendBody : AmendmentRequest :=
  mkAmendmentRequest nextPeriodId "forgot lunch" "2026-01-05T08:00:00.000Z" "2026-01-05T16:00:00.000Z" 60.
#[local] Notation amendRun := (@createAmendment (calmUuid weekEnds) asManager acknowledged coll sampleDigest timeManager
  paidEntryId amendBody (Some "amend") (mkWorld nextDb 800)).
Definition amendedDb : Db := Eval vm_compute in w_db amendRun.2.
Definition amendAnswer : Json := Eval vm_compute in okOr JNull amendRun.1.

#[local] Notation step := (@payrollStep coll coll sampleDigest).
#[local] Notation sound := (@payrollSound coll sampleDigest).

Lemma uuidText_ne n : uuidText n <> "".
Proof. done. Qed.

Lemma policy_step : step staffDb policyDb.
Proof.
  replace policyDb with (w_db policyRun.2) by (vm_compute; reflexivity).
  apply pay_request. exact (@pay_policy _ _ _ (calmUuid 1767312000000) _ _ _ _ _ _ (mkWorld staffDb 0) uuidText_ne).
Qed.
Lemma period_step : step policyDb periodDb.
Proof.
  replace periodDb with (w_db periodRun.2) by (vm_compute; reflexivity).
  apply pay_request. exact (@pay_period _ _ _ (calmUuid 1767312000000) _ _ _ _ _ _ (mkWorld policyDb 100) uuidText_ne).
Qed.
Lemma start_step : step periodDb startedDb.
Proof.
  replace startedDb with (w_db shiftStart.2) by (vm_compute; reflexivity).
  apply pay_request. exact (@pay_clockIn _ _ _ _ _ _ _ _ _ _ _ (mkWorld periodDb 200)).
Qed.
Lemma end_step : step startedDb endedDb.
Proof.
  replace endedDb with (w_db shiftEnd.2) by (vm_compute; reflexivity).
  apply pay_request. exact (@pay_clockOut _ _ _ _ _ _ _ _ _ (mkWorld startedDb 300)).
Qed.
Lemma review_step : step endedDb reviewDb.
Proof.
  replace reviewDb with (w_db reviewRun.2) by (vm_compute; reflexivity).
  apply pay_request. exact (@pay_review _ _ _ _ _ _ _ _ _ _ _ (mkWorld endedDb 400)).
Qed.
Lemma decide_step : step reviewDb decidedDb.
Proof.
  replace decidedDb with (w_db decideRun.2) by (vm_compute; reflexivity).
  apply pay_request. exact (@pay_decide _ _ _ _ _ _ _ _ _ _ (mkWorld reviewDb 500)).
Qed.
Lemma lock_step : step decidedDb paidDb.
Proof.
  replace paidDb with (w_db lockRun.2) by (vm_compute; reflexivity).
  apply pay_request. exact (@pay_lock _ _ _ _ _ _ _ _ _ _ _ (mkWorld decidedDb 600)).
Qed.
Lemma next_step : step paidDb nextDb.
Proof.
  replace nextDb with (w_db nextRun.2) by (vm_compute; reflexivity).
  apply pay_request. exact (@pay_period _ _ _ (calmUuid weekEnds) _ _ _ _ _ _ (mkWorld paidDb 700) uuidText_ne).
Qed.
Lemma amend_step : step nextDb amendedDb.
Proof.
  replace amendedDb with (w_db amendRun.2) by (vm_compute; reflexivity).
  apply pay_request. exact (@pay_amend _ _ _ _ _ _ _ _ _ _ (mkWorld nextDb 800)).
Qed.

Lemma staffDb_sound : sound staffDb.
Proof.
  split.
  - split; [split; [constructor..|by intros c d ?%elem_of_nil]|split; constructor|constructor|reflexivity].
  - split; [split|..]; constructor.
  - split; [constructor| | |]; intros p; [by intros q ?%elem_of_nil..|by intros ?%elem_of_nil].
  - by intros p ?%elem_of_nil.
  - by intros p q ?%elem_of_nil.
  - constructor.
  - constructor.
  - by intros p ?%elem_of_nil.
  - constructor.
  - constructor.
Qed.

Lemma to_ended : rtc step staffDb endedDb.
Proof.
  eapply rtc_l; [apply policy_step|]. eapply rtc_l; [apply period_step|]. eapply rtc_l; [apply start_step|]. apply rtc_once, end_step.
Qed.
Lemma to_decided : rtc step staffDb decidedDb.
Proof. etrans; [apply to_ended|]. eapply rtc_l; [apply review_step|]. apply rtc_once, decide_step. Qed.
Lemma to_paid : rtc step staffDb paidDb.
Proof. etrans; [apply to_decided|]. apply rtc_once, lock_step. Qed.
Lemma to_amended : rtc step staffDb amendedDb.
Proof. etrans; [apply to_paid|]. eapply rtc_l; [apply next_step|]. apply rtc_once, amend_step. Qed.

Lemma ended_sound : sound endedDb.
Proof. apply (steps_sound _ _ to_ended), staffDb_sound. Qed.
Lemma review_sound : sound reviewDb.
Proof. exact (proj1 (steps_sound _ _ (rtc_once _ _ review_step) ended_sound)). Qed.
Lemma decided_sound : sound decidedDb.
Proof. apply (steps_sound _ _ to_decided), staffDb_sound. Qed.

(** The one period of the sample, and its one card. *)
Definition noPeriod : PayrollPeriodRow := samplePeriodRow "" "" "" "" "" 0 0.
Definition noCard : TimeCard :=
  mkTimeCard "" "" "" "" None None None None 0 None None "" 0 0 None VOID 0 0 None.
Definition paidPeriod : PayrollPeriodRow := Eval vm_compute in default noPeriod (head (db_periods paidDb)).
Definition reviewedPeriod : PayrollPeriodRow := Eval vm_compute in default noPeriod (head (db_periods reviewDb)).
Definition workCard : TimeCard := Eval vm_compute in default noCard (head (db_timeCards reviewDb)).

Lemma locked_period_pays_witness :
  (workCard ∈ db_timeCards paidDb /\ cardOf paidPeriod workCard /\ py_totalPayableMinutes paidPeriod = Some 450) /\
  @PaidInFull coll sampleDigest paidDb paidPeriod /\
  forall c, c ∈ db_timeCards paidDb -> cardOf paidPeriod c ->
    exists e, e ∈ entriesOf paidDb paidPeriod /\ PaysCard (py_id paidPeriod) paidDb c e /\ pe_approvedByUserId e <> tc_userId c /\
      forall e', e' ∈ entriesOf paidDb paidPeriod -> pe_sourceType e' = "TIME_CARD" -> pe_sourceId e' = tc_id c -> e' = e.
Proof.
  split; [split; [by left|split; [split; reflexivity|reflexivity]]|].
  apply (locked_period_pays staffDb paidDb paidPeriod to_paid staffDb_sound); [by left|reflexivity].
Defined.

Lemma payroll_history_witness : grows paidDb amendedDb.
Proof.
  apply (@payroll_history coll coll sampleDigest paidDb amendedDb).
  - eapply rtc_l; [apply next_step|]. apply rtc_once, amend_step.
  - apply (steps_sound _ _ to_paid), staffDb_sound.
Defined.

Lemma payroll_calendar_sound_witness :
  (length (db_periods amendedDb) = 2%nat /\ length (db_policies amendedDb) = 1%nat) /\
  (forall p q, p ∈ db_periods amendedDb -> q ∈ db_periods amendedDb -> py_tenantId p = py_tenantId q -> p <> q ->
     windowsApart (periodWindow p) (periodWindow q)) /\
  (forall p, p ∈ db_periods amendedDb -> periodState p /\ cutFrom amendedDb p) /\
  policyHistory (db_policies amendedDb).
Proof. split; [by split|]. apply (payroll_calendar_sound staffDb amendedDb to_amended staffDb_sound). Defined.

Lemma nobody_decides_own_pay_witness :
  (length (pt_approvals (db_payroll amendedDb)) = 1%nat /\ length (pt_amendments (db_payroll amendedDb)) = 1%nat) /\
  (forall a, a ∈ pt_approvals (db_payroll amendedDb) ->
     approvalSound amendedDb a /\ forall b, b ∈ pt_approvals (db_payroll amendedDb) -> approvalId b = approvalId a -> b = a) /\
  (forall m, m ∈ pt_amendments (db_payroll amendedDb) -> amendmentSound amendedDb m) /\
  (forall d, d ∈ pt_decisions (db_payroll amendedDb) ->
     decisionSound amendedDb d /\ forall b, b ∈ pt_decisions (db_payroll amendedDb) -> px_amendmentId b = px_amendmentId d -> b = d).
Proof. split; [by split|]. apply (nobody_decides_own_pay staffDb amendedDb to_amended staffDb_sound). Defined.

Lemma lockPeriod_locks_witness :
  lockRun.1 = Ok lockAnswer /\
  exists periodId idempotencyKey, normalizeIdempotencyKey (Some "lock") = Ok idempotencyKey /\
    @LockCommitted coll sampleDigest (operationsIdentity timeManager) periodId 1
      (@requestOf coll sampleDigest timeManager LOCK idempotencyKey (JObj [jText "periodId" periodId; jInt "expectedRevision" 1]))
      decidedDb paidDb.
Proof.
  split; [vm_compute; reflexivity|]. replace paidDb with (w_db lockRun.2) by (vm_compute; reflexivity).
  apply (@lockPeriod_locks coll coll sampleDigest (calmUuid weekEnds) asManager acknowledged utcIntl timeManager periodId 1 (Some "lock")
    (mkWorld decidedDb 600) lockAnswer lockRun.2); [exact decided_sound|vm_compute; reflexivity].
Defined.

Lemma decideCards_decides_witness :
  exists periodId resolved idempotencyKey, normalizeIdempotencyKey (Some "decide") = Ok idempotencyKey /\
    let request := @requestOf coll sampleDigest timeManager APPROVAL idempotencyKey (decisionsBody periodId resolved) in
    Recorded request (fun response db' => exists period approvals,
      @CardsDecided coll sampleDigest (operationsIdentity timeManager) periodId resolved request response reviewDb db' period approvals)
      reviewDb decideAnswer decidedDb.
Proof.
  replace decidedDb with (w_db decideRun.2) by (vm_compute; reflexivity).
  apply (@decideCards_decides coll coll sampleDigest (calmUuid weekEnds) asManager acknowledged timeManager periodId
    [mkCardDecision cardId 2 APPROVED_D (Some "fine")] (Some "decide") (mkWorld reviewDb 500) decideAnswer decideRun.2);
    [exact review_sound|vm_compute; reflexivity].
Defined.

Lemma createAmendment_requests_witness :
  exists entryId adjustmentPeriodId replacement idempotencyKey,
    readReplacement amendBody = Ok replacement /\ normalizeIdempotencyKey (Some "amend") = Ok idempotencyKey /\
    AmendmentCommitted (operationsIdentity timeManager) entryId adjustmentPeriodId amendBody replacement
      (@requestOf coll sampleDigest timeManager AMENDMENT_CREATE idempotencyKey (amendmentBody entryId adjustmentPeriodId amendBody replacement))
      nextDb amendedDb.
Proof.
  replace amendedDb with (w_db amendRun.2) by (vm_compute; reflexivity).
  apply (@createAmendment_requests coll sampleDigest (calmUuid weekEnds) asManager acknowledged timeManager paidEntryId amendBody
    (Some "amend") (mkWorld nextDb 800) amendAnswer amendRun.2). vm_compute. reflexivity.
Defined.

(** Asked again with another body, the review of the period gives its answer. *)
Lemma payroll_answer_final_witness :
  reviewRun.1 = Ok reviewAnswer /\
  forall (env2 : Env) (authority2 : AuthorityEnv) (commit2 : CommitEnv) (intl2 : Intl) identity2 call2 key2 w2 r2 w3,
    sound reviewDb -> rtc step reviewDb (w_db w2) ->
    trim (si_tenantId identity2) = "t1" -> trim (si_sub identity2) = "u1" ->
    callOperation call2 = REVIEW -> normalizeIdempotencyKey key2 = Ok "review" ->
    @runCall env2 authority2 commit2 coll intl2 coll sampleDigest identity2 call2 key2 w2 = (r2, w3) ->
    w_db w3 = w_db w2 /\ (r2 = Ok reviewAnswer \/ exists e, r2 = Throw e).
Proof.
  split; [vm_compute; reflexivity|]. replace reviewDb with (w_db reviewRun.2) by (vm_compute; reflexivity).
  apply (@payroll_answer_final coll coll sampleDigest (calmUuid weekEnds) asManager acknowledged utcIntl timeManager
    (StartReview periodId 0) (Some "review") (mkWorld endedDb 400) reviewAnswer reviewRun.2); [exact ended_sound|vm_compute; reflexivity].
Defined.

(** The manager tries to add the forgotten break to the card under review, or
    to move its clock-in by an hour. *)
Definition addedBreak : CorrectionRequest :=
  mkCorrectionRequest None None (Some [("2026-01-05T12:00:00Z", "2026-01-05T13:00:00Z")]) "2026-01-05T16:00:00.000Z" "forgot lunch".
Definition movedClockIn : CorrectionRequest :=
  mkCorrectionRequest (Some "2026-01-05T09:00:00Z") None None "2026-01-05T16:00:00.000Z" "came later".
#[local] Notation correctRun body := (@correct (calmUuid weekEnds) noBeta asManager acknowledged utcIntl timeManager cardId body
  (mkWorld reviewDb 900)).
#[local] Notation refusal r := (problemCode (match r with Throw e => e | Ok _ => JsError "" end)).

Lemma correct_refuses_review_witness :
  (refusal (correctRun addedBreak).1 = Some "no_open_payroll_period" /\ refusal (correctRun movedClockIn).1 = Some "no_open_payroll_period") /\
  (w_db (correctRun addedBreak).2 = reviewDb /\ exists e, (correctRun addedBreak).1 = Throw e) /\
  w_db (correctRun movedClockIn).2 = reviewDb /\ exists e, (correctRun movedClockIn).1 = Throw e.
Proof.
  assert (Hv : forall t, (exists v, v ∈ db_policies reviewDb /\ @effectiveAt utcIntl t v = Ok true) ->
    exists v, @policyInForce utcIntl "t1" t reviewDb v).
  { intros t (v & Hin & He). exists v. split; [split; [done|]|].
    - apply list_elem_of_singleton in Hin as ->. by split.
    - intros q (Hq & _). apply list_elem_of_singleton in Hin as ->, Hq as ->. right. split; [reflexivity|done]. }
  split; [split; vm_compute; reflexivity|]. split.
  - apply (@correct_refuses_review coll sampleDigest (calmUuid weekEnds) noBeta asManager acknowledged utcIntl timeManager cardId
      addedBreak (mkWorld reviewDb 900) (correctRun addedBreak).1 (correctRun addedBreak).2 reviewedPeriod workCard (tc_clockInAt workCard));
      [exact review_sound|apply surjective_pairing|by left|done|reflexivity|by left|reflexivity..|done|].
    apply Hv. eexists. split; [by left|vm_compute; reflexivity].
  - apply (@correct_refuses_review coll sampleDigest (calmUuid weekEnds) noBeta asManager acknowledged utcIntl timeManager cardId
      movedClockIn (mkWorld reviewDb 900) (correctRun movedClockIn).1 (correctRun movedClockIn).2 reviewedPeriod workCard (tc_clockInAt workCard + 3600000));
      [exact review_sound|apply surjective_pairing|by left|done|reflexivity|by left|reflexivity..|done|].
    apply Hv. eexists. split; [by left|vm_compute; reflexivity].
Defined.
