(* ===== verification/PayrollExport.v ===== *)
(** * Exports of a payroll period

    [createExport], [downloadExport], [getExport] and [exportEntitlement] of
    apps/api-v2/src/payroll/payroll.service.ts with what they share: a locked
    period is exported once, for one credit, into a batch whose lines copy its
    entries; each line and the whole file are hashed, and whoever reads the
    export verifies the hashes, the totals and the ledger row that paid for it. *)

From S2P Require Import Prelude JsStd JsCollections JsDate JsEncoding JsDecoding ContractHelpers TimeZone PayrollDates PayrollRecords.
From S2P Require Import Database FeatureEntitlement Authority ScheduleStore TimeCardPayroll TimeCardStore TimeCards.
From S2P Require Import PayrollStore PayrollPolicies PayrollReview PayrollLock PayrollAmendments.

Definition integrityFailed {A} : Result A :=
  payrollRefused 503 "payroll_export_integrity_failed" "Payroll evidence failed integrity verification." "Service unavailable".

(** [try { return value; } catch { throw problem; }] *)
Definition catchIntegrity {A} (r : Result A) : Result A := match r with Ok a => Ok a | Throw _ => integrityFailed end.

Definition exportStatusText (s : ExportStatus) : string :=
  match s with GENERATED => "GENERATED" | DOWNLOADED => "DOWNLOADED" | RECONCILING => "RECONCILING" | RECONCILED => "RECONCILED" end.
Definition outcomeText (s : OutcomeStatus) : string :=
  match s with PENDING => "PENDING" | ACCEPTED => "ACCEPTED" | REJECTED => "REJECTED" end.

(** ** Cursors *)

Definition encodeCursor (value : Json) : string := base64url (utf8Bytes (stringify value)).

Definition cursorInvalid {A} (name : string) : Result A :=
  payrollRefused 422 ("invalid_payroll_" +:+ name) (name +:+ " is invalid.") "Payroll validation failed".

Definition decodeCursor (value : option string) (name : string) : Result (option JsonValue) :=
  match value with
  | None => Ok None
  | Some text =>
      if isEmpty text || (512 <? strLen text) then cursorInvalid name
      else match decodeJson text with Some (VObj members) => Ok (Some (VObj members)) | _ => cursorInvalid name end
  end.

(** A text of a cursor; one with a character beyond the model's code units is
    neither an identifier nor a date, and refused as such. *)
Definition cursorText (cursor : option JsonValue) (key name : string) : Result (option string) :=
  match cursor with
  | None => Ok None
  | Some object =>
      match memberOf key object with
      | Some (VStr points) =>
          match pointsText points with
          | Some value => if isEmpty value || (512 <? strLen value) then cursorInvalid name else Ok (Some value)
          | None => cursorInvalid name
          end
      | _ => cursorInvalid name
      end
  end.

Definition cursorInteger (cursor : option JsonValue) (key name : string) : Result (option Z) :=
  match cursor with
  | None => Ok None
  | Some object =>
      match memberOf key object ≫= safeNatural with
      | Some value => Ok (Some value)
      | None => cursorInvalid name
      end
  end.

(** ** Lines *)

(** The public identifiers a line is written with. *)
Record LineMaps := mkLineMaps {
  lm_users : JsMap string string;
  lm_locations : JsMap string string;
  lm_timeCards : JsMap string string;
  lm_amendments : JsMap string string;
}.

Definition publicSource (maps : LineMaps) (sourceType sourceId : string) : Result string :=
  if bool_decide (sourceType = "TIME_CARD") then requireMapped (lm_timeCards maps) sourceId "time card"
  else requireMapped (lm_amendments maps) sourceId "payroll amendment".

Definition publicLocation (maps : LineMaps) (locationId : option string) : Result (option string) :=
  match truthy locationId with
  | Some id => Some <$> requireMapped (lm_locations maps) id "location"
  | None => Ok None
  end.

(** The line of the file for a locked entry. *)
Definition entryLine (maps : LineMaps) (publicLineId : string) (lineNumber : Z) (entry : PayrollLockedEntry) : Result PayrollCsvLine :=
  sourceId ← publicSource maps (pe_sourceType entry) (pe_sourceId entry);
  employeeId ← requireMapped (lm_users maps) (pe_employeeId entry) "staff";
  locationId ← publicLocation maps (pe_locationId entry);
  Ok (mkCsvLine publicLineId lineNumber (pe_sourceType entry) sourceId employeeId locationId (pe_workTimeZone entry)
        (DDate (Some (pe_clockInAt entry))) (DDate (Some (pe_clockOutAt entry))) (pe_breakMinutes entry) (pe_payableMinutes entry)).

(** The same for a stored line. *)
Definition storedLine (maps : LineMaps) (row : PayrollExportLine) : Result PayrollCsvLine :=
  sourceId ← publicSource maps (xl_sourceType row) (xl_sourceId row);
  employeeId ← requireMapped (lm_users maps) (xl_employeeId row) "staff";
  locationId ← publicLocation maps (xl_locationId row);
  Ok (mkCsvLine (xl_publicId row) (xl_lineNumber row) (xl_sourceType row) sourceId employeeId locationId (xl_workTimeZone row)
        (DDate (Some (xl_clockInAt row))) (DDate (Some (xl_clockOutAt row))) (xl_breakMinutes row) (xl_payableMinutes row)).

(** The first API wrote storage identifiers. *)
Definition legacyLine (row : PayrollExportLine) : PayrollCsvLine :=
  mkCsvLine (xl_id row) (xl_lineNumber row) (xl_sourceType row) (xl_sourceId row) (xl_employeeId row) (xl_locationId row)
    (xl_workTimeZone row) (DDate (Some (xl_clockInAt row))) (DDate (Some (xl_clockOutAt row))) (xl_breakMinutes row)
    (xl_payableMinutes row).

Inductive LineEncoding := legacyIds | publicIds.

#[global] Instance LineEncoding_eq_dec : EqDecision LineEncoding.
Proof. solve_decision. Defined.

Definition sourcesOf (kind : string) (sources : list (string * string)) : list (option string) :=
  map (fun s => Some s.2) (List.filter (fun s => bool_decide (s.1 = kind)) sources).

Section Lines.
Context `{LC : LocaleCompare, SH : Sha256}.

(** Which identifiers the hash of a line was made of. *)
Definition rowEncoding (tenantId batchId : string) (row : PayrollExportLine) (publicLine : PayrollCsvLine)
    : Result (option LineEncoding) :=
  publicHash ← payrollExportLineSha256 tenantId batchId (xl_lockedEntryId row) publicLine;
  legacyHash ← payrollExportLineSha256 tenantId batchId (xl_lockedEntryId row) (legacyLine row);
  Ok (if bool_decide (xl_canonicalSha256 row = publicHash) then Some publicIds
      else if bool_decide (xl_canonicalSha256 row = legacyHash) then Some legacyIds else None).

(** The lines, verified one after the other: all of one encoding. *)
Fixpoint verifyLines (maps : LineMaps) (tenantId batchId : string) (encoding : option LineEncoding) (total : Z)
    (rows : list PayrollExportLine) : Result (option LineEncoding * Z * list PayrollCsvLine) :=
  match rows with
  | [] => Ok (encoding, total, [])
  | row :: rest =>
      publicLine ← storedLine maps row;
      found ← rowEncoding tenantId batchId row publicLine;
      match found with
      | None => integrityFailed
      | Some found =>
          if isPresent encoding && negb (bool_decide (encoding = Some found)) then integrityFailed
          else
            '(last, sum, lines) ← verifyLines maps tenantId batchId (Some found) (total + xl_payableMinutes row) rest;
            Ok (last, sum, publicLine :: lines)
      end
  end.

(** The file of the verified lines, and its hash. *)
Definition verifiedContent (batch : PayrollExportBatch) (rows : list PayrollExportLine)
    (verified : option LineEncoding * Z * list PayrollCsvLine) : Result (string * string) :=
  let '(encoding, total, lines) := verified in
  if negb (isSafeInteger total) || negb (total =? xb_totalPayableMinutes batch) then integrityFailed
  else
    publicContent ← catchIntegrity (buildPayrollCsv lines);
    legacyContent ← catchIntegrity (buildPayrollCsv (map legacyLine rows));
    let publicContentSha256 := payrollContentSha256 publicContent in
    if (bool_decide (encoding = Some publicIds) && bool_decide (xb_contentSha256 batch = publicContentSha256))
       || (bool_decide (encoding = Some legacyIds) && bool_decide (xb_contentSha256 batch = payrollContentSha256 legacyContent))
    then Ok (publicContent, publicContentSha256)
    else integrityFailed.
End Lines.

(** ** The ledger row that paid *)

Definition creditTransactionOf (operationId : string) : string := "feature-usage-payroll-export:" +:+ operationId.
Definition exportReason (periodId : string) : string := "Payroll export (" +:+ periodId +:+ ")".

Definition provenanceHolds (batch : PayrollExportBatch) (ledger : option CreditTransaction) : bool :=
  let expectedId := creditTransactionOf (xb_operationId batch) in
  bool_decide (xb_creditTransactionId batch = expectedId)
  && match ledger with
     | None => false
     | Some l =>
         bool_decide (ct_id l = expectedId) && bool_decide (ct_tenantId l = xb_tenantId batch)
         && (ct_amount l =? - xb_consumedCredits batch) && (ct_debtAmount l =? 0)
         && bool_decide (ct_reason l = exportReason (xb_periodId batch))
         && bool_decide (ct_balanceAfter l = Some (xb_newBalance batch)) && bool_decide (ct_debtAfter l = Some 0)
     end.

Section Exports.
Context `{Env, Process, AuthorityEnv, CommitEnv, Collation, Intl, LC : LocaleCompare, SH : Sha256}.

Definition publicLocations : string -> list (option string) -> Tx (JsMap string string) :=
  publicMap lo_tenantId lo_id lo_publicId.
Definition publicTimeCards : string -> list (option string) -> Tx (JsMap string string) :=
  publicMap tc_tenantId tc_id tc_publicId.
Definition publicAmendments : string -> list (option string) -> Tx (JsMap string string) :=
  publicMap pm_tenantId pm_id pm_publicId.
Definition publicLockedEntries : string -> list (option string) -> Tx (JsMap string string) :=
  publicMap pe_tenantId pe_id pe_publicId.

(** The four reads of a [Promise.all], in the order they are listed. *)
Definition lineMaps (tenantId : string) (employees : list string) (locations : list (option string))
    (sources : list (string * string)) : Tx LineMaps :=
  users ← publicUsers tenantId (map Some employees);
  places ← publicLocations tenantId locations;
  timeCards ← publicTimeCards tenantId (sourcesOf "TIME_CARD" sources);
  amendments ← publicAmendments tenantId (sourcesOf "AMENDMENT" sources);
  mret (mkLineMaps users places timeCards amendments).

Definition verifyExportCreditProvenance (guard : Tx unit) (batch : PayrollExportBatch) : Tx unit :=
  ledger ← findFirst (fun c => bool_decide (ct_id c = xb_creditTransactionId batch));
  _ ← guard;
  if provenanceHolds batch ledger then mret tt else liftResult integrityFailed.

(** [orderBy: [{ lineNumber: 'asc' }, { id: 'asc' }]] *)
Definition lineOrder (l r : PayrollExportLine) : Z := orElse (xl_lineNumber l - xl_lineNumber r) (collate (xl_id l) (xl_id r)).

Definition loadAndVerifyExportLines (guard : Tx unit) (tenantId : string) (batch : PayrollExportBatch) : Tx (string * string) :=
  if (xb_rowCount batch <? 1) || (MAX_PAYROLL_LOCK_ENTRIES <? xb_rowCount batch) then liftResult integrityFailed
  else
    found ← findManyBy lineOrder (fun l => bool_decide (xl_tenantId l = tenantId) && bool_decide (xl_batchId l = xb_id batch));
    let rows := take (Z.to_nat (MAX_PAYROLL_LOCK_ENTRIES + 1)) found in
    _ ← guard;
    if negb (Z.of_nat (length rows) =? xb_rowCount batch) || (MAX_PAYROLL_LOCK_ENTRIES <? Z.of_nat (length rows)) then
      liftResult integrityFailed
    else
      maps ← lineMaps tenantId (map xl_employeeId rows) (map xl_locationId rows) (map (fun r => (xl_sourceType r, xl_sourceId r)) rows);
      _ ← guard;
      liftResult (verified ← verifyLines maps tenantId (xb_id batch) None 0 rows; verifiedContent batch rows verified).

(** *** Serialization *)

(** [orderBy: [{ lineNumber: 'asc' }, { publicId: 'asc' }]] *)
Definition lineNewest (l r : PayrollExportLine) : Z := orElse (xl_lineNumber l - xl_lineNumber r) (compareText (xl_publicId l) (xl_publicId r)).

(** [orderBy: [{ receivedAt: 'desc' }, { publicId: 'desc' }]] *)
Definition receiptNewest (l r : PayrollReconciliationReceipt) : Z :=
  orElse (xr_receivedAt r - xr_receivedAt l) (compareText (xr_publicId r) (xr_publicId l)).

Definition lineJson (stateByLineId : JsMap string PayrollReconciliationLineState) (entries users : JsMap string string)
    (line : PayrollExportLine) : Result Json :=
  let state := mapGet stateByLineId (xl_id line) in
  lockedEntryId ← requireMapped entries (xl_lockedEntryId line) "payroll locked entry";
  employeeId ← requireMapped users (xl_employeeId line) "staff";
  Ok (JObj [jText "id" (xl_publicId line); jInt "lineNumber" (xl_lineNumber line); jText "lockedEntryId" lockedEntryId;
            jText "employeeId" employeeId; jInt "payableMinutes" (xl_payableMinutes line);
            jText "canonicalSha256" (xl_canonicalSha256 line);
            jText "reconciliationStatus" (outcomeText (default PENDING (xs_status <$> state)));
            jOptText "reconciliationReason" (state ≫= xs_reason)]).

(** [nextLineCursor], when there is a line after the page. *)
Definition nextLineCursor (page rest : list PayrollExportLine) : Json :=
  match rest, last page with
  | _ :: _, Some line => JStr (encodeCursor (JObj [jText "publicId" (xl_publicId line)]))
  | _, _ => JNull
  end.

Definition exportJson (batch : PayrollExportBatch) (period contentSha256 : string) (lines : list Json) (cursor : Json)
    (acceptedCount rejectedCount pendingCount : Z) (latestReceipt : option PayrollReconciliationReceipt) : Json :=
  JObj [jText "id" (xb_publicId batch); jText "periodId" period; jInt "formatVersion" (xb_formatVersion batch);
        jText "status" (exportStatusText (xb_status batch)); jText "contentSha256" contentSha256;
        jInt "rowCount" (xb_rowCount batch); jInt "totalPayableMinutes" (xb_totalPayableMinutes batch);
        ("settlement", Some (JObj [jInt "consumedCredits" (xb_consumedCredits batch); jInt "newBalance" (xb_newBalance batch)]));
        jText "createdAt" (toISOString (xb_createdAt batch));
        jOptText "downloadedAt" (toISOString <$> xb_downloadedAt batch);
        jOptText "reconciledAt" (toISOString <$> xb_reconciledAt batch);
        jText "updatedAt" (toISOString (xb_updatedAt batch)); ("lines", Some (JArr lines)); ("nextLineCursor", Some cursor);
        ("reconciliation", Some (JObj [jInt "acceptedCount" acceptedCount; jInt "rejectedCount" rejectedCount;
           jInt "pendingCount" pendingCount;
           ("providerTotalMinutes", Some (orJNum (xr_providerTotalMinutes <$> latestReceipt)));
           jOptText "latestProvider" (xr_provider <$> latestReceipt);
           jOptText "latestProviderEventId" (xr_providerEventId <$> latestReceipt);
           jOptText "latestPayloadSha256" (xr_payloadSha256 <$> latestReceipt)]))].

(** The line a cursor points at: [None] for no cursor. *)
Definition cursorLine (guard : Tx unit) (tenantId : string) (batch : PayrollExportBatch) (lineCursor : option string)
    : Tx (option PayrollExportLine) :=
  match truthy lineCursor with
  | None => _ ← guard; mret None
  | Some cursor =>
      found ← findFirst (fun l => bool_decide (xl_tenantId l = tenantId) && bool_decide (xl_batchId l = xb_id batch)
                                  && sameUuid (xl_publicId l) cursor);
      _ ← guard;
      match found with
      | Some line => mret (Some line)
      | None => liftResult (unprocessable "invalid_payroll_line_cursor" "lineCursor is invalid for this payroll export.")
      end
  end.

Definition stateOf (tenantId batchId : string) (s : PayrollReconciliationLineState) : bool :=
  bool_decide (xs_tenantId s = tenantId) && bool_decide (xs_batchId s = batchId).

Definition serializeExport (guard : Tx unit) (tenantId : string) (batch : PayrollExportBatch) (lineLimit : Z)
    (lineCursor : option string) : Tx Json :=
  cursor ← cursorLine guard tenantId batch lineCursor;
  found ← findManyBy lineNewest (fun l => bool_decide (xl_tenantId l = tenantId) && bool_decide (xl_batchId l = xb_id batch)
            && match cursor with Some c => xl_lineNumber c <? xl_lineNumber l | None => true end);
  _ ← guard;
  let page := take (Z.to_nat lineLimit) found in
  let rest := drop (Z.to_nat lineLimit) (take (Z.to_nat (lineLimit + 1)) found) in
  states ← match page with
           | [] => mret []
           | _ => findMany (fun s => stateOf tenantId (xb_id batch) s && bool_decide (xs_lineId s ∈ map xl_id page))
           end;
  entries ← publicLockedEntries tenantId (map (fun l => Some (xl_lockedEntryId l)) page);
  users ← publicUsers tenantId (map (fun l => Some (xl_employeeId l)) page);
  periods ← publicPeriods tenantId [Some (xb_periodId batch)];
  _ ← guard;
  let stateByLineId := mapOf (map (fun s => (xs_lineId s, s)) states) in
  counted ← findMany (stateOf tenantId (xb_id batch));
  _ ← guard;
  let countOf status := Z.of_nat (length (List.filter (fun s => bool_decide (xs_status s = status)) counted)) in
  let acceptedCount := countOf ACCEPTED in
  let rejectedCount := countOf REJECTED in
  let pendingCount := xb_rowCount batch - acceptedCount - rejectedCount in
  if pendingCount <? 0 then
    liftResult (payrollRefused 503 "payroll_reconciliation_integrity_failed" "Stored payroll reconciliation evidence is invalid."
      "Service unavailable")
  else
    latestReceipt ← findFirstBy receiptNewest (fun r => bool_decide (xr_tenantId r = tenantId) && bool_decide (xr_batchId r = xb_id batch));
    _ ← guard;
    evidence ← loadAndVerifyExportLines guard tenantId batch;
    _ ← guard;
    liftResult (
      period ← requireMapped periods (xb_periodId batch) "payroll period";
      lines ← mapM (lineJson stateByLineId entries users) page;
      Ok (exportJson batch period evidence.2 lines (nextLineCursor page rest) acceptedCount rejectedCount pendingCount latestReceipt)).

(** *** Entitlement *)

(** [exportEntitlement]: what keeps a tenant from exporting is an answer, a
    failure of the authority is not. *)
Record ExportEntitlement := mkExportEntitlement { xn_creditCost : option Z; xn_eligible : bool; xn_reason : string }.

Definition eligibility (tenantId : string) : Tx ExportEntitlement := fun w =>
  match assertFeatureEntitled tenantId time_cards true w with
  | (Ok (Some e), w') => (Ok (mkExportEntitlement (Some (en_creditCost e)) true "Payroll export is eligible."), w')
  | (Ok None, w') => (Ok (mkExportEntitlement None false "Payroll export requires usage credits."), w')
  | (Throw (Problem p), w') =>
      if pStatus p =? 403 then (Ok (mkExportEntitlement None false (slice0 500 (pDetail p))), w') else (Throw (Problem p), w')
  | (Throw e, w') => (Throw e, w')
  end.

Definition exportEntitlement (identity : SessionIdentity) : Tx ExportEntitlement :=
  let identity := operationsIdentity identity in
  _ ← prepareCurrentMutation identity;
  mutationRun identity (response ← eligibility (si_tenantId identity); _ ← assertCurrent; mret response).

(** *** Creating *)

(** [orderBy: [{ sequence: 'asc' }, { id: 'asc' }]] *)
Definition entryOrder (l r : PayrollLockedEntry) : Z := orElse (pe_sequence l - pe_sequence r) (collate (pe_id l) (pe_id r)).

Definition exportConflict {A} (code detail : string) : Result A := payrollRefused 409 code detail "Conflict".

(** The evidence of the lock still holds: count, total and aggregate hash. *)
Definition checkLockedEvidence (tenantId : string) (period : PayrollPeriodRow) (entries : list PayrollLockedEntry) : Result Z :=
  let count := Z.of_nat (length entries) in
  if (count =? 0) || (MAX_PAYROLL_LOCK_ENTRIES <? count) || negb (bool_decide (py_lockedEntryCount period = Some count)) then
    exportConflict "payroll_export_entry_count_invalid" "Locked payroll entry count is invalid for export."
  else
    let total := fold_left Z.add (map pe_payableMinutes entries) 0 in
    if negb (isSafeInteger total) || negb (bool_decide (py_totalPayableMinutes period = Some total)) then
      exportConflict "payroll_export_totals_invalid" "Locked payroll totals are invalid for export."
    else
      match payrollLockAggregateSha256 tenantId (py_id period) (map pe_canonicalSha256 entries) total with
      | Throw _ => exportConflict "payroll_export_integrity_invalid" "Locked payroll integrity evidence is invalid for export."
      | Ok aggregateSha256 =>
          if negb (bool_decide (py_lockedEntrySha256 period = Some aggregateSha256)) then
            exportConflict "payroll_export_integrity_mismatch" "Locked payroll integrity evidence does not match the period."
          else Ok total
      end.

Definition exportLineId (batchId : string) (lineNumber : Z) (lockedEntryId : string) : string :=
  deterministicPayrollId "line" (JObj [jText "batchId" batchId; jInt "lineNumber" lineNumber; jText "lockedEntryId" lockedEntryId]).

(** The stored line of an entry. *)
Definition lineRow (tenantId batchId publicId : string) (lineNumber : Z) (canonicalSha256 : string) (entry : PayrollLockedEntry)
    : PayrollExportLine :=
  mkExportLine (exportLineId batchId lineNumber (pe_id entry)) publicId tenantId batchId lineNumber (pe_id entry)
    (pe_sourceType entry) (pe_sourceId entry) (pe_employeeId entry) (pe_locationId entry) (pe_workTimeZone entry)
    (pe_clockInAt entry) (pe_clockOutAt entry) (pe_breakMinutes entry) (pe_payableMinutes entry) canonicalSha256.

(** [entries.map((entry, index) => ...)] *)
Fixpoint exportLines (tenantId batchId : string) (maps : LineMaps) (lineNumber : Z) (entries : list PayrollLockedEntry)
    : Tx (list (PayrollCsvLine * PayrollExportLine)) :=
  match entries with
  | [] => mret []
  | entry :: rest =>
      publicLineId ← randomUUID;
      line ← liftResult (entryLine maps publicLineId lineNumber entry);
      canonicalSha256 ← liftResult (payrollExportLineSha256 tenantId batchId (pe_id entry) line);
      lines ← exportLines tenantId batchId maps (lineNumber + 1) rest;
      mret ((line, lineRow tenantId batchId publicLineId lineNumber canonicalSha256 entry) :: lines)
  end.

Definition batchRow (batchId publicId : string) (createdAt : Z) (tenantId periodId : string) (request : PayrollRequestIdentity)
    (contentSha256 : string) (rowCount totalPayableMinutes : Z) (settlement : Z * Z) : PayrollExportBatch :=
  mkExportBatch batchId publicId tenantId periodId request.1 request.2 (creditTransactionOf request.1) 1 GENERATED contentSha256
    rowCount totalPayableMinutes settlement.1 settlement.2 createdAt None None createdAt.

(** A batch found under the operation of the request. *)
Definition replayExport (tenantId periodId : string) (request : PayrollRequestIdentity) (batch : PayrollExportBatch) : Tx Json :=
  if negb (bool_decide (xb_tenantId batch = tenantId)) || negb (bool_decide (xb_periodId batch = periodId))
     || negb (bool_decide (xb_requestHash batch = request.2))
  then replayConflict
  else
    _ ← verifyExportCreditProvenance noGuard batch;
    serializeExport noGuard tenantId batch 500 None.

(** What the new batch consists of, before it is paid for. *)
Record PreparedExport := mkPrepared {
  pr_batchId : string;
  pr_publicId : string;
  pr_lines : list (PayrollCsvLine * PayrollExportLine);
  pr_csv : string;
}.

Definition prepareExport (tenantId : string) (request : PayrollRequestIdentity) (entries : list PayrollLockedEntry) : Tx PreparedExport :=
  maps ← lineMaps tenantId (map pe_employeeId entries) (map pe_locationId entries)
           (map (fun e => (pe_sourceType e, pe_sourceId e)) entries);
  let batchId := deterministicPayrollId "batch" (JStr request.1) in
  batchPublicId ← randomUUID;
  lines ← exportLines tenantId batchId maps 1 entries;
  csv ← liftResult (catchIntegrity (buildPayrollCsv (map fst lines)));
  mret (mkPrepared batchId batchPublicId lines csv).

(** The credit, and what its settlement must look like. *)
Definition payExport (tenantId periodId : string) (request : PayrollRequestIdentity) (entitlement : FeatureEntitlement) : Tx (Z * Z) :=
  _ ← assertCurrent;
  settlement ← debitFeatureCredit assertCurrent tenantId entitlement ("payroll-export:" +:+ request.1) (exportReason periodId)
    (Some (creditTransactionOf request.1));
  _ ← assertCurrent;
  if negb (settlement.1 =? en_creditCost entitlement) || negb (isSafeInteger settlement.2) || (settlement.2 <? 0) then
    liftResult (payrollRefused 503 "payroll_export_settlement_invalid" "Payroll export settlement is unavailable." "Service unavailable")
  else mret settlement.

(** The batch and its lines, stored. *)
Definition storeExport (tenantId periodId : string) (request : PayrollRequestIdentity) (prepared : PreparedExport)
    (totalPayableMinutes : Z) (settlement : Z * Z) : Tx PayrollExportBatch :=
  _ ← assertCurrent;
  createdAt ← now;
  let batch := batchRow (pr_batchId prepared) (pr_publicId prepared) createdAt tenantId periodId request
    (payrollContentSha256 (pr_csv prepared)) (Z.of_nat (length (pr_lines prepared))) totalPayableMinutes settlement in
  _ ← createRow batch;
  _ ← assertCurrent;
  _ ← createMany (map snd (pr_lines prepared));
  _ ← assertCurrent;
  mret batch.

Definition entriesNamed (tenantId periodId : string) (e : PayrollLockedEntry) : bool :=
  bool_decide (pe_tenantId e = tenantId) && bool_decide (pe_periodId e = periodId).

Definition newExport (identity : SessionIdentity) (period : PayrollPeriodRow) (expectedCreditCost : Z)
    (request : PayrollRequestIdentity) : Tx Json :=
  let tenantId := si_tenantId identity in
  entitled ← assertFeatureEntitled tenantId time_cards true;
  match entitled with
  | None => liftResult (payrollRefused 403 "time_cards_not_entitled" "Payroll export requires usage credits." "Feature unavailable")
  | Some entitlement =>
      if negb (en_creditCost entitlement =? expectedCreditCost) then
        liftResult (exportConflict "payroll_credit_cost_changed"
          "Payroll export credit cost changed; refresh and confirm the current cost.")
      else
        found ← findManyBy entryOrder (entriesNamed tenantId (py_id period));
        let entries := take (Z.to_nat (MAX_PAYROLL_LOCK_ENTRIES + 1)) found in
        totalPayableMinutes ← liftResult (checkLockedEvidence tenantId period entries);
        prepared ← prepareExport tenantId request entries;
        settlement ← payExport tenantId (py_id period) request entitlement;
        batch ← storeExport tenantId (py_id period) request prepared totalPayableMinutes settlement;
        response ← serializeExport noGuard tenantId batch 500 None;
        _ ← assertCurrent;
        _ ← writePayrollAudit identity "PAYROLL_EXPORT_GENERATED" "PayrollExportBatch" (xb_id batch) None (Some response);
        _ ← assertCurrent;
        mret response
  end.

Definition createExportInScope (identity : SessionIdentity) (periodId : string) (expectedCreditCost : Z)
    (request : PayrollRequestIdentity) : Tx Json :=
  let tenantId := si_tenantId identity in
  _ ← lockTenantForFeature tenantId;
  _ ← lockPayrollTenant tenantId;
  _ ← lockPayrollPeriod tenantId periodId;
  replay ← findFirst (fun b => bool_decide (xb_operationId b = request.1));
  match replay with
  | Some batch => replayExport tenantId periodId request batch
  | None =>
      period ← requirePeriodById tenantId periodId;
      if negb (bool_decide (py_status period = "LOCKED")) then
        liftResult (exportConflict "payroll_export_state_invalid" "Only a locked payroll period can be exported.")
      else
        existing ← findFirst (fun b => bool_decide (xb_tenantId b = tenantId) && bool_decide (xb_periodId b = py_id period));
        match existing with
        | Some _ => liftResult (exportConflict "payroll_export_exists" "Payroll period already has its canonical export batch.")
        | None => newExport identity period expectedCreditCost request
        end
  end.

(** [findExportReplay]: in a transaction of its own. *)
Definition findExportReplay (identity : SessionIdentity) (periodId : string) (request : PayrollRequestIdentity) : Tx (option Json) :=
  mutationRun identity (
    found ← findFirst (fun b => bool_decide (xb_operationId b = request.1));
    match found with
    | None => mret None
    | Some batch => response ← replayExport (si_tenantId identity) periodId request batch; mret (Some response)
    end).

(** The [catch] of [createExport]. *)
Definition recoverExport (identity : SessionIdentity) (periodId : string) (request : PayrollRequestIdentity) (error : Exn) : Tx Json :=
  if isUniqueConflict error then
    replay ← findExportReplay identity periodId request;
    match replay with
    | Some response => mret response
    | None => liftResult (exportConflict "payroll_export_conflict" "Payroll period already has its canonical export batch.")
    end
  else if isLockTimeout error then
    replay ← findExportReplay identity periodId request;
    match replay with
    | Some response => mret response
    | None => liftResult (payrollRefused 503 "payroll_concurrent_change" PAYROLL_CONCURRENT_CHANGE "Service unavailable")
    end
  else throwTx error.

(** [try { return await m; } catch (error) { handler(error) }] *)
Definition catching {A} (m : Tx A) (handler : Exn -> Tx A) : Tx A := fun w =>
  match m w with (Ok a, w') => (Ok a, w') | (Throw e, w') => handler e w' end.

Definition createExport (identity : SessionIdentity) (publicPeriodId : string) (expectedCreditCost : Z)
    (idempotencyKeyRaw : option string) : Tx Json :=
  let identity := operationsIdentity identity in
  _ ← prepareCurrentMutation identity;
  periodId ← resolvePeriodId identity publicPeriodId;
  idempotencyKey ← liftResult (normalizeIdempotencyKey idempotencyKeyRaw);
  let request := payrollRequestIdentity (si_tenantId identity) (si_sub identity) EXPORT idempotencyKey
    (JObj [jText "periodId" periodId; jInt "expectedCreditCost" expectedCreditCost]) in
  catching (mutationRun identity (createExportInScope identity periodId expectedCreditCost request))
    (recoverExport identity periodId request).

(** *** Reading and downloading *)

Definition exportMissing {A} : Result A :=
  payrollRefused 404 "payroll_export_not_found" "The requested payroll export was not found in this workspace." "Not found".
Definition evidenceUnavailable {A} (what : string) : Result A :=
  payrollRefused 503 "payroll_reference_integrity_failed" ("Saved payroll " +:+ what +:+ " evidence is unavailable.") "Service unavailable".

Definition getExport (identity : SessionIdentity) (publicExportId : string) (lineLimitText lineCursorText : option string) : Tx Json :=
  let identity := operationsIdentity identity in
  exportId ← liftResult (requiredPublicId publicExportId "payroll_export");
  lineLimit ← liftResult (parseBoundedLimit lineLimitText "line_limit" 500 500);
  decoded ← liftResult (decodeCursor lineCursorText "line_cursor");
  lineCursor ← liftResult (cursorText decoded "publicId" "line_cursor");
  _ ← prepareCurrentMutation identity;
  mutationRun identity (
    found ← findFirst (fun b => bool_decide (xb_tenantId b = si_tenantId identity) && sameUuid (xb_publicId b) exportId);
    _ ← assertCurrent;
    match found with
    | None => liftResult exportMissing
    | Some batch =>
        _ ← verifyExportCreditProvenance assertCurrent batch;
        serializeExport assertCurrent (si_tenantId identity) batch lineLimit lineCursor
    end).

Definition downloadedRow (downloadedAt updatedAt : Z) (b : PayrollExportBatch) : PayrollExportBatch :=
  mkExportBatch (xb_id b) (xb_publicId b) (xb_tenantId b) (xb_periodId b) (xb_operationId b) (xb_requestHash b)
    (xb_creditTransactionId b) (xb_formatVersion b) DOWNLOADED (xb_contentSha256 b) (xb_rowCount b) (xb_totalPayableMinutes b)
    (xb_consumedCredits b) (xb_newBalance b) (xb_createdAt b) (Some downloadedAt) (xb_reconciledAt b) updatedAt.

(** The row [updateMany] of a batch aims at. *)
Definition batchAt (tenantId batchId : string) (status : ExportStatus) (b : PayrollExportBatch) : bool :=
  bool_decide (xb_id b = batchId) && bool_decide (xb_tenantId b = tenantId) && bool_decide (xb_status b = status).

Definition markDownloaded (identity : SessionIdentity) (batch : PayrollExportBatch) : Tx unit :=
  if bool_decide (xb_status batch = GENERATED) then
    downloadedAt ← now;
    _ ← assertCurrent;
    updatedAt ← now;
    changed ← updateMany (batchAt (si_tenantId identity) (xb_id batch) GENERATED) (downloadedRow downloadedAt updatedAt);
    _ ← assertCurrent;
    if negb (changed =? 1)%nat then
      liftResult (exportConflict "payroll_download_state_changed" "Payroll export download state changed. Retry.")
    else
      _ ← assertCurrent;
      _ ← writePayrollAudit identity "PAYROLL_EXPORT_DOWNLOADED" "PayrollExportBatch" (xb_id batch) None
            (Some (JObj [jText "downloadedAt" (toISOString downloadedAt)]));
      assertCurrent
  else mret tt.

(** The batch of the tenant a raw query locked by one of its identifiers. *)
Definition lockBatch (tenantId : string) (isNamed : PayrollExportBatch -> bool) : Tx PayrollExportBatch :=
  locked ← findMany (fun b => bool_decide (xb_tenantId b = tenantId) && isNamed b);
  match locked with
  | [row] =>
      batch ← findFirst (fun b => bool_decide (xb_id b = xb_id row) && bool_decide (xb_tenantId b = tenantId));
      match batch with
      | Some batch => mret batch
      | None => liftResult (evidenceUnavailable "export")
      end
  | _ => liftResult exportMissing
  end.

Definition downloadInScope (identity : SessionIdentity) (publicId : string) : Tx (string * string) :=
  let tenantId := si_tenantId identity in
  _ ← lockPayrollTenant tenantId;
  batch ← lockBatch tenantId (fun b => sameUuid (xb_publicId b) publicId);
  _ ← verifyExportCreditProvenance noGuard batch;
  period ← findFirst (fun p => bool_decide (py_id p = xb_periodId batch) && bool_decide (py_tenantId p = tenantId));
  match period with
  | None => liftResult (evidenceUnavailable "period")
  | Some period =>
      evidence ← loadAndVerifyExportLines noGuard tenantId batch;
      _ ← markDownloaded identity batch;
      mret ("payroll-" +:+ storedDate (py_localStartDate period) +:+ "-" +:+ xb_publicId batch +:+ ".csv", evidence.1)
  end.

(** The name and the content of the file. *)
Definition downloadExport (identity : SessionIdentity) (publicExportId : string) : Tx (string * string) :=
  let identity := operationsIdentity identity in
  _ ← prepareCurrentMutation identity;
  publicId ← liftResult (requiredPublicId publicExportId "payroll_export");
  mutationRun identity (downloadInScope identity publicId).
End Exports.
