(* ===== verification/PayrollExportFacts.v ===== *)
(** * What the export handlers do

    The outcome of [createExport], [downloadExport] and the reads of
    PayrollExport: what a new batch consists of, what verified evidence says
    about the stored lines, and that a refused or merely reading request changes
    nothing. *)

From S2P Require Import Prelude JsStd JsCollections JsDate JsEncoding ContractHelpers TimeZone PayrollDates PayrollRecords.
From S2P Require Import Database FeatureEntitlement Authority ScheduleStore TimeCardPayroll TimeCardStore TimeCards TimeCardClockIn.
From S2P Require Import PayrollStore PayrollPolicies PayrollReview PayrollLock PayrollAmendments PayrollExport.

(** A database and its groups of tables, taken apart. *)
Ltac open_db db := destruct db as [? ? ? ? ? ? ? ? ? ? ? ? ? ? ? ? [] [] ?].

(** ** The reads leave the database alone *)

Section Reads.
Context `{Env, Process, AuthorityEnv, CommitEnv, Collation, Intl, LC : LocaleCompare, SH : Sha256}.

Lemma lineMaps_ReadOnly tenantId employees locations sources : ReadOnly (lineMaps tenantId employees locations sources).
Proof.
  repeat (apply ReadOnly_bind; [apply publicMap_ReadOnly|]; intros ?). apply ReadOnly_ret.
Qed.

Section Guarded.
Context (guard : Tx unit) (Hguard : ReadOnly guard).

Lemma verifyExportCreditProvenance_ReadOnly batch : ReadOnly (verifyExportCreditProvenance guard batch).
Proof using Hguard.
  apply ReadOnly_bind; [apply ReadOnly_findFirst|]. intros ledger. apply ReadOnly_bind; [done|]. intros _.
  destruct (provenanceHolds _ _); eauto with readonly.
Qed.

Lemma loadAndVerifyExportLines_ReadOnly tenantId batch : ReadOnly (loadAndVerifyExportLines guard tenantId batch).
Proof using Hguard.
  unfold loadAndVerifyExportLines. apply ReadOnly_if; [apply ReadOnly_lift|]. apply ReadOnly_bind; [apply findManyBy_ReadOnly|].
  intros found. cbv zeta. apply ReadOnly_bind; [done|]. intros _. apply ReadOnly_if; [apply ReadOnly_lift|].
  apply ReadOnly_bind; [apply lineMaps_ReadOnly|]. intros maps. apply ReadOnly_bind; [done|]. intros _. apply ReadOnly_lift.
Qed.

Lemma cursorLine_ReadOnly tenantId batch lineCursor : ReadOnly (cursorLine guard tenantId batch lineCursor).
Proof using Hguard.
  unfold cursorLine. destruct (truthy lineCursor).
  - apply ReadOnly_bind; [apply ReadOnly_findFirst|]. intros found. apply ReadOnly_bind; [done|]. intros _.
    destruct found; eauto with readonly.
  - apply ReadOnly_bind; [done|]. intros _. apply ReadOnly_ret.
Qed.

Lemma serializeExport_ReadOnly tenantId batch lineLimit lineCursor : ReadOnly (serializeExport guard tenantId batch lineLimit lineCursor).
Proof using Hguard.
  unfold serializeExport. cbv zeta. apply ReadOnly_bind; [apply cursorLine_ReadOnly|]. intros cursor.
  apply ReadOnly_bind; [apply findManyBy_ReadOnly|]. intros found. apply ReadOnly_bind; [done|]. intros _.
  apply ReadOnly_bind; [destruct (take _ _); eauto with readonly|]. intros states.
  do 3 (apply ReadOnly_bind; [apply publicMap_ReadOnly|]; intros ?). apply ReadOnly_bind; [done|]. intros _.
  apply ReadOnly_bind; [apply ReadOnly_findMany|]. intros counted. apply ReadOnly_bind; [done|]. intros _.
  apply ReadOnly_if; [apply ReadOnly_lift|]. apply ReadOnly_bind; [apply findFirstBy_ReadOnly|]. intros latest.
  apply ReadOnly_bind; [done|]. intros _. apply ReadOnly_bind; [apply loadAndVerifyExportLines_ReadOnly|]. intros evidence.
  apply ReadOnly_bind; [done|]. intros _. apply ReadOnly_lift.
Qed.
End Guarded.


#[local] Hint Resolve lineMaps_ReadOnly verifyExportCreditProvenance_ReadOnly loadAndVerifyExportLines_ReadOnly
  serializeExport_ReadOnly : readonly.

Lemma replayExport_ReadOnly tenantId periodId request batch : ReadOnly (replayExport tenantId periodId request batch).
Proof. unfold replayExport, replayConflict. apply ReadOnly_if; eauto with readonly. Qed.

Lemma eligibility_ReadOnly tenantId : ReadOnly (eligibility tenantId).
Proof.
  intros w. pose proof (assertFeatureEntitled_ReadOnly tenantId time_cards true w) as Hro. unfold eligibility.
  destruct (assertFeatureEntitled _ _ _ w) as [[[e|]|[p| |]] w']; cbn in *; try done. by destruct (pStatus p =? 403).
Qed.

Lemma exportLines_ReadOnly tenantId batchId maps entries : forall lineNumber, ReadOnly (exportLines tenantId batchId maps lineNumber entries).
Proof.
  induction entries as [|e entries IH]; intros n; cbn [exportLines]; [apply ReadOnly_ret|].
  apply ReadOnly_bind; [apply ReadOnly_uuid|]. intros publicId. apply ReadOnly_bind; [apply ReadOnly_lift|]. intros line.
  apply ReadOnly_bind; [apply ReadOnly_lift|]. intros hash. apply ReadOnly_bind; [apply IH|]. intros lines. apply ReadOnly_ret.
Qed.

Lemma prepareExport_ReadOnly tenantId request entries : ReadOnly (prepareExport tenantId request entries).
Proof.
  apply ReadOnly_bind; [apply lineMaps_ReadOnly|]. intros maps. cbv zeta. apply ReadOnly_bind; [apply ReadOnly_uuid|]. intros publicId.
  apply ReadOnly_bind; [apply exportLines_ReadOnly|]. intros lines. apply ReadOnly_bind; [apply ReadOnly_lift|]. intros csv.
  apply ReadOnly_ret.
Qed.

Lemma lockBatch_ReadOnly tenantId isNamed : ReadOnly (lockBatch tenantId isNamed).
Proof.
  apply ReadOnly_bind; [apply ReadOnly_findMany|]. intros [|b [|? ?]]; [apply ReadOnly_lift| |apply ReadOnly_lift].
  apply ReadOnly_bind; [apply ReadOnly_findFirst|]. intros [?|]; eauto with readonly.
Qed.

Lemma findExportReplay_ReadOnly identity periodId request : ReadOnly (findExportReplay identity periodId request).
Proof.
  apply mutationRun_ReadOnly. apply ReadOnly_bind; [apply ReadOnly_findFirst|]. intros [b|]; [|apply ReadOnly_ret].
  apply ReadOnly_bind; [apply replayExport_ReadOnly|]. intros response. apply ReadOnly_ret.
Qed.

Lemma recoverExport_ReadOnly identity periodId request error : ReadOnly (recoverExport identity periodId request error).
Proof.
  unfold recoverExport. destruct (isUniqueConflict error); [|destruct (isLockTimeout error); [|apply ReadOnly_throw]];
    (apply ReadOnly_bind; [apply findExportReplay_ReadOnly|]; intros [r|]; eauto with readonly).
Qed.

Lemma getExport_ReadOnly identity publicExportId lineLimit lineCursor : ReadOnly (getExport identity publicExportId lineLimit lineCursor).
Proof.
  do 4 (apply ReadOnly_bind; [apply ReadOnly_lift|]; intros ?). apply ReadOnly_bind; [apply prepareCurrentMutation_ReadOnly|]. intros _.
  apply mutationRun_ReadOnly. apply ReadOnly_bind; [apply ReadOnly_findFirst|]. intros found.
  apply ReadOnly_bind; [apply ReadOnly_current|]. intros _. destruct found as [b|]; [|apply ReadOnly_lift].
  apply ReadOnly_bind; [apply verifyExportCreditProvenance_ReadOnly, ReadOnly_current|]. intros _.
  apply serializeExport_ReadOnly, ReadOnly_current.
Qed.

Lemma exportEntitlement_ReadOnly identity : ReadOnly (exportEntitlement identity).
Proof.
  apply ReadOnly_bind; [apply prepareCurrentMutation_ReadOnly|]. intros _. apply mutationRun_ReadOnly.
  apply ReadOnly_bind; [apply eligibility_ReadOnly|]. intros r. apply ReadOnly_bind; [apply ReadOnly_current|]. intros _. apply ReadOnly_ret.
Qed.
End Reads.

#[export] Hint Resolve lineMaps_ReadOnly verifyExportCreditProvenance_ReadOnly loadAndVerifyExportLines_ReadOnly
  serializeExport_ReadOnly replayExport_ReadOnly exportLines_ReadOnly prepareExport_ReadOnly lockBatch_ReadOnly
  recoverExport_ReadOnly findManyBy_ReadOnly findFirstBy_ReadOnly : readonly.

(** ** Evidence *)

(** The identifiers of the maps are those of rows of the tenant. *)
Definition named {R} (tenantOf idOf publicOf : R -> string) (tenantId : string) (rows : list R) (m : JsMap string string) : Prop :=
  forall id publicId, mapGet m id = Some publicId -> exists r, r ∈ rows /\ tenantOf r = tenantId /\ idOf r = id /\ publicOf r = publicId.

Record mapsOf (tenantId : string) (db : Db) (maps : LineMaps) : Prop := mkMapsOf {
  mo_users : named us_tenantId us_id us_publicId tenantId (db_users db) (lm_users maps);
  mo_locations : named lo_tenantId lo_id lo_publicId tenantId (db_locations db) (lm_locations maps);
  mo_timeCards : named tc_tenantId tc_id tc_publicId tenantId (db_timeCards db) (lm_timeCards maps);
  mo_amendments : named pm_tenantId pm_id pm_publicId tenantId (pt_amendments (db_payroll db)) (lm_amendments maps);
}.

Section Evidence.
Context `{Env, Collation, LC : LocaleCompare, SH : Sha256}.

Lemma publicMap_Ok {R} `{Table R} (tenantOf idOf publicOf : R -> string) tenantId ids m w w' :
  publicMap tenantOf idOf publicOf tenantId ids w = (Ok m, w') ->
  w_db w' = w_db w /\ named tenantOf idOf publicOf tenantId (rows (w_db w)) m.
Proof.
  unfold publicMap. destruct (remove_dups _) as [|i l]; [intros [<- <-]%Tx_ret_Ok; by split|].
  intros (found & w1 & [-> E]%findMany_Ok & [<- <-]%Tx_ret_Ok)%Tx_bind_Ok. split; [done|]. intros id publicId Hg.
  apply mapOf_found in Hg as (r & Hr & <- & <-). apply list_elem_of_In, filter_In in Hr as [Hin Hp].
  apply andb_true_iff in Hp as [Ht%bool_decide_eq_true _]. exists r. split; [by apply list_elem_of_In|done].
Qed.

Lemma lineMaps_Ok tenantId employees locations sources maps w w' :
  lineMaps tenantId employees locations sources w = (Ok maps, w') -> w_db w' = w_db w /\ mapsOf tenantId (w_db w) maps.
Proof.
  intros (u & w1 & [E1 Hu]%publicMap_Ok & Hr)%Tx_bind_Ok. apply Tx_bind_Ok in Hr as (l & w2 & [E2 Hl]%publicMap_Ok & Hr).
  apply Tx_bind_Ok in Hr as (t & w3 & [E3 Ht]%publicMap_Ok & Hr). apply Tx_bind_Ok in Hr as (a & w4 & [E4 Ha]%publicMap_Ok & Hr).
  apply Tx_ret_Ok in Hr as [<- <-]. rewrite E4, E3, E2, E1 in *. split; [done|]. by split.
Qed.

(** The stored hash of a line is that of its text in the encoding. *)
Definition hashedAs (encoding : LineEncoding) (tenantId batchId : string) (row : PayrollExportLine) (line : PayrollCsvLine) : Prop :=
  payrollExportLineSha256 tenantId batchId (xl_lockedEntryId row) (match encoding with publicIds => line | legacyIds => legacyLine row end)
    = Ok (xl_canonicalSha256 row).

Lemma rowEncoding_Ok tenantId batchId row line encoding :
  rowEncoding tenantId batchId row line = Ok (Some encoding) -> hashedAs encoding tenantId batchId row line.
Proof.
  unfold rowEncoding, hashedAs. intros Hr. inv_ok. case_bool_decide as E1; [simplify_eq; congruence|].
  case_bool_decide as E2; [simplify_eq; congruence|done].
Qed.

Lemma verifyLines_Ok maps tenantId batchId rows : forall encoding total last sum lines,
  verifyLines maps tenantId batchId encoding total rows = Ok (last, sum, lines) ->
  sum = total + foldr Z.add 0 (map xl_payableMinutes rows) /\
  Forall2 (fun row line => storedLine maps row = Ok line) rows lines /\
  (isPresent encoding = true -> last = encoding) /\
  (rows <> [] -> exists e, last = Some e /\ Forall2 (hashedAs e tenantId batchId) rows lines).
Proof.
  induction rows as [|row rows IH]; intros encoding total last sum lines; cbn [verifyLines map foldr].
  { intros [= <- <- <-]. split; [lia|]. split; [constructor|]. by split. }
  intros Hr. destruct (storedLine maps row) as [line|] eqn:El; [|done]. cbn in Hr.
  destruct (rowEncoding _ _ _ _) as [[found|]|] eqn:Ef; [|done..]. cbn in Hr. apply rowEncoding_Ok in Ef.
  destruct (isPresent encoding && _) eqn:Ee; [done|]. destruct (verifyLines _ _ _ _ _ _) as [[[last' sum'] lines']|] eqn:Ev; [|done].
  cbn in Hr. injection Hr as -> -> <-. apply IH in Ev as (-> & Hf & Hl & He). specialize (Hl eq_refl). subst last.
  split; [lia|]. split; [by constructor|]. split.
  - intros Hp. rewrite Hp in Ee. cbn in Ee. case_bool_decide; [done|discriminate].
  - intros _. exists found. split; [done|]. constructor; [done|]. destruct rows as [|r rows]; [by inversion Hf|].
    by destruct He as (e & [= <-] & He).
Qed.

(** The lines of a batch, in the order of the file. *)
Definition lineOfBatch (tenantId batchId : string) (l : PayrollExportLine) : bool :=
  bool_decide (xl_tenantId l = tenantId) && bool_decide (xl_batchId l = batchId).
Definition linesOfBatch (db : Db) (tenantId batchId : string) : list PayrollExportLine :=
  sortBy lineOrder (List.filter (lineOfBatch tenantId batchId) (et_lines (db_exports db))).

(** What reading the lines of a batch verified, for a content and its hash. *)
Record Evidence (tenantId : string) (db : Db) (batch : PayrollExportBatch) (content sha : string) (maps : LineMaps)
    (encoding : LineEncoding) (lines : list PayrollCsvLine) : Prop := mkEvidence {
  ev_maps : mapsOf tenantId db maps;
  ev_count : Z.of_nat (length (linesOfBatch db tenantId (xb_id batch))) = xb_rowCount batch /\
    1 <= xb_rowCount batch <= MAX_PAYROLL_LOCK_ENTRIES;
  ev_lines : Forall2 (fun row line => storedLine maps row = Ok line) (linesOfBatch db tenantId (xb_id batch)) lines;
  ev_hashes : Forall2 (hashedAs encoding tenantId (xb_id batch)) (linesOfBatch db tenantId (xb_id batch)) lines;
  ev_total : foldr Z.add 0 (map xl_payableMinutes (linesOfBatch db tenantId (xb_id batch))) = xb_totalPayableMinutes batch /\
    isSafeInteger (xb_totalPayableMinutes batch) = true;
  ev_content : buildPayrollCsv lines = Ok content /\ sha = payrollContentSha256 content;
  ev_hash : match encoding with
            | publicIds => xb_contentSha256 batch = sha
            | legacyIds => exists legacy, buildPayrollCsv (map legacyLine (linesOfBatch db tenantId (xb_id batch))) = Ok legacy /\
                             xb_contentSha256 batch = payrollContentSha256 legacy
            end;
}.

Lemma verifiedContent_Ok batch rows encoding total lines content sha :
  verifiedContent batch rows (Some encoding, total, lines) = Ok (content, sha) ->
  total = xb_totalPayableMinutes batch /\ isSafeInteger (xb_totalPayableMinutes batch) = true /\
  buildPayrollCsv lines = Ok content /\ sha = payrollContentSha256 content /\
  match encoding with
  | publicIds => xb_contentSha256 batch = sha
  | legacyIds => exists legacy, buildPayrollCsv (map legacyLine rows) = Ok legacy /\ xb_contentSha256 batch = payrollContentSha256 legacy
  end.
Proof.
  unfold verifiedContent, catchIntegrity, integrityFailed, payrollRefused. intros Hr. destruct (negb _ || _) eqn:Et; [done|]. bools.
  destruct (buildPayrollCsv lines) as [public|] eqn:Ep; [|done]. cbn in Hr.
  destruct (buildPayrollCsv (map legacyLine rows)) as [legacy|] eqn:El; [|done]. cbn in Hr.
  destruct (_ || _) eqn:Eh; [|done]. injection Hr as <- <-. destruct Et as [Es ->]. split; [done|]. split; [done|]. split; [done|].
  split; [done|]. destruct encoding; bools; destruct Eh as [[? ?]|[? ?]]; try congruence; try done. by exists legacy.
Qed.

Lemma loadAndVerifyExportLines_Ok guard tenantId batch content sha w w' :
  ReadOnly guard -> loadAndVerifyExportLines guard tenantId batch w = (Ok (content, sha), w') ->
  exists maps encoding lines, Evidence tenantId (w_db w) batch content sha maps encoding lines.
Proof.
  intros Hg. remember (w_db w) as db eqn:Hdb. symmetry in Hdb. unfold loadAndVerifyExportLines.
  destruct (_ || _) eqn:Ec; [by intros [? _]%liftResult_Ok|]. bools. intros Hr.
  apply Tx_bind_Ok in Hr as (found & w1 & [E1 ->]%findManyBy_Ok & Hr). rewrite Hdb in E1. cbn [rows Table_Line] in Hr.
  rewrite Hdb in Hr. fold (lineOfBatch tenantId (xb_id batch)) in Hr. change (sortBy lineOrder _) with (linesOfBatch db tenantId (xb_id batch)) in Hr.
  cbv zeta in Hr. apply Tx_bind_Ok in Hr as (u & w2 & Hu & Hr). apply (ReadOnly_Ok _ _ _ _ Hg) in Hu. rewrite E1 in Hu.
  destruct (negb _ || _) eqn:El; [by apply liftResult_Ok in Hr as [? _]|]. bools. destruct El as [El Em].
  assert (Hall : take (Z.to_nat (MAX_PAYROLL_LOCK_ENTRIES + 1)) (linesOfBatch db tenantId (xb_id batch)) = linesOfBatch db tenantId (xb_id batch)).
  { apply take_ge. rewrite length_take in *. unfold MAX_PAYROLL_LOCK_ENTRIES in *. lia. }
  rewrite Hall in *. apply Tx_bind_Ok in Hr as (maps & w3 & [E3 Hm]%lineMaps_Ok & Hr). rewrite Hu in Hm.
  apply Tx_bind_Ok in Hr as (u2 & w4 & _ & Hr). apply liftResult_Ok in Hr as [Hr _].
  destruct (verifyLines _ _ _ _ _ _) as [[[last sum] lines]|] eqn:Ev; [|done]. cbn in Hr.
  apply verifyLines_Ok in Ev as (-> & Hf & _ & He). destruct He as (e & -> & He).
  { intros Hnil. rewrite Hnil in El. cbn in El. lia. }
  apply verifiedContent_Ok in Hr as (Ht & Hs & Hb & Hsha & Hh). exists maps, e, lines. split; try done; lia.
Qed.
End Evidence.

(** ** A new batch *)

(** The answer shows the batch as it is stored, its evidence verified. *)
Definition ShowsExport `{Collation, LocaleCompare, Sha256} (tenantId : string) (db : Db) (batch : PayrollExportBatch) (response : Json) : Prop :=
  exists period sha lines cursor accepted rejected pending latest content maps encoding csvLines,
    response = exportJson batch period sha lines cursor accepted rejected pending latest /\
    Evidence tenantId db batch content sha maps encoding csvLines.

(** The ledger row of the batch is there. *)
Definition paidFor (db : Db) (batch : PayrollExportBatch) : Prop :=
  provenanceHolds batch (List.find (fun c => bool_decide (ct_id c = xb_creditTransactionId batch)) (db_credits db)) = true.

(** The line and the row made of the entry with its number. *)
Definition newLine `{LocaleCompare, Sha256} (tenantId batchId : string) (maps : LineMaps) (numbered : Z * PayrollLockedEntry)
    (new : PayrollCsvLine * PayrollExportLine) : Prop :=
  exists publicId sha, entryLine maps publicId numbered.1 numbered.2 = Ok new.1 /\
    payrollExportLineSha256 tenantId batchId (pe_id numbered.2) new.1 = Ok sha /\
    new.2 = lineRow tenantId batchId publicId numbered.1 sha numbered.2.

Definition numberedFrom (n : Z) (entries : list PayrollLockedEntry) : list (Z * PayrollLockedEntry) :=
  imap (fun i e => (n + Z.of_nat i, e)) entries.

Record ExportCreated `{Collation, LocaleCompare, Sha256} (identity : SessionIdentity) (periodId : string) (cost : Z)
    (request : PayrollRequestIdentity) (db db' : Db) (period : PayrollPeriodRow) (maps : LineMaps)
    (entries : list PayrollLockedEntry) (news : list (PayrollCsvLine * PayrollExportLine)) (csv : string)
    (batch : PayrollExportBatch) : Prop := mkExportCreated {
  xc_period : period ∈ db_periods db /\ py_id period = periodId /\ py_tenantId period = si_tenantId identity /\
    py_status period = "LOCKED";
  xc_first : forall b, b ∈ et_batches (db_exports db) -> xb_operationId b <> request.1 /\
    ~ (xb_tenantId b = si_tenantId identity /\ xb_periodId b = periodId);
  xc_entries : entries = sortBy entryOrder (List.filter (entriesNamed (si_tenantId identity) periodId) (pt_entries (db_payroll db))) /\
    py_lockedEntryCount period = Some (Z.of_nat (length entries)) /\ 1 <= Z.of_nat (length entries) <= MAX_PAYROLL_LOCK_ENTRIES;
  xc_evidence : py_totalPayableMinutes period = Some (payTotal entries) /\ isSafeInteger (payTotal entries) = true /\
    exists sha, payrollLockAggregateSha256 (si_tenantId identity) periodId (map pe_canonicalSha256 entries) (payTotal entries) = Ok sha /\
      py_lockedEntrySha256 period = Some sha;
  xc_maps : mapsOf (si_tenantId identity) db maps;
  xc_lines : Forall2 (newLine (si_tenantId identity) (xb_id batch) maps) (numberedFrom 1 entries) news;
  xc_csv : buildPayrollCsv (map fst news) = Ok csv;
  xc_batch : exists publicId createdAt settlement paid audit,
    batch = batchRow (deterministicPayrollId "batch" (JStr request.1)) publicId createdAt (si_tenantId identity) periodId request
      (payrollContentSha256 csv) (Z.of_nat (length entries)) (payTotal entries) settlement /\
    settlement.1 = cost /\ 0 <= settlement.2 <= MAX_SAFE_INTEGER /\
    (replayed (creditTransactionOf request.1) (si_tenantId identity) (exportReason periodId) cost settlement db paid \/
     debited (creditTransactionOf request.1) (si_tenantId identity) (exportReason periodId) cost settlement db paid) /\
    existsb (conflicts batch) (et_batches (db_exports db)) = false /\
    insertAll (map snd news) (et_lines (db_exports db)) = Some (et_lines (db_exports db) ++ map snd news) /\
    al_action audit = "PAYROLL_EXPORT_GENERATED" /\
    db' = withRows (db_audits db ++ [audit]) (withRows (et_lines (db_exports db) ++ map snd news)
            (withRows (et_batches (db_exports db) ++ [batch]) paid));
}.

(** What an export that returned came to: the batch of the same request, or a
    new one. *)
Inductive ExportCommitted `{Collation, LocaleCompare, Sha256} (identity : SessionIdentity) (periodId : string) (cost : Z)
    (request : PayrollRequestIdentity) (db : Db) : PayrollExportBatch -> Db -> Prop :=
  | export_replayed batch :
      batch ∈ et_batches (db_exports db) -> xb_operationId batch = request.1 -> xb_tenantId batch = si_tenantId identity ->
      xb_periodId batch = periodId -> xb_requestHash batch = request.2 -> paidFor db batch ->
      ExportCommitted identity periodId cost request db batch db
  | export_now db' period maps entries news csv batch :
      ExportCreated identity periodId cost request db db' period maps entries news csv batch ->
      ExportCommitted identity periodId cost request db batch db'.

Section Creating.
Context `{Env, Process, AuthorityEnv, CommitEnv, Collation, Intl, LC : LocaleCompare, SH : Sha256}.

(** The next call of the run [H] is the guard, which reads by [Hg]. *)
#[local] Ltac skip_guard H Hdb Hg :=
  let u := fresh "u" in let w1 := fresh "wx" in let E := fresh "E" in
  apply Tx_bind_Ok in H as (u & w1 & E & H); apply (ReadOnly_Ok _ _ _ _ Hg) in E; rewrite Hdb in E; clear Hdb; rename E into Hdb.

Lemma serializeExport_Ok guard tenantId batch limit cursor response w w' :
  ReadOnly guard -> serializeExport guard tenantId batch limit cursor w = (Ok response, w') ->
  ShowsExport tenantId (w_db w) batch response.
Proof.
  intros Hg. remember (w_db w) as db eqn:Hdb. symmetry in Hdb. unfold serializeExport. cbv zeta. intros Hr.
  apply Tx_bind_Ok in Hr as (c & w1 & E & Hr). apply (ReadOnly_Ok _ _ _ _ (cursorLine_ReadOnly _ Hg _ _ _)) in E. rewrite Hdb in E.
  clear Hdb. rename E into Hdb. skip_read Hr Hdb. skip_guard Hr Hdb Hg.
  apply Tx_bind_Ok in Hr as (states & w2 & E & Hr).
  assert (E2 : w_db w2 = db).
  { rewrite <- Hdb. eapply ReadOnly_Ok, E. destruct (take _ _); eauto with readonly. }
  clear Hdb E. rename E2 into Hdb.
  apply Tx_bind_Ok in Hr as (entries & w3 & [E _]%publicMap_Ok & Hr). rewrite Hdb in E. clear Hdb. rename E into Hdb.
  apply Tx_bind_Ok in Hr as (users & w4 & [E _]%publicMap_Ok & Hr). rewrite Hdb in E. clear Hdb. rename E into Hdb.
  apply Tx_bind_Ok in Hr as (periods & w5 & [E _]%publicMap_Ok & Hr). rewrite Hdb in E. clear Hdb. rename E into Hdb.
  skip_guard Hr Hdb Hg. skip_read Hr Hdb. skip_guard Hr Hdb Hg. destruct (_ <? 0); [by apply liftResult_Ok in Hr as [? _]|].
  apply Tx_bind_Ok in Hr as (latest & w6 & [E _]%findFirstBy_Ok & Hr). rewrite Hdb in E. clear Hdb. rename E into Hdb.
  skip_guard Hr Hdb Hg. apply Tx_bind_Ok in Hr as ([content sha] & w7 & E & Hr).
  apply loadAndVerifyExportLines_Ok in E as (maps & encoding & csvLines & Hev); [|done]. rewrite Hdb in Hev.
  apply Tx_bind_Ok in Hr as (u9 & w8 & _ & Hr). apply liftResult_Ok in Hr as [Hr _].
  destruct (requireMapped periods _ _) as [period|]; [|done]. cbn in Hr. destruct (mapM _ _) as [lines|]; [|done]. cbn in Hr.
  injection Hr as <-. do 12 eexists. split; [reflexivity|exact Hev].
Qed.

Lemma verifyExportCreditProvenance_Ok guard batch u w w' :
  verifyExportCreditProvenance guard batch w = (Ok u, w') -> paidFor (w_db w) batch.
Proof.
  intros (ledger & w1 & [-> _]%findFirst_Ok & Hr)%Tx_bind_Ok. apply Tx_bind_Ok in Hr as (? & w2 & _ & Hr). unfold paidFor.
  cbn [rows Table_Credit] in Hr. destruct (provenanceHolds _ _); [done|by apply liftResult_Ok in Hr as [? _]].
Qed.

Lemma replayExport_Ok tenantId periodId request batch response w w' :
  replayExport tenantId periodId request batch w = (Ok response, w') ->
  xb_tenantId batch = tenantId /\ xb_periodId batch = periodId /\ xb_requestHash batch = request.2 /\ paidFor (w_db w) batch /\
  ShowsExport tenantId (w_db w) batch response.
Proof.
  unfold replayExport, replayConflict. destruct (_ || _) eqn:Ec; [by intros [? _]%liftResult_Ok|]. bools.
  intros (u & w1 & Hv & Hs)%Tx_bind_Ok. pose proof (verifyExportCreditProvenance_ReadOnly _ noGuard_ReadOnly batch) as Hro.
  pose proof (ReadOnly_Ok _ _ _ _ Hro Hv) as E. apply verifyExportCreditProvenance_Ok in Hv.
  apply serializeExport_Ok in Hs; [|apply noGuard_ReadOnly]. rewrite E in Hs. tauto.
Qed.

Lemma fold_left_sum l : fold_left Z.add l 0 = foldr Z.add 0 l.
Proof. apply (fold_symmetric Z.add); [apply Z.add_assoc|intros; apply Z.add_comm]. Qed.

Lemma checkLockedEvidence_Ok tenantId period entries total :
  checkLockedEvidence tenantId period entries = Ok total ->
  py_lockedEntryCount period = Some (Z.of_nat (length entries)) /\ 1 <= Z.of_nat (length entries) <= MAX_PAYROLL_LOCK_ENTRIES /\
  total = payTotal entries /\ py_totalPayableMinutes period = Some total /\ isSafeInteger total = true /\
  exists sha, payrollLockAggregateSha256 tenantId (py_id period) (map pe_canonicalSha256 entries) total = Ok sha /\
    py_lockedEntrySha256 period = Some sha.
Proof.
  unfold checkLockedEvidence, exportConflict, payrollRefused. cbv zeta. destruct (_ || _) eqn:E1; [done|].
  destruct (_ || _) eqn:E2 in |- *; [done|]. destruct (payrollLockAggregateSha256 _ _ _ _) as [sha|] eqn:Ea; [|done].
  destruct (negb _) eqn:E3 in |- *; [done|]. intros [= <-]. bools. rewrite fold_left_sum in *.
  split_and!; try tauto; [lia|]. exists sha. split; [done|tauto].
Qed.

Lemma exportLines_Ok tenantId batchId maps entries : forall n news w w',
  exportLines tenantId batchId maps n entries w = (Ok news, w') ->
  Forall2 (newLine tenantId batchId maps) (numberedFrom n entries) news.
Proof.
  induction entries as [|e entries IH]; intros n news w w'; cbn [exportLines].
  - intros [<- _]%Tx_ret_Ok. constructor.
  - intros (publicId & w1 & _ & Hr)%Tx_bind_Ok. apply Tx_bind_Ok in Hr as (line & w2 & [Hl _]%liftResult_Ok & Hr).
    apply Tx_bind_Ok in Hr as (sha & w3 & [Hs _]%liftResult_Ok & Hr). apply Tx_bind_Ok in Hr as (rest & w4 & Hf%IH & [<- _]%Tx_ret_Ok).
    unfold numberedFrom. cbn [imap]. constructor; [by exists publicId, sha; rewrite Z.add_0_r|].
    replace (imap _ entries) with (numberedFrom (n + 1) entries); [done|]. unfold numberedFrom. apply imap_ext.
    intros i x _. cbn. f_equal. lia.
Qed.

Lemma prepareExport_Ok tenantId request entries prepared w w' :
  prepareExport tenantId request entries w = (Ok prepared, w') ->
  pr_batchId prepared = deterministicPayrollId "batch" (JStr request.1) /\ buildPayrollCsv (map fst (pr_lines prepared)) = Ok (pr_csv prepared) /\
  exists maps, mapsOf tenantId (w_db w) maps /\ Forall2 (newLine tenantId (pr_batchId prepared) maps) (numberedFrom 1 entries) (pr_lines prepared).
Proof.
  intros (maps & w1 & [_ Hm]%lineMaps_Ok & Hr)%Tx_bind_Ok. cbv zeta in Hr. apply Tx_bind_Ok in Hr as (publicId & w2 & _ & Hr).
  apply Tx_bind_Ok in Hr as (news & w3 & Hf%exportLines_Ok & Hr). apply Tx_bind_Ok in Hr as (csv & w4 & [Hc _]%liftResult_Ok & Hr).
  apply Tx_ret_Ok in Hr as [<- _]. unfold catchIntegrity, integrityFailed, payrollRefused in Hc.
  destruct (buildPayrollCsv _) eqn:E; [|done]. injection Hc as <-. split; [done|]. split; [done|]. by exists maps.
Qed.
Lemma payExport_Ok tenantId periodId request entitlement settlement w w' :
  payExport tenantId periodId request entitlement w = (Ok settlement, w') ->
  settlement.1 = en_creditCost entitlement /\ 0 <= settlement.2 <= MAX_SAFE_INTEGER /\
  (replayed (creditTransactionOf request.1) tenantId (exportReason periodId) (en_creditCost entitlement) settlement (w_db w) (w_db w') \/
   debited (creditTransactionOf request.1) tenantId (exportReason periodId) (en_creditCost entitlement) settlement (w_db w) (w_db w')).
Proof.
  unfold payExport. intros (u & w1 & [_ ->]%assertCurrent_Ok & Hr)%Tx_bind_Ok. apply Tx_bind_Ok in Hr as (st & w2 & Hd & Hr).
  apply debit_cases in Hd; [|apply ReadOnly_current]. apply Tx_bind_Ok in Hr as (u2 & w3 & [_ ->]%assertCurrent_Ok & Hr).
  destruct (_ || _) eqn:E; [by apply liftResult_Ok in Hr as [? _]|]. apply Tx_ret_Ok in Hr as [<- <-]. unfold isSafeInteger in E. bools.
  split; [tauto|]. split; [lia|]. exact Hd.
Qed.

Lemma storeExport_Ok tenantId periodId request prepared total settlement batch w w' :
  storeExport tenantId periodId request prepared total settlement w = (Ok batch, w') ->
  exists createdAt,
    batch = batchRow (pr_batchId prepared) (pr_publicId prepared) createdAt tenantId periodId request
      (payrollContentSha256 (pr_csv prepared)) (Z.of_nat (length (pr_lines prepared))) total settlement /\
    existsb (conflicts batch) (et_batches (db_exports (w_db w))) = false /\
    insertAll (map snd (pr_lines prepared)) (et_lines (db_exports (w_db w))) = Some (et_lines (db_exports (w_db w)) ++ map snd (pr_lines prepared)) /\
    w_db w' = withRows (et_lines (db_exports (w_db w)) ++ map snd (pr_lines prepared))
                (withRows (et_batches (db_exports (w_db w)) ++ [batch]) (w_db w)).
Proof.
  unfold storeExport. intros (u & w1 & [_ ->]%assertCurrent_Ok & Hr)%Tx_bind_Ok. apply Tx_bind_Ok in Hr as (t & w2 & [-> ->]%now_Ok & Hr).
  cbv zeta in Hr. apply Tx_bind_Ok in Hr as (u2 & w3 & [Hc E3]%createRow_Ok & Hr).
  apply Tx_bind_Ok in Hr as (u3 & w4 & [_ ->]%assertCurrent_Ok & Hr). apply Tx_bind_Ok in Hr as (u4 & w5 & [Hi E5]%createMany_Ok & Hr).
  apply Tx_bind_Ok in Hr as (u5 & w6 & [_ ->]%assertCurrent_Ok & [<- <-]%Tx_ret_Ok). eexists. split; [reflexivity|].
  cbn [rows Table_Batch Table_Line w_db tick] in *. rewrite E3 in Hi, E5. split; [exact Hc|].
  clear -Hi E5. open_db (w_db w). split; [exact Hi|exact E5].
Qed.
Lemma ShowsExport_audit tenantId db (l : list AuditLog) batch response :
  ShowsExport tenantId db batch response -> ShowsExport tenantId (withRows l db) batch response.
Proof.
  intros (period & sha & lines & cursor & a & r & q & latest & content & maps & encoding & csvLines & E & Hev).
  exists period, sha, lines, cursor, a, r, q, latest, content, maps, encoding, csvLines. split; [done|].
  clear -Hev. open_db db. destruct Hev as [[]]. split; [by split|done..].
Qed.

(** A batch that was made is shown, and its ledger row is there. *)
Lemma newExport_Ok identity period cost request db response w w' :
  w_db w = db -> newExport identity period cost request w = (Ok response, w') ->
  period ∈ db_periods db -> py_tenantId period = si_tenantId identity -> py_status period = "LOCKED" ->
  (forall b, b ∈ et_batches (db_exports db) -> xb_operationId b <> request.1 /\
     ~ (xb_tenantId b = si_tenantId identity /\ xb_periodId b = py_id period)) ->
  exists maps entries news csv batch,
    ExportCreated identity (py_id period) cost request db (w_db w') period maps entries news csv batch /\
    ShowsExport (si_tenantId identity) (w_db w') batch response.
Proof.
  intros Hdb Hr Hin Ht Hl Hfirst. unfold newExport in Hr. cbv zeta in Hr.
  apply Tx_bind_Ok in Hr as (granted & w1 & [E ->]%assertFeatureEntitled_Ok & Hr). rewrite Hdb in E. clear Hdb. rename E into Hdb.
  cbn [en_creditCost] in Hr. destruct (1 =? cost) eqn:Ecost; [|by apply liftResult_Ok in Hr as [? _]]. cbn [negb] in Hr. bools. subst cost.
  apply Tx_bind_Ok in Hr as (found & w2 & [E ->]%findManyBy_Ok & Hr). rewrite Hdb in E, Hr. clear w Hdb. rename E into Hdb.
  cbn [rows Table_Entry] in Hr. set (sorted := sortBy _ _) in Hr.
  apply Tx_bind_Ok in Hr as (total & w3 & [Hc <-]%liftResult_Ok & Hr). apply checkLockedEvidence_Ok in Hc as (Hcount & Hlen & -> & Htot & Hsafe & Hsha).
  assert (Hall : take (Z.to_nat (MAX_PAYROLL_LOCK_ENTRIES + 1)) sorted = sorted).
  { apply take_ge. rewrite length_take in Hlen. unfold MAX_PAYROLL_LOCK_ENTRIES in *. lia. }
  rewrite Hall in *. clear Hall.
  apply Tx_bind_Ok in Hr as (prepared & w4 & Hp & Hr). pose proof (ReadOnly_Ok _ _ _ _ (prepareExport_ReadOnly _ _ _) Hp) as E.
  apply prepareExport_Ok in Hp as (Hid & Hcsv & maps & Hmaps & Hnews). rewrite Hdb in E, Hmaps. clear w2 w1 Hdb. rename E into Hdb.
  apply Tx_bind_Ok in Hr as (settlement & w5 & (Hcost & Hbal & Hpaid)%payExport_Ok & Hr). cbn [en_creditCost] in *. rewrite Hdb in Hpaid.
  apply Tx_bind_Ok in Hr as (batch & w6 & (createdAt & Hbatch & Hfresh & Hlines & Estore)%storeExport_Ok & Hr).
  apply Tx_bind_Ok in Hr as (shown & w7 & Hshow & Hr). pose proof (ReadOnly_Ok _ _ _ _ (serializeExport_ReadOnly _ noGuard_ReadOnly _ _ _ _) Hshow) as E7.
  apply serializeExport_Ok in Hshow; [|apply noGuard_ReadOnly].
  apply Tx_bind_Ok in Hr as (u & w8 & [_ ->]%assertCurrent_Ok & Hr).
  apply Tx_bind_Ok in Hr as (u2 & w9 & (a & Ha & _ & _ & _ & _ & _ & _ & E9)%writePayrollAudit_Ok & Hr).
  apply Tx_bind_Ok in Hr as (u3 & w10 & [_ ->]%assertCurrent_Ok & [<- <-]%Tx_ret_Ok). cbn [w_db tick] in *. rewrite E7 in E9.
  destruct (debit_only_money _ _ _ _ _ _ _ Hpaid) as (ts & cs & Em).
  assert (Et : et_batches (db_exports (w_db w5)) = et_batches (db_exports db) /\ et_lines (db_exports (w_db w5)) = et_lines (db_exports db) /\
    db_audits (w_db w5) = db_audits db).
  { rewrite Em. clear. by open_db db. }
  destruct Et as (Eb & El & Ea). rewrite Eb in Hfresh. rewrite El in Hlines.
  exists maps, sorted, (pr_lines prepared), (pr_csv prepared), batch. split; [|rewrite E9; by apply ShowsExport_audit].
  assert (Hxid : xb_id batch = pr_batchId prepared) by by rewrite Hbatch.
  pose proof (Forall2_length _ _ _ Hnews) as Hnum. unfold numberedFrom in Hnum. rewrite length_imap in Hnum.
  split; try done.
  - by rewrite Hxid.
  - exists (pr_publicId prepared), createdAt, settlement, (w_db w5), a. split; [by rewrite Hbatch, <- Hnum, <- Hid|].
    split_and!; try done; [lia|lia|]. rewrite E9, Estore, Eb, El. clear -Ea Em.
    assert (Es : db_audits (withRows (et_lines (db_exports db) ++ map snd (pr_lines prepared))
      (withRows (et_batches (db_exports db) ++ [batch]) (w_db w5))) = db_audits db).
    { rewrite <- Ea. by open_db (w_db w5). }
    cbn [rows Table_Audit]. by rewrite Es.
Qed.

Lemma createExportInScope_Ok identity periodId cost request response w w' :
  createExportInScope identity periodId cost request w = (Ok response, w') ->
  exists batch, ExportCommitted identity periodId cost request (w_db w) batch (w_db w') /\
    ShowsExport (si_tenantId identity) (w_db w') batch response.
Proof.
  remember (w_db w) as db eqn:Hdb. symmetry in Hdb. unfold createExportInScope. cbv zeta. intros Hr.
  apply Tx_bind_Ok in Hr as (u & w1 & E%lockRows_Ok & Hr). rewrite Hdb in E. clear Hdb. rename E into Hdb.
  skip_read Hr Hdb. skip_read Hr Hdb. apply Tx_bind_Ok in Hr as (replay & w4 & [Hreplay E]%findFirst_Ok & Hr).
  rewrite Hdb in E, Hreplay. clear Hdb. rename E into Hdb. cbn [rows Table_Batch] in Hreplay. destruct replay as [batch|].
  - pose proof (ReadOnly_Ok _ _ _ _ (replayExport_ReadOnly _ _ _ _) Hr) as E. apply replayExport_Ok in Hr as (? & ? & ? & Hp & Hs).
    rewrite Hdb in E, Hp, Hs. symmetry in Hreplay. apply find_some in Hreplay as [Hin%list_elem_of_In Hop%bool_decide_eq_true].
    exists batch. rewrite E. split; [by apply export_replayed|done].
  - apply Tx_bind_Ok in Hr as (period & w5 & (E & Hin & Ht & Hi & _)%requirePeriodById_Ok & Hr). rewrite Hdb in E, Hin. clear w4 Hdb. rename E into Hdb.
    case_bool_decide as Hst; [|by apply liftResult_Ok in Hr as [? _]]. cbn [negb] in Hr.
    apply Tx_bind_Ok in Hr as (existing & w6 & [Hexisting E]%findFirst_Ok & Hr). rewrite Hdb in E, Hexisting. clear w5 Hdb. rename E into Hdb.
    destruct existing; [by apply liftResult_Ok in Hr as [? _]|]. symmetry in Hreplay, Hexisting. subst periodId.
    destruct (newExport_Ok _ _ _ _ _ _ _ _ Hdb Hr Hin Ht Hst) as (maps & entries & news & csv & batch & Hx & Hs).
    + intros b Hb%list_elem_of_In. split.
      * intros Hop. pose proof (find_none _ _ Hreplay b Hb) as Hn. cbn in Hn. by rewrite bool_decide_true in Hn.
      * intros [Hbt Hbp]. pose proof (find_none _ _ Hexisting b Hb) as Hn. cbn in Hn. by rewrite !bool_decide_true in Hn.
    + exists batch. split; [by eapply export_now|done].
Qed.
End Creating.

(** The ledger row of a new batch is there. *)
Lemma settled_paidFor tenantId periodId cost settlement request csv publicId createdAt count total batchId db paid :
  (replayed (creditTransactionOf request.1) tenantId (exportReason periodId) cost settlement db paid \/
   debited (creditTransactionOf request.1) tenantId (exportReason periodId) cost settlement db paid) ->
  paidFor paid (batchRow batchId publicId createdAt tenantId periodId request csv count total settlement).
Proof.
  intros (row & Hf & Hm & -> & _)%replayed_after. unfold paidFor, provenanceHolds, batchRow. cbn. rewrite Hf.
  apply find_some in Hf as [_ Hid%bool_decide_eq_true]. unfold settlementMatches in Hm.
  destruct (ct_balanceAfter row) as [b|]; cbn in *; [|by rewrite andb_false_r in Hm].
  bools. tauto.
Qed.

Lemma ExportCreated_paid `{Collation, LocaleCompare, Sha256} identity periodId cost request db db' period maps entries news csv batch :
  ExportCreated identity periodId cost request db db' period maps entries news csv batch -> paidFor db' batch.
Proof.
  intros [_ _ _ _ _ _ _ (publicId & createdAt & settlement & paid & a & -> & _ & _ & Hp & _ & _ & _ & ->)].
  apply settled_paidFor with (publicId := publicId) (createdAt := createdAt) (csv := payrollContentSha256 csv)
    (count := Z.of_nat (length entries)) (total := payTotal entries) (batchId := deterministicPayrollId "batch" (JStr request.1)) in Hp.
  unfold paidFor in *. clear -Hp. by open_db paid.
Qed.

(** ** The handlers *)

(** A handler that recovers by reading. *)
Lemma OutcomeAt_catching {A} db (m : Tx A) handler (C D : A -> Db -> Prop) :
  OutcomeAt db m C -> (forall e, ReadOnly (handler e)) -> (forall a db', C a db' -> D a db') ->
  (forall e w a w', w_db w = db -> handler e w = (Ok a, w') -> D a db) ->
  (forall a db' e w b w', C a db' -> w_db w = db' -> handler e w = (Ok b, w') -> D b db') ->
  OutcomeAt db (catching m handler) D.
Proof.
  intros Hm Hro Hcd Hread Hlost w r w' Hw. unfold catching. destruct (m w) as [[a|e] w1] eqn:Em.
  - intros [= <- <-]. destruct (Hm _ _ _ Hw Em) as [(_ & ? & ?)|(b & Hb & [[= ->]|(? & ?)])]; [done| |done].
    right. exists b. split; [by apply Hcd|by left].
  - intros Hh. pose proof (Hro e w1) as E. rewrite Hh in E. cbn in E.
    destruct (Hm _ _ _ Hw Em) as [(E1 & _)|(b & Hb & _)].
    + destruct r as [a|e']; [right|left; split; [congruence|by exists e']]. exists a. split; [|by left].
      rewrite E, E1. by eapply Hread.
    + right. destruct r as [a|e']; [exists a|exists b]; rewrite E.
      * split; [eapply Hlost; [exact Hb|reflexivity|exact Hh]|by left].
      * split; [by apply Hcd|right; by exists e'].
Qed.

Section Handlers.
Context `{Env, Process, AuthorityEnv, CommitEnv, Collation, Intl, LC : LocaleCompare, SH : Sha256}.

(** The batch of the operation that a recovery answers with. *)
Lemma recoverExport_Ok identity periodId request error response w w' :
  recoverExport identity periodId request error w = (Ok response, w') ->
  exists batch, batch ∈ et_batches (db_exports (w_db w)) /\ xb_operationId batch = request.1 /\ xb_tenantId batch = si_tenantId identity /\
    xb_periodId batch = periodId /\ xb_requestHash batch = request.2 /\ paidFor (w_db w) batch /\
    ShowsExport (si_tenantId identity) (w_db w) batch response.
Proof.
  assert (Hfind : forall found wa wb, w_db wa = w_db w -> findExportReplay identity periodId request wa = (Ok (Some found), wb) ->
    exists batch, batch ∈ et_batches (db_exports (w_db w)) /\ xb_operationId batch = request.1 /\ xb_tenantId batch = si_tenantId identity /\
      xb_periodId batch = periodId /\ xb_requestHash batch = request.2 /\ paidFor (w_db w) batch /\
      ShowsExport (si_tenantId identity) (w_db w) batch found).
  { intros found wa wb <- Hr. destruct (mutationRun_outcome _ _ _ _ _ _ eq_refl Hr) as [(_ & ? & ?)|(o & (w1 & w2 & <- & Ho & _) & [[= <-]|(? & ?)])];
      [done| |done].
    apply Tx_bind_Ok in Ho as (b & w3 & [Eb E3]%findFirst_Ok & Ho). destruct b as [b|]; [|by apply Tx_ret_Ok in Ho as [? _]].
    apply Tx_bind_Ok in Ho as (r2 & w4 & (? & ? & ? & Hp & Hs)%replayExport_Ok & [[= ->] _]%Tx_ret_Ok). rewrite E3 in Hp, Hs.
    symmetry in Eb. apply find_some in Eb as [Hin%list_elem_of_In Hop%bool_decide_eq_true]. by exists b. }
  unfold recoverExport. destruct (isUniqueConflict error); [|destruct (isLockTimeout error); [|by intros ?%throwTx_Ok]];
    intros (found & w1 & Hf & Hr)%Tx_bind_Ok; (destruct found as [f|]; [|by apply liftResult_Ok in Hr as [? _]]);
    apply Tx_ret_Ok in Hr as [<- _]; by eapply Hfind.
Qed.

(** The row a public identifier names. *)
Lemma resolveId_Ok {R} `{Table R} resource (tenantOf publicOf idOf : R -> string) identity publicId id w w' :
  resolveId resource tenantOf publicOf idOf identity publicId w = (Ok id, w') ->
  exists text r, requiredPublicId publicId resource = Ok text /\ r ∈ rows (w_db w) /\ tenantOf r = si_tenantId identity /\
    sameUuid (publicOf r) text = true /\ idOf r = id.
Proof.
  unfold resolveId. intros (text & w1 & [Ht <-]%liftResult_Ok & Hr)%Tx_bind_Ok. exists text.
  apply withTenant_Ok in Hr as (wi & wo & <- & Hr & _). apply Tx_bind_Ok in Hr as (o & w2 & [Eo _]%findFirst_Ok & Hr).
  destruct o as [r|]; [|by apply liftResult_Ok in Hr as [? _]]. apply Tx_ret_Ok in Hr as [<- _]. exists r. symmetry in Eo.
  apply find_some in Eo as [Hin%list_elem_of_In [Hb%bool_decide_eq_true ?]%andb_true_iff]. done.
Qed.

Lemma createExport_outcome_Ok db identity publicPeriodId cost key :
  OutcomeAt db (createExport identity publicPeriodId cost key) (fun response db' =>
    exists text period idempotencyKey batch, requiredPublicId publicPeriodId "payroll_period" = Ok text /\
      period ∈ db_periods db /\ py_tenantId period = trim (si_tenantId identity) /\ sameUuid (py_publicId period) text = true /\
      normalizeIdempotencyKey key = Ok idempotencyKey /\
      ExportCommitted (operationsIdentity identity) (py_id period) cost
        (requestOf identity EXPORT idempotencyKey (JObj [jText "periodId" (py_id period); jInt "expectedCreditCost" cost])) db batch db' /\
      ShowsExport (trim (si_tenantId identity)) db' batch response).
Proof.
  unfold createExport. cbv zeta. apply OutcomeAt_bind; [eauto with readonly|]. intros _ _ _ _ _.
  apply OutcomeAt_bind; [eauto with readonly|]. intros w1 periodId w1' Hw1 (text & period & Ht & Hp & Htn & Hu & <-)%resolveId_Ok.
  apply OutcomeAt_bind; [eauto with readonly|]. intros w2 k w2' _ [Hkey _]%liftResult_Ok. rewrite Hw1 in Hp. clear Hw1. cbn [rows Table_Period] in Hp.
  set (request := requestOf identity EXPORT k (JObj [jText "periodId" (py_id period); jInt "expectedCreditCost" cost])).
  eapply OutcomeAt_impl with (C := fun response db' => exists batch,
    ExportCommitted (operationsIdentity identity) (py_id period) cost request db batch db' /\
    ShowsExport (si_tenantId (operationsIdentity identity)) db' batch response).
  2:{ intros a db' (batch & Hc & Hs). exists text, period, k, batch. by split_and!. }
  eapply OutcomeAt_catching with (C := fun response db' => exists batch,
    ExportCommitted (operationsIdentity identity) (py_id period) cost request db batch db' /\
    ShowsExport (si_tenantId (operationsIdentity identity)) db' batch response); [| |done|..].
  - eapply OutcomeAt_impl; [apply mutationRun_outcome|]. intros response db' (wa & wb & <- & Ho & -> & _). by apply createExportInScope_Ok.
  - intros e. apply recoverExport_ReadOnly.
  - intros e w a w' <- (b & ? & ? & ? & ? & ? & ? & Hs)%recoverExport_Ok. exists b. split; [by apply export_replayed|done].
  - intros a db' e w b w' (batch & Hc & _) <- (b2 & Hin & Hop & ? & ? & ? & ? & Hs)%recoverExport_Ok. exists b2. split; [|done].
    inversion Hc as [? _ _ _ _ _ _|db2 p maps entries news csv b3 Hx]; subst; [by apply export_replayed|].
    assert (b2 = batch) as ->; [|by eapply export_now].
    destruct Hx as [_ Hfirst _ _ _ _ _ (? & ? & ? & paid & ? & _ & _ & _ & Hpaid & _ & _ & _ & Edb)].
    rewrite Edb in Hin. destruct (debit_only_money _ _ _ _ _ _ _ Hpaid) as (ts & cs & ->).
    assert (Hin2 : b2 ∈ et_batches (db_exports db) ++ [batch]) by (clear -Hin; by open_db db).
    apply elem_of_app in Hin2 as [Hin2|Hin2%list_elem_of_singleton]; [|done]. by destruct (Hfirst b2 Hin2).
Qed.
(** *** Downloads *)

(** [keep_read], from the database [Hold] says it read. *)
#[local] Ltac keep_now H Hdb a E :=
  let w1 := fresh "wx" in let E' := fresh "E'" in
  apply Tx_bind_Ok in H as (a & w1 & E & H); read_only E E';
  rewrite Hdb in E'; pose proof Hdb as Hold; clear Hdb; rename E' into Hdb.

Definition fileName (period : PayrollPeriodRow) (batch : PayrollExportBatch) : string :=
  "payroll-" +:+ storedDate (py_localStartDate period) +:+ "-" +:+ xb_publicId batch +:+ ".csv".

(** The file was made of verified evidence; the first download is noted. *)
Record ExportDownloaded (tenantId publicId : string) (db : Db) (batch : PayrollExportBatch) (file : string * string) (db' : Db) : Prop :=
  mkExportDownloaded {
    xd_batch : batch ∈ et_batches (db_exports db) /\ xb_tenantId batch = tenantId /\ sameUuid (xb_publicId batch) publicId = true;
    xd_paid : paidFor db batch;
    xd_name : exists period, period ∈ db_periods db /\ py_id period = xb_periodId batch /\ py_tenantId period = tenantId /\
      file.1 = fileName period batch;
    xd_evidence : exists sha maps encoding lines, Evidence tenantId db batch file.2 sha maps encoding lines;
    xd_noted : xb_status batch <> GENERATED /\ db' = db \/
      xb_status batch = GENERATED /\ exists downloadedAt updatedAt audit, al_action audit = "PAYROLL_EXPORT_DOWNLOADED" /\
        db' = withRows (db_audits db ++ [audit])
                (withRows (replaceRow xb_id (xb_id batch) (downloadedRow downloadedAt updatedAt) (et_batches (db_exports db))) db);
  }.

Lemma markDownloaded_Ok identity batch u db w w' :
  w_db w = db -> NoDup (map xb_id (et_batches (db_exports db))) -> batch ∈ et_batches (db_exports db) ->
  markDownloaded identity batch w = (Ok u, w') ->
  xb_status batch <> GENERATED /\ w_db w' = db \/
  xb_status batch = GENERATED /\ exists downloadedAt updatedAt audit, al_action audit = "PAYROLL_EXPORT_DOWNLOADED" /\
    w_db w' = withRows (db_audits db ++ [audit])
                (withRows (replaceRow xb_id (xb_id batch) (downloadedRow downloadedAt updatedAt) (et_batches (db_exports db))) db).
Proof.
  intros Hdb Hkeys Hin. unfold markDownloaded. case_bool_decide as Hst; [|intros [_ <-]%Tx_ret_Ok; by left]. intros Hr. right. split; [done|].
  apply Tx_bind_Ok in Hr as (t & w1 & [-> ->]%now_Ok & Hr). apply Tx_bind_Ok in Hr as (u1 & w2 & [_ ->]%assertCurrent_Ok & Hr).
  apply Tx_bind_Ok in Hr as (t2 & w3 & [-> ->]%now_Ok & Hr). apply Tx_bind_Ok in Hr as (n & w4 & [-> E4]%updateMany_Ok & Hr).
  apply Tx_bind_Ok in Hr as (u2 & w5 & [_ ->]%assertCurrent_Ok & Hr). cbn [w_db tick] in Hr, E4. rewrite Hdb in Hr, E4.
  cbn [rows Table_Batch] in Hr, E4. destruct (_ =? 1)%nat eqn:El; [|by apply liftResult_Ok in Hr as [? _]]. cbn [negb] in Hr. bools.
  apply (update_one xb_id _ (downloadedRow (nowAt (w_tick w)) (nowAt (w_tick (tick (tick w))))) _ batch Hkeys Hin) in El as [_ El].
  2:{ intros b Hb. unfold batchAt in Hb. bools. tauto. }
  apply Tx_bind_Ok in Hr as (u3 & w6 & [_ ->]%assertCurrent_Ok & Hr).
  apply Tx_bind_Ok in Hr as (u4 & w7 & (a & Ha & _ & _ & _ & _ & _ & _ & E7)%writePayrollAudit_Ok & [_ ->]%assertCurrent_Ok).
  eexists _, _, a. split; [done|]. cbn [w_db tick] in *. rewrite E7, E4, El. clear. by open_db db.
Qed.

Lemma lockBatch_Ok tenantId isNamed batch w w' :
  NoDup (map xb_id (et_batches (db_exports (w_db w)))) -> lockBatch tenantId isNamed w = (Ok batch, w') ->
  w_db w' = w_db w /\ batch ∈ et_batches (db_exports (w_db w)) /\ xb_tenantId batch = tenantId /\ isNamed batch = true.
Proof.
  intros Hkeys (locked & w1 & [-> E1]%findMany_Ok & Hr)%Tx_bind_Ok. cbn [rows Table_Batch] in Hr.
  destruct (List.filter _ _) as [|row [|? ?]] eqn:Ef; [by apply liftResult_Ok in Hr as [? _]| |by apply liftResult_Ok in Hr as [? _]].
  apply Tx_bind_Ok in Hr as (o & w2 & [Eo E2]%findFirst_Ok & Hr). destruct o as [b|]; [|by apply liftResult_Ok in Hr as [? _]].
  apply Tx_ret_Ok in Hr as [<- <-]. rewrite E1 in Eo. symmetry in Eo. apply find_some in Eo as [Hin%list_elem_of_In Hb]. bools.
  destruct Hb as [Hid Ht]. assert (Hrow : In row (List.filter (fun b => bool_decide (xb_tenantId b = tenantId) && isNamed b)
    (et_batches (db_exports (w_db w))))) by (rewrite Ef; by left). apply filter_In in Hrow as [Hrow%list_elem_of_In Hp]. bools.
  rewrite (NoDup_map_inj xb_id _ b row Hkeys Hin Hrow Hid). split; [congruence|]. tauto.
Qed.

Lemma downloadInScope_Ok identity publicId file db w w' :
  w_db w = db -> NoDup (map xb_id (et_batches (db_exports db))) -> downloadInScope identity publicId w = (Ok file, w') ->
  exists batch, ExportDownloaded (si_tenantId identity) publicId db batch file (w_db w').
Proof.
  intros Hdb Hkeys Hr. unfold downloadInScope in Hr. cbv zeta in Hr. skip_read Hr Hdb.
  apply Tx_bind_Ok in Hr as (batch & w1 & E & Hr). apply lockBatch_Ok in E as (E & Hin & Ht & Hu); [|by rewrite Hdb].
  rewrite Hdb in E, Hin. clear Hdb. rename E into Hdb. keep_now Hr Hdb u1 Hp. apply verifyExportCreditProvenance_Ok in Hp. rewrite Hold in Hp. clear Hold.
  apply Tx_bind_Ok in Hr as (o & w3 & [Eo E]%findFirst_Ok & Hr). rewrite Hdb in E, Eo. clear Hdb. rename E into Hdb.
  destruct o as [period|]; [|by apply liftResult_Ok in Hr as [? _]]. symmetry in Eo. apply find_some in Eo as [Hpin%list_elem_of_In Hpb].
  cbn [rows Table_Period] in Hpin. bools. keep_now Hr Hdb evidence Hev. destruct evidence as [content sha].
  apply loadAndVerifyExportLines_Ok in Hev as (maps & encoding & lines & Hev); [|apply noGuard_ReadOnly]. rewrite Hold in Hev.
  apply Tx_bind_Ok in Hr as (u2 & w4 & Hm & [<- <-]%Tx_ret_Ok). exists batch. split; [done|done| |by exists sha, maps, encoding, lines|].
  - exists period. split_and!; tauto || done.
  - eapply markDownloaded_Ok; [exact Hdb|done..].
Qed.

Lemma downloadExport_outcome_Ok db identity publicExportId :
  NoDup (map xb_id (et_batches (db_exports db))) ->
  OutcomeAt db (downloadExport identity publicExportId) (fun file db' =>
    exists text batch, requiredPublicId publicExportId "payroll_export" = Ok text /\
      ExportDownloaded (trim (si_tenantId identity)) text db batch file db').
Proof.
  intros Hkeys. unfold downloadExport. cbv zeta. apply OutcomeAt_bind; [eauto with readonly|]. intros _ _ _ _ _.
  apply OutcomeAt_bind; [eauto with readonly|]. intros w1 text w1' _ [Ht _]%liftResult_Ok.
  eapply OutcomeAt_impl; [apply mutationRun_outcome|]. intros file db' (wa & wb & Hwa & Ho & -> & _).
  apply downloadInScope_Ok with (db := db) in Ho as (batch & Hd); [|done..]. by exists text, batch.
Qed.
End Handlers.
