(* ===== verification/PayrollReads.v ===== *)
(** * The reads of payroll

    [listPolicies], [listPeriods] and [getPeriod] of
    apps/api-v2/src/payroll/payroll.service.ts: policies and periods newest
    first, and one period with its cards, a page at a time, its locked entries,
    amendments and export. *)

From S2P Require Import Prelude JsStd JsCollections JsDate JsEncoding JsDecoding ContractHelpers TimeZone PayrollDates PayrollRecords.
From S2P Require Import Database FeatureEntitlement Authority ScheduleStore Paging OperationsPages OperationsLists.
From S2P Require Import TimeCardPayroll TimeCardStore TimeCards TimeCardOutcomes TimeCardLists.
From S2P Require Import PayrollStore PayrollPolicies PayrollReview PayrollLock PayrollAmendments PayrollExport PayrollExportFacts PayrollHistory PayrollProtocol PayrollOutcomes.

Definition MAX_PAYROLL_HISTORY_PAGE_SIZE : Z := 50.
Definition MAX_PAYROLL_CARD_PAGE_SIZE : Z := 250.

(** A page: its rows and whether another follows. *)
Definition pageAnswered {A} (limit : Z) (rows : list A) : list A * option A :=
  let page := take (Z.to_nat limit) rows in
  (page, if limit <? Z.of_nat (length rows) then last page else None).

Definition policyKey (p : PayrollPolicyVersion) : PageKey := (pv_version p, pv_publicId p).
Definition periodKey (p : PayrollPeriodRow) : PageKey := (py_localStartDate p, py_publicId p).
Definition periodCardKey (c : TimeCard) : PageKey := (0, tc_publicId c).

Definition policyCursor (p : PayrollPolicyVersion) : string :=
  encodeCursor (JObj [jInt "version" (pv_version p); jText "publicId" (pv_publicId p)]).
Definition periodCursor (p : PayrollPeriodRow) : string :=
  encodeCursor (JObj [jText "localStartDate" (storedDate (py_localStartDate p)); jText "publicId" (py_publicId p)]).
Definition periodCardCursor (c : TimeCard) : string := encodeCursor (JObj [jText "publicId" (tc_publicId c)]).

(** [{ data, nextCursor }] *)
Record PayrollPage := mkPayrollPage { pp_data : list Json; pp_nextCursor : option string }.

(** A cursor as the key its page starts after. *)
Definition readPolicyCursor (cursor : option string) : Result (option PageKey) :=
  decoded ← decodeCursor cursor "policy_cursor";
  version ← cursorInteger decoded "version" "policy_cursor";
  publicId ← cursorText decoded "publicId" "policy_cursor";
  Ok (v ← version; Some (v, lowerText (default "" publicId))).

Definition readPeriodCursor (cursor : option string) : Result (option PageKey) :=
  decoded ← decodeCursor cursor "period_cursor";
  localStartDate ← cursorText decoded "localStartDate" "period_cursor";
  publicId ← cursorText decoded "publicId" "period_cursor";
  startDate ← match localStartDate with Some date => Some <$> prismaDate date | None => Ok None end;
  Ok (d ← startDate; Some (d, lowerText (default "" publicId))).

Definition readCardCursorOf (cursor : option string) : Result (option PageKey) :=
  decoded ← decodeCursor cursor "card_cursor";
  publicId ← cursorText decoded "publicId" "card_cursor";
  Ok (id ← publicId; Some (0, lowerText id)).

(** ** The cards of a period *)

(** An open period also shows the closed cards of its window that it could
    adopt. *)
Definition periodCard (tenantId : string) (period : PayrollPeriodRow) (c : TimeCard) : bool :=
  bool_decide (tc_tenantId c = tenantId) && bool_decide (tc_deletedAt c = None)
  && (bool_decide (tc_payrollPeriodId c = Some (py_id period))
      || (bool_decide (py_status period = "OPEN") && bool_decide (tc_payrollPeriodId c = None) && bool_decide (tc_status c = CLOSED)
          && (py_startsAt period <=? tc_clockInAt c) && (tc_clockInAt c <? py_endsAt period)
          && match tc_clockOutAt c with Some out => out <=? py_endsAt period | None => false end)).

Definition approvalOfPage (tenantId periodId : string) (cards : list InternalTimeCard) (a : PayrollTimeCardApproval) : bool :=
  bool_decide (av_tenantId a = tenantId) && bool_decide (av_periodId a = periodId)
  && existsb (fun card => bool_decide (tc_id (ic_row card) = av_timeCardId a) && (tc_revision (ic_row card) =? av_timeCardRevision a)) cards.

Definition cardDecisionJson (approvers : JsMap string string) (a : PayrollTimeCardApproval) : Result Json :=
  decidedBy ← requireMapped approvers (av_decidedByUserId a) "staff";
  Ok (JObj [jInt "timeCardRevision" (av_timeCardRevision a); jText "decision" (decisionText (av_decision a));
            jOptText "reason" (av_reason a); jText "decidedAt" (toISOString (av_decidedAt a)); jText "decidedByUserId" decidedBy]).

Definition payableOf (c : TimeCard) : Z :=
  match tc_clockOutAt c with
  | Some out => Z.max 0 ((out - tc_clockInAt c) / 60000 - tc_breakMinutes c)
  | None => 0
  end.

Definition adoptionEligible (period : PayrollPeriodRow) (c : TimeCard) : bool :=
  bool_decide (py_status period = "OPEN") && bool_decide (tc_payrollPeriodId c = None) && bool_decide (tc_status c = CLOSED)
  && bool_decide (tc_clockOutAt c <> None) && (py_startsAt period <=? tc_clockInAt c)
  && (default (py_endsAt period) (tc_clockOutAt c) <=? py_endsAt period).

(** A card with what was decided about its revision. *)
Definition periodCardJson (period : PayrollPeriodRow) (found : option PayrollTimeCardApproval)
    (approvers : JsMap string string) (card : InternalTimeCard) : Result Json :=
  let c := ic_row card in
  decision ← match found with Some a => cardDecisionJson approvers a | None => Ok JNull end;
  Ok (JObj [jText "id" (tc_publicId c); jInt "timeCardRevision" (tc_revision c);
            ("user", Some (JObj [jText "id" (us_publicId (ic_user card)); jText "name" (us_name (ic_user card));
                                 jText "username" (default "" (us_username (ic_user card)))]));
            jOptText "locationId" (lo_publicId <$> ic_location card);
            jText "clockInAt" (toISOString (tc_clockInAt c)); jOptText "clockOutAt" (toISOString <$> tc_clockOutAt c);
            jInt "breakMinutes" (tc_breakMinutes c); jInt "payableMinutes" (payableOf c);
            jText "updatedAt" (toISOString (tc_updatedAt c));
            jText "displayTimeZone" (if isEmpty (tc_workTimeZone c) then py_timeZone period else tc_workTimeZone c);
            ("included", Some (JBool (bool_decide (tc_payrollPeriodId c = Some (py_id period)))));
            ("adoptionEligible", Some (JBool (adoptionEligible period c)));
            ("decision", Some decision); ("decisionIsCurrent", Some (JBool (isPresent found)))]).

(** ** Locked entries *)

Definition lockedEntryJson (users locations timeCards amendments : JsMap string string) (employeeNames : JsMap string string)
    (row : PayrollLockedEntry) : Result Json :=
  sourceId ← (if bool_decide (pe_sourceType row = "TIME_CARD") then requireMapped timeCards (pe_sourceId row) "time card"
              else requireMapped amendments (pe_sourceId row) "payroll amendment");
  employeeId ← requireMapped users (pe_employeeId row) "staff";
  locationId ← match truthy (pe_locationId row) with Some id => Some <$> requireMapped locations id "location" | None => Ok None end;
  approvedBy ← requireMapped users (pe_approvedByUserId row) "staff";
  Ok (JObj [jText "id" (pe_publicId row); jInt "sequence" (pe_sequence row); jText "sourceType" (pe_sourceType row);
            jText "sourceId" sourceId; jInt "sourceRevision" (pe_sourceRevision row); jText "employeeId" employeeId;
            jOptText "employeeName" (mapGet employeeNames (pe_employeeId row)); jOptText "locationId" locationId;
            jText "workTimeZone" (pe_workTimeZone row); jText "clockInAt" (toISOString (pe_clockInAt row));
            jText "clockOutAt" (toISOString (pe_clockOutAt row)); jInt "breakMinutes" (pe_breakMinutes row);
            jInt "payableMinutes" (pe_payableMinutes row); jText "approvedAt" (toISOString (pe_approvedAt row));
            jText "approvedByUserId" approvedBy; jText "canonicalSha256" (pe_canonicalSha256 row)]).

(** [orderBy: [{ sequence: 'asc' }, { publicId: 'asc' }]] *)
Definition entrySequence (l r : PayrollLockedEntry) : Z :=
  orElse (pe_sequence l - pe_sequence r) (compareText (pe_publicId l) (pe_publicId r)).

Record PeriodDetail := mkPeriodDetail {
  dt_period : Json;
  dt_cards : list Json;
  dt_nextCardCursor : option string;
  dt_lockedEntries : list Json;
  dt_amendments : list Json;
}.

Section Reads.
Context `{Env, Process, AuthorityEnv, CommitEnv, Collation, Intl, LC : LocaleCompare, SH : Sha256}.

(** [loadPayrollPeriodSummaries], which an empty request skips. *)
Definition guardedSummaries (tenantId : string) (periodIds : list string) : Tx (JsMap string PeriodSummary) :=
  match periodIds with
  | [] => mret []
  | _ => found ← query (fun db => Ok (loadPayrollPeriodSummaries (summaryTables db) tenantId periodIds, db)); _ ← assertCurrent; mret found
  end.

Definition listPolicies (identity : SessionIdentity) (limitText cursorText : option string) : Tx PayrollPage :=
  let identity := operationsIdentity identity in
  let tenantId := si_tenantId identity in
  limit ← liftResult (parseBoundedLimit limitText "policy_limit" 25 MAX_PAYROLL_HISTORY_PAGE_SIZE);
  cursor ← liftResult (readPolicyCursor cursorText);
  _ ← prepareCurrentMutation identity;
  mutationRun identity (
    rows ← findPage policyKey (descending keyBefore) (descending compareKeys) (fun _ => ofTenant tenantId) cursor limit;
    _ ← assertCurrent;
    let '(page, next) := pageAnswered limit rows in
    users ← publicUsers tenantId (map (fun p => Some (pv_createdByUserId p)) page);
    _ ← assertCurrent;
    data ← liftResult (mapM (fun row => serializePolicy row users) page);
    mret (mkPayrollPage data (policyCursor <$> next))).

Definition listPeriods (identity : SessionIdentity) (limitText cursorText : option string) : Tx PayrollPage :=
  let identity := operationsIdentity identity in
  let tenantId := si_tenantId identity in
  limit ← liftResult (parseBoundedLimit limitText "period_limit" 25 MAX_PAYROLL_HISTORY_PAGE_SIZE);
  cursor ← liftResult (readPeriodCursor cursorText);
  _ ← prepareCurrentMutation identity;
  mutationRun identity (
    rows ← findPage periodKey (descending keyBefore) (descending compareKeys)
             (fun _ p => bool_decide (py_tenantId p = tenantId)) cursor limit;
    _ ← assertCurrent;
    let '(page, next) := pageAnswered limit rows in
    summaries ← guardedSummaries tenantId (map py_id page);
    policies ← guarded assertCurrent publicPolicies tenantId (map (fun p => Some (py_policyVersionId p)) page);
    _ ← assertCurrent;
    data ← liftResult (mapM (fun row => serializePeriod row (default emptySummary (mapGet summaries (py_id row))) policies) page);
    mret (mkPayrollPage data (periodCursor <$> next))).

Definition requirePeriod (tenantId publicId : string) : Tx PayrollPeriodRow :=
  row ← findFirst (fun p => bool_decide (py_tenantId p = tenantId) && sameUuid (py_publicId p) publicId);
  _ ← assertCurrent;
  match row with
  | Some p => mret p
  | None => liftResult (payrollRefused 404 "payroll_period_not_found"
              "The requested payroll period was not found in this workspace." "Not found")
  end.

Definition serializedLockedEntries (tenantId periodId : string) : Tx (list Json) :=
  found ← findManyBy entrySequence (fun e => bool_decide (pe_tenantId e = tenantId) && bool_decide (pe_periodId e = periodId));
  _ ← assertCurrent;
  let rows := take 5001 found in
  if 5000 <? Z.of_nat (length rows) then
    liftResult (payrollRefused 503 "payroll_entry_limit_invalid" "Stored payroll entry evidence exceeds the supported limit." "Service unavailable")
  else
    users ← guarded assertCurrent publicUsers tenantId (flat_map (fun e => [Some (pe_employeeId e); Some (pe_approvedByUserId e)]) rows);
    locations ← guarded assertCurrent publicLocations tenantId (map pe_locationId rows);
    timeCards ← guarded assertCurrent publicTimeCards tenantId (sourcesOf "TIME_CARD" (map (fun e => (pe_sourceType e, pe_sourceId e)) rows));
    amendments ← guarded assertCurrent publicAmendments tenantId (sourcesOf "AMENDMENT" (map (fun e => (pe_sourceType e, pe_sourceId e)) rows));
    _ ← assertCurrent;
    employees ← match rows with
                | [] => mret []
                | _ => findMany (fun u => bool_decide (us_tenantId u = tenantId) && bool_decide (us_id u ∈ map pe_employeeId rows))
                end;
    _ ← assertCurrent;
    liftResult (mapM (lockedEntryJson users locations timeCards amendments (mapOf (map (fun u => (us_id u, us_name u)) employees))) rows).

(** The cards of a page with what was decided about their revisions. *)
Definition periodCards (tenantId : string) (period : PayrollPeriodRow) (page : list InternalTimeCard) : Tx (list (Result Json)) :=
  approvals ← match page with [] => mret [] | _ => findMany (approvalOfPage tenantId (py_id period) page) end;
  _ ← assertCurrent;
  approvers ← guarded assertCurrent publicUsers tenantId (map (fun a => Some (av_decidedByUserId a)) approvals);
  let decisionByCard := mapOf (map (fun a => (revisionKey (av_timeCardId a) (av_timeCardRevision a), a)) approvals) in
  mret (map (fun card => periodCardJson period
              (mapGet decisionByCard (revisionKey (tc_id (ic_row card)) (tc_revision (ic_row card)))) approvers card) page).

(** The period's export, verified, a page of its lines. *)
Definition exportOfPeriod (tenantId : string) (batch : option PayrollExportBatch) (lineLimit : Z) (lineCursor : option string) : Tx Json :=
  match batch with
  | None => mret JNull
  | Some batch =>
      _ ← verifyExportCreditProvenance assertCurrent batch;
      serializeExport assertCurrent tenantId batch lineLimit lineCursor
  end.

Definition findPeriodCards (tenantId : string) (period : PayrollPeriodRow) (cursor : option PageKey) (limit : Z) : Tx (list InternalTimeCard) := fun w =>
  match findPage periodCardKey keyBefore compareKeys (fun _ => periodCard tenantId period) cursor limit w with
  | (Ok found, w') => (mapM (selectCard (w_db w)) found, w')
  | (Throw e, w') => (Throw e, w')
  end.

Definition getPeriod (identity : SessionIdentity) (publicPeriodId : string)
    (cardLimitText cardCursorText lineLimitText lineCursorText : option string) : Tx PeriodDetail :=
  let identity := operationsIdentity identity in
  let tenantId := si_tenantId identity in
  periodId ← liftResult (requiredPublicId publicPeriodId "payroll_period");
  cardLimit ← liftResult (parseBoundedLimit cardLimitText "card_limit" 100 MAX_PAYROLL_CARD_PAGE_SIZE);
  cardCursor ← liftResult (readCardCursorOf cardCursorText);
  lineLimit ← liftResult (parseBoundedLimit lineLimitText "line_limit" 500 500);
  decoded ← liftResult (decodeCursor lineCursorText "line_cursor");
  lineCursor ← liftResult (cursorText decoded "publicId" "line_cursor");
  _ ← prepareCurrentMutation identity;
  mutationRun identity (
    period ← requirePeriod tenantId periodId;
    rows ← findPeriodCards tenantId period cardCursor cardLimit;
    _ ← assertCurrent;
    let '(page, next) := pageAnswered cardLimit rows in
    cardResults ← periodCards tenantId period page;
    summary ← loadSummary tenantId (py_id period);
    _ ← assertCurrent;
    policies ← guarded assertCurrent publicPolicies tenantId [Some (py_policyVersionId period)];
    lockedEntries ← serializedLockedEntries tenantId (py_id period);
    amendments ← serializedAmendments assertCurrent tenantId (py_id period) (py_status period);
    batch ← findFirst (fun b => bool_decide (xb_tenantId b = tenantId) && bool_decide (xb_periodId b = py_id period));
    _ ← assertCurrent;
    exportBatch ← exportOfPeriod tenantId batch lineLimit lineCursor;
    _ ← assertCurrent;
    periodJson ← liftResult (serializePeriodWith period summary policies exportBatch);
    cards ← liftResult (mapM (fun r => r) cardResults);
    mret (mkPeriodDetail periodJson cards ((fun card => periodCardCursor (ic_row card)) <$> next) lockedEntries (map snd amendments))).
End Reads.

(** ** Cursors are read back *)

Lemma showFuel_length fuel : forall z acc k, 0 <= z < 10 ^ Z.of_nat k -> (1 <= k)%nat ->
  (String.length (showFuel fuel z acc) <= k + String.length acc)%nat.
Proof.
  induction fuel as [|fuel IH]; intros z acc k Hz Hk; cbn [showFuel]; [lia|]. cbv zeta.
  destruct (z <? 10) eqn:E; bools; [cbn [String.length]; lia|]. destruct k as [|k]; [lia|].
  rewrite Nat2Z.inj_succ, Z.pow_succ_r in Hz by lia.
  assert (Hk1 : (1 <= k)%nat) by (destruct k; [cbn in Hz|]; lia).
  etrans; [apply (IH (z / 10) _ k); [div_lia|done]|]. cbn [String.length]. lia.
Qed.

Lemma showZ_plain z : 0 <= z <= MAX_SAFE_INTEGER -> allChars plainChar (showZ z) = true /\ (String.length (showZ z) <= 16)%nat.
Proof.
  intros Hz. unfold showZ. rewrite (proj2 (Z.ltb_ge z 0)) by lia. split.
  - destruct (showNat_spec z) as (_ & Hd & _); [lia|]. eapply allChars_impl; [apply isDigit_plain|exact Hd].
  - etrans; [apply (showFuel_length _ z "" 16)|cbn; lia]; [|lia]. change (10 ^ Z.of_nat 16) with 10000000000000000. unfold MAX_SAFE_INTEGER in Hz. lia.
Qed.

(** The object of a short cursor, read back. *)
Lemma decodeCursor_short v name members :
  valueOf v = VObj members -> allChars (fun c => codeUnit c <? 128) (stringify v) = true -> (String.length (stringify v) <= 380)%nat ->
  decodeCursor (Some (encodeCursor v)) name = Ok (Some (VObj members)).
Proof.
  intros Hv Hc Hl. unfold decodeCursor, encodeCursor. pose proof (decodeJson_encoded v) as Hd. rewrite Hv in Hd.
  pose proof (base64url_length (utf8Bytes (stringify v))) as Hb. rewrite utf8Bytes_length in Hb by done.
  destruct (isEmpty _) eqn:Ee; [apply bool_decide_eq_true in Ee; by rewrite Ee in Hd|].
  rewrite (proj2 (Z.ltb_ge 512 _)) by (unfold strLen; lia). cbn [orb]. by rewrite Hd.
Qed.

Lemma plain_low s : allChars plainChar s = true -> allChars (fun c => codeUnit c <? 128) s = true.
Proof. apply allChars_impl. unfold plainChar. intros c H. bools. bool_lia. Qed.

Lemma cursorText_member object key name text :
  memberOf key object = Some (VStr (codePoints text)) -> text <> "" -> strLen text <= 512 ->
  cursorText (Some object) key name = Ok (Some text).
Proof.
  intros Hm Hne Hl. unfold cursorText. rewrite Hm, pointsText_codePoints. destruct (isEmpty text) eqn:E; [by apply bool_decide_eq_true in E|].
  by rewrite (proj2 (Z.ltb_ge 512 _)) by done.
Qed.

Lemma isUuid_plain s : isUuid s = true -> allChars plainChar s = true /\ String.length s = 36%nat /\ s <> "".
Proof. intros [Hp Hl]%isUuid_cursorId%cursorId_plain. split_and!; [done|done|]. by intros ->. Qed.

(** The cursors of a value and an identifier. *)
Lemma decodeCursor_key key v publicId name :
  allChars plainChar key = true -> (String.length key <= 16)%nat ->
  allChars (fun c => codeUnit c <? 128) (stringify v) = true -> (String.length (stringify v) <= 40)%nat -> isUuid publicId = true ->
  decodeCursor (Some (encodeCursor (JObj [(key, Some v); jText "publicId" publicId]))) name =
    Ok (Some (VObj [(codePoints key, valueOf v); (codePoints "publicId", VStr (codePoints publicId))])).
Proof.
  intros Hk Hkl Hv Hvl (Hp & Hl & _)%isUuid_plain. set (value := JObj _).
  assert (E : stringify value = "{" +:+ ((String dquote (key +:+ String dquote "") +:+ ":" +:+ stringify v) +:+ "," +:+
    (quoteJson "publicId" +:+ ":" +:+ String dquote (publicId +:+ String dquote ""))) +:+ "}").
  { unfold value. rewrite stringify_kept. cbn [keptPairs flat_map jText snd fst app map]. unfold memberText. cbn [fst snd].
    rewrite (quoteJson_plain key) by done. change (stringify (JStr publicId)) with (quoteJson publicId). rewrite (quoteJson_plain publicId), joinWith_cons2 by done. done. }
  apply decodeCursor_short; [unfold value; by rewrite valueOf_kept| |]; rewrite E.
  - rewrite !allChars_app, !allChars_cons, !allChars_app, Hv, (plain_low _ Hp), (plain_low _ Hk). done.
  - rewrite !length_strapp. change (String.length (quoteJson "publicId")) with 10%nat. cbn [String.length]. rewrite !length_strapp. cbn [String.length]. lia.
Qed.

Lemma policyCursor_read p :
  0 <= pv_version p <= MAX_SAFE_INTEGER -> isUuid (pv_publicId p) = true -> lowerText (pv_publicId p) = pv_publicId p ->
  readPolicyCursor (Some (policyCursor p)) = Ok (Some (policyKey p)).
Proof.
  intros Hv Hid Hlow. destruct (isUuid_plain _ Hid) as (_ & Hl & Hne). destruct (showZ_plain _ Hv) as [Hz Hzl].
  unfold readPolicyCursor, policyCursor. change (jInt "version" ?v) with ("version", Some (JNum v)).
  rewrite decodeCursor_key by (done || by apply plain_low || (cbn [stringify]; cbn; lia)). cbn [mbind Result_bind].
  unfold cursorInteger. change (memberOf "version" _) with (Some (VNum (pv_version p) 0)). cbn [mbind option_bind].
  rewrite safeNatural_int by done. cbn [mbind Result_bind].
  rewrite (cursorText_member _ "publicId" _ (pv_publicId p)) by (done || unfold strLen; lia). cbn [mbind Result_bind option_bind default].
  unfold policyKey, id. by rewrite Hlow.
Qed.

Lemma dayText_plain n : 100 <= yearFromDay n <= 9999 -> allChars plainChar (dayText n) = true /\ String.length (dayText n) = 10%nat.
Proof.
  intros Hy. pose proof (toISOString_plain (n * msPerDay)) as Hp. rewrite toISOString_day, allChars_app in Hp by lia.
  apply andb_true_iff in Hp as [Hp _]. split; [done|]. unfold dayText, dateText. rewrite !length_strapp, !length_padDigits. done.
Qed.

Lemma periodCursor_read p n :
  storedDay (py_localStartDate p) n -> isUuid (py_publicId p) = true -> lowerText (py_publicId p) = py_publicId p ->
  readPeriodCursor (Some (periodCursor p)) = Ok (Some (periodKey p)).
Proof.
  intros Hd Hid Hlow. destruct (isUuid_plain _ Hid) as (_ & Hl & Hne). unfold readPeriodCursor, periodCursor, periodKey.
  rewrite (storedDate_day _ _ Hd). destruct Hd as [-> Hy]. destruct (dayText_plain n Hy) as [Hp Hdl].
  change (jText "localStartDate" ?v) with ("localStartDate", Some (JStr v)).
  assert (Hq : stringify (JStr (dayText n)) = String dquote (dayText n +:+ String dquote "")) by by apply quoteJson_plain.
  rewrite decodeCursor_key.
  - cbn [mbind Result_bind]. rewrite (cursorText_member _ "localStartDate" _ (dayText n)); [|done|by intros E; rewrite E in Hdl|unfold strLen; lia].
    cbn [mbind Result_bind]. rewrite (cursorText_member _ "publicId" _ (py_publicId p)) by (done || unfold strLen; lia).
    cbn [mbind Result_bind]. rewrite prismaDate_day by done. cbn [fmap Result_fmap mbind Result_bind option_bind default]. unfold id. by rewrite Hlow.
  - done.
  - cbn. lia.
  - rewrite Hq, allChars_cons, allChars_app, (plain_low _ Hp). done.
  - rewrite Hq. cbn [String.length]. rewrite length_strapp, Hdl. cbn. lia.
  - done.
Qed.

Lemma periodCardCursor_read c :
  isUuid (tc_publicId c) = true -> lowerText (tc_publicId c) = tc_publicId c ->
  readCardCursorOf (Some (periodCardCursor c)) = Ok (Some (periodCardKey c)).
Proof.
  intros Hid Hlow. destruct (isUuid_plain _ Hid) as (Hp & Hl & Hne). unfold readCardCursorOf, periodCardCursor, periodCardKey.
  assert (E : stringify (JObj [jText "publicId" (tc_publicId c)]) = "{" +:+ (quoteJson "publicId" +:+ ":" +:+ String dquote (tc_publicId c +:+ String dquote "")) +:+ "}").
  { rewrite stringify_kept. cbn [keptPairs flat_map jText snd fst app map]. unfold memberText. cbn [fst snd].
    change (stringify (JStr ?s)) with (quoteJson s). by rewrite (quoteJson_plain (tc_publicId c)). }
  erewrite decodeCursor_short; [|apply valueOf_kept| |].
  - cbn [mbind Result_bind]. rewrite (cursorText_member _ "publicId" _ (tc_publicId c)) by (done || unfold strLen; lia).
    cbn [mbind Result_bind option_bind]. by rewrite Hlow.
  - rewrite E, !allChars_app, !allChars_cons, !allChars_app, (plain_low _ Hp). done.
  - rewrite E, !length_strapp. change (String.length (quoteJson "publicId")) with 10%nat. cbn [String.length]. rewrite length_strapp. cbn [String.length]. lia.
Qed.

(** ** What a page holds *)

Lemma summaries_of tables tenantId ids id :
  id ∈ ids -> default emptySummary (mapGet (loadPayrollPeriodSummaries tables tenantId ids) id) = loadPayrollPeriodSummary tables tenantId id.
Proof.
  intros Hid. unfold loadPayrollPeriodSummary. f_equal. unfold loadPayrollPeriodSummaries.
  set (entry := fun p : string * string => (p.2, periodSummary tables tenantId p.2)).
  assert (Hget : forall l k v, mapGet (mapOf (map entry l)) k = Some v -> v = periodSummary tables tenantId k /\ k ∈ map snd l).
  { intros l k v (x & Hx & <- & <-)%(mapOf_found snd (fun p : string * string => periodSummary tables tenantId p.2)).
    split; [done|]. by apply list_elem_of_fmap_2. }
  assert (Hnone : forall l k, mapGet (mapOf (map entry l)) k = None <-> k ∉ map snd l).
  { intros l k. rewrite mapGet_None, mapOf_keys. change (map entry l) with (entry <$> l). by rewrite <- list_fmap_compose. }
  assert (Hin : forall ids' : list string, id ∈ map snd (List.filter (fun p : string * string => bool_decide (p.1 = tenantId) && bool_decide (p.2 ∈ ids')) (tb_periods tables))
            <-> id ∈ ids' /\ (tenantId, id) ∈ tb_periods tables).
  { intros ids'. rewrite list_elem_of_fmap. split.
    - intros ([t i] & -> & [Hp Ht]%list_elem_of_In%filter_In). cbn in Ht.
      apply andb_true_iff in Ht as [->%bool_decide_eq_true Ht%bool_decide_eq_true]. split; [done|]. by apply list_elem_of_In.
    - intros [Hi Hp]. exists (tenantId, id). split; [done|]. apply list_elem_of_In, filter_In. split; [by apply list_elem_of_In|]. cbn.
      by rewrite !bool_decide_true by done. }
  match goal with |- ?a = ?b => destruct a as [v|] eqn:E1; destruct b as [v2|] eqn:E2 end; [| | |done].
  - apply Hget in E1 as [-> _], E2 as [-> _]. done.
  - exfalso. apply Hget in E1 as [_ [_ Hp]%Hin]. apply Hnone in E2. apply E2, Hin. split; [by apply list_elem_of_singleton|done].
  - exfalso. apply Hget in E2 as [_ [_ Hp]%Hin]. apply Hnone in E1. apply E1, Hin. done.
Qed.

Lemma requireMapped_Ok values id resource v : requireMapped values id resource = Ok v -> mapGet values id = Some v /\ v <> "".
Proof.
  unfold requireMapped. destruct (mapGet values id) as [x|]; [|done]. destruct (isEmpty x) eqn:E; [done|]. intros [= ->]. split; [done|].
  intros ->. done.
Qed.

Lemma requireMapped_one id resource v : v <> "" -> requireMapped [(id, v)] id resource = Ok v.
Proof.
  intros Hv. unfold requireMapped. cbn. rewrite decide_True by done. destruct (isEmpty v) eqn:E; [|done]. by apply bool_decide_eq_true in E.
Qed.

Section PageFacts.
Context `{Env, AuthorityEnv, CommitEnv, Collation, Intl, LC : LocaleCompare, SH : Sha256}.

Lemma mutationRun_Ok {A} identity (operation : Tx A) a w w' :
  mutationRun identity operation w = (Ok a, w') -> exists w1 w2, w_db w1 = w_db w /\ operation w1 = (Ok a, w2).
Proof.
  intros Hr. destruct (mutationRun_outcome (w_db w) identity operation w _ w' eq_refl Hr) as [[_ [e ?]]|(b & (w1 & w2 & Hw & Ho & _) & [[= <-]|[e ?]])]; [done| |done].
  by exists w1, w2.
Qed.

Lemma guarded_Ok {R} `{Table R} guard (tenantOf idOf publicOf : R -> string) tenantId ids m w w' :
  ReadOnly guard -> guarded guard (publicMap tenantOf idOf publicOf) tenantId ids w = (Ok m, w') ->
  w_db w' = w_db w /\ named tenantOf idOf publicOf tenantId (rows (w_db w)) m.
Proof.
  intros Hg (found & w1 & [E Hn]%publicMap_Ok & Hr)%Tx_bind_Ok. apply Tx_bind_Ok in Hr as (u & w2 & Hu & [<- <-]%Tx_ret_Ok). split; [|done].
  rewrite <- E. revert Hu. case_bool_decide; [by intros [_ ->]%Tx_ret_Ok|]. by apply ReadOnly_Ok.
Qed.

Lemma guardedSummaries_Ok tenantId ids m w w' :
  guardedSummaries tenantId ids w = (Ok m, w') ->
  w_db w' = w_db w /\ forall id, id ∈ ids -> default emptySummary (mapGet m id) = loadPayrollPeriodSummary (summaryTables (w_db w)) tenantId id.
Proof.
  unfold guardedSummaries. destruct ids as [|i ids]; [intros [<- ->]%Tx_ret_Ok; by split; [|intros id []%not_elem_of_nil]|].
  intros (found & w1 & (_ & db & [= <- <-] & ->)%query_Ok & (u & w2 & [_ ->]%assertCurrent_Ok & [<- <-]%Tx_ret_Ok)%Tx_bind_Ok)%Tx_bind_Ok.
  split; [done|]. intros id. apply summaries_of.
Qed.

Lemma findPeriodCards_Ok tenantId period cursor limit l w w' :
  findPeriodCards tenantId period cursor limit w = (Ok l, w') -> 0 <= limit ->
  w_db w' = w_db w /\ Forall2 (fun c card => selectCard (w_db w) c = Ok card)
    (pageRows periodCardKey keyBefore compareKeys cursor (Z.to_nat limit) (List.filter (periodCard tenantId period) (db_timeCards (w_db w)))) l.
Proof.
  unfold findPeriodCards. destruct (findPage _ _ _ _ _ _ w) as [[found|e] w1] eqn:E; [|done]. intros [= Hm ->] Hl.
  apply findPage_Ok in E as [-> ->]; [|done]. split; [done|]. by apply mapM_Ok_Forall2.
Qed.
End PageFacts.

(** The pages of [pageAnswered], in the terms of [pageAnswer]. *)
Lemma pageAnswered_answers {R D E} (key : R -> PageKey) ahead compare (matching : D -> list R) (shows : D -> R -> E -> Prop) read encode
    c d es limit cursor :
  1 <= limit -> read c = Ok cursor -> (forall r, r ∈ matching d -> read (Some (encode r)) = Ok (Some (key r))) ->
  let rows := pageRows key ahead compare cursor (Z.to_nat limit) (matching d) in
  Forall2 (shows d) (take (Z.to_nat limit) rows) es ->
  pageAnswer key ahead compare matching shows (keyFrom read) c d es (encode <$> (pageAnswered limit rows).2).
Proof.
  intros Hl Hc Henc rows Hsh. eapply pageAnswer_read; [done|exact Hc|done|exact Hsh|]. unfold pageAnswered. cbn [snd]. fold rows.
  by destruct (limit <? _).
Qed.

(** ** Reading a list to its end *)

(** The identifiers of a table as its columns hold them. *)
Definition idsStored {R} (publicIdOf : R -> string) (l : list R) : Prop :=
  NoDup (map publicIdOf l) /\ Forall (fun r => isUuid (publicIdOf r) = true /\ lowerText (publicIdOf r) = publicIdOf r) l.

Lemma idsStored_keys {R} (publicIdOf : R -> string) (key : R -> PageKey) (p : R -> bool) l :
  (forall r, (key r).2 = publicIdOf r) -> idsStored publicIdOf l -> NoDup (map key (List.filter p l)).
Proof.
  intros Hk [Hn _]. induction l as [|r l IH]; [constructor|]. cbn in Hn. apply NoDup_cons in Hn as [Hr Hn]. cbn [List.filter].
  destruct (p r); [|by apply IH]. cbn [map]. apply NoDup_cons. split; [|by apply IH].
  intros (x & E & Hx%list_elem_of_In%filter_In)%list_elem_of_fmap. apply Hr. rewrite <- Hk, E, Hk.
  apply list_elem_of_fmap_2, list_elem_of_In, Hx.
Qed.

(** Versions are integers of the column, start dates are days. *)
Definition policiesStored (db : Db) : Prop :=
  idsStored pv_publicId (db_policies db) /\ Forall (fun p => 0 <= pv_version p <= MAX_SAFE_INTEGER) (db_policies db).
Definition periodsStored (db : Db) : Prop :=
  idsStored py_publicId (db_periods db) /\ Forall (fun p => exists n, storedDay (py_localStartDate p) n) (db_periods db).

Lemma parseBoundedLimit_range value name d m limit : parseBoundedLimit value name d m = Ok limit -> 1 <= d -> 1 <= limit.
Proof.
  unfold parseBoundedLimit. destruct value as [[|c s]|]; [by intros [= <-]| |by intros [= <-]].
  destruct (negb _); [done|]. cbv zeta. destruct (_ || _) eqn:E; [done|]. intros [= <-] _. apply orb_false_iff in E as [E _].
  apply orb_false_iff in E as [_ E]. bool_lia.
Qed.

(** The rows that follow a page, with what each is shown as. *)
Lemma shown_page {A B} (f : A -> Result B) (S : A -> B -> Prop) page data :
  mapM f page = Ok data -> (forall x y, x ∈ page -> f x = Ok y -> S x y) -> Forall2 S page data.
Proof.
  intros Hm%mapM_Ok_Forall2 HS. induction Hm as [|x y l k Hxy Hm IH]; constructor; [apply HS; [set_solver|done]|].
  apply IH. intros. apply HS; [set_solver|done].
Qed.

Section HistoryPages.
Context (identity : SessionIdentity).
#[local] Notation tenantId := (si_tenantId (operationsIdentity identity)).

Definition policiesAnswered (c : option string) (d : Db) (es : list Json) (next : option string) : Prop :=
  exists (env : Env) (auth : AuthorityEnv) (lost : CommitEnv) limit w w', w_db w = d /\
    listPolicies (H := env) (H1 := auth) (H2 := lost) identity limit c w = (Ok (mkPayrollPage es next), w').
Definition policiesListed (d : Db) : list PayrollPolicyVersion := List.filter (ofTenant tenantId) (db_policies d).
(** A policy is shown with the public identifier of its author. *)
Definition policyShown (d : Db) (p : PayrollPolicyVersion) (e : Json) : Prop :=
  exists author, author ∈ db_users d /\ us_tenantId author = tenantId /\ us_id author = pv_createdByUserId p /\
    serializePolicy p [(us_id author, us_publicId author)] = Ok e.

Lemma listPolicies_answers c d es next :
  policiesStored d -> policiesAnswered c d es next ->
  pageAnswer policyKey (descending keyBefore) (descending compareKeys) policiesListed policyShown (keyFrom readPolicyCursor) c d es next.
Proof.
  intros [[_ Hids] Hver] (env & auth & lost & limitText & w & w' & <- & Hr). unfold listPolicies in Hr.
  apply Tx_bind_Ok in Hr as (limit & w1 & [Hlim <-]%liftResult_Ok & Hr). apply parseBoundedLimit_range in Hlim; [|lia].
  apply Tx_bind_Ok in Hr as (cursor & w2 & [Hcur <-]%liftResult_Ok & Hr).
  apply Tx_bind_Ok in Hr as (u & w3 & E3%(ReadOnly_Ok _ _ _ _ (prepareCurrentMutation_ReadOnly _)) & Hr).
  apply mutationRun_Ok in Hr as (w4 & w5 & E4 & Hr). rewrite E3 in E4. clear E3.
  apply Tx_bind_Ok in Hr as (found & w6 & [E6 ->]%findPage_Ok & Hr); [|lia].
  apply Tx_bind_Ok in Hr as (u1 & w7 & [_ ->]%assertCurrent_Ok & Hr). unfold pageAnswered in Hr. cbv zeta beta iota in Hr.
  apply Tx_bind_Ok in Hr as (users & w8 & [_ Hu]%publicMap_Ok & Hr).
  apply Tx_bind_Ok in Hr as (u2 & w9 & _ & Hr). apply Tx_bind_Ok in Hr as (data & w10 & [Hd _]%liftResult_Ok & [[= -> <-] _]%Tx_ret_Ok).
  rewrite E4 in Hd |- *. cbn [w_db tick] in Hu. rewrite E6, E4 in Hu.
  apply (pageAnswered_answers policyKey _ _ policiesListed policyShown readPolicyCursor policyCursor c (w_db w) es limit cursor); [done|exact Hcur| |].
  - intros r [Hr _]%filter_elem. rewrite Forall_forall in Hids, Hver. destruct (Hids r Hr). by apply policyCursor_read; [apply Hver|..].
  - eapply shown_page; [exact Hd|]. intros p e _ He. unfold serializePolicy in He.
    apply Result_bind_Ok in He as (author & [Hg Hne]%requireMapped_Ok & He).
    destruct (Hu _ _ Hg) as (r & Hin & Ht & Hid & Hp). exists r. split_and!; [done..|]. unfold serializePolicy. rewrite Hid, Hp, requireMapped_one by done. exact He.
Qed.

Definition periodsAnswered (c : option string) (d : Db) (es : list Json) (next : option string) : Prop :=
  exists (env : Env) (auth : AuthorityEnv) (lost : CommitEnv) limit w w', w_db w = d /\
    listPeriods (H := env) (H1 := auth) (H2 := lost) identity limit c w = (Ok (mkPayrollPage es next), w').
Definition periodsListed (d : Db) : list PayrollPeriodRow := List.filter (fun p => bool_decide (py_tenantId p = tenantId)) (db_periods d).
(** A period is shown with its own summary and its policy. *)
Definition periodShown (d : Db) (p : PayrollPeriodRow) (e : Json) : Prop :=
  exists policy, policy ∈ db_policies d /\ pv_tenantId policy = tenantId /\ pv_id policy = py_policyVersionId p /\
    serializePeriod p (loadPayrollPeriodSummary (summaryTables d) tenantId (py_id p)) [(pv_id policy, pv_publicId policy)] = Ok e.

Lemma listPeriods_answers c d es next :
  periodsStored d -> periodsAnswered c d es next ->
  pageAnswer periodKey (descending keyBefore) (descending compareKeys) periodsListed periodShown (keyFrom readPeriodCursor) c d es next.
Proof.
  intros [[_ Hids] Hday] (env & auth & lost & limitText & w & w' & <- & Hr). unfold listPeriods in Hr.
  apply Tx_bind_Ok in Hr as (limit & w1 & [Hlim <-]%liftResult_Ok & Hr). apply parseBoundedLimit_range in Hlim; [|lia].
  apply Tx_bind_Ok in Hr as (cursor & w2 & [Hcur <-]%liftResult_Ok & Hr).
  apply Tx_bind_Ok in Hr as (u & w3 & E3%(ReadOnly_Ok _ _ _ _ (prepareCurrentMutation_ReadOnly _)) & Hr).
  apply mutationRun_Ok in Hr as (w4 & w5 & E4 & Hr). rewrite E3 in E4. clear E3.
  apply Tx_bind_Ok in Hr as (found & w6 & [E6 ->]%findPage_Ok & Hr); [|lia].
  apply Tx_bind_Ok in Hr as (u1 & w7 & [_ ->]%assertCurrent_Ok & Hr). unfold pageAnswered in Hr. cbv zeta beta iota in Hr.
  apply Tx_bind_Ok in Hr as (summaries & w8 & [E8 Hs]%guardedSummaries_Ok & Hr).
  apply Tx_bind_Ok in Hr as (policies & w10 & [_ Hp]%guarded_Ok & Hr); [|apply ReadOnly_current].
  apply Tx_bind_Ok in Hr as (u3 & w11 & _ & Hr). apply Tx_bind_Ok in Hr as (data & w12 & [Hd _]%liftResult_Ok & [[= -> <-] _]%Tx_ret_Ok).
  cbn [w_db tick] in Hs, Hp, E8. rewrite E8 in Hp. rewrite E6, E4 in Hs, Hp. rewrite E4 in Hd |- *.
  apply (pageAnswered_answers periodKey _ _ periodsListed periodShown readPeriodCursor periodCursor c (w_db w) es limit cursor); [done|exact Hcur| |].
  - intros r [Hr _]%filter_elem. rewrite Forall_forall in Hids, Hday. destruct (Hids r Hr). destruct (Hday r Hr) as [n Hn].
    by apply (periodCursor_read _ n).
  - eapply shown_page; [exact Hd|]. intros p e Hin He. cbv beta in He. rewrite Hs in He by (by apply list_elem_of_fmap_2).
    unfold serializePeriod, serializePeriodWith in He. apply Result_bind_Ok in He as (policy & [Hg Hne]%requireMapped_Ok & He).
    destruct (Hp _ _ Hg) as (r & Hr & Ht & Hid & Hpub). exists r. split_and!; [done..|].
    unfold serializePeriod, serializePeriodWith. rewrite Hid, Hpub, requireMapped_one by done. exact He.
Qed.
End HistoryPages.

Theorem listPolicies_read_once identity ds es :
  Reading (policiesAnswered identity) None ds es -> (forall d, d ∈ ds -> policiesStored d) ->
  readOnce policyKey (descending keyBefore) (policiesListed identity) (policyShown identity) ds es.
Proof.
  intros Hr Hst. eapply (Reading_once _ _ _ _ _ _ (keyFrom readPolicyCursor)); [done| | |exact Hr].
  - intros d Hd. apply (idsStored_keys pv_publicId); [done|]. by apply Hst.
  - intros c d es1 next Hd. apply listPolicies_answers, Hst, Hd.
Qed.

Theorem listPeriods_read_once identity ds es :
  Reading (periodsAnswered identity) None ds es -> (forall d, d ∈ ds -> periodsStored d) ->
  readOnce periodKey (descending keyBefore) (periodsListed identity) (periodShown identity) ds es.
Proof.
  intros Hr Hst. eapply (Reading_once _ _ _ _ _ _ (keyFrom readPeriodCursor)); [done| | |exact Hr].
  - intros d Hd. apply (idsStored_keys py_publicId); [done|]. by apply Hst.
  - intros c d es1 next Hd. apply listPeriods_answers, Hst, Hd.
Qed.

(** The cards of one period, whose state may change while they are read. *)
Section CardPages.
Context `{Collation, LC : LocaleCompare, SH : Sha256}.
Context (identity : SessionIdentity) (publicPeriodId : string).
#[local] Notation tenantId := (si_tenantId (operationsIdentity identity)).

Definition cardsAnswered (c : option string) (d : Db) (es : list Json) (next : option string) : Prop :=
  exists (env : Env) (auth : AuthorityEnv) (lost : CommitEnv) limit lineLimit lineCursor w w' detail, w_db w = d /\
    getPeriod (H := env) (H1 := auth) (H2 := lost) identity publicPeriodId limit c lineLimit lineCursor w = (Ok detail, w') /\
    dt_cards detail = es /\ dt_nextCardCursor detail = next.

Definition periodAsked (d : Db) : option PayrollPeriodRow :=
  match requiredPublicId publicPeriodId "payroll_period" with
  | Ok id => List.find (fun p => bool_decide (py_tenantId p = tenantId) && sameUuid (py_publicId p) id) (db_periods d)
  | Throw _ => None
  end.
Definition cardsInPeriod (d : Db) : list TimeCard :=
  match periodAsked d with Some period => List.filter (periodCard tenantId period) (db_timeCards d) | None => [] end.

(** The approval of the card as it is. *)
Definition decisionOf (period : PayrollPeriodRow) (c : TimeCard) (a : PayrollTimeCardApproval) : Prop :=
  av_tenantId a = tenantId /\ av_periodId a = py_id period /\ av_timeCardId a = tc_id c /\ av_timeCardRevision a = tc_revision c.

(** A card is shown with the decision about its current revision, if there is
    one. *)
Definition cardShown (d : Db) (c : TimeCard) (e : Json) : Prop :=
  exists period card decision approvers, periodAsked d = Some period /\ selectCard d c = Ok card /\
    match decision with
    | Some a => a ∈ pt_approvals (db_payroll d) /\ decisionOf period c a
    | None => forall a, a ∈ pt_approvals (db_payroll d) -> ~ decisionOf period c a
    end /\
    named us_tenantId us_id us_publicId tenantId (db_users d) approvers /\ periodCardJson period decision approvers card = Ok e.

Lemma periodCards_Ok `{Env} (period : PayrollPeriodRow) (page : list InternalTimeCard) results w w' :
  periodCards tenantId period page w = (Ok results, w') ->
  Forall2 (fun card r => exists decision approvers,
    match decision with
    | Some a => a ∈ pt_approvals (db_payroll (w_db w)) /\ decisionOf period (ic_row card) a
    | None => forall a, a ∈ pt_approvals (db_payroll (w_db w)) -> ~ decisionOf period (ic_row card) a
    end /\
    named us_tenantId us_id us_publicId tenantId (db_users (w_db w)) approvers /\
    r = periodCardJson period decision approvers card) page results.
Proof.
  intros (approvals & w1 & Ha & Hr)%Tx_bind_Ok.
  assert (Hap : w_db w1 = w_db w /\ (page <> [] -> approvals = List.filter (approvalOfPage tenantId (py_id period) page) (pt_approvals (db_payroll (w_db w))))).
  { destruct page as [|card page]; [by apply Tx_ret_Ok in Ha as [_ ->]|]. apply findMany_Ok in Ha as [-> ->]. done. }
  clear Ha. destruct Hap as [E1 Hap]. apply Tx_bind_Ok in Hr as (u & w2 & [_ ->]%assertCurrent_Ok & Hr).
  apply Tx_bind_Ok in Hr as (approvers & w3 & [_ Hn]%guarded_Ok & [<- _]%Tx_ret_Ok); [|apply ReadOnly_current].
  cbn [w_db tick] in Hn. rewrite E1 in Hn.
  apply Forall2_fmap_r, Forall_Forall2_diag, Forall_forall. intros card Hcard. cbv zeta. eexists _, approvers. split_and!; [|exact Hn|done].
  rewrite Hap by (by intros ->; apply not_elem_of_nil in Hcard). clear Hap Hn.
  set (found := List.filter _ _). set (key := fun a => revisionKey (av_timeCardId a) (av_timeCardRevision a)).
  destruct (mapGet _ _) as [a|] eqn:Eg.
  - apply (mapOf_found key id) in Eg as (x & [Hx Hp]%filter_elem & [Ek1 Ek2]%revisionKey_inj & <-). split; [done|].
    unfold approvalOfPage in Hp. rewrite !andb_true_iff, !bool_decide_eq_true in Hp. destruct Hp as [[Ht Hpe] _]. done.
  - intros a Hin (Ht & Hpe & Hc & Hrev). apply mapGet_None in Eg. apply Eg, mapOf_keys.
    change (map _ found) with ((fun a => (key a, a)) <$> found). rewrite <- list_fmap_compose. rewrite <- Hc, <- Hrev.
    apply (list_elem_of_fmap_2 (fst ∘ (fun a => (key a, a))) _ a). apply list_elem_of_In, filter_In. split; [by apply list_elem_of_In|].
    unfold approvalOfPage. rewrite !bool_decide_true by done. cbn [andb]. apply existsb_exists. exists card. split; [by apply list_elem_of_In|].
    rewrite bool_decide_true by done. cbn [andb]. bool_lia.
Qed.
End CardPages.

Lemma pageAnswered_map {A B} (f : A -> B) limit l : (pageAnswered limit (map f l)).2 = f <$> (pageAnswered limit l).2.
Proof.
  unfold pageAnswered. cbn [snd]. rewrite length_map, firstn_map. destruct (_ <? _); [|done].
  change (map f) with (fmap (M := list) f). apply fmap_last.
Qed.

Lemma requirePeriod_Ok `{Env} tenantId id p w w' :
  requirePeriod tenantId id w = (Ok p, w') ->
  w_db w' = w_db w /\ List.find (fun p => bool_decide (py_tenantId p = tenantId) && sameUuid (py_publicId p) id) (db_periods (w_db w)) = Some p.
Proof.
  intros (row & w1 & [-> E1]%findFirst_Ok & Hr)%Tx_bind_Ok. apply Tx_bind_Ok in Hr as (u & w2 & [_ ->]%assertCurrent_Ok & Hr).
  destruct (List.find _ _) as [x|] eqn:Ef; [|by apply liftResult_Ok in Hr as [? _]]. apply Tx_ret_Ok in Hr as [<- <-]. cbn. by rewrite <- Ef.
Qed.

Lemma getPeriod_answers `{Collation, LC : LocaleCompare, SH : Sha256} identity publicPeriodId c d es next :
  idsStored tc_publicId (db_timeCards d) -> cardsAnswered identity publicPeriodId c d es next ->
  pageAnswer periodCardKey keyBefore compareKeys (cardsInPeriod identity publicPeriodId) (cardShown identity publicPeriodId)
    (keyFrom readCardCursorOf) c d es next.
Proof.
  intros [_ Hids] (env & auth & lost & limitText & lineText & lineCursorText & w & w' & detail & <- & Hr & <- & <-). unfold getPeriod in Hr.
  apply Tx_bind_Ok in Hr as (periodId & w1 & [Hpid <-]%liftResult_Ok & Hr).
  apply Tx_bind_Ok in Hr as (limit & w1 & [Hlim <-]%liftResult_Ok & Hr). apply parseBoundedLimit_range in Hlim; [|lia].
  apply Tx_bind_Ok in Hr as (cursor & w1 & [Hcur <-]%liftResult_Ok & Hr).
  do 3 (apply Tx_bind_Ok in Hr as (? & w1 & [_ <-]%liftResult_Ok & Hr)).
  apply Tx_bind_Ok in Hr as (u & w3 & E3%(ReadOnly_Ok _ _ _ _ (prepareCurrentMutation_ReadOnly _)) & Hr).
  apply mutationRun_Ok in Hr as (w4 & w5 & E4 & Hr). rewrite E3 in E4. clear E3.
  apply Tx_bind_Ok in Hr as (period & w6 & [E6 Hp]%requirePeriod_Ok & Hr). rewrite E4 in E6, Hp.
  apply Tx_bind_Ok in Hr as (cards & w7 & [E7 Hsel]%findPeriodCards_Ok & Hr); [|lia]. rewrite E6 in E7, Hsel.
  apply Tx_bind_Ok in Hr as (u1 & w8 & [_ ->]%assertCurrent_Ok & Hr). unfold pageAnswered in Hr. cbv zeta beta iota in Hr.
  apply Tx_bind_Ok in Hr as (results & w9 & Hres%periodCards_Ok & Hr). cbn [w_db tick] in Hres. rewrite E7 in Hres.
  do 9 (apply Tx_bind_Ok in Hr as (? & ? & _ & Hr)).
  apply Tx_bind_Ok in Hr as (? & ? & _ & Hr). apply Tx_bind_Ok in Hr as (data & w10 & [Hd%mapM_Ok_Forall2 _]%liftResult_Ok & [<- _]%Tx_ret_Ok).
  cbn [dt_cards dt_nextCardCursor].
  assert (Hasked : periodAsked identity publicPeriodId (w_db w) = Some period) by (unfold periodAsked; by rewrite Hpid).
  assert (Hl : cardsInPeriod identity publicPeriodId (w_db w) =
    List.filter (periodCard (si_tenantId (operationsIdentity identity)) period) (db_timeCards (w_db w))) by (unfold cardsInPeriod; by rewrite Hasked).
  rewrite <- Hl in Hsel. set (found := pageRows _ _ _ _ _ _) in Hsel.
  assert (Hrows : map ic_row cards = found).
  { clear -Hsel. induction Hsel as [|x card l k Hx Hsel IH]; [done|]. cbn. by rewrite (selectCard_row _ _ _ Hx), IH. }
  replace (_ <$> _) with (periodCardCursor <$> (pageAnswered limit found).2).
  2: { rewrite <- Hrows, pageAnswered_map. unfold pageAnswered. cbn [snd]. by destruct (limit <? _); [destruct (last _)|]. }
  apply (pageAnswered_answers periodCardKey _ _ (cardsInPeriod identity publicPeriodId) (cardShown identity publicPeriodId) readCardCursorOf
    periodCardCursor c (w_db w) data limit cursor); [done|exact Hcur| |].
  - intros r Hr. rewrite Hl in Hr. apply filter_elem in Hr as [Hr _]. rewrite Forall_forall in Hids. destruct (Hids r Hr). by apply periodCardCursor_read.
  - fold found. apply (Forall2_take _ _ _ (Z.to_nat limit)) in Hsel. clear -Hsel Hres Hd Hasked.
    revert Hres Hd Hsel. generalize (take (Z.to_nat limit) found), (take (Z.to_nat limit) cards). intros l k Hres. revert l data.
    induction Hres as [|card r k results (decision & approvers & Hdec & Hn & ->) Hres IH]; intros l data Hd Hsel.
    + inversion Hd; subst. inversion Hsel; subst. constructor.
    + inversion Hd as [|? e ? data' He Hd']; subst. inversion Hsel as [|x ? l' ? Hx Hsel']; subst. constructor; [|by apply IH].
      rewrite (selectCard_row _ _ _ Hx) in Hdec. by exists period, card, decision, approvers.
Qed.

(** C29: Whoever reads the cards of a period page by page, while the period is
    reviewed, decided and locked, gets them by identifier, none twice; each
    entry shows a card that belonged to the period, or could be adopted by it,
    when its page was read, with the decision about the revision it then had,
    if there was one; and every card that was there at each request is shown. *)
Theorem getPeriod_read_once `{Collation, LocaleCompare, Sha256} identity publicPeriodId ds es :
  Reading (cardsAnswered identity publicPeriodId) None ds es -> (forall d, d ∈ ds -> idsStored tc_publicId (db_timeCards d)) ->
  readOnce periodCardKey keyBefore (cardsInPeriod identity publicPeriodId) (cardShown identity publicPeriodId) ds es.
Proof.
  intros Hr Hst. eapply (Reading_once _ _ _ _ _ _ (keyFrom readCardCursorOf)); [done| | |exact Hr].
  - intros d Hd. unfold cardsInPeriod. destruct (periodAsked _ _ d); [|constructor]. apply (idsStored_keys tc_publicId); [done|]. by apply Hst.
  - intros c d es1 next Hd. apply getPeriod_answers, Hst, Hd.
Qed.

(** ** Concrete instances *)

(** The week of the sample with a second day of work: one card is read while
    the period is open, the other, adopted meanwhile, once it is under review. *)
Definition secondDay : TimeCard :=
  mkTimeCard "card-2" (uuidText 900) "t1" "u2" (Some "l1") None None None 1767686400000 (Some 1767715200000)
    None "UTC" 1 30 None CLOSED 1767715200000 1767715200000 None.
Definition openWeek : Db := Eval vm_compute in withRows (db_timeCards endedDb ++ [secondDay]) endedDb.
Definition adoptedWeek : Db := Eval vm_compute in
  w_db (@adoptCards (calmUuid weekEnds) (actingAs timeManager) acknowledged codeUnitCollation codeUnitCollation sampleDigest timeManager
          periodId [mkAdopted (uuidText 900) 1] (Some "adopt") (mkWorld openWeek 400)).2.
Definition reviewedWeek : Db := Eval vm_compute in
  w_db (@startReview (calmUuid weekEnds) (actingAs timeManager) acknowledged codeUnitCollation utcIntl codeUnitCollation sampleDigest timeManager
          periodId 0 (Some "review") (mkWorld adoptedWeek 500)).2.

#[local] Notation detailRun limit c db := (@getPeriod (calmUuid weekEnds) (actingAs timeManager) acknowledged codeUnitCollation
  codeUnitCollation sampleDigest timeManager periodId limit c None None (mkWorld db 0)).
Definition detailOf (r : Result PeriodDetail) : PeriodDetail :=
  match r with Ok detail => detail | Throw _ => mkPeriodDetail JNull [] None [] [] end.
Definition firstCards : PeriodDetail := Eval vm_compute in detailOf (detailRun (Some "1") None openWeek).1.
Definition nextCard : string := Eval vm_compute in default "" (dt_nextCardCursor firstCards).
Definition lastCards : PeriodDetail := Eval vm_compute in detailOf (detailRun None (Some nextCard) reviewedWeek).1.

Definition memberAt (name : string) (v : Json) : option Json :=
  match v with JObj es => e ← List.find (fun e => bool_decide (e.1 = name)) es; e.2 | _ => None end.

Example period_cards_listed :
  map (fun e => (memberAt "clockInAt" e, memberAt "included" e)) (dt_cards firstCards ++ dt_cards lastCards) =
    [(Some (JStr "2026-01-05T08:00:00.000Z"), Some (JBool true)); (Some (JStr "2026-01-06T08:00:00.000Z"), Some (JBool true))]
  /\ map (fun detail => memberAt "status" (dt_period detail)) [firstCards; lastCards] = [Some (JStr "OPEN"); Some (JStr "REVIEW")].
Proof. vm_compute. split; reflexivity. Qed.

Lemma getPeriod_read_once_witness :
  @readOnce Db TimeCard Json PageKey periodCardKey keyBefore (cardsInPeriod timeManager periodId) (cardShown timeManager periodId)
    [openWeek; reviewedWeek] (dt_cards firstCards ++ dt_cards lastCards).
Proof.
  apply (@getPeriod_read_once codeUnitCollation codeUnitCollation sampleDigest timeManager periodId).
  - eapply reading_next with (text := nextCard); [|apply reading_last].
    + exists (calmUuid weekEnds), (actingAs timeManager), acknowledged, (Some "1"), None, None, (mkWorld openWeek 0),
        (detailRun (Some "1") None openWeek).2, firstCards. split_and!; [reflexivity|vm_compute; reflexivity|reflexivity|reflexivity].
    + exists (calmUuid weekEnds), (actingAs timeManager), acknowledged, None, None, None, (mkWorld reviewedWeek 0),
        (detailRun None (Some nextCard) reviewedWeek).2, lastCards. split_and!; [reflexivity|vm_compute; reflexivity|reflexivity|reflexivity].
  - intros d [->|[->|[]%not_elem_of_nil]%elem_of_cons]%elem_of_cons;
      (split; [apply (bool_decide_unpack _); vm_compute; exact I|]); repeat constructor; vm_compute; reflexivity.
Defined.
