(* ===== verification/LocationLists.v ===== *)
(** * The list of locations

    [list] of apps/api-v2/src/locations/locations.service.ts: the active
    locations of a tenant by name, page by page, and the cursors it gives out.
    A cursor holds the whole name; one that comes out longer than 512 characters
    is refused when it comes back, so that a list stops at such a name. *)

From S2P Require Import Prelude JsStd JsCollections JsDate JsEncoding JsDecoding ContractHelpers TimeZone PayrollRecords.
From S2P Require Import Database FeatureEntitlement Authority ScheduleStore ScheduleChanges Paging OperationsPages TimeCardLists PayrollReads Locations.

Definition DEFAULT_LIST_LIMIT : Z := 100.
Definition MAX_LIST_LIMIT : Z := 200.
Record LocationCursor := mkLocationCursor { lc_name : string; lc_publicId : string }.

(** ** Cursors and limits *)

Definition encodeCursor (cursor : LocationCursor) : string :=
  base64url (utf8Bytes (stringify (JObj [field "v" (JNum 1); field "name" (JStr (lc_name cursor));
                                         field "publicId" (JStr (lc_publicId cursor))]))).

(** What the [try] block of [decodeCursor] returns, if it does. *)
Definition readLocationCursor (value : string) : option LocationCursor :=
  parsed ← decodeJson value;
  v ← memberOf "v" parsed;
  version ← safeNatural v;
  nameValue ← memberOf "name" parsed;
  publicIdValue ← memberOf "publicId" parsed;
  match nameValue, publicIdValue with
  | VStr namePoints, VStr idPoints =>
      name ← pointsText namePoints;
      publicId ← pointsText idPoints;
      if (version =? 1) && (strLen name <=? MAX_LOCATION_NAME_LENGTH) && negb (isEmpty publicId) && (strLen publicId <=? 128)
      then Some (mkLocationCursor name publicId) else None
  | _, _ => None
  end.

Definition decodeCursor (value : option string) : Result (option LocationCursor) :=
  match truthy value with
  | None => Ok None
  | Some text =>
      if 512 <? strLen text then invalidInput "cursor is invalid."
      else match readLocationCursor text with Some cursor => Ok (Some cursor) | None => invalidInput "cursor is invalid." end
  end.

Definition parseLimit (value : option string) : Result Z :=
  match truthy value with
  | None => Ok DEFAULT_LIST_LIMIT
  | Some text =>
      let parsed := digitsValue text in
      if negb (allChars isDigit text) || negb (isSafeInteger parsed) || (parsed <? 1) || (MAX_LIST_LIMIT <? parsed)
      then invalidInput ("limit must be an integer from 1 through " +:+ showZ MAX_LIST_LIMIT +:+ ".") else Ok parsed
  end.

(** ** The list *)

(** Rows in the order of the name, in the collation of the database, and the
    identifier. *)
Definition LocationKey : Type := string * string.
Definition locationKey (l : Location) : LocationKey := (lo_name l, lo_publicId l).
Definition nameBefore `{Collation} (a b : LocationKey) : bool := (collate a.1 b.1 <? 0) || (bool_decide (a.1 = b.1) && ltText a.2 b.2).
Definition compareNames `{Collation} (a b : LocationKey) : Z := orElse (collate a.1 b.1) (compareText a.2 b.2).

(** The parameters of the condition on the cursor. *)
Definition cursorKey `{UuidText} (cursor : LocationCursor) : Result LocationKey :=
  publicId ← uuidParameter (lc_publicId cursor); Ok (lc_name cursor, publicId).

Record LocationList := mkLocationList {
  ll_data : list LocationRecord;
  ll_limit : Z;
  ll_maxLimit : Z;
  ll_returned : Z;
  ll_hasMore : bool;
  ll_nextCursor : option string;
}.

Section List.
Context `{Env, Collation, UuidText}.

Definition listLocations (identity : SessionIdentity) (limitText cursorText : option string) : Tx LocationList :=
  limit ← liftResult (parseLimit limitText);
  cursor ← liftResult (decodeCursor cursorText);
  withTenant (si_tenantId identity) (
    after ← liftResult (match cursor with Some c => Some <$> cursorKey c | None => Ok None end);
    rows ← query (fun db => Ok (pageRows locationKey nameBefore compareNames after (Z.to_nat limit)
                                  (List.filter (activeLocation (si_tenantId identity)) (db_locations db)), db));
    let hasMore := limit <? Z.of_nat (length rows) in
    let visible := if hasMore then take (Z.to_nat limit) rows else rows in
    mret (mkLocationList (map publicLocation visible) limit MAX_LIST_LIMIT (Z.of_nat (length visible)) hasMore
            (if hasMore then (fun l => encodeCursor (mkLocationCursor (lo_name l) (lo_publicId l))) <$> last visible else None))).
End List.

(** ** Cursors are read back, if they are short enough *)

(** The bytes a name takes in a cursor, quotes and escapes included. *)
Definition quotedBytes (name : string) : nat := length (utf8Bytes (quoteJson name)).

Lemma base64url_length_low bytes : (4 * length bytes <= 3 * String.length (base64url bytes))%nat.
Proof.
  unfold base64url. rewrite <- length_chars, chars_ofChars, length_map.
  induction bytes as [|a|a b|a b c l IH] using threes_ind; cbn [base64Sextets length app] in *; lia.
Qed.

Lemma utf8Bytes_app s t : utf8Bytes (s +:+ t) = utf8Bytes s ++ utf8Bytes t.
Proof. unfold utf8Bytes. rewrite chars_app. apply flat_map_app. Qed.

Definition cursorJson (cursor : LocationCursor) : Json :=
  JObj [field "v" (JNum 1); field "name" (JStr (lc_name cursor)); field "publicId" (JStr (lc_publicId cursor))].

Lemma cursor_bytes name publicId :
  isUuid publicId = true -> length (utf8Bytes (stringify (cursorJson (mkLocationCursor name publicId)))) = (65 + quotedBytes name)%nat.
Proof.
  intros (Hp & Hl & _)%isUuid_plain.
  assert (E : stringify (cursorJson (mkLocationCursor name publicId)) =
    "{" +:+ ((quoteJson "v" +:+ ":" +:+ showZ 1) +:+ "," +:+ ((quoteJson "name" +:+ ":" +:+ quoteJson name) +:+ "," +:+
      (quoteJson "publicId" +:+ ":" +:+ String dquote (publicId +:+ String dquote "")))) +:+ "}").
  { unfold cursorJson. rewrite stringify_kept. cbn [keptPairs flat_map field snd fst app map lc_name lc_publicId]. unfold memberText. cbn [fst snd].
    change (stringify (JStr ?s)) with (quoteJson s). rewrite (quoteJson_plain publicId), !joinWith_cons2 by done. done. }
  rewrite E, !utf8Bytes_app, !length_app. change (String dquote (publicId +:+ String dquote "")) with (String dquote "" +:+ (publicId +:+ String dquote "")).
  rewrite !utf8Bytes_app, !length_app. fold (quotedBytes name). rewrite (utf8Bytes_length publicId), Hl by by apply plain_low.
  change (length (utf8Bytes (quoteJson "v"))) with 3%nat. change (length (utf8Bytes (quoteJson "name"))) with 6%nat.
  change (length (utf8Bytes (quoteJson "publicId"))) with 10%nat. change (length (utf8Bytes (showZ 1))) with 1%nat.
  change (length (utf8Bytes "{")) with 1%nat. change (length (utf8Bytes ":")) with 1%nat. change (length (utf8Bytes ",")) with 1%nat.
  change (length (utf8Bytes "}")) with 1%nat. change (length (utf8Bytes (String dquote ""))) with 1%nat. lia.
Qed.

Lemma readLocationCursor_encoded name publicId :
  strLen name <= MAX_LOCATION_NAME_LENGTH -> isUuid publicId = true ->
  readLocationCursor (encodeCursor (mkLocationCursor name publicId)) = Some (mkLocationCursor name publicId).
Proof.
  intros Hn Hid. destruct (isUuid_plain _ Hid) as (_ & Hl & Hne). unfold readLocationCursor, encodeCursor.
  rewrite decodeJson_encoded, valueOf_kept. cbn [mbind option_bind lc_name lc_publicId].
  change (memberOf "v" _) with (Some (VNum 1 0)). change (memberOf "name" _) with (Some (VStr (codePoints name))).
  change (memberOf "publicId" _) with (Some (VStr (codePoints publicId))). cbn [mbind option_bind].
  rewrite (safeNatural_int 1) by (vm_compute; split; discriminate). cbn [mbind option_bind]. rewrite !pointsText_codePoints. cbn [mbind option_bind].
  rewrite (proj2 (Z.leb_le (strLen name) _)), (proj2 (Z.leb_le (strLen publicId) _)) by (done || unfold strLen; lia).
  destruct (isEmpty publicId) eqn:E; [by apply bool_decide_eq_true in E|done].
Qed.

(** The cursor of a row, read. *)
Definition readKey `{UuidText} (c : option string) : Result (option LocationKey) :=
  cursor ← decodeCursor c; match cursor with Some c => Some <$> cursorKey c | None => Ok None end.

(** What a name may hold for its cursor to come back. *)
Definition nameFits (l : Location) : Prop :=
  strLen (lo_name l) <= MAX_LOCATION_NAME_LENGTH /\ (quotedBytes (lo_name l) <= 319)%nat.

Lemma encodeCursor_short name publicId :
  isUuid publicId = true -> 512 < strLen (encodeCursor (mkLocationCursor name publicId)) <-> (319 < quotedBytes name)%nat.
Proof.
  intros Hid. unfold strLen, encodeCursor. set (v := JObj _). pose proof (base64url_length (utf8Bytes (stringify v))) as Hhi.
  pose proof (base64url_length_low (utf8Bytes (stringify v))) as Hlo. change v with (cursorJson (mkLocationCursor name publicId)) in *.
  rewrite cursor_bytes in Hhi, Hlo by done. lia.
Qed.

Lemma encodeCursor_some cursor : truthy (Some (encodeCursor cursor)) = Some (encodeCursor cursor).
Proof.
  unfold truthy. destruct (isEmpty _) eqn:E; [|done]. apply bool_decide_eq_true in E. pose proof (decodeJson_encoded (cursorJson cursor)) as Hd.
  change (base64url _) with (encodeCursor cursor) in Hd. by rewrite E in Hd.
Qed.

Lemma decodeLocationCursor_encoded name publicId :
  strLen name <= MAX_LOCATION_NAME_LENGTH -> isUuid publicId = true ->
  decodeCursor (Some (encodeCursor (mkLocationCursor name publicId))) =
    if (319 <? quotedBytes name)%nat then invalidInput "cursor is invalid." else Ok (Some (mkLocationCursor name publicId)).
Proof.
  intros Hn Hid. unfold decodeCursor. rewrite encodeCursor_some, readLocationCursor_encoded by done.
  pose proof (encodeCursor_short name publicId Hid) as Hs.
  destruct (Nat.ltb_spec 319 (quotedBytes name)) as [Hq|Hq].
  - by rewrite (proj2 (Z.ltb_lt _ _)) by by apply Hs.
  - by rewrite (proj2 (Z.ltb_ge _ _)) by (apply Z.nlt_ge; rewrite Hs; lia).
Qed.

(** ** Reading the list to its end *)

(** What a collation is: an order in which only equal texts are equal. *)
Class CollationLaws (C : Collation) : Prop := {
  collation_comparator :: Comparator (collate (Collation := C));
  collate_eq a b : collate a b = 0 <-> a = b;
}.

#[global] Instance codeUnitOrder_laws : CollationLaws codeUnitOrder.
Proof. split; [exact (Comparator_text (fun s => s))|]. intros a b. apply compareText_eq. Qed.

#[global] Instance name_order `{C : Collation, !CollationLaws C} : KeyOrder nameBefore compareNames.
Proof.
  split.
  - intros [a s] [b t]. unfold nameBefore, compareNames, orElse, ltText. cbn [fst snd]. pose proof (collate_eq a b) as He.
    destruct (Z.eqb_spec (collate a b) 0) as [E|E].
    + rewrite E, (bool_decide_true (a = b)) by tauto. cbn. apply Z.ltb_lt.
    + rewrite (bool_decide_false (a = b)) by tauto. cbn. rewrite orb_false_r. apply Z.ltb_lt.
  - intros [a s] [b t]. unfold compareNames. rewrite orElse_zero, collate_eq, compareText_eq. cbn. split; [by intros [-> ->]|by intros [= -> ->]].
  - unfold compareNames. apply (Comparator_orElse (fun a b : LocationKey => collate a.1 b.1) (fun a b => compareText a.2 b.2));
      [|apply (Comparator_text snd)].
    destruct (collation_comparator (C := C)) as [Ha Ht]. split; [intros; apply Ha|intros x y z; apply Ht].
Qed.

(** The locations as their columns hold them, with names that fit. *)
Definition locationsStored (db : Db) : Prop :=
  idsStored lo_publicId (db_locations db) /\ Forall nameFits (db_locations db).

Section Reading.
Context `{C : Collation, U : UuidText} (identity : SessionIdentity).

Definition locationsAnswered (c : option string) (d : Db) (es : list LocationRecord) (next : option string) : Prop :=
  exists (env : Env) limit w w' r, w_db w = d /\ listLocations (H := env) identity limit c w = (Ok r, w') /\
    ll_data r = es /\ ll_nextCursor r = next.
Definition locationsListed (d : Db) : list Location := List.filter (activeLocation (si_tenantId identity)) (db_locations d).
Definition locationShown (_ : Db) (l : Location) (e : LocationRecord) : Prop := e = publicLocation l.

Lemma readKey_encoded l :
  nameFits l -> isUuid (lo_publicId l) = true -> lowerText (lo_publicId l) = lo_publicId l ->
  readKey (Some (encodeCursor (mkLocationCursor (lo_name l) (lo_publicId l)))) = Ok (Some (locationKey l)).
Proof.
  intros [Hn Hq] Hid Hlow. unfold readKey. rewrite decodeLocationCursor_encoded by done. rewrite (proj2 (Nat.ltb_ge 319 _)) by done.
  cbn [mbind Result_bind]. unfold cursorKey, uuidParameter. cbn [lc_publicId]. rewrite (uuidValue_uuid _ Hid), Hlow. done.
Qed.

Lemma parseLimit_bounds value limit : parseLimit value = Ok limit -> 1 <= limit <= MAX_LIST_LIMIT.
Proof.
  unfold parseLimit. destruct (truthy value) as [text|]; [|by intros [= <-]]. unfold MAX_LIST_LIMIT.
  destruct (_ || _) eqn:E; [done|]. intros [= <-]. bools. bool_lia.
Qed.

Lemma listLocations_Ok `{Env} limitText c r w w' :
  listLocations identity limitText c w = (Ok r, w') ->
  exists limit after, parseLimit limitText = Ok limit /\ readKey c = Ok after /\ w_db w' = w_db w /\
    let rows := pageRows locationKey nameBefore compareNames after (Z.to_nat limit) (locationsListed (w_db w)) in
    ll_data r = map publicLocation (take (Z.to_nat limit) rows) /\ ll_returned r = Z.of_nat (length (ll_data r)) /\ ll_limit r = limit /\
    ll_hasMore r = (limit <? Z.of_nat (length rows)) /\
    ll_nextCursor r = if limit <? Z.of_nat (length rows)
      then (fun l => encodeCursor (mkLocationCursor (lo_name l) (lo_publicId l))) <$> last (take (Z.to_nat limit) rows) else None.
Proof.
  unfold listLocations. intros (limit & w1 & [Hlim <-]%liftResult_Ok & Hr)%Tx_bind_Ok.
  apply Tx_bind_Ok in Hr as (cursor & w1 & [Hcur <-]%liftResult_Ok & Hr).
  apply withTenant_Ok in Hr as (wi & wo & Ei & Hr & Eo).
  apply Tx_bind_Ok in Hr as (after & w2 & [Haf <-]%liftResult_Ok & Hr).
  apply Tx_bind_Ok in Hr as (rows & w3 & (_ & db & [= <- <-] & E3)%query_Ok & [<- <-]%Tx_ret_Ok).
  exists limit, after. split; [done|]. split; [unfold readKey; by rewrite Hcur|]. rewrite Eo, E3, Ei. split; [done|]. cbv zeta. cbn [ll_data ll_returned ll_limit ll_hasMore ll_nextCursor].
  change (List.filter _ _) with (locationsListed (w_db w)). set (rows := pageRows _ _ _ _ _ _).
  destruct (Z.ltb_spec limit (Z.of_nat (length rows))) as [Hl|Hl]; [by rewrite length_map|].
  pose proof (parseLimit_bounds _ _ Hlim). rewrite (take_ge rows (Z.to_nat limit)) by lia. by rewrite length_map.
Qed.

Lemma listLocations_answers c d es next :
  locationsStored d -> locationsAnswered c d es next ->
  pageAnswer locationKey nameBefore compareNames locationsListed locationShown (keyFrom readKey) c d es next.
Proof.
  intros [[_ Hids] Hfit] (env & limitText & w & w' & r & <- & Hr & <- & <-).
  apply listLocations_Ok in Hr as (limit & after & Hlim%parseLimit_bounds & Haf & _ & Hd & _ & _ & _ & Hn). cbv zeta in *.
  eapply (pageAnswer_read _ _ _ _ _ readKey (fun l => encodeCursor (mkLocationCursor (lo_name l) (lo_publicId l)))
    c (w_db w) (ll_data r) (ll_nextCursor r) limit after); [lia|exact Haf| | |exact Hn].
  - intros l [Hl _]%filter_elem. rewrite Forall_forall in Hids, Hfit. destruct (Hids l Hl). by apply readKey_encoded; [apply Hfit|..].
  - rewrite Hd. clear. induction (take _ _); constructor; done.
Qed.
End Reading.

(** A cursor of the locations comes back as what it was made of exactly when
    the name takes at most 319 bytes in it, as JSON text in UTF-8; otherwise it
    is longer than 512 characters and refused as invalid. *)
Theorem location_cursor_read name publicId :
  strLen name <= MAX_LOCATION_NAME_LENGTH -> isUuid publicId = true ->
  decodeCursor (Some (encodeCursor (mkLocationCursor name publicId))) =
    if (quotedBytes name <=? 319)%nat then Ok (Some (mkLocationCursor name publicId)) else invalidInput "cursor is invalid.".
Proof.
  intros Hn Hid. rewrite decodeLocationCursor_encoded by done. rewrite Nat.ltb_antisym. by destruct (_ <=? _)%nat.
Qed.

(** Whoever reads the locations of a tenant page by page, with any limits and
    whatever changes between the requests, gets them in the order of name and
    identifier, none twice; each entry is a location that was there when its
    page was read, and every location that was there under its name at each
    request is listed - provided that the names are short enough for their
    cursors. *)
Theorem listLocations_read_once `{C : Collation, !CollationLaws C, U : UuidText} identity ds es :
  Reading (locationsAnswered identity) None ds es -> (forall d, d ∈ ds -> locationsStored d) ->
  readOnce locationKey nameBefore (locationsListed identity) locationShown ds es.
Proof.
  intros Hr Hst. eapply (Reading_once _ _ _ _ _ _ (keyFrom readKey)); [done| | |exact Hr].
  - intros d Hd. destruct (Hst d Hd) as [[Hn _] _]. unfold locationsListed.
    assert (Hk : NoDup (map locationKey (db_locations d))) by (by apply (NoDup_fmap_1 snd); rewrite <- list_fmap_compose).
    revert Hk. generalize (db_locations d). induction l as [|l k IH]; [done|]. cbn [map List.filter]. rewrite NoDup_cons. intros [Hl Hk].
    destruct (activeLocation _ _); [|by apply IH]. cbn [map]. apply NoDup_cons. split; [|by apply IH].
    intros (x & E & [Hx _]%filter_elem)%list_elem_of_fmap. apply Hl. rewrite E. by apply list_elem_of_fmap_2.
  - intros c d es1 next Hd. apply listLocations_answers, Hst, Hd.
Qed.

(** ** Concrete instances *)

Definition strictUuid (s : string) : option string := if isUuid s then Some (lowerText s) else None.
Lemma strictUuid_uuid s : isUuid s = true -> strictUuid s = Some (lowerText s).
Proof. unfold strictUuid. by intros ->. Qed.
Definition strictUuids : UuidText := {| uuidValue := strictUuid; uuidValue_uuid := strictUuid_uuid |}.

(** A valid name of 160 letters "é": its cursor has 515 characters. *)
Definition longName : string := ofChars (repeat (ascii_of_N 233) 160).

Lemma location_cursor_read_witness :
  strLen longName <= MAX_LOCATION_NAME_LENGTH /\
  decodeCursor (Some (encodeCursor (mkLocationCursor longName (uuidText 1)))) = invalidInput "cursor is invalid." /\
  decodeCursor (Some (encodeCursor (mkLocationCursor "Main" (uuidText 1)))) = Ok (Some (mkLocationCursor "Main" (uuidText 1))).
Proof.
  assert (Hl : strLen longName <= MAX_LOCATION_NAME_LENGTH) by (apply Z.leb_le; vm_compute; reflexivity).
  split; [exact Hl|]. split; rewrite location_cursor_read; try (vm_compute; reflexivity); [exact Hl|].
  apply Z.leb_le. vm_compute. reflexivity.
Defined.

(** Three places, of which "North" is renamed while the list is read. *)
Definition place (n : nat) (name : string) : Location := mkLocation ("l" +:+ showNat (Z.of_nat n)) (uuidText n) "t1" None name "UTC" None None None 0 0.
Definition threePlaces : Db := withRows [place 1 "South"; place 2 "East"; place 3 "North"] emptyDb.
Definition renamedPlaces : Db := withRows [place 1 "South"; place 2 "East"; place 3 "Old North"] emptyDb.

#[local] Notation listRun limit c db := (@listLocations (calm 0) codeUnitOrder strictUuids sampleManager limit c (mkWorld db 0)).
Definition listOf (r : Result LocationList) : LocationList := match r with Ok l => l | Throw _ => mkLocationList [] 0 0 0 false None end.
Definition firstPlaces : LocationList := Eval vm_compute in listOf (listRun (Some "1") None threePlaces).1.
Definition placesCursor : string := Eval vm_compute in default "" (ll_nextCursor firstPlaces).
Definition otherPlaces : LocationList := Eval vm_compute in listOf (listRun None (Some placesCursor) renamedPlaces).1.

Example places_listed : map lr_name (ll_data firstPlaces ++ ll_data otherPlaces) = ["East"; "Old North"; "South"].
Proof. vm_compute. reflexivity. Qed.

Lemma listLocations_read_once_witness :
  readOnce locationKey (@nameBefore codeUnitOrder) (locationsListed sampleManager) locationShown [threePlaces; renamedPlaces]
    (ll_data firstPlaces ++ ll_data otherPlaces).
Proof.
  apply (@listLocations_read_once codeUnitOrder codeUnitOrder_laws strictUuids sampleManager).
  - eapply reading_next with (text := placesCursor); [|apply reading_last].
    + exists (calm 0), (Some "1"), (mkWorld threePlaces 0), (listRun (Some "1") None threePlaces).2, firstPlaces.
      split_and!; [reflexivity|vm_compute; reflexivity|reflexivity|reflexivity].
    + exists (calm 0), None, (mkWorld renamedPlaces 0), (listRun None (Some placesCursor) renamedPlaces).2, otherPlaces.
      split_and!; [reflexivity|vm_compute; reflexivity|reflexivity|reflexivity].
  - intros d [->|[->|[]%not_elem_of_nil]%elem_of_cons]%elem_of_cons; (split; [split; [apply (bool_decide_unpack _); vm_compute; exact I|]|]);
      repeat constructor; try (vm_compute; reflexivity); try (apply Z.leb_le; vm_compute; reflexivity); apply Nat.leb_le; vm_compute; reflexivity.
Defined.
