(* ===== verification/Notifications.v ===== *)
(** * Notifications

    apps/api-v2/src/notifications/notifications.service.ts: the feed of a user.
    It is read newest first with cursors; notifications are marked as read, one
    request for some of them and one for all; they are never unread again. *)

From S2P Require Import Prelude JsStd JsCollections JsDate JsEncoding JsDecoding ContractHelpers TimeZone PayrollRecords.
From S2P Require Import Database FeatureEntitlement Authority ScheduleStore ScheduleChanges Paging OperationsPages OperationsLists TimeCardLists PayrollReads.

Definition DEFAULT_LIMIT : Z := 20.
Definition MAX_LIMIT : Z := 100.
Definition MAX_CURSOR_LENGTH : Z := 512.

(** [UUID_PATTERN]: a UUID of a version up to five. *)
Definition notificationUuid (s : string) : bool :=
  isUuid s && match chars s !! 14%nat with Some c => codeUnit c <=? 53 | None => false end.

Record NotificationCursor := mkNotificationCursor { nk_createdAt : Z; nk_publicId : string }.

Record NotificationRecord := mkNotificationRecord {
  nr_id : string;
  nr_type : NotificationType;
  nr_title : string;
  nr_body : string;
  nr_readAt : option string;
  nr_createdAt : string;
}.

Definition notificationProblem {A} (code detail : string) : Result A := throwProblem 422 code detail "Notification request failed".

Definition parseLimit (value : option string) : Result Z :=
  match value with
  | None => Ok DEFAULT_LIMIT
  | Some text =>
      if isEmpty text || negb (allChars isDigit text) then notificationProblem "invalid_notification_limit" "limit must be a whole number."
      else
        let parsed := digitsValue text in
        if negb (isSafeInteger parsed) || (parsed <? 1) || (MAX_LIMIT <? parsed)
        then notificationProblem "invalid_notification_limit" ("limit must be between 1 and " +:+ showZ MAX_LIMIT +:+ ".") else Ok parsed
  end.

Definition cursorJson (row : NotificationCursor) : Json :=
  JObj [field "createdAt" (JStr (toISOString (nk_createdAt row))); field "publicId" (JStr (nk_publicId row))].

Definition encodeCursor (row : NotificationCursor) : string := base64url (utf8Bytes (stringify (cursorJson row))).

(** What the [try] block of [decodeCursor] returns, if it does.  A text that
    [toISOString] printed is one that [Date.parse] reads. *)
Definition readNotificationCursor (value : string) : option NotificationCursor :=
  decoded ← decodeJson value;
  createdAtValue ← memberOf "createdAt" decoded;
  publicIdValue ← memberOf "publicId" decoded;
  match createdAtValue, publicIdValue with
  | VStr createdAtPoints, VStr publicIdPoints =>
      createdAtText ← pointsText createdAtPoints;
      publicId ← pointsText publicIdPoints;
      createdAt ← dateParse createdAtText;
      if notificationUuid publicId && bool_decide (toISOString createdAt = createdAtText)
      then Some (mkNotificationCursor createdAt publicId) else None
  | _, _ => None
  end.

Definition decodeCursor (value : option string) : Result (option NotificationCursor) :=
  let refuse := notificationProblem "invalid_notification_cursor" "cursor is invalid." in
  match value with
  | None => Ok None
  | Some text =>
      if isEmpty text || (MAX_CURSOR_LENGTH <? strLen text) then refuse
      else match readNotificationCursor text with Some cursor => Ok (Some cursor) | None => refuse end
  end.

Definition normalizePublicIds (ids : list string) : Result (list string) :=
  if (Z.of_nat (length ids) <? 1) || (MAX_LIMIT <? Z.of_nat (length ids)) then
    notificationProblem "invalid_notification_ids" ("ids must contain between 1 and " +:+ showZ MAX_LIMIT +:+ " public UUIDs.")
  else if negb (bool_decide (NoDup ids)) || existsb (fun id => negb (notificationUuid id)) ids then
    notificationProblem "invalid_notification_ids" "ids must contain unique public UUIDs."
  else Ok ids.

Definition serialize (row : Notification) : NotificationRecord :=
  mkNotificationRecord (nf_publicId row) (nf_type row) (nf_title row) (nf_body row) (toISOString <$> nf_readAt row) (toISOString (nf_createdAt row)).

(** ** Rows *)

Definition ownNotification (identity : SessionIdentity) (n : Notification) : bool :=
  bool_decide (nf_tenantId n = si_tenantId identity) && bool_decide (nf_userId n = si_sub identity).
Definition unread (n : Notification) : bool := bool_decide (nf_readAt n = None).
Definition ownUnread (identity : SessionIdentity) (n : Notification) : bool := ownNotification identity n && unread n.

(** [publicId: { in: ids }] *)
Definition withPublicId (ids : list string) (n : Notification) : bool := bool_decide (nf_publicId n ∈ map lowerText ids).

Definition readNow (readAt : Z) (n : Notification) : Notification :=
  mkNotification (nf_id n) (nf_publicId n) (nf_tenantId n) (nf_userId n) (nf_type n) (nf_title n) (nf_body n) (Some readAt) (nf_createdAt n).

Definition notificationKey (n : Notification) : PageKey := (nf_createdAt n, nf_publicId n).
Definition feedCursorKey (cursor : NotificationCursor) : PageKey := (nk_createdAt cursor, lowerText (nk_publicId cursor)).

(** ** Handlers *)

Record NotificationList := mkNotificationList {
  nl_data : list NotificationRecord;
  nl_unreadCount : Z;
  nl_limit : Z;
  nl_maxLimit : Z;
  nl_returned : Z;
  nl_hasMore : bool;
  nl_nextCursor : option string;
}.

Record ReadResponse := mkReadResponse { rr_updated : Z; rr_unreadCount : Z }.

Section Notifications.
Context `{Env}.

(** [status] is "all", "unread" or missing. *)
Definition listNotifications (identity : SessionIdentity) (status limitText cursorText : option string) : Tx NotificationList :=
  limit ← liftResult (parseLimit limitText);
  cursor ← liftResult (decodeCursor cursorText);
  let unreadOnly := bool_decide (status = Some "unread") in
  withTenant (si_tenantId identity) (
    rows ← findPage notificationKey (descending keyBefore) (descending compareKeys)
             (fun _ n => ownNotification identity n && (negb unreadOnly || unread n)) (feedCursorKey <$> cursor) limit;
    unreadCount ← countRows (ownUnread identity);
    let page := take (Z.to_nat limit) rows in
    let hasMore := limit <? Z.of_nat (length rows) in
    mret (mkNotificationList (map serialize page) unreadCount limit MAX_LIMIT (Z.of_nat (length page)) hasMore
      (if hasMore then (fun n => encodeCursor (mkNotificationCursor (nf_createdAt n) (nf_publicId n))) <$> last page else None))).

Definition markRead (identity : SessionIdentity) (ids : list string) : Tx ReadResponse :=
  publicIds ← liftResult (normalizePublicIds ids);
  withTenant (si_tenantId identity) (
    readAt ← now;
    updated ← updateMany (fun n => ownUnread identity n && withPublicId publicIds n) (readNow readAt);
    unreadCount ← countRows (ownUnread identity);
    mret (mkReadResponse (Z.of_nat updated) unreadCount)).

Definition markAllRead (identity : SessionIdentity) : Tx ReadResponse :=
  withTenant (si_tenantId identity) (
    readAt ← now;
    updated ← updateMany (ownUnread identity) (readNow readAt);
    mret (mkReadResponse (Z.of_nat updated) 0)).
End Notifications.

(** ** What marking does *)

(** A notification as it is later: the same, but perhaps read since. *)
Definition laterRead (n n' : Notification) : Prop := n' = n \/ (nf_readAt n = None /\ exists t, n' = readNow t n).

(** Every notification is there, in its place; only the caller's change. *)
Definition marked (identity : SessionIdentity) (p : Notification -> bool) (db db' : Db) : Prop :=
  exists t, db' = withRows (map (fun n => if ownUnread identity n && p n then readNow t n else n) (db_notifications db)) db.

Section Facts.
Context `{Env}.

Lemma markRead_Ok identity ids r w w' :
  markRead identity ids w = (Ok r, w') ->
  normalizePublicIds ids = Ok ids /\ marked identity (withPublicId ids) (w_db w) (w_db w') /\
  rr_updated r = Z.of_nat (length (List.filter (fun n => ownUnread identity n && withPublicId ids n) (db_notifications (w_db w)))) /\
  rr_unreadCount r = Z.of_nat (length (List.filter (ownUnread identity) (db_notifications (w_db w')))).
Proof.
  unfold markRead. intros (publicIds & w1 & [Hids <-]%liftResult_Ok & Hr)%Tx_bind_Ok.
  assert (publicIds = ids) as -> by (unfold normalizePublicIds in Hids; destruct (_ || _); [done|]; by destruct (_ || _); [|injection Hids]).
  split; [done|]. apply withTenant_Ok in Hr as (wi & wo & Ei & Hr & Eo).
  apply Tx_bind_Ok in Hr as (t & w2 & [-> ->]%now_Ok & Hr). apply Tx_bind_Ok in Hr as (n & w3 & [-> E3]%updateMany_Ok & Hr).
  apply Tx_bind_Ok in Hr as (c & w4 & [-> E4]%countRows_Ok & [<- <-]%Tx_ret_Ok). cbn [rows Table_Notification w_db tick rr_updated rr_unreadCount] in *.
  rewrite Eo, E4, E3, Ei. split; [by exists (nowAt (w_tick wi))|]. done.
Qed.

Lemma markAllRead_Ok identity r w w' :
  markAllRead identity w = (Ok r, w') ->
  marked identity (fun _ => true) (w_db w) (w_db w') /\
  rr_updated r = Z.of_nat (length (List.filter (ownUnread identity) (db_notifications (w_db w)))) /\ rr_unreadCount r = 0.
Proof.
  unfold markAllRead. intros (wi & wo & Ei & Hr & Eo)%withTenant_Ok.
  apply Tx_bind_Ok in Hr as (t & w2 & [-> ->]%now_Ok & Hr). apply Tx_bind_Ok in Hr as (n & w3 & [-> E3]%updateMany_Ok & [<- <-]%Tx_ret_Ok).
  cbn [rows Table_Notification w_db tick rr_updated rr_unreadCount] in *. rewrite Eo, E3, Ei. split; [|done]. exists (nowAt (w_tick wi)).
  f_equal. apply map_ext. intros x. by rewrite andb_true_r.
Qed.

Lemma markRead_Throw identity ids e w w' : markRead identity ids w = (Throw e, w') -> w_db w' = w_db w.
Proof. unfold markRead, mbind, Tx_bind, liftResult. destruct (normalizePublicIds ids); [apply withTenant_rollback|by intros [= _ <-]]. Qed.

Lemma markAllRead_Throw identity e w w' : markAllRead identity w = (Throw e, w') -> w_db w' = w_db w.
Proof. apply withTenant_rollback. Qed.
End Facts.

(** ** Along any requests *)

#[global] Instance laterRead_preorder : PreOrder laterRead.
Proof.
  split; [by left|]. intros a b c [->|[Ha [t ->]]] Hc; [done|]. right. split; [done|]. destruct Hc as [->|[[=] _]]. by exists t.
Qed.

Lemma marked_rows (l : list Notification) db : db_notifications (withRows l db) = l.
Proof. exact (rows_withRows l db). Qed.

Lemma marked_later identity p db db' : marked identity p db db' -> Forall2 laterRead (db_notifications db) (db_notifications db').
Proof.
  intros [t ->]. rewrite marked_rows. induction (db_notifications db) as [|n l IH]; [constructor|].
  cbn [map]. constructor; [|exact IH]. destruct (_ && _) eqn:E; [|by left]. right. unfold ownUnread, unread in E. bools. split; [tauto|by exists t].
Qed.

(** A request to mark notifications, whoever makes it and whatever it comes to. *)
Inductive feedStep : Db -> Db -> Prop :=
  | feed_some `{Env} identity ids r w w' : markRead identity ids w = (r, w') -> feedStep (w_db w) (w_db w')
  | feed_all `{Env} identity r w w' : markAllRead identity w = (r, w') -> feedStep (w_db w) (w_db w').

Lemma feedStep_marked db db' : feedStep db db' -> db' = db \/ exists identity p, marked identity p db db'.
Proof.
  intros [env identity ids [r|e] w w' Hr|env identity [r|e] w w' Hr].
  - right. apply markRead_Ok in Hr as (_ & Hm & _). eauto.
  - left. by eapply markRead_Throw.
  - right. apply markAllRead_Ok in Hr as (Hm & _). eauto.
  - left. by eapply markAllRead_Throw.
Qed.

(** Along any sequence of requests to mark notifications every notification
    stays in its place as it is, but that one that was unread may be read since:
    none is lost, added, changed or unread again, and the time it was first read
    stays. *)
Theorem feed_only_read db db' : rtc feedStep db db' -> Forall2 laterRead (db_notifications db) (db_notifications db').
Proof.
  induction 1 as [db|a b c Hs _ IH]; [reflexivity|]. transitivity (db_notifications b); [|exact IH].
  destruct (feedStep_marked _ _ Hs) as [->|(identity & p & Hm)]; [reflexivity|by eapply marked_later].
Qed.

(** Once a request that marked all of a user's notifications returned, none of
    them is unread, everybody else's are as they were, and what it answers counts
    those it marked. *)
Theorem all_read `{Env} identity r w w' :
  markAllRead identity w = (Ok r, w') ->
  List.filter (ownUnread identity) (db_notifications (w_db w')) = [] /\
  List.filter (fun n => negb (ownNotification identity n)) (db_notifications (w_db w')) =
    List.filter (fun n => negb (ownNotification identity n)) (db_notifications (w_db w)) /\
  rr_updated r = Z.of_nat (length (List.filter (ownUnread identity) (db_notifications (w_db w)))) /\ rr_unreadCount r = 0.
Proof.
  intros ([t ->] & Hu & Hn)%markAllRead_Ok. rewrite marked_rows.
  assert (E : forall n, ownNotification identity (readNow t n) = ownNotification identity n) by done.
  split; [|split; [|done]]; clear; induction (db_notifications (w_db w)) as [|n l IH]; [done| |done|]; cbn [map List.filter]; rewrite andb_true_r;
    destruct (ownUnread identity n) eqn:En.
  - unfold ownUnread, unread. cbn [readNow nf_readAt]. rewrite (bool_decide_false (Some t = None)), andb_false_r by done. exact IH.
  - by rewrite En.
  - unfold ownUnread in En. apply andb_true_iff in En as [En _]. change (ownNotification identity (readNow t n)) with (ownNotification identity n).
    by rewrite En.
  - destruct (negb _); [by f_equal|done].
Qed.

(** ** A concrete instance *)

Definition feedDb : Db :=
  withRows [mkNotification "n1" (uuidText 1) "t1" "u-m" SHIFT_ASSIGNED "Shift" "Soon" None 1000;
            mkNotification "n2" (uuidText 2) "t1" "u-m" SHIFT_ASSIGNED "Shift" "Later" (Some 1500) 1200;
            mkNotification "n3" (uuidText 3) "t1" "somebody" SHIFT_ASSIGNED "Shift" "Soon" None 1000] emptyDb.
Definition feedRun : Result ReadResponse * World :=
  @markRead (calm 2000) sampleManager [uuidText 1; uuidText 2; uuidText 3] (mkWorld feedDb 0).

Example feed_read :
  feedRun.1 = Ok (mkReadResponse 1 0) /\ map nf_readAt (db_notifications (w_db feedRun.2)) = [Some 2000; Some 1500; None].
Proof. vm_compute. split; reflexivity. Qed.

Lemma feed_only_read_witness : Forall2 laterRead (db_notifications feedDb) (db_notifications (w_db feedRun.2)).
Proof.
  apply feed_only_read, rtc_once, (@feed_some (calm 2000) sampleManager [uuidText 1; uuidText 2; uuidText 3] feedRun.1 (mkWorld feedDb 0)).
  apply surjective_pairing.
Defined.

Lemma all_read_witness :
  let run := @markAllRead (calm 2000) sampleManager (mkWorld feedDb 0) in
  List.filter (ownUnread sampleManager) (db_notifications (w_db run.2)) = [] /\
  List.filter (fun n => negb (ownNotification sampleManager n)) (db_notifications (w_db run.2)) =
    List.filter (fun n => negb (ownNotification sampleManager n)) (db_notifications feedDb) /\ 1 = 1 /\ 0 = 0.
Proof.
  cbv zeta. apply (@all_read (calm 2000) sampleManager (mkReadResponse 1 0) (mkWorld feedDb 0) (@markAllRead (calm 2000) sampleManager (mkWorld feedDb 0)).2).
  vm_compute. reflexivity.
Defined.
