(* ===== verification/PayrollReconciliation.v ===== *)
(** * Reconciliation of a payroll export

    [reconcileExport] of apps/api-v2/src/payroll/payroll.service.ts: a payroll
    provider reports, line by line, what became of a downloaded batch. Each
    report is kept as a receipt with one event per line; the state of a line is
    its latest event, and a batch whose lines are all accepted, at the
    provider's total of the same minutes, is reconciled for good. *)

From S2P Require Import Prelude JsStd JsCollections JsDate JsEncoding ContractHelpers TimeZone PayrollDates PayrollRecords.
From S2P Require Import Database FeatureEntitlement Authority ScheduleStore TimeCardPayroll TimeCardStore TimeCards.
From S2P Require Import PayrollStore PayrollPolicies PayrollReview PayrollLock PayrollAmendments PayrollExport PayrollExportFacts.

(** ** Rows *)

Definition receiptRow (id publicId : string) (receivedAt : Z) (identity : SessionIdentity) (batchId payloadSha256 : string)
    (payload : ReconciliationPayload) : PayrollReconciliationReceipt :=
  let '(acceptedCount, rejectedCount, pendingCount) := reconciliationCounts payload in
  mkReceipt id publicId (si_tenantId identity) batchId (rc_provider payload) (rc_providerEventId payload) payloadSha256
    (rc_providerTotalMinutes payload) (Z.of_nat acceptedCount) (Z.of_nat rejectedCount) (Z.of_nat pendingCount) (si_sub identity) receivedAt.

Definition eventRow (tenantId receiptId batchId : string) (id : string) (outcome : Outcome) : PayrollReconciliationLineEvent :=
  mkLineEvent id tenantId receiptId batchId (oc_lineId outcome) (oc_status outcome) (oc_reason outcome).

(** The state of a line, found by its unique index. *)
Definition stateOfLine (batchId lineId : string) (s : PayrollReconciliationLineState) : bool :=
  bool_decide (xs_batchId s = batchId) && bool_decide (xs_lineId s = lineId).

Definition restated (receiptId : string) (outcome : Outcome) (s : PayrollReconciliationLineState) : PayrollReconciliationLineState :=
  mkLineState (xs_id s) (xs_tenantId s) (xs_batchId s) (xs_lineId s) (oc_status outcome) receiptId (oc_reason outcome).

Definition stateRow (id tenantId receiptId batchId : string) (outcome : Outcome) : PayrollReconciliationLineState :=
  mkLineState id tenantId batchId (oc_lineId outcome) (oc_status outcome) receiptId (oc_reason outcome).

(** [upsert]: the row of the line is updated, or there is a new one. *)
Definition upserted (tenantId receiptId batchId : string) (outcome : Outcome) (id : string) (l : list PayrollReconciliationLineState)
    : list PayrollReconciliationLineState :=
  let here := stateOfLine batchId (oc_lineId outcome) in
  if existsb here l then map (fun s => if here s then restated receiptId outcome s else s) l
  else l ++ [stateRow id tenantId receiptId batchId outcome].

Definition statusRow (status : ExportStatus) (reconciledAt : option Z) (updatedAt : Z) (b : PayrollExportBatch) : PayrollExportBatch :=
  mkExportBatch (xb_id b) (xb_publicId b) (xb_tenantId b) (xb_periodId b) (xb_operationId b) (xb_requestHash b)
    (xb_creditTransactionId b) (xb_formatVersion b) status (xb_contentSha256 b) (xb_rowCount b) (xb_totalPayableMinutes b)
    (xb_consumedCredits b) (xb_newBalance b) (xb_createdAt b) (xb_downloadedAt b)
    (match reconciledAt with Some t => Some t | None => xb_reconciledAt b end) updatedAt.

(** [tenantId_provider_providerEventId] *)
Definition receiptKey (tenantId provider providerEventId : string) (r : PayrollReconciliationReceipt) : bool :=
  bool_decide (xr_tenantId r = tenantId) && bool_decide (xr_provider r = provider) && bool_decide (xr_providerEventId r = providerEventId).

Definition receiptJson (r : PayrollReconciliationReceipt) (batchId receivedByUserId : string) : Json :=
  JObj [jText "id" (xr_publicId r); jText "batchId" batchId; jText "provider" (xr_provider r);
        jText "providerEventId" (xr_providerEventId r); jText "payloadSha256" (xr_payloadSha256 r);
        jInt "providerTotalMinutes" (xr_providerTotalMinutes r); jInt "acceptedCount" (xr_acceptedCount r);
        jInt "rejectedCount" (xr_rejectedCount r); jInt "pendingCount" (xr_pendingCount r);
        jText "receivedByUserId" receivedByUserId; jText "receivedAt" (toISOString (xr_receivedAt r))].

(** ** Operations *)

Section Reconciliation.
Context `{Env, Process, AuthorityEnv, CommitEnv, Collation, Intl, LC : LocaleCompare, SH : Sha256}.

Definition resolveExportId : SessionIdentity -> string -> Tx string :=
  resolveId "payroll_export" xb_tenantId xb_publicId xb_id.

Definition lineInvalid {A} : Tx A :=
  liftResult (exportConflict "payroll_reconciliation_line_invalid"
    "Reconciliation outcomes contain an unknown or cross-batch payroll line.").

(** The outcome with the stored identifier of its line. *)
Definition internalOutcome (lineByPublicId : JsMap string string) (outcome : Outcome) : Result Outcome :=
  lineId ← requireMapped lineByPublicId (oc_lineId outcome) "payroll export line";
  Ok (mkOutcome lineId (oc_status outcome) (oc_reason outcome)).

Definition internalReconciliationPayload (tenantId batchId : string) (payload : ReconciliationPayload) : Tx ReconciliationPayload :=
  publicLineIds ← liftResult (mapM (fun o => requiredPublicId (oc_lineId o) "payroll_export_line") (rc_outcomes payload));
  found ← findMany (fun l => bool_decide (xl_tenantId l = tenantId) && bool_decide (xl_batchId l = batchId)
                             && existsb (sameUuid (xl_publicId l)) publicLineIds);
  let lines := take (length publicLineIds) found in
  if negb (length lines =? length publicLineIds)%nat then lineInvalid
  else
    let lineByPublicId := mapOf (map (fun l => (xl_publicId l, xl_id l)) lines) in
    outcomes ← liftResult (mapM (internalOutcome lineByPublicId) (rc_outcomes payload));
    mret (mkReconciliation (rc_provider payload) (rc_providerEventId payload) (rc_providerTotalMinutes payload)
            (sortBy (fun l r => localeCompare (oc_lineId l) (oc_lineId r)) outcomes)).

Definition serializeReceipt (tenantId : string) (receipt : PayrollReconciliationReceipt) : Tx Json :=
  batch ← findFirst (fun b => bool_decide (xb_tenantId b = tenantId) && bool_decide (xb_id b = xr_batchId receipt));
  users ← publicUsers tenantId [Some (xr_receivedByUserId receipt)];
  match batch with
  | None => liftResult (evidenceUnavailable "export")
  | Some batch =>
      liftResult (userId ← requireMapped users (xr_receivedByUserId receipt) "staff"; Ok (receiptJson receipt (xb_publicId batch) userId))
  end.

(** The receipt of a provider's event, when it is for the same report. *)
Definition replayReceipt (tenantId batchId payloadSha256 : string) (receipt : PayrollReconciliationReceipt) : Tx Json :=
  if negb (bool_decide (xr_batchId receipt = batchId)) || negb (bool_decide (xr_payloadSha256 receipt = payloadSha256))
  then replayConflict
  else serializeReceipt tenantId receipt.

(** [findReceiptReplay]: in a transaction of its own. *)
Definition findReceiptReplay (identity : SessionIdentity) (batchId provider providerEventId payloadSha256 : string) : Tx (option Json) :=
  mutationRun identity (
    found ← findFirst (receiptKey (si_tenantId identity) provider providerEventId);
    match found with
    | None => mret None
    | Some receipt => response ← replayReceipt (si_tenantId identity) batchId payloadSha256 receipt; mret (Some response)
    end).

Definition stateChanged {A} : Tx A :=
  liftResult (exportConflict "payroll_reconciliation_state_changed" "Payroll reconciliation state changed. Retry.").

Definition createReceipt (identity : SessionIdentity) (batchId payloadSha256 : string) (payload : ReconciliationPayload)
    : Tx PayrollReconciliationReceipt :=
  _ ← assertCurrent;
  id ← randomUUID;
  publicId ← randomUUID;
  receivedAt ← now;
  let receipt := receiptRow id publicId receivedAt identity batchId payloadSha256 payload in
  _ ← createRow receipt;
  _ ← assertCurrent;
  mret receipt.

Definition createEvents (tenantId receiptId batchId : string) (outcomes : list Outcome) : Tx unit :=
  events ← mapM (fun o => id ← randomUUID; mret (eventRow tenantId receiptId batchId id o)) outcomes;
  _ ← createMany events;
  assertCurrent.

Definition upsertState (tenantId receiptId batchId : string) (outcome : Outcome) : Tx unit :=
  _ ← assertCurrent;
  id ← randomUUID;
  _ ← query (fun db =>
        let l := et_states (db_exports db) in
        if negb (existsb (stateOfLine batchId (oc_lineId outcome)) l)
           && existsb (conflicts (stateRow id tenantId receiptId batchId outcome)) l
        then Throw (DriverError "P2002" None)
        else Ok (tt, withRows (upserted tenantId receiptId batchId outcome id l) db));
  assertCurrent.

(** One row leaves the status [from]; [reconciles] sets [reconciledAt]. *)
Definition moveBatch (tenantId batchId : string) (from to : ExportStatus) (reconciles : bool) : Tx unit :=
  _ ← assertCurrent;
  reconciledAt ← (if reconciles then t ← now; mret (Some t) else mret None);
  updatedAt ← now;
  changed ← updateMany (batchAt tenantId batchId from) (statusRow to reconciledAt updatedAt);
  _ ← assertCurrent;
  if negb (changed =? 1)%nat then stateChanged else mret tt.

Definition acceptedState (tenantId batchId : string) (s : PayrollReconciliationLineState) : bool :=
  stateOf tenantId batchId s && bool_decide (xs_status s = ACCEPTED).

(** The batch after a receipt: in reconciliation, and reconciled when every
    line is accepted at the same total. *)
Definition advanceBatch (tenantId : string) (batch : PayrollExportBatch) (providerTotalMinutes : Z) : Tx unit :=
  _ ← (if bool_decide (xb_status batch = DOWNLOADED) then moveBatch tenantId (xb_id batch) DOWNLOADED RECONCILING false else mret tt);
  accepted ← findMany (acceptedState tenantId (xb_id batch));
  if (Z.of_nat (length accepted) =? xb_rowCount batch) && (providerTotalMinutes =? xb_totalPayableMinutes batch)
  then moveBatch tenantId (xb_id batch) RECONCILING RECONCILED true
  else mret tt.

(** A report that was not received before. *)
Definition receiveReport (identity : SessionIdentity) (batch : PayrollExportBatch) (publicPayload payload : ReconciliationPayload)
    (payloadSha256 : string) : Tx Json :=
  let tenantId := si_tenantId identity in
  canonicalPayload ← internalReconciliationPayload tenantId (xb_id batch) publicPayload;
  if negb (bool_decide (reconciliationPayloadSha256 tenantId (si_sub identity) (xb_id batch) canonicalPayload = payloadSha256))
  then stateChanged
  else
    receipt ← createReceipt identity (xb_id batch) payloadSha256
                (mkReconciliation (rc_provider payload) (rc_providerEventId payload) (rc_providerTotalMinutes payload)
                   (rc_outcomes canonicalPayload));
    _ ← createEvents tenantId (xr_id receipt) (xb_id batch) (rc_outcomes canonicalPayload);
    _ ← forEach (upsertState tenantId (xr_id receipt) (xb_id batch)) (rc_outcomes canonicalPayload);
    _ ← advanceBatch tenantId batch (rc_providerTotalMinutes payload);
    response ← serializeReceipt tenantId receipt;
    _ ← assertCurrent;
    _ ← writePayrollAudit identity "PAYROLL_RECONCILIATION_RECEIVED" "PayrollReconciliationReceipt" (xr_id receipt) None (Some response);
    _ ← assertCurrent;
    mret response.

Definition reconcileInScope (identity : SessionIdentity) (exportId : string) (publicPayload payload : ReconciliationPayload)
    (payloadSha256 : string) : Tx Json :=
  let tenantId := si_tenantId identity in
  _ ← lockPayrollTenant tenantId;
  batch ← lockBatch tenantId (fun b => bool_decide (xb_id b = exportId));
  _ ← lockPayrollPeriod tenantId (xb_periodId batch);
  replay ← findFirst (receiptKey tenantId (rc_provider payload) (rc_providerEventId payload));
  match replay with
  | Some receipt => replayReceipt tenantId (xb_id batch) payloadSha256 receipt
  | None =>
      if bool_decide (xb_status batch = GENERATED) then
        liftResult (exportConflict "payroll_reconciliation_before_download" "Payroll export must be downloaded before reconciliation.")
      else if bool_decide (xb_status batch = RECONCILED) then
        liftResult (exportConflict "payroll_reconciliation_terminal" "Payroll export reconciliation is already terminal.")
      else receiveReport identity batch publicPayload payload payloadSha256
  end.

(** The [catch] of [reconcileExport]. *)
Definition recoverReceipt (identity : SessionIdentity) (exportId : string) (payload : ReconciliationPayload) (payloadSha256 : string)
    (error : Exn) : Tx Json :=
  if isUniqueConflict error then
    replay ← findReceiptReplay identity exportId (rc_provider payload) (rc_providerEventId payload) payloadSha256;
    match replay with
    | Some response => mret response
    | None => replayConflict
    end
  else throwTx error.

Definition reconcileExport (identity : SessionIdentity) (publicExportId : string) (body : ReconciliationPayload) : Tx Json :=
  let identity := operationsIdentity identity in
  _ ← prepareCurrentMutation identity;
  exportId ← resolveExportId identity publicExportId;
  publicPayload ← liftResult (normalizeReconciliation body);
  payload ← withTenant (si_tenantId identity) (internalReconciliationPayload (si_tenantId identity) exportId publicPayload);
  let payloadSha256 := reconciliationPayloadSha256 (si_tenantId identity) (si_sub identity) exportId payload in
  catching (mutationRun identity (reconcileInScope identity exportId publicPayload payload payloadSha256))
    (recoverReceipt identity exportId payload payloadSha256).
End Reconciliation.

(** ** What a report comes to *)

(** An outcome as it was reported, and with the line of the batch it names. *)
Definition names (tenantId batchId : string) (db : Db) (public internal : Outcome) : Prop :=
  exists l, l ∈ et_lines (db_exports db) /\ xl_tenantId l = tenantId /\ xl_batchId l = batchId /\
    xl_publicId l = oc_lineId public /\ xl_id l = oc_lineId internal /\
    oc_status internal = oc_status public /\ oc_reason internal = oc_reason public.

Definition translated `{LocaleCompare} (tenantId batchId : string) (db : Db) (public internal : ReconciliationPayload) : Prop :=
  rc_provider internal = rc_provider public /\ rc_providerEventId internal = rc_providerEventId public /\
  rc_providerTotalMinutes internal = rc_providerTotalMinutes public /\
  exists outcomes, Forall2 (names tenantId batchId db) (rc_outcomes public) outcomes /\
    rc_outcomes internal = sortBy (fun l r => localeCompare (oc_lineId l) (oc_lineId r)) outcomes.

(** The states of the lines after the outcomes of a receipt. *)
Fixpoint upsertedAll (tenantId receiptId batchId : string) (outcomes : list Outcome) (ids : list string)
    (l : list PayrollReconciliationLineState) : list PayrollReconciliationLineState :=
  match outcomes, ids with
  | o :: outcomes, id :: ids => upsertedAll tenantId receiptId batchId outcomes ids (upserted tenantId receiptId batchId o id l)
  | _, _ => l
  end.

(** Every line is accepted, at the total of the batch. *)
Definition complete (tenantId : string) (batch : PayrollExportBatch) (providerTotalMinutes : Z)
    (states : list PayrollReconciliationLineState) : bool :=
  (Z.of_nat (length (List.filter (acceptedState tenantId (xb_id batch)) states)) =? xb_rowCount batch)
  && (providerTotalMinutes =? xb_totalPayableMinutes batch).

(** The batches after a receipt of [batch]. *)
Inductive advanced (batch : PayrollExportBatch) (isComplete : bool) (l : list PayrollExportBatch) : list PayrollExportBatch -> Prop :=
  | adv_reconciled t u : isComplete = true -> advanced batch isComplete l (replaceRow xb_id (xb_id batch) (statusRow RECONCILED (Some t) u) l)
  | adv_begun u : isComplete = false -> xb_status batch = DOWNLOADED ->
      advanced batch isComplete l (replaceRow xb_id (xb_id batch) (statusRow RECONCILING None u) l)
  | adv_going : isComplete = false -> xb_status batch = RECONCILING -> advanced batch isComplete l l.

Record ReportReceived `{LocaleCompare, Sha256} (identity : SessionIdentity) (exportId : string) (public : ReconciliationPayload)
    (payloadSha256 : string) (db db' : Db) (batch : PayrollExportBatch) (payload : ReconciliationPayload)
    (receipt : PayrollReconciliationReceipt) : Prop := mkReportReceived {
  rr_batch : batch ∈ et_batches (db_exports db) /\ xb_id batch = exportId /\ xb_tenantId batch = si_tenantId identity /\
    (xb_status batch = DOWNLOADED \/ xb_status batch = RECONCILING);
  rr_first : forall r, r ∈ et_receipts (db_exports db) ->
    receiptKey (si_tenantId identity) (rc_provider payload) (rc_providerEventId payload) r = false;
  rr_payload : translated (si_tenantId identity) exportId db public payload /\
    payloadSha256 = reconciliationPayloadSha256 (si_tenantId identity) (si_sub identity) exportId payload;
  rr_receipt : (exists id publicId receivedAt, receipt = receiptRow id publicId receivedAt identity exportId payloadSha256 payload) /\
    existsb (conflicts receipt) (et_receipts (db_exports db)) = false;
  rr_written : exists events stateIds batches' audit,
    Forall2 (fun o e => exists id, e = eventRow (si_tenantId identity) (xr_id receipt) exportId id o) (rc_outcomes payload) events /\
    insertAll events (et_events (db_exports db)) = Some (et_events (db_exports db) ++ events) /\
    length stateIds = length (rc_outcomes payload) /\
    let states' := upsertedAll (si_tenantId identity) (xr_id receipt) exportId (rc_outcomes payload) stateIds (et_states (db_exports db)) in
    advanced batch (complete (si_tenantId identity) batch (rc_providerTotalMinutes payload) states') (et_batches (db_exports db)) batches' /\
    al_action audit = "PAYROLL_RECONCILIATION_RECEIVED" /\
    db' = withRows (db_audits db ++ [audit]) (withRows batches' (withRows states' (withRows (et_events (db_exports db) ++ events)
            (withRows (et_receipts (db_exports db) ++ [receipt]) db))));
}.

(** The receipt a report is answered with: that of the same event, or a new one. *)
Inductive ReportCommitted `{LocaleCompare, Sha256} (identity : SessionIdentity) (exportId : string) (public : ReconciliationPayload)
    (payloadSha256 : string) (db : Db) : PayrollReconciliationReceipt -> Db -> Prop :=
  | report_replayed receipt :
      receipt ∈ et_receipts (db_exports db) -> xr_batchId receipt = exportId -> xr_payloadSha256 receipt = payloadSha256 ->
      receiptKey (si_tenantId identity) (rc_provider public) (rc_providerEventId public) receipt = true ->
      ReportCommitted identity exportId public payloadSha256 db receipt db
  | report_received db' batch payload receipt :
      ReportReceived identity exportId public payloadSha256 db db' batch payload receipt ->
      ReportCommitted identity exportId public payloadSha256 db receipt db'.

(** The answer shows the receipt. *)
Definition ShowsReceipt (receipt : PayrollReconciliationReceipt) (response : Json) : Prop :=
  exists batchId userId, response = receiptJson receipt batchId userId.

(** ** The reads *)

Section Reads.
Context `{Env, Process, AuthorityEnv, CommitEnv, Collation, Intl, LC : LocaleCompare, SH : Sha256}.

Lemma resolveExportId_ReadOnly identity publicId : ReadOnly (resolveExportId identity publicId).
Proof. apply resolveId_ReadOnly. Qed.

Lemma internalReconciliationPayload_ReadOnly tenantId batchId payload : ReadOnly (internalReconciliationPayload tenantId batchId payload).
Proof.
  apply ReadOnly_bind; [apply ReadOnly_lift|]. intros ids. apply ReadOnly_bind; [apply ReadOnly_findMany|]. intros found. cbv zeta.
  apply ReadOnly_if; [apply ReadOnly_lift|]. apply ReadOnly_bind; [apply ReadOnly_lift|]. intros outcomes. apply ReadOnly_ret.
Qed.

Lemma serializeReceipt_ReadOnly tenantId receipt : ReadOnly (serializeReceipt tenantId receipt).
Proof.
  apply ReadOnly_bind; [apply ReadOnly_findFirst|]. intros batch. apply ReadOnly_bind; [apply publicUsers_ReadOnly|]. intros users.
  destruct batch; apply ReadOnly_lift.
Qed.

Lemma replayReceipt_ReadOnly tenantId batchId sha receipt : ReadOnly (replayReceipt tenantId batchId sha receipt).
Proof. unfold replayReceipt, replayConflict. apply ReadOnly_if; [apply ReadOnly_lift|apply serializeReceipt_ReadOnly]. Qed.

Lemma findReceiptReplay_ReadOnly identity batchId provider event sha : ReadOnly (findReceiptReplay identity batchId provider event sha).
Proof.
  apply mutationRun_ReadOnly. apply ReadOnly_bind; [apply ReadOnly_findFirst|]. intros [r|]; [|apply ReadOnly_ret].
  apply ReadOnly_bind; [apply replayReceipt_ReadOnly|]. intros response. apply ReadOnly_ret.
Qed.

Lemma recoverReceipt_ReadOnly identity exportId payload sha error : ReadOnly (recoverReceipt identity exportId payload sha error).
Proof.
  unfold recoverReceipt, replayConflict. destruct (isUniqueConflict error); [|apply ReadOnly_throw].
  apply ReadOnly_bind; [apply findReceiptReplay_ReadOnly|]. intros [r|]; [apply ReadOnly_ret|apply ReadOnly_lift].
Qed.
End Reads.

#[export] Hint Resolve resolveExportId_ReadOnly internalReconciliationPayload_ReadOnly serializeReceipt_ReadOnly
  replayReceipt_ReadOnly recoverReceipt_ReadOnly : readonly.

(** ** The outcome of a report *)

Section Outcome.
Context `{Env, Process, AuthorityEnv, CommitEnv, Collation, Intl, LC : LocaleCompare, SH : Sha256}.

Lemma internalReconciliationPayload_Ok tenantId batchId public payload w w' :
  internalReconciliationPayload tenantId batchId public w = (Ok payload, w') -> translated tenantId batchId (w_db w) public payload.
Proof.
  unfold internalReconciliationPayload. intros (ids & w1 & [_ <-]%liftResult_Ok & Hr)%Tx_bind_Ok.
  apply Tx_bind_Ok in Hr as (found & w2 & [-> _]%findMany_Ok & Hr). cbv zeta in Hr. cbn [rows Table_Line] in Hr.
  destruct (negb _); [by apply liftResult_Ok in Hr as [? _]|].
  apply Tx_bind_Ok in Hr as (outcomes & w3 & [Hm%mapM_Ok_Forall2 _]%liftResult_Ok & [<- _]%Tx_ret_Ok).
  split; [done|]. split; [done|]. split; [done|]. exists outcomes. split; [|done]. eapply Forall2_impl; [exact Hm|].
  intros o c Ho. unfold internalOutcome, requireMapped, payrollRefused in Ho.
  destruct (mapGet _ _) as [id|] eqn:Eg; [|done]. destruct (isEmpty id); [done|]. injection Ho as <-.
  apply mapOf_found in Eg as (l & Hl & Hp & Hid). apply elem_of_take in Hl as (i & Hl & _). apply list_elem_of_lookup_2, list_elem_of_In, filter_In in Hl as [Hin%list_elem_of_In Hb].
  bools. exists l. split_and!; tauto || done.
Qed.

Lemma createEvents_Ok tenantId receiptId batchId outcomes u w w' :
  createEvents tenantId receiptId batchId outcomes w = (Ok u, w') ->
  exists events, Forall2 (fun o e => exists id, e = eventRow tenantId receiptId batchId id o) outcomes events /\
    insertAll events (et_events (db_exports (w_db w))) = Some (et_events (db_exports (w_db w)) ++ events) /\
    w_db w' = withRows (et_events (db_exports (w_db w)) ++ events) (w_db w).
Proof.
  unfold createEvents. intros (events & w1 & Hm & Hr)%Tx_bind_Ok. apply Tx_bind_Ok in Hr as (u2 & w2 & [Hi E2]%createMany_Ok & [_ ->]%assertCurrent_Ok).
  assert (Hev : w_db w1 = w_db w /\ Forall2 (fun o e => exists id, e = eventRow tenantId receiptId batchId id o) outcomes events).
  { clear Hi E2. revert events w1 w Hm. induction outcomes as [|o outcomes IH]; intros events w1 w; cbn; [intros [<- <-]%Tx_ret_Ok; by split|].
    intros (e & wa & He & Hr)%Tx_bind_Ok. apply Tx_bind_Ok in He as (id & wb & [-> ->]%randomUUID_Ok & [<- <-]%Tx_ret_Ok).
    apply Tx_bind_Ok in Hr as (es & wc & [E Hf]%IH & [<- <-]%Tx_ret_Ok). split; [done|]. constructor; [by eexists|done]. }
  destruct Hev as [E Hf]. exists events. rewrite <- E. by split.
Qed.

Lemma upsertState_Ok tenantId receiptId batchId o u w w' :
  upsertState tenantId receiptId batchId o w = (Ok u, w') ->
  exists id, w_db w' = withRows (upserted tenantId receiptId batchId o id (et_states (db_exports (w_db w)))) (w_db w).
Proof.
  unfold upsertState. intros (u1 & w1 & [_ ->]%assertCurrent_Ok & Hr)%Tx_bind_Ok. apply Tx_bind_Ok in Hr as (id & w2 & [-> ->]%randomUUID_Ok & Hr).
  apply Tx_bind_Ok in Hr as (u2 & w3 & (_ & db & Hq & ->)%query_Ok & [_ ->]%assertCurrent_Ok). eexists. cbn [w_db tick] in *.
  destruct (negb _ && _); [done|]. injection Hq as _ <-. reflexivity.
Qed.

Lemma withStates_twice db (a b : list PayrollReconciliationLineState) : withRows a (withRows b db) = withRows a db.
Proof. by open_db db. Qed.
Lemma states_withStates db (l : list PayrollReconciliationLineState) : et_states (db_exports (withRows l db)) = l.
Proof. by open_db db. Qed.

Lemma upsertStates_Ok tenantId receiptId batchId outcomes : forall u w w',
  forEach (upsertState tenantId receiptId batchId) outcomes w = (Ok u, w') ->
  exists ids, length ids = length outcomes /\
    w_db w' = withRows (upsertedAll tenantId receiptId batchId outcomes ids (et_states (db_exports (w_db w)))) (w_db w).
Proof.
  induction outcomes as [|o outcomes IH]; intros u w w'; cbn [forEach].
  - intros [_ <-]%Tx_ret_Ok. exists []. split; [done|]. cbn. by open_db (w_db w).
  - intros (u1 & w1 & (id & E1)%upsertState_Ok & (ids & Hlen & E2)%IH)%Tx_bind_Ok. exists (id :: ids).
    split; [by cbn; rewrite Hlen|]. cbn [upsertedAll]. by rewrite E2, E1, states_withStates, withStates_twice.
Qed.

Lemma replaceRow_twice {A} (key : A -> string) k (f g h : A -> A) l :
  (forall x, key (f x) = key x) -> (forall x, g (f x) = h x) -> replaceRow key k g (replaceRow key k f l) = replaceRow key k h l.
Proof.
  intros Hk Hf. unfold replaceRow. rewrite map_map. apply map_ext. intros x. destruct (decide (key x = k)) as [E|E].
  - by rewrite (bool_decide_true (key x = k)), Hk, bool_decide_true, Hf.
  - by rewrite (bool_decide_false (key x = k)), bool_decide_false.
Qed.

Lemma moveBatch_Ok tenantId from to reconciles batch u w w' :
  NoDup (map xb_id (et_batches (db_exports (w_db w)))) -> batch ∈ et_batches (db_exports (w_db w)) ->
  moveBatch tenantId (xb_id batch) from to reconciles w = (Ok u, w') ->
  exists at_ updatedAt, isPresent at_ = reconciles /\
    w_db w' = withRows (replaceRow xb_id (xb_id batch) (statusRow to at_ updatedAt) (et_batches (db_exports (w_db w)))) (w_db w).
Proof.
  intros Hkeys Hin. unfold moveBatch. intros (u1 & w1 & [_ ->]%assertCurrent_Ok & Hr)%Tx_bind_Ok.
  apply Tx_bind_Ok in Hr as (at_ & w2 & Hat & Hr).
  assert (Ha : w_db w2 = w_db w /\ isPresent at_ = reconciles).
  { destruct reconciles; [apply Tx_bind_Ok in Hat as (t & wa & [-> ->]%now_Ok & Hat)|]; by apply Tx_ret_Ok in Hat as [<- <-]. }
  destruct Ha as [E2 Hp]. apply Tx_bind_Ok in Hr as (t & w3 & [-> ->]%now_Ok & Hr).
  apply Tx_bind_Ok in Hr as (n & w4 & [-> E4]%updateMany_Ok & Hr). cbn [w_db tick rows Table_Batch] in Hr, E4. rewrite E2 in Hr, E4.
  apply Tx_bind_Ok in Hr as (u2 & w5 & [_ ->]%assertCurrent_Ok & Hr).
  destruct (_ =? 1)%nat eqn:El; [|by apply liftResult_Ok in Hr as [? _]]. apply Tx_ret_Ok in Hr as [_ <-]. bools.
  apply (update_one xb_id _ (statusRow to at_ (nowAt (w_tick w2))) _ batch Hkeys Hin) in El as [_ El].
  2:{ intros b Hb. unfold batchAt in Hb. bools. tauto. }
  exists at_, (nowAt (w_tick w2)). split; [done|]. cbn [w_db tick]. by rewrite E4, El.
Qed.

Lemma withBatches_twice db (a b : list PayrollExportBatch) : withRows a (withRows b db) = withRows a db.
Proof. by open_db db. Qed.
Lemma batches_withBatches db (l : list PayrollExportBatch) : et_batches (db_exports (withRows l db)) = l.
Proof. by open_db db. Qed.
Lemma states_withBatches db (l : list PayrollExportBatch) : et_states (db_exports (withRows l db)) = et_states (db_exports db).
Proof. by open_db db. Qed.

Lemma advanceBatch_Ok tenantId batch total u w w' :
  NoDup (map xb_id (et_batches (db_exports (w_db w)))) -> batch ∈ et_batches (db_exports (w_db w)) ->
  xb_status batch = DOWNLOADED \/ xb_status batch = RECONCILING ->
  advanceBatch tenantId batch total w = (Ok u, w') ->
  exists batches', advanced batch (complete tenantId batch total (et_states (db_exports (w_db w)))) (et_batches (db_exports (w_db w))) batches' /\
    w_db w' = withRows batches' (w_db w).
Proof.
  intros Hkeys Hin Hst. unfold advanceBatch. intros (u1 & w1 & Hm & Hr)%Tx_bind_Ok.
  apply Tx_bind_Ok in Hr as (accepted & w2 & [-> E2]%findMany_Ok & Hr). cbn [rows Table_State] in Hr.
  case_bool_decide as Hd.
  - apply moveBatch_Ok in Hm as ([?|] & t & Hp & E1); [done| |done..]. rewrite E1 in E2, Hr. rewrite states_withBatches in Hr.
    fold (complete tenantId batch total (et_states (db_exports (w_db w)))) in Hr. destruct (complete _ _ _ _) eqn:Hc.
    + change (xb_id batch) with (xb_id (statusRow RECONCILING None t batch)) in Hr.
      apply moveBatch_Ok in Hr as ([t2|] & u2 & Hp2 & E); [|done| |].
      * eexists. split; [by apply (adv_reconciled _ _ _ t2 u2)|]. rewrite E, E2, batches_withBatches, withBatches_twice. f_equal.
        by apply replaceRow_twice.
      * rewrite E2, batches_withBatches. by rewrite replaceRow_keys.
      * rewrite E2, batches_withBatches. by apply replaceRow_elem.
    + apply Tx_ret_Ok in Hr as [_ <-]. eexists. split; [by apply (adv_begun _ _ _ t)|]. by rewrite E2.
  - destruct Hst as [?|Hst]; [done|]. apply Tx_ret_Ok in Hm as [_ <-]. fold (complete tenantId batch total (et_states (db_exports (w_db w)))) in Hr.
    destruct (complete _ _ _ _) eqn:Hc.
    + apply moveBatch_Ok in Hr as ([t2|] & u2 & Hp2 & E); [|done|by rewrite E2..].
      eexists. split; [by apply (adv_reconciled _ _ _ t2 u2)|]. by rewrite E, E2.
    + apply Tx_ret_Ok in Hr as [_ <-]. eexists. split; [by apply adv_going|]. rewrite E2. by open_db (w_db w).
Qed.

Lemma serializeReceipt_Ok tenantId receipt response w w' :
  serializeReceipt tenantId receipt w = (Ok response, w') -> ShowsReceipt receipt response.
Proof.
  unfold serializeReceipt. intros (batch & w1 & _ & Hr)%Tx_bind_Ok. apply Tx_bind_Ok in Hr as (users & w2 & _ & Hr).
  destruct batch as [b|]; apply liftResult_Ok in Hr as [Hr _]; [|done]. destruct (requireMapped _ _ _) as [userId|]; [|done].
  injection Hr as <-. by exists (xb_publicId b), userId.
Qed.

Lemma replayReceipt_Ok tenantId batchId sha receipt response w w' :
  replayReceipt tenantId batchId sha receipt w = (Ok response, w') ->
  xr_batchId receipt = batchId /\ xr_payloadSha256 receipt = sha /\ ShowsReceipt receipt response.
Proof.
  unfold replayReceipt, replayConflict. destruct (_ || _) eqn:E; [by intros [? _]%liftResult_Ok|]. bools. intros Hr%serializeReceipt_Ok. tauto.
Qed.

Lemma createReceipt_Ok identity batchId sha payload receipt w w' :
  createReceipt identity batchId sha payload w = (Ok receipt, w') ->
  (exists id publicId receivedAt, receipt = receiptRow id publicId receivedAt identity batchId sha payload) /\
  existsb (conflicts receipt) (et_receipts (db_exports (w_db w))) = false /\
  w_db w' = withRows (et_receipts (db_exports (w_db w)) ++ [receipt]) (w_db w).
Proof.
  unfold createReceipt. intros (u & w1 & [_ ->]%assertCurrent_Ok & Hr)%Tx_bind_Ok. apply Tx_bind_Ok in Hr as (id & w2 & [-> ->]%randomUUID_Ok & Hr).
  apply Tx_bind_Ok in Hr as (pid & w3 & [-> ->]%randomUUID_Ok & Hr). apply Tx_bind_Ok in Hr as (t & w4 & [-> ->]%now_Ok & Hr).
  cbv zeta in Hr. apply Tx_bind_Ok in Hr as (u2 & w5 & [Hc E]%createRow_Ok & Hr). apply Tx_bind_Ok in Hr as (u3 & w6 & [_ ->]%assertCurrent_Ok & [<- <-]%Tx_ret_Ok).
  split; [by eexists _, _, _|]. split; [exact Hc|exact E].
Qed.

(** What a received report wrote, when it is not refused. *)
Lemma receiveReport_Ok identity batch public payload sha response db w w' :
  w_db w = db -> NoDup (map xb_id (et_batches (db_exports db))) -> batch ∈ et_batches (db_exports db) -> xb_tenantId batch = si_tenantId identity ->
  xb_status batch = DOWNLOADED \/ xb_status batch = RECONCILING ->
  rc_provider payload = rc_provider public -> rc_providerEventId payload = rc_providerEventId public ->
  rc_providerTotalMinutes payload = rc_providerTotalMinutes public ->
  (forall r, r ∈ et_receipts (db_exports db) ->
     receiptKey (si_tenantId identity) (rc_provider public) (rc_providerEventId public) r = false) ->
  receiveReport identity batch public payload sha w = (Ok response, w') ->
  exists canonical receipt, ReportReceived identity (xb_id batch) public sha db (w_db w') batch canonical receipt /\ ShowsReceipt receipt response.
Proof.
  intros Hdb Hkeys Hin Ht Hst Ep Ee Em Hfirst Hr. unfold receiveReport in Hr. cbv zeta in Hr.
  apply Tx_bind_Ok in Hr as (canonical & w1 & Hc & Hr). pose proof (ReadOnly_Ok _ _ _ _ (internalReconciliationPayload_ReadOnly _ _ _) Hc) as E1.
  apply internalReconciliationPayload_Ok in Hc. rewrite Hdb in E1, Hc. case_bool_decide as Hsha; [|by apply liftResult_Ok in Hr as [? _]].
  cbn [negb] in Hr. pose proof Hc as (Ec1 & Ec2 & Ec3 & _).
  rewrite Ep, Ee, Em, <- Ec1, <- Ec2, <- Ec3 in Hr.
  replace (mkReconciliation _ _ _ _) with canonical in Hr by by destruct canonical.
  apply Tx_bind_Ok in Hr as (receipt & w2 & (Hrow & Hfresh & E2)%createReceipt_Ok & Hr). rewrite E1 in Hfresh, E2.
  apply Tx_bind_Ok in Hr as (u & w3 & (events & Hev & Hins & E3)%createEvents_Ok & Hr).
  apply Tx_bind_Ok in Hr as (u2 & w4 & (ids & Hlen & E4)%upsertStates_Ok & Hr).
  apply Tx_bind_Ok in Hr as (u3 & w5 & Hadv & Hr).
  apply Tx_bind_Ok in Hr as (shown & w6 & Hshow & Hr). pose proof (ReadOnly_Ok _ _ _ _ (serializeReceipt_ReadOnly _ _) Hshow) as E6.
  apply serializeReceipt_Ok in Hshow. apply Tx_bind_Ok in Hr as (u4 & w7 & [_ ->]%assertCurrent_Ok & Hr).
  apply Tx_bind_Ok in Hr as (u5 & w8 & (a & Ha & _ & _ & _ & _ & _ & _ & E8)%writePayrollAudit_Ok & Hr).
  apply Tx_bind_Ok in Hr as (u6 & w9 & [_ ->]%assertCurrent_Ok & [<- <-]%Tx_ret_Ok). cbn [w_db tick] in *.
  rewrite E2 in E3, Hins. rewrite E3 in E4. clear E1 E2 E3 Hdb.
  assert (Hold : et_events (db_exports (withRows (et_receipts (db_exports db) ++ [receipt]) db)) = et_events (db_exports db)) by (clear; by open_db db).
  rewrite Hold in Hins, E4. clear Hold.
  match type of E4 with context [et_states (db_exports ?d)] =>
    assert (Hold : et_states (db_exports d) = et_states (db_exports db)) by (clear; by open_db db) end.
  rewrite Hold in E4. clear Hold.
  assert (Hold : et_batches (db_exports (w_db w4)) = et_batches (db_exports db) /\ db_audits (w_db w4) = db_audits db /\
    et_states (db_exports (w_db w4)) = upsertedAll (si_tenantId identity) (xr_id receipt) (xb_id batch) (rc_outcomes canonical) ids (et_states (db_exports db))).
  { rewrite E4. clear. by open_db db. }
  destruct Hold as (Hb4 & Ha4 & Hs4). apply advanceBatch_Ok in Hadv as (batches' & Hadv & E5); [|by rewrite Hb4..|done]. rewrite Hb4, Hs4 in Hadv.
  exists canonical, receipt. split; [|done]. split; try done.
  - by rewrite Ec1, Ec2.
  - exists events, ids, batches', a. split; [done|]. split; [done|]. split; [done|]. split; [exact Hadv|]. split; [done|].
    rewrite E8, E6, E5, E4. f_equal. f_equal. clear. by open_db db.
Qed.

Lemma reconcileInScope_Ok identity exportId public payload sha response db w w' :
  w_db w = db -> NoDup (map xb_id (et_batches (db_exports db))) ->
  rc_provider payload = rc_provider public -> rc_providerEventId payload = rc_providerEventId public ->
  rc_providerTotalMinutes payload = rc_providerTotalMinutes public ->
  reconcileInScope identity exportId public payload sha w = (Ok response, w') ->
  exists receipt, ReportCommitted identity exportId public sha db receipt (w_db w') /\ ShowsReceipt receipt response.
Proof.
  intros Hdb Hkeys Ep Ee Em Hr. unfold reconcileInScope in Hr. cbv zeta in Hr. skip_read Hr Hdb.
  apply Tx_bind_Ok in Hr as (batch & w1 & E & Hr). apply lockBatch_Ok in E as (E & Hin & Ht & Hid); [|by rewrite Hdb].
  rewrite Hdb in E, Hin. clear Hdb. rename E into Hdb. apply bool_decide_eq_true in Hid. subst exportId. skip_read Hr Hdb.
  apply Tx_bind_Ok in Hr as (replay & w2 & [Er E]%findFirst_Ok & Hr). rewrite Hdb in Er, E. clear Hdb. rename E into Hdb. symmetry in Er.
  rewrite Ep, Ee in Er. cbn [rows Table_Receipt] in Er. destruct replay as [receipt|].
  - pose proof (ReadOnly_Ok _ _ _ _ (replayReceipt_ReadOnly _ _ _ _) Hr) as E. apply replayReceipt_Ok in Hr as (? & ? & ?).
    apply find_some in Er as [Hrin%list_elem_of_In Hk]. exists receipt. rewrite E, Hdb. split; [by apply report_replayed|done].
  - case_bool_decide as Hg; [by apply liftResult_Ok in Hr as [? _]|]. case_bool_decide as Hrc; [by apply liftResult_Ok in Hr as [? _]|].
    assert (Hst : xb_status batch = DOWNLOADED \/ xb_status batch = RECONCILING) by (destruct (xb_status batch); tauto).
    eapply receiveReport_Ok in Hr as (canonical & receipt & Hrr & Hs); try done.
    + exists receipt. split; [by eapply report_received|done].
    + intros r Hrin%list_elem_of_In. by apply (find_none _ _ Er).
Qed.

Lemma recoverReport_Ok identity exportId payload sha error response w w' :
  recoverReceipt identity exportId payload sha error w = (Ok response, w') ->
  exists receipt, receipt ∈ et_receipts (db_exports (w_db w)) /\ xr_batchId receipt = exportId /\ xr_payloadSha256 receipt = sha /\
    receiptKey (si_tenantId identity) (rc_provider payload) (rc_providerEventId payload) receipt = true /\ ShowsReceipt receipt response.
Proof.
  unfold recoverReceipt, replayConflict. destruct (isUniqueConflict error); [|by intros ?%throwTx_Ok].
  intros (found & w1 & Hf & Hr)%Tx_bind_Ok. destruct found as [f|]; [|by apply liftResult_Ok in Hr as [? _]]. apply Tx_ret_Ok in Hr as [<- _].
  destruct (mutationRun_outcome _ _ _ _ _ _ eq_refl Hf) as [(_ & ? & ?)|(o & (w3 & w4 & <- & Ho & _) & [[= <-]|(? & ?)])]; [done| |done].
  apply Tx_bind_Ok in Ho as (b & w5 & [Eb E3]%findFirst_Ok & Ho). destruct b as [b|]; [|by apply Tx_ret_Ok in Ho as [? _]].
  apply Tx_bind_Ok in Ho as (r2 & w6 & (? & ? & Hs)%replayReceipt_Ok & [[= ->] _]%Tx_ret_Ok).
  symmetry in Eb. apply find_some in Eb as [Hin%list_elem_of_In Hop]. by exists b.
Qed.

(** The key of a receipt is unique. *)
Definition receiptKeyOf (r : PayrollReconciliationReceipt) : string * string * string := (xr_tenantId r, xr_provider r, xr_providerEventId r).

Lemma reconcileExport_outcome_Ok db identity publicExportId body :
  NoDup (map xb_id (et_batches (db_exports db))) ->
  OutcomeAt db (reconcileExport identity publicExportId body) (fun response db' =>
    exists text batch public sha receipt, requiredPublicId publicExportId "payroll_export" = Ok text /\
      batch ∈ et_batches (db_exports db) /\ xb_tenantId batch = trim (si_tenantId identity) /\ sameUuid (xb_publicId batch) text = true /\
      normalizeReconciliation body = Ok public /\
      ReportCommitted (operationsIdentity identity) (xb_id batch) public sha db receipt db' /\ ShowsReceipt receipt response).
Proof.
  intros Hkeys. unfold reconcileExport. cbv zeta. apply OutcomeAt_bind; [eauto with readonly|]. intros _ _ _ _ _.
  apply OutcomeAt_bind; [eauto with readonly|]. intros w1 exportId w1' Hw1 (text & batch & Ht & Hb & Hbt & Hu & <-)%resolveId_Ok.
  rewrite Hw1 in Hb. clear Hw1. cbn [rows Table_Batch] in Hb.
  apply OutcomeAt_bind; [eauto with readonly|]. intros w2 public w2' _ [Hn _]%liftResult_Ok.
  apply OutcomeAt_bind; [eauto with readonly|]. intros w3 payload w3' _ Hp.
  apply withTenant_Ok in Hp as (wi & wo & _ & (Ep & Ee & Em & _)%internalReconciliationPayload_Ok & _).
  set (sha := reconciliationPayloadSha256 _ _ _ _). set (who := operationsIdentity identity).
  eapply OutcomeAt_impl with (C := fun response db' => exists receipt,
    ReportCommitted who (xb_id batch) public sha db receipt db' /\ ShowsReceipt receipt response).
  2:{ intros a db' (receipt & Hc & Hs). by exists text, batch, public, sha, receipt. }
  eapply OutcomeAt_catching with (C := fun response db' => exists receipt,
    ReportCommitted who (xb_id batch) public sha db receipt db' /\ ShowsReceipt receipt response); [| |done|..].
  - eapply OutcomeAt_impl; [apply mutationRun_outcome|]. intros response db' (wa & wb & Hwa & Ho & -> & _). by eapply reconcileInScope_Ok.
  - intros e. apply recoverReceipt_ReadOnly.
  - intros e w a w' <- (r & ? & ? & ? & Hk & Hs)%recoverReport_Ok. rewrite Ep, Ee in Hk. exists r. split; [by apply report_replayed|done].
  - intros a db' e w b w' (receipt & Hc & _) <- (r & Hin & Hrb & Hrs & Hk & Hs)%recoverReport_Ok. rewrite Ep, Ee in Hk. exists r. split; [|done].
    inversion Hc as [? _ _ _ _|db2 b3 canonical r3 Hx]; subst; [by apply report_replayed|].
    assert (r = receipt) as ->; [|by eapply report_received].
    destruct Hx as [_ Hfirst ((E1 & E2 & _) & _) _ (events & ids & batches' & audit & _ & _ & _ & _ & _ & Edb)].
    rewrite Edb in Hin. assert (Hin2 : r ∈ et_receipts (db_exports db) ++ [receipt]) by (clear -Hin; by open_db db).
    apply elem_of_app in Hin2 as [Hin2|Hin2%list_elem_of_singleton]; [|done].
    specialize (Hfirst r Hin2). rewrite E1, E2 in Hfirst. congruence.
Qed.
End Outcome.
