(* ===== verification/PayrollSettlement.v ===== *)
(** * Exports stay sound

    The invariant of the export tables along every sequence of requests to
    payroll, its exports and their reconciliation ([settleStep]): a locked
    period has at most one batch, paid for by its own row of the ledger, whose
    lines copy the entries of the period one by one; a batch is generated,
    downloaded, in reconciliation and reconciled, in this order; receipts count
    their events, the state of a line is its latest event, and a reconciled
    batch has every line accepted. *)

From S2P Require Import Prelude JsStd JsCollections JsDate JsEncoding ContractHelpers TimeZone PayrollDates PayrollRecords.
From S2P Require Import Database FeatureEntitlement Authority ScheduleStore TimeCardPayroll TimeCardStore TimeCards.
From S2P Require Import TimeCardClockIn TimeCardOutcomes PayrollStore PayrollPolicies PayrollReview PayrollLock PayrollAmendments.
From S2P Require Import PayrollHistory PayrollProtocol PayrollExport PayrollExportFacts PayrollReconciliation.

(** ** Steps *)

(** A request of payroll, of its exports or of their reconciliation, in any
    environment and whatever the handler returns, or a step of the rest of the
    system, which leaves the tables of payroll alone and only adds to the
    ledger. *)
Inductive settleStep `{Coll : Collation, LC : LocaleCompare, SH : Sha256} : Db -> Db -> Prop :=
  | settle_request db db' : payrollRequest db db' -> settleStep db db'
  | settle_create `{Env, Process, AuthorityEnv, CommitEnv} identity publicPeriodId expectedCreditCost key w :
      settleStep (w_db w) (w_db (createExport identity publicPeriodId expectedCreditCost key w).2)
  | settle_download `{Env, AuthorityEnv, CommitEnv} identity publicExportId w :
      settleStep (w_db w) (w_db (downloadExport identity publicExportId w).2)
  | settle_reconcile `{Env, AuthorityEnv, CommitEnv} identity publicExportId body w :
      settleStep (w_db w) (w_db (reconcileExport identity publicExportId body w).2)
  | settle_rest db db' :
      db_timeCards db' = db_timeCards db -> db_cardBreaks db' = db_cardBreaks db -> db_periods db' = db_periods db ->
      db_policies db' = db_policies db -> db_payroll db' = db_payroll db -> keepsExports db db' -> settleStep db db'.

(** ** The invariant *)

(** The line copies the entry; lines are numbered from one, entries from zero. *)
Record snapshotOf (batch : PayrollExportBatch) (e : PayrollLockedEntry) (l : PayrollExportLine) : Prop := mkSnapshot {
  sl_number : xl_lineNumber l = pe_sequence e + 1;
  sl_entry : xl_lockedEntryId l = pe_id e /\ xl_tenantId l = xb_tenantId batch /\ xl_batchId l = xb_id batch;
  sl_source : xl_sourceType l = pe_sourceType e /\ xl_sourceId l = pe_sourceId e;
  sl_who : xl_employeeId l = pe_employeeId e /\ xl_locationId l = pe_locationId e /\ xl_workTimeZone l = pe_workTimeZone e;
  sl_when : xl_clockInAt l = pe_clockInAt e /\ xl_clockOutAt l = pe_clockOutAt e;
  sl_minutes : xl_breakMinutes l = pe_breakMinutes e /\ xl_payableMinutes l = pe_payableMinutes e;
}.

(** The line of the file that the stored hash is of. *)
Definition writtenAs `{LocaleCompare, Sha256} (batch : PayrollExportBatch) (row : PayrollExportLine) (line : PayrollCsvLine) : Prop :=
  hashedAs publicIds (xb_tenantId batch) (xb_id batch) row line /\ PayrollRecords.cl_id line = xl_publicId row /\ cl_lineNumber line = xl_lineNumber row /\
  cl_clockInAt line = DDate (Some (xl_clockInAt row)) /\ cl_clockOutAt line = DDate (Some (xl_clockOutAt row)) /\
  cl_breakMinutes line = xl_breakMinutes row /\ cl_payableMinutes line = xl_payableMinutes row.

Definition batchLines `{Collation} (db : Db) (b : PayrollExportBatch) : list PayrollExportLine := linesOfBatch db (xb_tenantId b) (xb_id b).
Definition receiptsOf (db : Db) (batchId : string) : list PayrollReconciliationReceipt :=
  List.filter (fun r => bool_decide (xr_batchId r = batchId)) (et_receipts (db_exports db)).
Definition statesOf (db : Db) (batchId : string) : list PayrollReconciliationLineState :=
  List.filter (fun s => bool_decide (xs_batchId s = batchId)) (et_states (db_exports db)).

(** Every line is accepted, and the last receipt reported the total. *)
Definition settledBatch `{Collation} (db : Db) (b : PayrollExportBatch) : Prop :=
  (forall l, l ∈ batchLines db b -> exists s, s ∈ statesOf db (xb_id b) /\ xs_lineId s = xl_id l /\ xs_status s = ACCEPTED) /\
  exists r, last (receiptsOf db (xb_id b)) = Some r /\ xr_providerTotalMinutes r = xb_totalPayableMinutes b.

(** How far a batch has come. *)
Inductive batchState `{Collation} (db : Db) (b : PayrollExportBatch) : Prop :=
  | st_generated : xb_status b = GENERATED -> xb_downloadedAt b = None -> xb_reconciledAt b = None -> receiptsOf db (xb_id b) = [] -> batchState db b
  | st_downloaded : xb_status b = DOWNLOADED -> is_Some (xb_downloadedAt b) -> xb_reconciledAt b = None -> receiptsOf db (xb_id b) = [] -> batchState db b
  | st_reconciling : xb_status b = RECONCILING -> is_Some (xb_downloadedAt b) -> xb_reconciledAt b = None -> receiptsOf db (xb_id b) <> [] -> batchState db b
  | st_reconciled : xb_status b = RECONCILED -> is_Some (xb_downloadedAt b) -> is_Some (xb_reconciledAt b) -> settledBatch db b -> batchState db b.

Record batchSound `{Collation, LocaleCompare, Sha256} (db : Db) (b : PayrollExportBatch) : Prop := mkBatchSound {
  bs_period : exists p, p ∈ db_periods db /\ py_id p = xb_periodId b /\ py_tenantId p = xb_tenantId b /\ isLocked p /\
    Forall2 (snapshotOf b) (entriesOf db p) (batchLines db b) /\
    xb_rowCount b = Z.of_nat (length (entriesOf db p)) /\ xb_totalPayableMinutes b = payTotal (entriesOf db p);
  bs_written : exists lines csv, Forall2 (writtenAs b) (batchLines db b) lines /\ buildPayrollCsv lines = Ok csv /\
    xb_contentSha256 b = payrollContentSha256 csv;
  bs_paid : paidFor db b;
  bs_state : batchState db b;
}.

(** The events of a receipt, and of a line. *)
Definition eventsOf (db : Db) (receiptId : string) : list PayrollReconciliationLineEvent :=
  List.filter (fun e => bool_decide (xe_receiptId e = receiptId)) (et_events (db_exports db)).
Definition eventOfLine (batchId lineId : string) (e : PayrollReconciliationLineEvent) : bool :=
  bool_decide (xe_batchId e = batchId) && bool_decide (xe_lineId e = lineId).
Definition eventCount (status : OutcomeStatus) (l : list PayrollReconciliationLineEvent) : Z :=
  Z.of_nat (length (List.filter (fun e => bool_decide (xe_status e = status)) l)).

Definition batchOf (db : Db) (tenantId batchId : string) : Prop :=
  exists b, b ∈ et_batches (db_exports db) /\ xb_id b = batchId /\ xb_tenantId b = tenantId.

Definition receiptSound (db : Db) (r : PayrollReconciliationReceipt) : Prop :=
  batchOf db (xr_tenantId r) (xr_batchId r) /\ xr_acceptedCount r = eventCount ACCEPTED (eventsOf db (xr_id r)) /\
  xr_rejectedCount r = eventCount REJECTED (eventsOf db (xr_id r)) /\ xr_pendingCount r = eventCount PENDING (eventsOf db (xr_id r)).

Definition eventSound (db : Db) (e : PayrollReconciliationLineEvent) : Prop :=
  (exists r, r ∈ et_receipts (db_exports db) /\ xr_id r = xe_receiptId e /\ xr_batchId r = xe_batchId e /\ xr_tenantId r = xe_tenantId e) /\
  (exists l, l ∈ et_lines (db_exports db) /\ xl_id l = xe_lineId e /\ xl_batchId l = xe_batchId e /\ xl_tenantId l = xe_tenantId e).

(** The state is the latest event of its line. *)
Definition stateSound (db : Db) (s : PayrollReconciliationLineState) : Prop :=
  exists e, last (List.filter (eventOfLine (xs_batchId s) (xs_lineId s)) (et_events (db_exports db))) = Some e /\
    xe_tenantId e = xs_tenantId s /\ xe_status e = xs_status s /\ xe_reason e = xs_reason s /\ xe_receiptId e = xs_latestReceiptId s.

Definition lineKey (s : PayrollReconciliationLineState) : string * string := (xs_batchId s, xs_lineId s).

Record exportKeys (db : Db) : Prop := mkExportKeys {
  ke_batches : NoDup (map xb_id (et_batches (db_exports db)));
  ke_periods : NoDup (map xb_periodId (et_batches (db_exports db)));
  ke_operations : NoDup (map xb_operationId (et_batches (db_exports db)));
  ke_lines : NoDup (map xl_id (et_lines (db_exports db)));
  ke_receiptIds : NoDup (map xr_id (et_receipts (db_exports db)));
  ke_receipts : NoDup (map receiptKeyOf (et_receipts (db_exports db)));
  ke_states : NoDup (map lineKey (et_states (db_exports db)));
}.

Record exportSound `{Collation, LocaleCompare, Sha256} (db : Db) : Prop := mkExportSound {
  ex_keys : exportKeys db;
  ex_batches : forall b, b ∈ et_batches (db_exports db) -> batchSound db b;
  ex_lines : forall l, l ∈ et_lines (db_exports db) -> batchOf db (xl_tenantId l) (xl_batchId l);
  ex_receipts : forall r, r ∈ et_receipts (db_exports db) -> receiptSound db r;
  ex_events : forall e, e ∈ et_events (db_exports db) -> eventSound db e;
  ex_states : forall s, s ∈ et_states (db_exports db) -> stateSound db s;
  ex_covered : forall e, e ∈ et_events (db_exports db) -> exists s, s ∈ et_states (db_exports db) /\ lineKey s = (xe_batchId e, xe_lineId e);
}.

(** ** Effects *)

(** What a step does to the exports. *)
Inductive exportEffect `{Collation, LocaleCompare, Sha256} (db db' : Db) : Prop :=
  | exports_kept : keepsExports db db' -> exportEffect db db'
  | exports_created identity periodId cost request period maps entries news csv batch :
      ExportCreated identity periodId cost request db db' period maps entries news csv batch -> exportEffect db db'
  | exports_downloaded batch downloadedAt updatedAt audit :
      batch ∈ et_batches (db_exports db) -> xb_status batch = GENERATED ->
      db' = withRows (db_audits db ++ [audit])
              (withRows (replaceRow xb_id (xb_id batch) (downloadedRow downloadedAt updatedAt) (et_batches (db_exports db))) db) ->
      exportEffect db db'
  | exports_received identity exportId public payloadSha256 batch payload receipt :
      ReportReceived identity exportId public payloadSha256 db db' batch payload receipt ->
      NoDup (map oc_lineId (rc_outcomes public)) -> exportEffect db db'.

Section Effects.
Context `{Coll : Collation, LC : LocaleCompare, SH : Sha256}.

(** A handler that committed [C] and leaves payroll's own tables alone. *)
Lemma export_outcome {A} db (m : Tx A) (C : A -> Db -> Prop) w :
  w_db w = db -> OutcomeAt db m C -> (forall a db', C a db' -> payrollEffect db db' /\ exportEffect db db') ->
  payrollEffect (w_db w) (w_db (m w).2) /\ exportEffect (w_db w) (w_db (m w).2).
Proof.
  intros Hw Hm Hc. destruct (m w) as [r w'] eqn:E. rewrite Hw. cbn [snd].
  destruct (Hm w r w' Hw E) as [[-> _]|(a & Ha & _)]; [|by eapply Hc]. split; [by apply does_rest|by apply exports_kept].
Qed.

Lemma idle_effects db : payrollEffect db db /\ exportEffect db db.
Proof. split; [by apply does_rest|by apply exports_kept]. Qed.

Lemma created_effects identity periodId cost request db db' period maps entries news csv batch :
  ExportCreated identity periodId cost request db db' period maps entries news csv batch -> payrollEffect db db' /\ exportEffect db db'.
Proof.
  intros Hc. split; [|by eapply exports_created]. destruct Hc as [_ _ _ _ _ _ _ (i & t & st & paid & a & _ & _ & _ & Hp & _ & _ & _ & ->)].
  destruct (debit_only_money _ _ _ _ _ _ _ Hp) as (ts & cs & ->). apply does_rest; clear; by open_db db.
Qed.

Lemma downloaded_effects tenantId publicId db batch file db' :
  ExportDownloaded tenantId publicId db batch file db' -> payrollEffect db db' /\ exportEffect db db'.
Proof.
  intros [(Hin & _) _ _ _ [[_ ->]|(Hst & d & u & a & _ & ->)]]; [apply idle_effects|]. split; [|by eapply exports_downloaded].
  apply does_rest; clear; by open_db db.
Qed.

Lemma received_effects identity exportId public sha db db' batch payload receipt :
  NoDup (map oc_lineId (rc_outcomes public)) -> ReportReceived identity exportId public sha db db' batch payload receipt ->
  payrollEffect db db' /\ exportEffect db db'.
Proof.
  intros Hn Hr. split; [|by eapply exports_received]. destruct Hr as [_ _ _ _ (ev & ids & bs & a & _ & _ & _ & _ & _ & ->)].
  apply does_rest; clear; by open_db db.
Qed.

Lemma normalized_NoDup body public : normalizeReconciliation body = Ok public -> NoDup (map oc_lineId (rc_outcomes public)).
Proof.
  intros Hn%normalizeReconciliation_sound. destruct (reconciliationCounts public) as [[? ?] ?]. tauto.
Qed.

Lemma settleStep_effects db db' :
  keyed db -> NoDup (map xb_id (et_batches (db_exports db))) -> settleStep db db' -> payrollEffect db db' /\ exportEffect db db'.
Proof.
  intros Hk Hb Hs. destruct Hs as [? ? Hr|? ? ? ? identity pid cost key w|? ? ? identity pid w|? ? ? identity pid body w|? ? ? ? ? ? ? ?].
  - destruct (payrollRequest_effect _ _ Hk Hr) as [? ?]. split; [done|by apply exports_kept].
  - eapply export_outcome; [done|apply createExport_outcome_Ok|]. intros a db' (text & period & k & batch & _ & _ & _ & _ & _ & Hc & _).
    inversion Hc; subst; [apply idle_effects|by eapply created_effects].
  - eapply export_outcome; [done|by apply downloadExport_outcome_Ok|]. intros a db' (text & batch & _ & Hd). by eapply downloaded_effects.
  - eapply export_outcome; [done|by apply reconcileExport_outcome_Ok|].
    intros a db' (text & batch & public & sha & receipt & _ & _ & _ & _ & Hn & Hc & _).
    inversion Hc; subst; [apply idle_effects|]. eapply received_effects; [by eapply normalized_NoDup|done].
  - split; [by apply does_rest|by apply exports_kept].
Qed.
End Effects.

(** ** What holds keeps holding *)

Lemma find_prefix {A} (p : A -> bool) l k x : l `prefix_of` k -> List.find p l = Some x -> List.find p k = Some x.
Proof.
  intros [m ->]. induction l as [|y l IH]; [done|]. cbn. by destruct (p y).
Qed.

Lemma paidFor_later db db' b : db_credits db `prefix_of` db_credits db' -> paidFor db b -> paidFor db' b.
Proof.
  unfold paidFor. intros Hp Hf. destruct (List.find _ (db_credits db)) as [c|] eqn:E.
  - by rewrite (find_prefix _ _ _ _ Hp E).
  - unfold provenanceHolds in Hf. by rewrite andb_false_r in Hf.
Qed.

(** The new batch looks like the old one, but for its progress. *)
Record sameBatch (b b' : PayrollExportBatch) : Prop := mkSameBatch {
  sb_id : xb_id b' = xb_id b /\ xb_tenantId b' = xb_tenantId b;
  sb_keys : xb_periodId b' = xb_periodId b /\ xb_operationId b' = xb_operationId b /\ xb_creditTransactionId b' = xb_creditTransactionId b;
  sb_content : xb_contentSha256 b' = xb_contentSha256 b /\ xb_rowCount b' = xb_rowCount b /\ xb_totalPayableMinutes b' = xb_totalPayableMinutes b;
  sb_money : xb_consumedCredits b' = xb_consumedCredits b /\ xb_newBalance b' = xb_newBalance b;
}.

Lemma sameBatch_refl b : sameBatch b b.
Proof. by split. Qed.
Lemma downloaded_same t u b : sameBatch b (downloadedRow t u b).
Proof. by split. Qed.
Lemma status_same status t u b : sameBatch b (statusRow status t u b).
Proof. by split. Qed.

Section Frame.
Context `{Coll : Collation, LC : LocaleCompare, SH : Sha256}.

Lemma snapshotOf_same b b' e l : sameBatch b b' -> snapshotOf b e l -> snapshotOf b' e l.
Proof. intros [[Ei Et] _ _ _] [? (? & ? & ?) ? ? ? ?]. split; try done. split_and!; congruence. Qed.

Lemma batchSound_later db db' b b' :
  grows db db' -> db_credits db `prefix_of` db_credits db' -> sameBatch b b' -> batchLines db' b = batchLines db b ->
  batchState db' b' -> batchSound db b -> batchSound db' b'.
Proof.
  intros Hg Hc Hs Hl Hst [(p & Hp & Hi & Ht & Hlock & Hsnap & Hn & Hsum) (lines & csv & Hw & Hcsv & Hsha) Hpaid _].
  pose proof Hs as [[Ei Et] (Ep & Eo & Ex) (Ec & En & Em) (Ecc & Eb)].
  assert (Hl' : batchLines db' b' = batchLines db b) by (rewrite <- Hl; unfold batchLines; by rewrite Ei, Et).
  split; [| | |done].
  - exists p. destruct (gr_frozen _ _ Hg p Hp Hlock) as (_ & _ & Hent & _). rewrite Hent, Hl'.
    split; [by eapply grows_locked|]. split_and!; try congruence. eapply Forall2_impl; [exact Hsnap|]. intros e l. by apply snapshotOf_same.
  - exists lines, csv. rewrite Hl', Ec. split; [|done]. eapply Forall2_impl; [exact Hw|]. intros row line. unfold writtenAs. by rewrite Ei, Et.
  - apply (paidFor_later db db') in Hpaid; [|done]. unfold paidFor, provenanceHolds in *. by rewrite Ex, Eo, Et, Ecc, Ep, Eb.
Qed.

(** Nothing about the batch changed. *)
Lemma batchState_kept db db' b :
  batchLines db' b = batchLines db b -> receiptsOf db' (xb_id b) = receiptsOf db (xb_id b) -> statesOf db' (xb_id b) = statesOf db (xb_id b) ->
  batchState db b -> batchState db' b.
Proof.
  intros El Er Es [? ? ? Hr|? ? ? Hr|? ? ? Hr|? ? ? Hset]; [apply st_generated|apply st_downloaded|apply st_reconciling|apply st_reconciled]; try done;
    try (by rewrite Er). unfold settledBatch. by rewrite El, Er, Es.
Qed.

(** The exports are as they were. *)
Lemma exportSound_kept db db' : grows db db' -> keepsExports db db' -> exportSound db -> exportSound db'.
Proof.
  intros Hg [Ex Hc] [[] Hb Hl Hr He Hs Hcov]. split; unfold batchOf, receiptSound, eventSound, stateSound, eventsOf in *.
  - by split; rewrite Ex.
  - intros b Hin. rewrite Ex in Hin. eapply batchSound_later; [done..|apply sameBatch_refl| | |by apply Hb].
    + unfold batchLines, linesOfBatch. by rewrite Ex.
    + eapply batchState_kept; [..|apply (Hb b Hin)]; unfold batchLines, linesOfBatch, receiptsOf, statesOf; by rewrite Ex.
  - by rewrite Ex.
  - unfold batchOf, eventsOf. by rewrite Ex.
  - by rewrite Ex.
  - by rewrite Ex.
  - by rewrite Ex.
Qed.
End Frame.

(** ** A new batch *)

(** Numbered one after the other, a list is sorted by its numbers. *)
Lemma numbered_sorted {A} (f : A -> Z) l : forall k,
  map f l = map Z.of_nat (seq k (length l)) -> StronglySorted (fun x y => f x < f y) l.
Proof.
  induction l as [|x l IH]; intros k; cbn; [constructor|]. intros [= Ex Hl]. constructor; [by eapply IH|].
  apply Forall_forall. intros y Hy. assert (Hin : f y ∈ map Z.of_nat (seq (S k) (length l))).
  { rewrite <- Hl. apply list_elem_of_fmap_2, Hy. }
  apply list_elem_of_fmap in Hin as (i & -> & Hi%elem_of_seq). lia.
Qed.

Lemma sortBy_numbered {A} (cmp : A -> A -> Z) (f : A -> Z) k l :
  (forall x y, f x < f y -> cmp x y <= 0) -> map f l = map Z.of_nat (seq k (length l)) -> sortBy cmp l = l.
Proof.
  intros Hf Hl%numbered_sorted. apply sortBy_id. induction Hl as [|x l Hl IH Hx]; constructor; [done|].
  eapply Forall_impl; [exact Hx|]. intros y. apply Hf.
Qed.

Section Created.
Context `{Coll : Collation, LC : LocaleCompare, SH : Sha256}.

Lemma lineOrder_number l r : xl_lineNumber l < xl_lineNumber r -> lineOrder l r <= 0.
Proof. unfold lineOrder, orElse. destruct (_ =? 0) eqn:E; bools; lia. Qed.
Lemma entryOrder_sequence l r : pe_sequence l < pe_sequence r -> entryOrder l r <= 0.
Proof. unfold entryOrder, orElse. destruct (_ =? 0) eqn:E; bools; lia. Qed.

Lemma numberedFrom_cons n e entries : numberedFrom n (e :: entries) = (n, e) :: numberedFrom (n + 1) entries.
Proof.
  unfold numberedFrom. cbn [imap]. f_equal; [f_equal; lia|]. apply imap_ext. intros i x _. cbn. f_equal. lia.
Qed.

(** The rows of new lines, entry by entry. *)
Lemma newLines_rows tenantId batch maps entries news n k :
  xb_tenantId batch = tenantId -> Forall2 (newLine tenantId (xb_id batch) maps) (numberedFrom (Z.of_nat n + 1) entries) news ->
  map pe_sequence entries = map Z.of_nat (seq n (length entries)) -> k = S n ->
  map xl_lineNumber (map snd news) = map Z.of_nat (seq k (length (map snd news))) /\
  Forall2 (snapshotOf batch) entries (map snd news) /\ Forall2 (writtenAs batch) (map snd news) (map fst news).
Proof.
  intros Ht. revert news n k. induction entries as [|e entries IH]; intros news n k Hf Hs ->.
  { inversion Hf. subst. split; [done|]. split; constructor. }
  rewrite numberedFrom_cons in Hf. inversion Hf as [|? [line row] ? news' (publicId & sha & Hl & Hh & Hrow) Hf']; subst. cbn in Hl, Hh, Hrow |- *.
  injection Hs as Eseq Hs. replace (Z.of_nat n + 1 + 1) with (Z.of_nat (S n) + 1) in Hf' by lia.
  destruct (IH _ _ _ Hf' Hs eq_refl) as (Hnum & Hsnap & Hw). split; [|split].
  - f_equal; [rewrite Hrow; cbn; lia|exact Hnum].
  - constructor; [|exact Hsnap]. rewrite Hrow. split; cbn; [lia|done..].
  - constructor; [|exact Hw]. rewrite Hrow. unfold entryLine in Hl. inv_ok. subst line. by split_and!.
Qed.

(** The tables after a new batch. *)
Lemma created_tables identity periodId cost request db db' period maps entries news csv batch :
  ExportCreated identity periodId cost request db db' period maps entries news csv batch ->
  db_exports db' = mkExportTables (et_batches (db_exports db) ++ [batch]) (et_lines (db_exports db) ++ map snd news)
    (et_receipts (db_exports db)) (et_events (db_exports db)) (et_states (db_exports db)) /\
  db_credits db `prefix_of` db_credits db' /\ existsb (conflicts batch) (et_batches (db_exports db)) = false /\
  insertAll (map snd news) (et_lines (db_exports db)) = Some (et_lines (db_exports db) ++ map snd news).
Proof.
  intros [_ _ _ _ _ _ _ (i & t & st & paid & a & _ & _ & _ & Hp & Hf & Hi & _ & ->)]. pose proof (debit_ledger _ _ _ _ _ _ _ Hp) as Hl.
  destruct (debit_only_money _ _ _ _ _ _ _ Hp) as (ts & cs & ->). split; [by clear; open_db db|]. split; [|done]. clear -Hl. by open_db db.
Qed.

(** The entries that were copied are those of the period, in its order. *)
Lemma created_entries identity periodId cost request db db' period maps entries news csv batch :
  ExportCreated identity periodId cost request db db' period maps entries news csv batch -> PaidInFull db period ->
  entries = entriesOf db period /\ map pe_sequence entries = map Z.of_nat (seq 0 (length entries)).
Proof.
  intros Hx Hp. destruct (xc_entries _ _ _ _ _ _ _ _ _ _ _ _ Hx) as (He & _). destruct (xc_period _ _ _ _ _ _ _ _ _ _ _ _ Hx) as (_ & Hi & Ht & _).
  destruct (pf_totals _ _ Hp) as (_ & _ & Hseq).
  assert (E : entries = entriesOf db period); [|by rewrite E].
  rewrite He. rewrite <- Hi, <- Ht. apply (sortBy_numbered _ pe_sequence 0); [apply entryOrder_sequence|exact Hseq].
Qed.

Lemma created_batch identity periodId cost request db db' period maps entries news csv batch :
  payrollSound db -> grows db db' -> exportSound db ->
  ExportCreated identity periodId cost request db db' period maps entries news csv batch -> batchSound db' batch.
Proof.
  intros Hs Hg Hex Hx. destruct (created_tables _ _ _ _ _ _ _ _ _ _ _ _ Hx) as (Et & Hled & Hfresh & _).
  destruct (xc_period _ _ _ _ _ _ _ _ _ _ _ _ Hx) as (Hin & Hi & Ht & Hl).
  destruct (created_entries _ _ _ _ _ _ _ _ _ _ _ _ Hx (ok_paid _ Hs period Hin Hl)) as [Hent Hseq].
  pose proof (ExportCreated_paid _ _ _ _ _ _ _ _ _ _ _ _ Hx) as Hpaid.
  destruct Hx as [_ _ _ _ _ Hlines Hcsv (i & t & st & paid & a & Eb & _)].
  assert (Ebt : xb_tenantId batch = si_tenantId identity) by by rewrite Eb.
  destruct (newLines_rows _ batch maps entries news 0 1 Ebt Hlines Hseq eq_refl) as (Hnum & Hsnap & Hw).
  assert (Hother : forall tenantId b, batchOf db tenantId b -> b <> xb_id batch).
  { intros tn b (b0 & Hb0 & <- & _) E. apply not_true_iff_false in Hfresh. apply Hfresh, existsb_exists. exists b0.
    split; [by apply list_elem_of_In|]. cbn. by rewrite (bool_decide_true (xb_id batch = xb_id b0)). }
  assert (Hb : batchLines db' batch = map snd news).
  { unfold batchLines, linesOfBatch. rewrite Et. cbn [et_lines]. rewrite List.filter_app, filter_none, filter_all.
    - apply (sortBy_numbered _ xl_lineNumber 1); [apply lineOrder_number|exact Hnum].
    - intros l Hl'. destruct (Forall2_elem_r _ _ _ _ Hsnap Hl') as (e & _ & [_ (_ & ? & ?) _ _ _ _]). unfold lineOfBatch. by rewrite !bool_decide_true.
    - intros l Hl'. unfold lineOfBatch. apply andb_false_iff. right. apply bool_decide_eq_false. by eapply Hother, (ex_lines _ Hex). }
  split.
  - exists period. destruct (gr_frozen _ _ Hg period Hin Hl) as (_ & _ & Hkeep & _). rewrite Hkeep, Hb, <- Hent.
    split; [by eapply grows_locked|]. split; [by rewrite Eb|]. split; [by rewrite Ebt|]. split; [done|]. split; [done|]. by rewrite Eb.
  - exists (map fst news), csv. rewrite Hb. split; [done|]. split; [done|]. by rewrite Eb.
  - done.
  - assert (Hr : receiptsOf db' (xb_id batch) = []).
    { unfold receiptsOf. rewrite Et. apply filter_none. intros r Hr. apply bool_decide_eq_false. eapply Hother, (ex_receipts _ Hex r Hr). }
    apply st_generated; [by rewrite Eb..|done].
Qed.
(** The keys of a batch that met no conflict are new. *)
Lemma batch_keys batch l :
  existsb (conflicts batch) l = false -> NoDup (map xb_id l) -> NoDup (map xb_periodId l) -> NoDup (map xb_operationId l) ->
  NoDup (map xb_id (l ++ [batch])) /\ NoDup (map xb_periodId (l ++ [batch])) /\ NoDup (map xb_operationId (l ++ [batch])).
Proof.
  intros Hf H1 H2 H3. split_and!; eapply create_keys; try done; intros x y E; cbn [conflicts Table_Batch];
    [rewrite (bool_decide_true (xb_id x = _)) by done|rewrite (bool_decide_true (xb_periodId x = _)) by done|
     rewrite (bool_decide_true (xb_operationId x = _)) by done]; by rewrite ?orb_true_r.
Qed.

(** The lines of a new batch are its own. *)
Lemma created_lines identity periodId cost request db db' period maps entries news csv batch :
  payrollSound db -> ExportCreated identity periodId cost request db db' period maps entries news csv batch ->
  (forall l, l ∈ map snd news -> xl_tenantId l = xb_tenantId batch /\ xl_batchId l = xb_id batch) /\
  forall b, b ∈ et_batches (db_exports db) -> batchLines db' b = batchLines db b.
Proof.
  intros Hs Hx. destruct (created_tables _ _ _ _ _ _ _ _ _ _ _ _ Hx) as (Et & _ & Hfresh & _).
  destruct (xc_period _ _ _ _ _ _ _ _ _ _ _ _ Hx) as (Hin & _ & _ & Hl).
  destruct (created_entries _ _ _ _ _ _ _ _ _ _ _ _ Hx (ok_paid _ Hs period Hin Hl)) as [_ Hseq].
  pose proof (xc_lines _ _ _ _ _ _ _ _ _ _ _ _ Hx) as Hlines.
  assert (Ebt : xb_tenantId batch = si_tenantId identity) by (by destruct (xc_batch _ _ _ _ _ _ _ _ _ _ _ _ Hx) as (? & ? & ? & ? & ? & -> & _)).
  destruct (newLines_rows _ batch maps entries news 0 1 Ebt Hlines Hseq eq_refl) as (_ & Hsnap & _).
  assert (Hline : forall l, l ∈ map snd news -> xl_tenantId l = xb_tenantId batch /\ xl_batchId l = xb_id batch).
  { intros l Hl'. by destruct (Forall2_elem_r _ _ _ _ Hsnap Hl') as (e & _ & [_ (_ & ? & ?) _ _ _ _]). }
  split; [done|]. intros b Hb. unfold batchLines, linesOfBatch. rewrite Et. cbn [et_lines].
  rewrite List.filter_app, (filter_none _ (map snd news)), app_nil_r; [done|].
  intros l Hl'%Hline. destruct Hl' as [_ E]. unfold lineOfBatch. apply andb_false_iff. right. apply bool_decide_eq_false. intros Eb.
  apply not_true_iff_false in Hfresh. apply Hfresh, existsb_exists. exists b. split; [by apply list_elem_of_In|].
  cbn. by rewrite (bool_decide_true (xb_id batch = xb_id b)) by congruence.
Qed.

Lemma created_sound identity periodId cost request db db' period maps entries news csv batch :
  payrollSound db -> grows db db' -> exportSound db ->
  ExportCreated identity periodId cost request db db' period maps entries news csv batch -> exportSound db'.
Proof.
  intros Hs Hg Hex Hx. pose proof (created_batch _ _ _ _ _ _ _ _ _ _ _ _ Hs Hg Hex Hx) as Hnew.
  destruct (created_tables _ _ _ _ _ _ _ _ _ _ _ _ Hx) as (Et & Hled & Hfresh & Hins).
  destruct (created_lines _ _ _ _ _ _ _ _ _ _ _ _ Hs Hx) as [Hline Hkeep].
  assert (Hof : forall tn b, batchOf db tn b -> batchOf db' tn b).
  { intros tn b (b0 & Hb0 & ? & ?). exists b0. rewrite Et. cbn. split; [set_solver|done]. }
  destruct Hex as [[K1 K2 K3 K4 K5 K6 K7] Hb Hll Hr He Hst Hcov]. destruct (batch_keys _ _ Hfresh K1 K2 K3) as (K1' & K2' & K3'). split.
  - split; rewrite Et; try done. eapply (insertAll_keys xl_id); [|exact Hins|done]. intros x y E. cbn [conflicts Table_Line].
    by rewrite (bool_decide_true (xl_id x = _)).
  - intros b. rewrite Et. intros [Hbin| ->%list_elem_of_singleton]%elem_of_app; [|done].
    pose proof (Hkeep b Hbin) as El.
    eapply batchSound_later; [done..|apply sameBatch_refl|done| |by apply Hb].
    eapply batchState_kept; [exact El|..|apply (Hb b Hbin)]; unfold receiptsOf, statesOf; by rewrite Et.
  - intros l. rewrite Et. intros [Hl'|Hl']%elem_of_app; [by apply Hof, Hll|]. destruct (Hline l Hl') as [-> ->]. exists batch. rewrite Et.
    split; [set_solver|done].
  - intros r. rewrite Et. intros Hr'. destruct (Hr r Hr') as (? & ? & ? & ?). unfold receiptSound, eventsOf. rewrite Et. split; [by apply Hof|done].
  - intros e. rewrite Et. intros He'. destruct (He e He') as ((r & ? & ?) & (l & ? & ?)). unfold eventSound. rewrite Et.
    split; [by exists r|exists l; split; [set_solver|done]].
  - intros s. rewrite Et. intros Hs'. unfold stateSound. rewrite Et. by apply Hst.
  - intros e. rewrite Et. intros He'. by apply Hcov.
Qed.
End Created.

(** ** A download *)

(** A batch of a database after a change of one row. *)
Lemma replaced_batch l k f b :
  b ∈ replaceRow xb_id k f l -> exists b0, b0 ∈ l /\ (b = b0 /\ xb_id b0 <> k \/ b = f b0 /\ xb_id b0 = k).
Proof.
  intros Hp. apply list_elem_of_In, in_map_iff in Hp as (q & <- & Hq%list_elem_of_In). exists q. split; [done|].
  case_bool_decide; [right|left]; done.
Qed.

Lemma replaced_keys l k f :
  (forall b, sameBatch b (f b)) ->
  map xb_id (replaceRow xb_id k f l) = map xb_id l /\ map xb_periodId (replaceRow xb_id k f l) = map xb_periodId l /\
  map xb_operationId (replaceRow xb_id k f l) = map xb_operationId l.
Proof. intros Hf. split_and!; apply replaceRow_keys; intros b; by destruct (Hf b) as [[? ?] (? & ? & ?) _ _]. Qed.

Lemma batchOf_replaced db k f tenantId batchId l :
  (forall b, sameBatch b (f b)) -> l = replaceRow xb_id k f (et_batches (db_exports db)) -> batchOf db tenantId batchId ->
  exists b, b ∈ l /\ xb_id b = batchId /\ xb_tenantId b = tenantId.
Proof.
  intros Hf -> (b & Hb & Ei & Et). exists (if bool_decide (xb_id b = k) then f b else b). split.
  - apply list_elem_of_In, in_map_iff. exists b. split; [done|by apply list_elem_of_In].
  - case_bool_decide; [|done]. destruct (Hf b) as [[? ?] _ _ _]. split; congruence.
Qed.

Section Downloaded.
Context `{Coll : Collation, LC : LocaleCompare, SH : Sha256}.

Lemma downloaded_sound db db' batch t u audit :
  grows db db' -> exportSound db -> batch ∈ et_batches (db_exports db) -> xb_status batch = GENERATED ->
  db' = withRows (db_audits db ++ [audit]) (withRows (replaceRow xb_id (xb_id batch) (downloadedRow t u) (et_batches (db_exports db))) db) ->
  exportSound db'.
Proof.
  intros Hg [[K1 K2 K3 K4 K5 K6 K7] Hb Hll Hr He Hst Hcov] Hin Hgen E.
  assert (Et : db_exports db' = mkExportTables (replaceRow xb_id (xb_id batch) (downloadedRow t u) (et_batches (db_exports db)))
    (et_lines (db_exports db)) (et_receipts (db_exports db)) (et_events (db_exports db)) (et_states (db_exports db)) /\ db_credits db' = db_credits db)
    by (rewrite E; clear; by open_db db). clear E. destruct Et as [Et Ec].
  assert (Hof : forall tn b, batchOf db tn b -> batchOf db' tn b).
  { intros tn b. unfold batchOf at 2. rewrite Et. apply (batchOf_replaced db (xb_id batch) (downloadedRow t u)); [|done]. apply downloaded_same. }
  destruct (replaced_keys (et_batches (db_exports db)) (xb_id batch) (downloadedRow t u)) as (E1 & E2 & E3); [apply downloaded_same|].
  assert (Htab : forall b, batchLines db' b = batchLines db b /\ receiptsOf db' (xb_id b) = receiptsOf db (xb_id b) /\
    statesOf db' (xb_id b) = statesOf db (xb_id b)).
  { intros b. unfold batchLines, linesOfBatch, receiptsOf, statesOf. by rewrite Et. }
  split.
  - split; rewrite Et; cbn; congruence.
  - intros b'. rewrite Et. cbn. intros (b & Hbin & [[-> Hne]|[-> Hid]])%replaced_batch; destruct (Htab b) as (El & Er & Es).
    + eapply batchSound_later; [done|by rewrite Ec|apply sameBatch_refl|done| |by apply Hb]. eapply batchState_kept; [done..|by apply Hb].
    + eapply batchSound_later; [done|by rewrite Ec|apply downloaded_same|done| |by apply Hb].
      rewrite (NoDup_map_inj xb_id _ b batch K1 Hbin Hin Hid) in *. clear b Hbin Hid.
      destruct (bs_state _ _ (Hb batch Hin)) as [_ Hd Hrec Hrs|? ? ? ?|? ? ? ?|? ? ? ?]; [|congruence..].
      apply st_downloaded; cbn; [done|by eexists|done|by rewrite Er].
  - intros l. rewrite Et. intros Hl. by apply Hof, Hll.
  - intros r. rewrite Et. intros Hr'. destruct (Hr r Hr') as (? & ? & ? & ?). unfold receiptSound, eventsOf. rewrite Et. split; [by apply Hof|done].
  - intros e. unfold eventSound. rewrite Et. by apply He.
  - intros s. unfold stateSound. rewrite Et. by apply Hst.
  - intros e. rewrite Et. by apply Hcov.
Qed.
End Downloaded.

(** ** A report *)

Section Upserts.
Context (tenantId receiptId batchId : string).
Notation upsert := (upserted tenantId receiptId batchId).
Notation upsertAll := (upsertedAll tenantId receiptId batchId).

(** The state an outcome leaves. *)
Definition statedBy (o : Outcome) (s : PayrollReconciliationLineState) : Prop :=
  lineKey s = (batchId, oc_lineId o) /\ xs_tenantId s = tenantId /\ xs_status s = oc_status o /\ xs_reason s = oc_reason o /\
  xs_latestReceiptId s = receiptId.

(** The states of the batch are its tenant's. *)
Definition ownStates (l : list PayrollReconciliationLineState) : Prop := forall s, s ∈ l -> xs_batchId s = batchId -> xs_tenantId s = tenantId.

Lemma stateOfLine_key lineId s : stateOfLine batchId lineId s = true <-> lineKey s = (batchId, lineId).
Proof. unfold stateOfLine, lineKey. rewrite andb_true_iff, !bool_decide_eq_true. split; [by intros [-> ->]|by intros [=]]. Qed.

Lemma upserted_elem o id l s :
  ownStates l -> s ∈ upsert o id l -> s ∈ l /\ lineKey s <> (batchId, oc_lineId o) \/ statedBy o s.
Proof.
  intros Hown. unfold upserted. destruct (existsb _ l) eqn:E.
  - intros Hs. apply list_elem_of_In, in_map_iff in Hs as (s0 & <- & Hs0%list_elem_of_In).
    destruct (stateOfLine batchId (oc_lineId o) s0) eqn:Es; [right|left].
    + apply stateOfLine_key in Es. split; [exact Es|]. split; [|done]. apply (Hown s0 Hs0). clear -Es. unfold lineKey in Es. congruence.
    + split; [done|]. rewrite <- stateOfLine_key. congruence.
  - intros [Hs| ->%list_elem_of_singleton]%elem_of_app; [left|by right]. split; [done|]. rewrite <- stateOfLine_key.
    intros Hk. apply not_true_iff_false in E. apply E, existsb_exists. exists s. split; [by apply list_elem_of_In|done].
Qed.

Lemma upserted_own o id l : ownStates l -> ownStates (upsert o id l).
Proof. intros Hown s Hs Hb. destruct (upserted_elem _ _ _ _ Hown Hs) as [[? _]|(_ & ? & _)]; [by apply Hown|done]. Qed.

Lemma upsertedAll_elem outcomes : forall ids l s,
  ownStates l -> length ids = length outcomes -> s ∈ upsertAll outcomes ids l ->
  (s ∈ l /\ forall o, o ∈ outcomes -> lineKey s <> (batchId, oc_lineId o)) \/ exists o, o ∈ outcomes /\ statedBy o s.
Proof.
  induction outcomes as [|o outcomes IH]; intros [|id ids] l s Hown Hlen; try done; cbn [upsertedAll].
  - intros Hs. left. split; [done|]. by intros o ?%elem_of_nil.
  - intros Hs. injection Hlen as Hlen. destruct (IH ids _ _ (upserted_own o id _ Hown) Hlen Hs) as [[Hin Hno]|(o' & Ho' & Hst)].
    + destruct (upserted_elem _ _ _ _ Hown Hin) as [[Hl Hne]|Hst].
      * left. split; [done|]. by intros o' [->|Ho']%elem_of_cons; [|apply Hno].
      * right. exists o. split; [by left|done].
    + right. exists o'. split; [by right|done].
Qed.

Lemma upserted_keys o id l :
  NoDup (map lineKey l) -> NoDup (map lineKey (upsert o id l)) /\
  forall k, k ∈ map lineKey l \/ k = (batchId, oc_lineId o) -> k ∈ map lineKey (upsert o id l).
Proof.
  intros Hn. unfold upserted. destruct (existsb _ l) eqn:E.
  - assert (Em : map lineKey (map (fun s => if stateOfLine batchId (oc_lineId o) s then restated receiptId o s else s) l) = map lineKey l).
    { rewrite map_map. apply map_ext. intros s. by destruct (stateOfLine _ _ _). }
    rewrite Em. split; [done|]. intros k [?| ->]; [done|]. apply existsb_exists in E as (s & Hs%list_elem_of_In & Hk%stateOfLine_key).
    rewrite <- Hk. by apply list_elem_of_fmap_2.
  - rewrite map_app. split.
    + apply NoDup_snoc; [done|]. intros (s & Es & Hs)%list_elem_of_fmap. apply not_true_iff_false in E. apply E, existsb_exists. exists s.
      split; [by apply list_elem_of_In|]. by apply stateOfLine_key.
    + intros k [?| ->]; apply elem_of_app; [by left|right]. cbn. by left.
Qed.

Lemma upsertedAll_keys outcomes : forall ids l,
  length ids = length outcomes -> NoDup (map lineKey l) -> NoDup (map lineKey (upsertAll outcomes ids l)) /\
  forall k, k ∈ map lineKey l \/ (exists o, o ∈ outcomes /\ k = (batchId, oc_lineId o)) -> k ∈ map lineKey (upsertAll outcomes ids l).
Proof.
  induction outcomes as [|o outcomes IH]; intros [|id ids] l Hlen Hn; try done; cbn [upsertedAll].
  - split; [done|]. by intros k [?|(o & ?%elem_of_nil & _)].
  - injection Hlen as Hlen. destruct (upserted_keys o id l Hn) as [Hn' Hk]. destruct (IH ids _ Hlen Hn') as [Hn2 Hk2]. split; [done|].
    intros k [Hl|(o' & [->|Ho']%elem_of_cons & ->)]; apply Hk2; [left; apply Hk; by left|left; apply Hk; by right|right; by exists o'].
Qed.

(** The states of the other batches stay. *)
Lemma upsertedAll_other outcomes b : b <> batchId -> forall ids l,
  List.filter (fun s => bool_decide (xs_batchId s = b)) (upsertAll outcomes ids l) = List.filter (fun s => bool_decide (xs_batchId s = b)) l.
Proof.
  intros Hb. induction outcomes as [|o outcomes IH]; intros [|id ids] l; try done; cbn [upsertedAll]. rewrite IH. clear IH.
  unfold upserted. destruct (existsb _ l).
  - induction l as [|s l IH]; [done|]. cbn. destruct (stateOfLine batchId (oc_lineId o) s) eqn:E; cbn.
    + apply stateOfLine_key in E. unfold lineKey in E. injection E as E _. rewrite E, bool_decide_false by done. apply IH.
    + case_bool_decide; [by f_equal|done].
  - rewrite List.filter_app. cbn. rewrite bool_decide_false by done. apply app_nil_r.
Qed.
End Upserts.

Section Received.
Context `{Coll : Collation, LC : LocaleCompare, SH : Sha256}.

(** Outcomes for different lines name different stored lines of the batch. *)
Lemma translated_lines tenantId batchId db public payload :
  NoDup (map xl_id (et_lines (db_exports db))) -> NoDup (map oc_lineId (rc_outcomes public)) ->
  translated tenantId batchId db public payload ->
  NoDup (map oc_lineId (rc_outcomes payload)) /\
  forall o, o ∈ rc_outcomes payload -> exists l, l ∈ et_lines (db_exports db) /\ xl_id l = oc_lineId o /\ xl_batchId l = batchId /\ xl_tenantId l = tenantId.
Proof.
  intros Hk Hn (_ & _ & _ & outcomes & Hf & ->).
  assert (Hall : NoDup (map oc_lineId outcomes)).
  { induction Hf as [|o c public' outcomes Ho Hf IH]; [constructor|]. cbn in *. apply NoDup_cons in Hn as [Hno Hn].
    constructor; [|by apply IH]. intros (c2 & Ec & Hc2)%list_elem_of_fmap. apply Hno.
    destruct (Forall2_elem_r _ _ _ _ Hf Hc2) as (o2 & Ho2 & l2 & Hl2 & _ & _ & Ep2 & Ei2 & _). destruct Ho as (l & Hl & _ & _ & Ep & Ei & _).
    rewrite (NoDup_map_inj xl_id _ l l2 Hk Hl Hl2 ltac:(congruence)) in Ep. apply list_elem_of_fmap. exists o2. split; [congruence|done]. }
  split; [by rewrite sortBy_perm|]. intros o Ho%sortBy_elem. destruct (Forall2_elem_r _ _ _ _ Hf Ho) as (p & _ & l & ? & ? & ? & _ & ? & _).
  by exists l.
Qed.

(** The events of a receipt, counted. *)
Lemma eventCount_outcomes status tenantId receiptId batchId outcomes events :
  Forall2 (fun o e => exists id, e = eventRow tenantId receiptId batchId id o) outcomes events ->
  eventCount status events = Z.of_nat (length (List.filter (fun o => bool_decide (oc_status o = status)) outcomes)).
Proof.
  unfold eventCount. intros Hf. f_equal. induction Hf as [|o e outcomes events (id & ->) Hf IH]; [done|]. cbn.
  case_bool_decide; cbn; congruence.
Qed.

(** All the lines of a batch are accepted when their number is. *)
Lemma accepted_all db' tenantId batchId (lines : list PayrollExportLine) :
  NoDup (map lineKey (et_states (db_exports db'))) ->
  (forall s, s ∈ et_states (db_exports db') -> xs_batchId s = batchId -> exists l, l ∈ lines /\ xl_id l = xs_lineId s) ->
  length (List.filter (acceptedState tenantId batchId) (et_states (db_exports db'))) = length lines ->
  forall l, l ∈ lines -> exists s, s ∈ statesOf db' batchId /\ xs_lineId s = xl_id l /\ xs_status s = ACCEPTED.
Proof.
  intros Hk Hof Hlen. set (accepted := List.filter _ _) in Hlen.
  assert (Hacc : forall s, s ∈ accepted -> s ∈ statesOf db' batchId /\ xs_status s = ACCEPTED).
  { intros s Hs%list_elem_of_In. apply filter_In in Hs as [Hs Hp]. unfold acceptedState, stateOf in Hp. bools. split; [|tauto].
    apply list_elem_of_In, filter_In. split; [done|]. apply bool_decide_eq_true. tauto. }
  assert (Hn : NoDup (map xs_lineId accepted)).
  { assert (Hn : NoDup (map lineKey accepted)).
    { subst accepted. clear -Hk. induction (et_states _) as [|s l IH]; [constructor|]. cbn in *. apply NoDup_cons in Hk as [Hno Hk].
      destruct (acceptedState _ _ _); [|by apply IH]. cbn. constructor; [|by apply IH]. intros (x & Ex & Hx)%list_elem_of_fmap. apply Hno.
      apply list_elem_of_In, filter_In in Hx as [Hx _]. rewrite Ex. by apply list_elem_of_fmap_2, list_elem_of_In. }
    clear -Hn Hacc. induction accepted as [|s l IH]; [constructor|]. cbn in *. apply NoDup_cons in Hn as [Hno Hn]. constructor.
    - intros (x & Ex & Hx)%list_elem_of_fmap. apply Hno, list_elem_of_fmap. exists x. split; [|done].
      destruct (Hacc s ltac:(by left)) as [Hs _], (Hacc x ltac:(by right)) as [Hx' _]. unfold statesOf in Hs, Hx'.
      apply list_elem_of_In, filter_In in Hs as [_ Hs%bool_decide_eq_true], Hx' as [_ Hx'%bool_decide_eq_true]. unfold lineKey. congruence.
    - apply IH; [|done]. intros x Hx. apply Hacc. by right. }
  assert (Hincl : incl (map xl_id lines) (map xs_lineId accepted)).
  { apply List.NoDup_length_incl; [by apply NoDup_ListNoDup|by rewrite !length_map, Hlen|].
    intros x (s & <- & Hs)%in_map_iff. apply list_elem_of_In, Hacc in Hs as [Hs _]. unfold statesOf in Hs.
    apply list_elem_of_In, filter_In in Hs as [Hs%list_elem_of_In Hb%bool_decide_eq_true]. destruct (Hof s Hs Hb) as (l & Hl & <-).
    by apply in_map, list_elem_of_In. }
  intros l Hl. assert (Hin : In (xl_id l) (map xs_lineId accepted)) by (by apply Hincl, in_map, list_elem_of_In).
  apply in_map_iff in Hin as (s & Es & Hs%list_elem_of_In). exists s. destruct (Hacc s Hs). done.
Qed.

(** The tables after a report. *)
Lemma received_tables identity exportId public sha db db' batch payload receipt :
  ReportReceived identity exportId public sha db db' batch payload receipt ->
  exists events stateIds batches',
    Forall2 (fun o e => exists id, e = eventRow (si_tenantId identity) (xr_id receipt) exportId id o) (rc_outcomes payload) events /\
    length stateIds = length (rc_outcomes payload) /\
    advanced batch (complete (si_tenantId identity) batch (rc_providerTotalMinutes payload)
      (upsertedAll (si_tenantId identity) (xr_id receipt) exportId (rc_outcomes payload) stateIds (et_states (db_exports db))))
      (et_batches (db_exports db)) batches' /\
    db_exports db' = mkExportTables batches' (et_lines (db_exports db)) (et_receipts (db_exports db) ++ [receipt])
      (et_events (db_exports db) ++ events)
      (upsertedAll (si_tenantId identity) (xr_id receipt) exportId (rc_outcomes payload) stateIds (et_states (db_exports db))) /\
    db_credits db' = db_credits db.
Proof.
  intros [_ _ _ _ (events & ids & bs & a & Hev & _ & Hlen & Hadv & _ & E)]. exists events, ids, bs. split; [done|]. split; [done|]. split; [exact Hadv|].
  rewrite E. clear. by open_db db.
Qed.
(** The batches after a report: the one reported on, and the others. *)
Lemma advanced_elem batch isComplete l l' b' :
  NoDup (map xb_id l) -> batch ∈ l -> advanced batch isComplete l l' -> b' ∈ l' ->
  (b' ∈ l /\ xb_id b' <> xb_id batch) \/
  (isComplete = true /\ exists t u, b' = statusRow RECONCILED (Some t) u batch) \/
  (isComplete = false /\ xb_status batch = DOWNLOADED /\ exists u, b' = statusRow RECONCILING None u batch) \/
  (isComplete = false /\ xb_status batch = RECONCILING /\ b' = batch).
Proof.
  intros Hk Hin Hadv Hb'. destruct Hadv as [t u Hc|u Hc Hst|Hc Hst].
  - apply replaced_batch in Hb' as (b & Hb & [[-> Hne]|[-> Hid]]); [by left|right; left]. rewrite (NoDup_map_inj xb_id l b batch Hk Hb Hin Hid). eauto.
  - apply replaced_batch in Hb' as (b & Hb & [[-> Hne]|[-> Hid]]); [by left|right; right; left]. rewrite (NoDup_map_inj xb_id l b batch Hk Hb Hin Hid). eauto.
  - destruct (decide (xb_id b' = xb_id batch)) as [Hid|Hne]; [right; right; right|by left].
    by rewrite (NoDup_map_inj xb_id l b' batch Hk Hb' Hin Hid).
Qed.

Lemma advanced_keys batch isComplete l l' :
  advanced batch isComplete l l' -> map xb_id l' = map xb_id l /\ map xb_periodId l' = map xb_periodId l /\ map xb_operationId l' = map xb_operationId l.
Proof. intros [t u _|u _ _|_ _]; [apply replaced_keys, status_same..|done]. Qed.

Lemma advanced_batchOf db batch isComplete l' tenantId batchId :
  advanced batch isComplete (et_batches (db_exports db)) l' -> batchOf db tenantId batchId ->
  exists b, b ∈ l' /\ xb_id b = batchId /\ xb_tenantId b = tenantId.
Proof.
  intros [t u _|u _ _|_ _] Hb; [| |done]; (eapply batchOf_replaced; [|reflexivity|exact Hb]); apply status_same.
Qed.

(** The one event of a line in a report. *)
Lemma event_of_outcome tenantId receiptId batchId outcomes events o :
  NoDup (map oc_lineId outcomes) -> Forall2 (fun o e => exists id, e = eventRow tenantId receiptId batchId id o) outcomes events -> o ∈ outcomes ->
  exists id, List.filter (eventOfLine batchId (oc_lineId o)) events = [eventRow tenantId receiptId batchId id o].
Proof.
  intros Hn Hf. induction Hf as [|o1 e1 outcomes events (id1 & ->) Hf IH]; [by intros ?%elem_of_nil|]. cbn in Hn. apply NoDup_cons in Hn as [Hno Hn].
  intros Ho. cbn. unfold eventOfLine at 1. cbn. rewrite (bool_decide_true (batchId = batchId)) by done. apply elem_of_cons in Ho as [->|Ho].
  - rewrite (bool_decide_true (oc_lineId o1 = oc_lineId o1)) by done. exists id1. cbn. f_equal. apply filter_none. intros e He.
    destruct (Forall2_elem_r _ _ _ _ Hf He) as (o2 & Ho2 & id & ->). unfold eventOfLine. cbn. apply andb_false_iff. right.
    apply bool_decide_eq_false. intros E. apply Hno. rewrite <- E. by apply list_elem_of_fmap_2.
  - rewrite (bool_decide_false (oc_lineId o1 = oc_lineId o)); [by apply IH|]. intros E. apply Hno. rewrite E. by apply list_elem_of_fmap_2.
Qed.
End Received.

(** What a report that was received preserves, from what it wrote. *)
Section Reported.
Context `{Coll : Collation, LC : LocaleCompare, SH : Sha256}.
Context (tenantId receiptId : string) (db db' : Db) (batch : PayrollExportBatch) (receipt : PayrollReconciliationReceipt)
  (outcomes : list Outcome) (events : list PayrollReconciliationLineEvent) (ids : list string).
Context (Hex : exportSound db) (Hin : batch ∈ et_batches (db_exports db)) (Htn : xb_tenantId batch = tenantId) (Hrid : xr_id receipt = receiptId).
Context (Hnodup : NoDup (map oc_lineId outcomes)) (Hlen : length ids = length outcomes).
Context (Hlines : forall o, o ∈ outcomes -> exists l, l ∈ et_lines (db_exports db) /\ xl_id l = oc_lineId o /\ xl_batchId l = xb_id batch /\ xl_tenantId l = tenantId).
Context (Hevents : Forall2 (fun o e => exists id, e = eventRow tenantId receiptId (xb_id batch) id o) outcomes events).
Context (Hfresh : forall r, r ∈ et_receipts (db_exports db) -> xr_id r <> receiptId).
Context (Hrb : xr_batchId receipt = xb_id batch) (Hrt : xr_tenantId receipt = tenantId).
Context (El : et_lines (db_exports db') = et_lines (db_exports db)) (Er : et_receipts (db_exports db') = et_receipts (db_exports db) ++ [receipt]).
Context (Ee : et_events (db_exports db') = et_events (db_exports db) ++ events).
Context (Es : et_states (db_exports db') = upsertedAll tenantId receiptId (xb_id batch) outcomes ids (et_states (db_exports db))).

Lemma batch_of tn : batchOf db tn (xb_id batch) -> tn = tenantId.
Proof using All.
  intros (b & Hb & Hid & <-). rewrite <- Htn. by rewrite (NoDup_map_inj xb_id _ b batch (ke_batches _ (ex_keys _ Hex)) Hb Hin Hid).
Qed.

(** An event of the new receipt. *)
Lemma new_event e : e ∈ events -> exists o, o ∈ outcomes /\ xe_receiptId e = receiptId /\ xe_batchId e = xb_id batch /\
  xe_tenantId e = tenantId /\ xe_lineId e = oc_lineId o.
Proof using All. intros He. destruct (Forall2_elem_r _ _ _ _ Hevents He) as (o & Ho & id & ->). by exists o. Qed.

(** The line of a state of the batch. *)
Lemma state_line s : s ∈ et_states (db_exports db) ->
  exists l, l ∈ et_lines (db_exports db) /\ xl_id l = xs_lineId s /\ xl_batchId l = xs_batchId s /\ xl_tenantId l = xs_tenantId s.
Proof using All.
  intros Hs. destruct (ex_states _ Hex s Hs) as (e & He & Het & _).
  assert (Hine : e ∈ List.filter (eventOfLine (xs_batchId s) (xs_lineId s)) (et_events (db_exports db))).
  { apply last_Some_elem_of, He. }
  apply list_elem_of_In, filter_In in Hine as [Hine%list_elem_of_In Hp]. unfold eventOfLine in Hp. bools. destruct Hp as [Hb Hl].
  destruct (ex_events _ Hex e Hine) as [_ (l & ? & ? & ? & ?)]. exists l. split_and!; congruence || done.
Qed.

Lemma own_states : ownStates tenantId (xb_id batch) (et_states (db_exports db)).
Proof using All.
  intros s Hs Hb. destruct (state_line s Hs) as (l & Hl & _ & Hlb & <-). apply batch_of. rewrite <- Hb, <- Hlb. by apply (ex_lines _ Hex).
Qed.

Lemma reported_state s : s ∈ et_states (db_exports db') -> stateSound db' s.
Proof using All.
  rewrite Es. intros [[Hs Hno]|(o & Ho & Hk & Ht & Hst & Hre & Hrc)]%upsertedAll_elem; [| |apply own_states|done].
  - destruct (ex_states _ Hex s Hs) as (e & He & Hrest). exists e. rewrite Ee, List.filter_app, (filter_none _ events), app_nil_r; [done|].
    intros e' He'. destruct (new_event e' He') as (o & Ho & _ & Hb & _ & Hl). apply not_true_iff_false. unfold eventOfLine. intros Hp. bools.
    apply (Hno o Ho). unfold lineKey. destruct Hp. congruence.
  - destruct (event_of_outcome _ _ _ _ _ o Hnodup Hevents Ho) as (id & Hid). unfold lineKey in Hk. injection Hk as Hkb Hkl.
    exists (eventRow tenantId receiptId (xb_id batch) id o). rewrite Ee, List.filter_app, Hkb, Hkl, Hid, last_snoc. cbn. by split_and!.
Qed.

Lemma reported_event e : e ∈ et_events (db_exports db') -> eventSound db' e.
Proof using All.
  rewrite Ee. intros [He|He]%elem_of_app; unfold eventSound; rewrite El, Er.
  - destruct (ex_events _ Hex e He) as [(r & Hr & ?) ?]. split; [|done]. exists r. split; [set_solver|done].
  - destruct (new_event e He) as (o & Ho & Hrc & Hb & Ht & Hl). split.
    + exists receipt. split; [set_solver|]. split_and!; congruence.
    + destruct (Hlines o Ho) as (l & ? & ? & ? & ?). exists l. split_and!; congruence || done.
Qed.

Lemma reported_covered e : e ∈ et_events (db_exports db') -> exists s, s ∈ et_states (db_exports db') /\ lineKey s = (xe_batchId e, xe_lineId e).
Proof using All.
  intros He. assert (Hk : (xe_batchId e, xe_lineId e) ∈ map lineKey (et_states (db_exports db'))).
  { rewrite Es. apply upsertedAll_keys; [done|apply (ex_keys _ Hex)|]. rewrite Ee in He. apply elem_of_app in He as [He|He].
    - left. destruct (ex_covered _ Hex e He) as (s & Hs & <-). by apply list_elem_of_fmap_2.
    - right. destruct (new_event e He) as (o & Ho & _ & -> & _ & ->). by exists o. }
  apply list_elem_of_fmap in Hk as (s & Hk & Hs). by exists s.
Qed.
Lemma reported_receipt r :
  (forall tn b, batchOf db tn b -> batchOf db' tn b) ->
  xr_acceptedCount receipt = eventCount ACCEPTED events -> xr_rejectedCount receipt = eventCount REJECTED events ->
  xr_pendingCount receipt = eventCount PENDING events -> r ∈ et_receipts (db_exports db') -> receiptSound db' r.
Proof using All.
  intros Hof Ha Hre Hp. assert (Hnew : eventsOf db' receiptId = events).
  { unfold eventsOf. rewrite Ee, List.filter_app, filter_none, filter_all; [done|..].
    - intros e He. destruct (new_event e He) as (o & _ & -> & _). by apply bool_decide_eq_true.
    - intros e He. apply bool_decide_eq_false. destruct (ex_events _ Hex e He) as [(r0 & Hr0 & <- & _) _]. by apply Hfresh. }
  rewrite Er. intros [Hr|Hr]%elem_of_app; unfold receiptSound.
  - destruct (ex_receipts _ Hex r Hr) as (Hb & H1 & H2 & H3).
    assert (Hold : eventsOf db' (xr_id r) = eventsOf db (xr_id r)).
    { unfold eventsOf. rewrite Ee, List.filter_app, (filter_none _ events), app_nil_r; [done|].
      intros e He. apply bool_decide_eq_false. destruct (new_event e He) as (o & _ & -> & _). intros E. by apply (Hfresh r Hr). }
    rewrite Hold. split; [by apply Hof|done].
  - apply list_elem_of_singleton in Hr as ->. rewrite Hrid, Hnew, Hrb, Hrt. split; [|done]. apply Hof. exists batch. done.
Qed.

Lemma reported_others b : xb_id b <> xb_id batch ->
  batchLines db' b = batchLines db b /\ receiptsOf db' (xb_id b) = receiptsOf db (xb_id b) /\ statesOf db' (xb_id b) = statesOf db (xb_id b).
Proof using All.
  intros Hne. unfold batchLines, linesOfBatch, receiptsOf, statesOf. rewrite El, Er, Es. split; [done|]. split.
  - rewrite List.filter_app. cbn. rewrite bool_decide_false by congruence. apply app_nil_r.
  - by apply upsertedAll_other.
Qed.

Lemma reported_receipts : receiptsOf db' (xb_id batch) = receiptsOf db (xb_id batch) ++ [receipt].
Proof using All. unfold receiptsOf. rewrite Er, List.filter_app. cbn. by rewrite bool_decide_true. Qed.

(** A complete report settles the batch. *)
Lemma reported_settled b' :
  sameBatch batch b' -> complete tenantId batch (xr_providerTotalMinutes receipt) (et_states (db_exports db')) = true -> settledBatch db' b'.
Proof using All.
  intros [[Ei Et] _ (_ & En & Em) _] Hc. unfold complete in Hc. bools. destruct Hc as [Hc Htot]. split.
  - assert (Hb : batchLines db' b' = batchLines db batch) by (unfold batchLines, linesOfBatch; by rewrite Ei, Et, El).
    rewrite Hb, Ei. destruct (bs_period _ _ (ex_batches _ Hex batch Hin)) as (p & _ & _ & _ & _ & Hsnap & Hn & _).
    pose proof (Forall2_length _ _ _ Hsnap) as Hl. apply (accepted_all db' tenantId); [| |lia].
    + rewrite Es. apply upsertedAll_keys; [done|apply (ex_keys _ Hex)].
    + rewrite Es. intros s Hs Hsb. unfold batchLines, linesOfBatch.
      assert (Hline : exists l, l ∈ et_lines (db_exports db) /\ xl_id l = xs_lineId s /\ xl_batchId l = xb_id batch /\ xl_tenantId l = tenantId).
      { destruct (upsertedAll_elem _ _ _ _ _ _ _ own_states Hlen Hs) as [[Hold _]|(o & Ho & Hk & _)].
        - destruct (state_line s Hold) as (l & Hl1 & Hl2 & Hl3 & Hl4). exists l. split; [done|]. split; [done|]. split; [congruence|].
          rewrite Hl4. by apply own_states.
        - destruct (Hlines o Ho) as (l & ? & ? & ? & ?). unfold lineKey in Hk. injection Hk as _ Hkl. exists l. split_and!; congruence || done. }
      destruct Hline as (l & Hl1 & Hl2 & Hl3 & Hl4). exists l. split; [|done]. apply sortBy_elem, list_elem_of_In, filter_In.
      split; [by apply list_elem_of_In|]. unfold lineOfBatch. rewrite Htn. by rewrite !bool_decide_true.
  - exists receipt. rewrite Ei, reported_receipts, last_snoc, Em. by split.
Qed.

Lemma reported_batch isComplete b' batches' :
  grows db db' -> db_credits db' = db_credits db ->
  isComplete = complete tenantId batch (xr_providerTotalMinutes receipt) (et_states (db_exports db')) ->
  xb_status batch = DOWNLOADED \/ xb_status batch = RECONCILING ->
  advanced batch isComplete (et_batches (db_exports db)) batches' -> b' ∈ batches' -> batchSound db' b'.
Proof using All.
  intros Hg Hc Hcomp Hst Hadv Hb'. pose proof (ex_batches _ Hex batch Hin) as Hsound.
  assert (Hb : batchLines db' batch = batchLines db batch) by (unfold batchLines, linesOfBatch; by rewrite El).
  assert (Hdown : is_Some (xb_downloadedAt batch) /\ (xb_status batch <> RECONCILED -> xb_reconciledAt batch = None)).
  { destruct (bs_state _ _ Hsound); split; try done; intros; destruct Hst; congruence. }
  destruct Hdown as [Hd Hrec].
  assert (Hne : receiptsOf db' (xb_id batch) <> []) by (rewrite reported_receipts; by destruct (receiptsOf _ _)).
  destruct (advanced_elem _ _ _ _ _ (ke_batches _ (ex_keys _ Hex)) Hin Hadv Hb') as
    [[Hold Hno]|[(E & t & u & ->)|[(_ & Hdl & u & ->)|(_ & Hrc & ->)]]].
  - destruct (reported_others b' Hno) as (H1 & H2 & H3). eapply batchSound_later; [done|by rewrite Hc|apply sameBatch_refl|done| |by apply (ex_batches _ Hex)].
    eapply batchState_kept; [done..|by apply (ex_batches _ Hex)].
  - eapply batchSound_later; [done|by rewrite Hc|apply status_same|done| |done]. apply st_reconciled; [done|done|by eexists|].
    apply reported_settled; [apply status_same|congruence].
  - eapply batchSound_later; [done|by rewrite Hc|apply status_same|done| |done]. apply st_reconciling; [done|done| |done].
    cbn. apply Hrec. congruence.
  - eapply batchSound_later; [done|by rewrite Hc|apply sameBatch_refl|done| |done]. apply st_reconciling; [done|done| |done].
    apply Hrec. congruence.
Qed.
End Reported.

Section Settled.
Context `{Coll : Collation, LC : LocaleCompare, SH : Sha256}.

Lemma received_sound identity exportId public sha db db' batch payload receipt :
  grows db db' -> exportSound db -> NoDup (map oc_lineId (rc_outcomes public)) ->
  ReportReceived identity exportId public sha db db' batch payload receipt -> exportSound db'.
Proof.
  intros Hg Hex Hn Hrr. destruct (received_tables _ _ _ _ _ _ _ _ _ Hrr) as (events & ids & batches' & Hev & Hlen & Hadv & Et & Ec).
  destruct Hrr as [(Hin & <- & Htn & Hst) Hfirst [Htr _] [(rid & pid & at_ & Er) Hfresh] _].
  destruct (translated_lines _ _ _ _ _ (ke_lines _ (ex_keys _ Hex)) Hn Htr) as [Hnodup Hlines].
  assert (Hrid : forall r, r ∈ et_receipts (db_exports db) -> xr_id r <> xr_id receipt).
  { intros r Hr E. apply not_true_iff_false in Hfresh. apply Hfresh, existsb_exists. exists r. split; [by apply list_elem_of_In|].
    cbn. by rewrite (bool_decide_true (xr_id receipt = xr_id r)). }
  assert (Hrow : xr_batchId receipt = xb_id batch /\ xr_tenantId receipt = si_tenantId identity /\ xr_provider receipt = rc_provider payload /\
    xr_providerEventId receipt = rc_providerEventId payload /\ xr_providerTotalMinutes receipt = rc_providerTotalMinutes payload /\
    xr_acceptedCount receipt = eventCount ACCEPTED events /\ xr_rejectedCount receipt = eventCount REJECTED events /\
    xr_pendingCount receipt = eventCount PENDING events) by by rewrite Er, !(eventCount_outcomes _ _ _ _ _ _ Hev).
  destruct Hrow as (Hrb & Hrt & Hrp & Hre & Hrtot & Ha & Hr & Hp). rewrite <- Hrtot in Hadv.
  assert (Hof : forall tn b, batchOf db tn b -> batchOf db' tn b).
  { intros tn b Hb. unfold batchOf. rewrite Et. by eapply advanced_batchOf. }
  destruct (advanced_keys _ _ _ _ Hadv) as (K1' & K2' & K3').
  assert (Hall : forall (Q : Prop), (et_lines (db_exports db') = et_lines (db_exports db) ->
    et_receipts (db_exports db') = et_receipts (db_exports db) ++ [receipt] -> et_events (db_exports db') = et_events (db_exports db) ++ events ->
    et_states (db_exports db') = upsertedAll (si_tenantId identity) (xr_id receipt) (xb_id batch) (rc_outcomes payload) ids (et_states (db_exports db)) -> Q) -> Q).
  { intros Q HQ. apply HQ; by rewrite Et. }
  split.
  - destruct (ex_keys _ Hex) as [K1 K2 K3 K4 K5 K6 K7]. split; rewrite Et; cbn; try congruence.
    + eapply (create_keys xr_id); [|exact Hfresh|done]. intros x y E. cbn. by rewrite (bool_decide_true (xr_id x = _)).
    + eapply (create_keys receiptKeyOf); [|exact Hfresh|done]. intros x y E. unfold receiptKeyOf in E. injection E as E1 E2 E3. cbn.
      rewrite (bool_decide_true (xr_tenantId x = _)), (bool_decide_true (xr_provider x = _)), (bool_decide_true (xr_providerEventId x = _)) by done.
      by rewrite !orb_true_r.
    + by apply upsertedAll_keys.
  - intros b' Hb'. apply Hall. intros E1 E2 E3 E4. rewrite Et in Hb'. rewrite <- E4 in Hadv. by eapply reported_batch.
  - intros l. rewrite Et. intros Hl. by apply Hof, (ex_lines _ Hex).
  - intros r Hr'. apply Hall. intros E1 E2 E3 E4. by eapply (reported_receipt _ _ db db' batch receipt (rc_outcomes payload) events ids).
  - intros e He. apply Hall. intros E1 E2 E3 E4. by eapply (reported_event _ _ db db' batch receipt (rc_outcomes payload) events ids).
  - intros s Hs. apply Hall. intros E1 E2 E3 E4. by eapply (reported_state _ _ db db' batch receipt (rc_outcomes payload) events ids).
  - intros e He. apply Hall. intros E1 E2 E3 E4. by eapply (reported_covered _ _ db db' batch receipt (rc_outcomes payload) events ids).
Qed.

Lemma settleStep_sound db db' :
  payrollSound db -> exportSound db -> settleStep db db' -> payrollSound db' /\ exportSound db' /\ grows db db'.
Proof.
  intros Hs Hex Hst. pose proof (sound_keyed _ Hs) as Hk. destruct (settleStep_effects _ _ Hk (ke_batches _ (ex_keys _ Hex)) Hst) as [Hpe Hee].
  pose proof (effect_grows _ _ Hk Hpe) as Hg. split; [by eapply effect_sound|]. split; [|done].
  destruct Hee as [?|? ? ? ? ? ? ? ? ? ? Hc|? ? ? ? ? ? E|? ? ? ? ? ? ? Hr ?].
  - by eapply exportSound_kept.
  - by eapply created_sound.
  - by eapply downloaded_sound.
  - by eapply received_sound.
Qed.
End Settled.
