(* ===== verification/SettlementOutcomes.v ===== *)
(** * Properties of payroll exports

    What the invariant of the exports says of every batch, what is never
    rewritten, what one run of a handler does, and concrete runs. *)

From S2P Require Import Prelude JsStd JsCollections JsDate JsEncoding ContractHelpers TimeZone PayrollDates PayrollRecords.
From S2P Require Import Database FeatureEntitlement Authority ScheduleStore TimeCardValidation TimeCardPayroll TimeCardStore TimeCards.
From S2P Require Import TimeCardClockIn TimeCardOutcomes PayrollStore PayrollPolicies PayrollReview PayrollLock PayrollAmendments.
From S2P Require Import PayrollHistory PayrollProtocol PayrollOutcomes PayrollExport PayrollExportFacts PayrollReconciliation PayrollSettlement.

(** ** The history of exports *)

Definition statusRank (s : ExportStatus) : nat :=
  match s with GENERATED => 0 | DOWNLOADED => 1 | RECONCILING => 2 | RECONCILED => 3 end.

(** The same batch, further on: a time once recorded stays, and a reconciled
    batch is as it was. *)
Record batchAdvances (b b' : PayrollExportBatch) : Prop := mkBatchAdvances {
  ba_same : sameBatch b b';
  ba_public : xb_publicId b' = xb_publicId b /\ xb_requestHash b' = xb_requestHash b /\ xb_createdAt b' = xb_createdAt b /\
    xb_formatVersion b' = xb_formatVersion b;
  ba_forward : (statusRank (xb_status b) <= statusRank (xb_status b'))%nat;
  ba_times : forall t, xb_downloadedAt b = Some t -> xb_downloadedAt b' = Some t;
  ba_final : xb_status b = RECONCILED -> b' = b;
}.

Record exportGrows `{Collation} (db db' : Db) : Prop := mkExportGrows {
  eg_batches : forall b, b ∈ et_batches (db_exports db) -> exists b', b' ∈ et_batches (db_exports db') /\ batchAdvances b b';
  eg_lines : et_lines (db_exports db) `prefix_of` et_lines (db_exports db') /\
    forall b, b ∈ et_batches (db_exports db) -> batchLines db' b = batchLines db b;
  eg_receipts : et_receipts (db_exports db) `prefix_of` et_receipts (db_exports db');
  eg_events : et_events (db_exports db) `prefix_of` et_events (db_exports db');
  eg_settled : forall b, b ∈ et_batches (db_exports db) -> xb_status b = RECONCILED ->
    receiptsOf db' (xb_id b) = receiptsOf db (xb_id b) /\ statesOf db' (xb_id b) = statesOf db (xb_id b);
}.

Lemma batchAdvances_refl b : batchAdvances b b.
Proof. by split. Qed.

Lemma sameBatch_trans a b c : sameBatch a b -> sameBatch b c -> sameBatch a c.
Proof.
  intros [[? ?] (? & ? & ?) (? & ? & ?) (? & ?)] [[? ?] (? & ? & ?) (? & ? & ?) (? & ?)]. split; split_and!; congruence.
Qed.

Lemma batchAdvances_trans a b c : batchAdvances a b -> batchAdvances b c -> batchAdvances a c.
Proof.
  intros [S1 (P1 & P2 & P3 & P4) F1 T1 E1] [S2 (Q1 & Q2 & Q3 & Q4) F2 T2 E2]. split.
  - by eapply sameBatch_trans.
  - split_and!; congruence.
  - lia.
  - intros t Ht. by apply T2, T1.
  - intros Hr. pose proof (E1 Hr) as ->. by apply E2.
Qed.

#[global] Instance exportGrows_preorder `{Collation} : PreOrder exportGrows.
Proof.
  split.
  - intros db. split; try done. intros b Hb. exists b. split; [done|apply batchAdvances_refl].
  - intros d1 d2 d3 [B1 [L1 K1] R1 E1 S1] [B2 [L2 K2] R2 E2 S2]. split; try (by etrans).
    + intros b Hb. destruct (B1 b Hb) as (b2 & Hb2 & A1), (B2 b2 Hb2) as (b3 & Hb3 & A2). exists b3. split; [done|by eapply batchAdvances_trans].
    + split; [by etrans|]. intros b Hb. destruct (B1 b Hb) as (b2 & Hb2 & A1). rewrite <- (K1 b Hb).
      destruct (ba_same _ _ A1) as [[Ei Et] _ _ _]. pose proof (K2 b2 Hb2) as E. unfold batchLines in *. by rewrite Ei, Et in E.
    + intros b Hb Hr. destruct (B1 b Hb) as (b2 & Hb2 & A1). pose proof (ba_final _ _ A1 Hr) as ->.
      destruct (S1 b Hb Hr) as [X1 X2], (S2 b Hb2 Hr) as [Y1 Y2]. split; congruence.
Qed.

Section History.
Context `{Coll : Collation, LC : LocaleCompare, SH : Sha256}.

(** Batches whose row of [k] is rewritten. *)
Lemma replaced_advances l k f :
  (forall b, b ∈ l -> xb_id b = k -> batchAdvances b (f b)) ->
  forall b, b ∈ l -> exists b', b' ∈ replaceRow xb_id k f l /\ batchAdvances b b'.
Proof.
  intros Hf b Hb. exists (if bool_decide (xb_id b = k) then f b else b). split.
  - apply list_elem_of_In, in_map_iff. exists b. split; [done|by apply list_elem_of_In].
  - case_bool_decide; [by apply Hf|apply batchAdvances_refl].
Qed.

Lemma downloaded_grows db db' batch t u audit :
  exportSound db -> batch ∈ et_batches (db_exports db) -> xb_status batch = GENERATED ->
  db' = withRows (db_audits db ++ [audit]) (withRows (replaceRow xb_id (xb_id batch) (downloadedRow t u) (et_batches (db_exports db))) db) ->
  exportGrows db db'.
Proof.
  intros Hex Hin Hgen E.
  assert (Et : db_exports db' = mkExportTables (replaceRow xb_id (xb_id batch) (downloadedRow t u) (et_batches (db_exports db)))
    (et_lines (db_exports db)) (et_receipts (db_exports db)) (et_events (db_exports db)) (et_states (db_exports db)))
    by (rewrite E; clear; by open_db db). clear E.
  split; unfold batchLines, linesOfBatch, receiptsOf, statesOf; rewrite ?Et; try done. cbn. apply replaced_advances. intros b Hb Hid.
  rewrite (NoDup_map_inj xb_id _ b batch (ke_batches _ (ex_keys _ Hex)) Hb Hin Hid). split; [apply downloaded_same|done|..].
  - rewrite Hgen. cbn. lia.
  - intros t0 Ht0. destruct (bs_state _ _ (ex_batches _ Hex batch Hin)); congruence.
  - congruence.
Qed.

Lemma status_advances batch status t u :
  (statusRank (xb_status batch) <= statusRank status)%nat -> xb_status batch <> RECONCILED -> batchAdvances batch (statusRow status t u batch).
Proof. intros Hr Hne. split; [apply status_same|done..]. Qed.

Lemma received_grows identity exportId public sha db db' batch payload receipt :
  exportSound db -> ReportReceived identity exportId public sha db db' batch payload receipt -> exportGrows db db'.
Proof.
  intros Hex Hrr. destruct (received_tables _ _ _ _ _ _ _ _ _ Hrr) as (events & ids & batches' & _ & _ & Hadv & Et & _).
  destruct Hrr as [(Hin & <- & _ & Hst) _ _ [(rid & pid & at_ & Er) _] _]. pose proof (ke_batches _ (ex_keys _ Hex)) as Hk.
  split; unfold batchLines, linesOfBatch; rewrite ?Et; cbn [et_batches et_lines et_receipts et_events].
  - destruct Hadv as [t u Hc|u Hc Hd|Hc Hd]; [apply replaced_advances; intros b Hb Hid; rewrite (NoDup_map_inj xb_id _ b batch Hk Hb Hin Hid)..|].
    + destruct Hst as [Hs|Hs]; apply status_advances; rewrite Hs; cbn; done || lia.
    + apply status_advances; rewrite Hd; cbn; done || lia.
    + intros b Hb. exists b. split; [done|apply batchAdvances_refl].
  - done.
  - by apply prefix_app_r.
  - by apply prefix_app_r.
  - intros b Hb Hr. assert (Hne : xb_id b <> xb_id batch).
    { intros E. rewrite (NoDup_map_inj xb_id _ b batch Hk Hb Hin E) in Hr. destruct Hst; congruence. }
    unfold receiptsOf, statesOf. rewrite Et. cbn [et_receipts et_states]. split.
    + assert (Hrb : xr_batchId receipt = xb_id batch) by by rewrite Er. rewrite List.filter_app. cbn.
      rewrite bool_decide_false by congruence. apply app_nil_r.
    + by apply upsertedAll_other.
Qed.

Lemma created_grows identity periodId cost request db db' period maps entries news csv batch :
  payrollSound db -> ExportCreated identity periodId cost request db db' period maps entries news csv batch -> exportGrows db db'.
Proof.
  intros Hs Hx. destruct (created_lines _ _ _ _ _ _ _ _ _ _ _ _ Hs Hx) as [_ Hkeep].
  destruct (created_tables _ _ _ _ _ _ _ _ _ _ _ _ Hx) as (Et & _). split; rewrite ?Et; cbn; try done.
  - intros b Hb. exists b. split; [set_solver|apply batchAdvances_refl].
  - split; [by apply prefix_app_r|exact Hkeep].
  - intros b Hb _. unfold receiptsOf, statesOf. by rewrite Et.
Qed.

Lemma settleStep_grows db db' : payrollSound db -> exportSound db -> settleStep db db' -> exportGrows db db'.
Proof.
  intros Hs Hex Hst. destruct (settleStep_effects _ _ (sound_keyed _ Hs) (ke_batches _ (ex_keys _ Hex)) Hst) as [_ Hee].
  destruct Hee as [[E _]|? ? ? ? ? ? ? ? ? ? Hc|? ? ? ? ? ? E|? ? ? ? ? ? ? Hr ?].
  - split; unfold batchLines, linesOfBatch, receiptsOf, statesOf; rewrite ?E; try done. intros b Hb. exists b. split; [done|apply batchAdvances_refl].
  - by eapply created_grows.
  - by eapply downloaded_grows.
  - by eapply received_grows.
Qed.

Lemma settles_sound db db' :
  rtc settleStep db db' -> payrollSound db -> exportSound db -> (payrollSound db' /\ exportSound db') /\ grows db db' /\ exportGrows db db'.
Proof.
  induction 1 as [db|db1 db2 db3 Hs _ IH]; intros Hp Hx; [by split|].
  destruct (settleStep_sound _ _ Hp Hx Hs) as (Hp2 & Hx2 & Hg). pose proof (settleStep_grows _ _ Hp Hx Hs) as Hxg.
  destruct (IH Hp2 Hx2) as (? & ? & ?). split; [done|]. split; by etrans.
Qed.
End History.

(** ** The properties *)

(** The public identifier of the tenant's row with an identifier. *)
Definition namesRow {R} (tenantOf idOf publicOf : R -> string) (tenantId : string) (rows : list R) (id publicId : string) : Prop :=
  exists r, r ∈ rows /\ tenantOf r = tenantId /\ idOf r = id /\ publicOf r = publicId.

(** The public identifiers of what a line is paid for, to whom and where. *)
Record publicNames (db : Db) (tenantId sourceType sourceId employeeId : string) (locationId : option string)
    (source employee : string) (location : option string) : Prop := mkPublicNames {
  pn_source : if bool_decide (sourceType = "TIME_CARD")
    then namesRow tc_tenantId tc_id tc_publicId tenantId (db_timeCards db) sourceId source
    else namesRow pm_tenantId pm_id pm_publicId tenantId (pt_amendments (db_payroll db)) sourceId source;
  pn_employee : namesRow us_tenantId us_id us_publicId tenantId (db_users db) employeeId employee;
  pn_location : match truthy locationId, location with
    | None, None => True
    | Some id, Some publicId => namesRow lo_tenantId lo_id lo_publicId tenantId (db_locations db) id publicId
    | _, _ => False
    end;
}.

(** The cells of a row of the file pay the entry: the line of the batch that
    stands for it, what it is paid for, to whom, where, when and how long. *)
Definition paysCells `{Collation} (db : Db) (b : PayrollExportBatch) (e : PayrollLockedEntry) (cells : list string) : Prop :=
  exists l source employee location, l ∈ batchLines db b /\ xl_lockedEntryId l = pe_id e /\
    publicNames db (xb_tenantId b) (pe_sourceType e) (pe_sourceId e) (pe_employeeId e) (pe_locationId e) source employee location /\
    cells = [xl_publicId l; pe_sourceType e; source; employee; default "" location; pe_workTimeZone e;
             toISOString (pe_clockInAt e); toISOString (pe_clockOutAt e); showZ (pe_breakMinutes e); showZ (pe_payableMinutes e)].

(** What a download checks of a batch does not hold: its ledger row, the
    number and the total of its lines, or the hash of a line, which is not that
    of the line with the public identifiers that the rows of the database have
    now. *)
Definition tampered `{Collation, LocaleCompare, Sha256} (db : Db) (b : PayrollExportBatch) : Prop :=
  ~ paidFor db b \/ Z.of_nat (length (batchLines db b)) <> xb_rowCount b \/
  foldr Z.add 0 (map xl_payableMinutes (batchLines db b)) <> xb_totalPayableMinutes b \/
  exists l, l ∈ batchLines db b /\ forall maps line encoding, mapsOf (xb_tenantId b) db maps -> storedLine maps l = Ok line ->
    ~ hashedAs encoding (xb_tenantId b) (xb_id b) l line.

(** The operation of an export, which the period and the price do not enter. *)
Definition exportOperation `{LocaleCompare, Sha256} (identity : SessionIdentity) (key : string) : string := operationOf identity EXPORT key.

Lemma perm_keyed {A} (f : A -> Z) (l k : list A) : l ≡ₚ k -> NoDup (map f k) -> map f l = map f k -> l = k.
Proof.
  intros Hp Hn Hm. apply list_eq. intros i. assert (Hi : f <$> (l !! i) = f <$> (k !! i)) by (by rewrite <- !list_lookup_fmap; apply (f_equal (.!! i)) in Hm).
  destruct (l !! i) as [x|] eqn:Ex, (k !! i) as [y|] eqn:Ey; try done. f_equal. injection Hi as Hi.
  apply (NoDup_map_inj f k x y Hn); [|by eapply list_elem_of_lookup_2|done]. rewrite <- Hp. by eapply list_elem_of_lookup_2.
Qed.

Section Properties.
Context `{Coll : Collation, LC : LocaleCompare, SH : Sha256}.

(** C3: Along any sequence of requests to time cards, payroll, its exports and
    their reconciliation, in any environment and whether or not the answers
    arrived, every export batch belongs to a locked period that pays its cards
    exactly; its lines copy the entries of the period one by one and in order,
    its count and total are theirs, its content hash is that of a file of these
    lines; its own row of the ledger paid for it; and no other batch has its
    period or its ledger row: a period is exported, and charged, once. *)
Theorem exports_copy_periods db db' b :
  rtc settleStep db db' -> payrollSound db -> exportSound db -> b ∈ et_batches (db_exports db') ->
  (exists p, p ∈ db_periods db' /\ py_id p = xb_periodId b /\ py_tenantId p = xb_tenantId b /\ py_status p = "LOCKED" /\ PaidInFull db' p /\
     Forall2 (snapshotOf b) (entriesOf db' p) (batchLines db' b) /\
     xb_rowCount b = Z.of_nat (length (entriesOf db' p)) /\ xb_totalPayableMinutes b = payTotal (entriesOf db' p)) /\
  (exists lines csv, Forall2 (writtenAs b) (batchLines db' b) lines /\ buildPayrollCsv lines = Ok csv /\
     xb_contentSha256 b = payrollContentSha256 csv) /\
  paidFor db' b /\
  forall b', b' ∈ et_batches (db_exports db') ->
    xb_periodId b' = xb_periodId b \/ xb_creditTransactionId b' = xb_creditTransactionId b -> b' = b.
Proof.
  intros Hr Hp Hx Hb. destruct (settles_sound _ _ Hr Hp Hx) as [[Hp' Hx'] _].
  destruct (ex_batches _ Hx' b Hb) as [(p & Hin & Hi & Ht & Hl & Hs & Hn & Hm) Hw Hpaid _].
  split; [exists p; split_and!; try done; by apply (ok_paid _ Hp')|]. split; [done|]. split; [done|].
  intros b' Hb' [E|E].
  - by apply (NoDup_map_inj xb_periodId _ b' b (ke_periods _ (ex_keys _ Hx'))).
  - assert (Hid : forall c, paidFor db' c -> xb_creditTransactionId c = creditTransactionOf (xb_operationId c)).
    { intros c. unfold paidFor, provenanceHolds. intros Hc. apply andb_true_iff in Hc as [Hc _]. by apply bool_decide_eq_true in Hc. }
    apply (NoDup_map_inj xb_operationId _ b' b (ke_operations _ (ex_keys _ Hx'))); [done..|].
    rewrite (Hid b Hpaid), (Hid b' (bs_paid _ _ (ex_batches _ Hx' b' Hb'))) in E. unfold creditTransactionOf in E. by apply (inj (String.append _)) in E.
Qed.

(** C7: Along any such sequence a batch is generated, downloaded, in
    reconciliation and reconciled in this order, each with the times that go
    with it; receipts, which come only after a download, count the events they
    brought; every event is about a line of the batch of its receipt; the state
    of a line is its latest event; and a reconciled batch has every line
    accepted, its last receipt reporting exactly its total. *)
Theorem reconciliation_sound db db' :
  rtc settleStep db db' -> payrollSound db -> exportSound db ->
  (forall b, b ∈ et_batches (db_exports db') -> batchState db' b) /\
  (forall r, r ∈ et_receipts (db_exports db') -> receiptSound db' r) /\
  (forall e, e ∈ et_events (db_exports db') ->
     eventSound db' e /\ exists s, s ∈ et_states (db_exports db') /\ lineKey s = (xe_batchId e, xe_lineId e)) /\
  (forall s, s ∈ et_states (db_exports db') -> stateSound db' s) /\ NoDup (map lineKey (et_states (db_exports db'))).
Proof.
  intros Hr Hp Hx. destruct (settles_sound _ _ Hr Hp Hx) as [[Hp' Hx'] _]. destruct Hx' as [Hk Hb _ Hre He Hs Hc].
  split; [intros b Hin; apply (Hb b Hin)|]. split; [done|]. split; [by split; [apply He|apply Hc]|]. split; [done|apply Hk].
Qed.

(** C12: Along any such sequence exports are never rewritten: lines, receipts and
    events are only appended, the lines of a batch stay what they are, a batch
    keeps its identity, its content and what it cost and only moves forward, and
    once it is reconciled its row, its receipts and the states of its lines stay
    as they are. *)
Theorem export_history db db' : rtc settleStep db db' -> payrollSound db -> exportSound db -> exportGrows db db'.
Proof. intros Hr Hp Hx. by apply settles_sound. Qed.

(** An export that returned shows a batch of the period it names: the one
    this very request made before, unchanged and paid for, or a new one, made of
    the entries of the locked period after its count, total and hash were
    checked, for the price the request expected, taken from the wallet of the
    tenant or found already taken for this request, with one audit row. *)
Theorem createExport_exports `{Env, Process, AuthorityEnv, CommitEnv} identity publicPeriodId cost key w r w' :
  createExport identity publicPeriodId cost key w = (Ok r, w') ->
  exists text period idempotencyKey batch, requiredPublicId publicPeriodId "payroll_period" = Ok text /\
    period ∈ db_periods (w_db w) /\ py_tenantId period = trim (si_tenantId identity) /\ sameUuid (py_publicId period) text = true /\
    normalizeIdempotencyKey key = Ok idempotencyKey /\
    ExportCommitted (operationsIdentity identity) (py_id period) cost
      (requestOf identity EXPORT idempotencyKey (JObj [jText "periodId" (py_id period); jInt "expectedCreditCost" cost]))
      (w_db w) batch (w_db w') /\
    ShowsExport (trim (si_tenantId identity)) (w_db w') batch r.
Proof.
  intros Hr. destruct (createExport_outcome_Ok (w_db w) identity publicPeriodId cost key w _ w' eq_refl Hr) as [[_ [e [=]]]|(a & Hc & [[= ->]|[e [=]]])].
  exact Hc.
Qed.

(** C8: An export is made once: after one that returned, whatever else happens
    and in whatever environment, a request of the same person in the same tenant
    with the same key, for whatever period and price, changes nothing, takes no
    credit, and shows the same batch if it returns. *)
Theorem export_once `{Env, Process, AuthorityEnv, CommitEnv} identity publicPeriodId cost key idempotencyKey w r w' :
  payrollSound (w_db w) -> exportSound (w_db w) -> normalizeIdempotencyKey key = Ok idempotencyKey ->
  createExport identity publicPeriodId cost key w = (Ok r, w') ->
  exists b, ShowsExport (trim (si_tenantId identity)) (w_db w') b r /\
  forall (env2 : Env) (process2 : Process) (authority2 : AuthorityEnv) (commit2 : CommitEnv) identity2 publicPeriodId2 cost2 key2 w2 r2 w3,
    rtc settleStep (w_db w') (w_db w2) ->
    trim (si_tenantId identity2) = trim (si_tenantId identity) -> trim (si_sub identity2) = trim (si_sub identity) ->
    normalizeIdempotencyKey key2 = Ok idempotencyKey ->
    @createExport env2 process2 authority2 commit2 _ _ _ identity2 publicPeriodId2 cost2 key2 w2 = (r2, w3) ->
    w_db w3 = w_db w2 /\
    (forall response, r2 = Ok response -> exists b2, b2 ∈ et_batches (db_exports (w_db w2)) /\ batchAdvances b b2 /\
       ShowsExport (trim (si_tenantId identity)) (w_db w2) b2 response).
Proof.
  intros Hp Hx Hkey Hr. destruct (createExport_outcome_Ok (w_db w) identity publicPeriodId cost key w _ w' eq_refl Hr)
    as [[_ [e [=]]]|(a & (text & period & k & b & _ & _ & _ & _ & Hk & Hc & Hshow) & [[= <-]|[e [=]]])].
  rewrite Hkey in Hk. injection Hk as <-. exists b. split; [done|].
  assert (Hstep : settleStep (w_db w) (w_db w')).
  { pose proof (settle_create identity publicPeriodId cost key w) as Hst. by rewrite Hr in Hst. }
  intros env2 process2 authority2 commit2 identity2 pid2 cost2 key2 w2 r2 w3 Hrtc Ht Hsub Hkey2 Hr2.
  destruct (settles_sound _ _ (rtc_l _ _ _ _ Hstep Hrtc) Hp Hx) as [[Hp2 Hx2] _].
  destruct (settleStep_sound _ _ Hp Hx Hstep) as (Hp1 & Hx1 & _).
  destruct (settles_sound _ _ Hrtc Hp1 Hx1) as (_ & _ & Hg).
  assert (Hb : b ∈ et_batches (db_exports (w_db w')) /\ xb_operationId b = exportOperation identity idempotencyKey).
  { inversion Hc as [? Hin Hop _ _ _ _|? p maps entries news csv ? Hcr]; subst; [by split|].
    destruct (created_tables _ _ _ _ _ _ _ _ _ _ _ _ Hcr) as (-> & _). split; [set_solver|].
    by destruct (xc_batch _ _ _ _ _ _ _ _ _ _ _ _ Hcr) as (? & ? & ? & ? & ? & -> & _). }
  destruct Hb as [Hb Hop]. destruct (eg_batches _ _ Hg b Hb) as (b2 & Hb2 & Ha).
  assert (Hop2 : xb_operationId b2 = exportOperation identity idempotencyKey) by (destruct (ba_same _ _ Ha) as [_ (_ & -> & _) _ _]; exact Hop).
  destruct (@createExport_outcome_Ok env2 process2 authority2 commit2 _ _ _ (w_db w2) identity2 pid2 cost2 key2 w2 _ w3 eq_refl Hr2)
    as [[E [e ->]]|(a & (text2 & period2 & k2 & c & _ & _ & _ & _ & Hk2 & Hc2 & Hshow2) & Ho)]; [by split|].
  rewrite Hkey2 in Hk2. injection Hk2 as <-. rewrite Ht in Hshow2.
  assert (Heq : (requestOf identity2 EXPORT idempotencyKey (JObj [jText "periodId" (py_id period2); jInt "expectedCreditCost" cost2])).1
    = exportOperation identity idempotencyKey).
  { unfold requestOf, exportOperation, operationOf, requestOf. by rewrite Ht, Hsub. }
  inversion Hc2 as [c0 Hcin Hcop _ _ _ _|db3 p maps entries news csv c0 Hcr]; subst.
  - split; [done|]. intros response ->. exists b2. split; [done|]. split; [done|].
    rewrite <- (NoDup_map_inj xb_operationId _ c b2 (ke_operations _ (ex_keys _ Hx2)) Hcin Hb2 ltac:(congruence)).
    by destruct Ho as [[= ->]|[e [=]]].
  - exfalso. destruct (xc_first _ _ _ _ _ _ _ _ _ _ _ _ Hcr b2 Hb2) as [Hne _]. apply Hne. congruence.
Qed.

(** The cells of a line whose times are stored ones. *)
Lemma csvCells_stored id n ty source employee location zone t1 t2 bm pm cells :
  csvCells (mkCsvLine id n ty source employee location zone (DDate (Some t1)) (DDate (Some t2)) bm pm) = Ok cells ->
  cells = [id; ty; source; employee; default "" location; zone; toISOString t1; toISOString t2; showZ bm; showZ pm].
Proof.
  unfold csvCells, unsignedIntegerCell, signedIntegerCell. cbn. intros Hr. destruct (_ || _); [done|]. cbn in Hr.
  destruct (negb _); [done|]. by injection Hr as <-.
Qed.

(** What the maps of the database write a line with. *)
Lemma requireMapped_names {R} (tenantOf idOf publicOf : R -> string) tenantId rows m id what publicId :
  named tenantOf idOf publicOf tenantId rows m -> requireMapped m id what = Ok publicId -> namesRow tenantOf idOf publicOf tenantId rows id publicId.
Proof.
  unfold requireMapped, payrollRefused. intros Hm. destruct (mapGet _ _) as [pid|] eqn:Eg; [|done]. destruct (isEmpty pid); [done|].
  intros [= ->]. by apply Hm.
Qed.

Lemma storedLine_names db tenantId maps l line :
  mapsOf tenantId db maps -> storedLine maps l = Ok line ->
  exists source employee location,
    publicNames db tenantId (xl_sourceType l) (xl_sourceId l) (xl_employeeId l) (xl_locationId l) source employee location /\
    line = mkCsvLine (xl_publicId l) (xl_lineNumber l) (xl_sourceType l) source employee location (xl_workTimeZone l)
      (DDate (Some (xl_clockInAt l))) (DDate (Some (xl_clockOutAt l))) (xl_breakMinutes l) (xl_payableMinutes l).
Proof.
  intros [Hu Hl Ht Ha] (source & Hs & Hr)%Result_bind_Ok. apply Result_bind_Ok in Hr as (employee & He & Hr).
  apply Result_bind_Ok in Hr as (location & Ho & [= <-]). exists source, employee, location. split; [|done]. split.
  - unfold publicSource in Hs. case_bool_decide; by eapply requireMapped_names.
  - by eapply requireMapped_names.
  - unfold publicLocation in Ho. destruct (truthy _) as [id|]; [|by injection Ho as <-].
    apply Result_fmap_Ok in Ho as (pid & Ho & ->). by eapply requireMapped_names.
Qed.

(** The lines that were verified write the entries, in order. *)
Lemma evidence_pays db b p content sha maps encoding lines :
  payrollSound db -> p ∈ db_periods db -> isLocked p -> Forall2 (snapshotOf b) (entriesOf db p) (batchLines db b) ->
  Evidence (xb_tenantId b) db b content sha maps encoding lines ->
  Forall2 (fun e line => cl_lineNumber line = pe_sequence e + 1 /\ forall cells, csvCells line = Ok cells -> paysCells db b e cells) (entriesOf db p) lines /\
  map cl_lineNumber lines = map (fun i => Z.of_nat i + 1) (seq 0 (length lines)).
Proof.
  intros Hs Hp Hl Hsnap [Hmaps _ Hf _ _ _ _]. change (linesOfBatch db (xb_tenantId b) (xb_id b)) with (batchLines db b) in Hf.
  pose proof (pf_totals _ _ (ok_paid _ Hs p Hp Hl)) as (_ & _ & Hseq).
  assert (Hpay : Forall2 (fun e line => cl_lineNumber line = pe_sequence e + 1 /\ forall cells, csvCells line = Ok cells -> paysCells db b e cells)
    (entriesOf db p) lines).
  { apply Forall2_same_length_lookup_2; [by rewrite (Forall2_length _ _ _ Hsnap), (Forall2_length _ _ _ Hf)|].
    intros i e line He Hi. destruct (Forall2_lookup_l _ _ _ _ _ Hsnap He) as (l & Hli & Hsn).
    destruct (Forall2_lookup_l _ _ _ _ _ Hf Hli) as (line2 & Hi2 & Hst). rewrite Hi in Hi2. injection Hi2 as <-.
    destruct Hsn as [Hn (Hent & _) (Hty & Hsi) (Hemp & Hlo & Hz) (Hin & Hout) (Hbm & Hpm)].
    apply (storedLine_names db (xb_tenantId b)) in Hst as (source & employee & location & Hnames & ->); [|done].
    rewrite Hty, Hsi, Hemp, Hlo in Hnames. split; [done|]. intros cells Hc. exists l, source, employee, location.
    split; [by eapply list_elem_of_lookup_2|]. split; [done|]. split; [done|].
    apply csvCells_stored in Hc as ->. cbn. congruence. }
  split; [done|]. pose proof (Forall2_length _ _ _ Hpay) as Hlen.
  assert (Hnum : map cl_lineNumber lines = map (fun e => pe_sequence e + 1) (entriesOf db p)).
  { clear -Hpay. induction Hpay as [|e line entries lines [He _] _ IH]; [done|]. cbn. by rewrite IH, He. }
  rewrite Hnum, <- Hlen. rewrite <- (map_map pe_sequence (fun n => n + 1)), Hseq, map_map. done.
Qed.

Lemma entry_numbers_NoDup n : NoDup (map (fun i => Z.of_nat i + 1) (seq 0 n)).
Proof. apply NoDup_fmap_2; [intros i j E; lia|apply NoDup_seq]. Qed.

(** C11: The file of a downloaded export says exactly what the locked period
    pays: it is of the batch the request names, and after the header a reader of
    quoted comma-separated rows gets one row per entry of the period, in the
    order of the entries, with the public identifiers of the line, of the time
    card or amendment, of the employee and of the location, if there is one, the
    kind, the time zone, the two times and the minutes; the name of the file is
    the period's first day and the batch. *)
Theorem download_reads_back `{Env, AuthorityEnv, CommitEnv} identity publicExportId w file w' :
  payrollSound (w_db w) -> exportSound (w_db w) -> downloadExport identity publicExportId w = (Ok file, w') ->
  exists text b p body rows, requiredPublicId publicExportId "payroll_export" = Ok text /\
    b ∈ et_batches (db_exports (w_db w)) /\ xb_tenantId b = trim (si_tenantId identity) /\ sameUuid (xb_publicId b) text = true /\
    p ∈ db_periods (w_db w) /\ py_id p = xb_periodId b /\ file.1 = fileName p b /\
    file.2 = csvHeader +:+ String newline body /\ readCsv body = Some rows /\
    Forall2 (paysCells (w_db w) b) (entriesOf (w_db w) p) rows.
Proof.
  intros Hs Hx Hr.
  destruct (downloadExport_outcome_Ok (w_db w) identity publicExportId (ke_batches _ (ex_keys _ Hx)) w _ w' eq_refl Hr)
    as [[_ [e [=]]]|(a & (text & b & Htext & Hd) & [[= <-]|[e [=]]])].
  destruct Hd as [(Hb & Ht & Hu) _ (q & Hq & Hqi & Hqt & Hname) (sha & maps & encoding & lines & Hev) _].
  destruct (bs_period _ _ (ex_batches _ Hx b Hb)) as (p & Hp & Hi & Hpt & Hl & Hsnap & _). rewrite <- Ht in Hev.
  assert (q = p) as -> by (eapply period_same; [apply (sound_keyed _ Hs)|done..|congruence]).
  destruct (evidence_pays _ _ _ _ _ _ _ _ Hs Hp Hl Hsnap Hev) as [Hpay Hnum].
  destruct (ev_content _ _ _ _ _ _ _ _ Hev) as [Hcsv _]. apply buildPayrollCsv_reads_back in Hcsv as (ordered & body & rows & Hperm & Hon & Htext' & Hread & Hcells).
  assert (ordered = lines) as ->.
  { apply (perm_keyed cl_lineNumber); [done| |congruence]. rewrite Hnum. apply entry_numbers_NoDup. }
  exists text, b, p, body, rows. split_and!; try done. clear -Hpay Hcells. revert rows Hcells.
  induction Hpay as [|e line entries lines [_ He] _ IH]; intros rows Hc; inversion Hc; subst; constructor; [by apply He|by apply IH].
Qed.

(** C39: A download checks what it gives out: when the ledger row of the batch,
    the number of its lines or their total is not what the batch says, or the
    stored hash of one of its lines is not that of the line with the public
    identifiers the database gives, the request is refused and changes
    nothing. *)
Theorem download_refuses `{Env, AuthorityEnv, CommitEnv} identity publicExportId w r w' :
  NoDup (map xb_id (et_batches (db_exports (w_db w)))) -> downloadExport identity publicExportId w = (r, w') ->
  (forall b text, b ∈ et_batches (db_exports (w_db w)) -> xb_tenantId b = trim (si_tenantId identity) ->
     requiredPublicId publicExportId "payroll_export" = Ok text -> sameUuid (xb_publicId b) text = true -> tampered (w_db w) b) ->
  w_db w' = w_db w /\ exists e, r = Throw e.
Proof.
  intros Hk Hr Hbad. destruct (downloadExport_outcome_Ok (w_db w) identity publicExportId Hk w _ w' eq_refl Hr)
    as [?|(a & (text & b & Htext & Hd) & _)]; [done|exfalso].
  destruct Hd as [(Hb & Ht & Hu) Hpaid _ (sha & maps & encoding & lines & Hev) _]. rewrite <- Ht in Hev.
  destruct (Hbad b text Hb Ht Htext Hu) as [Hno|[Hno|[Hno|(l & Hl & Hno)]]].
  - done.
  - apply Hno, (ev_count _ _ _ _ _ _ _ _ Hev).
  - apply Hno, (ev_total _ _ _ _ _ _ _ _ Hev).
  - apply list_elem_of_lookup_1 in Hl as [i Hi]. destruct (Forall2_lookup_l _ _ _ _ _ (ev_lines _ _ _ _ _ _ _ _ Hev) Hi) as (line & Hi1 & Hst).
    destruct (Forall2_lookup_l _ _ _ _ _ (ev_hashes _ _ _ _ _ _ _ _ Hev) Hi) as (line2 & Hi2 & Hh).
    rewrite Hi1 in Hi2. injection Hi2 as <-. exact (Hno maps line encoding (ev_maps _ _ _ _ _ _ _ _ Hev) Hst Hh).
Qed.

(** A report that returned answers with a receipt of the provider's event
    for this batch: the one this very report left before, nothing changed, or a
    new one of a downloaded batch that is not yet reconciled, with one event for
    each line named, all of them lines of the batch, the state of each of them
    restated, and the batch in reconciliation, or reconciled exactly when every
    line is accepted at its total. *)
Theorem reconcileExport_records `{Env, AuthorityEnv, CommitEnv} identity publicExportId body w r w' :
  exportSound (w_db w) -> reconcileExport identity publicExportId body w = (Ok r, w') ->
  exists text batch public sha receipt, requiredPublicId publicExportId "payroll_export" = Ok text /\
    batch ∈ et_batches (db_exports (w_db w)) /\ xb_tenantId batch = trim (si_tenantId identity) /\ sameUuid (xb_publicId batch) text = true /\
    normalizeReconciliation body = Ok public /\
    ReportCommitted (operationsIdentity identity) (xb_id batch) public sha (w_db w) receipt (w_db w') /\ ShowsReceipt receipt r.
Proof.
  intros Hx Hr. destruct (reconcileExport_outcome_Ok (w_db w) identity publicExportId body (ke_batches _ (ex_keys _ Hx)) w _ w' eq_refl Hr)
    as [[_ [e [=]]]|(a & Hc & [[= ->]|[e [=]]])]. exact Hc.
Qed.

(** The receipt a report left has the key of its event. *)
Lemma report_key identity exportId public sha db receipt db' :
  ReportCommitted identity exportId public sha db receipt db' ->
  receipt ∈ et_receipts (db_exports db') /\ receiptKey (si_tenantId identity) (rc_provider public) (rc_providerEventId public) receipt = true.
Proof.
  intros [rc Hin _ _ Hk|db2 batch payload rc Hrr]; [done|].
  destruct (received_tables _ _ _ _ _ _ _ _ _ Hrr) as (events & ids & bs & _ & _ & _ & -> & _).
  destruct Hrr as [_ _ [(E1 & E2 & _) _] [(i & j & t & ->) _] _]. split; [set_solver|]. unfold receiptKey, receiptRow. cbn. rewrite E1, E2.
  by rewrite !bool_decide_true.
Qed.

(** A provider's event is received once: after a report that returned,
    whatever else happens and in whatever environment, a report of the same
    event changes nothing, and answers with the same receipt if it returns. *)
Theorem report_once `{Env, AuthorityEnv, CommitEnv} identity publicExportId body public w r w' :
  payrollSound (w_db w) -> exportSound (w_db w) -> normalizeReconciliation body = Ok public ->
  reconcileExport identity publicExportId body w = (Ok r, w') ->
  exists receipt, ShowsReceipt receipt r /\
  forall (env2 : Env) (authority2 : AuthorityEnv) (commit2 : CommitEnv) identity2 publicExportId2 body2 public2 w2 r2 w3,
    rtc settleStep (w_db w') (w_db w2) -> trim (si_tenantId identity2) = trim (si_tenantId identity) ->
    normalizeReconciliation body2 = Ok public2 ->
    rc_provider public2 = rc_provider public -> rc_providerEventId public2 = rc_providerEventId public ->
    @reconcileExport env2 authority2 commit2 _ _ identity2 publicExportId2 body2 w2 = (r2, w3) ->
    w_db w3 = w_db w2 /\ (forall response, r2 = Ok response -> ShowsReceipt receipt response).
Proof.
  intros Hp Hx Hn Hr. destruct (reconcileExport_outcome_Ok (w_db w) identity publicExportId body (ke_batches _ (ex_keys _ Hx)) w _ w' eq_refl Hr)
    as [[_ [e [=]]]|(a & (text & batch & pub & sha & receipt & _ & _ & _ & _ & Hn' & Hc & Hshow) & [[= <-]|[e [=]]])].
  rewrite Hn in Hn'. injection Hn' as <-. exists receipt. split; [done|].
  assert (Hstep : settleStep (w_db w) (w_db w')).
  { pose proof (settle_reconcile identity publicExportId body w) as Hst. by rewrite Hr in Hst. }
  destruct (settleStep_sound _ _ Hp Hx Hstep) as (Hp1 & Hx1 & _).
  assert (Hrec : receipt ∈ et_receipts (db_exports (w_db w')) /\
    receiptKey (trim (si_tenantId identity)) (rc_provider public) (rc_providerEventId public) receipt = true).
  { exact (report_key _ _ _ _ _ _ _ Hc). }
  destruct Hrec as [Hrec Hkey].
  intros env2 authority2 commit2 identity2 pid2 body2 public2 w2 r2 w3 Hrtc Ht Hn2 Ep Ee Hr2.
  destruct (settles_sound _ _ Hrtc Hp1 Hx1) as ([Hp2 Hx2] & _ & Hg).
  pose proof (prefix_elem _ _ _ (eg_receipts _ _ Hg) Hrec) as Hrec2.
  destruct (@reconcileExport_outcome_Ok env2 authority2 commit2 _ _ (w_db w2) identity2 pid2 body2 (ke_batches _ (ex_keys _ Hx2)) w2 _ w3 eq_refl Hr2)
    as [[E [e ->]]|(a & (text2 & batch2 & pub2 & sha2 & rc2 & _ & _ & _ & _ & Hn3 & Hc2 & Hshow2) & Ho)]; [by split|].
  rewrite Hn2 in Hn3. injection Hn3 as <-. inversion Hc2 as [rc Hin _ _ Hk2|db3 b3 payload rc Hrr]; subst.
  - split; [done|]. intros response ->. destruct Ho as [[= ->]|[e [=]]]. cbn in Hk2. rewrite Ht, Ep, Ee in Hk2.
    rewrite <- (NoDup_map_inj receiptKeyOf _ rc2 receipt (ke_receipts _ (ex_keys _ Hx2)) Hin Hrec2); [done|].
    unfold receiptKey in Hk2, Hkey. unfold receiptKeyOf. bools. destruct Hk2 as [[? ?] ?], Hkey as [[? ?] ?]. congruence.
  - exfalso. pose proof (rr_first _ _ _ _ _ _ _ _ _ Hrr receipt Hrec2) as Hf. destruct (rr_payload _ _ _ _ _ _ _ _ _ Hrr) as [(E1 & E2 & _) _].
    cbn in Hf. rewrite Ht, E1, E2, Ep, Ee in Hf. congruence.
Qed.
End Properties.

(** ** Concrete instances *)

(** The paid week of PayrollOutcomes is exported for a credit, downloaded, and
    accepted by the provider. *)
#[local] Notation asManager := (actingAs timeManager).
#[local] Notation coll := codeUnitCollation.

#[local] Notation exportRun := (@createExport (calmUuid weekEnds) noBeta asManager acknowledged coll coll sampleDigest timeManager
  periodId 1 (Some "export") (mkWorld paidDb 900)).
Definition exportedDb : Db := Eval vm_compute in w_db exportRun.2.
Definition exportAnswer : Json := Eval vm_compute in okOr JNull exportRun.1.
Definition exportId : string := Eval vm_compute in default "" (xb_publicId <$> head (et_batches (db_exports exportedDb))).
Definition exportLine : string := Eval vm_compute in default "" (xl_publicId <$> head (et_lines (db_exports exportedDb))).

#[local] Notation downloadRun := (@downloadExport (calmUuid weekEnds) asManager acknowledged coll coll sampleDigest timeManager exportId
  (mkWorld exportedDb 1000)).
Definition downloadedDb : Db := Eval vm_compute in w_db downloadRun.2.
Definition exportFile : string * string := Eval vm_compute in okOr ("", "") downloadRun.1.

Definition acceptance : ReconciliationPayload := mkReconciliation "provider" "event-1" 450 [mkOutcome exportLine ACCEPTED None].
#[local] Notation reportRun := (@reconcileExport (calmUuid weekEnds) asManager acknowledged coll sampleDigest timeManager exportId acceptance
  (mkWorld downloadedDb 1100)).
Definition reportedDb : Db := Eval vm_compute in w_db reportRun.2.
Definition reportAnswer : Json := Eval vm_compute in okOr JNull reportRun.1.

#[local] Notation step := (@settleStep coll coll sampleDigest).
#[local] Notation sound := (@payrollSound coll sampleDigest).
#[local] Notation settled := (@exportSound coll coll sampleDigest).

Lemma export_step : step paidDb exportedDb.
Proof.
  replace exportedDb with (w_db exportRun.2) by (vm_compute; reflexivity).
  exact (@settle_create _ _ _ _ _ _ _ _ _ _ _ (mkWorld paidDb 900)).
Qed.
Lemma download_step : step exportedDb downloadedDb.
Proof.
  replace downloadedDb with (w_db downloadRun.2) by (vm_compute; reflexivity).
  exact (@settle_download _ _ _ _ _ _ _ _ (mkWorld exportedDb 1000)).
Qed.
Lemma report_step : step downloadedDb reportedDb.
Proof.
  replace reportedDb with (w_db reportRun.2) by (vm_compute; reflexivity).
  exact (@settle_reconcile _ _ _ _ _ _ _ _ _ (mkWorld downloadedDb 1100)).
Qed.

Lemma paid_sound : sound paidDb.
Proof. apply (steps_sound _ _ to_paid), staffDb_sound. Qed.

Lemma paid_settled : settled paidDb.
Proof. split; [split; constructor|..]; by intros ? ?%elem_of_nil. Qed.

Lemma to_reported : rtc step paidDb reportedDb.
Proof. eapply rtc_l; [apply export_step|]. eapply rtc_l; [apply download_step|]. apply rtc_once, report_step. Qed.

Lemma exported_sound : sound exportedDb /\ settled exportedDb.
Proof. apply (settles_sound _ _ (rtc_once _ _ export_step) paid_sound paid_settled). Qed.
Lemma downloaded_settled : sound downloadedDb /\ settled downloadedDb.
Proof. apply (settles_sound _ _ (rtc_once _ _ download_step)); apply exported_sound. Qed.

Definition noBatch : PayrollExportBatch := mkExportBatch "" "" "" "" "" "" "" 0 GENERATED "" 0 0 0 0 0 None None 0.
Definition reportedBatch : PayrollExportBatch := Eval vm_compute in default noBatch (head (et_batches (db_exports reportedDb))).

Lemma exports_copy_periods_witness :
  (reportedBatch ∈ et_batches (db_exports reportedDb) /\ xb_status reportedBatch = RECONCILED /\ xb_totalPayableMinutes reportedBatch = 450) /\
  (exists p, p ∈ db_periods reportedDb /\ py_id p = xb_periodId reportedBatch /\ py_tenantId p = xb_tenantId reportedBatch /\ py_status p = "LOCKED" /\
     @PaidInFull coll sampleDigest reportedDb p /\
     Forall2 (snapshotOf reportedBatch) (entriesOf reportedDb p) (@batchLines coll reportedDb reportedBatch) /\
     xb_rowCount reportedBatch = Z.of_nat (length (entriesOf reportedDb p)) /\ xb_totalPayableMinutes reportedBatch = payTotal (entriesOf reportedDb p)) /\
  (exists lines csv, Forall2 (@writtenAs coll sampleDigest reportedBatch) (@batchLines coll reportedDb reportedBatch) lines /\ buildPayrollCsv lines = Ok csv /\
     xb_contentSha256 reportedBatch = @payrollContentSha256 sampleDigest csv) /\
  paidFor reportedDb reportedBatch /\
  forall b', b' ∈ et_batches (db_exports reportedDb) ->
    xb_periodId b' = xb_periodId reportedBatch \/ xb_creditTransactionId b' = xb_creditTransactionId reportedBatch -> b' = reportedBatch.
Proof.
  split; [split; [by left|split; reflexivity]|]. apply (exports_copy_periods paidDb reportedDb reportedBatch to_reported paid_sound paid_settled). by left.
Defined.

Lemma reconciliation_sound_witness :
  (length (et_receipts (db_exports reportedDb)) = 1%nat /\ length (et_states (db_exports reportedDb)) = 1%nat) /\
  (forall b, b ∈ et_batches (db_exports reportedDb) -> @batchState coll reportedDb b) /\
  (forall r, r ∈ et_receipts (db_exports reportedDb) -> receiptSound reportedDb r) /\
  (forall e, e ∈ et_events (db_exports reportedDb) ->
     eventSound reportedDb e /\ exists s, s ∈ et_states (db_exports reportedDb) /\ lineKey s = (xe_batchId e, xe_lineId e)) /\
  (forall s, s ∈ et_states (db_exports reportedDb) -> stateSound reportedDb s) /\ NoDup (map lineKey (et_states (db_exports reportedDb))).
Proof. split; [by split|]. apply (reconciliation_sound paidDb reportedDb to_reported paid_sound paid_settled). Defined.

Lemma export_history_witness : @exportGrows coll exportedDb reportedDb.
Proof.
  apply (@export_history coll coll sampleDigest exportedDb reportedDb); [|apply exported_sound..].
  eapply rtc_l; [apply download_step|]. apply rtc_once, report_step.
Defined.

Lemma createExport_exports_witness :
  exists text period idempotencyKey batch, requiredPublicId periodId "payroll_period" = Ok text /\
    period ∈ db_periods paidDb /\ py_tenantId period = "t1" /\ sameUuid (py_publicId period) text = true /\
    normalizeIdempotencyKey (Some "export") = Ok idempotencyKey /\
    @ExportCommitted coll coll sampleDigest (operationsIdentity timeManager) (py_id period) 1
      (@requestOf coll sampleDigest timeManager EXPORT idempotencyKey (JObj [jText "periodId" (py_id period); jInt "expectedCreditCost" 1]))
      paidDb batch exportedDb /\
    @ShowsExport coll coll sampleDigest "t1" exportedDb batch exportAnswer.
Proof.
  replace exportedDb with (w_db exportRun.2) by (vm_compute; reflexivity).
  apply (@createExport_exports coll coll sampleDigest (calmUuid weekEnds) noBeta asManager acknowledged timeManager periodId 1 (Some "export")
    (mkWorld paidDb 900) exportAnswer exportRun.2). vm_compute. reflexivity.
Defined.

Lemma export_once_witness :
  exists b, @ShowsExport coll coll sampleDigest "t1" exportedDb b exportAnswer /\
  forall (env2 : Env) (process2 : Process) (authority2 : AuthorityEnv) (commit2 : CommitEnv) identity2 publicPeriodId2 cost2 key2 w2 r2 w3,
    rtc step exportedDb (w_db w2) -> trim (si_tenantId identity2) = "t1" -> trim (si_sub identity2) = "u1" ->
    normalizeIdempotencyKey key2 = Ok "export" ->
    @createExport env2 process2 authority2 commit2 coll coll sampleDigest identity2 publicPeriodId2 cost2 key2 w2 = (r2, w3) ->
    w_db w3 = w_db w2 /\
    (forall response, r2 = Ok response -> exists b2, b2 ∈ et_batches (db_exports (w_db w2)) /\ batchAdvances b b2 /\
       @ShowsExport coll coll sampleDigest "t1" (w_db w2) b2 response).
Proof.
  replace exportedDb with (w_db exportRun.2) by (vm_compute; reflexivity).
  apply (@export_once coll coll sampleDigest (calmUuid weekEnds) noBeta asManager acknowledged timeManager periodId 1 (Some "export") "export"
    (mkWorld paidDb 900) exportAnswer exportRun.2); [exact paid_sound|exact paid_settled|reflexivity|vm_compute; reflexivity].
Defined.

Lemma download_reads_back_witness :
  exists text b p body rows, requiredPublicId exportId "payroll_export" = Ok text /\
    b ∈ et_batches (db_exports exportedDb) /\ xb_tenantId b = "t1" /\ sameUuid (xb_publicId b) text = true /\
    p ∈ db_periods exportedDb /\ py_id p = xb_periodId b /\ exportFile.1 = fileName p b /\
    exportFile.2 = csvHeader +:+ String newline body /\ readCsv body = Some rows /\
    Forall2 (@paysCells coll exportedDb b) (entriesOf exportedDb p) rows.
Proof.
  apply (@download_reads_back coll coll sampleDigest (calmUuid weekEnds) asManager acknowledged timeManager exportId
    (mkWorld exportedDb 1000) exportFile downloadRun.2); [apply exported_sound..|vm_compute; reflexivity].
Defined.

(** Someone adds an hour to the exported line. *)
Definition tamperedLine (l : PayrollExportLine) : PayrollExportLine :=
  mkExportLine (xl_id l) (xl_publicId l) (xl_tenantId l) (xl_batchId l) (xl_lineNumber l) (xl_lockedEntryId l) (xl_sourceType l) (xl_sourceId l)
    (xl_employeeId l) (xl_locationId l) (xl_workTimeZone l) (xl_clockInAt l) (xl_clockOutAt l) (xl_breakMinutes l) (xl_payableMinutes l + 60)
    (xl_canonicalSha256 l).
Definition tamperedDb : Db := Eval vm_compute in withRows (map tamperedLine (et_lines (db_exports exportedDb))) exportedDb.
#[local] Notation tamperedRun := (@downloadExport (calmUuid weekEnds) asManager acknowledged coll coll sampleDigest timeManager exportId
  (mkWorld tamperedDb 1000)).

(** Or has the exported hours paid to somebody else, the total left as it is. *)
Definition redirectedLine (l : PayrollExportLine) : PayrollExportLine :=
  mkExportLine (xl_id l) (xl_publicId l) (xl_tenantId l) (xl_batchId l) (xl_lineNumber l) (xl_lockedEntryId l) (xl_sourceType l) (xl_sourceId l)
    "u3" (xl_locationId l) (xl_workTimeZone l) (xl_clockInAt l) (xl_clockOutAt l) (xl_breakMinutes l) (xl_payableMinutes l) (xl_canonicalSha256 l).
Definition redirectedDb : Db := Eval vm_compute in
  withRows (map redirectedLine (et_lines (db_exports exportedDb)))
    (withRows (db_users exportedDb ++ [mkUser "u3" "somebody-else" "t1" "Else" "STAFF" None None None]) exportedDb).
Definition redirectedRow : PayrollExportLine := Eval vm_compute in default (mkExportLine "" "" "" "" 0 "" "" "" "" None "" 0 0 0 0 "") (head (et_lines (db_exports redirectedDb))).
#[local] Notation redirectedRun := (@downloadExport (calmUuid weekEnds) asManager acknowledged coll coll sampleDigest timeManager exportId
  (mkWorld redirectedDb 1000)).

Definition paidCard : string := Eval vm_compute in default "" (tc_publicId <$> head (db_timeCards redirectedDb)).

(** The maps of the database write the redirected line with the third person. *)
Lemma redirected_line maps line :
  mapsOf "t1" redirectedDb maps -> storedLine maps redirectedRow = Ok line ->
  line = mkCsvLine exportLine 1 "TIME_CARD" paidCard "somebody-else" (Some "pl1") "UTC"
    (DDate (Some 1767600000000)) (DDate (Some 1767628800000)) 30 450.
Proof.
  intros Hm Hs. destruct (storedLine_names _ _ _ _ _ Hm Hs) as (source & employee & location & [H1 H2 H3] & ->).
  destruct H1 as (c & ->%list_elem_of_singleton & _ & _ & <-), H2 as (u & Hu & _ & Hi & <-), location as [location|]; [|done].
  destruct H3 as (lo & ->%list_elem_of_singleton & _ & _ & <-).
  apply elem_of_cons in Hu as [->|[->| ->%list_elem_of_singleton]%elem_of_cons]; [done|done|reflexivity].
Qed.

Lemma download_refuses_witness :
  (problemCode (match tamperedRun.1 with Throw e => e | Ok _ => JsError "" end) = Some "payroll_export_integrity_failed" /\
   w_db tamperedRun.2 = tamperedDb /\ exists e, tamperedRun.1 = Throw e) /\
  problemCode (match redirectedRun.1 with Throw e => e | Ok _ => JsError "" end) = Some "payroll_export_integrity_failed" /\
  w_db redirectedRun.2 = redirectedDb /\ exists e, redirectedRun.1 = Throw e.
Proof.
  split; (split; [vm_compute; reflexivity|]).
  - apply (@download_refuses coll coll sampleDigest (calmUuid weekEnds) asManager acknowledged timeManager exportId
      (mkWorld tamperedDb 1000) tamperedRun.1 tamperedRun.2); [repeat constructor; by intros ?%elem_of_nil|apply surjective_pairing|].
    intros b text ->%list_elem_of_singleton _ _ _. right. right. left. vm_compute. discriminate.
  - apply (@download_refuses coll coll sampleDigest (calmUuid weekEnds) asManager acknowledged timeManager exportId
      (mkWorld redirectedDb 1000) redirectedRun.1 redirectedRun.2); [repeat constructor; by intros ?%elem_of_nil|apply surjective_pairing|].
    intros b text ->%list_elem_of_singleton _ _ _. right. right. right.
    exists redirectedRow. split; [by left|]. intros maps line encoding Hm ->%redirected_line; [|done].
    destruct encoding; vm_compute; discriminate.
Defined.

Lemma reconcileExport_records_witness :
  exists text batch public sha receipt, requiredPublicId exportId "payroll_export" = Ok text /\
    batch ∈ et_batches (db_exports downloadedDb) /\ xb_tenantId batch = "t1" /\ sameUuid (xb_publicId batch) text = true /\
    normalizeReconciliation acceptance = Ok public /\
    @ReportCommitted coll sampleDigest (operationsIdentity timeManager) (xb_id batch) public sha downloadedDb receipt reportedDb /\
    ShowsReceipt receipt reportAnswer.
Proof.
  replace reportedDb with (w_db reportRun.2) by (vm_compute; reflexivity).
  apply (@reconcileExport_records coll coll sampleDigest (calmUuid weekEnds) asManager acknowledged timeManager exportId acceptance
    (mkWorld downloadedDb 1100) reportAnswer reportRun.2); [apply downloaded_settled|vm_compute; reflexivity].
Defined.

Lemma report_once_witness :
  exists receipt, ShowsReceipt receipt reportAnswer /\
  forall (env2 : Env) (authority2 : AuthorityEnv) (commit2 : CommitEnv) identity2 publicExportId2 body2 public2 w2 r2 w3,
    rtc step reportedDb (w_db w2) -> trim (si_tenantId identity2) = "t1" -> normalizeReconciliation body2 = Ok public2 ->
    rc_provider public2 = "provider" -> rc_providerEventId public2 = "event-1" ->
    @reconcileExport env2 authority2 commit2 coll sampleDigest identity2 publicExportId2 body2 w2 = (r2, w3) ->
    w_db w3 = w_db w2 /\ (forall response, r2 = Ok response -> ShowsReceipt receipt response).
Proof.
  replace reportedDb with (w_db reportRun.2) by (vm_compute; reflexivity).
  apply (@report_once coll coll sampleDigest (calmUuid weekEnds) asManager acknowledged timeManager exportId acceptance acceptance
    (mkWorld downloadedDb 1100) reportAnswer reportRun.2); [apply downloaded_settled..|vm_compute; reflexivity|vm_compute; reflexivity].
Defined.
